(* ===== verification/_CoqProject ===== *)
-Q . S2P
Prelude.v
Protocol.v
Bus.v
Dispatch.v
Loader.v
Favorites.v
DataCenter.v
Rearrange.v
DataCenterEvents.v
Merge.v
PlugInModule.v
Md5.v
CrcHash.v
Memory.v
Strings.v
MiscHelper.v
TimeHelper.v
FilePath.v
FileSystem.v
Disk.v
PathHelper.v
PathWalk.v
PathRemove.v
TxConfig.v
X86.v
Aes.v
SogouCipher.v
SogouAes.v
SogouDecoder.v
Md5Context.v
Json.v
JsonReader.v
JsonWriter.v
JsonRoundtrip.v
Utf8.v
Chrome.v
ChromeExport.v
ChromeImport.v
IEPlugIn.v
IEExport.v
IEImport.v
IEExample.v
Sqlite.v
SqlPlugIn.v
SqlText.v
SqlTables.v
SqlProofs.v
SqlDb.v
Maxthon.v
TTPlugIn.v
ChromeTree.v
ChromeRoundtrip.v
Base64.v
MimeTypes.v
Transfer.v
Url.v
HttpRequest.v
TransferProofs.v
Run.v
Sockets.v
SockProxy.v
HttpClient.v
Task.v
Worker.v
ClientProofs.v
TaskProofs.v
HttpResponse.v
WorkerProofs.v
WorkerSteps.v
WorkerSafety.v
WorkerExample.v
Web.v
WebSafety.v
WebLive.v
