(* ===== verification/Prelude.v ===== *)
(** * URL Traveler: a verification development

    URL Traveler is a Windows desktop program, in C++, that collects the
    favorites (bookmarks) of all browsers of a machine, merges them, shows them
    and writes them back.  This library models its core and proves what makes
    it correct.

    ** The program and the files that model it

    The program is a set of DLLs ("modules") around a bus.  Modules never call
    each other directly: they push events (to one module) and messages (to all),
    and call services, through the module manager, which drains its queue once per
    cycle of the main loop.  Paths are relative to the repository's src/ and
    include/ directories.

    - Prelude (this file): machine integers, faults, the [outcome] monad, loops,
      the contract of [std::sort], shared lemmas, tactics and hint databases.
    - Protocol: include/UrlTravelerHeader.h; module identifiers, the ranges that
      give every module its own events, messages and services, and the structures
      that travel on the bus.
    - Bus: ModuleManager/ModuleManagerImpl; the circular buffer, the vectors
      shared with other threads, the four Push operations, [CallService],
      [OnCycleTrigger].  The modules are a class of handlers ([IModuleTable]);
      what the bus relies on is the class [ClientModules]: a handler touches the
      bus only through its interface.
    - Dispatch: include/Module.h; the handler tables of a module and their scan.
    - Loader: include/ModuleImpl.h and [LoadModules], [Destroy] of the module
      manager; the DLLs are the environment [DllEnv].
    - Favorites: include/DataCenterDefine.h; the favorite record, vectors of
      pointers to records, and the memory they share.
    - DataCenter, Rearrange, DataCenterEvents: DataCenter/DataCenterModule.cpp;
      the handlers and services that add, delete, renumber, count and clear
      favorites (definitions in DataCenter, theorems in all three).
    - Merge, PlugInModule: PlugIn/PlugInModule.cpp and include/PlugIn.h; the
      merging of equal favorites, loading and checking plug-ins, and the export
      and import threads.  A browser plug-in is an instance of the class [IPlugIn].
    - Md5, CrcHash: Utility/MD5Checksum.cpp and Utility/CRCHash.cpp.
    - Memory: byte buffers with bounded access, for the two binary formats below.
    - Strings: the parts of Utility/XString.cpp and Utility/StringHelper.cpp
      that the other components use.
    - MiscHelper: the computing helpers of Utility/MiscHelper.cpp.
    - TimeHelper, FilePath: Utility/TimeHelper.cpp and Utility/FilePath.cpp; times as
      text, and paths taken apart.
    - FileSystem, Disk: the file calls of Windows as the class [FileSystem], what the
      program relies on as [FileSystemLaws], and a tree of files in memory that is an
      instance of both.
    - PathHelper, PathWalk, PathRemove: Utility/PathHelper.cpp; creating, walking and
      removing directories over that interface.
    - TxConfig: Utility/TxConfig.cpp and the settings kept in the file.
    - X86, SogouCipher, Aes, SogouAes, SogouDecoder: the database cipher of
      PlugIn/SogouPlugIn/Decoder.cpp; an interpreter of the x86 instructions its
      inline assembly uses, the assembly and its tables, the AES-128 standard,
      their equivalence, and the page loops of [decode] and [encode].
    - Md5Context: Utility/md5/md5.cc, the second MD5 of the repository, which the
      Chrome plug-in uses for the checksum of its file.
    - Json, JsonReader, JsonWriter, JsonRoundtrip: Utility/json; values, the
      reader with its error recovery, the styled stream writer with its state,
      and their round trip.
    - Utf8: Utility/icu/icu_utf.cc and the check of strings that uses it.
    - Chrome, ChromeExport, ChromeImport, ChromeTree, ChromeRoundtrip:
      PlugIn/ChromePlugIn/ChromePlugIn.cpp; reading a bookmark file into favorite
      records and writing one from them.  ChromeTree has the forest that a vector
      of records stands for and what the passes of the import compute of it.
    - IEPlugIn, IEExport, IEImport, IEExample: PlugIn/IEPlugIn/IEPlugIn.cpp; reading the
      folder of shortcuts through the Windows shell, whose answers are the record
      [Shell], and writing a directory of shortcut files over [FileSystem].  IEExample
      runs both on a [Disk].
    - Sqlite: Utility/CppSQLite3/CppSQLite3.cpp over the class [Sqlite] of the library's
      calls; [SqliteLaws] says what statements of a small SQL grammar, given by a lexer and
      a parser, do to the tables, and [CodePage] has the conversions to UTF-8 and back.
    - SqlPlugIn, SqlText, SqlTables, SqlProofs, SqlDb: PlugIn/360SE/360SE3PlugIn.cpp and
      PlugIn/SogouPlugIn/SogouPlugIn.cpp; favorites as rows of a table.  SqlText has the text
      of the statements, SqlTables what a loop of them does to a table, SqlDb a database in
      memory and UTF-8 as instances of the classes.
    - Maxthon: PlugIn/MaxthonPlugIn/Maxthon2PlugIn.cpp; its export and renumbering.
    - TTPlugIn: PlugIn/QQPlugIn/TTPlugIn.cpp; its export and count, one query per folder.
    - MimeTypes, Transfer, TransferProofs: Utility/HttpClient, httpmanager.cpp; the
      table of MIME types, the arguments of POST requests, the checks of a task and the
      task array of the worker.  The class [TransferManager] is what the program uses
      of the library, [TransferLaws] and [TaskSlots] are what it promises, and
      [TranferManager] is proved to be an instance.
    - Base64, Url, HttpRequest: Base64Coding.cpp, Url.cpp and the building of requests
      in HttpCli.cpp and task.cpp.
    - Run: computations over a state that may fault, and their rules.
    - Sockets, SockProxy, HttpClient, Task, Worker: Socket.cpp, SockProxy.cpp,
      HttpCli.cpp, task.cpp and transferworker.cpp; sockets, proxies, the client with
      the parser of responses, the state machine of a task and the thread that drives
      all tasks.  Winsock is the class [Os] with the laws [OsLaws], NTLM the class
      [Ntlm], memory and files the class [Machine], and the threads of the manager the
      class [Others].
    - ClientProofs, TaskProofs, WorkerProofs, WorkerSteps, WorkerSafety: what a method
      of the client, of a task and of the worker does to the sockets; the invariant of
      the worker; the theorems about its thread.  HttpResponse has the parsing of a
      response that a server sends ([StreamLaws]).  WorkerExample runs them on a
      scripted network.
    - Web, WebSafety, WebLive: Web/; the queue of requests, the tables of contexts
      and tasks, the callbacks, the retries and the answers, over
      [TransferManager].  WebSafety has the ownership invariant, WebLive the
      progress of requests.

    ** How code is modelled

    A function of the source is a Rocq function of the same name.  Stateful code
    passes its state explicitly: [ManagerState] for the bus, [LoaderState],
    [DataCenterState] (the vector, the memory of records and the events posted),
    [PlugInState], [CChromePlugIn], [TranferManager], [WebModule] (contexts and
    arguments in memories of their own, because queue, tables and callbacks share
    them).  The transfer library below the manager is written in the state monad
    [Run]: an object and the system, [THttpCli * E], [Task * E], [Worker * E].
    Pointers are [option positive] into a map, because records are shared between vectors; whatever C++ leaves undefined (a null or dangling
    pointer, an index outside a vector or buffer) is a value [Fault _] of the
    type [outcome], so that a theorem with the conclusion "returns [Ok]" also
    says that the code is free of such accesses.  Integers are kept in [Z] and
    reduced where the C++ type does so.

    [ASSERT] is [assert] (include/SndaBase.h).  The Web module, whose handlers assert on
    what other parts of the program give them, is modelled for both builds ([Build]):
    with [NDEBUG] an assertion is nothing, without it a false one is [Fault Aborted].
    Elsewhere a branch that asserts and then handles the case is modelled by what it does
    after the assertion.

    Loops over a range are [for_each].  A loop or recursion with no bound in the
    source takes fuel, and its theorems say how much is enough: [drain] in Bus
    (the number of units dispatched, by a weight of the modules), [Merge] (one
    more than the longest chain of parents), [DeleteFavoriteFold] (one more than
    the number of records: every call marks one that was not marked),
    [GetSubFolderId] (the rank of a folder in an acyclic tree; with a cycle it
    is proved to run forever), the loops over files in Md5 (one more than the
    number of blocks), [Split] (one more than the length of the string), the JSON
    reader (proportional to the length of the text), [ExportFolder] (the depth of
    the value), [SortNode] (one more than the number of records: every call fills
    an entry), [find_pos] and [scan_loop] (the 1024 entries of the task array), the
    header lines of a response (one more than the bytes that are still to come, since
    every line takes one), the loop of [ProcessGetResponse] (its own limit of twelve
    results), [GetAllSubDir] and what uses it (one round per entry that the walk lists: an
    amount that is enough is proved to exist, since the directories below a path are
    finite), [node_titles] (the depth of a record), [string_replace] and [AdjustPath] (one
    more than the length of the text), [tt_export] and [tt_count] (the height of the
    forest).  [run] takes the number of its rounds, since the thread ends only when it is
    stopped.
    [NoFuel] is never a result of the code.

    ** What the theorems show

    - The bus: queued units are valid and bounded in every reachable state; one
      cycle dispatches in first-in-first-out order exactly what was queued, what
      the cycle adds and what other threads handed over; the cycle ends when
      modules answer units by lighter ones; extra data is given back exactly once, as the
      last call for its unit, except for events without a destination, which
      leak it; services reach the module that owns their number.
    - Modules: ranges are disjoint and the module is recovered from a value;
      handler tables are scanned inside their bounds; loading registers exactly
      the modules of the libraries, and shutting down unloads and releases them, each
      once and in order, unless a library gives no factory.
    - Favorites: renumbering gives the ids 1..n in vector order and keeps the
      tree; adding and deleting change exactly the intended records; the
      recursion into subfolders is exact on acyclic data.
    - Merging and exporting: every record keeps its place in the tree, siblings
      end with different hashes, and the exported vector is what survives.
    - Chrome: on records that form a forest the import writes the bookmark file of
      that forest with its checksum; the export lists a file's tree in preorder
      with consistent ids; exporting what was imported gives the records again.  Titles
      and addresses with quotes or backslashes are lost by the code and excluded.
    - JSON: parsing ends for every text and gives a well-formed value; the writer's
      buffering is equivalent to a recursive definition; values survive the round
      trip.  The UTF-8 check accepts exactly the encodings of valid characters.
    - Web: no sequence of services, cycles and callbacks, one after the other, follows a
      dangling pointer or frees memory twice, in either build, and a debug build stops at
      the assertions named there only; every GET request, for memory or for a file whose
      writing succeeds, is done within a bounded number of cycles, and those of an
      answered service get one event, sent to the module that made them.  A callback
      that overlaps a cycle follows a freed context ([callback_overlaps_cycle]), since
      the code holds no lock.
    - Transfers, of tasks that do not use a SOCKS 5 proxy: whatever the network, the clock
      and the other threads do, the worker thread follows no null or freed task, its map and its sets of sockets agree with
      its tasks, every open socket belongs to one task, and none is left when the thread
      was stopped; a task that is not cancelled gets its result from one callback and is
      removed.  A response with a length, whose head arrives whole, is received to the
      last byte, however and whenever the network delivers it.  A POST request is built whole with its true length, a URL is parsed into
      the parts it was written from, and base64 is decoded to what was encoded.
    - Directories: the walk over subdirectories ends and lists each of them once, parents
      first; removing by force changes nothing else and deletes what is below its path when all
      of it may be listed and deleted.  Paths are cut into
      root, directory, name and extension as the header says when the name has a dot.
    - Internet Explorer: the export lists the tree of the shell in preorder with consistent
      ids; the import replaces the Favorites directory by the directories and shortcut
      files of the records and touches nothing else, when the titles are names that
      Windows accepts and differ within a folder.
    - Databases: no title or URL can end its literal, every statement the plug-ins build
      reads as the row that was meant and fits its buffer; the import of 360SE makes the
      table exactly the records, unless the table had five or six rows, when everything is
      lost; favorites imported into Sogou come back from the encrypted file, with other
      ids, a fixed date and apostrophes replaced; the export of
      Maxthon 2 keeps the tree while it renumbers; that of TT ends on a table that is a
      forest and lists it in preorder.
    - Utilities: both MD5 implementations and CRC-32 compute the standard functions for every input
      and division of the input; domains of URLs; round trips of versions,
      hexadecimal text, the configuration file and the Sogou page cipher; the
      assembly of that cipher computes AES-128 under a hard-coded key.

    Defects that the proofs brought to light are theorems too, such as
    [Bus.event_without_destination_leaks], [Loader.null_factory_breaks_destroy],
    [Rearrange.AddFavorite_repeats_id], [Rearrange.add_to_empty_out_of_range] and
    [PlugInModule.second_sort_breaks_numbering].

    ** What is not modelled

    Windows (windows, threads, registry), SQLite, curl and XML libraries;
    the user interface modules; of the browser plug-ins, FireFox and the import of TT, which
    are SQL statements over several tables, and the copies of the Chrome and
    Maxthon 2 plug-ins for QQ, 360Chrome and Maxthon 3.  Conversions between code pages and between
    doubles and text are parameters with the laws that are used of them.  The x86
    interpreter has separate regions for what separate pointers point to.
    Threads appear as the order of their operations: the operations under the
    bus's lock are atomic steps, and a worker thread is its function.  The callbacks of
    transfers are steps between the cycles of the Web module, except in the example that
    shows what their overlap does.  A handler that runs a nested [OnCycleTrigger] is
    outside [ClientModules].  A disk is a tree of directories without junctions or links,
    which the code would follow.  The SOCKS 5 client is in SockProxy, but its tasks are
    outside the theorems on the worker. *)
From stdpp Require Import prelude gmap sorting.
From Stdlib Require Import ZArith Lia.

#[global] Open Scope Z_scope.

(** ** Machine integers

    An integer of the source is kept in [Z]; the functions below are the
    conversions the C++ types perform.  [uN] reduces modulo [2^N], [iN] is the
    two's complement reading of the low [N] bits. *)

Definition u8 (z : Z) : Z := z mod 2 ^ 8.

Definition u16 (z : Z) : Z := z mod 2 ^ 16.

Definition u32 (z : Z) : Z := z mod 2 ^ 32.

Definition i8 (z : Z) : Z := (z + 2 ^ 7) mod 2 ^ 8 - 2 ^ 7.

Definition i32 (z : Z) : Z := (z + 2 ^ 31) mod 2 ^ 32 - 2 ^ 31.

Definition i64 (z : Z) : Z := (z + 2 ^ 63) mod 2 ^ 64 - 2 ^ 63.

(** A buffer of bytes. *)
Abbreviation bytes := (Forall (fun c => 0 <= c < 256)).

Declare Scope cpp_scope.
Delimit Scope cpp_scope with cpp.

Notation "x +u y" := (u32 (x + y)) (at level 50, left associativity) : cpp_scope.
Notation "x -u y" := (u32 (x - y)) (at level 50, left associativity) : cpp_scope.
Notation "x *u y" := (u32 (x * y)) (at level 40, left associativity) : cpp_scope.
Notation "x <<u n" := (u32 (Z.shiftl x n)) (at level 45, left associativity) : cpp_scope.
Notation "x >>u n" := (Z.shiftr x n) (at level 45, left associativity) : cpp_scope.

(** ** Faults

    What the source leaves undefined (a null or dangling pointer followed, an
    index outside a vector) is a value of the model, so that a theorem that an
    operation returns [Ok] also says that it is free of those faults.  [Aborted]
    is the end of the program by a failed assertion, an uncaught exception or
    the handler the C library calls for an invalid argument.  [NoFuel]
    marks a bounded run that was too short; it is never a result of the code. *)

Inductive fault :=
| NullDeref
| Dangling
| OutOfRange
| Aborted
| NoFuel.

Inductive outcome (A : Type) :=
| Ok (a : A)
| Fault (f : fault).

Arguments Ok {_} _.
Arguments Fault {_} _.

(** [assert] and [ASSERT], which include/SndaBase.h defines as [assert]: nothing in a build
    with [NDEBUG], the end of the program otherwise. *)
Class Build := NDEBUG : bool.

Definition ASSERT {BLD : Build} (b : bool) : outcome unit := if b || NDEBUG then Ok tt else Fault Aborted.

#[global] Instance fault_eq_dec : EqDecision fault.
Proof. solve_decision. Defined.

#[global] Instance outcome_ret : MRet outcome := fun A a => Ok a.

#[global] Instance outcome_bind : MBind outcome := fun A B k m =>
  match m with
  | Ok a => k a
  | Fault f => Fault f
  end.

(** A pointer is [None] for NULL; following it needs a non-null pointer. *)
Definition deref {A} (p : option A) : outcome A :=
  match p with
  | Some a => Ok a
  | None => Fault NullDeref
  end.

(** [v[i]] on a vector: outside its bounds the source has no defined result. *)
Definition vec_at {A} (v : list A) (i : Z) : outcome A :=
  if (i <? 0)%Z then Fault OutOfRange
  else match v !! Z.to_nat i with
       | Some a => Ok a
       | None => Fault OutOfRange
       end.

(** A loop over a range whose body may fault. *)
Fixpoint for_each {S A} (body : S -> A -> outcome S) (s : S) (l : list A) : outcome S :=
  match l with
  | [] => Ok s
  | a :: l => s' ← body s a; for_each body s' l
  end.

(** ** Sorting

    [std::sort] promises a sorted permutation and nothing about the order of
    equivalent elements.  The class is that contract for the comparisons the
    program uses, all of them [key a < key b]. *)

Definition key_le {A : Type} (key : A -> Z) (a b : A) : Prop := key a <= key b.

Class StdSort (sort : forall A : Type, (A -> Z) -> list A -> list A) : Prop := {
  std_sort_perm : forall A (key : A -> Z) l, sort A key l ≡ₚ l;
  std_sort_sorted : forall A (key : A -> Z) l,
    StronglySorted (key_le key) (sort A key l)
}.

(** The instance used to evaluate the model: a stable merge sort. *)
#[global] Instance key_le_dec {A} (key : A -> Z) : RelDecision (key_le key).
Proof. intros a b. unfold key_le. apply _. Defined.

Definition stable_sort (A : Type) (key : A -> Z) : list A -> list A :=
  merge_sort (key_le key).

(** ** Lemmas *)

Lemma u8_range z : 0 <= u8 z < 2 ^ 8.
Proof. apply Z.mod_pos_bound. lia. Qed.

Lemma u16_range z : 0 <= u16 z < 2 ^ 16.
Proof. apply Z.mod_pos_bound. lia. Qed.

Lemma u32_range z : 0 <= u32 z < 2 ^ 32.
Proof. apply Z.mod_pos_bound. lia. Qed.

Lemma i32_range z : - 2 ^ 31 <= i32 z < 2 ^ 31.
Proof. unfold i32. pose proof (Z.mod_pos_bound (z + 2 ^ 31) (2 ^ 32)). lia. Qed.

Lemma i64_range z : - 2 ^ 63 <= i64 z < 2 ^ 63.
Proof. unfold i64. pose proof (Z.mod_pos_bound (z + 2 ^ 63) (2 ^ 64)). lia. Qed.

Lemma u8_small z : 0 <= z < 2 ^ 8 -> u8 z = z.
Proof. apply Z.mod_small. Qed.

Lemma u16_small z : 0 <= z < 2 ^ 16 -> u16 z = z.
Proof. apply Z.mod_small. Qed.

Lemma u32_small z : 0 <= z < 2 ^ 32 -> u32 z = z.
Proof. apply Z.mod_small. Qed.

Lemma i32_small z : - 2 ^ 31 <= z < 2 ^ 31 -> i32 z = z.
Proof. intros H. unfold i32. rewrite Z.mod_small; lia. Qed.

Lemma i64_small z : - 2 ^ 63 <= z < 2 ^ 63 -> i64 z = z.
Proof. intros H. unfold i64. rewrite Z.mod_small; lia. Qed.

(** Bitwise operations stay within a width. *)
Lemma testbit_range n x : 0 <= n -> 0 <= x -> (x < 2 ^ n <-> forall k, n <= k -> Z.testbit x k = false).
Proof.
  intros Hn Hx. split.
  - intros H k Hk. rewrite <- (Z.mod_small x (2 ^ n)) by lia. by apply Z.mod_pow2_bits_high.
  - intros H. destruct (Z.eq_dec x 0) as [->|Hne]; [lia|].
    apply Z.log2_lt_pow2; [lia|]. destruct (Z.lt_ge_cases (Z.log2 x) n) as [|Hge]; [done|].
    pose proof (Z.bit_log2 x ltac:(lia)) as Hb. by rewrite H in Hb.
Qed.

(** A property of bytes that a computation decides. *)
Lemma all_bytes (f : Z -> bool) : forallb f (seqZ 0 256) = true -> forall b, 0 <= b < 256 -> f b = true.
Proof. intros H b Hb. rewrite forallb_forall in H. apply H, list_elem_of_In, elem_of_seqZ. lia. Qed.

Lemma lor_add n a b : 0 <= n -> 0 <= a < 2 ^ n -> 0 <= b -> Z.lor a (b * 2 ^ n) = a + b * 2 ^ n.
Proof.
  intros Hn Ha Hb. assert (H0 : Z.land a (b * 2 ^ n) = 0).
  { apply Z.bits_inj'. intros k Hk. rewrite Z.land_spec, Z.bits_0, <- Z.shiftl_mul_pow2 by done.
    destruct (Z.lt_ge_cases k n).
    - rewrite (Z.shiftl_spec_low b) by lia. apply andb_false_r.
    - by rewrite (proj1 (testbit_range n a Hn ltac:(lia)) ltac:(lia) k) by lia. }
  by rewrite Z.add_nocarry_lxor, Z.lxor_lor.
Qed.

Lemma lxor_range n x y : 0 <= x < 2 ^ n -> 0 <= y < 2 ^ n -> 0 <= Z.lxor x y < 2 ^ n.
Proof.
  intros Hx Hy. destruct (Z.lt_ge_cases n 0) as [Hn|Hn]; [rewrite Z.pow_neg_r in Hx by done; lia|].
  assert (H0 : 0 <= Z.lxor x y) by (apply Z.lxor_nonneg; lia). split; [done|].
  apply testbit_range; [done..|]. intros k Hk. rewrite Z.lxor_spec.
  rewrite (proj1 (testbit_range n x Hn ltac:(lia)) ltac:(lia) k Hk).
  by rewrite (proj1 (testbit_range n y Hn ltac:(lia)) ltac:(lia) k Hk).
Qed.

Create HintDb words.
Create Rewrite HintDb words.
#[export] Hint Rewrite u8_small u16_small u32_small i32_small i64_small using lia : words.
#[export] Hint Resolve u8_range u16_range u32_range i32_range i64_range : words.

Lemma Ok_bind {A B} (a : A) (k : A -> outcome B) : (Ok a ≫= k) = k a.
Proof. reflexivity. Qed.

Lemma bind_Ok {A B} (m : outcome A) (k : A -> outcome B) b :
  (m ≫= k) = Ok b <-> exists a, m = Ok a /\ k a = Ok b.
Proof. destruct m; simpl; split; [eauto|naive_solver|done|naive_solver]. Qed.

(** Linear arithmetic with quotients and remainders by constants. *)
Ltac lia_div := Z.div_mod_to_equations; lia.

(** Split a hypothesis that a sequence of fallible steps returned. *)
Ltac inv_ok :=
  repeat match goal with
  | H : _ ≫= _ = Ok _ |- _ =>
      let a := fresh "a" in let E := fresh "E" in
      apply bind_Ok in H as (a & E & H)
  | H : Ok _ = Ok _ |- _ => injection H as H; subst
  | H : Fault _ = Ok _ |- _ => discriminate H
  | H : mret _ = Ok _ |- _ => injection H as H; subst
  end.

Lemma deref_Ok {A} (p : option A) a : deref p = Ok a <-> p = Some a.
Proof. destruct p; simpl; naive_solver. Qed.

Lemma vec_at_Ok {A} (v : list A) i a :
  vec_at v i = Ok a <-> 0 <= i /\ v !! Z.to_nat i = Some a.
Proof.
  unfold vec_at. destruct (Z.ltb_spec i 0).
  - split; [done|lia].
  - destruct (v !! Z.to_nat i); naive_solver.
Qed.

(** A loop whose body never fails under an invariant is a fold. *)
Lemma for_each_fold {S A} (P : S -> Prop) (Q : A -> Prop) (body : S -> A -> outcome S) (step : S -> A -> S) l s :
  (forall s a, P s -> Q a -> body s a = Ok (step s a) /\ P (step s a)) ->
  Forall Q l -> P s ->
  for_each body s l = Ok (fold_left step l s) /\ P (fold_left step l s).
Proof.
  intros Hstep Hl. revert s. induction Hl as [|a l Ha _ IH]; intros s Hs; [done|].
  destruct (Hstep s a Hs Ha) as [Hb Hs']. simpl. rewrite Hb. by apply IH.
Qed.

Lemma for_each_app {S A} (body : S -> A -> outcome S) s l1 l2 :
  for_each body s (l1 ++ l2) = (s' ← for_each body s l1; for_each body s' l2).
Proof.
  revert s. induction l1 as [|a l1 IH]; intros s; [done|]. simpl.
  destruct (body s a); simpl; [apply IH|done].
Qed.

(** A loop invariant that knows the elements already visited. *)
Lemma for_each_ind {S A} (P : list A -> S -> Prop) (body : S -> A -> outcome S) s l :
  P [] s ->
  (forall l1 a s1, P l1 s1 -> (exists l2, l = l1 ++ a :: l2) ->
     exists s2, body s1 a = Ok s2 /\ P (l1 ++ [a]) s2) ->
  exists s', for_each body s l = Ok s' /\ P l s'.
Proof.
  intros H0 Hstep.
  enough (forall l2 l1 s1, l = l1 ++ l2 -> P l1 s1 ->
            exists s', for_each body s1 l2 = Ok s' /\ P l s') as Hgen
    by (apply (Hgen l []); auto).
  induction l2 as [|a l2 IH]; intros l1 s1 Hl HP; simpl.
  - rewrite app_nil_r in Hl. subst. eauto.
  - destruct (Hstep l1 a s1 HP) as (s2 & -> & HP2); [eauto|]. simpl.
    apply (IH (l1 ++ [a])); [|done]. by rewrite <- app_assoc.
Qed.

Lemma StronglySorted_lookup {A} (R : A -> A -> Prop) l i j a b :
  StronglySorted R l -> l !! i = Some a -> l !! j = Some b -> (i < j)%nat -> R a b.
Proof.
  intros Hs. revert i j. induction Hs as [|x l Hs IH Hall]; intros i j Hi Hj Hlt; [done|].
  destruct j as [|j]; [lia|]. destruct i as [|i]; simpl in *.
  - injection Hi as <-. rewrite Forall_lookup in Hall. eauto.
  - eapply IH; eauto. lia.
Qed.

(** The same for [for (i = 0; i < n; i++)]. *)
Lemma for_range_ind {S} (P : Z -> S -> Prop) (body : S -> Z -> outcome S) s n :
  0 <= n -> P 0 s ->
  (forall i s1, 0 <= i < n -> P i s1 -> exists s2, body s1 i = Ok s2 /\ P (i + 1) s2) ->
  exists s', for_each body s (seqZ 0 n) = Ok s' /\ P n s'.
Proof.
  intros Hn H0 Hstep.
  destruct (for_each_ind (fun l s => P (Z.of_nat (length l)) s) body s (seqZ 0 n)) as (s' & Hr & HP).
  - done.
  - intros l1 a s1 HP (l2 & Hl). rewrite length_app. simpl.
    assert (Ha : seqZ 0 n !! length l1 = Some a) by (rewrite Hl; apply list_lookup_middle; done).
    apply lookup_seqZ in Ha as [-> Hlt].
    destruct (Hstep (0 + Z.of_nat (length l1)) s1) as (s2 & ? & ?); [lia|by rewrite Z.add_0_l|].
    exists s2. split; [done|]. by replace (Z.of_nat (length l1 + 1)) with (0 + Z.of_nat (length l1) + 1) by lia.
  - exists s'. split; [done|]. rewrite length_seqZ in HP. by rewrite Z2Nat.id in HP by done.
Qed.

Lemma vec_at_nat {A} (v : list A) (i : nat) a : v !! i = Some a -> vec_at v (Z.of_nat i) = Ok a.
Proof. intros H. apply vec_at_Ok. split; [lia|]. by rewrite Nat2Z.id. Qed.

#[global] Instance stable_sort_StdSort : StdSort stable_sort.
Proof.
  split; intros A key l; unfold stable_sort.
  - apply merge_sort_Permutation.
  - apply StronglySorted_merge_sort.
    + intros a b c. unfold key_le. lia.
    + intros a b. unfold key_le. lia.
Qed.
