(* ===== verification/Protocol.v ===== *)
(** * Protocol: identifiers, value ranges, events and messages

    Models include/UrlTravelerHeader.h: the module identifiers, the numbering
    scheme that gives every module its own range of event, message and service
    values, the classification of a value by its top nibble, and the two
    structures that travel on the bus. *)
From stdpp Require Import prelude.
From S2P Require Import Prelude.

(** ** Module identifiers *)

(** The enumerators of [ModuleId] that name a module. *)
Inductive ModuleName :=
| CORE
| MAINFRAME
| SETTING
| TRAYICON
| DATACENTER
| LOGIN
| PLUGIN
| DATABASE
| WEB
| UPDATE
| FAVMONITOR.

#[global] Instance ModuleName_eq_dec : EqDecision ModuleName.
Proof. solve_decision. Defined.

(** The value C++ gives each enumerator. *)
Definition MODULE_ID (m : ModuleName) : Z :=
  match m with
  | CORE => 0x01
  | MAINFRAME => 0x02
  | SETTING => 0x03
  | TRAYICON => 0x04
  | DATACENTER => 0x05
  | LOGIN => 0x06
  | PLUGIN => 0x07
  | DATABASE => 0x08
  | WEB => 0x09
  | UPDATE => 0x0A
  | FAVMONITOR => 0x0B
  end.

Definition MODULE_ID_INVALID : Z := -1.

Definition MODULE_ID_END : Z := 0x0C.

(** ** Value ranges *)

Definition EVENT_VALUE_RANGE : Z := 0xFFF.
Definition MESSAGE_VALUE_RANGE : Z := 0xFFF.
Definition SERVICE_VALUE_RANGE : Z := 0xFFF.

Definition EVENT_VALUE_BASE : Z := 0x10001000.
Definition MESSAGE_VALUE_BASE : Z := 0x20001000.
Definition SERVICE_VALUE_BASE : Z := 0x30001000.

(** The three [_INVALID] enumerators are [-1] stored in a [uint32]. *)
Definition EVENT_VALUE_INVALID : Z := u32 (-1).
Definition MESSAGE_VALUE_INVALID : Z := u32 (-1).
Definition SERVICE_VALUE_INVALID : Z := u32 (-1).

Definition EVENT_VALUE_BEGIN (X : Z) : Z := (X * 0x1000) + EVENT_VALUE_BASE + 0x01.
Definition EVENT_VALUE_END (X : Z) : Z := (X * 0x1000) + EVENT_VALUE_BASE + EVENT_VALUE_RANGE.
Definition MESSAGE_VALUE_BEGIN (X : Z) : Z := (X * 0x1000) + MESSAGE_VALUE_BASE + 0x01.
Definition MESSAGE_VALUE_END (X : Z) : Z := (X * 0x1000) + MESSAGE_VALUE_BASE + MESSAGE_VALUE_RANGE.
Definition SERVICE_VALUE_BEGIN (X : Z) : Z := (X * 0x1000) + SERVICE_VALUE_BASE + 0x01.
Definition SERVICE_VALUE_END (X : Z) : Z := (X * 0x1000) + SERVICE_VALUE_BASE + SERVICE_VALUE_RANGE.

(** The argument is a [uint32], so the subtraction is unsigned and wraps. *)
Definition MODULIE_ID_FROM_EVENT_VALUE (X : Z) : Z := u32 (X - EVENT_VALUE_BASE - 0x01) / 0x1000.
Definition MODULIE_ID_FROM_MESSAGE_VALUE (X : Z) : Z := u32 (X - MESSAGE_VALUE_BASE - 0x01) / 0x1000.
Definition MODULIE_ID_FROM_SERVICE_VALUE (X : Z) : Z := u32 (X - SERVICE_VALUE_BASE - 0x01) / 0x1000.

Definition IsEventValue (x : Z) : bool := Z.land x 0xF0000000 =? 0x10000000.
Definition IsMessageValue (x : Z) : bool := Z.land x 0xF0000000 =? 0x20000000.
Definition IsServiceValue (x : Z) : bool := Z.land x 0xF0000000 =? 0x30000000.

(** The values of the core module the bus itself uses. *)
Definition EVENT_VALUE_CORE_MAIN_LOOP_EXIT : Z := EVENT_VALUE_BEGIN (MODULE_ID CORE) + 1.

Definition MESSAGE_VALUE_CORE_CYCLE_TRIGGER : Z := MESSAGE_VALUE_BEGIN (MODULE_ID CORE) + 1.
Definition MESSAGE_VALUE_CORE_BEGIN_SHOW : Z := MESSAGE_VALUE_BEGIN (MODULE_ID CORE) + 2.

(** ** Events and messages *)

(** An [EventExtraInfo*] or [MessageExtraInfo*]: the address of a heap object,
    [None] for NULL. *)
Definition extra_ptr : Type := option positive.

Record Event := mkEvent {
  eventValue : Z;
  srcMId : Z;
  desMId : Z;
  param0 : Z;
  param1 : Z;
  param2 : Z;
  param3 : Z;
  m_pstExtraInfo : extra_ptr
}.

Record Message := mkMessage {
  messageValue : Z;
  msg_srcMId : Z;
  msg_reserved : Z;
  msg_param0 : Z;
  msg_param1 : Z;
  msg_param2 : Z;
  msg_param3 : Z;
  msg_pstExtraInfo : extra_ptr
}.

#[global] Instance Event_eq_dec : EqDecision Event.
Proof. solve_decision. Defined.

#[global] Instance Message_eq_dec : EqDecision Message.
Proof. solve_decision. Defined.

(** [MakeEvent<srcId>()(...)]. *)
Definition MakeEvent (srcId value desId p0 p1 p2 p3 : Z) (extra : extra_ptr) : Event :=
  mkEvent value srcId desId p0 p1 p2 p3 extra.

(** [MakeMessage<id>()(...)]. *)
Definition MakeMessage (id value p0 p1 p2 p3 : Z) (extra : extra_ptr) : Message :=
  mkMessage value id 0 p0 p1 p2 p3 extra.

(** A class derived from [EventExtraInfo] is an event whose [m_pstExtraInfo] is
    its own address; so is one derived from [MessageExtraInfo]. *)
Definition EventExtraInfo (self : positive) (value srcId desId : Z) : Event :=
  mkEvent value srcId desId 0 0 0 0 (Some self).

Definition MessageExtraInfo (self : positive) (value srcId : Z) : Message :=
  mkMessage value srcId 0 0 0 0 0 (Some self).

(** The version number compiled into the client. *)
Definition MAIN_VERSION : Z := 0.
Definition SUB_VERSION : Z := 1.
Definition PATCH_VERSION : Z := 0.
Definition BUILD_VERSION : Z := 0.
Definition CLIENT_VERSION : Z :=
  Z.shiftl MAIN_VERSION 24 + Z.shiftl SUB_VERSION 16 + Z.shiftl PATCH_VERSION 8 + BUILD_VERSION.

(** ** Lemmas *)

(** The top nibble of a 32-bit value is its quotient by [2^28]. *)
Lemma land_top_nibble x : 0 <= x < 2 ^ 32 -> Z.land x 0xF0000000 = (x / 2 ^ 28) * 2 ^ 28.
Proof.
  intros Hx. rewrite <- Z.shiftr_div_pow2, <- Z.shiftl_mul_pow2 by lia.
  apply Z.bits_inj'. intros n Hn.
  rewrite Z.land_spec, Z.shiftl_spec by lia.
  destruct (Z.ltb_spec n 28).
  - rewrite (Z.testbit_neg_r _ (n - 28)) by lia.
    replace (Z.testbit 0xF0000000 n) with false; [by rewrite andb_false_r|].
    change 0xF0000000 with (Z.shiftl 0xF 28). rewrite Z.shiftl_spec by lia.
    by rewrite Z.testbit_neg_r by lia.
  - rewrite Z.shiftr_spec by lia. replace (n - 28 + 28) with n by lia.
    change 0xF0000000 with (Z.shiftl (Z.ones 4) 28). rewrite Z.shiftl_spec by lia.
    destruct (Z.ltb_spec n 32).
    + rewrite Z.ones_spec_low by lia. by rewrite andb_true_r.
    + replace (Z.testbit x n) with false; [done|]. symmetry.
      rewrite <- (Z.mod_small x (2 ^ 32)) by lia. apply Z.mod_pow2_bits_high. lia.
Qed.

Lemma IsEventValue_spec x :
  0 <= x < 2 ^ 32 -> IsEventValue x = true <-> 0x10000000 <= x < 0x20000000.
Proof. intros H. unfold IsEventValue. rewrite land_top_nibble, Z.eqb_eq by done. lia_div. Qed.

Lemma IsMessageValue_spec x :
  0 <= x < 2 ^ 32 -> IsMessageValue x = true <-> 0x20000000 <= x < 0x30000000.
Proof. intros H. unfold IsMessageValue. rewrite land_top_nibble, Z.eqb_eq by done. lia_div. Qed.

Lemma IsServiceValue_spec x :
  0 <= x < 2 ^ 32 -> IsServiceValue x = true <-> 0x30000000 <= x < 0x40000000.
Proof. intros H. unfold IsServiceValue. rewrite land_top_nibble, Z.eqb_eq by done. lia_div. Qed.

Lemma event_not_message x : IsEventValue x = true -> IsMessageValue x = false.
Proof. unfold IsEventValue, IsMessageValue. rewrite Z.eqb_eq, Z.eqb_neq. lia. Qed.

Lemma message_not_event x : IsMessageValue x = true -> IsEventValue x = false.
Proof. unfold IsEventValue, IsMessageValue. rewrite Z.eqb_eq, Z.eqb_neq. lia. Qed.

Lemma MODULE_ID_range m : 1 <= MODULE_ID m < MODULE_ID_END.
Proof. destruct m; unfold MODULE_ID_END; simpl; lia. Qed.

Lemma MODULE_ID_inj m1 m2 : MODULE_ID m1 = MODULE_ID m2 -> m1 = m2.
Proof. destruct m1, m2; simpl; congruence || lia. Qed.

(** The numbering scheme, once for any base: [base] is [c * 2^28 + 0x1000]. *)
Lemma value_decode c X k :
  0 <= c < 16 -> 0 <= X <= 0xFFFE -> 0 <= k < 0xFFF ->
  let v := X * 0x1000 + (c * 2 ^ 28 + 0x1000) + 0x01 + k in
  0 <= v < 2 ^ 32 /\ c * 2 ^ 28 <= v < (c + 1) * 2 ^ 28 /\
  u32 (v - (c * 2 ^ 28 + 0x1000) - 0x01) / 0x1000 = X.
Proof.
  intros Hc HX Hk v. assert (0 <= v < 2 ^ 32) by (unfold v; lia).
  split; [done|]. split; [unfold v; lia|].
  rewrite u32_small by (unfold v; lia). unfold v. lia_div.
Qed.

Lemma event_value_decode X k :
  0 <= X <= 0xFFFE -> 0 <= k < 0xFFF ->
  IsEventValue (EVENT_VALUE_BEGIN X + k) = true /\
  MODULIE_ID_FROM_EVENT_VALUE (EVENT_VALUE_BEGIN X + k) = X.
Proof.
  intros HX Hk. destruct (value_decode 1 X k) as (Hv & Hr & Hd); [lia..|].
  split; [by apply IsEventValue_spec|exact Hd].
Qed.

Lemma message_value_decode X k :
  0 <= X <= 0xFFFE -> 0 <= k < 0xFFF ->
  IsMessageValue (MESSAGE_VALUE_BEGIN X + k) = true /\
  MODULIE_ID_FROM_MESSAGE_VALUE (MESSAGE_VALUE_BEGIN X + k) = X.
Proof.
  intros HX Hk. destruct (value_decode 2 X k) as (Hv & Hr & Hd); [lia..|].
  split; [by apply IsMessageValue_spec|exact Hd].
Qed.

Lemma service_value_decode X k :
  0 <= X <= 0xFFFE -> 0 <= k < 0xFFF ->
  IsServiceValue (SERVICE_VALUE_BEGIN X + k) = true /\
  MODULIE_ID_FROM_SERVICE_VALUE (SERVICE_VALUE_BEGIN X + k) = X.
Proof.
  intros HX Hk. destruct (value_decode 3 X k) as (Hv & Hr & Hd); [lia..|].
  split; [by apply IsServiceValue_spec|exact Hd].
Qed.

Lemma event_not_service x : IsEventValue x = true -> IsServiceValue x = false.
Proof. unfold IsEventValue, IsServiceValue. rewrite Z.eqb_eq, Z.eqb_neq. lia. Qed.

Lemma message_not_service x : IsMessageValue x = true -> IsServiceValue x = false.
Proof. unfold IsMessageValue, IsServiceValue. rewrite Z.eqb_eq, Z.eqb_neq. lia. Qed.

(** ** Properties *)

(** Every value a module can define (its [BEGIN(X)] plus an offset up to its
    [END(X)]) lies in the class of its kind and decodes to the module it was
    numbered for, for events, messages and services alike; so the routing done
    by [CallService] reaches the module that declared the value. *)
Theorem value_ranges_roundtrip (X k : Z) :
  0 <= X <= 0xFFFE ->
  0 <= k <= EVENT_VALUE_END X - EVENT_VALUE_BEGIN X ->
  (IsEventValue (EVENT_VALUE_BEGIN X + k) = true /\
   MODULIE_ID_FROM_EVENT_VALUE (EVENT_VALUE_BEGIN X + k) = X) /\
  (IsMessageValue (MESSAGE_VALUE_BEGIN X + k) = true /\
   MODULIE_ID_FROM_MESSAGE_VALUE (MESSAGE_VALUE_BEGIN X + k) = X) /\
  (IsServiceValue (SERVICE_VALUE_BEGIN X + k) = true /\
   MODULIE_ID_FROM_SERVICE_VALUE (SERVICE_VALUE_BEGIN X + k) = X).
Proof.
  unfold EVENT_VALUE_END, EVENT_VALUE_BEGIN at 1 2, EVENT_VALUE_RANGE. intros HX Hk.
  repeat apply conj; [apply event_value_decode|apply event_value_decode|
    apply message_value_decode|apply message_value_decode|
    apply service_value_decode|apply service_value_decode]; lia.
Qed.

Lemma value_ranges_roundtrip_witness :
  IsServiceValue (SERVICE_VALUE_BEGIN (MODULE_ID DATACENTER) + 6) = true /\
  MODULIE_ID_FROM_SERVICE_VALUE (SERVICE_VALUE_BEGIN (MODULE_ID DATACENTER) + 6) = MODULE_ID DATACENTER.
Proof.
  apply (value_ranges_roundtrip (MODULE_ID DATACENTER) 6);
    vm_compute; split; discriminate.
Defined.
