(* ===== verification/Bus.v ===== *)
(** * Bus: the module manager's queues and its dispatch cycle

    Models src/ModuleManager/ModuleManagerImpl.{h,cpp}: the ring buffer of
    events and messages, the two vectors through which other threads hand over
    theirs, the four [Push] operations, [CallService] and [OnCycleTrigger].

    The modules behind the [IModule] pointers are the bus's clients: they are a
    table of methods (class [IModuleTable]) over the whole state, and what the
    bus relies on is that a method touches the bus only through its interface
    (class [ClientModules]). *)
From stdpp Require Import prelude gmap sorting relations.
From S2P Require Import Prelude Protocol.

(** ** Buffer units *)

(** [BufUnit] is raw storage for an [Event] or a [Message]. *)
Inductive BufUnit :=
| UnitEvent (e : Event)
| UnitMessage (m : Message).

#[global] Instance BufUnit_eq_dec : EqDecision BufUnit.
Proof. solve_decision. Defined.

(** [reinterpret_cast<Event*>(szBuffer)]: both structures have the value first,
    then a 16-bit source, a 16-bit field ([desMId] or [reserved]), the four
    parameters and the pointer, so the cast reads field by field. *)
Definition as_event (u : BufUnit) : Event :=
  match u with
  | UnitEvent e => e
  | UnitMessage m =>
      mkEvent (messageValue m) (msg_srcMId m) (msg_reserved m)
        (msg_param0 m) (msg_param1 m) (msg_param2 m) (msg_param3 m) (msg_pstExtraInfo m)
  end.

Definition as_message (u : BufUnit) : Message :=
  match u with
  | UnitMessage m => m
  | UnitEvent e =>
      mkMessage (eventValue e) (srcMId e) (desMId e)
        (param0 e) (param1 e) (param2 e) (param3 e) (m_pstExtraInfo e)
  end.

(** [boost::circular_buffer<BufUnit> m_eventMsgBuf(10240)]: appending to a full
    buffer overwrites its oldest element. *)
Definition BUF_CAPACITY : Z := 10240.

Definition push_back (buf : list BufUnit) (u : BufUnit) : list BufUnit :=
  if Z.of_nat (length buf) <? BUF_CAPACITY then buf ++ [u] else tail buf ++ [u].

(** The size past which [PushEvent] and [PushMessage] refuse. *)
Definition BUF_LIMIT : Z := 10000.

(** ** State *)

(** A call the bus makes on a module. *)
Inductive ModuleCall :=
| CallProcessEvent (h : positive) (e : Event)
| CallProcessMessage (h : positive) (m : Message)
| CallPayback (h : positive) (value : Z) (extra : positive).

#[global] Instance ModuleCall_eq_dec : EqDecision ModuleCall.
Proof. solve_decision. Defined.

(** The manager: [IModule*] is a handle ([positive]), [U] the private state of
    all modules together.  [iFactor] is the static counter of the memory
    trimming code, [nTrim] counts the trims, and [calls] is the sequence of calls
    made on modules so far. *)
Record ManagerState (U : Type) := mkManager {
  m_eventMsgBuf : list BufUnit;
  m_vectorOut : list BufUnit;
  m_vectorIn : list BufUnit;
  m_bRun : bool;
  m_mapModulePoint : gmap Z positive;
  iFactor : Z;
  nTrim : Z;
  calls : list ModuleCall;
  user : U
}.

Arguments mkManager {_} _ _ _ _ _ _ _ _ _.
Arguments m_eventMsgBuf {_} _.
Arguments m_vectorOut {_} _.
Arguments m_vectorIn {_} _.
Arguments m_bRun {_} _.
Arguments m_mapModulePoint {_} _.
Arguments iFactor {_} _.
Arguments nTrim {_} _.
Arguments calls {_} _.
Arguments user {_} _.

Section Operations.
Context {U : Type}.
Implicit Types s : ManagerState U.

Definition with_buf (b : list BufUnit) s : ManagerState U :=
  mkManager b (m_vectorOut s) (m_vectorIn s) (m_bRun s) (m_mapModulePoint s)
    (iFactor s) (nTrim s) (calls s) (user s).

Definition with_vectors (o i : list BufUnit) s : ManagerState U :=
  mkManager (m_eventMsgBuf s) o i (m_bRun s) (m_mapModulePoint s)
    (iFactor s) (nTrim s) (calls s) (user s).

Definition with_user (u : U) s : ManagerState U :=
  mkManager (m_eventMsgBuf s) (m_vectorOut s) (m_vectorIn s) (m_bRun s) (m_mapModulePoint s)
    (iFactor s) (nTrim s) (calls s) u.

Definition with_trim (f n : Z) s : ManagerState U :=
  mkManager (m_eventMsgBuf s) (m_vectorOut s) (m_vectorIn s) (m_bRun s) (m_mapModulePoint s)
    f n (calls s) (user s).

Definition log_call (c : ModuleCall) s : ManagerState U :=
  mkManager (m_eventMsgBuf s) (m_vectorOut s) (m_vectorIn s) (m_bRun s) (m_mapModulePoint s)
    (iFactor s) (nTrim s) (calls s ++ [c]) (user s).

(** [ModuleManagerImpl::Exit]. *)
Definition Exit s : ManagerState U :=
  mkManager (m_eventMsgBuf s) (m_vectorOut s) (m_vectorIn s) false (m_mapModulePoint s)
    (iFactor s) (nTrim s) (calls s) (user s).

(** ** The interface offered to modules *)

(** A full buffer refuses with [FALSE]; a value that is not an event value is
    dropped with [TRUE]. *)
Definition PushEvent (evt : Event) s : bool * ManagerState U :=
  if Z.of_nat (length (m_eventMsgBuf s)) >? BUF_LIMIT then (false, s)
  else if IsEventValue (eventValue evt)
       then (true, with_buf (push_back (m_eventMsgBuf s) (UnitEvent evt)) s)
       else (true, s).

Definition PushMessage (msg : Message) s : bool * ManagerState U :=
  if Z.of_nat (length (m_eventMsgBuf s)) >? BUF_LIMIT then (false, s)
  else if IsMessageValue (messageValue msg)
       then (true, with_buf (push_back (m_eventMsgBuf s) (UnitMessage msg)) s)
       else (true, s).

(** The two operations for other threads run under [m_Lock] as a whole. *)
Definition PushAnsycEvent (evt : Event) s : bool * ManagerState U :=
  if IsEventValue (eventValue evt)
  then (true, with_vectors (m_vectorOut s ++ [UnitEvent evt]) (m_vectorIn s) s)
  else (false, s).

Definition PushAnsycMessage (msg : Message) s : bool * ManagerState U :=
  if IsMessageValue (messageValue msg)
  then (true, with_vectors (m_vectorOut s ++ [UnitMessage msg]) (m_vectorIn s) s)
  else (false, s).

(** [EXIST_MODULE(itr, X)]; the cast to [ModuleId] is the signed reading. *)
Definition EXIST_MODULE (x : Z) s : option positive := m_mapModulePoint s !! i32 x.

(** ** The modules *)

(** The methods of [IModule] the bus calls, for the object behind a handle. *)
Class IModuleTable := {
  ProcessEvent : positive -> Event -> ManagerState U -> ManagerState U;
  ProcessMessage : positive -> Message -> ManagerState U -> ManagerState U;
  CallDirect : positive -> Z -> Z -> ManagerState U -> Z * ManagerState U;
  PaybackExtraInfo : positive -> Z -> BufUnit -> ManagerState U -> ManagerState U
}.

Context {T : IModuleTable}.

Definition CallService (lServiceValue rparam : Z) s : Z * ManagerState U :=
  if IsServiceValue lServiceValue then
    match EXIST_MODULE (MODULIE_ID_FROM_SERVICE_VALUE lServiceValue) s with
    | None => (-1, s)
    | Some h => CallDirect h lServiceValue rparam s
    end
  else if IsEventValue lServiceValue then
    match EXIST_MODULE (MODULIE_ID_FROM_EVENT_VALUE lServiceValue) s with
    | None => (-1, s)
    | Some h => CallDirect h lServiceValue rparam s
    end
  else (0, s).

(** ** The dispatch cycle *)

(** Iteration of the [std::map] is in increasing order of its keys. *)
Definition modules_in_order (m : gmap Z positive) : list positive :=
  (merge_sort (key_le fst) (map_to_list m)).*2.

(** Release of the attached object by the module that sent it. *)
Definition payback (src value : Z) (extra : extra_ptr) (u : BufUnit) s : ManagerState U :=
  match extra with
  | None => s
  | Some p =>
      match EXIST_MODULE src s with
      | None => s
      | Some h => PaybackExtraInfo h value u (log_call (CallPayback h value p) s)
      end
  end.

Definition dispatch_event (evt : Event) s : ManagerState U :=
  match EXIST_MODULE (desMId evt) s with
  | None => s
  | Some h =>
      payback (srcMId evt) (eventValue evt) (m_pstExtraInfo evt) (UnitEvent evt)
        (ProcessEvent h evt (log_call (CallProcessEvent h evt) s))
  end.

Definition dispatch_message (msg : Message) s : ManagerState U :=
  payback (msg_srcMId msg) (messageValue msg) (msg_pstExtraInfo msg) (UnitMessage msg)
    (foldl (fun s h => ProcessMessage h msg (log_call (CallProcessMessage h msg) s)) s
       (modules_in_order (m_mapModulePoint s))).

(** The working-set trimming at the end of an iteration. *)
Definition trim_memory s : ManagerState U :=
  let f := iFactor s in
  let hit := if f <? 10 * 60 then f mod (10 * 10) =? 0 else f mod (10 * 60 * 5) =? 0 in
  with_trim (u32 (f + 1)) (if hit then nTrim s + 1 else nTrim s) s.

(** One iteration of the [while] loop of [OnCycleTrigger]. *)
Definition cycle_body s : ManagerState U :=
  match m_eventMsgBuf s with
  | [] => s
  | u :: rest =>
      if IsEventValue (eventValue (as_event u)) then
        let evt := as_event u in
        let s1 := with_buf rest s in
        if eventValue evt =? EVENT_VALUE_CORE_MAIN_LOOP_EXIT then Exit s1
        else trim_memory (dispatch_event evt s1)
      else if IsMessageValue (messageValue (as_message u)) then
        trim_memory (dispatch_message (as_message u) (with_buf rest s))
      else trim_memory s
  end.

(** The loop itself, for at most [fuel] iterations. *)
Fixpoint drain (fuel : nat) s : outcome (ManagerState U) :=
  match m_eventMsgBuf s with
  | [] => Ok s
  | _ => match fuel with
         | O => Fault NoFuel
         | S fuel => drain fuel (cycle_body s)
         end
  end.

(** What precedes the loop: the cycle message, then the hand-over of what other
    threads pushed. *)
Definition collect s : ManagerState U :=
  let s := if bool_decide (m_vectorOut s = []) then s
           else with_vectors (m_vectorIn s) (m_vectorOut s) s in
  let b := foldl push_back (m_eventMsgBuf s) (m_vectorIn s) in
  with_vectors (m_vectorOut s) [] (with_buf b s).

Definition cycle_message : Message :=
  MakeMessage (MODULE_ID CORE) MESSAGE_VALUE_CORE_CYCLE_TRIGGER 0 0 0 0 None.

Definition OnCycleTrigger (fuel : nat) s : outcome (ManagerState U) :=
  drain fuel (collect (PushMessage cycle_message s).2).

End Operations.

Arguments IModuleTable _ : clear implicits.

(** ** What a module may do to the bus *)

(** A module acts on the bus only by the four [Push] operations, and otherwise
    changes private state.  ([CallService] runs another module's method, which
    is again made of these steps.) *)
Inductive client_step {U} : ManagerState U -> ManagerState U -> Prop :=
| client_PushEvent e s : client_step s (PushEvent e s).2
| client_PushMessage m s : client_step s (PushMessage m s).2
| client_PushAnsycEvent e s : client_step s (PushAnsycEvent e s).2
| client_PushAnsycMessage m s : client_step s (PushAnsycMessage m s).2
| client_private u s : client_step s (with_user u s).

(** The promise of the modules to the bus. *)
Class ClientModules {U} (T : IModuleTable U) : Prop := {
  client_ProcessEvent : forall h e s, rtc client_step s (ProcessEvent h e s);
  client_ProcessMessage : forall h m s, rtc client_step s (ProcessMessage h m s);
  client_Payback : forall h v u s, rtc client_step s (PaybackExtraInfo h v u s)
}.

(** A stored unit of the right class: what the [Push] operations let in. *)
Definition unit_ok (u : BufUnit) : Prop :=
  match u with
  | UnitEvent e => IsEventValue (eventValue e) = true
  | UnitMessage m => IsMessageValue (messageValue m) = true
  end.

(** The calls on modules that the handling of one unit consists of. *)
Definition payback_calls (mp : gmap Z positive) (src value : Z) (extra : extra_ptr) : list ModuleCall :=
  match extra, mp !! i32 src with
  | Some p, Some h => [CallPayback h value p]
  | _, _ => []
  end.

Definition unit_calls (mp : gmap Z positive) (u : BufUnit) : list ModuleCall :=
  match u with
  | UnitEvent e =>
      if eventValue e =? EVENT_VALUE_CORE_MAIN_LOOP_EXIT then []
      else match mp !! i32 (desMId e) with
           | None => []
           | Some h => CallProcessEvent h e :: payback_calls mp (srcMId e) (eventValue e) (m_pstExtraInfo e)
           end
  | UnitMessage m =>
      ((fun h => CallProcessMessage h m) <$> modules_in_order mp) ++
      payback_calls mp (msg_srcMId m) (messageValue m) (msg_pstExtraInfo m)
  end.

(** A run of the loop, with the units it took from the buffer in order. *)
Inductive dispatch_run {U} {T : IModuleTable U} : ManagerState U -> list BufUnit -> ManagerState U -> Prop :=
| run_empty s : m_eventMsgBuf s = [] -> dispatch_run s [] s
| run_unit s u rest H s' :
    m_eventMsgBuf s = u :: rest ->
    dispatch_run (cycle_body s) H s' ->
    dispatch_run s (u :: H) s'.

(** [s'] is [s] after the calls [cs] were made on modules, with units added at
    the tails of the queues by those modules. *)
Record extends_by {U} (cs : list ModuleCall) (s s' : ManagerState U) : Prop := {
  ext_map : m_mapModulePoint s' = m_mapModulePoint s;
  ext_calls : calls s' = calls s ++ cs;
  ext_run : m_bRun s' = m_bRun s;
  ext_in : m_vectorIn s' = m_vectorIn s;
  ext_buf : exists new, m_eventMsgBuf s' = m_eventMsgBuf s ++ new /\ Forall unit_ok new;
  ext_out : exists new, m_vectorOut s' = m_vectorOut s ++ new /\ Forall unit_ok new;
  ext_len : Z.of_nat (length (m_eventMsgBuf s')) <= Z.max (Z.of_nat (length (m_eventMsgBuf s))) (BUF_LIMIT + 1)
}.

(** ** Lemmas *)

Lemma extends_refl {U} (s : ManagerState U) : extends_by [] s s.
Proof. split; rewrite ?app_nil_r; try done; [..|lia]; exists []; by rewrite app_nil_r. Qed.

Lemma extends_trans {U} c1 c2 (s1 s2 s3 : ManagerState U) :
  extends_by c1 s1 s2 -> extends_by c2 s2 s3 -> extends_by (c1 ++ c2) s1 s3.
Proof.
  intros [? Hc1 ? ? (n1 & Hb1 & ?) (o1 & Ho1 & ?) ?] [? Hc2 ? ? (n2 & Hb2 & ?) (o2 & Ho2 & ?) ?].
  split; try congruence; [..|lia].
  - by rewrite Hc2, Hc1, app_assoc.
  - exists (n1 ++ n2). rewrite Hb2, Hb1, app_assoc. split; [done|by apply Forall_app].
  - exists (o1 ++ o2). rewrite Ho2, Ho1, app_assoc. split; [done|by apply Forall_app].
Qed.

Lemma extends_log {U} c (s : ManagerState U) : extends_by [c] s (log_call c s).
Proof. split; simpl; try done; [..|lia]; exists []; by rewrite app_nil_r. Qed.

Create HintDb bus.
#[export] Hint Resolve extends_refl extends_log : bus.

Lemma push_back_not_full b u :
  Z.of_nat (length b) <= BUF_LIMIT -> push_back b u = b ++ [u].
Proof.
  unfold push_back, BUF_LIMIT, BUF_CAPACITY. intros H.
  destruct (Z.ltb_spec (Z.of_nat (length b)) 10240); [done|lia].
Qed.

(** Appending [b] to a state's buffer, or [o] to its outgoing vector. *)
Lemma extends_add {U} (s s' : ManagerState U) b o :
  m_mapModulePoint s' = m_mapModulePoint s -> calls s' = calls s -> m_bRun s' = m_bRun s ->
  m_vectorIn s' = m_vectorIn s ->
  m_eventMsgBuf s' = m_eventMsgBuf s ++ b -> m_vectorOut s' = m_vectorOut s ++ o ->
  Forall unit_ok b -> Forall unit_ok o ->
  (b = [] \/ Z.of_nat (length (m_eventMsgBuf s)) <= BUF_LIMIT /\ length b = 1%nat) ->
  extends_by [] s s'.
Proof.
  intros ? Hc ? ? Hb Ho ? ? Hlen. split; rewrite ?app_nil_r; try done; [by eauto|by eauto|].
  rewrite Hb, length_app. destruct Hlen as [->|[? ->]]; simpl; lia.
Qed.

Lemma client_step_extends {U} (s s' : ManagerState U) : client_step s s' -> extends_by [] s s'.
Proof.
  destruct 1 as [e s|m s|e s|m s|u s].
  - unfold PushEvent. destruct (Z.gtb_spec (Z.of_nat (length (m_eventMsgBuf s))) BUF_LIMIT) as [|Hl]; [apply extends_refl|].
    destruct (IsEventValue (eventValue e)) eqn:He; [|apply extends_refl].
    apply (extends_add _ _ [UnitEvent e] []); simpl; try done; rewrite ?app_nil_r; auto.
    by rewrite push_back_not_full.
  - unfold PushMessage. destruct (Z.gtb_spec (Z.of_nat (length (m_eventMsgBuf s))) BUF_LIMIT) as [|Hl]; [apply extends_refl|].
    destruct (IsMessageValue (messageValue m)) eqn:He; [|apply extends_refl].
    apply (extends_add _ _ [UnitMessage m] []); simpl; try done; rewrite ?app_nil_r; auto.
    by rewrite push_back_not_full.
  - unfold PushAnsycEvent. destruct (IsEventValue (eventValue e)) eqn:He; [|apply extends_refl].
    apply (extends_add _ _ [] [UnitEvent e]); simpl; try done; rewrite ?app_nil_r; auto.
  - unfold PushAnsycMessage. destruct (IsMessageValue (messageValue m)) eqn:He; [|apply extends_refl].
    apply (extends_add _ _ [] [UnitMessage m]); simpl; try done; rewrite ?app_nil_r; auto.
  - apply (extends_add _ _ [] []); simpl; try done; rewrite ?app_nil_r; auto.
Qed.

Lemma client_extends {U} (s s' : ManagerState U) : rtc client_step s s' -> extends_by [] s s'.
Proof.
  induction 1; [apply extends_refl|].
  eapply (extends_trans [] []); [by apply client_step_extends|done].
Qed.

#[export] Hint Resolve client_extends client_ProcessEvent client_ProcessMessage client_Payback : bus.

Section Cycle.
Context {U : Type} {T : IModuleTable U} {HT : ClientModules T}.
Implicit Types s : ManagerState U.

Lemma payback_extends src v extra u s :
  extends_by (payback_calls (m_mapModulePoint s) src v extra) s (payback src v extra u s).
Proof.
  unfold payback, payback_calls, EXIST_MODULE. destruct extra as [p|]; [|apply extends_refl].
  destruct (m_mapModulePoint s !! i32 src) as [h|]; [|apply extends_refl].
  eapply (extends_trans [_] []); eauto with bus.
Qed.

Lemma dispatch_event_extends e s :
  (eventValue e =? EVENT_VALUE_CORE_MAIN_LOOP_EXIT) = false ->
  extends_by (unit_calls (m_mapModulePoint s) (UnitEvent e)) s (dispatch_event e s).
Proof.
  intros He. unfold dispatch_event, unit_calls, EXIST_MODULE. rewrite He.
  destruct (m_mapModulePoint s !! i32 (desMId e)) as [h|] eqn:Hh; [|apply extends_refl].
  assert (extends_by [CallProcessEvent h e] s (ProcessEvent h e (log_call (CallProcessEvent h e) s))) as Hp
    by (eapply (extends_trans [_] []); eauto with bus).
  pose proof (payback_extends (srcMId e) (eventValue e) (m_pstExtraInfo e) (UnitEvent e)
    (ProcessEvent h e (log_call (CallProcessEvent h e) s))) as Hb.
  rewrite (ext_map _ _ _ Hp) in Hb. apply (extends_trans [_] _ _ _ _ Hp Hb).
Qed.

Lemma broadcast_extends m hs s :
  extends_by ((fun h => CallProcessMessage h m) <$> hs) s
    (foldl (fun s h => ProcessMessage h m (log_call (CallProcessMessage h m) s)) s hs).
Proof.
  revert s. induction hs as [|h hs IH]; intros s; simpl; [apply extends_refl|].
  apply (extends_trans [CallProcessMessage h m] _ _ (ProcessMessage h m (log_call (CallProcessMessage h m) s))); [|apply IH].
  eapply (extends_trans [_] []); eauto with bus.
Qed.

Lemma dispatch_message_extends m s :
  extends_by (unit_calls (m_mapModulePoint s) (UnitMessage m)) s (dispatch_message m s).
Proof.
  unfold dispatch_message. simpl.
  pose proof (broadcast_extends m (modules_in_order (m_mapModulePoint s)) s) as Hb.
  eapply extends_trans; [exact Hb|].
  set (s1 := foldl _ s _) in *. rewrite <- (ext_map _ _ _ Hb). apply payback_extends.
Qed.

Lemma trim_extends s : extends_by [] s (trim_memory s).
Proof. split; simpl; rewrite ?app_nil_r; try done; [..|lia]; exists []; by rewrite app_nil_r. Qed.

(** One iteration on a well-classified head unit. *)
Lemma cycle_body_cases s u rest :
  m_eventMsgBuf s = u :: rest -> unit_ok u ->
  (exists e, u = UnitEvent e /\ eventValue e = EVENT_VALUE_CORE_MAIN_LOOP_EXIT /\
     cycle_body s = Exit (with_buf rest s)) \/
  extends_by (unit_calls (m_mapModulePoint s) u) (with_buf rest s) (cycle_body s).
Proof.
  intros Hbuf Hu. unfold cycle_body. rewrite Hbuf. destruct u as [e|m]; simpl in Hu |- *.
  - rewrite Hu. destruct (eventValue e =? EVENT_VALUE_CORE_MAIN_LOOP_EXIT) eqn:He.
    + left. exists e. apply Z.eqb_eq in He. by rewrite He.
    + right. rewrite <- (app_nil_r (match _ with Some _ => _ | None => _ end)).
      eapply extends_trans; [|apply trim_extends].
      pose proof (dispatch_event_extends e (with_buf rest s) He) as Hd.
      unfold unit_calls in Hd. by rewrite He in Hd.
  - rewrite (message_not_event _ Hu), Hu. right.
    rewrite <- (app_nil_r (_ ++ payback_calls _ _ _ _)).
    eapply extends_trans; [|apply trim_extends].
    apply (dispatch_message_extends m (with_buf rest s)).
Qed.

Lemma cycle_body_step s u rest :
  m_eventMsgBuf s = u :: rest -> unit_ok u ->
  m_mapModulePoint (cycle_body s) = m_mapModulePoint s /\
  calls (cycle_body s) = calls s ++ unit_calls (m_mapModulePoint s) u /\
  m_vectorIn (cycle_body s) = m_vectorIn s /\
  (exists new, m_eventMsgBuf (cycle_body s) = rest ++ new /\ Forall unit_ok new) /\
  (exists new, m_vectorOut (cycle_body s) = m_vectorOut s ++ new /\ Forall unit_ok new) /\
  Z.of_nat (length (m_eventMsgBuf (cycle_body s))) <= Z.max (Z.of_nat (length rest)) (BUF_LIMIT + 1).
Proof.
  intros Hbuf Hu. destruct (cycle_body_cases s u rest Hbuf Hu) as [(e & -> & He & ->)|[]].
  - simpl. rewrite He, Z.eqb_refl, app_nil_r. do 3 (split; [done|]).
    split; [|split; [|lia]]; exists []; by rewrite app_nil_r.
  - eauto 8.
Qed.

Lemma drain_run fuel s s' : drain fuel s = Ok s' -> exists H, dispatch_run s H s'.
Proof.
  revert s. induction fuel as [|fuel IH]; intros s; simpl;
    destruct (m_eventMsgBuf s) as [|u rest] eqn:Hbuf; intros Hd; inv_ok.
  - exists []. by constructor.
  - exists []. by constructor.
  - destruct (IH _ Hd) as [H HH]. exists (u :: H). by econstructor.
Qed.

Lemma dispatch_run_calls s H s' :
  dispatch_run s H s' -> Forall unit_ok (m_eventMsgBuf s) ->
  m_eventMsgBuf s' = [] /\
  (exists new, H = m_eventMsgBuf s ++ new /\ Forall unit_ok new) /\
  calls s' = calls s ++ mjoin (unit_calls (m_mapModulePoint s) <$> H).
Proof.
  induction 1 as [s Hs|s u rest H s' Hbuf Hrun IH]; intros Hok.
  - rewrite Hs. simpl. rewrite app_nil_r. split; [done|]. split; [by exists []|done].
  - rewrite Hbuf in Hok. inversion_clear Hok as [|? ? Hu Hrest].
    destruct (cycle_body_step s u rest Hbuf Hu) as (Hm & Hc & _ & (new & Hb & Hnew) & _).
    destruct IH as (He & (new' & -> & Hnew') & Hcs); [rewrite Hb; by apply Forall_app|].
    split; [done|]. split.
    + exists (new ++ new'). rewrite Hbuf, Hb, <- app_assoc. split; [done|by apply Forall_app].
    + rewrite Hcs, Hc, Hm. simpl. by rewrite <- app_assoc.
Qed.

End Cycle.

(** Filling the ring with [l]: what is lost is exactly the oldest excess. *)
Lemma push_back_all b l :
  Z.of_nat (length b) <= BUF_CAPACITY ->
  foldl push_back b l = drop (Z.to_nat (Z.of_nat (length (b ++ l)) - BUF_CAPACITY)) (b ++ l).
Proof.
  unfold BUF_CAPACITY. revert b. induction l as [|u l IH]; intros b Hb; simpl.
  - rewrite app_nil_r. replace (Z.to_nat _) with 0%nat by lia. done.
  - unfold push_back at 2, BUF_CAPACITY. destruct (Z.ltb_spec (Z.of_nat (length b)) 10240).
    + rewrite IH by (rewrite length_app; simpl; lia). by rewrite <- app_assoc.
    + destruct b as [|x b]; [simpl in *; lia|]. simpl in Hb |- *.
      rewrite IH by (rewrite length_app; simpl; lia). rewrite <- app_assoc. simpl.
      rewrite !length_app in *. simpl in *.
      replace (Z.to_nat (Z.of_nat (S (length b + S (length l))) - 10240))
        with (S (Z.to_nat (Z.of_nat (length b + S (length l)) - 10240))) by lia.
      done.
Qed.

Lemma push_back_length b u :
  Z.of_nat (length b) <= BUF_CAPACITY -> Z.of_nat (length (push_back b u)) <= BUF_CAPACITY.
Proof.
  unfold push_back, BUF_CAPACITY. intros H.
  destruct (Z.ltb_spec (Z.of_nat (length b)) 10240); rewrite length_app; simpl; [lia|].
  destruct b; simpl in *; lia.
Qed.

Lemma push_back_ok b u : Forall unit_ok b -> unit_ok u -> Forall unit_ok (push_back b u).
Proof.
  intros Hb Hu. unfold push_back. destruct (_ <? _); apply Forall_app; split; auto.
  destruct b; [done|]. by inversion Hb.
Qed.

Lemma collect_empty_in {U} (s : ManagerState U) :
  m_vectorIn s = [] ->
  collect s = with_vectors [] [] (with_buf (foldl push_back (m_eventMsgBuf s) (m_vectorOut s)) s).
Proof.
  intros Hin. unfold collect. case_bool_decide as Ho; simpl; by rewrite Hin, ?Ho.
Qed.

(** ** Reachable states *)

(** The steps of the running program: anything a module (or another thread, by
    the asynchronous operations) may do, the hand-over, and one iteration of the
    dispatch loop. *)
Inductive bus_step {U} {T : IModuleTable U} : ManagerState U -> ManagerState U -> Prop :=
| step_client s s' : client_step s s' -> bus_step s s'
| step_collect s : bus_step s (collect s)
| step_dispatch s : bus_step s (cycle_body s).

(** What holds between any two steps. *)
Record bus_inv {U} (s : ManagerState U) : Prop := {
  inv_buf : Forall unit_ok (m_eventMsgBuf s);
  inv_out : Forall unit_ok (m_vectorOut s);
  inv_in : m_vectorIn s = [];
  inv_size : Z.of_nat (length (m_eventMsgBuf s)) <= BUF_CAPACITY
}.

(** The state after construction, for modules [mp] and private state [u]. *)
Definition ModuleManagerImpl_init {U} (mp : gmap Z positive) (u : U) : ManagerState U :=
  mkManager [] [] [] false mp 0 0 [] u.

Lemma bus_inv_step {U} {T : IModuleTable U} {HT : ClientModules T} (s s' : ManagerState U) :
  bus_step s s' -> bus_inv s -> bus_inv s'.
Proof.
  destruct 1 as [s s' Hc|s|s]; intros [Hb Ho Hi Hs].
  - destruct (client_step_extends s s' Hc) as [_ _ _ Hin (n & En & ?) (o & Eo & ?) Hlen].
    split; rewrite ?En, ?Eo; [by apply Forall_app|by apply Forall_app|congruence|].
    rewrite <- En. unfold BUF_LIMIT, BUF_CAPACITY in *. lia.
  - rewrite collect_empty_in by done. simpl. clear Hi. revert Ho Hb Hs.
    generalize (m_eventMsgBuf s) (m_vectorOut s). intros b l. revert b.
    induction l as [|u l IH]; intros b Ho Hb Hs; simpl; [by split|].
    inversion_clear Ho. apply IH; auto using push_back_ok, push_back_length.
  - destruct (m_eventMsgBuf s) as [|u rest] eqn:Hbuf.
    { unfold cycle_body. rewrite Hbuf. by split; rewrite ?Hbuf. }
    inversion_clear Hb as [|? ? Hu Hrest].
    destruct (cycle_body_step s u rest Hbuf Hu) as (_ & _ & Hin & (n & En & ?) & (o & Eo & ?) & Hlen).
    split; rewrite ?En, ?Eo; [by apply Forall_app|by apply Forall_app|congruence|].
    rewrite <- En. unfold BUF_LIMIT, BUF_CAPACITY in *. simpl in Hs. lia.
Qed.

(** ** Properties *)

(** C1: in every state the running program can reach, whatever the modules and
    the other threads push, the ring holds only well-classified units (so each
    loop iteration removes one), never more than its capacity, and the incoming
    vector is empty between cycles, as [OnCycleTrigger] asserts. *)
Theorem bus_invariant {U} (T : IModuleTable U) (mp : gmap Z positive) (u : U) (s : ManagerState U)
    (HT : ClientModules T) (Hreach : rtc bus_step (ModuleManagerImpl_init mp u) s) :
  bus_inv s.
Proof.
  assert (bus_inv (ModuleManagerImpl_init mp u)) as Hi by (split; simpl; [done..|]; unfold BUF_CAPACITY; lia).
  induction Hreach as [|s1 s2 s3 H12 H23 IH]; [done|]. eauto using bus_inv_step.
Qed.

(** C2: one whole cycle, started with room for it, hands to the modules first
    everything that was queued, then the cycle message, then everything other
    threads had handed over, each group in the order it was pushed and before
    anything pushed during the cycle; the calls made are exactly those of the
    dispatched units in that order, and the queue ends empty. *)
Theorem OnCycleTrigger_fifo {U} (T : IModuleTable U) (fuel : nat) (s s' : ManagerState U)
    (HT : ClientModules T) (Hinv : bus_inv s)
    (Hroom : Z.of_nat (length (m_eventMsgBuf s)) <= BUF_LIMIT)
    (Hasync : Z.of_nat (length (m_eventMsgBuf s)) + 1 + Z.of_nat (length (m_vectorOut s)) <= BUF_CAPACITY)
    (Hrun : OnCycleTrigger fuel s = Ok s') :
  m_eventMsgBuf s' = [] /\
  exists later, Forall unit_ok later /\
    dispatch_run (collect (PushMessage cycle_message s).2)
      (m_eventMsgBuf s ++ [UnitMessage cycle_message] ++ m_vectorOut s ++ later) s' /\
    calls s' = calls s ++ mjoin (unit_calls (m_mapModulePoint s) <$>
      m_eventMsgBuf s ++ [UnitMessage cycle_message] ++ m_vectorOut s ++ later).
Proof.
  destruct Hinv as [Hb Ho Hi Hs]. unfold OnCycleTrigger in Hrun.
  assert (PushMessage cycle_message s =
    (true, with_buf (m_eventMsgBuf s ++ [UnitMessage cycle_message]) s)) as Hp.
  { unfold PushMessage. destruct (Z.gtb_spec (Z.of_nat (length (m_eventMsgBuf s))) BUF_LIMIT); [lia|].
    change (IsMessageValue (messageValue cycle_message)) with true. simpl.
    by rewrite push_back_not_full. }
  rewrite Hp, collect_empty_in in * by done. simpl in *.
  rewrite push_back_all in *
    by (rewrite length_app; unfold BUF_LIMIT, BUF_CAPACITY in *; simpl; lia).
  replace (Z.to_nat _) with 0%nat in * by (rewrite !length_app; unfold BUF_CAPACITY in *; simpl; lia).
  rewrite drop_0 in *.
  destruct (drain_run _ _ _ Hrun) as [H HH].
  destruct (dispatch_run_calls _ _ _ HH) as (He & (later & -> & Hl) & Hc).
  { simpl. rewrite !Forall_app. repeat split; auto. by constructor. }
  split; [done|]. exists later. split; [done|].
  simpl in *. repeat rewrite <- app_assoc in HH. repeat rewrite <- app_assoc in Hc.
  repeat rewrite <- app_assoc. split; [exact HH|exact Hc].
Qed.

(** The hand-over from other threads loses no unit and keeps their order as
    long as the ring has room; past its capacity it loses exactly the oldest
    excess units, queued ones first, and nothing is left in either vector. *)
Theorem collect_exact {U} (s : ManagerState U) (Hinv : bus_inv s) :
  let all := m_eventMsgBuf s ++ m_vectorOut s in
  m_eventMsgBuf (collect s) = drop (Z.to_nat (Z.of_nat (length all) - BUF_CAPACITY)) all /\
  m_vectorOut (collect s) = [] /\ m_vectorIn (collect s) = [].
Proof.
  destruct Hinv as [_ _ Hi Hs]. rewrite collect_empty_in by done. simpl.
  split; [by apply push_back_all|done].
Qed.

(** ** Termination *)

(** A method that appends at most [k] units to the queue, all of rank below [r]. *)
Definition pushes {U} (k : nat) (rank : BufUnit -> nat) (r : nat) (s s' : ManagerState U) : Prop :=
  exists new, m_eventMsgBuf s' = m_eventMsgBuf s ++ new /\ (length new <= k)%nat /\ Forall (fun u => (rank u < r)%nat) new.

(** The modules answer a unit only by units of lower rank, at most [k] per call. *)
Class RankedModules {U} (T : IModuleTable U) (k : nat) (rank : BufUnit -> nat) : Prop := {
  ranked_ProcessEvent : forall h e s, pushes k rank (rank (UnitEvent e)) s (ProcessEvent h e s);
  ranked_ProcessMessage : forall h m s, pushes k rank (rank (UnitMessage m)) s (ProcessMessage h m s);
  ranked_Payback : forall h v u s, pushes k rank (rank u) s (PaybackExtraInfo h v u s)
}.

(** A unit may cause one call for each of [n] modules and one more for the release of
    its object, each with [k] answers. *)
Definition unit_weight (k n : nat) (rank : BufUnit -> nat) (u : BufUnit) : nat := ((n + 1) * k + 1) ^ rank u.

Section Ranked.
Context {U : Type} {T : IModuleTable U} {k : nat} {rank : BufUnit -> nat} {HR : RankedModules T k rank}.
Implicit Types s : ManagerState U.

Lemma pushes_same j r s s' : m_eventMsgBuf s' = m_eventMsgBuf s -> pushes j rank r s s'.
Proof. intros E. exists []. rewrite app_nil_r. split; [done|]. split; [simpl; lia|done]. Qed.

Lemma pushes_trans j1 j2 r s1 s2 s3 : pushes j1 rank r s1 s2 -> pushes j2 rank r s2 s3 -> pushes (j1 + j2) rank r s1 s3.
Proof.
  intros (n1 & E1 & L1 & F1) (n2 & E2 & L2 & F2). exists (n1 ++ n2). rewrite E2, E1, app_assoc, length_app.
  split; [done|]. split; [lia|by apply Forall_app].
Qed.

Lemma pushes_log j r c s s' : pushes j rank r (log_call c s) s' -> pushes j rank r s s'.
Proof. done. Qed.

Lemma pushes_le j j' r s s' : (j <= j')%nat -> pushes j rank r s s' -> pushes j' rank r s s'.
Proof. intros Hj (new & E & L & F). exists new. split; [done|]. split; [lia|done]. Qed.

Lemma payback_pushes src v x u s : pushes k rank (rank u) s (payback src v x u s).
Proof.
  unfold payback. destruct x; [|by apply pushes_same].
  destruct (EXIST_MODULE src s); [|by apply pushes_same].
  eapply pushes_log, ranked_Payback.
Qed.

Lemma broadcast_pushes m hs s :
  pushes (length hs * k) rank (rank (UnitMessage m)) s
    (foldl (fun s h => ProcessMessage h m (log_call (CallProcessMessage h m) s)) s hs).
Proof.
  revert s. induction hs as [|h hs IH]; intros s; [by apply pushes_same|]. cbn [length Nat.mul foldl].
  eapply pushes_trans; [|apply IH]. eapply pushes_log, ranked_ProcessMessage.
Qed.

Lemma modules_in_order_length (m : gmap Z positive) : length (modules_in_order m) = size m.
Proof. unfold modules_in_order. rewrite length_fmap, merge_sort_Permutation. apply length_map_to_list. Qed.

Lemma cycle_body_pushes s u rest : m_eventMsgBuf s = u :: rest -> unit_ok u ->
  pushes ((size (m_mapModulePoint s) + 1) * k) rank (rank u) (with_buf rest s) (cycle_body s).
Proof.
  intros Hbuf Hu. unfold cycle_body. rewrite Hbuf. destruct u as [e|m]; simpl in Hu |- *.
  - rewrite Hu. destruct (_ =? _); [by apply pushes_same|].
    change (pushes ((size (m_mapModulePoint s) + 1) * k) rank (rank (UnitEvent e)) (with_buf rest s) (dispatch_event e (with_buf rest s))).
    unfold dispatch_event. destruct (EXIST_MODULE (desMId e) (with_buf rest s)) as [h|] eqn:Eh;
      [|by apply pushes_same].
    assert (1 <= size (m_mapModulePoint s))%nat.
    { destruct (decide (m_mapModulePoint s = ∅)) as [E|Hne]; [|apply map_size_non_empty_iff in Hne; lia].
      unfold EXIST_MODULE in Eh. simpl in Eh. by rewrite E in Eh. }
    apply (pushes_le (k + k)); [nia|]. eapply pushes_trans; [|apply payback_pushes].
    eapply pushes_log, ranked_ProcessEvent.
  - rewrite (message_not_event _ Hu), Hu.
    change (pushes ((size (m_mapModulePoint s) + 1) * k) rank (rank (UnitMessage m)) (with_buf rest s)
              (dispatch_message m (with_buf rest s))).
    rewrite Nat.mul_add_distr_r, Nat.mul_1_l. unfold dispatch_message. eapply pushes_trans; [|apply payback_pushes].
    simpl. rewrite <- modules_in_order_length. apply broadcast_pushes.
Qed.

(** What is pushed weighs less than what it answers. *)
Lemma answers_lighter n r new : (length new <= (n + 1) * k)%nat -> Forall (fun u => (rank u < r)%nat) new ->
  (sum_list_with (unit_weight k n rank) new < ((n + 1) * k + 1) ^ r)%nat.
Proof.
  intros Hl Hf. set (c := ((n + 1) * k)%nat) in *. destruct r as [|r].
  { destruct Hf; [simpl; lia|lia]. }
  enough (sum_list_with (unit_weight k n rank) new <= length new * (c + 1) ^ r)%nat.
  { rewrite Nat.pow_succ_r'. pose proof (Nat.pow_nonzero (c + 1) r ltac:(lia)). nia. }
  clear Hl. induction Hf as [|u new Hu Hf IH]; [done|]. simpl.
  enough (unit_weight k n rank u <= (c + 1) ^ r)%nat by lia. apply Nat.pow_le_mono_r; lia.
Qed.

Lemma drain_ends {HT : ClientModules T} fuel s : Forall unit_ok (m_eventMsgBuf s) ->
  (sum_list_with (unit_weight k (size (m_mapModulePoint s)) rank) (m_eventMsgBuf s) <= fuel)%nat ->
  exists s', drain fuel s = Ok s' /\ m_eventMsgBuf s' = [].
Proof.
  revert s. induction fuel as [|fuel IH]; intros s Hok Hle; simpl;
    destruct (m_eventMsgBuf s) as [|u rest] eqn:Hbuf; eauto; simpl in Hle; inversion_clear Hok as [|? ? Hu Hrest].
  { unfold unit_weight in Hle at 1. pose proof (Nat.pow_nonzero ((size (m_mapModulePoint s) + 1) * k + 1) (rank u) ltac:(lia)). lia. }
  destruct (cycle_body_step s u rest Hbuf Hu) as (Hm & _ & _ & (new' & Hb' & Hok') & _).
  destruct (cycle_body_pushes s u rest Hbuf Hu) as (new & Hb & Hlen & Hlow). simpl in Hb.
  assert (new' = new) as -> by (rewrite Hb in Hb'; by apply app_inv_head in Hb').
  pose proof (answers_lighter _ _ _ Hlen Hlow) as Hw.
  apply IH; rewrite ?Hm, Hb; [by apply Forall_app|]. rewrite sum_list_with_app.
  unfold unit_weight in Hle at 1. lia.
Qed.

End Ranked.

(** C17: with modules that answer a unit only by units of lower rank, at most [k] per
    call, a cycle ends whatever was queued and handed over by other threads, also when
    the ring overflows: every iteration removes the unit it dispatched, so a bound on
    their number follows from the number of modules, [k] and the ranks. *)
Theorem drain_terminates {U} (T : IModuleTable U) (k : nat) (rank : BufUnit -> nat) (s : ManagerState U)
    (HT : ClientModules T) (HR : RankedModules T k rank) (Hinv : bus_inv s) :
  let s1 := collect (PushMessage cycle_message s).2 in
  exists s', OnCycleTrigger (sum_list_with (unit_weight k (size (m_mapModulePoint s)) rank) (m_eventMsgBuf s1)) s = Ok s' /\
    m_eventMsgBuf s' = [].
Proof.
  intros s1. assert (Hinv1 : bus_inv s1).
  { eapply bus_inv_step; [apply step_collect|]. eapply bus_inv_step; [|exact Hinv]. apply step_client, client_PushMessage. }
  assert (Hm : m_mapModulePoint s1 = m_mapModulePoint s).
  { unfold s1, collect. rewrite <- (ext_map _ _ _ (client_step_extends _ _ (client_PushMessage cycle_message s))).
    by case_bool_decide. }
  unfold OnCycleTrigger. fold s1. apply drain_ends; [apply Hinv1|]. by rewrite Hm.
Qed.

(** The number of releases of attached objects among some calls. *)
Definition paybacks (cs : list ModuleCall) : list ModuleCall :=
  List.filter (fun c => match c with CallPayback _ _ _ => true | _ => false end) cs.

Lemma paybacks_payback_calls mp src v extra :
  paybacks (payback_calls mp src v extra) = payback_calls mp src v extra.
Proof. unfold payback_calls. destruct extra; [|done]. by destruct (mp !! i32 src). Qed.

Lemma paybacks_broadcast hs m l :
  paybacks (((fun h => CallProcessMessage h m) <$> hs) ++ l) = paybacks l.
Proof. by induction hs. Qed.

(** The release that a dispatched unit owes: by the module that sent it, if an object is
    attached, that module is loaded and, for an event, its destination is. *)
Definition owed (mp : gmap Z positive) (u : BufUnit) : option ModuleCall :=
  match m_pstExtraInfo (as_event u), mp !! i32 (srcMId (as_event u)) with
  | Some p, Some h =>
      match u with
      | UnitEvent e => if (eventValue e =? EVENT_VALUE_CORE_MAIN_LOOP_EXIT) || bool_decide (mp !! i32 (desMId e) = None)
                       then None else Some (CallPayback h (eventValue e) p)
      | UnitMessage m => Some (CallPayback h (messageValue m) p)
      end
  | _, _ => None
  end.

Lemma paybacks_unit mp u : exists cs, unit_calls mp u = cs ++ option_list (owed mp u) /\ paybacks cs = [].
Proof.
  destruct u as [e|m]; simpl; unfold owed; simpl.
  - destruct (_ =? _); simpl; [exists []; by repeat case_match|]. destruct (mp !! i32 (desMId e)) as [hd|].
    + exists [CallProcessEvent hd e]. split; [|done]. unfold payback_calls. by repeat case_match.
    + exists []. by repeat case_match.
  - exists ((fun h => CallProcessMessage h m) <$> modules_in_order mp). split.
    + f_equal. unfold payback_calls. by repeat case_match.
    + rewrite <- (app_nil_r (_ <$> _)). apply paybacks_broadcast.
Qed.

Lemma paybacks_app a b : paybacks (a ++ b) = paybacks a ++ paybacks b.
Proof. apply List.filter_app. Qed.

Lemma paybacks_owed mp u : paybacks (unit_calls mp u) = option_list (owed mp u).
Proof.
  destruct (paybacks_unit mp u) as (cs & -> & Hcs). rewrite paybacks_app, Hcs. unfold owed. by repeat case_match.
Qed.

Lemma paybacks_units mp H : paybacks (mjoin (unit_calls mp <$> H)) = omap (owed mp) H.
Proof.
  induction H as [|u H IH]; [done|].
  change (paybacks (unit_calls mp u ++ mjoin (unit_calls mp <$> H)) = omap (owed mp) (u :: H)).
  rewrite paybacks_app, paybacks_owed, IH. simpl. by destruct (owed mp u).
Qed.

Lemma dispatch_run_prefix {U} {T : IModuleTable U} {HT : ClientModules T} (s s' : ManagerState U) H1 u H2 :
  dispatch_run s (H1 ++ u :: H2) s' -> Forall unit_ok (m_eventMsgBuf s) ->
  exists cs, paybacks cs = [] /\
    calls s' = calls s ++ mjoin (unit_calls (m_mapModulePoint s) <$> H1) ++
               (cs ++ option_list (owed (m_mapModulePoint s) u)) ++ mjoin (unit_calls (m_mapModulePoint s) <$> H2).
Proof.
  intros Hrun Hok. destruct (dispatch_run_calls _ _ _ Hrun Hok) as (_ & _ & ->).
  destruct (paybacks_unit (m_mapModulePoint s) u) as (cs & Hu & Hcs). exists cs. split; [done|].
  rewrite fmap_app, fmap_cons, join_app, <- Hu. done.
Qed.

(** C16: a run of the dispatch loop releases the objects attached to the units it takes
    from the queue exactly once each, in the order of the units, by the module that sent
    the unit (when that module is loaded and, for an event, its destination is), as the
    last of the calls made for the unit; nothing else is released. *)
Theorem payback_exactly_once {U} (T : IModuleTable U) (fuel : nat) (s s' : ManagerState U)
    (HT : ClientModules T) (Hok : Forall unit_ok (m_eventMsgBuf s)) (Hrun : drain fuel s = Ok s') :
  exists H, dispatch_run s H s' /\ paybacks (calls s') = paybacks (calls s) ++ omap (owed (m_mapModulePoint s)) H /\
    forall H1 u H2, H = H1 ++ u :: H2 -> exists cs, paybacks cs = [] /\
      calls s' = (calls s ++ mjoin (unit_calls (m_mapModulePoint s) <$> H1)) ++
                 (cs ++ option_list (owed (m_mapModulePoint s) u)) ++ mjoin (unit_calls (m_mapModulePoint s) <$> H2).
Proof.
  destruct (drain_run _ _ _ Hrun) as [H HH]. exists H. split; [done|]. split.
  - destruct (dispatch_run_calls _ _ _ HH Hok) as (_ & _ & ->). rewrite paybacks_app. f_equal.
    apply paybacks_units.
  - intros H1 u H2 ->. destruct (dispatch_run_prefix _ _ _ _ _ HH Hok) as (cs & Hcs & ->). exists cs.
    split; [done|]. by rewrite <- !app_assoc.
Qed.

(** An event for a module that is not loaded makes no call at all, so the
    object attached to it is never given back to its sender. *)
Theorem event_without_destination_leaks (mp : gmap Z positive) (e : Event) :
  mp !! i32 (desMId e) = None -> unit_calls mp (UnitEvent e) = [].
Proof. intros H. simpl. rewrite H. by destruct (_ =? _). Qed.

(** The branches of the synchronous and asynchronous pushes.  A push into
    a ring of at most 10000 units appends and overwrites nothing; a fuller ring
    refuses with [FALSE]; a value of the wrong class leaves the bus unchanged,
    and is answered [TRUE] by the synchronous and [FALSE] by the asynchronous
    operation. *)
Theorem push_interface {U} (s : ManagerState U) (e : Event) :
  let n := Z.of_nat (length (m_eventMsgBuf s)) in
  (n > BUF_LIMIT -> PushEvent e s = (false, s)) /\
  (n <= BUF_LIMIT -> IsEventValue (eventValue e) = true ->
     PushEvent e s = (true, with_buf (m_eventMsgBuf s ++ [UnitEvent e]) s)) /\
  (n <= BUF_LIMIT -> IsEventValue (eventValue e) = false ->
     PushEvent e s = (true, s) /\ PushAnsycEvent e s = (false, s)) /\
  (IsEventValue (eventValue e) = true ->
     PushAnsycEvent e s = (true, with_vectors (m_vectorOut s ++ [UnitEvent e]) (m_vectorIn s) s)).
Proof.
  simpl. unfold PushEvent, PushAnsycEvent.
  destruct (Z.gtb_spec (Z.of_nat (length (m_eventMsgBuf s))) BUF_LIMIT).
  - repeat split; intros; try lia; by rewrite ?H0.
  - repeat split; intros; try lia; rewrite ?H0, ?H1; try done.
    by rewrite push_back_not_full.
Qed.

(** A service value declared by a module reaches the [CallDirect] of exactly
    that module, an event value used as a service likewise; with the module
    absent the answer is -1, and a value of any other class is answered 0. *)
Theorem CallService_routes {U} (T : IModuleTable U) (s : ManagerState U) (m : ModuleName) (k p : Z)
    (Hk : 0 <= k < SERVICE_VALUE_RANGE) :
  let sv := SERVICE_VALUE_BEGIN (MODULE_ID m) + k in
  let ev := EVENT_VALUE_BEGIN (MODULE_ID m) + k in
  match m_mapModulePoint s !! MODULE_ID m with
  | Some h => CallService sv p s = CallDirect h sv p s /\ CallService ev p s = CallDirect h ev p s
  | None => CallService sv p s = (-1, s) /\ CallService ev p s = (-1, s)
  end /\
  forall v, IsMessageValue v = true -> CallService v p s = (0, s).
Proof.
  assert (0 <= MODULE_ID m <= 0xFFFE) as Hm
    by (pose proof (MODULE_ID_range m); unfold MODULE_ID_END in *; lia).
  unfold SERVICE_VALUE_RANGE in Hk. simpl. unfold CallService, EXIST_MODULE.
  destruct (service_value_decode (MODULE_ID m) k Hm Hk) as [-> ->].
  destruct (event_value_decode (MODULE_ID m) k Hm Hk) as [He ->].
  rewrite He, (event_not_service _ He), i32_small by lia.
  split; [by destruct (m_mapModulePoint s !! MODULE_ID m)|].
  intros v Hv. by rewrite (message_not_service _ Hv), (message_not_event _ Hv).
Qed.

(** ** A concrete instance

    Two modules; the one with handle 1 answers a request event with a message. *)

Module Demo.

Definition REQUEST : Event :=
  MakeEvent (MODULE_ID MAINFRAME) (EVENT_VALUE_BEGIN (MODULE_ID PLUGIN)) (MODULE_ID PLUGIN) 0 0 0 0 (Some 7%positive).

Definition RESPONSE : Message :=
  MakeMessage (MODULE_ID PLUGIN) (MESSAGE_VALUE_BEGIN (MODULE_ID PLUGIN)) 0 0 0 0 None.

#[global] Instance table : IModuleTable unit := {
  ProcessEvent h e s := if bool_decide (e = REQUEST) then (PushMessage RESPONSE s).2 else s;
  ProcessMessage h m s := s;
  CallDirect h v p s := (v - p, s);
  PaybackExtraInfo h v u s := s
}.

Definition modules : gmap Z positive := {[ MODULE_ID PLUGIN := 1%positive; MODULE_ID MAINFRAME := 2%positive ]}.

Definition start : ManagerState unit :=
  (PushAnsycEvent REQUEST (PushEvent REQUEST (ModuleManagerImpl_init modules tt)).2).2.

Definition rank (u : BufUnit) : nat :=
  match u with
  | UnitEvent _ => 1
  | UnitMessage _ => 0
  end.

Lemma table_client : ClientModules table.
Proof.
  split; intros; simpl; try done. case_bool_decide; [|done].
  apply rtc_once. constructor.
Qed.

Lemma start_reach : rtc bus_step (ModuleManagerImpl_init modules tt) start.
Proof.
  eapply rtc_l; [apply step_client, (client_PushEvent REQUEST)|].
  eapply rtc_l; [apply step_client, (client_PushAnsycEvent REQUEST)|]. apply rtc_refl.
Qed.

Lemma start_inv : bus_inv start.
Proof.
  assert (unit_ok (UnitEvent REQUEST)) by reflexivity.
  split; [by repeat constructor|by repeat constructor|reflexivity|vm_compute; discriminate].
Qed.

Lemma table_ranked : RankedModules table 1 rank.
Proof.
  split; intros; simpl; try (by apply pushes_same).
  case_bool_decide; [|by apply pushes_same].
  unfold PushMessage. destruct (Z.gtb_spec (Z.of_nat (length (m_eventMsgBuf s))) BUF_LIMIT); simpl.
  - by apply pushes_same.
  - exists [UnitMessage RESPONSE]. simpl. rewrite push_back_not_full by done. repeat constructor.
Qed.

End Demo.

Lemma bus_invariant_witness : bus_inv Demo.start.
Proof. exact (bus_invariant Demo.table Demo.modules tt Demo.start Demo.table_client Demo.start_reach). Defined.

Lemma OnCycleTrigger_fifo_witness :
  exists s', OnCycleTrigger 10 Demo.start = Ok s' /\ m_eventMsgBuf s' = [].
Proof.
  eexists. split; [vm_compute; reflexivity|].
  eapply (OnCycleTrigger_fifo Demo.table 10 Demo.start _ Demo.table_client Demo.start_inv).
  - vm_compute. discriminate.
  - vm_compute. discriminate.
  - vm_compute. reflexivity.
Defined.

Lemma collect_exact_witness : m_vectorOut (collect Demo.start) = [].
Proof. apply (collect_exact Demo.start Demo.start_inv). Defined.

Lemma drain_terminates_witness :
  exists s', OnCycleTrigger 9 Demo.start = Ok s' /\ m_eventMsgBuf s' = [].
Proof. exact (drain_terminates Demo.table 1 Demo.rank Demo.start Demo.table_client Demo.table_ranked Demo.start_inv). Defined.

Lemma payback_exactly_once_witness :
  exists s' H, drain 2 Demo.start = Ok s' /\ paybacks (calls s') = [CallPayback 2%positive (eventValue Demo.REQUEST) 7%positive] /\
    paybacks (calls s') = paybacks (calls Demo.start) ++ omap (owed (m_mapModulePoint Demo.start)) H.
Proof.
  assert (E : exists s', drain 2 Demo.start = Ok s' /\
    paybacks (calls s') = [CallPayback 2%positive (eventValue Demo.REQUEST) 7%positive]).
  { eexists. split; vm_compute; reflexivity. }
  destruct E as (s' & E & P).
  destruct (payback_exactly_once Demo.table 2 Demo.start s' Demo.table_client (inv_buf _ Demo.start_inv) E) as (H & _ & HP & _).
  exists s', H. split; [exact E|]. split; [exact P|exact HP].
Defined.

Lemma event_without_destination_leaks_witness : unit_calls ∅ (UnitEvent Demo.REQUEST) = [].
Proof. apply (event_without_destination_leaks ∅ Demo.REQUEST). reflexivity. Defined.

Lemma push_interface_witness :
  PushEvent Demo.REQUEST Demo.start = (true, with_buf [UnitEvent Demo.REQUEST; UnitEvent Demo.REQUEST] Demo.start).
Proof. apply (push_interface Demo.start Demo.REQUEST); vm_compute; congruence. Defined.

Lemma CallService_routes_witness :
  CallService (SERVICE_VALUE_BEGIN (MODULE_ID PLUGIN) + 3) 0 Demo.start =
  (SERVICE_VALUE_BEGIN (MODULE_ID PLUGIN) + 3, Demo.start).
Proof.
  assert (0 <= 3 < SERVICE_VALUE_RANGE) as H by (vm_compute; split; congruence).
  exact (proj1 (proj1 (CallService_routes Demo.table Demo.start PLUGIN 3 0 H))).
Defined.
