(* ===== verification/Dispatch.v ===== *)
(** * Dispatch: the handler tables of a module

    Models the table macros of include/Module.h: a table built by
    [BEGIN_EVENT_MAP] .. [END_EVENT_MAP] (and their message and service
    versions) is an array ended by a zero entry, scanned by [PROCESS_EVENT],
    [PROCESS_MESSAGE] and [CALL_DIRECT]. *)
From stdpp Require Import prelude.
From S2P Require Import Prelude Protocol.

Section Tables.
Context {H : Type}.

(** One entry: a value and a member-function pointer, NULL in the terminator. *)
Definition HandlerMapEntry : Type := Z * option H.

(** [BEGIN_..._MAP] with one [ON_...] line per pair, closed by [END_..._MAP]. *)
Definition HANDLER_MAP (entries : list (Z * H)) : list HandlerMapEntry :=
  (prod_map id Some <$> entries) ++ [(0, None)].

(** The scan all three macros share: it stops at a zero or invalid value, takes
    the first entry with the sought value and a handler, and runs past the end of
    the array if nothing stops it. *)
Fixpoint scan_map (invalid v : Z) (table : list HandlerMapEntry) : outcome (option H) :=
  match table with
  | [] => Fault OutOfRange
  | (n, h) :: table =>
      if (n =? invalid) || (n =? 0) then Ok None
      else match h with
           | Some f => if n =? v then Ok (Some f) else scan_map invalid v table
           | None => scan_map invalid v table
           end
  end.

(** The handler [PROCESS_EVENT] runs for an event, if any. *)
Definition PROCESS_EVENT (table : list HandlerMapEntry) (evt : Event) : outcome (option H) :=
  scan_map EVENT_VALUE_INVALID (eventValue evt) table.

Definition PROCESS_MESSAGE (table : list HandlerMapEntry) (msg : Message) : outcome (option H) :=
  scan_map MESSAGE_VALUE_INVALID (messageValue msg) table.

(** [CALL_DIRECT] answers -1 unless a handler answers. *)
Definition CALL_DIRECT (table : list HandlerMapEntry) (run : H -> Z) (service_value : Z) : outcome Z :=
  if (service_value =? SERVICE_VALUE_INVALID) || (service_value =? 0) then Ok (-1)
  else h ← scan_map SERVICE_VALUE_INVALID service_value table;
       Ok (match h with Some f => run f | None => -1 end).

(** A table whose values are real values, each used once. *)
Definition map_wf (invalid : Z) (entries : list (Z * H)) : Prop :=
  NoDup entries.*1 /\ Forall (fun n => n <> invalid /\ n <> 0) entries.*1.

Lemma scan_map_spec invalid v entries :
  map_wf invalid entries ->
  exists r, scan_map invalid v (HANDLER_MAP entries) = Ok r /\
    forall f, r = Some f <-> (v, f) ∈ entries.
Proof.
  unfold HANDLER_MAP. intros [Hnd Hval]. induction entries as [|[n h] entries IH].
  - exists None. simpl. rewrite orb_true_r. split; [done|]. intros f. split; [done|].
    intros Hin. by apply not_elem_of_nil in Hin.
  - apply NoDup_cons in Hnd as [Hn Hnd]. inversion_clear Hval as [|? ? [Hi H0] Hval'].
    destruct IH as (r & IHr & Hr); [done|done|]. simpl.
    apply Z.eqb_neq in Hi as ->. apply Z.eqb_neq in H0 as ->. simpl.
    destruct (Z.eqb_spec n v) as [->|Hne].
    + exists (Some h). split; [done|]. intros f. rewrite elem_of_cons. split; [naive_solver|].
      intros [Heq|Hin]; [by simplify_eq|].
      exfalso. apply Hn. apply list_elem_of_fmap. by exists (v, f).
    + exists r. split; [done|]. intros f. rewrite Hr, elem_of_cons. naive_solver.
Qed.

End Tables.

Arguments HandlerMapEntry _ : clear implicits.

(** A table built by the macros from distinct, valid values is scanned
    without running past its end, and the handler found for a value is exactly
    the one registered for it; a service value without handler is answered -1. *)
Theorem handler_tables_total {H} (entries : list (Z * H)) (run : H -> Z) (evt : Event) (sv : Z)
    (Hwf : map_wf EVENT_VALUE_INVALID entries) :
  (exists r, PROCESS_EVENT (HANDLER_MAP entries) evt = Ok r /\
     forall f, r = Some f <-> (eventValue evt, f) ∈ entries) /\
  (forall f, (sv, f) ∈ entries -> CALL_DIRECT (HANDLER_MAP entries) run sv = Ok (run f)) /\
  (sv ∉ entries.*1 -> CALL_DIRECT (HANDLER_MAP entries) run sv = Ok (-1)).
Proof.
  split; [by apply scan_map_spec|].
  destruct (scan_map_spec SERVICE_VALUE_INVALID sv entries Hwf) as (r & Hr & Hin).
  unfold CALL_DIRECT. rewrite Hr. simpl. split.
  - intros f Hf. destruct Hwf as [_ Hval].
    assert (sv <> SERVICE_VALUE_INVALID /\ sv <> 0) as [Hi H0].
    { rewrite Forall_forall in Hval. apply Hval, list_elem_of_fmap. by exists (sv, f). }
    apply Z.eqb_neq in Hi as ->. apply Z.eqb_neq in H0 as ->. simpl.
    apply Hin in Hf as ->. done.
  - intros Hno. destruct (_ || _); [done|]. destruct r as [f|]; [|done].
    exfalso. apply Hno, list_elem_of_fmap. exists (sv, f). split; [done|]. by apply Hin.
Qed.

Lemma handler_tables_total_witness :
  CALL_DIRECT (HANDLER_MAP [(SERVICE_VALUE_BEGIN 5, 1%nat); (SERVICE_VALUE_BEGIN 5 + 1, 2%nat)])
    Z.of_nat (SERVICE_VALUE_BEGIN 5 + 1) = Ok 2.
Proof.
  assert (map_wf EVENT_VALUE_INVALID [(SERVICE_VALUE_BEGIN 5, 1%nat); (SERVICE_VALUE_BEGIN 5 + 1, 2%nat)]) as Hwf.
  { split; [apply (bool_decide_unpack _); vm_compute; exact I|].
    repeat constructor; vm_compute; congruence. }
  apply (proj1 (proj2 (handler_tables_total _ Z.of_nat
    (MakeEvent 0 0 0 0 0 0 0 None) (SERVICE_VALUE_BEGIN 5 + 1) Hwf)) 2%nat).
  apply list_elem_of_further, list_elem_of_here.
Defined.
