(* ===== verification/Loader.v ===== *)
(** * Loader: module factories, loading and shutting down

    Models the default module base class and factory of include/ModuleImpl.h,
    and [LoadModules] and [Destroy] of src/ModuleManager/ModuleManagerImpl.cpp.
    The dynamic libraries and the exports found in them are the environment
    [DllEnv], an argument of the operations. *)
From stdpp Require Import prelude gmap sorting.
From S2P Require Import Prelude Protocol Bus.

(** ** The default factory *)

(** [ModuleFactoryImpl<T>]: the one module it has created, if any; [fresh] is
    the address the next [new T] returns. *)
Record ModuleFactoryImpl := mkFactory {
  m_pstIModule : option positive;
  fresh_addr : positive
}.

Definition factory_QueryModuleCounter : Z := 1.

Definition factory_QueryModulePoint (counter : Z) (f : ModuleFactoryImpl) : option positive * ModuleFactoryImpl :=
  if counter =? 1 then
    match m_pstIModule f with
    | Some p => (Some p, f)
    | None => (Some (fresh_addr f), mkFactory (Some (fresh_addr f)) (Pos.succ (fresh_addr f)))
    end
  else (None, f).

(** The branches that only assert leave the factory unchanged. *)
Definition factory_ReleaseModulePoint (counter : Z) (p : option positive) (f : ModuleFactoryImpl) : ModuleFactoryImpl :=
  if (counter =? 1) && bool_decide (p <> None) && bool_decide (m_pstIModule f = p)
  then mkFactory None (fresh_addr f) else f.

(** [ModuleImpl::PaybackExtraInfo]: the object it deletes, by the class of the
    value. *)
Definition ModuleImpl_PaybackExtraInfo (valueId : Z) (u : BufUnit) : option positive :=
  if IsEventValue valueId then m_pstExtraInfo (as_event u)
  else if IsMessageValue valueId then msg_pstExtraInfo (as_message u)
  else None.

(** [PlugInModule::PaybackExtraInfo] overrides it and returns at once. *)
Definition PlugInModule_PaybackExtraInfo (valueId : Z) (u : BufUnit) : option positive := None.

(** ** Libraries *)

Record IModuleFactory := mkIModuleFactory {
  QueryModuleCounter : option Z;
  QueryModulePoint : Z -> option (list (option positive))
}.

(** What [GetProcAddress] finds: the first export (None when missing) and what
    calling it returns, and whether the second is there. *)
Record Dll := mkDll {
  dll_GetModuleFactory : option (option IModuleFactory);
  dll_ReleaseModuleFactory : bool
}.

Definition DllEnv : Type := list Z -> option Dll.

Record ModuleInterface := mkModuleInterface {
  m_pReleaseModuleFactoryFunc : bool;
  m_pModuleFactory : option IModuleFactory;
  m_pModules : list (option positive)
}.

(** A call of [Destroy] on a library: of its factory, with the number of modules and the
    first of them, or of its exported function, with the factory. *)
Inductive ReleaseCall :=
| ReleaseModulePoint (factory : IModuleFactory) (counter : Z) (first : option positive)
| ReleaseModuleFactory (factory : IModuleFactory).

(** The part of the manager these operations use; [loaded] and [unloaded] are
    the modules whose [Load] and [Unload] ran, [released] the calls that release them and
    their factories, [boxes] the number of error boxes shown. *)
Record LoaderState := mkLoader {
  m_mapModuleInterface : gmap (list Z) ModuleInterface;
  ld_mapModulePoint : gmap Z (option positive);
  loaded : list positive;
  unloaded : list positive;
  released : list ReleaseCall;
  boxes : Z
}.

Definition show_box (s : LoaderState) : LoaderState :=
  mkLoader (m_mapModuleInterface s) (ld_mapModulePoint s) (loaded s) (unloaded s) (released s) (boxes s + 1).

Definition set_interface (name : list Z) (mi : ModuleInterface) (s : LoaderState) : LoaderState :=
  mkLoader (<[name := mi]> (m_mapModuleInterface s)) (ld_mapModulePoint s) (loaded s) (unloaded s) (released s) (boxes s).

(** [m_mapModulePoint[ids[i]] = m_pModules[i]] for [i < nCount]. *)
Definition set_points (ids : list Z) (ps : list (option positive)) (s : LoaderState) : LoaderState :=
  mkLoader (m_mapModuleInterface s)
    (foldl (fun m '(id, p) => <[id := p]> m) (ld_mapModulePoint s) (zip ids ps))
    (loaded s) (unloaded s) (released s) (boxes s).

(** The body of the loop over the library list. *)
Definition load_library (env : DllEnv) (s : LoaderState) (item : list Z * list Z) : outcome LoaderState :=
  let '(name, ids) := item in
  match env name with
  | None => Ok (show_box s)
  | Some dll =>
      let mi := mkModuleInterface (dll_ReleaseModuleFactory dll) None (replicate (length ids) None) in
      let s := set_interface name mi s in
      pFactory ← deref (dll_GetModuleFactory dll);
      match pFactory with
      | None => Ok (show_box s)
      | Some factory =>
          match QueryModuleCounter factory with
          | None => Ok (show_box s)
          | Some nCount =>
              let mi := mkModuleInterface (dll_ReleaseModuleFactory dll) (Some factory) (m_pModules mi) in
              let s := set_interface name mi s in
              if nCount <=? Z.of_nat (length (m_pModules mi)) then
                _ ← vec_at (m_pModules mi) 0;
                match QueryModulePoint factory nCount with
                | None => Ok (show_box s)
                | Some ps =>
                    let ms := ps ++ drop (length ps) (m_pModules mi) in
                    let s := set_interface name
                               (mkModuleInterface (dll_ReleaseModuleFactory dll) (Some factory) ms) s in
                    Ok (set_points (take (Z.to_nat nCount) ids) ms s)
                end
              else Ok s
          end
      end
  end.

Definition points_in_order (m : gmap Z (option positive)) : list (option positive) :=
  (merge_sort (key_le fst) (map_to_list m)).*2.

Definition run_Load (s : LoaderState) (p : option positive) : outcome LoaderState :=
  h ← deref p;
  Ok (mkLoader (m_mapModuleInterface s) (ld_mapModulePoint s) (loaded s ++ [h]) (unloaded s) (released s) (boxes s)).

Definition LoadModules (env : DllEnv) (dlls : list (list Z * list Z)) (s : LoaderState) : outcome LoaderState :=
  s ← for_each (load_library env) s dlls;
  for_each run_Load s (points_in_order (ld_mapModulePoint s)).

Definition run_Unload (s : LoaderState) (p : option positive) : outcome LoaderState :=
  h ← deref p;
  Ok (mkLoader (m_mapModuleInterface s) (ld_mapModulePoint s) (loaded s) (unloaded s ++ [h]) (released s) (boxes s)).

Definition log_release (c : ReleaseCall) (s : LoaderState) : LoaderState :=
  mkLoader (m_mapModuleInterface s) (ld_mapModulePoint s) (loaded s) (unloaded s) (released s ++ [c]) (boxes s).

(** Both calls of the second loop of [Destroy] go through pointers that were set
    only if loading got that far. *)
Definition release_interface (s : LoaderState) (mi : ModuleInterface) : outcome LoaderState :=
  factory ← deref (m_pModuleFactory mi);
  first ← vec_at (m_pModules mi) 0;
  let s := log_release (ReleaseModulePoint factory (Z.of_nat (length (m_pModules mi))) first) s in
  if m_pReleaseModuleFactoryFunc mi then Ok (log_release (ReleaseModuleFactory factory) s) else Fault NullDeref.

(** The order of [std::wstring]. *)
Fixpoint wcs_le (a b : list Z) : bool :=
  match a, b with
  | [], _ => true
  | _ :: _, [] => false
  | x :: a, y :: b => (x <? y) || ((x =? y) && wcs_le a b)
  end.

Definition name_le {A} (a b : list Z * A) : Prop := wcs_le a.1 b.1 = true.

#[global] Instance name_le_dec {A} : RelDecision (@name_le A).
Proof. intros a b. unfold name_le. apply _. Defined.

Definition interfaces_in_order (m : gmap (list Z) ModuleInterface) : list ModuleInterface :=
  (merge_sort name_le (map_to_list m)).*2.

Definition Destroy (s : LoaderState) : outcome LoaderState :=
  s ← for_each run_Unload s (points_in_order (ld_mapModulePoint s));
  let s := mkLoader (m_mapModuleInterface s) ∅ (loaded s) (unloaded s) (released s) (boxes s) in
  s ← for_each release_interface s (interfaces_in_order (m_mapModuleInterface s));
  Ok (mkLoader ∅ (ld_mapModulePoint s) (loaded s) (unloaded s) (released s) (boxes s)).

Definition loader_init : LoaderState := mkLoader ∅ ∅ [] [] [] 0.

(** ** Well-formed libraries *)

(** A library that is absent, or that gives its factory and its modules. *)
Definition dll_good (env : DllEnv) (item : list Z * list Z) : Prop :=
  match env item.1 with
  | None => True
  | Some dll =>
      dll_ReleaseModuleFactory dll = true /\
      exists f n hs, dll_GetModuleFactory dll = Some (Some f) /\ QueryModuleCounter f = Some n /\
        1 <= n <= Z.of_nat (length item.2) /\ QueryModulePoint f n = Some (Some <$> hs) /\
        Z.of_nat (length hs) = n
  end.

(** The entry of a well-formed library, and the modules it registers. *)
Definition library_interface (ids : list Z) (f : IModuleFactory) (hs : list positive) : ModuleInterface :=
  mkModuleInterface true (Some f) ((Some <$> hs) ++ replicate (length ids - length hs) None).

Definition dll_modules (env : DllEnv) (item : list Z * list Z) : option (IModuleFactory * list positive) :=
  match env item.1 with
  | Some dll =>
      match dll_GetModuleFactory dll with
      | Some (Some f) =>
          match QueryModuleCounter f with
          | Some n => match QueryModulePoint f n with Some ps => Some (f, omap id ps) | None => None end
          | None => None
          end
      | _ => None
      end
  | None => None
  end.

Definition dll_points (env : DllEnv) (item : list Z * list Z) : list (Z * positive) :=
  match dll_modules env item with Some (_, hs) => zip item.2 hs | None => [] end.

Definition register (m : gmap Z (option positive)) (l : list (Z * positive)) : gmap Z (option positive) :=
  foldl (fun m '(id, h) => <[id := Some h]> m) m l.

(** The calls that release a library. *)
Definition release_calls (mi : ModuleInterface) : list ReleaseCall :=
  match m_pModuleFactory mi, m_pModules mi with
  | Some f, first :: _ => [ReleaseModulePoint f (Z.of_nat (length (m_pModules mi))) first; ReleaseModuleFactory f]
  | _, _ => []
  end.

Definition interface_ok (mi : ModuleInterface) : Prop :=
  is_Some (m_pModuleFactory mi) /\ (0 < length (m_pModules mi))%nat /\
  m_pReleaseModuleFactoryFunc mi = true.

Definition missing (env : DllEnv) (item : list Z * list Z) : bool := bool_decide (env item.1 = None).

(** What the loop over the libraries [l] has done. *)
Record loader_ok (env : DllEnv) (l : list (list Z * list Z)) (s : LoaderState) : Prop := {
  ok_interfaces : map_Forall (fun _ mi => interface_ok mi) (m_mapModuleInterface s);
  ok_entries : forall name mi, m_mapModuleInterface s !! name = Some mi <->
    exists ids f hs, (name, ids) ∈ l /\ dll_modules env (name, ids) = Some (f, hs) /\ mi = library_interface ids f hs;
  ok_points : ld_mapModulePoint s = register ∅ (flat_map (dll_points env) l);
  ok_boxes : boxes s = Z.of_nat (length (List.filter (missing env) l));
  ok_quiet : loaded s = [] /\ unloaded s = [] /\ released s = []
}.

(** ** Lemmas *)

Lemma for_each_elem {S A} (body : S -> A -> outcome S) l s s' a :
  for_each body s l = Ok s' -> a ∈ l -> exists s1 s2, body s1 a = Ok s2.
Proof.
  revert s. induction l as [|x l IH]; intros s Hl Ha; [by apply not_elem_of_nil in Ha|].
  simpl in Hl. inv_ok. apply elem_of_cons in Ha as [->|Ha]; eauto.
Qed.

Lemma zip_take_app {A B} (l : list A) (k1 k2 : list B) :
  zip (take (length k1) l) (k1 ++ k2) = zip l k1.
Proof. revert l. induction k1 as [|b k1 IH]; intros [|a l]; simpl; [done..|]. by rewrite IH. Qed.

Lemma set_points_register ids hs m :
  foldl (fun m '(id, p) => <[id := p]> m) m (zip ids (Some <$> hs)) = register m (zip ids hs).
Proof. unfold register. revert ids m. induction hs as [|h hs IH]; intros [|id ids] m; simpl; [done..|]. apply IH. Qed.

Lemma register_some l m : map_Forall (fun _ p => is_Some p) m -> map_Forall (fun _ p => is_Some p) (register m l).
Proof.
  unfold register. revert m. induction l as [|[id h] l IH]; intros m Hm; simpl; [done|]. apply IH. by apply map_Forall_insert_2.
Qed.

Lemma dll_modules_good env item dll f n hs : env item.1 = Some dll -> dll_GetModuleFactory dll = Some (Some f) ->
  QueryModuleCounter f = Some n -> QueryModulePoint f n = Some (Some <$> hs) -> dll_modules env item = Some (f, hs).
Proof.
  intros H1 H2 H3 H4. unfold dll_modules. rewrite H1, H2, H3, H4. do 2 f_equal. clear. induction hs; simpl; [done|]. by f_equal.
Qed.

(** One more library. *)
Lemma load_library_ok env l s item :
  loader_ok env l s -> dll_good env item -> item.1 ∉ l.*1 ->
  exists s', load_library env s item = Ok s' /\ loader_ok env (l ++ [item]) s'.
Proof.
  destruct item as [name ids]. unfold dll_good, load_library. intros [Hi He Hp Hb Hq] Hg Hnew. simpl in Hg, Hnew.
  destruct (env name) as [dll|] eqn:Eenv.
  - destruct Hg as (Hrel & f & n & hs & Hget & Hcnt & Hn & Hqp & Hlen).
    pose proof (dll_modules_good env (name, ids) dll f n hs Eenv Hget Hcnt Hqp) as Hmod.
    rewrite Hget. simpl. rewrite Hcnt, length_replicate. destruct (Z.leb_spec n (Z.of_nat (length ids))) as [_|?]; [|lia].
    destruct ids as [|id ids']; [simpl in *; lia|]. set (ids := id :: ids') in *. simpl. rewrite Hqp.
    eexists. split; [done|]. unfold set_points, set_interface.
    cbn [m_mapModuleInterface ld_mapModulePoint loaded unloaded released boxes]. rewrite !insert_insert_eq, Hrel.
    assert (Hent : (Some <$> hs) ++ drop (length (Some <$> hs)) (None :: replicate (length ids') None) =
                   m_pModules (library_interface ids f hs)).
    { unfold library_interface. simpl m_pModules. f_equal. rewrite length_fmap.
      change (None :: replicate (length ids') None) with (replicate (length ids) (None : option positive)). by rewrite drop_replicate. }
    split; cbn [m_mapModuleInterface ld_mapModulePoint loaded unloaded released boxes].
    + apply map_Forall_insert_2; [|done]. repeat split; simpl; [by eexists|rewrite length_app, length_fmap; lia].
    + intros name' mi. rewrite lookup_insert_Some, He. setoid_rewrite elem_of_app. setoid_rewrite list_elem_of_singleton. split.
      * intros [[<- <-]|[Hne (ids0 & f0 & hs0 & Hin & Hm & ->)]]; [|by eauto 8].
        exists ids, f, hs. split; [by right|]. split; [done|]. by rewrite Hent.
      * intros (ids0 & f0 & hs0 & [Hin|[= -> ->]] & Hm & ->).
        -- right. split; [|by eauto 8]. intros <-. apply Hnew. by apply (list_elem_of_fmap_2 fst _ (name, ids0)).
        -- left. split; [done|]. rewrite Hmod in Hm. injection Hm as <- <-. by rewrite Hent.
    + rewrite flat_map_app. unfold register. rewrite foldl_app. unfold register in Hp. rewrite <- Hp.
      cbn [flat_map]. rewrite app_nil_r. unfold dll_points. rewrite Hmod. replace (Z.to_nat n) with (length (Some <$> hs)) by (rewrite length_fmap; lia).
      rewrite zip_take_app. apply set_points_register.
    + rewrite List.filter_app, length_app. simpl. unfold missing at 2. simpl. rewrite Eenv. simpl. by rewrite Nat.add_0_r.
    + done.
  - eexists. split; [done|]. assert (Hmod : dll_modules env (name, ids) = None) by (unfold dll_modules; simpl; by rewrite Eenv).
    split; simpl; [done| | | |done].
    + intros name' mi. rewrite He. setoid_rewrite elem_of_app. setoid_rewrite list_elem_of_singleton. split.
      * intros (ids0 & f0 & hs0 & Hin & Hm & ->). eauto 8.
      * intros (ids0 & f0 & hs0 & [Hin|[= -> ->]] & Hm & ->); [eauto 8|congruence].
    + rewrite flat_map_app. simpl. unfold dll_points at 2. by rewrite Hmod, !app_nil_r.
    + rewrite List.filter_app, length_app. simpl. unfold missing at 2. simpl. rewrite Eenv. simpl. lia.
Qed.

Lemma points_all_some (m : gmap Z (option positive)) :
  map_Forall (fun _ p => is_Some p) m -> exists hs, points_in_order m = Some <$> hs.
Proof.
  intros Hm. unfold points_in_order.
  assert (Forall (fun kp => is_Some kp.2) (merge_sort (key_le fst) (map_to_list m))) as Hf.
  { rewrite merge_sort_Permutation. apply map_Forall_to_list in Hm.
    eapply Forall_impl; [exact Hm|]. by intros [k p]. }
  revert Hf. generalize (merge_sort (key_le fst) (map_to_list m)). clear Hm. intros l Hf.
  induction Hf as [|[k p] l [h Hh] _ (hs & IH)]; [by exists []|].
  exists (h :: hs). rewrite !fmap_cons, IH. simpl in *. by subst.
Qed.

Lemma run_Load_all s hs :
  for_each run_Load s (Some <$> hs) =
  Ok (mkLoader (m_mapModuleInterface s) (ld_mapModulePoint s) (loaded s ++ hs) (unloaded s) (released s) (boxes s)).
Proof.
  revert s. induction hs as [|h hs IH]; intros [mi mp ld ul b]; simpl; [by rewrite app_nil_r|].
  rewrite IH. simpl. by rewrite <- app_assoc.
Qed.

Lemma run_Unload_all s hs :
  for_each run_Unload s (Some <$> hs) =
  Ok (mkLoader (m_mapModuleInterface s) (ld_mapModulePoint s) (loaded s) (unloaded s ++ hs) (released s) (boxes s)).
Proof.
  revert s. induction hs as [|h hs IH]; intros [mi mp ld ul b]; simpl; [by rewrite app_nil_r|].
  rewrite IH. simpl. by rewrite <- app_assoc.
Qed.

Lemma release_all s l : Forall interface_ok l ->
  for_each release_interface s l =
  Ok (mkLoader (m_mapModuleInterface s) (ld_mapModulePoint s) (loaded s) (unloaded s)
        (released s ++ flat_map release_calls l) (boxes s)).
Proof.
  intros Hl. revert s. induction Hl as [|mi l ([f Hf] & Hlen & Hrel) _ IH]; intros s; simpl.
  { rewrite app_nil_r. by destruct s. }
  unfold release_interface, release_calls. rewrite Hf, Hrel. destruct (m_pModules mi) as [|p ps]; [simpl in *; lia|].
  simpl. rewrite IH. simpl. by rewrite <- !app_assoc.
Qed.

Lemma interfaces_in_order_ok m :
  map_Forall (fun _ mi => interface_ok mi) m -> Forall interface_ok (interfaces_in_order m).
Proof.
  intros Hm. unfold interfaces_in_order. apply Forall_fmap. rewrite merge_sort_Permutation.
  apply map_Forall_to_list in Hm. eapply Forall_impl; [exact Hm|]. by intros [k mi].
Qed.

Lemma Destroy_ok s hs :
  map_Forall (fun _ mi => interface_ok mi) (m_mapModuleInterface s) -> points_in_order (ld_mapModulePoint s) = Some <$> hs ->
  Destroy s = Ok (mkLoader ∅ ∅ (loaded s) (unloaded s ++ hs)
                   (released s ++ flat_map release_calls (interfaces_in_order (m_mapModuleInterface s))) (boxes s)).
Proof.
  intros Hi Hhs. unfold Destroy. rewrite Hhs, run_Unload_all. simpl. by rewrite release_all by by apply interfaces_in_order_ok.
Qed.

(** An interface whose library gave no factory survives the loading of others. *)
Lemma load_library_keeps env s s' item name mi :
  load_library env s item = Ok s' -> item.1 <> name ->
  m_mapModuleInterface s !! name = Some mi -> m_mapModuleInterface s' !! name = Some mi.
Proof.
  destruct item as [n ids]. unfold load_library. simpl. intros Hl Hne Hs.
  repeat case_match; inv_ok; try done; simpl; rewrite ?lookup_insert_ne by done; try done.
  all: repeat case_match; inv_ok; simpl; rewrite ?lookup_insert_ne by done; try done.
  all: repeat case_match; inv_ok; simpl; rewrite ?lookup_insert_ne by done; done.
Qed.

(** What loading a library without factory leaves behind. *)
Lemma load_library_null env s item dll :
  env item.1 = Some dll -> dll_GetModuleFactory dll = Some None ->
  exists s' mi, load_library env s item = Ok s' /\
    m_mapModuleInterface s' !! item.1 = Some mi /\ m_pModuleFactory mi = None.
Proof.
  destruct item as [name ids]. simpl. intros He Hg. unfold load_library. rewrite He, Hg. simpl.
  do 2 eexists. split; [done|]. split; [apply lookup_insert_eq|done].
Qed.

Lemma load_libraries_keep env l s s' name mi :
  for_each (load_library env) s l = Ok s' -> name ∉ l.*1 ->
  m_mapModuleInterface s !! name = Some mi -> m_mapModuleInterface s' !! name = Some mi.
Proof.
  revert s. induction l as [|item l IH]; intros s Hl Hn Hs; simpl in *; inv_ok; [done|].
  apply not_elem_of_cons in Hn as [Hne Hn]. eapply IH; [done|done|]. by eapply load_library_keeps.
Qed.

Lemma run_Load_interfaces l s s' :
  for_each run_Load s l = Ok s' -> m_mapModuleInterface s' = m_mapModuleInterface s.
Proof.
  revert s. induction l as [|p l IH]; intros s Hl; simpl in Hl; inv_ok; [done|].
  unfold run_Load in E. inv_ok. by rewrite (IH _ Hl).
Qed.

Lemma run_Unload_interfaces l s s' :
  for_each run_Unload s l = Ok s' -> m_mapModuleInterface s' = m_mapModuleInterface s.
Proof.
  revert s. induction l as [|p l IH]; intros s Hl; simpl in Hl; inv_ok; [done|].
  unfold run_Unload in E. inv_ok. by rewrite (IH _ Hl).
Qed.

(** ** Properties *)

(** C27: with libraries of different names that are absent or give their factory and
    modules, loading and shutting down follow no null pointer.  Loading registers under
    each id of a library the module its factory gave for it, reports each missing library
    by one box and runs [Load] on each registered module in the order of the ids;
    shutting down runs [Unload] on the same modules in the same order, then releases for
    each library, in the order of their names, its modules and its factory, and nothing
    stays registered. *)
Theorem load_and_destroy (env : DllEnv) (dlls : list (list Z * list Z))
    (Hgood : Forall (dll_good env) dlls) (Hnames : NoDup (dlls.*1)) :
  exists s s', LoadModules env dlls loader_init = Ok s /\ Destroy s = Ok s' /\
    ld_mapModulePoint s = register ∅ (flat_map (dll_points env) dlls) /\
    Some <$> loaded s = points_in_order (ld_mapModulePoint s) /\
    boxes s = Z.of_nat (length (List.filter (missing env) dlls)) /\
    (forall name mi, m_mapModuleInterface s !! name = Some mi <->
       exists ids f hs, (name, ids) ∈ dlls /\ dll_modules env (name, ids) = Some (f, hs) /\ mi = library_interface ids f hs) /\
    unloaded s' = loaded s /\ released s' = flat_map release_calls (interfaces_in_order (m_mapModuleInterface s)) /\
    m_mapModuleInterface s' = ∅ /\ ld_mapModulePoint s' = ∅.
Proof.
  destruct (for_each_ind (fun l s => loader_ok env l s) (load_library env) loader_init dlls) as (s1 & Hl & Hok).
  { split; simpl; [done| |done..]. intros name mi. rewrite lookup_empty. split; [done|]. by intros (? & ? & ? & H%elem_of_nil & _). }
  { intros l1 item s1 Hok (l2 & Hl). rewrite Hl in Hgood, Hnames. apply Forall_app in Hgood as [_ Hg].
    inversion_clear Hg as [|? ? Hitem _]. rewrite fmap_app, fmap_cons in Hnames. apply NoDup_app in Hnames as (_ & Hdis & _).
    apply load_library_ok; [done|done|]. intros Hin. apply (Hdis _ Hin). by left. }
  destruct Hok as [Hi He Hp Hb (Hld & Hul & Hre)].
  destruct (points_all_some (ld_mapModulePoint s1)) as [hs Hhs]; [rewrite Hp; by apply register_some|].
  unfold LoadModules. rewrite Hl. simpl. rewrite Hhs, run_Load_all.
  do 2 eexists. split; [done|]. split; [by apply (Destroy_ok _ hs)|]. simpl. rewrite Hld, Hul, Hre. by rewrite Hhs.
Qed.

(** A library whose [GetModuleFactory] returns NULL is reported and skipped
    by [LoadModules], but its entry stays behind without a factory, and
    [Destroy] then cannot complete: it follows that null pointer. *)
Theorem null_factory_breaks_destroy (env : DllEnv) (dlls1 dlls2 : list (list Z * list Z))
    (item : list Z * list Z) (dll : Dll) (s : LoaderState)
    (Hnames : NoDup (dlls1 ++ item :: dlls2).*1)
    (Hdll : env item.1 = Some dll) (Hnull : dll_GetModuleFactory dll = Some None)
    (Hload : LoadModules env (dlls1 ++ item :: dlls2) loader_init = Ok s) :
  forall s', Destroy s <> Ok s'.
Proof.
  intros s' Hd. unfold LoadModules in Hload. inv_ok.
  rewrite for_each_app in E. inv_ok. simpl in E. inv_ok.
  destruct (load_library_null env a0 item dll Hdll Hnull) as (s2 & mi & E2 & Hmi & Hf).
  rewrite E2 in E1. injection E1 as ->.
  rewrite fmap_app, fmap_cons in Hnames. apply NoDup_app in Hnames as (_ & _ & Hnames).
  apply NoDup_cons in Hnames as [Hn _].
  pose proof (load_libraries_keep _ _ _ _ _ _ E Hn Hmi) as Hm.
  rewrite <- (run_Load_interfaces _ _ _ Hload) in Hm.
  unfold Destroy in Hd. inv_ok. simpl in E3.
  rewrite (run_Unload_interfaces _ _ _ E1) in E3.
  destruct (for_each_elem _ _ _ _ mi E3) as (t1 & t2 & Hr).
  { apply list_elem_of_fmap. exists (item.1, mi). split; [done|]. rewrite merge_sort_Permutation. by apply elem_of_map_to_list. }
  unfold release_interface in Hr. by rewrite Hf in Hr.
Qed.

(** ** A concrete instance *)

Module LoaderDemo.

Definition factory : IModuleFactory := mkIModuleFactory (Some 1) (fun _ => Some [Some 5%positive]).

(** Library "M" is fine, "N" has no factory, any other is missing. *)
Definition env : DllEnv := fun name =>
  if bool_decide (name = [77]) then Some (mkDll (Some (Some factory)) true)
  else if bool_decide (name = [78]) then Some (mkDll (Some None) true)
  else None.

Definition dlls : list (list Z * list Z) := [([77], [MODULE_ID WEB]); ([80], [MODULE_ID LOGIN])].

Lemma dlls_good : Forall (dll_good env) dlls.
Proof.
  repeat constructor. simpl. exists factory, 1, [5%positive]. repeat split; vm_compute; congruence.
Qed.

End LoaderDemo.

Lemma load_and_destroy_witness :
  exists s s', LoadModules LoaderDemo.env LoaderDemo.dlls loader_init = Ok s /\ Destroy s = Ok s' /\
    ld_mapModulePoint s = {[MODULE_ID WEB := Some 5%positive]} /\ boxes s = 1 /\ unloaded s' = loaded s.
Proof.
  destruct (load_and_destroy LoaderDemo.env LoaderDemo.dlls LoaderDemo.dlls_good) as (s & s' & Hl & Hd & Hp & _ & Hb & _ & Hu & _).
  - apply (bool_decide_unpack _). vm_compute. exact I.
  - exists s, s'. split; [exact Hl|]. split; [exact Hd|]. split; [exact Hp|]. split; [exact Hb|exact Hu].
Defined.

Lemma null_factory_breaks_destroy_witness :
  exists s, LoadModules LoaderDemo.env [([78], [MODULE_ID WEB])] loader_init = Ok s /\
    forall s', Destroy s <> Ok s'.
Proof.
  eexists. split; [vm_compute; reflexivity|].
  eapply (null_factory_breaks_destroy LoaderDemo.env [] [] ([78], [MODULE_ID WEB]) (mkDll (Some None) true)).
  - apply (bool_decide_unpack _). vm_compute. exact I.
  - reflexivity.
  - reflexivity.
  - vm_compute. reflexivity.
Defined.
