(* ===== verification/Favorites.v ===== *)
(** * Favorite records and the memory they live in

    Data of include/DataCenterDefine.h shared by the data center, the plug-in
    module and the browser plug-ins: [FavoriteLineData], the vector of pointers
    to such records, and the C++ operations on them ([new], [delete], field
    access through a pointer, [STRNCPY], [std::sort] by parent id).  Records are
    shared by address, so the memory is an explicit map and a vector is a list
    of possibly null addresses. *)
From stdpp Require Import prelude gmap sorting.
From Stdlib Require Import ZArith Lia.
From S2P Require Import Prelude.

(** A wide string is the list of its characters, without the final zero. *)
Abbreviation wstring := (list Z).

(** [#define MAX_LENGTH 1024] *)
Definition MAX_LENGTH : Z := 1024.

(** [STRNCPY(dst, src)]: [wcsncpy_s] with [_TRUNCATE] into an array of [n]
    characters keeps at most [n - 1] of them. *)
Definition STRNCPY (n : Z) (src : wstring) : wstring := take (Z.to_nat (n - 1)) src.

Record FavoriteLineData := mkFavorite {
  nId : Z;
  szTitle : wstring;
  nPid : Z;
  bFolder : bool;
  szUrl : wstring;
  nAddTimes : Z;
  nLastModifyTime : Z;
  nClickTimes : Z;
  nHashId : Z;
  nOrder : Z;
  bDelete : bool
}.

#[global] Instance FavoriteLineData_eq_dec : EqDecision FavoriteLineData.
Proof. solve_decision. Defined.

(** The constructor; [now] is what [time(NULL)] returns. *)
Definition FavoriteLineData_new (now : Z) : FavoriteLineData :=
  mkFavorite 0 [] 0 false [] now now 0 0 0 false.

(** [FavoriteLineData::operator <] *)
Definition FavoriteLineData_lt (a x : FavoriteLineData) : bool := nPid a <? nPid x.

Definition set_bDelete (d : FavoriteLineData) : FavoriteLineData :=
  mkFavorite (nId d) (szTitle d) (nPid d) (bFolder d) (szUrl d) (nAddTimes d)
    (nLastModifyTime d) (nClickTimes d) (nHashId d) (nOrder d) true.

Definition set_ids (i p : Z) (d : FavoriteLineData) : FavoriteLineData :=
  mkFavorite i (szTitle d) p (bFolder d) (szUrl d) (nAddTimes d)
    (nLastModifyTime d) (nClickTimes d) (nHashId d) (nOrder d) (bDelete d).

Definition set_nPid (p : Z) (d : FavoriteLineData) : FavoriteLineData := set_ids (nId d) p d.

(** ** Memory *)

Abbreviation heap := (gmap positive FavoriteLineData).

(** [std::vector<FAVORITELINEDATA*>], or an array of such pointers. *)
Abbreviation fav_vector := (list (option positive)).

Definition load (h : heap) (l : positive) : outcome FavoriteLineData :=
  match h !! l with
  | Some d => Ok d
  | None => Fault Dangling
  end.

(** [*p] for a pointer that may be null. *)
Definition load_ptr (h : heap) (p : option positive) : outcome FavoriteLineData :=
  l ← deref p; load h l.

Definition new_record (d : FavoriteLineData) (h : heap) : positive * heap :=
  let l := fresh (dom h) in (l, <[l := d]> h).

(** [delete p], nothing for a null pointer. *)
Definition delete_record (h : heap) (p : option positive) : outcome heap :=
  match p with
  | None => Ok h
  | Some l => _ ← load h l; Ok (delete l h)
  end.

(** Reading a whole vector of non-null pointers. *)
Fixpoint load_all (h : heap) (v : fav_vector) : outcome (list (positive * FavoriteLineData)) :=
  match v with
  | [] => Ok []
  | p :: v => l ← deref p; d ← load h l; r ← load_all h v; Ok ((l, d) :: r)
  end.

(** [std::sort] of a vector with a comparison [a->key < b->key] (the
    functions [CompareFavoriteData] on [nPid] and [compare_hashid] on
    [nHashId]).  Comparing follows both pointers, so with two elements or more
    every pointer must be valid; with fewer, nothing is compared. *)
Definition sort_vector (sort : forall A : Type, (A -> Z) -> list A -> list A)
    (key : FavoriteLineData -> Z) (h : heap) (v : fav_vector) : outcome fav_vector :=
  if (length v <=? 1)%nat then Ok v
  else r ← load_all h v; Ok (map (fun e => Some (fst e)) (sort _ (fun e => key (snd e)) r)).

(** ** Lemmas *)

(** Every pointer of the vector is valid. *)
Definition valid_vec (h : heap) (v : fav_vector) : Prop :=
  Forall (fun p => exists l d, p = Some l /\ h !! l = Some d) v.

(** Every pointer of the vector is null or valid. *)
Definition weak_vec (h : heap) (v : fav_vector) : Prop :=
  forall l, Some l ∈ v -> is_Some (h !! l).

Lemma valid_weak h v : valid_vec h v -> weak_vec h v.
Proof.
  unfold valid_vec. rewrite Forall_forall. intros H l Hl.
  destruct (H _ Hl) as (l' & d & [= ->] & Hd). eauto.
Qed.

Lemma load_Ok h l d : load h l = Ok d <-> h !! l = Some d.
Proof. unfold load. destruct (h !! l); naive_solver. Qed.

Lemma load_ptr_Ok h p d : load_ptr h p = Ok d <-> exists l, p = Some l /\ h !! l = Some d.
Proof.
  unfold load_ptr. rewrite bind_Ok. setoid_rewrite deref_Ok. setoid_rewrite load_Ok. done.
Qed.

Lemma load_all_valid h v :
  valid_vec h v ->
  exists r, load_all h v = Ok r /\ map (fun e => Some (fst e)) r = v /\
            Forall (fun e => h !! fst e = Some (snd e)) r.
Proof.
  induction 1 as [|p v (l & d & -> & Hd) _ (r & Hr & Hm & Hall)]; [by exists []|].
  simpl. unfold load. rewrite Hd. simpl. rewrite Hr. simpl.
  exists ((l, d) :: r). simpl. rewrite Hm. auto.
Qed.

Lemma load_all_Ok h v r :
  load_all h v = Ok r ->
  map (fun e => Some (fst e)) r = v /\ Forall (fun e => h !! fst e = Some (snd e)) r.
Proof.
  revert r. induction v as [|p v IH]; intros r H; simpl in H; inv_ok; [by split|].
  rename select (deref p = _) into Ep. apply deref_Ok in Ep as ->.
  rename select (load h _ = _) into El. apply load_Ok in El.
  destruct (IH _ ltac:(eassumption)) as [Hm Hall]. simpl. rewrite Hm. auto.
Qed.

(** The value of a key behind a pointer of a valid vector. *)
Definition key_at (h : heap) (key : FavoriteLineData -> Z) (p : option positive) : Z :=
  match p ≫= fun l => h !! l with
  | Some d => key d
  | None => 0
  end.

(** Sorting a vector of valid pointers returns a sorted permutation of it. *)
Lemma sort_vector_spec sort `{!StdSort sort} key h v :
  valid_vec h v ->
  exists v', sort_vector sort key h v = Ok v' /\ v' ≡ₚ v /\ valid_vec h v' /\
             StronglySorted (key_le (key_at h key)) v'.
Proof.
  intros Hv. unfold sort_vector. destruct (Nat.leb_spec (length v) 1) as [Hl|Hl].
  { exists v. split; [done|]. split; [done|]. split; [done|].
    destruct v as [|p [|q v]]; simpl in Hl; [| |lia]; repeat constructor. }
  destruct (load_all_valid h v Hv) as (r & -> & Hm & Hall). simpl.
  set (k := fun e : positive * FavoriteLineData => key (snd e)).
  pose proof (std_sort_perm _ k r) as Hp. pose proof (std_sort_sorted _ k r) as Hs.
  set (r' := sort _ k r) in *.
  assert (Hall' : Forall (fun e => h !! fst e = Some (snd e)) r') by (by rewrite Hp).
  eexists. split; [reflexivity|]. split; [by rewrite Hp, Hm|]. split.
  - unfold valid_vec. rewrite Forall_map. eapply Forall_impl; [exact Hall'|].
    intros [l d] H. simpl. eauto.
  - clear - Hs Hall'. induction Hs as [|e r' Hs IH Hle]; simpl; [constructor|].
    apply Forall_cons in Hall' as [He Hall']. constructor; [auto|].
    apply Forall_map. rewrite Forall_forall in Hle, Hall' |- *. intros e' He'.
    unfold key_le, key_at. simpl. rewrite He, (Hall' _ He'). by apply Hle.
Qed.

Lemma new_record_fresh d h : h !! fst (new_record d h) = None.
Proof. apply not_elem_of_dom, is_fresh. Qed.

Lemma valid_vec_insert h v l d :
  valid_vec h v -> valid_vec (<[l := d]> h) v.
Proof.
  intros Hv. eapply Forall_impl; [exact Hv|]. intros p (l' & d' & -> & Hd).
  destruct (decide (l = l')) as [->|Hne].
  - exists l', d. by rewrite lookup_insert_eq.
  - exists l', d'. by rewrite lookup_insert_ne.
Qed.

Create HintDb favs.
#[export] Hint Resolve valid_weak valid_vec_insert : favs.
