(* ===== verification/DataCenter.v ===== *)
(** * The data center: the favorites kept in memory

    src/DataCenter/DataCenterModule.cpp: the vector of favorite records, the
    event handlers that add and delete records and folders, and the services
    other modules call.  A handler receives the decoded event and the state and
    returns the new state; what it hands to the module manager is appended to
    [posted].  The setting read by [Load] is in the file TxConfig; the handlers
    about icons are not modelled. *)
From stdpp Require Import prelude gmap sorting.
From Stdlib Require Import ZArith Lia.
From S2P Require Import Prelude Protocol Dispatch Favorites.

(** ** Values of the module *)

Definition EVENT_VALUE_DATACENTER_ADD_FAVORITE : Z := EVENT_VALUE_BEGIN (MODULE_ID DATACENTER) + 2.
Definition EVENT_VALUE_DATACENTER_ADD_FAVORITE_RESP : Z := EVENT_VALUE_BEGIN (MODULE_ID DATACENTER) + 3.
Definition EVENT_VALUE_DATACENTER_DELETE_FAVORITE : Z := EVENT_VALUE_BEGIN (MODULE_ID DATACENTER) + 4.
Definition EVENT_VALUE_DATACENTER_ADD_FAVORITE_FOLD : Z := EVENT_VALUE_BEGIN (MODULE_ID DATACENTER) + 5.
Definition EVENT_VALUE_DATACENTER_ADD_FAVORITE_FOLD_RESP : Z := EVENT_VALUE_BEGIN (MODULE_ID DATACENTER) + 6.
Definition EVENT_VALUE_DATACENTER_DELETE_FAVORITE_FOLD : Z := EVENT_VALUE_BEGIN (MODULE_ID DATACENTER) + 7.
Definition EVENT_VALUE_DATACENTER_TREELIST_SELECT : Z := EVENT_VALUE_BEGIN (MODULE_ID DATACENTER) + 8.
Definition EVENT_VALUE_DATACENTER_SET_AUTOUPDATE : Z := EVENT_VALUE_BEGIN (MODULE_ID DATACENTER) + 9.

(** ** State *)

(** What the module hands to the module manager: plain events, and events
    derived from [EventExtraInfo] with the fields the receiver reads. *)
Inductive Post :=
| PostEvent (evt : Event)
| PostAddFavoriteResult (srcId desId : Z) (pFavoriteData : option positive)
| PostAddFavoriteFoldResult (srcId desId nParentFavoriteId : Z) (pFavoriteData : option positive)
| PostFavIconSave (srcId : Z) (szFavoriteUrl : wstring) (iconData : list Z)
| PostFavoriteIconArrive (desId : Z) (szDomain : wstring) (hIcon : Z)
| CallGetFavIcon (srcId : Z) (szFavoriteUrl : wstring).

Record DataCenterState := mkDC {
  mem : heap;
  m_vFavoriteLineData : fav_vector;
  m_mapDomain2Icon : gmap wstring Z;
  m_hDefaultIcon : Z;
  m_bAutoUpdate : bool;
  posted : list Post
}.

Definition with_mem (h : heap) (s : DataCenterState) : DataCenterState :=
  mkDC h (m_vFavoriteLineData s) (m_mapDomain2Icon s) (m_hDefaultIcon s) (m_bAutoUpdate s) (posted s).

Definition with_vec (h : heap) (v : fav_vector) (s : DataCenterState) : DataCenterState :=
  mkDC h v (m_mapDomain2Icon s) (m_hDefaultIcon s) (m_bAutoUpdate s) (posted s).

Definition post (p : Post) (s : DataCenterState) : DataCenterState :=
  mkDC (mem s) (m_vFavoriteLineData s) (m_mapDomain2Icon s) (m_hDefaultIcon s) (m_bAutoUpdate s)
    (posted s ++ [p]).

Section Handlers.
Context (sort : forall A : Type, (A -> Z) -> list A -> list A).
(** [time(NULL)] *)
Context (now : Z).

(** ** Renumbering: [OnService_ReArrangeFavorite] *)

(** The inner loop body: record [j] hangs below record [i]. *)
Definition rearrange_scan (h : heap) (v : fav_vector) (i : Z) (pId : list (Z * Z)) (j : Z) :
    outcome (list (Z * Z)) :=
  pj ← vec_at v j; dj ← load_ptr h pj;
  pi ← vec_at v i; di ← load_ptr h pi;
  if nPid dj =? nId di then
    e ← vec_at pId j; Ok (<[Z.to_nat j := (fst e, i + 1)]> pId)
  else Ok pId.

(** The outer loop body. *)
Definition rearrange_row (h : heap) (v : fav_vector) (pId : list (Z * Z)) (i : Z) :
    outcome (list (Z * Z)) :=
  pId ← for_each (rearrange_scan h v i) pId (seqZ 0 (Z.of_nat (length v)));
  e ← vec_at pId i; Ok (<[Z.to_nat i := (i + 1, snd e)]> pId).

(** The loop that writes the new ids back. *)
Definition rearrange_store (v : fav_vector) (pId : list (Z * Z)) (h : heap) (i : Z) : outcome heap :=
  p ← vec_at v i; l ← deref p; d ← load h l; e ← vec_at pId i;
  Ok (<[l := set_ids (i + 1) (snd e) d]> h).

(** The result is the new memory and the [nNum] of the service structure. *)
Definition OnService_ReArrangeFavorite (s : DataCenterState) : outcome (DataCenterState * Z) :=
  let v := m_vFavoriteLineData s in
  _ ← vec_at v 0;
  let nLen := Z.of_nat (length v) in
  pId ← for_each (rearrange_row (mem s) v) (replicate (length v) (0, 0)) (seqZ 0 nLen);
  h ← for_each (rearrange_store v pId) (mem s) (seqZ 0 nLen);
  Ok (with_mem h s, nLen).

(** ** Adding records *)

(** The fields of [DataCenter_AddFavoriteEvent]. *)
Record DataCenter_AddFavoriteEvent := mkAddFavoriteEvent {
  af_nParentFavoriteId : Z;
  af_szTitle : wstring;
  af_szUrl : wstring
}.

(** The id of a new record: one more than that of the last record of the
    vector, 0 when the last pointer is null. *)
Definition next_id (h : heap) (v : fav_vector) : outcome Z :=
  pLastData ← vec_at v (Z.of_nat (length v) - 1);
  match pLastData with
  | None => Ok 0
  | Some l => d ← load h l; Ok (i32 (nId d + 1))
  end.

Definition OnEvent_AddFavorite (srcId : Z) (extra : option DataCenter_AddFavoriteEvent)
    (s : DataCenterState) : outcome DataCenterState :=
  match extra with
  | None => Ok s
  | Some e =>
      i ← next_id (mem s) (m_vFavoriteLineData s);
      let '(l, h) := new_record
        (mkFavorite i (STRNCPY MAX_LENGTH (af_szTitle e)) (af_nParentFavoriteId e) false
           (STRNCPY MAX_LENGTH (af_szUrl e)) now now 0 0 0 false) (mem s) in
      v ← sort_vector sort nPid h (m_vFavoriteLineData s ++ [Some l]);
      Ok (post (PostAddFavoriteResult (MODULE_ID DATACENTER) srcId (Some l)) (with_vec h v s))
  end.

(** The fields of [DataCenter_AddFavoriteFoldEvent]. *)
Record DataCenter_AddFavoriteFoldEvent := mkAddFavoriteFoldEvent {
  aff_nParentFavoriteId : Z;
  aff_szTitle : wstring
}.

(** The renumbering is requested through [CallService], which the module
    manager routes back to this module ([CallService_routes]). *)
Definition OnEvent_AddFavoriteFolder (srcId : Z) (extra : option DataCenter_AddFavoriteFoldEvent)
    (s : DataCenterState) : outcome DataCenterState :=
  match extra with
  | None => Ok s
  | Some e =>
      i ← next_id (mem s) (m_vFavoriteLineData s);
      let '(l, h) := new_record
        (mkFavorite i (STRNCPY MAX_LENGTH (aff_szTitle e)) (aff_nParentFavoriteId e) true
           [] now now 0 0 0 false) (mem s) in
      v ← sort_vector sort nPid h (m_vFavoriteLineData s ++ [Some l]);
      r ← OnService_ReArrangeFavorite (with_vec h v s);
      Ok (post (PostAddFavoriteFoldResult (MODULE_ID DATACENTER) srcId (aff_nParentFavoriteId e) (Some l))
            (fst r))
  end.

(** ** Deleting records *)

Record DataCenter_DeleteFavoriteEvent := mkDeleteFavoriteEvent {
  df_nFavoriteId : Z;
  df_szUrl : wstring
}.

Definition delete_favorite_body (e : DataCenter_DeleteFavoriteEvent) (h : heap) (p : option positive) :
    outcome heap :=
  match p with
  | None => Ok h
  | Some l =>
      d ← load h l;
      if (nPid d =? df_nFavoriteId e) && bool_decide (df_szUrl e = szUrl d)
      then Ok (<[l := set_bDelete d]> h) else Ok h
  end.

Definition OnEvent_DeleteFavorite (extra : option DataCenter_DeleteFavoriteEvent)
    (s : DataCenterState) : outcome DataCenterState :=
  match extra with
  | None => Ok s
  | Some e => h ← for_each (delete_favorite_body e) (mem s) (m_vFavoriteLineData s); Ok (with_mem h s)
  end.

(** The body of the loop of [DeleteFavoriteFold]; [rec] is the recursive call. *)
Definition delete_fold_body (rec : heap -> Z -> outcome heap) (id : Z) (h : heap) (p : option positive) :
    outcome heap :=
  match p with
  | None => Ok h
  | Some l =>
      d ← load h l;
      if bDelete d then Ok h
      else
        let h1 := if nId d =? id then <[l := set_bDelete d]> h else h in
        if nPid d =? id then
          let h2 := <[l := set_bDelete d]> h1 in
          if bFolder d then rec h2 (nId d) else Ok h2
        else Ok h1
  end.

Fixpoint DeleteFavoriteFold (fuel : nat) (v : fav_vector) (h : heap) (id : Z) : outcome heap :=
  match fuel with
  | O => Fault NoFuel
  | S fuel => for_each (delete_fold_body (DeleteFavoriteFold fuel v) id) h v
  end.

(** The loop that looks for the previous sibling folder, from index [n - 1]
    down; returns the final [i] and [nPid]. *)
Fixpoint find_previous (h : heap) (v : fav_vector) (nParentId : Z) (n : nat) (pid : Z) : outcome (Z * Z) :=
  match n with
  | O => Ok (-1, pid)
  | S i =>
      p ← vec_at v (Z.of_nat i);
      match p with
      | None => find_previous h v nParentId i pid
      | Some l =>
          d ← load h l;
          if (nPid d =? nParentId) && bFolder d && negb (bDelete d) then Ok (Z.of_nat i, pid)
          else find_previous h v nParentId i (if nId d =? nParentId then nId d else pid)
      end
  end.

(** The event that asks the main window to select the item [id]. *)
Definition select_event (id : Z) : Post :=
  PostEvent (MakeEvent (MODULE_ID DATACENTER) EVENT_VALUE_DATACENTER_TREELIST_SELECT
               (MODULE_ID MAINFRAME) (u32 id) 0 0 0 None).

Definition OnEvent_DeleteFavoriteFolder (fuel : nat) (evt : Event) (s : DataCenterState) :
    outcome DataCenterState :=
  if negb (eventValue evt =? EVENT_VALUE_DATACENTER_DELETE_FAVORITE_FOLD) then Ok s
  else
    let nDeleteId := i32 (param0 evt) in
    let v := m_vFavoriteLineData s in
    p ← vec_at v (nDeleteId - 1);
    match p with
    | None => Ok s
    | Some l =>
        d ← load (mem s) l;
        r ← find_previous (mem s) v (nPid d) (Z.to_nat (nDeleteId - 1)) 0;
        let '(i, pid) := r in
        let s1 := if (i =? -1) && (pid =? 0) then post (select_event 0) s else s in
        let nSelectIndex := if i =? -1 then (if pid =? 0 then 0 else pid - 1) else i in
        h ← DeleteFavoriteFold fuel v (mem s1) nDeleteId;
        let s2 := with_mem h s1 in
        q ← vec_at v nSelectIndex;
        match q with
        | None => Ok s2
        | Some l => d ← load h l; Ok (post (select_event (nId d)) s2)
        end
    end.

Definition OnEvent_SetAutoUpdate (evt : Event) (s : DataCenterState) : DataCenterState :=
  if negb (eventValue evt =? EVENT_VALUE_DATACENTER_SET_AUTOUPDATE) then s
  else mkDC (mem s) (m_vFavoriteLineData s) (m_mapDomain2Icon s) (m_hDefaultIcon s)
         (negb (i32 (param0 evt) =? 0)) (posted s).

(** ** Queries *)

(** [ppFavoriteData] (an index into the vector, [None] for NULL) and [nNum]. *)
Definition OnService_GetFavoriteData (s : DataCenterState) : option Z * Z :=
  match m_vFavoriteLineData s with
  | [] => (None, 0)
  | _ => (Some 0, Z.of_nat (length (m_vFavoriteLineData s)))
  end.

(** The two flags of [DataCenter_CheckExistSubFoldService] are in and out. *)
Fixpoint CheckExistSubFolder (h : heap) (v : fav_vector) (id : Z) (flags : bool * bool) :
    outcome (bool * bool) :=
  match v with
  | [] => Ok flags
  | None :: v => CheckExistSubFolder h v id flags
  | Some l :: v =>
      d ← load h l;
      let flags := if nPid d =? id then
                     (if bFolder d then (true, snd flags) else (fst flags, true))
                   else flags in
      if fst flags && snd flags then Ok flags else CheckExistSubFolder h v id flags
  end.

Definition sub_folder_body (rec : list Z -> Z -> outcome (list Z)) (h : heap) (id : Z)
    (vId : list Z) (p : option positive) : outcome (list Z) :=
  match p with
  | None => Ok vId
  | Some l =>
      d ← load h l;
      if bDelete d then Ok vId
      else if nPid d =? id then
        (if bFolder d then rec (vId ++ [nId d]) (nId d) else Ok vId)
      else Ok vId
  end.

Fixpoint GetSubFolderId (fuel : nat) (h : heap) (v : fav_vector) (vId : list Z) (id : Z) : outcome (list Z) :=
  match fuel with
  | O => Fault NoFuel
  | S fuel => for_each (sub_folder_body (GetSubFolderId fuel h v) h id) vId v
  end.

(** [pIdNum]; its length is [nIdNum]. *)
Definition OnService_GetSubFolderId (fuel : nat) (nFoldId : Z) (s : DataCenterState) : outcome (list Z) :=
  GetSubFolderId fuel (mem s) (m_vFavoriteLineData s) [] nFoldId.

Definition OnService_GetFavoriteNumAtFold (fuel : nat) (nFolderId : Z) (s : DataCenterState) : outcome Z :=
  vId ← GetSubFolderId fuel (mem s) (m_vFavoriteLineData s) [] nFolderId;
  Ok (Z.of_nat (length vId)).

Definition OnService_GetAutoUpdate (s : DataCenterState) : bool := m_bAutoUpdate s.

(** ** Initialising and clearing *)

(** [resize] keeps the first [nNum] pointers, and every slot is then
    overwritten with a new record; the old records are not deleted.  A negative
    [nNum] becomes a size the vector cannot have. *)
Definition init_slot (hv : heap * fav_vector) (i : Z) : outcome (heap * fav_vector) :=
  _ ← vec_at (snd hv) i;
  let '(l, h) := new_record (FavoriteLineData_new now) (fst hv) in
  Ok (h, <[Z.to_nat i := Some l]> (snd hv)).

Definition OnService_InitFavoriteData (nNum : Z) (s : DataCenterState) : outcome DataCenterState :=
  if nNum <? 0 then Fault OutOfRange
  else
    hv ← for_each init_slot
           (mem s, resize (Z.to_nat nNum) None (m_vFavoriteLineData s)) (seqZ 0 nNum);
    Ok (with_vec (fst hv) (snd hv) s).

(** Also the body of [Unload]. *)
Definition OnService_ClearData (s : DataCenterState) : outcome DataCenterState :=
  h ← for_each delete_record (mem s) (m_vFavoriteLineData s);
  Ok (with_vec h [] s).

End Handlers.

(** ** Folder hierarchy

    [live_child h v x y]: some record of the vector is a folder that is not
    deleted, has id [y] and hangs below id [x]. *)

Definition live_child (h : heap) (v : fav_vector) (x y : Z) : Prop :=
  exists l d, Some l ∈ v /\ h !! l = Some d /\ bDelete d = false /\ bFolder d = true /\
              nPid d = x /\ nId d = y.

(** ** Marking records as deleted *)

Definition mark1 (d d' : FavoriteLineData) : Prop := d' = d \/ d' = set_bDelete d.

(** [h'] is [h] with some records marked. *)
Definition marks (h h' : heap) : Prop := forall l, option_Forall2 mark1 (h !! l) (h' !! l).

Definition deleted (h : heap) (l : positive) : Prop :=
  exists d, h !! l = Some d /\ bDelete d = true.

(** The records not marked, and their number. *)
Definition live_set (h : heap) : gset positive :=
  dom (filter (fun p : positive * FavoriteLineData => bDelete (snd p) = false) h).

Definition live (h : heap) : nat := size (live_set h).

Lemma mark1_fields d d' :
  mark1 d d' -> nId d' = nId d /\ nPid d' = nPid d /\ bFolder d' = bFolder d /\
                szUrl d' = szUrl d /\ (bDelete d = true -> bDelete d' = true).
Proof. intros [->| ->]; auto. Qed.

Lemma marks_refl h : marks h h.
Proof. intros l. destruct (h !! l); constructor. by left. Qed.

Lemma marks_trans h1 h2 h3 : marks h1 h2 -> marks h2 h3 -> marks h1 h3.
Proof.
  intros H12 H23 l. specialize (H12 l). specialize (H23 l).
  destruct H12 as [d1 d2 Hd|]; inversion H23 as [? d3 Hd'|]; subst; constructor.
  destruct Hd as [->| ->], Hd' as [->| ->]; unfold mark1; auto.
Qed.

Lemma marks_insert h l d : h !! l = Some d -> marks h (<[l := set_bDelete d]> h).
Proof.
  intros Hd k. destruct (decide (l = k)) as [->|Hne].
  - rewrite lookup_insert_eq, Hd. constructor. by right.
  - rewrite lookup_insert_ne by done. apply marks_refl.
Qed.

Lemma marks_fwd h h' l d : marks h h' -> h !! l = Some d -> exists d', h' !! l = Some d' /\ mark1 d d'.
Proof. intros H Hd. specialize (H l). rewrite Hd in H. inversion H; subst. eauto. Qed.

Lemma marks_bwd h h' l d' : marks h h' -> h' !! l = Some d' -> exists d, h !! l = Some d /\ mark1 d d'.
Proof. intros H Hd. specialize (H l). rewrite Hd in H. inversion H; subst. eauto. Qed.

Lemma marks_weak_vec h h' v : marks h h' -> weak_vec h v -> weak_vec h' v.
Proof.
  intros H Hv l Hl. destruct (Hv l Hl) as [d Hd].
  destruct (marks_fwd _ _ _ _ H Hd) as (d' & -> & _). eauto.
Qed.

Lemma marks_deleted h h' l : marks h h' -> deleted h l -> deleted h' l.
Proof.
  intros H (d & Hd & Hb). destruct (marks_fwd _ _ _ _ H Hd) as (d' & Hd' & Hm).
  exists d'. split; [done|]. by apply (mark1_fields _ _ Hm).
Qed.

Lemma marks_child h h' v x y : marks h h' -> live_child h' v x y -> live_child h v x y.
Proof.
  intros H (l & d' & Hl & Hd' & Hb & Hf & <- & <-).
  destruct (marks_bwd _ _ _ _ H Hd') as (d & Hd & Hm).
  destruct (mark1_fields _ _ Hm) as (-> & -> & Hf' & _ & Hb').
  exists l, d. rewrite Hf' in Hf. destruct (bDelete d); [by rewrite Hb' in Hb|]. by split_and!.
Qed.

Lemma live_spec (h : heap) l :
  l ∈ live_set h <-> exists d, h !! l = Some d /\ bDelete d = false.
Proof.
  unfold live_set. rewrite elem_of_dom. unfold is_Some. setoid_rewrite map_lookup_filter_Some. done.
Qed.

Lemma marks_live h h' : marks h h' -> (live h' <= live h)%nat.
Proof.
  intros H. unfold live. apply (subseteq_size (C := gset positive)). intros l. rewrite !live_spec. intros (d' & Hd' & Hb).
  destruct (marks_bwd _ _ _ _ H Hd') as (d & Hd & Hm). exists d. split; [done|].
  destruct (mark1_fields _ _ Hm) as (_ & _ & _ & _ & Hb'). destruct (bDelete d); [|done].
  by rewrite Hb' in Hb.
Qed.

Lemma live_insert h l d :
  h !! l = Some d -> bDelete d = false -> (live (<[l := set_bDelete d]> h) < live h)%nat.
Proof.
  intros Hd Hb. unfold live. apply (subset_size (C := gset positive)). split.
  - intros k. rewrite !live_spec. intros (d' & Hd' & Hb').
    destruct (decide (l = k)) as [->|Hne]; [eauto|].
    rewrite lookup_insert_ne in Hd' by done. eauto.
  - intros Hsub. specialize (Hsub l). rewrite !live_spec in Hsub.
    destruct Hsub as (d' & Hd' & Hb'); [eauto|].
    rewrite lookup_insert_eq in Hd'. injection Hd' as <-. done.
Qed.

#[export] Hint Resolve marks_refl marks_trans marks_insert marks_weak_vec marks_deleted marks_child : favs.

(** Every record of [l] with id or parent id [y] is marked. *)
Definition closed_on (l : fav_vector) (h : heap) (y : Z) : Prop :=
  forall k d, Some k ∈ l -> h !! k = Some d -> nId d = y \/ nPid d = y -> bDelete d = true.

Lemma closed_on_marks l h h' y : marks h h' -> closed_on l h y -> closed_on l h' y.
Proof.
  intros H Hc k d' Hk Hd' Hy. destruct (marks_bwd _ _ _ _ H Hd') as (d & Hd & Hm).
  destruct (mark1_fields _ _ Hm) as (Hi & Hp & _ & _ & Hb).
  apply Hb, (Hc k d); [done..|]. by rewrite <- Hi, <- Hp.
Qed.

(** What a call [DeleteFavoriteFold(id)] does, relative to the memory [h] it
    starts from: only marks, every folder it marks is swept in turn, and
    whatever it marks is reachable from [id]. *)
Record sweep_inv (v : fav_vector) (h : heap) (id : Z) (done_ : fav_vector) (h' : heap) : Prop := {
  sw_marks : marks h h';
  sw_hit : closed_on done_ h' id;
  sw_closed : forall l d, h !! l = Some d -> bDelete d = false -> bFolder d = true -> deleted h' l ->
                nId d = id \/ closed_on v h' (nId d);
  sw_sound : forall l d, h !! l = Some d -> bDelete d = false -> deleted h' l ->
                Some l ∈ v /\ exists y, rtc (live_child h v) id y /\ (nId d = y \/ nPid d = y)
}.

Lemma sweep_skip v h id done_ h1 p :
  sweep_inv v h id done_ h1 ->
  (forall l d, p = Some l -> h1 !! l = Some d -> nId d = id \/ nPid d = id -> bDelete d = true) ->
  sweep_inv v h id (done_ ++ [p]) h1.
Proof.
  intros [Hm Hh Hc Hs] Hp. split; [done| |done|done].
  intros k d Hk Hd Hy. apply elem_of_app in Hk as [Hk|Hk%list_elem_of_singleton]; eauto.
Qed.

(** Marking one record that the call must mark. *)
Lemma sweep_mark v h id done_ h1 l d1 :
  sweep_inv v h id done_ h1 -> Some l ∈ v -> h1 !! l = Some d1 -> bDelete d1 = false ->
  (bFolder d1 = true -> nId d1 = id) -> nId d1 = id \/ nPid d1 = id ->
  sweep_inv v h id (done_ ++ [Some l]) (<[l := set_bDelete d1]> h1).
Proof.
  intros [Hm Hh Hc Hs] Hl Hd1 Hb Hf Hid.
  pose proof (marks_insert _ _ _ Hd1) as Hmi.
  assert (Hsplit : forall k, deleted (<[l := set_bDelete d1]> h1) k -> k = l \/ deleted h1 k).
  { intros k (d & Hd & Hbd). destruct (decide (k = l)) as [->|Hne]; [by left|right].
    rewrite lookup_insert_ne in Hd by done. by exists d. }
  destruct (marks_bwd _ _ _ _ Hm Hd1) as (d0 & Hd0 & Hmk).
  destruct (mark1_fields _ _ Hmk) as (Hi & Hp & Hfo & _ & _).
  apply sweep_skip; [split; [eauto with favs|..]|].
  - by apply (closed_on_marks _ h1).
  - intros k d Hd Hbd Hfd Hdel. destruct (Hsplit k Hdel) as [->|Hdel'].
    + left. assert (d = d0) as -> by congruence. rewrite <- Hi. apply Hf. by rewrite Hfo.
    + destruct (Hc k d Hd Hbd Hfd Hdel') as [?|?]; [by left|right].
      by apply (closed_on_marks _ h1).
  - intros k d Hd Hbd Hdel. destruct (Hsplit k Hdel) as [->|Hdel']; [|eauto].
    split; [done|]. exists id. split; [reflexivity|].
    assert (d = d0) as -> by congruence. by rewrite <- Hi, <- Hp.
  - intros k d [= <-] Hd _. rewrite lookup_insert_eq in Hd. by injection Hd as <-.
Qed.

(** Marking a subfolder and sweeping it. *)
Lemma sweep_call v h id done_ h1 l d1 h3 :
  sweep_inv v h id done_ h1 -> Some l ∈ v -> h1 !! l = Some d1 -> bDelete d1 = false ->
  bFolder d1 = true -> nPid d1 = id ->
  sweep_inv v (<[l := set_bDelete d1]> h1) (nId d1) v h3 ->
  sweep_inv v h id (done_ ++ [Some l]) h3.
Proof.
  intros [Hm Hh Hc Hs] Hl Hd1 Hb Hf Hpid [Hm3 Hh3 Hc3 Hs3].
  pose proof (marks_insert _ _ _ Hd1) as Hmi.
  assert (Hm13 : marks h1 h3) by eauto with favs.
  destruct (marks_bwd _ _ _ _ Hm Hd1) as (d0 & Hd0 & Hmk).
  destruct (mark1_fields _ _ Hmk) as (Hi & Hp & Hfo & _ & Hbo).
  assert (Hb0 : bDelete d0 = false) by (destruct (bDelete d0); [by rewrite Hbo in Hb|done]).
  assert (Hcases : forall k d, h !! k = Some d -> bDelete d = false -> deleted h3 k ->
     deleted h1 k \/ (k = l /\ d = d0) \/
     (exists d2, <[l := set_bDelete d1]> h1 !! k = Some d2 /\ bDelete d2 = false /\ mark1 d d2)).
  { intros k d Hd Hbd Hdel. destruct (decide (k = l)) as [->|Hne].
    { right. left. split; [done|congruence]. }
    destruct (marks_fwd _ _ _ _ Hm Hd) as (d2 & Hd2 & Hmk2).
    destruct (bDelete d2) eqn:Eb; [left; by exists d2|].
    right; right. exists d2. by rewrite lookup_insert_ne. }
  apply sweep_skip; [split; [eauto with favs|..]|].
  - by apply (closed_on_marks _ h1).
  - intros k d Hd Hbd Hfd Hdel.
    destruct (Hcases k d Hd Hbd Hdel) as [Hdel'|[[-> ->]|(d2 & Hd2 & Hb2 & Hmk2)]].
    + destruct (Hc k d Hd Hbd Hfd Hdel') as [?|?]; [by left|right]. by apply (closed_on_marks _ h1).
    + right. by rewrite <- Hi.
    + destruct (mark1_fields _ _ Hmk2) as (Hi2 & _ & Hfo2 & _).
      rewrite <- Hi2. rewrite <- Hfo2 in Hfd.
      destruct (Hc3 k d2 Hd2 Hb2 Hfd Hdel) as [->|?]; by right.
  - intros k d Hd Hbd Hdel.
    destruct (Hcases k d Hd Hbd Hdel) as [Hdel'|[[-> ->]|(d2 & Hd2 & Hb2 & Hmk2)]]; [eauto| |].
    + split; [done|]. exists id. split; [reflexivity|]. right. congruence.
    + destruct (mark1_fields _ _ Hmk2) as (Hi2 & Hp2 & _).
      destruct (Hs3 k d2 Hd2 Hb2 Hdel) as (Hin & y & Hy & Hor). split; [done|].
      exists y. split; [|by rewrite <- Hi2, <- Hp2].
      apply rtc_l with (nId d1).
      * exists l, d0. split_and!; congruence.
      * eapply rtc_subrel; [|exact Hy]. intros a b Hab.
        apply (marks_child h h1 v a b Hm), (marks_child h1 _ v a b Hmi Hab).
  - intros k d [= <-] Hd _. assert (Hdl : deleted h3 l).
    { apply (marks_deleted _ _ _ Hm3). exists (set_bDelete d1). by rewrite lookup_insert_eq. }
    destruct Hdl as (d' & Hd' & ?). by assert (d = d') as -> by congruence.
Qed.

(** A call returns when the depth allowed exceeds the number of records not
    yet marked, whatever the parent ids are (even if they form a cycle). *)
Lemma DeleteFavoriteFold_sweep fuel v h id :
  weak_vec h v -> (live h < fuel)%nat ->
  exists h', DeleteFavoriteFold fuel v h id = Ok h' /\ sweep_inv v h id v h'.
Proof.
  revert h id. induction fuel as [|fuel IH]; intros h id Hv Hfuel; [lia|]. simpl.
  apply (for_each_ind (sweep_inv v h id)).
  { split; [apply marks_refl|..].
    - intros k d Hk. by apply elem_of_nil in Hk.
    - intros l d Hd Hb _ (d' & Hd' & Hb'). congruence.
    - intros l d Hd Hb (d' & Hd' & Hb'). congruence. }
  intros done_ p h1 HP (rest & Hsplit).
  destruct p as [l|]; simpl; [|eexists; split; [done|]; by apply sweep_skip].
  assert (Hl : Some l ∈ v) by (rewrite Hsplit; set_solver).
  pose proof (sw_marks _ _ _ _ _ HP) as Hm.
  destruct (marks_weak_vec _ _ _ Hm Hv l Hl) as [d1 Hd1].
  unfold load. rewrite Hd1. simpl. destruct (bDelete d1) eqn:Hb.
  { eexists; split; [done|]. apply sweep_skip; [done|]. intros ? ? [= <-]. congruence. }
  destruct (Z.eqb_spec (nPid d1) id) as [Hp|Hp].
  - replace (<[l:=set_bDelete d1]> (if nId d1 =? id then <[l:=set_bDelete d1]> h1 else h1))
      with (<[l:=set_bDelete d1]> h1) by (destruct (nId d1 =? id); [by rewrite insert_insert_eq|done]).
    destruct (bFolder d1) eqn:Hf.
    + destruct (IH (<[l:=set_bDelete d1]> h1) (nId d1)) as (h3 & Hrun & Hsw).
      * eauto with favs.
      * pose proof (live_insert h1 l d1 Hd1 Hb). pose proof (marks_live _ _ Hm). lia.
      * exists h3. split; [done|]. by apply (sweep_call v h id done_ h1 l d1).
    + eexists; split; [done|]. apply sweep_mark; auto. congruence.
  - destruct (Z.eqb_spec (nId d1) id) as [Hi|Hi]; (eexists; split; [done|]).
    + apply sweep_mark; auto.
    + apply sweep_skip; [done|]. intros ? ? [= <-] ? [?|?]; congruence.
Qed.

(** ** Properties of deletion *)

(** C11: [DeleteFavoriteFold(id)] terminates and marks exactly the records
    whose id or parent id is [id] or the id of a live folder reachable from
    [id] through live folders; it changes nothing else.  No hypothesis on the
    shape of the hierarchy is needed: it also returns when parent ids form a
    cycle, because a folder is marked before its contents are visited. *)
Theorem DeleteFavoriteFold_exact (v : fav_vector) (h : heap) (id : Z) (Hv : weak_vec h v) :
  exists h', DeleteFavoriteFold (S (live h)) v h id = Ok h' /\ marks h h' /\
    forall l d, h !! l = Some d ->
      (deleted h' l <-> bDelete d = true \/
         (Some l ∈ v /\ exists y, rtc (live_child h v) id y /\ (nId d = y \/ nPid d = y))).
Proof.
  destruct (DeleteFavoriteFold_sweep (S (live h)) v h id Hv) as (h' & Hrun & [Hm Hh Hc Hs]); [lia|].
  exists h'. split; [done|]. split; [done|]. intros l d Hd.
  assert (Hclosed : forall y, rtc (live_child h v) id y -> closed_on v h' y).
  { apply rtc_ind_r; [done|]. intros x y _ (k & dk & Hk & Hdk & Hbk & Hfk & <- & <-) IH.
    destruct (marks_fwd _ _ _ _ Hm Hdk) as (dk' & Hdk' & Hmk).
    destruct (mark1_fields _ _ Hmk) as (Hi & Hp & _).
    destruct (Hc k dk Hdk Hbk Hfk) as [->|?]; [|done..].
    exists dk'. split; [done|]. apply (IH k dk'); auto. }
  split.
  - intros Hdel. destruct (bDelete d) eqn:Hb; [by left|right]. eauto.
  - intros [Hb|(Hl & y & Hy & Hor)]; [by apply (marks_deleted h); [|exists d]|].
    destruct (marks_fwd _ _ _ _ Hm Hd) as (d' & Hd' & Hmk).
    destruct (mark1_fields _ _ Hmk) as (Hi & Hp & _).
    exists d'. split; [done|]. apply (Hclosed y Hy l d'); [done..|]. by rewrite Hi, Hp.
Qed.

(** ** Listing subfolders *)

(** Ids of live folders are unique along the vector. *)
Definition unique_folders (h : heap) (v : fav_vector) : Prop :=
  forall i j li lj di dj, v !! i = Some (Some li) -> v !! j = Some (Some lj) ->
    h !! li = Some di -> h !! lj = Some dj ->
    bDelete di = false -> bDelete dj = false -> bFolder di = true -> bFolder dj = true ->
    nId di = nId dj -> i = j.

Section Subfolders.
Context (h : heap) (v : fav_vector).
Context (Hv : weak_vec h v).

Lemma live_child_inj x1 x2 y :
  unique_folders h v -> live_child h v x1 y -> live_child h v x2 y -> x1 = x2.
Proof.
  intros Hu (l1 & d1 & [i1 Hi1]%list_elem_of_lookup & ? & ? & ? & <- & ?)
    (l2 & d2 & [i2 Hi2]%list_elem_of_lookup & ? & ? & ? & <- & ?).
  assert (i1 = i2) as <- by (eapply Hu; eauto; congruence). congruence.
Qed.

Lemma rtc_common x1 x2 y :
  unique_folders h v -> rtc (live_child h v) x1 y -> rtc (live_child h v) x2 y ->
  rtc (live_child h v) x1 x2 \/ rtc (live_child h v) x2 x1.
Proof.
  intros Hu H1. revert y H1 x2.
  apply (rtc_ind_r (fun y => forall x2, rtc (live_child h v) x2 y ->
                      rtc (live_child h v) x1 x2 \/ rtc (live_child h v) x2 x1)); [auto|].
  intros w z Hw Hwz IH x2 H2. apply rtc_inv_r in H2 as [->|(w' & H2 & Hw'z)].
  - left. by eapply rtc_r.
  - apply IH. by rewrite (live_child_inj _ _ _ Hu Hwz Hw'z).
Qed.

(** A rank that decreases from parent to child: the hierarchy has no cycle. *)
Context (rank : Z -> nat).
Context (Hrank : forall x y, live_child h v x y -> (rank y < rank x)%nat).

Lemma rank_rtc x y : rtc (live_child h v) x y -> (rank y <= rank x)%nat.
Proof. induction 1 as [|x y z Hxy _ IH]; [done|]. specialize (Hrank _ _ Hxy). lia. Qed.

Lemma siblings_disjoint id c1 c2 y :
  unique_folders h v -> live_child h v id c1 -> live_child h v id c2 ->
  rtc (live_child h v) c1 y -> rtc (live_child h v) c2 y -> c1 = c2.
Proof.
  intros Hu H1 H2 Hy1 Hy2.
  assert (Hone : forall a b, live_child h v id a -> live_child h v id b ->
                   rtc (live_child h v) a b -> a = b).
  { intros a b Ha Hb Hab. apply rtc_inv_r in Hab as [->|(w & Haw & Hwb)]; [done|].
    rewrite (live_child_inj _ _ _ Hu Hwb Hb) in Haw.
    pose proof (rank_rtc _ _ Haw). pose proof (Hrank _ _ Ha). lia. }
  destruct (rtc_common c1 c2 y Hu Hy1 Hy2); [|symmetry]; eauto.
Qed.

(** What has been appended after visiting the prefix [done_]. *)
Definition listed (id : Z) (done_ : fav_vector) (r : list Z) : Prop :=
  (forall y, y ∈ r <-> exists c, live_child h done_ id c /\ rtc (live_child h v) c y) /\
  (unique_folders h v -> NoDup r).

Lemma live_child_prefix done_ p id c :
  live_child h (done_ ++ [p]) id c <-> live_child h done_ id c \/ live_child h [p] id c.
Proof.
  unfold live_child. split.
  - intros (l & d & Hl & ?). apply elem_of_app in Hl as [Hl|Hl]; [left|right]; eauto.
  - intros [(l & d & Hl & ?)|(l & d & Hl & ?)]; exists l, d; (split; [set_solver|done]).
Qed.

Lemma listed_skip id done_ p r :
  listed id done_ r -> (forall c, ~ live_child h [p] id c) -> listed id (done_ ++ [p]) r.
Proof.
  intros [Hr Hn] Hp. split; [|done]. intros y. rewrite Hr.
  setoid_rewrite live_child_prefix. naive_solver.
Qed.

Lemma listed_call id done_ rest l d r r' :
  v = done_ ++ Some l :: rest ->
  h !! l = Some d -> bDelete d = false -> bFolder d = true -> nPid d = id ->
  listed id done_ r -> listed (nId d) v r' ->
  listed id (done_ ++ [Some l]) (r ++ nId d :: r').
Proof.
  intros Hsplit Hd Hb Hf Hp [Hr Hn] [Hr' Hn'].
  assert (Hone : forall c, live_child h [Some l] id c <-> c = nId d).
  { intros c. split.
    - intros (k & dk & [= ->]%list_elem_of_singleton & ? & ? & ? & ? & <-). congruence.
    - intros ->. exists l, d. split; [set_solver|done]. }
  assert (Hmono : forall c, live_child h done_ id c -> live_child h v id c).
  { intros c (k & dk & Hk & ?). exists k, dk. split; [set_solver|done]. }
  assert (Hdv : live_child h v id (nId d)).
  { exists l, d. split; [set_solver|done]. }
  assert (Hrtc : forall y, y ∈ nId d :: r' <-> rtc (live_child h v) (nId d) y).
  { intros y. rewrite elem_of_cons, Hr'. split.
    - intros [->|(c & Hc & Hy)]; [reflexivity|by eapply rtc_l].
    - intros Hy. inversion Hy; subst; [by left|right; eauto]. }
  split.
  - intros y. rewrite elem_of_app, Hrtc, Hr. setoid_rewrite live_child_prefix.
    setoid_rewrite Hone. naive_solver.
  - intros Hu. apply NoDup_app. split; [by apply Hn|]. split.
    + intros y Hy Hy'. apply Hrtc in Hy'. apply Hr in Hy as (c & Hc & Hcy).
      assert (c = nId d) as -> by (eapply siblings_disjoint; eauto).
      destruct Hc as (k & dk & [i Hi]%list_elem_of_lookup & Hdk & Hbk & Hfk & _ & Hik).
      assert (i = length done_).
      { eapply (Hu i (length done_) k l dk d); eauto; rewrite Hsplit.
        - by apply lookup_app_l_Some.
        - by apply list_lookup_middle. }
      apply lookup_lt_Some in Hi. lia.
    + apply NoDup_cons. split; [|auto]. rewrite Hr'. intros (c & Hc & Hcd).
      pose proof (Hrank _ _ Hc). pose proof (rank_rtc _ _ Hcd). lia.
Qed.

Lemma GetSubFolderId_lists fuel acc id :
  (rank id < fuel)%nat ->
  exists r, GetSubFolderId fuel h v acc id = Ok (acc ++ r) /\ listed id v r.
Proof.
  revert acc id. induction fuel as [|fuel IH]; intros acc id Hfuel; [lia|]. simpl.
  destruct (for_each_ind (fun done_ acc' => exists r, acc' = acc ++ r /\ listed id done_ r)
    (sub_folder_body (GetSubFolderId fuel h v) h id) acc v) as (acc' & Hrun & r & -> & Hr); [| |eauto].
  { exists []. rewrite app_nil_r. split; [done|]. split; [|constructor].
    intros y. split; [by intros ?%elem_of_nil|]. by intros (c & (l & d & ?%elem_of_nil & _) & _). }
  intros done_ p acc1 (r & -> & Hr) (rest & Hsplit).
  destruct p as [l|]; simpl.
  2:{ eexists. split; [done|]. exists r. split; [done|]. apply listed_skip; [done|].
      by intros c (k & dk & ?%list_elem_of_singleton & _). }
  destruct (Hv l) as [d Hd]; [rewrite Hsplit; set_solver|].
  unfold load. rewrite Hd. simpl.
  assert (Hskip : bDelete d = true \/ nPid d <> id \/ bFolder d = false ->
            listed id (done_ ++ [Some l]) r).
  { intros Hor. apply listed_skip; [done|].
    intros c (k & dk & [= ->]%list_elem_of_singleton & ? & ? & ? & ? & ?).
    assert (dk = d) as -> by congruence. destruct Hor as [?|[?|?]]; congruence. }
  destruct (bDelete d) eqn:Hb; [eauto 8|].
  destruct (Z.eqb_spec (nPid d) id) as [Hp|Hp]; [|eauto 8].
  destruct (bFolder d) eqn:Hf; [|eauto 8].
  destruct (IH ((acc ++ r) ++ [nId d]) (nId d)) as (r' & -> & Hr').
  { assert (live_child h v id (nId d)).
    { exists l, d. rewrite Hsplit. split; [set_solver|done]. }
    specialize (Hrank _ _ H). lia. }
  eexists. split; [done|]. exists (r ++ nId d :: r').
  split; [by rewrite <- !app_assoc|]. by eapply listed_call.
Qed.

End Subfolders.

Lemma for_each_faults {S A} (body : S -> A -> outcome S) f a s l :
  a ∈ l -> (forall s, body s a = Fault f) ->
  (forall s b, b ∈ l -> (exists s', body s b = Ok s') \/ body s b = Fault f) ->
  for_each body s l = Fault f.
Proof.
  intros Ha Hf Hall. revert s. induction l as [|b l IH]; intros s; [by apply elem_of_nil in Ha|].
  simpl. apply elem_of_cons in Ha. destruct (Hall s b) as [[s' Hs']| ->]; [set_solver| |done].
  rewrite Hs'. simpl. destruct Ha as [<-|Ha]; [by rewrite Hf in Hs'|].
  apply IH; [done|]. intros; apply Hall; set_solver.
Qed.

Lemma for_each_total {S A} (body : S -> A -> outcome S) f s l :
  (forall s b, b ∈ l -> (exists s', body s b = Ok s') \/ body s b = Fault f) ->
  (exists s', for_each body s l = Ok s') \/ for_each body s l = Fault f.
Proof.
  intros Hall. revert s. induction l as [|b l IH]; intros s; simpl; [eauto|].
  destruct (Hall s b) as [[s' Hs]|Hs]; [set_solver| |]; rewrite Hs; [|by right].
  apply IH. intros; apply Hall; set_solver.
Qed.

Lemma sub_folder_body_total (rec : list Z -> Z -> outcome (list Z)) h id v :
  weak_vec h v -> (forall a i, (exists r, rec a i = Ok r) \/ rec a i = Fault NoFuel) ->
  forall acc p, p ∈ v -> (exists r, sub_folder_body rec h id acc p = Ok r) \/
                         sub_folder_body rec h id acc p = Fault NoFuel.
Proof.
  intros Hv Hrec acc [l|] Hp; simpl; [|eauto].
  destruct (Hv l Hp) as [d Hd]. unfold load. rewrite Hd. simpl.
  destruct (bDelete d); [eauto|]. destruct (nPid d =? id); [|eauto]. destruct (bFolder d); eauto.
Qed.

Lemma GetSubFolderId_total fuel h v acc id :
  weak_vec h v -> (exists r, GetSubFolderId fuel h v acc id = Ok r) \/
                  GetSubFolderId fuel h v acc id = Fault NoFuel.
Proof.
  intros Hv. revert acc id. induction fuel as [|fuel IH]; intros acc id; simpl; [by right|].
  apply for_each_total. intros s p Hp. by eapply sub_folder_body_total.
Qed.

Lemma GetSubFolderId_cycle_runs fuel h v acc id :
  weak_vec h v -> tc (live_child h v) id id -> GetSubFolderId fuel h v acc id = Fault NoFuel.
Proof.
  intros Hv. revert acc id. induction fuel as [|fuel IH]; intros acc id Hc; simpl; [done|].
  assert (exists c, live_child h v id c /\ tc (live_child h v) c c) as (c & Hid & Hcc).
  { inversion Hc as [? ? Hs|? y ? Hs Ht]; subst; [eauto|].
    exists y. split; [done|]. by eapply tc_r. }
  destruct Hid as (l & d & Hl & Hd & Hb & Hf & Hp & Hi).
  apply (for_each_faults _ _ (Some l)); [done| |].
  - intros s. simpl. unfold load. rewrite Hd. simpl. rewrite Hb, Hf.
    rewrite (proj2 (Z.eqb_eq _ _) Hp). apply IH. by rewrite Hi.
  - intros s p Hp'. eapply sub_folder_body_total; [done| |done].
    intros a i. by apply GetSubFolderId_total.
Qed.

(** On a hierarchy without cycles [GetSubFolderId] returns; what it lists
    is exactly the live folders strictly below the given one, each of them once
    when the ids of live folders are unique.  So the number the service
    [GetFavoriteNumAtFold] answers is the number of folders below, whatever
    favorites they hold. *)
Theorem GetSubFolderId_exact (rank : Z -> nat) (s : DataCenterState) (id : Z)
    (Hv : weak_vec (mem s) (m_vFavoriteLineData s))
    (Hrank : forall x y, live_child (mem s) (m_vFavoriteLineData s) x y -> (rank y < rank x)%nat) :
  exists r, OnService_GetSubFolderId (S (rank id)) id s = Ok r /\
    (forall y, y ∈ r <-> tc (live_child (mem s) (m_vFavoriteLineData s)) id y) /\
    (unique_folders (mem s) (m_vFavoriteLineData s) -> NoDup r) /\
    OnService_GetFavoriteNumAtFold (S (rank id)) id s = Ok (Z.of_nat (length r)).
Proof.
  destruct (GetSubFolderId_lists _ _ Hv rank Hrank (S (rank id)) [] id) as (r & Hr & Hl & Hn); [lia|].
  exists r. unfold OnService_GetSubFolderId, OnService_GetFavoriteNumAtFold. rewrite Hr. simpl.
  split; [done|]. split; [|done]. intros y. rewrite Hl. split.
  - intros (c & Hc & Hy). by eapply tc_rtc_r; [apply tc_once|].
  - intros Hy. inversion Hy as [? ? Hs|? c ? Hs Ht]; subst.
    + exists y. split; [done|reflexivity].
    + exists c. split; [done|by apply tc_rtc].
Qed.

(** When a live folder is its own ancestor, listing what is below it never
    returns, however deep the recursion may go. *)
Theorem GetSubFolderId_diverges_on_cycle (fuel : nat) (s : DataCenterState) (id : Z)
    (Hv : weak_vec (mem s) (m_vFavoriteLineData s))
    (Hcycle : tc (live_child (mem s) (m_vFavoriteLineData s)) id id) :
  OnService_GetSubFolderId fuel id s = Fault NoFuel /\
  OnService_GetFavoriteNumAtFold fuel id s = Fault NoFuel.
Proof.
  unfold OnService_GetSubFolderId, OnService_GetFavoriteNumAtFold.
  by rewrite GetSubFolderId_cycle_runs.
Qed.

(** ** The hypotheses hold on small hierarchies *)

Module FolderDemo.

(** Folder 1 at the root, folder 2 below it; the second memory makes folder 1
    a child of folder 2 as well. *)
Definition folder (i p : Z) : FavoriteLineData := mkFavorite i [] p true [] 0 0 0 0 0 false.

Definition tree : heap := {[ 1%positive := folder 1 0; 2%positive := folder 2 1 ]}.
Definition ring : heap := {[ 1%positive := folder 1 2; 2%positive := folder 2 1 ]}.

Definition vec : fav_vector := [Some 1%positive; Some 2%positive].

Definition state (h : heap) : DataCenterState := mkDC h vec ∅ 0 false [].

Definition rank (id : Z) : nat := if id =? 0 then 2 else if id =? 1 then 1 else 0.

Lemma vec_cases l : Some l ∈ vec -> l = 1%positive \/ l = 2%positive.
Proof. intros [[= ->]|[= ->]%list_elem_of_singleton]%elem_of_cons; auto. Qed.

Lemma tree_weak : weak_vec tree vec.
Proof. intros l [-> | ->]%vec_cases; eexists; reflexivity. Qed.

Lemma ring_weak : weak_vec ring vec.
Proof. intros l [-> | ->]%vec_cases; eexists; reflexivity. Qed.

Lemma tree_rank x y : live_child tree vec x y -> (rank y < rank x)%nat.
Proof.
  intros (l & d & [-> | ->]%vec_cases & Hd & _ & _ & <- & <-); injection Hd as <-; vm_compute; lia.
Qed.

Lemma ring_cycle : tc (live_child ring vec) 1 1.
Proof.
  eapply tc_l; [|apply tc_once].
  - exists 2%positive, (folder 2 1). split_and!; [|reflexivity..]. unfold vec. set_solver.
  - exists 1%positive, (folder 1 2). split_and!; [|reflexivity..]. unfold vec. set_solver.
Qed.

End FolderDemo.

Lemma DeleteFavoriteFold_exact_witness :
  exists h', DeleteFavoriteFold (S (live FolderDemo.ring)) FolderDemo.vec FolderDemo.ring 1 = Ok h' /\
             marks FolderDemo.ring h'.
Proof.
  destruct (DeleteFavoriteFold_exact FolderDemo.vec FolderDemo.ring 1 FolderDemo.ring_weak)
    as (h' & Hrun & Hm & _).
  exists h'. split; [exact Hrun|exact Hm].
Defined.

Lemma GetSubFolderId_exact_witness :
  exists r, OnService_GetSubFolderId (S (FolderDemo.rank 0)) 0 (FolderDemo.state FolderDemo.tree) = Ok r /\
            OnService_GetFavoriteNumAtFold (S (FolderDemo.rank 0)) 0 (FolderDemo.state FolderDemo.tree)
              = Ok (Z.of_nat (length r)).
Proof.
  destruct (GetSubFolderId_exact FolderDemo.rank (FolderDemo.state FolderDemo.tree) 0
    FolderDemo.tree_weak FolderDemo.tree_rank) as (r & Hr & _ & _ & Hn).
  exists r. split; [exact Hr|exact Hn].
Defined.

Lemma GetSubFolderId_diverges_on_cycle_witness :
  OnService_GetSubFolderId 1000 1 (FolderDemo.state FolderDemo.ring) = Fault NoFuel.
Proof.
  apply (GetSubFolderId_diverges_on_cycle 1000 (FolderDemo.state FolderDemo.ring) 1
    FolderDemo.ring_weak FolderDemo.ring_cycle).
Defined.
