(* ===== verification/Rearrange.v ===== *)
(** * Renumbering, adding and clearing favorites

    Theorems about the handlers of [DataCenter] that give records their ids
    (src/DataCenter/DataCenterModule.cpp): [OnService_ReArrangeFavorite],
    [OnEvent_AddFavorite], [OnEvent_AddFavoriteFolder],
    [OnService_InitFavoriteData], [OnService_ClearData], and concrete states on
    which the theorems of [DataCenter] apply. *)
From stdpp Require Import prelude gmap sorting.
From Stdlib Require Import ZArith Lia.
From S2P Require Import Prelude Protocol Favorites DataCenter.

(** The records of a vector in order. *)
Definition recs (h : heap) (v : fav_vector) (rs : list (positive * FavoriteLineData)) : Prop :=
  v = map (fun e => Some (fst e)) rs /\ Forall (fun e => h !! fst e = Some (snd e)) rs.

Lemma valid_recs h v : valid_vec h v -> exists rs, recs h v rs.
Proof. intros H. destruct (load_all_valid h v H) as (rs & _ & Hm & Hall). by exists rs. Qed.

Lemma recs_lookup h v rs i : recs h v rs ->
  v !! i = (fun e => Some (fst e)) <$> rs !! i.
Proof. intros [-> _]. by rewrite list_lookup_fmap. Qed.

Lemma recs_get h v rs i l d :
  recs h v rs -> v !! i = Some (Some l) -> h !! l = Some d -> rs !! i = Some (l, d).
Proof.
  intros Hr Hi Hd. rewrite (recs_lookup _ _ _ _ Hr) in Hi.
  destruct (rs !! i) as [[l' d']|] eqn:E; simpl in Hi; [|done]. injection Hi as ->.
  destruct Hr as [_ Hall]. rewrite Forall_lookup in Hall. specialize (Hall _ _ E). simpl in Hall.
  congruence.
Qed.

(** [q] is one more than the last index below [k] whose id is [p], or 0. *)
Definition parent_slot (rs : list (positive * FavoriteLineData)) (p : Z) (k : Z) (q : Z) : Prop :=
  (q = 0 /\ forall i e, rs !! i = Some e -> Z.of_nat i < k -> nId (snd e) <> p) \/
  (exists i e, rs !! i = Some e /\ Z.of_nat i < k /\ nId (snd e) = p /\ q = Z.of_nat i + 1 /\
     forall j e', rs !! j = Some e' -> (i < j)%nat -> Z.of_nat j < k -> nId (snd e') <> p).

Lemma parent_slot_step rs p i e q :
  rs !! i = Some e -> parent_slot rs p (Z.of_nat i) q ->
  parent_slot rs p (Z.of_nat i + 1) (if p =? nId (snd e) then Z.of_nat i + 1 else q).
Proof.
  intros He Hq. destruct (Z.eqb_spec p (nId (snd e))) as [->|Hne].
  - right. exists i, e. split_and!; [done|lia|done|done|]. lia.
  - assert (Hlast : forall j e', rs !! j = Some e' -> Z.of_nat j < Z.of_nat i + 1 ->
              ~ Z.of_nat j < Z.of_nat i -> nId (snd e') <> p).
    { intros j e' Hj ? ?. assert (j = i) as -> by lia. congruence. }
    destruct Hq as [[-> Hq]|(j & ej & Hj & Hlt & Hp & -> & Hq)]; [left|right].
    + split; [done|]. intros j e' Hj Hlt. destruct (decide (Z.of_nat j < Z.of_nat i)); eauto.
    + exists j, ej. split_and!; [done|lia|done|done|]. intros k e' Hk Hjk Hlt'.
      destruct (decide (Z.of_nat k < Z.of_nat i)); eauto.
Qed.

Section Renumber.
Context (h : heap) (v : fav_vector) (rs : list (positive * FavoriteLineData)).
Context (Hrs : recs h v rs).

(** The table after visiting [j] columns of row [i]. *)
Definition table_inv (i j : Z) (t : list (Z * Z)) : Prop :=
  length t = length rs /\
  forall k e d, t !! k = Some e -> rs !! k = Some d ->
    parent_slot rs (nPid (snd d)) (if Z.of_nat k <? j then i + 1 else i) (snd e).

Lemma recs_length : length v = length rs.
Proof. destruct Hrs as [-> _]. apply length_map. Qed.

Lemma recs_read (i : nat) e :
  rs !! i = Some e -> vec_at v (Z.of_nat i) = Ok (Some (fst e)) /\ load_ptr h (Some (fst e)) = Ok (snd e).
Proof.
  intros He. split.
  - apply vec_at_nat. by rewrite (recs_lookup _ _ _ _ Hrs), He.
  - destruct Hrs as [_ Hall]. rewrite Forall_lookup in Hall.
    unfold load_ptr. simpl. by apply load_Ok, (Hall i).
Qed.

Lemma rearrange_scan_ok i j t :
  0 <= i < Z.of_nat (length rs) -> 0 <= j < Z.of_nat (length rs) -> table_inv i j t ->
  exists t', rearrange_scan h v i t j = Ok t' /\ table_inv i (j + 1) t'.
Proof.
  intros Hi Hj [Hlen Ht]. unfold rearrange_scan.
  destruct (lookup_lt_is_Some_2 rs (Z.to_nat i)) as [ei Hei]; [lia|].
  destruct (lookup_lt_is_Some_2 rs (Z.to_nat j)) as [ej Hej]; [lia|].
  destruct (lookup_lt_is_Some_2 t (Z.to_nat j)) as [tj Htj]; [lia|].
  destruct (recs_read _ _ Hei) as [R1 R2]. destruct (recs_read _ _ Hej) as [R3 R4].
  pose proof (vec_at_nat _ _ _ Htj) as R5.
  rewrite Z2Nat.id in R1, R3, R5 by lia.
  rewrite R3. simpl. rewrite R4. simpl. rewrite R1. simpl. rewrite R2. simpl.
  pose proof (parent_slot_step rs (nPid (snd ej)) (Z.to_nat i) ei (snd tj) Hei) as Hstep.
  rewrite Z2Nat.id in Hstep by lia.
  assert (Hold : parent_slot rs (nPid (snd ej)) i (snd tj)).
  { specialize (Ht _ _ _ Htj Hej). rewrite Z2Nat.id in Ht by lia. by rewrite Z.ltb_irrefl in Ht. }
  specialize (Hstep Hold).
  assert (Hkeep : forall k e d, t !! k = Some e -> rs !! k = Some d -> k <> Z.to_nat j ->
     parent_slot rs (nPid (snd d)) (if Z.of_nat k <? j + 1 then i + 1 else i) (snd e)).
  { intros k e d Hk Hd Hne. specialize (Ht k e d Hk Hd).
    destruct (Z.ltb_spec (Z.of_nat k) j), (Z.ltb_spec (Z.of_nat k) (j + 1)); [done|lia|lia|done]. }
  destruct (nPid (snd ej) =? nId (snd ei)).
  - rewrite R5. simpl. eexists. split; [done|]. split; [by rewrite length_insert|].
    intros k e d Hk Hd. destruct (decide (k = Z.to_nat j)) as [->|Hne].
    + rewrite list_lookup_insert_eq in Hk by lia. injection Hk as <-. simpl.
      assert (d = ej) as -> by congruence.
      by rewrite (proj2 (Z.ltb_lt _ _)) by lia.
    + rewrite list_lookup_insert_ne in Hk by done. by apply Hkeep.
  - eexists. split; [done|]. split; [done|]. intros k e d Hk Hd.
    destruct (decide (k = Z.to_nat j)) as [->|Hne]; [|by apply Hkeep].
    assert (d = ej) as -> by congruence. assert (e = tj) as -> by congruence.
    by rewrite (proj2 (Z.ltb_lt _ _)) by lia.
Qed.

Lemma rearrange_row_ok i t :
  0 <= i < Z.of_nat (length rs) -> table_inv i 0 t ->
  exists t', rearrange_row h v t i = Ok t' /\ table_inv (i + 1) 0 t'.
Proof.
  intros Hi Ht. unfold rearrange_row. rewrite recs_length.
  destruct (for_range_ind (table_inv i) (rearrange_scan h v i) t (Z.of_nat (length rs)))
    as (t' & -> & Hlen & Ht'); [lia|done| |].
  { intros j t1 Hj. by apply rearrange_scan_ok. }
  simpl. destruct (lookup_lt_is_Some_2 t' (Z.to_nat i)) as [ti Hti]; [lia|].
  pose proof (vec_at_nat _ _ _ Hti) as R. rewrite Z2Nat.id in R by lia. rewrite R. simpl.
  eexists. split; [done|]. split; [by rewrite length_insert|].
  intros k e d Hk Hd. rewrite (proj2 (Z.ltb_ge _ _)) by lia.
  assert (Hlt : (k < length rs)%nat) by (by eapply lookup_lt_Some).
  assert (exists e', t' !! k = Some e' /\ snd e' = snd e) as (e' & He' & <-).
  { destruct (decide (k = Z.to_nat i)) as [->|Hne].
    - rewrite list_lookup_insert_eq in Hk by lia. injection Hk as <-. eauto.
    - rewrite list_lookup_insert_ne in Hk by done. eauto. }
  specialize (Ht' k e' d He' Hd). by rewrite (proj2 (Z.ltb_lt _ _)) in Ht' by lia.
Qed.

(** The memory after [i] records were written back. *)
Definition store_inv (t : list (Z * Z)) (i : Z) (h1 : heap) : Prop :=
  (forall k l d e, rs !! k = Some (l, d) -> t !! k = Some e ->
     h1 !! l = Some (if Z.of_nat k <? i then set_ids (Z.of_nat k + 1) (snd e) d else d)) /\
  (forall l, Some l ∉ v -> h1 !! l = h !! l).

Lemma rearrange_store_ok t i h1 :
  NoDup v -> length t = length rs ->
  0 <= i < Z.of_nat (length rs) -> store_inv t i h1 ->
  exists h2, rearrange_store v t h1 i = Ok h2 /\ store_inv t (i + 1) h2.
Proof.
  intros Hnd Hlen Hi [Hin Hout]. unfold rearrange_store.
  destruct (lookup_lt_is_Some_2 rs (Z.to_nat i)) as [[l d] Hei]; [lia|].
  destruct (lookup_lt_is_Some_2 t (Z.to_nat i)) as [e Hti]; [lia|].
  destruct (recs_read _ _ Hei) as [R1 _]. pose proof (vec_at_nat _ _ _ Hti) as R2.
  rewrite Z2Nat.id in R1, R2 by lia. rewrite R1. simpl.
  pose proof (Hin _ _ _ _ Hei Hti) as Hld. rewrite Z2Nat.id, Z.ltb_irrefl in Hld by lia.
  unfold load. rewrite Hld. simpl. rewrite R2. simpl. eexists. split; [done|].
  assert (Hvi : forall k l' d', rs !! k = Some (l', d') -> v !! k = Some (Some l')).
  { intros k l' d' Hk. by rewrite (recs_lookup _ _ _ _ Hrs), Hk. }
  split.
  - intros k l' d' e' Hk Hek. destruct (decide (l' = l)) as [->|Hne].
    + assert (k = Z.to_nat i) as -> by (eapply NoDup_lookup; eauto).
      assert (d' = d) as -> by congruence. assert (e' = e) as -> by congruence.
      rewrite lookup_insert_eq, (proj2 (Z.ltb_lt _ _)) by lia.
      by rewrite Z2Nat.id by lia.
    + rewrite lookup_insert_ne by done. rewrite (Hin _ _ _ _ Hk Hek).
      destruct (Z.ltb_spec (Z.of_nat k) i), (Z.ltb_spec (Z.of_nat k) (i + 1)); [done|lia| |done].
      assert (k = Z.to_nat i) as -> by lia. congruence.
  - intros l' Hl'. rewrite lookup_insert_ne; [by apply Hout|].
    intros ->. apply Hl', list_elem_of_lookup. eauto.
Qed.

End Renumber.

(** The renumbering service on a non-empty vector of distinct valid pointers. *)
Lemma ReArrange_run s rs :
  let v := m_vFavoriteLineData s in
  recs (mem s) v rs -> v <> [] -> NoDup v ->
  exists h', OnService_ReArrangeFavorite s = Ok (with_mem h' s, Z.of_nat (length v)) /\
    (forall k l d, rs !! k = Some (l, d) ->
       exists q, h' !! l = Some (set_ids (Z.of_nat k + 1) q d) /\
                 parent_slot rs (nPid d) (Z.of_nat (length v)) q) /\
    (forall l, Some l ∉ v -> h' !! l = mem s !! l).
Proof.
  intros v Hrs Hne Hnd. unfold OnService_ReArrangeFavorite. fold v.
  assert (Hlen : length v = length rs) by (by eapply recs_length).
  assert (exists p, vec_at v 0 = Ok p) as [p ->].
  { destruct v as [|p v']; [done|]. by exists p. }
  simpl. rewrite Hlen.
  destruct (for_range_ind (fun i => table_inv rs i 0) (rearrange_row (mem s) v)
    (replicate (length rs) (0, 0)) (Z.of_nat (length rs))) as (t & -> & Htl & Ht); [lia| | |].
  { split; [apply length_replicate|]. intros k e d Hk Hd. apply lookup_replicate in Hk as [-> Hk].
    left. split; [done|]. rewrite (proj2 (Z.ltb_ge _ _)) by lia. lia. }
  { intros i t Hi. by apply rearrange_row_ok. }
  simpl.
  destruct (for_range_ind (store_inv (mem s) v rs t) (rearrange_store v t) (mem s)
    (Z.of_nat (length rs))) as (h' & -> & Hin & Hout); [lia| | |].
  { split; [|done]. intros k l d e Hk _. rewrite (proj2 (Z.ltb_ge _ _)) by lia.
    destruct Hrs as [_ Hall]. rewrite Forall_lookup in Hall. apply (Hall _ _ Hk). }
  { intros i h1 Hi. by eapply rearrange_store_ok. }
  exists h'. split; [done|]. split; [|done]. intros k l d Hk.
  assert (Hlt : (k < length rs)%nat) by (by eapply lookup_lt_Some).
  destruct (lookup_lt_is_Some_2 t k) as [e He]; [lia|].
  exists (snd e). rewrite (Hin k l d e Hk He), (proj2 (Z.ltb_lt _ _)) by lia.
  split; [done|]. specialize (Ht k e (l, d) He Hk). simpl in Ht.
  by rewrite (proj2 (Z.ltb_ge _ _)) in Ht by lia.
Qed.

(** With unique ids, the new parent id designates the same record. *)
Lemma parent_slot_unique rs p q :
  (forall i j ei ej, rs !! i = Some ei -> rs !! j = Some ej -> nId (snd ei) = nId (snd ej) -> i = j) ->
  parent_slot rs p (Z.of_nat (length rs)) q ->
  (forall k e, rs !! k = Some e -> (q = Z.of_nat k + 1 <-> p = nId (snd e))) /\
  (q = 0 <-> forall e, e ∈ rs -> nId (snd e) <> p).
Proof.
  intros Hu [[-> Hq]|(i & e & Hi & Hlt & <- & -> & Hq)]; split.
  - intros k e Hk. split; [lia|]. intros ->. pose proof (lookup_lt_Some _ _ _ Hk).
    by destruct (Hq k e Hk ltac:(lia)).
  - split; [|done]. intros _ e [k Hk]%list_elem_of_lookup.
    pose proof (lookup_lt_Some _ _ _ Hk). apply (Hq k e Hk). lia.
  - intros k e' Hk. split.
    + intros Heq. assert (k = i) as -> by lia. congruence.
    + intros Heq. by rewrite (Hu i k e e' Hi Hk Heq).
  - split; [lia|]. intros Hno. destruct (Hno e); [|done]. by eapply list_elem_of_lookup_2.
Qed.

(** Ids are unique along the vector. *)
Definition unique_ids (h : heap) (v : fav_vector) : Prop :=
  forall i j li lj di dj, v !! i = Some (Some li) -> v !! j = Some (Some lj) ->
    h !! li = Some di -> h !! lj = Some dj -> nId di = nId dj -> i = j.

(** [h'] is [h] with the records of [v] numbered from 1 in order, each below
    the same parent as before, and below the root when it had no parent. *)
Definition renumbered (h : heap) (v : fav_vector) (h' : heap) : Prop :=
  (forall k l d, v !! k = Some (Some l) -> h !! l = Some d ->
     exists q, h' !! l = Some (set_ids (Z.of_nat k + 1) q d) /\
       (forall k2 l2 d2, v !! k2 = Some (Some l2) -> h !! l2 = Some d2 ->
          (q = Z.of_nat k2 + 1 <-> nPid d = nId d2)) /\
       (q = 0 <-> forall k2 l2 d2, v !! k2 = Some (Some l2) -> h !! l2 = Some d2 -> nId d2 <> nPid d)) /\
  (forall l, Some l ∉ v -> h' !! l = h !! l).

Lemma unique_ids_NoDup h v : valid_vec h v -> unique_ids h v -> NoDup v.
Proof.
  intros Hv Hu. apply NoDup_alt. intros i j p Hi Hj.
  unfold valid_vec in Hv. rewrite Forall_lookup in Hv.
  destruct (Hv i p Hi) as (l & d & -> & Hd). eauto.
Qed.

Lemma ReArrange_unique s :
  valid_vec (mem s) (m_vFavoriteLineData s) -> m_vFavoriteLineData s <> [] ->
  unique_ids (mem s) (m_vFavoriteLineData s) ->
  exists h', OnService_ReArrangeFavorite s =
               Ok (with_mem h' s, Z.of_nat (length (m_vFavoriteLineData s))) /\
    renumbered (mem s) (m_vFavoriteLineData s) h'.
Proof.
  set (v := m_vFavoriteLineData s). intros Hv Hne Hu.
  destruct (valid_recs _ _ Hv) as [rs Hrs]. pose proof (unique_ids_NoDup _ _ Hv Hu) as Hnd.
  destruct (ReArrange_run s rs Hrs Hne Hnd) as (h' & Hrun & Hin & Hout).
  exists h'. split; [done|]. split; [|done].
  assert (Hback : forall i e, rs !! i = Some e ->
            v !! i = Some (Some (fst e)) /\ mem s !! fst e = Some (snd e)).
  { intros i e He. split; [by rewrite (recs_lookup _ _ _ _ Hrs), He|].
    destruct Hrs as [_ Hall]. rewrite Forall_lookup in Hall. by apply (Hall i). }
  assert (Hur : forall i j ei ej, rs !! i = Some ei -> rs !! j = Some ej ->
                  nId (snd ei) = nId (snd ej) -> i = j).
  { intros i j ei ej Hi Hj He. destruct (Hback _ _ Hi), (Hback _ _ Hj). eauto. }
  intros k l d Hk Hd.
  destruct (Hin k l d) as (q & Hq & Hslot); [by eapply recs_get|].
  exists q. split; [done|].
  fold v in Hslot. rewrite (recs_length _ _ _ Hrs) in Hslot.
  destruct (parent_slot_unique rs (nPid d) q Hur Hslot) as [Hone Hzero]. split.
  - intros k2 l2 d2 Hk2 Hd2. apply (Hone k2 (l2, d2)). by eapply recs_get.
  - rewrite Hzero. split.
    + intros H k2 l2 d2 Hk2 Hd2. apply (H (l2, d2)).
      apply list_elem_of_lookup. exists k2. by eapply recs_get.
    + intros H e [k2 Hk2]%list_elem_of_lookup. destruct (Hback _ _ Hk2). eauto.
Qed.

(** C8: on a vector of valid pointers with unique ids the renumbering service
    gives the records the ids 1, 2, ... in vector order, keeps every parent
    link (a record's new parent id is the new id of the record that was its
    parent, 0 if there was none) and changes nothing else. *)
Theorem ReArrange_renumbers (s : DataCenterState)
    (Hv : valid_vec (mem s) (m_vFavoriteLineData s)) (Hne : m_vFavoriteLineData s <> [])
    (Hu : unique_ids (mem s) (m_vFavoriteLineData s)) :
  exists h', OnService_ReArrangeFavorite s =
               Ok (with_mem h' s, Z.of_nat (length (m_vFavoriteLineData s))) /\
    renumbered (mem s) (m_vFavoriteLineData s) h'.
Proof. by apply ReArrange_unique. Qed.

(** ** Adding *)

(** [next_id] on a vector that ends in a valid pointer. *)
Lemma next_id_last h v l d :
  h !! l = Some d -> next_id h (v ++ [Some l]) = Ok (i32 (nId d + 1)).
Proof.
  intros Hd. unfold next_id. rewrite length_app. simpl.
  replace (Z.of_nat (length v + 1) - 1) with (Z.of_nat (length v)) by lia.
  rewrite (vec_at_nat _ _ (Some l)) by (by apply list_lookup_middle). simpl.
  unfold load. by rewrite Hd.
Qed.

Lemma valid_last h v :
  valid_vec h v -> v <> [] -> exists v0 l d, v = v0 ++ [Some l] /\ h !! l = Some d.
Proof.
  intros Hv Hne. destruct (exists_last Hne) as (v0 & p & ->). subst.
  apply Forall_app in Hv as [_ (l & d & -> & Hd)%Forall_singleton]. eauto.
Qed.

Lemma add_valid h v l d :
  valid_vec h v -> h !! l = None -> valid_vec (<[l := d]> h) (v ++ [Some l]).
Proof.
  intros Hv Hl. apply Forall_app. split; [by apply valid_vec_insert|].
  apply Forall_singleton. exists l, d. by rewrite lookup_insert_eq.
Qed.

(** The last element of a sorted vector has the greatest key. *)
Lemma sorted_last {A} (key : A -> Z) v p q :
  StronglySorted (key_le key) (v ++ [p]) -> q ∈ v ++ [p] -> key q <= key p.
Proof.
  induction v as [|a v IH]; simpl; intros Hs Hq.
  - apply list_elem_of_singleton in Hq as ->. lia.
  - inversion Hs as [|? ? Hs' Hall]; subst. apply elem_of_cons in Hq as [->|Hq]; [|auto].
    rewrite Forall_forall in Hall. apply Hall. set_solver.
Qed.

(** After adding a record below a smaller parent, the record with the greatest
    parent id is still the last one. *)
Lemma max_stays_last h v0 ll dl l d v' :
  h !! ll = Some dl -> h !! l = None -> valid_vec h (v0 ++ [Some ll]) ->
  (forall k dk, Some k ∈ v0 -> h !! k = Some dk -> nPid dk < nPid dl) -> nPid d < nPid dl ->
  v' ≡ₚ (v0 ++ [Some ll]) ++ [Some l] -> valid_vec (<[l := d]> h) v' ->
  StronglySorted (key_le (key_at (<[l := d]> h) nPid)) v' ->
  exists v1, v' = v1 ++ [Some ll].
Proof.
  intros Hdl Hl Hv Hmax Hsmall Hp Hv' Hs. assert (Hll : l <> ll) by congruence.
  destruct (valid_last _ _ Hv') as (v1 & lz & dz & -> & Hdz).
  { intros ->. by apply Permutation_nil, app_eq_nil in Hp as [_ ?]. }
  exists v1. destruct (decide (lz = ll)) as [->|Hne]; [done|exfalso].
  pose proof (sorted_last (key_at (<[l:=d]> h) nPid) v1 (Some lz) (Some ll) Hs) as Hle.
  assert (Hz : Some lz ∈ v1 ++ [Some lz]) by set_solver.
  rewrite Hp in Hle, Hz. specialize (Hle ltac:(set_solver)).
  unfold key_at in Hle. simpl in Hle. rewrite lookup_insert_ne, Hdl, Hdz in Hle by done.
  apply elem_of_app in Hz as [[Hz|Hz%list_elem_of_singleton]%elem_of_app|Hz%list_elem_of_singleton];
    [|congruence|].
  - destruct (decide (lz = l)) as [->|Hz1].
    + unfold valid_vec in Hv. rewrite Forall_forall in Hv.
      destruct (Hv (Some l)) as (? & ? & [= <-] & ?); [set_solver|congruence].
    + rewrite lookup_insert_ne in Hdz by done. specialize (Hmax lz dz Hz Hdz). lia.
  - injection Hz as ->. rewrite lookup_insert_eq in Hdz. injection Hdz as <-. lia.
Qed.

Section Adding.
Context (sort : forall A : Type, (A -> Z) -> list A -> list A) `{!StdSort sort}.
Context (now : Z).

(** What adding a record does: the new pointer is fresh, the id is one more
    than that of the last record, the vector is sorted by parent id. *)
Lemma add_sorted h v0 ll dl d :
  valid_vec h (v0 ++ [Some ll]) -> h !! ll = Some dl ->
  let l := fst (new_record d h) in
  exists v', sort_vector sort nPid (<[l := d]> h) ((v0 ++ [Some ll]) ++ [Some l]) = Ok v' /\
    v' ≡ₚ (v0 ++ [Some ll]) ++ [Some l] /\ valid_vec (<[l := d]> h) v' /\
    StronglySorted (key_le (key_at (<[l := d]> h) nPid)) v'.
Proof.
  intros Hv Hd l. apply (sort_vector_spec sort nPid).
  apply add_valid; [done|]. apply new_record_fresh.
Qed.

(** The record [OnEvent_AddFavorite] creates. *)
Definition added_record (e : DataCenter_AddFavoriteEvent) (i : Z) : FavoriteLineData :=
  mkFavorite i (STRNCPY MAX_LENGTH (af_szTitle e)) (af_nParentFavoriteId e) false
    (STRNCPY MAX_LENGTH (af_szUrl e)) now now 0 0 0 false.

Lemma AddFavorite_run s src e v0 ll dl :
  m_vFavoriteLineData s = v0 ++ [Some ll] -> mem s !! ll = Some dl ->
  valid_vec (mem s) (m_vFavoriteLineData s) ->
  let d := added_record e (i32 (nId dl + 1)) in
  let l := fst (new_record d (mem s)) in
  exists v', OnEvent_AddFavorite sort now src (Some e) s =
      Ok (post (PostAddFavoriteResult (MODULE_ID DATACENTER) src (Some l))
            (with_vec (<[l := d]> (mem s)) v' s)) /\
    v' ≡ₚ m_vFavoriteLineData s ++ [Some l] /\ valid_vec (<[l := d]> (mem s)) v' /\
    StronglySorted (key_le (key_at (<[l := d]> (mem s)) nPid)) v'.
Proof.
  intros Hs Hd Hv d l. rewrite Hs in Hv |- *.
  destruct (add_sorted (mem s) v0 ll dl d Hv Hd) as (v' & Hrun & Hrest).
  exists v'. split; [|done]. unfold OnEvent_AddFavorite. rewrite Hs.
  rewrite (next_id_last _ _ _ _ Hd). cbn -[new_record sort_vector].
  unfold l, new_record in *. cbn [fst] in *. unfold d, added_record in Hrun. by rewrite Hrun.
Qed.

End Adding.

(** Adding a favorite to a vector of valid pointers appends one record with
    the given title, URL and parent and the id that follows the last record's;
    the vector becomes a permutation sorted by parent id, no other record
    changes, and the sender is answered with the address of the new record. *)
Theorem AddFavorite_adds (sort : forall A : Type, (A -> Z) -> list A -> list A) (now : Z)
    (Hsort : StdSort sort) (s : DataCenterState) (src : Z) (e : DataCenter_AddFavoriteEvent)
    (v0 : fav_vector) (ll : positive) (dl : FavoriteLineData)
    (Hlast : m_vFavoriteLineData s = v0 ++ [Some ll]) (Hdl : mem s !! ll = Some dl)
    (Hv : valid_vec (mem s) (m_vFavoriteLineData s)) :
  exists l v', mem s !! l = None /\
    OnEvent_AddFavorite sort now src (Some e) s =
      Ok (post (PostAddFavoriteResult (MODULE_ID DATACENTER) src (Some l))
            (with_vec (<[l := added_record now e (i32 (nId dl + 1))]> (mem s)) v' s)) /\
    v' ≡ₚ m_vFavoriteLineData s ++ [Some l] /\
    StronglySorted (key_le (key_at (<[l := added_record now e (i32 (nId dl + 1))]> (mem s)) nPid)) v'.
Proof.
  destruct (AddFavorite_run sort now s src e v0 ll dl Hlast Hdl Hv) as (v' & Hrun & Hp & _ & Hs).
  eexists _, v'. split; [apply new_record_fresh|]. eauto.
Qed.

(** When the last record has the greatest parent id and a favorite is added
    twice under a smaller parent, the sort moves both new records away from the
    end, so the second gets the id of the first: ids stop being unique. *)
Theorem AddFavorite_repeats_id (sort : forall A : Type, (A -> Z) -> list A -> list A) (now : Z)
    (Hsort : StdSort sort) (s : DataCenterState) (src : Z) (e : DataCenter_AddFavoriteEvent)
    (v0 : fav_vector) (ll : positive) (dl : FavoriteLineData)
    (Hlast : m_vFavoriteLineData s = v0 ++ [Some ll]) (Hdl : mem s !! ll = Some dl)
    (Hv : valid_vec (mem s) (m_vFavoriteLineData s))
    (Hmax : forall l d, Some l ∈ v0 -> mem s !! l = Some d -> nPid d < nPid dl)
    (Hsmall : af_nParentFavoriteId e < nPid dl) :
  exists s1 s2 l1 l2 d1 d2,
    OnEvent_AddFavorite sort now src (Some e) s = Ok s1 /\
    OnEvent_AddFavorite sort now src (Some e) s1 = Ok s2 /\
    l1 <> l2 /\ Some l1 ∈ m_vFavoriteLineData s2 /\ Some l2 ∈ m_vFavoriteLineData s2 /\
    mem s2 !! l1 = Some d1 /\ mem s2 !! l2 = Some d2 /\ nId d1 = nId d2.
Proof.
  destruct (AddFavorite_run sort now s src e v0 ll dl Hlast Hdl Hv) as (v1 & R1 & P1 & V1 & S1).
  set (d1 := added_record now e (i32 (nId dl + 1))) in *.
  set (l1 := fst (new_record d1 (mem s))) in *.
  assert (Hl1 : mem s !! l1 = None) by apply new_record_fresh.
  assert (Hll : l1 <> ll) by congruence.
  destruct (max_stays_last (mem s) v0 ll dl l1 d1 v1) as (v1' & ->); rewrite <- ?Hlast; [done..|].
  set (s1 := post _ _) in R1.
  assert (Hd1 : mem s1 !! ll = Some dl) by (simpl; by rewrite lookup_insert_ne).
  destruct (AddFavorite_run sort now s1 src e v1' ll dl eq_refl Hd1 V1) as (v2 & R2 & P2 & V2 & S2).
  fold d1 in R2, P2. set (l2 := fst (new_record d1 (mem s1))) in *.
  assert (Hl2 : mem s1 !! l2 = None) by apply new_record_fresh.
  eexists s1, _, l1, l2, d1, d1. split; [done|]. split; [done|].
  assert (Hne : l1 <> l2). { intros He. rewrite <- He in Hl2. simpl in Hl2. by rewrite lookup_insert_eq in Hl2. }
  split; [done|]. simpl. rewrite P2. simpl. rewrite P1.
  split; [set_solver|]. split; [set_solver|].
  rewrite lookup_insert_ne by done. by rewrite !lookup_insert_eq.
Qed.

(** The first favorite cannot be added: with an empty vector the handlers
    read the element before the first. *)
Theorem add_to_empty_out_of_range (sort : forall A : Type, (A -> Z) -> list A -> list A) (now : Z)
    (s : DataCenterState) (src : Z) (e : DataCenter_AddFavoriteEvent)
    (f : DataCenter_AddFavoriteFoldEvent) (Hempty : m_vFavoriteLineData s = []) :
  OnEvent_AddFavorite sort now src (Some e) s = Fault OutOfRange /\
  OnEvent_AddFavoriteFolder sort now src (Some f) s = Fault OutOfRange.
Proof. unfold OnEvent_AddFavorite, OnEvent_AddFavoriteFolder. by rewrite Hempty. Qed.

(** The record [OnEvent_AddFavoriteFolder] creates. *)
Definition added_folder (now : Z) (e : DataCenter_AddFavoriteFoldEvent) (i : Z) : FavoriteLineData :=
  mkFavorite i (STRNCPY MAX_LENGTH (aff_szTitle e)) (aff_nParentFavoriteId e) true [] now now 0 0 0 false.

Lemma unique_ids_perm h v v' : unique_ids h v -> valid_vec h v -> v' ≡ₚ v -> unique_ids h v'.
Proof.
  intros Hu Hv Hp i j li lj di dj Hi Hj Hdi Hdj He.
  assert (Hnd : NoDup v') by (rewrite Hp; by eapply unique_ids_NoDup).
  assert (Hli : Some li ∈ v) by (rewrite <- Hp; by eapply list_elem_of_lookup_2).
  assert (Hlj : Some lj ∈ v) by (rewrite <- Hp; by eapply list_elem_of_lookup_2).
  apply list_elem_of_lookup in Hli as [i' Hi'], Hlj as [j' Hj'].
  assert (i' = j') as <- by eauto.
  eapply NoDup_lookup; [done|done|]. congruence.
Qed.

Lemma unique_ids_add h v l d :
  unique_ids h v -> valid_vec h v -> h !! l = None ->
  (forall k dk, Some k ∈ v -> h !! k = Some dk -> nId dk <> nId d) ->
  unique_ids (<[l := d]> h) (v ++ [Some l]).
Proof.
  intros Hu Hv Hl Hfresh.
  assert (Hold : forall i k dk, v !! i = Some (Some k) -> <[l := d]> h !! k = Some dk -> h !! k = Some dk).
  { intros i k dk Hi Hk. assert (k <> l).
    { intros ->. unfold valid_vec in Hv. rewrite Forall_lookup in Hv.
      destruct (Hv i _ Hi) as (? & ? & [= <-] & ?). congruence. }
    by rewrite lookup_insert_ne in Hk. }
  assert (Hcase : forall i k dk, (v ++ [Some l]) !! i = Some (Some k) -> <[l := d]> h !! k = Some dk ->
     (v !! i = Some (Some k) /\ h !! k = Some dk) \/ (i = length v /\ dk = d)).
  { intros i k dk Hi Hk. apply lookup_snoc_Some in Hi as [[_ Hi]|[-> [= ->]]]; [left; eauto|right].
    rewrite lookup_insert_eq in Hk. split; congruence. }
  intros i j li lj di dj Hi Hj Hdi Hdj He.
  destruct (Hcase _ _ _ Hi Hdi) as [[Vi Di]|[-> ->]], (Hcase _ _ _ Hj Hdj) as [[Vj Dj]|[-> ->]];
    [eauto|exfalso; eapply Hfresh; [by eapply list_elem_of_lookup_2|done|done]|
     exfalso; eapply Hfresh; [by eapply list_elem_of_lookup_2|done|done]|done].
Qed.

(** Adding a folder to a vector with unique ids (the id that follows the
    last record's being free) inserts one record, sorts by parent id and then
    renumbers: afterwards the ids are 1, 2, ... in vector order and every
    record, the new one included, hangs below the same parent as before. *)
Theorem AddFavoriteFolder_keeps_tree (sort : forall A : Type, (A -> Z) -> list A -> list A) (now : Z)
    (Hsort : StdSort sort) (s : DataCenterState) (src : Z) (e : DataCenter_AddFavoriteFoldEvent)
    (v0 : fav_vector) (ll : positive) (dl : FavoriteLineData)
    (Hlast : m_vFavoriteLineData s = v0 ++ [Some ll]) (Hdl : mem s !! ll = Some dl)
    (Hv : valid_vec (mem s) (m_vFavoriteLineData s))
    (Hu : unique_ids (mem s) (m_vFavoriteLineData s))
    (Hfree : forall k dk, Some k ∈ m_vFavoriteLineData s -> mem s !! k = Some dk ->
               nId dk <> i32 (nId dl + 1)) :
  exists l v' h', mem s !! l = None /\ v' ≡ₚ m_vFavoriteLineData s ++ [Some l] /\
    OnEvent_AddFavoriteFolder sort now src (Some e) s =
      Ok (post (PostAddFavoriteFoldResult (MODULE_ID DATACENTER) src (aff_nParentFavoriteId e) (Some l))
            (with_vec h' v' s)) /\
    renumbered (<[l := added_folder now e (i32 (nId dl + 1))]> (mem s)) v' h'.
Proof.
  set (d := added_folder now e (i32 (nId dl + 1))). set (l := fst (new_record d (mem s))).
  assert (Hl : mem s !! l = None) by apply new_record_fresh.
  rewrite Hlast in Hv, Hu, Hfree |- *.
  destruct (add_sorted sort (mem s) v0 ll dl d Hv Hdl) as (v' & Hrun & Hp & Hval & _).
  fold l in Hrun, Hp, Hval.
  assert (Hu' : unique_ids (<[l := d]> (mem s)) v').
  { eapply unique_ids_perm; [|by apply add_valid|done]. by apply unique_ids_add. }
  destruct (ReArrange_unique (with_vec (<[l := d]> (mem s)) v' s)) as (h' & Hre & Hren);
    [done| |done|].
  { simpl. intros ->. by apply Permutation_nil, app_eq_nil in Hp as [_ ?]. }
  exists l, v', h'. split; [done|]. split; [done|]. split; [|done].
  unfold OnEvent_AddFavoriteFolder. rewrite Hlast, (next_id_last _ _ _ _ Hdl).
  cbn -[new_record sort_vector OnService_ReArrangeFavorite].
  unfold l, new_record in Hrun, Hre |- *. cbn [fst] in *. unfold d, added_folder in Hrun, Hre.
  rewrite Hrun. cbn -[OnService_ReArrangeFavorite]. rewrite Hre. done.
Qed.

(** ** Initialising and clearing *)

(** After [i] slots were filled. *)
Definition init_inv (now : Z) (h0 : heap) (n i : Z) (hv : heap * fav_vector) : Prop :=
  Z.of_nat (length (snd hv)) = n /\ NoDup (take (Z.to_nat i) (snd hv)) /\
  (forall p, p ∈ take (Z.to_nat i) (snd hv) ->
     exists l, p = Some l /\ h0 !! l = None /\ fst hv !! l = Some (FavoriteLineData_new now)) /\
  (forall l, Some l ∉ take (Z.to_nat i) (snd hv) -> fst hv !! l = h0 !! l).

Lemma init_slot_ok now h0 n i hv :
  0 <= i < n -> init_inv now h0 n i hv ->
  exists hv', init_slot now hv i = Ok hv' /\ init_inv now h0 n (i + 1) hv'.
Proof.
  destruct hv as [h v]. intros Hi (Hlen & Hnd & Hin & Hout). simpl in *. unfold init_slot. simpl.
  destruct (lookup_lt_is_Some_2 v (Z.to_nat i)) as [p Hp]; [lia|].
  pose proof (vec_at_nat _ _ _ Hp) as R. rewrite Z2Nat.id in R by lia. rewrite R. simpl.
  set (l := fresh (dom h)). assert (Hl : h !! l = None) by (apply not_elem_of_dom, is_fresh).
  eexists. split; [done|]. unfold init_inv. simpl. rewrite length_insert.
  replace (Z.to_nat (i + 1)) with (S (Z.to_nat i)) by lia.
  assert (Htake : take (S (Z.to_nat i)) (<[Z.to_nat i:=Some l]> v) = take (Z.to_nat i) v ++ [Some l]).
  { rewrite (take_S_r _ _ (Some l)) by (apply list_lookup_insert_eq; lia).
    by rewrite take_insert_ge by lia. }
  rewrite Htake.
  assert (Hnew : Some l ∉ take (Z.to_nat i) v).
  { intros Hl'. destruct (Hin _ Hl') as (? & [= <-] & _ & ?). congruence. }
  split; [done|]. split; [|split].
  - apply NoDup_app. split; [done|]. split; [set_solver|]. apply NoDup_singleton.
  - intros q [Hq| ->%list_elem_of_singleton]%elem_of_app.
    + destruct (Hin q Hq) as (k & -> & Hk0 & Hk). exists k.
      rewrite lookup_insert_ne by congruence. done.
    + exists l. rewrite lookup_insert_eq. split; [done|]. split; [|done]. by rewrite <- Hout.
  - intros k Hk. rewrite lookup_insert_ne by set_solver. apply Hout. set_solver.
Qed.

(** Deleting distinct valid pointers frees exactly them. *)
Lemma clear_run h v :
  NoDup v -> valid_vec h v ->
  exists h', for_each delete_record h v = Ok h' /\
    forall l, h' !! l = if decide (Some l ∈ v) then None else h !! l.
Proof.
  revert h. induction v as [|p v IH]; intros h Hnd Hv; simpl.
  { exists h. split; [done|]. intros l.
    destruct (decide (Some l ∈ [])) as [Hl|]; [by apply elem_of_nil in Hl|done]. }
  apply Forall_cons in Hv as [(l & d & -> & Hd) Hv]. apply NoDup_cons in Hnd as [Hl Hnd].
  assert (delete_record h (Some l) = Ok (delete l h)) as -> by (simpl; unfold load; by rewrite Hd). simpl.
  destruct (IH (delete l h)) as (h' & -> & Hh'); [done| |].
  { unfold valid_vec in *. rewrite Forall_forall in Hv |- *. intros q Hq.
    destruct (Hv q Hq) as (k & dk & -> & Hk). exists k, dk. split; [done|].
    rewrite lookup_delete_ne; [done|]. intros ->. done. }
  exists h'. split; [done|]. intros k. rewrite Hh'.
  destruct (decide (Some k ∈ v)) as [Hk|Hk], (decide (Some k ∈ Some l :: v)) as [Hk'|Hk'];
    [done|set_solver| |].
  - apply elem_of_cons in Hk' as [[= ->]|?]; [by rewrite lookup_delete_eq|done].
  - rewrite lookup_delete_ne; [done|]. set_solver.
Qed.

(** Initialising [n] records gives a vector of [n] distinct pointers to
    default records, none of which was in use, and leaves the memory in use as
    it was (records of a previous vector are not freed); clearing afterwards
    frees exactly the records that were created. *)
Theorem Init_Clear_roundtrip (now : Z) (s : DataCenterState) (n : Z) (Hn : 0 <= n) :
  exists s1, OnService_InitFavoriteData now n s = Ok s1 /\
    Z.of_nat (length (m_vFavoriteLineData s1)) = n /\ NoDup (m_vFavoriteLineData s1) /\
    (forall p, p ∈ m_vFavoriteLineData s1 ->
       exists l, p = Some l /\ mem s !! l = None /\ mem s1 !! l = Some (FavoriteLineData_new now)) /\
    (forall l, is_Some (mem s !! l) -> mem s1 !! l = mem s !! l) /\
    OnService_ClearData s1 = Ok (with_vec (mem s) [] s).
Proof.
  unfold OnService_InitFavoriteData. rewrite (proj2 (Z.ltb_ge n 0)) by lia.
  destruct (for_range_ind (init_inv now (mem s) n) (init_slot now)
    (mem s, resize (Z.to_nat n) None (m_vFavoriteLineData s)) n) as ([h v] & -> & Hlen & Hnd & Hin & Hout);
    [done| |intros i hv Hi; by apply init_slot_ok|].
  { split; [simpl; rewrite length_resize; lia|]. simpl.
    split; [constructor|]. split; [by intros p ?%elem_of_nil|done]. }
  simpl in *. rewrite take_ge in Hnd, Hin, Hout by lia.
  eexists. split; [done|]. simpl. split; [done|]. split; [done|]. split; [done|].
  assert (Hother : forall l, is_Some (mem s !! l) -> Some l ∉ v).
  { intros l [d Hd] Hl. destruct (Hin _ Hl) as (? & [= <-] & ? & _). congruence. }
  split; [by intros l Hl; apply Hout, Hother|].
  destruct (clear_run h v Hnd) as (h' & Hrun & Hh').
  { apply Forall_forall. intros p Hp. destruct (Hin p Hp) as (l & -> & _ & Hl). eauto. }
  unfold OnService_ClearData. simpl. rewrite Hrun. simpl. unfold with_vec. simpl. do 2 f_equal.
  apply map_eq. intros l. rewrite Hh'. destruct (decide (Some l ∈ v)) as [Hl|Hl]; [|by apply Hout].
  by destruct (Hin _ Hl) as (? & [= <-] & -> & _).
Qed.

(** ** The hypotheses hold on a small hierarchy *)

Module RearrangeDemo.

(** Folder 7 at the root, folder 9 below it and a favorite below folder 9. *)
Definition fold7 : FavoriteLineData := mkFavorite 7 [65] 0 true [] 0 0 0 0 0 false.
Definition fold9 : FavoriteLineData := mkFavorite 9 [66] 7 true [] 0 0 0 0 0 false.
Definition fav8 : FavoriteLineData := mkFavorite 8 [67] 9 false [104] 0 0 0 0 0 false.

Definition h : heap := {[ 1%positive := fold7; 2%positive := fold9; 3%positive := fav8 ]}.

Definition s : DataCenterState := mkDC h [Some 1%positive; Some 2%positive; Some 3%positive] ∅ 0 false [].

Definition e : DataCenter_AddFavoriteEvent := mkAddFavoriteEvent 0 [68] [105].
Definition f : DataCenter_AddFavoriteFoldEvent := mkAddFavoriteFoldEvent 7 [69].

Lemma s_valid : valid_vec (mem s) (m_vFavoriteLineData s).
Proof. repeat constructor; repeat eexists; reflexivity. Qed.

Lemma s_cases i l d :
  m_vFavoriteLineData s !! i = Some (Some l) -> mem s !! l = Some d ->
  (i = 0%nat /\ d = fold7) \/ (i = 1%nat /\ d = fold9) \/ (i = 2%nat /\ d = fav8).
Proof.
  intros Hi Hd. destruct i as [|[|[|i]]]; simpl in Hi; [..|done]; injection Hi as <-;
    injection Hd as <-; auto.
Qed.

Lemma s_unique : unique_ids (mem s) (m_vFavoriteLineData s).
Proof.
  intros i j li lj di dj Hi Hj Hdi Hdj He.
  destruct (s_cases _ _ _ Hi Hdi) as [[-> ->]|[[-> ->]|[-> ->]]],
    (s_cases _ _ _ Hj Hdj) as [[-> ->]|[[-> ->]|[-> ->]]]; simpl in He; congruence || lia.
Qed.

End RearrangeDemo.

Lemma ReArrange_renumbers_witness :
  exists h', OnService_ReArrangeFavorite RearrangeDemo.s = Ok (with_mem h' RearrangeDemo.s, 3) /\
    renumbered RearrangeDemo.h (m_vFavoriteLineData RearrangeDemo.s) h'.
Proof.
  apply (ReArrange_renumbers RearrangeDemo.s);
    [apply RearrangeDemo.s_valid|discriminate|apply RearrangeDemo.s_unique].
Defined.

Lemma AddFavorite_adds_witness :
  exists l v', RearrangeDemo.h !! l = None /\
    OnEvent_AddFavorite stable_sort 5 2 (Some RearrangeDemo.e) RearrangeDemo.s =
      Ok (post (PostAddFavoriteResult (MODULE_ID DATACENTER) 2 (Some l))
            (with_vec (<[l := added_record 5 RearrangeDemo.e 9]> RearrangeDemo.h) v' RearrangeDemo.s)).
Proof.
  destruct (AddFavorite_adds stable_sort 5 _ RearrangeDemo.s 2 RearrangeDemo.e
    [Some 1%positive; Some 2%positive] 3%positive RearrangeDemo.fav8) as (l & v' & Hl & Hrun & _);
    [reflexivity|reflexivity|apply RearrangeDemo.s_valid|].
  exists l, v'. split; [exact Hl|exact Hrun].
Defined.

Lemma AddFavorite_repeats_id_witness :
  exists s1 s2 l1 l2 d1 d2,
    OnEvent_AddFavorite stable_sort 5 2 (Some RearrangeDemo.e) RearrangeDemo.s = Ok s1 /\
    OnEvent_AddFavorite stable_sort 5 2 (Some RearrangeDemo.e) s1 = Ok s2 /\
    l1 <> l2 /\ Some l1 ∈ m_vFavoriteLineData s2 /\ Some l2 ∈ m_vFavoriteLineData s2 /\
    mem s2 !! l1 = Some d1 /\ mem s2 !! l2 = Some d2 /\ nId d1 = nId d2.
Proof.
  apply (AddFavorite_repeats_id stable_sort 5 _ RearrangeDemo.s 2 RearrangeDemo.e
    [Some 1%positive; Some 2%positive] 3%positive RearrangeDemo.fav8);
    [reflexivity|reflexivity|apply RearrangeDemo.s_valid| |reflexivity].
  intros l d Hl Hd.
  apply elem_of_cons in Hl as [[= ->]|Hl]; [injection Hd as <-; reflexivity|].
  apply list_elem_of_singleton in Hl as [= ->]. injection Hd as <-. reflexivity.
Defined.

Lemma add_to_empty_out_of_range_witness :
  OnEvent_AddFavorite stable_sort 5 2 (Some RearrangeDemo.e) (mkDC ∅ [] ∅ 0 false []) = Fault OutOfRange.
Proof.
  apply (add_to_empty_out_of_range stable_sort 5 (mkDC ∅ [] ∅ 0 false []) 2
    RearrangeDemo.e RearrangeDemo.f). reflexivity.
Defined.

(** The added folder is the third record below folder 7: the ids 8 and 9 of
    the last record and its successor are in use, so the last record is
    renamed first. *)
Lemma AddFavoriteFolder_keeps_tree_witness :
  let h := <[3%positive := set_ids 10 9 RearrangeDemo.fav8]> RearrangeDemo.h in
  let s := with_mem h RearrangeDemo.s in
  exists l v' h', h !! l = None /\ v' ≡ₚ m_vFavoriteLineData s ++ [Some l] /\
    OnEvent_AddFavoriteFolder stable_sort 5 2 (Some RearrangeDemo.f) s =
      Ok (post (PostAddFavoriteFoldResult (MODULE_ID DATACENTER) 2 7 (Some l)) (with_vec h' v' s)) /\
    renumbered (<[l := added_folder 5 RearrangeDemo.f 11]> h) v' h'.
Proof.
  intros h s.
  apply (AddFavoriteFolder_keeps_tree stable_sort 5 _ s 2 RearrangeDemo.f
    [Some 1%positive; Some 2%positive] 3%positive (set_ids 10 9 RearrangeDemo.fav8));
    [reflexivity|reflexivity|repeat constructor; repeat eexists; reflexivity| |].
  - intros i j li lj di dj Hi Hj Hdi Hdj.
    destruct i as [|[|[|i]]], j as [|[|[|j]]]; simpl in Hi, Hj; try done;
      injection Hi as <-; injection Hj as <-; injection Hdi as <-; injection Hdj as <-; discriminate.
  - intros k dk [i Hi]%list_elem_of_lookup Hdk.
    destruct i as [|[|[|i]]]; simpl in Hi; try done; injection Hi as <-; injection Hdk as <-; discriminate.
Defined.

Lemma Init_Clear_roundtrip_witness :
  exists s1, OnService_InitFavoriteData 5 2 RearrangeDemo.s = Ok s1 /\
    OnService_ClearData s1 = Ok (with_vec RearrangeDemo.h [] RearrangeDemo.s).
Proof.
  destruct (Init_Clear_roundtrip 5 RearrangeDemo.s 2) as (s1 & H1 & _ & _ & _ & _ & H2); [lia|].
  exists s1. split; [exact H1|exact H2].
Defined.
