(* ===== verification/DataCenterEvents.v ===== *)
(** * Deleting favorites and answering queries

    Theorems about [OnEvent_DeleteFavorite], [OnEvent_DeleteFavoriteFolder] and
    [OnService_CheckExistSubFolder] of src/DataCenter/DataCenterModule.cpp. *)
From stdpp Require Import prelude gmap sorting.
From Stdlib Require Import ZArith Lia.
From S2P Require Import Prelude Protocol Favorites DataCenter.

(** Deleting a favorite marks exactly the records of the vector with the
    given parent id and URL, and changes nothing else. *)
Theorem DeleteFavorite_exact (e : DataCenter_DeleteFavoriteEvent) (s : DataCenterState)
    (Hv : weak_vec (mem s) (m_vFavoriteLineData s)) :
  exists h', OnEvent_DeleteFavorite (Some e) s = Ok (with_mem h' s) /\ marks (mem s) h' /\
    forall l d, mem s !! l = Some d ->
      (deleted h' l <-> bDelete d = true \/
         (Some l ∈ m_vFavoriteLineData s /\ nPid d = df_nFavoriteId e /\ szUrl d = df_szUrl e)).
Proof.
  set (h := mem s) in *. set (v := m_vFavoriteLineData s) in *.
  set (hits := fun d => nPid d = df_nFavoriteId e /\ szUrl d = df_szUrl e).
  assert (Hsnoc : forall (k l : positive) (done_ : fav_vector),
    Some k ∈ done_ ++ [Some l] <-> Some k ∈ done_ \/ k = l).
  { intros k l done_. rewrite elem_of_app, list_elem_of_singleton. naive_solver. }
  destruct (for_each_ind (fun done_ h1 => marks h h1 /\ forall l d, h !! l = Some d ->
      (deleted h1 l <-> bDelete d = true \/ (Some l ∈ done_ /\ hits d)))
    (delete_favorite_body e) h v) as (h' & Hrun & Hm & Hd').
  - split; [apply marks_refl|]. intros l d Hd. split.
    + intros (d' & Hd' & Hb). left. congruence.
    + intros [Hb|[?%elem_of_nil _]]; [by exists d|done].
  - intros done_ p h1 [Hm Hdel] (rest & Hsplit). destruct p as [l|]; simpl.
    2:{ eexists; split; [done|]. split; [done|]. intros l d Hd. rewrite (Hdel l d Hd).
        rewrite elem_of_app, list_elem_of_singleton. naive_solver. }
    assert (Hl : Some l ∈ v) by (rewrite Hsplit; set_solver).
    destruct (Hv l Hl) as [d0 Hd0]. destruct (marks_fwd _ _ _ _ Hm Hd0) as (d1 & Hd1 & Hmk).
    destruct (mark1_fields _ _ Hmk) as (_ & Hp & _ & Hurl & _).
    unfold load. rewrite Hd1. simpl.
    assert (Hhit : (nPid d1 =? df_nFavoriteId e) && bool_decide (df_szUrl e = szUrl d1) = true <-> hits d0).
    { rewrite andb_true_iff, Z.eqb_eq, bool_decide_eq_true, Hp, Hurl. unfold hits. naive_solver. }
    destruct ((nPid d1 =? _) && _) eqn:Eq; (eexists; split; [done|]; split; [eauto with favs|]);
      intros k d Hd.
    + destruct (decide (k = l)) as [->|Hne].
      * assert (d = d0) as -> by congruence. split.
        -- intros _. right. split; [by apply Hsnoc; right|]. by apply Hhit.
        -- intros _. exists (set_bDelete d1). by rewrite lookup_insert_eq.
      * unfold deleted. rewrite lookup_insert_ne by done. fold (deleted h1 k). rewrite (Hdel k d Hd), Hsnoc.
        tauto.
    + rewrite (Hdel k d Hd), Hsnoc. destruct (decide (k = l)) as [->|Hne]; [|tauto].
      assert (d = d0) as -> by congruence.
      assert (~ hits d0) by (rewrite <- Hhit; congruence). tauto.
  - unfold OnEvent_DeleteFavorite. fold h v. rewrite Hrun. simpl. eauto.
Qed.

(** The existence query answers, for flags initially clear, whether the
    folder has a direct subfolder and whether it has a direct favorite.
    Records marked as deleted count. *)
Lemma CheckExistSubFolder_exact (h : heap) (v : fav_vector) (id : Z) (Hv : weak_vec h v) :
  exists fs ff, CheckExistSubFolder h v id (false, false) = Ok (fs, ff) /\
    (fs = true <-> exists l d, Some l ∈ v /\ h !! l = Some d /\ nPid d = id /\ bFolder d = true) /\
    (ff = true <-> exists l d, Some l ∈ v /\ h !! l = Some d /\ nPid d = id /\ bFolder d = false).
Proof.
  set (has := fun (v : fav_vector) b =>
    exists l d, Some l ∈ v /\ h !! l = Some d /\ nPid d = id /\ bFolder d = b).
  enough (Hgen : forall fs0 ff0, exists fs ff, CheckExistSubFolder h v id (fs0, ff0) = Ok (fs, ff) /\
    (fs = true <-> fs0 = true \/ has v true) /\ (ff = true <-> ff0 = true \/ has v false)).
  { destruct (Hgen false false) as (fs & ff & Hrun & H1 & H2). exists fs, ff.
    split; [done|]. split; [rewrite H1|rewrite H2]; by split; [intros [?|?]|right]. }
  induction v as [|p v' IH]; intros fs0 ff0; simpl.
  { exists fs0, ff0. split; [done|].
    split; (split; [auto|intros [?|(l & d & ?%elem_of_nil & _)]; done]). }
  assert (Hv' : weak_vec h v') by (intros l Hl; apply Hv; set_solver). specialize (IH Hv').
  destruct p as [l|].
  2:{ assert (Hnull : forall b, has (None :: v') b <-> has v' b).
      { intros b. split; intros (k & dk & Hk & ?); exists k, dk; (split; [|done]).
        - by apply elem_of_cons in Hk as [?|?].
        - by apply list_elem_of_further. }
      destruct (IH fs0 ff0) as (fs & ff & -> & H1 & H2). exists fs, ff. by rewrite !Hnull. }
  destruct (Hv l) as [d Hd]; [set_solver|]. unfold load. rewrite Hd. simpl.
  assert (Hhas : forall b, has (Some l :: v') b <-> (nPid d = id /\ bFolder d = b) \/ has v' b).
  { intros b. unfold has. split.
    - intros (k & dk & [[= ->]|Hk]%elem_of_cons & ? & ? & ?); [left|right; by exists k, dk]. split; congruence.
    - intros [[? ?]|(k & dk & Hk & ?)]; [exists l, d|exists k, dk].
      + by split; [apply list_elem_of_here|].
      + by split; [apply list_elem_of_further|]. }
  set (flags := if nPid d =? id then _ else _).
  assert (Hf : (fst flags = true <-> fs0 = true \/ (nPid d = id /\ bFolder d = true)) /\
               (snd flags = true <-> ff0 = true \/ (nPid d = id /\ bFolder d = false))).
  { unfold flags. destruct (Z.eqb_spec (nPid d) id), (bFolder d); simpl; naive_solver. }
  destruct Hf as [Hf1 Hf2]. clearbody flags. destruct flags as [a b]; simpl in *.
  destruct (a && b) eqn:Eab.
  - apply andb_true_iff in Eab as [-> ->]. exists true, true. split; [done|].
    rewrite !Hhas. tauto.
  - destruct (IH a b) as (fs & ff & -> & H1 & H2). exists fs, ff. split; [done|].
    rewrite !Hhas, H1, H2, Hf1, Hf2. tauto.
Qed.

(** ** Deleting a folder from the tree view *)

(** The vector is numbered: record [k] has id [k + 1]. *)
Definition arranged (h : heap) (v : fav_vector) : Prop :=
  forall k p, v !! k = Some p -> exists l d, p = Some l /\ h !! l = Some d /\ nId d = Z.of_nat k + 1.

(** Record [k] is a live folder below [parent]. *)
Definition live_sibling (h : heap) (v : fav_vector) (parent : Z) (k : nat) : Prop :=
  exists l d, v !! k = Some (Some l) /\ h !! l = Some d /\
    nPid d = parent /\ bFolder d = true /\ bDelete d = false.

Lemma arranged_at h v k :
  arranged h v -> (k < length v)%nat ->
  exists l d, v !! k = Some (Some l) /\ h !! l = Some d /\ nId d = Z.of_nat k + 1.
Proof.
  intros Ha Hk. destruct (lookup_lt_is_Some_2 v k Hk) as [p Hp].
  destruct (Ha k p Hp) as (l & d & -> & ? & ?). eauto.
Qed.

Lemma arranged_weak h v : arranged h v -> weak_vec h v.
Proof.
  intros Ha l [k Hk]%list_elem_of_lookup. destruct (Ha k _ Hk) as (l' & d & [= ->] & Hd & _). eauto.
Qed.

(** The backward search: the nearest live sibling before [n], or, failing that,
    the parent if it was passed. *)
Lemma find_previous_spec h v parent n pid :
  arranged h v -> (n <= length v)%nat ->
  (exists j r, find_previous h v parent n pid = Ok (Z.of_nat j, r) /\ (j < n)%nat /\
     live_sibling h v parent j /\ forall m, (j < m < n)%nat -> ~ live_sibling h v parent m) \/
  (find_previous h v parent n pid =
     Ok (-1, if (1 <=? parent) && (parent <=? Z.of_nat n) then parent else pid) /\
   forall m, (m < n)%nat -> ~ live_sibling h v parent m).
Proof.
  intros Ha. revert pid. induction n as [|n IH]; intros pid Hn; simpl.
  { right. split; [|lia]. destruct (Z.leb_spec 1 parent); [|done].
    by rewrite (proj2 (Z.leb_gt _ _)) by lia. }
  destruct (arranged_at h v n Ha) as (l & d & Hl & Hd & Hi); [lia|].
  rewrite (vec_at_nat _ _ _ Hl). simpl. unfold load. rewrite Hd. simpl.
  destruct ((nPid d =? parent) && bFolder d && negb (bDelete d)) eqn:Es.
  - apply andb_true_iff in Es as [[Hp%Z.eqb_eq Hf]%andb_true_iff Hb%negb_true_iff].
    left. exists n, pid. split; [done|]. split; [lia|]. split; [by exists l, d|lia].
  - assert (Hno : ~ live_sibling h v parent n).
    { intros (l' & d' & Hl' & Hd' & <- & Hf & Hb). assert (d' = d) as -> by congruence.
      by rewrite Z.eqb_refl, Hf, Hb in Es. }
    assert (Hmore : forall m lo, (lo < m < S n)%nat -> m = n \/ (lo < m < n)%nat) by lia.
    destruct (IH (if nId d =? parent then nId d else pid)) as [(j & r & Hrun & Hj & Hs & Hmax)|[Hrun Hall]];
      [lia| |].
    + left. exists j, r. split; [done|]. split; [lia|]. split; [done|].
      intros m [->|Hm]%Hmore; auto.
    + right. rewrite Hrun. split.
      2:{ intros m Hm. destruct (decide (m = n)) as [->|]; [done|]. apply Hall. lia. }
      do 2 f_equal. rewrite Hi. destruct (Z.eqb_spec (Z.of_nat n + 1) parent) as [He|He].
      * rewrite (proj2 (Z.leb_le 1 parent)), (proj2 (Z.leb_le parent (Z.of_nat (S n)))) by lia. simpl.
        destruct (parent <=? Z.of_nat n); [done|]. by rewrite <- He.
      * destruct (Z.leb_spec 1 parent); [simpl|done].
        destruct (Z.leb_spec parent (Z.of_nat n)), (Z.leb_spec parent (Z.of_nat (S n))); [done|lia|lia|done].
Qed.

Lemma arranged_id_range h v k l d :
  arranged h v -> v !! k = Some (Some l) -> h !! l = Some d -> nId d = Z.of_nat k + 1.
Proof. intros Ha Hk Hd. destruct (Ha k _ Hk) as (l' & d' & [= <-] & ? & ?). congruence. Qed.

(** Deleting folder [id] of a numbered vector runs [DeleteFavoriteFold] and
    then asks the main window to select the nearest live folder before it with
    the same parent; failing that its parent, if that precedes it; failing that
    two selections are posted, the root and then the first record, so the
    second overrides the first. *)
Theorem DeleteFavoriteFolder_selects (s : DataCenterState) (evt : Event) (id : nat)
    (l : positive) (d : FavoriteLineData)
    (Hevt : eventValue evt = EVENT_VALUE_DATACENTER_DELETE_FAVORITE_FOLD)
    (Hparam : i32 (param0 evt) = Z.of_nat (S id))
    (Ha : arranged (mem s) (m_vFavoriteLineData s))
    (Hl : m_vFavoriteLineData s !! id = Some (Some l)) (Hd : mem s !! l = Some d) :
  exists h' sel, DeleteFavoriteFold (S (live (mem s))) (m_vFavoriteLineData s) (mem s) (Z.of_nat (S id)) = Ok h' /\
    OnEvent_DeleteFavoriteFolder (S (live (mem s))) evt s =
      Ok (fold_left (fun s p => post p s) sel (with_mem h' s)) /\
    ((exists j, (j < id)%nat /\ live_sibling (mem s) (m_vFavoriteLineData s) (nPid d) j /\
        (forall m, (j < m < id)%nat -> ~ live_sibling (mem s) (m_vFavoriteLineData s) (nPid d) m) /\
        sel = [select_event (Z.of_nat (S j))]) \/
     ((forall m, (m < id)%nat -> ~ live_sibling (mem s) (m_vFavoriteLineData s) (nPid d) m) /\
      sel = if (1 <=? nPid d) && (nPid d <=? Z.of_nat id) then [select_event (nPid d)]
            else [select_event 0; select_event 1])).
Proof.
  set (h := mem s) in *. set (v := m_vFavoriteLineData s) in *.
  destruct (DeleteFavoriteFold_sweep (S (live h)) v h (Z.of_nat (S id))) as (h' & Hdel & Hsw);
    [by apply arranged_weak|lia|].
  pose proof (sw_marks _ _ _ _ _ Hsw) as Hm. exists h'.
  assert (Hlen : (id < length v)%nat) by (by eapply lookup_lt_Some).
  assert (Hsel : forall k, (k < length v)%nat ->
     exists lk dk, vec_at v (Z.of_nat k) = Ok (Some lk) /\ load h' lk = Ok dk /\ nId dk = Z.of_nat (S k)).
  { intros k Hk. destruct (arranged_at h v k Ha Hk) as (lk & dk & Hv & Hdk & Hi).
    destruct (marks_fwd _ _ _ _ Hm Hdk) as (dk' & Hdk' & Hmk).
    destruct (mark1_fields _ _ Hmk) as (Hi' & _). exists lk, dk'.
    split; [by apply vec_at_nat|]. split; [by apply load_Ok|lia]. }
  unfold OnEvent_DeleteFavoriteFolder. rewrite Hevt, Z.eqb_refl, Hparam. cbn [negb]. fold h v.
  replace (Z.of_nat (S id) - 1) with (Z.of_nat id) by lia.
  rewrite (vec_at_nat _ _ _ Hl), Nat2Z.id. cbn [mbind outcome_bind].
  rewrite (proj2 (load_Ok h l d) Hd). cbn [mbind outcome_bind].
  destruct (find_previous_spec h v (nPid d) id 0 Ha) as [(j & r & Hrun & Hj & Hs & Hmax)|[Hrun Hall]];
    [lia| |]; rewrite Hrun; cbn [mbind outcome_bind].
  - exists [select_event (Z.of_nat (S j))]. split; [done|]. split; [|left; eauto 6].
    rewrite (proj2 (Z.eqb_neq (Z.of_nat j) (-1))) by lia. cbn [andb]. fold h. rewrite Hdel.
    destruct (Hsel j) as (lk & dk & Hv & Hdk & Hi); [lia|].
    cbn [mbind outcome_bind]. rewrite Hv. cbn [mbind outcome_bind]. rewrite Hdk. by simpl; rewrite Hi.
  - destruct ((1 <=? nPid d) && (nPid d <=? Z.of_nat id)) eqn:Er.
    + apply andb_true_iff in Er as [H1%Z.leb_le H2%Z.leb_le].
      exists [select_event (nPid d)]. split; [done|]. split; [|right; eauto].
      rewrite (proj2 (Z.eqb_neq (nPid d) 0)) by lia. cbn [Z.eqb andb Pos.eqb]. fold h. rewrite Hdel.
      destruct (Hsel (Z.to_nat (nPid d - 1))) as (lk & dk & Hv & Hdk & Hi); [lia|].
      rewrite Z2Nat.id in Hv by lia.
      cbn [mbind outcome_bind]. rewrite Hv. cbn [mbind outcome_bind]. rewrite Hdk.
      simpl. rewrite Hi. repeat f_equal. lia.
    + exists [select_event 0; select_event 1]. split; [done|]. split; [|right; eauto].
      cbn [Z.eqb andb Pos.eqb]. change (mem (post _ s)) with h. rewrite Hdel.
      destruct (Hsel 0%nat) as (lk & dk & Hv & Hdk & Hi); [lia|].
      change (Z.of_nat 0) with 0 in Hv. cbn [mbind outcome_bind]. rewrite Hv.
      cbn [mbind outcome_bind]. rewrite Hdk. simpl. rewrite Hi. done.
Qed.

(** ** The hypotheses hold on a small tree *)

Module EventsDemo.

Definition folder (i p : Z) : FavoriteLineData := mkFavorite i [] p true [] 0 0 0 0 0 false.

Definition h : heap := {[ 1%positive := folder 1 0; 2%positive := folder 2 0 ]}.

Definition s : DataCenterState := mkDC h [Some 1%positive; Some 2%positive] ∅ 0 false [].

Definition evt (id : Z) : Event :=
  MakeEvent (MODULE_ID MAINFRAME) EVENT_VALUE_DATACENTER_DELETE_FAVORITE_FOLD
    (MODULE_ID DATACENTER) id 0 0 0 None.

Lemma s_arranged : arranged h (m_vFavoriteLineData s).
Proof.
  intros [|[|k]] p Hp; simpl in Hp; [..|done]; injection Hp as <-; do 2 eexists;
    (split; [reflexivity|]; split; reflexivity).
Qed.

End EventsDemo.

Lemma DeleteFavorite_exact_witness :
  exists h', OnEvent_DeleteFavorite (Some (mkDeleteFavoriteEvent 0 [])) EventsDemo.s
               = Ok (with_mem h' EventsDemo.s) /\ marks EventsDemo.h h'.
Proof.
  destruct (DeleteFavorite_exact (mkDeleteFavoriteEvent 0 []) EventsDemo.s) as (h' & H1 & H2 & _).
  - apply arranged_weak, EventsDemo.s_arranged.
  - exists h'. split; [exact H1|exact H2].
Defined.

Lemma DeleteFavoriteFolder_selects_witness :
  exists h' sel, OnEvent_DeleteFavoriteFolder (S (live EventsDemo.h)) (EventsDemo.evt 2) EventsDemo.s =
      Ok (fold_left (fun s p => post p s) sel (with_mem h' EventsDemo.s)).
Proof.
  destruct (DeleteFavoriteFolder_selects EventsDemo.s (EventsDemo.evt 2) 1 2%positive (EventsDemo.folder 2 0))
    as (h' & sel & _ & H & _);
    [reflexivity|reflexivity|apply EventsDemo.s_arranged|reflexivity|reflexivity|].
  exists h', sel. exact H.
Defined.
