(* ===== verification/Merge.v ===== *)
(** * Merging the favorites of several browsers

    [PlugInModule::Merge] of src/PlugIn/PlugInModule.cpp: records with the same
    parent and the same hash are one favorite found in several browsers; all but
    the last are marked as deleted and what hung below them is moved below the
    next one, recursively. *)
From stdpp Require Import prelude gmap sorting.
From Stdlib Require Import ZArith Lia.
From S2P Require Import Prelude Protocol Favorites DataCenter.

(** ** What the module broadcasts *)

Inductive PlugInPost :=
| PostMessage (msg : Message)
| PostProcessText (szProcessText : wstring)
| PostExportBegin (pPlugIn : positive)
| PostExportEnd (pPlugIn : positive) (nFavoriteNum : Z) (bSuccess : bool)
| PostImportBegin (pPlugIn : positive)
| PostImportEnd (pPlugIn : positive) (nFavoriteNum nErrorCode : Z)
| PostPlugInEvent (evt : Event).

(** The progress text of [Merge]. *)
Definition MERGE_TEXT : wstring :=
  [27491; 22312; 23545; 25910; 34255; 22841; 25968; 25454; 36827; 34892; 21512; 24182].

(** The records and the messages sent so far. *)
Definition merge_state : Type := heap * list PlugInPost.

Section Merge.
Context (sort : forall A : Type, (A -> Z) -> list A -> list A).

(** The loop that collects the children of [nParentId].  The tests
    [szTitle == L""] and [szUrl == L""] compare the address of a member array
    with that of a literal and never hold. *)
Definition merge_collect_body (h : heap) (nParentId : Z) (vec : fav_vector) (p : option positive) :
    outcome fav_vector :=
  match p with
  | None => Ok vec
  | Some l =>
      d ← load h l;
      if nId d =? 0 then Ok vec
      else if nPid d =? nParentId then Ok (vec ++ [Some l]) else Ok vec
  end.

(** The loop that moves the children of one record below another. *)
Definition merge_reparent_body (from to : Z) (h : heap) (p : option positive) : outcome heap :=
  match p with
  | None => Ok h
  | Some l =>
      d ← load h l;
      if nPid d =? from then Ok (<[l := set_nPid to d]> h) else Ok h
  end.

(** One step of the loop over neighbours in the sorted vector. *)
Definition merge_pair (rec : merge_state -> Z -> outcome merge_state) (ppData : fav_vector)
    (st : merge_state) (ab : option positive * option positive) : outcome merge_state :=
  la ← deref (fst ab); da ← load (fst st) la;
  lb ← deref (snd ab); db ← load (fst st) lb;
  if nHashId da =? nHashId db then
    h ← for_each (merge_reparent_body (nId da) (nId db)) (<[la := set_bDelete da]> (fst st)) ppData;
    rec (h, snd st) (nId db)
  else Ok st.

Fixpoint Merge (fuel : nat) (ppData : fav_vector) (st : merge_state) (nParentId : Z) :
    outcome merge_state :=
  match fuel with
  | O => Fault NoFuel
  | S fuel =>
      let st := (fst st, snd st ++ [PostProcessText MERGE_TEXT]) in
      vec ← for_each (merge_collect_body (fst st) nParentId) [] ppData;
      if (1 <? length vec)%nat then
        vec ← sort_vector sort nHashId (fst st) vec;
        for_each (merge_pair (Merge fuel ppData) ppData) st (zip vec (tail vec))
      else Ok st
  end.

End Merge.

(** ** Places

    A record's place is the sequence of hashes on the way from the root to it.
    [placed path h pp]: [path] gives the place of every id, consistently with
    the parent ids of [pp]; it exists exactly when parents form no cycle. *)

Definition placed (path : Z -> list Z) (h : heap) (pp : fav_vector) : Prop :=
  forall l d, Some l ∈ pp -> h !! l = Some d -> nId d <> 0 ->
    path (nId d) = path (nPid d) ++ [nHashId d].

(** Only the parent id and the deletion mark may change, the mark only upwards. *)
Definition moved1 (d d' : FavoriteLineData) : Prop := mark1 d (set_nPid (nPid d) d').

Definition moved (h h' : heap) : Prop := forall l, option_Forall2 moved1 (h !! l) (h' !! l).

Lemma moved1_fields d d' :
  moved1 d d' -> nId d' = nId d /\ nHashId d' = nHashId d /\ szTitle d' = szTitle d /\
    szUrl d' = szUrl d /\ bFolder d' = bFolder d /\ (bDelete d = true -> bDelete d' = true).
Proof. destruct d, d'. intros [[=]|[=]]; simpl in *; subst; auto 7. Qed.

Lemma moved1_refl d : moved1 d d.
Proof. left. by destruct d. Qed.

Lemma moved1_trans d1 d2 d3 : moved1 d1 d2 -> moved1 d2 d3 -> moved1 d1 d3.
Proof.
  destruct d1, d2, d3. intros [[=]|[=]] [[=]|[=]]; simpl in *; subst;
    solve [by left|by right].
Qed.

Lemma moved_refl h : moved h h.
Proof. intros l. destruct (h !! l); constructor. apply moved1_refl. Qed.

Lemma moved_trans h1 h2 h3 : moved h1 h2 -> moved h2 h3 -> moved h1 h3.
Proof.
  intros H12 H23 l. specialize (H12 l). specialize (H23 l).
  destruct H12 as [d1 d2 Hd|]; inversion H23 as [? d3 Hd'|]; subst; constructor.
  by eapply moved1_trans.
Qed.

Lemma moved_fwd h h' l d : moved h h' -> h !! l = Some d -> exists d', h' !! l = Some d' /\ moved1 d d'.
Proof. intros H Hd. specialize (H l). rewrite Hd in H. inversion H; subst. eauto. Qed.

Lemma moved_bwd h h' l d' : moved h h' -> h' !! l = Some d' -> exists d, h !! l = Some d /\ moved1 d d'.
Proof. intros H Hd. specialize (H l). rewrite Hd in H. inversion H; subst. eauto. Qed.

Lemma moved_weak_vec h h' v : moved h h' -> weak_vec h v -> weak_vec h' v.
Proof.
  intros H Hv l Hl. destruct (Hv l Hl) as [d Hd].
  destruct (moved_fwd _ _ _ _ H Hd) as (d' & -> & _). eauto.
Qed.

Lemma moved_valid_vec h h' v : moved h h' -> valid_vec h v -> valid_vec h' v.
Proof.
  intros H Hv. eapply Forall_impl; [exact Hv|]. intros p (l & d & -> & Hd).
  destruct (moved_fwd _ _ _ _ H Hd) as (d' & Hd' & _). eauto.
Qed.

Lemma moved_deleted h h' l : moved h h' -> deleted h l -> deleted h' l.
Proof.
  intros H (d & Hd & Hb). destruct (moved_fwd _ _ _ _ H Hd) as (d' & Hd' & Hm).
  exists d'. split; [done|]. by apply (moved1_fields _ _ Hm).
Qed.

#[export] Hint Resolve moved_refl moved_trans moved_weak_vec moved_valid_vec moved_deleted : favs.

(** What a call on a parent whose place has length [n] guarantees. *)
Record merge_post (path : Z -> list Z) (pp : fav_vector) (n : nat) (h h' : heap) : Prop := {
  mp_moved : moved h h';
  mp_placed : placed path h' pp;
  mp_local : forall l d d', Some l ∈ pp -> h !! l = Some d -> h' !! l = Some d' -> nId d <> 0 ->
               nPid d' = nPid d \/ (n < length (path (nPid d)))%nat;
  mp_twin : forall l d, h !! l = Some d -> bDelete d = false -> deleted h' l ->
               Some l ∈ pp /\ nId d <> 0 /\ (n <= length (path (nPid d)))%nat /\
               exists l2 d2, l2 <> l /\ Some l2 ∈ pp /\ h !! l2 = Some d2 /\ nId d2 <> 0 /\
                 path (nId d2) = path (nId d)
}.

Section Places.
Context (path : Z -> list Z) (pp : fav_vector).
Context (Hnd : NoDup pp).

(** The place of the parent does not change either. *)
Lemma parent_path h h' l d d' :
  placed path h pp -> placed path h' pp -> Some l ∈ pp ->
  h !! l = Some d -> h' !! l = Some d' -> moved1 d d' -> nId d <> 0 ->
  path (nPid d') = path (nPid d).
Proof.
  intros Hp Hp' Hl Hd Hd' Hm H0. destruct (moved1_fields _ _ Hm) as (Hi & Hh & _).
  specialize (Hp l d Hl Hd H0). specialize (Hp' l d' Hl Hd').
  rewrite Hi, Hh in Hp'. specialize (Hp' H0). rewrite Hp in Hp'.
  by apply app_inj_tail in Hp' as [-> _].
Qed.

Lemma merge_post_refl n h : placed path h pp -> merge_post path pp n h h.
Proof.
  intros Hp. split; [apply moved_refl|done| |].
  - intros l d d' _ Hd Hd' _. left. congruence.
  - intros l d Hd Hb (d' & Hd' & Hb'). congruence.
Qed.

Lemma merge_post_weaken n m h h' :
  (n <= m)%nat -> merge_post path pp m h h' -> merge_post path pp n h h'.
Proof.
  intros Hnm [Hm Hp Hl Ht]. split; [done|done| |].
  - intros l d d' H1 H2 H3 H4. destruct (Hl l d d' H1 H2 H3 H4); [by left|right; lia].
  - intros l d H1 H2 H3. destruct (Ht l d H1 H2 H3) as (? & ? & ? & ?). split_and!; auto; lia.
Qed.

Lemma merge_post_trans n h1 h2 h3 :
  placed path h1 pp -> merge_post path pp n h1 h2 -> merge_post path pp n h2 h3 -> merge_post path pp n h1 h3.
Proof.
  intros Hp1 [Hm Hp Hl Ht] [Hm' Hp' Hl' Ht'].
  assert (Hback : forall l d, Some l ∈ pp -> h1 !! l = Some d -> nId d <> 0 ->
     exists d2, h2 !! l = Some d2 /\ nId d2 = nId d /\ path (nPid d2) = path (nPid d) /\
                (bDelete d = true -> bDelete d2 = true)).
  { intros l d Hin Hd H0. destruct (moved_fwd _ _ _ _ Hm Hd) as (d2 & Hd2 & Hmv).
    exists d2. destruct (moved1_fields _ _ Hmv) as (? & _ & _ & _ & _ & ?).
    split_and!; try done. by eapply (parent_path h1 h2). }
  split; [eauto with favs|done| |].
  - intros l d d3 Hin Hd Hd3 H0. destruct (Hback l d Hin Hd H0) as (d2 & Hd2 & Hi & Hpath & _).
    destruct (Hl l d d2 Hin Hd Hd2 H0) as [E|?]; [|by right].
    destruct (Hl' l d2 d3 Hin Hd2 Hd3) as [E'|?]; [congruence|left; congruence|right].
    by rewrite <- Hpath.
  - intros l d Hd Hb Hdel. destruct (moved_fwd _ _ _ _ Hm Hd) as (d2 & Hd2 & Hmv).
    destruct (moved1_fields _ _ Hmv) as (Hi & _).
    destruct (bDelete d2) eqn:Eb; [apply (Ht l d Hd Hb); by exists d2|].
    destruct (Ht' l d2 Hd2 Eb Hdel) as (Hin & H0 & Hn & l' & d' & Hne & Hin' & Hd' & H0' & Hpath').
    rewrite Hi in H0, Hpath'. destruct (Hback l d Hin Hd H0) as (d2' & Hd2' & _ & Hpath & _).
    assert (d2' = d2) as -> by congruence. rewrite Hpath in Hn.
    split_and!; [done|done|done|].
    destruct (moved_bwd _ _ _ _ Hm Hd') as (d1' & Hd1' & Hmv').
    destruct (moved1_fields _ _ Hmv') as (Hi' & _). rewrite Hi' in H0', Hpath'. by exists l', d1'.
Qed.

(** ** The three loops *)

Lemma merge_collect_spec h parent :
  weak_vec h pp ->
  exists vec, for_each (merge_collect_body h parent) [] pp = Ok vec /\ NoDup vec /\ (None ∉ vec) /\
    forall l, Some l ∈ vec <-> Some l ∈ pp /\ exists d, h !! l = Some d /\ nId d <> 0 /\ nPid d = parent.
Proof.
  intros Hv.
  destruct (for_each_ind (fun done_ vec => NoDup vec /\ (None ∉ vec) /\
      forall l, Some l ∈ vec <-> Some l ∈ done_ /\ (exists d, h !! l = Some d /\ nId d <> 0 /\ nPid d = parent))
    (merge_collect_body h parent) [] pp) as (vec & Hrun & H1 & H2 & H3); [| |eauto].
  { split; [constructor|]. split; [apply not_elem_of_nil|]. intros l. split; [by intros ?%elem_of_nil|].
    by intros [?%elem_of_nil _]. }
  intros done_ p vec (Hn & Hnone & Hvec) (rest & Hsplit).
  assert (Hkeep : (forall l, p = Some l -> ~ (exists d, h !! l = Some d /\ nId d <> 0 /\ nPid d = parent)) ->
     forall l, Some l ∈ vec <-> Some l ∈ done_ ++ [p] /\ exists d, h !! l = Some d /\ nId d <> 0 /\ nPid d = parent).
  { intros Hno l. rewrite Hvec, elem_of_app, list_elem_of_singleton. split; [tauto|].
    intros [[?|E] ?]; [done|]. by destruct (Hno l). }
  destruct p as [l|]; simpl; [|eexists; split; [done|]; by split_and!; [..|apply Hkeep]].
  assert (Hl : Some l ∈ pp) by (rewrite Hsplit; set_solver).
  destruct (Hv l Hl) as [d Hd]. unfold load. rewrite Hd. simpl.
  destruct (Z.eqb_spec (nId d) 0) as [E0|E0].
  { eexists; split; [done|]. split_and!; [done..|]. apply Hkeep. intros ? [= <-] (d' & ? & ? & _). congruence. }
  destruct (Z.eqb_spec (nPid d) parent) as [Ep|Ep].
  2:{ eexists; split; [done|]. split_and!; [done..|]. apply Hkeep. intros ? [= <-] (d' & ? & _ & ?). congruence. }
  eexists; split; [done|]. split_and!.
  - apply NoDup_app. split; [done|]. split; [|apply NoDup_singleton].
    intros q Hq ->%list_elem_of_singleton. apply Hvec in Hq as [Hq _].
    rewrite Hsplit in Hnd. apply NoDup_app in Hnd as (_ & Hdis & _). apply (Hdis _ Hq). set_solver.
  - rewrite elem_of_app, list_elem_of_singleton. by intros [?|?].
  - intros k. rewrite !elem_of_app, !list_elem_of_singleton, Hvec. split.
    + intros [[? ?]|[= ->]]; [by split; [left|]|]. split; [by right|]. by exists d.
    + intros [[?|[= ->]] ?]; [by left|by right].
Qed.

Lemma merge_reparent_spec h from to :
  weak_vec h pp ->
  exists h', for_each (merge_reparent_body from to) h pp = Ok h' /\
    forall l, h' !! l = if decide (Some l ∈ pp)
                        then (fun d => if nPid d =? from then set_nPid to d else d) <$> h !! l
                        else h !! l.
Proof.
  intros Hv. set (f := fun d => if nPid d =? from then set_nPid to d else d).
  destruct (for_each_ind (fun done_ h1 =>
      forall l, (Some l ∈ done_ -> h1 !! l = f <$> h !! l) /\ (Some l ∉ done_ -> h1 !! l = h !! l))
    (merge_reparent_body from to) h pp) as (h' & Hrun & H).
  - intros l. split; [by intros ?%elem_of_nil|done].
  - intros done_ p h1 H (rest & Hsplit).
    destruct p as [l|]; simpl.
    2:{ eexists; split; [done|]. intros k. rewrite elem_of_app, list_elem_of_singleton.
        destruct (H k) as [H1 H2]. split; [intros [?|?]; [by apply H1|done]|]. intros Hk. apply H2. tauto. }
    assert (Hl : Some l ∈ pp) by (rewrite Hsplit; set_solver).
    destruct (Hv l Hl) as [d Hd].
    assert (Hnew : Some l ∉ done_).
    { intros Hin. rewrite Hsplit in Hnd. apply NoDup_app in Hnd as (_ & Hdis & _).
      apply (Hdis _ Hin). set_solver. }
    unfold load. rewrite (proj2 (H l) Hnew), Hd. simpl.
    set (h2 := if nPid d =? from then <[l := set_nPid to d]> h1 else h1).
    exists h2. split; [unfold h2; by destruct (nPid d =? from)|].
    assert (Hh2l : h2 !! l = f <$> h !! l).
    { unfold h2, f. rewrite Hd. simpl. destruct (nPid d =? from); [apply lookup_insert_eq|].
      by rewrite (proj2 (H l) Hnew). }
    assert (Hh2 : forall k, k <> l -> h2 !! k = h1 !! k).
    { intros k Hk. unfold h2. destruct (nPid d =? from); [by apply lookup_insert_ne|done]. }
    intros k. rewrite elem_of_app, list_elem_of_singleton. destruct (decide (k = l)) as [->|Hk].
    + split; [done|]. intros Hno. destruct Hno. by right.
    + rewrite Hh2 by done. destruct (H k) as [H1 H2]. split.
      * intros [?|[= ?]]; [by apply H1|done].
      * intros Hno. apply H2. tauto.
  - exists h'. split; [done|]. intros l. destruct (decide (Some l ∈ pp)) as [Hl|Hl]; by apply H.
Qed.

(** Marking [la] and moving its children below its twin [lb]. *)
Lemma merge_step h parent la lb da db :
  weak_vec h pp -> placed path h pp ->
  Some la ∈ pp -> Some lb ∈ pp -> la <> lb ->
  h !! la = Some da -> h !! lb = Some db -> nId da <> 0 -> nId db <> 0 ->
  nPid da = parent -> nPid db = parent -> nHashId da = nHashId db ->
  exists h', for_each (merge_reparent_body (nId da) (nId db)) (<[la := set_bDelete da]> h) pp = Ok h' /\
    merge_post path pp (length (path parent)) h h' /\ deleted h' la.
Proof.
  intros Hv Hp Hla Hlb Hne Hda Hdb Ha0 Hb0 Hpa Hpb Hh.
  assert (Hpath : path (nId da) = path (nId db)).
  { rewrite (Hp la da), (Hp lb db) by done. congruence. }
  assert (Hlen : length (path (nId da)) = S (length (path parent))).
  { rewrite (Hp la da) by done. rewrite Hpa, length_app. simpl. lia. }
  set (h1 := <[la := set_bDelete da]> h).
  assert (Hm1 : marks h h1) by (by apply marks_insert).
  destruct (merge_reparent_spec h1 (nId da) (nId db)) as (h' & Hrun & Hh').
  { by apply (marks_weak_vec h). }
  exists h'. split; [done|].
  assert (Hfwd : forall l d, h !! l = Some d -> exists d1 d', h1 !! l = Some d1 /\ mark1 d d1 /\
     h' !! l = Some d' /\ (d' = d1 \/ (nPid d = nId da /\ d' = set_nPid (nId db) d1)) /\
     (d1 = d \/ l = la)).
  { intros l d Hd. destruct (marks_fwd _ _ _ _ Hm1 Hd) as (d1 & Hd1 & Hmk).
    exists d1. pose proof (Hh' l) as E. rewrite Hd1 in E. simpl in E.
    destruct (mark1_fields _ _ Hmk) as (_ & Hpid & _).
    assert (Hor : d1 = d \/ l = la).
    { destruct (decide (l = la)) as [|Hl]; [by right|left].
      unfold h1 in Hd1. rewrite lookup_insert_ne in Hd1 by done. congruence. }
    destruct (decide (Some l ∈ pp)) as [Hin|Hin]; [|exists d1; auto 7].
    destruct (Z.eqb_spec (nPid d1) (nId da)) as [Ep|Ep]; [|exists d1; auto 7].
    exists (set_nPid (nId db) d1). split_and!; [done|done|done| |done]. right. split; [congruence|done]. }
  split.
  - split.
    + intros l. destruct (h !! l) as [d|] eqn:Hd.
      * destruct (Hfwd l d Hd) as (d1 & d' & _ & Hmk & -> & Hor & _). constructor.
        destruct Hor as [->|[_ ->]]; destruct Hmk as [->| ->]; destruct d; solve [by left|by right].
      * rewrite Hh'. unfold h1. rewrite lookup_insert_ne by congruence. rewrite Hd.
        destruct (decide _); constructor.
    + intros l d' Hl Hd' H0. destruct (h !! l) as [d|] eqn:Hd; [|by destruct (Hv l Hl) as [? ?]; congruence].
      destruct (Hfwd l d Hd) as (d1 & d2 & _ & Hmk & Hd2 & Hor & _).
      assert (d2 = d') as -> by congruence. destruct (mark1_fields _ _ Hmk) as (Hi1 & Hp1 & _).
      assert (Hh1 : nHashId d1 = nHashId d) by (by destruct Hmk as [->| ->]).
      destruct Hor as [->|[Hpid ->]].
      * rewrite Hi1, Hp1, Hh1. apply (Hp l d Hl Hd). congruence.
      * change (path (nId d1) = path (nId db) ++ [nHashId d1]).
        rewrite Hi1, Hh1, <- Hpath, <- Hpid. apply (Hp l d Hl Hd).
        change (nId d1 <> 0) in H0. congruence.
    + intros l d d' Hl Hd Hd' H0. destruct (Hfwd l d Hd) as (d1 & d2 & _ & Hmk & Hd2 & Hor & _).
      assert (d2 = d') as -> by congruence. destruct (mark1_fields _ _ Hmk) as (_ & Hp1 & _).
      destruct Hor as [->|[Hpid ->]]; [by left|right]. rewrite Hpid. lia.
    + intros l d Hd Hb (d' & Hd' & Hb'). destruct (Hfwd l d Hd) as (d1 & d2 & _ & Hmk & Hd2 & Hor & Hla').
      assert (d2 = d') as -> by congruence.
      assert (l = la) as ->.
      { destruct Hla' as [->|]; [|done]. destruct Hor as [->|[_ ->]]; simpl in Hb'; congruence. }
      assert (d = da) as -> by congruence. split_and!; [done|done|by rewrite Hpa|].
      by exists lb, db.
  - destruct (Hfwd la da Hda) as (d1 & d' & Hd1 & _ & Hd' & Hor & _).
    unfold h1 in Hd1. rewrite lookup_insert_eq in Hd1. injection Hd1 as <-.
    exists d'. split; [done|]. by destruct Hor as [->|[_ ->]].
Qed.

(** Neighbours of the sorted vector of children. *)
Lemma zip_tail_elem {A} (l : list A) a b :
  (a, b) ∈ zip l (tail l) <-> exists i, l !! i = Some a /\ l !! S i = Some b.
Proof.
  rewrite list_elem_of_lookup. setoid_rewrite lookup_zip_with_Some.
  split; intros [i H]; exists i.
  - destruct H as (x & y & [= -> ->] & Hx & Hy). by rewrite lookup_tail in Hy.
  - destruct H as [Ha Hb]. exists a, b. by rewrite lookup_tail.
Qed.

(** A record of [vec] is a child of [parent] and stays one. *)
Definition children (h : heap) (parent : Z) (vec : fav_vector) : Prop :=
  forall l, Some l ∈ vec <-> Some l ∈ pp /\ exists d, h !! l = Some d /\ nId d <> 0 /\ nPid d = parent.

Lemma child_stays h h' parent vec l :
  children h parent vec -> merge_post path pp (length (path parent)) h h' -> Some l ∈ vec ->
  Some l ∈ pp /\ exists d d', h !! l = Some d /\ h' !! l = Some d' /\
    nId d' <> 0 /\ nPid d' = parent /\ nHashId d' = nHashId d.
Proof.
  intros Hc Hpost Hl. apply Hc in Hl as (Hin & d & Hd & H0 & Hp). split; [done|].
  destruct (moved_fwd _ _ _ _ (mp_moved _ _ _ _ _ Hpost) Hd) as (d' & Hd' & Hm).
  destruct (moved1_fields _ _ Hm) as (Hi & Hh & _).
  exists d, d'. split_and!; [done|done|congruence| |done].
  destruct (mp_local _ _ _ _ _ Hpost l d d' Hin Hd Hd' H0) as [?|Hlt]; [congruence|].
  rewrite Hp in Hlt. lia.
Qed.

(** What the loop over neighbours has done after the pairs [done_]. *)
Definition pairs_done (h : heap) (parent : Z) (done_ : list (option positive * option positive))
    (st : merge_state) : Prop :=
  merge_post path pp (length (path parent)) h (fst st) /\
  forall la lb da db, (Some la, Some lb) ∈ done_ -> h !! la = Some da -> h !! lb = Some db ->
    nHashId da = nHashId db -> deleted (fst st) la.

Lemma pairs_done_skip h parent done_ st st' la lb da db :
  pairs_done h parent done_ st -> merge_post path pp (length (path parent)) h (fst st') ->
  (forall l, deleted (fst st) l -> deleted (fst st') l) ->
  h !! la = Some da -> h !! lb = Some db -> (nHashId da = nHashId db -> deleted (fst st') la) ->
  pairs_done h parent (done_ ++ [(Some la, Some lb)]) st'.
Proof.
  intros [_ Hdel] Hpost Hmono Hda Hdb Hlast. split; [done|].
  intros ka kb ea eb Hin Hea Heb Hh. apply elem_of_app in Hin as [Hin|Hin%list_elem_of_singleton].
  - eauto.
  - injection Hin as -> ->. apply Hlast. congruence.
Qed.

Context (sort : forall A : Type, (A -> Z) -> list A -> list A) `{!StdSort sort}.
(** No place is longer than [N]. *)
Context (N : nat).

Definition bounded (h : heap) : Prop :=
  forall l d, Some l ∈ pp -> h !! l = Some d -> nId d <> 0 -> (length (path (nId d)) <= N)%nat.

Lemma bounded_moved h h' : moved h h' -> bounded h -> bounded h'.
Proof.
  intros Hm Hb l d' Hl Hd' H0. destruct (moved_bwd _ _ _ _ Hm Hd') as (d & Hd & Hmv).
  destruct (moved1_fields _ _ Hmv) as (Hi & _). rewrite Hi in *. eauto.
Qed.

(** One step of the loop, given what the recursive call does. *)
Lemma merge_pair_ok (rec : merge_state -> Z -> outcome merge_state) h parent vec la lb done_ st :
  (forall st x, weak_vec (fst st) pp -> placed path (fst st) pp -> bounded (fst st) ->
     (length (path parent) < length (path x) <= N)%nat ->
     exists st', rec st x = Ok st' /\ merge_post path pp (length (path x)) (fst st) (fst st')) ->
  weak_vec h pp -> placed path h pp -> bounded h -> children h parent vec ->
  Some la ∈ vec -> Some lb ∈ vec -> la <> lb ->
  pairs_done h parent done_ st ->
  exists st', merge_pair rec pp st (Some la, Some lb) = Ok st' /\
              pairs_done h parent (done_ ++ [(Some la, Some lb)]) st'.
Proof.
  intros Hrec Hv Hp Hb Hc Hla Hlb Hne Hpd. pose proof Hpd as [Hpost _].
  pose proof (mp_moved _ _ _ _ _ Hpost) as Hm. pose proof (mp_placed _ _ _ _ _ Hpost) as Hp'.
  destruct (child_stays _ _ _ _ _ Hc Hpost Hla) as (Hina & da & da' & Hda & Hda' & Ha0 & Hpa & Hha).
  destruct (child_stays _ _ _ _ _ Hc Hpost Hlb) as (Hinb & db & db' & Hdb & Hdb' & Hb0 & Hpb & Hhb).
  unfold merge_pair. simpl. unfold load. rewrite Hda', Hdb'. simpl.
  destruct (Z.eqb_spec (nHashId da') (nHashId db')) as [Eh|Eh].
  - assert (Hv' : weak_vec (fst st) pp) by eauto with favs.
    destruct (merge_step (fst st) parent la lb da' db') as (h1 & Hrun & Hpost1 & Hdel); [done..|].
    rewrite Hrun. simpl. pose proof (mp_moved _ _ _ _ _ Hpost1) as Hm1.
    destruct (Hrec (h1, snd st) (nId db')) as (st' & Hst' & Hpost2); simpl.
    + eauto with favs.
    + apply (mp_placed _ _ _ _ _ Hpost1).
    + eauto using bounded_moved.
    + pose proof (bounded_moved _ _ Hm Hb lb db' Hinb Hdb' Hb0) as HN.
      rewrite (Hp' lb db') in HN |- * by done. rewrite Hpb, length_app in *. simpl in *. lia.
    + exists st'. split; [done|].
      assert (Hpost2' : merge_post path pp (length (path parent)) h1 (fst st')).
      { eapply merge_post_weaken; [|exact Hpost2].
        rewrite (Hp' lb db') by done. rewrite Hpb, length_app. lia. }
      pose proof (mp_moved _ _ _ _ _ Hpost2') as Hm2.
      eapply pairs_done_skip; [done| | |exact Hda|exact Hdb|].
      * eapply merge_post_trans; [done|exact Hpost|]. eapply merge_post_trans; done.
      * eauto with favs.
      * eauto with favs.
  - exists st. split; [done|]. eapply pairs_done_skip; eauto. congruence.
Qed.

(** After the loop two live children cannot have the same hash: the first of
    them in the sorted vector is followed by one with that hash. *)
Lemma children_distinct h parent vec (st' : merge_state) :
  placed path h pp -> children h parent vec -> valid_vec h vec ->
  StronglySorted (key_le (key_at h nHashId)) vec ->
  merge_post path pp (length (path parent)) h (fst st') ->
  (forall la lb da db, (Some la, Some lb) ∈ zip vec (tail vec) -> h !! la = Some da -> h !! lb = Some db ->
    nHashId da = nHashId db -> deleted (fst st') la) ->
  forall l1 l2 d1 d2, Some l1 ∈ pp -> Some l2 ∈ pp -> l1 <> l2 ->
      fst st' !! l1 = Some d1 -> fst st' !! l2 = Some d2 -> nId d1 <> 0 -> nId d2 <> 0 ->
      nPid d1 = parent -> nPid d2 = parent -> nHashId d1 = nHashId d2 ->
      bDelete d1 = true \/ bDelete d2 = true.
Proof.
  intros Hp Hc Hval Hsorted Hpost Hdel.
  assert (Hpos : forall l d', Some l ∈ pp -> fst st' !! l = Some d' -> nId d' <> 0 -> nPid d' = parent ->
     exists i d, vec !! i = Some (Some l) /\ h !! l = Some d /\ nHashId d = nHashId d').
  { intros l d' Hin Hd' H0 Hpar.
    destruct (moved_bwd _ _ _ _ (mp_moved _ _ _ _ _ Hpost) Hd') as (d & Hd & Hmv).
    destruct (moved1_fields _ _ Hmv) as (Hi & Hh & _). rewrite Hi in H0.
    assert (Hpp : path (nPid d') = path (nPid d))
      by (eapply (parent_path h (fst st')); eauto; apply (mp_placed _ _ _ _ _ Hpost)).
    destruct (mp_local _ _ _ _ _ Hpost l d d' Hin Hd Hd' H0) as [E|Hlt];
      [|rewrite <- Hpp, Hpar in Hlt; lia].
    assert (Hl : Some l ∈ vec). { apply Hc. split; [done|]. exists d. split_and!; congruence. }
    apply list_elem_of_lookup in Hl as [i Hl]. exists i, d. auto. }
  assert (Hdecide : forall i j l1 l2 d1 d2 d1' d2', (i < j)%nat ->
     vec !! i = Some (Some l1) -> vec !! j = Some (Some l2) -> h !! l1 = Some d1 -> h !! l2 = Some d2 ->
     nHashId d1 = nHashId d1' -> nHashId d2 = nHashId d2' -> nHashId d1' = nHashId d2' ->
     fst st' !! l1 = Some d1' -> bDelete d1' = true).
  { intros i j l1 l2 d1 d2 d1' d2' Hij Hi Hj Hd1 Hd2 E1 E2 E Hd1'.
    destruct (lookup_lt_is_Some_2 vec (S i)) as [q Hq]; [apply lookup_lt_Some in Hj; lia|].
    pose proof Hval as Hval2. unfold valid_vec in Hval2. rewrite Forall_lookup in Hval2.
    destruct (Hval2 _ _ Hq) as (lq & dq & -> & Hdq).
    pose proof (StronglySorted_lookup _ _ _ _ _ _ Hsorted Hi Hq ltac:(lia)) as K1.
    assert (K2 : S i = j \/ (S i < j)%nat) by lia.
    unfold key_le, key_at in K1. simpl in K1. rewrite Hd1, Hdq in K1.
    assert (K3 : nHashId dq <= nHashId d2).
    { destruct K2 as [<-|K2].
      - assert (lq = l2) as -> by congruence. assert (dq = d2) as -> by congruence. lia.
      - pose proof (StronglySorted_lookup _ _ _ _ _ _ Hsorted Hq Hj K2) as K3.
        unfold key_le, key_at in K3. simpl in K3. by rewrite Hd2, Hdq in K3. }
    destruct (Hdel l1 lq d1 dq) as (d & Hd & Hb); [|done|done|lia|congruence].
    apply zip_tail_elem. eauto. }
  intros l1 l2 d1 d2 H1 H2 Hne Hd1 Hd2 H01 H02 Hp1 Hp2 Hh.
  destruct (Hpos l1 d1 H1 Hd1 H01 Hp1) as (i & e1 & Hi & He1 & Eh1).
  destruct (Hpos l2 d2 H2 Hd2 H02 Hp2) as (j & e2 & Hj & He2 & Eh2).
  destruct (Nat.lt_total i j) as [Hij|[->|Hij]]; [left| |right]; [eauto|congruence|eauto].
Qed.

(** The specification of a call: it returns, with all of [merge_post], and the
    live children of [parent] then have different hashes. *)
Lemma Merge_ok fuel st parent :
  weak_vec (fst st) pp -> placed path (fst st) pp -> bounded (fst st) ->
  (N - length (path parent) < fuel)%nat ->
  exists st', Merge sort fuel pp st parent = Ok st' /\
    merge_post path pp (length (path parent)) (fst st) (fst st') /\
    forall l1 l2 d1 d2, Some l1 ∈ pp -> Some l2 ∈ pp -> l1 <> l2 ->
      fst st' !! l1 = Some d1 -> fst st' !! l2 = Some d2 -> nId d1 <> 0 -> nId d2 <> 0 ->
      nPid d1 = parent -> nPid d2 = parent -> nHashId d1 = nHashId d2 ->
      bDelete d1 = true \/ bDelete d2 = true.
Proof.
  revert st parent. induction fuel as [|fuel IH]; intros [h posts] parent Hv Hp Hb Hfuel; simpl in *; [lia|].
  destruct (merge_collect_spec h parent Hv) as (vec & -> & Hvnd & Hnone & Hvec). simpl.
  assert (Hc : children h parent vec) by exact Hvec.
  destruct (Nat.ltb_spec 1 (length vec)) as [Hlen|Hlen].
  2:{ eexists. split; [done|]. split; [by apply merge_post_refl|]. simpl.
      intros l1 l2 d1 d2 H1 H2 Hne Hd1 Hd2 H01 H02 Hp1 Hp2 _.
      assert (Hi1 : Some l1 ∈ vec) by (apply Hc; eauto). assert (Hi2 : Some l2 ∈ vec) by (apply Hc; eauto).
      destruct vec as [|x [|y vec]]; [by apply elem_of_nil in Hi1| |simpl in Hlen; lia].
      apply list_elem_of_singleton in Hi1, Hi2. congruence. }
  assert (Hval : valid_vec h vec).
  { apply Forall_forall. intros [l|] Hl; [|done]. apply Hc in Hl as (_ & d & Hd & _). eauto. }
  destruct (sort_vector_spec sort nHashId h vec Hval) as (vec' & -> & Hperm & Hval' & Hsorted). simpl.
  assert (Hc' : children h parent vec') by (intros l; rewrite Hperm; apply Hc).
  assert (Hnd' : NoDup vec') by (by rewrite Hperm).
  set (st0 := (h, posts ++ [PostProcessText MERGE_TEXT]) : merge_state).
  destruct (for_each_ind (pairs_done h parent) (merge_pair (Merge sort fuel pp) pp) st0
    (zip vec' (tail vec'))) as (st' & Hrun & Hpost & Hdel).
  { split; [by apply merge_post_refl|]. by intros ? ? ? ? ?%elem_of_nil. }
  { intros done_ [a b] st Hpd (rest & Hsplit).
    assert (Hab : (a, b) ∈ zip vec' (tail vec')) by (rewrite Hsplit; set_solver).
    apply zip_tail_elem in Hab as (i & Hi & Hi').
    unfold valid_vec in Hval'. rewrite Forall_lookup in Hval'.
    destruct (Hval' _ _ Hi) as (la & da & -> & _), (Hval' _ _ Hi') as (lb & db & -> & _).
    apply (merge_pair_ok _ h parent vec'); try done.
    - intros st1 x Hv1 Hp1 Hb1 Hx. destruct (IH st1 x Hv1 Hp1 Hb1) as (st2 & ? & ? & _); [lia|eauto].
    - by eapply list_elem_of_lookup_2.
    - by eapply list_elem_of_lookup_2.
    - intros ->. assert (i = S i) by (by eapply NoDup_lookup). lia. }
  exists st'. split; [done|]. split; [done|].
  eapply children_distinct; eauto.
Qed.

End Places.

(** ** Properties *)

(** C9: when the parent ids form no cycle (every id has a place), [Merge]
    returns, with recursion no deeper than the longest place; every record keeps
    its place, title, URL and hash; and a record is marked as deleted only if
    another record of the array has the same place. *)
Theorem Merge_keeps_places (sort : forall A : Type, (A -> Z) -> list A -> list A) (Hsort : StdSort sort)
    (path : Z -> list Z) (N : nat) (pp : fav_vector) (st : merge_state) (parent : Z)
    (Hnd : NoDup pp) (Hv : weak_vec (fst st) pp) (Hp : placed path (fst st) pp)
    (Hb : bounded path pp N (fst st)) :
  exists st', Merge sort (S (N - length (path parent))) pp st parent = Ok st' /\
    moved (fst st) (fst st') /\ placed path (fst st') pp /\
    (forall l d, fst st !! l = Some d -> bDelete d = false -> deleted (fst st') l ->
       exists l2 d2, l2 <> l /\ Some l2 ∈ pp /\ fst st !! l2 = Some d2 /\ path (nId d2) = path (nId d)).
Proof.
  destruct (Merge_ok path pp Hnd sort N (S (N - length (path parent))) st parent Hv Hp Hb)
    as (st' & Hrun & Hpost & _); [lia|].
  exists st'. split; [done|]. split; [apply (mp_moved _ _ _ _ _ Hpost)|].
  split; [apply (mp_placed _ _ _ _ _ Hpost)|]. intros l d Hd Hbd Hdel.
  destruct (mp_twin _ _ _ _ _ Hpost l d Hd Hbd Hdel) as (_ & _ & _ & l2 & d2 & ? & ? & ? & _ & ?).
  by exists l2, d2.
Qed.

(** After [Merge(parent)] two records below [parent] that are both still
    live have different hashes: no favorite occurs twice in that folder. *)
Theorem Merge_siblings_distinct (sort : forall A : Type, (A -> Z) -> list A -> list A) (Hsort : StdSort sort)
    (path : Z -> list Z) (N : nat) (pp : fav_vector) (st : merge_state) (parent : Z)
    (Hnd : NoDup pp) (Hv : weak_vec (fst st) pp) (Hp : placed path (fst st) pp)
    (Hb : bounded path pp N (fst st)) :
  exists st', Merge sort (S (N - length (path parent))) pp st parent = Ok st' /\
    forall l1 l2 d1 d2, Some l1 ∈ pp -> Some l2 ∈ pp -> l1 <> l2 ->
      fst st' !! l1 = Some d1 -> fst st' !! l2 = Some d2 -> nId d1 <> 0 -> nId d2 <> 0 ->
      nPid d1 = parent -> nPid d2 = parent -> bDelete d1 = false -> bDelete d2 = false ->
      nHashId d1 <> nHashId d2.
Proof.
  destruct (Merge_ok path pp Hnd sort N (S (N - length (path parent))) st parent Hv Hp Hb)
    as (st' & Hrun & _ & Hdist); [lia|].
  exists st'. split; [done|]. intros l1 l2 d1 d2 H1 H2 Hne Hd1 Hd2 H01 H02 Hp1 Hp2 Hb1 Hb2 Hh.
  destruct (Hdist l1 l2 d1 d2 H1 H2 Hne Hd1 Hd2 H01 H02 Hp1 Hp2 Hh); congruence.
Qed.

(** ** The hypotheses hold for two browsers with the same folder *)

Module MergeDemo.

Definition rec_ (i p hash : Z) (f : bool) : FavoriteLineData := mkFavorite i [65] p f [66] 0 0 0 hash 0 false.

Definition h : heap :=
  {[ 1%positive := rec_ 10 0 7 true; 2%positive := rec_ 11 10 8 false;
     3%positive := rec_ 20 0 7 true; 4%positive := rec_ 21 20 8 false ]}.

Definition pp : fav_vector := [Some 1%positive; Some 2%positive; Some 3%positive; Some 4%positive].

Definition path (id : Z) : list Z :=
  if (id =? 10) || (id =? 20) then [7] else if (id =? 11) || (id =? 21) then [7; 8] else [].

Lemma pp_cases l d : Some l ∈ pp -> h !! l = Some d ->
  d = rec_ 10 0 7 true \/ d = rec_ 11 10 8 false \/ d = rec_ 20 0 7 true \/ d = rec_ 21 20 8 false.
Proof.
  intros Hl Hd. unfold pp in Hl. rewrite !elem_of_cons, elem_of_nil in Hl.
  destruct Hl as [[= ->]|[[= ->]|[[= ->]|[[= ->]|[]]]]]; injection Hd as <-; auto.
Qed.

Lemma pp_nodup : NoDup pp.
Proof. unfold pp. apply (bool_decide_unpack _). vm_compute. exact I. Qed.

Lemma pp_weak : weak_vec h pp.
Proof.
  intros l Hl. unfold pp in Hl. rewrite !elem_of_cons, elem_of_nil in Hl.
  destruct Hl as [[= ->]|[[= ->]|[[= ->]|[[= ->]|[]]]]]; eexists; reflexivity.
Qed.

Lemma pp_placed : placed path h pp.
Proof. intros l d Hl Hd _. destruct (pp_cases l d Hl Hd) as [->|[->|[->| ->]]]; reflexivity. Qed.

Lemma pp_bounded : bounded path pp 2 h.
Proof. intros l d Hl Hd _. destruct (pp_cases l d Hl Hd) as [->|[->|[->| ->]]]; vm_compute; lia. Qed.

End MergeDemo.

Lemma Merge_keeps_places_witness :
  exists st', Merge stable_sort 3 MergeDemo.pp (MergeDemo.h, []) 0 = Ok st' /\
    placed MergeDemo.path (fst st') MergeDemo.pp.
Proof.
  destruct (Merge_keeps_places stable_sort _ MergeDemo.path 2 MergeDemo.pp (MergeDemo.h, []) 0
    MergeDemo.pp_nodup MergeDemo.pp_weak MergeDemo.pp_placed MergeDemo.pp_bounded)
    as (st' & Hrun & _ & Hp & _).
  exists st'. split; [exact Hrun|exact Hp].
Defined.

Lemma Merge_siblings_distinct_witness :
  exists st', Merge stable_sort 3 MergeDemo.pp (MergeDemo.h, []) 0 = Ok st'.
Proof.
  destruct (Merge_siblings_distinct stable_sort _ MergeDemo.path 2 MergeDemo.pp (MergeDemo.h, []) 0
    MergeDemo.pp_nodup MergeDemo.pp_weak MergeDemo.pp_placed MergeDemo.pp_bounded) as (st' & Hrun & _).
  exists st'. exact Hrun.
Defined.
