(* ===== verification/PlugInModule.v ===== *)
(** * The plug-in module

    src/PlugIn/PlugInModule.cpp (without [Merge], see the file Merge): loading
    the browser plug-ins, checking which of them work, collecting the favorites
    of all browsers into the data center, and writing them back.  A browser
    plug-in is an object behind [IPlugIn] (include/PlugIn.h); its operations are
    a class, with a state for whatever files it reads and writes.  Services of
    the data center are called directly: [CallService] routes them there. *)
From stdpp Require Import prelude gmap sorting.
From Stdlib Require Import ZArith Lia.
From S2P Require Import Prelude Protocol Favorites DataCenter Rearrange Merge.

(** ** Identifiers (include/PlugIn.h) *)

Inductive PlugName := SOGOU | IE6 | IE9 | MAXTHON2 | MAXTHON3 | SE360 | EXTREME360 | FIREFOX | CHROME | TT | QQ.

Definition PLUG_ID (p : PlugName) : Z :=
  match p with
  | SOGOU => 1 | IE6 => 2 | IE9 => 3 | MAXTHON2 => 4 | MAXTHON3 => 5 | SE360 => 6
  | EXTREME360 => 7 | FIREFOX => 8 | CHROME => 9 | TT => 10 | QQ => 11
  end.

Definition ID_VALUE_RANGE : Z := 0xFFF.
Definition ID_VALUE_BEGIN (x : Z) : Z := x * 0x1000.
Definition ID_VALUE_END (x : Z) : Z := x * 0x1000 + ID_VALUE_RANGE.
Definition IS_ROOT_ID (id : Z) : bool := id =? 0.

(** Values broadcast by the module (include/PlugInDefine.h). *)
Definition MESSAGE_VALUE_PLUGIN_LOAD_ALL_PLUGIN_FINISHED : Z := MESSAGE_VALUE_BEGIN (MODULE_ID PLUGIN).
Definition MESSAGE_VALUE_PLUGIN_EXPORT_ALL_FINISHED : Z := MESSAGE_VALUE_BEGIN (MODULE_ID PLUGIN) + 3.
Definition MESSAGE_VALUE_PLUGIN_IMPORT_PRE_BEGIN : Z := MESSAGE_VALUE_BEGIN (MODULE_ID PLUGIN) + 4.
Definition MESSAGE_VALUE_PLUGIN_IMPORT_ALL_FINISHED : Z := MESSAGE_VALUE_BEGIN (MODULE_ID PLUGIN) + 7.
Definition EVENT_VALUE_PLUGIN_CHECK_IS_WORKED : Z := EVENT_VALUE_BEGIN (MODULE_ID PLUGIN) + 2.

Definition plugin_message (value : Z) : PlugInPost :=
  PostMessage (MakeMessage (MODULE_ID PLUGIN) value 0 0 0 0 None).

(** Progress texts. *)
Definition LOAD_TEXT : wstring :=
  [27491; 22312; 21152; 36733; 25152; 26377; 30340; 27983; 35272; 22120; 25554; 20214].
Definition CHECK_TEXT : wstring :=
  [27491; 22312; 26816; 26597; 25554; 20214; 26159; 21542; 33021; 27491; 24120; 24037; 20316].
Definition EXPORT_TEXT : wstring :=
  [27491; 22312; 23548; 20986; 25152; 26377; 27983; 35272; 22120; 30340; 25910; 34255; 22841; 25968; 25454].

(** ** Browser plug-ins *)

(** The methods of [IPlugIn] the module calls on the object at an address.
    Exporting fills the records behind the pointers it is given and may change
    the count passed by reference; no plug-in of the repository assigns the
    pointers themselves. *)
Class IPlugIn (W : Type) := {
  plug_Load : positive -> W -> bool * W;
  plug_UnLoad : positive -> W -> bool * W;
  plug_IsWorked : positive -> W -> bool * W;
  plug_GetFavoriteCount : positive -> W -> Z * W;
  plug_ExportFavoriteData : positive -> fav_vector -> Z -> heap * W -> outcome (bool * Z * (heap * W));
  plug_ImportFavoriteData : positive -> fav_vector -> Z -> heap * W -> outcome (Z * Z * (heap * W))
}.

(** A plug-in DLL: what [GetProcAddress] finds and what the factory answers. *)
Record IPlugInFactory := mkPlugFactory {
  QueryPlugInCounter : option Z;
  QueryPlugInPoint : Z -> option (list (option positive))
}.

Record PlugDll := mkPlugDll {
  dll_GetPlugInFactory : option (option IPlugInFactory);
  dll_ReleasePlugInFactory : bool
}.

Definition PlugEnv : Type := wstring -> option PlugDll.

(** [PLUGININFO] *)
Record PlugInInfo := mkPlugInInfo {
  wszPlugInName : wstring;
  pvPlugIn : list (option positive)
}.

Inductive EThreadDoing := NONE | EXPORT | IMPORT.

Record PlugInState (W : Type) := mkPlugIn {
  world : W;
  center : DataCenterState;
  m_nSumFavorite : Z;
  m_nFactories : Z;
  m_vPlugInModuleInfo : list PlugInInfo;
  m_vPlugIns : list (option positive);
  m_eThreadToDoing : EThreadDoing;
  sent : list PlugInPost;
  load_boxes : list wstring;
  released : list wstring
}.

Arguments mkPlugIn {W} _ _ _ _ _ _ _ _ _ _.
Arguments world {W} _.
Arguments center {W} _.
Arguments m_nSumFavorite {W} _.
Arguments m_nFactories {W} _.
Arguments m_vPlugInModuleInfo {W} _.
Arguments m_vPlugIns {W} _.
Arguments m_eThreadToDoing {W} _.
Arguments sent {W} _.
Arguments load_boxes {W} _.
Arguments released {W} _.

Section Module.
Context {W : Type} {P : IPlugIn W}.
Implicit Types s : PlugInState W.

Definition with_world (w : W) s : PlugInState W :=
  mkPlugIn w (center s) (m_nSumFavorite s) (m_nFactories s) (m_vPlugInModuleInfo s) (m_vPlugIns s)
    (m_eThreadToDoing s) (sent s) (load_boxes s) (released s).

Definition with_center (c : DataCenterState) s : PlugInState W :=
  mkPlugIn (world s) c (m_nSumFavorite s) (m_nFactories s) (m_vPlugInModuleInfo s) (m_vPlugIns s)
    (m_eThreadToDoing s) (sent s) (load_boxes s) (released s).

Definition with_sum (n : Z) s : PlugInState W :=
  mkPlugIn (world s) (center s) n (m_nFactories s) (m_vPlugInModuleInfo s) (m_vPlugIns s)
    (m_eThreadToDoing s) (sent s) (load_boxes s) (released s).

Definition with_plugins (f : Z) (i : list PlugInInfo) (v : list (option positive)) s : PlugInState W :=
  mkPlugIn (world s) (center s) (m_nSumFavorite s) f i v
    (m_eThreadToDoing s) (sent s) (load_boxes s) (released s).

Definition with_doing (e : EThreadDoing) s : PlugInState W :=
  mkPlugIn (world s) (center s) (m_nSumFavorite s) (m_nFactories s) (m_vPlugInModuleInfo s) (m_vPlugIns s)
    e (sent s) (load_boxes s) (released s).

Definition send (p : PlugInPost) s : PlugInState W :=
  mkPlugIn (world s) (center s) (m_nSumFavorite s) (m_nFactories s) (m_vPlugInModuleInfo s) (m_vPlugIns s)
    (m_eThreadToDoing s) (sent s ++ [p]) (load_boxes s) (released s).

Definition load_box (name : wstring) s : PlugInState W :=
  mkPlugIn (world s) (center s) (m_nSumFavorite s) (m_nFactories s) (m_vPlugInModuleInfo s) (m_vPlugIns s)
    (m_eThreadToDoing s) (sent s) (load_boxes s ++ [name]) (released s).

Definition release (name : wstring) s : PlugInState W :=
  mkPlugIn (world s) (center s) (m_nSumFavorite s) (m_nFactories s) (m_vPlugInModuleInfo s) (m_vPlugIns s)
    (m_eThreadToDoing s) (sent s) (load_boxes s) (released s ++ [name]).

(** ** Loading *)

(** [pvPlugIn[i]->Load()] for each plug-in of a DLL. *)
Definition load_plugin s (p : option positive) : outcome (PlugInState W) :=
  a ← deref p;
  let '(ok, w) := plug_Load a (world s) in
  let s := with_world w s in
  Ok (if ok then with_plugins (m_nFactories s) (m_vPlugInModuleInfo s) (m_vPlugIns s ++ [p]) s else s).

(** The body of the loop of [OnEvent_LoadAllPlugin]: every failure shows a box
    and goes on with the next DLL. *)
Definition load_plugin_dll (env : PlugEnv) s (name : wstring) : outcome (PlugInState W) :=
  match env name with
  | None => Ok (load_box name s)
  | Some dll =>
      match dll_GetPlugInFactory dll with
      | None => Ok (load_box name s)
      | Some f =>
          if negb (dll_ReleasePlugInFactory dll) then Ok (load_box name s)
          else
            match f with
            | None => Ok (load_box name s)
            | Some f =>
                let s := with_plugins (m_nFactories s + 1) (m_vPlugInModuleInfo s) (m_vPlugIns s) s in
                match QueryPlugInCounter f with
                | None => Ok (load_box name s)
                | Some nPlugNum =>
                    _ ← vec_at (replicate (Z.to_nat nPlugNum) (None : option positive)) 0;
                    match QueryPlugInPoint f nPlugNum with
                    | None => Ok (load_box name s)
                    | Some pv =>
                        s ← for_each load_plugin s (resize (Z.to_nat nPlugNum) None pv);
                        Ok (with_plugins (m_nFactories s)
                              (m_vPlugInModuleInfo s ++
                                 [mkPlugInInfo name (resize (Z.to_nat nPlugNum) None pv)])
                              (m_vPlugIns s) s)
                    end
                end
            end
      end
  end.

Definition OnEvent_LoadAllPlugin (env : PlugEnv) (dlls : list wstring) s : outcome (PlugInState W) :=
  s ← for_each (load_plugin_dll env) (with_plugins 0 [] [] s) dlls;
  Ok (send (PostProcessText LOAD_TEXT)
       (send (PostPlugInEvent (MakeEvent (MODULE_ID PLUGIN) EVENT_VALUE_PLUGIN_CHECK_IS_WORKED
                                 (MODULE_ID PLUGIN) 0 0 0 0 None)) s)).

Definition unload_plugin s (p : option positive) : outcome (PlugInState W) :=
  a ← deref p; Ok (with_world (snd (plug_UnLoad a (world s))) s).

Definition Unload s : outcome (PlugInState W) :=
  s ← for_each unload_plugin s (m_vPlugIns s);
  Ok (fold_left (fun s i => release (wszPlugInName i) s) (m_vPlugInModuleInfo s) s).

(** The loop that erases the plug-ins that do not work. *)
Fixpoint check_worked (kept rest : list (option positive)) (w : W) : outcome (list (option positive) * W) :=
  match rest with
  | [] => Ok (kept, w)
  | p :: rest =>
      a ← deref p;
      let '(ok, w) := plug_IsWorked a w in
      check_worked (if ok then kept ++ [p] else kept) rest w
  end.

(** The thread that is started then runs [Run]. *)
Definition OnEvent_CheckPlugInWorked s : outcome (PlugInState W) :=
  r ← check_worked [] (m_vPlugIns s) (world s);
  let s := with_plugins (m_nFactories s) (m_vPlugInModuleInfo s) (fst r) (with_world (snd r) s) in
  Ok (with_doing EXPORT
       (send (PostProcessText CHECK_TEXT)
         (send (plugin_message MESSAGE_VALUE_PLUGIN_LOAD_ALL_PLUGIN_FINISHED) s))).

Definition OnEvent_BeginToSync s : PlugInState W := with_doing IMPORT s.

(** ** Collecting the favorites *)

Section Export.
Context (sort : forall A : Type, (A -> Z) -> list A -> list A).
Context (now : Z).

(** The first loop: the counts, and their sum. *)
Definition count_favorites (acc : list Z * PlugInState W) (p : option positive) : list Z * PlugInState W :=
  let '(counts, s) := acc in
  match p with
  | None => (counts ++ [0], s)
  | Some a =>
      let '(n, w) := plug_GetFavoriteCount a (world s) in
      (counts ++ [n], with_sum (if n =? 0 then m_nSumFavorite s else i32 (m_nSumFavorite s + n))
                        (with_world w s))
  end.

(** The second loop: each plug-in fills its part of the vector; the state
    carries [nCurrentOffset]. *)
Definition export_plugin (acc : Z * PlugInState W) (pc : option positive * Z) :
    outcome (Z * PlugInState W) :=
  let '(nCurrentOffset, s) := acc in
  match fst pc with
  | None => Ok acc
  | Some a =>
      if snd pc =? 0 then Ok acc
      else
        let s := send (PostExportBegin a) s in
        let c := center s in
        _ ← vec_at (m_vFavoriteLineData c) nCurrentOffset;
        r ← plug_ExportFavoriteData a (drop (Z.to_nat nCurrentOffset) (m_vFavoriteLineData c)) (snd pc)
              (mem c, world s);
        let '(bRet, n, (h, w)) := r in
        let s := with_world w (with_center (with_mem h c) s) in
        if negb bRet then Ok (nCurrentOffset, send (PostExportEnd a n false) s)
        else Ok (i32 (nCurrentOffset + n), send (PostExportEnd a n true) s)
  end.

(** The loop that erases deleted and untitled records; it does not advance at
    a null pointer. *)
Fixpoint purge (fuel : nat) (h : heap) (kept rest : fav_vector) : outcome fav_vector :=
  match fuel with
  | O => Fault NoFuel
  | S fuel =>
      match rest with
      | [] => Ok kept
      | None :: _ => purge fuel h kept rest
      | Some l :: rest' =>
          d ← load h l;
          if bDelete d || bool_decide (szTitle d = []) then purge fuel h kept rest'
          else purge fuel h (kept ++ [Some l]) rest'
      end
  end.

(** From [Merge] to the end of [DoExportThread].  [fuel] bounds the recursion
    of [Merge]; the erasing loop is given one round per record and one more. *)
Definition finish_export (fuel : nat) s : outcome (PlugInState W) :=
  let c := center s in
  let v := m_vFavoriteLineData c in
  _ ← vec_at v 0;
  r ← Merge sort fuel (take (Z.to_nat (m_nSumFavorite s)) v) (mem c, []) 0;
  let s := fold_left (fun s p => send p s) (snd r) s in
  let h := fst r in
  v ← purge (S (length v)) h [] v;
  let s := with_sum (Z.of_nat (length v)) (with_center (with_vec h v c) s) in
  if m_nSumFavorite s =? 0 then Ok (send (plugin_message MESSAGE_VALUE_PLUGIN_EXPORT_ALL_FINISHED) s)
  else
    v ← sort_vector sort nPid h v;
    c ← OnService_ReArrangeFavorite (with_vec h v c);
    let c := fst c in
    v ← sort_vector sort nPid (mem c) v;
    Ok (send (plugin_message MESSAGE_VALUE_PLUGIN_EXPORT_ALL_FINISHED)
          (with_center (with_vec (mem c) v c) s)).

Definition DoExportThread (fuel : nat) s : outcome (PlugInState W) :=
  let s := send (PostProcessText EXPORT_TEXT) s in
  let s := with_sum 0 (with_center (with_vec (mem (center s)) [] (center s)) s) in
  let '(panCount, s) := fold_left count_favorites (m_vPlugIns s) ([], s) in
  if m_nSumFavorite s =? 0 then Ok (send (plugin_message MESSAGE_VALUE_PLUGIN_EXPORT_ALL_FINISHED) s)
  else
    c ← OnService_InitFavoriteData now (m_nSumFavorite s) (center s);
    r ← for_each export_plugin (0, with_center c s) (zip (m_vPlugIns s) panCount);
    finish_export fuel (snd r).

(** ** Writing the favorites back *)

Definition import_plugin s (p : option positive) : outcome (PlugInState W) :=
  match p with
  | None => Ok s
  | Some a =>
      let s := send (PostImportBegin a) s in
      let c := center s in
      let v := m_vFavoriteLineData c in
      _ ← vec_at v 0;
      r ← plug_ImportFavoriteData a v (Z.of_nat (length v)) (mem c, world s);
      let '(nRet, n, (h, w)) := r in
      Ok (send (PostImportEnd a n nRet) (with_world w (with_center (with_mem h c) s)))
  end.

Definition DoImportThread s : outcome (PlugInState W) :=
  let s := send (plugin_message MESSAGE_VALUE_PLUGIN_IMPORT_PRE_BEGIN) s in
  match m_vFavoriteLineData (center s) with
  | [] => Ok s
  | _ =>
      c ← OnService_ReArrangeFavorite (center s);
      s ← for_each import_plugin (with_center (fst c) s) (m_vPlugIns s);
      Ok (send (plugin_message MESSAGE_VALUE_PLUGIN_IMPORT_ALL_FINISHED) s)
  end.

(** The body of the worker thread. *)
Definition Run (fuel : nat) s : outcome (PlugInState W) :=
  match m_eThreadToDoing s with
  | EXPORT => s ← DoExportThread fuel s; Ok (with_doing NONE s)
  | IMPORT => s ← DoImportThread s; Ok (with_doing NONE s)
  | NONE => Ok s
  end.

End Export.
End Module.

(** ** Lemmas *)

Lemma purge_spec fuel h kept rest :
  (length rest < fuel)%nat -> valid_vec h rest ->
  exists v, purge fuel h kept rest = Ok (kept ++ v) /\ sublist v rest /\
    forall l, Some l ∈ v <-> Some l ∈ rest /\
      (exists d, h !! l = Some d /\ bDelete d = false /\ szTitle d <> []).
Proof.
  revert kept rest. induction fuel as [|fuel IH]; intros kept rest Hf Hv; [lia|].
  destruct rest as [|p rest]; simpl.
  { exists []. rewrite app_nil_r. split; [done|]. split; [constructor|].
    intros l. split; [by intros ?%elem_of_nil|by intros [?%elem_of_nil _]]. }
  simpl in Hf. apply Forall_cons in Hv as [(l & d & -> & Hd) Hv].
  unfold load. rewrite Hd. simpl.
  destruct (bDelete d || bool_decide (szTitle d = [])) eqn:E.
  - destruct (IH kept rest) as (v & -> & Hs & Hin); [lia|done|]. exists v.
    split; [done|]. split; [by constructor|]. intros k. rewrite Hin, elem_of_cons. split; [naive_solver|].
    intros [[[= ->]|?] (d' & Hd' & Hb & Ht)]; [|eauto 6]. assert (d' = d) as -> by congruence.
    rewrite Hb, bool_decide_eq_false_2 in E by done. done.
  - apply orb_false_iff in E as [Eb Et%bool_decide_eq_false].
    destruct (IH (kept ++ [Some l]) rest) as (v & -> & Hs & Hin); [lia|done|].
    exists (Some l :: v). rewrite <- app_assoc. split; [done|]. split; [by constructor|].
    intros k. rewrite !elem_of_cons, Hin. split; [|naive_solver].
    intros [[= ->]|[? ?]]; [|by split; [right|]]. split; [by left|]. by exists d.
Qed.

(** A null pointer stops the erasing loop from ever finishing. *)
Lemma purge_null fuel h kept rest : purge fuel h kept (None :: rest) = Fault NoFuel.
Proof. induction fuel as [|fuel IH]; [done|]. exact IH. Qed.

Lemma sublist_valid h v v' : sublist v' v -> valid_vec h v -> valid_vec h v'.
Proof.
  intros Hs Hv. unfold valid_vec in *. rewrite Forall_forall in Hv |- *.
  intros p Hp. apply Hv. by apply (sublist_subseteq v').
Qed.

(** Sending messages changes nothing else. *)
Lemma send_all {W} (ps : list PlugInPost) (s : PlugInState W) :
  exists q, fold_left (fun s p => send p s) ps s =
    mkPlugIn (world s) (center s) (m_nSumFavorite s) (m_nFactories s) (m_vPlugInModuleInfo s)
      (m_vPlugIns s) (m_eThreadToDoing s) q (load_boxes s) (released s).
Proof.
  revert s. induction ps as [|p ps IH]; intros s; simpl.
  - exists (sent s). by destruct s.
  - destruct (IH (send p s)) as [q ->]. by exists q.
Qed.

(** The numbers [1 .. n] after renumbering, in any order of the vector. *)
Lemma renumber_ids h' v rs :
  v = map (fun e => Some (fst e)) rs ->
  (forall k l d, rs !! k = Some (l, d) -> exists q, h' !! l = Some (set_ids (Z.of_nat k + 1) q d)) ->
  map (key_at h' nId) v = seqZ 1 (Z.of_nat (length v)).
Proof.
  intros -> H. apply list_eq. intros k. rewrite list_lookup_fmap, list_lookup_fmap, length_map.
  destruct (rs !! k) as [[l d]|] eqn:Hk; simpl.
  - destruct (H k l d Hk) as [q Hq]. unfold key_at. simpl. rewrite Hq.
    symmetry. apply lookup_seqZ. apply lookup_lt_Some in Hk. simpl. lia.
  - symmetry. apply lookup_ge_None in Hk. apply lookup_seqZ_ge. lia.
Qed.

(** ** Properties *)

(** When the collected records form no cycle, the end of the export thread
    runs to completion without a fault.  The vector then holds exactly the
    records that survived [Merge] with a title; it is sorted by parent id; and
    its ids are 1, ..., n in some order. *)
Theorem finish_export_result {W} (P : IPlugIn W) (sort : forall A : Type, (A -> Z) -> list A -> list A)
    (Hsort : StdSort sort) (path : Z -> list Z) (N : nat) (s : PlugInState W)
    (Hv : valid_vec (mem (center s)) (m_vFavoriteLineData (center s)))
    (Hnd : NoDup (m_vFavoriteLineData (center s))) (Hne : m_vFavoriteLineData (center s) <> [])
    (Hsum : m_nSumFavorite s = Z.of_nat (length (m_vFavoriteLineData (center s))))
    (Hp : placed path (mem (center s)) (m_vFavoriteLineData (center s)))
    (Hb : bounded path (m_vFavoriteLineData (center s)) N (mem (center s))) :
  let fuel := S (N - length (path 0)) in
  exists s' h1 posts, finish_export sort fuel s = Ok s' /\
    Merge sort fuel (m_vFavoriteLineData (center s)) (mem (center s), []) 0 = Ok (h1, posts) /\
    (forall l, Some l ∈ m_vFavoriteLineData (center s') <->
       Some l ∈ m_vFavoriteLineData (center s) /\
       (exists d, h1 !! l = Some d /\ bDelete d = false /\ szTitle d <> [])) /\
    StronglySorted (key_le (key_at (mem (center s')) nPid)) (m_vFavoriteLineData (center s')) /\
    map (key_at (mem (center s')) nId) (m_vFavoriteLineData (center s')) ≡ₚ
      seqZ 1 (Z.of_nat (length (m_vFavoriteLineData (center s')))) /\
    m_nSumFavorite s' = Z.of_nat (length (m_vFavoriteLineData (center s'))).
Proof.
  intros fuel. set (c := center s) in *. set (v := m_vFavoriteLineData c) in *. set (h := mem c) in *.
  destruct (Merge_ok path v Hnd sort N fuel (h, []) 0) as ([h1 posts] & Hm & Hpost & _);
    [by apply valid_weak|done|done|unfold fuel; lia|].
  pose proof (mp_moved _ _ _ _ _ Hpost) as Hmv. simpl in Hmv.
  assert (Hv1 : valid_vec h1 v) by eauto with favs.
  unfold finish_export. fold c v h.
  assert (exists p0, vec_at v 0 = Ok p0) as [p0 ->].
  { unfold vec_at. simpl. destruct v; [done|]. by eexists. }
  cbn [mbind outcome_bind]. rewrite Hsum, Nat2Z.id, take_ge by lia. rewrite Hm. cbn [mbind outcome_bind fst snd].
  destruct (send_all posts s) as [q ->].
  destruct (purge_spec (S (length v)) h1 [] v) as (v1 & Hpu & Hsub & Hin); [lia|done|].
  rewrite Hpu. cbn [mbind outcome_bind app m_nSumFavorite with_sum].
  assert (Hval1 : valid_vec h1 v1) by (by eapply sublist_valid).
  assert (Hnd1 : NoDup v1) by (by eapply sublist_NoDup).
  destruct (Z.eqb_spec (Z.of_nat (length v1)) 0) as [E|E].
  { assert (v1 = []) as -> by (destruct v1; [done|simpl in E; lia]).
    eexists _, h1, posts. split; [done|]. split; [done|]. simpl.
    split; [exact Hin|]. split; [constructor|]. done. }
  destruct (sort_vector_spec sort nPid h1 v1 Hval1) as (v2 & -> & Hp2 & Hval2 & _).
  cbn [mbind outcome_bind].
  destruct (valid_recs _ _ Hval2) as [rs Hrs].
  assert (Hne2 : v2 <> []) by (intros ->; apply Permutation_nil_l in Hp2; subst; simpl in E; lia).
  destruct (ReArrange_run (with_vec h1 v2 c) rs Hrs Hne2) as (h2 & Hre & Hids & Hframe);
    [simpl; by rewrite Hp2|].
  rewrite Hre. cbn [mbind outcome_bind fst mem with_mem with_vec m_vFavoriteLineData].
  assert (Hval3 : valid_vec h2 v2).
  { apply Forall_forall. intros p Hpv. unfold valid_vec in Hval2. rewrite Forall_forall in Hval2.
    destruct (Hval2 p Hpv) as (l & d & -> & Hd). apply list_elem_of_lookup in Hpv as [k Hk].
    destruct (Hids k l d) as (qq & Hq & _); [by eapply recs_get|]. eauto. }
  destruct (sort_vector_spec sort nPid h2 v2 Hval3) as (v3 & -> & Hp3 & _ & Hs3).
  cbn [mbind outcome_bind]. eexists _, h1, posts. split; [done|]. split; [done|]. simpl.
  split; [intros l; by rewrite Hp3, Hp2, Hin|]. split; [done|]. split; [|by rewrite Hp3, Hp2].
  rewrite Hp3. rewrite (renumber_ids h2 v2 rs); [done|apply Hrs|].
  intros k l d Hk. destruct (Hids k l d Hk) as (qq & Hq & _). eauto.
Qed.

(** Ids of different browsers never collide and are never the root id: a
    plug-in numbers its records inside its own range. *)
Theorem plugin_ranges_disjoint (p q : PlugName) (i j : Z)
    (Hi : ID_VALUE_BEGIN (PLUG_ID p) <= i <= ID_VALUE_END (PLUG_ID p))
    (Hj : ID_VALUE_BEGIN (PLUG_ID q) <= j <= ID_VALUE_END (PLUG_ID q)) :
  IS_ROOT_ID i = false /\ (i = j -> p = q).
Proof.
  unfold ID_VALUE_BEGIN, ID_VALUE_END, ID_VALUE_RANGE, IS_ROOT_ID in *.
  split.
  - apply Z.eqb_neq. destruct p; simpl in Hi; lia.
  - intros ->. destruct p, q; simpl in *; (reflexivity || lia).
Qed.

(** ** Examples *)

Module ExportDemo.

(** Folder 30 at the root, folder 20 below it, a favorite below folder 20: a
    folder may have a smaller id than its parent, since merging moves folders
    of one browser below those of another. *)
Definition r30 : FavoriteLineData := mkFavorite 30 [65] 0 true [] 0 0 0 1 0 false.
Definition r20 : FavoriteLineData := mkFavorite 20 [66] 30 true [] 0 0 0 2 0 false.
Definition r25 : FavoriteLineData := mkFavorite 25 [67] 20 false [104] 0 0 0 3 0 false.

Definition h : heap := {[ 1%positive := r30; 2%positive := r20; 3%positive := r25 ]}.
Definition v : fav_vector := [Some 1%positive; Some 2%positive; Some 3%positive].

#[global] Instance no_plugins : IPlugIn unit := {|
  plug_Load := fun _ w => (true, w);
  plug_UnLoad := fun _ w => (true, w);
  plug_IsWorked := fun _ w => (true, w);
  plug_GetFavoriteCount := fun _ w => (0, w);
  plug_ExportFavoriteData := fun _ _ n hw => Ok (true, n, hw);
  plug_ImportFavoriteData := fun _ _ n hw => Ok (1, n, hw)
|}.

Definition s : PlugInState unit :=
  mkPlugIn tt (mkDC h v ∅ 0 false []) 3 0 [] [] EXPORT [] [] [].

Definition path (id : Z) : list Z :=
  if id =? 30 then [1] else if id =? 20 then [1; 2] else if id =? 25 then [1; 2; 3] else [].

Lemma v_cases l : Some l ∈ v -> l = 1%positive \/ l = 2%positive \/ l = 3%positive.
Proof.
  unfold v. rewrite !elem_of_cons, elem_of_nil. intros [[= ->]|[[= ->]|[[= ->]|[]]]]; auto.
Qed.

Lemma v_placed : placed path h v.
Proof. intros l d [->|[->| ->]]%v_cases Hd _; injection Hd as <-; reflexivity. Qed.

Lemma v_bounded : bounded path v 3 h.
Proof. intros l d [->|[->| ->]]%v_cases Hd _; injection Hd as <-; vm_compute; lia. Qed.

End ExportDemo.

(** Sorting once more after renumbering undoes the numbering: on three
    records where a folder has a smaller id than its parent, the exported
    vector carries the ids 1, 3, 2 in that order, while the handler that deletes
    a folder takes the id minus one as the index. *)
Theorem second_sort_breaks_numbering :
  exists s', finish_export stable_sort 4 ExportDemo.s = Ok s' /\
    map (key_at (mem (center s')) nId) (m_vFavoriteLineData (center s')) = [1; 3; 2].
Proof. eexists. split; [vm_compute; reflexivity|]. vm_compute. reflexivity. Qed.

Lemma finish_export_result_witness :
  exists s', finish_export stable_sort 4 ExportDemo.s = Ok s' /\
    StronglySorted (key_le (key_at (mem (center s')) nPid)) (m_vFavoriteLineData (center s')).
Proof.
  destruct (finish_export_result ExportDemo.no_plugins stable_sort _ ExportDemo.path 3 ExportDemo.s)
    as (s' & h1 & posts & Hrun & _ & _ & Hs & _);
    [repeat constructor; repeat eexists; reflexivity
    |apply (bool_decide_unpack _); vm_compute; exact I|discriminate|reflexivity
    |exact ExportDemo.v_placed|exact ExportDemo.v_bounded|].
  exists s'. split; [exact Hrun|exact Hs].
Defined.

Lemma plugin_ranges_disjoint_witness :
  IS_ROOT_ID (ID_VALUE_BEGIN (PLUG_ID CHROME)) = false /\
  (ID_VALUE_BEGIN (PLUG_ID CHROME) = ID_VALUE_END (PLUG_ID FIREFOX) -> CHROME = FIREFOX).
Proof.
  apply (plugin_ranges_disjoint CHROME FIREFOX (ID_VALUE_BEGIN (PLUG_ID CHROME)) (ID_VALUE_END (PLUG_ID FIREFOX)));
    vm_compute; split; discriminate.
Defined.
