(* ===== verification/Md5.v ===== *)
(** * MD5 checksums

    src/Utility/MD5Checksum.cpp with the constants of MD5ChecksumDefines.h: the
    transformation of one block, the incremental [Update] that buffers a partial
    block, [Final] with its padding, and the three ways a checksum is asked for
    (a buffer, a file, part of a file).  The theorems relate them to a direct
    description of the algorithm on the whole message. *)
From stdpp Require Import prelude.
From Stdlib Require Import ZArith Lia.
From S2P Require Import Prelude.

#[local] Open Scope cpp_scope.

(** ** Constants (MD5ChecksumDefines.h) *)

Definition MD5_INIT_STATE_0 : Z := 0x67452301.
Definition MD5_INIT_STATE_1 : Z := 0xefcdab89.
Definition MD5_INIT_STATE_2 : Z := 0x98badcfe.
Definition MD5_INIT_STATE_3 : Z := 0x10325476.

Definition MD5_S11 : Z := 7.
Definition MD5_S12 : Z := 12.
Definition MD5_S13 : Z := 17.
Definition MD5_S14 : Z := 22.
Definition MD5_S21 : Z := 5.
Definition MD5_S22 : Z := 9.
Definition MD5_S23 : Z := 14.
Definition MD5_S24 : Z := 20.
Definition MD5_S31 : Z := 4.
Definition MD5_S32 : Z := 11.
Definition MD5_S33 : Z := 16.
Definition MD5_S34 : Z := 23.
Definition MD5_S41 : Z := 6.
Definition MD5_S42 : Z := 10.
Definition MD5_S43 : Z := 15.
Definition MD5_S44 : Z := 21.

Definition MD5_T01 : Z := 0xd76aa478.
Definition MD5_T02 : Z := 0xe8c7b756.
Definition MD5_T03 : Z := 0x242070db.
Definition MD5_T04 : Z := 0xc1bdceee.
Definition MD5_T05 : Z := 0xf57c0faf.
Definition MD5_T06 : Z := 0x4787c62a.
Definition MD5_T07 : Z := 0xa8304613.
Definition MD5_T08 : Z := 0xfd469501.
Definition MD5_T09 : Z := 0x698098d8.
Definition MD5_T10 : Z := 0x8b44f7af.
Definition MD5_T11 : Z := 0xffff5bb1.
Definition MD5_T12 : Z := 0x895cd7be.
Definition MD5_T13 : Z := 0x6b901122.
Definition MD5_T14 : Z := 0xfd987193.
Definition MD5_T15 : Z := 0xa679438e.
Definition MD5_T16 : Z := 0x49b40821.
Definition MD5_T17 : Z := 0xf61e2562.
Definition MD5_T18 : Z := 0xc040b340.
Definition MD5_T19 : Z := 0x265e5a51.
Definition MD5_T20 : Z := 0xe9b6c7aa.
Definition MD5_T21 : Z := 0xd62f105d.
Definition MD5_T22 : Z := 0x02441453.
Definition MD5_T23 : Z := 0xd8a1e681.
Definition MD5_T24 : Z := 0xe7d3fbc8.
Definition MD5_T25 : Z := 0x21e1cde6.
Definition MD5_T26 : Z := 0xc33707d6.
Definition MD5_T27 : Z := 0xf4d50d87.
Definition MD5_T28 : Z := 0x455a14ed.
Definition MD5_T29 : Z := 0xa9e3e905.
Definition MD5_T30 : Z := 0xfcefa3f8.
Definition MD5_T31 : Z := 0x676f02d9.
Definition MD5_T32 : Z := 0x8d2a4c8a.
Definition MD5_T33 : Z := 0xfffa3942.
Definition MD5_T34 : Z := 0x8771f681.
Definition MD5_T35 : Z := 0x6d9d6122.
Definition MD5_T36 : Z := 0xfde5380c.
Definition MD5_T37 : Z := 0xa4beea44.
Definition MD5_T38 : Z := 0x4bdecfa9.
Definition MD5_T39 : Z := 0xf6bb4b60.
Definition MD5_T40 : Z := 0xbebfbc70.
Definition MD5_T41 : Z := 0x289b7ec6.
Definition MD5_T42 : Z := 0xeaa127fa.
Definition MD5_T43 : Z := 0xd4ef3085.
Definition MD5_T44 : Z := 0x04881d05.
Definition MD5_T45 : Z := 0xd9d4d039.
Definition MD5_T46 : Z := 0xe6db99e5.
Definition MD5_T47 : Z := 0x1fa27cf8.
Definition MD5_T48 : Z := 0xc4ac5665.
Definition MD5_T49 : Z := 0xf4292244.
Definition MD5_T50 : Z := 0x432aff97.
Definition MD5_T51 : Z := 0xab9423a7.
Definition MD5_T52 : Z := 0xfc93a039.
Definition MD5_T53 : Z := 0x655b59c3.
Definition MD5_T54 : Z := 0x8f0ccc92.
Definition MD5_T55 : Z := 0xffeff47d.
Definition MD5_T56 : Z := 0x85845dd1.
Definition MD5_T57 : Z := 0x6fa87e4f.
Definition MD5_T58 : Z := 0xfe2ce6e0.
Definition MD5_T59 : Z := 0xa3014314.
Definition MD5_T60 : Z := 0x4e0811a1.
Definition MD5_T61 : Z := 0xf7537e82.
Definition MD5_T62 : Z := 0xbd3af235.
Definition MD5_T63 : Z := 0x2ad7d2bb.
Definition MD5_T64 : Z := 0xeb86d391.

Definition PADDING : list Z := 0x80 :: replicate 63 0.

(** ** The block transformation *)

Definition RotateLeft (x n : Z) : Z := Z.lor (x <<u n) (x >>u (32 - n)).

(** [~x] on 32 bits. *)
Definition not32 (x : Z) : Z := Z.lxor x 0xFFFFFFFF.

(** The common tail of [FF], [GG], [HH] and [II]: [A += f + X + T; rotate; A += B]. *)
Definition mix (f A B X S T : Z) : Z := RotateLeft (A +u (f +u X +u T)) S +u B.

Definition FF (A B C D X S T : Z) : Z := mix (Z.lor (Z.land B C) (Z.land (not32 B) D)) A B X S T.
Definition GG (A B C D X S T : Z) : Z := mix (Z.lor (Z.land B D) (Z.land C (not32 D))) A B X S T.
Definition HH (A B C D X S T : Z) : Z := mix (Z.lxor (Z.lxor B C) D) A B X S T.
Definition II (A B C D X S T : Z) : Z := mix (Z.lxor C (Z.lor B (not32 D))) A B X S T.

(** [m_lMD5], or the locals [a, b, c, d]. *)
Definition words4 : Type := Z * Z * Z * Z.

(** Which register a step assigns; the operands follow in cyclic order. *)
Inductive reg := Ra | Rd | Rc | Rb.

Definition step_fn : Type := Z -> Z -> Z -> Z -> Z -> Z -> Z -> Z.

(** One line of [Transform]: function, assigned register, index into [X], shift, constant. *)
Definition step : Type := step_fn * reg * nat * Z * Z.

Definition exec (X : list Z) (st : words4) (s : step) : words4 :=
  let '(f, r, k, sh, t) := s in
  let '(a, b, c, d) := st in
  let x := nth k X 0 in
  match r with
  | Ra => (f a b c d x sh t, b, c, d)
  | Rd => (a, b, c, f d a b c x sh t)
  | Rc => (a, b, f c d a b x sh t, d)
  | Rb => (a, f b c d a x sh t, c, d)
  end.

(** The 64 lines of [Transform]. *)
Definition steps : list step :=
  [(FF, Ra, 0%nat, MD5_S11, MD5_T01); (FF, Rd, 1%nat, MD5_S12, MD5_T02);
   (FF, Rc, 2%nat, MD5_S13, MD5_T03); (FF, Rb, 3%nat, MD5_S14, MD5_T04);
   (FF, Ra, 4%nat, MD5_S11, MD5_T05); (FF, Rd, 5%nat, MD5_S12, MD5_T06);
   (FF, Rc, 6%nat, MD5_S13, MD5_T07); (FF, Rb, 7%nat, MD5_S14, MD5_T08);
   (FF, Ra, 8%nat, MD5_S11, MD5_T09); (FF, Rd, 9%nat, MD5_S12, MD5_T10);
   (FF, Rc, 10%nat, MD5_S13, MD5_T11); (FF, Rb, 11%nat, MD5_S14, MD5_T12);
   (FF, Ra, 12%nat, MD5_S11, MD5_T13); (FF, Rd, 13%nat, MD5_S12, MD5_T14);
   (FF, Rc, 14%nat, MD5_S13, MD5_T15); (FF, Rb, 15%nat, MD5_S14, MD5_T16);
   (GG, Ra, 1%nat, MD5_S21, MD5_T17); (GG, Rd, 6%nat, MD5_S22, MD5_T18);
   (GG, Rc, 11%nat, MD5_S23, MD5_T19); (GG, Rb, 0%nat, MD5_S24, MD5_T20);
   (GG, Ra, 5%nat, MD5_S21, MD5_T21); (GG, Rd, 10%nat, MD5_S22, MD5_T22);
   (GG, Rc, 15%nat, MD5_S23, MD5_T23); (GG, Rb, 4%nat, MD5_S24, MD5_T24);
   (GG, Ra, 9%nat, MD5_S21, MD5_T25); (GG, Rd, 14%nat, MD5_S22, MD5_T26);
   (GG, Rc, 3%nat, MD5_S23, MD5_T27); (GG, Rb, 8%nat, MD5_S24, MD5_T28);
   (GG, Ra, 13%nat, MD5_S21, MD5_T29); (GG, Rd, 2%nat, MD5_S22, MD5_T30);
   (GG, Rc, 7%nat, MD5_S23, MD5_T31); (GG, Rb, 12%nat, MD5_S24, MD5_T32);
   (HH, Ra, 5%nat, MD5_S31, MD5_T33); (HH, Rd, 8%nat, MD5_S32, MD5_T34);
   (HH, Rc, 11%nat, MD5_S33, MD5_T35); (HH, Rb, 14%nat, MD5_S34, MD5_T36);
   (HH, Ra, 1%nat, MD5_S31, MD5_T37); (HH, Rd, 4%nat, MD5_S32, MD5_T38);
   (HH, Rc, 7%nat, MD5_S33, MD5_T39); (HH, Rb, 10%nat, MD5_S34, MD5_T40);
   (HH, Ra, 13%nat, MD5_S31, MD5_T41); (HH, Rd, 0%nat, MD5_S32, MD5_T42);
   (HH, Rc, 3%nat, MD5_S33, MD5_T43); (HH, Rb, 6%nat, MD5_S34, MD5_T44);
   (HH, Ra, 9%nat, MD5_S31, MD5_T45); (HH, Rd, 12%nat, MD5_S32, MD5_T46);
   (HH, Rc, 15%nat, MD5_S33, MD5_T47); (HH, Rb, 2%nat, MD5_S34, MD5_T48);
   (II, Ra, 0%nat, MD5_S41, MD5_T49); (II, Rd, 7%nat, MD5_S42, MD5_T50);
   (II, Rc, 14%nat, MD5_S43, MD5_T51); (II, Rb, 5%nat, MD5_S44, MD5_T52);
   (II, Ra, 12%nat, MD5_S41, MD5_T53); (II, Rd, 3%nat, MD5_S42, MD5_T54);
   (II, Rc, 10%nat, MD5_S43, MD5_T55); (II, Rb, 1%nat, MD5_S44, MD5_T56);
   (II, Ra, 8%nat, MD5_S41, MD5_T57); (II, Rd, 15%nat, MD5_S42, MD5_T58);
   (II, Rc, 6%nat, MD5_S43, MD5_T59); (II, Rb, 13%nat, MD5_S44, MD5_T60);
   (II, Ra, 4%nat, MD5_S41, MD5_T61); (II, Rd, 11%nat, MD5_S42, MD5_T62);
   (II, Rc, 2%nat, MD5_S43, MD5_T63); (II, Rb, 9%nat, MD5_S44, MD5_T64)].

(** Four bytes, the first the least significant. *)
Fixpoint ByteToDWord (input : list Z) : list Z :=
  match input with
  | b0 :: b1 :: b2 :: b3 :: rest =>
      Z.lor (Z.lor (Z.lor b0 (b1 <<u 8)) (b2 <<u 16)) (b3 <<u 24) :: ByteToDWord rest
  | _ => []
  end.

Definition DWordToByte (w : Z) : list Z :=
  [Z.land w 0xff; Z.land (w >>u 8) 0xff; Z.land (w >>u 16) 0xff; Z.land (w >>u 24) 0xff].

Definition Transform (md5 : words4) (block : list Z) : words4 :=
  let '(a, b, c, d) := md5 in
  let '(a', b', c', d') := fold_left (exec (ByteToDWord block)) steps md5 in
  (a +u a', b +u b', c +u c', d +u d').

(** ** The incremental interface *)

Record CMD5Checksum := mkMD5 {
  m_lpszBuffer : list Z;
  m_nCount : Z * Z;
  m_lMD5 : words4
}.

Definition CMD5Checksum_init : CMD5Checksum :=
  mkMD5 (replicate 64 0) (0, 0) (MD5_INIT_STATE_0, MD5_INIT_STATE_1, MD5_INIT_STATE_2, MD5_INIT_STATE_3).

(** [memcpy(&buf[i], src, |src|)] within the buffer. *)
Definition memcpy_at (i : nat) (src buf : list Z) : list Z :=
  take i buf ++ src ++ drop (i + length src) buf.

(** The loop over the whole blocks of the input from index [i]; [fuel] bounds
    the number of rounds and the length of the input is always enough.  The sum [i + 63] is
    taken without its wrap-around, which no buffer of a 32-bit process reaches. *)
Fixpoint update_blocks (fuel : nat) (md5 : words4) (input : list Z) (i : Z) : words4 * Z :=
  match fuel with
  | O => (md5, i)
  | S fuel =>
      if i + 63 <? Z.of_nat (length input) then
        update_blocks fuel (Transform md5 (take 64 (drop (Z.to_nat i) input))) input (i + 64)
      else (md5, i)
  end.

Definition Update (input : list Z) (s : CMD5Checksum) : CMD5Checksum :=
  let nInputLen := Z.of_nat (length input) in
  let nIndex := Z.land (fst (m_nCount s) >>u 3) 0x3F in
  let bits := nInputLen <<u 3 in
  let c0 := fst (m_nCount s) +u bits in
  let c1 := if c0 <? bits then snd (m_nCount s) +u 1 else snd (m_nCount s) in
  let c1 := c1 +u (nInputLen >>u 29) in
  let nPartLen := 64 - nIndex in
  if nPartLen <=? nInputLen then
    let buf := memcpy_at (Z.to_nat nIndex) (take (Z.to_nat nPartLen) input) (m_lpszBuffer s) in
    let '(md5, i) := update_blocks (length input) (Transform (m_lMD5 s) buf) input nPartLen in
    mkMD5 (memcpy_at 0 (drop (Z.to_nat i) input) buf) (c0, c1) md5
  else
    mkMD5 (memcpy_at (Z.to_nat nIndex) input (m_lpszBuffer s)) (c0, c1) (m_lMD5 s).

(** Two digits: ["00"], ["0%X"] or ["%X"], then [tolower]. *)
Definition hex_digit (n : Z) : Z := if n <? 10 then 48 + n else 97 + (n - 10).
Definition hex_byte (b : Z) : list Z := [hex_digit (b / 16); hex_digit (b mod 16)].

Definition digest_bytes (md5 : words4) : list Z :=
  let '(a, b, c, d) := md5 in DWordToByte a ++ DWordToByte b ++ DWordToByte c ++ DWordToByte d.

Definition Final (s : CMD5Checksum) : list Z :=
  let Bits := DWordToByte (fst (m_nCount s)) ++ DWordToByte (snd (m_nCount s)) in
  let nIndex := Z.land (fst (m_nCount s) >>u 3) 0x3f in
  let nPadLen := if nIndex <? 56 then 56 - nIndex else 120 - nIndex in
  let s := Update (take (Z.to_nat nPadLen) PADDING) s in
  let s := Update Bits s in
  flat_map hex_byte (digest_bytes (m_lMD5 s)).

(** [GetMD5(BYTE*, UINT)] *)
Definition GetMD5 (buf : list Z) : list Z := Final (Update buf CMD5Checksum_init).

(** [GetMD5(const string& strFilePath)] and [GetMD5W] on a file that can be
    opened: blocks of 1024 bytes are read until nothing is left. *)
Fixpoint read_loop (fuel : nat) (content : list Z) (s : CMD5Checksum) : outcome CMD5Checksum :=
  match fuel with
  | O => Fault NoFuel
  | S fuel =>
      match take 1024 content with
      | [] => Ok s
      | chunk => read_loop fuel (drop 1024 content) (Update chunk s)
      end
  end.

Definition GetMD5_file (content : list Z) : outcome (list Z) :=
  s ← read_loop (S (length content)) content CMD5Checksum_init; Ok (Final s).

(** [GetMD5(path, nBeginOffset, nEndOffset)]: the loop stops only when the
    announced number of bytes has been read; reading past the end yields none. *)
Fixpoint range_loop (fuel : nat) (content : list Z) (nLeftForRead : Z) (s : CMD5Checksum) :
    outcome CMD5Checksum :=
  match fuel with
  | O => Fault NoFuel
  | S fuel =>
      if 0 <? nLeftForRead then
        let want := if nLeftForRead <=? 1024 then nLeftForRead else 1024 in
        let chunk := take (Z.to_nat want) content in
        range_loop fuel (drop (Z.to_nat want) content) (nLeftForRead -u Z.of_nat (length chunk))
          (Update chunk s)
      else Ok s
  end.

Definition GetMD5_range (fuel : nat) (content : list Z) (nBeginOffset nEndOffset : Z) : outcome (list Z) :=
  let nFileSize := Z.of_nat (length content) in
  let finish nEnd :=
    let nLength := if 0 <? (u32 nEnd -u nBeginOffset) then u32 nEnd -u nBeginOffset else 0 in
    s ← range_loop fuel (drop (Z.to_nat nBeginOffset) content) nLength CMD5Checksum_init;
    Ok (Final s) in
  if nEndOffset =? -1 then finish nFileSize
  else if 0 <? nEndOffset then finish (if i32 nFileSize <? nEndOffset then nFileSize else nEndOffset)
  else Ok [].

(** ** The algorithm on the whole message

    The registers rotate after each step, and step [i] reads a word and uses a
    shift given by formulas in [i]. *)

Definition round_fn (i : nat) : step_fn :=
  match (i / 16)%nat with O => FF | 1%nat => GG | 2%nat => HH | _ => II end.

Definition round_word (i : nat) : nat :=
  match (i / 16)%nat with
  | O => i
  | 1%nat => (5 * i + 1) mod 16
  | 2%nat => (3 * i + 5) mod 16
  | _ => (7 * i) mod 16
  end.

Definition round_shift (i : nat) : Z :=
  nth (i mod 4) (nth (i / 16) [[7; 12; 17; 22]; [5; 9; 14; 20]; [4; 11; 16; 23]; [6; 10; 15; 21]] []) 0.

Definition round_const : list Z := map snd steps.

Definition ref_step (X : list Z) (st : words4) (i : nat) : words4 :=
  let '(a, b, c, d) := st in
  (d, round_fn i a b c d (nth (round_word i) X 0) (round_shift i) (nth i round_const 0), b, c).

Definition ref_compress (md5 : words4) (block : list Z) : words4 :=
  let '(a, b, c, d) := md5 in
  let '(a', b', c', d') := fold_left (ref_step (ByteToDWord block)) (seq 0 64) md5 in
  (a +u a', b +u b', c +u c', d +u d').

(** Feeding [n] blocks of 64 bytes. *)
Fixpoint absorb (n : nat) (md5 : words4) (m : list Z) : words4 :=
  match n with
  | O => md5
  | S n => absorb n (ref_compress md5 (take 64 m)) (drop 64 m)
  end.

(** The 64-bit length in bits, least significant byte first. *)
Definition length_bytes (n : Z) : list Z := DWordToByte (u32 (8 * n)) ++ DWordToByte (u32 (8 * n / 2 ^ 32)).

Definition pad (m : list Z) : list Z :=
  let n := Z.of_nat (length m) in
  m ++ (0x80 :: replicate (Z.to_nat ((55 - n) mod 64)) 0) ++ length_bytes n.

Definition md5_init : words4 := (MD5_INIT_STATE_0, MD5_INIT_STATE_1, MD5_INIT_STATE_2, MD5_INIT_STATE_3).

Definition md5_ref (m : list Z) : list Z :=
  flat_map hex_byte (digest_bytes (absorb (length (pad m) / 64) md5_init (pad m))).

(** ** Transform *)

(** Four steps that assign [a], [d], [c], [b] in place are four rotating steps. *)
Lemma quad_steps X f1 f2 f3 f4 k1 k2 k3 k4 s1 s2 s3 s4 t1 t2 t3 t4 st :
  let r f k s t (st : words4) : words4 :=
    let '(a, b, c, d) := st in (d, f a b c d (nth k X 0) s t, b, c) in
  exec X (exec X (exec X (exec X st (f1, Ra, k1, s1, t1)) (f2, Rd, k2, s2, t2)) (f3, Rc, k3, s3, t3))
    (f4, Rb, k4, s4, t4) =
  r f4 k4 s4 t4 (r f3 k3 s3 t3 (r f2 k2 s2 t2 (r f1 k1 s1 t1 st))).
Proof. by destruct st as [[[a b] c] d]. Qed.

(** The four lines number [q] of [Transform], as the formulas give them. *)
Definition quad (q : nat) : list step :=
  map (fun j => let i := (4 * q + j)%nat in
                (round_fn i, nth j [Ra; Rd; Rc; Rb] Ra, round_word i, round_shift i, nth i round_const 0))
      [0; 1; 2; 3]%nat.

Lemma steps_quads : steps = flat_map quad (seq 0 16).
Proof. reflexivity. Qed.

Lemma Transform_ref md5 block : Transform md5 block = ref_compress md5 block.
Proof.
  unfold Transform, ref_compress. set (X := ByteToDWord block).
  assert (H : forall qs st, fold_left (exec X) (flat_map quad qs) st =
     fold_left (ref_step X) (flat_map (fun q => map (fun j => (4 * q + j)%nat) [0; 1; 2; 3]%nat) qs) st).
  { induction qs as [|q qs IH]; intros st; [done|]. cbn [flat_map].
    rewrite !fold_left_app, <- IH. f_equal. exact (quad_steps _ _ _ _ _ _ _ _ _ _ _ _ _ _ _ _ _ st). }
  rewrite steps_quads, H. reflexivity.
Qed.

(** ** Blocks *)

Lemma absorb_app k j h a b :
  length a = (64 * k)%nat -> absorb (k + j) h (a ++ b) = absorb j (absorb k h a) b.
Proof.
  revert h a. induction k as [|k IH]; intros h a Ha; simpl.
  - by destruct a.
  - rewrite take_app_le, drop_app_le by lia. apply IH. rewrite length_drop. lia.
Qed.

Lemma absorb_prefix k h a b :
  (64 * k <= length a)%nat -> absorb k h (a ++ b) = absorb k h a.
Proof.
  revert h a. induction k as [|k IH]; intros h a Ha; simpl; [done|].
  rewrite take_app_le, drop_app_le by lia. apply IH. rewrite length_drop. lia.
Qed.

Lemma update_blocks_spec fuel h input i :
  (i <= length input)%nat -> ((length input - i) / 64 <= fuel)%nat ->
  let j := ((length input - i) / 64)%nat in
  update_blocks fuel h input (Z.of_nat i) = (absorb j h (drop i input), Z.of_nat (i + 64 * j)).
Proof.
  revert h i. induction fuel as [|fuel IH]; intros h i Hi Hf j; cbn [update_blocks].
  - assert (j = 0%nat) as -> by (unfold j; lia). simpl. by rewrite Nat.add_0_r.
  - destruct (Z.ltb_spec (Z.of_nat i + 63) (Z.of_nat (length input))) as [Hlt|Hge].
    + assert (Hj : j = S ((length input - (i + 64)) / 64)).
      { unfold j. replace (length input - i)%nat with (length input - (i + 64) + 1 * 64)%nat by lia.
        rewrite Nat.div_add by lia. lia. }
      replace (Z.of_nat i + 64) with (Z.of_nat (i + 64)) by lia.
      rewrite Nat2Z.id, IH, Hj by (unfold j in *; lia). cbn [absorb]. rewrite Transform_ref, drop_drop.
      f_equal. lia.
    + assert (j = 0%nat) as -> by (unfold j; apply Nat.div_small; lia). simpl. by rewrite Nat.add_0_r.
Qed.

(** ** The state represents the bytes fed so far *)

Record absorbed (m : list Z) (s : CMD5Checksum) : Prop := {
  ab_buffer : length (m_lpszBuffer s) = 64%nat;
  ab_count : m_nCount s = (u32 (8 * Z.of_nat (length m)), u32 (8 * Z.of_nat (length m) / 2 ^ 32));
  ab_md5 : m_lMD5 s = absorb (length m / 64) md5_init m;
  ab_rest : take (length m mod 64) (m_lpszBuffer s) = drop (64 * (length m / 64)) m
}.

Lemma absorbed_init : absorbed [] CMD5Checksum_init.
Proof. done. Qed.

Lemma count_index n : 0 <= n -> Z.land (u32 (8 * n) >>u 3) 0x3F = n mod 64.
Proof.
  intros Hn. change 0x3F with (Z.ones 6). rewrite Z.land_ones, Z.shiftr_div_pow2 by lia.
  unfold u32. change (2 ^ 32) with (8 * 2 ^ 29). rewrite Z.mul_mod_distr_l by lia.
  change (2 ^ 3) with 8. rewrite (Z.mul_comm 8), Z.div_mul by lia.
  change (2 ^ 29) with (64 * 2 ^ 23). change (2 ^ 6) with 64.
  rewrite Z.rem_mul_r by lia. rewrite (Z.mul_comm 64), Z.mod_add by lia. apply Z.mod_mod. lia.
Qed.

Lemma count_add n k :
  0 <= n -> 0 <= k < 2 ^ 32 ->
  let c0 := u32 (8 * n) +u (k <<u 3) in
  c0 = u32 (8 * (n + k)) /\
  (if c0 <? (k <<u 3) then u32 (8 * n / 2 ^ 32) +u 1 else u32 (8 * n / 2 ^ 32)) +u (k >>u 29)
    = u32 (8 * (n + k) / 2 ^ 32).
Proof.
  intros Hn Hk. rewrite Z.shiftl_mul_pow2, Z.shiftr_div_pow2 by lia. cbv zeta.
  unfold u32. change (2 ^ 3) with 8. change (2 ^ 29) with 536870912. change (2 ^ 32) with 4294967296.
  set (M := 4294967296). set (q1 := 8 * n / M). set (q2 := k / 536870912).
  set (r1 := (8 * n) mod M). set (r2 := (k * 8) mod M).
  assert (H1 : 8 * n = M * q1 + r1 /\ 0 <= r1 < M).
  { split; [apply Z.div_mod; lia|apply Z.mod_pos_bound; lia]. }
  assert (H2 : k * 8 = M * q2 + r2 /\ 0 <= r2 < M).
  { split; [|apply Z.mod_pos_bound; lia]. unfold q2, r2, M. lia_div. }
  clearbody q1 r1 q2 r2. destruct (Z.ltb_spec (r1 + r2) M) as [Hs|Hs].
  - assert (Hq : 8 * (n + k) / M = q1 + q2) by (symmetry; apply Z.div_unique with (r1 + r2); lia).
    assert (Hr : (8 * (n + k)) mod M = r1 + r2)
      by (symmetry; apply Z.mod_unique with (q1 + q2); lia).
    rewrite (Z.mod_small (r1 + r2)), Hq, Hr by lia. split; [done|].
    rewrite (proj2 (Z.ltb_ge _ _)) by lia. by rewrite Z.add_mod_idemp_l by lia.
  - assert (Hq : 8 * (n + k) / M = q1 + 1 + q2)
      by (symmetry; apply Z.div_unique with (r1 + r2 - M); lia).
    assert (Hr : (8 * (n + k)) mod M = r1 + r2 - M)
      by (symmetry; apply Z.mod_unique with (q1 + 1 + q2); lia).
    assert (Hw : (r1 + r2) mod M = r1 + r2 - M) by (symmetry; apply Z.mod_unique with 1; lia).
    rewrite Hw, Hq, Hr. split; [done|].
    rewrite (proj2 (Z.ltb_lt _ _)) by lia. rewrite Z.add_mod_idemp_l, <- Z.add_assoc, Z.add_mod_idemp_l by lia. f_equal. lia.
Qed.

(** [Update] appends its input to what has been fed. *)
Lemma Update_absorbed m x s :
  Z.of_nat (length x) < 2 ^ 32 -> absorbed m s -> absorbed (m ++ x) (Update x s).
Proof.
  intros Hx [Hbuf Hcount Hmd5 Hrest]. unfold Update. rewrite Hcount. cbn [fst snd].
  rewrite count_index by lia.
  destruct (count_add (Z.of_nat (length m)) (Z.of_nat (length x))) as [H0 H1]; [lia|lia|].
  rewrite H0 in H1. rewrite H0, H1. clear H0 H1.
  replace (Z.of_nat (length m) + Z.of_nat (length x)) with (Z.of_nat (length (m ++ x)))
    by (rewrite length_app; lia).
  set (idx := (length m mod 64)%nat). set (q := (length m / 64)%nat).
  assert (Hm : length m = (64 * q + idx)%nat) by (apply Nat.div_mod; lia).
  assert (Hidx : (idx < 64)%nat) by (apply Nat.mod_upper_bound; lia).
  replace (Z.of_nat (length m) mod 64) with (Z.of_nat idx) by apply (Nat2Z.inj_mod _ 64).
  fold idx q in Hmd5, Hrest. rewrite Nat2Z.id.
  destruct (Z.leb_spec (64 - Z.of_nat idx) (Z.of_nat (length x))) as [Hle|Hlt].
  - set (part := (64 - idx)%nat).
    replace (64 - Z.of_nat idx) with (Z.of_nat part) by (unfold part; lia). rewrite Nat2Z.id.
    set (B := take idx (m_lpszBuffer s) ++ take part x).
    assert (HB : length B = 64%nat).
    { unfold B. rewrite length_app, !length_take. unfold part. lia. }
    assert (Hmem : memcpy_at idx (take part x) (m_lpszBuffer s) = B).
    { unfold memcpy_at. rewrite length_take, drop_ge by (unfold part; lia). by rewrite app_nil_r. }
    rewrite Hmem, update_blocks_spec; [|unfold part; lia|].
    2:{ apply Nat.Div0.div_le_upper_bound; lia. }
    set (j := ((length x - part) / 64)%nat).
    set (r := ((length x - part) mod 64)%nat).
    assert (Hj : (length x - part = 64 * j + r)%nat) by (apply Nat.div_mod; lia).
    assert (Hr : (r < 64)%nat) by (apply Nat.mod_upper_bound; lia).
    rewrite Nat2Z.id.
    assert (Hdiv : (length (m ++ x) / 64 = q + (1 + j))%nat).
    { rewrite length_app. symmetry. apply Nat.div_unique with r; [done|]. unfold part in *. lia. }
    assert (Hmod : (length (m ++ x) mod 64 = r)%nat).
    { rewrite length_app. symmetry. apply Nat.mod_unique with (q + (1 + j))%nat; [done|]. unfold part in *. lia. }
    assert (Hsplit : m ++ x = (take (64 * q) m ++ B) ++ drop part x).
    { unfold B. rewrite Hrest, <- !app_assoc, take_drop, (app_assoc (take _ m)), take_drop. done. }
    assert (Hlen : length (take (64 * q) m) = (64 * q)%nat) by (rewrite length_take; lia).
    split; cbn [m_lpszBuffer m_nCount m_lMD5].
    + unfold memcpy_at. rewrite !length_app, length_take, !length_drop. unfold part in *. lia.
    + done.
    + rewrite Transform_ref, Hmd5, Hdiv, Hsplit, <- app_assoc, absorb_app by done.
      change (1 + j)%nat with (S j). cbn [absorb].
      rewrite (take_app_le B), (drop_app_le B), (take_ge B), (drop_ge B), app_nil_l by lia.
      do 2 f_equal. rewrite <- (take_drop (64 * q) m) at 1. by rewrite absorb_prefix by lia.
    + rewrite Hdiv, Hmod, Hsplit. unfold memcpy_at. rewrite take_0, app_nil_l.
      rewrite take_app_le, take_ge by (rewrite length_drop; unfold part in *; lia).
      rewrite drop_app_ge by (rewrite length_app; lia). rewrite drop_drop, length_app.
      f_equal. lia.
  - assert (Hdiv : (length (m ++ x) / 64 = q)%nat).
    { rewrite length_app. symmetry. apply Nat.div_unique with (idx + length x)%nat; lia. }
    assert (Hmod : (length (m ++ x) mod 64 = idx + length x)%nat).
    { rewrite length_app. symmetry. apply Nat.mod_unique with q; lia. }
    split; cbn [m_lpszBuffer m_nCount m_lMD5].
    + unfold memcpy_at. rewrite !length_app, length_take, length_drop. lia.
    + done.
    + rewrite Hdiv, Hmd5. symmetry. apply absorb_prefix. lia.
    + rewrite Hdiv, Hmod. unfold memcpy_at.
      assert (Htk : length (take idx (m_lpszBuffer s)) = idx) by (rewrite length_take; lia).
      rewrite take_app_ge by lia. rewrite Htk. replace (idx + length x - idx)%nat with (length x) by lia.
      rewrite (take_app_le x), (take_ge x) by lia. rewrite Hrest, drop_app_le by lia. done.
Qed.

(** ** Final *)

(** The padding [Final] takes from the table is that of the algorithm. *)
Lemma padding_eq n :
  0 <= n ->
  let idx := n mod 64 in
  take (Z.to_nat (if idx <? 56 then 56 - idx else 120 - idx)) PADDING =
  0x80 :: replicate (Z.to_nat ((55 - n) mod 64)) 0.
Proof.
  intros Hn idx.
  assert (Hk : (if idx <? 56 then 56 - idx else 120 - idx) = (55 - n) mod 64 + 1).
  { unfold idx. destruct (Z.ltb_spec (n mod 64) 56); lia_div. }
  rewrite Hk. assert (0 <= (55 - n) mod 64 < 64) by (apply Z.mod_pos_bound; lia).
  replace (Z.to_nat ((55 - n) mod 64 + 1)) with (S (Z.to_nat ((55 - n) mod 64))) by lia.
  unfold PADDING. cbn [take]. f_equal. rewrite take_replicate. f_equal. lia.
Qed.

Lemma Final_absorbed m s : absorbed m s -> Final s = md5_ref m.
Proof.
  intros Hs. unfold Final. pose proof (ab_count _ _ Hs) as Hc. rewrite Hc. cbn [fst snd].
  rewrite count_index by lia. rewrite padding_eq by lia.
  change (DWordToByte (u32 (8 * Z.of_nat (length m))) ++ DWordToByte (u32 ((8 * Z.of_nat (length m)) / 2 ^ 32))) with (length_bytes (Z.of_nat (length m))).
  set (n := Z.of_nat (length m)). set (p := 0x80 :: replicate (Z.to_nat ((55 - n) mod 64)) 0).
  assert (Hp : Z.of_nat (length p) < 2 ^ 32).
  { unfold p. simpl. rewrite length_replicate.
    assert (0 <= (55 - n) mod 64 < 64) by (apply Z.mod_pos_bound; lia). lia. }
  pose proof (Update_absorbed _ _ _ Hp Hs) as H1.
  pose proof (Update_absorbed (m ++ p) (length_bytes n) _ ltac:(reflexivity) H1) as H2.
  rewrite (ab_md5 _ _ H2). unfold md5_ref.
  replace (pad m) with ((m ++ p) ++ length_bytes n) by (unfold pad, p; by rewrite app_assoc).
  done.
Qed.

(** ** Files *)

Lemma read_loop_ok fuel content m s :
  (length content < fuel)%nat -> absorbed m s ->
  exists s', read_loop fuel content s = Ok s' /\ absorbed (m ++ content) s'.
Proof.
  revert content m s. induction fuel as [|fuel IH]; intros content m s Hf Hs; [lia|].
  cbn [read_loop]. destruct content as [|x content]; [exists s; by rewrite app_nil_r|].
  set (c := x :: content) in *.
  assert (Hne : take 1024 c <> []) by done.
  destruct (take 1024 c) as [|y l] eqn:E; [done|]. rewrite <- E.
  destruct (IH (drop 1024 c) (m ++ take 1024 c) (Update (take 1024 c) s)) as (s' & Hrun & Hs').
  - rewrite length_drop. unfold c in *. simpl in *. lia.
  - apply Update_absorbed; [|done]. rewrite length_take. lia.
  - exists s'. split; [done|]. by rewrite <- app_assoc, take_drop in Hs'.
Qed.

Lemma range_loop_ok fuel content n m s :
  (n < fuel)%nat -> (n <= length content)%nat -> Z.of_nat n < 2 ^ 32 -> absorbed m s ->
  exists s', range_loop fuel content (Z.of_nat n) s = Ok s' /\ absorbed (m ++ take n content) s'.
Proof.
  revert content n m s. induction fuel as [|fuel IH]; intros content n m s Hf Hn Hb Hs; [lia|].
  cbn [range_loop]. destruct (Z.ltb_spec 0 (Z.of_nat n)) as [Hpos|H0].
  - set (w := (min n 1024)%nat).
    assert ((if Z.of_nat n <=? 1024 then Z.of_nat n else 1024) = Z.of_nat w) as ->.
    { unfold w. destruct (Z.leb_spec (Z.of_nat n) 1024); lia. }
    rewrite Nat2Z.id, length_take. replace (min w (length content)) with w by (unfold w; lia).
    rewrite u32_small by (unfold w; lia). replace (Z.of_nat n - Z.of_nat w) with (Z.of_nat (n - w)) by lia.
    destruct (IH (drop w content) (n - w)%nat (m ++ take w content) (Update (take w content) s))
      as (s' & Hrun & Hs').
    + unfold w. lia.
    + rewrite length_drop. lia.
    + lia.
    + apply Update_absorbed; [|done]. rewrite length_take. unfold w. lia.
    + exists s'. split; [done|]. rewrite <- app_assoc in Hs'.
      replace (take n content) with (take w content ++ take (n - w) (drop w content)); [done|].
      rewrite take_take_drop. f_equal. unfold w. lia.
  - exists s. replace n with 0%nat by lia. by rewrite take_0, app_nil_r.
Qed.

(** Nothing is left to read but bytes are still expected. *)
Lemma range_loop_starves fuel n s : 0 < n < 2 ^ 32 -> range_loop fuel [] n s = Fault NoFuel.
Proof.
  intros Hn. revert s. induction fuel as [|fuel IH]; intros s; [done|]. cbn [range_loop].
  rewrite (proj2 (Z.ltb_lt _ _)) by lia.
  rewrite take_nil, drop_nil. cbn [length]. rewrite Z.sub_0_r, u32_small by lia. apply IH.
Qed.

(** ** Properties *)

(** C33: the checksum of a buffer, computed by the unrolled [Transform] and the
    buffering [Update] and [Final], is the MD5 of the message: pad, then feed
    the blocks in order to the compression function given by formulas. *)
Theorem GetMD5_correct (m : list Z) (Hlen : Z.of_nat (length m) < 2 ^ 32) : GetMD5 m = md5_ref m.
Proof.
  apply Final_absorbed. apply (Update_absorbed [] m); [done|apply absorbed_init].
Qed.

(** How the input is cut does not matter: feeding it in any number of
    pieces gives the checksum of the concatenation, so the checksum of a file
    read in blocks of 1024 bytes terminates and equals that of its content. *)
Theorem md5_pieces (pieces : list (list Z)) (content : list Z)
    (Hsmall : Forall (fun p => Z.of_nat (length p) < 2 ^ 32) pieces) :
  Final (fold_left (fun s p => Update p s) pieces CMD5Checksum_init) = md5_ref (concat pieces) /\
  GetMD5_file content = Ok (md5_ref content).
Proof.
  split.
  - apply Final_absorbed.
    assert (Hgen : forall m s, absorbed m s ->
              absorbed (m ++ concat pieces) (fold_left (fun s p => Update p s) pieces s)).
    { induction Hsmall as [|p pieces Hp _ IH]; intros m s Hs; simpl; [by rewrite app_nil_r|].
      rewrite app_assoc. apply IH. by apply Update_absorbed. }
    apply (Hgen []), absorbed_init.
  - destruct (read_loop_ok (S (length content)) content [] CMD5Checksum_init) as (s' & Hrun & Hs');
      [lia|apply absorbed_init|].
    unfold GetMD5_file. rewrite Hrun. simpl. f_equal. by apply Final_absorbed.
Qed.

(** The checksum of part of a file is that of the bytes from
    [nBeginOffset] to [nEndOffset] when the range lies inside the file; when the
    range starts behind the end of the file and the end is taken from the file
    size, the number of bytes to read wraps around and the loop never ends. *)
Theorem GetMD5_range_behaviour (content : list Z) (b e : nat)
    (Hsize : Z.of_nat (length content) < 2 ^ 31) (He : (0 < e)%nat) :
  ((b <= e <= length content)%nat ->
     GetMD5_range (S (length content)) content (Z.of_nat b) (Z.of_nat e)
       = Ok (md5_ref (take (e - b) (drop b content)))) /\
  ((length content < b)%nat -> Z.of_nat b < 2 ^ 32 ->
     forall fuel, GetMD5_range fuel content (Z.of_nat b) (-1) = Fault NoFuel).
Proof.
  unfold GetMD5_range. split.
  - intros Hr. cbv zeta. rewrite (proj2 (Z.eqb_neq (Z.of_nat e) (-1))) by lia.
    rewrite (proj2 (Z.ltb_lt 0 (Z.of_nat e))), i32_small by lia.
    rewrite (proj2 (Z.ltb_ge (Z.of_nat (length content)) (Z.of_nat e))) by lia.
    rewrite (u32_small (Z.of_nat e)), u32_small by lia. rewrite Nat2Z.id.
    assert ((if 0 <? Z.of_nat e - Z.of_nat b then Z.of_nat e - Z.of_nat b else 0) = Z.of_nat (e - b)) as ->.
    { destruct (Z.ltb_spec 0 (Z.of_nat e - Z.of_nat b)); lia. }
    destruct (range_loop_ok (S (length content)) (drop b content) (e - b) [] CMD5Checksum_init)
      as (s' & -> & Hs'); [lia|rewrite length_drop; lia|lia|apply absorbed_init|].
    simpl. f_equal. by apply Final_absorbed.
  - intros Hb Hb' fuel. rewrite Z.eqb_refl. cbv zeta.
    rewrite (u32_small (Z.of_nat (length content))) by lia.
    assert (u32 (Z.of_nat (length content) - Z.of_nat b) = Z.of_nat (length content) - Z.of_nat b + 2 ^ 32) as ->.
    { unfold u32. symmetry. apply Z.mod_unique with (-1); lia. }
    rewrite (proj2 (Z.ltb_lt _ _)) by lia. rewrite Nat2Z.id, drop_ge by lia.
    by rewrite range_loop_starves by lia.
Qed.

(** Known answers: the empty message and "abc". *)
Example md5_known_answers :
  GetMD5 [] = [100; 52; 49; 100; 56; 99; 100; 57; 56; 102; 48; 48; 98; 50; 48; 52;
               101; 57; 56; 48; 48; 57; 57; 56; 101; 99; 102; 56; 52; 50; 55; 101] /\
  GetMD5 [97; 98; 99] = [57; 48; 48; 49; 53; 48; 57; 56; 51; 99; 100; 50; 52; 102; 98; 48;
               100; 54; 57; 54; 51; 102; 55; 100; 50; 56; 101; 49; 55; 102; 55; 50].
Proof. split; vm_compute; reflexivity. Qed.

Lemma GetMD5_correct_witness : GetMD5 [97; 98; 99] = md5_ref [97; 98; 99].
Proof. apply (GetMD5_correct [97; 98; 99]). reflexivity. Defined.

Lemma md5_pieces_witness :
  Final (fold_left (fun s p => Update p s) [[97]; [98; 99]] CMD5Checksum_init) = md5_ref [97; 98; 99].
Proof.
  apply (md5_pieces [[97]; [98; 99]] []). constructor; [reflexivity|]. constructor; [reflexivity|constructor].
Defined.

Lemma GetMD5_range_behaviour_witness :
  GetMD5_range 4 [97; 98; 99] 1 3 = Ok (md5_ref [98; 99]) /\
  GetMD5_range 100 [97; 98; 99] 4 (-1) = Fault NoFuel.
Proof.
  split.
  - apply (GetMD5_range_behaviour [97; 98; 99] 1 3); [reflexivity|lia|simpl; lia].
  - apply (GetMD5_range_behaviour [97; 98; 99] 4 3); [reflexivity|lia|simpl; lia|reflexivity].
Defined.
