(* ===== verification/CrcHash.v ===== *)
(** * The hash of a favorite

    src/Utility/CRCHash.cpp: the table of [InitCRC32Table], the table-driven
    checksum [GetCRC] and [GetHash], which the browser plug-ins use to fill
    [nHashId].  The theorem shows that they compute the CRC-32 defined bit by
    bit, for every input. *)
From stdpp Require Import prelude.
From Stdlib Require Import ZArith Lia.
From S2P Require Import Prelude.

#[local] Open Scope cpp_scope.

(** [Reflect(ulRef, ch)]: the loop over [i = 1 .. ch], [n] rounds left. *)
Fixpoint reflect_loop (n : nat) (ch i ulRef ulValue : Z) : Z :=
  match n with
  | O => ulValue
  | S n =>
      reflect_loop n ch (i + 1) (ulRef >>u 1)
        (if Z.land ulRef 1 =? 0 then ulValue else Z.lor ulValue (1 <<u (ch - i)))
  end.

Definition Reflect (ulRef ch : Z) : Z := reflect_loop (Z.to_nat ch) ch 1 ulRef 0.

Definition ulPolynomial : Z := 0x04C11DB7.

(** One round of the inner loop of [InitCRC32Table]. *)
Definition table_shift (t : Z) : Z :=
  Z.lxor (t <<u 1) (if Z.land t (1 <<u 31) =? 0 then 0 else ulPolynomial).

Definition table_entry (i : Z) : Z :=
  Reflect (Nat.iter 8 table_shift (Reflect i 8 <<u 24)) 32.

(** [m_ulTable] after [InitCRC32Table]. *)
Definition InitCRC32Table : list Z := map table_entry (seqZ 0 256).

(** The body of the loop of [GetCRC]. *)
Definition crc_byte (table : list Z) (ulCRC b : Z) : outcome Z :=
  t ← vec_at table (Z.lxor (Z.land ulCRC 0xFF) b);
  Ok (Z.lxor (ulCRC >>u 8) t).

Definition GetCRC (data : list Z) : outcome Z :=
  c ← for_each (crc_byte InitCRC32Table) 0xFFFFFFFF data;
  Ok (Z.lxor c 0xFFFFFFFF).

(** [GetHash] returns the four bytes written to [pbyOutHash], [None] for FALSE.
    A null input is [None]; [dwOutLen] is the room at the output. *)
Definition GetHash (byInData : option (list Z)) (out : bool) (dwOutLen : Z) : outcome (option (list Z)) :=
  match byInData with
  | Some (b :: data) =>
      if out && (4 <=? dwOutLen) then
        c ← GetCRC (b :: data);
        Ok (Some [u8 c; u8 (c >>u 8); u8 (c >>u 16); u8 (c >>u 24)])
      else Ok None
  | _ => Ok None
  end.

(** ** CRC-32 bit by bit *)

(** Division by the reflected polynomial, one bit. *)
Definition crc_bit (c : Z) : Z :=
  Z.lxor (Z.shiftr c 1) (if Z.odd c then 0xEDB88320 else 0).

(** The register after one byte, and the checksum of a message. *)
Definition crc32_step (c b : Z) : Z := Nat.iter 8 crc_bit (Z.lxor c b).

Definition crc32 (data : list Z) : Z := Z.lxor (fold_left crc32_step data 0xFFFFFFFF) 0xFFFFFFFF.

(** ** Lemmas *)

Lemma crc_bit_lxor x y : crc_bit (Z.lxor x y) = Z.lxor (crc_bit x) (crc_bit y).
Proof.
  unfold crc_bit. rewrite Z.shiftr_lxor.
  replace (Z.odd (Z.lxor x y)) with (xorb (Z.odd x) (Z.odd y))
    by (rewrite <- !Z.bit0_odd; by rewrite Z.lxor_spec).
  apply Z.bits_inj'. intros n _. rewrite !Z.lxor_spec.
  destruct (Z.odd x), (Z.odd y); simpl; rewrite ?Z.bits_0;
    destruct (Z.testbit (x ≫ 1) n), (Z.testbit (y ≫ 1) n), (Z.testbit 3988292384 n); reflexivity.
Qed.

Lemma iter_lxor n x y :
  Nat.iter n crc_bit (Z.lxor x y) = Z.lxor (Nat.iter n crc_bit x) (Nat.iter n crc_bit y).
Proof. induction n as [|n IH]; [done|]. simpl. by rewrite IH, crc_bit_lxor. Qed.

(** A value without low bits is only shifted. *)
Lemma iter_shift n x : Nat.iter n crc_bit (Z.shiftl x (Z.of_nat n)) = x.
Proof.
  revert x. induction n as [|n IH]; intros x; [by rewrite Z.shiftl_0_r|].
  rewrite Nat.iter_succ_r. unfold crc_bit at 2.
  rewrite <- Z.bit0_odd, Z.shiftl_spec_low by lia. rewrite Z.lxor_0_r, Z.shiftr_shiftl_l by lia.
  replace (Z.of_nat (S n) - 1) with (Z.of_nat n) by lia. apply IH.
Qed.

Lemma split_low c : c = Z.lxor (Z.shiftl (Z.shiftr c 8) 8) (Z.land c 0xFF).
Proof.
  apply Z.bits_inj'. intros n Hn. rewrite Z.lxor_spec, Z.shiftl_spec, Z.land_spec by lia.
  change 0xFF with (Z.ones 8). destruct (Z.ltb_spec n 8).
  - rewrite (Z.testbit_neg_r _ (n - 8)), Z.ones_spec_low, andb_true_r by lia. by destruct (Z.testbit c n).
  - rewrite Z.shiftr_spec, Z.ones_spec_high, andb_false_r, xorb_false_r by lia. f_equal. lia.
Qed.

(** The table holds the effect of eight bits on a byte. *)
Lemma table_correct x : 0 <= x < 256 -> vec_at InitCRC32Table x = Ok (Nat.iter 8 crc_bit x).
Proof.
  intros Hx.
  assert (Hall : InitCRC32Table = map (Nat.iter 8 crc_bit) (seqZ 0 256)) by (vm_compute; reflexivity).
  rewrite Hall. apply vec_at_Ok. split; [lia|]. rewrite list_lookup_fmap.
  rewrite (proj2 (lookup_seqZ 0 256 (Z.to_nat x) x)) by lia. done.
Qed.

(** A byte of data keeps the register within 32 bits. *)
Lemma crc_bit_range c : 0 <= c < 2 ^ 32 -> 0 <= crc_bit c < 2 ^ 32.
Proof.
  intros Hc. unfold crc_bit.
  assert (Hs : 0 <= Z.shiftr c 1 < 2 ^ 32) by (rewrite Z.shiftr_div_pow2 by lia; lia_div).
  assert (Hm : 0 <= (if Z.odd c then 0xEDB88320 else 0) < 2 ^ 32) by (destruct (Z.odd c); lia).
  by apply lxor_range.
Qed.

Lemma iter_range n c : 0 <= c < 2 ^ 32 -> 0 <= Nat.iter n crc_bit c < 2 ^ 32.
Proof. intros Hc. induction n as [|n IH]; [done|]. simpl. by apply crc_bit_range. Qed.

(** One round of the loop of [GetCRC] is one byte of the definition. *)
Lemma crc_byte_correct c b :
  0 <= c < 2 ^ 32 -> 0 <= b < 2 ^ 8 -> crc_byte InitCRC32Table c b = Ok (crc32_step c b).
Proof.
  intros Hc Hb. unfold crc_byte.
  assert (Hlow : 0 <= Z.land c 0xFF < 2 ^ 8).
  { change 0xFF with (Z.ones 8). rewrite Z.land_ones by lia. apply Z.mod_pos_bound. lia. }
  rewrite table_correct by (apply (lxor_range 8); lia). cbn [mbind outcome_bind]. f_equal.
  unfold crc32_step. symmetry.
  replace (Z.lxor c b) with (Z.lxor (Z.shiftl (Z.shiftr c 8) (Z.of_nat 8)) (Z.lxor (Z.land c 0xFF) b)).
  - rewrite iter_lxor, iter_shift. done.
  - rewrite <- Z.lxor_assoc. by rewrite <- split_low.
Qed.

Lemma crc32_step_range c b : 0 <= c < 2 ^ 32 -> 0 <= b < 2 ^ 8 -> 0 <= crc32_step c b < 2 ^ 32.
Proof. intros Hc Hb. unfold crc32_step. apply iter_range, lxor_range; lia. Qed.

Lemma crc_loop data c :
  Forall (fun b => 0 <= b < 2 ^ 8) data -> 0 <= c < 2 ^ 32 ->
  for_each (crc_byte InitCRC32Table) c data = Ok (fold_left crc32_step data c) /\
  0 <= fold_left crc32_step data c < 2 ^ 32.
Proof.
  apply (for_each_fold (fun c => 0 <= c < 2 ^ 32)). intros x b Hx Hb.
  split; [by apply crc_byte_correct|by apply crc32_step_range].
Qed.

Lemma GetCRC_crc32 data : Forall (fun b => 0 <= b < 2 ^ 8) data ->
  GetCRC data = Ok (crc32 data) /\ 0 <= crc32 data < 2 ^ 32.
Proof.
  intros Hbytes. destruct (crc_loop data 0xFFFFFFFF Hbytes) as [Hrun Hrange]; [lia|].
  unfold GetCRC. rewrite Hrun. split; [done|]. unfold crc32. apply lxor_range; lia.
Qed.

(** ** Property *)

(** For every byte string the table-driven loop of [GetCRC] returns,
    without leaving the table, the CRC-32 defined bit by bit; [GetHash] writes
    it in little-endian order, and refuses a null or empty input, a null output
    and an output of fewer than four bytes. *)
Theorem GetCRC_is_crc32 (data : list Z) (Hbytes : Forall (fun b => 0 <= b < 2 ^ 8) data) :
  GetCRC data = Ok (crc32 data) /\ 0 <= crc32 data < 2 ^ 32 /\
  forall out n, GetHash (Some data) out n =
    Ok (if negb (bool_decide (data = [])) && out && (4 <=? n) then
          Some (map (fun k => u8 (crc32 data >>u k)) [0; 8; 16; 24])
        else None).
Proof.
  destruct (GetCRC_crc32 data Hbytes) as [Hget Hrange]. split; [done|]. split; [done|].
  intros out n. unfold GetHash. destruct data as [|b data]; [done|].
  rewrite bool_decide_eq_false_2 by done. cbn [negb andb].
  destruct (out && (4 <=? n)); [|done]. rewrite Hget. cbn [mbind outcome_bind map].
  by rewrite Z.shiftr_0_r.
Qed.

(** The standard check value, CRC-32 of "123456789". *)
Example crc32_check : GetCRC [49; 50; 51; 52; 53; 54; 55; 56; 57] = Ok 0xCBF43926.
Proof. vm_compute. reflexivity. Qed.

Lemma GetCRC_is_crc32_witness : GetCRC [49; 50; 51] = Ok (crc32 [49; 50; 51]).
Proof. apply (GetCRC_is_crc32 [49; 50; 51]). repeat constructor; lia. Defined.
