(* ===== verification/Memory.v ===== *)
(** * Memory

    Byte buffers: bounded reads and writes at an offset, little-endian integers,
    and the loop that changes the bytes of a region in place.  The formats that
    the program reads and writes (TxConfig, SogouDecoder) are modelled on them. *)
From stdpp Require Import prelude.
From Stdlib Require Import ZArith Lia.
From S2P Require Import Prelude.

(** ** Memory *)

Definition peeks (buf : list Z) (off n : Z) : outcome (list Z) :=
  if (0 <=? off) && (off + n <=? Z.of_nat (List.length buf))
  then Ok (take (Z.to_nat n) (drop (Z.to_nat off) buf))
  else Fault OutOfRange.

Definition pokes (buf : list Z) (off : Z) (bs : list Z) : outcome (list Z) :=
  if (0 <=? off) && (off + Z.of_nat (List.length bs) <=? Z.of_nat (List.length buf))
  then Ok (take (Z.to_nat off) buf ++ bs ++ drop (Z.to_nat off + List.length bs) buf)
  else Fault OutOfRange.

(** [for (j = 0; j < n; j++) p[j] = f(j, p[j])] with [p] at offset [off]. *)
Definition modify_loop (f : Z -> Z -> outcome Z) (buf : list Z) (off n : Z) : outcome (list Z) :=
  for_each (fun buf j => b ← vec_at buf (off + j); b' ← f j b; pokes buf (off + j) [b']) buf (seqZ 0 n).

(** Little-endian integers. *)
Fixpoint le_bytes (k : nat) (z : Z) : list Z :=
  match k with
  | O => []
  | S k => z mod 256 :: le_bytes k (z / 256)
  end.

Fixpoint le_value (bs : list Z) : Z :=
  match bs with
  | [] => 0
  | b :: bs => b + 256 * le_value bs
  end.

Definition peek16 (buf : list Z) (off : Z) : outcome Z := bs ← peeks buf off 2; Ok (le_value bs).
Definition peek32 (buf : list Z) (off : Z) : outcome Z := bs ← peeks buf off 4; Ok (le_value bs).
Definition poke16 (buf : list Z) (off z : Z) : outcome (list Z) := pokes buf off (le_bytes 2 z).
Definition poke32 (buf : list Z) (off z : Z) : outcome (list Z) := pokes buf off (le_bytes 4 z).

(** ** Memory lemmas *)

Lemma le_bytes_length k z : List.length (le_bytes k z) = k.
Proof. revert z. induction k as [|k IH]; intros z; simpl; [done|]. by rewrite IH. Qed.

Lemma le_value_bytes k z : 0 <= z < 256 ^ Z.of_nat k -> le_value (le_bytes k z) = z.
Proof.
  revert z. induction k as [|k IH]; intros z Hz; [simpl in *; lia|].
  rewrite Nat2Z.inj_succ, Z.pow_succ_r in Hz by lia. cbn [le_bytes le_value].
  rewrite IH by (split; [lia_div|apply Z.div_lt_upper_bound; lia]). lia_div.
Qed.

Lemma peeks_mid pre mid post off n :
  off = Z.of_nat (List.length pre) -> n = Z.of_nat (List.length mid) ->
  peeks (pre ++ mid ++ post) off n = Ok mid.
Proof.
  intros -> ->. unfold peeks. rewrite !length_app.
  destruct (Z.leb_spec 0 (Z.of_nat (List.length pre))); [|lia].
  destruct (Z.leb_spec (Z.of_nat (List.length pre) + Z.of_nat (List.length mid))
    (Z.of_nat (List.length pre + (List.length mid + List.length post)))); [|lia].
  simpl. by rewrite !Nat2Z.id, drop_app_length, take_app_length.
Qed.

Lemma pokes_mid pre mid post off bs :
  off = Z.of_nat (List.length pre) -> List.length bs = List.length mid ->
  pokes (pre ++ mid ++ post) off bs = Ok (pre ++ bs ++ post).
Proof.
  intros -> Hl. unfold pokes. rewrite !length_app, Hl.
  destruct (Z.leb_spec 0 (Z.of_nat (List.length pre))); [|lia].
  destruct (Z.leb_spec (Z.of_nat (List.length pre) + Z.of_nat (List.length mid))
    (Z.of_nat (List.length pre + (List.length mid + List.length post)))); [|lia].
  simpl. by rewrite Nat2Z.id, take_app_length, <- drop_drop, drop_app_length, drop_app_length.
Qed.

Lemma peek16_mid pre z post off :
  off = Z.of_nat (List.length pre) -> 0 <= z < 2 ^ 16 -> peek16 (pre ++ le_bytes 2 z ++ post) off = Ok z.
Proof.
  intros Ho Hz. unfold peek16. rewrite (peeks_mid pre (le_bytes 2 z)) by (done || by rewrite le_bytes_length).
  cbn [mbind outcome_bind]. by rewrite (le_value_bytes 2).
Qed.

Lemma peek32_mid pre z post off :
  off = Z.of_nat (List.length pre) -> 0 <= z < 2 ^ 32 -> peek32 (pre ++ le_bytes 4 z ++ post) off = Ok z.
Proof.
  intros Ho Hz. unfold peek32. rewrite (peeks_mid pre (le_bytes 4 z)) by (done || by rewrite le_bytes_length).
  cbn [mbind outcome_bind]. by rewrite (le_value_bytes 4).
Qed.

(** The accesses at a place of a buffer given by what is in front of it. *)
Section at_place.

Context (buf pre mid post : list Z) (off : Z).
Context (Hbuf : buf = pre ++ mid ++ post) (Hoff : off = Z.of_nat (List.length pre)).

Lemma pokes_at bs : List.length bs = List.length mid -> pokes buf off bs = Ok (pre ++ bs ++ post).
Proof using Hbuf Hoff. subst buf. by apply pokes_mid. Qed.

Lemma peeks_at n : n = Z.of_nat (List.length mid) -> peeks buf off n = Ok mid.
Proof using Hbuf Hoff. subst buf. by apply peeks_mid. Qed.

End at_place.

Lemma peek16_at z buf pre post off :
  buf = pre ++ le_bytes 2 z ++ post -> off = Z.of_nat (List.length pre) -> 0 <= z < 2 ^ 16 -> peek16 buf off = Ok z.
Proof. intros ->. apply peek16_mid. Qed.

Lemma peek32_at z buf pre post off :
  buf = pre ++ le_bytes 4 z ++ post -> off = Z.of_nat (List.length pre) -> 0 <= z < 2 ^ 32 -> peek32 buf off = Ok z.
Proof. intros ->. apply peek32_mid. Qed.

(** The loop computes the image of the region. *)
Lemma modify_loop_mid f g pre mid post off n :
  off = Z.of_nat (List.length pre) -> n = Z.of_nat (List.length mid) ->
  (forall j b, mid !! j = Some b -> f (Z.of_nat j) b = Ok (g j b)) ->
  modify_loop f (pre ++ mid ++ post) off n = Ok (pre ++ imap g mid ++ post).
Proof.
  intros Ho Hn Hf. unfold modify_loop.
  destruct (for_range_ind (fun i buf => buf =
      pre ++ imap g (take (Z.to_nat i) mid) ++ drop (Z.to_nat i) mid ++ post)
    (fun buf j => b ← vec_at buf (off + j); b' ← f j b; pokes buf (off + j) [b']) (pre ++ mid ++ post) n)
    as (s' & -> & ->).
  - lia.
  - done.
  - intros i buf Hi ->.
    destruct (lookup_lt_is_Some_2 mid (Z.to_nat i)) as [b Hb]; [lia|].
    rewrite (drop_S mid b (Z.to_nat i) Hb). rewrite <- app_comm_cons, app_assoc.
    assert (Hlen : off + i = Z.of_nat (List.length (pre ++ imap g (take (Z.to_nat i) mid))))
      by (rewrite length_app, length_imap, length_take; lia).
    rewrite Hlen, (vec_at_nat _ _ b) by (by apply list_lookup_middle). cbn [mbind outcome_bind].
    specialize (Hf _ _ Hb). rewrite Z2Nat.id in Hf by lia. rewrite Hf. cbn [mbind outcome_bind].
    rewrite (pokes_mid _ [b] (drop (S (Z.to_nat i)) mid ++ post) _ [g (Z.to_nat i) b]) by done.
    eexists. split; [done|]. rewrite Z2Nat.inj_add by lia. simpl Z.to_nat at 2. rewrite Nat.add_1_r.
    rewrite (take_S_r mid (Z.to_nat i) b) by done. rewrite imap_app, <- !app_assoc. simpl.
    rewrite length_take, Nat.add_0_r, Nat.min_l by lia. done.
  - f_equal. rewrite take_ge, drop_ge by lia. done.
Qed.
