(* ===== verification/Strings.v ===== *)
(** * Strings

    The string utilities the other components use: the class [String] of
    src/Utility/XString.cpp (a wrapper of [std::wstring] whose lengths and
    offsets are 16 bits wide) and [StringHelper] of src/Utility/StringHelper.cpp.
    A string is the list of its characters (or bytes); a search returns [None]
    where the source returns [npos] or -1. *)
From stdpp Require Import prelude strings.
From Stdlib Require Import ZArith Lia Ascii String.
From S2P Require Import Prelude.

#[local] Open Scope cpp_scope.

Abbreviation str := (list Z).

(** The characters of a literal. *)
Definition lit (s : string) : str := map (fun a => Z.of_N (N_of_ascii a)) (String.list_ascii_of_string s).
Arguments lit s%_string_scope.

(** The characters a [const char *] shows of a string: those before the first
    zero. *)
Fixpoint c_str (s : str) : str :=
  match s with
  | [] => []
  | c :: s => if c =? 0 then [] else c :: c_str s
  end.

Lemma c_str_id s : 0 ∉ s -> c_str s = s.
Proof.
  induction s as [|c s IH]; intros H; [done|]. simpl. apply not_elem_of_cons in H as [H0 H].
  destruct (Z.eqb_spec c 0); [congruence|]. by rewrite IH.
Qed.

Lemma c_str_no_zero s : 0 ∉ c_str s.
Proof.
  induction s as [|c s IH]; simpl; [apply not_elem_of_nil|].
  destruct (Z.eqb_spec c 0); [apply not_elem_of_nil|]. apply not_elem_of_cons. auto.
Qed.

(** ** [std::basic_string] *)

(** [substr(pos, n)] throws when [pos] is behind the end. *)
Definition substr (s : str) (pos n : Z) : outcome str :=
  if Z.of_nat (List.length s) <? pos then Fault OutOfRange
  else Ok (take (Z.to_nat n) (drop (Z.to_nat pos) s)).

(** The index of the first element satisfying [f]. *)
Fixpoint find_index (f : Z -> bool) (s : str) : option Z :=
  match s with
  | [] => None
  | c :: s => if f c then Some 0 else (Z.add 1) <$> find_index f s
  end.

(** [find_first_of(set, off)] *)
Definition find_first_of (f : Z -> bool) (s : str) (off : Z) : option Z :=
  (Z.add off) <$> find_index f (drop (Z.to_nat off) s).

(** [find_last_of(set, off)]: the last match at an index not above [off]. *)
Definition find_last_of (f : Z -> bool) (s : str) (off : Z) : option Z :=
  let t := take (Z.to_nat (off + 1)) s in
  (fun i => Z.of_nat (List.length t) - 1 - i) <$> find_index f (rev t).

Definition in_set (set : str) (c : Z) : bool := bool_decide (c ∈ set).

(** [find(pat, off)]: the first occurrence of a substring. *)
Fixpoint find_sub (pat s : str) (fuel : nat) : option Z :=
  match fuel with
  | O => None
  | S fuel =>
      if bool_decide (take (List.length pat) s = pat) then Some 0
      else match s with
           | [] => None
           | _ :: s => (Z.add 1) <$> find_sub pat s fuel
           end
  end.

Definition find (pat s : str) (off : Z) : option Z :=
  if Z.of_nat (List.length s) <? off then None
  else (Z.add off) <$> find_sub pat (drop (Z.to_nat off) s) (S (List.length s)).

(** [tolower] and [toupper] in the C locale. *)
Definition to_lower (c : Z) : Z := if (65 <=? c) && (c <=? 90) then c + 32 else c.
Definition to_upper (c : Z) : Z := if (97 <=? c) && (c <=? 122) then c - 32 else c.

(** ** XString.cpp *)

Module XString.

(** [String::NPOS] as an [uint16] argument. *)
Definition NPOS16 : Z := 0xFFFF.

Definition GetLength (s : str) : Z := Z.of_nat (List.length s).

Definition SubStr (s : str) (nBegin nNumber : Z) : outcome str := substr s (u16 nBegin) (u16 nNumber).

Definition Left (s : str) (nLength : Z) : outcome str :=
  let n := u16 nLength in
  let n := if GetLength s <? n then u16 (GetLength s) else n in
  SubStr s 0 n.

Definition Mid (s : str) (iPos nLength : Z) : outcome str :=
  let iPos := u16 iPos in
  if GetLength s - 1 <? iPos then Ok []
  else
    let nLeft := GetLength s - iPos in
    let nLeft := if nLeft <? 0 then 0 else nLeft in
    let nLeft := if GetLength s <? nLeft then GetLength s else nLeft in
    let n := if nLength =? -1 then nLeft else if nLeft <=? nLength then nLeft else nLength in
    SubStr s iPos n.

Definition Right (s : str) (nLength : Z) : outcome str :=
  let nLength := u16 nLength in
  let nLeft := GetLength s - nLength in
  let nLeft := if nLeft <? 0 then 0 else nLeft in
  let nLeft := if GetLength s <? nLeft then GetLength s else nLeft in
  SubStr s nLeft nLength.

Definition BeginWith (s strBegin : str) : outcome bool :=
  l ← Left s (GetLength strBegin); Ok (bool_decide (l = strBegin)).

Definition EndWith (s strEnd : str) : outcome bool :=
  r ← Right s (GetLength strEnd); Ok (bool_decide (r = strEnd)).

(** The overloads on a character and on a set of characters. *)
Definition FindFirstCharOf (s set : str) (nOffset : Z) : option Z :=
  find_first_of (in_set set) s (u16 nOffset).

Definition FindLastCharOf (s : str) (ch nOffset : Z) : option Z :=
  find_last_of (Z.eqb ch) s (u16 nOffset).

Definition ToLower (s : str) : str := map to_lower s.
Definition ToUpper (s : str) : str := map to_upper s.

(** The characters [TrimLeft] and [TrimRight] remove. *)
Definition trim_set (ch c : Z) : bool := if ch =? 32 then in_set [32; 13; 10; 9] c else c =? ch.

(** [erase(0, pos)] with [pos] the first character kept, [npos] erasing all. *)
Definition TrimLeft (s : str) (ch : Z) : str :=
  match find_first_of (fun c => negb (trim_set ch c)) s 0 with
  | None => []
  | Some i => drop (Z.to_nat i) s
  end.

(** [erase(pos + 1, size - 1)]: when nothing is kept [pos + 1] is 0, and the
    last character survives. *)
Definition TrimRight (s : str) (ch : Z) : str :=
  match s with
  | [] => []
  | _ =>
      let from := match find_last_of (fun c => negb (trim_set ch c)) s (GetLength s) with
                  | None => 0
                  | Some i => i + 1
                  end in
      take (Z.to_nat from) s ++ drop (Z.to_nat (from + (GetLength s - 1))) s
  end.

Definition Trim (s : str) (ch : Z) : str := TrimRight (TrimLeft s ch) ch.

End XString.

(** ** StringHelper.cpp *)

Module StringHelper.

Definition MakeLower (s : str) : str := map to_lower s.
Definition MakeUpper (s : str) : str := map to_upper s.
Definition Reverse (s : str) : str := rev s.

(** ["%02x"] of a byte. *)
Definition hex_char (n : Z) : Z := if n <? 10 then 48 + n else 87 + n.

Definition HexToString (strHex : str) : str :=
  flat_map (fun b => [hex_char (b / 16); hex_char (b mod 16)]) strHex.

(** The value of the first digit of a pair, [None] where the source returns. *)
Definition hex_high (c : Z) : option Z :=
  if (48 <=? c) && (c <=? 57) then Some (u8 (c - 48))
  else if (65 <=? c) && (c <=? 70) then Some (u8 (c - 55))
  else if (97 <=? c) && (c <=? 102) then Some (u8 (c - 87))
  else None.

(** The second digit, added to sixteen times the first. *)
Definition hex_low (byValue c : Z) : option Z :=
  if (48 <=? c) && (c <=? 57) then Some (u8 (byValue * 16 + c - 48))
  else if (65 <=? c) && (c <=? 70) then Some (u8 (byValue * 16 + c - 48 - 7))
  else if (97 <=? c) && (c <=? 102) then Some (u8 (byValue * 16 + c - 87))
  else None.

Fixpoint hex_pairs (s strHex : str) : str :=
  match s with
  | a :: b :: s =>
      match hex_high a with
      | None => []
      | Some h =>
          match hex_low h b with
          | None => []
          | Some v => hex_pairs s (strHex ++ [v])
          end
      end
  | _ => strHex
  end.

Definition StringToHex (s : str) : str :=
  if Z.of_nat (List.length s) mod 2 =? 0 then hex_pairs s [] else [].

Definition IsNumberic (num : str) : bool :=
  match find_first_of (fun c => negb (in_set (lit "0123456789.") c)) num 0 with
  | None => true
  | Some _ => false
  end.

(** [erase(find_last_not_of(...) + 1)]: everything goes when only blanks are left. *)
Definition TrimAll (s : str) : str :=
  let blank := in_set [32; 13; 10; 9] in
  let s := match find_first_of (fun c => negb (blank c)) s 0 with
           | None => []
           | Some i => drop (Z.to_nat i) s
           end in
  match find_last_of (fun c => negb (blank c)) s (Z.of_nat (List.length s)) with
  | None => []
  | Some i => take (Z.to_nat (i + 1)) s
  end.

(** [strResult.replace(pos, srclen, strReplacing)], which throws behind the end. *)
Definition replace_at (s : str) (pos : Z) (n : nat) (by_ : str) : outcome str :=
  if Z.of_nat (List.length s) <? pos then Fault OutOfRange
  else Ok (take (Z.to_nat pos) s ++ by_ ++ drop (Z.to_nat pos + n) s).

(** The positions are searched in [strSrc] and used in [strResult]. *)
Fixpoint replace_loop (fuel : nat) (strSrc strReplaced strReplacing strResult : str) (pos : Z) :
    outcome str :=
  match fuel with
  | O => Fault NoFuel
  | S fuel =>
      match find strReplaced strSrc pos with
      | None => Ok strResult
      | Some pos =>
          r ← replace_at strResult pos (List.length strReplaced) strReplacing;
          replace_loop fuel strSrc strReplaced strReplacing r (pos + Z.of_nat (List.length strReplacing))
      end
  end.

Definition Replace (fuel : nat) (strSrc strReplaced strReplacing : str) : outcome str :=
  replace_loop fuel strSrc strReplaced strReplacing strSrc 0.

(** The loop of [Split], from [nLastPos] with [i] the next separator. *)
Fixpoint split_loop (fuel : nat) (s : str) (ch nLastPos : Z) (i : option Z) (res : list str) :
    outcome (Z * list str) :=
  match fuel with
  | O => Fault NoFuel
  | S fuel =>
      match i with
      | None => Ok (nLastPos, res)
      | Some i =>
          sub ← substr s nLastPos (i - nLastPos);
          split_loop fuel s ch (i + 1) (find_first_of (Z.eqb ch) s (i + 1)) (res ++ [sub])
      end
  end.

Definition Split (s : str) (ch : Z) : outcome (list str) :=
  r ← split_loop (S (List.length s)) s ch 0 (find_first_of (Z.eqb ch) s 0) [];
  let '(nLastPos, res) := r in
  if negb (nLastPos =? 0) then
    sub ← substr s nLastPos (Z.of_nat (List.length s) - nLastPos); Ok (res ++ [sub])
  else Ok res.

(** [sprintf("%d")] *)
Fixpoint digits (fuel : nat) (n : Z) (acc : str) : str :=
  match fuel with
  | O => acc
  | S fuel => let acc := 48 + n mod 10 :: acc in if n <? 10 then acc else digits fuel (n / 10) acc
  end.

Definition ConvertFromInt (n : Z) : str :=
  if n <? 0 then 45 :: digits 11 (- n) [] else digits 11 n [].

(** [atol]: blanks, a sign, digits; the value of a number that fits. *)
Fixpoint atol_digits (s : str) (acc : Z) : Z :=
  match s with
  | c :: s => if (48 <=? c) && (c <=? 57) then atol_digits s (acc * 10 + (c - 48)) else acc
  | [] => acc
  end.

Fixpoint skip_blanks (s : str) : str :=
  match s with
  | c :: s' => if in_set [32; 9; 10; 11; 12; 13] c then skip_blanks s' else s
  | [] => []
  end.

Definition ConvertToInt (s : str) : Z :=
  match skip_blanks s with
  | 45 :: s => - atol_digits s 0
  | 43 :: s => atol_digits s 0
  | s => atol_digits s 0
  end.

End StringHelper.

(** ** Searches *)

Variant find_index_spec (f : Z -> bool) (s : str) : option Z -> Prop :=
| find_index_none : Forall (fun c => f c = false) s -> find_index_spec f s None
| find_index_some a c b : s = a ++ c :: b -> f c = true -> Forall (fun c => f c = false) a ->
    find_index_spec f s (Some (Z.of_nat (List.length a))).

Lemma find_indexP f s : find_index_spec f s (find_index f s).
Proof.
  induction s as [|c s IH]; simpl; [by constructor|].
  destruct (f c) eqn:Hc; [by apply (find_index_some f (c :: s) [] c s)|].
  destruct IH as [Hall|a d b -> Hd Ha]; simpl.
  - constructor. by constructor.
  - replace (1 + Z.of_nat (List.length a)) with (Z.of_nat (List.length (c :: a))) by (simpl; lia).
    apply (find_index_some f _ (c :: a) d b); [done..|by constructor].
Qed.

Lemma substr_Ok s pos n : 0 <= pos <= Z.of_nat (List.length s) ->
  substr s pos n = Ok (take (Z.to_nat n) (drop (Z.to_nat pos) s)).
Proof. intros H. unfold substr. destruct (Z.ltb_spec (Z.of_nat (List.length s)) pos); [lia|done]. Qed.

(** The pieces of a list with the separator put back between them. *)
Fixpoint join (ch : Z) (pieces : list str) : str :=
  match pieces with
  | [] => []
  | [p] => p
  | p :: pieces => p ++ ch :: join ch pieces
  end.

Lemma join_cons ch p l : l <> [] -> join ch (p :: l) = p ++ ch :: join ch l.
Proof. by destruct l. Qed.

Lemma not_elem_forall_eqb ch (a : str) : Forall (fun c => (ch =? c) = false) a -> ch ∉ a.
Proof. rewrite Forall_forall. intros H Hin. specialize (H _ Hin). lia. Qed.

Lemma split_loop_spec fuel s ch n res :
  0 <= n <= Z.of_nat (List.length s) ->
  (List.length s - Z.to_nat n < fuel)%nat ->
  exists n' front,
    StringHelper.split_loop fuel s ch n (find_first_of (Z.eqb ch) s n) res = Ok (n', res ++ front) /\
    n <= n' <= Z.of_nat (List.length s) /\
    join ch (front ++ [drop (Z.to_nat n') s]) = drop (Z.to_nat n) s /\
    Forall (fun p => ch ∉ p) (front ++ [drop (Z.to_nat n') s]) /\
    (n' = n <-> (ch ∉ drop (Z.to_nat n) s)).
Proof.
  revert n res. induction fuel as [|fuel IH]; intros n res Hn Hfuel; [lia|].
  unfold find_first_of. simpl.
  destruct (find_indexP (Z.eqb ch) (drop (Z.to_nat n) s)) as [Hno|a c b Hs Hc Ha]; simpl.
  { apply not_elem_forall_eqb in Hno.
    exists n, []. rewrite app_nil_r. repeat split; simpl; auto; lia. }
  apply Z.eqb_eq in Hc. subst c.
  assert (Hlen : (List.length s - Z.to_nat n = List.length a + S (List.length b))%nat).
  { rewrite <- length_drop, Hs, length_app. done. }
  assert (Hdrop : drop (Z.to_nat (n + Z.of_nat (List.length a) + 1)) s = b).
  { replace (Z.to_nat (n + Z.of_nat (List.length a) + 1)) with (Z.to_nat n + S (List.length a))%nat by lia.
    rewrite <- drop_drop, Hs, (drop_app_ge a) by lia.
    by replace (S (List.length a) - List.length a)%nat with 1%nat by lia. }
  rewrite substr_Ok by lia. simpl.
  replace (Z.to_nat (n + Z.of_nat (List.length a) - n)) with (List.length a) by lia.
  rewrite Hs, take_app_length.
  destruct (IH (n + Z.of_nat (List.length a) + 1) (res ++ [a])) as (n' & front & Hr & Hn' & Hj & Hf & _); [lia..|].
  exists n', (a :: front). rewrite Hr, <- app_assoc.
  split; [done|]. split; [lia|]. split; [|split].
  - rewrite <- app_comm_cons, join_cons by (by destruct front). by rewrite Hj, Hdrop.
  - constructor; [by apply not_elem_forall_eqb|done].
  - split; [lia|]. intros Hnin. exfalso. apply Hnin. set_solver.
Qed.

Lemma app_sep_inj ch (p q x y : str) : (ch ∉ p) -> (ch ∉ q) -> p ++ ch :: x = q ++ ch :: y -> p = q /\ x = y.
Proof.
  revert q. induction p as [|c p IH]; intros [|d q] Hp Hq H; simpl in *.
  - by injection H.
  - injection H as <- _. set_solver.
  - injection H as -> _. set_solver.
  - injection H as -> H. destruct (IH q) as [-> ->]; set_solver.
Qed.

(** Pieces without the separator are determined by their join. *)
Lemma join_inj ch l1 l2 : l1 <> [] -> l2 <> [] ->
  Forall (fun p => ch ∉ p) l1 -> Forall (fun p => ch ∉ p) l2 -> join ch l1 = join ch l2 -> l1 = l2.
Proof.
  revert l2. induction l1 as [|p l1 IH]; intros [|q l2] H1 H2 F1 F2 H; [done..|].
  apply Forall_cons in F1 as [Hp F1]. apply Forall_cons in F2 as [Hq F2].
  destruct (decide (l1 = [])) as [->|N1], (decide (l2 = [])) as [->|N2].
  - simpl in H. by subst.
  - rewrite (join_cons ch q) in H by done. simpl in H. subst p. set_solver.
  - rewrite (join_cons ch p) in H by done. simpl in H. subst q. set_solver.
  - rewrite !join_cons in H by done. apply app_sep_inj in H as [-> H]; [|done..].
    f_equal. by apply IH.
Qed.

(** [Split] terminates without an out-of-range substring; when the separator
    occurs, the pieces joined by it are the string and none contains it; when it
    does not occur, the result is empty (and not the whole string). *)
Theorem Split_exact s ch :
  exists pieces, StringHelper.Split s ch = Ok pieces /\
    ((ch ∉ s) -> pieces = []) /\
    (ch ∈ s -> join ch pieces = s /\ Forall (fun p => ch ∉ p) pieces).
Proof.
  destruct (split_loop_spec (S (List.length s)) s ch 0 []) as (n' & front & Hr & Hn' & Hj & Hf & Hiff);
    [lia..|].
  unfold StringHelper.Split. rewrite Hr. simpl. rewrite drop_0 in Hiff, Hj.
  destruct (Z.eqb_spec n' 0) as [->|Hne]; simpl.
  - exists front. split; [done|]. split; [|tauto].
    intros Hnin. destruct front as [|p front]; [done|]. exfalso. apply Hnin.
    rewrite <- Hj. simpl app. rewrite join_cons by (by destruct front). set_solver.
  - rewrite substr_Ok by lia. simpl. eexists. split; [done|].
    rewrite take_ge by (rewrite length_drop; lia). tauto.
Qed.

Lemma Split_join ch p q l : Forall (fun p => ch ∉ p) (p :: q :: l) ->
  StringHelper.Split (join ch (p :: q :: l)) ch = Ok (p :: q :: l).
Proof.
  intros Hall. set (s := join ch (p :: q :: l)).
  assert (Hin : ch ∈ s) by (unfold s; rewrite join_cons by done; set_solver).
  destruct (split_loop_spec (S (List.length s)) s ch 0 []) as (n' & front & Hr & Hn' & Hj & Hf & Hiff);
    [lia..|].
  rewrite drop_0 in Hj, Hiff. unfold StringHelper.Split. rewrite Hr. simpl.
  destruct (Z.eqb_spec n' 0) as [->|Hne]; simpl; [tauto|].
  rewrite substr_Ok by lia. simpl. f_equal.
  rewrite take_ge by (rewrite length_drop; lia).
  apply (join_inj ch); [by destruct front|done..].
Qed.

(** ** Hexadecimal text *)

Definition hex_pair_ok (b : Z) : bool :=
  match StringHelper.hex_high (StringHelper.hex_char (b / 16)) with
  | Some h => bool_decide (StringHelper.hex_low h (StringHelper.hex_char (b mod 16)) = Some b)
  | None => false
  end.

Lemma hex_pair_back b : 0 <= b < 256 ->
  exists h, StringHelper.hex_high (StringHelper.hex_char (b / 16)) = Some h /\
    StringHelper.hex_low h (StringHelper.hex_char (b mod 16)) = Some b.
Proof.
  intros Hb. assert (Hall : forallb hex_pair_ok (seqZ 0 256) = true) by (vm_compute; reflexivity).
  rewrite forallb_forall in Hall.
  assert (Hin : In b (seqZ 0 256)) by (apply list_elem_of_In, elem_of_seqZ; lia).
  specialize (Hall b Hin). unfold hex_pair_ok in Hall.
  destruct (StringHelper.hex_high _) as [h|]; [|done].
  apply bool_decide_eq_true in Hall. eauto.
Qed.

Lemma hex_pairs_back l : Forall (fun b => 0 <= b < 256) l ->
  forall acc, StringHelper.hex_pairs (StringHelper.HexToString l) acc = acc ++ l.
Proof.
  induction 1 as [|b l Hb _ IH]; intros acc; [by rewrite app_nil_r|].
  destruct (hex_pair_back b Hb) as (h & Hh & Hl).
  change (StringHelper.HexToString (b :: l)) with
    (StringHelper.hex_char (b / 16) :: StringHelper.hex_char (b mod 16) :: StringHelper.HexToString l).
  cbn [StringHelper.hex_pairs]. rewrite Hh, Hl, IH, <- app_assoc. done.
Qed.

Lemma HexToString_even l : Z.of_nat (List.length (StringHelper.HexToString l)) mod 2 = 0.
Proof.
  induction l as [|b l IH]; [done|].
  change (List.length (StringHelper.HexToString (b :: l))) with (S (S (List.length (StringHelper.HexToString l)))).
  lia_div.
Qed.

(** A byte string printed by [HexToString] is read back by [StringToHex]. *)
Lemma hex_roundtrip l : Forall (fun b => 0 <= b < 256) l ->
  StringHelper.StringToHex (StringHelper.HexToString l) = l.
Proof.
  intros Hl. unfold StringHelper.StringToHex. rewrite HexToString_even.
  by apply (hex_pairs_back l Hl []).
Qed.

Example hex_example : StringHelper.HexToString [0; 171; 255] = lit "00abff".
Proof. reflexivity. Qed.

(** ** Decimal text *)

Lemma atol_digits_digits fuel n acc : 0 <= n < 10 ^ Z.of_nat fuel ->
  StringHelper.atol_digits (StringHelper.digits fuel n acc) 0 = StringHelper.atol_digits acc n.
Proof.
  revert n acc. induction fuel as [|fuel IH]; intros n acc Hn; [simpl in *; by replace n with 0 by lia|].
  rewrite Nat2Z.inj_succ, Z.pow_succ_r in Hn by lia.
  assert (Hd : (48 <=? 48 + n mod 10) && (48 + n mod 10 <=? 57) = true)
    by (apply andb_true_intro; split; apply Z.leb_le; lia_div).
  cbn [StringHelper.digits]. destruct (Z.ltb_spec n 10) as [Hlt|Hge].
  - cbn [StringHelper.atol_digits]. rewrite Hd. f_equal. lia_div.
  - rewrite IH by (split; [lia_div|apply Z.div_lt_upper_bound; lia]).
    cbn [StringHelper.atol_digits]. rewrite Hd. f_equal. lia_div.
Qed.

Lemma digits_range fuel n acc : Forall (fun c => 48 <= c <= 57) acc -> 0 <= n ->
  Forall (fun c => 48 <= c <= 57) (StringHelper.digits fuel n acc).
Proof.
  revert n acc. induction fuel as [|fuel IH]; intros n acc Hacc Hn; [done|]. cbn [StringHelper.digits].
  assert (Forall (fun c => 48 <= c <= 57) (48 + n mod 10 :: acc)) by (constructor; [lia_div|done]).
  destruct (n <? 10); [done|]. apply IH; [done|lia_div].
Qed.

Lemma digits_not_nil fuel n acc : StringHelper.digits (S fuel) n acc <> [].
Proof.
  revert n acc. induction fuel as [|fuel IH]; intros n acc.
  - simpl. by destruct (n <? 10).
  - cbn [StringHelper.digits]. destruct (n <? 10); [done|]. apply IH.
Qed.

(** A text that starts with a digit has neither blanks nor a sign in front. *)
Lemma ConvertToInt_digit c s : 48 <= c <= 57 -> StringHelper.ConvertToInt (c :: s) = StringHelper.atol_digits (c :: s) 0.
Proof.
  intros Hc. unfold StringHelper.ConvertToInt. cbn [StringHelper.skip_blanks].
  unfold in_set. rewrite bool_decide_eq_false_2 by (rewrite !elem_of_cons, elem_of_nil; lia).
  destruct (Z.eq_dec c 45), (Z.eq_dec c 43); [lia..|]. by repeat case_match.
Qed.

Lemma ConvertToInt_digits s : Forall (fun c => 48 <= c <= 57) s -> StringHelper.ConvertToInt s = StringHelper.atol_digits s 0.
Proof. intros Hs. destruct Hs as [|c s Hc _]; [done|]. by apply ConvertToInt_digit. Qed.

Lemma digits_acc fuel n acc : StringHelper.digits fuel n acc = StringHelper.digits fuel n [] ++ acc.
Proof.
  revert n acc. induction fuel as [|fuel IH]; intros n acc; [done|]. cbn [StringHelper.digits]. cbv zeta.
  destruct (n <? 10); [done|]. rewrite IH, (IH _ [_]). by rewrite <- app_assoc.
Qed.

Lemma ConvertFromInt_digits n : 0 <= n < 10 ^ 11 ->
  StringHelper.ConvertFromInt n = StringHelper.digits 11 n [] /\
  Forall (fun c => 48 <= c <= 57) (StringHelper.ConvertFromInt n) /\
  StringHelper.ConvertFromInt n <> [].
Proof.
  intros Hn. unfold StringHelper.ConvertFromInt. destruct (Z.ltb_spec n 0); [lia|].
  split; [done|]. split; [by apply digits_range; [|lia]|apply digits_not_nil].
Qed.

Lemma int_back n : 0 <= n < 10 ^ 11 -> StringHelper.ConvertToInt (StringHelper.ConvertFromInt n) = n.
Proof.
  intros Hn. destruct (ConvertFromInt_digits n Hn) as (E & Hr & _).
  rewrite ConvertToInt_digits by done. by rewrite E, atol_digits_digits.
Qed.
