(* ===== verification/MiscHelper.v ===== *)
(** * MiscHelper

    The helpers of src/Utility/MiscHelper.cpp that compute: the host and the
    registrable domain of a URL, version numbers, and the classification of the
    running system.  A string handed over as [wchar_t*] has no null character,
    so the truncation at one in [GetData] is not modelled. *)
From stdpp Require Import prelude.
From Stdlib Require Import ZArith Lia String.
From S2P Require Import Prelude Strings.

#[local] Open Scope cpp_scope.
Import XString.

(** ** Domains *)

Definition HTTP : str := lit "http://".
Definition HTTPS : str := lit "https://".

(** The prefix put back in front of a domain.  The second test reads the
    domain, whose prefix is already gone, where the first reads the URL. *)
Definition add_prefix (strUrl strDomain : str) (bIncludePrefix : bool) : outcome str :=
  if bIncludePrefix then
    l7 ← Left strUrl 7;
    if bool_decide (l7 = HTTP) then Ok (HTTP ++ strDomain)
    else
      l8 ← Left strDomain 8;
      if bool_decide (l8 = HTTPS) then Ok (HTTPS ++ strDomain) else Ok strDomain
  else Ok strDomain.

Definition GetDomainFromUrl (pszUrl : option str) (bIncludePrefix : bool) : outcome str :=
  match pszUrl with
  | None => Ok []
  | Some strUrl =>
      l7 ← Left strUrl 7;
      l8 ← Left strUrl 8;
      if negb (bool_decide (l7 = HTTP)) && negb (bool_decide (l8 = HTTPS)) then Ok []
      else
        strDomain ← (if bool_decide (l7 = HTTP) then SubStr strUrl 7 (GetLength strUrl - 1)
                     else SubStr strUrl 8 (GetLength strUrl - 1));
        match FindFirstCharOf strDomain [92; 47] 0 with
        | None => add_prefix strUrl strDomain bIncludePrefix
        | Some nIndex =>
            strDomain ← SubStr strDomain 0 nIndex;
            add_prefix strUrl strDomain bIncludePrefix
        end
  end.

(** The suffixes that are not part of a registrable name. *)
Definition szDomain : list str := [
  lit ".com.at"; lit ".com.au"; lit ".com.be"; lit ".com.dk"; lit ".com.es"; lit ".com.us";
  lit ".com.de"; lit ".com.uk"; lit ".com.fr"; lit ".com.eu"; lit ".com.gb"; lit ".com.ie";
  lit ".com.il"; lit ".com.in"; lit ".com.it"; lit ".com.jp"; lit ".com.kp"; lit ".com.kr";
  lit ".com.se"; lit ".com.vn"; lit ".com.cn"; lit ".com.hk"; lit ".com.mo"; lit ".com.tw";
  lit ".net.at"; lit ".net.au"; lit ".net.be"; lit ".net.dk"; lit ".net.es"; lit ".net.us";
  lit ".net.de"; lit ".net.uk"; lit ".net.fr"; lit ".net.eu"; lit ".net.gb"; lit ".net.ie";
  lit ".net.il"; lit ".net.in"; lit ".net.it"; lit ".net.jp"; lit ".net.kp"; lit ".net.kr";
  lit ".net.se"; lit ".net.vn"; lit ".net.cn"; lit ".net.hk"; lit ".net.mo"; lit ".net.tw";
  lit ".org.at"; lit ".org.au"; lit ".org.be"; lit ".org.dk"; lit ".org.es"; lit ".org.us";
  lit ".org.de"; lit ".org.uk"; lit ".org.fr"; lit ".org.eu"; lit ".org.gb"; lit ".org.ie";
  lit ".org.il"; lit ".org.in"; lit ".org.it"; lit ".org.jp"; lit ".org.kp"; lit ".org.kr";
  lit ".org.se"; lit ".org.vn"; lit ".org.cn"; lit ".org.hk"; lit ".org.mo"; lit ".org.tw";
  lit ".gov.at"; lit ".gov.au"; lit ".gov.be"; lit ".gov.dk"; lit ".gov.es"; lit ".gov.us";
  lit ".gov.de"; lit ".gov.uk"; lit ".gov.fr"; lit ".gov.eu"; lit ".gov.gb"; lit ".gov.ie";
  lit ".gov.il"; lit ".gov.in"; lit ".gov.it"; lit ".gov.jp"; lit ".gov.kp"; lit ".gov.kr";
  lit ".gov.se"; lit ".gov.vn"; lit ".gov.cn"; lit ".gov.hk"; lit ".gov.mo"; lit ".gov.tw";
  lit ".com"; lit ".net"; lit ".cn"; lit ".org"; lit ".cc"; lit ".me"; lit ".tel"; lit ".mobile";
  lit ".asia"; lit ".biz"; lit ".info"; lit ".name"; lit ".tv"; lit ".hv"; [46; 20844; 21496];
  [46; 20013; 22269]; [46; 32593; 32476]].

Fixpoint top_domain_loop (strUrl : str) (tbl : list str) : outcome str :=
  match tbl with
  | [] => Ok []
  | suffix :: tbl =>
      e ← EndWith strUrl suffix;
      if (e : bool) then
        strDomainName ← SubStr strUrl 0 (GetLength strUrl - GetLength suffix);
        let nIndex := default (-1) (FindLastCharOf strDomainName 46 NPOS16) in
        strDomainName ← SubStr strDomainName (nIndex + 1) (GetLength strDomainName - nIndex);
        Ok (strDomainName ++ suffix)
      else top_domain_loop strUrl tbl
  end.

Definition GetTopDomainUrl (pszUrl : option str) : outcome str :=
  match pszUrl with
  | None => Ok []
  | Some _ =>
      szUrl ← GetDomainFromUrl pszUrl true;
      let strUrl := ToLower szUrl in
      l7 ← Left strUrl 7;
      l8 ← Left strUrl 8;
      strUrl ← (if bool_decide (l7 = HTTP) then SubStr strUrl 7 (GetLength strUrl - 7)
                else if bool_decide (l8 = HTTPS) then SubStr strUrl 8 (GetLength strUrl - 8)
                else Ok strUrl);
      top_domain_loop strUrl szDomain
  end.

(** ** Versions *)

(** The sum wraps around as the 32-bit [nVersion] does. *)
Definition GetVersionFromString (pszVersion : option str) : outcome Z :=
  match pszVersion with
  | None => Ok 0
  | Some s =>
      v ← StringHelper.Split s 46;
      let v := match v with [] => [s] | _ => v end in
      let nNum := if (4 <? List.length v)%nat then 4 else Z.of_nat (List.length v) in
      for_each (fun nVersion j =>
        sub ← vec_at v j;
        Ok (i32 (nVersion + i32 (Z.shiftl (StringHelper.ConvertToInt sub) ((3 - j) * 8))))) 0 (seqZ 0 nNum)
  end.

Definition version_body (st : Z * str) (i : Z) : Z * str :=
  let '(nVersion, wstrVerson) := st in
  let w := Z.shiftl 1 ((3 - i) * 8) in
  (Z.rem nVersion w, wstrVerson ++ StringHelper.ConvertFromInt (Z.quot nVersion w) ++ [46]).

Definition GetStringFromVersion (nVersion : Z) : option str :=
  if nVersion <=? 0 then None
  else Some (Trim (snd (fold_left version_body (seqZ 0 4) (nVersion, []))) 46).

(** ** The running system *)

Inductive OsVer :=
| OS_UNKNOWN | OS_WIN95 | OS_WIN98 | OS_WIN98SE | OS_WINME | OS_WINNT
| OS_WIN2000 | OS_WINXP | OS_WIN2003 | OS_WINXP64 | OS_VISTA | OS_WIN7.

#[global] Instance OsVer_eq_dec : EqDecision OsVer.
Proof. solve_decision. Defined.

(** The fields of [OSVERSIONINFOEXP] and of [SYSTEM_INFO] that are read. *)
Record OSVERSIONINFOEXP := {
  dwMajorVersion : Z;
  dwMinorVersion : Z;
  dwPlatformId : Z;
  szCSDVersion : list Z;
  wProductType : Z
}.

Definition VER_PLATFORM_WIN32_WINDOWS : Z := 1.
Definition VER_PLATFORM_WIN32_NT : Z := 2.

(** [GetVersionEx] succeeded with [info] or failed for both structure sizes. *)
Definition GetOsVer (info : option OSVERSIONINFOEXP) (wProcessorArchitecture : Z) : OsVer :=
  match info with
  | None => OS_UNKNOWN
  | Some osVerInfo =>
      let majorVer := dwMajorVersion osVerInfo in
      let minorVer := dwMinorVersion osVerInfo in
      if dwPlatformId osVerInfo =? VER_PLATFORM_WIN32_NT then
        if majorVer <=? 4 then OS_WINNT
        else if (majorVer =? 5) && (minorVer =? 0) then OS_WIN2000
        else if (majorVer =? 5) && (minorVer =? 1) then OS_WINXP
        else if (majorVer =? 5) && (minorVer =? 2) then
          if (wProductType osVerInfo =? 1) && (wProcessorArchitecture =? 9) then OS_WINXP64
          else OS_WIN2003
        else if (majorVer =? 6) && (minorVer =? 0) then OS_VISTA
        else if (majorVer =? 6) && (minorVer =? 1) then OS_WIN7
        else OS_UNKNOWN
      else if dwPlatformId osVerInfo =? VER_PLATFORM_WIN32_WINDOWS then
        if (majorVer =? 4) && (minorVer =? 0) then OS_WIN95
        else if (majorVer =? 4) && (minorVer =? 10) then
          if bool_decide (szCSDVersion osVerInfo !! 1%nat = Some 65)
             || bool_decide (szCSDVersion osVerInfo !! 1%nat = Some 66) then OS_WIN98SE
          else OS_WIN98
        else if (majorVer =? 4) && (minorVer =? 90) then OS_WINME
        else OS_UNKNOWN
      else OS_UNKNOWN
  end.

(** ** Lemmas on [String] *)

Lemma SubStr_Ok s b n :
  0 <= b <= GetLength s -> b < 2 ^ 16 -> 0 <= n < 2 ^ 16 ->
  SubStr s b n = Ok (take (Z.to_nat n) (drop (Z.to_nat b) s)).
Proof. unfold SubStr, GetLength. intros. autorewrite with words. by rewrite substr_Ok. Qed.

Lemma Left_take s n : 0 <= n < 2 ^ 16 -> Left s n = Ok (take (Z.to_nat n) s).
Proof.
  intros Hn. unfold Left. autorewrite with words. unfold GetLength.
  destruct (Z.ltb_spec (Z.of_nat (List.length s)) n) as [Hlt|Hge].
  - autorewrite with words. rewrite SubStr_Ok by (unfold GetLength; lia). simpl.
    rewrite drop_0, Nat2Z.id, !take_ge by lia. done.
  - by rewrite SubStr_Ok by (unfold GetLength; lia).
Qed.

Lemma EndWith_suffix s e : GetLength s < 2 ^ 16 -> GetLength e < 2 ^ 16 ->
  EndWith s e = Ok (bool_decide (e `suffix_of` s)).
Proof.
  unfold EndWith, Right, GetLength. intros Hs He. autorewrite with words.
  set (d := (List.length s - List.length e)%nat).
  assert (Hd : forall z, z = Z.of_nat (List.length s) - Z.of_nat (List.length e) ->
    (if Z.of_nat (List.length s) <? (if z <? 0 then 0 else z) then Z.of_nat (List.length s)
     else if z <? 0 then 0 else z) = Z.of_nat d) by (intros; repeat case_match; lia).
  rewrite Hd by done. rewrite SubStr_Ok by (unfold GetLength; lia). simpl. rewrite !Nat2Z.id. f_equal.
  apply bool_decide_ext. split.
  - intros Ht. exists (take d s). rewrite <- Ht at 1.
    rewrite <- (take_drop d s) at 1. f_equal. rewrite take_ge; [done|rewrite length_drop; lia].
  - intros (x & ->). unfold d. rewrite length_app.
    replace (List.length x + List.length e - List.length e)%nat with (List.length x) by lia.
    by rewrite drop_app_length, take_ge.
Qed.

(** ** The host of a URL *)

(** The characters that end a host. *)
Definition delim (c : Z) : bool := in_set [92; 47] c.

Lemma find_delim host rest :
  Forall (fun c => delim c = false) host ->
  match rest with [] => True | c :: _ => delim c = true end ->
  FindFirstCharOf (host ++ rest) [92; 47] 0 =
    match rest with [] => None | _ => Some (GetLength host) end.
Proof.
  intros Hh Hr. unfold FindFirstCharOf, find_first_of, GetLength.
  change (drop (Z.to_nat (u16 0)) (host ++ rest)) with (host ++ rest).
  change (Z.add (u16 0)) with (Z.add 0). change (in_set [92; 47]) with delim.
  induction Hh as [|c host Hc Hh IH]; simpl.
  - destruct rest as [|c rest]; [done|]. simpl. by rewrite Hr.
  - rewrite Hc. destruct rest; destruct (find_index _ _) as [i|]; simpl in *; try done.
    injection IH as IH. f_equal. lia.
Qed.

Lemma host_no_slash host : Forall (fun c => delim c = false) host -> (47 ∉ host).
Proof.
  rewrite Forall_forall. intros H Hin. specialize (H _ Hin).
  unfold delim, in_set in H. rewrite bool_decide_eq_false in H. set_solver.
Qed.

Lemma take_no_slash n s t : (47 ∉ s) -> 47 ∈ t -> bool_decide (take n s = t) = false.
Proof.
  intros Hs Ht. apply bool_decide_eq_false. intros <-. apply Hs.
  rewrite <- (take_drop n s). set_solver.
Qed.

Lemma domain_cut prefix host rest :
  GetLength (prefix ++ host ++ rest) < 2 ^ 16 -> 0 < GetLength prefix ->
  Forall (fun c => delim c = false) host ->
  match rest with [] => True | c :: _ => delim c = true end ->
  forall k : str -> outcome str,
  (d ← SubStr (prefix ++ host ++ rest) (GetLength prefix) (GetLength (prefix ++ host ++ rest) - 1);
   match FindFirstCharOf d [92; 47] 0 with
   | None => k d
   | Some nIndex => d ← SubStr d 0 nIndex; k d
   end) = k host.
Proof.
  unfold GetLength. rewrite !length_app. intros Hlen Hp Hh Hr k.
  rewrite SubStr_Ok by (unfold GetLength; rewrite ?length_app; lia). simpl.
  rewrite Nat2Z.id, drop_app_length, take_ge by (rewrite length_app; lia).
  rewrite find_delim by done. destruct rest as [|c rest]; [by rewrite app_nil_r|].
  rewrite SubStr_Ok by (unfold GetLength; rewrite ?length_app; lia). simpl.
  unfold GetLength. by rewrite Nat2Z.id, drop_0, take_app_length.
Qed.

Section domain.

Context (host rest : str) (Hlen : GetLength (HTTPS ++ host ++ rest) < 2 ^ 16).
Context (Hhost : Forall (fun c => delim c = false) host).
Context (Hrest : match rest with [] => True | c :: _ => delim c = true end).

Lemma domain_http b : GetDomainFromUrl (Some (HTTP ++ host ++ rest)) b = Ok (if b then HTTP ++ host else host).
Proof using Hlen Hhost Hrest.
  unfold GetDomainFromUrl. rewrite !Left_take by lia. cbn [mbind outcome_bind].
  change (bool_decide (take (Z.to_nat 7) (HTTP ++ host ++ rest) = HTTP)) with true. cbn [negb andb].
  change 7 with (GetLength HTTP) at 1.
  rewrite (domain_cut HTTP host rest) by (done || (unfold GetLength in *; rewrite !length_app in *; simpl in *; lia)).
  unfold add_prefix. destruct b; [|done]. rewrite !Left_take by lia. cbn [mbind outcome_bind].
  by change (bool_decide (take (Z.to_nat 7) (HTTP ++ host ++ rest) = HTTP)) with true.
Qed.

Lemma domain_https b : GetDomainFromUrl (Some (HTTPS ++ host ++ rest)) b = Ok host.
Proof using Hlen Hhost Hrest.
  unfold GetDomainFromUrl. rewrite !Left_take by lia. cbn [mbind outcome_bind].
  change (bool_decide (take (Z.to_nat 7) (HTTPS ++ host ++ rest) = HTTP)) with false.
  change (bool_decide (take (Z.to_nat 8) (HTTPS ++ host ++ rest) = HTTPS)) with true. cbn [negb andb].
  change 8 with (GetLength HTTPS) at 1.
  rewrite (domain_cut HTTPS host rest) by done.
  unfold add_prefix. destruct b; [|done]. rewrite !Left_take by lia. cbn [mbind outcome_bind].
  change (bool_decide (take (Z.to_nat 7) (HTTPS ++ host ++ rest) = HTTP)) with false.
  rewrite take_no_slash; [done|by apply host_no_slash|]. by apply (list_elem_of_lookup_2 HTTPS 6).
Qed.

End domain.

(** The host of a URL is what follows the scheme up to the first slash or
    backslash.  With [bIncludePrefix] the result of an http URL starts with
    "http://", while that of an https URL is the bare host; a URL of another
    scheme gives the empty string. *)
Theorem GetDomainFromUrl_exact host rest b :
  GetLength (HTTPS ++ host ++ rest) < 2 ^ 16 ->
  Forall (fun c => delim c = false) host ->
  match rest with [] => True | c :: _ => delim c = true end ->
  GetDomainFromUrl (Some (HTTP ++ host ++ rest)) b = Ok (if b then HTTP ++ host else host) /\
  GetDomainFromUrl (Some (HTTPS ++ host ++ rest)) b = Ok host /\
  forall url, ~ HTTP `prefix_of` url -> ~ HTTPS `prefix_of` url -> GetDomainFromUrl (Some url) b = Ok [].
Proof.
  intros Hlen Hh Hr. split; [by apply domain_http|]. split; [by apply domain_https|].
  intros url H7 H8. unfold GetDomainFromUrl. rewrite !Left_take by lia. cbn [mbind outcome_bind].
  rewrite !bool_decide_eq_false_2; [done|..].
  - intros E. apply H8. rewrite <- E. apply prefix_take.
  - intros E. apply H7. rewrite <- E. apply prefix_take.
Qed.

Lemma GetDomainFromUrl_exact_witness :
  GetDomainFromUrl (Some (lit "http://www.baidu.com/index.html")) true = Ok (lit "http://www.baidu.com") /\
  GetDomainFromUrl (Some (lit "https://www.baidu.com/index.html")) true = Ok (lit "www.baidu.com").
Proof.
  destruct (GetDomainFromUrl_exact (lit "www.baidu.com") (lit "/index.html") true) as (H1 & H2 & _);
    [done|repeat constructor|done|]. split; [exact H1|exact H2].
Defined.

(** ** The registrable domain *)

(** The last label of a name. *)
Lemma last_label pre name :
  (pre = [] \/ exists p, pre = p ++ [46]) -> (46 ∉ name) -> GetLength (pre ++ name) < 2 ^ 16 - 1 ->
  (let x := pre ++ name in
   let nIndex := default (-1) (FindLastCharOf x 46 NPOS16) in
   SubStr x (nIndex + 1) (GetLength x - nIndex)) = Ok name.
Proof.
  intros Hpre Hname. set (x := pre ++ name). unfold GetLength. intros Hlen. simpl.
  unfold FindLastCharOf, find_last_of.
  assert (Ht : take (Z.to_nat (u16 NPOS16 + 1)) x = x) by (apply take_ge; change (u16 NPOS16) with 65535; lia).
  rewrite Ht.
  destruct (find_indexP (Z.eqb 46) (rev x)) as [Hno|a c b Hs Hc Ha]; simpl.
  - apply not_elem_forall_eqb in Hno. rewrite list_elem_of_In, <- in_rev, <- list_elem_of_In in Hno.
    assert (x = name) as Hxn.
    { unfold x. destruct Hpre as [->|(p & ->)]; [done|]. exfalso. apply Hno. unfold x. set_solver. }
    rewrite SubStr_Ok by (unfold GetLength; lia). f_equal. rewrite Hxn in *. simpl. rewrite drop_0, take_ge by lia. done.
  - apply Z.eqb_eq in Hc. subst c. apply not_elem_forall_eqb in Ha.
    assert (Hx : x = rev b ++ 46 :: rev a).
    { rewrite <- (rev_involutive x), Hs, rev_app_distr. simpl. by rewrite <- app_assoc. }
    destruct Hpre as [->|(p & ->)].
    { exfalso. apply Hname. unfold x in Hx. simpl in Hx. rewrite Hx. set_solver. }
    assert (name = rev a) as ->.
    { apply (f_equal (@rev Z)) in Hx. unfold x in Hx. rewrite !rev_app_distr in Hx. simpl in Hx.
      rewrite rev_involutive, <- app_assoc in Hx. simpl in Hx.
      apply app_sep_inj in Hx as [<- _]; [by rewrite rev_involutive| |done].
      by rewrite list_elem_of_In, <- in_rev, <- list_elem_of_In. }
    assert (Hl : List.length x = (List.length b + S (List.length a))%nat)
      by (rewrite Hx, length_app; simpl; by rewrite !length_rev).
    rewrite Hl. rewrite SubStr_Ok by (unfold GetLength; lia). f_equal.
    replace (Z.to_nat (_ + 1)) with (List.length (rev b) + 1)%nat by (rewrite length_rev; lia).
    rewrite Hx, drop_app_add. simpl. rewrite drop_0, take_ge; [done|rewrite length_rev; lia].
Qed.

(** No suffix of the table ends a later one, so the first match is the longest. *)
Fixpoint longest_first (tbl : list str) : bool :=
  match tbl with
  | [] => true
  | s :: tbl => forallb (fun t => negb (bool_decide (s `suffix_of` t))) tbl && longest_first tbl
  end.

Lemma suffix_comparable (a b s : str) : a `suffix_of` s -> b `suffix_of` s ->
  (List.length a <= List.length b)%nat -> a `suffix_of` b.
Proof.
  intros (x & ->) (y & Hy) Hlen.
  assert (Hxy : (List.length y <= List.length x)%nat)
    by (apply (f_equal (@List.length Z)) in Hy; rewrite !length_app in Hy; lia).
  exists (drop (List.length y) x).
  apply (f_equal (drop (List.length y))) in Hy.
  by rewrite drop_app_length, drop_app_le in Hy by done.
Qed.

Lemma top_domain_none h tbl :
  GetLength h < 2 ^ 16 -> Forall (fun s => GetLength s < 2 ^ 16) tbl ->
  Forall (fun s => ~ s `suffix_of` h) tbl -> top_domain_loop h tbl = Ok [].
Proof.
  intros Hh Hl Hno. induction Hno as [|s tbl Hs _ IH]; [done|]. apply Forall_cons in Hl as [Hsl Hl].
  simpl. rewrite EndWith_suffix, bool_decide_eq_false_2 by done. by apply IH.
Qed.

Lemma top_domain_longest tbl pre name suf :
  let h := pre ++ name ++ suf in
  GetLength h < 2 ^ 16 -> Forall (fun s => 0 < GetLength s < 2 ^ 16) tbl ->
  longest_first tbl = true -> suf ∈ tbl ->
  Forall (fun s => s `suffix_of` h -> (List.length s <= List.length suf)%nat) tbl ->
  (pre = [] \/ exists p, pre = p ++ [46]) -> (46 ∉ name) ->
  top_domain_loop h tbl = Ok (name ++ suf).
Proof.
  intros h Hh Hl Hlong Hin Hmax Hpre Hname.
  assert (Hsuf : suf `suffix_of` h) by (exists (pre ++ name); unfold h; by rewrite app_assoc).
  induction tbl as [|s tbl IH]; [set_solver|].
  apply Forall_cons in Hl as [Hsl Hl]. apply Forall_cons in Hmax as [Hs Hmax].
  simpl in Hlong. apply andb_prop in Hlong as [Hfirst Hlong].
  cbn [top_domain_loop]. rewrite EndWith_suffix by lia. cbn [mbind outcome_bind].
  case_bool_decide as Hsh.
  - assert (s = suf) as ->.
    { apply elem_of_cons in Hin as [->|Hin]; [done|]. rewrite forallb_forall in Hfirst.
      specialize (Hfirst suf ltac:(by apply list_elem_of_In)). apply negb_true_iff, bool_decide_eq_false in Hfirst.
      exfalso. apply Hfirst. by eapply suffix_comparable; [..|apply Hs]. }
    clear IH. unfold h, GetLength in *. rewrite !length_app in *.
    rewrite SubStr_Ok by (unfold GetLength; rewrite ?length_app; lia). cbn [mbind outcome_bind].
    rewrite drop_0, app_assoc. rewrite (take_app_length' (pre ++ name)) by (rewrite length_app; lia).
    pose proof (last_label pre name Hpre Hname ltac:(unfold GetLength; rewrite length_app; lia)) as Hlab.
    unfold GetLength in Hlab. by rewrite Hlab.
  - apply elem_of_cons in Hin as [->|Hin]; [done|]. by apply IH.
Qed.

Lemma ToLower_app a b : ToLower (a ++ b) = ToLower a ++ ToLower b.
Proof. apply map_app. Qed.

Lemma ToLower_no_slash s : (47 ∉ s) -> (47 ∉ ToLower s).
Proof.
  unfold ToLower. intros H Hin. apply list_elem_of_In, in_map_iff in Hin as (c & Hc & Hin).
  apply list_elem_of_In in Hin. unfold to_lower in Hc. case_match; [lia|]. by subst.
Qed.

Lemma szDomain_ok : longest_first szDomain = true /\ Forall (fun s => 0 < GetLength s < 2 ^ 16) szDomain.
Proof.
  split; [vm_compute; reflexivity|].
  assert (H : forallb (fun s => (0 <? GetLength s) && (GetLength s <? 2 ^ 16)) szDomain = true)
    by (vm_compute; reflexivity).
  rewrite forallb_forall in H. apply Forall_forall. intros s Hs.
  specialize (H s ltac:(by apply list_elem_of_In)). lia.
Qed.

(** With or without the prefix, what is searched is the lower-case host. *)
Lemma top_domain_host pre host rest :
  pre ∈ [HTTP; HTTPS] -> GetLength (HTTPS ++ host ++ rest) < 2 ^ 16 ->
  Forall (fun c => delim c = false) host ->
  match rest with [] => True | c :: _ => delim c = true end ->
  GetTopDomainUrl (Some (pre ++ host ++ rest)) = top_domain_loop (ToLower host) szDomain.
Proof.
  intros Hpre Hlen Hh Hr. unfold GetTopDomainUrl.
  pose proof (ToLower_no_slash host (host_no_slash host Hh)) as Hns.
  assert (GetDomainFromUrl (Some (pre ++ host ++ rest)) true = Ok (if decide (pre = HTTP) then HTTP ++ host else host))
    as ->.
  { apply elem_of_cons in Hpre as [->|Hpre]; [by rewrite domain_http|].
    apply list_elem_of_singleton in Hpre as ->. by rewrite domain_https. }
  cbn [mbind outcome_bind]. rewrite !Left_take by lia. cbn [mbind outcome_bind].
  destruct (decide (pre = HTTP)).
  - rewrite ToLower_app. change (ToLower HTTP) with HTTP.
    change (bool_decide (take (Z.to_nat 7) (HTTP ++ ToLower host) = HTTP)) with true.
    unfold GetLength in *. rewrite !length_app in *. unfold ToLower in *. rewrite length_map.
    rewrite SubStr_Ok by (unfold GetLength; rewrite ?length_app, ?length_map; simpl in *; lia).
    cbn [mbind outcome_bind]. change (drop (Z.to_nat 7) (HTTP ++ map to_lower host)) with (map to_lower host).
    rewrite take_ge; [done|]. rewrite length_map. simpl. lia.
  - by rewrite !take_no_slash by (done || by apply (list_elem_of_lookup_2 _ 6)).
Qed.

(** [GetTopDomainUrl] terminates without a fault; its result is the last label
    of the lower-case host in front of the longest suffix of the table that ends
    it, followed by that suffix, and the empty string when no suffix does. *)
Theorem GetTopDomainUrl_exact pre host rest :
  pre ∈ [HTTP; HTTPS] -> GetLength (HTTPS ++ host ++ rest) < 2 ^ 16 ->
  Forall (fun c => delim c = false) host ->
  match rest with [] => True | c :: _ => delim c = true end ->
  (Forall (fun s => ~ s `suffix_of` ToLower host) szDomain ->
     GetTopDomainUrl (Some (pre ++ host ++ rest)) = Ok []) /\
  (forall sub name suf,
     ToLower host = sub ++ name ++ suf -> (sub = [] \/ exists p, sub = p ++ [46]) -> (46 ∉ name) ->
     suf ∈ szDomain ->
     Forall (fun s => s `suffix_of` ToLower host -> (List.length s <= List.length suf)%nat) szDomain ->
     GetTopDomainUrl (Some (pre ++ host ++ rest)) = Ok (name ++ suf)).
Proof.
  intros Hpre Hlen Hh Hr. rewrite top_domain_host by done.
  destruct szDomain_ok as [Hlong Htbl].
  assert (Hl : GetLength (ToLower host) < 2 ^ 16).
  { unfold GetLength, ToLower in *. rewrite !length_app in Hlen. rewrite length_map. lia. }
  split.
  - intros Hno. apply top_domain_none; [done| |done]. eapply Forall_impl; [exact Htbl|]. simpl. lia.
  - intros sub name suf Hs Hsub Hname Hin Hmax. rewrite Hs in *. by apply top_domain_longest.
Qed.

Lemma GetTopDomainUrl_exact_witness :
  GetTopDomainUrl (Some (lit "https://News.Sina.com.cn/today")) = Ok (lit "sina.com.cn").
Proof.
  apply (proj2 (GetTopDomainUrl_exact HTTPS (lit "News.Sina.com.cn") (lit "/today")
                  ltac:(by right; left) ltac:(done) ltac:(repeat constructor) eq_refl)
           (lit "news.") (lit "sina") (lit ".com.cn")).
  - done.
  - right. by exists (lit "news").
  - apply (bool_decide_unpack _). reflexivity.
  - apply (list_elem_of_lookup_2 _ 20). reflexivity.
  - apply Forall_forall. intros s Hs. apply list_elem_of_In in Hs.
    assert (H : forallb (fun s => List.length s <=? 7)%nat szDomain = true) by reflexivity.
    rewrite forallb_forall in H. intros _. apply Nat.leb_le, H, Hs.
Defined.

(** ** Version numbers *)

Lemma TrimLeft_id c s ch : ch <> 32 -> c <> ch -> TrimLeft (c :: s) ch = c :: s.
Proof.
  intros H32 Hc. unfold TrimLeft, find_first_of, trim_set. simpl.
  destruct (Z.eqb_spec ch 32); [done|]. by destruct (Z.eqb_spec c ch).
Qed.

Lemma TrimRight_one x d ch : ch <> 32 -> d <> ch -> TrimRight (x ++ [d; ch]) ch = x ++ [d].
Proof.
  intros H32 Hd. unfold TrimRight. destruct (x ++ [d; ch]) as [|c0 s0] eqn:Hs; [by destruct x|]. rewrite <- Hs.
  unfold find_last_of. rewrite (take_ge _ (Z.to_nat (GetLength _ + 1))) by (unfold GetLength; lia). rewrite rev_app_distr. simpl.
  unfold trim_set. destruct (Z.eqb_spec ch 32); [done|]. rewrite Z.eqb_refl. simpl.
  destruct (Z.eqb_spec d ch); [done|]. simpl.
  unfold GetLength. rewrite length_app. simpl.
  replace (Z.to_nat _) with (List.length (x ++ [d])) by (rewrite length_app; simpl; lia).
  rewrite drop_ge by (rewrite length_app; simpl; lia).
  change [d; ch] with ([d] ++ [ch]). rewrite app_assoc, take_app_length. apply app_nil_r.
Qed.

Lemma Trim_dots x y : x <> [] -> y <> [] -> (46 ∉ x) -> (46 ∉ y) -> forall mid,
  Trim (x ++ mid ++ y ++ [46]) 46 = x ++ mid ++ y.
Proof.
  intros Hx Hy Nx Ny mid. destruct x as [|c x]; [done|].
  destruct (exists_last Hy) as (y' & d & ->). unfold Trim. simpl.
  rewrite TrimLeft_id by set_solver.
  replace (c :: x ++ mid ++ (y' ++ [d]) ++ [46]) with ((c :: x ++ mid ++ y') ++ [d; 46])
    by (simpl; by rewrite <- !app_assoc).
  rewrite TrimRight_one by set_solver. simpl. by rewrite <- !app_assoc.
Qed.

(** The dotted text of four numbers. *)
Definition dotted (a b c d : Z) : str :=
  join 46 [StringHelper.ConvertFromInt a; StringHelper.ConvertFromInt b;
           StringHelper.ConvertFromInt c; StringHelper.ConvertFromInt d].

Lemma int_text_no_dot n : 0 <= n < 256 -> (46 ∉ StringHelper.ConvertFromInt n) /\ StringHelper.ConvertFromInt n <> [].
Proof.
  intros Hn. destruct (ConvertFromInt_digits n) as (_ & Hr & Hne); [lia|]. split; [|done].
  rewrite Forall_forall in Hr. intros Hin. specialize (Hr _ Hin). lia.
Qed.

Lemma version_digits a b c d :
  0 <= a < 128 -> 0 <= b < 256 -> 0 <= c < 256 -> 0 <= d < 256 ->
  snd (fold_left version_body (seqZ 0 4) (a * 2 ^ 24 + b * 2 ^ 16 + c * 2 ^ 8 + d, [])) = dotted a b c d ++ [46].
Proof.
  intros Ha Hb Hc Hd. change (seqZ 0 4) with [0; 1; 2; 3]. cbn [fold_left version_body].
  change (Z.shiftl 1 ((3 - 0) * 8)) with (2 ^ 24). change (Z.shiftl 1 ((3 - 1) * 8)) with (2 ^ 16).
  change (Z.shiftl 1 ((3 - 2) * 8)) with (2 ^ 8). change (Z.shiftl 1 ((3 - 3) * 8)) with 1.
  assert (Hqr : forall h l w, 0 <= h -> 0 <= l < w -> Z.quot (h * w + l) w = h /\ Z.rem (h * w + l) w = l).
  { intros h l w Hh Hl. rewrite Z.quot_div_nonneg, Z.rem_mod_nonneg by nia.
    split; [symmetry; apply (Z.div_unique _ w _ l); lia|symmetry; apply (Z.mod_unique _ w h); lia]. }
  destruct (Hqr a (b * 2 ^ 16 + c * 2 ^ 8 + d) (2 ^ 24)) as [Q1 R1]; [lia..|].
  destruct (Hqr b (c * 2 ^ 8 + d) (2 ^ 16)) as [Q2 R2]; [lia..|].
  destruct (Hqr c d (2 ^ 8)) as [Q3 R3]; [lia..|].
  rewrite <- !Z.add_assoc in *. rewrite Q1, R1, Q2, R2, Q3, R3, Z.quot_1_r. cbn [snd].
  unfold dotted. simpl. by repeat (rewrite <- app_assoc; simpl).
Qed.

Lemma version_loop a b c d :
  0 <= a < 128 -> 0 <= b < 256 -> 0 <= c < 256 -> 0 <= d < 256 ->
  GetVersionFromString (Some (dotted a b c d)) = Ok (a * 2 ^ 24 + b * 2 ^ 16 + c * 2 ^ 8 + d).
Proof.
  intros Ha Hb Hc Hd. unfold GetVersionFromString, dotted.
  rewrite Split_join by (repeat constructor; apply int_text_no_dot; lia).
  cbn [mbind outcome_bind List.length Nat.ltb Nat.leb]. change (seqZ 0 (Z.of_nat 4)) with [0; 1; 2; 3].
  cbn -[Z.shiftl i32 StringHelper.ConvertToInt StringHelper.ConvertFromInt Z.add Z.mul].
  change (Z.to_nat 0) with 0%nat. change (Z.to_nat 1) with 1%nat.
  change (Z.to_nat 2) with 2%nat. change (Z.to_nat 3) with 3%nat.
  cbn -[Z.shiftl i32 StringHelper.ConvertToInt StringHelper.ConvertFromInt Z.add Z.mul].
  rewrite !int_back, !Z.shiftl_mul_pow2 by lia. f_equal.
  change ((3 - 0) * 8) with 24. change ((3 - 1) * 8) with 16.
  change ((3 - 2) * 8) with 8. change ((3 - 3) * 8) with 0.
  repeat match goal with |- context [i32 ?x] => rewrite (i32_small x) by lia end. lia.
Qed.

(** The dotted text of a version number is read back as that number: for
    components that fit, [GetStringFromVersion] of the packed number is the text
    and [GetVersionFromString] of the text is the number. *)
Theorem version_roundtrip a b c d :
  0 <= a < 128 -> 0 <= b < 256 -> 0 <= c < 256 -> 0 <= d < 256 ->
  let v := a * 2 ^ 24 + b * 2 ^ 16 + c * 2 ^ 8 + d in
  0 < v ->
  GetStringFromVersion v = Some (dotted a b c d) /\
  GetVersionFromString (Some (dotted a b c d)) = Ok v.
Proof.
  intros Ha Hb Hc Hd v Hv. split; [|by apply version_loop].
  unfold GetStringFromVersion. destruct (Z.leb_spec v 0); [lia|]. f_equal. unfold v.
  rewrite version_digits by done.
  destruct (int_text_no_dot a), (int_text_no_dot d); [lia..|].
  pose proof (Trim_dots (StringHelper.ConvertFromInt a) (StringHelper.ConvertFromInt d)
    ltac:(done) ltac:(done) ltac:(done) ltac:(done)
    (46 :: StringHelper.ConvertFromInt b ++ 46 :: StringHelper.ConvertFromInt c ++ [46])) as Ht.
  unfold dotted. simpl in *. repeat (rewrite <- app_assoc in *; simpl in *). exact Ht.
Qed.

Lemma version_roundtrip_witness :
  GetStringFromVersion 0x0102FF00 = Some (lit "1.2.255.0") /\
  GetVersionFromString (Some (lit "1.2.255.0")) = Ok 0x0102FF00.
Proof. apply (version_roundtrip 1 2 255 0); lia. Defined.
