(* ===== verification/TimeHelper.v ===== *)
(** * Times

    src/Utility/TimeHelper.cpp: conversions between [SYSTEMTIME], [time_t] and
    text.  [mktime] and [localtime] of the C library depend on the time zone and
    are parameters.  [%d] of [swscanf] has no defined result for a number that
    does not fit an [int]. *)
From stdpp Require Import prelude strings.
From Stdlib Require Import ZArith Lia String.
From S2P Require Import Prelude Strings.

(** The fields are [WORD]s. *)
Record SYSTEMTIME := mkSystemTime {
  wYear : Z;
  wMonth : Z;
  wDayOfWeek : Z;
  wDay : Z;
  wHour : Z;
  wMinute : Z;
  wSecond : Z;
  wMilliseconds : Z
}.

(** [struct tm]; [tm_yday] and [tm_isdst] stay zero. *)
Record tm := mkTm {
  tm_sec : Z;
  tm_min : Z;
  tm_hour : Z;
  tm_mday : Z;
  tm_mon : Z;
  tm_year : Z;
  tm_wday : Z
}.

Definition tm_of (sysTime : SYSTEMTIME) : tm :=
  mkTm (wSecond sysTime) (wMinute sysTime) (wHour sysTime) (wDay sysTime) (wMonth sysTime - 1)
    (wYear sysTime - 1900) (wDayOfWeek sysTime).

Definition SysTime2Time (mktime : tm -> Z) (sysTime : SYSTEMTIME) : Z := mktime (tm_of sysTime).

Definition Time2SysTime (localtime : Z -> option tm) (time : Z) : SYSTEMTIME :=
  match localtime time with
  | Some t => mkSystemTime (u16 (tm_year t + 1900)) (u16 (tm_mon t + 1)) (u16 (tm_wday t)) (u16 (tm_mday t))
                (u16 (tm_hour t)) (u16 (tm_min t)) (u16 (tm_sec t)) 0
  | None => mkSystemTime 0 0 0 0 0 0 0 0
  end.

(** [swprintf(strTmp, L"%d")], with a zero in front of one digit; [strTmp] has room
    for seven characters, which a [WORD] never fills. *)
Definition two_digits (n : Z) : str :=
  let strTmp := StringHelper.ConvertFromInt n in
  if (List.length strTmp <? 2)%nat then 48 :: strTmp else strTmp.

Definition GetStrTime2 (time : SYSTEMTIME) : str :=
  two_digits (wYear time mod 100) ++ two_digits (wMonth time) ++ two_digits (wDay time) ++
  two_digits (wHour time) ++ two_digits (wMinute time).

(** [swscanf(s, L"%d", &i)] *)
Definition scan_int (s : str) : outcome Z :=
  let n := StringHelper.ConvertToInt s in
  if (- 2 ^ 31 <=? n) && (n <? 2 ^ 31) then Ok n else Fault OutOfRange.

(** The [static] result keeps what is not assigned, here zero. *)
Definition GetTimeFromStr2 (strTime : str) : outcome SYSTEMTIME :=
  iValue ← scan_int strTime;
  let year := u16 (u16 (Z.quot iValue 100000000) + 2000) in
  let iValue := Z.rem iValue 100000000 in
  let month := u16 (Z.quot iValue 1000000) in
  let iValue := Z.rem iValue 1000000 in
  let day := u16 (Z.quot iValue 10000) in
  let iValue := Z.rem iValue 10000 in
  let hour := u16 (Z.quot iValue 100) in
  Ok (mkSystemTime year month 0 day hour (u16 (Z.rem iValue 100)) 0 0).

(** [swscanf(strDate.c_str(), L"%4d", &n)]: at most [w] characters of a number. *)
Definition scan_width (w : nat) (s : str) : Z := StringHelper.ConvertToInt (take w (StringHelper.skip_blanks s)).

Definition StrSysTime2Date (strFormatDate : str) (time : SYSTEMTIME) : outcome SYSTEMTIME :=
  let iYear := scan_width 4 strFormatDate in
  strDate ← substr strFormatDate 5 (2 ^ 32 - 1);
  let iMonth := scan_width 2 strDate in
  strDate ← substr strDate 3 (2 ^ 32 - 1);
  let iDay := scan_width 2 strDate in
  Ok (mkSystemTime (u16 iYear) (u16 iMonth) (wDayOfWeek time) (u16 iDay) (wHour time) (wMinute time)
        (wSecond time) (wMilliseconds time)).

(** [st_aWeekDayAndValue]: the days are bits. *)
Definition weekdays : list (Z * Z) := [(1, 1); (2, 2); (4, 3); (8, 4); (16, 5); (32, 6); (64, 7)].

Fixpoint weekday_scan (l : list (Z * Z)) (eWeekDay : Z) : Z :=
  match l with
  | [] => 1
  | (d, v) :: l => if eWeekDay =? d then v else weekday_scan l eWeekDay
  end.

Definition GetWeekDayValue (eWeekDay : Z) : Z := weekday_scan weekdays eWeekDay.

(** ** Text of a time *)

(** The number that ten digits of a time make. *)
Definition packed (time : SYSTEMTIME) : Z :=
  (((wYear time mod 100 * 100 + wMonth time) * 100 + wDay time) * 100 + wHour time) * 100 + wMinute time.

Lemma atol_two n s acc : 0 <= n < 100 ->
  StringHelper.atol_digits (two_digits n ++ s) acc = StringHelper.atol_digits s (acc * 100 + n) /\
  Forall (fun c => 48 <= c <= 57) (two_digits n).
Proof.
  intros Hn. assert (Ht : two_digits n = [48 + n / 10; 48 + n mod 10]).
  { assert (E : forallb (fun n => bool_decide (two_digits n = [48 + n / 10; 48 + n mod 10])) (seqZ 0 100) = true) by (vm_compute; reflexivity).
    rewrite forallb_forall in E. specialize (E n). rewrite <- list_elem_of_In, elem_of_seqZ in E.
    apply bool_decide_eq_true in E; [done|lia]. }
  rewrite Ht. split.
  - cbn [app StringHelper.atol_digits].
    rewrite !(proj2 (Z.leb_le _ _)) by lia_div. cbn [andb].
    f_equal. lia_div.
  - repeat constructor; lia_div.
Qed.

Lemma scan_packed t :
  0 <= wMonth t < 100 -> 0 <= wDay t < 100 -> 0 <= wHour t < 100 -> 0 <= wMinute t < 100 ->
  StringHelper.ConvertToInt (GetStrTime2 t) = packed t.
Proof.
  intros Hm Hd Hh Hi. assert (Hy : 0 <= wYear t mod 100 < 100) by lia_div. unfold GetStrTime2.
  rewrite ConvertToInt_digits.
  - rewrite <- (app_nil_r (two_digits (wMinute t))).
    destruct (atol_two _ (two_digits (wMonth t) ++ two_digits (wDay t) ++ two_digits (wHour t) ++ two_digits (wMinute t) ++ []) 0 Hy) as [-> _].
    destruct (atol_two _ (two_digits (wDay t) ++ two_digits (wHour t) ++ two_digits (wMinute t) ++ []) (0 * 100 + wYear t mod 100) Hm) as [-> _].
    rewrite (proj1 (atol_two _ _ _ Hd)), (proj1 (atol_two _ _ _ Hh)), (proj1 (atol_two _ _ _ Hi)). simpl. unfold packed. lia.
  - by rewrite !Forall_app; repeat split; apply (atol_two _ [] 0).
Qed.

(** A time to the minute that text has and that a time can be made of again. *)
Definition minute_time (t : SYSTEMTIME) : Prop :=
  2000 <= wYear t < 2100 /\ 1 <= wMonth t <= 12 /\ 1 <= wDay t <= 31 /\ 0 <= wHour t < 24 /\ 0 <= wMinute t < 60.

(** Text of ten digits is read back to the minute in the years up to 2021; from
    2022 on the number does not fit an [int]. *)
Lemma time_text_roundtrip t : minute_time t ->
  GetTimeFromStr2 (GetStrTime2 t) =
  if wYear t <? 2022 then Ok (mkSystemTime (wYear t) (wMonth t) 0 (wDay t) (wHour t) (wMinute t) 0 0)
  else Fault OutOfRange.
Proof.
  intros (Hy & Hm & Hd & Hh & Hi). unfold GetTimeFromStr2, scan_int. rewrite scan_packed by lia.
  assert (Hmod : wYear t mod 100 = wYear t - 2000) by lia_div. unfold packed. rewrite Hmod. set (n := (_ * 100 + wMinute t)).
  assert (Hn0 : 0 <= n) by (unfold n; lia). rewrite (proj2 (Z.leb_le _ _)) by lia. cbn [andb].
  destruct (Z.ltb_spec (wYear t) 2022) as [Hlt|Hge].
  - rewrite (proj2 (Z.ltb_lt _ _)) by (unfold n; lia). rewrite Ok_bind.
    rewrite (Z.quot_div_nonneg n), (Z.rem_mod_nonneg n) by lia. set (n1 := n mod 100000000).
    assert (Hn1 : 0 <= n1) by (unfold n1; lia_div).
    rewrite (Z.quot_div_nonneg n1), (Z.rem_mod_nonneg n1) by lia. set (n2 := n1 mod 1000000).
    assert (Hn2 : 0 <= n2) by (unfold n2; lia_div).
    rewrite (Z.quot_div_nonneg n2), (Z.rem_mod_nonneg n2) by lia. set (n3 := n2 mod 10000).
    assert (Hn3 : 0 <= n3) by (unfold n3; lia_div).
    rewrite (Z.quot_div_nonneg n3), (Z.rem_mod_nonneg n3) by lia.
    assert (E1 : n / 100000000 = wYear t - 2000 /\ n1 = wMonth t * 1000000 + wDay t * 10000 + wHour t * 100 + wMinute t)
      by (unfold n1, n; lia_div).
    assert (E2 : n1 / 1000000 = wMonth t /\ n2 = wDay t * 10000 + wHour t * 100 + wMinute t) by (unfold n2; lia_div).
    assert (E3 : n2 / 10000 = wDay t /\ n3 = wHour t * 100 + wMinute t) by (unfold n3; lia_div).
    assert (E4 : n3 / 100 = wHour t /\ n3 mod 100 = wMinute t) by lia_div.
    destruct E1 as [-> _], E2 as [-> _], E3 as [-> _], E4 as [-> ->].
    rewrite (u16_small (wYear t - 2000)) by lia. rewrite !u16_small by lia. do 2 f_equal. lia.
  - by rewrite (proj2 (Z.ltb_ge _ _)) by (unfold n; lia).
Qed.

(** A date as it is written in files. *)
Lemma date_text y1 y2 y3 y4 m1 m2 d1 d2 s1 s2 t :
  Forall (fun c => 48 <= c <= 57) [y1; y2; y3; y4; m1; m2; d1; d2] ->
  StrSysTime2Date [y1; y2; y3; y4; s1; m1; m2; s2; d1; d2] t =
  Ok (mkSystemTime (StringHelper.atol_digits [y1; y2; y3; y4] 0) (StringHelper.atol_digits [m1; m2] 0) (wDayOfWeek t)
        (StringHelper.atol_digits [d1; d2] 0) (wHour t) (wMinute t) (wSecond t) (wMilliseconds t)).
Proof.
  intros Hall. rewrite !Forall_cons in Hall. destruct Hall as (? & ? & ? & ? & ? & ? & ? & ? & _).
  assert (Hskip : forall c s, 48 <= c <= 57 -> StringHelper.skip_blanks (c :: s) = c :: s).
  { intros c s Hc. cbn [StringHelper.skip_blanks]. unfold in_set.
    rewrite bool_decide_eq_false_2 by (rewrite !elem_of_cons, elem_of_nil; lia). done. }
  unfold StrSysTime2Date. rewrite substr_Ok by (simpl; lia). rewrite Ok_bind.
  rewrite take_ge by (simpl; lia). change (drop (Z.to_nat 5) _) with [m1; m2; s2; d1; d2].
  rewrite substr_Ok by (simpl; lia). rewrite Ok_bind. rewrite take_ge by (simpl; lia).
  change (drop (Z.to_nat 3) _) with [d1; d2]. unfold scan_width. rewrite !Hskip by done. cbn [take].
  rewrite !ConvertToInt_digits by (repeat constructor; lia).
  assert (Hv : forall a b, 48 <= a <= 57 -> 48 <= b <= 57 -> 0 <= StringHelper.atol_digits [a; b] 0 < 100).
  { intros a b Ha Hb. cbn [StringHelper.atol_digits]. rewrite !(proj2 (Z.leb_le _ _)) by lia. simpl. lia. }
  assert (Hy : 0 <= StringHelper.atol_digits [y1; y2; y3; y4] 0 < 10000).
  { cbn [StringHelper.atol_digits]. rewrite !(proj2 (Z.leb_le _ _)) by lia. simpl. lia. }
  pose proof (Hv m1 m2 ltac:(lia) ltac:(lia)). pose proof (Hv d1 d2 ltac:(lia) ltac:(lia)).
  by rewrite !u16_small by lia.
Qed.

(** Every day has its number. *)
Lemma weekday_values k : 0 <= k < 7 -> GetWeekDayValue (2 ^ k) = k + 1.
Proof. intros Hk. assert (k = 0 \/ k = 1 \/ k = 2 \/ k = 3 \/ k = 4 \/ k = 5 \/ k = 6) as E by lia. by destruct E as [->|[->|[->|[->|[->|[->| ->]]]]]]. Qed.
