(* ===== verification/FilePath.v ===== *)
(** * Splitting and cleaning of path names

    src/Utility/FilePath.cpp: the classes [CFileName] and [CFilePath], which cut
    a path into its parts, and the search and replace loop they use.  An [int]
    that holds [npos] is -1, and -1 as an argument of [substr] is [2^32 - 1].
    [XString_Replace] is [String::Replace] of src/Utility/XString.cpp, with which
    names are cleaned of characters. *)
From stdpp Require Import prelude strings.
From Stdlib Require Import ZArith Lia Ascii String.
From S2P Require Import Prelude Strings.

(** [L'\\'], [L'/'] and [L'.'] *)
Definition bsl : Z := 92.
Definition slash : Z := 47.
Definition dot : Z := 46.

(** The loop of [string_replace], from [pos]. *)
Fixpoint string_replace_loop (fuel : nat) (strBig strsrc strdst : str) (pos : Z) : outcome str :=
  match fuel with
  | O => Fault NoFuel
  | S fuel =>
      match find strsrc strBig pos with
      | None => Ok strBig
      | Some pos =>
          b ← StringHelper.replace_at strBig pos (List.length strsrc) strdst;
          string_replace_loop fuel b strsrc strdst (pos + Z.of_nat (List.length strdst))
      end
  end.

Definition string_replace (strBig strsrc strdst : str) : outcome str :=
  string_replace_loop (S (List.length strBig)) strBig strsrc strdst 0.

(** The [do ... while] of [AdjustPath]. *)
Fixpoint adjust_loop (fuel : nat) (strPath : str) : outcome str :=
  match fuel with
  | O => Fault NoFuel
  | S fuel =>
      p ← string_replace strPath [bsl; bsl] [bsl];
      match find [bsl; bsl] p 0 with
      | Some _ => adjust_loop fuel p
      | None => Ok p
      end
  end.

Definition AdjustPath (strPath : str) : outcome str :=
  p ← string_replace strPath [slash] [bsl];
  adjust_loop (S (List.length p)) p.

(** [int nIndex = s.find_first_of(ch)] and [find_last_of]. *)
Definition first_index (ch : Z) (s : str) : Z := default (-1) (find_first_of (Z.eqb ch) s 0).

Definition last_index (ch : Z) (s : str) : Z :=
  default (-1) (find_last_of (Z.eqb ch) s (Z.of_nat (List.length s))).

Record CFileName := mkFileName { m_strFilePrefix : str; m_strFileExt : str }.

(** The constructor. *)
Definition CFileName_new (strFileName : str) : outcome CFileName :=
  let nIndex := last_index dot strFileName in
  if negb (nIndex =? 0) then
    p ← substr strFileName 0 (u32 nIndex);
    e ← substr strFileName (u32 nIndex) (Z.of_nat (List.length strFileName));
    Ok (mkFileName p e)
  else Ok (mkFileName [] []).

Record CFilePath := mkFilePath {
  m_strFileFullPath : str;
  m_strRootPath : str;
  m_strFilePath : str;
  m_strFileName : str;
  m_strFileTitle : str;
  m_strFileExtName : str
}.

(** The constructor. *)
Definition CFilePath_new (strFullFilePath : str) : outcome CFilePath :=
  p ← string_replace strFullFilePath [slash] [bsl];
  strPath ← AdjustPath p;
  root ← substr strPath 0 (u32 (first_index bsl strPath + 1));
  let nIndex := last_index bsl strPath in
  path ← substr strPath 0 (u32 (nIndex + 1));
  name ← substr strPath (u32 (nIndex + 1)) (Z.of_nat (List.length strPath));
  let nIndex := last_index dot name in
  title ← substr name 0 (u32 nIndex);
  ext ← substr name (u32 (nIndex + 1)) (Z.of_nat (List.length name));
  Ok (mkFilePath strFullFilePath root path name title ext).

(** [String::Replace(pszBefore, pszAfter)]: the first character that is one of
    [pszBefore]'s is where [pszBefore]'s length is replaced, again from the start. *)
Fixpoint XString_Replace (fuel : nat) (s pszBefore pszAfter : str) : outcome str :=
  match fuel with
  | O => Fault NoFuel
  | S fuel =>
      match XString.FindFirstCharOf s pszBefore 0 with
      | None => Ok s
      | Some nIndex =>
          s' ← StringHelper.replace_at s nIndex (List.length pszBefore) pszAfter;
          XString_Replace fuel s' pszBefore pszAfter
      end
  end.

(** ** Occurrences *)

(** [pat] does not occur in [s]. *)
Definition absent (pat s : str) : Prop := forall a b, s <> a ++ pat ++ b.

(** Left to right replacement of the occurrences that do not overlap. *)
Inductive replaced (pat by_ : str) : str -> str -> Prop :=
| replaced_none s : absent pat s -> replaced pat by_ s s
| replaced_first a b t :
    (forall c d, a ++ pat ++ b = c ++ pat ++ d -> (List.length a <= List.length c)%nat) ->
    replaced pat by_ b t ->
    replaced pat by_ (a ++ pat ++ b) (a ++ by_ ++ t).

Variant find_sub_spec (pat s : str) : option Z -> Prop :=
| find_sub_none : absent pat s -> find_sub_spec pat s None
| find_sub_some a b :
    s = a ++ pat ++ b ->
    (forall c d, s = c ++ pat ++ d -> (List.length a <= List.length c)%nat) ->
    find_sub_spec pat s (Some (Z.of_nat (List.length a))).

Lemma take_prefix (pat s : str) : take (List.length pat) s = pat <-> exists b, s = pat ++ b.
Proof.
  split.
  - intros H. exists (drop (List.length pat) s). rewrite <- H at 1. symmetry. apply take_drop.
  - intros [b ->]. by rewrite take_app_length.
Qed.

Lemma find_sub_S pat s fuel :
  find_sub pat s (S fuel) =
  if bool_decide (take (List.length pat) s = pat) then Some 0
  else match s with [] => None | _ :: s => (Z.add 1) <$> find_sub pat s fuel end.
Proof. by destruct s. Qed.

Lemma find_subP pat s fuel : (List.length s < fuel)%nat -> find_sub_spec pat s (find_sub pat s fuel).
Proof.
  revert s. induction fuel as [|fuel IH]; intros s Hf; [lia|]. rewrite find_sub_S.
  case_bool_decide as Hp.
  { apply take_prefix in Hp as [b Hb]. apply (find_sub_some pat s [] b); [done|simpl; lia]. }
  assert (Hno : forall c d, s = c ++ pat ++ d -> c <> []).
  { intros c d -> ->. apply Hp. simpl. by rewrite take_app_length. }
  destruct s as [|x s].
  { constructor. intros a b H. pose proof (Hno a b H). by destruct a. }
  simpl in Hf. destruct (IH s ltac:(lia)) as [Ha|a b Hs Hmin]; simpl.
  - constructor. intros [|y c] d H; [by eapply Hno|]. injection H as _ H. by apply (Ha c d).
  - replace (1 + Z.of_nat (List.length a)) with (Z.of_nat (List.length (x :: a))) by (simpl; lia).
    apply (find_sub_some pat (x :: s) (x :: a) b); [by rewrite Hs|].
    intros [|y c] d H; [by destruct (Hno [] d)|]. injection H as _ H. apply Hmin in H. simpl. lia.
Qed.

Lemma findP pat pre s :
  find_sub_spec pat s ((fun i => i - Z.of_nat (List.length pre)) <$> find pat (pre ++ s) (Z.of_nat (List.length pre))).
Proof.
  unfold find. rewrite List.length_app.
  destruct (Z.ltb_spec (Z.of_nat (List.length pre + List.length s)) (Z.of_nat (List.length pre))); [lia|].
  rewrite Nat2Z.id, drop_app_length, <- option_fmap_compose.
  destruct (find_subP pat s (S (List.length pre + List.length s)) ltac:(lia)) as [Ha|a b Hs Hmin]; simpl.
  - by constructor.
  - replace (_ + _ - _) with (Z.of_nat (List.length a)) by lia. by econstructor.
Qed.

Lemma string_replace_loop_spec fuel pat by_ pre s : pat <> [] -> (List.length s < fuel)%nat ->
  exists t, string_replace_loop fuel (pre ++ s) pat by_ (Z.of_nat (List.length pre)) = Ok (pre ++ t) /\
            replaced pat by_ s t.
Proof.
  intros Hpat. revert pre s. induction fuel as [|fuel IH]; intros pre s Hf; [lia|]. simpl.
  pose proof (findP pat pre s) as H.
  destruct (find pat (pre ++ s) (Z.of_nat (List.length pre))) as [i|] eqn:E; simpl in H.
  2: { inversion H. exists s. split; [done|by constructor]. }
  inversion H as [|a b Hs Hmin Hi]. replace i with (Z.of_nat (List.length (pre ++ a))) by (rewrite List.length_app; lia).
  clear H Hi E. subst s. unfold StringHelper.replace_at.
  destruct (Z.ltb_spec (Z.of_nat (List.length (pre ++ a ++ pat ++ b))) (Z.of_nat (List.length (pre ++ a)))) as [Hlt|_].
  { rewrite !List.length_app in Hlt. lia. }
  simpl. rewrite Nat2Z.id.
  replace (take (List.length (pre ++ a)) (pre ++ a ++ pat ++ b)) with (pre ++ a)
    by (rewrite (app_assoc pre a), take_app_length; done).
  replace (drop (List.length (pre ++ a) + List.length pat) (pre ++ a ++ pat ++ b)) with b.
  2: { rewrite <- List.length_app. replace (pre ++ a ++ pat ++ b) with (((pre ++ a) ++ pat) ++ b) by by rewrite <- !app_assoc.
       by rewrite drop_app_length. }
  destruct (IH ((pre ++ a) ++ by_) b) as (t & Ht & Hr).
  { destruct pat; [done|]. rewrite !List.length_app in Hf. simpl in Hf. lia. }
  exists (a ++ by_ ++ t). split.
  - rewrite List.length_app, Nat2Z.inj_add in Ht. rewrite <- !app_assoc in *. exact Ht.
  - by constructor.
Qed.

Lemma string_replace_spec s pat by_ : pat <> [] ->
  exists t, string_replace s pat by_ = Ok t /\ replaced pat by_ s t.
Proof. intros H. apply (string_replace_loop_spec (S (List.length s)) pat by_ [] s H). lia. Qed.

(** ** What the cleaned path is *)

Definition to_bsl (c : Z) : Z := if c =? slash then bsl else c.

(** A character in front of a text, unless both are backslashes. *)
Definition bsl_cons (c : Z) (r : str) : str :=
  match r with
  | d :: _ => if (c =? bsl) && (d =? bsl) then r else c :: r
  | [] => [c]
  end.

(** Runs of backslashes become one. *)
Definition collapse (s : str) : str := foldr bsl_cons [] s.

(** The path with one kind of separator and no empty component inside. *)
Definition clean_path (s : str) : str := collapse (map to_bsl s).

Lemma first_single_absent (c : Z) (a b : str) :
  (forall x y, a ++ [c] ++ b = x ++ [c] ++ y -> (List.length a <= List.length x)%nat) -> c ∉ a.
Proof.
  intros H (x & y & ->)%list_elem_of_split. specialize (H x (y ++ [c] ++ b)).
  rewrite <- app_assoc in H. specialize (H eq_refl). rewrite List.length_app in H. simpl in H. lia.
Qed.

Lemma absent_single (c : Z) s : absent [c] s <-> c ∉ s.
Proof.
  split.
  - intros H (x & y & ->)%list_elem_of_split. by apply (H x y).
  - intros H a b ->. apply H. rewrite !elem_of_app, elem_of_cons. auto.
Qed.

Lemma map_to_bsl_id s : (slash ∉ s) -> map to_bsl s = s.
Proof.
  intros H. rewrite <- (map_id s) at 2. apply map_ext_in. intros c Hc%list_elem_of_In.
  unfold to_bsl. destruct (Z.eqb_spec c slash) as [->|]; [done|done].
Qed.

Lemma replaced_slash s t : replaced [slash] [bsl] s t -> t = map to_bsl s.
Proof.
  induction 1 as [s Ha|a b t Hmin _ ->].
  - symmetry. by apply map_to_bsl_id, absent_single.
  - rewrite !map_app, (map_to_bsl_id a) by by eapply first_single_absent. done.
Qed.

Lemma collapse_app a x y : collapse x = collapse y -> collapse (a ++ x) = collapse (a ++ y).
Proof. unfold collapse. intros H. by rewrite !foldr_app, H. Qed.

Lemma collapse_pair x : collapse ([bsl; bsl] ++ x) = collapse ([bsl] ++ x).
Proof.
  unfold collapse. simpl. destruct (foldr bsl_cons [] x) as [|d r]; [done|]. simpl.
  destruct (Z.eqb_spec d bsl) as [->|Hd]; [done|]. done.
Qed.

Lemma collapse_absent s : absent [bsl; bsl] s -> collapse s = s.
Proof.
  induction s as [|c s IH]; intros H; [done|]. change (collapse (c :: s)) with (bsl_cons c (collapse s)).
  rewrite IH by (intros a b ->; by apply (H (c :: a) b)).
  destruct s as [|d s]; [done|]. simpl.
  destruct (Z.eqb_spec c bsl) as [->|]; [|done]. destruct (Z.eqb_spec d bsl) as [->|]; [|done].
  exfalso. by apply (H [] s).
Qed.

Lemma replaced_pair s t : replaced [bsl; bsl] [bsl] s t ->
  collapse t = collapse s /\ (List.length t <= List.length s)%nat.
Proof.
  induction 1 as [s Ha|a b t _ _ [Hc Hl]]; [done|]. split.
  - apply collapse_app. rewrite collapse_pair. by apply collapse_app.
  - rewrite !List.length_app. simpl. lia.
Qed.

Lemma replaced_progress s t : replaced [bsl; bsl] [bsl] s t -> ~ absent [bsl; bsl] t ->
  (List.length t < List.length s)%nat.
Proof.
  intros H Ht. destruct H as [s Ha|a b t _ Hr]; [done|].
  apply replaced_pair in Hr as [_ Hl]. rewrite !List.length_app. simpl. lia.
Qed.

Lemma find_start pat s : find_sub_spec pat s (find pat s 0).
Proof.
  pose proof (findP pat [] s) as H. simpl in H.
  replace ((fun i => i - 0) <$> find pat s 0) with (find pat s 0) in H; [done|].
  destruct (find pat s 0); simpl; [by rewrite Z.sub_0_r|done].
Qed.

Lemma adjust_loop_spec fuel s : (List.length s < fuel)%nat -> adjust_loop fuel s = Ok (collapse s).
Proof.
  revert s. induction fuel as [|fuel IH]; intros s Hf; [lia|]. simpl.
  destruct (string_replace_spec s [bsl; bsl] [bsl]) as (t & -> & Hr); [done|]. simpl.
  destruct (find_start [bsl; bsl] t) as [Ha|a b Hs _].
  - by rewrite <- (proj1 (replaced_pair _ _ Hr)), collapse_absent.
  - rewrite IH; [by rewrite (proj1 (replaced_pair _ _ Hr))|].
    apply replaced_progress in Hr; [lia|]. intros Ha. by apply (Ha a b).
Qed.

Lemma AdjustPath_spec s : AdjustPath s = Ok (clean_path s).
Proof.
  unfold AdjustPath. destruct (string_replace_spec s [slash] [bsl]) as (t & -> & Hr); [done|].
  apply replaced_slash in Hr as ->. rewrite Ok_bind. apply adjust_loop_spec. lia.
Qed.

Lemma to_bsl_idem s : map to_bsl (map to_bsl s) = map to_bsl s.
Proof.
  rewrite map_map. apply map_ext. intros c. unfold to_bsl. destruct (Z.eqb_spec c slash); [done|].
  by rewrite (proj2 (Z.eqb_neq c slash)).
Qed.

(** ** Cutting at the first and at the last occurrence *)

Variant first_index_spec (ch : Z) (s : str) : Z -> Prop :=
| first_index_none : (ch ∉ s) -> first_index_spec ch s (-1)
| first_index_at a b : s = a ++ ch :: b -> (ch ∉ a) -> first_index_spec ch s (Z.of_nat (List.length a)).

Lemma first_indexP ch s : first_index_spec ch s (first_index ch s).
Proof.
  unfold first_index, find_first_of. rewrite drop_0.
  destruct (find_indexP (Z.eqb ch) s) as [H|a c b Hs Hc%Z.eqb_eq Ha]; simpl.
  - constructor. by apply not_elem_forall_eqb.
  - subst c. apply (first_index_at ch s a b); [done|]. by apply not_elem_forall_eqb.
Qed.

Variant last_index_spec (ch : Z) (s : str) : Z -> Prop :=
| last_index_none : (ch ∉ s) -> last_index_spec ch s (-1)
| last_index_at a b : s = a ++ ch :: b -> (ch ∉ b) -> last_index_spec ch s (Z.of_nat (List.length a)).

Lemma last_indexP ch s : last_index_spec ch s (last_index ch s).
Proof.
  unfold last_index, find_last_of. rewrite take_ge by lia.
  destruct (find_indexP (Z.eqb ch) (rev s)) as [H|a c b Hs Hc%Z.eqb_eq Ha]; simpl.
  - constructor. apply not_elem_forall_eqb in H. by rewrite list_elem_of_In, <- in_rev, <- list_elem_of_In in H.
  - subst c. apply (f_equal (@rev Z)) in Hs. rewrite rev_involutive, rev_app_distr in Hs. simpl in Hs.
    rewrite <- app_assoc in Hs. simpl in Hs.
    replace (_ - _ - _) with (Z.of_nat (List.length (rev b))).
    + apply (last_index_at ch s (rev b) (rev a)); [done|].
      apply not_elem_forall_eqb in Ha. by rewrite list_elem_of_In, <- in_rev, <- list_elem_of_In.
    + rewrite Hs, List.length_app. simpl. rewrite !length_rev. lia.
Qed.

(** [s.substr(0, n)] and [s.substr(n, s.length())] around an index. *)
Lemma substr_front a b : Z.of_nat (List.length a) < 2 ^ 32 ->
  substr (a ++ b) 0 (u32 (Z.of_nat (List.length a))) = Ok a.
Proof.
  intros H. rewrite u32_small by lia. rewrite substr_Ok by lia. by rewrite Nat2Z.id, drop_0, take_app_length.
Qed.

Lemma substr_back a b : Z.of_nat (List.length a) < 2 ^ 32 ->
  substr (a ++ b) (u32 (Z.of_nat (List.length a))) (Z.of_nat (List.length (a ++ b))) = Ok b.
Proof.
  intros H. rewrite u32_small by lia. rewrite List.length_app, substr_Ok by (rewrite List.length_app; lia).
  rewrite !Nat2Z.id, drop_app_length, take_ge by lia. done.
Qed.

Lemma substr_all s : Z.of_nat (List.length s) < 2 ^ 32 - 1 -> substr s 0 (u32 (-1)) = Ok s.
Proof.
  intros H. change (u32 (-1)) with (2 ^ 32 - 1). rewrite substr_Ok by lia. rewrite drop_0, take_ge by lia. done.
Qed.

(** ** The constructors *)

(** The path up to its first separator. *)
Definition root_of (p root : str) : Prop :=
  (bsl ∉ p) /\ root = [] \/ exists a b, p = a ++ [bsl] ++ b /\ (bsl ∉ a) /\ root = a ++ [bsl].

Lemma root_part p : Z.of_nat (List.length p) < 2 ^ 32 - 1 ->
  exists root, substr p 0 (u32 (first_index bsl p + 1)) = Ok root /\ root_of p root.
Proof.
  intros Hlen. destruct (first_indexP bsl p) as [Hno|a b Hp Ha].
  - exists []. split; [|by left]. change (u32 (-1 + 1)) with 0. by rewrite substr_Ok by lia.
  - exists (a ++ [bsl]). replace (Z.of_nat (List.length a) + 1) with (Z.of_nat (List.length (a ++ [bsl])))
      by (rewrite List.length_app; simpl; lia).
    subst p. rewrite List.length_app in Hlen. simpl in Hlen.
    replace (a ++ bsl :: b) with ((a ++ [bsl]) ++ b) by by rewrite <- app_assoc.
    rewrite substr_front by (rewrite List.length_app; simpl; lia). split; [done|]. right. exists a, b.
    by rewrite <- app_assoc.
Qed.

Lemma dir_part p : Z.of_nat (List.length p) < 2 ^ 32 - 1 ->
  exists d n, p = d ++ n /\ substr p 0 (u32 (last_index bsl p + 1)) = Ok d /\
    substr p (u32 (last_index bsl p + 1)) (Z.of_nat (List.length p)) = Ok n /\
    (bsl ∉ n) /\ (d = [] \/ exists d', d = d' ++ [bsl]).
Proof.
  intros Hlen. destruct (last_indexP bsl p) as [Hno|a b Hp Hb].
  - exists [], p. change (u32 (-1 + 1)) with 0. rewrite !substr_Ok by lia.
    change (drop (Z.to_nat 0)) with (fun s : str => s). cbv beta. rewrite Nat2Z.id, firstn_all. auto 10.
  - exists (a ++ [bsl]), b. replace (Z.of_nat (List.length a) + 1) with (Z.of_nat (List.length (a ++ [bsl])))
      by (rewrite List.length_app; simpl; lia).
    replace p with ((a ++ [bsl]) ++ b) in * by (rewrite <- app_assoc; done).
    rewrite List.length_app in Hlen. rewrite substr_front, substr_back by lia. eauto 10.
Qed.

Lemma ext_part n : Z.of_nat (List.length n) < 2 ^ 32 - 1 ->
  exists t e, substr n 0 (u32 (last_index dot n)) = Ok t /\
    substr n (u32 (last_index dot n + 1)) (Z.of_nat (List.length n)) = Ok e /\
    ((dot ∉ n) /\ t = n /\ e = n \/ n = t ++ [dot] ++ e /\ (dot ∉ e)).
Proof.
  intros Hlen. destruct (last_indexP dot n) as [Hno|a b Hp Hb].
  - exists n, n. change (u32 (-1 + 1)) with 0. rewrite substr_all, substr_Ok by lia.
    change (drop (Z.to_nat 0)) with (fun s : str => s). cbv beta. rewrite Nat2Z.id, firstn_all. auto 10.
  - exists a, b. split.
    + subst n. rewrite List.length_app in Hlen. apply substr_front. lia.
    + replace (Z.of_nat (List.length a) + 1) with (Z.of_nat (List.length (a ++ [dot])))
        by (rewrite List.length_app; simpl; lia).
      replace n with ((a ++ [dot]) ++ b) in * by (rewrite <- app_assoc; done).
      rewrite List.length_app in Hlen. rewrite substr_back by lia. rewrite <- app_assoc. auto.
Qed.

(** [CFilePath] cleans a path of slashes and doubled separators and cuts it:
    the directory and the file name together are the cleaned path, the name has no
    separator, and the directory is empty or ends with one. *)
Lemma CFilePath_spec s : Z.of_nat (List.length (clean_path s)) < 2 ^ 32 - 1 ->
  exists fp, CFilePath_new s = Ok fp /\ m_strFilePath fp ++ m_strFileName fp = clean_path s /\
    (bsl ∉ m_strFileName fp) /\ (m_strFilePath fp = [] \/ exists d, m_strFilePath fp = d ++ [bsl]) /\
    ((dot ∉ m_strFileName fp) /\ m_strFileTitle fp = m_strFileName fp /\ m_strFileExtName fp = m_strFileName fp \/
     m_strFileName fp = m_strFileTitle fp ++ [dot] ++ m_strFileExtName fp /\ (dot ∉ m_strFileExtName fp)) /\
    root_of (clean_path s) (m_strRootPath fp) /\ m_strFileFullPath fp = s.
Proof.
  intros Hlen. unfold CFilePath_new.
  destruct (string_replace_spec s [slash] [bsl]) as (t & -> & ->%replaced_slash); [done|]. rewrite Ok_bind, AdjustPath_spec.
  replace (clean_path (map to_bsl s)) with (clean_path s) by (unfold clean_path; by rewrite to_bsl_idem).
  rewrite Ok_bind. generalize dependent (clean_path s). intros p Hlen.
  destruct (root_part p Hlen) as (root & -> & Hroot). rewrite Ok_bind.
  destruct (dir_part p Hlen) as (d & n & -> & -> & -> & Hn & Hd). rewrite !Ok_bind.
  rewrite List.length_app in Hlen.
  destruct (ext_part n ltac:(lia)) as (t & e & -> & -> & He). rewrite !Ok_bind.
  eexists. split; [done|]. simpl. auto 10.
Qed.

(** [CFileName] cuts a name in front of its last dot.  It leaves both parts empty
    when that dot is the first character, and throws when there is none. *)
Lemma CFileName_spec s : Z.of_nat (List.length s) < 2 ^ 32 - 1 ->
  (exists a b, a <> [] /\ (dot ∉ b) /\ s = a ++ dot :: b /\ CFileName_new s = Ok (mkFileName a (dot :: b))) \/
  (exists b, (dot ∉ b) /\ s = dot :: b /\ CFileName_new s = Ok (mkFileName [] [])) \/
  (dot ∉ s) /\ CFileName_new s = Fault OutOfRange.
Proof.
  intros Hlen. unfold CFileName_new. destruct (last_indexP dot s) as [Hno|a b Hs Hb].
  - right. right. split; [done|]. simpl. rewrite substr_all by done. rewrite Ok_bind.
    change (u32 (-1)) with (2 ^ 32 - 1). unfold substr.
    by rewrite (proj2 (Z.ltb_lt (Z.of_nat (List.length s)) (2 ^ 32 - 1)) Hlen).
  - destruct (Z.eqb_spec (Z.of_nat (List.length a)) 0) as [Ha|Ha]; simpl.
    + right. left. exists b. destruct a; [done|]. simpl in Ha. lia.
    + left. exists a, b. subst s. rewrite List.length_app in Hlen.
      rewrite substr_front, Ok_bind, substr_back by lia. repeat split; [|done]. intros ->. done.
Qed.

(** Removing a character with [String::Replace]. *)
Lemma XString_Replace_remove fuel c s : (List.length s < fuel)%nat ->
  XString_Replace fuel s [c] [] = Ok (List.filter (fun x => negb (x =? c)) s).
Proof.
  revert s. induction fuel as [|fuel IH]; intros s Hf; [lia|]. simpl.
  unfold XString.FindFirstCharOf, find_first_of. change (Z.to_nat (u16 0)) with 0%nat. rewrite drop_0.
  destruct (find_indexP (in_set [c]) s) as [H|a d b -> Hd Ha]; cbn [fmap option_fmap option_map].
  - f_equal. symmetry. apply forallb_filter_id. rewrite forallb_forall. rewrite Forall_forall in H.
    intros x Hx%list_elem_of_In. specialize (H x Hx). unfold in_set in H. apply bool_decide_eq_false in H.
    rewrite list_elem_of_singleton in H. apply negb_true_iff. by apply Z.eqb_neq.
  - unfold in_set in Hd. apply bool_decide_eq_true, list_elem_of_singleton in Hd. subst d.
    change (u16 0) with 0. rewrite Z.add_0_l. unfold StringHelper.replace_at.
    rewrite (proj2 (Z.ltb_ge _ _)) by (rewrite List.length_app; lia). rewrite Ok_bind.
    rewrite Nat2Z.id, take_app_length, drop_app_ge by (simpl; lia).
    replace (_ - _)%nat with 1%nat by (simpl; lia).
    rewrite List.length_app in Hf. simpl in *. rewrite drop_0, IH by (rewrite List.length_app; lia).
    rewrite !List.filter_app. simpl. by rewrite Z.eqb_refl.
Qed.
