(* ===== verification/FileSystem.v ===== *)
(** * The file system

    The calls of Windows that create, list and remove files and directories, as
    an interface: [FileSystem] has the calls, [FileSystemLaws] what they are
    documented to do to the directory tree.  A path is the list of its components,
    the first one a drive; [path_str] is its spelling with backslashes.  The tree
    is a map whose keys are folded to one case, since names are compared so.
    [Disk] is a tree in memory that satisfies the laws. *)
From stdpp Require Import prelude gmap strings.
From Stdlib Require Import ZArith Lia String.
From S2P Require Import Prelude Strings Favorites FilePath.

Inductive node := NDir | NFile (content : list Z).

#[global] Instance node_eq_dec : EqDecision node.
Proof. solve_decision. Defined.

Definition node_dir (n : node) : bool := match n with NDir => true | NFile _ => false end.

(** What the program reads of [WIN32_FIND_DATAW]. *)
Record WIN32_FIND_DATAW := mkFindData { cFileName : wstring; fd_dir : bool }.

(** [FindFiles] has all answers of [FindFirstFileW] and the calls of
    [FindNextFileW] that follow it; it is empty for [INVALID_HANDLE_VALUE]. *)
Class FileSystem (F : Type) := {
  FindFiles : F -> wstring -> list WIN32_FIND_DATAW;
  CreateDirectoryW : wstring -> F -> bool * F;
  RemoveDirectoryW : wstring -> F -> bool * F;
  DeleteFileW : wstring -> F -> bool * F;
  SHCreateDirectory : wstring -> F -> Z * F;
  WritePrivateProfileStringW : wstring -> wstring -> wstring -> wstring -> F -> bool * F;
  PathRemoveFileSpec : wstring -> wstring
}.

(** ** Paths *)

Abbreviation path := (list wstring).

Definition path_str (l : path) : wstring := join bsl l.

(** [.] and [..] are answers of a listing and no names. *)
Definition dots (n : wstring) : bool := bool_decide (n = lit ".") || bool_decide (n = lit "..").

(** [L"*"] and [L"*.*"], which match every name. *)
Definition all_mask (m : wstring) : Prop := m = lit "*" \/ m = lit "*.*".

(** Two paths, one of which is in or is the directory of the other. *)
Abbreviation under := (fun p q : path => p `prefix_of` q).

(** The calls take paths up to a length, which is least for directories. *)
Definition short (l : path) : Prop := Z.of_nat (List.length (path_str l)) < 248.

(** [ERROR_SUCCESS] and [ERROR_ALREADY_EXISTS] of Windows. *)
Definition ERROR_SUCCESS : Z := 0.
Definition ERROR_ALREADY_EXISTS : Z := 183.

(** The disk as a tree: no directory is a junction or a link to another one.  (The walk of
    PathHelper.cpp, lines 247-267, does not test for them and would follow one out of its
    directory.) *)
Class FileSystemLaws (F : Type) `{FileSystem F} := {
  upcase : wstring -> wstring;
  drive : wstring -> Prop;
  legal : wstring -> Prop;
  entries : F -> gmap path node;
  (** nobody else has the entry open, the user may list, fill and delete it, and
      its path is short enough for that *)
  free : F -> path -> Prop;
  (** what [GetPrivateProfileString] finds in a file *)
  profile : list Z -> wstring -> wstring -> option wstring;
  (** values that come back as they were written: no line ends, quotes or outer blanks *)
  storable : wstring -> Prop;

  drive_name d : drive d -> d <> [] /\ (bsl ∉ d) /\ (slash ∉ d);
  legal_name n : legal n -> n <> [] /\ (bsl ∉ n) /\ (slash ∉ n) /\ dots n = false;
  fs_closed fs p n : p <> [] -> is_Some (entries fs !! (p ++ [n])) -> entries fs !! p = Some NDir;

  (** the last component goes with its backslash *)
  fs_remove_spec d l n : drive d -> l <> [] -> Forall legal l -> n <> [] -> Forall (fun c => c ∉ [bsl; slash; 58]) n ->
    PathRemoveFileSpec (path_str (d :: l ++ [n])) = path_str (d :: l);

  fs_find fs d l : drive d -> l <> [] -> Forall legal l -> short (d :: l) ->
    match entries fs !! map upcase (d :: l) with
    | Some nd => exists n, FindFiles fs (path_str (d :: l)) = [mkFindData n (node_dir nd)]
    | None => FindFiles fs (path_str (d :: l)) = []
    end;

  fs_list_none fs d l m : drive d -> l <> [] -> Forall legal l -> all_mask m ->
    entries fs !! map upcase (d :: l) <> Some NDir -> FindFiles fs (path_str (d :: l) ++ [bsl] ++ m) = [];
  fs_list_free fs d l m : drive d -> l <> [] -> Forall legal l -> all_mask m ->
    entries fs !! map upcase (d :: l) = Some NDir -> free fs (map upcase (d :: l)) ->
    FindFiles fs (path_str (d :: l) ++ [bsl] ++ m) <> [];
  fs_list_sound fs d l m e : drive d -> l <> [] -> Forall legal l -> all_mask m ->
    e ∈ FindFiles fs (path_str (d :: l) ++ [bsl] ++ m) ->
    if dots (cFileName e) then fd_dir e = true
    else legal (cFileName e) /\
         exists nd, entries fs !! map upcase (d :: l ++ [cFileName e]) = Some nd /\ fd_dir e = node_dir nd;
  fs_list_complete fs d l m n : drive d -> l <> [] -> Forall legal l -> all_mask m ->
    FindFiles fs (path_str (d :: l) ++ [bsl] ++ m) <> [] ->
    is_Some (entries fs !! (map upcase (d :: l) ++ [n])) ->
    exists e, e ∈ FindFiles fs (path_str (d :: l) ++ [bsl] ++ m) /\ dots (cFileName e) = false /\
              upcase (cFileName e) = n;
  fs_list_once fs d l m : drive d -> l <> [] -> Forall legal l -> all_mask m ->
    NoDup (map (fun e => upcase (cFileName e))
      (List.filter (fun e => negb (dots (cFileName e))) (FindFiles fs (path_str (d :: l) ++ [bsl] ++ m))));

  fs_delete fs d l : drive d -> l <> [] -> Forall legal l ->
    let p := map upcase (d :: l) in
    let '(ok, fs') := DeleteFileW (path_str (d :: l)) fs in
    (forall q, free fs q -> free fs' q) /\
    if ok then (exists c, entries fs !! p = Some (NFile c)) /\ entries fs' = delete p (entries fs)
    else entries fs' = entries fs /\ (free fs p -> forall c, entries fs !! p <> Some (NFile c));

  fs_rmdir fs d l : drive d -> l <> [] -> Forall legal l ->
    let p := map upcase (d :: l) in
    let '(ok, fs') := RemoveDirectoryW (path_str (d :: l)) fs in
    (forall q, free fs q -> free fs' q) /\
    if ok then entries fs !! p = Some NDir /\ (forall n, entries fs !! (p ++ [n]) = None) /\
               entries fs' = delete p (entries fs)
    else entries fs' = entries fs /\
         (free fs p -> entries fs !! p = Some NDir -> exists n, is_Some (entries fs !! (p ++ [n])));

  (** the drive itself is there already *)
  fs_drive fs d : drive d -> let '(ok, fs') := CreateDirectoryW d fs in
    (forall q, free fs q -> free fs' q) /\ entries fs' = entries fs /\ ok = false;
  fs_mkdir fs d l n : drive d -> Forall legal l -> legal n ->
    let p := map upcase (d :: l) in
    let '(ok, fs') := CreateDirectoryW (path_str (d :: l ++ [n])) fs in
    (forall q, free fs q -> free fs' q) /\
    if ok then entries fs !! p = Some NDir /\ entries fs !! (p ++ [upcase n]) = None /\
               entries fs' = <[p ++ [upcase n] := NDir]> (entries fs) /\ free fs' (p ++ [upcase n])
    else entries fs' = entries fs /\
         (free fs p -> short (d :: l ++ [n]) -> entries fs !! p = Some NDir ->
          is_Some (entries fs !! (p ++ [upcase n])));

  (** all missing directories of the path *)
  fs_shcreate fs d l : drive d -> l <> [] -> Forall legal l ->
    let p := map upcase (d :: l) in
    let '(r, fs') := SHCreateDirectory (path_str (d :: l)) fs in
    (forall q, free fs q -> free fs' q) /\
    (entries fs !! p <> None -> entries fs' = entries fs /\ r <> ERROR_SUCCESS) /\
    (entries fs !! p = Some NDir -> r = ERROR_ALREADY_EXISTS) /\
    (r = ERROR_SUCCESS -> (forall q, q <> [] -> under q p -> entries fs !! q = None -> free fs' q) /\
       forall q, entries fs' !! q = if bool_decide (q <> [] /\ under q p) then Some NDir else entries fs !! q) /\
    (entries fs !! p = None ->
     (forall q, q <> [] -> under q p -> entries fs !! q = Some NDir /\ free fs q \/ entries fs !! q = None) ->
     entries fs !! map upcase [d] = Some NDir -> short (d :: l) -> r = ERROR_SUCCESS);

  fs_profile fs sec key v d l n : drive d -> Forall legal l -> legal n ->
    let p := map upcase (d :: l) in
    let '(ok, fs') := WritePrivateProfileStringW sec key v (path_str (d :: l ++ [n])) fs in
    (forall q, free fs q -> free fs' q) /\
    if ok then entries fs !! p = Some NDir /\ entries fs !! (p ++ [upcase n]) <> Some NDir /\
      exists c, entries fs' = <[p ++ [upcase n] := NFile c]> (entries fs) /\ (storable v -> profile c sec key = Some v)
    else entries fs' = entries fs /\
         (free fs p -> short (d :: l ++ [n]) -> entries fs !! p = Some NDir ->
          entries fs !! (p ++ [upcase n]) <> None)
}.

(** ** Spelling of paths *)

Lemma path_str_snoc l n : l <> [] -> path_str (l ++ [n]) = path_str l ++ [bsl] ++ n.
Proof.
  unfold path_str. induction l as [|p l IH]; [done|]. intros _. destruct l as [|q l]; [done|].
  change ((p :: q :: l) ++ [n]) with (p :: (q :: l) ++ [n]).
  rewrite (join_cons _ p ((q :: l) ++ [n])), IH, (join_cons _ p (q :: l)) by done. by rewrite <- app_assoc.
Qed.

Lemma short_prefix l n : l <> [] -> short (l ++ [n]) -> short l.
Proof. intros Hl. unfold short. rewrite path_str_snoc, List.length_app by done. lia. Qed.
