(* ===== verification/Disk.v ===== *)
(** * A file system in memory

    A tree that satisfies [FileSystemLaws], so that the laws can hold together, and
    on which the components are run: names are compared as they are, nothing is in
    use, and a file holds one value. *)
From stdpp Require Import prelude gmap strings.
From Stdlib Require Import ZArith Lia String.
From S2P Require Import Prelude Strings Favorites FilePath FileSystem.

(** ** Components of a path *)

Fixpoint split_path (s : wstring) : path :=
  match s with
  | [] => [[]]
  | c :: s => if c =? bsl then [] :: split_path s
              else match split_path s with x :: r => (c :: x) :: r | [] => [[c]] end
  end.

Lemma split_plain n s : (bsl ∉ n) -> split_path (n ++ bsl :: s) = n :: split_path s.
Proof.
  induction n as [|c n IH]; intros Hn; [done|]. apply not_elem_of_cons in Hn as [Hc Hn]. simpl.
  rewrite (proj2 (Z.eqb_neq c bsl)) by congruence. by rewrite IH.
Qed.

Lemma split_end n : (bsl ∉ n) -> split_path n = [n].
Proof.
  induction n as [|c n IH]; intros Hn; [done|]. apply not_elem_of_cons in Hn as [Hc Hn]. simpl.
  rewrite (proj2 (Z.eqb_neq c bsl)) by congruence. by rewrite IH.
Qed.

Lemma split_path_str l : l <> [] -> Forall (fun n => bsl ∉ n) l -> split_path (path_str l) = l.
Proof.
  intros Hl Hall. induction Hall as [|n l Hn Hall IH]; [done|]. destruct l as [|m l]; [by apply split_end|].
  unfold path_str in *. rewrite join_cons, split_plain by done. by rewrite IH.
Qed.

(** ** Trees *)

Definition legalb (n : wstring) : bool :=
  bool_decide (n <> []) && bool_decide (Forall (fun c => c ∉ [bsl; slash; 42]) n) && negb (dots n).

Definition driveb (d : wstring) : bool := bool_decide (d <> []) && bool_decide (Forall (fun c => c ∉ [bsl; slash; 42]) d).

(** The directory of an entry is there, and its names are names. *)
Definition tree (m : gmap path node) : Prop :=
  map_Forall (fun p _ => Forall (fun n => legalb n = true) (tail p) /\
                         (removelast p = [] \/ m !! removelast p = Some NDir)) m.

Definition tree_entry (m : gmap path node) (kv : path * node) : bool :=
  forallb legalb (tail (fst kv)) &&
  (bool_decide (removelast (fst kv) = []) || bool_decide (m !! removelast (fst kv) = Some NDir)).

Definition treeb (m : gmap path node) : bool := forallb (tree_entry m) (map_to_list m).

Lemma treeb_spec m : treeb m = true <-> tree m.
Proof.
  unfold treeb, tree. rewrite forallb_forall, map_Forall_to_list, Forall_forall. setoid_rewrite list_elem_of_In.
  assert (He : forall kv, tree_entry m kv = true <-> Forall (fun n => legalb n = true) (tail (fst kv)) /\
      (removelast (fst kv) = [] \/ m !! removelast (fst kv) = Some NDir)).
  { intros [p nd]. unfold tree_entry. cbn [fst]. rewrite andb_true_iff, orb_true_iff, !bool_decide_eq_true.
    rewrite forallb_forall, Forall_forall. setoid_rewrite list_elem_of_In. done. }
  split; intros H [p nd] Hkv.
  - exact (proj1 (He (p, nd)) (H _ Hkv)).
  - exact (proj2 (He (p, nd)) (H (p, nd) Hkv)).
Qed.

Definition Disk : Type := { m : gmap path node | treeb m = true }.

Definition disk_map (D : Disk) : gmap path node := proj1_sig D.

Definition commit (m : gmap path node) (D : Disk) : Disk :=
  match treeb m as b return treeb m = b -> Disk with
  | true => fun H => exist _ m H
  | false => fun _ => D
  end eq_refl.

Lemma commit_map m D : tree m -> disk_map (commit m D) = m.
Proof.
  intros H%treeb_spec. unfold commit. generalize (eq_refl (treeb m)).
  enough (Hg : forall b (E : treeb m = b), b = true ->
    disk_map (match b as b return treeb m = b -> Disk with true => fun H => exist _ m H | false => fun _ => D end E) = m)
    by (intros E; by apply Hg).
  intros [] E Hb; done.
Qed.

Lemma disk_tree D : tree (disk_map D).
Proof. destruct D as [m H]. by apply treeb_spec. Qed.

(** ** Calls *)

Definition child_of (p k : path) : option wstring :=
  match k with
  | [] => None
  | _ => if bool_decide (removelast k = p) then last k else None
  end.

Definition child_data (p : path) (kv : path * node) : option WIN32_FIND_DATAW :=
  (fun n => mkFindData n (node_dir (snd kv))) <$> child_of p (fst kv).

Definition disk_list (m : gmap path node) (p : path) : list WIN32_FIND_DATAW :=
  mkFindData (lit ".") true :: mkFindData (lit "..") true :: omap (child_data p) (map_to_list m).

Definition is_mask (n : wstring) : bool := bool_decide (n = lit "*") || bool_decide (n = lit "*.*").

Definition disk_find (D : Disk) (s : wstring) : list WIN32_FIND_DATAW :=
  let p := split_path s in
  let n := default [] (last p) in
  if is_mask n then
    if bool_decide (disk_map D !! removelast p = Some NDir) then disk_list (disk_map D) (removelast p) else []
  else match disk_map D !! p with
       | Some nd => [mkFindData n (node_dir nd)]
       | None => []
       end.

(** A new entry can be put at a path. *)
Definition can_create (m : gmap path node) (p : path) : bool :=
  bool_decide (m !! removelast p = Some NDir) && bool_decide (removelast p <> []) &&
  legalb (default [] (last p)) && bool_decide (Forall (fun n => legalb n = true) (tail (removelast p))).

Definition disk_mkdir (s : wstring) (D : Disk) : bool * Disk :=
  let p := split_path s in
  if can_create (disk_map D) p && bool_decide (disk_map D !! p = None)
  then (true, commit (<[p := NDir]> (disk_map D)) D) else (false, D).

Definition empty_dir (m : gmap path node) (p : path) : bool := bool_decide (omap (child_data p) (map_to_list m) = []).

Definition disk_rmdir (s : wstring) (D : Disk) : bool * Disk :=
  let p := split_path s in
  if bool_decide (disk_map D !! p = Some NDir) && empty_dir (disk_map D) p
  then (true, commit (delete p (disk_map D)) D) else (false, D).

Definition disk_delete (s : wstring) (D : Disk) : bool * Disk :=
  let p := split_path s in
  match disk_map D !! p with
  | Some (NFile _) => (true, commit (delete p (disk_map D)) D)
  | _ => (false, D)
  end.

(** The paths of all directories that lead to [p], and [p]. *)
Definition ways (p : path) : list path := map (fun k => take (S k) p) (seq 0 (List.length p)).

Definition put_dirs (ps : list path) (m : gmap path node) : gmap path node := foldr (fun q => <[q := NDir]>) m ps.

Definition passable (m : gmap path node) (q : path) : bool :=
  bool_decide (m !! q = None) || bool_decide (m !! q = Some NDir).

Definition disk_shcreate (s : wstring) (D : Disk) : Z * Disk :=
  let p := split_path s in
  let m := disk_map D in
  if bool_decide (m !! p <> None) then (ERROR_ALREADY_EXISTS, D)
  else if forallb (passable m) (ways p) && bool_decide (m !! take 1 p = Some NDir) &&
          bool_decide (Forall (fun n => legalb n = true) (tail p))
  then (ERROR_SUCCESS, commit (put_dirs (ways p) m) D) else (3, D).

Definition disk_profile (sec key v s : wstring) (D : Disk) : bool * Disk :=
  let p := split_path s in
  if can_create (disk_map D) p && negb (bool_decide (disk_map D !! p = Some NDir))
  then (true, commit (<[p := NFile v]> (disk_map D)) D) else (false, D).

#[global] Instance disk_fs : FileSystem Disk := {
  FindFiles := disk_find;
  CreateDirectoryW := disk_mkdir;
  RemoveDirectoryW := disk_rmdir;
  DeleteFileW := disk_delete;
  SHCreateDirectory := disk_shcreate;
  WritePrivateProfileStringW := disk_profile;
  PathRemoveFileSpec := fun s => path_str (removelast (split_path s))
}.

(** ** Lemmas on trees *)

Lemma legalb_spec n : legalb n = true -> n <> [] /\ (bsl ∉ n) /\ (slash ∉ n) /\ dots n = false /\ is_mask n = false.
Proof.
  unfold legalb. rewrite !andb_true_iff, !bool_decide_eq_true, negb_true_iff, Forall_forall.
  intros [[Hn Hc] Hd]. repeat split; [done|intros Hin; apply (Hc _ Hin); set_solver|intros Hin; apply (Hc _ Hin); set_solver|done|].
  unfold is_mask. apply orb_false_iff. rewrite !bool_decide_eq_false.
  split; intros ->; apply (Hc 42); [apply list_elem_of_here|set_solver|apply list_elem_of_here|set_solver].
Qed.

Lemma driveb_spec d : driveb d = true -> d <> [] /\ (bsl ∉ d) /\ (slash ∉ d).
Proof.
  unfold driveb. rewrite andb_true_iff, !bool_decide_eq_true, Forall_forall. intros [Hn Hc].
  repeat split; [done|intros Hin; apply (Hc _ Hin); set_solver|intros Hin; apply (Hc _ Hin); set_solver].
Qed.

Lemma split_located d l : driveb d = true -> Forall (fun n => legalb n = true) l -> split_path (path_str (d :: l)) = d :: l.
Proof.
  intros Hd Hl. apply split_path_str; [done|]. constructor; [by apply driveb_spec|].
  eapply Forall_impl; [done|]. by intros n (_ & ? & _)%legalb_spec.
Qed.

Lemma split_mask d l m : driveb d = true -> Forall (fun n => legalb n = true) l -> all_mask m ->
  split_path (path_str (d :: l) ++ [bsl] ++ m) = (d :: l) ++ [m] /\ is_mask m = true.
Proof.
  intros Hd Hl Hm. rewrite <- path_str_snoc by done. split; [|by destruct Hm as [-> | ->]].
  apply split_path_str; [done|]. apply Forall_app. split.
  - constructor; [by apply driveb_spec|]. eapply Forall_impl; [done|]. by intros n (_ & ? & _)%legalb_spec.
  - repeat constructor. destruct Hm as [-> | ->]; vm_compute; set_solver.
Qed.

Lemma child_of_spec p k n : child_of p k = Some n <-> k = p ++ [n].
Proof.
  unfold child_of. destruct k as [|x k _] using rev_ind; [split; [done|by destruct p]|].
  destruct (k ++ [x]) as [|y w] eqn:E; [by destruct k|]. rewrite <- E. clear y w E.
  rewrite removelast_last, last_snoc. case_bool_decide as Hp.
  - subst. split; [by intros [= ->]|]. by intros [_ ->]%app_inj_tail.
  - split; [done|]. by intros [-> _]%app_inj_tail.
Qed.

Lemma elem_of_disk_list m p e : e ∈ omap (child_data p) (map_to_list m) <->
  exists nd, m !! (p ++ [cFileName e]) = Some nd /\ fd_dir e = node_dir nd.
Proof.
  rewrite list_elem_of_omap. split.
  - intros ([k nd] & Hk%elem_of_map_to_list & Hc). unfold child_data in Hc. cbn [fst snd] in Hc.
    apply fmap_Some in Hc as (n & Hn%child_of_spec & ->). subst k. exists nd. done.
  - intros (nd & Hnd & Hf). exists (p ++ [cFileName e], nd). split; [by apply elem_of_map_to_list|].
    unfold child_data. cbn [fst snd]. rewrite (proj2 (child_of_spec p _ (cFileName e))) by done. simpl.
    destruct e. simpl in *. by rewrite Hf.
Qed.

Lemma disk_list_once m p : NoDup (map cFileName (omap (child_data p) (map_to_list m))).
Proof.
  assert (Hk : NoDup (map fst (map_to_list m))) by apply NoDup_fst_map_to_list. revert Hk.
  induction (map_to_list m) as [|[k nd] l IH]; intros Hk; [constructor|].
  cbn [map fst] in Hk. apply NoDup_cons in Hk as [Hk Hl]. cbn [omap list_omap]. unfold child_data at 1. cbn [fst snd].
  destruct (child_of p k) as [n|] eqn:E; simpl; [|by apply IH]. apply NoDup_cons. split; [|by apply IH].
  intros (e & En & He)%list_elem_of_fmap. apply list_elem_of_omap in He as ([k' nd'] & Hk' & Hc).
  unfold child_data in Hc. cbn [fst snd] in Hc. apply fmap_Some in Hc as (n' & Hn' & ->). simpl in En. subst n'.
  apply child_of_spec in E, Hn'. subst. apply Hk, list_elem_of_fmap. by exists (p ++ [n], nd').
Qed.

Lemma tree_parent m p n : tree m -> p <> [] -> is_Some (m !! (p ++ [n])) -> m !! p = Some NDir.
Proof. intros Ht Hp [nd Hnd]. destruct (Ht _ _ Hnd) as [_ [E|E]]; rewrite removelast_last in E; done. Qed.

Lemma tree_legal m p n : tree m -> p <> [] -> is_Some (m !! (p ++ [n])) -> legalb n = true.
Proof.
  intros Ht Hp [nd Hnd]. destruct (Ht _ _ Hnd) as [Hl _]. destruct p as [|x p]; [done|]. simpl in Hl.
  apply Forall_app in Hl as [_ Hl]. by apply Forall_cons in Hl as [Hl _].
Qed.

Lemma tree_insert m p n nd : tree m -> m !! p = Some NDir -> p <> [] -> legalb n = true ->
  Forall (fun n => legalb n = true) (tail p) -> m !! (p ++ [n]) = None \/ nd <> NDir /\ m !! (p ++ [n]) <> Some NDir ->
  tree (<[p ++ [n] := nd]> m).
Proof.
  intros Ht Hp Hne Hn Hl Hnew. assert (Hpn : p <> p ++ [n]).
  { intros E. apply (f_equal List.length) in E. rewrite List.length_app in E. simpl in E. lia. }
  apply map_Forall_insert_2.
  - split.
    + destruct p as [|x p]; [done|]. simpl. apply Forall_app. auto.
    + right. rewrite removelast_last. by rewrite lookup_insert_ne.
  - intros q x Hq. destruct (Ht q x Hq) as [Hlq Hpar]. split; [done|]. destruct Hpar as [|Hpar]; [by left|]. right.
    destruct (decide (removelast q = p ++ [n])) as [E|E]; [|by rewrite lookup_insert_ne].
    rewrite E in Hpar. destruct Hnew as [Hno|[_ Hno]]; congruence.
Qed.

Lemma tree_delete m p : tree m -> (forall n, m !! (p ++ [n]) = None) -> tree (delete p m).
Proof.
  intros Ht Hno q x Hq. apply lookup_delete_Some in Hq as [Hne Hq]. destruct (Ht q x Hq) as [Hl Hpar].
  split; [done|]. destruct Hpar as [|Hpar]; [by left|]. destruct (decide (removelast q = p)) as [E|E].
  - destruct q as [|y q _] using rev_ind; [by left|]. rewrite removelast_last in E. subst q. by rewrite Hno in Hq.
  - right. by rewrite lookup_delete_ne.
Qed.

(** ** The calls keep the laws *)

Section Calls.
Context (D : Disk) (d : wstring) (l : path).
Hypothesis Hd : driveb d = true.
Hypothesis Hl : Forall (fun n => legalb n = true) l.

Lemma disk_find_plain : l <> [] ->
  match disk_map D !! (d :: l) with
  | Some nd => exists n, disk_find D (path_str (d :: l)) = [mkFindData n (node_dir nd)]
  | None => disk_find D (path_str (d :: l)) = []
  end.
Proof.
  intros Hne. unfold disk_find. rewrite split_located by done.
  destruct l as [|n l' _] using rev_ind; [done|]. change (d :: l' ++ [n]) with ((d :: l') ++ [n]).
  rewrite last_snoc. cbn [default]. apply Forall_app in Hl as [_ [Hn _]%Forall_cons].
  unfold id. apply legalb_spec in Hn as (_ & _ & _ & _ & ->). destruct (disk_map D !! _); [by eexists|done].
Qed.

Lemma disk_find_mask m : all_mask m ->
  disk_find D (path_str (d :: l) ++ [bsl] ++ m) =
  if bool_decide (disk_map D !! (d :: l) = Some NDir) then disk_list (disk_map D) (d :: l) else [].
Proof.
  intros Hm. unfold disk_find. destruct (split_mask d l m Hd Hl Hm) as [-> E]. rewrite last_snoc. cbn [default]. unfold id.
  by rewrite E, removelast_last.
Qed.

Lemma disk_listing m e : all_mask m -> e ∈ disk_find D (path_str (d :: l) ++ [bsl] ++ m) ->
  if dots (cFileName e) then fd_dir e = true
  else legalb (cFileName e) = true /\
       exists nd, disk_map D !! (d :: l ++ [cFileName e]) = Some nd /\ fd_dir e = node_dir nd.
Proof.
  intros Hm. rewrite disk_find_mask by done. case_bool_decide as Hdir; [|by intros ?%elem_of_nil].
  unfold disk_list. intros [->|[->|He]%elem_of_cons]%elem_of_cons; [done|done|].
  apply elem_of_disk_list in He as (nd & Hnd & Hf).
  assert (Hleg : legalb (cFileName e) = true) by (eapply (tree_legal (disk_map D) (d :: l)); [apply disk_tree|done|by eexists]).
  destruct (legalb_spec _ Hleg) as (_ & _ & _ & -> & _). eauto.
Qed.

Lemma disk_listed m n : all_mask m -> disk_find D (path_str (d :: l) ++ [bsl] ++ m) <> [] ->
  is_Some (disk_map D !! ((d :: l) ++ [n])) ->
  exists e, e ∈ disk_find D (path_str (d :: l) ++ [bsl] ++ m) /\ dots (cFileName e) = false /\ cFileName e = n.
Proof.
  intros Hm. rewrite disk_find_mask by done. case_bool_decide as Hdir; [|done]. intros _ [nd Hnd].
  exists (mkFindData n (node_dir nd)). split; [|split; [|done]].
  - do 2 right. apply elem_of_disk_list. eauto.
  - apply legalb_spec. eapply (tree_legal (disk_map D) (d :: l)); [apply disk_tree|done|by eexists].
Qed.

Lemma disk_once m : all_mask m ->
  NoDup (map cFileName (List.filter (fun e => negb (dots (cFileName e))) (disk_find D (path_str (d :: l) ++ [bsl] ++ m)))).
Proof.
  intros Hm. rewrite disk_find_mask by done. case_bool_decide as Hdir; [|constructor]. unfold disk_list.
  cbn [List.filter]. change (dots (cFileName (mkFindData (lit ".") true))) with true.
  change (dots (cFileName (mkFindData (lit "..") true))) with true. cbn [negb].
  pose proof (disk_list_once (disk_map D) (d :: l)) as Hn. revert Hn.
  induction (omap _ _) as [|e es IH]; intros Hn; [constructor|]. apply NoDup_cons in Hn as [Hni Hn]. cbn [List.filter].
  destruct (negb (dots (cFileName e))); [|by apply IH]. apply NoDup_cons. split; [|by apply IH].
  intros (x & Ex & Hx)%list_elem_of_fmap. apply Hni, list_elem_of_fmap. exists x. split; [done|].
  by apply list_elem_of_In, filter_In in Hx as [Hx%list_elem_of_In _].
Qed.

Lemma empty_dir_spec m p : empty_dir m p = true <-> forall n, m !! (p ++ [n]) = None.
Proof.
  unfold empty_dir. rewrite bool_decide_eq_true. split.
  - intros E n. apply eq_None_not_Some. intros [nd Hnd].
    assert (Hin : mkFindData n (node_dir nd) ∈ omap (child_data p) (map_to_list m)) by (apply elem_of_disk_list; eauto).
    rewrite E in Hin. by apply elem_of_nil in Hin.
  - intros Hno. destruct (omap _ _) as [|e es] eqn:E; [done|]. assert (He : e ∈ omap (child_data p) (map_to_list m)) by (rewrite E; left).
    apply elem_of_disk_list in He as (nd & Hnd & _). by rewrite Hno in Hnd.
Qed.

Lemma disk_deleted : let '(ok, D') := disk_delete (path_str (d :: l)) D in
  if ok then (exists c, disk_map D !! (d :: l) = Some (NFile c)) /\ disk_map D' = delete (d :: l) (disk_map D)
  else disk_map D' = disk_map D /\ forall c, disk_map D !! (d :: l) <> Some (NFile c).
Proof.
  unfold disk_delete. rewrite split_located by done. destruct (disk_map D !! (d :: l)) as [[|c]|] eqn:E; [done| |done].
  split; [by eexists|]. rewrite commit_map; [done|]. apply tree_delete; [apply disk_tree|]. intros n.
  apply eq_None_not_Some. intros Hs. apply tree_parent in Hs; [congruence|apply disk_tree|done].
Qed.

Lemma disk_removed : let '(ok, D') := disk_rmdir (path_str (d :: l)) D in
  if ok then disk_map D !! (d :: l) = Some NDir /\ (forall n, disk_map D !! ((d :: l) ++ [n]) = None) /\
             disk_map D' = delete (d :: l) (disk_map D)
  else disk_map D' = disk_map D /\
       (disk_map D !! (d :: l) = Some NDir -> exists n, is_Some (disk_map D !! ((d :: l) ++ [n]))).
Proof.
  unfold disk_rmdir. rewrite split_located by done. case_bool_decide as Hdir; cbn [andb]; [|by split].
  destruct (empty_dir (disk_map D) (d :: l)) eqn:E.
  - pose proof (proj1 (empty_dir_spec _ _) E) as Hno. split; [done|]. split; [done|].
    rewrite commit_map; [done|]. apply tree_delete; [apply disk_tree|done].
  - split; [done|]. intros _. unfold empty_dir in E. apply bool_decide_eq_false in E.
    destruct (omap _ _) as [|e es] eqn:Eo; [done|].
    assert (He : e ∈ omap (child_data (d :: l)) (map_to_list (disk_map D))) by (rewrite Eo; left).
    apply elem_of_disk_list in He as (nd & Hnd & _). eauto.
Qed.

Lemma split_snoc n : legalb n = true -> split_path (path_str (d :: l ++ [n])) = (d :: l) ++ [n].
Proof. intros Hn. rewrite split_located; [done|done|]. apply Forall_app. auto. Qed.

Lemma can_create_spec n : legalb n = true ->
  can_create (disk_map D) ((d :: l) ++ [n]) = bool_decide (disk_map D !! (d :: l) = Some NDir).
Proof.
  intros Hn. unfold can_create. rewrite last_snoc, removelast_last. cbn [default]. unfold id. rewrite Hn.
  rewrite (bool_decide_eq_true_2 (d :: l <> [])), (bool_decide_eq_true_2 (Forall _ _)) by done. by rewrite !andb_true_r.
Qed.

Lemma disk_made n : legalb n = true -> let '(ok, D') := disk_mkdir (path_str (d :: l ++ [n])) D in
  if ok then disk_map D !! (d :: l) = Some NDir /\ disk_map D !! ((d :: l) ++ [n]) = None /\
             disk_map D' = <[(d :: l) ++ [n] := NDir]> (disk_map D)
  else disk_map D' = disk_map D /\ (disk_map D !! (d :: l) = Some NDir -> is_Some (disk_map D !! ((d :: l) ++ [n]))).
Proof.
  intros Hn. unfold disk_mkdir. rewrite split_snoc, can_create_spec by done. case_bool_decide as Hdir; cbn [andb]; [|by split].
  case_bool_decide as Hnone.
  - split; [done|]. split; [done|]. rewrite commit_map; [done|]. apply tree_insert; auto. apply disk_tree.
  - split; [done|]. intros _. by apply not_eq_None_Some.
Qed.

Lemma disk_written sec key v n : legalb n = true -> let '(ok, D') := disk_profile sec key v (path_str (d :: l ++ [n])) D in
  if ok then disk_map D !! (d :: l) = Some NDir /\ disk_map D !! ((d :: l) ++ [n]) <> Some NDir /\
             disk_map D' = <[(d :: l) ++ [n] := NFile v]> (disk_map D)
  else disk_map D' = disk_map D /\ (disk_map D !! (d :: l) = Some NDir -> disk_map D !! ((d :: l) ++ [n]) <> None).
Proof.
  intros Hn. unfold disk_profile. rewrite split_snoc, can_create_spec by done. case_bool_decide as Hdir; cbn [andb]; [|by split].
  case_bool_decide as Hnone; cbn [negb].
  - split; [done|]. intros _. congruence.
  - split; [done|]. split; [done|]. rewrite commit_map; [done|]. apply tree_insert; auto. apply disk_tree.
Qed.

Lemma disk_drive : disk_mkdir d D = (false, D).
Proof.
  unfold disk_mkdir. rewrite split_end by by apply driveb_spec. unfold can_create. cbn [removelast].
  rewrite (bool_decide_eq_false_2 ([] <> [])) by tauto. by rewrite !andb_false_r.
Qed.
End Calls.

Lemma elem_of_ways p q : q ∈ ways p <-> q <> [] /\ q `prefix_of` p.
Proof.
  unfold ways. rewrite list_elem_of_fmap. setoid_rewrite list_elem_of_In. setoid_rewrite in_seq. split.
  - intros (k & -> & Hk). split; [|by exists (drop (S k) p); rewrite take_drop]. destruct p; [simpl in Hk; lia|done].
  - intros [Hq [x ->]]. exists (List.length q - 1)%nat. rewrite List.length_app. destruct q as [|y q]; [done|]. split; [|simpl; lia].
    replace (S (List.length (y :: q) - 1)) with (List.length (y :: q)) by (simpl; lia). by rewrite take_app_length.
Qed.

Lemma put_dirs_lookup ps m q : put_dirs ps m !! q = if bool_decide (q ∈ ps) then Some NDir else m !! q.
Proof.
  induction ps as [|p ps IH]; [done|]. cbn [put_dirs foldr]. destruct (decide (p = q)) as [->|Hne].
  - rewrite lookup_insert_eq, bool_decide_eq_true_2 by left. done.
  - rewrite lookup_insert_ne by done. unfold put_dirs in IH. rewrite IH. repeat case_bool_decide; set_solver.
Qed.

Lemma tree_put_dirs m p : tree m -> Forall (fun n => legalb n = true) (tail p) -> tree (put_dirs (ways p) m).
Proof.
  intros Ht Hl q nd Hq. rewrite put_dirs_lookup in Hq |- *. case_bool_decide as Hin.
  - apply elem_of_ways in Hin as [Hne [x ->]]. destruct q as [|y q]; [done|]. split.
    + cbn [app tail] in Hl. by apply Forall_app in Hl as [Hl _].
    + destruct q as [|z q]; [by left|right]. rewrite bool_decide_eq_true_2; [done|]. apply elem_of_ways. split; [done|].
      rewrite (app_removelast_last y (l := y :: z :: q)) at 2 by done. rewrite <- app_assoc. by eexists.
  - destruct (Ht q nd Hq) as [Hlq Hpar]. split; [done|]. destruct Hpar as [|Hpar]; [by left|right]. by case_bool_decide.
Qed.

Lemma disk_shcreated D d l : driveb d = true -> Forall (fun n => legalb n = true) l ->
  let '(r, D') := disk_shcreate (path_str (d :: l)) D in
  (disk_map D !! (d :: l) <> None -> disk_map D' = disk_map D /\ r <> ERROR_SUCCESS) /\
  (disk_map D !! (d :: l) = Some NDir -> r = ERROR_ALREADY_EXISTS) /\
  (r = ERROR_SUCCESS -> forall q, disk_map D' !! q =
     if bool_decide (q <> [] /\ q `prefix_of` d :: l) then Some NDir else disk_map D !! q) /\
  (disk_map D !! (d :: l) = None ->
   (forall q, q <> [] -> q `prefix_of` d :: l -> disk_map D !! q = Some NDir \/ disk_map D !! q = None) ->
   disk_map D !! [d] = Some NDir -> r = ERROR_SUCCESS).
Proof.
  intros Hd Hl. unfold disk_shcreate. rewrite split_located by done. case_bool_decide as Hnone.
  { split; [done|]. split; [done|]. split; [done|]. intros E. by destruct Hnone. }
  assert (Hn : disk_map D !! (d :: l) = None) by (destruct (disk_map D !! (d :: l)); [by destruct Hnone|done]).
  rewrite Hn. cbn [take tail]. rewrite (bool_decide_eq_true_2 (Forall _ l)), andb_true_r by done.
  destruct (forallb (passable (disk_map D)) (ways (d :: l))) eqn:Ep; cbn [andb].
  - case_bool_decide as Hdrive.
    + split; [done|]. split; [done|]. split; [|done]. intros _ q. rewrite commit_map.
      * rewrite put_dirs_lookup. pose proof (elem_of_ways (d :: l) q). repeat case_bool_decide; tauto.
      * apply tree_put_dirs; [apply disk_tree|done].
    + split; [done|]. split; [done|]. split; [done|]. done.
  - split; [done|]. split; [done|]. split; [done|]. intros _ Hall _. exfalso.
    rewrite <- not_true_iff_false in Ep. apply Ep, forallb_forall. intros q Hq%list_elem_of_In%elem_of_ways.
    unfold passable. rewrite orb_true_iff, !bool_decide_eq_true. destruct Hq as [Hq Hpre]. specialize (Hall q Hq Hpre). tauto.
Qed.

#[global] Instance disk_laws : FileSystemLaws Disk.
Proof.
  refine {| upcase := fun n => n; drive := fun d => driveb d = true; legal := fun n => legalb n = true;
            entries := disk_map; free := fun _ _ => True; profile := fun c _ _ => Some c; storable := fun _ => True |};
    intros; rewrite ?map_id.
  - by apply driveb_spec.
  - destruct (legalb_spec n) as (? & ? & ? & ? & _); done.
  - by apply (tree_parent (disk_map fs) p n (disk_tree fs)).
  - cbn [PathRemoveFileSpec disk_fs]. change (d :: l ++ [n]) with ((d :: l) ++ [n]). rewrite split_path_str, removelast_last; [done|done|].
    apply Forall_app. split; [|repeat constructor].
    + constructor; [by apply driveb_spec|]. eapply Forall_impl; [done|]. by intros x (_ & ? & _)%legalb_spec.
    + intros Hin. rename select (Forall _ n) into Hc. rewrite Forall_forall in Hc. apply (Hc _ Hin). set_solver.
  - rewrite ?map_id. by apply disk_find_plain.
  - cbn [FindFiles disk_fs]. rewrite disk_find_mask by done. rewrite bool_decide_eq_false_2; [done|]. by rewrite ?map_id in *.
  - cbn [FindFiles disk_fs]. rewrite disk_find_mask by done. rewrite ?map_id in *. by rewrite bool_decide_eq_true_2.
  - pose proof (disk_listing fs d l ltac:(done) ltac:(done) m e ltac:(done) ltac:(done)) as Hx. destruct (dots _); [done|]. by rewrite ?map_id.
  - rewrite ?map_id in *. by apply disk_listed.
  - by apply disk_once.
  - pose proof (disk_deleted fs d l ltac:(done) ltac:(done)) as Hx. cbn [DeleteFileW disk_fs].
    destruct (disk_delete (path_str (d :: l)) fs) as [[|] D']; unfold p; rewrite ?map_id; tauto.
  - pose proof (disk_removed fs d l ltac:(done) ltac:(done)) as Hx. cbn [RemoveDirectoryW disk_fs].
    destruct (disk_rmdir (path_str (d :: l)) fs) as [[|] D']; unfold p; rewrite ?map_id; tauto.
  - cbn [CreateDirectoryW disk_fs]. rewrite disk_drive by done. done.
  - pose proof (disk_made fs d l ltac:(done) ltac:(done) n ltac:(done)) as Hx. cbn [CreateDirectoryW disk_fs].
    destruct (disk_mkdir (path_str (d :: l ++ [n])) fs) as [[|] D']; unfold p; rewrite ?map_id; tauto.
  - pose proof (disk_shcreated fs d l ltac:(done) ltac:(done)) as Hx. cbn [SHCreateDirectory disk_fs].
    destruct (disk_shcreate (path_str (d :: l)) fs) as [r D']. unfold p. rewrite ?map_id. destruct Hx as (Hx1 & Hx2 & Hx3 & Hx4).
    split; [done|]. split; [done|]. split; [done|]. split; [by intros Hr; split; [done|apply Hx3]|].
    intros Hn Hall Hdr _. apply Hx4; [done| |done]. intros q Hq Hpre. specialize (Hall q Hq Hpre). tauto.
  - pose proof (disk_written fs d l ltac:(done) ltac:(done) sec key v n ltac:(done)) as Hx. cbn [WritePrivateProfileStringW disk_fs].
    destruct (disk_profile sec key v (path_str (d :: l ++ [n])) fs) as [[|] D']; unfold p; rewrite ?map_id; [|tauto].
    split; [done|]. destruct Hx as (? & ? & ?). split; [done|]. split; [done|]. by exists v.
Defined.
