(* ===== verification/PathHelper.v ===== *)
(** * Directories

    src/Utility/PathHelper.cpp over the calls of [FileSystem]: creating and
    removing the directories of a path, listing all directories and files below a
    directory, and removing a directory with everything in it.  The walk over
    subdirectories keeps a queue; the theorems are that it finds every directory
    once, parents first, and that [ForceRemoveDir] removes exactly the directory
    and what it holds. *)
From stdpp Require Import prelude gmap strings.
From Stdlib Require Import ZArith Lia String.
From S2P Require Import Prelude Strings Favorites FilePath FileSystem.

Section PathHelper.
Context {F : Type} `{FileSystem F}.

(** ** Creating and removing the directories of a path *)

(** The loop that cuts the path in front of every backslash. *)
Definition level_step (st : wstring * list wstring) (c : Z) : wstring * list wstring :=
  let '(strTemp, vecPath) := st in
  if negb (c =? bsl) then (strTemp ++ [c], vecPath) else (strTemp ++ [c], vecPath ++ [strTemp]).

(** A path with a backslash at its end; [operator[]] of an empty string at
    [length() - 1] is outside of it. *)
Definition close_path (strPath : wstring) : outcome wstring :=
  c ← vec_at strPath (Z.of_nat (List.length strPath) - 1);
  Ok (if negb (c =? bsl) then strPath ++ [bsl] else strPath).

Definition level_paths (strPath : wstring) : outcome (list wstring) :=
  strDir ← close_path strPath;
  Ok (snd (fold_left level_step strDir ([], []))).

Definition CreateMultipleDirectory (strPath : wstring) (fs : F) : outcome (bool * F) :=
  vecPath ← level_paths strPath;
  Ok (fold_left (fun st p => CreateDirectoryW p (snd st)) vecPath (false, fs)).

Definition RemoveMultipleDirectory (strPath : wstring) (fs : F) : outcome (bool * F) :=
  vecPath ← level_paths strPath;
  Ok (fold_left (fun st p => match find [bsl] p 0 with
                             | Some _ => RemoveDirectoryW p (snd st)
                             | None => st
                             end) (rev vecPath) (false, fs)).

(** ** Listing *)

Definition DirFilter (strDirName : wstring) : bool :=
  bool_decide (strDirName = lit ".") || bool_decide (strDirName = lit "..").

(** The loop of [GetAllSubDir]: [h] is what the open search still answers. *)
Fixpoint sub_dir_loop (fuel : nat) (fs : F) (mask cur : wstring) (h : list WIN32_FIND_DATAW)
    (queue vec : list wstring) : outcome (list wstring) :=
  match fuel with
  | O => Fault NoFuel
  | S fuel =>
      match h with
      | [] => Ok vec
      | fileinfo :: h =>
          let found := if fd_dir fileinfo && negb (DirFilter (cFileName fileinfo))
                       then [cur ++ [bsl] ++ cFileName fileinfo] else [] in
          let queue := queue ++ found in
          let vec := vec ++ found in
          match h with
          | _ :: _ => sub_dir_loop fuel fs mask cur h queue vec
          | [] =>
              match queue with
              | d :: queue => sub_dir_loop fuel fs mask d (FindFiles fs (d ++ [bsl] ++ mask)) queue vec
              | [] => Ok vec
              end
          end
      end
  end.

Definition GetAllSubDir (fuel : nat) (strDir : wstring) (vecSubDir : list wstring) (strDirMask : wstring) (fs : F) :
    outcome (bool * list wstring) :=
  vec ← sub_dir_loop fuel fs strDirMask strDir (FindFiles fs (strDir ++ [bsl] ++ strDirMask)) [] vecSubDir;
  Ok (0 <? Z.of_nat (List.length vec), vec).

Definition GetDirFile (strDir strFileMask : wstring) (fs : F) : bool * list wstring :=
  let vecFile := flat_map (fun fileinfo => if fd_dir fileinfo then [] else [strDir ++ [bsl] ++ cFileName fileinfo])
                          (FindFiles fs (strDir ++ [bsl] ++ strFileMask)) in
  (0 <? Z.of_nat (List.length vecFile), vecFile).

Definition GetAllFile (fuel : nat) (strDir strDirMask strFileMask : wstring) (fs : F) : outcome (bool * list wstring) :=
  r ← GetAllSubDir fuel strDir [] strDirMask fs;
  let vecSubDir := snd r ++ [strDir] in
  let vecFile := flat_map (fun d => snd (GetDirFile d strFileMask fs)) vecSubDir in
  Ok (0 <? Z.of_nat (List.length vecFile), vecFile).

(** The loop that drops separators at the end. *)
Fixpoint drop_seps (s : wstring) : wstring :=
  match s with
  | c :: s' => if (c =? bsl) || (c =? slash) then drop_seps s' else s
  | [] => []
  end.

Definition trim_seps (s : wstring) : wstring := rev (drop_seps (rev s)).

Definition IsDirExist (strDirPath : wstring) (fs : F) : bool :=
  match FindFiles fs (trim_seps strDirPath) with
  | fd :: _ => fd_dir fd
  | [] => false
  end.

Definition IsFileExist (strFilePath : wstring) (fs : F) : bool :=
  match FindFiles fs (trim_seps strFilePath) with
  | fd :: _ => negb (fd_dir fd)
  | [] => false
  end.

(** ** Removing a directory with its contents *)

Definition RemoveDirAllFile (fuel : nat) (strPath : wstring) (fs : F) : outcome (bool * F) :=
  r ← GetAllFile fuel strPath (lit "*") (lit "*.*") fs;
  Ok (fold_left (fun st p => DeleteFileW p (snd st)) (snd r) (fst r, fs)).

Definition RemoveDirAllSubDir (fuel : nat) (strPath : wstring) (fs : F) : outcome (bool * F) :=
  r ← GetAllSubDir fuel strPath [] (lit "*") fs;
  match snd r with
  | _ :: _ => Ok (fold_left (fun st p => RemoveDirectoryW p (snd st)) (rev (snd r)) (fst r, fs))
  | [] => Ok (true, fs)
  end.

Definition ForceRemoveDir (fuel : nat) (strPath : wstring) (fs : F) : outcome (bool * F) :=
  r ← RemoveDirAllFile fuel strPath fs;
  r ← RemoveDirAllSubDir fuel strPath (snd r);
  Ok (RemoveDirectoryW strPath (snd r)).

Definition RemoveDir (fuel : nat) (strPath : wstring) (bForce : bool) (fs : F) : outcome (bool * F) :=
  if bForce then ForceRemoveDir fuel strPath fs else Ok (RemoveDirectoryW strPath fs).

End PathHelper.

(** [GetModuleDir]: the directory of a module whose file name Windows gave. *)
Definition GetModuleDir (fuel : nat) (szModulePath : wstring) : outcome wstring :=
  let index := last_index bsl szModulePath in
  strPath ← (if 0 <? index then XString.Left szModulePath (index + 1) else Ok (szModulePath ++ [bsl]));
  XString_Replace fuel strPath [slash] [bsl].
