(* ===== verification/PathWalk.v ===== *)
(** * The walk over subdirectories

    What [GetAllSubDir] computes: [walked] is its loop at the level of
    directories, [walk] that it ends with the list of all directories below the
    ones in the queue, each once and behind its parent. *)
From stdpp Require Import prelude gmap strings.
From Stdlib Require Import ZArith Lia String.
From S2P Require Import Prelude Strings Favorites FilePath FileSystem PathHelper.

Section Walked.
Context {F : Type} `{FileSystem F}.
Context (fs : F) (mask : wstring).

Definition sub_names (h : list WIN32_FIND_DATAW) : list wstring :=
  map cFileName (List.filter (fun e => fd_dir e && negb (DirFilter (cFileName e))) h).

Definition found_in (cur : wstring) (h : list WIN32_FIND_DATAW) : list wstring :=
  map (fun n => cur ++ [bsl] ++ n) (sub_names h).

Inductive walked : list wstring -> list wstring -> Prop :=
| walked_nil : walked [] []
| walked_stop d queue : FindFiles fs (d ++ [bsl] ++ mask) = [] -> walked (d :: queue) []
| walked_dir d queue h r : h = FindFiles fs (d ++ [bsl] ++ mask) -> h <> [] ->
    walked (queue ++ found_in d h) r -> walked (d :: queue) (found_in d h ++ r).

(** One open search, to its end. *)
Lemma sub_dir_loop_search fuel cur h queue vec : h <> [] ->
  sub_dir_loop (List.length h + fuel) fs mask cur h queue vec =
  match queue ++ found_in cur h with
  | d :: queue => sub_dir_loop fuel fs mask d (FindFiles fs (d ++ [bsl] ++ mask)) queue (vec ++ found_in cur h)
  | [] => Ok (vec ++ found_in cur h)
  end.
Proof.
  revert queue vec. induction h as [|e h IH]; intros queue vec Hh; [done|].
  cbn [List.length Nat.add sub_dir_loop].
  assert (Hcons : found_in cur (e :: h) =
    (if fd_dir e && negb (DirFilter (cFileName e)) then [cur ++ [bsl] ++ cFileName e] else []) ++ found_in cur h).
  { unfold found_in, sub_names. cbn [List.filter]. by destruct (fd_dir e && _). }
  rewrite Hcons, !app_assoc. destruct h as [|e' h].
  - change (found_in cur []) with (@nil wstring). rewrite !app_nil_r. done.
  - by rewrite IH.
Qed.

Lemma walked_loop queue r : walked queue r -> forall d q vec, queue = d :: q ->
  exists n, forall fuel, (n <= fuel)%nat ->
    sub_dir_loop fuel fs mask d (FindFiles fs (d ++ [bsl] ++ mask)) q vec = Ok (vec ++ r).
Proof.
  induction 1 as [|d q E|d q h r -> Hne Hw IH]; intros d' q' vec; [done|..]; intros [= -> ->].
  - exists 1%nat. intros [|fuel] Hf; [lia|]. rewrite E, app_nil_r. done.
  - set (h := FindFiles fs (d' ++ [bsl] ++ mask)) in *.
    destruct (q' ++ found_in d' h) as [|d1 q1] eqn:E.
    + exists (List.length h). intros fuel Hf. replace fuel with (List.length h + (fuel - List.length h))%nat by lia.
      rewrite sub_dir_loop_search by done. rewrite E. inversion Hw. by rewrite app_nil_r.
    + destruct (IH _ _ (vec ++ found_in d' h) eq_refl) as [n Hn]. exists (List.length h + n)%nat. intros fuel Hf.
      replace fuel with (List.length h + (fuel - List.length h))%nat by lia.
      rewrite sub_dir_loop_search by done. rewrite E, (app_assoc vec). apply Hn. lia.
Qed.
End Walked.

(** ** Trees *)

Section Tree.
Context {F : Type} `{FileSystemLaws F}.
Implicit Types (fs : F) (l : path).

Abbreviation place l := (map upcase l).

(** A path whose components below the drive are names. *)
Definition spelled l : Prop := exists d names, l = d :: names /\ drive d /\ names <> [] /\ Forall legal names.

Definition dir_at fs l : Prop := spelled l /\ entries fs !! place l = Some NDir.

Lemma spelled_snoc l n : spelled l -> legal n -> spelled (l ++ [n]).
Proof.
  intros (d & names & -> & Hdr & Hne & Hall) Hn. exists d, (names ++ [n]). repeat split; [done|by destruct names|].
  apply Forall_app. auto.
Qed.

Lemma spelled_ne l : spelled l -> l <> [].
Proof. by intros (d & names & -> & _). Qed.

Lemma spelled_str l n : spelled l -> path_str (l ++ [n]) = path_str l ++ [bsl] ++ n.
Proof. intros Hl. by apply path_str_snoc, spelled_ne. Qed.

Lemma DirFilter_dots n : DirFilter n = dots n.
Proof. done. Qed.

Lemma closed_prefix fs p x : p <> [] -> x <> [] -> is_Some (entries fs !! (p ++ x)) -> entries fs !! p = Some NDir.
Proof.
  intros Hp. induction x as [|n x IH] using rev_ind; [done|]. intros _ Hs. rewrite app_assoc in Hs.
  apply fs_closed in Hs; [|by destruct p]. destruct x as [|m x]; [by rewrite app_nil_r in Hs|].
  apply IH; [done|]. by eexists.
Qed.

Lemma dir_children fs l n mask : all_mask mask -> dir_at fs l ->
  n ∈ sub_names (FindFiles fs (path_str l ++ [bsl] ++ mask)) -> dir_at fs (l ++ [n]) /\ legal n.
Proof.
  intros Hm [(d & names & -> & Hdr & Hne & Hall) _] Hn. unfold sub_names in Hn.
  apply list_elem_of_fmap in Hn as (e & -> & He). apply list_elem_of_In, filter_In in He as [He Hf].
  apply list_elem_of_In in He. apply andb_prop in Hf as [Hd Hf%negb_true_iff].
  rewrite DirFilter_dots in Hf. pose proof (fs_list_sound fs d names mask e Hdr Hne Hall Hm He) as Hs. rewrite Hf in Hs.
  destruct Hs as (Hleg & nd & Hnd & Hk). split; [|done]. split.
  - apply spelled_snoc; [by exists d, names|done].
  - rewrite Hk in Hd. destruct nd; [exact Hnd|done].
Qed.

Lemma dir_children_complete fs l n mask : all_mask mask -> spelled l ->
  FindFiles fs (path_str l ++ [bsl] ++ mask) <> [] -> entries fs !! (place l ++ [n]) = Some NDir ->
  exists m, m ∈ sub_names (FindFiles fs (path_str l ++ [bsl] ++ mask)) /\ upcase m = n.
Proof.
  intros Hm (d & names & -> & Hdr & Hne & Hall) Hh Hs.
  destruct (fs_list_complete fs d names mask n Hdr Hne Hall Hm Hh) as (e & He & Hd & Hu); [by eexists|].
  exists (cFileName e). split; [|done]. apply list_elem_of_fmap. exists e. split; [done|].
  apply list_elem_of_In, filter_In. split; [by apply list_elem_of_In|].
  pose proof (fs_list_sound fs d names mask e Hdr Hne Hall Hm He) as Hx. rewrite Hd in Hx.
  destruct Hx as (_ & nd & Hnd & ->). rewrite DirFilter_dots, Hd, andb_true_r.
  replace (place (d :: names ++ [cFileName e])) with (place (d :: names) ++ [n]) in Hnd.
  2: { rewrite <- Hu. change (d :: names ++ [cFileName e]) with ((d :: names) ++ [cFileName e]). by rewrite map_app. }
  rewrite Hs in Hnd. by injection Hnd as <-.
Qed.

Lemma sub_names_once fs l mask : all_mask mask -> spelled l ->
  NoDup (map upcase (sub_names (FindFiles fs (path_str l ++ [bsl] ++ mask)))).
Proof.
  intros Hm (d & names & -> & Hdr & Hne & Hall). pose proof (fs_list_once fs d names mask Hdr Hne Hall Hm) as Hn.
  revert Hn. generalize (FindFiles fs (path_str (d :: names) ++ [bsl] ++ mask)). intros h.
  unfold sub_names. rewrite map_map. induction h as [|e h IH]; intros Hn; [done|]. cbn [List.filter] in *.
  rewrite DirFilter_dots. destruct (dots (cFileName e)) eqn:E; cbn [negb] in *; rewrite ?andb_false_r, ?andb_true_r.
  { by apply IH. }
  apply NoDup_cons in Hn as [Hni Hn]. destruct (fd_dir e); [|by apply IH]. apply NoDup_cons. split; [|by apply IH].
  intros (x & Hx & Hin)%list_elem_of_fmap. apply Hni, list_elem_of_fmap. exists x. split; [done|].
  apply list_elem_of_In, filter_In in Hin as [Hin Hf]. apply list_elem_of_In, filter_In. split; [done|].
  by apply andb_prop in Hf as [_ Hf].
Qed.

(** ** The walk *)

(** No path of the list is in the directory of another. *)
Definition separate (Q : list path) : Prop :=
  NoDup Q /\ forall a b, a ∈ Q -> b ∈ Q -> a `prefix_of` b -> a = b.

(** How many entries are below the directories of a queue. *)
Definition below fs (Q : list path) : gmap path node :=
  filter (fun kv => Exists (fun q => q `prefix_of` kv.1) Q) (entries fs).

(** A path strictly inside one of the directories. *)
Definition inside (Q : list path) (p : path) : Prop := exists q x, q ∈ Q /\ x <> [] /\ p = q ++ x.

(** Every directory of [R] comes behind its parent, which is in [Q] or in [R]. *)
Definition parents_first (Q R : list path) : Prop :=
  forall R1 r R2, R = R1 ++ r :: R2 -> exists l n, r = l ++ [n] /\ place l ∈ map (map upcase) (Q ++ R1).

Definition kids fs (mask : wstring) l : list path :=
  map (fun n => l ++ [n]) (sub_names (FindFiles fs (path_str l ++ [bsl] ++ mask))).

Lemma kids_str fs mask l : spelled l ->
  found_in (path_str l) (FindFiles fs (path_str l ++ [bsl] ++ mask)) = map path_str (kids fs mask l).
Proof.
  intros Hl. unfold found_in, kids. rewrite map_map. apply map_ext. intros n. by rewrite spelled_str.
Qed.

Lemma kids_dirs fs mask l k : all_mask mask -> dir_at fs l -> k ∈ kids fs mask l ->
  dir_at fs k /\ exists n, k = l ++ [n].
Proof.
  intros Hm Hl (n & -> & Hn)%list_elem_of_fmap. apply dir_children in Hn as [Hd _]; eauto.
Qed.

Lemma kids_places fs mask l : map (map upcase) (kids fs mask l) =
  map (fun n => place l ++ [n]) (map upcase (sub_names (FindFiles fs (path_str l ++ [bsl] ++ mask)))).
Proof. unfold kids. rewrite !map_map. apply map_ext. intros n. by rewrite map_app. Qed.

Lemma snoc_not_prefix (p x : path) n : (p ++ n :: x) `prefix_of` p -> False.
Proof. intros [y Hy]. apply (f_equal List.length) in Hy. rewrite !List.length_app in Hy. simpl in Hy. lia. Qed.

Lemma separate_kids (Q : list path) p ns : NoDup ns -> separate (p :: Q) ->
  separate (Q ++ map (fun n => p ++ [n]) ns).
Proof.
  intros Hns [Hnd Hsep]. apply NoDup_cons in Hnd as [Hp Hnd].
  assert (HpQ : forall b, b ∈ Q -> p `prefix_of` b -> False).
  { intros b Hb Hpb. apply Hp. rewrite (Hsep p b); [done|by left|by right|done]. }
  assert (HQp : forall a n, a ∈ Q -> a `prefix_of` p ++ [n] -> a = p ++ [n]).
  { intros a n Ha [x Hx]. destruct x as [|y x _] using rev_ind; [by rewrite app_nil_r in Hx|].
    rewrite app_assoc in Hx. apply app_inj_tail in Hx as [-> _]. exfalso. apply Hp.
    rewrite <- (Hsep a (a ++ x)); [done|by right|by left|by eexists]. }
  split.
  - apply NoDup_app. split; [done|]. split.
    + intros b Hb (n & -> & _)%list_elem_of_fmap. apply (HpQ _ Hb). by eexists.
    + apply NoDup_fmap; [|done]. intros a b [_ [= E]]%app_inj_tail; congruence.
  - intros a b [Ha|(n & -> & Hn)%list_elem_of_fmap]%elem_of_app [Hb|(m & -> & Hm)%list_elem_of_fmap]%elem_of_app Hab.
    + apply Hsep; [by right..|done].
    + by apply HQp.
    + exfalso. apply (HpQ _ Hb). etrans; [|done]. by eexists.
    + destruct Hab as [x Hx]. rewrite <- app_assoc in Hx. apply app_inv_head in Hx.
      injection Hx as -> _. done.
Qed.

Lemma below_kids fs (Q : list path) p ns : NoDup ns -> separate (p :: Q) -> is_Some (entries fs !! p) ->
  (size (below fs (Q ++ map (fun n => p ++ [n]) ns)) < size (below fs (p :: Q)))%nat.
Proof.
  intros Hns Hsep Hp. apply map_subset_size. split.
  - apply map_subseteq_spec. intros k nd [Hk Hex]%map_lookup_filter_Some. apply map_lookup_filter_Some. split; [done|].
    simpl in *. apply Exists_app in Hex as [Hex|Hex]; [by right|]. left. apply Exists_exists in Hex as (q & Hq & Hpre).
    apply list_elem_of_fmap in Hq as (n & -> & _). etrans; [|done]. by eexists.
  - intros Hsub. destruct Hp as [nd Hnd].
    assert (Hin : below fs (p :: Q) !! p = Some nd) by (apply map_lookup_filter_Some; split; [done|by left]).
    apply (map_subseteq_spec _ _) with (1 := Hsub) in Hin. apply map_lookup_filter_Some in Hin as [_ Hex].
    apply Exists_exists in Hex as (q & Hq & Hpre). apply elem_of_app in Hq as [Hq|Hq].
    + destruct Hsep as [[Hni _]%NoDup_cons Hsep]. apply Hni. rewrite <- (Hsep q p); [done|by right|by left|done].
    + apply list_elem_of_fmap in Hq as (n & -> & _). by apply snoc_not_prefix in Hpre.
Qed.

(** The directories that a walk from [Q] finds. *)
Record walk_of fs (Q R : list path) : Prop := {
  walk_dirs : Forall (dir_at fs) R;
  walk_once : NoDup (map (map upcase) R);
  walk_inside : forall r, r ∈ R -> inside (map (map upcase) Q) (place r);
  walk_all : (forall p, entries fs !! p = Some NDir -> Exists (fun q => place q `prefix_of` p) Q -> free fs p) ->
             forall p, entries fs !! p = Some NDir -> inside (map (map upcase) Q) p -> p ∈ map (map upcase) R;
  walk_order : parents_first Q R
}.

Lemma walk_of_nil fs : walk_of fs [] [].
Proof.
  split; [constructor|constructor| | |by intros []].
  - by intros r ?%elem_of_nil.
  - by intros _ p _ (q & x & ?%elem_of_nil & _).
Qed.

(** A directory that cannot be listed ends the walk. *)
Lemma walk_of_stop fs mask l Q : all_mask mask -> dir_at fs l ->
  FindFiles fs (path_str l ++ [bsl] ++ mask) = [] -> walk_of fs (l :: Q) [].
Proof.
  intros Hm [(d & names & -> & Hdr & Hne & Hall) Hd] E. split; [constructor|constructor|by intros r ?%elem_of_nil| |by intros []].
  intros Hfree. exfalso. apply (fs_list_free fs d names mask) in E; auto.
Qed.

Lemma walk_of_dir fs mask l Q R : all_mask mask -> dir_at fs l ->
  FindFiles fs (path_str l ++ [bsl] ++ mask) <> [] -> separate (map (map upcase) (l :: Q)) ->
  walk_of fs (Q ++ kids fs mask l) R -> walk_of fs (l :: Q) (kids fs mask l ++ R).
Proof.
  intros Hm Hl Hh Hsep [Hdirs Honce Hins Hcomp Hord].
  assert (Hkid : forall k, k ∈ kids fs mask l -> dir_at fs k /\ exists n, k = l ++ [n]) by (intros k Hk; by eapply kids_dirs).
  assert (Hinside : forall p, inside (map (map upcase) (Q ++ kids fs mask l)) p -> inside (map (map upcase) (l :: Q)) p).
  { intros p (q & x & (q' & -> & [Hq|Hq]%elem_of_app)%list_elem_of_fmap & Hx & ->).
    - exists (place q'), x. split; [|done]. right. by apply list_elem_of_fmap_2.
    - destruct (Hkid _ Hq) as [_ [n ->]]. exists (place l), (upcase n :: x).
      rewrite map_app, <- app_assoc. split; [by left|done]. }
  split.
  - apply Forall_app. split; [|done]. apply Forall_forall. intros k Hk. by apply Hkid.
  - rewrite map_app. apply NoDup_app. split; [|split; [|done]].
    + rewrite kids_places. apply NoDup_fmap; [intros a b [_ [= E]]%app_inj_tail; congruence|].
      apply sub_names_once; [done|apply Hl].
    + intros p Hp (r & -> & Hr)%list_elem_of_fmap.
      assert (Hsep' : separate (map (map upcase) (Q ++ kids fs mask l))).
      { rewrite map_app, kids_places. apply separate_kids; [apply sub_names_once; [done|apply Hl]|done]. }
      destruct (Hins _ Hr) as (q & x & Hq & Hx & E). rewrite E in Hp. rewrite map_app in Hq, Hsep'.
      pose proof (proj2 Hsep' q (q ++ x) Hq ltac:(set_solver) ltac:(by eexists)) as Eq.
      apply (f_equal List.length) in Eq. rewrite List.length_app in Eq. destruct x; [done|]. simpl in Eq. lia.
  - intros r [Hr|Hr]%elem_of_app; [|by apply Hinside, Hins].
    destruct (Hkid _ Hr) as [_ [n ->]]. exists (place l), [upcase n]. rewrite map_app. split; [by left|done].
  - intros Hfree p Hp (q & x & Hq & Hx & ->). rewrite map_app.
    assert (Hfree' : forall p, entries fs !! p = Some NDir ->
              Exists (fun q => place q `prefix_of` p) (Q ++ kids fs mask l) -> free fs p).
    { intros p' Hp' [Hex|Hex]%Exists_app; apply Hfree; try done; [by right|]. left.
      apply Exists_exists in Hex as (k & Hk & Hpre). destruct (Hkid _ Hk) as [_ [n ->]].
      etrans; [|done]. rewrite map_app. by eexists. }
    apply elem_of_cons in Hq as [->|Hq].
    + destruct x as [|n x]; [done|].
      assert (Hn : entries fs !! (place l ++ [n]) = Some NDir).
      { destruct x as [|m x]; [done|]. apply (closed_prefix fs _ (m :: x)); [by destruct (place l)|done|].
        rewrite <- app_assoc. by eexists. }
      destruct (dir_children_complete fs l n mask Hm (proj1 Hl) Hh Hn) as (m & Hm' & Hu).
      assert (Hk : place l ++ [n] ∈ map (map upcase) (kids fs mask l)).
      { rewrite kids_places. apply list_elem_of_fmap. exists n. split; [done|]. apply list_elem_of_fmap. by exists m. }
      destruct x as [|y x]; [set_solver|]. apply elem_of_app. right. apply (Hcomp Hfree'); [done|].
      exists (place l ++ [n]), (y :: x). rewrite <- app_assoc, map_app. set_solver.
    + apply elem_of_app. right. apply (Hcomp Hfree'); [done|]. exists q, x. rewrite map_app. set_solver.
  - assert (Hmono : forall p R1, p ∈ map (map upcase) ((Q ++ kids fs mask l) ++ R1) ->
              p ∈ map (map upcase) ((l :: Q) ++ kids fs mask l ++ R1)).
    { intros p R1. rewrite !map_app, map_cons. set_solver. }
    intros R1 r R2 E. apply app_eq_app in E as (w & [[Ek E]|[-> E]]).
    + destruct w as [|r' w].
      * rewrite app_nil_r in Ek. subst R1. destruct (Hord [] r R2 (eq_sym E)) as (l' & n & -> & Hin). exists l', n.
        split; [done|]. apply Hmono in Hin. by rewrite app_nil_r in Hin.
      * injection E as -> ->. destruct (Hkid r') as [_ [n ->]]; [rewrite Ek; set_solver|].
        exists l, n. split; [done|]. rewrite map_app, map_cons. set_solver.
    + destruct (Hord w r R2 E) as (l' & n & -> & Hin). exists l', n. split; [done|]. by apply Hmono.
Qed.

Lemma walk fs mask : all_mask mask -> forall k Q,
  (size (below fs (map (map upcase) Q)) < k)%nat -> Forall (dir_at fs) Q -> separate (map (map upcase) Q) ->
  exists R, walked fs mask (map path_str Q) (map path_str R) /\ walk_of fs Q R.
Proof.
  intros Hm. induction k as [|k IH]; intros Q Hk HQ Hsep; [lia|].
  destruct Q as [|l Q]; [exists []; split; [constructor|apply walk_of_nil]|].
  apply Forall_cons in HQ as [Hl HQ].
  destruct (decide (FindFiles fs (path_str l ++ [bsl] ++ mask) = [])) as [E|Hne].
  { exists []. split; [by constructor|by eapply walk_of_stop]. }
  pose proof (sub_names_once fs l mask Hm (proj1 Hl)) as Honce.
  destruct (IH (Q ++ kids fs mask l)) as (R & Hw & HR).
  - rewrite map_app, kids_places. pose proof (below_kids fs (map (map upcase) Q) (place l) _ Honce Hsep) as Hlt.
    rewrite map_cons in Hk. specialize (Hlt ltac:(eexists; apply Hl)). lia.
  - apply Forall_app. split; [done|]. apply Forall_forall. intros x Hx. by apply kids_dirs in Hx as [Hx _].
  - rewrite map_app, kids_places. by apply separate_kids.
  - exists (kids fs mask l ++ R). split; [|by eapply walk_of_dir].
    rewrite map_app in *. rewrite <- kids_str in * by apply Hl. by apply walked_dir.
Qed.

(** [GetAllSubDir] of a directory ends and gives the directories inside it. *)
Lemma GetAllSubDir_spec fs mask l vec : all_mask mask -> dir_at fs l ->
  exists R n, walk_of fs [l] R /\ forall fuel, (n <= fuel)%nat ->
    GetAllSubDir fuel (path_str l) vec mask fs =
    Ok (0 <? Z.of_nat (List.length (vec ++ map path_str R)), vec ++ map path_str R).
Proof.
  intros Hm Hl. destruct (walk fs mask Hm _ [l] (Nat.lt_succ_diag_r _)) as (R & Hw & HR).
  - by constructor.
  - split; [apply NoDup_singleton|]. intros a b ->%list_elem_of_singleton ->%list_elem_of_singleton. done.
  - destruct (walked_loop fs mask _ _ Hw (path_str l) [] vec eq_refl) as [n Hn].
    exists R, n. split; [done|]. intros fuel Hf. unfold GetAllSubDir. by rewrite Hn.
Qed.
End Tree.
