(* ===== verification/PathRemove.v ===== *)
(** * Removing a directory with its contents

    [ForceRemoveDir] of PathHelper.cpp deletes all files below a directory,
    removes its subdirectories from the innermost on, and then the directory:
    nothing outside it changes, and nothing of it is left when nobody else uses
    it.  Creating the directories of a path is here too. *)
From stdpp Require Import prelude gmap strings.
From Stdlib Require Import ZArith Lia String.
From S2P Require Import Prelude Strings Favorites FilePath FileSystem PathHelper PathWalk.

Section Remove.
Context {F : Type} `{FileSystemLaws F}.
Implicit Types (fs : F) (l : path).

Abbreviation place l := (map upcase l).

(** ** Files *)

Definition files_of fs (mask : wstring) l : list path :=
  map (fun e => l ++ [cFileName e])
    (List.filter (fun e => negb (fd_dir e)) (FindFiles fs (path_str l ++ [bsl] ++ mask))).

Lemma GetDirFile_files fs mask l : spelled l ->
  snd (GetDirFile (path_str l) mask fs) = map path_str (files_of fs mask l).
Proof.
  intros Hl. unfold GetDirFile, files_of. cbn [snd].
  induction (FindFiles fs _) as [|e h IH]; [done|]. cbn [flat_map List.filter].
  destruct (fd_dir e); cbn [negb app]; [done|]. rewrite !map_cons, spelled_str by done. by f_equal.
Qed.

Lemma files_of_files fs mask l f : all_mask mask -> spelled l -> f ∈ files_of fs mask l ->
  spelled f /\ (exists n, f = l ++ [n]) /\ exists c, entries fs !! place f = Some (NFile c).
Proof.
  intros Hm Hl (e & -> & He)%list_elem_of_fmap. apply list_elem_of_In, filter_In in He as [He%list_elem_of_In Hf].
  destruct Hl as (d & names & -> & Hdr & Hne & Hall). pose proof (fs_list_sound fs d names mask e Hdr Hne Hall Hm He) as Hs.
  apply negb_true_iff in Hf. destruct (dots (cFileName e)); [congruence|]. destruct Hs as (Hleg & nd & Hnd & Hk).
  split; [|split; [by eexists|]].
  - apply spelled_snoc; [by exists d, names|done].
  - destruct nd as [|c]; [by rewrite Hk in Hf|]. exists c. exact Hnd.
Qed.

Lemma files_of_complete fs mask l n c : all_mask mask -> spelled l ->
  FindFiles fs (path_str l ++ [bsl] ++ mask) <> [] -> entries fs !! (place l ++ [n]) = Some (NFile c) ->
  place l ++ [n] ∈ map (map upcase) (files_of fs mask l).
Proof.
  intros Hm (d & names & -> & Hdr & Hne & Hall) Hh Hn.
  destruct (fs_list_complete fs d names mask n Hdr Hne Hall Hm Hh) as (e & He & Hd & Hu); [by eexists|].
  pose proof (fs_list_sound fs d names mask e Hdr Hne Hall Hm He) as Hs. rewrite Hd in Hs. destruct Hs as (_ & nd & Hnd & Hk).
  assert (Ep : place ((d :: names) ++ [cFileName e]) = place (d :: names) ++ [n]) by (rewrite map_app, <- Hu; done).
  change (d :: names ++ [cFileName e]) with ((d :: names) ++ [cFileName e]) in Hnd. rewrite Ep, Hn in Hnd.
  injection Hnd as <-. apply list_elem_of_fmap. exists ((d :: names) ++ [cFileName e]). split; [done|].
  apply list_elem_of_fmap. exists e. split; [done|]. apply list_elem_of_In, filter_In.
  split; [by apply list_elem_of_In|]. by rewrite Hk.
Qed.

(** ** Loops of removals *)

(** What stays the same when entries of a list are removed. *)
Record trimmed (L : list path) fs fs' : Prop := {
  trimmed_free : forall q, free fs q -> free fs' q;
  trimmed_sub : entries fs' ⊆ entries fs;
  trimmed_rest : forall p, (p ∉ map (map upcase) L) -> entries fs' !! p = entries fs !! p
}.

Lemma trimmed_refl L fs : trimmed L fs fs.
Proof. by split. Qed.

Lemma trimmed_trans L1 L2 fs1 fs2 fs3 : trimmed L1 fs1 fs2 -> trimmed L2 fs2 fs3 -> trimmed (L1 ++ L2) fs1 fs3.
Proof.
  intros [Hf1 Hs1 Hr1] [Hf2 Hs2 Hr2]. split; [auto|by etrans|]. intros p. rewrite map_app, not_elem_of_app.
  intros [Hp1 Hp2]. by rewrite Hr2, Hr1.
Qed.

Lemma trimmed_delete l fs fs' : (forall q, free fs q -> free fs' q) ->
  entries fs' = delete (place l) (entries fs) \/ entries fs' = entries fs -> trimmed [l] fs fs'.
Proof.
  intros Hf [E|E]; split; try done; rewrite E; try done.
  - apply delete_subseteq.
  - intros p Hp. apply lookup_delete_ne. intros <-. apply Hp. by left.
Qed.

Lemma delete_one fs l : spelled l -> let fs' := snd (DeleteFileW (path_str l) fs) in
  trimmed [l] fs fs' /\ (forall p, entries fs !! p = Some NDir -> entries fs' !! p = Some NDir) /\
  (free fs (place l) -> forall c, entries fs' !! place l <> Some (NFile c)).
Proof.
  intros (d & names & -> & Hdr & Hne & Hall). pose proof (fs_delete fs d names Hdr Hne Hall) as Hd.
  destruct (DeleteFileW (path_str (d :: names)) fs) as [ok fs']. cbn zeta in *. cbn [snd].
  destruct Hd as [Hf Hd]. destruct ok.
  - destruct Hd as [[c Hc] E]. split; [apply trimmed_delete; auto|]. rewrite E. split.
    + intros p Hp. rewrite lookup_delete_ne by congruence. done.
    + intros _ c'. by rewrite lookup_delete_eq.
  - destruct Hd as [E Hno]. split; [apply trimmed_delete; auto|]. rewrite E. auto.
Qed.

Lemma delete_files L : Forall spelled L -> forall b fs,
  let fs' := snd (fold_left (fun st p => DeleteFileW p (snd st)) (map path_str L) (b, fs)) in
  trimmed L fs fs' /\ (forall p, entries fs !! p = Some NDir -> entries fs' !! p = Some NDir) /\
  (forall l, l ∈ L -> free fs (place l) -> forall c, entries fs' !! place l <> Some (NFile c)).
Proof.
  induction 1 as [|l L Hl _ IH]; intros b fs; cbn zeta; cbn [map fold_left snd].
  { split; [apply trimmed_refl|]. split; [done|]. by intros l ?%elem_of_nil. }
  destruct (delete_one fs l Hl) as (Ht & Hdir & Hgone). cbn zeta in *.
  destruct (DeleteFileW (path_str l) fs) as [ok fs1]. cbn [snd] in *. destruct (IH ok fs1) as (Ht2 & Hdir2 & Hgone2).
  split; [by apply (trimmed_trans [l] L _ fs1)|]. split; [auto|].
  intros x [->|Hx]%elem_of_cons Hf c Hc.
  - apply (Hgone Hf c). by apply (lookup_weaken _ _ _ _ Hc), Ht2.
  - apply (Hgone2 x Hx) in Hc; [done|]. by apply Ht.
Qed.

Lemma rmdir_one fs l : spelled l -> let r := RemoveDirectoryW (path_str l) fs in
  trimmed [l] fs (snd r) /\
  (free fs (place l) -> entries fs !! place l = Some NDir -> (forall n, entries fs !! (place l ++ [n]) = None) ->
   fst r = true /\ entries (snd r) = delete (place l) (entries fs)).
Proof.
  intros (d & names & -> & Hdr & Hne & Hall). pose proof (fs_rmdir fs d names Hdr Hne Hall) as Hd.
  destruct (RemoveDirectoryW (path_str (d :: names)) fs) as [ok fs']. cbn zeta in *. cbn [fst snd].
  destruct Hd as [Hf Hd]. destruct ok.
  - destruct Hd as (_ & _ & E). split; [apply trimmed_delete; auto|done].
  - destruct Hd as [E Hno]. split; [apply trimmed_delete; auto|]. intros Hfr Hdir Hempty.
    destruct (Hno Hfr Hdir) as [n [nd Hn]]. by rewrite Hempty in Hn.
Qed.

(** Every entry in a directory of [L] comes before it in [L]. *)
Definition contents_first fs (L : list path) : Prop :=
  forall L1 l L2, L = L1 ++ l :: L2 -> forall n, is_Some (entries fs !! (place l ++ [n])) ->
  place l ++ [n] ∈ map (map upcase) L1.

Lemma remove_dirs L : Forall spelled L -> forall b fs,
  let fs' := snd (fold_left (fun st p => RemoveDirectoryW p (snd st)) (map path_str L) (b, fs)) in
  trimmed L fs fs' /\
  (Forall (fun l => free fs (place l) /\ entries fs !! place l = Some NDir) L -> NoDup (map (map upcase) L) ->
   contents_first fs L -> forall l, l ∈ L -> entries fs' !! place l = None).
Proof.
  induction 1 as [|l L Hl _ IH]; intros b fs; cbn zeta; cbn [map fold_left snd].
  { split; [apply trimmed_refl|]. by intros _ _ _ l ?%elem_of_nil. }
  destruct (rmdir_one fs l Hl) as (Ht & Hgone). cbn zeta in *.
  destruct (RemoveDirectoryW (path_str l) fs) as [ok fs1]. cbn [fst snd] in *. destruct (IH ok fs1) as (Ht2 & Hgone2).
  split; [by apply (trimmed_trans [l] L _ fs1)|]. intros Hall Hnd Hfirst.
  apply Forall_cons in Hall as [[Hf Hd] Hall]. apply NoDup_cons in Hnd as [Hni Hnd].
  destruct Hgone as [_ E]; [done..| |].
  { intros n. apply eq_None_not_Some. intros Hs. by apply (Hfirst [] l L eq_refl), elem_of_nil in Hs. }
  assert (Hnone : entries (snd (fold_left (fun st p => RemoveDirectoryW p (snd st)) (map path_str L) (ok, fs1))) !! place l = None).
  { rewrite (trimmed_rest _ _ _ Ht2) by done. by rewrite E, lookup_delete_eq. }
  intros x [->|Hx]%elem_of_cons; [done|]. apply Hgone2; [|done| |done].
  - apply Forall_forall. intros y Hy. rewrite Forall_forall in Hall. destruct (Hall y Hy) as [Hfy Hdy].
    split; [by apply Ht|]. rewrite E, lookup_delete_ne; [done|]. intros Ey. apply Hni. rewrite Ey.
    by apply list_elem_of_fmap_2.
  - intros L1 y L2 -> n [nd Hn]. rewrite E in Hn. apply lookup_delete_Some in Hn as [Hne Hn].
    specialize (Hfirst (l :: L1) y L2 eq_refl n ltac:(by eexists)). cbn [map] in Hfirst.
    apply elem_of_cons in Hfirst as [Ey|Hin]; [congruence|done].
Qed.

(** ** [ForceRemoveDir] *)

(** Nobody else uses what is in the directory, or the directory. *)
Definition all_free fs l : Prop := forall p, is_Some (entries fs !! p) -> place l `prefix_of` p -> free fs p.

Lemma star_mask : all_mask (lit "*").
Proof. by left. Qed.

Lemma star_dot_star_mask : all_mask (lit "*.*").
Proof. by right. Qed.

#[local] Hint Resolve star_mask star_dot_star_mask : core.

Lemma listed_free fs l mask : all_mask mask -> dir_at fs l -> free fs (place l) ->
  FindFiles fs (path_str l ++ [bsl] ++ mask) <> [].
Proof. intros Hm [(d & names & -> & Hdr & Hne & Hall) Hd] Hf. by apply fs_list_free. Qed.

Lemma walk_all_free fs l R p : walk_of fs [l] R -> all_free fs l ->
  entries fs !! p = Some NDir -> inside [place l] p -> p ∈ map (map upcase) R.
Proof.
  intros HR Hf Hp Hin. apply (walk_all _ _ _ HR); [|done|done]. intros q Hq Hex. apply Hf; [by eexists|].
  apply Exists_exists in Hex as (x & ->%list_elem_of_singleton & Hx). done.
Qed.

Lemma walk_cover fs l R x : walk_of fs [l] R -> all_free fs l -> entries fs !! (place l ++ x) = Some NDir ->
  exists y, y ∈ R ++ [l] /\ place y = place l ++ x.
Proof.
  intros HR Hfree Hd. destruct x as [|k x].
  - exists l. rewrite app_nil_r. set_solver.
  - assert (Hi : place l ++ k :: x ∈ map (map upcase) R).
    { eapply walk_all_free; eauto. exists (place l), (k :: x). split; [by left|done]. }
    apply list_elem_of_fmap in Hi as (y & Ey & Hy). exists y. set_solver.
Qed.

Lemma place_app_ne l x : spelled l -> place l ++ x <> [].
Proof. by intros (d & names & -> & _). Qed.

Lemma walk_dir_at fs l R x : dir_at fs l -> walk_of fs [l] R -> x ∈ R ++ [l] -> dir_at fs x.
Proof.
  intros Hl HR [Hx| ->%list_elem_of_singleton]%elem_of_app; [|done].
  pose proof (walk_dirs _ _ _ HR) as Hw. rewrite Forall_forall in Hw. auto.
Qed.

Lemma files_cover fs l R x c : dir_at fs l -> walk_of fs [l] R -> all_free fs l -> x <> [] ->
  entries fs !! (place l ++ x) = Some (NFile c) ->
  place l ++ x ∈ map (map upcase) (flat_map (files_of fs (lit "*.*")) (R ++ [l])).
Proof.
  intros Hl HR Hfree Hx Hp. destruct x as [|m x _] using rev_ind; [done|]. rewrite app_assoc in Hp |- *.
  assert (Hd : entries fs !! (place l ++ x) = Some NDir).
  { apply (closed_prefix fs _ [m]); [|done|by eexists]. apply place_app_ne, Hl. }
  destruct (walk_cover fs l R x HR Hfree Hd) as (y & Hy & Ey). rewrite <- Ey in *.
  pose proof (walk_dir_at fs l R y Hl HR Hy) as Hyd.
  assert (Hc : place y ++ [m] ∈ map (map upcase) (files_of fs (lit "*.*") y)).
  { eapply files_of_complete; [done|apply Hyd| |done]. apply listed_free; [done..|].
    apply Hfree; [by eexists|]. rewrite Ey. by eexists. }
  apply list_elem_of_fmap in Hc as (f & Ef & Hf). apply list_elem_of_fmap. exists f. split; [done|].
  apply list_elem_of_In, in_flat_map. exists y. split; by apply list_elem_of_In.
Qed.

Lemma RemoveDirAllFile_spec fs l : dir_at fs l ->
  exists L b fs' n, (forall fuel, (n <= fuel)%nat -> RemoveDirAllFile fuel (path_str l) fs = Ok (b, fs')) /\
    (forall f, f ∈ L -> inside [place l] (place f)) /\ trimmed L fs fs' /\
    (forall p, entries fs !! p = Some NDir -> entries fs' !! p = Some NDir) /\
    (all_free fs l -> forall p c, inside [place l] p -> entries fs' !! p <> Some (NFile c)).
Proof.
  intros Hl. destruct (GetAllSubDir_spec fs (lit "*") l [] star_mask Hl) as (R & n & HR & Hn).
  set (L := flat_map (files_of fs (lit "*.*")) (R ++ [l])).
  assert (Hdirs : forall x, x ∈ R ++ [l] -> dir_at fs x).
  { intros x Hx. by eapply walk_dir_at. }
  assert (HL : forall f, f ∈ L -> exists x, x ∈ R ++ [l] /\ f ∈ files_of fs (lit "*.*") x).
  { intros f Hf. unfold L in Hf. by apply list_elem_of_In, in_flat_map in Hf as (x & Hx%list_elem_of_In & Hf%list_elem_of_In); eauto. }
  assert (Hspell : Forall spelled L).
  { apply Forall_forall. intros f (x & Hx & Hf)%HL. apply files_of_files in Hf as [Hf _]; [done|done|apply Hdirs, Hx]. }
  assert (Hfiles : flat_map (fun d => snd (GetDirFile d (lit "*.*") fs)) (map path_str R ++ [path_str l]) = map path_str L).
  { unfold L. replace (map path_str R ++ [path_str l]) with (map path_str (R ++ [l])) by by rewrite map_app.
    revert Hdirs. generalize (R ++ [l]). intros D. induction D as [|x D IH]; intros HD; [done|]. cbn [map flat_map].
    rewrite map_app, <- IH by (intros y Hy; apply HD; by right). f_equal. apply GetDirFile_files, HD. by left. }
  destruct (delete_files L Hspell (0 <? Z.of_nat (List.length (map path_str L))) fs) as (Ht & Hdir & Hgone). cbn zeta in *.
  exists L. do 2 eexists. exists n. split; [|split; [|split; [exact Ht|split; [exact Hdir|]]]].
  - intros fuel Hf. unfold RemoveDirAllFile, GetAllFile. rewrite Hn by done. rewrite !Ok_bind. cbn [fst snd app].
    rewrite Hfiles. by rewrite <- surjective_pairing.
  - intros f (x & Hx & Hf)%HL. apply files_of_files in Hf as (_ & [m ->] & _); [|done|apply Hdirs, Hx].
    rewrite map_app. apply elem_of_app in Hx as [Hx| ->%list_elem_of_singleton].
    + destruct (walk_inside _ _ _ HR x Hx) as (q & y & Hq & Hy & E). exists q, (y ++ [upcase m]).
      rewrite E, <- app_assoc. split; [done|]. by destruct y.
    + exists (place l), [upcase m]. split; [by left|done].
  - intros Hfree p c (q & x & ->%list_elem_of_singleton & Hx & ->) Hp.
    pose proof (lookup_weaken _ _ _ _ Hp (trimmed_sub _ _ _ Ht)) as Hp0.
    pose proof (files_cover fs l R x c Hl HR Hfree Hx Hp0) as Hin.
    apply list_elem_of_fmap in Hin as (f & Ef & Hf). rewrite Ef in *. apply (Hgone f Hf) in Hp; [done|].
    apply Hfree; [by eexists|]. rewrite <- Ef. by eexists.
Qed.

(** The reversed walk has the contents of a directory before it. *)
Lemma walk_contents_first fs l R : dir_at fs l -> walk_of fs [l] R -> all_free fs l ->
  (forall p c, inside [place l] p -> entries fs !! p <> Some (NFile c)) -> contents_first fs (rev R).
Proof.
  intros Hl HR Hfree Hnofile L1 r L2 E n [nd Hn].
  assert (Er : R = rev L2 ++ r :: rev L1).
  { rewrite <- (rev_involutive R), E, rev_app_distr. simpl. by rewrite <- app_assoc. }
  assert (Hr : r ∈ R) by (rewrite Er; set_solver).
  destruct (walk_inside _ _ _ HR r Hr) as (q & x & ->%list_elem_of_singleton & Hx & Ex).
  assert (Hin : inside [place l] (place r ++ [n])).
  { exists (place l), (x ++ [n]). rewrite Ex, <- app_assoc. split; [by left|]. by destruct x. }
  assert (Hk : place r ++ [n] ∈ map (map upcase) R).
  { destruct nd as [|c]; [|by apply Hnofile in Hn]. by eapply walk_all_free. }
  apply list_elem_of_fmap in Hk as (k & Ek & Hk). rewrite Er in Hk.
  pose proof (walk_once _ _ _ HR) as Hnd.
  apply elem_of_app in Hk as [Hk|[->|Hk]%elem_of_cons].
  - exfalso. apply list_elem_of_split in Hk as (A & B & EA).
    destruct (walk_order _ _ _ HR A k (B ++ r :: rev L1)) as (p & m & -> & Hp).
    { by rewrite Er, EA, <- app_assoc. }
    rewrite map_app in Ek. apply app_inj_tail in Ek as [Ep _]. rewrite <- Ep in Hp.
    cbn [app map] in Hp. apply elem_of_cons in Hp as [Hp|Hp].
    + rewrite Hp in Ex. apply (f_equal List.length) in Ex. rewrite List.length_app in Ex. destruct x; [done|]. simpl in Ex. lia.
    + rewrite Er, EA in Hnd. rewrite !map_app in Hnd. apply NoDup_app in Hnd as (_ & Hdis & _).
      apply (Hdis (place r)); [apply elem_of_app; by left|by left].
  - apply (f_equal List.length) in Ek. rewrite List.length_app in Ek. simpl in Ek. lia.
  - rewrite Ek. apply list_elem_of_fmap_2. by rewrite list_elem_of_In, in_rev, <- list_elem_of_In.
Qed.

Lemma RemoveDirAllSubDir_spec fs l : dir_at fs l ->
  exists R b fs' n, (forall fuel, (n <= fuel)%nat -> RemoveDirAllSubDir fuel (path_str l) fs = Ok (b, fs')) /\
    (forall r, r ∈ R -> inside [place l] (place r)) /\ trimmed R fs fs' /\
    (all_free fs l -> (forall p c, inside [place l] p -> entries fs !! p <> Some (NFile c)) ->
     forall p, inside [place l] p -> entries fs' !! p = None).
Proof.
  intros Hl. destruct (GetAllSubDir_spec fs (lit "*") l [] star_mask Hl) as (R & n & HR & Hn).
  assert (Hspell : Forall spelled (rev R)).
  { apply Forall_forall. intros r Hr. rewrite list_elem_of_In, <- in_rev, <- list_elem_of_In in Hr.
    apply (walk_dir_at fs l R r Hl HR). by apply elem_of_app; left. }
  destruct (remove_dirs (rev R) Hspell (0 <? Z.of_nat (List.length (map path_str R))) fs) as (Ht & Hgone). cbn zeta in *.
  set (res := fold_left _ (map path_str (rev R)) _) in *.
  exists (rev R), (match R with [] => true | _ => fst res end), (snd res), n. split; [|split; [|split; [exact Ht|]]].
  - intros fuel Hf. unfold RemoveDirAllSubDir. rewrite Hn by done. rewrite Ok_bind. cbn [fst snd app].
    destruct R as [|x R]; [done|]. cbn [map]. rewrite <- surjective_pairing. unfold res. by rewrite map_rev.
  - intros r Hr. rewrite list_elem_of_In, <- in_rev, <- list_elem_of_In in Hr. by apply (walk_inside _ _ _ HR).
  - intros Hfree Hnofile p Hin. destruct (entries fs !! p) as [nd|] eqn:Ep.
    2: { apply eq_None_not_Some. intros [nd Hs]. pose proof (lookup_weaken _ _ _ _ Hs (trimmed_sub _ _ _ Ht)). congruence. }
    destruct nd as [|c]; [|by apply Hnofile in Ep]. pose proof (walk_all_free fs l R p HR Hfree Ep Hin) as Hp.
    apply list_elem_of_fmap in Hp as (r & -> & Hr). apply Hgone.
    + apply Forall_forall. intros y Hy. rewrite list_elem_of_In, <- in_rev, <- list_elem_of_In in Hy.
      destruct (walk_dir_at fs l R y Hl HR) as [_ Hd]; [by apply elem_of_app; left|]. split; [|done].
      apply Hfree; [by eexists|]. destruct (walk_inside _ _ _ HR y Hy) as (q & x & ->%list_elem_of_singleton & _ & ->).
      by eexists.
    + rewrite map_rev. apply NoDup_ListNoDup, List.NoDup_rev, NoDup_ListNoDup, (walk_once _ _ _ HR).
    + by eapply walk_contents_first.
    + by rewrite list_elem_of_In, <- in_rev, <- list_elem_of_In.
Qed.

Lemma inside_prefix p q : inside [q] p -> q `prefix_of` p.
Proof. intros (x & y & ->%list_elem_of_singleton & _ & ->). by eexists. Qed.

Lemma trimmed_inside L fs fs' l p : (forall r, r ∈ L -> inside [place l] (place r)) -> trimmed L fs fs' ->
  ~ inside [place l] p -> entries fs' !! p = entries fs !! p.
Proof. intros HL Ht Hp. apply (trimmed_rest _ _ _ Ht). intros (r & -> & Hr)%list_elem_of_fmap. by apply Hp, HL. Qed.

Lemma trimmed_all_free L fs fs' l : trimmed L fs fs' -> all_free fs l -> all_free fs' l.
Proof.
  intros Ht Hf p [nd Hp] Hpre. apply (trimmed_free _ _ _ Ht), Hf; [|done]. exists nd.
  by apply (lookup_weaken _ _ _ _ Hp), Ht.
Qed.

Lemma self_not_inside (p : path) : ~ inside [p] p.
Proof.
  intros (q & x & ->%list_elem_of_singleton & Hx & E). apply (f_equal List.length) in E.
  rewrite List.length_app in E. destruct x; [done|]. simpl in E. lia.
Qed.

Lemma ForceRemoveDir_spec fs l : dir_at fs l ->
  exists b fs' n, (forall fuel, (n <= fuel)%nat -> ForceRemoveDir fuel (path_str l) fs = Ok (b, fs')) /\
    (forall q, free fs q -> free fs' q) /\ entries fs' ⊆ entries fs /\
    (forall p, ~ place l `prefix_of` p -> entries fs' !! p = entries fs !! p) /\
    (all_free fs l -> b = true /\ forall p, place l `prefix_of` p -> entries fs' !! p = None).
Proof.
  intros Hl. destruct (RemoveDirAllFile_spec fs l Hl) as (L & b1 & fs1 & n1 & H1 & HL & Ht1 & Hdir & Hnofile).
  assert (Hl1 : dir_at fs1 l) by (split; [apply Hl|apply Hdir, Hl]).
  destruct (RemoveDirAllSubDir_spec fs1 l Hl1) as (R & b2 & fs2 & n2 & H2 & HR & Ht2 & Hgone).
  destruct (rmdir_one fs2 l (proj1 Hl)) as (Ht3 & Hlast). cbn zeta in *.
  pose proof (trimmed_trans _ _ _ _ _ (trimmed_trans _ _ _ _ _ Ht1 Ht2) Ht3) as Ht.
  exists (fst (RemoveDirectoryW (path_str l) fs2)), (snd (RemoveDirectoryW (path_str l) fs2)), (Nat.max n1 n2).
  split; [|split; [apply Ht|split; [apply Ht|split]]].
  - intros fuel Hf. unfold ForceRemoveDir. rewrite H1 by lia. rewrite Ok_bind. cbn [snd].
    rewrite H2 by lia. rewrite Ok_bind. cbn [snd]. by rewrite <- surjective_pairing.
  - intros p Hp. rewrite (trimmed_rest _ _ _ Ht3).
    + rewrite (trimmed_inside R fs1 fs2 l p HR Ht2), (trimmed_inside L fs fs1 l p HL Ht1); [done|..];
        intros ?%inside_prefix; done.
    + intros ->%list_elem_of_singleton. by apply Hp.
  - intros Hfree. pose proof (trimmed_all_free _ _ _ _ Ht1 Hfree) as Hfree1.
    pose proof (trimmed_all_free _ _ _ _ Ht2 Hfree1) as Hfree2.
    specialize (Hgone Hfree1 (Hnofile Hfree)).
    assert (Hd2 : entries fs2 !! place l = Some NDir).
    { rewrite (trimmed_inside R fs1 fs2 l _ HR Ht2 (self_not_inside _)). apply Hl1. }
    destruct Hlast as [-> E].
    + by apply Hfree2; [eexists|].
    + done.
    + intros n. apply Hgone. exists (place l), [n]. split; [by left|done].
    + split; [done|]. intros p [x ->]. rewrite E. destruct x as [|k x].
      * by rewrite app_nil_r, lookup_delete_eq.
      * rewrite lookup_delete_ne; [|intros Ep; symmetry in Ep; by apply (self_not_inside (place l)); exists (place l), (k :: x); split; [by left|]].
        apply Hgone. exists (place l), (k :: x). split; [by left|done].
Qed.

(** A directory that is not there. *)
Lemma ForceRemoveDir_none fs l : spelled l -> entries fs !! place l = None ->
  exists b fs', (forall fuel, (1 <= fuel)%nat -> ForceRemoveDir fuel (path_str l) fs = Ok (b, fs')) /\
    entries fs' = entries fs /\ (forall q, free fs q -> free fs' q).
Proof.
  intros Hl Hnone. exists (fst (RemoveDirectoryW (path_str l) fs)), (snd (RemoveDirectoryW (path_str l) fs)).
  split.
  2: { destruct Hl as (d & names & -> & Hdr & Hne & Hall). pose proof (fs_rmdir fs d names Hdr Hne Hall) as Hd. cbn zeta in Hd.
       destruct (RemoveDirectoryW (path_str (d :: names)) fs) as [ok fs']. destruct Hd as [Hf Hd]. cbn [snd].
       destruct ok; [|by split; [apply Hd|]]. destruct Hd as [Hd _]. by rewrite Hnone in Hd. }
  intros [|fuel] Hfuel; [lia|]. rewrite <- surjective_pairing. assert (E : forall m fs, all_mask m -> entries fs !! place l = None ->
    FindFiles fs (path_str l ++ [bsl] ++ m) = []).
  { destruct Hl as (d & names & -> & Hdr & Hne & Hall). intros m fs0 Hm Hn0. apply fs_list_none; try done. congruence. }
  assert (ES : GetAllSubDir (S fuel) (path_str l) [] (lit "*") fs = Ok (false, [])).
  { unfold GetAllSubDir. by rewrite E. }
  assert (EF : snd (GetDirFile (path_str l) (lit "*.*") fs) = []) by (unfold GetDirFile; by rewrite E).
  assert (EA : RemoveDirAllFile (S fuel) (path_str l) fs = Ok (false, fs)).
  { unfold RemoveDirAllFile, GetAllFile. rewrite ES, !Ok_bind. cbn [fst snd app flat_map]. by rewrite EF. }
  assert (ED : RemoveDirAllSubDir (S fuel) (path_str l) fs = Ok (true, fs)) by (unfold RemoveDirAllSubDir; by rewrite ES).
  unfold ForceRemoveDir. rewrite EA, Ok_bind. cbn [snd]. rewrite ED, Ok_bind. done.
Qed.

(** ** Creating the directories of a path *)

Fixpoint inits_from (acc l : path) : list path :=
  match l with
  | [] => []
  | n :: l => (acc ++ [n]) :: inits_from (acc ++ [n]) l
  end.

Lemma inits_snoc acc l n : inits_from acc (l ++ [n]) = inits_from acc l ++ [acc ++ l ++ [n]].
Proof.
  revert acc. induction l as [|m l IH]; intros acc; [done|]. cbn [inits_from app]. rewrite IH. simpl.
  by rewrite <- app_assoc.
Qed.

Lemma level_plain n t v : (bsl ∉ n) -> fold_left level_step n (t, v) = (t ++ n, v).
Proof.
  revert t. induction n as [|c n IH]; intros t Hn; cbn [fold_left]; [by rewrite app_nil_r|].
  apply not_elem_of_cons in Hn as [Hc Hn]. unfold level_step at 2.
  rewrite (proj2 (Z.eqb_neq c bsl)) by congruence. cbn [negb]. rewrite IH by done. by rewrite <- app_assoc.
Qed.

Lemma level_all d names : (bsl ∉ d) -> Forall legal names ->
  fold_left level_step (path_str (d :: names) ++ [bsl]) ([], []) =
  (path_str (d :: names) ++ [bsl], map path_str (inits_from [] (d :: names))).
Proof.
  intros Hd Hall. induction names as [|n names IH] using rev_ind.
  - change (path_str [d]) with d. rewrite fold_left_app, level_plain by done. done.
  - apply Forall_app in Hall as [Hall [Hn _]%Forall_cons].
    change (d :: names ++ [n]) with ((d :: names) ++ [n]). rewrite path_str_snoc, inits_snoc by done.
    replace ((path_str (d :: names) ++ [bsl] ++ n) ++ [bsl]) with ((path_str (d :: names) ++ [bsl]) ++ n ++ [bsl])
      by by rewrite <- !app_assoc.
    rewrite (fold_left_app level_step (path_str (d :: names) ++ [bsl])), IH by done.
    rewrite fold_left_app, level_plain by (by apply legal_name in Hn as (_ & ? & _)).
    cbn [fold_left level_step]. rewrite Z.eqb_refl. cbn [negb]. rewrite map_app. cbn [map app].
    rewrite <- !app_assoc. f_equal. f_equal. f_equal. change (d :: names ++ [n]) with ((d :: names) ++ [n]).
    by rewrite path_str_snoc.
Qed.

Lemma level_paths_str d names : (bsl ∉ d) -> names <> [] -> Forall legal names ->
  level_paths (path_str (d :: names)) = Ok (map path_str (inits_from [] (d :: names))).
Proof.
  intros Hd Hne Hall. unfold level_paths, close_path.
  destruct names as [|n names _] using rev_ind; [done|]. pose proof Hall as Hall'.
  apply Forall_app in Hall' as [_ [Hn _]%Forall_cons]. apply legal_name in Hn as (Hn & Hb & _).
  destruct n as [|c n _] using rev_ind; [done|].
  assert (E : exists s, path_str (d :: names ++ [n ++ [c]]) = s ++ [c]).
  { change (d :: names ++ [n ++ [c]]) with ((d :: names) ++ [n ++ [c]]). rewrite path_str_snoc by done.
    eexists. by rewrite !app_assoc. }
  destruct E as [s E]. rewrite (proj2 (vec_at_Ok (path_str (d :: names ++ [n ++ [c]])) _ c)).
  - rewrite Ok_bind. rewrite (proj2 (Z.eqb_neq c bsl)) by set_solver. cbn [negb]. rewrite Ok_bind.
    by rewrite level_all by done.
  - rewrite E, List.length_app. split; [simpl; lia|]. replace (Z.to_nat _) with (List.length s) by (simpl; lia).
    by rewrite lookup_app_r, Nat.sub_diag by lia.
Qed.

(** Every directory of the path is there and may be filled, or there is nothing. *)
Definition openable fs (p : path) : Prop :=
  forall q, q <> [] -> q `prefix_of` p -> entries fs !! q = Some NDir /\ free fs q \/ entries fs !! q = None.

(** The tree with all directories of the path. *)
Definition has_dirs fs (p : path) fs' : Prop :=
  (forall q, free fs q -> free fs' q) /\
  (forall q, q <> [] -> q `prefix_of` p -> free fs' q) /\
  forall q, entries fs' !! q = if bool_decide (q <> [] /\ q `prefix_of` p) then Some NDir else entries fs !! q.

Lemma prefix_snoc (q p : path) n : q `prefix_of` p ++ [n] <-> q `prefix_of` p \/ q = p ++ [n].
Proof.
  split.
  - intros [x Hx]. destruct x as [|y x _] using rev_ind; [right; by rewrite app_nil_r in Hx|].
    rewrite app_assoc in Hx. apply app_inj_tail in Hx as [-> _]. left. by eexists.
  - intros [Hq| ->]; [|done]. etrans; [done|]. by eexists.
Qed.

Lemma openable_prefix fs p q : openable fs p -> q `prefix_of` p -> openable fs q.
Proof. intros Ho Hq x Hx Hpre. apply Ho; [done|]. by etrans. Qed.

Lemma make_dirs d names fs b : drive d -> Forall legal names -> short (d :: names) ->
  openable fs (place (d :: names)) -> entries fs !! place [d] = Some NDir ->
  let r := fold_left (fun st p => CreateDirectoryW p (snd st)) (map path_str (inits_from [] (d :: names))) (b, fs) in
  has_dirs fs (place (d :: names)) (snd r) /\ fst r = bool_decide (entries fs !! place (d :: names) = None).
Proof.
  intros Hdr Hall Hsh Ho Hd. induction names as [|n names IH] using rev_ind.
  - cbn zeta. cbn [inits_from map fold_left app snd]. change (path_str [d]) with d. pose proof (fs_drive fs d Hdr) as Hx.
    destruct (CreateDirectoryW d fs) as [ok fs']. destruct Hx as (Hf & E & ->). cbn [fst snd]. split.
    + assert (Hq : forall q, q <> [] -> q `prefix_of` place [d] -> q = place [d]).
      { intros q Hq Hpre. change (place [d]) with ([] ++ [upcase d]) in Hpre. apply prefix_snoc in Hpre as [Hpre|Hpre]; [|done].
        by apply prefix_nil_inv in Hpre. }
      split; [done|]. split.
      * intros q Hne Hpre. apply Hf. destruct (Ho q Hne Hpre) as [[_ ?]|E0]; [done|]. rewrite (Hq q) in E0 by done. congruence.
      * intros q. rewrite E. case_bool_decide as Hb; [|done]. by rewrite (Hq q (proj1 Hb) (proj2 Hb)).
    + rewrite bool_decide_eq_false_2; [done|]. intros E0. change (entries fs !! place [d] = None) in E0. congruence.
  - apply Forall_app in Hall as [Hall [Hn _]%Forall_cons].
    change (d :: names ++ [n]) with ((d :: names) ++ [n]) in *. rewrite map_app in Ho |- *. cbn [map] in Ho |- *.
    destruct IH as [(Hf & Hfp & E) _]; [done|by eapply short_prefix|eapply openable_prefix; [done|by eexists]|]. cbn zeta.
    rewrite inits_snoc, map_app, fold_left_app. cbn [map fold_left app]. set (fs1 := snd (fold_left _ _ _)) in *.
    pose proof (fs_mkdir fs1 d names n Hdr Hall Hn) as Hm. cbn zeta in Hm.
    destruct (CreateDirectoryW (path_str (d :: names ++ [n])) fs1) as [ok fs']. cbn [fst snd].
    destruct Hm as [Hf' Hm]. change (upcase d :: map upcase names) with (place (d :: names)) in *.
    change (upcase d :: map upcase names ++ [upcase n]) with (place (d :: names) ++ [upcase n]).
    set (p := place (d :: names)) in *. assert (Hpne : forall x, p ++ x <> []) by done.
    assert (Hpn : p <> []) by done. clearbody p. assert (Hpd : entries fs1 !! p = Some NDir).
    { rewrite E, bool_decide_eq_true_2; [done|]. by split. }
    assert (Hnew : entries fs1 !! (p ++ [upcase n]) = entries fs !! (p ++ [upcase n])).
    { rewrite E, bool_decide_eq_false_2; [done|]. by intros [_ ?%snoc_not_prefix]. }
    assert (Hend : entries fs' !! (p ++ [upcase n]) = Some NDir /\ free fs' (p ++ [upcase n]) /\
              (forall q, q <> p ++ [upcase n] -> entries fs' !! q = entries fs1 !! q) /\
              ok = bool_decide (entries fs !! (p ++ [upcase n]) = None)).
    { destruct ok.
      - destruct Hm as (_ & Hn0 & E' & Hfree). rewrite E', lookup_insert_eq, <- Hnew, bool_decide_eq_true_2 by done.
        split; [done|]. split; [done|]. split; [|done]. intros q Hq. by rewrite lookup_insert_ne.
      - destruct Hm as [E' Hs]. rewrite E', Hnew. destruct Hs as [nd Hnd]; [by apply Hfp|done|done|].
        rewrite Hnew in Hnd. rewrite Hnd. destruct (Ho (p ++ [upcase n])) as [[Hx Hy]|Hx]; [done|done| |congruence].
        split; [congruence|]. split; [by apply Hf', Hf|]. by rewrite bool_decide_eq_false_2. }
    destruct Hend as (He & Hef & Her & Hok). split; [|done]. split; [auto|]. split.
    + intros q Hq [Hpre| ->]%prefix_snoc; [|done]. by apply Hf', Hfp.
    + intros q. destruct (decide (q = p ++ [upcase n])) as [->|Hne].
      * rewrite He, bool_decide_eq_true_2; [done|]. by split.
      * rewrite Her, E by done. pose proof (prefix_snoc q p (upcase n)). repeat case_bool_decide; naive_solver.
Qed.

Lemma CreateMultipleDirectory_spec d names fs : drive d -> names <> [] -> Forall legal names -> short (d :: names) ->
  openable fs (place (d :: names)) -> entries fs !! place [d] = Some NDir ->
  exists fs', CreateMultipleDirectory (path_str (d :: names)) fs =
                Ok (bool_decide (entries fs !! place (d :: names) = None), fs') /\
              has_dirs fs (place (d :: names)) fs'.
Proof.
  intros Hd Hne Hall Hsh Ho Hdrive. unfold CreateMultipleDirectory. rewrite level_paths_str by (try done; by apply drive_name). rewrite Ok_bind.
  destruct (make_dirs d names fs false Hd Hall Hsh Ho Hdrive) as [Hdirs Hok]. cbn zeta in *.
  exists (snd (fold_left (fun st p => CreateDirectoryW p (snd st)) (map path_str (inits_from [] (d :: names))) (false, fs))).
  split; [|done]. rewrite <- Hok. by rewrite <- surjective_pairing.
Qed.
End Remove.

(** C21: [ForceRemoveDir] of a directory ends, and changes nothing outside of it. When
    nobody else uses what is in the directory and all of it may be listed and deleted
    ([all_free]) it succeeds and neither the directory nor anything in it is left, however
    deep the tree; otherwise the tree may be left as it is (PathHelper.cpp, line 296). The
    directories are a tree: there are no junctions. *)
Theorem force_remove_exact {F : Type} `{FileSystemLaws F} (fs : F) l (Hl : dir_at fs l) :
  exists b fs' n, (forall fuel, (n <= fuel)%nat -> ForceRemoveDir fuel (path_str l) fs = Ok (b, fs')) /\
    entries fs' ⊆ entries fs /\
    (forall p, ~ map upcase l `prefix_of` p -> entries fs' !! p = entries fs !! p) /\
    (all_free fs l -> b = true /\ forall p, map upcase l `prefix_of` p -> entries fs' !! p = None).
Proof.
  destruct (ForceRemoveDir_spec fs l Hl) as (b & fs' & n & Hn & _ & Hsub & Hout & Hin).
  exists b, fs', n. auto.
Qed.

(** C34: [GetAllSubDir] of a directory ends and appends to the vector directories inside
    it, each once and behind the directory it is in; when all of them can be listed
    ([all_free]), it finds all. (One that cannot be listed ends the walk: PathHelper.cpp,
    line 296.) The directories are a tree, without junctions. *)
Theorem sub_dirs_exact {F : Type} `{FileSystemLaws F} (fs : F) l vec (Hl : dir_at fs l) :
  exists R n, (forall fuel, (n <= fuel)%nat ->
      GetAllSubDir fuel (path_str l) vec (lit "*") fs =
      Ok (0 <? Z.of_nat (List.length (vec ++ map path_str R)), vec ++ map path_str R)) /\
    NoDup (map (map upcase) R) /\ parents_first [l] R /\
    Forall (fun r => dir_at fs r /\ inside [map upcase l] (map upcase r)) R /\
    (all_free fs l -> forall p, entries fs !! p = Some NDir -> inside [map upcase l] p -> p ∈ map (map upcase) R).
Proof.
  destruct (GetAllSubDir_spec fs (lit "*") l vec star_mask Hl) as (R & n & HR & Hn). exists R, n.
  split; [done|]. split; [by apply (walk_once fs [l])|]. split; [by apply (walk_order fs)|]. split.
  - apply Forall_forall. intros r Hr. split; [|by apply (walk_inside _ _ _ HR)].
    pose proof (walk_dirs _ _ _ HR) as Hd. rewrite Forall_forall in Hd. auto.
  - intros Hf p Hp Hin. by apply (walk_all_free fs l R p).
Qed.
