(* ===== verification/TxConfig.v ===== *)
(** * TxConfig

    The configuration file of src/Utility/TxConfig.cpp: a packed binary format
    with a masked key and value per item, written by [MakeConfig] and read by
    [ParseConfig], and the settings that [MiscHelper] and the data center keep in
    it.  The buffers of the source are byte lists, its pointers are offsets into
    them, and an access outside a buffer is a fault; the masking is undone in
    place, as in the source.  A file is the list of its bytes. *)
From stdpp Require Import prelude gmap sorting.
From Stdlib Require Import ZArith Lia String.
From S2P Require Import Prelude Memory Strings.

#[local] Open Scope cpp_scope.

(** The bytes of a wide string. *)
Definition wbytes (s : str) : list Z := flat_map (le_bytes 2) s.

(** [wcscpy_s] into [size] characters: the string at [off]; one that does not
    fit goes to the invalid parameter handler. *)
Fixpoint wcscpy_s (size : nat) (buf : list Z) (off : Z) : outcome str :=
  match size with
  | O => Fault OutOfRange
  | S size =>
      c ← peek16 buf off;
      if c =? 0 then Ok [] else s ← wcscpy_s size buf (off + 2); Ok (c :: s)
  end.

(** ** The format (TxConfig.h)

    [TxItem] is packed: [byFlag] at 0, [wKeyLen] at 1, [abyKey] at 3,
    [dwValueLen] at 4 and [abyValue] at 8; the last two are addressed from
    [pTemp], the item moved by [wKeyLen - 1].  [TxConfig] has [wMagic] at 0, the
    version bytes at 2 and 3, [wNumOfItems] at 4 and the items from 6. *)

Definition TX_CONFIG_MAGIC : Z := 0x4454.
Definition TX_ITEM_FLAG : Z := 0x9.
Definition MAX_PATH : Z := 260.
Definition sizeof_TxItem : Z := 9.
Definition sizeof_TxConfig : Z := 6.

Definition LOBYTE (w : Z) : Z := Z.land w 0xFF.
Definition HIBYTE (w : Z) : Z := Z.land (Z.shiftr w 8) 0xFF.

(** [LOBYTE(len) ^ HIBYTE(len) ^ ~b] stored in a byte. *)
Definition mask (len b : Z) : Z := u8 (Z.lxor (Z.lxor (LOBYTE len) (HIBYTE len)) (Z.lnot b)).

(** Masking [n] bytes from [off] in place. *)
Definition mask_loop (buf : list Z) (off n : Z) : outcome (list Z) :=
  modify_loop (fun _ b => Ok (mask n b)) buf off n.

(** [m_mapKey2Value] *)
Abbreviation config := (gmap (list Z) (list Z)).

Record parse_state := { p_buf : list Z; p_map : config; p_off : Z }.

Definition parse_item (st : parse_state) (_ : Z) : outcome parse_state :=
  let pItem := p_off st in
  wKeyLen ← peek16 (p_buf st) (pItem + 1);
  buf ← mask_loop (p_buf st) (pItem + 3) wKeyLen;
  let pTemp := pItem + wKeyLen - 1 in
  dwValueLen ← peek32 buf (pTemp + 4);
  buf ← mask_loop buf (pTemp + 8) dwValueLen;
  szKey ← wcscpy_s (Z.to_nat (MAX_PATH - 1)) buf (pItem + 3);
  if MAX_PATH <=? wKeyLen / 2 then Fault OutOfRange
  else
    strValue ← peeks buf (pTemp + 8) dwValueLen;
    Ok {| p_buf := buf;
          p_map := <[take (Z.to_nat (wKeyLen / 2)) szKey := strValue]> (p_map st);
          p_off := pItem + sizeof_TxItem + wKeyLen + dwValueLen - 2 |}.

(** [ParseConfig(pConfigBuf, dwLen)]; the length is not used. *)
Definition ParseConfig (m : config) (buf : list Z) : outcome (bool * config) :=
  wMagic ← peek16 buf 0;
  if negb (wMagic =? TX_CONFIG_MAGIC) then Ok (false, m)
  else
    wNumOfItems ← peek16 buf 4;
    st ← for_each parse_item {| p_buf := buf; p_map := m; p_off := sizeof_TxConfig |} (seqZ 0 wNumOfItems);
    Ok (true, p_map st).

Definition GetValue (m : config) (strKey : str) : str := default [] (m !! strKey).

Definition SetValue (m : config) (strKey strValue : str) : config := <[strKey := strValue]> m.

(** [std::map] iterates in the order of its keys. *)
Fixpoint lex_le (a b : str) : bool :=
  match a, b with
  | [], _ => true
  | _ :: _, [] => false
  | x :: a, y :: b => if x <? y then true else if y <? x then false else lex_le a b
  end.

Definition entry_le (a b : list Z * list Z) : Prop := lex_le (fst a) (fst b) = true.

#[global] Instance entry_le_dec : RelDecision entry_le.
Proof. intros a b. unfold entry_le. apply _. Defined.

Definition entries (m : config) : list (list Z * list Z) := merge_sort entry_le (map_to_list m).

Definition item_size (kv : list Z * list Z) : Z :=
  sizeof_TxItem - 2 + Z.of_nat (List.length (fst kv)) * 2 + Z.of_nat (List.length (snd kv)).

Definition config_size (l : list (list Z * list Z)) : Z :=
  fold_left (fun configSize kv => configSize +u item_size kv) l sizeof_TxConfig.

Definition make_item (st : list Z * Z) (kv : list Z * list Z) : outcome (list Z * Z) :=
  let '(buf, pItem) := st in
  let '(strKey, strValue) := kv in
  buf ← pokes buf pItem [TX_ITEM_FLAG];
  buf ← poke16 buf (pItem + 1) (u16 (Z.of_nat (List.length strKey) * 2));
  buf ← pokes buf (pItem + 3) (wbytes strKey);
  wKeyLen ← peek16 buf (pItem + 1);
  buf ← mask_loop buf (pItem + 3) wKeyLen;
  let pTemp := pItem + wKeyLen - 1 in
  buf ← poke32 buf (pTemp + 4) (u32 (Z.of_nat (List.length strValue)));
  buf ← pokes buf (pTemp + 8) strValue;
  dwValueLen ← peek32 buf (pTemp + 4);
  buf ← mask_loop buf (pTemp + 8) dwValueLen;
  Ok (buf, pItem + sizeof_TxItem + wKeyLen + dwValueLen - 2).

(** [MakeConfig]: the content written to the file, [None] when there is nothing to
    write; [junk] is what the fresh buffer holds. *)
Definition MakeConfig (junk : Z -> Z) (m : config) : outcome (option (list Z)) :=
  let l := entries m in
  if Z.of_nat (List.length l) =? 0 then Ok None
  else
    let configSize := config_size l in
    let buf := map junk (seqZ 0 configSize) in
    buf ← pokes buf 2 [1];
    buf ← pokes buf 3 [1];
    buf ← poke16 buf 4 (u16 (Z.of_nat (List.length l)));
    buf ← poke16 buf 0 TX_CONFIG_MAGIC;
    st ← for_each make_item (buf, sizeof_TxConfig) l;
    Ok (Some (fst st)).

(** ** Settings (MiscHelper.cpp, DataCenterModule.cpp) *)

Definition version_key : str := lit "version".

(** The value stored in a fresh [CTxConfig] parsed from the file, if it parses. *)
Definition GetCurrentVersion (CLIENT_VERSION : Z) (file : list Z) : outcome Z :=
  r ← ParseConfig ∅ file;
  let '(bRet, m) := r in
  if negb (bRet : bool) then Ok CLIENT_VERSION
  else
    let strVersion := GetValue m version_key in
    if bool_decide (strVersion = []) then Ok CLIENT_VERSION
    else Ok (StringHelper.ConvertToInt strVersion).

(** The file after the call; [MakeConfig] leaves it alone when it has nothing. *)
Definition SaveKeyValueConfig (junk : Z -> Z) (file : list Z) (pszKeyName pszValue : option str) :
    outcome (list Z) :=
  match pszKeyName with
  | None => Ok file
  | Some key =>
      r ← ParseConfig ∅ file;
      let m := SetValue (snd r) key (default [] pszValue) in
      f ← MakeConfig junk m;
      Ok (default file f)
  end.

Definition SetVersionInConfig (junk : Z -> Z) (file : list Z) (nVersion : Z) : outcome (list Z) :=
  SaveKeyValueConfig junk file (Some version_key) (Some (StringHelper.ConvertFromInt nVersion)).

(** The part of [DataCenterModule::Load] that sets [m_bAutoUpdate]. *)
Definition Load_AutoUpdate (file : list Z) : outcome bool :=
  r ← ParseConfig ∅ file;
  let strAutoUpdate := GetValue (snd r) (lit "AutoUpdate") in
  Ok (negb (bool_decide (strAutoUpdate = lit "0") || bool_decide (StringHelper.TrimAll strAutoUpdate = []))).

(** ** Wide strings *)

Lemma wbytes_length s : List.length (wbytes s) = (2 * List.length s)%nat.
Proof. induction s as [|c s IH]; [done|]. simpl. fold (wbytes s). rewrite IH. lia. Qed.

(** ** Masking *)

Lemma u8_bits z k : 0 <= k < 8 -> Z.testbit (u8 z) k = Z.testbit z k.
Proof. intros Hk. unfold u8. apply Z.mod_pow2_bits_low. lia. Qed.

Lemma mask_involutive len b : 0 <= b < 256 -> mask len (mask len b) = b.
Proof.
  intros Hb. apply Z.bits_inj'. intros k Hk. unfold mask at 1. destruct (Z.lt_ge_cases k 8) as [Hlt|Hge].
  - rewrite u8_bits, !Z.lxor_spec, Z.lnot_spec by lia. unfold mask.
    rewrite u8_bits, !Z.lxor_spec, Z.lnot_spec by lia.
    by destruct (Z.testbit (LOBYTE len) k), (Z.testbit (HIBYTE len) k), (Z.testbit b k).
  - unfold u8. rewrite Z.mod_pow2_bits_high by lia. symmetry.
    by apply (testbit_range 8 b); lia.
Qed.

Lemma map_mask_involutive len bs : Forall (fun b => 0 <= b < 256) bs -> map (mask len) (map (mask len) bs) = bs.
Proof. induction 1 as [|b bs Hb _ IH]; [done|]. simpl. by rewrite mask_involutive, IH. Qed.

Lemma mask_at buf pre mid post off n :
  buf = pre ++ mid ++ post -> off = Z.of_nat (List.length pre) -> n = Z.of_nat (List.length mid) ->
  mask_loop buf off n = Ok (pre ++ map (mask n) mid ++ post).
Proof.
  intros -> Ho Hn. unfold mask_loop.
  rewrite (modify_loop_mid _ (fun _ => mask n)) by done. do 2 f_equal. by rewrite (imap_const (mask n)).
Qed.

(** ** Items *)

(** An item with the given bytes for its key and its value. *)
Definition item_bytes (k v : list Z) (kb vb : list Z) : list Z :=
  [TX_ITEM_FLAG] ++ le_bytes 2 (2 * Z.of_nat (List.length k)) ++ kb ++
  le_bytes 4 (Z.of_nat (List.length v)) ++ vb.

Definition masked_item (kv : list Z * list Z) : list Z :=
  let '(k, v) := kv in
  item_bytes k v (map (mask (2 * Z.of_nat (List.length k))) (wbytes k))
                 (map (mask (Z.of_nat (List.length v))) v).

(** What an entry has to satisfy to be stored and found again: a key of at most
    257 characters other than the null character, and less than 64 KiB of value. *)
Definition storable (kv : list Z * list Z) : Prop :=
  (List.length (fst kv) <= 257)%nat /\ Forall (fun c => 0 < c < 2 ^ 16) (fst kv) /\
  Z.of_nat (List.length (snd kv)) < 2 ^ 16 /\ Forall (fun b => 0 <= b < 256) (snd kv).

Lemma masked_item_length kv : Z.of_nat (List.length (masked_item kv)) = item_size kv.
Proof.
  destruct kv as [k v]. unfold masked_item, item_bytes, item_size, sizeof_TxItem.
  rewrite !length_app, !length_map, !le_bytes_length, wbytes_length. simpl fst. simpl snd.
  simpl List.length. lia.
Qed.

(** Discharge the side conditions of an access: regrouping and lengths. *)
Ltac place := 
  first [ rewrite <- ?app_assoc; reflexivity
        | repeat (rewrite ?length_app, ?length_map, ?le_bytes_length, ?wbytes_length; cbn [List.length]); lia ].

Lemma make_item_writes pre rest kv :
  storable kv -> item_size kv <= Z.of_nat (List.length rest) ->
  make_item (pre ++ rest, Z.of_nat (List.length pre)) kv =
  Ok (pre ++ masked_item kv ++ drop (Z.to_nat (item_size kv)) rest,
      Z.of_nat (List.length pre) + item_size kv).
Proof.
  destruct kv as [k v]. intros (Hk & _ & Hv & _). unfold item_size, sizeof_TxItem. simpl fst in *. simpl snd in *.
  intros Hrest. set (nk := List.length k) in *. set (nv := List.length v) in *.
  set (post := drop (Z.to_nat (9 - 2 + Z.of_nat nk * 2 + Z.of_nat nv)) rest).
  assert (exists f kl kb vl vb, rest = f ++ kl ++ kb ++ vl ++ vb ++ post /\ List.length f = 1%nat /\
    List.length kl = 2%nat /\ List.length kb = (2 * nk)%nat /\ List.length vl = 4%nat /\ List.length vb = nv)
    as (f & kl & kb & vl & vb & Hr & Lf & Lkl & Lkb & Lvl & Lvb).
  { exists (take 1 rest), (take 2 (drop 1 rest)), (take (2 * nk) (drop 3 rest)),
      (take 4 (drop (3 + 2 * nk) rest)), (take nv (drop (7 + 2 * nk) rest)).
    unfold post. rewrite !length_take, !length_drop. split; [|lia].
    replace (Z.to_nat _) with (7 + 2 * nk + nv)%nat by lia.
    rewrite <- (drop_drop _ nv (7 + 2 * nk)), take_drop.
    replace (7 + 2 * nk)%nat with (3 + 2 * nk + 4)%nat by lia.
    rewrite <- (drop_drop _ 4 (3 + 2 * nk)), take_drop, <- (drop_drop _ (2 * nk) 3), take_drop.
    replace (drop 3 rest) with (drop 2 (drop 1 rest)) by (by rewrite drop_drop).
    rewrite (take_drop 2 (drop 1 rest)). by rewrite take_drop. }
  clearbody post. subst rest. unfold make_item. fold nk nv.
  rewrite (u16_small (Z.of_nat nk * 2)), (u32_small (Z.of_nat nv)) by lia. rewrite (Z.mul_comm (Z.of_nat nk) 2).
  unfold poke16, poke32.
  set (L := le_bytes 2 (2 * Z.of_nat nk)). set (V := le_bytes 4 (Z.of_nat nv)).
  assert (LL : List.length L = 2%nat) by done. assert (LV : List.length V = 4%nat) by done.
  rewrite (pokes_at _ pre f (kl ++ kb ++ vl ++ vb ++ post)) by place. cbn [mbind outcome_bind].
  rewrite (pokes_at _ (pre ++ [TX_ITEM_FLAG]) kl (kb ++ vl ++ vb ++ post)) by place. cbn [mbind outcome_bind].
  rewrite (pokes_at _ (pre ++ [TX_ITEM_FLAG] ++ L) kb (vl ++ vb ++ post)) by place. cbn [mbind outcome_bind].
  rewrite (peek16_at (2 * Z.of_nat nk) _ (pre ++ [TX_ITEM_FLAG]) (wbytes k ++ vl ++ vb ++ post)) by place. cbn [mbind outcome_bind].
  rewrite (mask_at _ (pre ++ [TX_ITEM_FLAG] ++ L) (wbytes k) (vl ++ vb ++ post)) by place. cbn [mbind outcome_bind].
  set (K := map (mask (2 * Z.of_nat nk)) (wbytes k)).
  assert (LK : List.length K = (2 * nk)%nat) by (unfold K; place).
  rewrite (pokes_at _ (pre ++ [TX_ITEM_FLAG] ++ L ++ K) vl (vb ++ post)) by place. cbn [mbind outcome_bind].
  rewrite (pokes_at _ (pre ++ [TX_ITEM_FLAG] ++ L ++ K ++ V) vb post) by place. cbn [mbind outcome_bind].
  rewrite (peek32_at (Z.of_nat nv) _ (pre ++ [TX_ITEM_FLAG] ++ L ++ K) (v ++ post)) by place. cbn [mbind outcome_bind].
  rewrite (mask_at _ (pre ++ [TX_ITEM_FLAG] ++ L ++ K ++ V) v post) by place. cbn [mbind outcome_bind].
  unfold masked_item, item_bytes. fold nk nv L V K. f_equal. f_equal.
  - by rewrite <- !app_assoc.
  - unfold sizeof_TxItem. lia.
Qed.

Lemma wcscpy_reads size pre s post off :
  off = Z.of_nat (List.length pre) -> Forall (fun c => 0 < c < 2 ^ 16) s -> (List.length s < size)%nat ->
  wcscpy_s size (pre ++ wbytes s ++ [0; 0] ++ post) off = Ok s.
Proof.
  intros Ho Hs. revert size pre off Ho. induction Hs as [|c s Hc _ IH]; intros [|size] pre off Ho Hl; simpl in Hl; try lia.
  { cbn [wcscpy_s]. by rewrite (peek16_at 0 _ pre post). }
  cbn [wcscpy_s]. rewrite (peek16_at c _ pre (wbytes s ++ [0; 0] ++ post)) by (done || lia).
  cbn [mbind outcome_bind]. destruct (Z.eqb_spec c 0); [lia|].
  change (wbytes (c :: s)) with (le_bytes 2 c ++ wbytes s).
  replace (pre ++ (le_bytes 2 c ++ wbytes s) ++ [0; 0] ++ post) with ((pre ++ le_bytes 2 c) ++ wbytes s ++ [0; 0] ++ post)
    by (by rewrite <- !app_assoc).
  rewrite IH; [done| |lia]. rewrite length_app, le_bytes_length. lia.
Qed.

(** The key read back: the length of the value ends the copied string, which is
    cut at the length of the key. *)
Lemma key_reads pre k nv post :
  (List.length k <= 257)%nat -> Forall (fun c => 0 < c < 2 ^ 16) k -> 0 <= nv < 2 ^ 16 ->
  exists s, wcscpy_s (Z.to_nat (MAX_PATH - 1)) (pre ++ wbytes k ++ le_bytes 4 nv ++ post)
              (Z.of_nat (List.length pre)) = Ok s /\ take (List.length k) s = k.
Proof.
  intros Hk Hc Hnv.
  assert (Hb : le_bytes 4 nv = le_bytes 2 nv ++ [0; 0]).
  { cbn [le_bytes app]. rewrite (Z.div_small (nv / 256) 256) by lia_div. done. }
  destruct (decide (nv = 0)) as [->|Hne].
  - exists k. split; [|by rewrite take_ge]. 
    change (le_bytes 4 0 ++ post) with ([0; 0] ++ ([0; 0] ++ post)).
    apply wcscpy_reads; [done..|]. change (Z.to_nat (MAX_PATH - 1)) with 259%nat. lia.
  - exists (k ++ [nv]). split; [|by rewrite take_app_length].
    rewrite Hb. replace (pre ++ wbytes k ++ (le_bytes 2 nv ++ [0; 0]) ++ post)
      with (pre ++ wbytes (k ++ [nv]) ++ [0; 0] ++ post)
      by (unfold wbytes; rewrite flat_map_app; simpl; by rewrite <- !app_assoc).
    apply wcscpy_reads; [done|apply Forall_app; split; [done|constructor; [lia|done]]|].
    change (Z.to_nat (MAX_PATH - 1)) with 259%nat. rewrite length_app. simpl. lia.
Qed.

Lemma wbytes_range s : Forall (fun b => 0 <= b < 256) (wbytes s).
Proof.
  induction s as [|c s IH]; [constructor|]. simpl. repeat constructor; try lia_div. exact IH.
Qed.

Lemma wcscpy_at size buf off pre rest s :
  wcscpy_s size (pre ++ rest) (Z.of_nat (List.length pre)) = Ok s ->
  buf = pre ++ rest -> off = Z.of_nat (List.length pre) -> wcscpy_s size buf off = Ok s.
Proof. by intros ? -> ->. Qed.

Definition plain_item (kv : list Z * list Z) : list Z := item_bytes (fst kv) (snd kv) (wbytes (fst kv)) (snd kv).

Lemma parse_item_reads pre kv post m i :
  storable kv ->
  parse_item {| p_buf := pre ++ masked_item kv ++ post; p_map := m; p_off := Z.of_nat (List.length pre) |} i =
  Ok {| p_buf := pre ++ plain_item kv ++ post; p_map := <[fst kv := snd kv]> m;
        p_off := Z.of_nat (List.length pre) + item_size kv |}.
Proof.
  destruct kv as [k v]. intros (Hk & Hkc & Hv & Hvb).
  unfold parse_item, masked_item, plain_item, item_bytes, item_size, sizeof_TxItem. cbn [p_buf p_map p_off fst snd] in *.
  set (nk := List.length k) in *. set (nv := List.length v) in *.
  set (L := le_bytes 2 (2 * Z.of_nat nk)). set (V := le_bytes 4 (Z.of_nat nv)).
  assert (LL : List.length L = 2%nat) by done. assert (LV : List.length V = 4%nat) by done.
  set (K := map (mask (2 * Z.of_nat nk)) (wbytes k)). set (W := map (mask (Z.of_nat nv)) v).
  assert (LK : List.length K = (2 * nk)%nat) by (unfold K; place).
  assert (LW : List.length W = nv) by (unfold W; place).
  assert (HK : map (mask (2 * Z.of_nat nk)) K = wbytes k) by apply map_mask_involutive, wbytes_range.
  assert (HW : map (mask (Z.of_nat nv)) W = v) by (by apply map_mask_involutive).
  rewrite <- !app_assoc.
  rewrite (peek16_at (2 * Z.of_nat nk) _ (pre ++ [TX_ITEM_FLAG]) (K ++ V ++ W ++ post)) by place. cbn [mbind outcome_bind].
  rewrite (mask_at _ (pre ++ [TX_ITEM_FLAG] ++ L) K (V ++ W ++ post)) by place. cbn [mbind outcome_bind].
  rewrite HK.
  rewrite (peek32_at (Z.of_nat nv) _ (pre ++ [TX_ITEM_FLAG] ++ L ++ wbytes k) (W ++ post)) by place. cbn [mbind outcome_bind].
  rewrite (mask_at _ (pre ++ [TX_ITEM_FLAG] ++ L ++ wbytes k ++ V) W post) by place. cbn [mbind outcome_bind].
  rewrite HW.
  destruct (key_reads (pre ++ [TX_ITEM_FLAG] ++ L) k (Z.of_nat nv) (v ++ post)) as (s & Hs & Ht); [done..|lia|].
  rewrite (wcscpy_at _ _ _ (pre ++ [TX_ITEM_FLAG] ++ L) (wbytes k ++ V ++ v ++ post) _ Hs) by place. cbn [mbind outcome_bind].
  replace (2 * Z.of_nat nk / 2) with (Z.of_nat nk) by lia_div.
  unfold MAX_PATH. destruct (Z.leb_spec 260 (Z.of_nat nk)); [lia|].
  rewrite (peeks_at _ (pre ++ [TX_ITEM_FLAG] ++ L ++ wbytes k ++ V) v post) by place. cbn [mbind outcome_bind].
  rewrite Nat2Z.id. fold nk in Ht. rewrite Ht. f_equal. f_equal; [by rewrite <- !app_assoc|lia].
Qed.

(** ** Files *)

Definition items_size (l : list (list Z * list Z)) : Z := fold_right (fun kv n => item_size kv + n) 0 l.

Lemma item_size_nonneg kv : 0 <= item_size kv.
Proof. unfold item_size, sizeof_TxItem. lia. Qed.

Lemma items_size_nonneg l : 0 <= items_size l.
Proof. induction l as [|x l IH]; simpl; [lia|]. pose proof (item_size_nonneg x). lia. Qed.

Lemma make_items pre l rest :
  Forall storable l -> items_size l = Z.of_nat (List.length rest) ->
  exists off, for_each make_item (pre ++ rest, Z.of_nat (List.length pre)) l =
    Ok (pre ++ flat_map masked_item l, off).
Proof.
  intros Hl. revert pre rest. induction Hl as [|kv l Hkv Hl IH]; intros pre rest Hr; simpl in Hr.
  - destruct rest; [|done]. eauto.
  - pose proof (items_size_nonneg l).
    cbn [for_each]. rewrite make_item_writes by (done || lia). cbn [mbind outcome_bind].
    rewrite app_assoc.
    replace (Z.of_nat (List.length pre) + item_size kv) with (Z.of_nat (List.length (pre ++ masked_item kv)))
      by (rewrite length_app, <- masked_item_length; lia).
    destruct (IH (pre ++ masked_item kv) (drop (Z.to_nat (item_size kv)) rest)) as (off & ->).
    { rewrite length_drop. rewrite <- masked_item_length in *. lia. }
    exists off. simpl. by rewrite <- app_assoc.
Qed.

(** The items are parsed one after the other, whatever the loop counter. *)
Lemma parse_items pre l m (ixs : list Z) :
  Forall storable l -> List.length ixs = List.length l ->
  exists st, for_each parse_item {| p_buf := pre ++ flat_map masked_item l; p_map := m;
                                    p_off := Z.of_nat (List.length pre) |} ixs = Ok st /\
    p_map st = fold_left (fun m kv => <[fst kv := snd kv]> m) l m.
Proof.
  intros Hl. revert pre m ixs. induction Hl as [|kv l Hkv _ IH]; intros pre m [|i ixs] Hn; try done; [eauto|].
  cbn [for_each flat_map]. rewrite parse_item_reads by done. cbn [mbind outcome_bind].
  assert (Hlen : Z.of_nat (List.length pre) + item_size kv = Z.of_nat (List.length (pre ++ plain_item kv))).
  { rewrite <- masked_item_length. destruct kv as [k v]. unfold masked_item, plain_item, item_bytes.
    rewrite !length_app, !length_map. cbn [fst snd]. lia. }
  rewrite Hlen, app_assoc. apply (IH (pre ++ plain_item kv)). by injection Hn.
Qed.

Definition config_bytes (l : list (list Z * list Z)) : Z :=
  sizeof_TxConfig + items_size l.

Lemma config_size_bytes l : config_bytes l < 2 ^ 32 -> config_size l = config_bytes l.
Proof.
  unfold config_size, config_bytes.
  assert (Hgen : forall a, 0 <= a -> a + items_size l < 2 ^ 32 ->
    fold_left (fun configSize kv => configSize +u item_size kv) l a =
    a + items_size l).
  { induction l as [|kv l IH]; intros a Ha Hlt; simpl in *; [lia|].
    pose proof (item_size_nonneg kv).
    pose proof (items_size_nonneg l).
    rewrite u32_small by lia. rewrite IH; lia. }
  intros H. apply Hgen; [unfold sizeof_TxConfig; lia|done].
Qed.

Definition config_header (n : Z) : list Z := le_bytes 2 TX_CONFIG_MAGIC ++ [1; 1] ++ le_bytes 2 n.

Lemma fold_insert (l : list (list Z * list Z)) (m : config) :
  fold_left (fun m kv => <[fst kv := snd kv]> m) l m = list_to_map (reverse l) ∪ m.
Proof.
  revert m. induction l as [|[k v] l IH]; intros m; simpl; [by rewrite (left_id_L ∅ (∪))|].
  rewrite IH, reverse_cons, list_to_map_app. simpl.
  by rewrite <- (assoc_L (∪)), insert_empty, <- insert_union_singleton_l.
Qed.

Lemma entries_perm (m : config) : entries m ≡ₚ map_to_list m.
Proof. apply merge_sort_Permutation. Qed.

Lemma entries_back (m : config) : fold_left (fun m kv => <[fst kv := snd kv]> m) (entries m) ∅ = m.
Proof.
  rewrite fold_insert, (right_id_L ∅ (∪)). rewrite <- (list_to_map_to_list m) at 2.
  apply list_to_map_proper; [|by rewrite reverse_Permutation, entries_perm].
  rewrite reverse_Permutation, entries_perm. apply NoDup_fst_map_to_list.
Qed.

(** A configuration that can be written and read back. *)
Definition storable_config (m : config) : Prop :=
  map_Forall (fun k v => storable (k, v)) m /\
  Z.of_nat (size m) < 2 ^ 16 /\ config_bytes (entries m) < 2 ^ 32.

Lemma entries_storable m : storable_config m ->
  Forall storable (entries m) /\ Z.of_nat (List.length (entries m)) < 2 ^ 16.
Proof.
  intros (Hall & Hn & _). split.
  - rewrite entries_perm. apply Forall_forall. intros [k v] Hin. apply elem_of_map_to_list in Hin. by apply Hall.
  - by rewrite entries_perm, length_map_to_list.
Qed.

Lemma header_writes {A} n b rest (k : list Z -> outcome A) : List.length b = 6%nat ->
  (buf ← pokes (b ++ rest) 2 [1];
   buf ← pokes buf 3 [1];
   buf ← poke16 buf 4 n;
   buf ← poke16 buf 0 TX_CONFIG_MAGIC; k buf) = k (config_header n ++ rest).
Proof.
  intros Hb. do 6 (destruct b as [|? b]; [done|]). destruct b; [|done]. unfold poke16.
  rewrite (pokes_at _ [z; z0] [z1] (z2 :: z3 :: z4 :: rest)) by done. cbn [mbind outcome_bind].
  rewrite (pokes_at _ [z; z0; 1] [z2] (z3 :: z4 :: rest)) by done. cbn [mbind outcome_bind].
  rewrite (pokes_at _ [z; z0; 1; 1] [z3; z4] rest) by done. cbn [mbind outcome_bind].
  by rewrite (pokes_at _ [] [z; z0] ([1; 1] ++ le_bytes 2 n ++ rest)).
Qed.

Lemma MakeConfig_writes junk m : m <> ∅ -> storable_config m ->
  MakeConfig junk m =
  Ok (Some (config_header (Z.of_nat (List.length (entries m))) ++ flat_map masked_item (entries m))).
Proof.
  intros Hne Hm. destruct (entries_storable m Hm) as [Hst Hn]. unfold MakeConfig.
  destruct (Z.eqb_spec (Z.of_nat (List.length (entries m))) 0) as [H0|_].
  { exfalso. apply Hne. apply map_to_list_empty_iff, nil_length_inv. pose proof (entries_perm m) as Hp.
    apply Permutation_length in Hp. lia. }
  rewrite config_size_bytes by apply Hm. rewrite u16_small by lia.
  set (buf := map junk (seqZ 0 (config_bytes (entries m)))).
  assert (Hlen : Z.of_nat (List.length buf) = config_bytes (entries m)).
  { unfold buf. rewrite length_map, length_seqZ. unfold config_bytes, sizeof_TxConfig.
    pose proof (items_size_nonneg (entries m)). lia. }
  unfold config_bytes, sizeof_TxConfig in Hlen.
  rewrite <- (take_drop 6 buf).
  pose proof (items_size_nonneg (entries m)).
  rewrite header_writes by (rewrite length_take; lia).
  destruct (make_items (config_header (Z.of_nat (List.length (entries m)))) (entries m) (drop 6 buf)) as (off & Hr);
    [done|rewrite length_drop; lia|].
  change (Z.of_nat (List.length (config_header _))) with sizeof_TxConfig in Hr. by rewrite Hr.
Qed.

Lemma ParseConfig_reads m0 l :
  Forall storable l -> Z.of_nat (List.length l) < 2 ^ 16 ->
  ParseConfig m0 (config_header (Z.of_nat (List.length l)) ++ flat_map masked_item l) =
  Ok (true, fold_left (fun m kv => <[fst kv := snd kv]> m) l m0).
Proof.
  intros Hl Hn. unfold ParseConfig.
  rewrite (peek16_at TX_CONFIG_MAGIC _ [] ([1; 1] ++ le_bytes 2 (Z.of_nat (List.length l)) ++ flat_map masked_item l) 0) by done.
  cbn [mbind outcome_bind]. rewrite Z.eqb_refl. cbn [negb].
  rewrite (peek16_at (Z.of_nat (List.length l)) _ (le_bytes 2 TX_CONFIG_MAGIC ++ [1; 1]) (flat_map masked_item l)) by (done || lia).
  cbn [mbind outcome_bind].
  destruct (parse_items (config_header (Z.of_nat (List.length l))) l m0 (seqZ 0 (Z.of_nat (List.length l))))
    as (st & Hr & <-); [done|by rewrite length_seqZ, Nat2Z.id|].
  change (Z.of_nat (List.length (config_header _))) with sizeof_TxConfig in Hr. by rewrite Hr.
Qed.

(** C38: a configuration written by [MakeConfig] is read back by [ParseConfig]: for
    every non-empty map whose keys and values fit the format, writing and
    parsing stay inside their buffers and give back exactly the map, whatever
    the allocated buffer held before. *)
Theorem config_roundtrip junk m : m <> ∅ -> storable_config m ->
  exists file, MakeConfig junk m = Ok (Some file) /\ ParseConfig ∅ file = Ok (true, m).
Proof.
  intros Hne Hm. eexists. split; [by apply MakeConfig_writes|].
  destruct (entries_storable m Hm). by rewrite ParseConfig_reads, entries_back.
Qed.

(** The configuration used in the witnesses. *)
Definition sample_config : config :=
  SetValue (SetValue ∅ (lit "AutoUpdate") (lit "1")) (lit "user") [].

Lemma sample_storable : storable_config sample_config.
Proof.
  split; [|split; reflexivity].
  apply map_Forall_to_list. vm_compute map_to_list. repeat constructor; simpl; lia.
Qed.

Lemma config_roundtrip_witness :
  exists file, MakeConfig (fun i => i) sample_config = Ok (Some file) /\
    ParseConfig ∅ file = Ok (true, sample_config).
Proof. apply (config_roundtrip (fun i => i) sample_config); [done|apply sample_storable]. Defined.

(** ** Settings *)

(** After [SetVersionInConfig] on a file that parses, [GetCurrentVersion]
    returns the version set, and every other setting keeps its value; on the
    empty file that [GetConfig] leaves behind on the first run, the header is
    read outside the buffer. *)
Theorem SetVersion_exact junk file b m nVersion CLIENT_VERSION :
  ParseConfig ∅ file = Ok (b, m) -> 0 <= nVersion < 2 ^ 31 ->
  storable_config (SetValue m version_key (StringHelper.ConvertFromInt nVersion)) ->
  (exists file' m', SetVersionInConfig junk file nVersion = Ok file' /\
    GetCurrentVersion CLIENT_VERSION file' = Ok nVersion /\
    ParseConfig ∅ file' = Ok (true, m') /\
    forall k, k <> version_key -> GetValue m' k = GetValue m k) /\
  SetVersionInConfig junk [] nVersion = Fault OutOfRange.
Proof.
  intros Hp Hv Hst. split; [|done].
  set (m' := SetValue m version_key (StringHelper.ConvertFromInt nVersion)) in *.
  assert (Hne : m' <> ∅) by apply insert_non_empty.
  destruct (entries_storable m' Hst).
  exists (config_header (Z.of_nat (List.length (entries m'))) ++ flat_map masked_item (entries m')), m'.
  unfold SetVersionInConfig, SaveKeyValueConfig. rewrite Hp. cbn [mbind outcome_bind snd default].
  fold m'. rewrite MakeConfig_writes by done. cbn [mbind outcome_bind default]. split; [reflexivity|].
  unfold GetCurrentVersion. rewrite !ParseConfig_reads, entries_back by done. cbn [mbind outcome_bind negb].
  assert (Hget : GetValue m' version_key = StringHelper.ConvertFromInt nVersion)
    by (unfold GetValue, m', SetValue; by rewrite lookup_insert_eq).
  rewrite Hget. destruct (ConvertFromInt_digits nVersion) as (_ & _ & Hne'); [lia|].
  rewrite bool_decide_eq_false_2, int_back by (done || lia).
  split; [done|]. split; [done|].
  intros k Hk. unfold GetValue, m', SetValue. by rewrite lookup_insert_ne.
Qed.

Lemma SetVersion_exact_witness :
  exists file b m, ParseConfig ∅ file = Ok (b, m) /\
    (exists file', SetVersionInConfig (fun _ => 0xCD) file 0x01000002 = Ok file' /\
      GetCurrentVersion 0 file' = Ok 0x01000002).
Proof.
  pose (file := match MakeConfig (fun _ => 0) sample_config with Ok (Some f) => f | _ => [] end).
  assert (Hp : ParseConfig ∅ file = Ok (true, sample_config)) by (vm_compute; reflexivity).
  assert (Hst : storable_config (SetValue sample_config version_key (StringHelper.ConvertFromInt 0x01000002))).
  { split; [|split; reflexivity]. apply map_Forall_to_list. vm_compute map_to_list. repeat constructor; simpl; lia. }
  exists file, true, sample_config. split; [exact Hp|].
  destruct (proj1 (SetVersion_exact (fun _ => 0xCD) file true sample_config 0x01000002 0 Hp ltac:(lia) Hst))
    as (file' & m' & H1 & H2 & _).
  exists file'. split; [exact H1|exact H2].
Defined.
