(* ===== verification/X86.v ===== *)
(** * X86

    The part of the 32-bit x86 instruction set that the inline assembly of
    src/PlugIn/SogouPlugIn/Decoder.cpp uses, as an interpreter.  A value is an
    integer or a pointer into a named region, so that what is disjoint in the
    program is disjoint by construction; an access outside a region is a fault.
    The stack is a list of 32-bit slots, the other regions are byte buffers. *)
From stdpp Require Import prelude.
From Stdlib Require Import ZArith Lia.
From S2P Require Import Prelude Memory.

Inductive reg := EAX | EBX | ECX | EDX | ESI | EDI | EBP | ESP.

(** The regions: the stack, what the three arguments point to, and the tables. *)
Inductive region (table : Type) := RStack | RBlock | ROut | RKeys | RTab (t : table).

Arguments RStack {_}.
Arguments RBlock {_}.
Arguments ROut {_}.
Arguments RKeys {_}.
Arguments RTab {_} _.

Inductive val (table : Type) := I (z : Z) | P (r : region table) (off : Z).

Arguments I {_} _.
Arguments P {_} _ _.

(** Operands: a register, bits 8 to 15 of one, a constant, [dword ptr [r+d]],
    [byte ptr [r+d]], [dword ptr [r*4+table]] and [byte ptr [r*4+table]]. *)
Inductive operand (table : Type) :=
| R (r : reg)
| H (r : reg)
| Imm (z : Z)
| M (r : reg) (disp : Z)
| MB (r : reg) (disp : Z)
| T (r : reg) (t : table)
| TB (r : reg) (t : table).

Arguments R {_} _.
Arguments H {_} _.
Arguments Imm {_} _.
Arguments M {_} _ _.
Arguments MB {_} _ _.
Arguments T {_} _ _.
Arguments TB {_} _ _.

Inductive instr (table : Type) :=
| MOV (d s : operand table)
| MOVZX (d : reg) (s : operand table)
| XOR (d s : operand table)
| AND (d s : operand table)
| OR (d s : operand table)
| ADD (d s : operand table)
| SUB (d s : operand table)
| ROR (d : reg) (n : Z)
| ROL (d : reg) (n : Z)
| SHR (d : reg) (n : Z)
| PUSH (s : reg)
| POP (d : reg)
| NOP.

Arguments MOV {_} _ _.
Arguments MOVZX {_} _ _.
Arguments XOR {_} _ _.
Arguments AND {_} _ _.
Arguments OR {_} _ _.
Arguments ADD {_} _ _.
Arguments SUB {_} _ _.
Arguments ROR {_} _ _.
Arguments ROL {_} _ _.
Arguments SHR {_} _ _.
Arguments PUSH {_} _.
Arguments POP {_} _.
Arguments NOP {_}.

Section machine.

Context {table : Type} (tbl : table -> list Z) (block keys : list Z).

Record cpu := mkCpu {
  eax : val table; ebx : val table; ecx : val table; edx : val table;
  esi : val table; edi : val table; ebp : val table; esp : val table;
  zf : bool;
  stack : list (val table);
  out : list Z
}.

Definition get_reg (r : reg) (s : cpu) : val table :=
  match r with
  | EAX => eax s | EBX => ebx s | ECX => ecx s | EDX => edx s
  | ESI => esi s | EDI => edi s | EBP => ebp s | ESP => esp s
  end.

Definition set_reg (r : reg) (v : val table) (s : cpu) : cpu :=
  match s with
  | mkCpu a b c d si di bp sp z st o =>
      match r with
      | EAX => mkCpu v b c d si di bp sp z st o
      | EBX => mkCpu a v c d si di bp sp z st o
      | ECX => mkCpu a b v d si di bp sp z st o
      | EDX => mkCpu a b c v si di bp sp z st o
      | ESI => mkCpu a b c d v di bp sp z st o
      | EDI => mkCpu a b c d si v bp sp z st o
      | EBP => mkCpu a b c d si di v sp z st o
      | ESP => mkCpu a b c d si di bp v z st o
      end
  end.

Definition set_zf (z : bool) (s : cpu) : cpu :=
  match s with mkCpu a b c d si di bp sp _ st o => mkCpu a b c d si di bp sp z st o end.

Definition set_stack (st : list (val table)) (s : cpu) : cpu :=
  match s with mkCpu a b c d si di bp sp z _ o => mkCpu a b c d si di bp sp z st o end.

Definition set_out (o : list Z) (s : cpu) : cpu :=
  match s with mkCpu a b c d si di bp sp z st _ => mkCpu a b c d si di bp sp z st o end.

(** The slot of an aligned stack offset. *)
Definition slot (off : Z) : outcome nat := if off mod 4 =? 0 then Ok (Z.to_nat (off / 4)) else Fault OutOfRange.

Definition load32 (r : region table) (off : Z) (s : cpu) : outcome (val table) :=
  match r with
  | RStack =>
      n ← slot off;
      if off <? 0 then Fault OutOfRange
      else match nth_error (stack s) n with Some v => Ok v | None => Fault OutOfRange end
  | RBlock => z ← peek32 block off; Ok (I z)
  | RKeys => z ← peek32 keys off; Ok (I z)
  | ROut => z ← peek32 (out s) off; Ok (I z)
  | RTab t => z ← peek32 (tbl t) off; Ok (I z)
  end.

Fixpoint set_nth (n : nat) (v : val table) (l : list (val table)) : outcome (list (val table)) :=
  match n, l with
  | _, [] => Fault OutOfRange
  | O, _ :: l => Ok (v :: l)
  | S n, x :: l => l ← set_nth n v l; Ok (x :: l)
  end.

Definition store32 (r : region table) (off : Z) (v : val table) (s : cpu) : outcome cpu :=
  match r with
  | RStack =>
      n ← slot off;
      if off <? 0 then Fault OutOfRange else st ← set_nth n v (stack s); Ok (set_stack st s)
  | ROut =>
      match v with
      | I z => o ← poke32 (out s) off z; Ok (set_out o s)
      | P _ _ => Fault Dangling
      end
  | _ => Fault Dangling
  end.

(** Byte [n] of a 32-bit integer. *)
Definition byte_of (n z : Z) : Z := Z.land (Z.shiftr z (8 * n)) 0xFF.

Definition load8 (r : region table) (off : Z) (s : cpu) : outcome (val table) :=
  match r with
  | RStack =>
      v ← load32 RStack (off - off mod 4) s;
      match v with I z => Ok (I (byte_of (off mod 4) z)) | P _ _ => Fault Dangling end
  | RTab t => z ← vec_at (tbl t) off; Ok (I z)
  | RBlock => z ← vec_at block off; Ok (I z)
  | RKeys => z ← vec_at keys off; Ok (I z)
  | ROut => z ← vec_at (out s) off; Ok (I z)
  end.

Definition as_int (v : val table) : outcome Z := match v with I z => Ok z | P _ _ => Fault Dangling end.

Definition get (o : operand table) (s : cpu) : outcome (val table) :=
  match o with
  | R r => Ok (get_reg r s)
  | H r => z ← as_int (get_reg r s); Ok (I (byte_of 1 z))
  | Imm z => Ok (I z)
  | M r d => match get_reg r s with P rg off => load32 rg (off + d) s | I _ => Fault Dangling end
  | MB r d => match get_reg r s with P rg off => load8 rg (off + d) s | I _ => Fault Dangling end
  | T r t => i ← as_int (get_reg r s); load32 (RTab t) (i * 4) s
  | TB r t => i ← as_int (get_reg r s); load8 (RTab t) (i * 4) s
  end.

Definition put (o : operand table) (v : val table) (s : cpu) : outcome cpu :=
  match o with
  | R r => Ok (set_reg r v s)
  | M r d => match get_reg r s with P rg off => store32 rg (off + d) v s | I _ => Fault Dangling end
  | _ => Fault Dangling
  end.

(** An operation on two integers; it sets the zero flag. *)
Definition alu (f : Z -> Z -> Z) (d src : operand table) (s : cpu) : outcome cpu :=
  a ← get d s; x ← as_int a; b ← get src s; y ← as_int b;
  let z := f x y in
  s ← put d (I z) s; Ok (set_zf (z =? 0) s).

(** Addition, or subtraction when [neg], also moves pointers. *)
Definition add_op (neg : bool) (d src : operand table) (s : cpu) : outcome cpu :=
  a ← get d s; b ← get src s; y ← as_int b;
  let y := if neg then - y else y in
  match a with
  | I x => let z := u32 (x + y) in s ← put d (I z) s; Ok (set_zf (z =? 0) s)
  | P r off => s ← put d (P r (off + y)) s; Ok (set_zf false s)
  end.

Definition ror32 (x n : Z) : Z := Z.lor (Z.shiftr x n) (u32 (Z.shiftl x (32 - n))).
Definition rol32 (x n : Z) : Z := Z.lor (u32 (Z.shiftl x n)) (Z.shiftr x (32 - n)).

Definition exec (i : instr table) (s : cpu) : outcome cpu :=
  match i with
  | MOV d src => v ← get src s; put d v s
  | MOVZX d src => v ← get src s; put (R d) v s
  | XOR d src => alu Z.lxor d src s
  | AND d src => alu Z.land d src s
  | OR d src => alu Z.lor d src s
  | ADD d src => add_op false d src s
  | SUB d src => add_op true d src s
  | ROR d n => x ← as_int (get_reg d s); Ok (set_reg d (I (ror32 x n)) s)
  | ROL d n => x ← as_int (get_reg d s); Ok (set_reg d (I (rol32 x n)) s)
  | SHR d n =>
      x ← as_int (get_reg d s);
      let z := Z.shiftr x n in Ok (set_zf (z =? 0) (set_reg d (I z) s))
  | PUSH r => let v := get_reg r s in s ← add_op true (R ESP) (Imm 4) s; put (M ESP 0) v s
  | POP d => v ← get (M ESP 0) s; s ← add_op false (R ESP) (Imm 4) s; put (R d) v s
  | NOP => Ok s
  end.

Fixpoint exec_list (l : list (instr table)) (s : cpu) : outcome cpu :=
  match l with
  | [] => Ok s
  | i :: l => s ← exec i s; exec_list l s
  end.

(** A loop body ended by [jnz] to its start. *)
Fixpoint do_jnz (fuel : nat) (body : list (instr table)) (s : cpu) : outcome cpu :=
  match fuel with
  | O => Fault NoFuel
  | S fuel => s ← exec_list body s; if zf s then Ok s else do_jnz fuel body s
  end.

End machine.
