(* ===== verification/Aes.v ===== *)
(** * Aes

    The block cipher AES-128 as FIPS 197 defines it, on lists of bytes: the
    reference that the table-driven assembly of the file SogouCipher is compared
    with.  The S-box is computed from its definition in the field of 256
    elements, not given as a table. *)
From stdpp Require Import prelude.
From Stdlib Require Import ZArith Lia.
From S2P Require Import Prelude.

(** ** The field *)

Definition xtime (a : Z) : Z := if a <? 128 then 2 * a else Z.lxor (2 * a) 0x11B.

(** The product, one bit of [b] at a time. *)
Fixpoint gmul_bits (n : nat) (a b : Z) : Z :=
  match n with
  | O => 0
  | S n => Z.lxor (if Z.odd b then a else 0) (gmul_bits n (xtime a) (Z.div2 b))
  end.

Definition gmul (a b : Z) : Z := gmul_bits 8 a b.

(** The inverse is the power 254 = 2 + 4 + ... + 128. *)
Fixpoint gpow (n : nat) (sq acc : Z) : Z :=
  match n with
  | O => acc
  | S n => let sq := gmul sq sq in gpow n sq (gmul acc sq)
  end.

Definition ginv (a : Z) : Z := gpow 7 a 1.

Definition rotl8 (a n : Z) : Z := Z.lor (u8 (Z.shiftl a n)) (Z.shiftr a (8 - n)).

Definition sbox (a : Z) : Z :=
  let b := ginv a in
  Z.lxor (Z.lxor (Z.lxor (Z.lxor (Z.lxor b (rotl8 b 1)) (rotl8 b 2)) (rotl8 b 3)) (rotl8 b 4)) 0x63.

(** ** The rounds; byte [r + 4 * c] of a block is row [r] of column [c] *)

Definition sub_bytes (s : list Z) : list Z := map sbox s.

Definition shift_rows (s : list Z) : list Z :=
  map (fun i => nth ((i + 4 * (i mod 4)) mod 16) s 0) (seq 0 16).

Definition x2 (a : Z) : Z := xtime a.
Definition x3 (a : Z) : Z := Z.lxor (xtime a) a.

Definition lxor4 (a b c d : Z) : Z := Z.lxor (Z.lxor (Z.lxor a b) c) d.

Fixpoint mix_columns (s : list Z) : list Z :=
  match s with
  | a :: b :: c :: d :: s =>
      lxor4 (x2 a) (x3 b) c d :: lxor4 a (x2 b) (x3 c) d ::
      lxor4 a b (x2 c) (x3 d) :: lxor4 (x3 a) b c (x2 d) :: mix_columns s
  | _ => []
  end.

Definition add_round_key (k s : list Z) : list Z := zip_with Z.lxor s k.

Definition round (s k : list Z) : list Z := add_round_key k (mix_columns (shift_rows (sub_bytes s))).

Definition final_round (s k : list Z) : list Z := add_round_key k (shift_rows (sub_bytes s)).

(** The cipher for a first, the middle and a last round key. *)
Definition cipher (k0 : list Z) (ks : list (list Z)) (kn : list Z) (block : list Z) : list Z :=
  final_round (fold_left round ks (add_round_key k0 block)) kn.

(** ** The key schedule, on words of four bytes *)

Definition rot_word (w : list Z) : list Z := drop 1 w ++ take 1 w.

(** The next round key from the previous one. *)
Definition next_key (rcon : Z) (k : list Z) : list Z :=
  let t := zip_with Z.lxor (map sbox (rot_word (drop 12 k))) [rcon; 0; 0; 0] in
  let w0 := zip_with Z.lxor (take 4 k) t in
  let w1 := zip_with Z.lxor (take 4 (drop 4 k)) w0 in
  let w2 := zip_with Z.lxor (take 4 (drop 8 k)) w1 in
  let w3 := zip_with Z.lxor (drop 12 k) w2 in
  w0 ++ w1 ++ w2 ++ w3.

Fixpoint expand (n : nat) (rcon : Z) (k : list Z) : list (list Z) :=
  match n with
  | O => [k]
  | S n => k :: expand n (xtime rcon) (next_key rcon k)
  end.

(** The eleven round keys of a key. *)
Definition round_keys (key : list Z) : list (list Z) := expand 10 1 key.

Definition aes128 (key block : list Z) : list Z :=
  let ks := round_keys key in
  cipher (nth 0 ks []) (take 9 (drop 1 ks)) (nth 10 ks []) block.

(** The example of FIPS 197, appendix C.1. *)
Example fips197 :
  aes128 (seqZ 0 16) (map (fun i => i * 17) (seqZ 0 16)) =
  [0x69; 0xC4; 0xE0; 0xD8; 0x6A; 0x7B; 0x04; 0x30; 0xD8; 0xCD; 0xB7; 0x80; 0x70; 0xB4; 0xC5; 0x5A].
Proof. vm_compute. reflexivity. Qed.
