(* ===== verification/SogouCipher.v ===== *)
(** * SogouCipher

    The block cipher of src/PlugIn/SogouPlugIn/Decoder.cpp: its five tables, the
    inline assembly [gen_encode_page] as a program of the machine of the file
    X86, and [calc_encode_page], which runs it with the round keys [InitArray2].
    The assembly is cut where its control flow is: the entry, the loop and the
    exit; the loop is written as its two rounds. *)
From stdpp Require Import prelude.
From Stdlib Require Import ZArith Lia.
From S2P Require Import Prelude Memory X86.

(** ** Tables *)

Definition T5B4E18 : list Z := [
  0x63; 0x63; 0x63; 0x63; 0x7C; 0x7C; 0x7C; 0x7C; 0x77; 0x77; 0x77; 0x77; 0x7B; 0x7B; 0x7B; 0x7B;
  0xF2; 0xF2; 0xF2; 0xF2; 0x6B; 0x6B; 0x6B; 0x6B; 0x6F; 0x6F; 0x6F; 0x6F; 0xC5; 0xC5; 0xC5; 0xC5;
  0x30; 0x30; 0x30; 0x30; 0x01; 0x01; 0x01; 0x01; 0x67; 0x67; 0x67; 0x67; 0x2B; 0x2B; 0x2B; 0x2B;
  0xFE; 0xFE; 0xFE; 0xFE; 0xD7; 0xD7; 0xD7; 0xD7; 0xAB; 0xAB; 0xAB; 0xAB; 0x76; 0x76; 0x76; 0x76;
  0xCA; 0xCA; 0xCA; 0xCA; 0x82; 0x82; 0x82; 0x82; 0xC9; 0xC9; 0xC9; 0xC9; 0x7D; 0x7D; 0x7D; 0x7D;
  0xFA; 0xFA; 0xFA; 0xFA; 0x59; 0x59; 0x59; 0x59; 0x47; 0x47; 0x47; 0x47; 0xF0; 0xF0; 0xF0; 0xF0;
  0xAD; 0xAD; 0xAD; 0xAD; 0xD4; 0xD4; 0xD4; 0xD4; 0xA2; 0xA2; 0xA2; 0xA2; 0xAF; 0xAF; 0xAF; 0xAF;
  0x9C; 0x9C; 0x9C; 0x9C; 0xA4; 0xA4; 0xA4; 0xA4; 0x72; 0x72; 0x72; 0x72; 0xC0; 0xC0; 0xC0; 0xC0;
  0xB7; 0xB7; 0xB7; 0xB7; 0xFD; 0xFD; 0xFD; 0xFD; 0x93; 0x93; 0x93; 0x93; 0x26; 0x26; 0x26; 0x26;
  0x36; 0x36; 0x36; 0x36; 0x3F; 0x3F; 0x3F; 0x3F; 0xF7; 0xF7; 0xF7; 0xF7; 0xCC; 0xCC; 0xCC; 0xCC;
  0x34; 0x34; 0x34; 0x34; 0xA5; 0xA5; 0xA5; 0xA5; 0xE5; 0xE5; 0xE5; 0xE5; 0xF1; 0xF1; 0xF1; 0xF1;
  0x71; 0x71; 0x71; 0x71; 0xD8; 0xD8; 0xD8; 0xD8; 0x31; 0x31; 0x31; 0x31; 0x15; 0x15; 0x15; 0x15;
  0x04; 0x04; 0x04; 0x04; 0xC7; 0xC7; 0xC7; 0xC7; 0x23; 0x23; 0x23; 0x23; 0xC3; 0xC3; 0xC3; 0xC3;
  0x18; 0x18; 0x18; 0x18; 0x96; 0x96; 0x96; 0x96; 0x05; 0x05; 0x05; 0x05; 0x9A; 0x9A; 0x9A; 0x9A;
  0x07; 0x07; 0x07; 0x07; 0x12; 0x12; 0x12; 0x12; 0x80; 0x80; 0x80; 0x80; 0xE2; 0xE2; 0xE2; 0xE2;
  0xEB; 0xEB; 0xEB; 0xEB; 0x27; 0x27; 0x27; 0x27; 0xB2; 0xB2; 0xB2; 0xB2; 0x75; 0x75; 0x75; 0x75;
  0x09; 0x09; 0x09; 0x09; 0x83; 0x83; 0x83; 0x83; 0x2C; 0x2C; 0x2C; 0x2C; 0x1A; 0x1A; 0x1A; 0x1A;
  0x1B; 0x1B; 0x1B; 0x1B; 0x6E; 0x6E; 0x6E; 0x6E; 0x5A; 0x5A; 0x5A; 0x5A; 0xA0; 0xA0; 0xA0; 0xA0;
  0x52; 0x52; 0x52; 0x52; 0x3B; 0x3B; 0x3B; 0x3B; 0xD6; 0xD6; 0xD6; 0xD6; 0xB3; 0xB3; 0xB3; 0xB3;
  0x29; 0x29; 0x29; 0x29; 0xE3; 0xE3; 0xE3; 0xE3; 0x2F; 0x2F; 0x2F; 0x2F; 0x84; 0x84; 0x84; 0x84;
  0x53; 0x53; 0x53; 0x53; 0xD1; 0xD1; 0xD1; 0xD1; 0x00; 0x00; 0x00; 0x00; 0xED; 0xED; 0xED; 0xED;
  0x20; 0x20; 0x20; 0x20; 0xFC; 0xFC; 0xFC; 0xFC; 0xB1; 0xB1; 0xB1; 0xB1; 0x5B; 0x5B; 0x5B; 0x5B;
  0x6A; 0x6A; 0x6A; 0x6A; 0xCB; 0xCB; 0xCB; 0xCB; 0xBE; 0xBE; 0xBE; 0xBE; 0x39; 0x39; 0x39; 0x39;
  0x4A; 0x4A; 0x4A; 0x4A; 0x4C; 0x4C; 0x4C; 0x4C; 0x58; 0x58; 0x58; 0x58; 0xCF; 0xCF; 0xCF; 0xCF;
  0xD0; 0xD0; 0xD0; 0xD0; 0xEF; 0xEF; 0xEF; 0xEF; 0xAA; 0xAA; 0xAA; 0xAA; 0xFB; 0xFB; 0xFB; 0xFB;
  0x43; 0x43; 0x43; 0x43; 0x4D; 0x4D; 0x4D; 0x4D; 0x33; 0x33; 0x33; 0x33; 0x85; 0x85; 0x85; 0x85;
  0x45; 0x45; 0x45; 0x45; 0xF9; 0xF9; 0xF9; 0xF9; 0x02; 0x02; 0x02; 0x02; 0x7F; 0x7F; 0x7F; 0x7F;
  0x50; 0x50; 0x50; 0x50; 0x3C; 0x3C; 0x3C; 0x3C; 0x9F; 0x9F; 0x9F; 0x9F; 0xA8; 0xA8; 0xA8; 0xA8;
  0x51; 0x51; 0x51; 0x51; 0xA3; 0xA3; 0xA3; 0xA3; 0x40; 0x40; 0x40; 0x40; 0x8F; 0x8F; 0x8F; 0x8F;
  0x92; 0x92; 0x92; 0x92; 0x9D; 0x9D; 0x9D; 0x9D; 0x38; 0x38; 0x38; 0x38; 0xF5; 0xF5; 0xF5; 0xF5;
  0xBC; 0xBC; 0xBC; 0xBC; 0xB6; 0xB6; 0xB6; 0xB6; 0xDA; 0xDA; 0xDA; 0xDA; 0x21; 0x21; 0x21; 0x21;
  0x10; 0x10; 0x10; 0x10; 0xFF; 0xFF; 0xFF; 0xFF; 0xF3; 0xF3; 0xF3; 0xF3; 0xD2; 0xD2; 0xD2; 0xD2;
  0xCD; 0xCD; 0xCD; 0xCD; 0x0C; 0x0C; 0x0C; 0x0C; 0x13; 0x13; 0x13; 0x13; 0xEC; 0xEC; 0xEC; 0xEC;
  0x5F; 0x5F; 0x5F; 0x5F; 0x97; 0x97; 0x97; 0x97; 0x44; 0x44; 0x44; 0x44; 0x17; 0x17; 0x17; 0x17;
  0xC4; 0xC4; 0xC4; 0xC4; 0xA7; 0xA7; 0xA7; 0xA7; 0x7E; 0x7E; 0x7E; 0x7E; 0x3D; 0x3D; 0x3D; 0x3D;
  0x64; 0x64; 0x64; 0x64; 0x5D; 0x5D; 0x5D; 0x5D; 0x19; 0x19; 0x19; 0x19; 0x73; 0x73; 0x73; 0x73;
  0x60; 0x60; 0x60; 0x60; 0x81; 0x81; 0x81; 0x81; 0x4F; 0x4F; 0x4F; 0x4F; 0xDC; 0xDC; 0xDC; 0xDC;
  0x22; 0x22; 0x22; 0x22; 0x2A; 0x2A; 0x2A; 0x2A; 0x90; 0x90; 0x90; 0x90; 0x88; 0x88; 0x88; 0x88;
  0x46; 0x46; 0x46; 0x46; 0xEE; 0xEE; 0xEE; 0xEE; 0xB8; 0xB8; 0xB8; 0xB8; 0x14; 0x14; 0x14; 0x14;
  0xDE; 0xDE; 0xDE; 0xDE; 0x5E; 0x5E; 0x5E; 0x5E; 0x0B; 0x0B; 0x0B; 0x0B; 0xDB; 0xDB; 0xDB; 0xDB;
  0xE0; 0xE0; 0xE0; 0xE0; 0x32; 0x32; 0x32; 0x32; 0x3A; 0x3A; 0x3A; 0x3A; 0x0A; 0x0A; 0x0A; 0x0A;
  0x49; 0x49; 0x49; 0x49; 0x06; 0x06; 0x06; 0x06; 0x24; 0x24; 0x24; 0x24; 0x5C; 0x5C; 0x5C; 0x5C;
  0xC2; 0xC2; 0xC2; 0xC2; 0xD3; 0xD3; 0xD3; 0xD3; 0xAC; 0xAC; 0xAC; 0xAC; 0x62; 0x62; 0x62; 0x62;
  0x91; 0x91; 0x91; 0x91; 0x95; 0x95; 0x95; 0x95; 0xE4; 0xE4; 0xE4; 0xE4; 0x79; 0x79; 0x79; 0x79;
  0xE7; 0xE7; 0xE7; 0xE7; 0xC8; 0xC8; 0xC8; 0xC8; 0x37; 0x37; 0x37; 0x37; 0x6D; 0x6D; 0x6D; 0x6D;
  0x8D; 0x8D; 0x8D; 0x8D; 0xD5; 0xD5; 0xD5; 0xD5; 0x4E; 0x4E; 0x4E; 0x4E; 0xA9; 0xA9; 0xA9; 0xA9;
  0x6C; 0x6C; 0x6C; 0x6C; 0x56; 0x56; 0x56; 0x56; 0xF4; 0xF4; 0xF4; 0xF4; 0xEA; 0xEA; 0xEA; 0xEA;
  0x65; 0x65; 0x65; 0x65; 0x7A; 0x7A; 0x7A; 0x7A; 0xAE; 0xAE; 0xAE; 0xAE; 0x08; 0x08; 0x08; 0x08;
  0xBA; 0xBA; 0xBA; 0xBA; 0x78; 0x78; 0x78; 0x78; 0x25; 0x25; 0x25; 0x25; 0x2E; 0x2E; 0x2E; 0x2E;
  0x1C; 0x1C; 0x1C; 0x1C; 0xA6; 0xA6; 0xA6; 0xA6; 0xB4; 0xB4; 0xB4; 0xB4; 0xC6; 0xC6; 0xC6; 0xC6;
  0xE8; 0xE8; 0xE8; 0xE8; 0xDD; 0xDD; 0xDD; 0xDD; 0x74; 0x74; 0x74; 0x74; 0x1F; 0x1F; 0x1F; 0x1F;
  0x4B; 0x4B; 0x4B; 0x4B; 0xBD; 0xBD; 0xBD; 0xBD; 0x8B; 0x8B; 0x8B; 0x8B; 0x8A; 0x8A; 0x8A; 0x8A;
  0x70; 0x70; 0x70; 0x70; 0x3E; 0x3E; 0x3E; 0x3E; 0xB5; 0xB5; 0xB5; 0xB5; 0x66; 0x66; 0x66; 0x66;
  0x48; 0x48; 0x48; 0x48; 0x03; 0x03; 0x03; 0x03; 0xF6; 0xF6; 0xF6; 0xF6; 0x0E; 0x0E; 0x0E; 0x0E;
  0x61; 0x61; 0x61; 0x61; 0x35; 0x35; 0x35; 0x35; 0x57; 0x57; 0x57; 0x57; 0xB9; 0xB9; 0xB9; 0xB9;
  0x86; 0x86; 0x86; 0x86; 0xC1; 0xC1; 0xC1; 0xC1; 0x1D; 0x1D; 0x1D; 0x1D; 0x9E; 0x9E; 0x9E; 0x9E;
  0xE1; 0xE1; 0xE1; 0xE1; 0xF8; 0xF8; 0xF8; 0xF8; 0x98; 0x98; 0x98; 0x98; 0x11; 0x11; 0x11; 0x11;
  0x69; 0x69; 0x69; 0x69; 0xD9; 0xD9; 0xD9; 0xD9; 0x8E; 0x8E; 0x8E; 0x8E; 0x94; 0x94; 0x94; 0x94;
  0x9B; 0x9B; 0x9B; 0x9B; 0x1E; 0x1E; 0x1E; 0x1E; 0x87; 0x87; 0x87; 0x87; 0xE9; 0xE9; 0xE9; 0xE9;
  0xCE; 0xCE; 0xCE; 0xCE; 0x55; 0x55; 0x55; 0x55; 0x28; 0x28; 0x28; 0x28; 0xDF; 0xDF; 0xDF; 0xDF;
  0x8C; 0x8C; 0x8C; 0x8C; 0xA1; 0xA1; 0xA1; 0xA1; 0x89; 0x89; 0x89; 0x89; 0x0D; 0x0D; 0x0D; 0x0D;
  0xBF; 0xBF; 0xBF; 0xBF; 0xE6; 0xE6; 0xE6; 0xE6; 0x42; 0x42; 0x42; 0x42; 0x68; 0x68; 0x68; 0x68;
  0x41; 0x41; 0x41; 0x41; 0x99; 0x99; 0x99; 0x99; 0x2D; 0x2D; 0x2D; 0x2D; 0x0F; 0x0F; 0x0F; 0x0F;
  0xB0; 0xB0; 0xB0; 0xB0; 0x54; 0x54; 0x54; 0x54; 0xBB; 0xBB; 0xBB; 0xBB; 0x16; 0x16; 0x16; 0x16].

Definition T5B4618 : list Z := [
  0x63; 0xC6; 0xA5; 0x63; 0x7C; 0xF8; 0x84; 0x7C; 0x77; 0xEE; 0x99; 0x77; 0x7B; 0xF6; 0x8D; 0x7B;
  0xF2; 0xFF; 0x0D; 0xF2; 0x6B; 0xD6; 0xBD; 0x6B; 0x6F; 0xDE; 0xB1; 0x6F; 0xC5; 0x91; 0x54; 0xC5;
  0x30; 0x60; 0x50; 0x30; 0x01; 0x02; 0x03; 0x01; 0x67; 0xCE; 0xA9; 0x67; 0x2B; 0x56; 0x7D; 0x2B;
  0xFE; 0xE7; 0x19; 0xFE; 0xD7; 0xB5; 0x62; 0xD7; 0xAB; 0x4D; 0xE6; 0xAB; 0x76; 0xEC; 0x9A; 0x76;
  0xCA; 0x8F; 0x45; 0xCA; 0x82; 0x1F; 0x9D; 0x82; 0xC9; 0x89; 0x40; 0xC9; 0x7D; 0xFA; 0x87; 0x7D;
  0xFA; 0xEF; 0x15; 0xFA; 0x59; 0xB2; 0xEB; 0x59; 0x47; 0x8E; 0xC9; 0x47; 0xF0; 0xFB; 0x0B; 0xF0;
  0xAD; 0x41; 0xEC; 0xAD; 0xD4; 0xB3; 0x67; 0xD4; 0xA2; 0x5F; 0xFD; 0xA2; 0xAF; 0x45; 0xEA; 0xAF;
  0x9C; 0x23; 0xBF; 0x9C; 0xA4; 0x53; 0xF7; 0xA4; 0x72; 0xE4; 0x96; 0x72; 0xC0; 0x9B; 0x5B; 0xC0;
  0xB7; 0x75; 0xC2; 0xB7; 0xFD; 0xE1; 0x1C; 0xFD; 0x93; 0x3D; 0xAE; 0x93; 0x26; 0x4C; 0x6A; 0x26;
  0x36; 0x6C; 0x5A; 0x36; 0x3F; 0x7E; 0x41; 0x3F; 0xF7; 0xF5; 0x02; 0xF7; 0xCC; 0x83; 0x4F; 0xCC;
  0x34; 0x68; 0x5C; 0x34; 0xA5; 0x51; 0xF4; 0xA5; 0xE5; 0xD1; 0x34; 0xE5; 0xF1; 0xF9; 0x08; 0xF1;
  0x71; 0xE2; 0x93; 0x71; 0xD8; 0xAB; 0x73; 0xD8; 0x31; 0x62; 0x53; 0x31; 0x15; 0x2A; 0x3F; 0x15;
  0x04; 0x08; 0x0C; 0x04; 0xC7; 0x95; 0x52; 0xC7; 0x23; 0x46; 0x65; 0x23; 0xC3; 0x9D; 0x5E; 0xC3;
  0x18; 0x30; 0x28; 0x18; 0x96; 0x37; 0xA1; 0x96; 0x05; 0x0A; 0x0F; 0x05; 0x9A; 0x2F; 0xB5; 0x9A;
  0x07; 0x0E; 0x09; 0x07; 0x12; 0x24; 0x36; 0x12; 0x80; 0x1B; 0x9B; 0x80; 0xE2; 0xDF; 0x3D; 0xE2;
  0xEB; 0xCD; 0x26; 0xEB; 0x27; 0x4E; 0x69; 0x27; 0xB2; 0x7F; 0xCD; 0xB2; 0x75; 0xEA; 0x9F; 0x75;
  0x09; 0x12; 0x1B; 0x09; 0x83; 0x1D; 0x9E; 0x83; 0x2C; 0x58; 0x74; 0x2C; 0x1A; 0x34; 0x2E; 0x1A;
  0x1B; 0x36; 0x2D; 0x1B; 0x6E; 0xDC; 0xB2; 0x6E; 0x5A; 0xB4; 0xEE; 0x5A; 0xA0; 0x5B; 0xFB; 0xA0;
  0x52; 0xA4; 0xF6; 0x52; 0x3B; 0x76; 0x4D; 0x3B; 0xD6; 0xB7; 0x61; 0xD6; 0xB3; 0x7D; 0xCE; 0xB3;
  0x29; 0x52; 0x7B; 0x29; 0xE3; 0xDD; 0x3E; 0xE3; 0x2F; 0x5E; 0x71; 0x2F; 0x84; 0x13; 0x97; 0x84;
  0x53; 0xA6; 0xF5; 0x53; 0xD1; 0xB9; 0x68; 0xD1; 0x00; 0x00; 0x00; 0x00; 0xED; 0xC1; 0x2C; 0xED;
  0x20; 0x40; 0x60; 0x20; 0xFC; 0xE3; 0x1F; 0xFC; 0xB1; 0x79; 0xC8; 0xB1; 0x5B; 0xB6; 0xED; 0x5B;
  0x6A; 0xD4; 0xBE; 0x6A; 0xCB; 0x8D; 0x46; 0xCB; 0xBE; 0x67; 0xD9; 0xBE; 0x39; 0x72; 0x4B; 0x39;
  0x4A; 0x94; 0xDE; 0x4A; 0x4C; 0x98; 0xD4; 0x4C; 0x58; 0xB0; 0xE8; 0x58; 0xCF; 0x85; 0x4A; 0xCF;
  0xD0; 0xBB; 0x6B; 0xD0; 0xEF; 0xC5; 0x2A; 0xEF; 0xAA; 0x4F; 0xE5; 0xAA; 0xFB; 0xED; 0x16; 0xFB;
  0x43; 0x86; 0xC5; 0x43; 0x4D; 0x9A; 0xD7; 0x4D; 0x33; 0x66; 0x55; 0x33; 0x85; 0x11; 0x94; 0x85;
  0x45; 0x8A; 0xCF; 0x45; 0xF9; 0xE9; 0x10; 0xF9; 0x02; 0x04; 0x06; 0x02; 0x7F; 0xFE; 0x81; 0x7F;
  0x50; 0xA0; 0xF0; 0x50; 0x3C; 0x78; 0x44; 0x3C; 0x9F; 0x25; 0xBA; 0x9F; 0xA8; 0x4B; 0xE3; 0xA8;
  0x51; 0xA2; 0xF3; 0x51; 0xA3; 0x5D; 0xFE; 0xA3; 0x40; 0x80; 0xC0; 0x40; 0x8F; 0x05; 0x8A; 0x8F;
  0x92; 0x3F; 0xAD; 0x92; 0x9D; 0x21; 0xBC; 0x9D; 0x38; 0x70; 0x48; 0x38; 0xF5; 0xF1; 0x04; 0xF5;
  0xBC; 0x63; 0xDF; 0xBC; 0xB6; 0x77; 0xC1; 0xB6; 0xDA; 0xAF; 0x75; 0xDA; 0x21; 0x42; 0x63; 0x21;
  0x10; 0x20; 0x30; 0x10; 0xFF; 0xE5; 0x1A; 0xFF; 0xF3; 0xFD; 0x0E; 0xF3; 0xD2; 0xBF; 0x6D; 0xD2;
  0xCD; 0x81; 0x4C; 0xCD; 0x0C; 0x18; 0x14; 0x0C; 0x13; 0x26; 0x35; 0x13; 0xEC; 0xC3; 0x2F; 0xEC;
  0x5F; 0xBE; 0xE1; 0x5F; 0x97; 0x35; 0xA2; 0x97; 0x44; 0x88; 0xCC; 0x44; 0x17; 0x2E; 0x39; 0x17;
  0xC4; 0x93; 0x57; 0xC4; 0xA7; 0x55; 0xF2; 0xA7; 0x7E; 0xFC; 0x82; 0x7E; 0x3D; 0x7A; 0x47; 0x3D;
  0x64; 0xC8; 0xAC; 0x64; 0x5D; 0xBA; 0xE7; 0x5D; 0x19; 0x32; 0x2B; 0x19; 0x73; 0xE6; 0x95; 0x73;
  0x60; 0xC0; 0xA0; 0x60; 0x81; 0x19; 0x98; 0x81; 0x4F; 0x9E; 0xD1; 0x4F; 0xDC; 0xA3; 0x7F; 0xDC;
  0x22; 0x44; 0x66; 0x22; 0x2A; 0x54; 0x7E; 0x2A; 0x90; 0x3B; 0xAB; 0x90; 0x88; 0x0B; 0x83; 0x88;
  0x46; 0x8C; 0xCA; 0x46; 0xEE; 0xC7; 0x29; 0xEE; 0xB8; 0x6B; 0xD3; 0xB8; 0x14; 0x28; 0x3C; 0x14;
  0xDE; 0xA7; 0x79; 0xDE; 0x5E; 0xBC; 0xE2; 0x5E; 0x0B; 0x16; 0x1D; 0x0B; 0xDB; 0xAD; 0x76; 0xDB;
  0xE0; 0xDB; 0x3B; 0xE0; 0x32; 0x64; 0x56; 0x32; 0x3A; 0x74; 0x4E; 0x3A; 0x0A; 0x14; 0x1E; 0x0A;
  0x49; 0x92; 0xDB; 0x49; 0x06; 0x0C; 0x0A; 0x06; 0x24; 0x48; 0x6C; 0x24; 0x5C; 0xB8; 0xE4; 0x5C;
  0xC2; 0x9F; 0x5D; 0xC2; 0xD3; 0xBD; 0x6E; 0xD3; 0xAC; 0x43; 0xEF; 0xAC; 0x62; 0xC4; 0xA6; 0x62;
  0x91; 0x39; 0xA8; 0x91; 0x95; 0x31; 0xA4; 0x95; 0xE4; 0xD3; 0x37; 0xE4; 0x79; 0xF2; 0x8B; 0x79;
  0xE7; 0xD5; 0x32; 0xE7; 0xC8; 0x8B; 0x43; 0xC8; 0x37; 0x6E; 0x59; 0x37; 0x6D; 0xDA; 0xB7; 0x6D;
  0x8D; 0x01; 0x8C; 0x8D; 0xD5; 0xB1; 0x64; 0xD5; 0x4E; 0x9C; 0xD2; 0x4E; 0xA9; 0x49; 0xE0; 0xA9;
  0x6C; 0xD8; 0xB4; 0x6C; 0x56; 0xAC; 0xFA; 0x56; 0xF4; 0xF3; 0x07; 0xF4; 0xEA; 0xCF; 0x25; 0xEA;
  0x65; 0xCA; 0xAF; 0x65; 0x7A; 0xF4; 0x8E; 0x7A; 0xAE; 0x47; 0xE9; 0xAE; 0x08; 0x10; 0x18; 0x08;
  0xBA; 0x6F; 0xD5; 0xBA; 0x78; 0xF0; 0x88; 0x78; 0x25; 0x4A; 0x6F; 0x25; 0x2E; 0x5C; 0x72; 0x2E;
  0x1C; 0x38; 0x24; 0x1C; 0xA6; 0x57; 0xF1; 0xA6; 0xB4; 0x73; 0xC7; 0xB4; 0xC6; 0x97; 0x51; 0xC6;
  0xE8; 0xCB; 0x23; 0xE8; 0xDD; 0xA1; 0x7C; 0xDD; 0x74; 0xE8; 0x9C; 0x74; 0x1F; 0x3E; 0x21; 0x1F;
  0x4B; 0x96; 0xDD; 0x4B; 0xBD; 0x61; 0xDC; 0xBD; 0x8B; 0x0D; 0x86; 0x8B; 0x8A; 0x0F; 0x85; 0x8A;
  0x70; 0xE0; 0x90; 0x70; 0x3E; 0x7C; 0x42; 0x3E; 0xB5; 0x71; 0xC4; 0xB5; 0x66; 0xCC; 0xAA; 0x66;
  0x48; 0x90; 0xD8; 0x48; 0x03; 0x06; 0x05; 0x03; 0xF6; 0xF7; 0x01; 0xF6; 0x0E; 0x1C; 0x12; 0x0E;
  0x61; 0xC2; 0xA3; 0x61; 0x35; 0x6A; 0x5F; 0x35; 0x57; 0xAE; 0xF9; 0x57; 0xB9; 0x69; 0xD0; 0xB9;
  0x86; 0x17; 0x91; 0x86; 0xC1; 0x99; 0x58; 0xC1; 0x1D; 0x3A; 0x27; 0x1D; 0x9E; 0x27; 0xB9; 0x9E;
  0xE1; 0xD9; 0x38; 0xE1; 0xF8; 0xEB; 0x13; 0xF8; 0x98; 0x2B; 0xB3; 0x98; 0x11; 0x22; 0x33; 0x11;
  0x69; 0xD2; 0xBB; 0x69; 0xD9; 0xA9; 0x70; 0xD9; 0x8E; 0x07; 0x89; 0x8E; 0x94; 0x33; 0xA7; 0x94;
  0x9B; 0x2D; 0xB6; 0x9B; 0x1E; 0x3C; 0x22; 0x1E; 0x87; 0x15; 0x92; 0x87; 0xE9; 0xC9; 0x20; 0xE9;
  0xCE; 0x87; 0x49; 0xCE; 0x55; 0xAA; 0xFF; 0x55; 0x28; 0x50; 0x78; 0x28; 0xDF; 0xA5; 0x7A; 0xDF;
  0x8C; 0x03; 0x8F; 0x8C; 0xA1; 0x59; 0xF8; 0xA1; 0x89; 0x09; 0x80; 0x89; 0x0D; 0x1A; 0x17; 0x0D;
  0xBF; 0x65; 0xDA; 0xBF; 0xE6; 0xD7; 0x31; 0xE6; 0x42; 0x84; 0xC6; 0x42; 0x68; 0xD0; 0xB8; 0x68;
  0x41; 0x82; 0xC3; 0x41; 0x99; 0x29; 0xB0; 0x99; 0x2D; 0x5A; 0x77; 0x2D; 0x0F; 0x1E; 0x11; 0x0F;
  0xB0; 0x7B; 0xCB; 0xB0; 0x54; 0xA8; 0xFC; 0x54; 0xBB; 0x6D; 0xD6; 0xBB; 0x16; 0x2C; 0x3A; 0x16].

Definition T5B4218 : list Z := [
  0x63; 0x63; 0xC6; 0xA5; 0x7C; 0x7C; 0xF8; 0x84; 0x77; 0x77; 0xEE; 0x99; 0x7B; 0x7B; 0xF6; 0x8D;
  0xF2; 0xF2; 0xFF; 0x0D; 0x6B; 0x6B; 0xD6; 0xBD; 0x6F; 0x6F; 0xDE; 0xB1; 0xC5; 0xC5; 0x91; 0x54;
  0x30; 0x30; 0x60; 0x50; 0x01; 0x01; 0x02; 0x03; 0x67; 0x67; 0xCE; 0xA9; 0x2B; 0x2B; 0x56; 0x7D;
  0xFE; 0xFE; 0xE7; 0x19; 0xD7; 0xD7; 0xB5; 0x62; 0xAB; 0xAB; 0x4D; 0xE6; 0x76; 0x76; 0xEC; 0x9A;
  0xCA; 0xCA; 0x8F; 0x45; 0x82; 0x82; 0x1F; 0x9D; 0xC9; 0xC9; 0x89; 0x40; 0x7D; 0x7D; 0xFA; 0x87;
  0xFA; 0xFA; 0xEF; 0x15; 0x59; 0x59; 0xB2; 0xEB; 0x47; 0x47; 0x8E; 0xC9; 0xF0; 0xF0; 0xFB; 0x0B;
  0xAD; 0xAD; 0x41; 0xEC; 0xD4; 0xD4; 0xB3; 0x67; 0xA2; 0xA2; 0x5F; 0xFD; 0xAF; 0xAF; 0x45; 0xEA;
  0x9C; 0x9C; 0x23; 0xBF; 0xA4; 0xA4; 0x53; 0xF7; 0x72; 0x72; 0xE4; 0x96; 0xC0; 0xC0; 0x9B; 0x5B;
  0xB7; 0xB7; 0x75; 0xC2; 0xFD; 0xFD; 0xE1; 0x1C; 0x93; 0x93; 0x3D; 0xAE; 0x26; 0x26; 0x4C; 0x6A;
  0x36; 0x36; 0x6C; 0x5A; 0x3F; 0x3F; 0x7E; 0x41; 0xF7; 0xF7; 0xF5; 0x02; 0xCC; 0xCC; 0x83; 0x4F;
  0x34; 0x34; 0x68; 0x5C; 0xA5; 0xA5; 0x51; 0xF4; 0xE5; 0xE5; 0xD1; 0x34; 0xF1; 0xF1; 0xF9; 0x08;
  0x71; 0x71; 0xE2; 0x93; 0xD8; 0xD8; 0xAB; 0x73; 0x31; 0x31; 0x62; 0x53; 0x15; 0x15; 0x2A; 0x3F;
  0x04; 0x04; 0x08; 0x0C; 0xC7; 0xC7; 0x95; 0x52; 0x23; 0x23; 0x46; 0x65; 0xC3; 0xC3; 0x9D; 0x5E;
  0x18; 0x18; 0x30; 0x28; 0x96; 0x96; 0x37; 0xA1; 0x05; 0x05; 0x0A; 0x0F; 0x9A; 0x9A; 0x2F; 0xB5;
  0x07; 0x07; 0x0E; 0x09; 0x12; 0x12; 0x24; 0x36; 0x80; 0x80; 0x1B; 0x9B; 0xE2; 0xE2; 0xDF; 0x3D;
  0xEB; 0xEB; 0xCD; 0x26; 0x27; 0x27; 0x4E; 0x69; 0xB2; 0xB2; 0x7F; 0xCD; 0x75; 0x75; 0xEA; 0x9F;
  0x09; 0x09; 0x12; 0x1B; 0x83; 0x83; 0x1D; 0x9E; 0x2C; 0x2C; 0x58; 0x74; 0x1A; 0x1A; 0x34; 0x2E;
  0x1B; 0x1B; 0x36; 0x2D; 0x6E; 0x6E; 0xDC; 0xB2; 0x5A; 0x5A; 0xB4; 0xEE; 0xA0; 0xA0; 0x5B; 0xFB;
  0x52; 0x52; 0xA4; 0xF6; 0x3B; 0x3B; 0x76; 0x4D; 0xD6; 0xD6; 0xB7; 0x61; 0xB3; 0xB3; 0x7D; 0xCE;
  0x29; 0x29; 0x52; 0x7B; 0xE3; 0xE3; 0xDD; 0x3E; 0x2F; 0x2F; 0x5E; 0x71; 0x84; 0x84; 0x13; 0x97;
  0x53; 0x53; 0xA6; 0xF5; 0xD1; 0xD1; 0xB9; 0x68; 0x00; 0x00; 0x00; 0x00; 0xED; 0xED; 0xC1; 0x2C;
  0x20; 0x20; 0x40; 0x60; 0xFC; 0xFC; 0xE3; 0x1F; 0xB1; 0xB1; 0x79; 0xC8; 0x5B; 0x5B; 0xB6; 0xED;
  0x6A; 0x6A; 0xD4; 0xBE; 0xCB; 0xCB; 0x8D; 0x46; 0xBE; 0xBE; 0x67; 0xD9; 0x39; 0x39; 0x72; 0x4B;
  0x4A; 0x4A; 0x94; 0xDE; 0x4C; 0x4C; 0x98; 0xD4; 0x58; 0x58; 0xB0; 0xE8; 0xCF; 0xCF; 0x85; 0x4A;
  0xD0; 0xD0; 0xBB; 0x6B; 0xEF; 0xEF; 0xC5; 0x2A; 0xAA; 0xAA; 0x4F; 0xE5; 0xFB; 0xFB; 0xED; 0x16;
  0x43; 0x43; 0x86; 0xC5; 0x4D; 0x4D; 0x9A; 0xD7; 0x33; 0x33; 0x66; 0x55; 0x85; 0x85; 0x11; 0x94;
  0x45; 0x45; 0x8A; 0xCF; 0xF9; 0xF9; 0xE9; 0x10; 0x02; 0x02; 0x04; 0x06; 0x7F; 0x7F; 0xFE; 0x81;
  0x50; 0x50; 0xA0; 0xF0; 0x3C; 0x3C; 0x78; 0x44; 0x9F; 0x9F; 0x25; 0xBA; 0xA8; 0xA8; 0x4B; 0xE3;
  0x51; 0x51; 0xA2; 0xF3; 0xA3; 0xA3; 0x5D; 0xFE; 0x40; 0x40; 0x80; 0xC0; 0x8F; 0x8F; 0x05; 0x8A;
  0x92; 0x92; 0x3F; 0xAD; 0x9D; 0x9D; 0x21; 0xBC; 0x38; 0x38; 0x70; 0x48; 0xF5; 0xF5; 0xF1; 0x04;
  0xBC; 0xBC; 0x63; 0xDF; 0xB6; 0xB6; 0x77; 0xC1; 0xDA; 0xDA; 0xAF; 0x75; 0x21; 0x21; 0x42; 0x63;
  0x10; 0x10; 0x20; 0x30; 0xFF; 0xFF; 0xE5; 0x1A; 0xF3; 0xF3; 0xFD; 0x0E; 0xD2; 0xD2; 0xBF; 0x6D;
  0xCD; 0xCD; 0x81; 0x4C; 0x0C; 0x0C; 0x18; 0x14; 0x13; 0x13; 0x26; 0x35; 0xEC; 0xEC; 0xC3; 0x2F;
  0x5F; 0x5F; 0xBE; 0xE1; 0x97; 0x97; 0x35; 0xA2; 0x44; 0x44; 0x88; 0xCC; 0x17; 0x17; 0x2E; 0x39;
  0xC4; 0xC4; 0x93; 0x57; 0xA7; 0xA7; 0x55; 0xF2; 0x7E; 0x7E; 0xFC; 0x82; 0x3D; 0x3D; 0x7A; 0x47;
  0x64; 0x64; 0xC8; 0xAC; 0x5D; 0x5D; 0xBA; 0xE7; 0x19; 0x19; 0x32; 0x2B; 0x73; 0x73; 0xE6; 0x95;
  0x60; 0x60; 0xC0; 0xA0; 0x81; 0x81; 0x19; 0x98; 0x4F; 0x4F; 0x9E; 0xD1; 0xDC; 0xDC; 0xA3; 0x7F;
  0x22; 0x22; 0x44; 0x66; 0x2A; 0x2A; 0x54; 0x7E; 0x90; 0x90; 0x3B; 0xAB; 0x88; 0x88; 0x0B; 0x83;
  0x46; 0x46; 0x8C; 0xCA; 0xEE; 0xEE; 0xC7; 0x29; 0xB8; 0xB8; 0x6B; 0xD3; 0x14; 0x14; 0x28; 0x3C;
  0xDE; 0xDE; 0xA7; 0x79; 0x5E; 0x5E; 0xBC; 0xE2; 0x0B; 0x0B; 0x16; 0x1D; 0xDB; 0xDB; 0xAD; 0x76;
  0xE0; 0xE0; 0xDB; 0x3B; 0x32; 0x32; 0x64; 0x56; 0x3A; 0x3A; 0x74; 0x4E; 0x0A; 0x0A; 0x14; 0x1E;
  0x49; 0x49; 0x92; 0xDB; 0x06; 0x06; 0x0C; 0x0A; 0x24; 0x24; 0x48; 0x6C; 0x5C; 0x5C; 0xB8; 0xE4;
  0xC2; 0xC2; 0x9F; 0x5D; 0xD3; 0xD3; 0xBD; 0x6E; 0xAC; 0xAC; 0x43; 0xEF; 0x62; 0x62; 0xC4; 0xA6;
  0x91; 0x91; 0x39; 0xA8; 0x95; 0x95; 0x31; 0xA4; 0xE4; 0xE4; 0xD3; 0x37; 0x79; 0x79; 0xF2; 0x8B;
  0xE7; 0xE7; 0xD5; 0x32; 0xC8; 0xC8; 0x8B; 0x43; 0x37; 0x37; 0x6E; 0x59; 0x6D; 0x6D; 0xDA; 0xB7;
  0x8D; 0x8D; 0x01; 0x8C; 0xD5; 0xD5; 0xB1; 0x64; 0x4E; 0x4E; 0x9C; 0xD2; 0xA9; 0xA9; 0x49; 0xE0;
  0x6C; 0x6C; 0xD8; 0xB4; 0x56; 0x56; 0xAC; 0xFA; 0xF4; 0xF4; 0xF3; 0x07; 0xEA; 0xEA; 0xCF; 0x25;
  0x65; 0x65; 0xCA; 0xAF; 0x7A; 0x7A; 0xF4; 0x8E; 0xAE; 0xAE; 0x47; 0xE9; 0x08; 0x08; 0x10; 0x18;
  0xBA; 0xBA; 0x6F; 0xD5; 0x78; 0x78; 0xF0; 0x88; 0x25; 0x25; 0x4A; 0x6F; 0x2E; 0x2E; 0x5C; 0x72;
  0x1C; 0x1C; 0x38; 0x24; 0xA6; 0xA6; 0x57; 0xF1; 0xB4; 0xB4; 0x73; 0xC7; 0xC6; 0xC6; 0x97; 0x51;
  0xE8; 0xE8; 0xCB; 0x23; 0xDD; 0xDD; 0xA1; 0x7C; 0x74; 0x74; 0xE8; 0x9C; 0x1F; 0x1F; 0x3E; 0x21;
  0x4B; 0x4B; 0x96; 0xDD; 0xBD; 0xBD; 0x61; 0xDC; 0x8B; 0x8B; 0x0D; 0x86; 0x8A; 0x8A; 0x0F; 0x85;
  0x70; 0x70; 0xE0; 0x90; 0x3E; 0x3E; 0x7C; 0x42; 0xB5; 0xB5; 0x71; 0xC4; 0x66; 0x66; 0xCC; 0xAA;
  0x48; 0x48; 0x90; 0xD8; 0x03; 0x03; 0x06; 0x05; 0xF6; 0xF6; 0xF7; 0x01; 0x0E; 0x0E; 0x1C; 0x12;
  0x61; 0x61; 0xC2; 0xA3; 0x35; 0x35; 0x6A; 0x5F; 0x57; 0x57; 0xAE; 0xF9; 0xB9; 0xB9; 0x69; 0xD0;
  0x86; 0x86; 0x17; 0x91; 0xC1; 0xC1; 0x99; 0x58; 0x1D; 0x1D; 0x3A; 0x27; 0x9E; 0x9E; 0x27; 0xB9;
  0xE1; 0xE1; 0xD9; 0x38; 0xF8; 0xF8; 0xEB; 0x13; 0x98; 0x98; 0x2B; 0xB3; 0x11; 0x11; 0x22; 0x33;
  0x69; 0x69; 0xD2; 0xBB; 0xD9; 0xD9; 0xA9; 0x70; 0x8E; 0x8E; 0x07; 0x89; 0x94; 0x94; 0x33; 0xA7;
  0x9B; 0x9B; 0x2D; 0xB6; 0x1E; 0x1E; 0x3C; 0x22; 0x87; 0x87; 0x15; 0x92; 0xE9; 0xE9; 0xC9; 0x20;
  0xCE; 0xCE; 0x87; 0x49; 0x55; 0x55; 0xAA; 0xFF; 0x28; 0x28; 0x50; 0x78; 0xDF; 0xDF; 0xA5; 0x7A;
  0x8C; 0x8C; 0x03; 0x8F; 0xA1; 0xA1; 0x59; 0xF8; 0x89; 0x89; 0x09; 0x80; 0x0D; 0x0D; 0x1A; 0x17;
  0xBF; 0xBF; 0x65; 0xDA; 0xE6; 0xE6; 0xD7; 0x31; 0x42; 0x42; 0x84; 0xC6; 0x68; 0x68; 0xD0; 0xB8;
  0x41; 0x41; 0x82; 0xC3; 0x99; 0x99; 0x29; 0xB0; 0x2D; 0x2D; 0x5A; 0x77; 0x0F; 0x0F; 0x1E; 0x11;
  0xB0; 0xB0; 0x7B; 0xCB; 0x54; 0x54; 0xA8; 0xFC; 0xBB; 0xBB; 0x6D; 0xD6; 0x16; 0x16; 0x2C; 0x3A].

Definition T5B4A18 : list Z := [
  0xC6; 0xA5; 0x63; 0x63; 0xF8; 0x84; 0x7C; 0x7C; 0xEE; 0x99; 0x77; 0x77; 0xF6; 0x8D; 0x7B; 0x7B;
  0xFF; 0x0D; 0xF2; 0xF2; 0xD6; 0xBD; 0x6B; 0x6B; 0xDE; 0xB1; 0x6F; 0x6F; 0x91; 0x54; 0xC5; 0xC5;
  0x60; 0x50; 0x30; 0x30; 0x02; 0x03; 0x01; 0x01; 0xCE; 0xA9; 0x67; 0x67; 0x56; 0x7D; 0x2B; 0x2B;
  0xE7; 0x19; 0xFE; 0xFE; 0xB5; 0x62; 0xD7; 0xD7; 0x4D; 0xE6; 0xAB; 0xAB; 0xEC; 0x9A; 0x76; 0x76;
  0x8F; 0x45; 0xCA; 0xCA; 0x1F; 0x9D; 0x82; 0x82; 0x89; 0x40; 0xC9; 0xC9; 0xFA; 0x87; 0x7D; 0x7D;
  0xEF; 0x15; 0xFA; 0xFA; 0xB2; 0xEB; 0x59; 0x59; 0x8E; 0xC9; 0x47; 0x47; 0xFB; 0x0B; 0xF0; 0xF0;
  0x41; 0xEC; 0xAD; 0xAD; 0xB3; 0x67; 0xD4; 0xD4; 0x5F; 0xFD; 0xA2; 0xA2; 0x45; 0xEA; 0xAF; 0xAF;
  0x23; 0xBF; 0x9C; 0x9C; 0x53; 0xF7; 0xA4; 0xA4; 0xE4; 0x96; 0x72; 0x72; 0x9B; 0x5B; 0xC0; 0xC0;
  0x75; 0xC2; 0xB7; 0xB7; 0xE1; 0x1C; 0xFD; 0xFD; 0x3D; 0xAE; 0x93; 0x93; 0x4C; 0x6A; 0x26; 0x26;
  0x6C; 0x5A; 0x36; 0x36; 0x7E; 0x41; 0x3F; 0x3F; 0xF5; 0x02; 0xF7; 0xF7; 0x83; 0x4F; 0xCC; 0xCC;
  0x68; 0x5C; 0x34; 0x34; 0x51; 0xF4; 0xA5; 0xA5; 0xD1; 0x34; 0xE5; 0xE5; 0xF9; 0x08; 0xF1; 0xF1;
  0xE2; 0x93; 0x71; 0x71; 0xAB; 0x73; 0xD8; 0xD8; 0x62; 0x53; 0x31; 0x31; 0x2A; 0x3F; 0x15; 0x15;
  0x08; 0x0C; 0x04; 0x04; 0x95; 0x52; 0xC7; 0xC7; 0x46; 0x65; 0x23; 0x23; 0x9D; 0x5E; 0xC3; 0xC3;
  0x30; 0x28; 0x18; 0x18; 0x37; 0xA1; 0x96; 0x96; 0x0A; 0x0F; 0x05; 0x05; 0x2F; 0xB5; 0x9A; 0x9A;
  0x0E; 0x09; 0x07; 0x07; 0x24; 0x36; 0x12; 0x12; 0x1B; 0x9B; 0x80; 0x80; 0xDF; 0x3D; 0xE2; 0xE2;
  0xCD; 0x26; 0xEB; 0xEB; 0x4E; 0x69; 0x27; 0x27; 0x7F; 0xCD; 0xB2; 0xB2; 0xEA; 0x9F; 0x75; 0x75;
  0x12; 0x1B; 0x09; 0x09; 0x1D; 0x9E; 0x83; 0x83; 0x58; 0x74; 0x2C; 0x2C; 0x34; 0x2E; 0x1A; 0x1A;
  0x36; 0x2D; 0x1B; 0x1B; 0xDC; 0xB2; 0x6E; 0x6E; 0xB4; 0xEE; 0x5A; 0x5A; 0x5B; 0xFB; 0xA0; 0xA0;
  0xA4; 0xF6; 0x52; 0x52; 0x76; 0x4D; 0x3B; 0x3B; 0xB7; 0x61; 0xD6; 0xD6; 0x7D; 0xCE; 0xB3; 0xB3;
  0x52; 0x7B; 0x29; 0x29; 0xDD; 0x3E; 0xE3; 0xE3; 0x5E; 0x71; 0x2F; 0x2F; 0x13; 0x97; 0x84; 0x84;
  0xA6; 0xF5; 0x53; 0x53; 0xB9; 0x68; 0xD1; 0xD1; 0x00; 0x00; 0x00; 0x00; 0xC1; 0x2C; 0xED; 0xED;
  0x40; 0x60; 0x20; 0x20; 0xE3; 0x1F; 0xFC; 0xFC; 0x79; 0xC8; 0xB1; 0xB1; 0xB6; 0xED; 0x5B; 0x5B;
  0xD4; 0xBE; 0x6A; 0x6A; 0x8D; 0x46; 0xCB; 0xCB; 0x67; 0xD9; 0xBE; 0xBE; 0x72; 0x4B; 0x39; 0x39;
  0x94; 0xDE; 0x4A; 0x4A; 0x98; 0xD4; 0x4C; 0x4C; 0xB0; 0xE8; 0x58; 0x58; 0x85; 0x4A; 0xCF; 0xCF;
  0xBB; 0x6B; 0xD0; 0xD0; 0xC5; 0x2A; 0xEF; 0xEF; 0x4F; 0xE5; 0xAA; 0xAA; 0xED; 0x16; 0xFB; 0xFB;
  0x86; 0xC5; 0x43; 0x43; 0x9A; 0xD7; 0x4D; 0x4D; 0x66; 0x55; 0x33; 0x33; 0x11; 0x94; 0x85; 0x85;
  0x8A; 0xCF; 0x45; 0x45; 0xE9; 0x10; 0xF9; 0xF9; 0x04; 0x06; 0x02; 0x02; 0xFE; 0x81; 0x7F; 0x7F;
  0xA0; 0xF0; 0x50; 0x50; 0x78; 0x44; 0x3C; 0x3C; 0x25; 0xBA; 0x9F; 0x9F; 0x4B; 0xE3; 0xA8; 0xA8;
  0xA2; 0xF3; 0x51; 0x51; 0x5D; 0xFE; 0xA3; 0xA3; 0x80; 0xC0; 0x40; 0x40; 0x05; 0x8A; 0x8F; 0x8F;
  0x3F; 0xAD; 0x92; 0x92; 0x21; 0xBC; 0x9D; 0x9D; 0x70; 0x48; 0x38; 0x38; 0xF1; 0x04; 0xF5; 0xF5;
  0x63; 0xDF; 0xBC; 0xBC; 0x77; 0xC1; 0xB6; 0xB6; 0xAF; 0x75; 0xDA; 0xDA; 0x42; 0x63; 0x21; 0x21;
  0x20; 0x30; 0x10; 0x10; 0xE5; 0x1A; 0xFF; 0xFF; 0xFD; 0x0E; 0xF3; 0xF3; 0xBF; 0x6D; 0xD2; 0xD2;
  0x81; 0x4C; 0xCD; 0xCD; 0x18; 0x14; 0x0C; 0x0C; 0x26; 0x35; 0x13; 0x13; 0xC3; 0x2F; 0xEC; 0xEC;
  0xBE; 0xE1; 0x5F; 0x5F; 0x35; 0xA2; 0x97; 0x97; 0x88; 0xCC; 0x44; 0x44; 0x2E; 0x39; 0x17; 0x17;
  0x93; 0x57; 0xC4; 0xC4; 0x55; 0xF2; 0xA7; 0xA7; 0xFC; 0x82; 0x7E; 0x7E; 0x7A; 0x47; 0x3D; 0x3D;
  0xC8; 0xAC; 0x64; 0x64; 0xBA; 0xE7; 0x5D; 0x5D; 0x32; 0x2B; 0x19; 0x19; 0xE6; 0x95; 0x73; 0x73;
  0xC0; 0xA0; 0x60; 0x60; 0x19; 0x98; 0x81; 0x81; 0x9E; 0xD1; 0x4F; 0x4F; 0xA3; 0x7F; 0xDC; 0xDC;
  0x44; 0x66; 0x22; 0x22; 0x54; 0x7E; 0x2A; 0x2A; 0x3B; 0xAB; 0x90; 0x90; 0x0B; 0x83; 0x88; 0x88;
  0x8C; 0xCA; 0x46; 0x46; 0xC7; 0x29; 0xEE; 0xEE; 0x6B; 0xD3; 0xB8; 0xB8; 0x28; 0x3C; 0x14; 0x14;
  0xA7; 0x79; 0xDE; 0xDE; 0xBC; 0xE2; 0x5E; 0x5E; 0x16; 0x1D; 0x0B; 0x0B; 0xAD; 0x76; 0xDB; 0xDB;
  0xDB; 0x3B; 0xE0; 0xE0; 0x64; 0x56; 0x32; 0x32; 0x74; 0x4E; 0x3A; 0x3A; 0x14; 0x1E; 0x0A; 0x0A;
  0x92; 0xDB; 0x49; 0x49; 0x0C; 0x0A; 0x06; 0x06; 0x48; 0x6C; 0x24; 0x24; 0xB8; 0xE4; 0x5C; 0x5C;
  0x9F; 0x5D; 0xC2; 0xC2; 0xBD; 0x6E; 0xD3; 0xD3; 0x43; 0xEF; 0xAC; 0xAC; 0xC4; 0xA6; 0x62; 0x62;
  0x39; 0xA8; 0x91; 0x91; 0x31; 0xA4; 0x95; 0x95; 0xD3; 0x37; 0xE4; 0xE4; 0xF2; 0x8B; 0x79; 0x79;
  0xD5; 0x32; 0xE7; 0xE7; 0x8B; 0x43; 0xC8; 0xC8; 0x6E; 0x59; 0x37; 0x37; 0xDA; 0xB7; 0x6D; 0x6D;
  0x01; 0x8C; 0x8D; 0x8D; 0xB1; 0x64; 0xD5; 0xD5; 0x9C; 0xD2; 0x4E; 0x4E; 0x49; 0xE0; 0xA9; 0xA9;
  0xD8; 0xB4; 0x6C; 0x6C; 0xAC; 0xFA; 0x56; 0x56; 0xF3; 0x07; 0xF4; 0xF4; 0xCF; 0x25; 0xEA; 0xEA;
  0xCA; 0xAF; 0x65; 0x65; 0xF4; 0x8E; 0x7A; 0x7A; 0x47; 0xE9; 0xAE; 0xAE; 0x10; 0x18; 0x08; 0x08;
  0x6F; 0xD5; 0xBA; 0xBA; 0xF0; 0x88; 0x78; 0x78; 0x4A; 0x6F; 0x25; 0x25; 0x5C; 0x72; 0x2E; 0x2E;
  0x38; 0x24; 0x1C; 0x1C; 0x57; 0xF1; 0xA6; 0xA6; 0x73; 0xC7; 0xB4; 0xB4; 0x97; 0x51; 0xC6; 0xC6;
  0xCB; 0x23; 0xE8; 0xE8; 0xA1; 0x7C; 0xDD; 0xDD; 0xE8; 0x9C; 0x74; 0x74; 0x3E; 0x21; 0x1F; 0x1F;
  0x96; 0xDD; 0x4B; 0x4B; 0x61; 0xDC; 0xBD; 0xBD; 0x0D; 0x86; 0x8B; 0x8B; 0x0F; 0x85; 0x8A; 0x8A;
  0xE0; 0x90; 0x70; 0x70; 0x7C; 0x42; 0x3E; 0x3E; 0x71; 0xC4; 0xB5; 0xB5; 0xCC; 0xAA; 0x66; 0x66;
  0x90; 0xD8; 0x48; 0x48; 0x06; 0x05; 0x03; 0x03; 0xF7; 0x01; 0xF6; 0xF6; 0x1C; 0x12; 0x0E; 0x0E;
  0xC2; 0xA3; 0x61; 0x61; 0x6A; 0x5F; 0x35; 0x35; 0xAE; 0xF9; 0x57; 0x57; 0x69; 0xD0; 0xB9; 0xB9;
  0x17; 0x91; 0x86; 0x86; 0x99; 0x58; 0xC1; 0xC1; 0x3A; 0x27; 0x1D; 0x1D; 0x27; 0xB9; 0x9E; 0x9E;
  0xD9; 0x38; 0xE1; 0xE1; 0xEB; 0x13; 0xF8; 0xF8; 0x2B; 0xB3; 0x98; 0x98; 0x22; 0x33; 0x11; 0x11;
  0xD2; 0xBB; 0x69; 0x69; 0xA9; 0x70; 0xD9; 0xD9; 0x07; 0x89; 0x8E; 0x8E; 0x33; 0xA7; 0x94; 0x94;
  0x2D; 0xB6; 0x9B; 0x9B; 0x3C; 0x22; 0x1E; 0x1E; 0x15; 0x92; 0x87; 0x87; 0xC9; 0x20; 0xE9; 0xE9;
  0x87; 0x49; 0xCE; 0xCE; 0xAA; 0xFF; 0x55; 0x55; 0x50; 0x78; 0x28; 0x28; 0xA5; 0x7A; 0xDF; 0xDF;
  0x03; 0x8F; 0x8C; 0x8C; 0x59; 0xF8; 0xA1; 0xA1; 0x09; 0x80; 0x89; 0x89; 0x1A; 0x17; 0x0D; 0x0D;
  0x65; 0xDA; 0xBF; 0xBF; 0xD7; 0x31; 0xE6; 0xE6; 0x84; 0xC6; 0x42; 0x42; 0xD0; 0xB8; 0x68; 0x68;
  0x82; 0xC3; 0x41; 0x41; 0x29; 0xB0; 0x99; 0x99; 0x5A; 0x77; 0x2D; 0x2D; 0x1E; 0x11; 0x0F; 0x0F;
  0x7B; 0xCB; 0xB0; 0xB0; 0xA8; 0xFC; 0x54; 0x54; 0x6D; 0xD6; 0xBB; 0xBB; 0x2C; 0x3A; 0x16; 0x16].

Definition T5B3E18 : list Z := [
  0xA5; 0x63; 0x63; 0xC6; 0x84; 0x7C; 0x7C; 0xF8; 0x99; 0x77; 0x77; 0xEE; 0x8D; 0x7B; 0x7B; 0xF6;
  0x0D; 0xF2; 0xF2; 0xFF; 0xBD; 0x6B; 0x6B; 0xD6; 0xB1; 0x6F; 0x6F; 0xDE; 0x54; 0xC5; 0xC5; 0x91;
  0x50; 0x30; 0x30; 0x60; 0x03; 0x01; 0x01; 0x02; 0xA9; 0x67; 0x67; 0xCE; 0x7D; 0x2B; 0x2B; 0x56;
  0x19; 0xFE; 0xFE; 0xE7; 0x62; 0xD7; 0xD7; 0xB5; 0xE6; 0xAB; 0xAB; 0x4D; 0x9A; 0x76; 0x76; 0xEC;
  0x45; 0xCA; 0xCA; 0x8F; 0x9D; 0x82; 0x82; 0x1F; 0x40; 0xC9; 0xC9; 0x89; 0x87; 0x7D; 0x7D; 0xFA;
  0x15; 0xFA; 0xFA; 0xEF; 0xEB; 0x59; 0x59; 0xB2; 0xC9; 0x47; 0x47; 0x8E; 0x0B; 0xF0; 0xF0; 0xFB;
  0xEC; 0xAD; 0xAD; 0x41; 0x67; 0xD4; 0xD4; 0xB3; 0xFD; 0xA2; 0xA2; 0x5F; 0xEA; 0xAF; 0xAF; 0x45;
  0xBF; 0x9C; 0x9C; 0x23; 0xF7; 0xA4; 0xA4; 0x53; 0x96; 0x72; 0x72; 0xE4; 0x5B; 0xC0; 0xC0; 0x9B;
  0xC2; 0xB7; 0xB7; 0x75; 0x1C; 0xFD; 0xFD; 0xE1; 0xAE; 0x93; 0x93; 0x3D; 0x6A; 0x26; 0x26; 0x4C;
  0x5A; 0x36; 0x36; 0x6C; 0x41; 0x3F; 0x3F; 0x7E; 0x02; 0xF7; 0xF7; 0xF5; 0x4F; 0xCC; 0xCC; 0x83;
  0x5C; 0x34; 0x34; 0x68; 0xF4; 0xA5; 0xA5; 0x51; 0x34; 0xE5; 0xE5; 0xD1; 0x08; 0xF1; 0xF1; 0xF9;
  0x93; 0x71; 0x71; 0xE2; 0x73; 0xD8; 0xD8; 0xAB; 0x53; 0x31; 0x31; 0x62; 0x3F; 0x15; 0x15; 0x2A;
  0x0C; 0x04; 0x04; 0x08; 0x52; 0xC7; 0xC7; 0x95; 0x65; 0x23; 0x23; 0x46; 0x5E; 0xC3; 0xC3; 0x9D;
  0x28; 0x18; 0x18; 0x30; 0xA1; 0x96; 0x96; 0x37; 0x0F; 0x05; 0x05; 0x0A; 0xB5; 0x9A; 0x9A; 0x2F;
  0x09; 0x07; 0x07; 0x0E; 0x36; 0x12; 0x12; 0x24; 0x9B; 0x80; 0x80; 0x1B; 0x3D; 0xE2; 0xE2; 0xDF;
  0x26; 0xEB; 0xEB; 0xCD; 0x69; 0x27; 0x27; 0x4E; 0xCD; 0xB2; 0xB2; 0x7F; 0x9F; 0x75; 0x75; 0xEA;
  0x1B; 0x09; 0x09; 0x12; 0x9E; 0x83; 0x83; 0x1D; 0x74; 0x2C; 0x2C; 0x58; 0x2E; 0x1A; 0x1A; 0x34;
  0x2D; 0x1B; 0x1B; 0x36; 0xB2; 0x6E; 0x6E; 0xDC; 0xEE; 0x5A; 0x5A; 0xB4; 0xFB; 0xA0; 0xA0; 0x5B;
  0xF6; 0x52; 0x52; 0xA4; 0x4D; 0x3B; 0x3B; 0x76; 0x61; 0xD6; 0xD6; 0xB7; 0xCE; 0xB3; 0xB3; 0x7D;
  0x7B; 0x29; 0x29; 0x52; 0x3E; 0xE3; 0xE3; 0xDD; 0x71; 0x2F; 0x2F; 0x5E; 0x97; 0x84; 0x84; 0x13;
  0xF5; 0x53; 0x53; 0xA6; 0x68; 0xD1; 0xD1; 0xB9; 0x00; 0x00; 0x00; 0x00; 0x2C; 0xED; 0xED; 0xC1;
  0x60; 0x20; 0x20; 0x40; 0x1F; 0xFC; 0xFC; 0xE3; 0xC8; 0xB1; 0xB1; 0x79; 0xED; 0x5B; 0x5B; 0xB6;
  0xBE; 0x6A; 0x6A; 0xD4; 0x46; 0xCB; 0xCB; 0x8D; 0xD9; 0xBE; 0xBE; 0x67; 0x4B; 0x39; 0x39; 0x72;
  0xDE; 0x4A; 0x4A; 0x94; 0xD4; 0x4C; 0x4C; 0x98; 0xE8; 0x58; 0x58; 0xB0; 0x4A; 0xCF; 0xCF; 0x85;
  0x6B; 0xD0; 0xD0; 0xBB; 0x2A; 0xEF; 0xEF; 0xC5; 0xE5; 0xAA; 0xAA; 0x4F; 0x16; 0xFB; 0xFB; 0xED;
  0xC5; 0x43; 0x43; 0x86; 0xD7; 0x4D; 0x4D; 0x9A; 0x55; 0x33; 0x33; 0x66; 0x94; 0x85; 0x85; 0x11;
  0xCF; 0x45; 0x45; 0x8A; 0x10; 0xF9; 0xF9; 0xE9; 0x06; 0x02; 0x02; 0x04; 0x81; 0x7F; 0x7F; 0xFE;
  0xF0; 0x50; 0x50; 0xA0; 0x44; 0x3C; 0x3C; 0x78; 0xBA; 0x9F; 0x9F; 0x25; 0xE3; 0xA8; 0xA8; 0x4B;
  0xF3; 0x51; 0x51; 0xA2; 0xFE; 0xA3; 0xA3; 0x5D; 0xC0; 0x40; 0x40; 0x80; 0x8A; 0x8F; 0x8F; 0x05;
  0xAD; 0x92; 0x92; 0x3F; 0xBC; 0x9D; 0x9D; 0x21; 0x48; 0x38; 0x38; 0x70; 0x04; 0xF5; 0xF5; 0xF1;
  0xDF; 0xBC; 0xBC; 0x63; 0xC1; 0xB6; 0xB6; 0x77; 0x75; 0xDA; 0xDA; 0xAF; 0x63; 0x21; 0x21; 0x42;
  0x30; 0x10; 0x10; 0x20; 0x1A; 0xFF; 0xFF; 0xE5; 0x0E; 0xF3; 0xF3; 0xFD; 0x6D; 0xD2; 0xD2; 0xBF;
  0x4C; 0xCD; 0xCD; 0x81; 0x14; 0x0C; 0x0C; 0x18; 0x35; 0x13; 0x13; 0x26; 0x2F; 0xEC; 0xEC; 0xC3;
  0xE1; 0x5F; 0x5F; 0xBE; 0xA2; 0x97; 0x97; 0x35; 0xCC; 0x44; 0x44; 0x88; 0x39; 0x17; 0x17; 0x2E;
  0x57; 0xC4; 0xC4; 0x93; 0xF2; 0xA7; 0xA7; 0x55; 0x82; 0x7E; 0x7E; 0xFC; 0x47; 0x3D; 0x3D; 0x7A;
  0xAC; 0x64; 0x64; 0xC8; 0xE7; 0x5D; 0x5D; 0xBA; 0x2B; 0x19; 0x19; 0x32; 0x95; 0x73; 0x73; 0xE6;
  0xA0; 0x60; 0x60; 0xC0; 0x98; 0x81; 0x81; 0x19; 0xD1; 0x4F; 0x4F; 0x9E; 0x7F; 0xDC; 0xDC; 0xA3;
  0x66; 0x22; 0x22; 0x44; 0x7E; 0x2A; 0x2A; 0x54; 0xAB; 0x90; 0x90; 0x3B; 0x83; 0x88; 0x88; 0x0B;
  0xCA; 0x46; 0x46; 0x8C; 0x29; 0xEE; 0xEE; 0xC7; 0xD3; 0xB8; 0xB8; 0x6B; 0x3C; 0x14; 0x14; 0x28;
  0x79; 0xDE; 0xDE; 0xA7; 0xE2; 0x5E; 0x5E; 0xBC; 0x1D; 0x0B; 0x0B; 0x16; 0x76; 0xDB; 0xDB; 0xAD;
  0x3B; 0xE0; 0xE0; 0xDB; 0x56; 0x32; 0x32; 0x64; 0x4E; 0x3A; 0x3A; 0x74; 0x1E; 0x0A; 0x0A; 0x14;
  0xDB; 0x49; 0x49; 0x92; 0x0A; 0x06; 0x06; 0x0C; 0x6C; 0x24; 0x24; 0x48; 0xE4; 0x5C; 0x5C; 0xB8;
  0x5D; 0xC2; 0xC2; 0x9F; 0x6E; 0xD3; 0xD3; 0xBD; 0xEF; 0xAC; 0xAC; 0x43; 0xA6; 0x62; 0x62; 0xC4;
  0xA8; 0x91; 0x91; 0x39; 0xA4; 0x95; 0x95; 0x31; 0x37; 0xE4; 0xE4; 0xD3; 0x8B; 0x79; 0x79; 0xF2;
  0x32; 0xE7; 0xE7; 0xD5; 0x43; 0xC8; 0xC8; 0x8B; 0x59; 0x37; 0x37; 0x6E; 0xB7; 0x6D; 0x6D; 0xDA;
  0x8C; 0x8D; 0x8D; 0x01; 0x64; 0xD5; 0xD5; 0xB1; 0xD2; 0x4E; 0x4E; 0x9C; 0xE0; 0xA9; 0xA9; 0x49;
  0xB4; 0x6C; 0x6C; 0xD8; 0xFA; 0x56; 0x56; 0xAC; 0x07; 0xF4; 0xF4; 0xF3; 0x25; 0xEA; 0xEA; 0xCF;
  0xAF; 0x65; 0x65; 0xCA; 0x8E; 0x7A; 0x7A; 0xF4; 0xE9; 0xAE; 0xAE; 0x47; 0x18; 0x08; 0x08; 0x10;
  0xD5; 0xBA; 0xBA; 0x6F; 0x88; 0x78; 0x78; 0xF0; 0x6F; 0x25; 0x25; 0x4A; 0x72; 0x2E; 0x2E; 0x5C;
  0x24; 0x1C; 0x1C; 0x38; 0xF1; 0xA6; 0xA6; 0x57; 0xC7; 0xB4; 0xB4; 0x73; 0x51; 0xC6; 0xC6; 0x97;
  0x23; 0xE8; 0xE8; 0xCB; 0x7C; 0xDD; 0xDD; 0xA1; 0x9C; 0x74; 0x74; 0xE8; 0x21; 0x1F; 0x1F; 0x3E;
  0xDD; 0x4B; 0x4B; 0x96; 0xDC; 0xBD; 0xBD; 0x61; 0x86; 0x8B; 0x8B; 0x0D; 0x85; 0x8A; 0x8A; 0x0F;
  0x90; 0x70; 0x70; 0xE0; 0x42; 0x3E; 0x3E; 0x7C; 0xC4; 0xB5; 0xB5; 0x71; 0xAA; 0x66; 0x66; 0xCC;
  0xD8; 0x48; 0x48; 0x90; 0x05; 0x03; 0x03; 0x06; 0x01; 0xF6; 0xF6; 0xF7; 0x12; 0x0E; 0x0E; 0x1C;
  0xA3; 0x61; 0x61; 0xC2; 0x5F; 0x35; 0x35; 0x6A; 0xF9; 0x57; 0x57; 0xAE; 0xD0; 0xB9; 0xB9; 0x69;
  0x91; 0x86; 0x86; 0x17; 0x58; 0xC1; 0xC1; 0x99; 0x27; 0x1D; 0x1D; 0x3A; 0xB9; 0x9E; 0x9E; 0x27;
  0x38; 0xE1; 0xE1; 0xD9; 0x13; 0xF8; 0xF8; 0xEB; 0xB3; 0x98; 0x98; 0x2B; 0x33; 0x11; 0x11; 0x22;
  0xBB; 0x69; 0x69; 0xD2; 0x70; 0xD9; 0xD9; 0xA9; 0x89; 0x8E; 0x8E; 0x07; 0xA7; 0x94; 0x94; 0x33;
  0xB6; 0x9B; 0x9B; 0x2D; 0x22; 0x1E; 0x1E; 0x3C; 0x92; 0x87; 0x87; 0x15; 0x20; 0xE9; 0xE9; 0xC9;
  0x49; 0xCE; 0xCE; 0x87; 0xFF; 0x55; 0x55; 0xAA; 0x78; 0x28; 0x28; 0x50; 0x7A; 0xDF; 0xDF; 0xA5;
  0x8F; 0x8C; 0x8C; 0x03; 0xF8; 0xA1; 0xA1; 0x59; 0x80; 0x89; 0x89; 0x09; 0x17; 0x0D; 0x0D; 0x1A;
  0xDA; 0xBF; 0xBF; 0x65; 0x31; 0xE6; 0xE6; 0xD7; 0xC6; 0x42; 0x42; 0x84; 0xB8; 0x68; 0x68; 0xD0;
  0xC3; 0x41; 0x41; 0x82; 0xB0; 0x99; 0x99; 0x29; 0x77; 0x2D; 0x2D; 0x5A; 0x11; 0x0F; 0x0F; 0x1E;
  0xCB; 0xB0; 0xB0; 0x7B; 0xFC; 0x54; 0x54; 0xA8; 0xD6; 0xBB; 0xBB; 0x6D; 0x3A; 0x16; 0x16; 0x2C].

(** The names of the tables in the program. *)
Inductive table := K5B4E18 | K5B4618 | K5B4218 | K5B4A18 | K5B3E18.

Definition tbl (t : table) : list Z :=
  match t with
  | K5B4E18 => T5B4E18
  | K5B4618 => T5B4618
  | K5B4218 => T5B4218
  | K5B4A18 => T5B4A18
  | K5B3E18 => T5B3E18
  end.

(** ** The program *)

(** From [sogouexp_004C1B90]: the block is read and the first round done. *)
Definition entry_code : list (instr table) := [
  SUB (R ESP) (Imm 0x10); PUSH EBX; MOV (R EBX) (R ECX); MOV (R ECX) (M EBX 0);
  MOV (R EDX) (R ECX); ROR EDX 8; AND (R EDX) (Imm 0xFF00FF00); ROL ECX 8;
  AND (R ECX) (Imm 0xFF00FF); OR (R EDX) (R ECX); XOR (R EDX) (M EAX 0); MOV (R ECX) (M EBX 4);
  PUSH EBP; PUSH ESI; PUSH EDI; MOV (R EDI) (M EBX 8); MOV (R EBX) (M EBX 0xC);
  MOV (R ESI) (R ECX); ROR ESI 8; AND (R ESI) (Imm 0xFF00FF00); ROL ECX 8;
  AND (R ECX) (Imm 0xFF00FF); OR (R ESI) (R ECX); XOR (R ESI) (M EAX 4); MOV (R ECX) (R EDI);
  ROR ECX 8; AND (R ECX) (Imm 0xFF00FF00); ROL EDI 8; AND (R EDI) (Imm 0xFF00FF);
  OR (R ECX) (R EDI); XOR (R ECX) (M EAX 8); MOV (M ESP 0x10) (R ESI); SHR ESI 0x10;
  AND (R ESI) (Imm 0xFF); MOV (M ESP 0x14) (R ECX); MOV (R EDI) (R EBX); ROR EDI 8;
  AND (R EDI) (Imm 0xFF00FF00); MOVZX ECX (H ECX); MOV (R ECX) (T ECX K5B4618);
  XOR (R ECX) (T ESI K5B4218); ROL EBX 8; AND (R EBX) (Imm 0xFF00FF); OR (R EDI) (R EBX);
  XOR (R EDI) (M EAX 0xC); MOV (R EBP) (M ESP 0x24); MOV (M ESP 0x1C) (R EDI);
  AND (R EDI) (Imm 0xFF); MOV (R ESI) (R EDX); SHR ESI 0x18; XOR (R ECX) (T ESI K5B3E18);
  MOVZX ESI (MB ESP 0x1D); XOR (R ECX) (T EDI K5B4A18); MOV (R ESI) (T ESI K5B4618);
  MOV (R EDI) (M ESP 0x14); SHR EDI 0x10; AND (R EDI) (Imm 0xFF); XOR (R ESI) (T EDI K5B4218);
  MOV (R EDI) (M ESP 0x10); SHR EDI 0x18; XOR (R ESI) (T EDI K5B3E18); XOR (R ECX) (M EAX 0x10);
  MOV (R EDI) (R EDX); AND (R EDI) (Imm 0xFF); XOR (R ESI) (T EDI K5B4A18); MOVZX EDI (H EDX);
  XOR (R ESI) (M EAX 0x14); MOV (M ESP 0x24) (R ESI); MOV (R ESI) (M ESP 0x1C); SHR ESI 0x10;
  AND (R ESI) (Imm 0xFF); MOV (R ESI) (T ESI K5B4218); XOR (R ESI) (T EDI K5B4618);
  MOV (R EDI) (M ESP 0x14); SHR EDI 0x18; XOR (R ESI) (T EDI K5B3E18); MOV (R EDI) (M ESP 0x10);
  AND (R EDI) (Imm 0xFF); XOR (R ESI) (T EDI K5B4A18); XOR (R ESI) (M EAX 0x18);
  MOV (M ESP 0x18) (R ESI); MOVZX ESI (MB ESP 0x11); MOV (R EBX) (T ESI K5B4618); SHR EDX 0x10;
  AND (R EDX) (Imm 0xFF); XOR (R EBX) (T EDX K5B4218); MOV (R EDX) (M ESP 0x1C); SHR EDX 0x18;
  XOR (R EBX) (T EDX K5B3E18); MOV (R EDX) (M ESP 0x14); AND (R EDX) (Imm 0xFF);
  XOR (R EBX) (T EDX K5B4A18); MOV (R EDI) (Imm 4); XOR (R EBX) (M EAX 0x1C);
  ADD (R EAX) (Imm 0x20); MOV (M ESP 0x1C) (R EBX); NOP].

(** From [sogouexp_004C1D20]: the first round of an iteration. *)
Definition loop_code_1 : list (instr table) := [
  MOVZX EDX (MB ESP 0x19); MOV (R ESI) (M ESP 0x24); MOV (R EDX) (T EDX K5B4618); SHR ESI 0x10;
  AND (R ESI) (Imm 0xFF); XOR (R EDX) (T ESI K5B4218); AND (R EBX) (Imm 0xFF);
  MOV (R ESI) (R ECX); SHR ESI 0x18; XOR (R EDX) (T ESI K5B3E18); MOVZX ESI (MB ESP 0x1D);
  XOR (R EDX) (T EBX K5B4A18); MOV (R ESI) (T ESI K5B4618); MOV (R EBX) (M ESP 0x18);
  SHR EBX 0x10; AND (R EBX) (Imm 0xFF); XOR (R ESI) (T EBX K5B4218); MOV (R EBX) (M ESP 0x24);
  SHR EBX 0x18; XOR (R ESI) (T EBX K5B3E18); MOV (R EBX) (R ECX); AND (R EBX) (Imm 0xFF);
  XOR (R ESI) (T EBX K5B4A18); MOVZX EBX (H ECX); XOR (R ESI) (M EAX 4); XOR (R EDX) (M EAX 0);
  MOV (M ESP 0x10) (R ESI); MOV (R ESI) (M ESP 0x1C); SHR ESI 0x10; AND (R ESI) (Imm 0xFF);
  MOV (R ESI) (T ESI K5B4218); XOR (R ESI) (T EBX K5B4618); MOV (R EBX) (M ESP 0x24);
  MOV (M ESP 0x14) (R ESI); MOV (R ESI) (M ESP 0x18); SHR ESI 0x18; MOV (R ESI) (T ESI K5B3E18);
  XOR (M ESP 0x14) (R ESI); MOV (R ESI) (M ESP 0x14); AND (R EBX) (Imm 0xFF);
  XOR (R ESI) (T EBX K5B4A18); SHR ECX 0x10; XOR (R ESI) (M EAX 8); AND (R ECX) (Imm 0xFF);
  MOV (M ESP 0x14) (R ESI); MOVZX ESI (MB ESP 0x25); MOV (R EBX) (T ESI K5B4618);
  XOR (R EBX) (T ECX K5B4218); MOV (R ECX) (M ESP 0x1C); MOV (R ESI) (M ESP 0x10); SHR ECX 0x18;
  XOR (R EBX) (T ECX K5B3E18); MOV (R ECX) (M ESP 0x18); AND (R ECX) (Imm 0xFF);
  XOR (R EBX) (T ECX K5B4A18); MOVZX ECX (MB ESP 0x15); XOR (R EBX) (M EAX 0xC)].

(** The second round, up to [jnz sogouexp_004C1D20]. *)
Definition loop_code_2 : list (instr table) := [
  MOV (R ECX) (T ECX K5B4618); SHR ESI 0x10; AND (R ESI) (Imm 0xFF); XOR (R ECX) (T ESI K5B4218);
  MOV (R ESI) (R EDX); SHR ESI 0x18; XOR (R ECX) (T ESI K5B3E18); MOV (R ESI) (R EBX);
  AND (R ESI) (Imm 0xFF); XOR (R ECX) (T ESI K5B4A18); MOVZX ESI (H EBX);
  MOV (R ESI) (T ESI K5B4618); XOR (R ECX) (M EAX 0x10); MOV (M ESP 0x1C) (R EBX);
  MOV (R EBX) (M ESP 0x14); SHR EBX 0x10; AND (R EBX) (Imm 0xFF); XOR (R ESI) (T EBX K5B4218);
  MOV (R EBX) (M ESP 0x10); SHR EBX 0x18; XOR (R ESI) (T EBX K5B3E18); MOV (R EBX) (R EDX);
  AND (R EBX) (Imm 0xFF); XOR (R ESI) (T EBX K5B4A18); XOR (R ESI) (M EAX 0x14);
  MOVZX EBX (H EDX); MOV (M ESP 0x24) (R ESI); MOV (R ESI) (M ESP 0x1C); SHR ESI 0x10;
  AND (R ESI) (Imm 0xFF); MOV (R ESI) (T ESI K5B4218); XOR (R ESI) (T EBX K5B4618);
  MOV (R EBX) (M ESP 0x14); SHR EBX 0x18; XOR (R ESI) (T EBX K5B3E18); MOV (R EBX) (M ESP 0x10);
  AND (R EBX) (Imm 0xFF); XOR (R ESI) (T EBX K5B4A18); SHR EDX 0x10; XOR (R ESI) (M EAX 0x18);
  AND (R EDX) (Imm 0xFF); MOV (M ESP 0x18) (R ESI); MOVZX ESI (MB ESP 0x11);
  MOV (R EBX) (T ESI K5B4618); XOR (R EBX) (T EDX K5B4218); MOV (R EDX) (M ESP 0x1C);
  SHR EDX 0x18; XOR (R EBX) (T EDX K5B3E18); MOV (R EDX) (M ESP 0x14); AND (R EDX) (Imm 0xFF);
  XOR (R EBX) (T EDX K5B4A18); ADD (R EAX) (Imm 0x20); XOR (R EBX) (M EAX (-4));
  SUB (R EDI) (Imm 1); MOV (M ESP 0x1C) (R EBX)].

(** The last round and the end, up to [retn]. *)
Definition exit_code : list (instr table) := [
  MOV (R EDX) (M ESP 0x24); SHR EDX 0x10; AND (R EDX) (Imm 0xFF); MOV (R ESI) (T EDX K5B4E18);
  MOV (R EDX) (M ESP 0x18); MOVZX EDI (H EDX); MOV (R EDI) (T EDI K5B4E18);
  AND (R ESI) (Imm 0xFF0000); AND (R EDI) (Imm 0xFF00); XOR (R ESI) (R EDI); SHR EDX 0x10;
  MOV (R EDI) (R ECX); SHR EDI 0x18; MOV (R EDI) (T EDI K5B4E18); AND (R EDI) (Imm 0xFF000000);
  XOR (R ESI) (R EDI); AND (R EDX) (Imm 0xFF); MOV (R EDI) (R EBX); AND (R EDI) (Imm 0xFF);
  MOVZX EDI (TB EDI K5B4E18); XOR (R ESI) (R EDI); XOR (R ESI) (M EAX 0); MOV (R EDI) (R ESI);
  ROR EDI 8; AND (R EDI) (Imm 0xFF00FF00); ROL ESI 8; AND (R ESI) (Imm 0xFF00FF);
  OR (R EDI) (R ESI); MOV (M EBP 0) (R EDI); MOV (R ESI) (T EDX K5B4E18);
  AND (R ESI) (Imm 0xFF0000); MOVZX EDX (H EBX); MOV (R EDX) (T EDX K5B4E18);
  AND (R EDX) (Imm 0xFF00); XOR (R ESI) (R EDX); MOV (R EDX) (M ESP 0x24); SHR EDX 0x18;
  MOV (R EDX) (T EDX K5B4E18); AND (R EDX) (Imm 0xFF000000); XOR (R ESI) (R EDX);
  MOV (R EDX) (R ECX); AND (R EDX) (Imm 0xFF); MOVZX EDX (TB EDX K5B4E18); XOR (R ESI) (R EDX);
  XOR (R ESI) (M EAX 4); MOV (R EDX) (R ESI); ROR EDX 8; AND (R EDX) (Imm 0xFF00FF00); ROL ESI 8;
  AND (R ESI) (Imm 0xFF00FF); OR (R EDX) (R ESI); MOV (M EBP 4) (R EDX); MOV (R EDX) (R EBX);
  SHR EDX 0x10; AND (R EDX) (Imm 0xFF); MOV (R ESI) (T EDX K5B4E18); MOVZX EDX (H ECX);
  MOV (R EDX) (T EDX K5B4E18); AND (R EDX) (Imm 0xFF00); AND (R ESI) (Imm 0xFF0000);
  XOR (R ESI) (R EDX); MOV (R EDX) (M ESP 0x18); SHR EDX 0x18; MOV (R EDX) (T EDX K5B4E18);
  AND (R EDX) (Imm 0xFF000000); XOR (R ESI) (R EDX); MOV (R EDX) (M ESP 0x24);
  AND (R EDX) (Imm 0xFF); MOVZX EDX (TB EDX K5B4E18); XOR (R ESI) (R EDX); XOR (R ESI) (M EAX 8);
  SHR ECX 0x10; MOV (R EDX) (R ESI); ROR EDX 8; AND (R EDX) (Imm 0xFF00FF00); ROL ESI 8;
  AND (R ESI) (Imm 0xFF00FF); OR (R EDX) (R ESI); AND (R ECX) (Imm 0xFF); MOV (M EBP 8) (R EDX);
  MOV (R ECX) (T ECX K5B4E18); MOVZX EDX (MB ESP 0x25); MOV (R EDX) (T EDX K5B4E18);
  AND (R EDX) (Imm 0xFF00); AND (R ECX) (Imm 0xFF0000); XOR (R ECX) (R EDX); SHR EBX 0x18;
  MOV (R EDX) (T EBX K5B4E18); AND (R EDX) (Imm 0xFF000000); XOR (R ECX) (R EDX);
  MOV (R EDX) (M ESP 0x18); AND (R EDX) (Imm 0xFF); MOVZX EDX (TB EDX K5B4E18);
  XOR (R ECX) (R EDX); XOR (R ECX) (M EAX 0xC); POP EDI; MOV (R EAX) (R ECX); ROR EAX 8;
  AND (R EAX) (Imm 0xFF00FF00); ROL ECX 8; AND (R ECX) (Imm 0xFF00FF); OR (R EAX) (R ECX);
  POP ESI; MOV (M EBP 0xC) (R EAX); POP EBP; POP EBX; ADD (R ESP) (Imm 0x10)].

(** The state at the call: the arguments are in ECX (block), EAX (round keys) and
    on the stack (output), above the return address; the slots below hold what
    was left there. *)
Definition call_state (rbx rdx rsi rdi rbp ret : val table) (junk : list (val table)) (outbuf : list Z) : cpu :=
  mkCpu (P RKeys 0) rbx (P RBlock 0) rdx rsi rdi rbp (P RStack 0x20) false
    (junk ++ [ret; P ROut 0]) outbuf.

(** The loop runs while the counter in EDI, set to 4 by the entry, is not zero. *)
Definition gen_encode_page (keys block : list Z) (s : cpu) : outcome cpu :=
  s ← exec_list tbl block keys entry_code s;
  s ← do_jnz tbl block keys 4 (loop_code_1 ++ loop_code_2) s;
  exec_list tbl block keys exit_code s.

(** The round keys handed to the cipher. *)
Definition InitArray2 : list Z := [
  0x00; 0x00; 0x00; 0x14; 0xE8; 0xDD; 0x5F; 0x38; 0xC0; 0x5B; 0xAB; 0x8F; 0xB0; 0x25; 0x59; 0xBC;
  0x65; 0xE7; 0x3F; 0xDE; 0x8D; 0x3A; 0x60; 0xE6; 0x4D; 0x61; 0xCB; 0x69; 0xFD; 0x44; 0x92; 0xD5;
  0x66; 0xB3; 0x24; 0x93; 0xEB; 0x89; 0x44; 0x75; 0xA6; 0xE8; 0x8F; 0x1C; 0x5B; 0xAC; 0x1D; 0xC9;
  0xBB; 0x8A; 0xB5; 0x33; 0x50; 0x03; 0xF1; 0x46; 0xF6; 0xEB; 0x7E; 0x5A; 0xAD; 0x47; 0x63; 0x93;
  0x67; 0x1F; 0x15; 0xC0; 0x37; 0x1C; 0xE4; 0x86; 0xC1; 0xF7; 0x9A; 0xDC; 0x6C; 0xB0; 0xF9; 0x4F;
  0xE3; 0x4F; 0xF2; 0x49; 0xD4; 0x53; 0x16; 0xCF; 0x15; 0xA4; 0x8C; 0x13; 0x79; 0x14; 0x75; 0x5C;
  0xA9; 0xF9; 0x08; 0xF4; 0x7D; 0xAA; 0x1E; 0x3B; 0x68; 0x0E; 0x92; 0x28; 0x11; 0x1A; 0xE7; 0x74;
  0x3B; 0x7B; 0xAA; 0x20; 0x46; 0xD1; 0xB4; 0x1B; 0x2E; 0xDF; 0x26; 0x33; 0x3F; 0xC5; 0xC1; 0x47;
  0x9B; 0x0E; 0x0C; 0xD8; 0xDD; 0xDF; 0xB8; 0xC3; 0xF3; 0x00; 0x9E; 0xF0; 0xCC; 0xC5; 0x5F; 0xB7;
  0x32; 0x45; 0xAA; 0x0C; 0xEF; 0x9A; 0x12; 0xCF; 0x1C; 0x9A; 0x8C; 0x3F; 0xD0; 0x5F; 0xD3; 0x88;
  0xF6; 0x35; 0x65; 0x5C; 0x19; 0xAF; 0x77; 0x93; 0x05; 0x35; 0xFB; 0xAC; 0xD5; 0x6A; 0x28; 0x24].

(** [calc_encode_page(Array1, Encode)]: [Encode] afterwards, given its 16 bytes
    before the call. *)
Definition calc_encode_page (Array1 Encode : list Z) : outcome (list Z) :=
  s ← gen_encode_page InitArray2 Array1
        (call_state (I 0) (I 0) (I 0) (P ROut 0) (I 0) (I 0) (replicate 8 (I 0)) Encode);
  Ok (out s).
