(* ===== verification/SogouAes.v ===== *)
(** * SogouAes

    The assembly of the file SogouCipher computes AES-128.  The program is run
    symbolically, one round at a time; each round is then compared with the
    reference of the file Aes, using that the tables hold the products of the
    S-box. *)
From stdpp Require Import prelude.
From Stdlib Require Import ZArith Lia Btauto.
From S2P Require Import Prelude Memory X86 Aes SogouCipher.

(** ** Words *)

Definition word (z : Z) : Prop := 0 <= z < 2 ^ 32.
Definition byte (z : Z) : Prop := 0 <= z < 256.

Lemma land_ff_byte z : byte (Z.land z 0xFF).
Proof. unfold byte. change 0xFF with (Z.ones 8). rewrite Z.land_ones by lia. apply Z.mod_pos_bound. lia. Qed.

Lemma byte_of_byte n z : byte (byte_of n z).
Proof. apply land_ff_byte. Qed.

Lemma shr24_byte z : word z -> byte (Z.shiftr z 0x18).
Proof.
  unfold word, byte. rewrite Z.shiftr_div_pow2 by lia. change (2 ^ 0x18) with 16777216.
  change (2 ^ 32) with 4294967296. intros H. lia_div.
Qed.

Lemma lxor_word a b : word a -> word b -> word (Z.lxor a b).
Proof. apply lxor_range. Qed.

Lemma land_word a b : word a -> 0 <= b -> word (Z.land a b).
Proof.
  unfold word. intros Ha Hb. assert (H0 : 0 <= Z.land a b) by (apply Z.land_nonneg; lia). split; [done|].
  apply (testbit_range 32); [lia..|]. intros k Hk. rewrite Z.land_spec.
  by rewrite (proj1 (testbit_range 32 a ltac:(lia) ltac:(lia)) ltac:(lia) k Hk).
Qed.

Lemma lor_word a b : word a -> word b -> word (Z.lor a b).
Proof.
  unfold word. intros Ha Hb. assert (H0 : 0 <= Z.lor a b) by (apply Z.lor_nonneg; lia). split; [done|].
  apply (testbit_range 32); [lia..|]. intros k Hk. rewrite Z.lor_spec.
  rewrite (proj1 (testbit_range 32 a ltac:(lia) ltac:(lia)) ltac:(lia) k Hk).
  by rewrite (proj1 (testbit_range 32 b ltac:(lia) ltac:(lia)) ltac:(lia) k Hk).
Qed.

(** The program exchanges the bytes of a word by two rotations. *)
Definition swap (x : Z) : Z :=
  Z.lor (Z.land (ror32 x 8) 0xFF00FF00) (Z.land (rol32 x 8) 0xFF00FF).

Lemma swap_word x : word x -> word (swap x).
Proof.
  intros Hx. assert (Hs : forall n, 0 <= n -> word (Z.shiftr x n)).
  { intros n Hn. unfold word in *. rewrite Z.shiftr_div_pow2 by done.
    split; [apply Z.div_pos; lia|]. apply Z.div_lt_upper_bound; [lia|].
    assert (1 <= 2 ^ n) by (pose proof (Z.pow_pos_nonneg 2 n ltac:(lia) Hn); lia). nia. }
  assert (Hu : forall z, word (u32 z)) by (intros; apply u32_range).
  apply lor_word; apply land_word; try lia; apply lor_word; auto; apply Hs; lia.
Qed.

(** ** Tables *)

(** Entry [i] of a table, as a 32-bit integer. *)
Definition tw (t : table) (i : Z) : Z := le_value (take 4 (drop (Z.to_nat (i * 4)) (tbl t))).

Definition pack (a b c d : Z) : Z := a * 2 ^ 24 + b * 2 ^ 16 + c * 2 ^ 8 + d.

Lemma tbl_length t : List.length (tbl t) = 1024%nat.
Proof. by destruct t. Qed.

Lemma tab_ok t i : byte i -> peek32 (tbl t) (i * 4) = Ok (tw t i).
Proof.
  unfold byte, peek32, peeks. intros Hi. rewrite tbl_length.
  destruct (Z.leb_spec 0 (i * 4)); [|lia]. by destruct (Z.leb_spec (i * 4 + 4) (Z.of_nat 1024)); [|lia].
Qed.

(** What an entry of each table is. *)
Definition entry (t : table) (s : Z) : Z :=
  match t with
  | K5B3E18 => pack (x2 s) s s (x3 s)
  | K5B4218 => pack (x3 s) (x2 s) s s
  | K5B4618 => pack s (x3 s) (x2 s) s
  | K5B4A18 => pack s s (x3 s) (x2 s)
  | K5B4E18 => pack s s s s
  end.

Lemma tw_entry t i : byte i -> tw t i = entry t (sbox i) /\ byte (sbox i).
Proof.
  intros Hi.
  assert (Hall : forallb (fun i => (tw t i =? entry t (sbox i)) && (0 <=? sbox i) && (sbox i <? 256)) (seqZ 0 256) = true)
    by (destruct t; vm_compute; reflexivity).
  rewrite forallb_forall in Hall. specialize (Hall i ltac:(apply list_elem_of_In, elem_of_seqZ; unfold byte in Hi; lia)).
  apply andb_prop in Hall as [Hall H2]. apply andb_prop in Hall as [H0 H1].
  unfold byte. lia.
Qed.

(** The fourth table is also read by bytes. *)
Lemma tab_byte_ok i : byte i -> vec_at (tbl K5B4E18) (i * 4) = Ok (sbox i).
Proof.
  intros Hi.
  assert (Hall : forallb (fun i => match vec_at (tbl K5B4E18) (i * 4) with Ok b => b =? sbox i | _ => false end) (seqZ 0 256) = true)
    by (vm_compute; reflexivity).
  rewrite forallb_forall in Hall. specialize (Hall i ltac:(apply list_elem_of_In, elem_of_seqZ; unfold byte in Hi; lia)).
  destruct (vec_at _ _); [|done]. f_equal. lia.
Qed.

(** ** Running the program *)

Lemma exec_cons {block keys} i l s s1 r :
  exec tbl block keys i s = Ok s1 -> exec_list tbl block keys l s1 = r -> exec_list tbl block keys (i :: l) s = r.
Proof. intros H1 H2. simpl. by rewrite H1. Qed.

Lemma exec_app block keys a b s :
  exec_list tbl block keys (a ++ b) s = (s1 ← exec_list tbl block keys a s; exec_list tbl block keys b s1).
Proof.
  revert s. induction a as [|i a IH]; intros s; [done|]. simpl.
  destruct (exec tbl block keys i s); simpl; [apply IH|done].
Qed.

#[local] Arguments Z.add : simpl nomatch.
#[local] Arguments Z.mul : simpl nomatch.
#[local] Arguments Z.sub : simpl nomatch.
#[local] Arguments Z.opp : simpl nomatch.
#[local] Arguments Z.modulo : simpl nomatch.
#[local] Arguments Z.div : simpl nomatch.
#[local] Arguments Z.to_nat : simpl nomatch.
#[local] Arguments Z.eqb : simpl nomatch.
#[local] Arguments Z.ltb : simpl nomatch.
#[local] Arguments Z.lxor : simpl never.
#[local] Arguments Z.land : simpl never.
#[local] Arguments Z.lor : simpl never.
#[local] Arguments Z.shiftr : simpl never.
#[local] Arguments byte_of : simpl never.
#[local] Arguments ror32 : simpl never.
#[local] Arguments rol32 : simpl never.
#[local] Arguments peek32 : simpl never.
#[local] Arguments poke32 : simpl never.
#[local] Arguments vec_at : simpl never.
#[local] Arguments tbl : simpl never.
#[local] Arguments tw : simpl never.
#[local] Arguments swap : simpl never.

(** An index the program computes is a byte. *)
Ltac idx :=
  first [ apply byte_of_byte | apply land_ff_byte
        | apply shr24_byte; repeat first [ assumption | apply lxor_word | apply swap_word ] ].

Ltac fold_swap :=
  repeat match goal with
  | |- context [Z.lor (Z.land (ror32 ?x 8) ?a) (Z.land (rol32 ?x 8) ?b)] =>
      change (Z.lor (Z.land (ror32 x 8) a) (Z.land (rol32 x 8) b)) with (swap x)
  end.

(** Evaluate the number of the byte in a byte access. *)
Ltac norm_bytes :=
  repeat match goal with
  | |- context [byte_of (?a mod ?b) _] =>
      let n := eval vm_compute in (a mod b) in change (a mod b) with n
  end.

(** Run one instruction; [keyt] rewrites the loads of round keys. *)
Ltac exec1 keyt :=
  eapply exec_cons;
  [ cbn; rewrite ?Z.add_0_r; norm_bytes;
    repeat (first [ rewrite tab_ok by idx | rewrite tab_byte_ok by idx | keyt ]; cbn);
    reflexivity
  | ].

(** Equality of exclusive ors up to the order of their arguments. *)
Ltac lxor_ac := apply Z.bits_inj'; intros ? _; rewrite !Z.lxor_spec; btauto.

(** One word after a round, from the four words it depends on. *)
Definition rnd (a b c d k : Z) : Z :=
  Z.lxor (Z.lxor (Z.lxor (Z.lxor (tw K5B3E18 (Z.shiftr a 24)) (tw K5B4218 (Z.land (Z.shiftr b 16) 255)))
    (tw K5B4618 (byte_of 1 c))) (tw K5B4A18 (Z.land d 255))) k.

(** Close the run: the final state, up to the order of exclusive ors. *)
Ltac done_run :=
  cbn; repeat first [ reflexivity | progress f_equal ]; unfold rnd; lxor_ac.

Section rounds.

Context (block keys : list Z) (o k0 k1 k2 k3 w0 w1 w2 w3 : Z).
Context (Hw0 : word w0) (Hw1 : word w1) (Hw2 : word w2) (Hw3 : word w3).

Lemma loop1_run (Hk0 : peek32 keys o = Ok k0) (Hk1 : peek32 keys (o + 4) = Ok k1)
    (Hk2 : peek32 keys (o + 8) = Ok k2) (Hk3 : peek32 keys (o + 12) = Ok k3)
    (vd vs vn v0 v1 v2 v3 v4 v5 ret : val table) z outb :
  let w0' := rnd w0 w1 w2 w3 k0 in let w1' := rnd w1 w2 w3 w0 k1 in
  let w2' := rnd w2 w3 w0 w1 k2 in let w3' := rnd w3 w0 w1 w2 k3 in
  exists z', exec_list tbl block keys loop_code_1
    (mkCpu (P RKeys o) (I w3) (I w0) vd vs vn (P ROut 0) (P RStack 0) z
       [v0; v1; v2; v3; v4; v5; I w2; I w3; ret; I w1] outb) =
  Ok (mkCpu (P RKeys o) (I w3') (I (byte_of 1 w2')) (I w0') (I w1') vn (P ROut 0) (P RStack 0) z'
       [v0; v1; v2; v3; I w1'; I w2'; I w2; I w3; ret; I w1] outb).
Proof using Hw0 Hw1 Hw2 Hw3.
  intros. eexists. unfold loop_code_1.
  repeat exec1 ltac:(first [rewrite Hk0 | rewrite Hk1 | rewrite Hk2 | rewrite Hk3]).
  subst w0' w1' w2' w3'. done_run.
Qed.

Lemma loop2_run (Hk0 : peek32 keys (o + 16) = Ok k0) (Hk1 : peek32 keys (o + 20) = Ok k1)
    (Hk2 : peek32 keys (o + 24) = Ok k2) (Hk3 : peek32 keys (o + 32 + -4) = Ok k3)
    (v0 v1 v2 v3 v6 v7 v9 ret : val table) n z outb :
  let w0' := rnd w0 w1 w2 w3 k0 in let w1' := rnd w1 w2 w3 w0 k1 in
  let w2' := rnd w2 w3 w0 w1 k2 in let w3' := rnd w3 w0 w1 w2 k3 in
  exists vd vs, exec_list tbl block keys loop_code_2
    (mkCpu (P RKeys o) (I w3) (I (byte_of 1 w2)) (I w0) (I w1) (I n) (P ROut 0) (P RStack 0) z
       [v0; v1; v2; v3; I w1; I w2; v6; v7; ret; v9] outb) =
  Ok (mkCpu (P RKeys (o + 32)) (I w3') (I w0') vd vs (I (u32 (n + -1))) (P ROut 0) (P RStack 0)
       (u32 (n + -1) =? 0)
       [v0; v1; v2; v3; I w1; I w2; I w2'; I w3'; ret; I w1'] outb).
Proof using Hw0 Hw1 Hw2 Hw3.
  intros. do 2 eexists. unfold loop_code_2.
  repeat exec1 ltac:(first [rewrite Hk0 | rewrite Hk1 | rewrite Hk2 | rewrite Hk3]).
  subst w0' w1' w2' w3'. done_run.
Qed.

End rounds.

(** ** The entry *)

Lemma entry_run block keys b0 b1 b2 b3 k0 k1 k2 k3 k4 k5 k6 k7
    (Hb0 : peek32 block 0 = Ok b0) (Hb1 : peek32 block 4 = Ok b1)
    (Hb2 : peek32 block 8 = Ok b2) (Hb3 : peek32 block 12 = Ok b3)
    (Hk0 : peek32 keys 0 = Ok k0) (Hk1 : peek32 keys 4 = Ok k1)
    (Hk2 : peek32 keys 8 = Ok k2) (Hk3 : peek32 keys 12 = Ok k3)
    (Hk4 : peek32 keys 16 = Ok k4) (Hk5 : peek32 keys 20 = Ok k5)
    (Hk6 : peek32 keys 24 = Ok k6) (Hk7 : peek32 keys 28 = Ok k7)
    (Wb0 : word b0) (Wb1 : word b1) (Wb2 : word b2) (Wb3 : word b3)
    (Wk0 : word k0) (Wk1 : word k1) (Wk2 : word k2) (Wk3 : word k3)
    rbx rdx rsi rdi rbp ret j0 j1 j2 j3 j4 j5 j6 j7 outb :
  let w0 := Z.lxor (swap b0) k0 in let w1 := Z.lxor (swap b1) k1 in
  let w2 := Z.lxor (swap b2) k2 in let w3 := Z.lxor (swap b3) k3 in
  let w0' := rnd w0 w1 w2 w3 k4 in let w1' := rnd w1 w2 w3 w0 k5 in
  let w2' := rnd w2 w3 w0 w1 k6 in let w3' := rnd w3 w0 w1 w2 k7 in
  exists vd vs z v4 v5, exec_list tbl block keys entry_code
    (call_state rbx rdx rsi rdi rbp ret [j0; j1; j2; j3; j4; j5; j6; j7] outb) =
  Ok (mkCpu (P RKeys 32) (I w3') (I w0') vd vs (I 4) (P ROut 0) (P RStack 0) z
       [rdi; rsi; rbp; rbx; v4; v5; I w2'; I w3'; ret; I w1'] outb).
Proof.
  intros. do 5 eexists. unfold entry_code, call_state.
  repeat (exec1 ltac:(first [rewrite Hb0 | rewrite Hb1 | rewrite Hb2 | rewrite Hb3
    | rewrite Hk0 | rewrite Hk1 | rewrite Hk2 | rewrite Hk3
    | rewrite Hk4 | rewrite Hk5 | rewrite Hk6 | rewrite Hk7]); fold_swap).
  subst w0 w1 w2 w3 w0' w1' w2' w3'. done_run.
Qed.

(** ** The exit *)

(** One word of the last round. *)
Definition last_rnd (a b c d k : Z) : Z :=
  Z.lxor (Z.lxor (Z.lxor (Z.lxor (Z.land (tw K5B4E18 (Z.shiftr a 24)) 0xFF000000)
    (Z.land (tw K5B4E18 (Z.land (Z.shiftr b 16) 255)) 0xFF0000))
    (Z.land (tw K5B4E18 (byte_of 1 c)) 0xFF00)) (sbox (Z.land d 255))) k.

Section outbuf.

Context (a b c d : list Z).
Context (Ha : List.length a = 4%nat) (Hb : List.length b = 4%nat) (Hc : List.length c = 4%nat) (Hd : List.length d = 4%nat).

Lemma poke_0 z : poke32 (a ++ b ++ c ++ d) 0 z = Ok (le_bytes 4 z ++ b ++ c ++ d).
Proof using Ha. unfold poke32. by rewrite (pokes_at _ [] a (b ++ c ++ d)). Qed.

Lemma poke_4 z : poke32 (a ++ b ++ c ++ d) 4 z = Ok (a ++ le_bytes 4 z ++ c ++ d).
Proof using Ha Hb. unfold poke32. rewrite (pokes_at _ a b (c ++ d)); try done; rewrite ?Ha; done. Qed.

Lemma poke_8 z : poke32 (a ++ b ++ c ++ d) 8 z = Ok (a ++ b ++ le_bytes 4 z ++ d).
Proof using Ha Hb Hc.
  unfold poke32. rewrite (pokes_at _ (a ++ b) c d); rewrite <- ?app_assoc; try done; rewrite ?length_app, ?Ha, ?Hb; done.
Qed.

Lemma poke_12 z : poke32 (a ++ b ++ c ++ d) 12 z = Ok (a ++ b ++ c ++ le_bytes 4 z).
Proof using Ha Hb Hc Hd.
  unfold poke32. rewrite (pokes_at _ (a ++ b ++ c) d []); rewrite ?app_nil_r, <- ?app_assoc; try done.
  rewrite !length_app, Ha, Hb, Hc. done.
Qed.

End outbuf.

#[local] Arguments app : simpl never.
#[local] Arguments le_bytes : simpl never.
#[local] Arguments sbox : simpl never.

Lemma exit_run block keys o k0 k1 k2 k3 w0 w1 w2 w3
    (Hk0 : peek32 keys o = Ok k0) (Hk1 : peek32 keys (o + 4) = Ok k1)
    (Hk2 : peek32 keys (o + 8) = Ok k2) (Hk3 : peek32 keys (o + 12) = Ok k3)
    (Hw0 : word w0) (Hw1 : word w1) (Hw2 : word w2) (Hw3 : word w3)
    vd vs vn v0 v1 v2 v3 v4 v5 ret z a b c d
    (Ha : List.length a = 4%nat) (Hb : List.length b = 4%nat) (Hc : List.length c = 4%nat) (Hd : List.length d = 4%nat) :
  exists va vc vd' z', exec_list tbl block keys exit_code
    (mkCpu (P RKeys o) (I w3) (I w0) vd vs vn (P ROut 0) (P RStack 0) z
       [v0; v1; v2; v3; v4; v5; I w2; I w3; ret; I w1] (a ++ b ++ c ++ d)) =
  Ok (mkCpu va v3 vc vd' v1 v0 v2 (P RStack 32) z'
       [v0; v1; v2; v3; v4; v5; I w2; I w3; ret; I w1]
       (le_bytes 4 (swap (last_rnd w0 w1 w2 w3 k0)) ++ le_bytes 4 (swap (last_rnd w1 w2 w3 w0 k1)) ++
        le_bytes 4 (swap (last_rnd w2 w3 w0 w1 k2)) ++ le_bytes 4 (swap (last_rnd w3 w0 w1 w2 k3)))).
Proof.
  do 4 eexists. unfold exit_code.
  repeat (exec1 ltac:(first [rewrite Hk0 | rewrite Hk1 | rewrite Hk2 | rewrite Hk3
    | rewrite poke_0 by done | rewrite poke_4 by done | rewrite poke_8 by done | rewrite poke_12 by done]); fold_swap).
  cbn. repeat first [ reflexivity | progress f_equal ]; unfold last_rnd; lxor_ac.
Qed.

(** ** Words and bytes *)

Lemma testbit_cat x a n : byte a -> 0 <= n ->
  Z.testbit (x * 256 + a) n = if n <? 8 then Z.testbit a n else Z.testbit x (n - 8).
Proof.
  intros Ha Hn. unfold byte in Ha.
  assert (E : x * 256 + a = Z.lor (Z.shiftl x 8) a).
  { rewrite Z.shiftl_mul_pow2 by lia. change (2 ^ 8) with 256. symmetry. rewrite <- Z.add_lor_land.
    enough (Z.land (x * 256) a = 0) by lia. apply Z.bits_inj'. intros k Hk.
    rewrite Z.land_spec, Z.bits_0. change 256 with (2 ^ 8). destruct (Z.lt_ge_cases k 8).
    - by rewrite Z.mul_pow2_bits_low.
    - rewrite (proj1 (testbit_range 8 a ltac:(lia) ltac:(lia)) ltac:(lia) k) by lia. by rewrite andb_false_r. }
  rewrite E, Z.lor_spec. destruct (Z.ltb_spec n 8).
  - by rewrite Z.shiftl_spec_low.
  - rewrite Z.shiftl_spec, (proj1 (testbit_range 8 a ltac:(lia) ltac:(lia)) ltac:(lia) n) by lia. apply orb_false_r.
Qed.

Lemma byte_op (op : Z -> Z -> Z) (bop : bool -> bool -> bool) a b :
  (forall x y n, Z.testbit (op x y) n = bop (Z.testbit x n) (Z.testbit y n)) -> bop false false = false ->
  byte a -> byte b -> 0 <= op a b -> byte (op a b).
Proof.
  unfold byte. intros Hop Hb Ha Hb' H0. split; [done|]. apply (testbit_range 8); [lia..|]. intros k Hk.
  rewrite Hop. rewrite (proj1 (testbit_range 8 a ltac:(lia) ltac:(lia)) ltac:(lia) k Hk).
  by rewrite (proj1 (testbit_range 8 b ltac:(lia) ltac:(lia)) ltac:(lia) k Hk).
Qed.

Lemma cat_op (op : Z -> Z -> Z) (bop : bool -> bool -> bool) x y a b :
  (forall x y n, Z.testbit (op x y) n = bop (Z.testbit x n) (Z.testbit y n)) ->
  byte a -> byte b -> byte (op a b) -> op (x * 256 + a) (y * 256 + b) = op x y * 256 + op a b.
Proof.
  intros Hop Ha Hb Hab. apply Z.bits_inj'. intros n Hn.
  rewrite Hop, !testbit_cat, !Hop by done. by destruct (n <? 8).
Qed.

Lemma lxor_byte a b : byte a -> byte b -> byte (Z.lxor a b).
Proof. apply (lxor_range 8). Qed.

Lemma land_byte a b : byte a -> byte b -> byte (Z.land a b).
Proof.
  intros Ha Hb. apply (byte_op Z.land andb); try done; [apply Z.land_spec|].
  apply Z.land_nonneg. unfold byte in Ha. lia.
Qed.

Lemma lor_byte a b : byte a -> byte b -> byte (Z.lor a b).
Proof.
  intros Ha Hb. apply (byte_op Z.lor orb); try done; [apply Z.lor_spec|].
  apply Z.lor_nonneg. unfold byte in *. lia.
Qed.

Section pack.

Context (a b c d a' b' c' d' : Z).
Context (Ha : byte a) (Hb : byte b) (Hc : byte c) (Hd : byte d).
Context (Ha' : byte a') (Hb' : byte b') (Hc' : byte c') (Hd' : byte d').

Lemma pack_op (op : Z -> Z -> Z) (bop : bool -> bool -> bool) :
  (forall x y n, Z.testbit (op x y) n = bop (Z.testbit x n) (Z.testbit y n)) ->
  (forall x y, byte x -> byte y -> byte (op x y)) ->
  op (pack a b c d) (pack a' b' c' d') = pack (op a a') (op b b') (op c c') (op d d').
Proof using Ha Hb Hc Hd Ha' Hb' Hc' Hd'.
  intros Hop Hbyte. unfold pack.
  replace (a * 2 ^ 24 + b * 2 ^ 16 + c * 2 ^ 8 + d) with (((a * 256 + b) * 256 + c) * 256 + d) by lia.
  replace (a' * 2 ^ 24 + b' * 2 ^ 16 + c' * 2 ^ 8 + d') with (((a' * 256 + b') * 256 + c') * 256 + d') by lia.
  rewrite !(cat_op op bop) by auto. lia.
Qed.

Lemma pack_lxor : Z.lxor (pack a b c d) (pack a' b' c' d') =
  pack (Z.lxor a a') (Z.lxor b b') (Z.lxor c c') (Z.lxor d d').
Proof using Ha Hb Hc Hd Ha' Hb' Hc' Hd'. apply (pack_op Z.lxor xorb); [apply Z.lxor_spec|apply lxor_byte]. Qed.

Lemma pack_land : Z.land (pack a b c d) (pack a' b' c' d') =
  pack (Z.land a a') (Z.land b b') (Z.land c c') (Z.land d d').
Proof using Ha Hb Hc Hd Ha' Hb' Hc' Hd'. apply (pack_op Z.land andb); [apply Z.land_spec|apply land_byte]. Qed.

Lemma pack_lor : Z.lor (pack a b c d) (pack a' b' c' d') =
  pack (Z.lor a a') (Z.lor b b') (Z.lor c c') (Z.lor d d').
Proof using Ha Hb Hc Hd Ha' Hb' Hc' Hd'. apply (pack_op Z.lor orb); [apply Z.lor_spec|apply lor_byte]. Qed.

End pack.

Section unpack.

Context (a b c d : Z) (Ha : byte a) (Hb : byte b) (Hc : byte c) (Hd : byte d).

Lemma pack_word : word (pack a b c d).
Proof using Ha Hb Hc Hd. unfold word, pack, byte in *. lia. Qed.

Lemma pack_byte0 : Z.land (pack a b c d) 255 = d.
Proof using Ha Hb Hc Hd.
  change 255 with (Z.ones 8). rewrite Z.land_ones by lia. unfold pack, byte in *. lia_div.
Qed.

Lemma pack_byte1 : byte_of 1 (pack a b c d) = c.
Proof using Ha Hb Hc Hd.
  unfold byte_of. change 0xFF with (Z.ones 8). rewrite Z.land_ones, Z.shiftr_div_pow2 by lia.
  change (2 ^ (8 * 1)) with 256. unfold pack, byte in *. lia_div.
Qed.

Lemma pack_byte2 : Z.land (Z.shiftr (pack a b c d) 16) 255 = b.
Proof using Ha Hb Hc Hd.
  change 255 with (Z.ones 8). rewrite Z.land_ones, Z.shiftr_div_pow2 by lia.
  unfold pack, byte in *. lia_div.
Qed.

Lemma pack_byte3 : Z.shiftr (pack a b c d) 24 = a.
Proof using Ha Hb Hc Hd. rewrite Z.shiftr_div_pow2 by lia. unfold pack, byte in *. lia_div. Qed.

End unpack.

Create HintDb bytes.
#[local] Hint Resolve lxor_byte pack_word : bytes.

Lemma byte_0 : byte 0.
Proof. unfold byte. lia. Qed.

Lemma byte_255 : byte 255.
Proof. unfold byte. lia. Qed.

#[local] Hint Resolve byte_0 byte_255 : bytes.

Lemma x2_byte a : byte a -> byte (x2 a).
Proof.
  unfold x2, xtime. intros Ha. destruct (Z.ltb_spec a 128); [unfold byte in *; lia|].
  change 0x11B with (1 * 256 + 0x1B). replace (2 * a) with (1 * 256 + (2 * a - 256)) by lia.
  rewrite (cat_op Z.lxor xorb); [|apply Z.lxor_spec|unfold byte in *; lia..|apply lxor_byte; unfold byte in *; lia].
  rewrite Z.lxor_nilpotent. apply lxor_byte; unfold byte in *; lia.
Qed.

Lemma x3_byte a : byte a -> byte (x3 a).
Proof. intros Ha. apply lxor_byte; [by apply x2_byte|done]. Qed.

Lemma sbox_byte a : byte a -> byte (sbox a).
Proof. intros Ha. by apply (tw_entry K5B4E18). Qed.

#[local] Hint Resolve x2_byte x3_byte sbox_byte : bytes.

Lemma land_255 x : byte x -> Z.land x 255 = x.
Proof. intros Hx. change 255 with (Z.ones 8). rewrite Z.land_ones by lia. apply Z.mod_small, Hx. Qed.

(** Exchanging the bytes of a word reverses them. *)
Lemma swap_pack a b c d : byte a -> byte b -> byte c -> byte d -> swap (pack d c b a) = pack a b c d.
Proof.
  intros Ha Hb Hc Hd. unfold swap, ror32, rol32, u32.
  assert (E1 : Z.shiftr (pack d c b a) 8 = pack 0 d c b)
    by (rewrite Z.shiftr_div_pow2 by lia; unfold pack, byte in *; lia_div).
  assert (E2 : Z.shiftl (pack d c b a) (32 - 8) mod 2 ^ 32 = pack a 0 0 0)
    by (rewrite Z.shiftl_mul_pow2 by lia; unfold pack, byte in *; change (2 ^ (32 - 8)) with 16777216; lia_div).
  assert (E3 : Z.shiftl (pack d c b a) 8 mod 2 ^ 32 = pack c b a 0)
    by (rewrite Z.shiftl_mul_pow2 by lia; unfold pack, byte in *; lia_div).
  assert (E4 : Z.shiftr (pack d c b a) (32 - 8) = pack 0 0 0 d)
    by (rewrite Z.shiftr_div_pow2 by lia; change (2 ^ (32 - 8)) with 16777216; unfold pack, byte in *; lia_div).
  rewrite E1, E2, E3, E4. change 0xFF00FF00 with (pack 255 0 255 0). change 0xFF00FF with (pack 0 255 0 255).
  rewrite !pack_lor, !pack_land, !pack_lor by auto using lor_byte, land_byte with bytes.
  rewrite ?Z.lor_0_l, ?Z.lor_0_r, ?Z.land_0_r, ?Z.lor_0_l, ?Z.lor_0_r.
  by rewrite !land_255.
Qed.

(** ** A round *)

Lemma rnd_pack a0 a1 a2 a3 b0 b1 b2 b3 c0 c1 c2 c3 d0 d1 d2 d3 k0 k1 k2 k3 :
  Forall byte [a0; a1; a2; a3; b0; b1; b2; b3; c0; c1; c2; c3; d0; d1; d2; d3; k0; k1; k2; k3] ->
  rnd (pack a0 a1 a2 a3) (pack b0 b1 b2 b3) (pack c0 c1 c2 c3) (pack d0 d1 d2 d3) (pack k0 k1 k2 k3) =
  pack (Z.lxor (lxor4 (x2 (sbox a0)) (x3 (sbox b1)) (sbox c2) (sbox d3)) k0)
       (Z.lxor (lxor4 (sbox a0) (x2 (sbox b1)) (x3 (sbox c2)) (sbox d3)) k1)
       (Z.lxor (lxor4 (sbox a0) (sbox b1) (x2 (sbox c2)) (x3 (sbox d3))) k2)
       (Z.lxor (lxor4 (x3 (sbox a0)) (sbox b1) (sbox c2) (x2 (sbox d3))) k3).
Proof.
  intros H. repeat match goal with H : Forall byte (_ :: _) |- _ => apply Forall_cons in H as [? H] end.
  unfold rnd. rewrite pack_byte3, pack_byte2, pack_byte1, pack_byte0 by done.
  rewrite !(fun t i H => proj1 (tw_entry t i H)) by done. unfold entry, lxor4.
  by rewrite !pack_lxor by auto 6 with bytes.
Qed.

Lemma last_rnd_pack a0 a1 a2 a3 b0 b1 b2 b3 c0 c1 c2 c3 d0 d1 d2 d3 k0 k1 k2 k3 :
  Forall byte [a0; a1; a2; a3; b0; b1; b2; b3; c0; c1; c2; c3; d0; d1; d2; d3; k0; k1; k2; k3] ->
  last_rnd (pack a0 a1 a2 a3) (pack b0 b1 b2 b3) (pack c0 c1 c2 c3) (pack d0 d1 d2 d3) (pack k0 k1 k2 k3) =
  pack (Z.lxor (sbox a0) k0) (Z.lxor (sbox b1) k1) (Z.lxor (sbox c2) k2) (Z.lxor (sbox d3) k3).
Proof.
  intros H. repeat match goal with H : Forall byte (_ :: _) |- _ => apply Forall_cons in H as [? H] end.
  unfold last_rnd. rewrite pack_byte3, pack_byte2, pack_byte1, pack_byte0 by done.
  rewrite !(fun t i H => proj1 (tw_entry t i H)) by done. unfold entry.
  change 0xFF000000 with (pack 255 0 0 0). change 0xFF0000 with (pack 0 255 0 0). change 0xFF00 with (pack 0 0 255 0).
  assert (E : sbox d3 = pack 0 0 0 (sbox d3)) by (unfold pack; lia). rewrite E at 1.
  rewrite !pack_land by auto with bytes. rewrite !Z.land_0_r.
  rewrite !land_255 by auto with bytes. rewrite !pack_lxor by auto 6 with bytes.
  rewrite ?Z.lxor_0_l, ?Z.lxor_0_r. reflexivity.
Qed.

(** ** Blocks *)

(** Column [c] of a block as a word. *)
Definition wd (s : list Z) (c : nat) : Z :=
  pack (nth (4 * c) s 0) (nth (4 * c + 1) s 0) (nth (4 * c + 2) s 0) (nth (4 * c + 3) s 0).

Definition is_block (s : list Z) : Prop := List.length s = 16%nat /\ Forall byte s.

(** Name the sixteen bytes of a block. *)
Ltac open_block H :=
  let Hl := fresh in destruct H as [Hl H];
  match type of Hl with List.length ?s = _ =>
    do 16 (destruct s as [|? s]; [discriminate Hl|]); destruct s; [|discriminate Hl]; clear Hl
  end;
  repeat match type of H with Forall byte (_ :: _) => let X := fresh in apply Forall_cons in H as [X H] end.

Ltac all_bytes := repeat apply Forall_cons_2; first [ apply Forall_nil_2 | solve [auto 8 with bytes] ].

Lemma round_words s k : is_block s -> is_block k ->
  is_block (round s k) /\
  wd (round s k) 0 = rnd (wd s 0) (wd s 1) (wd s 2) (wd s 3) (wd k 0) /\
  wd (round s k) 1 = rnd (wd s 1) (wd s 2) (wd s 3) (wd s 0) (wd k 1) /\
  wd (round s k) 2 = rnd (wd s 2) (wd s 3) (wd s 0) (wd s 1) (wd k 2) /\
  wd (round s k) 3 = rnd (wd s 3) (wd s 0) (wd s 1) (wd s 2) (wd k 3).
Proof.
  intros Hs Hk. open_block Hs. open_block Hk. unfold wd. cbn -[pack rnd sbox x2 x3 lxor4].
  split; [split; [done|]; unfold lxor4; all_bytes|].
  repeat split; symmetry; apply rnd_pack; all_bytes.
Qed.

Lemma final_words s k : is_block s -> is_block k ->
  is_block (final_round s k) /\
  wd (final_round s k) 0 = last_rnd (wd s 0) (wd s 1) (wd s 2) (wd s 3) (wd k 0) /\
  wd (final_round s k) 1 = last_rnd (wd s 1) (wd s 2) (wd s 3) (wd s 0) (wd k 1) /\
  wd (final_round s k) 2 = last_rnd (wd s 2) (wd s 3) (wd s 0) (wd s 1) (wd k 2) /\
  wd (final_round s k) 3 = last_rnd (wd s 3) (wd s 0) (wd s 1) (wd s 2) (wd k 3).
Proof.
  intros Hs Hk. open_block Hs. open_block Hk. unfold wd. cbn -[pack last_rnd sbox].
  split; [split; [done|]; all_bytes|].
  repeat split; symmetry; apply last_rnd_pack; all_bytes.
Qed.

Lemma wd_word s c : is_block s -> (c < 4)%nat -> word (wd s c).
Proof.
  intros [Hl Hs] Hc. unfold wd. assert (Hn : forall i, (i < 16)%nat -> byte (nth i s 0)).
  { intros i Hi. rewrite Forall_forall in Hs. apply Hs, list_elem_of_In, nth_In. lia. }
  apply pack_word; apply Hn; lia.
Qed.

#[local] Hint Resolve wd_word : bytes.

(** ** Round keys in memory *)

(** Round key [j]: the program keeps the words of the key schedule as 32-bit
    integers of the machine, so each group of four bytes is reversed. *)
Definition host_key (keys : list Z) (j : nat) : list Z :=
  flat_map (fun c => rev (take 4 (drop (16 * j + 4 * c) keys))) [0; 1; 2; 3]%nat.

Lemma four (l : list Z) n : (n + 4 <= List.length l)%nat ->
  exists a b c d, take 4 (drop n l) = [a; b; c; d].
Proof.
  intros Hl. assert (H : List.length (take 4 (drop n l)) = 4%nat) by (rewrite length_take, length_drop; lia).
  destruct (take 4 (drop n l)) as [|a [|b [|c [|d [|]]]]]; try done. eauto.
Qed.

Lemma four_bytes (l : list Z) n a b c d : Forall byte l -> take 4 (drop n l) = [a; b; c; d] ->
  byte a /\ byte b /\ byte c /\ byte d.
Proof.
  intros Hl E. assert (H : Forall byte [a; b; c; d]) by (rewrite <- E; by apply Forall_take, Forall_drop).
  repeat match goal with H : Forall byte (_ :: _) |- _ => apply Forall_cons in H as [? H] end. auto.
Qed.

Lemma peek32_four l n a b c d : (n + 4 <= List.length l)%nat -> take 4 (drop n l) = [a; b; c; d] ->
  peek32 l (Z.of_nat n) = Ok (pack d c b a).
Proof.
  intros Hl E. unfold peek32, peeks. destruct (Z.leb_spec 0 (Z.of_nat n)); [|lia].
  destruct (Z.leb_spec (Z.of_nat n + 4) (Z.of_nat (List.length l))); [|lia]. cbn [andb].
  rewrite Nat2Z.id. change (Z.to_nat 4) with 4%nat. rewrite E. cbn [mbind outcome_bind le_value]. f_equal.
  unfold pack. lia.
Qed.

Lemma add_key_words s k : is_block s -> is_block k ->
  is_block (add_round_key k s) /\
  Z.lxor (wd s 0) (wd k 0) = wd (add_round_key k s) 0 /\ Z.lxor (wd s 1) (wd k 1) = wd (add_round_key k s) 1 /\
  Z.lxor (wd s 2) (wd k 2) = wd (add_round_key k s) 2 /\ Z.lxor (wd s 3) (wd k 3) = wd (add_round_key k s) 3.
Proof.
  intros Hs Hk. open_block Hs. open_block Hk. unfold wd. cbn -[pack].
  split; [split; [done|all_bytes]|]. by repeat split; apply pack_lxor.
Qed.

(** The words of the block, as they are loaded and exchanged. *)
Lemma block_loads s : is_block s -> exists b0 b1 b2 b3,
  peek32 s 0 = Ok b0 /\ peek32 s 4 = Ok b1 /\ peek32 s 8 = Ok b2 /\ peek32 s 12 = Ok b3 /\
  word b0 /\ word b1 /\ word b2 /\ word b3 /\
  swap b0 = wd s 0 /\ swap b1 = wd s 1 /\ swap b2 = wd s 2 /\ swap b3 = wd s 3.
Proof.
  intros Hs. open_block Hs.
  do 4 eexists.
  split; [apply (peek32_four _ 0); [cbn; lia|reflexivity]|].
  split; [apply (peek32_four _ 4); [cbn; lia|reflexivity]|].
  split; [apply (peek32_four _ 8); [cbn; lia|reflexivity]|].
  split; [apply (peek32_four _ 12); [cbn; lia|reflexivity]|].
  do 4 (split; [by apply pack_word|]). unfold wd. cbn -[pack swap]. by rewrite !swap_pack.
Qed.

Lemma le_bytes_swap s c : is_block s -> (c < 4)%nat -> le_bytes 4 (swap (wd s c)) = take 4 (drop (4 * c) s).
Proof.
  intros Hs Hc. open_block Hs.
  assert (E : forall a b c d, byte a -> byte b -> byte c -> byte d -> le_bytes 4 (swap (pack a b c d)) = [a; b; c; d]).
  { clear. intros a b c d Ha Hb Hc Hd. rewrite swap_pack by done. unfold pack, byte in *. unfold le_bytes.
    repeat f_equal; lia_div. }
  destruct c as [|[|[|[|]]]]; [..|lia]; unfold wd; cbn -[pack swap le_bytes]; by apply E.
Qed.

Section keys.

Context (keys : list Z) (Hlen : List.length keys = 176%nat) (Hbytes : Forall byte keys).

Lemma host_key_parts j : (j < 11)%nat ->
  exists a0 a1 a2 a3 b0 b1 b2 b3 c0 c1 c2 c3 d0 d1 d2 d3,
    take 4 (drop (16 * j) keys) = [a0; a1; a2; a3] /\ take 4 (drop (16 * j + 4) keys) = [b0; b1; b2; b3] /\
    take 4 (drop (16 * j + 8) keys) = [c0; c1; c2; c3] /\ take 4 (drop (16 * j + 12) keys) = [d0; d1; d2; d3] /\
    host_key keys j = [a3; a2; a1; a0; b3; b2; b1; b0; c3; c2; c1; c0; d3; d2; d1; d0].
Proof using Hlen.
  intros Hj.
  destruct (four keys (16 * j)) as (a0 & a1 & a2 & a3 & Ea); [lia|].
  destruct (four keys (16 * j + 4)) as (b0 & b1 & b2 & b3 & Eb); [lia|].
  destruct (four keys (16 * j + 8)) as (c0 & c1 & c2 & c3 & Ec); [lia|].
  destruct (four keys (16 * j + 12)) as (d0 & d1 & d2 & d3 & Ed); [lia|].
  do 16 eexists. split; [exact Ea|]. split; [exact Eb|]. split; [exact Ec|]. split; [exact Ed|].
  unfold host_key. cbn [flat_map]. change (4 * 0)%nat with 0%nat. change (4 * 1)%nat with 4%nat.
  change (4 * 2)%nat with 8%nat. change (4 * 3)%nat with 12%nat. rewrite Nat.add_0_r.
  rewrite Ea, Eb, Ec, Ed. reflexivity.
Qed.

Lemma host_key_block j : (j < 11)%nat -> is_block (host_key keys j).
Proof using Hlen Hbytes.
  intros Hj.
  destruct (host_key_parts j Hj) as (a0 & a1 & a2 & a3 & b0 & b1 & b2 & b3 & c0 & c1 & c2 & c3 & d0 & d1 & d2 & d3
    & Ea & Eb & Ec & Ed & ->).
  apply four_bytes in Ea as (? & ? & ? & ?), Eb as (? & ? & ? & ?), Ec as (? & ? & ? & ?), Ed as (? & ? & ? & ?); [|done..].
  split; [done|all_bytes].
Qed.

Lemma key_loads j : (j < 11)%nat ->
  peek32 keys (16 * Z.of_nat j) = Ok (wd (host_key keys j) 0) /\
  peek32 keys (16 * Z.of_nat j + 4) = Ok (wd (host_key keys j) 1) /\
  peek32 keys (16 * Z.of_nat j + 8) = Ok (wd (host_key keys j) 2) /\
  peek32 keys (16 * Z.of_nat j + 12) = Ok (wd (host_key keys j) 3).
Proof using Hlen.
  intros Hj.
  destruct (host_key_parts j Hj) as (a0 & a1 & a2 & a3 & b0 & b1 & b2 & b3 & c0 & c1 & c2 & c3 & d0 & d1 & d2 & d3
    & Ea & Eb & Ec & Ed & ->).
  replace (16 * Z.of_nat j) with (Z.of_nat (16 * j)) by lia.
  replace (Z.of_nat (16 * j) + 4) with (Z.of_nat (16 * j + 4)) by lia.
  replace (Z.of_nat (16 * j) + 8) with (Z.of_nat (16 * j + 8)) by lia.
  replace (Z.of_nat (16 * j) + 12) with (Z.of_nat (16 * j + 12)) by lia.
  rewrite (peek32_four _ (16 * j) a0 a1 a2 a3), (peek32_four _ (16 * j + 4) b0 b1 b2 b3) by (done || lia).
  by rewrite (peek32_four _ (16 * j + 8) c0 c1 c2 c3), (peek32_four _ (16 * j + 12) d0 d1 d2 d3) by (done || lia).
Qed.

(** The state at the head of the loop: the block [st], round key [j] next. *)
Definition loop_state (j : nat) (st : list Z) (n : Z) (vd vs v0 v1 v2 v3 v4 v5 ret : val table) (z : bool)
    (outb : list Z) : cpu :=
  mkCpu (P RKeys (16 * Z.of_nat j)) (I (wd st 3)) (I (wd st 0)) vd vs (I n) (P ROut 0) (P RStack 0) z
    [v0; v1; v2; v3; v4; v5; I (wd st 2); I (wd st 3); ret; I (wd st 1)] outb.

Lemma loop_iter block j st n vd vs v0 v1 v2 v3 v4 v5 ret z outb :
  is_block st -> (j < 10)%nat ->
  let st' := round (round st (host_key keys j)) (host_key keys (S j)) in
  exists vd' vs' v4' v5',
    exec_list tbl block keys (loop_code_1 ++ loop_code_2) (loop_state j st n vd vs v0 v1 v2 v3 v4 v5 ret z outb) =
    Ok (loop_state (S (S j)) st' (u32 (n + -1)) vd' vs' v0 v1 v2 v3 v4' v5' ret (u32 (n + -1) =? 0) outb) /\
    is_block st'.
Proof using Hlen Hbytes.
  intros Hst Hj st'. rewrite exec_app. unfold loop_state.
  destruct (key_loads j ltac:(lia)) as (K0 & K1 & K2 & K3).
  destruct (key_loads (S j) ltac:(lia)) as (L0 & L1 & L2 & L3).
  set (o := 16 * Z.of_nat j) in *.
  replace (16 * Z.of_nat (S j)) with (o + 16) in * by lia.
  replace (16 * Z.of_nat (S (S j))) with (o + 32) by lia.
  destruct (round_words st (host_key keys j)) as (B1 & E0 & E1 & E2 & E3); [done|by apply host_key_block; lia|].
  set (mid := round st (host_key keys j)) in *.
  destruct (round_words mid (host_key keys (S j))) as (B2 & F0 & F1 & F2 & F3); [done|by apply host_key_block; lia|].
  destruct (loop1_run block keys o _ _ _ _ (wd st 0) (wd st 1) (wd st 2) (wd st 3)
    (wd_word st 0 Hst ltac:(lia)) (wd_word st 1 Hst ltac:(lia))
    (wd_word st 2 Hst ltac:(lia)) (wd_word st 3 Hst ltac:(lia))
    K0 K1 K2 K3 vd vs (I n) v0 v1 v2 v3 v4 v5 ret z outb) as (z' & ->).
  cbn [mbind outcome_bind]. rewrite <- E0, <- E1, <- E2, <- E3.
  destruct (loop2_run block keys o (wd (host_key keys (S j)) 0) (wd (host_key keys (S j)) 1)
    (wd (host_key keys (S j)) 2) (wd (host_key keys (S j)) 3) (wd mid 0) (wd mid 1) (wd mid 2) (wd mid 3)
    (wd_word mid 0 B1 ltac:(lia)) (wd_word mid 1 B1 ltac:(lia))
    (wd_word mid 2 B1 ltac:(lia)) (wd_word mid 3 B1 ltac:(lia)))
    with (v0 := v0) (v1 := v1) (v2 := v2) (v3 := v3) (v6 := I (wd st 2) : val table) (v7 := I (wd st 3) : val table)
         (v9 := I (wd st 1) : val table) (ret := ret) (n := n) (z := z') (outb := outb) as (vd' & vs' & ->).
  - by rewrite <- L0.
  - rewrite <- L1. f_equal. lia.
  - rewrite <- L2. f_equal. lia.
  - rewrite <- L3. f_equal. lia.
  - rewrite <- F0, <- F1, <- F2, <- F3. do 4 eexists. split; [reflexivity|exact B2].
Qed.

(** The four iterations. *)
Lemma loop_four block st vd vs v0 v1 v2 v3 v4 v5 ret z outb :
  is_block st ->
  let st' := fold_left round (map (host_key keys) (seq 2 8)) st in
  exists vd' vs' v4' v5',
    do_jnz tbl block keys 4 (loop_code_1 ++ loop_code_2) (loop_state 2 st 4 vd vs v0 v1 v2 v3 v4 v5 ret z outb) =
    Ok (loop_state 10 st' 0 vd' vs' v0 v1 v2 v3 v4' v5' ret true outb) /\ is_block st'.
Proof using Hlen Hbytes.
  intros Hst. cbn [do_jnz seq map fold_left]. generalize (loop_iter block). generalize (loop_code_1 ++ loop_code_2).
  intros code Hiter.
  destruct (Hiter 2%nat st 4 vd vs v0 v1 v2 v3 v4 v5 ret z outb) as (a1 & c1 & d1 & e1 & -> & B1); [done|lia|].
  cbn [mbind outcome_bind zf loop_state]. change (u32 (4 + -1)) with 3. cbn iota.
  destruct (Hiter 4%nat _ 3 a1 c1 v0 v1 v2 v3 d1 e1 ret (3 =? 0) outb B1) as (a2 & c2 & d2 & e2 & -> & B2); [lia|].
  cbn [mbind outcome_bind zf loop_state]. change (u32 (3 + -1)) with 2. cbn iota.
  destruct (Hiter 6%nat _ 2 a2 c2 v0 v1 v2 v3 d2 e2 ret (2 =? 0) outb B2) as (a3 & c3 & d3 & e3 & -> & B3); [lia|].
  cbn [mbind outcome_bind zf loop_state]. change (u32 (2 + -1)) with 1. cbn iota.
  destruct (Hiter 8%nat _ 1 a3 c3 v0 v1 v2 v3 d3 e3 ret (1 =? 0) outb B3) as (a4 & c4 & d4 & e4 & -> & B4); [lia|].
  cbn [mbind outcome_bind zf loop_state]. change (u32 (1 + -1)) with 0. cbn iota.
  do 4 eexists. split; [reflexivity|exact B4].
Qed.

Lemma gen_encode_page_cipher block rbx rdx rsi rdi rbp ret junk outb :
  is_block block -> List.length junk = 8%nat -> List.length outb = 16%nat ->
  exists s, gen_encode_page keys block (call_state rbx rdx rsi rdi rbp ret junk outb) = Ok s /\
    out s = cipher (host_key keys 0) (map (host_key keys) (seq 1 9)) (host_key keys 10) block /\
    ebx s = rbx /\ esi s = rsi /\ edi s = rdi /\ ebp s = rbp /\ esp s = P RStack 0x20.
Proof using Hlen Hbytes.
  intros Hb Hj Ho.
  do 8 (destruct junk as [|? junk]; [done|]). destruct junk; [|done].
  destruct (block_loads block Hb) as (b0 & b1 & b2 & b3 & P0 & P1 & P2 & P3 & W0 & W1 & W2 & W3 & S0 & S1 & S2 & S3).
  assert (HK : forall j, (j < 11)%nat -> is_block (host_key keys j)) by apply host_key_block.
  destruct (key_loads 0 ltac:(lia)) as (K0 & K1 & K2 & K3). destruct (key_loads 1 ltac:(lia)) as (L0 & L1 & L2 & L3).
  destruct (add_key_words block (host_key keys 0)) as (Bst & A0 & A1 & A2 & A3); [done|apply HK; lia|].
  set (st0 := add_round_key (host_key keys 0) block) in *.
  destruct (round_words st0 (host_key keys 1)) as (B1 & R0 & R1 & R2 & R3); [done|apply HK; lia|].
  unfold gen_encode_page.
  destruct (entry_run block keys b0 b1 b2 b3 _ _ _ _ _ _ _ _ P0 P1 P2 P3 K0 K1 K2 K3 L0 L1 L2 L3 W0 W1 W2 W3
    (wd_word _ 0 (HK 0%nat ltac:(lia)) ltac:(lia)) (wd_word _ 1 (HK 0%nat ltac:(lia)) ltac:(lia))
    (wd_word _ 2 (HK 0%nat ltac:(lia)) ltac:(lia)) (wd_word _ 3 (HK 0%nat ltac:(lia)) ltac:(lia))
    rbx rdx rsi rdi rbp ret v v0 v1 v2 v3 v4 v5 v6 outb) as (vd & vs & z & u4 & u5 & ->).
  rewrite S0, S1, S2, S3, A0, A1, A2, A3, <- R0, <- R1, <- R2, <- R3. cbn [mbind outcome_bind].
  change (mkCpu (P RKeys 32) _ _ vd vs _ _ _ z _ outb) with
    (loop_state 2 (round st0 (host_key keys 1)) 4 vd vs rdi rsi rbp rbx u4 u5 ret z outb).
  destruct (loop_four block _ vd vs rdi rsi rbp rbx u4 u5 ret z outb B1) as (vd1 & vs1 & v41 & v51 & -> & B5).
  cbn [mbind outcome_bind]. set (st5 := fold_left round _ _) in *.
  destruct (key_loads 10 ltac:(lia)) as (M0 & M1 & M2 & M3).
  destruct (final_words st5 (host_key keys 10)) as (BF & F0 & F1 & F2 & F3); [done|apply HK; lia|].
  assert (Hsplit : outb = take 4 outb ++ take 4 (drop 4 outb) ++ take 4 (drop 8 outb) ++ drop 12 outb).
  { do 16 (destruct outb as [|? outb]; [done|]). by destruct outb. }
  rewrite Hsplit. unfold loop_state.
  destruct (exit_run block keys (16 * Z.of_nat 10) _ _ _ _ (wd st5 0) (wd st5 1) (wd st5 2) (wd st5 3) M0 M1 M2 M3
    (wd_word _ 0 B5 ltac:(lia)) (wd_word _ 1 B5 ltac:(lia)) (wd_word _ 2 B5 ltac:(lia)) (wd_word _ 3 B5 ltac:(lia))
    vd1 vs1 (I 0) rdi rsi rbp rbx v41 v51 ret true (take 4 outb) (take 4 (drop 4 outb)) (take 4 (drop 8 outb)) (drop 12 outb))
    as (va & vc & vd' & z' & ->); [rewrite ?length_take, ?length_drop; lia..|].
  rewrite <- F0, <- F1, <- F2, <- F3. rewrite !le_bytes_swap by (done || lia).
  eexists. split; [reflexivity|]. cbn [out ebx esi edi ebp esp]. split; [|done].
  unfold cipher. fold st0. change (fold_left round (map (host_key keys) (seq 1 9)) st0) with st5.
  revert BF. generalize (final_round st5 (host_key keys 10)). intros F BF. open_block BF. reflexivity.
Qed.

End keys.

(** ** The program with its round keys *)

(** The hard-coded key. *)
Definition sogou_key : list Z :=
  [0x14; 0x00; 0x00; 0x00; 0x38; 0x5F; 0xDD; 0xE8; 0x8F; 0xAB; 0x5B; 0xC0; 0xBC; 0x59; 0x25; 0xB0].

(** [InitArray2] is the key schedule of that key. *)
Lemma InitArray2_schedule : map (host_key InitArray2) (seq 0 11) = round_keys sogou_key.
Proof. vm_compute. reflexivity. Qed.

Lemma InitArray2_bytes : List.length InitArray2 = 176%nat /\ Forall byte InitArray2.
Proof.
  split; [done|]. assert (H : forallb (fun b => (0 <=? b) && (b <? 256)) InitArray2 = true) by (vm_compute; reflexivity).
  rewrite forallb_forall in H. apply Forall_forall. intros b Hb. specialize (H b ltac:(by apply list_elem_of_In)).
  unfold byte. lia.
Qed.

(** The register state of the call does not matter, and [calc_encode_page] is
    AES-128 with the hard-coded key. *)
Lemma calc_is_aes128 block Encode :
  is_block block -> List.length Encode = 16%nat -> calc_encode_page block Encode = Ok (aes128 sogou_key block).
Proof.
  intros Hb He. destruct InitArray2_bytes as [Hl Hbytes]. unfold calc_encode_page.
  destruct (gen_encode_page_cipher InitArray2 Hl Hbytes block (I 0) (I 0) (I 0) (P ROut 0) (I 0) (I 0) (replicate 8 (I 0)) Encode)
    as (s & -> & Ho & _); [done..|].
  cbn [mbind outcome_bind]. rewrite Ho. unfold aes128. by rewrite <- InitArray2_schedule.
Qed.

Lemma aes128_block block : is_block block -> is_block (aes128 sogou_key block).
Proof.
  intros Hb. unfold aes128, cipher. rewrite <- InitArray2_schedule. destruct InitArray2_bytes as [Hl Hbytes].
  assert (HK : forall j, (j < 11)%nat -> is_block (host_key InitArray2 j)) by (by apply host_key_block).
  cbn [map seq nth take drop fold_left].
  apply final_words; [|apply HK; lia].
  repeat (apply round_words; [|apply HK; lia]). apply add_key_words; [done|apply HK; lia].
Qed.

(** C28: the assembly [gen_encode_page], called with the round keys [InitArray2] on
    any block and with any registers, stack and output contents, ends without a
    bad access and leaves in the output the AES-128 encryption of the block under
    the hard-coded key; EBX, ESI, EDI, EBP and the stack pointer are restored. *)
Theorem gen_encode_page_is_aes128 block rbx rdx rsi rdi rbp ret junk outb :
  is_block block -> List.length junk = 8%nat -> List.length outb = 16%nat ->
  exists s, gen_encode_page InitArray2 block (call_state rbx rdx rsi rdi rbp ret junk outb) = Ok s /\
    out s = aes128 sogou_key block /\
    ebx s = rbx /\ esi s = rsi /\ edi s = rdi /\ ebp s = rbp /\ esp s = P RStack 0x20.
Proof.
  intros Hb Hj Ho. destruct InitArray2_bytes as [Hl Hbytes].
  destruct (gen_encode_page_cipher InitArray2 Hl Hbytes block rbx rdx rsi rdi rbp ret junk outb Hb Hj Ho)
    as (s & Hr & Hout & Hregs).
  exists s. split; [done|]. split; [|done]. rewrite Hout. unfold aes128. by rewrite <- InitArray2_schedule.
Qed.

Lemma gen_encode_page_is_aes128_witness :
  exists s, gen_encode_page InitArray2 (seqZ 0 16)
      (call_state (I 1) (I 2) (I 3) (P ROut 0) (I 4) (I 5) (replicate 8 (I 6)) (replicate 16 7)) = Ok s /\
    out s = [132; 220; 161; 8; 14; 115; 128; 71; 222; 112; 215; 58; 82; 111; 106; 206].
Proof.
  destruct (gen_encode_page_is_aes128 (seqZ 0 16) (I 1) (I 2) (I 3) (P ROut 0) (I 4) (I 5) (replicate 8 (I 6)) (replicate 16 7))
    as (s & H1 & H2 & _).
  - split; [reflexivity|]. apply Forall_forall. intros x Hx. apply elem_of_seqZ in Hx. unfold byte. lia.
  - reflexivity.
  - reflexivity.
  - exists s. split; [exact H1|]. rewrite H2. vm_compute. reflexivity.
Defined.
