(* ===== verification/SogouDecoder.v ===== *)
(** * SogouDecoder

    [decode] and [encode] of src/PlugIn/SogouPlugIn/Decoder.cpp, for the database
    in which the Sogou browser keeps its favorites.  Every page of 1024 bytes is
    xored with a key stream made by feeding the block cipher of the file
    SogouCipher with its own output; the seed is the page number and the last
    [key_size] bytes of the page, which stay plain, and [key_size] is byte 20 of
    the file.  With the result of the file SogouAes this is AES-128 in
    output-feedback mode. *)
From stdpp Require Import prelude.
From Stdlib Require Import ZArith Lia.
From S2P Require Import Prelude Memory Aes SogouCipher SogouAes.

Definition PAGE_SIZE : Z := 1024.

(** The seed of a page. [init_array] has 16 bytes; a longer key overruns it. *)
Definition set_init_array (init_array buf : list Z) (page key_size page_index : Z) : outcome (list Z) :=
  init_array ← poke32 init_array 0 (page_index + 1);
  if key_size =? 0 then pokes init_array 4 (replicate 12 0)
  else
    key ← peeks buf (page + PAGE_SIZE - key_size) key_size;
    init_array ← pokes init_array 4 key;
    if key_size <? 0xC then pokes init_array (4 + key_size) (replicate (Z.to_nat (0xC - key_size)) 0)
    else Ok init_array.

(** The 64 blocks of the key stream; [init_array] ends as the last one. *)
Definition stream_body (st : list Z * list Z) (i : Z) : outcome (list Z * list Z) :=
  let '(init_array, encode_page) := st in
  pt ← peeks encode_page (16 * i) 16;
  pt ← calc_encode_page init_array pt;
  encode_page ← pokes encode_page (16 * i) pt;
  block ← peeks encode_page (16 * i) 16;
  init_array ← pokes init_array 0 block;
  Ok (init_array, encode_page).

(** [p[j] ^= encode_page[from + j]] *)
Definition xor_loop (encode_page : list Z) (from : Z) (buf : list Z) (off n : Z) : outcome (list Z) :=
  modify_loop (fun j b => k ← vec_at encode_page (from + j); Ok (Z.lxor b k)) buf off n.

(** One page, the body that [decode] and [encode] share. *)
Definition crypt_page (key_size : Z) (st : list Z * list Z) (page_index : Z) : outcome (list Z * list Z) :=
  let '(init_array, buf) := st in
  let page := page_index * PAGE_SIZE in
  init_array ← set_init_array init_array buf page key_size page_index;
  st ← for_each stream_body (init_array, replicate 0x800 0) (seqZ 0 64);
  let '(init_array, encode_page) := st in
  buf ← xor_loop encode_page 0 buf page (PAGE_SIZE - key_size);
  buf ← (if page_index =? 0 then xor_loop encode_page 16 buf (page + 16) 8 else Ok buf);
  Ok (init_array, buf).

Definition crypt (buf : list Z) : outcome (list Z) :=
  key_size ← vec_at buf 20;
  st ← for_each (crypt_page key_size) (replicate 16 0, buf)
         (seqZ 0 (Z.of_nat (List.length buf) / PAGE_SIZE));
  Ok (snd st).

(** [decode]: [None] for a file that cannot be opened gives -1, otherwise the
    decoded content. *)
Definition decode (file : option (list Z)) : outcome (option (list Z)) :=
  match file with
  | None => Ok None
  | Some buf => c ← crypt buf; Ok (Some c)
  end.

(** [encode]: the content of the file saved, [None] for -1. *)
Definition encode (encode_content : list Z) : outcome (option (list Z)) :=
  if Z.of_nat (List.length encode_content) =? 0 then Ok None
  else c ← crypt encode_content; Ok (Some c).

(** ** One page *)

(** The seed: page number, key, zeros. *)
Definition seed (page_index : Z) (key : list Z) : list Z :=
  le_bytes 4 (page_index + 1) ++ key ++ replicate (12 - List.length key) 0.

Lemma set_init_array_seed init_array pre p1 key post page_index :
  List.length init_array = 16%nat -> (List.length key <= 12)%nat ->
  List.length (p1 ++ key) = Z.to_nat PAGE_SIZE ->
  set_init_array init_array (pre ++ (p1 ++ key) ++ post) (Z.of_nat (List.length pre))
    (Z.of_nat (List.length key)) page_index = Ok (seed page_index key).
Proof.
  intros Hi Hk Hp. unfold set_init_array, seed, poke32. set (N := le_bytes 4 (page_index + 1)).
  assert (LN : List.length N = 4%nat) by done.
  assert (exists h k z, init_array = h ++ k ++ z /\ List.length h = 4%nat /\ List.length k = List.length key /\
    List.length z = (12 - List.length key)%nat) as (h & k & z & -> & Hh & Hkl & Hz).
  { exists (take 4 init_array), (take (List.length key) (drop 4 init_array)), (drop (List.length key) (drop 4 init_array)).
    rewrite !take_drop, !length_take, !length_drop. repeat split; lia. }
  rewrite (pokes_at _ [] h (k ++ z)) by (done || (simpl; lia)). cbn [mbind outcome_bind app].
  destruct (Z.eqb_spec (Z.of_nat (List.length key)) 0) as [H0|H0].
  - destruct key; [|done]. destruct k; [|done]. simpl in Hz. simpl app.
    rewrite (pokes_at _ N z []) by (rewrite ?app_nil_r, ?length_replicate; done || lia). by rewrite app_nil_r.
  - rewrite length_app in Hp.
    rewrite (peeks_at _ (pre ++ p1) key post) by (rewrite <- ?app_assoc, ?length_app; unfold PAGE_SIZE in *; done || lia).
    cbn [mbind outcome_bind]. rewrite (pokes_at _ N k z) by (done || lia). cbn [mbind outcome_bind].
    destruct (Z.ltb_spec (Z.of_nat (List.length key)) 12) as [Hlt|Hge].
    + replace (Z.to_nat (12 - Z.of_nat (List.length key))) with (12 - List.length key)%nat by lia.
      rewrite (pokes_at _ (N ++ key) z []); [by rewrite app_nil_r, <- app_assoc|..].
      * by rewrite app_nil_r, <- app_assoc.
      * rewrite length_app. lia.
      * rewrite length_replicate. lia.
    + replace (12 - List.length key)%nat with 0%nat in * by lia. destruct z; done.
Qed.

Lemma le_bytes_bytes k z : Forall byte (le_bytes k z).
Proof.
  revert z. induction k as [|k IH]; intros z; simpl; constructor; [apply Z.mod_pos_bound; lia|apply IH].
Qed.

Lemma seed_block page_index key : (List.length key <= 12)%nat -> Forall byte key -> is_block (seed page_index key).
Proof.
  intros Hk Hb. unfold seed. split.
  - rewrite !length_app, le_bytes_length, length_replicate. lia.
  - rewrite !Forall_app. split; [apply le_bytes_bytes|]. split; [done|]. apply Forall_replicate. unfold byte. lia.
Qed.

#[local] Opaque aes128.

(** The key stream of a seed: [n] blocks of output feedback. *)
Fixpoint ofb (n : nat) (sd : list Z) : list Z :=
  match n with
  | O => []
  | S n => let b := aes128 sogou_key sd in b ++ ofb n b
  end.

(** The block after [n] steps. *)
Definition ofb_last (n : nat) (sd : list Z) : list Z := Nat.iter n (aes128 sogou_key) sd.

Lemma ofb_last_block n sd : is_block sd -> is_block (ofb_last n sd).
Proof. intros Hsd. unfold ofb_last. induction n; [done|]. by apply aes128_block. Qed.

Lemma ofb_snoc n sd : ofb (S n) sd = ofb n sd ++ ofb_last (S n) sd.
Proof.
  revert sd. induction n as [|n IH]; intros sd; [cbn [ofb]; by rewrite app_nil_r|].
  change (ofb (S (S n)) sd) with (aes128 sogou_key sd ++ ofb (S n) (aes128 sogou_key sd)).
  rewrite IH. cbn [ofb]. rewrite <- app_assoc. do 2 f_equal. unfold ofb_last.
  apply (Nat.iter_swap (S n)).
Qed.

Lemma ofb_length n sd : is_block sd -> List.length (ofb n sd) = (16 * n)%nat.
Proof.
  intros Hsd. induction n as [|n IH]; [done|]. rewrite ofb_snoc, length_app, IH.
  destruct (ofb_last_block (S n) sd Hsd) as [-> _]. lia.
Qed.

(** [encode_page]: the stream, in the first half of the array. *)
Definition stream (sd : list Z) : list Z := ofb 64 sd ++ replicate 1024 0.

(** One step of the loop for a cipher [calc] that computes [next]. *)
Lemma stream_step_at (calc : list Z -> list Z -> outcome (list Z)) (next init_array pre rest : list Z) n :
  calc init_array (replicate 16 0) = Ok next -> List.length init_array = 16%nat -> List.length next = 16%nat ->
  List.length pre = (16 * n)%nat ->
  (pt ← peeks (pre ++ replicate 16 0 ++ rest) (16 * Z.of_nat n) 16;
   pt ← calc init_array pt;
   encode_page ← pokes (pre ++ replicate 16 0 ++ rest) (16 * Z.of_nat n) pt;
   block ← peeks encode_page (16 * Z.of_nat n) 16;
   init_array ← pokes init_array 0 block;
   Ok (init_array, encode_page)) = Ok (next, pre ++ next ++ rest).
Proof.
  intros Hcalc Hi Hn Hp.
  assert (Hoff : 16 * Z.of_nat n = Z.of_nat (List.length pre)) by (rewrite Hp; lia).
  rewrite (peeks_mid pre (replicate 16 0) rest _ _ Hoff) by reflexivity. cbn [mbind outcome_bind].
  rewrite Hcalc. cbn [mbind outcome_bind].
  rewrite (pokes_mid pre (replicate 16 0) rest _ next Hoff) by (rewrite Hn; reflexivity). cbn [mbind outcome_bind].
  rewrite (peeks_mid pre next rest _ 16 Hoff) by (rewrite Hn; reflexivity). cbn [mbind outcome_bind].
  pose proof (pokes_mid [] init_array [] 0 next eq_refl ltac:(by rewrite Hi)) as Hpk. rewrite !app_nil_r in Hpk.
  simpl app in Hpk. by rewrite Hpk.
Qed.

Lemma stream_step n sd : is_block sd -> (n < 64)%nat ->
  stream_body (ofb_last n sd, ofb n sd ++ replicate (2048 - 16 * n) 0) (Z.of_nat n) =
  Ok (ofb_last (S n) sd, ofb (S n) sd ++ replicate (2048 - 16 * S n) 0).
Proof.
  intros Hsd Hn.
  pose proof (ofb_last_block n sd Hsd) as Hl. pose proof (ofb_last_block (S n) sd Hsd) as Hl'.
  pose proof (ofb_length n sd Hsd) as Hlen.
  assert (Hcalc : calc_encode_page (ofb_last n sd) (replicate 16 0) = Ok (ofb_last (S n) sd))
    by (rewrite (calc_is_aes128 _ (replicate 16 0) Hl eq_refl); reflexivity).
  replace (2048 - 16 * n)%nat with (16 + (2048 - 16 * S n))%nat by lia. rewrite replicate_add.
  rewrite ofb_snoc, <- app_assoc. unfold stream_body.
  exact (stream_step_at calc_encode_page _ _ _ _ n Hcalc (proj1 Hl) (proj1 Hl') Hlen).
Qed.

Lemma stream_total sd : is_block sd ->
  exists init_array, for_each stream_body (sd, replicate 0x800 0) (seqZ 0 64) = Ok (init_array, stream sd) /\
    List.length init_array = 16%nat.
Proof.
  intros Hsd.
  destruct (for_range_ind (fun i st => st =
      (ofb_last (Z.to_nat i) sd, ofb (Z.to_nat i) sd ++ replicate (2048 - 16 * Z.to_nat i) 0))
    stream_body (sd, replicate 0x800 0) 64) as (st & -> & ->).
  - lia.
  - reflexivity.
  - intros i st Hi ->. destruct (Z_of_nat_complete i) as [n ->]; [lia|]. rewrite Nat2Z.id, stream_step by (done || lia).
    eexists. split; [done|]. by replace (Z.to_nat (Z.of_nat n + 1)) with (S n) by lia.
  - eexists. split; [reflexivity|]. by apply ofb_last_block.
Qed.

Lemma stream_length sd : is_block sd -> List.length (stream sd) = 2048%nat.
Proof. intros Hsd. unfold stream. rewrite length_app, ofb_length, length_replicate by done. lia. Qed.

(** Xoring with the stream from position [k]. *)
Definition xorl (ks : list Z) (k : nat) (l : list Z) : list Z :=
  imap (fun j b => Z.lxor b (default 0 (ks !! (k + j)%nat))) l.

Lemma xorl_app ks k l1 l2 : xorl ks k (l1 ++ l2) = xorl ks k l1 ++ xorl ks (k + List.length l1) l2.
Proof.
  unfold xorl. rewrite imap_app. f_equal. apply imap_ext. intros i x _. simpl. by rewrite Nat.add_assoc.
Qed.

Lemma xorl_length ks k l : List.length (xorl ks k l) = List.length l.
Proof. apply length_imap. Qed.

Lemma xorl_twice ks k l : xorl ks k (xorl ks k l) = l.
Proof.
  unfold xorl. apply list_eq. intros i. rewrite !list_lookup_imap. destruct (l !! i); [|done]. simpl.
  by rewrite Z.lxor_assoc, Z.lxor_nilpotent, Z.lxor_0_r.
Qed.

Lemma xor_loop_mid ks k pre mid post off n :
  off = Z.of_nat (List.length pre) -> n = Z.of_nat (List.length mid) ->
  (k + List.length mid <= List.length ks)%nat ->
  xor_loop ks (Z.of_nat k) (pre ++ mid ++ post) off n = Ok (pre ++ xorl ks k mid ++ post).
Proof.
  intros Ho Hn Hk. unfold xor_loop. apply modify_loop_mid; [done..|].
  intros j b Hj. apply lookup_lt_Some in Hj.
  destruct (lookup_lt_is_Some_2 ks (k + j)) as [x Hx]; [lia|].
  rewrite <- Nat2Z.inj_add, (vec_at_nat _ _ x) by done. cbn [mbind outcome_bind]. by rewrite Hx.
Qed.

(** A page is four parts: sixteen bytes, the eight that stay plain in page 0,
    more encrypted bytes, and the key. *)
Definition page_parts (key_size : Z) (a b c d : list Z) : Prop :=
  List.length a = 16%nat /\ List.length b = 8%nat /\
  Z.of_nat (List.length d) = key_size /\ (List.length d <= 12)%nat /\
  List.length (a ++ b ++ c ++ d) = Z.to_nat PAGE_SIZE /\ Forall byte d.

Lemma page_split key_size page :
  0 <= key_size <= 12 -> Forall byte page -> List.length page = Z.to_nat PAGE_SIZE ->
  exists a b c d, page = a ++ b ++ c ++ d /\ page_parts key_size a b c d.
Proof.
  intros Hk Hbytes Hp. set (n := Z.to_nat (1000 - key_size)).
  exists (take 16 page), (take 8 (drop 16 page)), (take n (drop 24 page)), (drop n (drop 24 page)).
  assert (E : page = take 16 page ++ take 8 (drop 16 page) ++ take n (drop 24 page) ++ drop n (drop 24 page)).
  { rewrite (take_drop n). replace (drop 24 page) with (drop 8 (drop 16 page)) by (by rewrite drop_drop).
    by rewrite !take_drop. }
  split; [exact E|]. unfold page_parts. rewrite <- E. unfold PAGE_SIZE in *.
  rewrite !length_take, !length_drop. unfold n. repeat split; try lia. by apply Forall_drop, Forall_drop.
Qed.

Definition quad : Type := (list Z * list Z * list Z * list Z)%type.

Definition whole (q : quad) : list Z := let '(a, b, c, d) := q in a ++ b ++ c ++ d.

Definition parts (key_size : Z) (q : quad) : Prop := let '(a, b, c, d) := q in page_parts key_size a b c d.

(** What the loop does to a page. *)
Definition image (page_index : nat) (q : quad) : quad :=
  let '(a, b, c, d) := q in
  let ks := stream (seed (Z.of_nat page_index) d) in
  (xorl ks 0 a, if Z.of_nat page_index =? 0 then b else xorl ks 16 b, xorl ks 24 c, d).

Lemma image_twice i q : image i (image i q) = q.
Proof.
  destruct q as [[[a b] c] d]. unfold image. rewrite !xorl_twice. by destruct (Z.of_nat i =? 0); rewrite ?xorl_twice.
Qed.

Lemma image_parts key_size i q : parts key_size q -> parts key_size (image i q).
Proof.
  destruct q as [[[a b] c] d]. intros (Ha & Hb & Hd & Hd12 & Hlen & Hbd). unfold image, parts, page_parts.
  rewrite !length_app in *. rewrite !xorl_length. destruct (Z.of_nat i =? 0); rewrite ?xorl_length; repeat split; auto.
Qed.

Lemma crypt_page_image key_size init_array pre q post i :
  parts key_size q -> List.length init_array = 16%nat ->
  Z.of_nat i * PAGE_SIZE = Z.of_nat (List.length pre) ->
  exists init_array', crypt_page key_size (init_array, pre ++ whole q ++ post) (Z.of_nat i) =
      Ok (init_array', pre ++ whole (image i q) ++ post) /\
    List.length init_array' = 16%nat.
Proof.
  destruct q as [[[a b] c] d]. cbn [parts whole image]. set (page_index := Z.of_nat i) in *.
  intros (Ha & Hb & Hd & Hd12 & Hlen & Hbd) Hi Hpre. unfold crypt_page. rewrite Hpre, <- Hd.
  assert (E : a ++ b ++ c ++ d = (a ++ b ++ c) ++ d) by (by rewrite <- !app_assoc).
  rewrite E in Hlen. rewrite E, set_init_array_seed by done. cbn [mbind outcome_bind].
  pose proof (seed_block page_index d Hd12 Hbd) as Hs.
  destruct (stream_total _ Hs) as (ia & -> & Hia). pose proof (stream_length _ Hs) as Hks. cbn [mbind outcome_bind].
  set (ks := stream (seed page_index d)) in *. clearbody ks.
  rewrite !length_app in Hlen. unfold PAGE_SIZE in *.
  rewrite <- (app_assoc _ d post), (xor_loop_mid ks 0) by (rewrite ?length_app; lia). cbn [mbind outcome_bind].
  rewrite !xorl_app. simpl Nat.add. rewrite Ha.
  replace (16 + List.length b)%nat with 24%nat by lia.
  destruct (Z.eqb_spec page_index 0) as [H0|Hne].
  - rewrite H0 in Hpre. destruct pre; [|done]. simpl app.
    rewrite <- !app_assoc.
    rewrite (xor_loop_mid ks 16 (xorl ks 0 a) (xorl ks 16 b)) by (rewrite ?xorl_length; simpl; lia).
    cbn [mbind outcome_bind]. rewrite xorl_twice. eexists. split; [done|done].
  - cbn [mbind outcome_bind]. eexists. split; [|exact Hia]. do 2 f_equal. by rewrite <- !app_assoc.
Qed.

(** ** The whole buffer *)

Definition flat (qs : list quad) : list Z := flat_map whole qs.

Lemma flat_length key_size qs : Forall (parts key_size) qs ->
  Z.of_nat (List.length (flat qs)) = Z.of_nat (List.length qs) * PAGE_SIZE.
Proof.
  induction 1 as [|q qs Hq _ IH]; [done|]. unfold flat in *. cbn [flat_map]. rewrite length_app. cbn [List.length].
  destruct q as [[[a b] c] d]. destruct Hq as (_ & _ & _ & _ & Hl & _). cbn [whole]. rewrite Hl. unfold PAGE_SIZE in *. lia.
Qed.

Lemma images_parts key_size qs : Forall (parts key_size) qs -> Forall (parts key_size) (imap image qs).
Proof.
  rewrite !Forall_lookup. intros H i q. rewrite list_lookup_imap. intros Hq.
  apply fmap_Some in Hq as (q0 & Hq & ->). eauto using image_parts.
Qed.

Lemma images_twice qs : imap image (imap image qs) = qs.
Proof.
  apply list_eq. intros i. rewrite !list_lookup_imap. destruct (qs !! i); [|done]. simpl. by rewrite image_twice.
Qed.

Lemma crypt_pages key_size init_array qs tail :
  Forall (parts key_size) qs -> List.length init_array = 16%nat ->
  exists init_array', for_each (crypt_page key_size) (init_array, flat qs ++ tail) (seqZ 0 (Z.of_nat (List.length qs))) =
    Ok (init_array', flat (imap image qs) ++ tail).
Proof.
  intros Hqs Hi.
  destruct (for_range_ind (fun i st => List.length (fst st) = 16%nat /\
      snd st = flat (imap image (take (Z.to_nat i) qs)) ++ flat (drop (Z.to_nat i) qs) ++ tail)
    (crypt_page key_size) (init_array, flat qs ++ tail) (Z.of_nat (List.length qs)))
    as ([ia buf] & -> & _ & Hbuf).
  - lia.
  - done.
  - intros i [ia buf] Hlt [Hia Hbuf]. destruct (Z_of_nat_complete i) as [n ->]; [lia|]. rewrite Nat2Z.id in Hbuf. cbn [fst snd] in *. subst buf.
    destruct (lookup_lt_is_Some_2 qs n) as [q Hq]; [lia|].
    rewrite (drop_S qs q _ Hq). unfold flat at 2. cbn [flat_map]. fold (flat (drop (S n) qs)).
    rewrite <- app_assoc.
    destruct (crypt_page_image key_size ia (flat (imap image (take n qs))) q
      (flat (drop (S n) qs) ++ tail) n) as (ia' & -> & Hia').
    + rewrite Forall_lookup in Hqs. eauto.
    + done.
    + rewrite (flat_length key_size) by (by apply images_parts, Forall_take).
      rewrite length_imap, length_take. lia.
    + eexists. split; [done|]. cbn [fst snd]. split; [done|].
      replace (Z.to_nat (Z.of_nat n + 1)) with (S n) by lia.
      rewrite (take_S_r qs _ q) by done. rewrite imap_app. unfold flat. rewrite flat_map_app. simpl.
      rewrite length_take, Nat.add_0_r, Nat.min_l by lia. by rewrite app_nil_r, <- !app_assoc.
  - cbn [fst snd] in *. subst buf. exists ia. by rewrite Nat2Z.id, take_ge, drop_ge by lia.
Qed.

Lemma buffer_split key_size buf : 0 <= key_size <= 12 -> Forall byte buf ->
  exists qs tail, buf = flat qs ++ tail /\ Forall (parts key_size) qs /\ Z.of_nat (List.length tail) < PAGE_SIZE.
Proof.
  intros Hk. remember (List.length buf) as n eqn:Hn. revert buf Hn.
  induction (lt_wf n) as [n _ IH]. intros buf -> Hbytes.
  destruct (decide (List.length buf < Z.to_nat PAGE_SIZE)%nat) as [Hlt|Hge].
  { exists [], buf. repeat split; [constructor|]. unfold PAGE_SIZE in *. lia. }
  destruct (page_split key_size (take (Z.to_nat PAGE_SIZE) buf)) as (a & b & c & d & Hp & Hparts);
    [done|by apply Forall_take|rewrite length_take; lia|].
  destruct (IH (List.length (drop (Z.to_nat PAGE_SIZE) buf))) with (buf := drop (Z.to_nat PAGE_SIZE) buf)
    as (qs & tail & Hd & Hqs & Ht); [rewrite length_drop; unfold PAGE_SIZE in *; lia|done|by apply Forall_drop|].
  exists ((a, b, c, d) :: qs), tail. split; [|split; [by constructor|done]].
  rewrite <- (take_drop (Z.to_nat PAGE_SIZE) buf), Hd, Hp. unfold flat. cbn [flat_map whole]. by rewrite <- !app_assoc.
Qed.

Lemma images_byte20 key_size qs tail : Forall (parts key_size) qs ->
  (flat (imap image qs) ++ tail) !! 20%nat = (flat qs ++ tail) !! 20%nat.
Proof.
  intros Hqs. destruct Hqs as [|q qs Hq _]; [done|]. unfold flat. cbn [imap flat_map].
  destruct q as [[[a b] c] d]. destruct Hq as (Ha & Hb & _). cbn [image whole]. simpl Z.eqb. cbv iota.
  rewrite <- !app_assoc.
  rewrite !(lookup_app_r _ _ 20) by (rewrite ?xorl_length; lia). rewrite xorl_length, Ha.
  by rewrite !(lookup_app_l b) by lia.
Qed.

Lemma crypt_flat key_size qs tail :
  Forall (parts key_size) qs -> Z.of_nat (List.length tail) < PAGE_SIZE ->
  (flat qs ++ tail) !! 20%nat = Some key_size ->
  crypt (flat qs ++ tail) = Ok (flat (imap image qs) ++ tail).
Proof.
  intros Hqs Ht H20. unfold crypt. rewrite (vec_at_nat _ 20 key_size) by done. cbn [mbind outcome_bind].
  rewrite length_app, Nat2Z.inj_add, (flat_length key_size) by done.
  replace (_ / PAGE_SIZE) with (Z.of_nat (List.length qs)) by (unfold PAGE_SIZE in *; lia_div).
  destruct (crypt_pages key_size (replicate 16 0) qs tail) as (ia & ->); done.
Qed.

(** [Decode] undoes [encode]: content whose key size (byte 20) is at most 12 is
    encoded without leaving the buffers, and decoding the saved file gives the
    content back; the file has the same length and keeps byte 20, which the
    decoder needs. *)
Theorem sogou_roundtrip content key_size :
  Forall byte content -> content !! 20%nat = Some key_size -> key_size <= 12 ->
  exists file, encode content = Ok (Some file) /\ decode (Some file) = Ok (Some content) /\
    List.length file = List.length content /\ file !! 20%nat = Some key_size.
Proof.
  intros Hbytes H20 Hk.
  assert (Hk0 : byte key_size) by (rewrite Forall_lookup in Hbytes; eauto). unfold byte in Hk0.
  destruct (buffer_split key_size content) as (qs & tail & -> & Hqs & Ht); [lia|done|].
  exists (flat (imap image qs) ++ tail).
  assert (H20' : (flat (imap image qs) ++ tail) !! 20%nat = Some key_size) by (by rewrite (images_byte20 key_size)).
  unfold encode, decode. destruct (Z.eqb_spec (Z.of_nat (List.length (flat qs ++ tail))) 0) as [H0|_].
  { destruct (flat qs ++ tail); [done|simpl in H0; lia]. }
  rewrite (crypt_flat key_size) by done. split; [done|].
  rewrite (crypt_flat key_size) by (by try apply images_parts). rewrite images_twice.
  split; [done|]. split; [|done]. rewrite !length_app. f_equal.
  pose proof (flat_length key_size qs Hqs) as L1.
  pose proof (flat_length key_size (imap image qs) ltac:(by apply images_parts)) as L2.
  rewrite length_imap in L2. lia.
Qed.

Lemma sogou_roundtrip_witness :
  exists file, encode (replicate 20 65 ++ 12 :: replicate 1100 66) = Ok (Some file) /\
    decode (Some file) = Ok (Some (replicate 20 65 ++ 12 :: replicate 1100 66)).
Proof.
  destruct (sogou_roundtrip (replicate 20 65 ++ 12 :: replicate 1100 66) 12) as (file & H1 & H2 & _).
  - apply Forall_app. split; [apply Forall_replicate; unfold byte; lia|].
    constructor; [unfold byte; lia|apply Forall_replicate; unfold byte; lia].
  - reflexivity.
  - lia.
  - exists file. split; [exact H1|exact H2].
Defined.
