(* ===== verification/Md5Context.v ===== *)
(** * MD5 of the bookmark files

    src/Utility/md5/md5.cc, the second MD5 of the program, which the Chrome
    plug-ins use for the checksum of the bookmark file: another arrangement of
    the round functions, of the buffering and of the padding.  The theorem at
    the end: it computes the same digests as the class of the file Md5. *)
From stdpp Require Import prelude.
From Stdlib Require Import ZArith Lia.
From S2P Require Import Prelude Md5.

#[local] Open Scope cpp_scope.

(** [struct Context] *)
Record Context_ := mkContext {
  ctx_buf : words4;
  ctx_bits : Z * Z;
  ctx_in : list Z
}.

(** Rewrites the first [longs] words of a buffer from their bytes. *)
Definition byteReverse (buf : list Z) (longs : nat) : list Z :=
  flat_map DWordToByte (ByteToDWord (take (4 * longs) buf)) ++ drop (4 * longs) buf.

Definition F1 (x y z : Z) : Z := Z.lxor z (Z.land x (Z.lxor y z)).
Definition F2 (x y z : Z) : Z := F1 z x y.
Definition F3 (x y z : Z) : Z := Z.lxor (Z.lxor x y) z.
Definition F4 (x y z : Z) : Z := Z.lxor y (Z.lor x (not32 z)).

(** [w += f(x, y, z) + data, w = w<<s | w>>(32-s), w += x] with
    [data = in[k] + constant]. *)
Definition MD5STEP (f : Z -> Z -> Z -> Z) (w x y z inn s t : Z) : Z :=
  RotateLeft (w +u (f x y z +u (inn +u t))) s +u x.

(** The 64 lines of [MD5Transform]. *)
Definition md5_lines : list step :=
  [(MD5STEP F1, Ra, 0%nat, 7, 0xd76aa478); (MD5STEP F1, Rd, 1%nat, 12, 0xe8c7b756);
   (MD5STEP F1, Rc, 2%nat, 17, 0x242070db); (MD5STEP F1, Rb, 3%nat, 22, 0xc1bdceee);
   (MD5STEP F1, Ra, 4%nat, 7, 0xf57c0faf); (MD5STEP F1, Rd, 5%nat, 12, 0x4787c62a);
   (MD5STEP F1, Rc, 6%nat, 17, 0xa8304613); (MD5STEP F1, Rb, 7%nat, 22, 0xfd469501);
   (MD5STEP F1, Ra, 8%nat, 7, 0x698098d8); (MD5STEP F1, Rd, 9%nat, 12, 0x8b44f7af);
   (MD5STEP F1, Rc, 10%nat, 17, 0xffff5bb1); (MD5STEP F1, Rb, 11%nat, 22, 0x895cd7be);
   (MD5STEP F1, Ra, 12%nat, 7, 0x6b901122); (MD5STEP F1, Rd, 13%nat, 12, 0xfd987193);
   (MD5STEP F1, Rc, 14%nat, 17, 0xa679438e); (MD5STEP F1, Rb, 15%nat, 22, 0x49b40821);
   (MD5STEP F2, Ra, 1%nat, 5, 0xf61e2562); (MD5STEP F2, Rd, 6%nat, 9, 0xc040b340);
   (MD5STEP F2, Rc, 11%nat, 14, 0x265e5a51); (MD5STEP F2, Rb, 0%nat, 20, 0xe9b6c7aa);
   (MD5STEP F2, Ra, 5%nat, 5, 0xd62f105d); (MD5STEP F2, Rd, 10%nat, 9, 0x02441453);
   (MD5STEP F2, Rc, 15%nat, 14, 0xd8a1e681); (MD5STEP F2, Rb, 4%nat, 20, 0xe7d3fbc8);
   (MD5STEP F2, Ra, 9%nat, 5, 0x21e1cde6); (MD5STEP F2, Rd, 14%nat, 9, 0xc33707d6);
   (MD5STEP F2, Rc, 3%nat, 14, 0xf4d50d87); (MD5STEP F2, Rb, 8%nat, 20, 0x455a14ed);
   (MD5STEP F2, Ra, 13%nat, 5, 0xa9e3e905); (MD5STEP F2, Rd, 2%nat, 9, 0xfcefa3f8);
   (MD5STEP F2, Rc, 7%nat, 14, 0x676f02d9); (MD5STEP F2, Rb, 12%nat, 20, 0x8d2a4c8a);
   (MD5STEP F3, Ra, 5%nat, 4, 0xfffa3942); (MD5STEP F3, Rd, 8%nat, 11, 0x8771f681);
   (MD5STEP F3, Rc, 11%nat, 16, 0x6d9d6122); (MD5STEP F3, Rb, 14%nat, 23, 0xfde5380c);
   (MD5STEP F3, Ra, 1%nat, 4, 0xa4beea44); (MD5STEP F3, Rd, 4%nat, 11, 0x4bdecfa9);
   (MD5STEP F3, Rc, 7%nat, 16, 0xf6bb4b60); (MD5STEP F3, Rb, 10%nat, 23, 0xbebfbc70);
   (MD5STEP F3, Ra, 13%nat, 4, 0x289b7ec6); (MD5STEP F3, Rd, 0%nat, 11, 0xeaa127fa);
   (MD5STEP F3, Rc, 3%nat, 16, 0xd4ef3085); (MD5STEP F3, Rb, 6%nat, 23, 0x04881d05);
   (MD5STEP F3, Ra, 9%nat, 4, 0xd9d4d039); (MD5STEP F3, Rd, 12%nat, 11, 0xe6db99e5);
   (MD5STEP F3, Rc, 15%nat, 16, 0x1fa27cf8); (MD5STEP F3, Rb, 2%nat, 23, 0xc4ac5665);
   (MD5STEP F4, Ra, 0%nat, 6, 0xf4292244); (MD5STEP F4, Rd, 7%nat, 10, 0x432aff97);
   (MD5STEP F4, Rc, 14%nat, 15, 0xab9423a7); (MD5STEP F4, Rb, 5%nat, 21, 0xfc93a039);
   (MD5STEP F4, Ra, 12%nat, 6, 0x655b59c3); (MD5STEP F4, Rd, 3%nat, 10, 0x8f0ccc92);
   (MD5STEP F4, Rc, 10%nat, 15, 0xffeff47d); (MD5STEP F4, Rb, 1%nat, 21, 0x85845dd1);
   (MD5STEP F4, Ra, 8%nat, 6, 0x6fa87e4f); (MD5STEP F4, Rd, 15%nat, 10, 0xfe2ce6e0);
   (MD5STEP F4, Rc, 6%nat, 15, 0xa3014314); (MD5STEP F4, Rb, 13%nat, 21, 0x4e0811a1);
   (MD5STEP F4, Ra, 4%nat, 6, 0xf7537e82); (MD5STEP F4, Rd, 11%nat, 10, 0xbd3af235);
   (MD5STEP F4, Rc, 2%nat, 15, 0x2ad7d2bb); (MD5STEP F4, Rb, 9%nat, 21, 0xeb86d391)].

Definition MD5Transform (buf : words4) (inn : list Z) : words4 :=
  let '(a, b, c, d) := buf in
  let '(a', b', c', d') := fold_left (exec inn) md5_lines buf in
  (a +u a', b +u b', c +u c', d +u d').

Definition MD5Init (c : Context_) : Context_ :=
  mkContext (0x67452301, 0xefcdab89, 0x98badcfe, 0x10325476) (0, 0) (ctx_in c).

(** [byteReverse(ctx->in, 16); MD5Transform(ctx->buf, (uint32* )ctx->in)] *)
Definition transform_in (c : Context_) : Context_ :=
  let inn := byteReverse (ctx_in c) 16 in
  mkContext (MD5Transform (ctx_buf c) (ByteToDWord inn)) (ctx_bits c) inn.

Definition set_in (inn : list Z) (c : Context_) : Context_ := mkContext (ctx_buf c) (ctx_bits c) inn.

(** The loop over whole blocks; [fuel] bounds the number of rounds, the length
    of the data is enough. *)
Fixpoint md5_chunks (fuel : nat) (c : Context_) (buf : list Z) : Context_ * list Z :=
  match fuel with
  | O => (c, buf)
  | S fuel =>
      if 64 <=? Z.of_nat (length buf) then
        md5_chunks fuel (transform_in (set_in (memcpy_at 0 (take 64 buf) (ctx_in c)) c)) (drop 64 buf)
      else (c, buf)
  end.

(** The last part of [MD5Update]. *)
Definition md5_rest (c : Context_) (buf : list Z) : Context_ :=
  let '(c, buf) := md5_chunks (length buf) c buf in
  set_in (memcpy_at 0 buf (ctx_in c)) c.

Definition MD5Update (c : Context_) (buf : list Z) : Context_ :=
  let len := Z.of_nat (length buf) in
  let t := fst (ctx_bits c) in
  let b0 := t +u (len <<u 3) in
  let b1 := if b0 <? t then snd (ctx_bits c) +u 1 else snd (ctx_bits c) in
  let b1 := b1 +u (len >>u 29) in
  let c := mkContext (ctx_buf c) (b0, b1) (ctx_in c) in
  let t := Z.land (t >>u 3) 0x3f in
  if negb (t =? 0) then
    let part := 64 - t in
    if len <? part then set_in (memcpy_at (Z.to_nat t) buf (ctx_in c)) c
    else
      md5_rest (transform_in (set_in (memcpy_at (Z.to_nat t) (take (Z.to_nat part) buf) (ctx_in c)) c))
        (drop (Z.to_nat part) buf)
  else md5_rest c buf.

Definition MD5Final (c : Context_) : list Z :=
  let count := Z.land (fst (ctx_bits c) >>u 3) 0x3F in
  let c := set_in (memcpy_at (Z.to_nat count) [0x80] (ctx_in c)) c in
  let p := (Z.to_nat count + 1)%nat in
  let count := 64 - 1 - count in
  let c :=
    if count <? 8 then
      let c := transform_in (set_in (memcpy_at p (replicate (Z.to_nat count) 0) (ctx_in c)) c) in
      set_in (memcpy_at 0 (replicate 56 0) (ctx_in c)) c
    else set_in (memcpy_at p (replicate (Z.to_nat (count - 8)) 0) (ctx_in c)) c in
  let words := take 14 (ByteToDWord (byteReverse (ctx_in c) 14)) ++ [fst (ctx_bits c); snd (ctx_bits c)] in
  digest_bytes (MD5Transform (ctx_buf c) words).

Definition zEncode : list Z := [48; 49; 50; 51; 52; 53; 54; 55; 56; 57; 97; 98; 99; 100; 101; 102].

Definition MD5DigestToBase16 (digest : list Z) : list Z :=
  flat_map (fun a => [nth (Z.to_nat (Z.land (Z.shiftr a 4) 0xf)) zEncode 0;
                      nth (Z.to_nat (Z.land a 0xf)) zEncode 0]) digest.

(** The context on the stack starts with whatever bytes were there. *)
Definition MD5Sum (junk : Context_) (data : list Z) : list Z := MD5Final (MD5Update (MD5Init junk) data).

Definition MD5String (junk : Context_) (s : list Z) : list Z := MD5DigestToBase16 (MD5Sum junk s).

(** ** Bytes and words *)

Lemma word_bytes b0 b1 b2 b3 : bytes [b0; b1; b2; b3] ->
  Z.lor (Z.lor (Z.lor b0 (b1 <<u 8)) (b2 <<u 16)) (b3 <<u 24) = b0 + b1 * 2 ^ 8 + b2 * 2 ^ 16 + b3 * 2 ^ 24.
Proof.
  intros H. repeat (apply Forall_cons in H as [? H]).
  rewrite !Z.shiftl_mul_pow2 by lia. rewrite !u32_small by lia.
  rewrite (lor_add 8) by lia. rewrite (lor_add 16) by lia. by rewrite (lor_add 24) by lia.
Qed.

Lemma DWordToByte_word b0 b1 b2 b3 : bytes [b0; b1; b2; b3] ->
  DWordToByte (b0 + b1 * 2 ^ 8 + b2 * 2 ^ 16 + b3 * 2 ^ 24) = [b0; b1; b2; b3].
Proof.
  intros H. repeat (apply Forall_cons in H as [? H]). unfold DWordToByte. change 0xff with (Z.ones 8).
  rewrite !Z.land_ones, !Z.shiftr_div_pow2 by lia. repeat f_equal; lia_div.
Qed.

Lemma words_bytes l : (exists k, length l = (4 * k)%nat) -> bytes l -> flat_map DWordToByte (ByteToDWord l) = l.
Proof.
  intros [k Hk]. revert l Hk. induction k as [|k IH]; intros l Hk Hb; [by destruct l|].
  destruct l as [|b0 [|b1 [|b2 [|b3 l]]]]; try (simpl in Hk; lia).
  assert (Hq : bytes [b0; b1; b2; b3]) by (by apply (Forall_app _ [b0; b1; b2; b3]) in Hb as [? _]).
  assert (Hl : bytes l) by (by apply (Forall_app _ [b0; b1; b2; b3]) in Hb as [_ ?]).
  cbn [ByteToDWord flat_map]. rewrite word_bytes, DWordToByte_word by done.
  rewrite IH; [done| |done]. simpl in Hk. lia.
Qed.

Lemma byteReverse_id b n : (4 * n <= length b)%nat -> bytes b -> byteReverse b n = b.
Proof.
  intros Hn Hb. unfold byteReverse. rewrite words_bytes.
  - apply take_drop.
  - exists n. rewrite length_take. lia.
  - by apply Forall_take.
Qed.

(** ** The transformation *)

#[local] Abbreviation word x := (0 <= x < 2 ^ 32) (only parsing).

Lemma word_high x k : word x -> 32 <= k -> Z.testbit x k = false.
Proof. intros H Hk. exact (proj1 (testbit_range 32 x ltac:(lia) ltac:(lia)) ltac:(lia) k Hk). Qed.

Lemma not32_bit x k : word x -> 0 <= k ->
  Z.testbit (not32 x) k = if k <? 32 then negb (Z.testbit x k) else false.
Proof.
  intros Hx Hk. unfold not32. change 0xFFFFFFFF with (Z.ones 32). rewrite Z.lxor_spec.
  destruct (Z.ltb_spec k 32).
  - rewrite Z.ones_spec_low by lia. apply xorb_true_r.
  - rewrite Z.ones_spec_high by lia. rewrite word_high by done. done.
Qed.

(** The optimised selection is the selection. *)
Lemma F1_select x y z : word x -> word y -> word z -> F1 x y z = Z.lor (Z.land x y) (Z.land (not32 x) z).
Proof.
  intros Hx Hy Hz. apply Z.bits_inj'. intros k Hk. unfold F1.
  rewrite Z.lor_spec, !Z.land_spec, Z.lxor_spec, Z.land_spec, Z.lxor_spec, not32_bit by done.
  destruct (Z.ltb_spec k 32).
  - by destruct (Z.testbit x k), (Z.testbit y k), (Z.testbit z k).
  - by rewrite !word_high by done.
Qed.

Lemma MD5STEP_mix f g w x y z inn s t : f x y z = g -> MD5STEP f w x y z inn s t = mix g w x inn s t.
Proof.
  intros <-. unfold MD5STEP, mix.
  assert (f x y z +u (inn +u t) = f x y z +u inn +u t) as ->; [|done]. unfold u32.
  rewrite Zplus_mod_idemp_r, Zplus_mod_idemp_l. f_equal. lia.
Qed.

Definition words (st : words4) : Prop :=
  let '(a, b, c, d) := st in word a /\ word b /\ word c /\ word d.

(** Two lines do the same on words. *)
Definition agree (p q : step) : Prop :=
  forall X st, words st -> exec X st p = exec X st q /\ words (exec X st q).

Lemma agree_intro f g r k s t :
  (forall A B C D X, word B -> word C -> word D -> MD5STEP f A B C D X s t = mix (g B C D) A B X s t) ->
  agree (MD5STEP f, r, k, s, t) (fun A B C D X S T => mix (g B C D) A B X S T, r, k, s, t).
Proof.
  intros Hfg X [[[a b] c] d] (Ha & Hb & Hc & Hd).
  destruct r; cbn [exec]; rewrite Hfg by done; (split; [done|]);
    refine (conj _ (conj _ (conj _ _))); first [assumption | apply u32_range].
Qed.

Lemma agree_F1 r k s t : agree (MD5STEP F1, r, k, s, t) (FF, r, k, s, t).
Proof. apply agree_intro. intros. apply MD5STEP_mix. by apply F1_select. Qed.

Lemma agree_F2 r k s t : agree (MD5STEP F2, r, k, s, t) (GG, r, k, s, t).
Proof.
  apply agree_intro. intros A B C D X HB HC HD. apply MD5STEP_mix. unfold F2. rewrite F1_select by done.
  by rewrite (Z.land_comm D B), (Z.land_comm _ C).
Qed.

Lemma agree_F3 r k s t : agree (MD5STEP F3, r, k, s, t) (HH, r, k, s, t).
Proof. apply agree_intro. intros. by apply MD5STEP_mix. Qed.

Lemma agree_F4 r k s t : agree (MD5STEP F4, r, k, s, t) (II, r, k, s, t).
Proof. apply agree_intro. intros. by apply MD5STEP_mix. Qed.

Lemma md5_lines_agree : Forall2 agree md5_lines steps.
Proof. repeat (apply Forall2_cons; split; [first [apply agree_F1|apply agree_F2|apply agree_F3|apply agree_F4]|]). constructor. Qed.

(** The transformation is that of the other class. *)
Lemma MD5Transform_eq buf block : words buf -> MD5Transform buf (ByteToDWord block) = Transform buf block.
Proof.
  intros Hw. unfold MD5Transform, Transform. destruct buf as [[[a b] c] d].
  assert (H : forall ls ms st, Forall2 agree ls ms -> words st ->
    fold_left (exec (ByteToDWord block)) ls st = fold_left (exec (ByteToDWord block)) ms st).
  { intros ls ms st HF. revert st. induction HF as [|p q ls ms Hpq _ IH]; intros st Hst; [done|]. cbn [fold_left].
    destruct (Hpq (ByteToDWord block) st Hst) as [-> Hn]. by apply IH. }
  by rewrite (H _ _ _ md5_lines_agree Hw).
Qed.

Lemma Transform_words h b : words (Transform h b).
Proof.
  unfold Transform. destruct h as [[[a b'] c] d], (fold_left _ _ _) as [[[? ?] ?] ?].
  refine (conj _ (conj _ (conj _ _))); apply u32_range.
Qed.

(** ** The context represents the bytes fed so far *)

(** The count aside: whole blocks are in the digest, the rest in the buffer. *)
Record fed (m : list Z) (buf : words4) (inn : list Z) : Prop := {
  fed_len : length inn = 64%nat;
  fed_bytes : bytes inn;
  fed_words : words buf;
  fed_buf : buf = absorb (length m / 64) md5_init m;
  fed_rest : take (length m mod 64) inn = drop (64 * (length m / 64)) m
}.

Definition counted (m : list Z) (bits : Z * Z) : Prop :=
  bits = (u32 (8 * Z.of_nat (length m)), u32 (8 * Z.of_nat (length m) / 2 ^ 32)).

Lemma fed_absorbed m buf inn bits : fed m buf inn -> counted m bits -> absorbed m (mkMD5 inn bits buf).
Proof. intros [? ? ? ? ?] Hc. by split. Qed.

Lemma memcpy_bytes i src buf : bytes src -> bytes buf -> bytes (memcpy_at i src buf).
Proof. intros Hs Hb. unfold memcpy_at. rewrite !Forall_app. auto using Forall_take, Forall_drop. Qed.

Lemma memcpy_length i src buf : (i + length src <= length buf)%nat -> length (memcpy_at i src buf) = length buf.
Proof. intros H. unfold memcpy_at. rewrite !length_app, length_take, length_drop. lia. Qed.

Lemma transform_in_eq buf bits inn : length inn = 64%nat -> bytes inn -> words buf ->
  transform_in (mkContext buf bits inn) = mkContext (Transform buf inn) bits inn.
Proof.
  intros Hl Hb Hw. unfold transform_in. cbn [ctx_in ctx_buf ctx_bits].
  rewrite byteReverse_id by (try done; lia). by rewrite MD5Transform_eq.
Qed.

Lemma md5_chunks_spec fuel buf bits inn x :
  length inn = 64%nat -> bytes inn -> words buf -> bytes x -> (length x / 64 <= fuel)%nat ->
  exists inn', md5_chunks fuel (mkContext buf bits inn) x =
    (mkContext (absorb (length x / 64) buf x) bits inn', drop (64 * (length x / 64)) x) /\
    length inn' = 64%nat /\ bytes inn' /\ words (absorb (length x / 64) buf x).
Proof.
  revert buf inn x. induction fuel as [|fuel IH]; intros buf inn x Hl Hb Hw Hx Hf; cbn [md5_chunks].
  { replace (length x / 64)%nat with 0%nat by lia. exists inn. by rewrite Nat.mul_0_r. }
  destruct (Z.leb_spec 64 (Z.of_nat (length x))) as [Hle|Hgt].
  2: { rewrite Nat.div_small by lia. exists inn. by rewrite Nat.mul_0_r. }
  assert (Hj : (length x / 64 = S (length (drop 64 x) / 64))%nat).
  { rewrite length_drop. replace (length x) with (length x - 64 + 1 * 64)%nat at 1 by lia.
    rewrite Nat.div_add by lia. lia. }
  assert (Hm : memcpy_at 0 (take 64 x) inn = take 64 x).
  { unfold memcpy_at. rewrite length_take, drop_ge by lia. by rewrite app_nil_r. }
  cbn [ctx_in]. rewrite Hm. unfold set_in. cbn [ctx_buf ctx_bits].
  assert (length (take 64 x) = 64%nat) by (rewrite length_take; lia).
  rewrite transform_in_eq by (try done; by apply Forall_take).
  destruct (IH (Transform buf (take 64 x)) (take 64 x) (drop 64 x)) as (inn' & -> & Hl' & Hb' & Hw');
    [done|by apply Forall_take|apply Transform_words|by apply Forall_drop|lia|].
  exists inn'. rewrite Hj. cbn [absorb]. rewrite <- Transform_ref. split; [|done].
  f_equal. rewrite drop_drop. f_equal. lia.
Qed.

(** Data after a whole number of blocks. *)
Lemma md5_rest_fed m x buf bits inn :
  (length m mod 64 = 0)%nat -> fed m buf inn -> bytes x ->
  exists buf' inn', md5_rest (mkContext buf bits inn) x = mkContext buf' bits inn' /\ fed (m ++ x) buf' inn'.
Proof.
  intros Hm0 [Hl Hb Hw Hbuf _] Hx. unfold md5_rest.
  destruct (md5_chunks_spec (length x) buf bits inn x) as (inn' & -> & Hl' & Hb' & Hw'); try done.
  { apply Nat.Div0.div_le_upper_bound. lia. }
  set (j := (length x / 64)%nat) in *. set (q := (length m / 64)%nat) in *.
  assert (Hlm : length m = (64 * q)%nat) by (unfold q; pose proof (Nat.div_mod (length m) 64); lia).
  set (r := (length x mod 64)%nat). assert (Hlx : length x = (64 * j + r)%nat) by (apply Nat.div_mod; lia).
  assert (Hr : (r < 64)%nat) by (apply Nat.mod_upper_bound; lia).
  assert (Hdiv : (length (m ++ x) / 64 = q + j)%nat).
  { rewrite length_app. symmetry. apply Nat.div_unique with r; lia. }
  assert (Hmod : (length (m ++ x) mod 64 = r)%nat).
  { rewrite length_app. symmetry. apply Nat.mod_unique with (q + j)%nat; lia. }
  assert (Hd : length (drop (64 * j) x) = r) by (rewrite length_drop; lia).
  unfold set_in. cbn [ctx_buf ctx_bits ctx_in]. eexists _, _. split; [reflexivity|]. split.
  - rewrite memcpy_length; lia.
  - apply memcpy_bytes; [by apply Forall_drop|done].
  - done.
  - rewrite Hdiv, absorb_app by done. by rewrite Hbuf.
  - rewrite Hdiv, Hmod. unfold memcpy_at. rewrite take_0, app_nil_l, take_app_le, take_ge by lia.
    rewrite drop_app_ge by lia. f_equal. lia.
Qed.

Lemma carry_sym a b : word a -> word b -> (a +u b <? a) = (a +u b <? b).
Proof.
  intros Ha Hb. unfold u32. destruct (Z.lt_ge_cases (a + b) (2 ^ 32)).
  - rewrite Z.mod_small by lia. lia.
  - replace ((a + b) mod 2 ^ 32) with (a + b - 2 ^ 32); [lia|]. apply Z.mod_unique with 1; lia.
Qed.

Definition ctx_fed (m : list Z) (c : Context_) : Prop := fed m (ctx_buf c) (ctx_in c) /\ counted m (ctx_bits c).

Lemma MD5Init_fed c : length (ctx_in c) = 64%nat -> bytes (ctx_in c) -> ctx_fed [] (MD5Init c).
Proof. intros Hl Hb. split; [|done]. by split. Qed.

(** Filling the open block with [x] closes it. *)
Lemma fill_block m x buf inn :
  fed m buf inn -> bytes x -> (length x = 64 - length m mod 64)%nat -> (length m mod 64 <> 0)%nat ->
  let inn' := memcpy_at (length m mod 64) x inn in
  length inn' = 64%nat /\ bytes inn' /\ fed (m ++ x) (Transform buf inn') inn'.
Proof.
  intros [Hl Hb Hw Hbuf Hrest] Hx Hlx Hne inn'.
  set (idx := (length m mod 64)%nat) in *. set (q := (length m / 64)%nat) in *.
  assert (Hm : length m = (64 * q + idx)%nat) by (apply Nat.div_mod; lia).
  assert (Hidx : (idx < 64)%nat) by (apply Nat.mod_upper_bound; lia).
  assert (Hl' : length inn' = 64%nat) by (unfold inn'; rewrite memcpy_length; lia).
  assert (Hb' : bytes inn') by (by apply memcpy_bytes).
  assert (Hin : inn' = drop (64 * q) m ++ x).
  { unfold inn', memcpy_at. rewrite drop_ge by lia. by rewrite app_nil_r, Hrest. }
  assert (Hlen : length (m ++ x) = (64 * (q + 1))%nat) by (rewrite length_app; lia).
  assert (Hdiv : (length (m ++ x) / 64 = q + 1)%nat) by (rewrite Hlen, Nat.mul_comm; by apply Nat.div_mul).
  split; [done|]. split; [done|]. split; [done|done|apply Transform_words| |].
  - rewrite Hdiv. rewrite <- (take_drop (64 * q) m) at 1. rewrite <- app_assoc, <- Hin.
    rewrite absorb_app by (rewrite length_take; lia). rewrite Transform_ref. cbn [absorb].
    rewrite (take_ge inn') by lia. f_equal. rewrite Hbuf.
    rewrite <- (take_drop (64 * q) m) at 1. apply absorb_prefix. rewrite length_take. lia.
  - rewrite Hdiv. replace (length (m ++ x) mod 64)%nat with 0%nat
      by (rewrite Hlen, Nat.mul_comm; symmetry; apply Nat.Div0.mod_mul).
    rewrite take_0, drop_ge by lia. done.
Qed.

Lemma MD5Update_fed m x c :
  Z.of_nat (length x) < 2 ^ 32 -> bytes x -> ctx_fed m c -> ctx_fed (m ++ x) (MD5Update c x).
Proof.
  intros Hlen Hx [Hfed Hcnt]. unfold MD5Update. cbv zeta. unfold counted in Hcnt.
  rewrite !Hcnt. cbn [fst snd ctx_bits].
  rewrite (carry_sym (u32 _)) by apply u32_range. rewrite !count_index by lia.
  destruct (count_add (Z.of_nat (length m)) (Z.of_nat (length x))) as [H0 H1]; [lia|lia|].
  rewrite H0 in H1. rewrite H0, H1. clear H0 H1.
  replace (Z.of_nat (length m) + Z.of_nat (length x)) with (Z.of_nat (length (m ++ x))) by (rewrite length_app; lia).
  replace (Z.of_nat (length m) mod 64) with (Z.of_nat (length m mod 64)) by apply (Nat2Z.inj_mod _ 64).
  set (idx := (length m mod 64)%nat). cbn [ctx_buf ctx_in]. rewrite Nat2Z.id.
  assert (Hidx : (idx < 64)%nat) by (apply Nat.mod_upper_bound; lia).
  set (bits := (u32 (8 * Z.of_nat (length (m ++ x))), u32 (8 * Z.of_nat (length (m ++ x)) / 2 ^ 32))).
  destruct (Z.eqb_spec (Z.of_nat idx) 0) as [E|E]; cbn [negb].
  { destruct (md5_rest_fed m x (ctx_buf c) bits (ctx_in c)) as (b & i & -> & Hf); [unfold idx in E; lia|done|done|].
    by split. }
  destruct (Z.ltb_spec (Z.of_nat (length x)) (64 - Z.of_nat idx)) as [Hlt|Hge].
  - split; [|done]. unfold set_in. cbn [ctx_buf ctx_in]. destruct Hfed as [Hl Hb Hw Hbuf Hrest]. fold idx in Hrest.
    set (q := (length m / 64)%nat) in *. assert (Hm : length m = (64 * q + idx)%nat) by (apply Nat.div_mod; lia).
    assert (Hdiv : (length (m ++ x) / 64 = q)%nat).
    { rewrite length_app. symmetry. apply Nat.div_unique with (idx + length x)%nat; lia. }
    assert (Hmod : (length (m ++ x) mod 64 = idx + length x)%nat).
    { rewrite length_app. symmetry. apply Nat.mod_unique with q; lia. }
    split; [rewrite memcpy_length; lia|by apply memcpy_bytes|done| |].
    + rewrite Hdiv, Hbuf. symmetry. apply absorb_prefix. lia.
    + rewrite Hdiv, Hmod. unfold memcpy_at. assert (length (take idx (ctx_in c)) = idx) by (rewrite length_take; lia).
      rewrite app_assoc, take_app_le by (rewrite length_app; lia).
      rewrite take_ge by (rewrite length_app; lia). rewrite Hrest. by rewrite drop_app_le by lia.
  - set (part := (64 - idx)%nat). replace (Z.to_nat (64 - Z.of_nat idx)) with part by (unfold part; lia).
    unfold set_in. cbn [ctx_buf ctx_bits].
    assert (Hlt : length (take part x) = part) by (rewrite length_take; unfold part; lia).
    destruct (fill_block m (take part x) (ctx_buf c) (ctx_in c)) as (Hl & Hb & Hf);
      [done|by apply Forall_take|exact Hlt|unfold idx in E; lia|].
    fold idx in Hl, Hb, Hf. rewrite transform_in_eq by (try done; apply Hfed).
    destruct (md5_rest_fed (m ++ take part x) (drop part x) (Transform (ctx_buf c) (memcpy_at idx (take part x) (ctx_in c)))
      bits (memcpy_at idx (take part x) (ctx_in c))) as (b & i & -> & Hf'); [|done|by apply Forall_drop|].
    + rewrite length_app, Hlt. pose proof (Nat.div_mod (length m) 64 ltac:(lia)) as Hm. fold idx in Hm.
      replace (length m + part)%nat with ((length m / 64 + 1) * 64)%nat by (unfold part; lia).
      apply Nat.Div0.mod_mul.
    + rewrite <- app_assoc, take_drop in Hf'. by split.
Qed.

Lemma ByteToDWord_app a b k : length a = (4 * k)%nat -> ByteToDWord (a ++ b) = ByteToDWord a ++ ByteToDWord b.
Proof.
  revert a. induction k as [|k IH]; intros a Ha; [by destruct a|].
  destruct a as [|b0 [|b1 [|b2 [|b3 a]]]]; try (simpl in Ha; lia). cbn [ByteToDWord app]. rewrite IH; [done|].
  simpl in Ha. lia.
Qed.

Lemma ByteToDWord_length a k : length a = (4 * k)%nat -> length (ByteToDWord a) = k.
Proof.
  revert a. induction k as [|k IH]; intros a Ha; [by destruct a|].
  destruct a as [|b0 [|b1 [|b2 [|b3 a]]]]; try (simpl in Ha; lia). cbn [ByteToDWord length]. rewrite IH; [done|].
  simpl in Ha. lia.
Qed.

Lemma ByteToDWord_DWordToByte w : word w -> ByteToDWord (DWordToByte w) = [w].
Proof.
  intros Hw. unfold DWordToByte. cbn [ByteToDWord]. change 0xff with (Z.ones 8).
  rewrite !Z.land_ones, !Z.shiftr_div_pow2 by lia. rewrite word_bytes; [f_equal; lia_div|].
  repeat constructor; lia_div.
Qed.

(** The last block: 56 bytes of the buffer and the length. *)
Lemma last_words inn n : length inn = 64%nat -> bytes inn ->
  take 14 (ByteToDWord (byteReverse inn 14)) ++ [u32 (8 * n); u32 (8 * n / 2 ^ 32)] =
  ByteToDWord (take 56 inn ++ length_bytes n).
Proof.
  intros Hl Hb. rewrite byteReverse_id by (try done; lia).
  assert (Ht : length (take 56 inn) = (4 * 14)%nat) by (rewrite length_take; lia).
  rewrite (ByteToDWord_app (take 56 inn) _ 14 Ht). f_equal.
  - rewrite <- (take_drop 56 inn) at 1. rewrite (ByteToDWord_app (take 56 inn) _ 14 Ht).
    rewrite take_app_le, take_ge by (rewrite (ByteToDWord_length _ 14 Ht); lia). done.
  - unfold length_bytes. rewrite (ByteToDWord_app _ _ 1) by done.
    rewrite !ByteToDWord_DWordToByte by apply u32_range. done.
Qed.

Lemma memcpy_head n src inn k : (n + length src <= length inn)%nat -> (k <= n + length src)%nat ->
  take k (memcpy_at n src inn) = take k (take n inn ++ src).
Proof.
  intros H Hk. unfold memcpy_at. rewrite app_assoc. apply take_app_le.
  rewrite length_app, length_take. lia.
Qed.

(** *** Padding *)

Section Padding.
Context (m : list Z) (buf : words4) (inn : list Z) (Hfed : fed m buf inn).

Let q := (length m / 64)%nat.
Let n := (length m mod 64)%nat.
Let rest := drop (64 * q) m.
Let lb := length_bytes (Z.of_nat (length m)).

Lemma pad_index : length m = (64 * q + n)%nat /\ (n < 64)%nat /\ length rest = n.
Proof.
  assert (length m = (64 * q + n)%nat) by (apply Nat.div_mod; lia).
  split; [done|]. split; [apply Nat.mod_upper_bound; lia|]. unfold rest. rewrite length_drop. lia.
Qed.

(** The buffer after 0x80 and [k] zeros. *)
Lemma padded_block k : (n + 1 + k <= 64)%nat ->
  let inn' := memcpy_at (n + 1) (replicate k 0) (memcpy_at n [0x80] inn) in
  length inn' = 64%nat /\ bytes inn' /\ take (n + 1 + k) inn' = rest ++ [0x80] ++ replicate k 0.
Proof.
  intros Hk inn'. destruct pad_index as (Hm & Hn & Hr). destruct Hfed as [Hl Hb _ _ Hrest].
  assert (Hl1 : length (memcpy_at n [0x80] inn) = 64%nat) by (rewrite memcpy_length; simpl; lia).
  split; [unfold inn'; rewrite memcpy_length; rewrite ?length_replicate; lia|]. split.
  { apply memcpy_bytes; [apply Forall_replicate; lia|]. apply memcpy_bytes; [repeat constructor; lia|done]. }
  unfold inn'. rewrite memcpy_head by (rewrite length_replicate; lia).
  rewrite (memcpy_head n) by (simpl; lia). fold n in Hrest. rewrite Hrest. fold rest.
  rewrite (take_ge (rest ++ [128])) by (rewrite length_app; simpl; lia).
  rewrite take_ge by (rewrite !length_app, length_replicate; simpl; lia). by rewrite app_assoc.
Qed.

(** Blocks behind the whole blocks of [m]. *)
Lemma absorb_behind j t : length (rest ++ t) = (64 * j)%nat ->
  absorb (length (m ++ t) / 64) md5_init (m ++ t) = absorb j buf (rest ++ t).
Proof.
  intros Ht. destruct pad_index as (Hm & Hn & Hr). destruct Hfed as [_ _ _ Hbuf _]. fold q in Hbuf.
  assert (Hlt : length (take (64 * q) m) = (64 * q)%nat) by (rewrite length_take; lia).
  assert (Hlen : length (m ++ t) = ((q + j) * 64)%nat) by (rewrite length_app in *; lia).
  rewrite Hlen, Nat.div_mul by lia.
  replace (m ++ t) with (take (64 * q) m ++ (rest ++ t)) by (unfold rest; by rewrite app_assoc, take_drop).
  rewrite absorb_app by done. f_equal. rewrite Hbuf. rewrite <- (take_drop (64 * q) m) at 2.
  symmetry. apply absorb_prefix. lia.
Qed.

Lemma pad_one_block : (n <= 55)%nat ->
  absorb (length (pad m) / 64) md5_init (pad m) = Transform buf ((rest ++ [0x80] ++ replicate (55 - n) 0) ++ lb).
Proof.
  intros Hle. destruct pad_index as (Hm & Hn & Hr). unfold pad.
  replace (Z.to_nat ((55 - Z.of_nat (length m)) mod 64)) with (55 - n)%nat by (unfold n in *; lia_div).
  rewrite (absorb_behind 1) by (rewrite !length_app; cbn [length]; rewrite length_replicate; simpl; lia).
  cbn [absorb]. rewrite <- Transform_ref.
  rewrite take_ge by (rewrite !length_app; cbn [length]; rewrite length_replicate; simpl; lia).
  f_equal. by rewrite <- !app_assoc.
Qed.

Lemma pad_two_blocks : (56 <= n)%nat ->
  absorb (length (pad m) / 64) md5_init (pad m) =
  Transform (Transform buf (rest ++ [0x80] ++ replicate (63 - n) 0)) (replicate 56 0 ++ lb).
Proof.
  intros Hge. destruct pad_index as (Hm & Hn & Hr). unfold pad.
  replace (Z.to_nat ((55 - Z.of_nat (length m)) mod 64)) with (63 - n + 56)%nat by (unfold n in *; lia_div).
  rewrite (absorb_behind 2) by (rewrite !length_app; cbn [length]; rewrite length_replicate; simpl; lia).
  rewrite replicate_add. set (b := rest ++ [0x80] ++ replicate (63 - n) 0).
  assert (Hb : length b = 64%nat) by (unfold b; rewrite !length_app, length_replicate; simpl; lia).
  replace (rest ++ (128 :: replicate (63 - n) 0 ++ replicate 56 0) ++ length_bytes (Z.of_nat (length m)))
    with (b ++ (replicate 56 0 ++ lb)) by (unfold b; rewrite <- !app_assoc; cbn [app]; by rewrite <- !app_assoc).
  cbn [absorb]. rewrite take_app_le, take_ge, drop_app_ge, Hb by lia. rewrite <- !Transform_ref.
  change (drop (64 - 64) ?x) with x. by rewrite (take_ge (replicate 56 0 ++ lb)) by done.
Qed.

End Padding.

Lemma MD5Final_fed m c : ctx_fed m c ->
  MD5Final c = digest_bytes (absorb (length (pad m) / 64) md5_init (pad m)).
Proof.
  intros [Hfed Hcnt]. pose proof (pad_index m) as (Hm & Hn & Hr). pose proof (padded_block m _ _ Hfed) as Hpb.
  unfold MD5Final. cbv zeta. unfold counted in Hcnt. unfold set_in. cbn [ctx_buf ctx_bits ctx_in].
  rewrite !Hcnt. cbn [fst snd]. rewrite !count_index by lia.
  replace (Z.of_nat (length m) mod 64) with (Z.of_nat (length m mod 64)) by apply (Nat2Z.inj_mod _ 64).
  set (n := (length m mod 64)%nat) in *. rewrite Nat2Z.id.
  destruct (Z.ltb_spec (64 - 1 - Z.of_nat n) 8) as [Hlt8|Hge8].
  - rewrite (pad_two_blocks m _ _ Hfed) by lia. fold n.
    replace (Z.to_nat (64 - 1 - Z.of_nat n)) with (63 - n)%nat by lia.
    destruct (Hpb (63 - n)%nat ltac:(lia)) as (Hl2 & Hb2 & H2). rewrite take_ge in H2 by lia. rewrite H2 in *.
    rewrite transform_in_eq by (try done; apply Hfed). cbn [ctx_in ctx_buf ctx_bits fst snd].
    rewrite last_words.
    + rewrite (memcpy_head 0) by (rewrite length_replicate; lia). rewrite MD5Transform_eq by apply Transform_words. done.
    + rewrite memcpy_length; rewrite ?length_replicate; lia.
    + apply memcpy_bytes; [apply Forall_replicate; lia|done].
  - rewrite (pad_one_block m _ _ Hfed) by lia. fold n. cbn [ctx_in ctx_buf ctx_bits fst snd].
    replace (Z.to_nat (64 - 1 - Z.of_nat n - 8)) with (55 - n)%nat by lia.
    destruct (Hpb (55 - n)%nat ltac:(lia)) as (Hl2 & Hb2 & H2).
    replace (n + 1 + (55 - n))%nat with 56%nat in H2 by lia.
    rewrite last_words by done. rewrite H2. rewrite MD5Transform_eq by apply Hfed. done.
Qed.

Lemma base16_hex d : bytes d -> MD5DigestToBase16 d = flat_map hex_byte d.
Proof.
  assert (Hz : forall n, 0 <= n < 16 -> nth (Z.to_nat n) zEncode 0 = hex_digit n).
  { intros n Hn. assert (H : forallb (fun k => nth k zEncode 0 =? hex_digit (Z.of_nat k)) (seq 0 16) = true) by done.
    rewrite forallb_forall in H. specialize (H (Z.to_nat n)). rewrite Z2Nat.id in H by lia. apply Z.eqb_eq, H.
    apply in_seq. lia. }
  induction 1 as [|a d Ha _ IH]; [done|]. cbn [MD5DigestToBase16 flat_map]. unfold MD5DigestToBase16 in IH. rewrite IH.
  f_equal. change 0xf with (Z.ones 4). rewrite !Z.land_ones, Z.shiftr_div_pow2 by lia.
  unfold hex_byte. rewrite !Hz by lia_div. repeat f_equal. lia_div.
Qed.

Lemma digest_bytes_range h : bytes (digest_bytes h).
Proof.
  destruct h as [[[a b] c] d]. unfold digest_bytes, DWordToByte. change 0xff with (Z.ones 8).
  repeat constructor; rewrite Z.land_ones by lia; lia_div.
Qed.

(** The digest of a context that was fed [m]. *)
Lemma MD5Final_base16 m c : ctx_fed m c -> MD5DigestToBase16 (MD5Final c) = md5_ref m.
Proof. intros H. by rewrite (MD5Final_fed m c H), base16_hex by apply digest_bytes_range. Qed.

(** The two MD5 implementations of the program agree on every buffer,
    whatever bytes the context held before: [MD5String] of md5.cc and
    [CMD5Checksum::GetMD5] of MD5Checksum.cpp give the same text. *)
Theorem MD5String_is_GetMD5 junk m :
  length (ctx_in junk) = 64%nat -> bytes (ctx_in junk) -> bytes m -> Z.of_nat (length m) < 2 ^ 32 ->
  MD5String junk m = GetMD5 m.
Proof.
  intros Hl Hb Hm Hlen. unfold MD5String, MD5Sum.
  rewrite (MD5Final_base16 m).
  - symmetry. unfold GetMD5. apply Final_absorbed. by apply (Update_absorbed [] m), absorbed_init.
  - by apply (MD5Update_fed [] m), MD5Init_fed.
Qed.

(** ** Witness *)

Definition junk_context : Context_ := mkContext (1, 2, 3, 4) (5, 6) (replicate 64 171).

Lemma MD5String_is_GetMD5_witness : MD5String junk_context [97; 98; 99] = GetMD5 [97; 98; 99].
Proof. apply MD5String_is_GetMD5; [reflexivity|repeat constructor; lia|repeat constructor; lia|reflexivity]. Defined.

Example MD5String_abc : MD5String junk_context [97; 98; 99] =
  [57; 48; 48; 49; 53; 48; 57; 56; 51; 99; 100; 50; 52; 102; 98; 48;
   100; 54; 57; 54; 51; 102; 55; 100; 50; 56; 101; 49; 55; 102; 55; 50].
Proof. vm_compute. reflexivity. Qed.
