(* ===== verification/Json.v ===== *)
(** * JSON values

    The part of Json::Value (src/Utility/json/json_value.cpp, value.h) that the
    browser plug-ins use.  An object is a [std::map] from member names to
    values ordered by [strcmp]; here it is the list of its members in that
    order.  An array is a map from indices to values whose size is the highest
    index plus one; here it is the list of its elements, the missing ones being
    null.  Comments attached to values are not modelled.

    [JSON_ASSERT] is [assert] and [JSON_ASSERT_MESSAGE] throws an exception that
    no caller catches: both are the fault [Aborted]. *)
From stdpp Require Import prelude sorting.
From Stdlib Require Import ZArith Lia SpecFloat String.
From S2P Require Import Prelude Strings.

(** [Value] and [ValueType]. *)
#[local] Unset Elimination Schemes.

Inductive Value :=
| nullValue
| intValue (z : Z)
| uintValue (z : Z)
| realValue (x : spec_float)
| stringValue (s : str)
| booleanValue (b : bool)
| arrayValue (l : list Value)
| objectValue (m : list (str * Value)).

#[local] Set Elimination Schemes.

(** Induction that reaches the elements of arrays and the members of objects. *)
Section Value_ind.
Context (P : Value -> Prop).
Context (Pnull : P nullValue) (Pint : forall z, P (intValue z)) (Puint : forall z, P (uintValue z)).
Context (Preal : forall x, P (realValue x)) (Pstring : forall s, P (stringValue s)).
Context (Pbool : forall b, P (booleanValue b)).
Context (Parray : forall l, Forall P l -> P (arrayValue l)).
Context (Pobject : forall m, Forall (fun kv => P (snd kv)) m -> P (objectValue m)).

Fixpoint Value_nested_ind (v : Value) : P v :=
  match v with
  | nullValue => Pnull
  | intValue z => Pint z
  | uintValue z => Puint z
  | realValue x => Preal x
  | stringValue s => Pstring s
  | booleanValue b => Pbool b
  | arrayValue l =>
      Parray l ((fix elements (l : list Value) : Forall P l :=
                   match l with
                   | [] => Forall_nil_2 _
                   | v :: l => Forall_cons_2 _ _ _ (Value_nested_ind v) (elements l)
                   end) l)
  | objectValue m =>
      Pobject m ((fix members (m : list (str * Value)) : Forall (fun kv => P (snd kv)) m :=
                    match m with
                    | [] => Forall_nil_2 _
                    | kv :: m => Forall_cons_2 _ _ _ (Value_nested_ind (snd kv)) (members m)
                    end) m)
  end.
End Value_ind.

(** ** Member names *)

(** [strcmp], on strings without zeros: bytes compare as unsigned. *)
Fixpoint strcmp (a b : str) : comparison :=
  match a, b with
  | [], [] => Eq
  | [], _ :: _ => Lt
  | _ :: _, [] => Gt
  | x :: a, y :: b => match x ?= y with Eq => strcmp a b | c => c end
  end.

(** [value_.map_->find( key )] *)
Fixpoint map_find (key : str) (m : list (str * Value)) : option Value :=
  match m with
  | [] => None
  | (k, v) :: m => match strcmp key k with Eq => Some v | _ => map_find key m end
  end.

(** Assigning to the place of a key: replaces the member or inserts it in order. *)
Fixpoint map_insert (key : str) (v : Value) (m : list (str * Value)) : list (str * Value) :=
  match m with
  | [] => [(key, v)]
  | (k, w) :: m' =>
      match strcmp key k with
      | Eq => (k, v) :: m'
      | Lt => (key, v) :: m
      | Gt => (k, w) :: map_insert key v m'
      end
  end.

(** ** Operations *)

(** [size()] *)
Definition size_ (v : Value) : Z :=
  match v with
  | arrayValue l => Z.of_nat (List.length l)
  | objectValue m => Z.of_nat (List.length m)
  | _ => 0
  end.

(** [empty()] *)
Definition empty_ (v : Value) : bool :=
  match v with
  | nullValue | arrayValue _ | objectValue _ => size_ v =? 0
  | _ => false
  end.

(** [asString()] *)
Definition asString (v : Value) : outcome str :=
  match v with
  | nullValue => Ok []
  | stringValue s => Ok (c_str s)
  | booleanValue b => Ok (if b then lit "true" else lit "false")
  | _ => Fault Aborted
  end.

(** [clear()] *)
Definition clear (v : Value) : outcome Value :=
  match v with
  | nullValue => Ok nullValue
  | arrayValue _ => Ok (arrayValue [])
  | objectValue _ => Ok (objectValue [])
  | _ => Fault Aborted
  end.

(** [operator[]( const char *key )]: the member, which is created with the
    value null when there is none (and the value becomes an object when it was
    null).  Returned with the changed value. *)
Definition resolveReference (v : Value) (key : str) : outcome (Value * Value) :=
  let key := c_str key in
  match v with
  | nullValue => Ok (nullValue, objectValue [(key, nullValue)])
  | objectValue m =>
      match map_find key m with
      | Some w => Ok (w, v)
      | None => Ok (nullValue, objectValue (map_insert key nullValue m))
      end
  | _ => Fault Aborted
  end.

(** The constant [operator[]( const char *key ) const]. *)
Definition member (v : Value) (key : str) : outcome Value :=
  match v with
  | nullValue => Ok nullValue
  | objectValue m => Ok (default nullValue (map_find (c_str key) m))
  | _ => Fault Aborted
  end.

(** [isMember( const char *key )] *)
Definition isMember (v : Value) (key : str) : outcome bool :=
  match v with
  | nullValue => Ok false
  | objectValue m => Ok (match map_find (c_str key) m with Some _ => true | None => false end)
  | _ => Fault Aborted
  end.

(** [v[key] = w] *)
Definition set_member (v : Value) (key : str) (w : Value) : outcome Value :=
  match v with
  | nullValue => Ok (objectValue [(c_str key, w)])
  | objectValue m => Ok (objectValue (map_insert (c_str key) w m))
  | _ => Fault Aborted
  end.

(** [operator[]( UInt index )] on an index below the size, and on null. *)
Definition element (v : Value) (i : Z) : outcome Value :=
  match v with
  | nullValue => Ok nullValue
  | arrayValue l => Ok (default nullValue (l !! Z.to_nat i))
  | _ => Fault Aborted
  end.

(** [append( value )], an assignment at the index [size()]. *)
Definition append_ (v w : Value) : outcome Value :=
  match v with
  | nullValue => Ok (arrayValue [w])
  | arrayValue l => Ok (arrayValue (l ++ [w]))
  | _ => Fault Aborted
  end.

(** [getMemberNames()] *)
Definition getMemberNames (v : Value) : outcome (list str) :=
  match v with
  | nullValue => Ok []
  | objectValue m => Ok (map fst m)
  | _ => Fault Aborted
  end.

(** ** Well-formed values *)

(** The members of an object are in strictly increasing order. *)
Definition key_lt (a b : str * Value) : Prop := strcmp a.1 b.1 = Lt.

Abbreviation ordered := (StronglySorted key_lt).

(** The representation invariant: integers within their width, strings of
    bytes, members in order under names that end at their terminating zero. *)
#[local] Unset Elimination Schemes.

Inductive well_formed : Value -> Prop :=
| wf_null : well_formed nullValue
| wf_int z : - 2 ^ 31 <= z < 2 ^ 31 -> well_formed (intValue z)
| wf_uint z : 0 <= z < 2 ^ 32 -> well_formed (uintValue z)
| wf_real x : well_formed (realValue x)
| wf_string s : bytes s -> well_formed (stringValue s)
| wf_bool b : well_formed (booleanValue b)
| wf_array l : Forall well_formed l -> well_formed (arrayValue l)
| wf_object m : ordered m -> Forall (fun kv => (0 ∉ kv.1) /\ bytes kv.1) m ->
    Forall (fun kv => well_formed kv.2) m -> well_formed (objectValue m).

#[local] Set Elimination Schemes.

Create HintDb json.
#[export] Hint Constructors well_formed : json.

(** ** Lemmas *)

Lemma strcmp_eq a b : strcmp a b = Eq <-> a = b.
Proof.
  revert b. induction a as [|x a IH]; intros [|y b]; simpl; try done.
  destruct (Z.compare_spec x y) as [->|?|?].
  - rewrite IH. naive_solver.
  - split; [done|]. intros [= -> _]. lia.
  - split; [done|]. intros [= -> _]. lia.
Qed.

Lemma strcmp_refl a : strcmp a a = Eq.
Proof. by apply strcmp_eq. Qed.

Lemma strcmp_antisym a b : strcmp b a = CompOpp (strcmp a b).
Proof.
  revert b. induction a as [|x a IH]; intros [|y b]; simpl; try done.
  rewrite (Z.compare_antisym x y). destruct (x ?= y); simpl; auto.
Qed.

Lemma strcmp_trans a b c : strcmp a b = Lt -> strcmp b c = Lt -> strcmp a c = Lt.
Proof.
  revert b c. induction a as [|x a IH]; intros [|y b] [|z c]; simpl; try done.
  destruct (Z.compare_spec x y), (Z.compare_spec y z); try done; intros;
    destruct (Z.compare_spec x z); subst; try lia; eauto.
Qed.

Lemma map_insert_last k v m :
  Forall (fun a => strcmp a.1 k = Lt) m -> map_insert k v m = m ++ [(k, v)].
Proof.
  induction 1 as [|[k' w] m Hk _ IH]; [done|]. simpl in *.
  rewrite strcmp_antisym, Hk. simpl. by rewrite IH.
Qed.

Lemma map_find_insert k k' v m :
  ordered m ->
  map_find k' (map_insert k v m) = if decide (k' = k) then Some v else map_find k' m.
Proof.
  induction 1 as [|[k0 w] m Hs IH Hk]; simpl.
  - case_decide as E; [subst; by rewrite strcmp_refl|].
    destruct (strcmp k' k) eqn:E'; [by apply strcmp_eq in E'|done..].
  - destruct (strcmp k k0) eqn:E0; simpl.
    + apply strcmp_eq in E0 as ->. case_decide as E; [subst; by rewrite strcmp_refl|].
      destruct (strcmp k' k0) eqn:E'; [by apply strcmp_eq in E'|done..].
    + case_decide as E; [subst; by rewrite strcmp_refl|].
      destruct (strcmp k' k) eqn:E'; [by apply strcmp_eq in E'|done..].
    + rewrite IH. case_decide as E; [subst; by rewrite E0|done].
Qed.

Lemma map_insert_ordered k v m : ordered m -> ordered (map_insert k v m).
Proof.
  intros Hm. induction Hm as [|[k0 w] m Hs IH Hk]; simpl; [repeat constructor|].
  assert (Hge : forall a, strcmp a k0 = Lt -> Forall (key_lt (a, v)) m).
  { intros a Ha. rewrite Forall_forall in Hk |- *. intros b Hb.
    apply (strcmp_trans _ _ _ Ha (Hk b Hb)). }
  destruct (strcmp k k0) eqn:E.
  - constructor; [done|]. rewrite Forall_forall in Hk |- *. intros b Hb. apply (Hk b Hb).
  - constructor; [by constructor|]. by constructor; [|apply Hge].
  - constructor; [done|].
    assert (Hk0 : key_lt (k0, w) (k, v)) by (unfold key_lt; simpl; by rewrite strcmp_antisym, E).
    clear IH Hs Hge E. induction Hk as [|[k1 w1] m H1 Hk IH]; simpl; [by constructor|].
    destruct (strcmp k k1); [constructor|constructor; [|constructor]|constructor]; try done.
Qed.

Lemma map_insert_Forall (P : str * Value -> Prop) k v m :
  (forall w, P (k, w) -> P (k, v)) -> P (k, v) -> Forall P m -> Forall P (map_insert k v m).
Proof.
  intros Hk Hv Hm. induction Hm as [|[k0 w] m H0 Hm IH]; simpl; [by constructor|].
  destruct (strcmp k k0) eqn:E; constructor; try done; [|by constructor].
  apply strcmp_eq in E as ->. eauto.
Qed.

Lemma map_find_Forall (P : Value -> Prop) k v m :
  Forall (fun kv => P kv.2) m -> map_find k m = Some v -> P v.
Proof.
  induction 1 as [|[k0 w] m H0 _ IH]; simpl; [done|]. destruct (strcmp k k0); auto. by intros [= <-].
Qed.

Lemma c_str_bytes s : bytes s -> bytes (c_str s).
Proof.
  induction 1 as [|c s Hc _ IH]; simpl; [constructor|]. destruct (c =? 0); by constructor.
Qed.

(** The operations keep values well-formed. *)
Lemma set_member_wf v key w v' :
  well_formed v -> bytes key -> well_formed w -> set_member v key w = Ok v' -> well_formed v'.
Proof.
  intros Hv Hk Hw H. pose proof (c_str_no_zero key). pose proof (c_str_bytes key Hk).
  destruct Hv; simpl in H; try discriminate H; injection H as <-; constructor;
    repeat constructor; auto.
  - by apply map_insert_ordered.
  - apply map_insert_Forall; auto.
  - apply map_insert_Forall; auto.
Qed.

Lemma resolveReference_wf v key w v' :
  well_formed v -> bytes key -> resolveReference v key = Ok (w, v') -> well_formed w /\ well_formed v'.
Proof.
  intros Hv Hk H. destruct v; simpl in H; try discriminate H.
  - injection H as <- <-. split; [constructor|].
    by apply (set_member_wf nullValue key nullValue); eauto with json.
  - pose proof Hv as Hv'. inversion Hv'; subst.
    destruct (map_find (c_str key) m) eqn:E; injection H as <- <-; (split; [|try done]).
    + by eapply map_find_Forall.
    + constructor.
    + by apply (set_member_wf (objectValue m) key nullValue); eauto with json.
Qed.

Lemma append_wf v w v' : well_formed v -> well_formed w -> append_ v w = Ok v' -> well_formed v'.
Proof.
  intros Hv Hw H. destruct Hv; simpl in H; try discriminate H; injection H as <-; constructor; [by constructor|].
  apply Forall_app. by repeat constructor.
Qed.
