(* ===== verification/JsonReader.v ===== *)
(** * Reading JSON

    [Json::Reader] (src/Utility/json/json_reader.cpp): tokens, strings, numbers,
    objects and arrays, with the default features (comments allowed, any value
    as root).  The reader's position is the list of the characters that are
    left; at the end of the document it sees the terminating zero.  The value
    being filled is passed in and returned, on errors too, because callers use
    what an unsuccessful parse left behind.  Comments are skipped; attaching them
    to values and the list of error messages are not modelled.  Numbers that are
    not integers go through [sscanf], a parameter. *)
From stdpp Require Import prelude sorting.
From Stdlib Require Import ZArith Lia SpecFloat String.
From S2P Require Import Prelude Strings Json.

Inductive TokenType :=
| tokenEndOfStream | tokenObjectBegin | tokenObjectEnd | tokenArrayBegin | tokenArrayEnd
| tokenString | tokenNumber | tokenTrue | tokenFalse | tokenNull
| tokenArraySeparator | tokenMemberSeparator | tokenComment | tokenError.

#[global] Instance TokenType_eq_dec : EqDecision TokenType.
Proof. solve_decision. Defined.

(** A token with its characters, [start_] to [end_]. *)
Record Token := mkToken { type_ : TokenType; text_ : str }.

(** ** Characters *)

Definition getNextChar (s : str) : Z * str :=
  match s with
  | [] => (0, [])
  | c :: s => (c, s)
  end.

(** [*current_] *)
Definition peek (s : str) : Z := fst (getNextChar s).

Definition is_space (c : Z) : bool := (c =? 32) || (c =? 9) || (c =? 13) || (c =? 10).

Fixpoint skipSpaces (s : str) : str :=
  match s with
  | c :: s' => if is_space c then skipSpaces s' else s
  | [] => []
  end.

(** [match( pattern, patternLength )]: the rest behind the pattern. *)
Definition match_ (pattern s : str) : option str :=
  if bool_decide (take (List.length pattern) s = pattern) then Some (drop (List.length pattern) s) else None.

Definition is_digit (c : Z) : bool := (48 <=? c) && (c <=? 57).

(** Digits and [. e E + -]. *)
Definition number_char (c : Z) : bool :=
  is_digit c || (c =? 46) || (c =? 101) || (c =? 69) || (c =? 43) || (c =? 45).

Fixpoint readNumber (s : str) : str :=
  match s with
  | c :: s' => if number_char c then readNumber s' else s
  | [] => []
  end.

(** The loop of [readString]; [c] is the character read last. *)
Fixpoint readString_loop (c : Z) (s : str) : bool * str :=
  match s with
  | [] => (c =? 34, [])
  | c :: s =>
      if c =? 92 then
        match s with
        | [] => (false, [])
        | _ :: s => readString_loop c s
        end
      else if c =? 34 then (true, s)
      else readString_loop c s
  end.

Definition readString (s : str) : bool * str := readString_loop 0 s.

Fixpoint cstyle_loop (s : str) : str :=
  match s with
  | [] => []
  | c :: s => if (c =? 42) && (peek s =? 47) then s else cstyle_loop s
  end.

Definition readCStyleComment (s : str) : bool * str :=
  let '(c, s) := getNextChar (cstyle_loop s) in (c =? 47, s).

Fixpoint readCppStyleComment (s : str) : str :=
  match s with
  | [] => []
  | c :: s => if (c =? 13) || (c =? 10) then s else readCppStyleComment s
  end.

Definition readComment (s : str) : bool * str :=
  let '(c, s) := getNextChar s in
  if c =? 42 then readCStyleComment s
  else if c =? 47 then (true, readCppStyleComment s)
  else (false, s).

(** ** Tokens *)

Definition matched (t : TokenType) (pattern s : str) : TokenType * bool * str :=
  match match_ pattern s with
  | Some s => (t, true, s)
  | None => (t, false, s)
  end.

Definition scan_token (c : Z) (s : str) : TokenType * bool * str :=
  if c =? 123 then (tokenObjectBegin, true, s)
  else if c =? 125 then (tokenObjectEnd, true, s)
  else if c =? 91 then (tokenArrayBegin, true, s)
  else if c =? 93 then (tokenArrayEnd, true, s)
  else if c =? 34 then let '(ok, s) := readString s in (tokenString, ok, s)
  else if c =? 47 then let '(ok, s) := readComment s in (tokenComment, ok, s)
  else if is_digit c || (c =? 45) then (tokenNumber, true, readNumber s)
  else if c =? 116 then matched tokenTrue (lit "rue") s
  else if c =? 102 then matched tokenFalse (lit "alse") s
  else if c =? 110 then matched tokenNull (lit "ull") s
  else if c =? 44 then (tokenArraySeparator, true, s)
  else if c =? 58 then (tokenMemberSeparator, true, s)
  else if c =? 0 then (tokenEndOfStream, true, s)
  else (tokenError, false, s).

Definition readToken (s : str) : Token * str :=
  let s := skipSpaces s in
  let '(c, s1) := getNextChar s in
  let '(t, ok, s2) := scan_token c s1 in
  (mkToken (if ok then t else tokenError) (take (List.length s - List.length s2) s), s2).

(** The next token that is not a comment. *)
Fixpoint skip_comments (fuel : nat) (s : str) : outcome (Token * str) :=
  match fuel with
  | O => Fault NoFuel
  | S fuel =>
      let '(t, s) := readToken s in
      if decide (type_ t = tokenComment) then skip_comments fuel s else Ok (t, s)
  end.

Definition skipCommentTokens (s : str) : outcome (Token * str) := skip_comments (S (List.length s)) s.

Fixpoint recover_loop (fuel : nat) (skipUntilToken : TokenType) (s : str) : outcome str :=
  match fuel with
  | O => Fault NoFuel
  | S fuel =>
      let '(t, s) := readToken s in
      if decide (type_ t = skipUntilToken \/ type_ t = tokenEndOfStream) then Ok s
      else recover_loop fuel skipUntilToken s
  end.

(** The result of an operation on the current value: success, the value, and
    the characters that are left. *)
Abbreviation read_result := (bool * Value * str)%type.

(** Skips to a closing token after an error; the value stays as it is. *)
Definition recoverFromError (t : TokenType) (v : Value) (s : str) : outcome read_result :=
  s ← recover_loop (S (List.length s)) t s; Ok (false, v, s).

(** ** Strings *)

Definition codePointToUTF8 (cp : Z) : str :=
  if cp <=? 0x7f then [cp]
  else if cp <=? 0x7FF then
    [Z.lor 0xC0 (Z.land 0x1f (Z.shiftr cp 6)); Z.lor 0x80 (Z.land 0x3f cp)]
  else if cp <=? 0xFFFF then
    [Z.lor 0xE0 (Z.land 0xf (Z.shiftr cp 12)); Z.lor 0x80 (Z.land 0x3f (Z.shiftr cp 6));
     Z.lor 0x80 (Z.land 0x3f cp)]
  else if cp <=? 0x10FFFF then
    [Z.lor 0xF0 (Z.land 0x7 (Z.shiftr cp 18)); Z.lor 0x80 (Z.land 0x3f (Z.shiftr cp 12));
     Z.lor 0x80 (Z.land 0x3f (Z.shiftr cp 6)); Z.lor 0x80 (Z.land 0x3f cp)]
  else [].

Definition hex_value (c : Z) : option Z :=
  if (48 <=? c) && (c <=? 57) then Some (c - 48)
  else if (97 <=? c) && (c <=? 102) then Some (c - 97 + 10)
  else if (65 <=? c) && (c <=? 70) then Some (c - 65 + 10)
  else None.

(** Four hexadecimal digits. *)
Definition decodeUnicodeEscapeSequence (a b c d : Z) : option Z :=
  a ← hex_value a; b ← hex_value b; c ← hex_value c; d ← hex_value d;
  Some (((a * 16 + b) * 16 + c) * 16 + d).

Definition simple_escape (e : Z) : option Z :=
  if e =? 34 then Some 34
  else if e =? 47 then Some 47
  else if e =? 92 then Some 92
  else if e =? 98 then Some 8
  else if e =? 102 then Some 12
  else if e =? 110 then Some 10
  else if e =? 114 then Some 13
  else if e =? 116 then Some 9
  else None.

(** The characters between the quotes; [None] for a bad escape. *)
Fixpoint decode_chars (s : str) : option str :=
  match s with
  | [] => Some []
  | c :: s =>
      if c =? 34 then Some []
      else if c =? 92 then
        match s with
        | [] => None
        | e :: s =>
            if e =? 117 then
              match s with
              | a :: b :: c :: d :: s =>
                  u ← decodeUnicodeEscapeSequence a b c d;
                  if (0xD800 <=? u) && (u <=? 0xDBFF) then
                    match s with
                    | p :: q :: a :: b :: c :: d :: s =>
                        if (p =? 92) && (q =? 117) then
                          lo ← decodeUnicodeEscapeSequence a b c d;
                          r ← decode_chars s;
                          Some (codePointToUTF8 (0x10000 + Z.shiftl (Z.land u 0x3FF) 10 + Z.land lo 0x3FF) ++ r)
                        else None
                    | _ => None
                    end
                  else r ← decode_chars s; Some (codePointToUTF8 u ++ r)
              | _ => None
              end
            else x ← simple_escape e; r ← decode_chars s; Some (x :: r)
        end
      else r ← decode_chars s; Some (c :: r)
  end.

Definition decodeString (t : Token) : option str :=
  decode_chars (take (List.length (text_ t) - 2) (drop 1 (text_ t))).

(** ** Numbers and values *)

Section Reader.
Context (sscanf_lf : str -> option spec_float).

(** The buffer has 32 characters and the terminating zero is stored behind the
    text: a text of exactly 32 characters writes past the buffer. *)
Definition decodeDouble (t : Token) : outcome (option Value) :=
  if (List.length (text_ t) =? 32)%nat then Fault OutOfRange
  else Ok (realValue <$> sscanf_lf (text_ t)).

Inductive number_scan := NotANumber | TooBig | Scanned (z : Z).

Fixpoint scan_digits (threshold value : Z) (s : str) : number_scan :=
  match s with
  | [] => Scanned value
  | c :: s =>
      if negb (is_digit c) then NotANumber
      else if threshold <=? value then TooBig
      else scan_digits threshold (u32 (value * 10 + (c - 48))) s
  end.

Definition is_double (text : str) : bool :=
  existsb (fun c => (c =? 46) || (c =? 101) || (c =? 69) || (c =? 43)) text ||
  existsb (fun c => c =? 45) (drop 1 text).

Definition decodeNumber (t : Token) : outcome (option Value) :=
  if is_double (text_ t) then decodeDouble t
  else
    let isNegative := peek (text_ t) =? 45 in
    let threshold := (if isNegative then 2 ^ 31 else 2 ^ 32 - 1) / 10 in
    match scan_digits threshold 0 (if isNegative then drop 1 (text_ t) else text_ t) with
    | NotANumber => Ok None
    | TooBig => decodeDouble t
    | Scanned value =>
        Ok (Some (if isNegative then intValue (i32 (- i32 value))
                  else if value <=? 2 ^ 31 - 1 then intValue value
                  else uintValue value))
    end.

Definition decoded (v : Value) (s : str) (r : option Value) : outcome read_result :=
  match r with
  | Some w => Ok (true, w, s)
  | None => Ok (false, v, s)
  end.

(** [readValue], the loop of [readObject] and the loop of [readArray].  [fuel]
    counts calls: see [parse]. *)
Fixpoint readValue (fuel : nat) (v : Value) (s : str) {struct fuel} : outcome read_result :=
  match fuel with
  | O => Fault NoFuel
  | S fuel =>
      ts ← skipCommentTokens s;
      let '(t, s) := (ts : Token * str) in
      match type_ t with
      | tokenObjectBegin => readObject fuel (objectValue []) [] s
      | tokenArrayBegin =>
          let s := skipSpaces s in
          if peek s =? 93 then Ok (true, arrayValue [], snd (readToken s))
          else readArray fuel (arrayValue []) s
      | tokenNumber => r ← decodeNumber t; decoded v s r
      | tokenString => decoded v s (stringValue <$> decodeString t)
      | tokenTrue => Ok (true, booleanValue true, s)
      | tokenFalse => Ok (true, booleanValue false, s)
      | tokenNull => Ok (true, nullValue, s)
      | _ => Ok (false, v, s)
      end
  end
with readObject (fuel : nat) (v : Value) (name : str) (s : str) {struct fuel} : outcome read_result :=
  match fuel with
  | O => Fault NoFuel
  | S fuel =>
      ts ← skipCommentTokens s;
      let '(t, s) := (ts : Token * str) in
      if bool_decide (type_ t = tokenObjectEnd /\ name = []) then Ok (true, v, s)
      else if bool_decide (type_ t <> tokenString) then recoverFromError tokenObjectEnd v s
      else
        match decodeString t with
        | None => recoverFromError tokenObjectEnd v s
        | Some name =>
            let '(colon, s) := readToken s in
            if bool_decide (type_ colon <> tokenMemberSeparator) then recoverFromError tokenObjectEnd v s
            else
              wv ← resolveReference v name;
              r ← readValue fuel (fst wv) s;
              let '(ok, w, s) := (r : read_result) in
              v ← set_member (snd wv) name w;
              if negb ok then recoverFromError tokenObjectEnd v s
              else
                let '(comma, s) := readToken s in
                if bool_decide (type_ comma <> tokenObjectEnd /\ type_ comma <> tokenArraySeparator /\
                                type_ comma <> tokenComment)
                then recoverFromError tokenObjectEnd v s
                else
                  cs ← (if bool_decide (type_ comma = tokenComment) then skipCommentTokens s
                        else Ok (comma, s));
                  if bool_decide (type_ (fst cs) = tokenObjectEnd) then Ok (true, v, snd cs)
                  else readObject fuel v name (snd cs)
        end
  end
with readArray (fuel : nat) (v : Value) (s : str) {struct fuel} : outcome read_result :=
  match fuel with
  | O => Fault NoFuel
  | S fuel =>
      r ← readValue fuel nullValue s;
      let '(ok, w, s) := (r : read_result) in
      v ← append_ v w;
      if negb ok then recoverFromError tokenArrayEnd v s
      else
        ts ← skipCommentTokens s;
        let '(t, s) := (ts : Token * str) in
        if bool_decide (type_ t = tokenArrayEnd) then Ok (true, v, s)
        else readArray fuel v s
  end.

(** Every call takes a character or is the first for an element of an array, so
    twice the length bounds the depth. *)
Definition parse (doc : str) (root : Value) : outcome (bool * Value) :=
  r ← readValue (2 * List.length doc + 1) root doc;
  let '(ok, v, s) := (r : read_result) in
  _ ← skipCommentTokens s;
  Ok (ok, v).

(** Reading a stream stops at the character [(char)EOF]. *)
Fixpoint getline_eof (s : str) : str :=
  match s with
  | [] => []
  | c :: s => if c =? 255 then [] else c :: getline_eof s
  end.

Definition parse_stream (file : str) (root : Value) : outcome (bool * Value) :=
  parse (getline_eof file) root.

End Reader.

(** ** The reader moves forward *)


Create HintDb suffixes.
#[export] Hint Resolve suffix_cons_r suffix_nil : suffixes.

Lemma skipSpaces_suffix s : skipSpaces s `suffix_of` s.
Proof. induction s as [|c s IH]; simpl; [done|]. destruct (is_space c); auto with suffixes. Qed.

Lemma readNumber_suffix s : readNumber s `suffix_of` s.
Proof. induction s as [|c s IH]; simpl; [done|]. destruct (number_char c); auto with suffixes. Qed.

Lemma readString_suffix c s : snd (readString_loop c s) `suffix_of` s.
Proof.
  revert c. induction s as [s IH] using (induction_ltof1 _ (@List.length _)). unfold ltof in IH.
  intros c. destruct s as [|d s]; [done|]. simpl.
  destruct (d =? 92).
  - destruct s as [|e s]; [apply suffix_nil|]. do 2 apply suffix_cons_r. apply IH. simpl. lia.
  - destruct (d =? 34); simpl; [auto with suffixes|]. apply suffix_cons_r, IH. simpl. lia.
Qed.

Lemma getNextChar_suffix s : snd (getNextChar s) `suffix_of` s.
Proof. destruct s; simpl; auto with suffixes. Qed.

Lemma cstyle_suffix s : cstyle_loop s `suffix_of` s.
Proof. induction s as [|c s IH]; simpl; [done|]. destruct (_ && _); auto with suffixes. Qed.

Lemma cpp_suffix s : readCppStyleComment s `suffix_of` s.
Proof. induction s as [|c s IH]; simpl; [done|]. destruct (_ || _); auto with suffixes. Qed.

Lemma readComment_suffix s : snd (readComment s) `suffix_of` s.
Proof.
  unfold readComment. destruct (getNextChar s) as [c s1] eqn:E.
  assert (H1 : s1 `suffix_of` s) by (rewrite <- (getNextChar_suffix s), E; done).
  destruct (c =? 42); [|destruct (c =? 47)]; simpl; [| |done].
  - unfold readCStyleComment. destruct (getNextChar (cstyle_loop s1)) as [d s2] eqn:E2. simpl.
    rewrite <- H1, <- (cstyle_suffix s1), <- (getNextChar_suffix (cstyle_loop s1)), E2. done.
  - rewrite <- H1. apply cpp_suffix.
Qed.

Lemma matched_suffix t p s : snd (matched t p s) `suffix_of` s.
Proof.
  unfold matched, match_. case_bool_decide; [|done]. simpl.
  exists (take (List.length p) s). by rewrite take_drop.
Qed.

Lemma scan_token_suffix c s : snd (scan_token c s) `suffix_of` s.
Proof.
  unfold scan_token.
  repeat (match goal with |- context [if ?b then _ else _] => destruct b end; [try done|]); try done.
  - pose proof (readString_suffix 0 s) as H. unfold readString. by destruct (readString_loop 0 s).
  - pose proof (readComment_suffix s) as H. by destruct (readComment s).
  - apply readNumber_suffix.
  - apply matched_suffix.
  - apply matched_suffix.
  - apply matched_suffix.
Qed.

(** A token is a non-empty prefix of what is left after blanks, unless the end
    of the document is reached. *)
Lemma readToken_progress s t r : readToken s = (t, r) ->
  r `suffix_of` s /\ skipSpaces s = text_ t ++ r /\
  (type_ t <> tokenEndOfStream -> (List.length r < List.length s)%nat).
Proof.
  unfold readToken. pose proof (skipSpaces_suffix s) as H0.
  destruct (getNextChar (skipSpaces s)) as [c s1] eqn:E1.
  pose proof (scan_token_suffix c s1) as H2. destruct (scan_token c s1) as [[ty ok] s2] eqn:E2. simpl in H2.
  assert (H1 : s1 `suffix_of` skipSpaces s) by (rewrite <- (getNextChar_suffix (skipSpaces s)), E1; done).
  intros [= <- <-]. simpl. split; [by rewrite H2, H1|]. split.
  - assert (H : s2 `suffix_of` skipSpaces s) by (by rewrite H2, H1).
    destruct H as [p Hp]. rewrite Hp, length_app.
    by replace (_ + _ - _)%nat with (List.length p) by lia; rewrite take_app_length.
  - intros Hne. apply suffix_length in H0, H2. destruct (skipSpaces s) as [|d s'] eqn:E; simpl in E1.
    + injection E1 as <- <-. exfalso. apply Hne. cbv in E2. by injection E2 as <- <- <-.
    + injection E1 as <- <-. simpl in H0. lia.
Qed.

Lemma readNumber_split s : exists p, s = p ++ readNumber s /\ Forall (fun c => number_char c = true) p.
Proof.
  induction s as [|c s (p & IH & Hp)]; simpl; [by exists []|].
  destruct (number_char c) eqn:Ec; [|by exists []].
  exists (c :: p). split; [simpl; by rewrite <- IH|by constructor].
Qed.

Lemma scan_token_number c s ok r :
  scan_token c s = (tokenNumber, ok, r) -> (is_digit c || (c =? 45)) = true /\ r = readNumber s.
Proof.
  unfold scan_token, matched. intros H.
  repeat match type of H with
  | context [if ?b then _ else _] => destruct b eqn:?; try discriminate H
  | context [let '(_, _) := ?x in _] => destruct x; try discriminate H
  | context [match ?x with Some _ => _ | None => _ end] => destruct x; try discriminate H
  end.
  by injection H as <- <-.
Qed.

(** A number token consists of the characters of numbers. *)
Lemma readToken_number s t r : readToken s = (t, r) -> type_ t = tokenNumber ->
  Forall (fun c => number_char c = true) (text_ t).
Proof.
  intros H. pose proof (readToken_progress _ _ _ H) as (_ & Hs & _). revert H. unfold readToken.
  destruct (getNextChar (skipSpaces s)) as [c s1] eqn:E1.
  destruct (scan_token c s1) as [[ty ok] s2] eqn:E2. intros H.
  assert (Et : type_ t = if ok then ty else tokenError) by (by injection H as <- _).
  assert (Er : s2 = r) by (by injection H as _ <-). clear H. subst s2. intros Ht.
  rewrite Ht in Et. destruct ok; [subst ty|discriminate].
  apply scan_token_number in E2 as [Hc ->]. destruct (skipSpaces s) as [|d s'] eqn:E; simpl in E1.
  { by injection E1 as <- <-. }
  injection E1 as <- <-. destruct (readNumber_split s') as (p & Hp & Hall).
  assert (text_ t = d :: p) as ->.
  { apply (app_inv_tail (readNumber s')). rewrite <- Hs, Hp at 1. done. }
  constructor; [|done]. unfold number_char.
  apply orb_true_iff in Hc as [->| ->]; [done|by rewrite !orb_true_r].
Qed.

Lemma skip_comments_ok fuel s : (List.length s < fuel)%nat ->
  exists t r s', skip_comments fuel s = Ok (t, r) /\ readToken s' = (t, r) /\ s' `suffix_of` s /\
    r `suffix_of` s /\ (type_ t <> tokenEndOfStream -> (List.length r < List.length s)%nat).
Proof.
  revert s. induction fuel as [|fuel IH]; intros s Hf; [lia|]. simpl.
  destruct (readToken s) as [t r] eqn:E. pose proof (readToken_progress _ _ _ E) as (Hr & _ & Hlt).
  case_decide as Hc; [|by eauto 10].
  destruct (IH r) as (t' & r' & s' & -> & Es & Hs' & Hr' & Hlt').
  { rewrite Hc in Hlt. specialize (Hlt ltac:(done)). lia. }
  exists t', r', s'. split; [done|]. split; [done|]. split; [by rewrite Hs'|]. split; [by rewrite Hr'|].
  intros Hne. specialize (Hlt' Hne). apply suffix_length in Hr. lia.
Qed.

Lemma skipCommentTokens_ok s :
  exists t r s', skipCommentTokens s = Ok (t, r) /\ readToken s' = (t, r) /\ s' `suffix_of` s /\
    r `suffix_of` s /\ (type_ t <> tokenEndOfStream -> (List.length r < List.length s)%nat).
Proof. apply skip_comments_ok. lia. Qed.

Lemma recover_loop_ok fuel u s : (List.length s < fuel)%nat ->
  exists r, recover_loop fuel u s = Ok r /\ r `suffix_of` s.
Proof.
  revert s. induction fuel as [|fuel IH]; intros s Hf; [lia|]. simpl.
  destruct (readToken s) as [t r] eqn:E. pose proof (readToken_progress _ _ _ E) as (Hr & _ & Hlt).
  case_decide as Hc; [by eauto|]. destruct (IH r) as (r' & -> & Hr').
  { pose proof (Hlt ltac:(tauto)). lia. }
  exists r'. split; [done|]. by rewrite Hr'.
Qed.

Lemma recoverFromError_ok u v s :
  exists r, recoverFromError u v s = Ok (false, v, r) /\ r `suffix_of` s.
Proof.
  unfold recoverFromError. destruct (recover_loop_ok (S (List.length s)) u s) as (r & -> & Hr); [lia|].
  simpl. eauto.
Qed.

(** Thirty-two characters of numbers in a row. *)
Definition long_numeral (doc : str) : Prop :=
  exists a b c, doc = a ++ b ++ c /\ List.length b = 32%nat /\ Forall (fun c => number_char c = true) b.

Lemma long_numeral_suffix r s : long_numeral r -> r `suffix_of` s -> long_numeral s.
Proof.
  intros (a & b & c & -> & Hb) [p ->]. exists (p ++ a), b, c. by rewrite <- app_assoc.
Qed.

(** What every reading operation guarantees: it returns, moves forward when it
    succeeds, and only a numeral of 32 characters makes it fail. *)
Definition read_ok (s : str) (o : outcome read_result) : Prop :=
  match o with
  | Ok (ok, _, r) => r `suffix_of` s /\ (ok = true -> (List.length r < List.length s)%nat)
  | Fault OutOfRange => long_numeral s
  | Fault _ => False
  end.

Lemma read_ok_suffix r s o : r `suffix_of` s -> read_ok r o -> read_ok s o.
Proof.
  intros H. unfold read_ok. destruct o as [[[ok v] r']|f].
  - intros [Hr Hlt]. split; [by rewrite Hr|]. intros Hok. specialize (Hlt Hok). apply suffix_length in H. lia.
  - destruct f; auto. intros Hl. by apply (long_numeral_suffix r).
Qed.

Lemma recover_read_ok u v r s : r `suffix_of` s -> read_ok s (recoverFromError u v r).
Proof.
  intros H. destruct (recoverFromError_ok u v r) as (r' & -> & Hr'). simpl. split; [by rewrite Hr'|done].
Qed.

Section Total.
Context (sscanf_lf : str -> option spec_float).

Lemma decodeDouble_ok t v s r :
  Forall (fun c => number_char c = true) (text_ t) -> (exists p, s = p ++ text_ t ++ r) ->
  read_ok s (o ← decodeDouble sscanf_lf t; decoded v r o) \/
  (exists w, decodeDouble sscanf_lf t = Ok w).
Proof.
  intros Ht (p & Hp). unfold decodeDouble. destruct (Nat.eqb_spec (List.length (text_ t)) 32) as [E|E]; [|eauto].
  left. simpl. exists p, (text_ t), r. auto.
Qed.

Lemma decodeNumber_ok t v s r :
  Forall (fun c => number_char c = true) (text_ t) -> (exists p, s = p ++ text_ t ++ r) ->
  (List.length r < List.length s)%nat ->
  read_ok s (o ← decodeNumber sscanf_lf t; decoded v r o).
Proof.
  intros Ht Hp Hlt.
  assert (Hd : forall o, read_ok s (decoded v r o)).
  { assert (r `suffix_of` s) by (destruct Hp as [p ->]; exists (p ++ text_ t); by rewrite app_assoc).
    intros [w|]; simpl; auto. }
  assert (HD : read_ok s (o ← decodeDouble sscanf_lf t; decoded v r o)).
  { destruct (decodeDouble_ok t v s r Ht Hp) as [|[w ->]]; [done|]. apply Hd. }
  unfold decodeNumber. destruct (is_double (text_ t)); [done|].
  destruct (scan_digits _ _ _); [apply Hd|done|apply Hd].
Qed.

Lemma resolveReference_object m key : exists w m',
  resolveReference (objectValue m) key = Ok (w, objectValue m').
Proof. unfold resolveReference. destruct (map_find _ m); eauto. Qed.

Definition readers_ok (fuel : nat) : Prop :=
  (forall v s, (2 * List.length s + 1 <= fuel)%nat -> read_ok s (readValue sscanf_lf fuel v s)) /\
  (forall m name s, (2 * List.length s + 2 <= fuel)%nat ->
     read_ok s (readObject sscanf_lf fuel (objectValue m) name s)) /\
  (forall l s, (2 * List.length s + 2 <= fuel)%nat ->
     read_ok s (readArray sscanf_lf fuel (arrayValue l) s)).

Lemma readValue_ok fuel v s : readers_ok fuel -> (2 * List.length s <= fuel)%nat ->
  read_ok s (readValue sscanf_lf (S fuel) v s).
Proof.
  intros (_ & HO & HA) Hf. cbn [readValue].
  destruct (skipCommentTokens_ok s) as (t & r & s' & -> & Et & Hs' & Hr & Hlt).
  cbn [mbind outcome_bind]. destruct (type_ t) eqn:Ety; try (specialize (Hlt ltac:(done)));
    try (simpl; split; [done|intros; try done; lia]).
  - apply (read_ok_suffix r); [done|]. apply HO. lia.
  - pose proof (skipSpaces_suffix r) as Hsp. destruct (peek (skipSpaces r) =? 93).
    + destruct (readToken (skipSpaces r)) as [t' r'] eqn:E'. simpl.
      pose proof (readToken_progress _ _ _ E') as (Hr' & _).
      split; [by rewrite Hr', Hsp|]. intros _. apply suffix_length in Hr', Hsp. lia.
    + apply (read_ok_suffix (skipSpaces r)); [by rewrite Hsp|]. apply HA. apply suffix_length in Hsp. lia.
  - destruct (decodeString t); simpl; auto.
  - apply decodeNumber_ok; [by eapply readToken_number| |done].
    pose proof (readToken_progress _ _ _ Et) as (_ & E & _).
    destruct Hs' as [p ->], (skipSpaces_suffix s') as [q Eq]. exists (p ++ q).
    by rewrite Eq, E at 1; rewrite <- app_assoc.
Qed.

Lemma readObject_ok fuel m name s : readers_ok fuel -> (2 * List.length s + 1 <= fuel)%nat ->
  read_ok s (readObject sscanf_lf (S fuel) (objectValue m) name s).
Proof.
  intros (HV & HO & _) Hf. cbn [readObject].
  destruct (skipCommentTokens_ok s) as (t & r & s' & -> & Et & Hs' & Hr & Hlt).
  cbn [mbind outcome_bind]. case_bool_decide as H1.
  { destruct H1 as [H1 _]. rewrite H1 in Hlt. split; auto. }
  case_bool_decide as H2; [by apply recover_read_ok|].
  rewrite H2 in Hlt. specialize (Hlt ltac:(done)).
  destruct (decodeString t) as [name'|]; [|by apply recover_read_ok].
  destruct (readToken r) as [colon r1] eqn:E1. pose proof (readToken_progress _ _ _ E1) as (Hr1 & _ & _).
  assert (Hs1 : r1 `suffix_of` s) by (by rewrite Hr1).
  case_bool_decide as H3; [by apply recover_read_ok|].
  destruct (resolveReference_object m name') as (w & m' & ->). cbn [mbind outcome_bind fst snd].
  pose proof (HV w r1) as HVr. apply suffix_length in Hr1 as Hl1. specialize (HVr ltac:(lia)).
  destruct (readValue sscanf_lf fuel w r1) as [[[ok w'] r2]|f] eqn:E2.
  2: { cbn [mbind outcome_bind]. by apply (read_ok_suffix r1 s (Fault f)). }
  cbn [mbind outcome_bind set_member]. destruct HVr as [Hr2 Hlt2].
  assert (Hs2 : r2 `suffix_of` s) by (by rewrite Hr2).
  destruct ok; [|by apply recover_read_ok]. cbn [negb].
  destruct (readToken r2) as [comma r3] eqn:E3. pose proof (readToken_progress _ _ _ E3) as (Hr3 & _ & Hlt3).
  assert (Hs3 : r3 `suffix_of` s) by (by rewrite Hr3).
  apply suffix_length in Hr2 as Hl2, Hr3 as Hl3. specialize (Hlt2 eq_refl).
  case_bool_decide as H4; [by apply recover_read_ok|].
  assert (Hcs : exists c r4, (if bool_decide (type_ comma = tokenComment) then skipCommentTokens r3
                 else Ok (comma, r3)) = Ok (c, r4) /\ r4 `suffix_of` r3).
  { case_bool_decide; [|by eauto]. destruct (skipCommentTokens_ok r3) as (c & r4 & _ & -> & _ & _ & Hx & _).
    eauto. }
  destruct Hcs as (c & r4 & -> & Hr4). cbn [mbind outcome_bind fst snd].
  apply suffix_length in Hr4 as Hl4. assert (Hs4 : r4 `suffix_of` s) by (by rewrite Hr4).
  case_bool_decide; [simpl; split; [done|lia]|].
  apply (read_ok_suffix r4); [done|]. apply HO. lia.
Qed.

Lemma readArray_ok fuel l s : readers_ok fuel -> (2 * List.length s + 1 <= fuel)%nat ->
  read_ok s (readArray sscanf_lf (S fuel) (arrayValue l) s).
Proof.
  intros (HV & _ & HA) Hf. cbn [readArray].
  pose proof (HV nullValue s Hf) as HVs.
  destruct (readValue sscanf_lf fuel nullValue s) as [[[ok w] r]|f] eqn:E; [|done].
  cbn [mbind outcome_bind append_]. destruct HVs as [Hr Hlt].
  destruct ok; [|by apply recover_read_ok]. specialize (Hlt eq_refl). cbn [negb].
  destruct (skipCommentTokens_ok r) as (t & r' & s' & -> & Et & Hs' & Hr' & Hlt').
  cbn [mbind outcome_bind]. apply suffix_length in Hr' as Hl'. assert (Hs : r' `suffix_of` s) by (by rewrite Hr').
  case_bool_decide; [simpl; split; [done|lia]|].
  apply (read_ok_suffix r'); [done|]. apply HA. lia.
Qed.

Lemma readers_total fuel : readers_ok fuel.
Proof.
  induction fuel as [|fuel IH]; [split; [|split]; intros; lia|].
  split; [|split]; intros.
  - apply readValue_ok; [done|lia].
  - apply readObject_ok; [done|lia].
  - apply readArray_ok; [done|lia].
Qed.
(** The bound that [parse] computes is enough. *)
Lemma readValue_total v s : read_ok s (readValue sscanf_lf (2 * List.length s + 1) v s).
Proof. by apply readers_total. Qed.

(** C35: parsing ends on every document, whatever its text: the reader returns a
    verdict and a value, except that a numeral of exactly 32 characters that is
    not a small integer overruns the buffer of [decodeDouble]. *)
Theorem parse_terminates doc root :
  (exists ok v, parse sscanf_lf doc root = Ok (ok, v)) \/
  (parse sscanf_lf doc root = Fault OutOfRange /\ long_numeral doc).
Proof.
  unfold parse. pose proof (readValue_total root doc) as H.
  destruct (readValue _ _ _ _) as [[[ok v] r]|[]]; try done; [left|by right].
  cbn [mbind outcome_bind]. destruct (skipCommentTokens_ok r) as (t & r' & s' & -> & _). simpl. eauto.
Qed.

(** More fuel does not change a result. *)
Definition readers_mono (fuel fuel' : nat) : Prop :=
  (forall v s, readValue sscanf_lf fuel v s <> Fault NoFuel ->
     readValue sscanf_lf fuel' v s = readValue sscanf_lf fuel v s) /\
  (forall v name s, readObject sscanf_lf fuel v name s <> Fault NoFuel ->
     readObject sscanf_lf fuel' v name s = readObject sscanf_lf fuel v name s) /\
  (forall v s, readArray sscanf_lf fuel v s <> Fault NoFuel ->
     readArray sscanf_lf fuel' v s = readArray sscanf_lf fuel v s).

Lemma readers_mono_le fuel fuel' : (fuel <= fuel')%nat -> readers_mono fuel fuel'.
Proof.
  revert fuel'. induction fuel as [|fuel IH]; intros [|fuel'] Hle; try (split; [|split]; done); [lia|].
  destruct (IH fuel' ltac:(lia)) as (HV & HO & HA). split; [|split]; intros v.
  - intros s H. cbn [readValue] in *. destruct (skipCommentTokens s) as [[t r]|]; [|done].
    cbn [mbind outcome_bind] in *. destruct (type_ t); auto. destruct (peek _ =? 93); auto.
  - intros name s H. cbn [readObject] in *. destruct (skipCommentTokens s) as [[t r]|]; [|done].
    cbn [mbind outcome_bind] in *. case_bool_decide; [done|]. case_bool_decide; [done|].
    destruct (decodeString t) as [name'|]; [|done]. destruct (readToken r) as [colon r1].
    case_bool_decide; [done|].
    destruct (resolveReference v name') as [wv|]; [|done]. cbn [mbind outcome_bind] in *.
    rewrite HV by (intros E; rewrite E in H; done).
    destruct (readValue sscanf_lf fuel wv.1 r1) as [[[ok w] r2]|]; [|done]. cbn [mbind outcome_bind] in *.
    destruct (set_member _ _ _) as [v'|]; [|done]. cbn [mbind outcome_bind] in *.
    destruct (negb ok); [done|]. destruct (readToken r2) as [comma r3]. case_bool_decide; [done|].
    destruct (if bool_decide _ then _ else _) as [cs|]; [|done]. cbn [mbind outcome_bind] in *.
    case_bool_decide; auto.
  - intros s H. cbn [readArray] in *. rewrite HV by (intros E; rewrite E in H; done).
    destruct (readValue sscanf_lf fuel nullValue s) as [[[ok w] r]|]; [|done]. cbn [mbind outcome_bind] in *.
    destruct (append_ v w) as [v'|]; [|done]. cbn [mbind outcome_bind] in *. destruct (negb ok); [done|].
    destruct (skipCommentTokens r) as [[t r']|]; [|done]. cbn [mbind outcome_bind] in *.
    case_bool_decide; auto.
Qed.

(** A result for some bound is the result for the bound of [parse]. *)
Lemma readValue_any fuel v s r : readValue sscanf_lf fuel v s = Ok r ->
  readValue sscanf_lf (2 * List.length s + 1) v s = Ok r.
Proof.
  intros H. set (n := (2 * List.length s + 1)%nat).
  pose proof (readValue_total v s) as Ht. fold n in Ht.
  destruct (Nat.le_ge_cases fuel n) as [Hle|Hle].
  - rewrite <- H. apply (readers_mono_le fuel n Hle). by rewrite H.
  - assert (Hn : readValue sscanf_lf n v s <> Fault NoFuel) by (intros E; by rewrite E in Ht).
    destruct (readers_mono_le n fuel Hle) as (HV & _). rewrite <- (HV v s Hn). done.
Qed.

End Total.

(** ** Values that are read are well-formed *)

Lemma bytes_suffix r s : r `suffix_of` s -> bytes s -> bytes r.
Proof. intros [p ->] H. by apply Forall_app in H as [_ H]. Qed.

Lemma lor_lt_256 a b : 0 <= a < 256 -> 0 <= b < 256 -> 0 <= Z.lor a b < 256.
Proof.
  intros Ha Hb. split; [apply Z.lor_nonneg; lia|].
  apply (proj2 (testbit_range 8 (Z.lor a b) ltac:(lia) ltac:(apply Z.lor_nonneg; lia))).
  intros k Hk. rewrite Z.lor_spec.
  rewrite (proj1 (testbit_range 8 a ltac:(lia) ltac:(lia)) ltac:(lia) k Hk).
  by rewrite (proj1 (testbit_range 8 b ltac:(lia) ltac:(lia)) ltac:(lia) k Hk).
Qed.

Lemma land_lt_256 a b : 0 <= a < 256 -> 0 <= b -> 0 <= Z.land a b < 256.
Proof.
  intros Ha Hb. assert (H0 : 0 <= Z.land a b) by (apply Z.land_nonneg; lia).
  split; [done|]. apply (proj2 (testbit_range 8 (Z.land a b) ltac:(lia) H0)).
  intros k Hk. rewrite Z.land_spec.
  by rewrite (proj1 (testbit_range 8 a ltac:(lia) ltac:(lia)) ltac:(lia) k Hk).
Qed.

Lemma codePointToUTF8_bytes cp : 0 <= cp -> bytes (codePointToUTF8 cp).
Proof.
  intros H. unfold codePointToUTF8.
  assert (Hs : forall n, 0 <= Z.shiftr cp n) by (intros n; by apply Z.shiftr_nonneg).
  destruct (Z.leb_spec cp 0x7f); [repeat constructor; lia|].
  repeat (match goal with |- context [if ?b then _ else _] => destruct b end;
    [repeat constructor; (apply lor_lt_256; [lia|apply land_lt_256; auto; lia])|]).
  constructor.
Qed.

Lemma decodeUnicodeEscapeSequence_nonneg a b c d u : decodeUnicodeEscapeSequence a b c d = Some u -> 0 <= u.
Proof.
  assert (Hd : forall x y, hex_value x = Some y -> 0 <= y).
  { intros x y. unfold hex_value. destruct ((48 <=? x) && (x <=? 57)) eqn:E1; [intros [= <-]; lia|].
    destruct ((97 <=? x) && (x <=? 102)) eqn:E2; [intros [= <-]; lia|].
    destruct ((65 <=? x) && (x <=? 70)) eqn:E3; [intros [= <-]; lia|done]. }
  unfold decodeUnicodeEscapeSequence. intros H.
  apply bind_Some in H as (a' & Ha & H). apply bind_Some in H as (b' & Hb & H).
  apply bind_Some in H as (c' & Hc & H). apply bind_Some in H as (d' & Hd' & [= <-]).
  apply Hd in Ha, Hb, Hc, Hd'. lia.
Qed.

Lemma simple_escape_byte e x : simple_escape e = Some x -> 0 <= x < 256.
Proof.
  unfold simple_escape.
  repeat (match goal with |- context [if ?b then _ else _] => destruct b end; [intros [= <-]; lia|]). done.
Qed.

Lemma decode_chars_bytes s r : bytes s -> decode_chars s = Some r -> bytes r.
Proof.
  revert r. induction s as [s IH] using (induction_ltof1 _ (@List.length _)). unfold ltof in IH.
  intros r Hs H. destruct s as [|c s]; [by injection H as <-|]. cbn [decode_chars] in H.
  apply Forall_cons in Hs as [Hc Hs].
  destruct (c =? 34); [by injection H as <-|]. destruct (c =? 92).
  2: { apply bind_Some in H as (r' & Hr & [= <-]). constructor; [done|].
       eapply (IH s); [simpl; lia|done..]. }
  destruct s as [|e s]; [done|]. apply Forall_cons in Hs as [He Hs]. destruct (e =? 117).
  2: { apply bind_Some in H as (x & Hx & H). apply bind_Some in H as (r' & Hr & [= <-]).
       constructor; [by eapply simple_escape_byte|]. eapply (IH s); [simpl; lia|done..]. }
  destruct s as [|a1 [|b1 [|c1 [|d1 s]]]]; try done. do 4 apply Forall_cons in Hs as [_ Hs].
  apply bind_Some in H as (u & Hu & H). destruct (_ && _).
  - destruct s as [|p [|q [|a2 [|b2 [|c2 [|d2 s]]]]]]; try done. do 6 apply Forall_cons in Hs as [_ Hs].
    destruct (_ && _); [|done]. apply bind_Some in H as (lo & Hlo & H).
    apply bind_Some in H as (r' & Hr & [= <-]). apply Forall_app. split.
    + apply codePointToUTF8_bytes. assert (0 <= Z.land lo 0x3FF) by (apply Z.land_nonneg; lia).
      assert (0 <= Z.shiftl (Z.land u 0x3FF) 10) by (apply Z.shiftl_nonneg, Z.land_nonneg; lia). lia.
    + eapply (IH s); [simpl; lia|done..].
  - apply bind_Some in H as (r' & Hr & [= <-]). apply Forall_app. split.
    + by eapply codePointToUTF8_bytes, decodeUnicodeEscapeSequence_nonneg.
    + eapply (IH s); [simpl; lia|done..].
Qed.

Lemma readToken_bytes s t r : bytes s -> readToken s = (t, r) -> bytes (text_ t) /\ bytes r.
Proof.
  intros Hs H. apply readToken_progress in H as (Hr & E & _). split; [|by eapply bytes_suffix].
  pose proof (bytes_suffix _ _ (skipSpaces_suffix s) Hs) as Hb. rewrite E in Hb. by apply Forall_app in Hb as [? _].
Qed.

Lemma skipCommentTokens_bytes s t r : bytes s -> skipCommentTokens s = Ok (t, r) -> bytes (text_ t) /\ bytes r.
Proof.
  intros Hs. destruct (skipCommentTokens_ok s) as (t' & r' & s' & -> & Et & Hs' & _). intros [= -> ->].
  eapply readToken_bytes; [|done]. by eapply bytes_suffix.
Qed.

Lemma recoverFromError_bytes u v s ok w r :
  bytes s -> recoverFromError u v s = Ok (ok, w, r) -> w = v /\ bytes r.
Proof.
  intros Hs. destruct (recoverFromError_ok u v s) as (r' & -> & Hr'). intros [= <- <- <-].
  split; [done|]. by eapply bytes_suffix.
Qed.

Lemma decodeString_bytes t n : bytes (text_ t) -> decodeString t = Some n -> bytes n.
Proof. intros H. apply decode_chars_bytes. by apply Forall_take, Forall_drop. Qed.

Section Types.
Context (sscanf_lf : str -> option spec_float).

Lemma decodeNumber_wf t w : decodeNumber sscanf_lf t = Ok (Some w) -> well_formed w.
Proof.
  assert (HD : decodeDouble sscanf_lf t = Ok (Some w) -> well_formed w).
  { unfold decodeDouble. destruct (_ =? 32)%nat; [done|]. destruct (sscanf_lf (text_ t)); [|done].
    intros [= <-]. constructor. }
  unfold decodeNumber. destruct (is_double (text_ t)); [done|].
  assert (Hs : forall th s z z', 0 <= z < 2 ^ 32 -> scan_digits th z s = Scanned z' -> 0 <= z' < 2 ^ 32).
  { intros th s. induction s as [|c s IH]; intros z z' Hz; cbn [scan_digits]; [by intros [= <-]|].
    destruct (negb (is_digit c)); [done|]. destruct (th <=? z); [done|]. apply IH, u32_range. }
  destruct (scan_digits _ _ _) eqn:E; [done|done|]. apply Hs in E; [|lia]. intros [= <-].
  destruct (peek (text_ t) =? 45); [constructor; apply i32_range|].
  destruct (Z.leb_spec z (2 ^ 31 - 1)); constructor; lia.
Qed.

Definition result_wf (o : outcome read_result) : Prop :=
  forall ok w r, o = Ok (ok, w, r) -> well_formed w /\ bytes r.

Lemma recover_wf u v s : well_formed v -> bytes s -> result_wf (recoverFromError u v s).
Proof. intros Hv Hs ok w r H. apply recoverFromError_bytes in H as [-> Hr]; auto. Qed.

Definition readers_wf (fuel : nat) : Prop :=
  (forall v s, well_formed v -> bytes s -> result_wf (readValue sscanf_lf fuel v s)) /\
  (forall v name s, well_formed v -> bytes s -> result_wf (readObject sscanf_lf fuel v name s)) /\
  (forall v s, well_formed v -> bytes s -> result_wf (readArray sscanf_lf fuel v s)).

Lemma readValue_wf fuel v s : readers_wf fuel -> well_formed v -> bytes s ->
  result_wf (readValue sscanf_lf (S fuel) v s).
Proof.
  intros (_ & HO & HA) Hv Hs ok w r H. cbn [readValue] in H. apply bind_Ok in H as ([t r1] & E & H).
  apply skipCommentTokens_bytes in E as [Ht Hr1]; [|done].
  destruct (type_ t); try (injection H as <- <- <-; auto with json; fail).
  - exact (HO (objectValue []) [] r1 ltac:(repeat constructor) Hr1 _ _ _ H).
  - assert (Hb : bytes (skipSpaces r1)) by (eapply bytes_suffix; [apply skipSpaces_suffix|done]).
    destruct (_ =? 93); [|exact (HA (arrayValue []) _ ltac:(repeat constructor) Hb _ _ _ H)].
    injection H as <- <- <-. split; [repeat constructor|].
    destruct (readToken (skipSpaces r1)) as [t' r'] eqn:E. by apply readToken_bytes in E as [_ ?].
  - destruct (decodeString t) as [n|] eqn:E; injection H as <- <- <-; [|done].
    split; [|done]. constructor. by eapply decodeString_bytes.
  - apply bind_Ok in H as ([z|] & E & H); injection H as <- <- <-; [|done].
    split; [by eapply decodeNumber_wf|done].
Qed.
Lemma readObject_wf fuel v name s : readers_wf fuel -> well_formed v -> bytes s ->
  result_wf (readObject sscanf_lf (S fuel) v name s).
Proof.
  intros (HV & HO & _) Hv Hs ok w r H. cbn [readObject] in H. apply bind_Ok in H as ([t r1] & E & H).
  apply skipCommentTokens_bytes in E as [Ht Hr1]; [|done].
  case_bool_decide; [by injection H as <- <- <-|].
  case_bool_decide; [by apply recover_wf in H|].
  destruct (decodeString t) as [n|] eqn:En; [|by apply recover_wf in H].
  apply decodeString_bytes in En; [|done].
  destruct (readToken r1) as [colon r2] eqn:E2. apply readToken_bytes in E2 as [_ Hr2]; [|done].
  case_bool_decide; [by apply recover_wf in H|].
  apply bind_Ok in H as ([x v1] & E3 & H). apply resolveReference_wf in E3 as [Hx Hv1]; [|done..].
  apply bind_Ok in H as ([[ok' w'] r3] & E4 & H). apply HV in E4 as [Hw' Hr3]; [|done..].
  apply bind_Ok in H as (v2 & E5 & H). apply set_member_wf in E5; [|done..].
  destruct (negb ok'); [by apply recover_wf in H|].
  destruct (readToken r3) as [comma r4] eqn:E6. apply readToken_bytes in E6 as [_ Hr4]; [|done].
  case_bool_decide; [by apply recover_wf in H|].
  apply bind_Ok in H as ([c r5] & E7 & H). assert (Hr5 : bytes r5).
  { destruct (bool_decide _) in E7; [by apply skipCommentTokens_bytes in E7 as [_ ?]|by injection E7 as <- <-]. }
  case_bool_decide; [by injection H as <- <- <-|by apply HO in H].
Qed.

Lemma readArray_wf fuel v s : readers_wf fuel -> well_formed v -> bytes s ->
  result_wf (readArray sscanf_lf (S fuel) v s).
Proof.
  intros (HV & _ & HA) Hv Hs ok w r H. cbn [readArray] in H.
  apply bind_Ok in H as ([[ok' w'] r1] & E & H). apply HV in E as [Hw' Hr1]; [|constructor|done].
  apply bind_Ok in H as (v1 & E1 & H). apply append_wf in E1; [|done..].
  destruct (negb ok'); [by apply recover_wf in H|].
  apply bind_Ok in H as ([t r2] & E2 & H). apply skipCommentTokens_bytes in E2 as [_ Hr2]; [|done].
  case_bool_decide; [by injection H as <- <- <-|by apply HA in H].
Qed.

Lemma readers_typed fuel : readers_wf fuel.
Proof.
  induction fuel as [|fuel IH]; [by split; [|split]; intros; intros ????|].
  split; [|split]; intros; [by apply readValue_wf|by apply readObject_wf|by apply readArray_wf].
Qed.

(** C36: every value that parsing leaves behind is well-formed, successful or
    not: integers fit their width, strings are bytes, and the members of every
    object are in strictly increasing order of their names, so that no name
    occurs twice. *)
Theorem parse_well_formed doc root ok v :
  bytes doc -> well_formed root -> parse sscanf_lf doc root = Ok (ok, v) -> well_formed v.
Proof.
  intros Hd Hr H. unfold parse in H. apply bind_Ok in H as ([[ok' v'] r] & E & H).
  apply readers_typed in E as [Hv _]; [|done..]. apply bind_Ok in H as (? & _ & [= <- <-]). done.
Qed.

End Types.

Lemma parse_well_formed_witness :
  exists v, parse (fun _ => None) (lit "[{},[1,-2],true,]") nullValue = Ok (false, v) /\ well_formed v.
Proof.
  destruct (parse (fun _ => None) (lit "[{},[1,-2],true,]") nullValue) as [[ok v]|f] eqn:E;
    [|vm_compute in E; discriminate].
  exists v. split; [vm_compute in E |- *; congruence|].
  eapply (parse_well_formed (fun _ => None) (lit "[{},[1,-2],true,]") nullValue).
  - vm_compute. repeat constructor; discriminate.
  - constructor.
  - exact E.
Defined.
