(* ===== verification/JsonWriter.v ===== *)
(** * Writing JSON

    [Json::StyledStreamWriter] (src/Utility/json/json_writer.cpp), which writes
    the bookmark file: the state of the writer with its buffer of rendered
    children, then [render], a plain recursive printer, and the theorem that the
    writer produces the same text.  Printing of a [double] is a parameter. *)
From stdpp Require Import prelude sorting.
From Stdlib Require Import ZArith Lia SpecFloat String.
From S2P Require Import Prelude Strings Json.

(** ** Scalars *)

Definition isControlCharacter (ch : Z) : bool := (0 <? ch) && (ch <=? 0x1F).

Definition containsControlCharacter (s : str) : bool := existsb isControlCharacter s.

(** The digits are stored from the end of the buffer. *)
Fixpoint uint_digits (fuel : nat) (value : Z) (current : str) : str :=
  match fuel with
  | O => current
  | S fuel =>
      let current := value mod 10 + 48 :: current in
      if value / 10 =? 0 then current else uint_digits fuel (value / 10) current
  end.

Definition uintToString (value : Z) : str := uint_digits 31 value [].

Definition valueToString_Int (value : Z) : str :=
  if value <? 0 then 45 :: uintToString (u32 (i32 (- value))) else uintToString (u32 value).

Definition valueToString_UInt (value : Z) : str := uintToString value.

Definition valueToString_bool (value : bool) : str := if value then lit "true" else lit "false".

(** Removing trailing zeros but one from the text [sprintf] made. *)
Fixpoint drop_zeros (rev_buffer : str) : str :=
  match rev_buffer with
  | c :: r => if (c =? 48) && negb (bool_decide (r = [])) then drop_zeros r else rev_buffer
  | [] => []
  end.

(** Whether only digits lie between the end and a point. *)
Fixpoint point_behind_digits (rev_buffer : str) : bool :=
  match rev_buffer with
  | [] => false
  | c :: r => if (48 <=? c) && (c <=? 57) then point_behind_digits r else c =? 46
  end.

Definition truncate_zeros (buffer : str) : str :=
  let kept := drop_zeros (rev buffer) in
  if negb (default 0 (last buffer) =? 48) then buffer
  else if point_behind_digits kept then take (List.length kept + 1) buffer
  else buffer.

(** A hexadecimal digit in upper case. *)
Definition upper_hex (n : Z) : Z := if n <? 10 then 48 + n else 55 + n.

Definition escape_char (c : Z) : str :=
  if c =? 34 then [92; 34]
  else if c =? 92 then [92; 92]
  else if c =? 8 then [92; 98]
  else if c =? 12 then [92; 102]
  else if c =? 10 then [92; 110]
  else if c =? 13 then [92; 114]
  else if c =? 9 then [92; 116]
  else if isControlCharacter c then [92; 117; 48; 48; upper_hex (c / 16); upper_hex (c mod 16)]
  else [c].

Definition has_special (s : str) : bool :=
  existsb (fun c => bool_decide (c ∈ [34; 92; 8; 12; 10; 13; 9])) s.

(** The argument is a [const char *]. *)
Definition valueToQuotedString (value : str) : str :=
  if negb (has_special value) && negb (containsControlCharacter value) then [34] ++ value ++ [34]
  else [34] ++ mjoin (map escape_char value) ++ [34].

(** ** The writer *)

Record StyledStreamWriter := mkWriter {
  document_ : str;
  childValues_ : list str;
  addChildValues_ : bool;
  indentString_ : str
}.

Definition indentation_ : str := [9].
Definition rightMargin_ : Z := 74.

Definition out (s : str) (w : StyledStreamWriter) : StyledStreamWriter :=
  mkWriter (document_ w ++ s) (childValues_ w) (addChildValues_ w) (indentString_ w).

Definition pushValue (value : str) (w : StyledStreamWriter) : StyledStreamWriter :=
  if addChildValues_ w
  then mkWriter (document_ w) (childValues_ w ++ [value]) (addChildValues_ w) (indentString_ w)
  else out value w.

Definition writeIndent (w : StyledStreamWriter) : StyledStreamWriter := out ([10] ++ indentString_ w) w.

Definition writeWithIndent (value : str) (w : StyledStreamWriter) : StyledStreamWriter :=
  out value (writeIndent w).

Definition set_indent (s : str) (w : StyledStreamWriter) : StyledStreamWriter :=
  mkWriter (document_ w) (childValues_ w) (addChildValues_ w) s.

Definition indent (w : StyledStreamWriter) : StyledStreamWriter := set_indent (indentString_ w ++ indentation_) w.

Definition unindent (w : StyledStreamWriter) : StyledStreamWriter :=
  set_indent (take (List.length (indentString_ w) - List.length indentation_) (indentString_ w)) w.

Definition set_add (b : bool) (w : StyledStreamWriter) : StyledStreamWriter :=
  mkWriter (document_ w) (childValues_ w) b (indentString_ w).

Definition clear_children (w : StyledStreamWriter) : StyledStreamWriter :=
  mkWriter (document_ w) [] (addChildValues_ w) (indentString_ w).

(** An array or an object that is not empty. *)
Definition has_content (v : Value) : bool :=
  match v with
  | arrayValue l => 0 <? size_ v
  | objectValue m => 0 <? size_ v
  | _ => false
  end.

Section Writer.
Context (sprintf_g : spec_float -> str).

Definition valueToString_double (x : spec_float) : str := truncate_zeros (sprintf_g x).

Section Array.
Context (writeValue : Value -> StyledStreamWriter -> outcome StyledStreamWriter).

(** The second loop of [isMultineArray]: children are rendered into
    [childValues_]; the state carries the index and the length of the line. *)
Fixpoint measure_children (index lineLength : Z) (l : list Value) (w : StyledStreamWriter) :
    outcome (Z * StyledStreamWriter) :=
  match l with
  | [] => Ok (lineLength, w)
  | v :: l =>
      w ← writeValue v w;
      c ← vec_at (childValues_ w) index;
      measure_children (index + 1) (lineLength + Z.of_nat (List.length c)) l w
  end.

Definition isMultineArray (l : list Value) (w : StyledStreamWriter) : outcome (bool * StyledStreamWriter) :=
  let size := Z.of_nat (List.length l) in
  let isMultiLine := (rightMargin_ <=? size * 3) || existsb has_content l in
  let w := clear_children w in
  if isMultiLine then Ok (true, w)
  else
    r ← measure_children 0 (4 + (size - 1) * 2) l (set_add true w);
    Ok (rightMargin_ <=? fst r, set_add false (snd r)).

(** The loop that writes one element per line. *)
Fixpoint write_lines (hasChildValue : bool) (index : Z) (l : list Value) (w : StyledStreamWriter) :
    outcome StyledStreamWriter :=
  match l with
  | [] => Ok w
  | v :: l =>
      w ← (if hasChildValue then c ← vec_at (childValues_ w) index; Ok (writeWithIndent c w)
           else writeValue v (writeIndent w));
      match l with
      | [] => Ok w
      | _ => write_lines hasChildValue (index + 1) l (out [44] w)
      end
  end.

(** The loop that writes the rendered children on one line. *)
Fixpoint write_row (index : Z) (l : list Value) (w : StyledStreamWriter) : outcome StyledStreamWriter :=
  match l with
  | [] => Ok w
  | _ :: l =>
      let w := if 0 <? index then out [44; 32] w else w in
      c ← vec_at (childValues_ w) index;
      write_row (index + 1) l (out c w)
  end.

Definition writeArrayValue (l : list Value) (w : StyledStreamWriter) : outcome StyledStreamWriter :=
  match l with
  | [] => Ok (pushValue (lit "[]") w)
  | _ =>
      r ← isMultineArray l w;
      let '(isArrayMultiLine, w) := (r : bool * StyledStreamWriter) in
      if isArrayMultiLine then
        let w := indent (writeWithIndent [91] w) in
        w ← write_lines (negb (bool_decide (childValues_ w = []))) 0 l w;
        Ok (writeWithIndent [93] (unindent w))
      else if (List.length (childValues_ w) =? List.length l)%nat then
        w ← write_row 0 l (out [91; 32] w); Ok (out [32; 93] w)
      else Fault Aborted
  end.

(** The loop over the members of an object. *)
Fixpoint write_members (m : list (str * Value)) (w : StyledStreamWriter) : outcome StyledStreamWriter :=
  match m with
  | [] => Ok w
  | (name, v) :: m =>
      w ← writeValue v (out [32; 58; 32] (writeWithIndent (valueToQuotedString (c_str name)) w));
      match m with
      | [] => Ok w
      | _ => write_members m (out [44] w)
      end
  end.

End Array.

Fixpoint writeValue (v : Value) (w : StyledStreamWriter) {struct v} : outcome StyledStreamWriter :=
  match v with
  | nullValue => Ok (pushValue (lit "null") w)
  | intValue z => Ok (pushValue (valueToString_Int z) w)
  | uintValue z => Ok (pushValue (valueToString_UInt z) w)
  | realValue x => Ok (pushValue (valueToString_double x) w)
  | stringValue s => Ok (pushValue (valueToQuotedString (c_str s)) w)
  | booleanValue b => Ok (pushValue (valueToString_bool b) w)
  | arrayValue l => writeArrayValue writeValue l w
  | objectValue [] => Ok (pushValue (lit "{}") w)
  | objectValue m =>
      w ← write_members writeValue m (indent (writeWithIndent [123] w));
      Ok (writeWithIndent [125] (unindent w))
  end.

(** [write( out, root )]; values carry no comments. *)
Definition write (root : Value) : outcome str :=
  w ← writeValue root (mkWriter [] [] false []);
  Ok (document_ (out [10] w)).
(** ** A plain printer *)

(** Strings with a separator between them. *)
Fixpoint sep_join (sep : str) (l : list str) : str :=
  match l with
  | [] => []
  | [s] => s
  | s :: l => s ++ sep ++ sep_join sep l
  end.

(** The text of a value without content. *)
Definition flat (v : Value) : str :=
  match v with
  | nullValue => lit "null"
  | intValue z => valueToString_Int z
  | uintValue z => valueToString_UInt z
  | realValue x => valueToString_double x
  | stringValue s => valueToQuotedString (c_str s)
  | booleanValue b => valueToString_bool b
  | arrayValue _ => lit "[]"
  | objectValue _ => lit "{}"
  end.

(** An array needs several lines when an element has content or the elements
    do not fit the margin. *)
Definition multi_line (l : list Value) : bool :=
  let size := Z.of_nat (List.length l) in
  (rightMargin_ <=? size * 3) || existsb has_content l ||
  (rightMargin_ <=? foldl (fun n v => n + Z.of_nat (List.length (flat v))) (4 + (size - 1) * 2) l).

Fixpoint render (ind : str) (v : Value) {struct v} : str :=
  match v with
  | arrayValue [] => flat v
  | arrayValue l =>
      if multi_line l then
        [10] ++ ind ++ [91] ++
        sep_join [44] (map (fun v => [10] ++ (ind ++ indentation_) ++ render (ind ++ indentation_) v) l) ++
        [10] ++ ind ++ [93]
      else [91; 32] ++ sep_join [44; 32] (map flat l) ++ [32; 93]
  | objectValue [] => flat v
  | objectValue m =>
      [10] ++ ind ++ [123] ++
      sep_join [44] (map (fun kv => [10] ++ (ind ++ indentation_) ++ valueToQuotedString (c_str (fst kv)) ++
                                    [32; 58; 32] ++ render (ind ++ indentation_) (snd kv)) m) ++
      [10] ++ ind ++ [125]
  | _ => flat v
  end.

Lemma render_flat ind v : has_content v = false -> render ind v = flat v.
Proof. by destruct v as [| | | | | |[]|[]]. Qed.

(** Rendering into [childValues_]. *)
Lemma writeValue_child v w : has_content v = false -> addChildValues_ w = true ->
  writeValue v w = Ok (mkWriter (document_ w) (childValues_ w ++ [flat v]) true (indentString_ w)).
Proof. intros Hv Hw. destruct v as [| | | | | |[]|[]]; try done; simpl; unfold pushValue; by rewrite Hw. Qed.

Lemma measure_children_ok l n w : existsb has_content l = false -> addChildValues_ w = true ->
  measure_children writeValue (Z.of_nat (List.length (childValues_ w))) n l w =
  Ok (foldl (fun n v => n + Z.of_nat (List.length (flat v))) n l,
      mkWriter (document_ w) (childValues_ w ++ map flat l) true (indentString_ w)).
Proof.
  revert n w. induction l as [|v l IH]; intros n w Hl Hw; cbn [measure_children map foldl].
  { rewrite app_nil_r. destruct w. simpl in *. by subst. }
  simpl in Hl. apply orb_false_iff in Hl as [Hv Hl].
  rewrite (writeValue_child v w Hv Hw). cbn [mbind outcome_bind childValues_].
  rewrite (proj2 (vec_at_Ok _ _ (flat v))).
  2: { split; [lia|]. rewrite Nat2Z.id. by apply list_lookup_middle. }
  cbn [mbind outcome_bind].
  replace (Z.of_nat (List.length (childValues_ w)) + 1)
    with (Z.of_nat (List.length (childValues_ (mkWriter (document_ w) (childValues_ w ++ [flat v]) true (indentString_ w)))))
    by (simpl; rewrite length_app; simpl; lia).
  rewrite IH by done. simpl. by rewrite <- app_assoc.
Qed.

Lemma isMultineArray_ok l w : addChildValues_ w = false -> exists cv,
  isMultineArray writeValue l w =
    Ok (multi_line l, mkWriter (document_ w) cv false (indentString_ w)) /\
  (cv = [] \/ (cv = map flat l /\ existsb has_content l = false)) /\
  (multi_line l = false -> cv = map flat l).
Proof.
  intros Hw. unfold isMultineArray, multi_line.
  destruct ((rightMargin_ <=? Z.of_nat (List.length l) * 3) || existsb has_content l) eqn:E.
  { exists []. unfold clear_children. rewrite Hw. split; [done|]. split; [by left|done]. }
  apply orb_false_iff in E as [_ E].
  pose proof (measure_children_ok l (4 + (Z.of_nat (List.length l) - 1) * 2) (set_add true (clear_children w)) E eq_refl) as H.
  cbn [childValues_ set_add clear_children] in H. change (Z.of_nat (List.length [])) with 0 in H.
  rewrite H. exists (map flat l). split; [done|auto].
Qed.

Lemma sep_join_cons sep s l : sep_join sep (s :: l) = s ++ mjoin (map (app sep) l).
Proof.
  revert s. induction l as [|t l IH]; intros s; [simpl; by rewrite app_nil_r|].
  change (sep_join sep (s :: t :: l)) with (s ++ sep ++ sep_join sep (t :: l)).
  rewrite IH. simpl. by rewrite <- app_assoc.
Qed.

Lemma out_out s t w : out t (out s w) = out (s ++ t) w.
Proof. unfold out. simpl. by rewrite <- app_assoc. Qed.

Lemma write_row_tail l2 l1 w : l1 <> [] -> childValues_ w = map flat (l1 ++ l2) ->
  write_row (Z.of_nat (List.length l1)) l2 w = Ok (out (mjoin (map (app [44; 32]) (map flat l2))) w).
Proof.
  revert l1 w. induction l2 as [|v l2 IH]; intros l1 w Hl1 Hcv; cbn [write_row map].
  { destruct w. simpl. unfold out. simpl. by rewrite app_nil_r. }
  destruct (Z.ltb_spec 0 (Z.of_nat (List.length l1))) as [_|H]; [|destruct l1; simpl in *; [done|lia]].
  rewrite (proj2 (vec_at_Ok _ _ (flat v))).
  2: { split; [lia|]. cbn [out childValues_]. rewrite Hcv, map_app, Nat2Z.id. simpl map.
       apply list_lookup_middle. by rewrite length_map. }
  cbn [mbind outcome_bind].
  replace (Z.of_nat (List.length l1) + 1) with (Z.of_nat (List.length (l1 ++ [v]))) by (rewrite length_app; simpl; lia).
  rewrite IH; [|by destruct l1|by rewrite <- app_assoc].
  rewrite !out_out. simpl. by rewrite <- ?app_assoc.
Qed.

Lemma write_row_ok l w : childValues_ w = map flat l ->
  write_row 0 l w = Ok (out (sep_join [44; 32] (map flat l)) w).
Proof.
  destruct l as [|v l]; intros Hcv.
  { destruct w. simpl. unfold out. simpl. by rewrite app_nil_r. }
  cbn [write_row]. change (0 <? 0) with false. cbn match.
  rewrite (proj2 (vec_at_Ok _ _ (flat v))) by (split; [done|by rewrite Hcv]).
  cbn [mbind outcome_bind map]. change (0 + 1) with (Z.of_nat (List.length [v])).
  rewrite (write_row_tail l [v]) by done. by rewrite out_out, sep_join_cons.
Qed.

(** What a value adds to the document. *)
Definition writes (v : Value) : Prop :=
  forall w, addChildValues_ w = false -> exists cv,
    writeValue v w = Ok (mkWriter (document_ w ++ render (indentString_ w) v) cv false (indentString_ w)).

Lemma write_lines_values l i w : Forall writes l -> addChildValues_ w = false -> exists cv,
  write_lines writeValue false i l w =
  Ok (mkWriter (document_ w ++ sep_join [44] (map (fun v => [10] ++ indentString_ w ++ render (indentString_ w) v) l))
        cv false (indentString_ w)).
Proof.
  intros Hl. revert i w. induction Hl as [|v l Hv Hl IH]; intros i w Hw.
  { exists (childValues_ w). destruct w. simpl in *. subst. by rewrite app_nil_r. }
  cbn [write_lines]. destruct (Hv (writeIndent w) Hw) as (cv & ->). cbn [mbind outcome_bind document_ writeIndent out indentString_].
  destruct l as [|v' l].
  { exists cv. simpl. by rewrite <- !app_assoc. }
  destruct (IH (i + 1) (out [44] (mkWriter ((document_ w ++ [10] ++ indentString_ w) ++ render (indentString_ w) v) cv false (indentString_ w))) eq_refl)
    as (cv' & ->).
  exists cv'. do 2 f_equal. rewrite map_cons, sep_join_cons. cbn [document_ out indentString_].
  rewrite map_cons, sep_join_cons. simpl mjoin. by rewrite <- !app_assoc.
Qed.

Lemma write_lines_children l l1 w : existsb has_content l = false ->
  addChildValues_ w = false -> childValues_ w = map flat (l1 ++ l) ->
  write_lines writeValue true (Z.of_nat (List.length l1)) l w =
  Ok (mkWriter (document_ w ++ sep_join [44] (map (fun v => [10] ++ indentString_ w ++ render (indentString_ w) v) l))
        (childValues_ w) false (indentString_ w)).
Proof.
  revert l1 w. induction l as [|v l IH]; intros l1 w Hc Hw Hcv.
  { destruct w. simpl in *. subst. by rewrite !app_nil_r. }
  simpl in Hc. apply orb_false_iff in Hc as [Hv Hc]. cbn [write_lines].
  rewrite (proj2 (vec_at_Ok _ _ (flat v))).
  2: { split; [lia|]. rewrite Hcv, map_app, Nat2Z.id. simpl map.
       apply list_lookup_middle. by rewrite length_map. }
  cbn [mbind outcome_bind]. destruct l as [|v' l].
  { unfold writeWithIndent, writeIndent. rewrite out_out. unfold out. rewrite Hw. simpl.
    rewrite (render_flat _ v Hv). by rewrite <- ?app_assoc. }
  replace (Z.of_nat (List.length l1) + 1) with (Z.of_nat (List.length (l1 ++ [v]))) by (rewrite length_app; simpl; lia).
  rewrite (IH (l1 ++ [v])); [|done|done|by rewrite <- app_assoc].
  unfold writeWithIndent, writeIndent. rewrite !out_out. cbn [document_ out indentString_ childValues_].
  do 2 f_equal. rewrite !map_cons, !sep_join_cons, (render_flat _ v Hv). simpl mjoin. by rewrite <- !app_assoc.
Qed.

Lemma write_members_ok m w : Forall (fun kv => writes kv.2) m -> addChildValues_ w = false -> exists cv,
  write_members writeValue m w =
  Ok (mkWriter (document_ w ++ sep_join [44] (map (fun kv => [10] ++ indentString_ w ++
        valueToQuotedString (c_str (fst kv)) ++ [32; 58; 32] ++ render (indentString_ w) (snd kv)) m))
        cv false (indentString_ w)).
Proof.
  intros Hm. revert w. induction Hm as [|[k v] m Hv Hm IH]; intros w Hw.
  { exists (childValues_ w). destruct w. simpl in *. subst. by rewrite app_nil_r. }
  cbn [write_members]. simpl in Hv. edestruct Hv as (cv & ->); [done|].
  cbn [mbind outcome_bind document_ writeWithIndent writeIndent out indentString_].
  destruct m as [|kv m].
  { exists cv. do 2 f_equal. simpl. by rewrite <- !app_assoc. }
  edestruct IH as (cv' & ->); [done|].
  exists cv'. do 2 f_equal. cbn [document_ out indentString_].
  rewrite !map_cons, !sep_join_cons. cbn [fst snd]. simpl mjoin. by rewrite <- !app_assoc.
Qed.

Lemma unindent_indent i w : indentString_ w = i ++ indentation_ -> unindent w = set_indent i w.
Proof.
  intros H. unfold unindent. f_equal. rewrite H, length_app. simpl.
  replace (_ + 1 - 1)%nat with (List.length i) by lia. by rewrite take_app_length.
Qed.

Lemma writes_array l : Forall writes l -> writes (arrayValue l).
Proof.
  intros Hl w Hw. destruct l as [|v l].
  { exists (childValues_ w). simpl. unfold pushValue, out. by rewrite Hw. }
  cbn [writeValue writeArrayValue]. set (vs := v :: l) in *.
  destruct (isMultineArray_ok vs w Hw) as (cv & -> & Hcv & Hrow).
  cbn [mbind outcome_bind]. change (render (indentString_ w) (arrayValue vs)) with
    (if multi_line vs then [10] ++ indentString_ w ++ [91] ++
       sep_join [44] (map (fun v => [10] ++ (indentString_ w ++ indentation_) ++ render (indentString_ w ++ indentation_) v) vs) ++
       [10] ++ indentString_ w ++ [93]
     else [91; 32] ++ sep_join [44; 32] (map flat vs) ++ [32; 93]).
  destruct (multi_line vs) eqn:Em.
  - set (w1 := indent (writeWithIndent [91] (mkWriter (document_ w) cv false (indentString_ w)))).
    assert (H : exists cv', write_lines writeValue (negb (bool_decide (childValues_ w1 = []))) 0 vs w1 =
      Ok (mkWriter (document_ w1 ++ sep_join [44] (map (fun v => [10] ++ indentString_ w1 ++ render (indentString_ w1) v) vs))
            cv' false (indentString_ w1))).
    { destruct Hcv as [->|[-> Hc]].
      - by apply write_lines_values.
      - exists (map flat vs). rewrite bool_decide_eq_false_2 by done.
        by apply (write_lines_children vs []). }
    destruct H as (cv' & ->). cbn [mbind outcome_bind]. exists cv'.
    rewrite (unindent_indent (indentString_ w)) by done. unfold writeWithIndent, writeIndent, w1. rewrite out_out. unfold out. simpl.
    by rewrite <- ?app_assoc.
  - rewrite (Hrow eq_refl) in *. cbn [childValues_]. rewrite length_map, Nat.eqb_refl.
    rewrite write_row_ok by done. cbn [mbind outcome_bind]. exists (map flat vs).
    rewrite !out_out. unfold out. cbn [document_ childValues_ addChildValues_ indentString_].
    by rewrite <- ?app_assoc.
Qed.

Lemma writes_object m : Forall (fun kv => writes kv.2) m -> writes (objectValue m).
Proof.
  intros Hm w Hw. destruct m as [|kv m].
  { exists (childValues_ w). simpl. unfold pushValue, out. by rewrite Hw. }
  cbn [writeValue]. edestruct (write_members_ok (kv :: m)) as (cv & ->); [done|done|].
  cbn [mbind outcome_bind]. exists cv. rewrite (unindent_indent (indentString_ w)) by done.
  unfold writeWithIndent, writeIndent. rewrite !out_out. unfold out. cbn [document_ childValues_ addChildValues_ indentString_ indent set_indent].
  do 2 f_equal. unfold indent, set_indent. cbn [document_ indentString_].
  change (render (indentString_ w) (objectValue (kv :: m))) with ([10] ++ indentString_ w ++ [123] ++
      sep_join [44] (map (fun kv => [10] ++ (indentString_ w ++ indentation_) ++ valueToQuotedString (c_str (fst kv)) ++
                                    [32; 58; 32] ++ render (indentString_ w ++ indentation_) (snd kv)) (kv :: m)) ++
      [10] ++ indentString_ w ++ [125]).
  by rewrite <- !app_assoc.
Qed.

Lemma writeValue_render v : writes v.
Proof.
  induction v using Value_nested_ind; try (by apply writes_array || by apply writes_object);
    intros w Hw; exists (childValues_ w); simpl; unfold pushValue, out; by rewrite Hw.
Qed.

(** C37: the writer, with its buffer of rendered children and its indentation
    string, produces exactly the text of the recursive printer, and none of its
    assertions and accesses to the buffer can fail. *)
Theorem write_is_render v : write v = Ok (render [] v ++ [10]).
Proof.
  unfold write. destruct (writeValue_render v (mkWriter [] [] false []) eq_refl) as (cv & ->). done.
Qed.

End Writer.
