(* ===== verification/JsonRoundtrip.v ===== *)
(** * Reading back what was written

    The reader of the file JsonReader applied to the text that the writer of
    the file JsonWriter makes gives the value again, for every value without
    real numbers whose strings have no zero and whose integers the reader keeps
    as integers. *)
From stdpp Require Import prelude sorting.
From Stdlib Require Import ZArith Lia SpecFloat String.
From S2P Require Import Prelude Strings Json JsonReader JsonWriter.

(** ** What can be written *)

#[local] Unset Elimination Schemes.

Inductive writable : Value -> Prop :=
| writable_null : writable nullValue
| writable_int z : - 2147483640 < z < 2 ^ 31 -> writable (intValue z)
| writable_uint z : 2 ^ 31 <= z < 4294967290 -> writable (uintValue z)
| writable_string s : 0 ∉ s -> writable (stringValue s)
| writable_bool b : writable (booleanValue b)
| writable_array l : Forall writable l -> writable (arrayValue l)
| writable_object m : ordered m -> Forall (fun kv => 0 ∉ kv.1) m ->
    Forall (fun kv => writable kv.2) m -> writable (objectValue m).

#[local] Set Elimination Schemes.

#[export] Hint Constructors writable : json.

(** ** Tokens of the printed text *)

Abbreviation blank := (Forall (fun c => is_space c = true)).

Lemma skipSpaces_blank b s : blank b -> skipSpaces (b ++ s) = skipSpaces s.
Proof. induction 1 as [|c b Hc _ IH]; [done|]. simpl. by rewrite Hc. Qed.

Lemma readToken_blank b s : blank b -> readToken (b ++ s) = readToken s.
Proof. intros H. unfold readToken. by rewrite skipSpaces_blank. Qed.

Lemma readToken_scan c s t p r :
  is_space c = false -> scan_token c s = (t, true, r) -> s = p ++ r ->
  readToken (c :: s) = (mkToken t (c :: p), r).
Proof.
  intros Hc Ht Hs. unfold readToken. simpl skipSpaces. rewrite Hc. cbn [getNextChar]. rewrite Ht.
  f_equal. f_equal. rewrite Hs. simpl. rewrite length_app.
  replace (S (_ + _) - _)%nat with (S (List.length p)) by lia. simpl. by rewrite take_app_length.
Qed.

Lemma skipCommentTokens_token s t r : readToken s = (t, r) -> type_ t <> tokenComment ->
  skipCommentTokens s = Ok (t, r).
Proof. intros H Ht. unfold skipCommentTokens. simpl. rewrite H. by rewrite decide_False. Qed.

(** *** Strings *)

Lemma escape_id s : has_special s = false -> containsControlCharacter s = false ->
  mjoin (map escape_char s) = s.
Proof.
  induction s as [|c s IH]; intros H1 H2; [done|]. simpl in H1, H2.
  apply orb_false_iff in H1 as [Hc H1], H2 as [Hk H2]. simpl. rewrite IH by done.
  apply bool_decide_eq_false in Hc. unfold escape_char. rewrite Hk.
  repeat match goal with |- context [c =? ?k] => destruct (Z.eqb_spec c k) as [->|?]; [set_solver|] end.
  done.
Qed.

Lemma valueToQuotedString_escaped s :
  valueToQuotedString s = [34] ++ mjoin (map escape_char s) ++ [34].
Proof.
  unfold valueToQuotedString. destruct (negb _ && negb _) eqn:E; [|done].
  apply andb_true_iff in E as [H1 H2]. apply negb_true_iff in H1, H2. by rewrite escape_id.
Qed.

(** What escaping one character produces. *)
Variant escaped (c : Z) : str -> Prop :=
| escaped_simple e : simple_escape e = Some c -> e <> 117 -> escaped c [92; e]
| escaped_control h l : 0 < c <= 31 -> h = upper_hex (c / 16) -> l = upper_hex (c mod 16) ->
    escaped c [92; 117; 48; 48; h; l]
| escaped_raw : c <> 34 -> c <> 92 -> escaped c [c].

Lemma escape_charP c : escaped c (escape_char c).
Proof.
  unfold escape_char, isControlCharacter.
  repeat match goal with |- context [c =? ?k] => destruct (Z.eqb_spec c k) as [->|?];
    [by apply escaped_simple|] end.
  destruct ((0 <? c) && (c <=? 31)) eqn:E; [apply escaped_control; lia|by apply escaped_raw].
Qed.

Lemma readString_escaped s c r :
  readString_loop c (mjoin (map escape_char s) ++ 34 :: r) = (true, r).
Proof.
  revert c. induction s as [|x s IH]; intros c; [done|]. simpl. rewrite <- app_assoc.
  destruct (escape_charP x) as [e _ _|h l Hx -> ->|H1 H2]; simpl.
  - apply IH.
  - assert (Hu : forall n, 0 <= n < 16 -> (upper_hex n =? 92) = false /\ (upper_hex n =? 34) = false).
    { intros n Hn. unfold upper_hex. destruct (Z.ltb_spec n 10); split; lia. }
    destruct (Hu (x / 16)) as [-> ->]; [lia_div|]. destruct (Hu (x mod 16)) as [-> ->]; [lia_div|]. apply IH.
  - apply Z.eqb_neq in H1 as ->, H2 as ->. apply IH.
Qed.

Lemma upper_hex_digit n : 0 <= n < 16 -> hex_value (upper_hex n) = Some n.
Proof.
  intros Hn. unfold upper_hex, hex_value. destruct (Z.ltb_spec n 10).
  - replace ((48 <=? 48 + n) && (48 + n <=? 57)) with true by lia. f_equal. lia.
  - replace ((48 <=? 55 + n) && (55 + n <=? 57)) with false by lia.
    replace ((97 <=? 55 + n) && (55 + n <=? 102)) with false by lia.
    replace ((65 <=? 55 + n) && (55 + n <=? 70)) with true by lia. f_equal. lia.
Qed.

Lemma decode_escaped s : decode_chars (mjoin (map escape_char s)) = Some s.
Proof.
  induction s as [|x s IH]; [done|]. simpl mjoin.
  destruct (escape_charP x) as [e He Hu|h l Hx -> ->|H1 H2]; cbn [app decode_chars].
  - simpl. apply Z.eqb_neq in Hu as ->. rewrite He. simpl. by rewrite IH.
  - change (92 =? 34) with false. change (92 =? 92) with true. change (117 =? 117) with true. cbn match.
    unfold decodeUnicodeEscapeSequence. rewrite !upper_hex_digit by lia_div.
    change (hex_value 48) with (Some 0). simpl.
    replace (((0 * 16 + 0) * 16 + x / 16) * 16 + x mod 16) with x by lia_div.
    replace ((55296 <=? x) && (x <=? 56319)) with false by lia. rewrite IH. simpl.
    unfold codePointToUTF8. by replace (x <=? 127) with true by lia.
  - apply Z.eqb_neq in H1 as ->, H2 as ->. rewrite IH. done.
Qed.

(** The token of a quoted string, and its contents. *)
Lemma readToken_quoted s r : exists t,
  readToken (valueToQuotedString s ++ r) = (t, r) /\ type_ t = tokenString /\ decodeString t = Some s.
Proof.
  rewrite valueToQuotedString_escaped. set (body := mjoin (map escape_char s)).
  exists (mkToken tokenString (34 :: body ++ [34])). split; [|split].
  - rewrite <- !app_assoc. apply (readToken_scan 34 _ tokenString (body ++ [34]) r); [done| |by rewrite <- app_assoc].
    unfold scan_token, readString. change (body ++ [34] ++ r) with (body ++ 34 :: r).
    simpl. unfold body. by rewrite readString_escaped.
  - done.
  - unfold decodeString. cbn [text_]. change (drop 1 (34 :: body ++ [34])) with (body ++ [34]).
    replace (List.length (34%Z :: body ++ [34%Z]) - 2)%nat with (List.length body)
      by (simpl; rewrite length_app; simpl; lia).
    rewrite take_app_length. apply decode_escaped.
Qed.

(** *** Numbers *)

(** The text that follows a value does not go on with a number. *)
Definition delim (r : str) : Prop := number_char (peek r) = false.

Lemma readNumber_digits d r : Forall (fun c => number_char c = true) d -> delim r -> readNumber (d ++ r) = r.
Proof.
  intros Hd Hr. induction Hd as [|c d Hc _ IH].
  - destruct r as [|c r]; [done|]. change (number_char c = false) in Hr. cbn [app readNumber]. by rewrite Hr.
  - cbn [app readNumber]. by rewrite Hc.
Qed.

Abbreviation digits_only := (Forall (fun c => 48 <= c <= 57)).

Lemma uint_digits_range fuel n acc : digits_only acc -> digits_only (uint_digits fuel n acc).
Proof.
  revert n acc. induction fuel as [|fuel IH]; intros n acc Hacc; [done|]. cbn [uint_digits].
  assert (Hd : digits_only (n mod 10 + 48 :: acc)) by (constructor; [lia_div|done]).
  destruct (n / 10 =? 0); auto.
Qed.

Lemma uint_digits_cons fuel n acc : exists d t, uint_digits (S fuel) n acc = d :: t.
Proof.
  revert n acc. induction fuel as [|fuel IH]; intros n acc; cbn [uint_digits].
  - destruct (n / 10 =? 0); eauto.
  - destruct (n / 10 =? 0); [eauto|]. apply IH.
Qed.

(** Scanning the digits of [n]: below the threshold nothing is lost. *)
Lemma scan_uint_digits th fuel n acc :
  0 <= n < 10 ^ Z.of_nat fuel -> n / 10 < th <= 2 ^ 32 / 10 -> n < 2 ^ 32 ->
  scan_digits th 0 (uint_digits fuel n acc) = scan_digits th n acc.
Proof.
  revert n acc. induction fuel as [|fuel IH]; intros n acc Hn Hth Hw.
  { simpl in *. by replace n with 0 by lia. }
  assert (Hs : 0 <= n / 10 < th ->
    scan_digits th (n / 10) (n mod 10 + 48 :: acc) = scan_digits th n acc).
  { intros Hm. cbn [scan_digits]. unfold is_digit.
    replace ((48 <=? n mod 10 + 48) && (n mod 10 + 48 <=? 57)) with true by lia_div. cbn [negb].
    destruct (Z.leb_spec th (n / 10)); [lia|]. f_equal. rewrite u32_small; lia_div. }
  cbn [uint_digits]. destruct (Z.eqb_spec (n / 10) 0) as [E|E].
  - rewrite <- Hs; [by rewrite E|lia_div].
  - rewrite IH; [apply Hs; lia_div| | |lia_div].
    + rewrite Nat2Z.inj_succ, Z.pow_succ_r in Hn by lia. lia_div.
    + lia_div.
Qed.

Lemma digit_number_char c : 48 <= c <= 57 -> number_char c = true.
Proof. intros H. unfold number_char, is_digit. by replace ((48 <=? c) && (c <=? 57)) with true by lia. Qed.

Lemma digit_not_space c : (48 <= c <= 57 \/ c = 45) -> is_space c = false.
Proof. intros H. unfold is_space. lia. Qed.

Lemma scan_number c s : (48 <= c <= 57 \/ c = 45) -> scan_token c s = (tokenNumber, true, readNumber s).
Proof.
  intros H. unfold scan_token.
  repeat match goal with |- context [c =? ?k] =>
    lazymatch k with 45 => fail | _ => destruct (Z.eqb_spec c k); [lia|] end end.
  unfold is_digit. by replace ((48 <=? c) && (c <=? 57) || (c =? 45)) with true by lia.
Qed.

Lemma readToken_numeral c d r : (48 <= c <= 57 \/ c = 45) -> digits_only d -> delim r ->
  readToken ((c :: d) ++ r) = (mkToken tokenNumber (c :: d), r).
Proof.
  intros Hc Hd Hr. apply readToken_scan; [by apply digit_not_space| |done].
  rewrite scan_number by done. rewrite readNumber_digits; [done| |done].
  eapply Forall_impl; [exact Hd|]. intros x Hx. by apply digit_number_char.
Qed.

Lemma digits_not_double c d : (48 <= c <= 57 \/ c = 45) -> digits_only d -> is_double (c :: d) = false.
Proof.
  intros Hc Hd. unfold is_double. cbn [drop skipn existsb].
  apply orb_false_iff. split.
  - apply orb_false_iff. split; [lia|]. induction Hd as [|x d Hx _ IH]; [done|]. cbn [existsb]. rewrite IH. lia.
  - change (existsb (fun c0 => c0 =? 45) d = false). induction Hd as [|x d Hx _ IH]; [done|]. cbn [existsb]. rewrite IH. lia.
Qed.

Section Roundtrip.
Context (sscanf_lf : str -> option spec_float).
Context (sprintf_g : spec_float -> str).

Abbreviation readValue := (readValue sscanf_lf).
Abbreviation render := (render sprintf_g).
Abbreviation flat := (flat sprintf_g).

Lemma decode_positive n : 0 <= n < 4294967290 ->
  decodeNumber sscanf_lf (mkToken tokenNumber (uintToString n)) =
  Ok (Some (if n <=? 2 ^ 31 - 1 then intValue n else uintValue n)).
Proof.
  intros Hn. unfold decodeNumber. cbn [text_]. unfold uintToString.
  pose proof (uint_digits_range 31 n [] (Forall_nil_2 _)) as Hr.
  destruct (uint_digits_cons 30 n []) as (c & d & E).
  rewrite E in Hr. apply Forall_cons in Hr as [Hc Hd].
  rewrite E. rewrite digits_not_double by auto.
  replace (peek (c :: d) =? 45) with false by (unfold peek; simpl; lia). rewrite <- E.
  rewrite scan_uint_digits; [done|split; [lia|]; apply Z.lt_trans with (2 ^ 32); [lia|done]|lia_div|lia].
Qed.

Lemma decode_negative n : 0 < n < 2147483640 ->
  decodeNumber sscanf_lf (mkToken tokenNumber (45 :: uintToString n)) = Ok (Some (intValue (- n))).
Proof.
  intros Hn. unfold decodeNumber. cbn [text_]. unfold uintToString.
  rewrite digits_not_double by (auto; by apply uint_digits_range).
  change (peek (45 :: uint_digits 31 n []) =? 45) with true. cbn match. change (drop 1 (45 :: ?x)) with x.
  rewrite scan_uint_digits; [|split; [lia|]; apply Z.lt_trans with (2 ^ 32); [lia|done]|lia_div|lia].
  cbn [scan_digits]. rewrite (i32_small n) by lia. by rewrite i32_small by lia.
Qed.

(** A value is read back from its text, whatever follows. *)
Definition reads (text : str) (v : Value) : Prop :=
  forall v0 r, delim r -> exists fuel, readValue fuel v0 (text ++ r) = Ok (true, v, r).

Lemma reads_int z : - 2147483640 < z < 2 ^ 31 -> reads (valueToString_Int z) (intValue z).
Proof.
  intros Hz v0 r Hr. exists 1%nat. cbn [JsonReader.readValue]. unfold valueToString_Int.
  destruct (Z.ltb_spec z 0) as [Hneg|Hpos].
  - rewrite (i32_small (- z)), u32_small by lia.
    rewrite (skipCommentTokens_token _ (mkToken tokenNumber (45 :: uintToString (- z))) r); [|
      apply readToken_numeral; [auto|by apply uint_digits_range|done]|done].
    cbn [mbind outcome_bind type_]. rewrite decode_negative by lia. simpl. by rewrite Z.opp_involutive.
  - rewrite u32_small by lia. pose proof (decode_positive z ltac:(lia)) as HD.
    pose proof (uint_digits_range 31 z [] (Forall_nil_2 _)) as Hrange.
    unfold uintToString in *. destruct (uint_digits_cons 30 z []) as (c & d & E). rewrite E in *.
    apply Forall_cons in Hrange as [Hc Hd].
    rewrite (skipCommentTokens_token _ (mkToken tokenNumber (c :: d)) r); [|by apply readToken_numeral; auto|done].
    cbn [mbind outcome_bind type_]. rewrite HD. by replace (z <=? 2 ^ 31 - 1) with true by lia.
Qed.

Lemma reads_uint z : 2 ^ 31 <= z < 4294967290 -> reads (valueToString_UInt z) (uintValue z).
Proof.
  intros Hz v0 r Hr. exists 1%nat. cbn [JsonReader.readValue]. unfold valueToString_UInt.
  pose proof (decode_positive z ltac:(lia)) as HD.
  pose proof (uint_digits_range 31 z [] (Forall_nil_2 _)) as Hrange.
  unfold uintToString in *. destruct (uint_digits_cons 30 z []) as (c & d & E). rewrite E in *.
  apply Forall_cons in Hrange as [Hc Hd].
  rewrite (skipCommentTokens_token _ (mkToken tokenNumber (c :: d)) r); [|by apply readToken_numeral; auto|done].
  cbn [mbind outcome_bind type_]. rewrite HD. by replace (z <=? 2 ^ 31 - 1) with false by lia.
Qed.

Lemma reads_string s : 0 ∉ s -> reads (valueToQuotedString (c_str s)) (stringValue s).
Proof.
  intros Hs v0 r Hr. exists 1%nat. cbn [JsonReader.readValue]. rewrite c_str_id by done.
  destruct (readToken_quoted s r) as (t & Et & Ht & Hd).
  rewrite (skipCommentTokens_token _ t r Et) by (by rewrite Ht).
  cbn [mbind outcome_bind]. by rewrite Ht, Hd.
Qed.

(** A keyword: its first character and the rest. *)
Lemma reads_keyword c p t v :
  is_space c = false -> (forall r, scan_token c (p ++ r) = (t, true, r)) -> t <> tokenComment ->
  (forall v0 s, (match t with
     | tokenTrue => Ok (true, booleanValue true, s) | tokenFalse => Ok (true, booleanValue false, s)
     | tokenNull => Ok (true, nullValue, s) | _ => Ok (false, v0, s) end : outcome read_result) = Ok (true, v, s)) ->
  reads (c :: p) v.
Proof.
  intros Hc Hp Ht Hv v0 r _. exists 1%nat. cbn [JsonReader.readValue].
  rewrite (skipCommentTokens_token _ (mkToken t (c :: p)) r); [|by apply readToken_scan|done].
  cbn [mbind outcome_bind type_]. specialize (Hv v0 r). by destruct t.
Qed.

Lemma reads_null : reads (lit "null") nullValue.
Proof. by apply (reads_keyword 110 (lit "ull") tokenNull). Qed.

Lemma reads_bool b : reads (valueToString_bool b) (booleanValue b).
Proof.
  destruct b; [by apply (reads_keyword 116 (lit "rue") tokenTrue)|by apply (reads_keyword 102 (lit "alse") tokenFalse)].
Qed.

(** The printed text starts, after blanks, with a character that does not close
    an array. *)
Definition opens (text : str) : Prop :=
  exists b c t, text = b ++ c :: t /\ blank b /\ is_space c = false /\ c <> 93.

Lemma uint_opens n : opens (uintToString n).
Proof.
  pose proof (uint_digits_range 31 n [] (Forall_nil_2 _)) as Hr. unfold uintToString.
  destruct (uint_digits_cons 30 n []) as (c & d & E). rewrite E in *. apply Forall_cons in Hr as [Hc _].
  exists [], c, d. split; [done|]. split; [done|]. split; [by apply digit_not_space; auto|lia].
Qed.

Lemma render_opens ind v : blank ind -> writable v -> opens (render ind v).
Proof.
  intros Hi Hv.
  assert (Hq : forall s, opens (valueToQuotedString s)).
  { intros s. rewrite valueToQuotedString_escaped. by eexists [], 34, _. }
  assert (Hn : forall c t, is_space c = false -> c <> 93 -> opens ([10] ++ ind ++ [c] ++ t)).
  { intros c t H1 H2. exists ([10] ++ ind), c, t. rewrite <- app_assoc. split; [done|]. split; [by constructor|done]. }
  destruct Hv as [|z _|z _|s _|b|l _|m _ _ _]; try (by eexists [], _, _).
  - unfold JsonWriter.render, JsonWriter.flat, valueToString_Int.
    destruct (z <? 0); [by eexists [], 45, _|apply uint_opens].
  - apply uint_opens.
  - apply Hq.
  - destruct b; by eexists [], _, _.
  - destruct l as [|v l]; [by eexists [], _, _|]. cbn [JsonWriter.render]. destruct (multi_line _ _); [by apply Hn|].
    by eexists [], 91, _.
  - destruct m; [by eexists [], _, _|]. by apply Hn.
Qed.

Lemma opens_peek b text r : blank b -> opens text -> peek (skipSpaces (b ++ text ++ r)) <> 93.
Proof.
  intros Hb (b' & c & t & -> & Hb' & Hc & H93). rewrite skipSpaces_blank by done.
  rewrite <- app_assoc. rewrite skipSpaces_blank by done. simpl. by rewrite Hc.
Qed.

Lemma skip_comments_enough f f' s : (List.length s < f)%nat -> (List.length s < f')%nat ->
  skip_comments f s = skip_comments f' s.
Proof.
  revert f' s. induction f as [|f IH]; intros [|f'] s Hf Hf'; try lia. cbn [skip_comments].
  destruct (readToken s) as [t r] eqn:E. apply readToken_progress in E as (_ & _ & Hlt).
  case_decide as Hc; [|done]. rewrite Hc in Hlt. specialize (Hlt ltac:(done)). apply IH; lia.
Qed.

Lemma skipCommentTokens_blank b s : blank b -> skipCommentTokens (b ++ s) = skipCommentTokens s.
Proof.
  intros Hb. unfold skipCommentTokens. cbn [skip_comments]. rewrite readToken_blank by done.
  destruct (readToken s) as [t r] eqn:E. apply readToken_progress in E as (_ & _ & Hlt).
  case_decide as Hc; [|done]. rewrite Hc in Hlt. specialize (Hlt ltac:(done)).
  apply skip_comments_enough; rewrite ?length_app; lia.
Qed.

Lemma readValue_blank fuel v b s : blank b -> readValue fuel v (b ++ s) = readValue fuel v s.
Proof. intros Hb. destruct fuel; [done|]. cbn [JsonReader.readValue]. by rewrite skipCommentTokens_blank. Qed.

Lemma readValue_more fuel fuel' v s r : readValue fuel v s = Ok r -> (fuel <= fuel')%nat ->
  readValue fuel' v s = Ok r.
Proof. intros H Hle. rewrite <- H. apply (readers_mono_le sscanf_lf fuel fuel' Hle). by rewrite H. Qed.

Lemma readArray_more fuel fuel' v s r : readArray sscanf_lf fuel v s = Ok r -> (fuel <= fuel')%nat ->
  readArray sscanf_lf fuel' v s = Ok r.
Proof. intros H Hle. rewrite <- H. apply (readers_mono_le sscanf_lf fuel fuel' Hle). by rewrite H. Qed.

Lemma readObject_more fuel fuel' v n s r : readObject sscanf_lf fuel v n s = Ok r -> (fuel <= fuel')%nat ->
  readObject sscanf_lf fuel' v n s = Ok r.
Proof. intros H Hle. rewrite <- H. apply (readers_mono_le sscanf_lf fuel fuel' Hle). by rewrite H. Qed.

(** A single-character token. *)
Lemma skip_char c t r : is_space c = false -> (forall s, scan_token c s = (t, true, s)) ->
  t <> tokenComment -> skipCommentTokens (c :: r) = Ok (mkToken t [c], r).
Proof. intros Hc Ht Hn. apply skipCommentTokens_token; [|done]. by apply readToken_scan. Qed.

Lemma skip_to_char c t e r : blank e -> is_space c = false -> (forall s, scan_token c s = (t, true, s)) ->
  t <> tokenComment -> skipCommentTokens (e ++ c :: r) = Ok (mkToken t [c], r).
Proof. intros He Hc Ht Hn. rewrite skipCommentTokens_blank by done. by apply skip_char. Qed.

Lemma delim_blank e c r : blank e -> number_char c = false -> delim (e ++ c :: r).
Proof.
  intros He Hc. destruct He as [|d e Hd _]; [done|]. unfold delim. cbn [app]. change (peek (d :: ?x)) with d.
  revert Hd. unfold is_space, number_char, is_digit. lia.
Qed.

Lemma readArray_items ind l b e l0 r :
  Forall (fun v => reads (render ind v) v) l -> l <> [] -> blank b -> blank e -> exists fuel,
  readArray sscanf_lf fuel (arrayValue l0) (sep_join [44] (map (fun v => b ++ render ind v) l) ++ e ++ 93 :: r) =
  Ok (true, arrayValue (l0 ++ l), r).
Proof.
  intros Hl Hne Hb He. revert l0. induction Hl as [|v l Hv Hl IH]; intros l0; [done|].
  rewrite map_cons, sep_join_cons. destruct l as [|v' l].
  - destruct (Hv nullValue (e ++ 93 :: r)) as (fuel & Hf); [by apply delim_blank|].
    exists (S fuel). cbn [readArray map]. simpl mjoin. rewrite app_nil_r, <- app_assoc, readValue_blank by done.
    rewrite Hf. cbn [mbind outcome_bind append_ negb].
    rewrite (skip_to_char 93 tokenArrayEnd) by done. done.
  - specialize (IH ltac:(done)).
    set (rest := sep_join [44] (map (fun v => b ++ render ind v) (v' :: l)) ++ e ++ 93 :: r) in *.
    assert (Hrest : (b ++ render ind v) ++ mjoin (map (app [44]) (map (fun v => b ++ render ind v) (v' :: l))) ++ e ++ 93 :: r =
      b ++ render ind v ++ 44 :: rest).
    { unfold rest. rewrite map_cons, sep_join_cons, map_cons. simpl. by rewrite <- !app_assoc. }
    destruct (Hv nullValue (44 :: rest)) as (f1 & Hf1); [done|].
    destruct (IH (l0 ++ [v])) as (f2 & Hf2). exists (S (Nat.max f1 f2)). cbn [readArray].
    rewrite <- app_assoc. rewrite Hrest. rewrite readValue_blank by done.
    rewrite (readValue_more f1 _ _ _ _ Hf1) by lia. cbn [mbind outcome_bind append_ negb].
    rewrite (skip_char 44 tokenArraySeparator) by done. cbn [mbind outcome_bind type_].
    rewrite bool_decide_eq_false_2 by done.
    rewrite (readArray_more f2 _ _ _ _ Hf2) by lia. by rewrite <- app_assoc.
Qed.

(** *** Objects *)

Lemma map_find_after k m : Forall (fun a => strcmp a.1 k = Lt) m -> map_find k m = None.
Proof.
  induction 1 as [|[k' w] m Hk _ IH]; [done|]. simpl in *. rewrite strcmp_antisym, Hk. done.
Qed.

(** Reading a member whose name comes after the names so far. *)
Lemma member_appended m k w : 0 ∉ k -> Forall (fun a => strcmp a.1 k = Lt) m ->
  resolveReference (objectValue m) k = Ok (nullValue, objectValue (m ++ [(k, nullValue)])) /\
  set_member (objectValue (m ++ [(k, nullValue)])) k w = Ok (objectValue (m ++ [(k, w)])).
Proof.
  intros Hk Hm. unfold resolveReference, set_member. rewrite c_str_id by done.
  rewrite map_find_after by done. split; [by rewrite map_insert_last|].
  do 2 f_equal. induction Hm as [|[k' w'] m H _ IH]; simpl; [by rewrite strcmp_refl|].
  simpl in H. rewrite strcmp_antisym, H. simpl. by rewrite IH.
Qed.

Definition member_text (ind : str) (kv : str * Value) : str :=
  [10] ++ ind ++ valueToQuotedString (c_str (fst kv)) ++ [32; 58; 32] ++ render ind (snd kv).

(** A text that is read as the name [k], and one that is read as the member [k]
    with the value [v]. *)
Definition names (text k : str) : Prop :=
  forall r, exists t, readToken (text ++ r) = (t, r) /\ type_ t = tokenString /\ decodeString t = Some k.

Inductive member_reads : str -> str * Value -> Prop :=
| member_reads_intro b name b' text k v : blank b -> names name k -> blank b' -> reads text v ->
    member_reads (b ++ name ++ b' ++ 58 :: text) (k, v).

Lemma reads_blank b text v : blank b -> reads text v -> reads (b ++ text) v.
Proof.
  intros Hb Ht v0 r Hr. destruct (Ht v0 r Hr) as (fuel & Hf). exists fuel. by rewrite <- app_assoc, readValue_blank.
Qed.

(** One round of the loop of [readObject] over a member that is followed by a
    comma or the closing brace. *)
Lemma readObject_member text k v m0 name e c rest t :
  0 ∉ k -> Forall (fun a => strcmp a.1 k = Lt) m0 -> member_reads text (k, v) -> blank e ->
  is_space c = false -> number_char c = false -> (forall s, scan_token c s = (t, true, s)) ->
  (t = tokenObjectEnd \/ t = tokenArraySeparator) ->
  exists f1, forall fuel, (f1 <= fuel)%nat ->
  readObject sscanf_lf (S fuel) (objectValue m0) name (text ++ e ++ c :: rest) =
  if decide (t = tokenObjectEnd) then Ok (true, objectValue (m0 ++ [(k, v)]), rest)
  else readObject sscanf_lf fuel (objectValue (m0 ++ [(k, v)])) k rest.
Proof.
  intros Hk Hm Hmr He Hc Hcn Hsc Ht. inversion Hmr as [b kt b' vt k' v' Hb Hkt Hb' Hv]; subst.
  destruct (Hv nullValue (e ++ c :: rest)) as (f1 & Hf1); [by apply delim_blank|].
  exists f1. intros fuel Hf. cbn [readObject].
  rewrite <- !app_assoc, <- app_comm_cons. rewrite skipCommentTokens_blank by done.
  destruct (Hkt (b' ++ 58 :: vt ++ e ++ c :: rest)) as (tk & Etk & Htk & Hdk).
  rewrite (skipCommentTokens_token _ tk _ Etk) by (by rewrite Htk). cbn [mbind outcome_bind].
  rewrite bool_decide_eq_false_2 by (rewrite Htk; by intros [? _]).
  rewrite bool_decide_eq_false_2 by (rewrite Htk; tauto). rewrite Hdk.
  rewrite (readToken_blank b') by done.
  rewrite (readToken_scan 58 _ tokenMemberSeparator [] (vt ++ e ++ c :: rest)) by done.
  rewrite bool_decide_eq_false_2 by tauto.
  destruct (member_appended m0 k v Hk Hm) as [-> Hset]. cbn [mbind outcome_bind fst snd].
  rewrite (readValue_more f1 _ _ _ _ Hf1 Hf).
  cbn [mbind outcome_bind]. rewrite Hset. cbn [mbind outcome_bind negb].
  rewrite readToken_blank by done. rewrite (readToken_scan c rest t [] rest) by done. cbn [type_].
  destruct Ht as [-> | ->]; done.
Qed.

Lemma readObject_items texts m e m0 name r :
  Forall2 member_reads texts m -> m <> [] -> blank e ->
  ordered (m0 ++ m) -> Forall (fun kv => 0 ∉ kv.1) m -> exists fuel,
  readObject sscanf_lf fuel (objectValue m0) name (sep_join [44] texts ++ e ++ 125 :: r) = Ok (true, objectValue (m0 ++ m), r).
Proof.
  intros Hm Hne He. revert m0 name. induction Hm as [|text [k v] texts m Hv Hm IH]; intros m0 name Ho Hz; [done|].
  apply Forall_cons in Hz as [Hk Hz]. simpl in Hk.
  assert (Hlt : Forall (fun a => strcmp a.1 k = Lt) m0).
  { clear - Ho. induction m0 as [|a m0 IH]; [done|]. simpl in Ho. apply StronglySorted_inv in Ho as [Ho Ha].
    constructor; [|by apply IH]. rewrite Forall_app in Ha. destruct Ha as [_ Ha]. by apply Forall_cons in Ha as [? _]. }
  rewrite sep_join_cons. destruct Hm as [|text' kv texts m Hkv Hm].
  - destruct (readObject_member text k v m0 name e 125 r tokenObjectEnd) as (f1 & Hf1); try done; [by left|].
    exists (S f1). simpl mjoin. rewrite app_nil_r. rewrite Hf1 by lia. done.
  - specialize (IH ltac:(done) (m0 ++ [(k, v)]) k). rewrite <- app_assoc in IH. destruct (IH Ho Hz) as (f2 & Hf2).
    set (rest := sep_join [44] (text' :: texts) ++ e ++ 125 :: r) in *.
    destruct (readObject_member text k v m0 name [] 44 rest tokenArraySeparator) as (f1 & Hf1); try done; [by right|].
    exists (S (Nat.max f1 f2)).
    replace ((text ++ mjoin (map (app [44]) (text' :: texts))) ++ e ++ 125 :: r) with (text ++ [] ++ 44 :: rest).
    2: { unfold rest. rewrite sep_join_cons. cbn [map]. change (mjoin (?a :: ?l)) with (a ++ mjoin l).
         by rewrite <- !app_assoc. }
    rewrite Hf1 by lia. rewrite decide_False by done. rewrite (readObject_more f2 _ _ _ _ _ Hf2) by lia. done.
Qed.

Lemma reads_empty_array : reads (lit "[]") (arrayValue []).
Proof.
  intros v0 r _. exists 1%nat. cbn [JsonReader.readValue].
  change (lit "[]" ++ r) with (91 :: 93 :: r). rewrite (skip_char 91 tokenArrayBegin) by done.
  cbn [mbind outcome_bind type_]. simpl skipSpaces. change (peek (93 :: r) =? 93) with true. cbn match.
  by rewrite (readToken_scan 93 r tokenArrayEnd [] r).
Qed.

Lemma reads_empty_object : reads (lit "{}") (objectValue []).
Proof.
  intros v0 r _. exists 2%nat. cbn [JsonReader.readValue readObject].
  change (lit "{}" ++ r) with (123 :: 125 :: r). rewrite (skip_char 123 tokenObjectBegin) by done.
  cbn [mbind outcome_bind type_].
  by rewrite (skip_char 125 tokenObjectEnd) by done.
Qed.

Lemma reads_array ind pre b e l :
  Forall (fun v => reads (render ind v) v) l -> Forall writable l -> l <> [] ->
  blank ind -> blank pre -> blank b -> blank e ->
  reads (pre ++ 91 :: sep_join [44] (map (fun v => b ++ render ind v) l) ++ e ++ [93]) (arrayValue l).
Proof.
  intros Hl Hw Hne Hi Hpre Hb He v0 r _.
  destruct (readArray_items ind l b e [] r Hl Hne Hb He) as (fuel & Hf).
  exists (S fuel). rewrite <- !app_assoc. cbn [JsonReader.readValue app].
  rewrite (skip_to_char 91 tokenArrayBegin) by done. cbn [mbind outcome_bind type_].
  rewrite <- !app_assoc. cbn [app].
  set (s := sep_join [44] (map (fun v => b ++ render ind v) l) ++ e ++ 93 :: r) in *.
  assert (Hpk : (peek (skipSpaces s) =? 93) = false).
  { apply Z.eqb_neq. unfold s. destruct l as [|v l]; [done|]. rewrite map_cons, sep_join_cons, <- !app_assoc.
    apply opens_peek; [done|]. apply render_opens; [done|]. by apply Forall_cons in Hw as [? _]. }
  rewrite Hpk. destruct fuel; [done|]. change ([] ++ l) with l in Hf. rewrite <- Hf. cbn [readArray].
  assert (Hsk : exists p, s = p ++ skipSpaces s /\ blank p).
  { clear. induction s as [|c s (p & IH & Hp)]; [by exists []|]. simpl. destruct (is_space c) eqn:E; [|by exists []].
    exists (c :: p). split; [simpl; by rewrite <- IH|by constructor]. }
  destruct Hsk as (p & Hp & Hbp). rewrite Hp at 2. by rewrite readValue_blank.
Qed.

Lemma reads_object pre e texts m :
  Forall2 member_reads texts m -> m <> [] -> ordered m -> Forall (fun kv => 0 ∉ kv.1) m -> blank pre -> blank e ->
  reads (pre ++ 123 :: sep_join [44] texts ++ e ++ [125]) (objectValue m).
Proof.
  intros Hm Hne Ho Hz Hpre He v0 r _.
  destruct (readObject_items texts m e [] [] r Hm Hne He Ho Hz) as (fuel & Hf).
  exists (S fuel). rewrite <- !app_assoc. cbn [JsonReader.readValue app].
  rewrite (skip_to_char 123 tokenObjectBegin) by done. cbn [mbind outcome_bind type_].
  rewrite <- !app_assoc. exact Hf.
Qed.

Lemma member_text_reads ind kv : blank ind -> 0 ∉ kv.1 -> reads (render ind kv.2) kv.2 -> member_reads (member_text ind kv) kv.
Proof.
  destruct kv as [k v]. cbn [fst snd]. intros Hi Hk Hv. unfold member_text. cbn [fst snd]. rewrite c_str_id by done.
  rewrite (app_assoc [10] ind). change ([32; 58; 32] ++ render ind v) with ([32] ++ 58 :: [32] ++ render ind v).
  constructor; [by constructor|intros r; apply readToken_quoted|by constructor|by apply reads_blank; [constructor|]].
Qed.

Lemma row_join l : l <> [] ->
  [32] ++ sep_join [44; 32] (map flat l) = sep_join [44] (map (fun v => [32] ++ flat v) l).
Proof.
  destruct l as [|v l]; [done|]. intros _. rewrite !map_cons, !sep_join_cons. simpl. do 2 f_equal.
  by rewrite !map_map.
Qed.

(** Every writable value is read back from its printed text. *)
Lemma reads_render v ind : writable v -> blank ind -> reads (render ind v) v.
Proof.
  intros Hv. revert ind. induction v as [|z|z|x|s|b|l IH|m IH] using Value_nested_ind; intros ind Hi; inversion Hv; subst.
  - apply reads_null.
  - by apply reads_int.
  - by apply reads_uint.
  - by apply reads_string.
  - apply reads_bool.
  - destruct l as [|v l]; [apply reads_empty_array|]. set (vs := v :: l) in *.
    assert (Hi' : blank (ind ++ indentation_)) by (apply Forall_app; split; [done|by constructor]).
    assert (Hr : Forall (fun v => reads (render (ind ++ indentation_) v) v) vs).
    { rewrite Forall_forall in IH, H0 |- *. intros w Hw. apply IH; auto. }
    change (render ind (arrayValue vs)) with
      (if multi_line sprintf_g vs then [10] ++ ind ++ [91] ++
         sep_join [44] (map (fun v => [10] ++ (ind ++ indentation_) ++ render (ind ++ indentation_) v) vs) ++
         [10] ++ ind ++ [93]
       else [91; 32] ++ sep_join [44; 32] (map flat vs) ++ [32; 93]).
    destruct (multi_line sprintf_g vs) eqn:Em.
    + pose proof (reads_array (ind ++ indentation_) ([10] ++ ind) ([10] ++ (ind ++ indentation_)) ([10] ++ ind) vs
        Hr H0 ltac:(done) Hi' ltac:(by constructor) ltac:(by constructor) ltac:(by constructor)) as Ha.
      rewrite <- !app_assoc in Ha. exact Ha.
    + pose proof (reads_array (ind ++ indentation_) [] [32] [32] vs
        Hr H0 ltac:(done) Hi' ltac:(done) ltac:(by constructor) ltac:(by constructor)) as Ha.
      assert (Hc : existsb has_content vs = false).
      { unfold multi_line in Em. apply orb_false_iff in Em as [Em _]. by apply orb_false_iff in Em as [_ Em]. }
      assert (Hmap : map (fun v => [32] ++ render (ind ++ indentation_) v) vs = map (fun v => [32] ++ flat v) vs).
      { clear - Hc. clearbody vs. induction vs as [|w vs IH]; [done|]. simpl in Hc.
        apply orb_false_iff in Hc as [Hw Hc]. simpl. rewrite (render_flat _ _ w Hw). f_equal. by apply IH. }
      rewrite Hmap, <- row_join in Ha by done. exact Ha.
  - destruct m as [|kv m]; [apply reads_empty_object|].
    assert (Hi' : blank (ind ++ indentation_)) by (apply Forall_app; split; [done|by constructor]).
    pose proof (reads_object ([10] ++ ind) ([10] ++ ind) (map (member_text (ind ++ indentation_)) (kv :: m)) (kv :: m)) as Ho.
    rewrite <- !app_assoc in Ho. apply Ho; try done; try (by constructor).
    rename select (Forall (fun kv => writable kv.2) _) into Hws.
    rename select (Forall (fun kv => 0 ∉ kv.1) _) into Hzs.
    rewrite Forall2_fmap_l. apply Forall_Forall2_diag. rewrite Forall_forall in IH, Hws, Hzs |- *. intros w Hw.
    apply member_text_reads; auto.
Qed.

Lemma parse_render v root : writable v -> parse sscanf_lf (render [] v ++ [10]) root = Ok (true, v).
Proof.
  intros Hv. unfold parse. destruct (reads_render v [] Hv (Forall_nil_2 _) root [10]) as (fuel & Hf); [done|].
  by rewrite (readValue_any _ _ _ _ _ Hf).
Qed.

(** C12: a bookmark file that is written is read back: parsing the text of a
    writable value succeeds, whatever the value it is read into held before,
    and gives exactly that value. *)
Theorem json_roundtrip v root : writable v ->
  exists text, write sprintf_g v = Ok text /\ parse sscanf_lf text root = Ok (true, v).
Proof. intros Hv. rewrite write_is_render. eexists. split; [done|]. by apply parse_render. Qed.

End Roundtrip.

(** ** Reading from a stream *)

(** The reading of a stream ends at the character [(char)EOF], 255; a value
    without it is written without it. *)
Abbreviation no_eof := (Forall (fun c => c <> 255)).

#[local] Unset Elimination Schemes.

Inductive streamable : Value -> Prop :=
| streamable_null : streamable nullValue
| streamable_int z : streamable (intValue z)
| streamable_uint z : streamable (uintValue z)
| streamable_string s : no_eof s -> streamable (stringValue s)
| streamable_bool b : streamable (booleanValue b)
| streamable_array l : Forall streamable l -> streamable (arrayValue l)
| streamable_object m : Forall (fun kv => no_eof kv.1) m -> Forall (fun kv => streamable kv.2) m ->
    streamable (objectValue m).

#[local] Set Elimination Schemes.

#[export] Hint Constructors streamable : json.

Lemma getline_no_eof s : no_eof s -> getline_eof s = s.
Proof.
  induction 1 as [|c s Hc _ IH]; [done|]. simpl. destruct (Z.eqb_spec c 255); [done|]. by rewrite IH.
Qed.

Lemma uint_no_eof n : no_eof (uintToString n).
Proof.
  eapply Forall_impl; [apply (uint_digits_range 31 n []); constructor|]. simpl. lia.
Qed.

Lemma c_str_no_eof s : no_eof s -> no_eof (c_str s).
Proof. induction 1 as [|c s Hc _ IH]; simpl; [constructor|]. destruct (c =? 0); by constructor. Qed.

Lemma quoted_no_eof s : no_eof s -> no_eof (valueToQuotedString s).
Proof.
  intros Hs. rewrite valueToQuotedString_escaped. rewrite !Forall_app.
  split; [by repeat constructor|split; [|by repeat constructor]].
  induction Hs as [|c s Hc _ IH]; [constructor|]. change (no_eof (escape_char c ++ mjoin (map escape_char s))).
  apply Forall_app. split; [|done]. unfold escape_char.
  repeat case_match; repeat constructor; try done; unfold upper_hex, isControlCharacter in *; repeat case_match; lia_div.
Qed.

Lemma sep_join_no_eof sep l : no_eof sep -> Forall (fun s => no_eof s) l -> no_eof (sep_join sep l).
Proof.
  intros Hsep. induction 1 as [|s l Hs Hl IH]; [constructor|]. destruct l; [done|].
  change (sep_join sep (s :: ?l)) with (s ++ sep ++ sep_join sep l). by rewrite !Forall_app.
Qed.

Lemma flat_no_eof sprintf_g v : streamable v -> no_eof (flat sprintf_g v).
Proof.
  intros Hv. destruct Hv; cbn [flat]; try (repeat constructor; discriminate).
  - unfold valueToString_Int. case_match; [constructor; [lia|]|]; apply uint_no_eof.
  - apply uint_no_eof.
  - by apply quoted_no_eof, c_str_no_eof.
  - destruct b; repeat constructor; discriminate.
Qed.

Lemma render_no_eof sprintf_g v ind : streamable v -> no_eof ind -> no_eof (render sprintf_g ind v).
Proof.
  intros Hv. revert ind. induction v as [| | | | | |l IH|m IH] using Value_nested_ind; intros ind Hi;
    try (by apply flat_no_eof).
  - inversion Hv as [| | | | |? Hl|]; subst. destruct l as [|w l]; [by apply flat_no_eof|].
    assert (Hi' : no_eof (ind ++ indentation_)) by (apply Forall_app; split; [done|repeat constructor; lia]).
    cbn [render]. set (vs := w :: l) in *. destruct (multi_line sprintf_g vs).
    + rewrite !Forall_app. repeat split; try done; try (repeat constructor; lia).
      apply sep_join_no_eof; [repeat constructor; lia|]. apply Forall_fmap. rewrite Forall_forall in IH, Hl |- *. intros x Hx.
      simpl. constructor; [lia|]. apply Forall_app. split; [done|]. by apply IH; auto.
    + rewrite !Forall_app. repeat split; try (repeat constructor; lia).
      apply sep_join_no_eof; [repeat constructor; lia|]. apply Forall_fmap. eapply Forall_impl; [exact Hl|].
      intros x Hx. by apply flat_no_eof.
  - inversion Hv as [| | | | | |? Hk Hm]; subst. destruct m as [|kv m]; [by apply flat_no_eof|].
    assert (Hi' : no_eof (ind ++ indentation_)) by (apply Forall_app; split; [done|repeat constructor; lia]).
    cbn [render]. set (vs := kv :: m) in *. rewrite !Forall_app. repeat split; try done; try (repeat constructor; lia).
    apply sep_join_no_eof; [repeat constructor; lia|]. apply Forall_fmap. rewrite Forall_forall in IH, Hk, Hm |- *.
    intros x Hx. simpl. constructor; [lia|]. rewrite !Forall_app. repeat split; try done; try (repeat constructor; lia).
    + by apply quoted_no_eof, c_str_no_eof, Hk.
    + do 3 (constructor; [lia|]). by apply IH; auto.
Qed.

Lemma stream_roundtrip sscanf_lf sprintf_g v root text : writable v -> streamable v ->
  write sprintf_g v = Ok text -> parse_stream sscanf_lf text root = Ok (true, v).
Proof.
  intros Hv Hs. rewrite write_is_render. intros [= <-]. unfold parse_stream. rewrite getline_no_eof.
  - by apply parse_render.
  - apply Forall_app. split; [apply render_no_eof; [done|constructor]|repeat constructor; lia].
Qed.

Definition sample_value : Value :=
  objectValue [(lit "date_added", stringValue (lit "12")); (lit "list", arrayValue [intValue (-7); nullValue]);
               (lit "name", stringValue [228; 189; 160; 34; 92; 10]); (lit "version", uintValue 3000000000)].

Lemma json_roundtrip_witness :
  exists text, write (fun _ => []) sample_value = Ok text /\
    parse (fun _ => None) text (booleanValue true) = Ok (true, sample_value).
Proof.
  apply (json_roundtrip (fun _ => None) (fun _ => [])). unfold sample_value.
  repeat constructor; simpl; try lia; set_solver.
Defined.
