(* ===== verification/Utf8.v ===== *)
(** * UTF-8 validation

    [IsStringUTF8] of src/PlugIn/ChromePlugIn/ChromePlugIn.cpp over the macro
    [CBU8_NEXT] and the function [utf8_nextCharSafeBody] of src/Utility/icu.  A
    position in the string is the list of the bytes from there on.  The strings
    that are accepted are exactly the encodings, by the macro
    [CBU8_APPEND_UNSAFE] of the same library, of valid characters. *)
From stdpp Require Import prelude.
From Stdlib Require Import ZArith Lia.
From S2P Require Import Prelude.

#[local] Open Scope Z_scope.

(** ** Tables and tests *)

Definition utf8_countTrailBytes : list Z :=
  replicate 192 0 ++ replicate 32 1 ++ replicate 16 2 ++ replicate 8 3 ++ replicate 4 4 ++ replicate 2 5 ++ replicate 2 0.

Definition utf8_minLegal : list Z := [0; 0x80; 0x800; 0x10000].

Definition utf8_errorValue : list Z := [0x15; 0x9f; 0xffff; 0x10ffff; 0x3ffffff; 0x7fffffff].

Definition table (t : list Z) (i : Z) : Z := nth (Z.to_nat i) t 0.

Definition CBU8_IS_LEAD (c : Z) : bool := u8 (c - 0xc0) <? 0x3e.

Definition CBU8_IS_TRAIL (c : Z) : bool := Z.land c 0xc0 =? 0x80.

Definition CBU_IS_SURROGATE (c : Z) : bool := Z.land c 0xfffff800 =? 0xd800.

Definition CBU_IS_UNICODE_NONCHAR (c : Z) : bool :=
  (0xfdd0 <=? c) && ((c <=? 0xfdef) || (Z.land c 0xfffe =? 0xfffe)) && (c <=? 0x10ffff).

(** [CBU_SENTINEL], -1 in 32 unsigned bits. *)
Definition CBU_SENTINEL : Z := u32 (-1).

(** ** Reading one character *)

(** [trail=s[(i)++]; (c)=((c)<<6)|(trail&0x3f); illegal|=(trail&0xc0)^0x80;] *)
Definition trail_step (c illegal trail : Z) : Z * Z :=
  (Z.lor (u32 (Z.shiftl c 6)) (Z.land trail 0x3f), Z.lor illegal (Z.lxor (Z.land trail 0xc0) 0x80)).

Fixpoint trail_steps (n : nat) (c illegal : Z) (s : list Z) : Z * Z * list Z :=
  match n, s with
  | S n, t :: s => let '(c, illegal) := trail_step c illegal t in trail_steps n c illegal s
  | _, _ => (c, illegal, s)
  end.

(** The [switch] over the number of trail bytes. *)
Definition read_trail (count c : Z) (s : list Z) : Z * Z * list Z :=
  if 4 <=? count then (c, 1, s)
  else if count =? 3 then
    match s with
    | t :: s' =>
        let '(c, illegal) := trail_step c 0 t in
        if c <? 0x110 then trail_steps 2 c illegal s' else (c, 1, s')
    | [] => (c, 1, s)
    end
  else trail_steps (Z.to_nat count) c 0 s.

(** [while(count>0 && CBU8_IS_TRAIL(s[i])) ++i] *)
Fixpoint skip_trail (n : nat) (s : list Z) : list Z :=
  match n, s with
  | S n, t :: s' => if CBU8_IS_TRAIL t then skip_trail n s' else s
  | _, _ => s
  end.

Definition utf8_nextCharSafeBody (s : list Z) (c strict : Z) : Z * list Z :=
  let error s' :=
    (if 0 <=? strict then table utf8_errorValue (Z.of_nat (length s) - Z.of_nat (length s')) else CBU_SENTINEL, s') in
  let count := table utf8_countTrailBytes (u8 c) in
  if count <=? Z.of_nat (length s) then
    let c := Z.land c (Z.shiftl 1 (6 - count) - 1) in
    if count =? 0 then (if 0 <=? strict then 0x15 else CBU_SENTINEL, s)
    else
      let '(c, illegal, rest) := read_trail count c s in
      if negb (illegal =? 0) || (c <? table utf8_minLegal count) || (CBU_IS_SURROGATE c && negb (strict =? -2)) then
        error (skip_trail (Z.to_nat count) s)
      else if (0 <? strict) && CBU_IS_UNICODE_NONCHAR c then (table utf8_errorValue count, rest)
      else (c, rest)
  else error (skip_trail (length s) s).

(** [CBU8_NEXT]: the character at the front and the rest. *)
Definition CBU8_NEXT (c : Z) (s : list Z) : Z * list Z :=
  if 0x80 <=? c then
    if CBU8_IS_LEAD c then utf8_nextCharSafeBody s c (-1) else (CBU_SENTINEL, s)
  else (c, s).

(** ** Validation *)

Definition IsValidCharacter (code_point : Z) : bool :=
  (code_point <? 0xD800) || ((0xE000 <=? code_point) && (code_point <? 0xFDD0)) ||
  ((0xFDEF <? code_point) && (code_point <=? 0x10FFFF) && negb (Z.land code_point 0xFFFE =? 0xFFFE)).

Fixpoint is_string_utf8 (fuel : nat) (s : list Z) : bool :=
  match fuel, s with
  | _, [] => true
  | O, _ => false
  | S fuel, c :: s =>
      let '(code_point, rest) := CBU8_NEXT c s in
      if IsValidCharacter code_point then is_string_utf8 fuel rest else false
  end.

(** Every round reads a byte at least, so that the length is enough. *)
Definition IsStringUTF8 (s : list Z) : bool := is_string_utf8 (length s) s.

(** ** Encoding *)

(** The bytes [CBU8_APPEND_UNSAFE] appends. *)
Definition CBU8_APPEND_UNSAFE (c : Z) : list Z :=
  if c <=? 0x7f then [u8 c]
  else
    (if c <=? 0x7ff then [u8 (Z.lor (Z.shiftr c 6) 0xc0)]
     else
       (if c <=? 0xffff then [u8 (Z.lor (Z.shiftr c 12) 0xe0)]
        else [u8 (Z.lor (Z.shiftr c 18) 0xf0); u8 (Z.lor (Z.land (Z.shiftr c 12) 0x3f) 0x80)]) ++
       [u8 (Z.lor (Z.land (Z.shiftr c 6) 0x3f) 0x80)]) ++
    [u8 (Z.lor (Z.land c 0x3f) 0x80)].

Definition valid_character (c : Z) : Prop := 0 <= c /\ IsValidCharacter c = true.

(** ** Bytes *)

Definition arith_count (c : Z) : Z :=
  if c <? 192 then 0 else if c <? 224 then 1 else if c <? 240 then 2 else if c <? 248 then 3
  else if c <? 252 then 4 else if c <? 254 then 5 else 0.

Lemma count_arith b : 0 <= b < 256 -> table utf8_countTrailBytes (u8 b) = arith_count b.
Proof.
  intros Hb. apply Z.eqb_eq. revert b Hb.
  apply (all_bytes (fun b => table utf8_countTrailBytes (u8 b) =? arith_count b)). vm_compute. reflexivity.
Qed.

Lemma lead_arith b : 0 <= b < 256 -> CBU8_IS_LEAD b = (192 <=? b) && (b <? 254).
Proof.
  intros Hb. apply Bool.eqb_prop. revert b Hb.
  apply (all_bytes (fun b => Bool.eqb (CBU8_IS_LEAD b) ((192 <=? b) && (b <? 254)))). vm_compute. reflexivity.
Qed.

Lemma trail_legal b : 0 <= b < 256 -> Z.lxor (Z.land b 0xc0) 0x80 = 0 <-> 128 <= b < 192.
Proof.
  intros Hb. assert (H : (Z.lxor (Z.land b 0xc0) 0x80 =? 0) = (128 <=? b) && (b <? 192)); [|lia].
  apply Bool.eqb_prop. revert b Hb.
  apply (all_bytes (fun b => Bool.eqb (Z.lxor (Z.land b 0xc0) 0x80 =? 0) ((128 <=? b) && (b <? 192)))).
  vm_compute. reflexivity.
Qed.

Lemma land_63 b : Z.land b 0x3f = b mod 64.
Proof. exact (Z.land_ones b 6 ltac:(lia)). Qed.

Lemma lead_mask c n : 0 <= n -> Z.land c (Z.shiftl 1 n - 1) = c mod 2 ^ n.
Proof. intros H. rewrite Z.shiftl_1_l, Z.sub_1_r, <- Z.ones_equiv. by apply Z.land_ones. Qed.

Lemma lor_step c t : 0 <= c < 2 ^ 20 -> Z.lor (u32 (Z.shiftl c 6)) (Z.land t 0x3f) = c * 64 + t mod 64.
Proof.
  intros Hc. rewrite land_63, Z.shiftl_mul_pow2, u32_small by lia.
  rewrite Z.lor_comm, (lor_add 6) by lia_div. lia.
Qed.

Lemma surrogate_arith c : 0 <= c < 2 ^ 32 -> CBU_IS_SURROGATE c = (0xd800 <=? c) && (c <? 0xe000).
Proof.
  intros Hc. unfold CBU_IS_SURROGATE. replace (Z.land c 0xfffff800) with (c / 2 ^ 11 * 2 ^ 11); [lia_div|].
  change 0xfffff800 with (Z.shiftl (Z.ones 21) 11). rewrite <- Z.shiftl_mul_pow2, <- Z.shiftr_div_pow2 by lia.
  apply Z.bits_inj'. intros k Hk. rewrite Z.land_spec, !Z.shiftl_spec by lia.
  destruct (Z.lt_ge_cases k 11).
  { rewrite !(Z.testbit_neg_r _ (k - 11)) by lia. by rewrite andb_false_r. }
  rewrite Z.shiftr_spec, Z.testbit_ones by lia. replace (k - 11 + 11) with k by lia.
  destruct (Z.lt_ge_cases k 32).
  - replace ((0 <=? k - 11) && (k - 11 <? 21)) with true by lia. by rewrite andb_true_r.
  - by rewrite (proj1 (testbit_range 32 c ltac:(lia) ltac:(lia)) ltac:(lia) k) by lia.
Qed.

Lemma append_arith c : 0 <= c < 2 ^ 21 ->
  CBU8_APPEND_UNSAFE c =
  if c <? 2 ^ 7 then [c]
  else if c <? 2 ^ 11 then [192 + c / 2 ^ 6; 128 + c mod 64]
  else if c <? 2 ^ 16 then [224 + c / 2 ^ 12; 128 + c / 2 ^ 6 mod 64; 128 + c mod 64]
  else [240 + c / 2 ^ 18; 128 + c / 2 ^ 12 mod 64; 128 + c / 2 ^ 6 mod 64; 128 + c mod 64].
Proof.
  intros Hc. assert (Hb : forall x, u8 (Z.lor (Z.land x 0x3f) 0x80) = 128 + x mod 64).
  { intros x. rewrite land_63, (lor_add 6 _ 2) by lia_div. rewrite u8_small by lia_div. lia. }
  unfold CBU8_APPEND_UNSAFE. rewrite !Hb, !Z.shiftr_div_pow2 by lia.
  destruct (Z.leb_spec c 0x7f), (Z.ltb_spec c (2 ^ 7)); try lia; [by rewrite u8_small by lia|].
  destruct (Z.leb_spec c 0x7ff), (Z.ltb_spec c (2 ^ 11)); try lia.
  { rewrite (lor_add 6 _ 3) by lia_div. rewrite u8_small by lia_div. cbn [app]. f_equal. lia. }
  destruct (Z.leb_spec c 0xffff), (Z.ltb_spec c (2 ^ 16)); try lia.
  - rewrite (lor_add 5 _ 7) by lia_div. rewrite u8_small by lia_div. cbn [app]. f_equal. lia.
  - rewrite (lor_add 4 _ 15) by lia_div. rewrite u8_small by lia_div. cbn [app]. f_equal. lia.
Qed.

(** ** Reading is inverse to encoding *)

Lemma lor_zero a b : Z.lor a b = 0 <-> a = 0 /\ b = 0.
Proof. apply Z.lor_eq_0_iff. Qed.

Lemma trail_step_arith c illegal t : 0 <= c < 2 ^ 20 ->
  trail_step c illegal t = (c * 64 + t mod 64, Z.lor illegal (Z.lxor (Z.land t 0xc0) 0x80)).
Proof. intros H. unfold trail_step. by rewrite lor_step. Qed.

Definition trail (t : Z) : Prop := 128 <= t < 192.

(** The smallest number that needs as many bytes as follow the lead byte [c]. *)
Definition min_legal (c : Z) : Z := if c <? 192 then 0 else if c <? 224 then 0x80 else if c <? 240 then 0x800 else 0x10000.

Definition bad (t : Z) : Z := Z.lxor (Z.land t 0xc0) 0x80.

Lemma bad_trail t : 0 <= t < 256 -> bad t = 0 <-> trail t.
Proof. apply trail_legal. Qed.

Lemma trail_good t : trail t -> bad t = 0.
Proof. intros H. apply bad_trail; unfold trail in *; lia. Qed.

Lemma read_one c t s : 0 <= c < 2 ^ 6 -> read_trail 1 c (t :: s) = (c * 64 + t mod 64, bad t, s).
Proof. intros Hc. change (read_trail 1 c (t :: s)) with (trail_steps 1 c 0 (t :: s)). cbn [trail_steps]. by rewrite trail_step_arith by lia. Qed.

Lemma read_two c t1 t2 s : 0 <= c < 2 ^ 6 ->
  read_trail 2 c (t1 :: t2 :: s) = ((c * 64 + t1 mod 64) * 64 + t2 mod 64, Z.lor (bad t1) (bad t2), s).
Proof.
  intros Hc. change (read_trail 2 c (t1 :: t2 :: s)) with (trail_steps 2 c 0 (t1 :: t2 :: s)). cbn [trail_steps].
  rewrite trail_step_arith by lia. by rewrite trail_step_arith by lia_div.
Qed.

Lemma read_three c t1 t2 t3 s : 0 <= c < 2 ^ 6 ->
  read_trail 3 c (t1 :: t2 :: t3 :: s) =
  if c * 64 + t1 mod 64 <? 0x110 then
    (((c * 64 + t1 mod 64) * 64 + t2 mod 64) * 64 + t3 mod 64, Z.lor (Z.lor (bad t1) (bad t2)) (bad t3), s)
  else (c * 64 + t1 mod 64, 1, t2 :: t3 :: s).
Proof.
  intros Hc. unfold read_trail. change (4 <=? 3) with false. change (3 =? 3) with true. cbn [trail_steps]. rewrite trail_step_arith by lia. destruct (Z.ltb_spec (c * 64 + t1 mod 64) 0x110); [|done].
  rewrite trail_step_arith by lia_div. by rewrite trail_step_arith by lia_div.
Qed.

(** What an accepted sequence of two bytes at least looks like. *)
Definition accepted (c : Z) (s : list Z) (cp : Z) (rest : list Z) : Prop :=
  arith_count c <= Z.of_nat (length s) /\
  read_trail (arith_count c) (c mod 2 ^ (6 - arith_count c)) s = (cp, 0, rest) /\
  min_legal c <= cp /\ CBU_IS_SURROGATE cp = false.

Lemma sentinel_invalid : IsValidCharacter CBU_SENTINEL = false.
Proof. reflexivity. Qed.

Lemma body_accepted c s cp rest : 192 <= c < 248 -> IsValidCharacter cp = true ->
  utf8_nextCharSafeBody s c (-1) = (cp, rest) <-> accepted c s cp rest.
Proof.
  intros Hc Hv. pose proof sentinel_invalid as Hbad. unfold utf8_nextCharSafeBody, accepted.
  rewrite count_arith, lead_mask by (unfold arith_count; repeat case_match; lia). cbv zeta.
  assert ((arith_count c =? 0) = false /\ table utf8_minLegal (arith_count c) = min_legal c) as [-> ->].
  { unfold arith_count, min_legal. repeat case_match; try lia; done. }
  change (0 <=? -1) with false. change (0 <? -1) with false. change (negb (-1 =? -2)) with true.
  cbn [andb]. destruct (Z.leb_spec (arith_count c) (Z.of_nat (length s))).
  - destruct (read_trail _ _ _) as [[cp' ill] r]. rewrite andb_true_r. destruct (Z.eqb_spec ill 0) as [->|]; simpl.
    + destruct (Z.ltb_spec cp' (min_legal c)); simpl; [split; [intros [= <- _]; congruence|intros (_ & [= <- <-] & ? & ?); lia]|].
      destruct (CBU_IS_SURROGATE cp') eqn:E; [split; [intros [= <- _]; congruence|intros (_ & [= <- <-] & ? & ?); congruence]|].
      split; [intros [= <- <-]; done|naive_solver].
    + split; [intros [= <- _]; congruence|naive_solver].
  - split; [intros [= <- _]; congruence|lia].
Qed.

(** A valid character is below 2 to the 21, and no surrogate. *)
Lemma valid_range cp : valid_character cp -> 0 <= cp < 2 ^ 21 /\ CBU_IS_SURROGATE cp = false.
Proof.
  intros [H0 Hv]. unfold IsValidCharacter in Hv. assert (cp <= 0x10FFFF) by lia.
  split; [lia|]. rewrite surrogate_arith by lia. lia.
Qed.

Lemma valid_nonneg c s cp rest : bytes (c :: s) -> accepted c s cp rest -> 0 <= cp.
Proof. intros _ (_ & _ & H & _). unfold min_legal in H. repeat case_match; lia. Qed.

(** Both sides of an encoding, byte by byte. *)
Ltac encoding :=
  rewrite append_arith by lia_div;
  repeat ((case_match; [exfalso; lia_div|]) || (case_match; [|exfalso; lia_div])); cbn [app];
  repeat (apply (f_equal2 cons); [lia_div|]); try done.

(** Accepted sequences are encodings. *)
Lemma accepted_encoding c s cp rest : 192 <= c < 248 -> bytes s -> accepted c s cp rest -> cp < 2 ^ 21 /\
  c :: s = CBU8_APPEND_UNSAFE cp ++ rest.
Proof.
  intros Hc Hs (Hlen & Hread & Hmin & _). unfold arith_count, min_legal in *.
  repeat match goal with
         | H : context [c <? ?k] |- _ => destruct (Z.ltb_spec c k); try lia
         end;
    repeat match goal with H : context [length ?s], H' : bytes ?s |- _ =>
             destruct s as [|? ?]; cbn [length] in H; [lia|]; apply Forall_cons in H' as [? H'] end.
  - rewrite read_one in Hread by lia_div. injection Hread as <- Ht <-. apply bad_trail in Ht; [|done].
    unfold trail in *. split; [lia_div|]. encoding.
  - rewrite read_two in Hread by lia_div. injection Hread as <- Ht <-.
    apply lor_zero in Ht as [Ht1 Ht2]. apply bad_trail in Ht1, Ht2; [|done..].
    unfold trail in *. split; [lia_div|]. encoding.
  - rewrite read_three in Hread by lia_div. case_match eqn:E; [|done]. injection Hread as <- Ht <-.
    apply lor_zero in Ht as [Ht Ht3]. apply lor_zero in Ht as [Ht1 Ht2]. apply bad_trail in Ht1, Ht2, Ht3; [|done..].
    unfold trail in *. split; [lia_div|]. encoding.
Qed.

Lemma next_encoding cp t : valid_character cp ->
  exists c s, CBU8_APPEND_UNSAFE cp = c :: s /\ CBU8_NEXT c (s ++ t) = (cp, t).
Proof.
  intros Hv. destruct (valid_range cp Hv) as [Hr Hsur]. pose proof (proj2 Hv) as Hvalid.
  assert (Hlead : forall c s, 192 <= c < 248 -> accepted c s cp t -> CBU8_NEXT c s = (cp, t)).
  { intros c s Hc Ha. unfold CBU8_NEXT. replace (0x80 <=? c) with true by lia. rewrite lead_arith by lia.
    replace ((192 <=? c) && (c <? 254)) with true by lia. by apply body_accepted. }
  rewrite append_arith by done. repeat case_match; (eexists _, _; split; [reflexivity|]); cbn [app].
  - unfold CBU8_NEXT. by replace (0x80 <=? cp) with false by lia.
  - apply Hlead; [lia_div|]. unfold accepted.
    replace (arith_count _) with 1 by (unfold arith_count; repeat case_match; lia_div).
    replace (min_legal _) with 0x80 by (unfold min_legal; repeat case_match; lia_div).
    rewrite read_one by lia_div. rewrite trail_good by (unfold trail; lia_div). cbn [length].
    split; [lia|]. split; [do 2 f_equal; lia_div|split; [lia|done]].
  - apply Hlead; [lia_div|]. unfold accepted.
    replace (arith_count _) with 2 by (unfold arith_count; repeat case_match; lia_div).
    replace (min_legal _) with 0x800 by (unfold min_legal; repeat case_match; lia_div).
    rewrite read_two by lia_div. rewrite !trail_good by (unfold trail; lia_div). cbn [length].
    split; [lia|]. split; [do 2 f_equal; lia_div|split; [lia|done]].
  - apply Hlead; [lia_div|]. unfold accepted.
    replace (arith_count _) with 3 by (unfold arith_count; repeat case_match; lia_div).
    replace (min_legal _) with 0x10000 by (unfold min_legal; repeat case_match; lia_div).
    rewrite read_three by lia_div. replace (_ <? 0x110) with true by (unfold IsValidCharacter in Hvalid; lia_div).
    rewrite !trail_good by (unfold trail; lia_div). cbn [length].
    split; [lia|]. split; [do 2 f_equal; lia_div|split; [lia|done]].
Qed.

Lemma next_sound c s cp rest : bytes (c :: s) -> CBU8_NEXT c s = (cp, rest) -> IsValidCharacter cp = true ->
  valid_character cp /\ c :: s = CBU8_APPEND_UNSAFE cp ++ rest.
Proof.
  intros Hb H Hv. apply Forall_cons in Hb as [Hc Hs]. pose proof sentinel_invalid as Hbad. unfold CBU8_NEXT in H.
  destruct (Z.leb_spec 0x80 c).
  - rewrite lead_arith in H by done. destruct ((192 <=? c) && (c <? 254)) eqn:El; [|congruence].
    destruct (Z.lt_ge_cases c 248).
    + apply body_accepted in H; [|lia|done]. destruct (accepted_encoding c s cp rest) as [Hlt ->]; [lia|done..|].
      split; [|done]. split; [|done]. by apply (valid_nonneg c s cp rest); [constructor|].
    + exfalso. unfold utf8_nextCharSafeBody in H. rewrite count_arith in H by done.
      assert (Hk : 4 <= arith_count c) by (unfold arith_count; repeat case_match; lia).
      unfold read_trail in H. rewrite (proj2 (Z.leb_le 4 _)) in H by done.
      rewrite (proj2 (Z.eqb_neq (arith_count c) 0)) in H by lia. cbn [negb orb Z.eqb Z.leb Z.compare] in H.
      case_match; congruence.
  - injection H as <- <-. split; [split; [lia|done]|]. by rewrite append_arith, (proj2 (Z.ltb_lt c _)) by lia.
Qed.

Lemma rest_shorter c s cp rest : c :: s = CBU8_APPEND_UNSAFE cp ++ rest -> (length rest <= length s)%nat.
Proof.
  intros H. apply (f_equal length) in H. rewrite length_app in H. simpl in H.
  enough (1 <= length (CBU8_APPEND_UNSAFE cp))%nat by lia. unfold CBU8_APPEND_UNSAFE.
  repeat case_match; simpl; lia.
Qed.

(** C39: the validation of strings before they enter the checksum accepts exactly
    UTF-8: a string of bytes is accepted if and only if it is the encoding of a
    sequence of valid characters; no overlong form, no surrogate, no
    non-character and no truncated sequence passes. *)
Theorem IsStringUTF8_exact s : bytes s ->
  IsStringUTF8 s = true <-> exists cps, Forall valid_character cps /\ s = mjoin (map CBU8_APPEND_UNSAFE cps).
Proof.
  intros Hs. unfold IsStringUTF8. split.
  - assert (H : forall n s, (length s <= n)%nat -> bytes s -> is_string_utf8 n s = true ->
      exists cps, Forall valid_character cps /\ s = mjoin (map CBU8_APPEND_UNSAFE cps)); [|by apply H].
    induction n as [|n IH]; intros [|c t] Hn Ht H; simpl in Hn; try lia; [by exists []..|]. cbn [is_string_utf8] in H.
    destruct (CBU8_NEXT c t) as [cp rest] eqn:E. destruct (IsValidCharacter cp) eqn:Hv; [|done].
    destruct (next_sound c t cp rest Ht E Hv) as [Hcp Heq]. pose proof (rest_shorter _ _ _ _ Heq).
    destruct (IH rest) as (cps & Hcps & ->); [lia| |done|].
    { rewrite Heq in Ht. by apply Forall_app in Ht as [_ Ht]. }
    exists (cp :: cps). split; [by constructor|done].
  - intros (cps & Hcps & ->). clear Hs.
    assert (H : forall n s, (length s <= n)%nat -> s = mjoin (map CBU8_APPEND_UNSAFE cps) -> is_string_utf8 n s = true);
      [|by eapply H].
    induction Hcps as [|cp cps Hcp _ IH]; intros n s Hn ->; [by destruct n|]. simpl in Hn |- *.
    destruct (next_encoding cp (mjoin (map CBU8_APPEND_UNSAFE cps)) Hcp) as (c & t & Ht & Hnext). rewrite Ht in Hn |- *.
    destruct n as [|n]; simpl in Hn; [lia|]. cbn [is_string_utf8 app]. rewrite Hnext, (proj2 Hcp).
    apply IH; [|done]. rewrite length_app in Hn. lia.
Qed.

Lemma IsStringUTF8_exact_witness :
  bytes [104; 0xc3; 0xa9; 0xe4; 0xbd; 0xa0; 0xf0; 0x9f; 0x98; 0x80] /\
  exists cps, Forall valid_character cps /\
    [104; 0xc3; 0xa9; 0xe4; 0xbd; 0xa0; 0xf0; 0x9f; 0x98; 0x80] = mjoin (map CBU8_APPEND_UNSAFE cps).
Proof.
  assert (H : bytes [104; 0xc3; 0xa9; 0xe4; 0xbd; 0xa0; 0xf0; 0x9f; 0x98; 0x80]) by (repeat constructor; lia).
  split; [exact H|]. apply (IsStringUTF8_exact _ H). reflexivity.
Defined.

(** An overlong form, a surrogate, a non-character and a truncated sequence. *)
Example IsStringUTF8_rejects :
  map IsStringUTF8 [[0xc0; 0xaf]; [0xed; 0xa0; 0x80]; [0xef; 0xbf; 0xbe]; [0xe4; 0xbd]; [0x80]] =
  [false; false; false; false; false].
Proof. reflexivity. Qed.
