(* ===== verification/Chrome.v ===== *)
(** * Chrome: collecting the bookmarks

    src/PlugIn/ChromePlugIn/ChromePlugIn.cpp, the half that reads the bookmark
    file: [GetFavoriteCount] with [EnumNode], [ExportFavoriteData] with
    [ExportFolder] and [ExportUrl], and the conversions between times and text.
    A bookmark tree is the specification: the records that are filled are its
    nodes in preorder, the folders Chrome itself provides flattened.

    The conversions between UTF-8 and wide characters are Windows calls, hence
    parameters.  [operator[]] creates the member it does not find; the created
    members are null, belong to copies and are not looked at again, so reading
    is [member]. *)
From stdpp Require Import prelude gmap sorting.
From Stdlib Require Import ZArith Lia SpecFloat String.
From S2P Require Import Prelude Memory Strings Favorites DataCenter PlugInModule CrcHash Json JsonReader.

Definition ID_VALUE_CHROME_BEGIN : Z := ID_VALUE_BEGIN (PLUG_ID CHROME).

(** ** Times *)

Fixpoint string_to_int64 (first : bool) (s : str) (nTime : Z) : bool * Z :=
  match s with
  | [] => (true, nTime)
  | c :: s =>
      if (48 <=? c) && (c <=? 57) then
        let nTime := if first then nTime else i64 (nTime * 10) in
        string_to_int64 false s (i64 (nTime + (c - 48)))
      else (false, nTime)
  end.

(** [nTime] is a reference and keeps its old value in front of the digits. *)
Definition StringToInt64 (strTime : str) (nTime : Z) : bool * Z := string_to_int64 true strTime nTime.

(** [_i64toa_s] of one digit, with its sign. *)
Definition digit_text (nMod : Z) : str := if nMod <? 0 then [45; 48 - nMod] else [48 + nMod].

Fixpoint int64_digits (fuel : nat) (nQuot : Z) (strTime : str) : str :=
  match fuel with
  | O => strTime
  | S fuel =>
      if nQuot =? 0 then strTime
      else int64_digits fuel (Z.quot nQuot 10) (strTime ++ digit_text (Z.rem nQuot 10))
  end.

(** Twenty rounds are enough for 64 bits. *)
Definition Int64ToString (nTime : Z) : str := rev (int64_digits 20 nTime []).

(** ** Counting *)

(** [EnumNode]: every object counts, at any depth. *)
Fixpoint EnumNode (v : Value) (nCount : Z) {struct v} : Z :=
  match v with
  | arrayValue l => fold_left (fun n w => EnumNode w n) l nCount
  | objectValue m => fold_left (fun n kv => EnumNode (snd kv) n) m (i32 (nCount + 1))
  | _ => nCount
  end.

(** ** The folders of Chrome *)

Definition special_names : list wstring :=
  [lit "Bookmarks bar"; [20070; 31614; 26639]; [25910; 34255; 26639];
   lit "Other bookmarks"; [20854; 20182; 20070; 31614]; [20854; 23427; 20070; 31614];
   [20854; 23427; 25910; 34255]; [20854; 23427; 25910; 34255];
   lit "Synced bookmarks"; [24050; 21516; 27493; 20070; 31614]; [24050; 21516; 27493; 25910; 34255]].

Definition is_special (name : wstring) : bool := bool_decide (name ∈ special_names).

(** The depth of a value, which bounds the recursion over folders. *)
Fixpoint value_depth (v : Value) : nat :=
  match v with
  | arrayValue l => S (fold_right (fun w n => Nat.max (value_depth w) n) 0%nat l)
  | objectValue m => S (fold_right (fun kv n => Nat.max (value_depth (snd kv)) n) 0%nat m)
  | _ => 1%nat
  end.

(** [v[key].asString()] *)
Definition text_of (v : Value) (key : string) : outcome str := w ← member v (lit key); asString w.

(** The bytes of wide characters in memory. *)
Definition wide_bytes (s : wstring) : list Z := flat_map (fun c => [u8 c; u8 (Z.shiftr c 8)]) s.

(** [wcscpy_s( dst, MAX_LENGTH - 1, src )]: a source that does not fit with its
    zero ends the program. *)
Definition wcscpy_s (src : wstring) : outcome wstring :=
  if Z.of_nat (List.length src) <? MAX_LENGTH - 1 then Ok src else Fault Aborted.

(** [GetHash] of a title into [nHashId]; an empty title leaves it alone. *)
Definition hash_title (title : wstring) (nHashId : Z) : outcome Z :=
  r ← GetHash (Some (wide_bytes title)) true 4;
  Ok (match r with Some b => le_value b | None => nHashId end).

Section Exporting.
Context (Utf8ToUnicode : str -> wstring).

(** What [ExportUrl] stores at [ppData[n]]. *)
Definition url_record (url_obj : Value) (nPid n : Z) (d : FavoriteLineData) : outcome FavoriteLineData :=
  date ← text_of url_obj "date_added";
  name ← text_of url_obj "name";
  title ← wcscpy_s (Utf8ToUnicode name);
  u ← text_of url_obj "url";
  url ← wcscpy_s (Utf8ToUnicode u);
  hash ← hash_title title (nHashId d);
  Ok (mkFavorite (n + ID_VALUE_CHROME_BEGIN) title nPid false url
        (snd (StringToInt64 date (nAddTimes d))) 0 (nClickTimes d) hash (nOrder d) false).

(** What [ExportFolder] stores. *)
Definition folder_record (folder_obj : Value) (nPid n : Z) (d : FavoriteLineData) : outcome FavoriteLineData :=
  date ← text_of folder_obj "date_added";
  name ← text_of folder_obj "name";
  title ← wcscpy_s (Utf8ToUnicode name);
  hash ← hash_title title (nHashId d);
  Ok (mkFavorite (n + ID_VALUE_CHROME_BEGIN) title nPid true []
        (snd (StringToInt64 date (nAddTimes d))) (snd (StringToInt64 date (nLastModifyTime d)))
        (nClickTimes d) hash (nOrder d) false).

(** [ppData[n]->... = ...] *)
Definition store (ppData : fav_vector) (n : Z) (f : FavoriteLineData -> outcome FavoriteLineData) (h : heap) :
    outcome heap :=
  p ← vec_at ppData n; l ← deref p; d ← load h l; d ← f d; Ok (<[l := d]> h).

Section Fill.
Context (ppData : fav_vector) (nDataNum : Z).

Definition ExportUrl (url_obj : Value) (nPid : Z) (st : heap * Z) : outcome (bool * (heap * Z)) :=
  let '(h, nRealDataNum) := st in
  if empty_ url_obj then Ok (false, st)
  else
    ty ← text_of url_obj "type";
    if bool_decide (ty <> lit "url") then Ok (false, st)
    else if nDataNum =? nRealDataNum then Ok (false, st)
    else
      h ← store ppData nRealDataNum (url_record url_obj nPid nRealDataNum) h;
      Ok (true, (h, nRealDataNum + 1)).

(** The loop over the children of a folder; [export_folder] is the recursive
    call. *)
Definition export_child (export_folder : Value -> Z -> heap * Z -> outcome (bool * (heap * Z)))
    (nPid : Z) (st : heap * Z) (new_val : Value) : outcome (heap * Z) :=
  ty ← text_of new_val "type";
  if bool_decide (ty = lit "url") then r ← ExportUrl new_val nPid st; Ok (snd r)
  else if bool_decide (ty = lit "folder") then r ← export_folder new_val nPid st; Ok (snd r)
  else Ok st.

Definition export_children (export_folder : Value -> Z -> heap * Z -> outcome (bool * (heap * Z)))
    (folder_obj : Value) (nPid : Z) (st : heap * Z) : outcome (heap * Z) :=
  children_nodes ← member folder_obj (lit "children");
  for_each (fun st i => new_val ← element children_nodes i; export_child export_folder nPid st new_val) st
    (seqZ 0 (size_ children_nodes)).

Fixpoint ExportFolder (fuel : nat) (folder_obj : Value) (nPid : Z) (st : heap * Z) :
    outcome (bool * (heap * Z)) :=
  match fuel with
  | O => Fault NoFuel
  | S fuel =>
      if empty_ folder_obj then Ok (false, st)
      else
        ty ← text_of folder_obj "type";
        if bool_decide (ty <> lit "folder") then Ok (false, st)
        else
          name ← text_of folder_obj "name";
          if is_special (Utf8ToUnicode name) then
            st ← export_children (ExportFolder fuel) folder_obj nPid st; Ok (true, st)
          else
            let '(h, nRealDataNum) := st in
            if nRealDataNum =? nDataNum then Ok (true, st)
            else
              h ← store ppData nRealDataNum (folder_record folder_obj nPid nRealDataNum) h;
              let nCurrPid := nRealDataNum + 1 in
              st ← export_children (ExportFolder fuel) folder_obj
                     (nCurrPid - 1 + ID_VALUE_CHROME_BEGIN) (h, nRealDataNum + 1);
              Ok (true, st)
  end.

End Fill.

Context (sscanf_lf : str -> option spec_float).

(** A file that cannot be opened reads as empty. *)
Definition parse_file (file : option str) : outcome (bool * Value) :=
  parse_stream sscanf_lf (default [] file) nullValue.

Definition GetFavoriteCount (file : option str) : outcome Z :=
  r ← parse_file file;
  let '(ok, chrome_bookmarks) := (r : bool * Value) in
  if ok then
    roots ← member chrome_bookmarks (lit "roots");
    bar ← member roots (lit "bookmark_bar");
    c1 ← member bar (lit "children");
    other ← member roots (lit "other");
    c2 ← member other (lit "children");
    synced ← member roots (lit "synced");
    c3 ← member synced (lit "children");
    Ok (EnumNode c3 (EnumNode c2 (EnumNode c1 0)))
  else Ok 0.

(** [nDataNum] is passed on by value and stays as it is. *)
Definition ExportFavoriteData (file : option str) (ppData : fav_vector) (nDataNum : Z) (h : heap) :
    outcome (bool * Z * heap) :=
  r ← parse_file file;
  let '(ok, chrome_bookmarks) := (r : bool * Value) in
  if ok then
    if empty_ chrome_bookmarks then Ok (true, nDataNum, h)
    else
      roots ← member chrome_bookmarks (lit "roots");
      let fuel := value_depth roots in
      st ← for_each (fun st name => v ← member roots name;
                                    r ← ExportFolder ppData nDataNum fuel v 0 st; Ok (snd r))
             (h, 0) [lit "bookmark_bar"; lit "other"; lit "synced"];
      Ok (true, nDataNum, fst st)
  else Ok (false, nDataNum, h).

End Exporting.
