(* ===== verification/ChromeExport.v ===== *)
(** * Chrome: what an export contains

    The specification of the export of the file Chrome: a bookmark file that
    holds a tree of bookmarks fills the records with the nodes of the tree in
    preorder, numbered consecutively, each below a folder that precedes it; the
    room that [GetFavoriteCount] announces is enough. *)
From stdpp Require Import prelude gmap sorting.
From Stdlib Require Import ZArith Lia SpecFloat String.
From S2P Require Import Prelude Memory Strings Favorites DataCenter PlugInModule CrcHash Json JsonReader Chrome.

(** ** Bookmark trees *)

#[local] Unset Elimination Schemes.

Inductive bookmark :=
| BUrl (name url date : str)
| BFolder (name date : str) (kids : list bookmark)
| BOther.

Section bookmark_ind.
Context (P : bookmark -> Prop).
Context (Purl : forall name url date, P (BUrl name url date)).
Context (Pfolder : forall name date kids, Forall P kids -> P (BFolder name date kids)).
Context (Pother : P BOther).

Fixpoint bookmark_ind (b : bookmark) : P b :=
  match b with
  | BUrl name url date => Purl name url date
  | BFolder name date kids =>
      Pfolder name date kids ((fix go (l : list bookmark) : Forall P l :=
                                 match l with
                                 | [] => Forall_nil_2 _
                                 | k :: l => Forall_cons_2 _ _ _ (bookmark_ind k) (go l)
                                 end) kids)
  | BOther => Pother
  end.
End bookmark_ind.

(** A JSON value that Chrome writes for a bookmark: the members that are read
    are texts, the children an array of bookmarks. *)
Inductive represents : Value -> bookmark -> Prop :=
| rep_url v name url date :
    text_of v "type" = Ok (lit "url") -> text_of v "name" = Ok name -> text_of v "url" = Ok url ->
    text_of v "date_added" = Ok date -> represents v (BUrl name url date)
| rep_folder v name date c l kids :
    text_of v "type" = Ok (lit "folder") -> text_of v "name" = Ok name -> text_of v "date_added" = Ok date ->
    member v (lit "children") = Ok c -> (c = arrayValue l \/ (size_ c = 0 /\ l = [])) ->
    Forall2 represents l kids -> represents v (BFolder name date kids)
| rep_other v ty :
    text_of v "type" = Ok ty -> ty <> lit "url" -> ty <> lit "folder" -> represents v BOther.

#[local] Set Elimination Schemes.

(** ** The listing of a tree *)

Record entry := mkEntry {
  e_folder : bool;
  e_title : wstring;
  e_url : wstring;
  e_date : str;
  e_pid : Z
}.

Definition title_hash (title : wstring) (old : Z) : Z :=
  if bool_decide (title = []) then old else crc32 (wide_bytes title).

(** The record of entry number [n]; [d] is what the record held before. *)
Definition entry_record (e : entry) (n : Z) (d : FavoriteLineData) : FavoriteLineData :=
  mkFavorite (n + ID_VALUE_CHROME_BEGIN) (e_title e) (e_pid e) (e_folder e) (e_url e)
    (snd (StringToInt64 (e_date e) (nAddTimes d)))
    (if e_folder e then snd (StringToInt64 (e_date e) (nLastModifyTime d)) else 0)
    (nClickTimes d) (title_hash (e_title e) (nHashId d)) (nOrder d) false.

Section Listing.
Context (Utf8ToUnicode : str -> wstring).

(** Preorder from number [next]; a folder of Chrome is replaced by its contents. *)
Fixpoint listing (pid next : Z) (b : bookmark) : list entry :=
  let kids_listing := fix go (pid next : Z) (kids : list bookmark) : list entry :=
    match kids with
    | [] => []
    | k :: kids => let es := listing pid next k in es ++ go pid (next + Z.of_nat (List.length es)) kids
    end in
  match b with
  | BUrl name url date => [mkEntry false (Utf8ToUnicode name) (Utf8ToUnicode url) date pid]
  | BFolder name date kids =>
      if is_special (Utf8ToUnicode name) then kids_listing pid next kids
      else mkEntry true (Utf8ToUnicode name) [] date pid ::
             kids_listing (next + ID_VALUE_CHROME_BEGIN) (next + 1) kids
  | BOther => []
  end.

Fixpoint listings (pid next : Z) (bs : list bookmark) : list entry :=
  match bs with
  | [] => []
  | b :: bs => let es := listing pid next b in es ++ listings pid (next + Z.of_nat (List.length es)) bs
  end.

Lemma listing_folder pid next name date kids :
  listing pid next (BFolder name date kids) =
  if is_special (Utf8ToUnicode name) then listings pid next kids
  else mkEntry true (Utf8ToUnicode name) [] date pid ::
         listings (next + ID_VALUE_CHROME_BEGIN) (next + 1) kids.
Proof.
  cbn [listing]. assert (H : forall pid next, (fix go (pid next : Z) (kids : list bookmark) : list entry :=
    match kids with
    | [] => []
    | k :: kids => let es := listing pid next k in es ++ go pid (next + Z.of_nat (List.length es)) kids
    end) pid next kids = listings pid next kids).
  { induction kids as [|k kids IH]; intros p n; [done|]. cbn [listings]. by rewrite <- IH. }
  by rewrite !H.
Qed.

(** Texts that fit a record. *)
Definition fits (s : str) : Prop := Z.of_nat (List.length (Utf8ToUnicode s)) < MAX_LENGTH - 1.

#[local] Unset Elimination Schemes.

Inductive small : bookmark -> Prop :=
| small_url name url date : fits name -> fits url -> small (BUrl name url date)
| small_folder name date kids : fits name -> Forall small kids -> small (BFolder name date kids)
| small_other : small BOther.

#[local] Set Elimination Schemes.

(** ** Filling records *)

Section Fill.
Context (ppData : fav_vector) (nDataNum : Z).

Definition put (n : Z) (e : entry) (h : heap) : heap :=
  match ppData !! Z.to_nat n with
  | Some (Some l) => alter (entry_record e n) l h
  | _ => h
  end.

Fixpoint fill (n : Z) (es : list entry) (h : heap) : heap :=
  match es with
  | [] => h
  | e :: es => fill (n + 1) es (put n e h)
  end.

Lemma fill_app n es1 es2 h :
  fill n (es1 ++ es2) h = fill (n + Z.of_nat (List.length es1)) es2 (fill n es1 h).
Proof.
  revert n h. induction es1 as [|e es1 IH]; intros n h; cbn [fill app].
  { f_equal. simpl. lia. }
  rewrite IH. f_equal. cbn [List.length]. lia.
Qed.

(** The records that may be filled exist. *)
Definition room (h : heap) : Prop :=
  forall i, 0 <= i < nDataNum -> exists l, ppData !! Z.to_nat i = Some (Some l) /\ is_Some (h !! l).

Lemma put_room n e h : room h -> room (put n e h).
Proof.
  intros H i Hi. destruct (H i Hi) as (l & Hl & Hh). exists l. split; [done|]. unfold put.
  destruct (ppData !! Z.to_nat n) as [[l'|]|]; [|done..]. by apply lookup_alter_is_Some.
Qed.

Lemma fill_room n es h : room h -> room (fill n es h).
Proof. revert n h. induction es as [|e es IH]; intros n h H; [done|]. cbn [fill]. by apply IH, put_room. Qed.

(** Storing a record is putting its entry. *)
Lemma store_put n f e h : 0 <= n < nDataNum -> room h -> (forall d, f d = Ok (entry_record e n d)) ->
  store ppData n f h = Ok (put n e h).
Proof.
  intros Hn Hr Hf. destruct (Hr n Hn) as (l & Hl & [d Hd]). unfold store, put.
  rewrite (proj2 (vec_at_Ok ppData n (Some l))) by (split; [lia|done]). cbn [mbind outcome_bind deref].
  rewrite Hl. unfold load. rewrite Hd. cbn [mbind outcome_bind]. rewrite Hf. cbn [mbind outcome_bind].
  f_equal. apply map_eq. intros k. destruct (decide (k = l)) as [->|Hne].
  - by rewrite lookup_insert_eq, lookup_alter_eq, Hd.
  - by rewrite lookup_insert_ne, lookup_alter_ne.
Qed.

Lemma wide_bytes_range s : Forall (fun b => 0 <= b < 2 ^ 8) (wide_bytes s).
Proof.
  induction s as [|c s IH]; [constructor|]. cbn [wide_bytes flat_map app].
  constructor; [apply u8_range|]. constructor; [apply u8_range|done].
Qed.

(** The hash of data is its checksum. *)
Lemma GetHash_crc b : b <> [] -> Forall (fun b => 0 <= b < 2 ^ 8) b ->
  exists r, GetHash (Some b) true 4 = Ok (Some r) /\ le_value r = crc32 b.
Proof.
  intros Hne Hb. destruct (GetCRC_crc32 _ Hb) as [Hc Hr]. unfold GetHash. destruct b as [|x b]; [done|].
  cbn [andb Z.leb Z.compare]. simpl (4 <=? 4). cbn match. rewrite Hc. cbn [mbind outcome_bind]. eexists. split; [done|].
  set (c := crc32 (x :: b)) in *. rewrite <- (le_value_bytes 4 c) at 5 by done. f_equal.
  unfold u8. rewrite !Z.shiftr_div_pow2 by lia. cbn [le_bytes]. by rewrite !Z.div_div by lia.
Qed.

Lemma hash_title_ok title old : hash_title title old = Ok (title_hash title old).
Proof.
  unfold hash_title, title_hash. destruct title as [|c title]; [done|]. rewrite bool_decide_eq_false_2 by done.
  destruct (GetHash_crc (wide_bytes (c :: title))) as (r & -> & Hr); [done|apply wide_bytes_range|].
  cbn [mbind outcome_bind]. by rewrite Hr.
Qed.

Lemma wcscpy_s_ok s : fits s -> wcscpy_s (Utf8ToUnicode s) = Ok (Utf8ToUnicode s).
Proof. intros H. unfold wcscpy_s. unfold fits in H. by rewrite (proj2 (Z.ltb_lt _ _) H). Qed.

Lemma text_not_empty v key t : text_of v key = Ok t -> t <> [] -> empty_ v = false.
Proof.
  unfold text_of. destruct v; cbn [member mbind outcome_bind]; try done; [by intros [= <-]|].
  destruct m as [|kv m]; [by intros [= <-]|done].
Qed.

Lemma ExportUrl_spec v name url date pid n h :
  represents v (BUrl name url date) -> fits name -> fits url -> 0 <= n <= nDataNum -> room h ->
  exists b, ExportUrl Utf8ToUnicode ppData nDataNum v pid (h, n) =
    Ok (b, (fill n (take (Z.to_nat (nDataNum - n)) (listing pid n (BUrl name url date))) h,
            n + Z.of_nat (List.length (take (Z.to_nat (nDataNum - n)) (listing pid n (BUrl name url date)))))).
Proof.
  intros Hv Hname Hurl Hn Hroom. inversion Hv as [? ? ? ? Ht Hnm Hu Hd| |]; subst. unfold ExportUrl.
  rewrite (text_not_empty v "type" _ Ht) by done. rewrite Ht. cbn [mbind outcome_bind].
  rewrite bool_decide_eq_false_2 by tauto. cbn [listing].
  destruct (Z.eqb_spec nDataNum n) as [->|Hne].
  - exists false. rewrite Z.sub_diag. cbn [take fill List.length]. rewrite Z.add_0_r. done.
  - exists true. rewrite take_ge by (simpl; lia).
    rewrite (store_put n _ (mkEntry false (Utf8ToUnicode name) (Utf8ToUnicode url) date pid)); [done|lia|done|].
    intros d. unfold url_record. rewrite Hd, Hnm, Hu. cbn [mbind outcome_bind].
    rewrite (wcscpy_s_ok name) by done. cbn [mbind outcome_bind]. rewrite wcscpy_s_ok by done.
    cbn [mbind outcome_bind]. by rewrite hash_title_ok.
Qed.

(** What exporting a node does to the records and their number. *)
Definition exported (v : Value) (b : bookmark) (f : Z -> heap * Z -> outcome (heap * Z)) : Prop :=
  forall pid n h, 0 <= n <= nDataNum -> room h ->
    f pid (h, n) = Ok (fill n (take (Z.to_nat (nDataNum - n)) (listing pid n b)) h,
                       n + Z.of_nat (List.length (take (Z.to_nat (nDataNum - n)) (listing pid n b)))).

(** Entries behind others: numbered on, or nothing more fits. *)
Lemma take_listings pid n (es : list entry) bs : 0 <= n <= nDataNum ->
  let k := Z.to_nat (nDataNum - n) in
  let n1 := n + Z.of_nat (List.length (take k es)) in
  0 <= n1 <= nDataNum /\
  take (Z.to_nat (nDataNum - n1)) (listings pid n1 bs) =
  take (k - List.length es) (listings pid (n + Z.of_nat (List.length es)) bs).
Proof.
  intros Hn k n1. split; [unfold n1; rewrite length_take; lia|].
  destruct (Nat.le_gt_cases (List.length es) k) as [Hle|Hgt].
  - assert (n1 = n + Z.of_nat (List.length es)) as -> by (unfold n1; rewrite length_take; lia). f_equal. lia.
  - replace (Z.to_nat (nDataNum - n1)) with 0%nat by (unfold n1; rewrite length_take; lia).
    by replace (k - List.length es)%nat with 0%nat by lia.
Qed.

(** Nodes one after the other: the second is numbered behind the first, or
    nothing more fits. *)
Lemma exported_list rec l kids pid n h :
  Forall2 (fun v b => exported v b (fun pid st => export_child Utf8ToUnicode ppData nDataNum rec pid st v)) l kids ->
  0 <= n <= nDataNum -> room h ->
  for_each (export_child Utf8ToUnicode ppData nDataNum rec pid) (h, n) l =
  Ok (fill n (take (Z.to_nat (nDataNum - n)) (listings pid n kids)) h,
      n + Z.of_nat (List.length (take (Z.to_nat (nDataNum - n)) (listings pid n kids)))).
Proof.
  intros HF. revert n h. induction HF as [|v b l kids Hvb HF IH]; intros n h Hn Hr.
  { cbn [for_each listings]. rewrite take_nil. cbn [fill List.length]. by rewrite Z.add_0_r. }
  cbn [for_each listings]. rewrite Hvb by done. cbn [mbind outcome_bind].
  set (es := listing pid n b). set (k := Z.to_nat (nDataNum - n)). set (n1 := n + Z.of_nat (List.length (take k es))).
  destruct (take_listings pid n es kids Hn) as [Hn1 Hk]. fold k n1 in Hn1, Hk.
  rewrite IH by (try done; by apply fill_room). rewrite take_app, fill_app. fold n1.
  rewrite Hk. do 2 f_equal. unfold n1. rewrite length_app. lia.
Qed.

(** The loop over the indices of an array visits its elements. *)
Lemma for_each_elements (f : heap * Z -> Value -> outcome (heap * Z)) c l st :
  (c = arrayValue l \/ (size_ c = 0 /\ l = [])) ->
  for_each (fun st i => v ← element c i; f st v) st (seqZ 0 (size_ c)) = for_each f st l.
Proof.
  intros [->|[-> ->]]; [|done]. cbn [size_].
  enough (H : forall l2 l1 st, for_each (fun st i => v ← element (arrayValue (l1 ++ l2)) i; f st v) st
                (seqZ (Z.of_nat (List.length l1)) (Z.of_nat (List.length l2))) = for_each f st l2)
    by apply (H l []).
  induction l2 as [|v l2 IH]; intros l1 st'; [done|].
  rewrite seqZ_cons by (simpl; lia). cbn [for_each element]. rewrite Nat2Z.id, list_lookup_middle by done.
  cbn [default mbind outcome_bind]. unfold id. destruct (f st' v) as [st2|]; cbn [mbind outcome_bind]; [|done].
  specialize (IH (l1 ++ [v]) st2). rewrite <- app_assoc in IH. rewrite <- IH. cbn [app].
  replace (Z.of_nat (List.length (l1 ++ [v]))) with (Z.succ (Z.of_nat (List.length l1))) by (rewrite length_app; simpl; lia).
  replace (Z.of_nat (List.length l2)) with (Z.pred (Z.of_nat (List.length (v :: l2)))) by (simpl; lia). done.
Qed.

Lemma fold_max_le {A} (f : A -> nat) (l : list A) x : x ∈ l -> (f x <= fold_right (fun w n => Nat.max (f w) n) 0%nat l)%nat.
Proof. induction l as [|y l IH]; intros Hx; [by apply elem_of_nil in Hx|]. apply elem_of_cons in Hx as [->|Hx]; simpl; [lia|]. specialize (IH Hx). lia. Qed.

Lemma map_find_elem k m w : map_find k m = Some w -> exists k', (k', w) ∈ m.
Proof.
  induction m as [|[k0 v0] m IH]; simpl; [done|]. destruct (strcmp k k0); [intros [= <-]|..].
  - exists k0. left.
  - intros H. destruct (IH H) as (k' & H'). exists k'. by right.
  - intros H. destruct (IH H) as (k' & H'). exists k'. by right.
Qed.

(** The elements of a member lie deeper. *)
Lemma element_depth v key l w : member v key = Ok (arrayValue l) -> w ∈ l -> (S (value_depth w) < value_depth v)%nat.
Proof.
  intros Hm Hw. destruct v; simpl in Hm; try discriminate Hm.
  destruct (map_find (c_str key) m) as [x|] eqn:E; simpl in Hm; [injection Hm as ->|discriminate Hm].
  apply map_find_elem in E as (k' & Hk). pose proof (fold_max_le (fun kv => value_depth kv.2) m _ Hk) as H1.
  pose proof (fold_max_le value_depth l _ Hw) as H2. simpl in *. lia.
Qed.

Lemma exported_node fuel v b : (value_depth v <= fuel)%nat -> represents v b -> small b ->
  exported v b (fun pid st => export_child Utf8ToUnicode ppData nDataNum
                                (ExportFolder Utf8ToUnicode ppData nDataNum fuel) pid st v).
Proof.
  revert v b. induction fuel as [|fuel IH]; intros v b Hd Hv Hs pid n h Hn Hr; [destruct v; simpl in Hd; lia|].
  unfold export_child. pose proof Hv as Hv'. destruct Hv as [v name url date Ht _ _ _|v name date c l kids Ht Hnm Hdt Hc Hcl Hk|v ty Ht H1 H2];
    rewrite Ht; cbn [mbind outcome_bind].
  - inversion Hs; subst. rewrite bool_decide_eq_true_2 by done.
    destruct (ExportUrl_spec v name url date pid n h) as (x & ->); done.
  - inversion Hs; subst. rewrite bool_decide_eq_false_2, bool_decide_eq_true_2 by done. cbn [ExportFolder].
    rewrite (text_not_empty v "type" _ Ht) by done. rewrite Ht. cbn [mbind outcome_bind].
    rewrite bool_decide_eq_false_2 by tauto. rewrite Hnm. cbn [mbind outcome_bind]. rewrite listing_folder.
    assert (HF : Forall2 (fun v b => exported v b (fun pid st => export_child Utf8ToUnicode ppData nDataNum
                   (ExportFolder Utf8ToUnicode ppData nDataNum fuel) pid st v)) l kids).
    { apply Forall2_same_length_lookup_2; [by eapply Forall2_length|]. intros i w k Hw Hkk. apply IH.
      - destruct Hcl as [->|[_ ->]]; [|done]. apply list_elem_of_lookup_2 in Hw.
        pose proof (element_depth v _ l w Hc Hw). lia.
      - by eapply (Forall2_lookup_lr _ l kids).
      - rename select (Forall small kids) into Hsm. rewrite Forall_lookup in Hsm. by eapply Hsm. }
    unfold export_children. rewrite Hc. cbn [mbind outcome_bind].
    destruct (is_special (Utf8ToUnicode name)).
    { rewrite (for_each_elements _ c l) by done. rewrite (exported_list _ l kids) by done. done. }
    destruct (Z.eqb_spec n nDataNum) as [->|Hne].
    { rewrite Z.sub_diag. cbn [take fill List.length]. by rewrite Z.add_0_r. }
    rewrite (store_put n _ (mkEntry true (Utf8ToUnicode name) [] date pid)); [|lia|done|].
    2: { intros d. unfold folder_record. rewrite Hdt, Hnm. cbn [mbind outcome_bind]. rewrite wcscpy_s_ok by done.
         cbn [mbind outcome_bind]. by rewrite hash_title_ok. }
    cbn [mbind outcome_bind]. rewrite (for_each_elements _ c l) by done.
    rewrite (exported_list _ l kids) by first [done|lia|by apply put_room]. cbn [mbind outcome_bind snd].
    replace (Z.to_nat (nDataNum - n)) with (S (Z.to_nat (nDataNum - (n + 1)))) by lia. cbn [take fill List.length].
    replace (n + 1 - 1 + ID_VALUE_CHROME_BEGIN) with (n + ID_VALUE_CHROME_BEGIN) by lia.
    do 2 f_equal. lia.
  - rewrite !bool_decide_eq_false_2 by done. cbn [listing]. rewrite take_nil. cbn [fill List.length]. by rewrite Z.add_0_r.
Qed.

End Fill.
End Listing.

(** ** The shape of a listing *)

Section Shape.
Context (Utf8ToUnicode : str -> wstring).
Abbreviation listing := (listing Utf8ToUnicode).
Abbreviation listings := (listings Utf8ToUnicode).

(** Every entry is below [pid] or below a folder listed before it. *)
Definition parents_first (pid next : Z) (es : list entry) : Prop :=
  forall i e, es !! i = Some e -> e_pid e = pid \/
    exists j e', (j < i)%nat /\ es !! j = Some e' /\ e_folder e' = true /\
                 e_pid e = next + Z.of_nat j + ID_VALUE_CHROME_BEGIN.

Lemma parents_first_app pid next es1 es2 :
  parents_first pid next es1 -> parents_first pid (next + Z.of_nat (List.length es1)) es2 ->
  parents_first pid next (es1 ++ es2).
Proof.
  intros H1 H2 i e He. apply lookup_app_Some in He as [He|[Hge He]].
  - destruct (H1 i e He) as [?|(j & e' & Hj & He' & Hf & Hp)]; [by left|right]. exists j, e'.
    split; [done|]. split; [by apply lookup_app_l_Some|done].
  - destruct (H2 _ e He) as [?|(j & e' & Hj & He' & Hf & Hp)]; [by left|right].
    exists (List.length es1 + j)%nat, e'. split; [lia|]. split; [|split; [done|lia]].
    rewrite lookup_app_r by lia. by replace (List.length es1 + j - List.length es1)%nat with j by lia.
Qed.

(** A folder in front of what is below it. *)
Lemma parents_first_cons pid next e es : e_folder e = true -> e_pid e = pid ->
  parents_first (next + ID_VALUE_CHROME_BEGIN) (next + 1) es -> parents_first pid next (e :: es).
Proof.
  intros Hf Hp H [|i] x Hx; [left; simpl in Hx; congruence|]. simpl in Hx. right.
  destruct (H i x Hx) as [E|(j & e' & Hj & He' & Hf' & E)].
  - exists 0%nat, e. split; [lia|]. split; [done|]. split; [done|]. rewrite E. lia.
  - exists (S j), e'. split; [lia|]. split; [done|]. split; [done|]. rewrite E. lia.
Qed.

Lemma listings_parents pid next bs :
  Forall (fun b => forall pid next, parents_first pid next (listing pid next b)) bs ->
  parents_first pid next (listings pid next bs).
Proof.
  intros H. revert next. induction H as [|b bs Hb _ IH]; intros next; [by intros i e He|].
  cbn [ChromeExport.listings]. by apply parents_first_app.
Qed.

Lemma listing_parents b pid next : parents_first pid next (listing pid next b).
Proof.
  revert pid next. induction b as [name url date|name date kids IH|] using bookmark_ind; intros pid next.
  - intros [|i] e He; [left; cbn in He; by injection He as <-|done].
  - rewrite listing_folder. destruct (is_special _); [by apply listings_parents|].
    apply parents_first_cons; [done..|]. by apply listings_parents.
  - by intros i e He.
Qed.

Lemma listings_tree pid next bs : parents_first pid next (listings pid next bs).
Proof. apply listings_parents, Forall_forall. intros. apply listing_parents. Qed.

(** ** Counting *)

(** The number of objects in a value. *)
Fixpoint objects (v : Value) : nat :=
  match v with
  | arrayValue l => fold_right (fun w n => objects w + n)%nat 0%nat l
  | objectValue m => S (fold_right (fun kv n => objects (snd kv) + n)%nat 0%nat m)
  | _ => 0%nat
  end.

Lemma fold_counts {A} (count : A -> Z -> Z) (num : A -> nat) (l : list A) n :
  Forall (fun x => forall n, 0 <= n -> n + Z.of_nat (num x) < 2 ^ 31 -> count x n = n + Z.of_nat (num x)) l ->
  0 <= n -> n + Z.of_nat (fold_right (fun w n => num w + n)%nat 0%nat l) < 2 ^ 31 ->
  fold_left (fun n x => count x n) l n = n + Z.of_nat (fold_right (fun w n => num w + n)%nat 0%nat l).
Proof.
  intros H. revert n. induction H as [|x l Hx _ IH]; intros n Hn Hb; [simpl; lia|]. cbn [fold_left fold_right] in *.
  rewrite Hx by lia. rewrite IH by lia. lia.
Qed.

Lemma EnumNode_objects v n : 0 <= n -> n + Z.of_nat (objects v) < 2 ^ 31 -> EnumNode v n = n + Z.of_nat (objects v).
Proof.
  revert n. induction v as [|z|z|x|s|b|l IH|m IH] using Value_nested_ind; intros n Hn Hb; try (simpl; lia).
  - cbn [EnumNode objects] in *. by apply fold_counts.
  - cbn [EnumNode objects] in *. rewrite i32_small by lia.
    rewrite (fold_counts (fun kv n => EnumNode kv.2 n) (fun kv => objects kv.2)); [lia|done|lia|lia].
Qed.

Lemma fold_sum_le {A} (f : A -> nat) (l : list A) x : x ∈ l -> (f x <= fold_right (fun w n => f w + n) 0 l)%nat.
Proof.
  induction l as [|y l IH]; intros Hx; [by apply elem_of_nil in Hx|].
  apply elem_of_cons in Hx as [->|Hx]; simpl; [lia|]. specialize (IH Hx). lia.
Qed.

(** A member has no more objects than the object around it. *)
Lemma member_objects v key w : member v key = Ok w -> (objects w < objects v \/ objects w = 0)%nat.
Proof.
  intros Hm. destruct v; simpl in Hm; try discriminate Hm; [injection Hm as <-; by right|].
  destruct (map_find (c_str key) m) as [x|] eqn:E; simpl in Hm; injection Hm as <-; [left|by right].
  apply map_find_elem in E as (k' & Hk). pose proof (fold_sum_le (fun kv => objects kv.2) m _ Hk). simpl in *. lia.
Qed.

Lemma text_objects v key t : text_of v key = Ok t -> t <> [] -> (1 <= objects v)%nat.
Proof.
  intros H Ht. destruct v; simpl in H; try discriminate H; [by injection H as <-|]. simpl. lia.
Qed.

Lemma listings_bound pid next l bs :
  Forall2 (fun v b => forall pid next, (List.length (listing pid next b) <= objects v)%nat) l bs ->
  (List.length (listings pid next bs) <= fold_right (fun w n => objects w + n) 0 l)%nat.
Proof.
  intros H. revert next. induction H as [|v b l bs Hv _ IH]; intros next; [done|].
  cbn [ChromeExport.listings fold_right]. rewrite length_app. specialize (Hv pid next).
  specialize (IH (next + Z.of_nat (List.length (listing pid next b)))). lia.
Qed.

(** A tree has at most one entry per object. *)
Lemma listing_bound b v pid next : represents v b -> (List.length (listing pid next b) <= objects v)%nat.
Proof.
  revert v pid next. induction b as [name url date|name date kids IH|] using bookmark_ind; intros v pid next Hv; [| |simpl; lia].
  - inversion Hv as [? ? ? ? Ht _ _ _| |]; subst. pose proof (text_objects v "type" _ Ht ltac:(done)). simpl. lia.
  - inversion Hv as [|? ? ? c l ? Ht Hn Hd Hc Hcl Hk|]; subst. rewrite listing_folder.
    assert (HF : Forall2 (fun v b => forall pid next, (List.length (listing pid next b) <= objects v)%nat) l kids).
    { apply Forall2_same_length_lookup_2; [by eapply Forall2_length|]. intros i w k Hw Hkk p q.
      rewrite Forall_lookup in IH. eapply IH; [done|]. by eapply (Forall2_lookup_lr _ l kids). }
    assert (Hl : (fold_right (fun w n => objects w + n) 0 l < objects v)%nat).
    { pose proof (text_objects v "type" _ Ht ltac:(done)). destruct Hcl as [->|[_ ->]]; [|simpl; lia].
      apply member_objects in Hc. simpl in Hc. lia. }
    destruct (is_special _).
    + pose proof (listings_bound pid next l kids HF). lia.
    + pose proof (listings_bound (next + ID_VALUE_CHROME_BEGIN) (next + 1) l kids HF). simpl. lia.
Qed.

End Shape.

(** ** Export and count of a bookmark file *)

Section File.
Context (Utf8ToUnicode : str -> wstring) (sscanf_lf : str -> option spec_float).

Definition root_names : list str := [lit "bookmark_bar"; lit "other"; lit "synced"].

(** A file with the three roots, each a folder or missing. *)
Record bookmark_file (file : option str) (roots : Value) (bs : list bookmark) : Prop := {
  bf_parse : exists doc, parse_file sscanf_lf file = Ok (true, doc) /\ empty_ doc = false /\
                         member doc (lit "roots") = Ok roots;
  bf_roots : Forall2 (fun name b => exists v, member roots name = Ok v /\ represents v b /\
                        (forall n u d, b <> BUrl n u d)) root_names bs
}.

(** A folder, or a missing root, at the top. *)
Lemma export_root ppData nDataNum fuel v b h n :
  (value_depth v <= fuel)%nat -> represents v b -> (forall n u d, b <> BUrl n u d) -> small Utf8ToUnicode b ->
  0 <= n <= nDataNum -> room ppData nDataNum h ->
  let es := take (Z.to_nat (nDataNum - n)) (listing Utf8ToUnicode 0 n b) in
  exists x, ExportFolder Utf8ToUnicode ppData nDataNum fuel v 0 (h, n) =
    Ok (x, (fill ppData n es h, n + Z.of_nat (List.length es))).
Proof.
  intros Hd Hv Hnu Hs Hn Hr es.
  pose proof (exported_node Utf8ToUnicode ppData nDataNum fuel v b Hd Hv Hs 0 n h Hn Hr) as H.
  unfold export_child in H. destruct Hv as [? ? ? ?|v name date c l kids Ht _ _ _ _ _|v ty Ht H1 H2].
  - by destruct (Hnu name url date).
  - rewrite Ht in H. cbn [mbind outcome_bind] in H. rewrite bool_decide_eq_false_2, bool_decide_eq_true_2 in H by done.
    apply bind_Ok in H as ([x st] & -> & H). exists x. cbn [snd] in H. injection H as ->. done.
  - destruct fuel as [|fuel]; [destruct v; simpl in Hd; lia|]. exists false. unfold es. cbn [listing ExportFolder]. rewrite take_nil.
    cbn [fill List.length]. rewrite Z.add_0_r. destruct (empty_ v); [done|]. rewrite Ht. cbn [mbind outcome_bind].
    by rewrite bool_decide_eq_true_2.
Qed.

Lemma member_depth v key w : member v key = Ok w -> (value_depth w <= value_depth v)%nat.
Proof.
  intros Hm. destruct v; simpl in Hm; try discriminate Hm; [by injection Hm as <-|].
  destruct (map_find (c_str key) m) as [x|] eqn:E; simpl in Hm; injection Hm as <-; [|simpl; lia].
  apply map_find_elem in E as (k' & Hk). pose proof (fold_max_le (fun kv => value_depth kv.2) m _ Hk). simpl in *. lia.
Qed.

Lemma export_roots ppData nDataNum roots names bs h n :
  Forall2 (fun name b => exists v, member roots name = Ok v /\ represents v b /\ (forall n u d, b <> BUrl n u d)) names bs ->
  Forall (small Utf8ToUnicode) bs -> 0 <= n <= nDataNum -> room ppData nDataNum h ->
  let es := take (Z.to_nat (nDataNum - n)) (listings Utf8ToUnicode 0 n bs) in
  for_each (fun st name => v ← member roots name;
              r ← ExportFolder Utf8ToUnicode ppData nDataNum (value_depth roots) v 0 st; Ok (snd r)) (h, n) names =
  Ok (fill ppData n es h, n + Z.of_nat (List.length es)).
Proof.
  intros HF. revert h n. induction HF as [|name b names bs (v & Hm & Hv & Hnu) HF IH]; intros h n Hs Hn Hr es.
  { unfold es. cbn [for_each listings]. rewrite take_nil. cbn [fill List.length]. by rewrite Z.add_0_r. }
  apply Forall_cons in Hs as [Hsb Hs]. cbn [for_each]. rewrite Hm. cbn [mbind outcome_bind].
  destruct (export_root ppData nDataNum (value_depth roots) v b h n) as (x & ->); try done; [by eapply member_depth|].
  cbn [mbind outcome_bind snd]. set (es1 := listing Utf8ToUnicode 0 n b) in *. set (k := Z.to_nat (nDataNum - n)) in *.
  set (n1 := n + Z.of_nat (List.length (take k es1))).
  destruct (take_listings Utf8ToUnicode nDataNum 0 n es1 bs Hn) as [Hn1 Hk]. fold k n1 in Hn1, Hk.
  rewrite IH by (try done; by apply fill_room). unfold es. cbn [listings]. fold es1. rewrite take_app, fill_app. fold n1.
  rewrite Hk. do 2 f_equal. unfold n1. rewrite length_app. lia.
Qed.

(** Records at distinct addresses: each keeps its own entry. *)
Lemma fill_lookup ppData n es h l : (forall i, (i < List.length es)%nat -> ppData !! (Z.to_nat n + i)%nat <> Some (Some l)) ->
  0 <= n -> fill ppData n es h !! l = h !! l.
Proof.
  revert n h. induction es as [|e es IH]; intros n h Hne Hn; [done|]. cbn [fill]. rewrite IH; [| |lia].
  - unfold put. pose proof (Hne 0%nat ltac:(simpl; lia)) as H0. rewrite Nat.add_0_r in H0.
    destruct (ppData !! Z.to_nat n) as [[l'|]|]; [|done..]. apply lookup_alter_ne. congruence.
  - intros i Hi. replace (Z.to_nat (n + 1) + i)%nat with (Z.to_nat n + S i)%nat by lia. apply Hne. simpl. lia.
Qed.

Lemma fill_entry ppData es h i e l d :
  NoDup (take (List.length es) ppData) -> es !! i = Some e -> ppData !! i = Some (Some l) -> h !! l = Some d ->
  fill ppData 0 es h !! l = Some (entry_record e (Z.of_nat i) d).
Proof.
  intros Hnd He Hl Hd. pose proof (lookup_lt_Some _ _ _ He) as Hi.
  assert (Hdist : forall j, (j < List.length es)%nat -> ppData !! j = Some (Some l) -> j = i).
  { intros j Hj Hjl. eapply (NoDup_lookup _ _ _ (Some l) Hnd); by rewrite lookup_take_lt. }
  rewrite <- (take_drop_middle es i e He). rewrite fill_app. cbn [fill].
  rewrite length_take, Nat.min_l by lia. rewrite Z.add_0_l.
  rewrite fill_lookup; [| |lia].
  - unfold put. rewrite Nat2Z.id, Hl, lookup_alter_eq. rewrite fill_lookup; [by rewrite Hd| |done].
    intros j Hj Hjl. rewrite length_take in Hj. simpl in Hjl. specialize (Hdist j ltac:(lia) Hjl). lia.
  - intros j Hj Hjl. rewrite length_drop in Hj. specialize (Hdist (Z.to_nat (Z.of_nat i + 1) + j)%nat ltac:(lia) Hjl). lia.
Qed.

(** The whole export. *)
Lemma export_file file roots bs ppData nDataNum h :
  bookmark_file file roots bs -> Forall (small Utf8ToUnicode) bs -> 0 <= nDataNum -> room ppData nDataNum h ->
  ExportFavoriteData Utf8ToUnicode sscanf_lf file ppData nDataNum h =
  Ok (true, nDataNum, fill ppData 0 (take (Z.to_nat nDataNum) (listings Utf8ToUnicode 0 0 bs)) h).
Proof.
  intros [(doc & Hp & He & Hro) HF] Hs Hn Hr. unfold ExportFavoriteData. rewrite Hp.
  cbn [mbind outcome_bind]. rewrite He, Hro. cbn [mbind outcome_bind].
  fold root_names. rewrite (export_roots ppData nDataNum roots root_names bs h 0 HF Hs) by (try done; lia).
  by rewrite Z.sub_0_r.
Qed.

Lemma take_NoDup {A} (v : list A) n k : (k <= n)%nat -> NoDup (take n v) -> NoDup (take k v).
Proof.
  intros Hk Hn. apply (sublist_NoDup _ (take n v)); [done|].
  replace (take k v) with (take k (take n v)); [apply sublist_take|]. rewrite take_take. f_equal. lia.
Qed.

(** C23: exporting a bookmark file fills the records with its bookmarks: entry [i] of the
    preorder listing of the three roots goes to record [i], as far as there is room, every
    other record stays as it was, and no access leaves the array. The titles and addresses
    fit the arrays of a record, and the array has the number of records it is said to
    have, all different. *)
Theorem ExportFavoriteData_exact file roots bs ppData nDataNum h :
  bookmark_file file roots bs -> Forall (small Utf8ToUnicode) bs -> 0 <= nDataNum -> room ppData nDataNum h ->
  NoDup (take (Z.to_nat nDataNum) ppData) ->
  let es := take (Z.to_nat nDataNum) (listings Utf8ToUnicode 0 0 bs) in
  exists h', ExportFavoriteData Utf8ToUnicode sscanf_lf file ppData nDataNum h = Ok (true, nDataNum, h') /\
    (forall i l d, ppData !! i = Some (Some l) -> h !! l = Some d ->
       forall e, es !! i = Some e -> h' !! l = Some (entry_record e (Z.of_nat i) d)) /\
    (forall l, (forall i, (i < List.length es)%nat -> ppData !! i <> Some (Some l)) -> h' !! l = h !! l).
Proof.
  intros Hf Hs Hn Hr Hnd es. rewrite (export_file file roots bs) by done. fold es. eexists. split; [done|]. split.
  - intros i l d Hl Hd e Hi. eapply fill_entry; try done. eapply take_NoDup; [|exact Hnd].
    unfold es. rewrite length_take. lia.
  - intros l Hl. by apply fill_lookup.
Qed.

(** The exported records are numbered consecutively from the range of
    Chrome and form a forest: every record is at the top or below a folder that
    was exported before it. *)
Theorem export_forest file roots bs ppData nDataNum h :
  bookmark_file file roots bs -> Forall (small Utf8ToUnicode) bs -> 0 <= nDataNum -> room ppData nDataNum h ->
  NoDup (take (Z.to_nat nDataNum) ppData) ->
  exists h' : heap, ExportFavoriteData Utf8ToUnicode sscanf_lf file ppData nDataNum h = Ok (true, nDataNum, h') /\
    forall i, (i < List.length (take (Z.to_nat nDataNum) (listings Utf8ToUnicode 0 0 bs)))%nat ->
    exists l d, ppData !! i = Some (Some l) /\ h' !! l = Some d /\
      nId d = Z.of_nat i + ID_VALUE_CHROME_BEGIN /\ bDelete d = false /\
      (nPid d = 0 \/ exists j lj dj, (j < i)%nat /\ ppData !! j = Some (Some lj) /\ h' !! lj = Some dj /\
                      bFolder dj = true /\ nPid d = nId dj).
Proof.
  intros Hf Hs Hn Hr Hnd. rewrite (export_file file roots bs) by done.
  set (es := take _ _). eexists. split; [done|].
  assert (Hlen : (List.length es <= Z.to_nat nDataNum)%nat) by (unfold es; rewrite length_take; lia).
  assert (Hrec : forall i e, es !! i = Some e -> exists l d, ppData !! i = Some (Some l) /\
            fill ppData 0 es h !! l = Some (entry_record e (Z.of_nat i) d)).
  { intros i e He. pose proof (lookup_lt_Some _ _ _ He).
    destruct (Hr (Z.of_nat i) ltac:(lia)) as (l & Hl & [d Hd]). rewrite Nat2Z.id in Hl.
    exists l, d. split; [done|]. eapply fill_entry; try done. by eapply take_NoDup. }
  intros i Hi. destruct (lookup_lt_is_Some_2 es i Hi) as [e He]. destruct (Hrec i e He) as (l & d & Hl & Hd).
  exists l, (entry_record e (Z.of_nat i) d). split; [done|]. split; [done|]. split; [done|]. split; [done|].
  unfold es in He. rewrite lookup_take_lt in He by lia.
  destruct (listings_tree Utf8ToUnicode 0 0 bs i e He) as [?|(j & e' & Hj & He' & Hfo & Hp)]; [by left|right].
  assert (He2 : es !! j = Some e') by (unfold es; by rewrite lookup_take_lt by lia).
  destruct (Hrec j e' He2) as (lj & dj & Hlj & Hdj).
  exists j, lj, (entry_record e' (Z.of_nat j) dj). split; [done|]. split; [done|]. split; [done|]. split; [done|].
  simpl. lia.
Qed.

(** The root folders that Chrome provides are recognised by their names. *)
Definition provided (b : bookmark) : Prop :=
  match b with
  | BFolder name _ _ => is_special (Utf8ToUnicode name) = true
  | _ => True
  end.

Lemma root_count v b : represents v b -> (forall n u d, b <> BUrl n u d) -> provided b ->
  exists c, member v (lit "children") = Ok c /\ (objects c <= objects v)%nat /\
    forall pid next, (List.length (listing Utf8ToUnicode pid next b) <= objects c)%nat.
Proof.
  intros Hv Hnu Hp. destruct Hv as [? name url date| |v ty Ht H1 H2].
  - by destruct (Hnu name url date).
  - exists c. split; [done|]. split; [rename select (member v _ = Ok c) into Hc; apply member_objects in Hc; lia|].
    intros pid next. rewrite listing_folder. simpl in Hp. rewrite Hp.
    rename select (c = _ \/ _) into Hcl. rename select (Forall2 represents l kids) into Hk.
    assert (HF : Forall2 (fun v b => forall pid next, (List.length (listing Utf8ToUnicode pid next b) <= objects v)%nat) l kids)
      by (eapply Forall2_impl; [exact Hk|]; intros; by apply listing_bound).
    pose proof (listings_bound Utf8ToUnicode pid next l kids HF). destruct Hcl as [->|[_ ->]]; simpl in *; lia.
  - assert (Hm : exists c, member v (lit "children") = Ok c).
    { destruct v; simpl in Ht; try discriminate Ht; simpl; eauto. }
    destruct Hm as [c Hc]. exists c. split; [done|]. split; [apply member_objects in Hc; lia|]. intros. simpl. lia.
Qed.

(** The count is the number of objects below the three roots. *)
Lemma GetFavoriteCount_objects file roots bs :
  bookmark_file file roots bs -> Forall provided bs -> 3 * Z.of_nat (objects roots) < 2 ^ 31 ->
  exists cs, Forall2 (fun name c => exists v, member roots name = Ok v /\ member v (lit "children") = Ok c) root_names cs /\
    GetFavoriteCount sscanf_lf file = Ok (Z.of_nat (fold_right (fun w n => objects w + n)%nat 0%nat cs)) /\
    (List.length (listings Utf8ToUnicode 0 0 bs) <= fold_right (fun w n => objects w + n)%nat 0%nat cs)%nat.
Proof.
  intros [(doc & Hp & He & Hro) HF] Hpr Hsz. unfold GetFavoriteCount. rewrite Hp.
  cbn [mbind outcome_bind]. rewrite Hro. cbn [mbind outcome_bind].
  unfold root_names in HF |- *. repeat (apply Forall2_cons_inv_l in HF as (? & ? & (? & ? & ? & ?) & HF & ->)).
  apply Forall2_nil_inv_l in HF as ->. repeat (apply Forall_cons in Hpr as [? Hpr]).
  repeat match goal with
  | Hm : member roots _ = Ok ?v, Hv : represents ?v ?b, Hnu : (forall n u d, ?b <> BUrl n u d), Hb : provided ?b |- _ =>
      apply member_objects in Hm as ?; rewrite Hm; destruct (root_count v b Hv Hnu Hb) as (? & ? & ? & ?); clear Hb
  end.
  cbn [mbind outcome_bind].
  repeat match goal with Hc : member _ (lit "children") = Ok _ |- _ => rewrite Hc; cbn [mbind outcome_bind]; revert Hc end. intros.
  rewrite (EnumNode_objects _ 0) by lia. rewrite (EnumNode_objects _ (0 + _)) by lia.
  rewrite (EnumNode_objects _ (0 + _ + _)) by lia.
  eexists [_; _; _]. split; [repeat (constructor; [eauto|]); constructor|]. cbn [fold_right]. split; [f_equal; lia|].
  cbn [listings]. rewrite !length_app. cbn [List.length].
  repeat match goal with H : forall pid next, (List.length (listing _ pid next ?b) <= _)%nat |- _ =>
    match goal with |- context [listing Utf8ToUnicode ?p ?n b] => pose proof (H p n); clear H end end.
  lia.
Qed.

(** A node whose only objects are the bookmarks below it, none of them under a name of
    Chrome's own folders. *)
#[local] Unset Elimination Schemes.

Inductive counted : Value -> bookmark -> Prop :=
| counted_url v name url date : objects v = 1%nat -> counted v (BUrl name url date)
| counted_folder v name date l kids : member v (lit "children") = Ok (arrayValue l) ->
    objects v = S (objects (arrayValue l)) -> is_special (Utf8ToUnicode name) = false -> Forall2 counted l kids ->
    counted v (BFolder name date kids).

#[local] Set Elimination Schemes.

Definition counted_root (roots : Value) (name : str) (b : bookmark) : Prop :=
  exists v c, member roots name = Ok v /\ member v (lit "children") = Ok c /\
    match b with
    | BFolder _ _ kids => exists l, c = arrayValue l /\ Forall2 counted l kids
    | BOther => objects c = 0%nat
    | BUrl _ _ _ => False
    end.

Lemma counted_listing b v pid next : counted v b -> List.length (listing Utf8ToUnicode pid next b) = objects v.
Proof.
  revert v pid next. induction b as [name url date|name date kids IH|] using bookmark_ind; intros v pid next Hv.
  - inversion Hv; subst. simpl. lia.
  - inversion Hv as [|? ? ? l ? Hc Ho Hsp Hk]; subst. rewrite listing_folder, Hsp, Ho. simpl. f_equal. clear Hv Hc Ho Hsp.
    generalize (next + ID_VALUE_CHROME_BEGIN) (next + 1). clear pid next. intros pid next. revert next.
    induction Hk as [|w k l kids Hw Hk IHk]; intros next; [done|]. apply Forall_cons in IH as [IHw IH].
    cbn [listings fold_right]. rewrite length_app, (IHw w) by done. by rewrite IHk.
  - inversion Hv.
Qed.

Lemma counted_listings pid next l kids : Forall2 counted l kids ->
  List.length (listings Utf8ToUnicode pid next kids) = objects (arrayValue l).
Proof.
  intros Hk. revert next. induction Hk as [|w k l kids Hw Hk IHk]; intros next; [done|].
  cbn [listings]. rewrite length_app, (counted_listing k w) by done. simpl in *. by rewrite IHk.
Qed.

(** C40: the count of a bookmark file is what its export needs: an export into that many
    records puts every bookmark of the file into its record, when the root folders have
    the names Chrome gives them and the texts fit the arrays of a record; and the count is
    exactly the number of bookmarks when the nodes hold no other objects and no folder
    below the roots has the name of a root. *)
Theorem count_then_export file roots bs :
  bookmark_file file roots bs -> Forall provided bs -> Forall (small Utf8ToUnicode) bs -> 3 * Z.of_nat (objects roots) < 2 ^ 31 ->
  exists n, GetFavoriteCount sscanf_lf file = Ok n /\
    (Forall2 (counted_root roots) root_names bs -> n = Z.of_nat (List.length (listings Utf8ToUnicode 0 0 bs))) /\
    forall ppData h, room ppData n h -> NoDup (take (Z.to_nat n) ppData) ->
    exists h', ExportFavoriteData Utf8ToUnicode sscanf_lf file ppData n h = Ok (true, n, h') /\
      forall i e, listings Utf8ToUnicode 0 0 bs !! i = Some e ->
        exists l d, ppData !! i = Some (Some l) /\ h !! l = Some d /\ h' !! l = Some (entry_record e (Z.of_nat i) d).
Proof.
  intros Hf Hpr Hs Hsz. destruct (GetFavoriteCount_objects file roots bs Hf Hpr Hsz) as (cs & Hcs & Hc & Hle).
  exists (Z.of_nat (fold_right (fun w n => objects w + n)%nat 0%nat cs)). split; [done|]. split.
  - intros Hr. f_equal. clear Hle Hc Hs Hsz Hf. revert Hpr Hcs Hr. generalize 0 at 2. generalize root_names.
    intros names next. revert names cs next. induction bs as [|b bs IH]; intros names cs next Hpr Hcs Hr.
    { apply Forall2_nil_inv_r in Hr as ->. by apply Forall2_nil_inv_l in Hcs as ->. }
    apply Forall2_cons_inv_r in Hr as (name & names' & (v & c & Hv & Hcv & Hb) & Hr & ->).
    apply Forall2_cons_inv_l in Hcs as (c' & cs' & (v' & Hv' & Hcv') & Hcs & ->).
    assert (v' = v) as -> by congruence. assert (c' = c) as -> by congruence. apply Forall_cons in Hpr as [Hpb Hpr].
    cbn [listings fold_right]. rewrite length_app. rewrite <- (IH names' cs' _ Hpr Hcs Hr). f_equal.
    destruct b as [? ? ?|nm dt kids|]; [done|destruct Hb as (l & -> & Hk)|by rewrite Hb].
    rewrite listing_folder. simpl in Hpb. rewrite Hpb. symmetry. by apply counted_listings.
  - intros ppData h Hroom Hnd. rewrite (export_file file roots bs) by (done || lia). eexists. split; [done|].
    intros i e He. pose proof (lookup_lt_Some _ _ _ He) as Hi. rewrite take_ge by lia.
    destruct (Hroom (Z.of_nat i) ltac:(lia)) as (l & Hl & [d Hd]). rewrite Nat2Z.id in Hl. exists l, d.
    split; [done|]. split; [done|]. eapply fill_entry; try done. eapply take_NoDup; [|exact Hnd]. lia.
Qed.

End File.

(** ** Times as text *)

(** The number a text of digits stands for. *)
Definition dec (s : str) : Z := fold_left (fun a c => a * 10 + (c - 48)) s 0.

Lemma dec_acc s a : fold_left (fun a c => a * 10 + (c - 48)) s a = a * 10 ^ Z.of_nat (List.length s) + dec s.
Proof.
  unfold dec. revert a. induction s as [|c s IH]; intros a; [simpl; lia|]. cbn [fold_left List.length].
  rewrite IH, (IH (0 * 10 + (c - 48))). rewrite Nat2Z.inj_succ, Z.pow_succ_r by lia. lia.
Qed.

Lemma dec_app s t : dec (s ++ t) = dec s * 10 ^ Z.of_nat (List.length t) + dec t.
Proof. unfold dec at 1. rewrite fold_left_app. by rewrite dec_acc. Qed.

Lemma i64_mod a b : a mod 2 ^ 64 = b mod 2 ^ 64 -> i64 a = i64 b.
Proof.
  intros H. unfold i64. rewrite <- (Zplus_mod_idemp_l a), <- (Zplus_mod_idemp_l b), H. done.
Qed.

Lemma i64_idem a : (i64 a) mod 2 ^ 64 = a mod 2 ^ 64.
Proof. unfold i64. rewrite Zminus_mod_idemp_l. f_equal. lia. Qed.

Lemma i64_mul_add a k c : i64 (i64 a * k + c) = i64 (a * k + c).
Proof.
  apply i64_mod. rewrite <- (Zplus_mod_idemp_l (i64 a * k)), <- (Zmult_mod_idemp_l (i64 a)), i64_idem.
  by rewrite Zmult_mod_idemp_l, Zplus_mod_idemp_l.
Qed.

Lemma i64_add a c : i64 (i64 a + c) = i64 (a + c).
Proof. apply i64_mod. by rewrite <- (Zplus_mod_idemp_l (i64 a)), i64_idem, Zplus_mod_idemp_l. Qed.

Lemma string_to_int64_digits s a : Forall (fun c => 48 <= c <= 57) s ->
  string_to_int64 false s (i64 a) = (true, i64 (a * 10 ^ Z.of_nat (List.length s) + dec s)).
Proof.
  intros H. revert a. induction H as [|c s Hc _ IH]; intros a.
  { cbn [string_to_int64 List.length]. unfold dec. simpl. do 2 f_equal. lia. }
  cbn [string_to_int64]. replace ((48 <=? c) && (c <=? 57)) with true by lia. rewrite i64_add.
  replace (i64 (i64 a * 10 + (c - 48))) with (i64 (a * 10 + (c - 48))) by (by rewrite i64_mul_add).
  rewrite IH. do 2 f_equal. cbn [List.length]. rewrite Nat2Z.inj_succ, Z.pow_succ_r by lia.
  unfold dec at 2. cbn [fold_left]. rewrite dec_acc. lia.
Qed.

Lemma int64_digits_spec fuel n acc : 0 <= n < 10 ^ Z.of_nat fuel ->
  exists ds, int64_digits fuel n acc = acc ++ ds /\ Forall (fun c => 48 <= c <= 57) ds /\ dec (rev ds) = n /\
             (0 < n -> ds <> []).
Proof.
  revert n acc. induction fuel as [|fuel IH]; intros n acc Hn.
  { exists []. simpl in *. rewrite app_nil_r. split; [done|]. split; [done|]. split; [unfold dec; simpl; lia|lia]. }
  cbn [int64_digits]. destruct (Z.eqb_spec n 0) as [->|Hne].
  { exists []. rewrite app_nil_r. split; [done|]. split; [done|]. split; [done|lia]. }
  rewrite Nat2Z.inj_succ, Z.pow_succ_r in Hn by lia.
  rewrite Z.quot_div_nonneg, Z.rem_mod_nonneg by lia.
  destruct (IH (n / 10) (acc ++ digit_text (n mod 10))) as (ds & -> & Hd & Hv & _); [lia_div|].
  assert (Ht : digit_text (n mod 10) = [48 + n mod 10]).
  { unfold digit_text. destruct (Z.ltb_spec (n mod 10) 0); [lia_div|done]. }
  rewrite Ht. exists ((48 + n mod 10) :: ds). rewrite <- app_assoc. split; [done|].
  split; [constructor; [lia_div|done]|]. split; [|done]. cbn [rev]. rewrite dec_app, Hv.
  unfold dec. simpl. lia_div.
Qed.

(** A positive time written as text is read back in front of whatever the
    variable held before: exactly the time when that was zero, and otherwise the
    time plus the old value shifted by the number of digits after the first. *)
Theorem int64_text_roundtrip n old : 0 < n < 2 ^ 63 -> - 2 ^ 63 <= old < 2 ^ 63 ->
  StringToInt64 (Int64ToString n) old =
  (true, i64 (old * 10 ^ (Z.of_nat (List.length (Int64ToString n)) - 1) + n)).
Proof.
  intros Hn Hold. unfold Int64ToString, StringToInt64.
  destruct (int64_digits_spec 20 n []) as (ds & -> & Hd & Hv & Hne); [simpl; lia|]. simpl app.
  destruct (rev ds) as [|c s] eqn:E.
  { exfalso. apply Hne; [lia|]. by rewrite <- (rev_involutive ds), E. }
  assert (Hr : Forall (fun c => 48 <= c <= 57) (c :: s)) by (rewrite <- E; by apply Forall_rev).
  apply Forall_cons in Hr as [Hc Hs]. cbn [string_to_int64].
  replace ((48 <=? c) && (c <=? 57)) with true by lia. rewrite string_to_int64_digits by done. do 2 f_equal.
  cbn [List.length]. rewrite Nat2Z.inj_succ. replace (Z.succ _ - 1) with (Z.of_nat (List.length s)) by lia.
  rewrite <- Hv. unfold dec at 2. cbn [fold_left]. rewrite dec_acc. lia.
Qed.

(** ** Witnesses *)

(** JSON text with apostrophes for quotes. *)
Definition json_text (s : string) : str := map (fun c => if c =? 39 then 34 else c) (lit s).

Definition sample_file (root : string) : option str := Some (json_text (
  "{'roots':{'bookmark_bar':{'children':[{'date_added':'12','name':'a','type':'url','url':'http://a'}," ++
  "{'children':[{'date_added':'7','name':'c','type':'url','url':'http://c'}],'date_added':'5','name':'b','type':'folder'}]," ++
  "'date_added':'1','name':'" ++ root ++ "','type':'folder'}," ++
  "'other':{'children':[],'date_added':'1','name':'Other bookmarks','type':'folder'}},'version':1}")).

Definition sample_roots (file : option str) : Value :=
  match r ← parse_file (fun _ => None) file; member (snd r) (lit "roots") with
  | Ok v => v
  | Fault _ => nullValue
  end.

Definition sample_bookmarks (root : string) : list bookmark :=
  [BFolder (lit root) (lit "1")
     [BUrl (lit "a") (lit "http://a") (lit "12");
      BFolder (lit "b") (lit "5") [BUrl (lit "c") (lit "http://c") (lit "7")]];
   BFolder (lit "Other bookmarks") (lit "1") []; BOther].

Ltac sample_represents :=
  repeat match goal with
  | |- represents _ (BUrl _ _ _) => apply rep_url; vm_compute; reflexivity
  | |- represents _ (BFolder _ _ _) =>
      eapply rep_folder; [vm_compute; reflexivity..|left; vm_compute; reflexivity|]
  | |- represents _ BOther => eapply rep_other; [vm_compute; reflexivity|vm_compute; discriminate..]
  | |- Forall2 _ _ _ => constructor
  end.

Lemma sample_file_ok : bookmark_file (fun _ => None) (sample_file "Bookmarks bar")
  (sample_roots (sample_file "Bookmarks bar")) (sample_bookmarks "Bookmarks bar").
Proof.
  split; [eexists; split; [vm_compute; reflexivity|split; vm_compute; reflexivity]|].
  unfold sample_bookmarks, root_names. repeat constructor; (eexists; split; [vm_compute; reflexivity|]; split; [|done]);
    sample_represents.
Qed.

Definition sample_heap : heap :=
  <[1%positive := FavoriteLineData_new 0]> (<[2%positive := FavoriteLineData_new 0]>
    (<[3%positive := FavoriteLineData_new 0]> ∅)).

Definition sample_vector : fav_vector := [Some 1%positive; Some 2%positive; Some 3%positive].

Lemma sample_room : room sample_vector 3 sample_heap.
Proof.
  intros i Hi. assert (i = 0 \/ i = 1 \/ i = 2) as [->|[->| ->]] by lia; eexists; (split; [reflexivity|]); by eexists.
Qed.

Lemma sample_small root : (List.length (lit root) < 1000)%nat -> Forall (small (fun s => s)) (sample_bookmarks root).
Proof.
  intros H. unfold sample_bookmarks. repeat constructor; unfold fits, MAX_LENGTH; try (vm_compute; reflexivity). lia.
Qed.

Lemma ExportFavoriteData_exact_witness :
  exists h', ExportFavoriteData (fun s => s) (fun _ => None) (sample_file "Bookmarks bar") sample_vector 3 sample_heap =
    Ok (true, 3, h') /\ option_map szTitle (h' !! 3%positive) = Some (lit "c").
Proof.
  destruct (ExportFavoriteData_exact (fun s => s) (fun _ => None) (sample_file "Bookmarks bar")
    (sample_roots (sample_file "Bookmarks bar")) (sample_bookmarks "Bookmarks bar") sample_vector 3 sample_heap)
    as (h' & Hrun & Hent & _).
  - exact sample_file_ok.
  - apply sample_small. vm_compute. lia.
  - lia.
  - exact sample_room.
  - vm_compute. repeat constructor; set_solver.
  - exists h'. split; [exact Hrun|]. 
    destruct (take (Z.to_nat 3) (listings (fun s => s) 0 0 (sample_bookmarks "Bookmarks bar")) !! 2%nat) as [e|] eqn:He;
      [|vm_compute in He; discriminate].
    rewrite (Hent 2%nat 3%positive (FavoriteLineData_new 0) eq_refl eq_refl e He).
    vm_compute in He. injection He as <-. vm_compute. reflexivity.
Defined.

Lemma export_forest_witness :
  exists h' : heap, ExportFavoriteData (fun s => s) (fun _ => None) (sample_file "Bookmarks bar") sample_vector 3 sample_heap =
    Ok (true, 3, h') /\ exists l d, sample_vector !! 2%nat = Some (Some l) /\ h' !! l = Some d /\
      nId d = 2 + ID_VALUE_CHROME_BEGIN.
Proof.
  destruct (export_forest (fun s => s) (fun _ => None) (sample_file "Bookmarks bar")
    (sample_roots (sample_file "Bookmarks bar")) (sample_bookmarks "Bookmarks bar") sample_vector 3 sample_heap)
    as (h' & Hrun & Hrec).
  - exact sample_file_ok.
  - apply sample_small. vm_compute. lia.
  - lia.
  - exact sample_room.
  - vm_compute. repeat constructor; set_solver.
  - exists h'. split; [exact Hrun|]. destruct (Hrec 2%nat) as (l & d & Hl & Hd & Hi & _); [vm_compute; lia|].
    exists l, d. split; [exact Hl|]. split; [exact Hd|]. exact Hi.
Defined.

Lemma count_then_export_witness :
  exists n, GetFavoriteCount (fun _ => None) (sample_file "Bookmarks bar") = Ok n /\ n = 3 /\
    exists h', ExportFavoriteData (fun s => s) (fun _ => None) (sample_file "Bookmarks bar") sample_vector 3 sample_heap =
      Ok (true, 3, h').
Proof.
  destruct (count_then_export (fun s => s) (fun _ => None) (sample_file "Bookmarks bar")
           (sample_roots (sample_file "Bookmarks bar")) (sample_bookmarks "Bookmarks bar")) as (n & Hn & _ & Hexp).
  - exact sample_file_ok.
  - unfold sample_bookmarks. repeat constructor.
  - apply sample_small. vm_compute. lia.
  - vm_compute. reflexivity.
  - assert (E3 : GetFavoriteCount (fun _ => None) (sample_file "Bookmarks bar") = Ok 3) by (vm_compute; reflexivity).
    rewrite E3 in Hn. injection Hn as <-. exists 3. split; [exact E3|]. split; [reflexivity|].
    destruct (Hexp sample_vector sample_heap sample_room) as (h' & E & _); [|exists h'; exact E].
    apply (bool_decide_unpack _). vm_compute. exact I.
Defined.

Lemma int64_text_roundtrip_witness : StringToInt64 (Int64ToString 1320000000) 0 = (true, 1320000000).
Proof. rewrite (int64_text_roundtrip 1320000000 0); [reflexivity|lia|lia]. Defined.

(** A record that already holds the current time, as a fresh one does, gets
    another time than the file has. *)
Example time_on_top_of_now :
  StringToInt64 (lit "1320000000") (nAddTimes (FavoriteLineData_new 1)) = (true, 2320000000).
Proof. reflexivity. Qed.

(** A root folder under a name of another language is exported itself but not
    counted: one bookmark is lost. *)
Example foreign_root_lost :
  GetFavoriteCount (fun _ => None) (sample_file "Lesezeichen") = Ok 3 /\
  List.length (listings (fun s => s) 0 0 (sample_bookmarks "Lesezeichen")) = 4%nat.
Proof. vm_compute. split; reflexivity. Qed.
