(* ===== verification/ChromeImport.v ===== *)
(** * Chrome: writing the bookmarks

    src/PlugIn/ChromePlugIn/ChromePlugIn.cpp, the half that replaces the bookmark
    file: [ImportFavoriteData] with [SortByDepth] and [SortNode], the nodes made
    from templates ([MakeFolderNode], [MakeUrlNode], [MakeSpecialFolderNode]),
    [TraverseNode], and the checksum.

    Importing only reads the records, so an array of pointers is the list of the
    records they lead to, [None] for a null pointer.  A [std::map] is a finite
    map; a [std::multimap], of which only the ranges of one key are visited, is
    the list of its pairs in the order of insertion.  The conversions of
    characters and the file calls are Windows calls, hence parameters; files are
    texts as text streams see them. *)
From stdpp Require Import prelude gmap sorting.
From Stdlib Require Import ZArith Lia SpecFloat String.
From S2P Require Import Prelude Strings Favorites Md5Context Json JsonReader JsonWriter Utf8 Chrome.

Definition ERROR_OK : Z := 0.
Definition ERROR_SQLITE_DONE : Z := 101.
Definition ERROR_INVALID_PARAM : Z := ERROR_SQLITE_DONE + 1.
Definition ERROR_CLEAR_FAVORITE_DATA : Z := ERROR_SQLITE_DONE + 2.
Definition ERROR_INTERNAL_ERROR : Z := ERROR_SQLITE_DONE + 100.

(** An array of pointers to records that are only read. *)
Abbreviation records := (list (option FavoriteLineData)).

(** ** Sorting *)

(** The loop of [SortNode]; [sorted] is what was written to [ppSortData] so far,
    [k] its length, [rec] the recursive call.  The array has [nDataNum] places. *)
Fixpoint sort_loop (rec : Z -> records -> outcome records) (nDataNum nParentId : Z)
    (rest sorted : records) : outcome records :=
  match rest with
  | [] => Ok sorted
  | p :: rest =>
      d ← deref p;
      if nPid d =? nParentId then
        if nDataNum <=? Z.of_nat (List.length sorted) then Fault OutOfRange
        else
          let sorted := sorted ++ [p] in
          if nDataNum <=? Z.of_nat (List.length sorted) then Ok sorted
          else
            sorted ← (if bFolder d then rec (nId d) sorted else Ok sorted);
            sort_loop rec nDataNum nParentId rest sorted
      else sort_loop rec nDataNum nParentId rest sorted
  end.

Fixpoint SortNode (fuel : nat) (ppData : records) (nDataNum nParentId : Z) (sorted : records) : outcome records :=
  match fuel with
  | O => Fault NoFuel
  | S fuel => sort_loop (SortNode fuel ppData nDataNum) nDataNum nParentId ppData sorted
  end.

(** A call is made for a record just written, so that there are as many nested
    calls as records at most.  The places that are not written stay null. *)
Definition SortByDepth (ppData : records) (nDataNum : Z) : outcome records :=
  sorted ← SortNode (S (Z.to_nat nDataNum)) ppData nDataNum 0 [];
  Ok (sorted ++ replicate (Z.to_nat nDataNum - List.length sorted) None).

(** ** The state of the plug-in *)

Record CChromePlugIn := mkChrome {
  m_nMaxDepth : Z;
  m_nIndex : Z;
  m_mapDepthInfo : list (Z * Z);
  m_mapPidInfo : gmap Z Z;
  m_mapPidNodeInfo : gmap Z Value;
  m_mapIdIndexInfo : gmap Z Z;
  m_szMd5Context : Context_;
  m_strCheckSum : str
}.

(** The constructor leaves the checksum's context as it finds it. *)
Definition CChromePlugIn_new (junk : Context_) : CChromePlugIn := mkChrome 0 0 [] ∅ ∅ ∅ junk [].

Definition with_depth (m : Z) (di : list (Z * Z)) (pi : gmap Z Z) (s : CChromePlugIn) : CChromePlugIn :=
  mkChrome m (m_nIndex s) di pi (m_mapPidNodeInfo s) (m_mapIdIndexInfo s) (m_szMd5Context s) (m_strCheckSum s).

Definition with_nodes (i : Z) (ni : gmap Z Value) (ii : gmap Z Z) (s : CChromePlugIn) : CChromePlugIn :=
  mkChrome (m_nMaxDepth s) i (m_mapDepthInfo s) (m_mapPidInfo s) ni ii (m_szMd5Context s) (m_strCheckSum s).

Definition with_index (i : Z) (s : CChromePlugIn) : CChromePlugIn :=
  with_nodes i (m_mapPidNodeInfo s) (m_mapIdIndexInfo s) s.

Definition with_context (c : Context_) (s : CChromePlugIn) : CChromePlugIn :=
  mkChrome (m_nMaxDepth s) (m_nIndex s) (m_mapDepthInfo s) (m_mapPidInfo s) (m_mapPidNodeInfo s)
    (m_mapIdIndexInfo s) c (m_strCheckSum s).

Definition with_checksum (t : str) (s : CChromePlugIn) : CChromePlugIn :=
  mkChrome (m_nMaxDepth s) (m_nIndex s) (m_mapDepthInfo s) (m_mapPidInfo s) (m_mapPidNodeInfo s)
    (m_mapIdIndexInfo s) (m_szMd5Context s) t.

(** [std::map::insert]: a key that is there keeps its value. *)
Definition map_add {A} (k : Z) (v : A) (m : gmap Z A) : gmap Z A :=
  match m !! k with Some _ => m | None => <[k := v]> m end.

(** From [lower_bound( k )] to [upper_bound( k )]. *)
Definition range_of {A} (k : Z) (m : list (Z * A)) : list A :=
  map snd (filter (fun e => e.1 = k) m).

(** ** The checksum *)

Definition UpdateChecksum (s : str) (c : Context_) : Context_ := MD5Update c s.

(** The same on wide characters. *)
Definition UpdateChecksum_w (s : wstring) (c : Context_) : Context_ := MD5Update c (wide_bytes s).

Definition UpdateChecksumWithUrlNode (id : str) (title : wstring) (url : str) (c : Context_) : Context_ :=
  if IsStringUTF8 url then UpdateChecksum url (UpdateChecksum (lit "url") (UpdateChecksum_w title (UpdateChecksum id c)))
  else c.

Definition UpdateChecksumWithFolderNode (id : str) (title : wstring) (c : Context_) : Context_ :=
  UpdateChecksum (lit "folder") (UpdateChecksum_w title (UpdateChecksum id c)).

Definition InitializeChecksum (c : Context_) : Context_ := MD5Init c.

Definition FinalizeChecksum (c : Context_) : str := MD5DigestToBase16 (MD5Final c).

(** ** Nodes *)

(** A template with apostrophes for quotes. *)
Definition template (s : string) : wstring := map (fun c => if c =? 39 then 34 else c) (lit s).

(** The indentation of the source behind a continued line. *)
Definition gap : wstring := replicate 5 9 ++ [32; 32].

(** [swprintf_s( szTmp, 2048 - 1, ... )]: a text that does not fit with its zero
    ends the program. *)
Definition swprintf_s (text : wstring) : outcome wstring :=
  if Z.of_nat (List.length text) <? 2048 - 1 then Ok text else Fault Aborted.

Section Nodes.
Context (Utf8ToUnicode : str -> wstring) (UnicodeToUtf8 : wstring -> str).
Context (sscanf_lf : str -> option spec_float).

(** The text of a template is parsed into the cleared value; the result of
    parsing is not looked at. *)
Definition parse_template (text : wstring) (obj : Value) : outcome Value :=
  szTmp ← swprintf_s text;
  obj ← clear obj;
  r ← parse sscanf_lf (UnicodeToUtf8 szTmp) obj;
  Ok (snd r).

Definition folder_text (strAddTime strModifyTime : str) (nIndex : Z) (szTitle : wstring) : wstring :=
  template " { 'children': [ ]," ++ gap ++
  template "'date_added': '" ++ Utf8ToUnicode strAddTime ++ template "'," ++ gap ++
  template "'date_modified': '" ++ Utf8ToUnicode strModifyTime ++ template "'," ++ gap ++
  template "'id': '" ++ uintToString nIndex ++ template "'," ++ gap ++
  template "'name': '" ++ szTitle ++ template "'," ++ gap ++
  template "'type': 'folder' }".

Definition url_text (strAddTime : str) (nIndex : Z) (szTitle szUrl : wstring) : wstring :=
  template " {" ++ gap ++
  template "'date_added': '" ++ Utf8ToUnicode strAddTime ++ template "'," ++ gap ++
  template "'id': '" ++ uintToString nIndex ++ template "'," ++ gap ++
  template "'name': '" ++ szTitle ++ template "'," ++ gap ++
  template "'type': 'url'," ++ gap ++
  template "'url': '" ++ szUrl ++ template "'}".

(** [nIndex] is a reference: the new value is returned with the node. *)
Definition MakeFolderNode (d : FavoriteLineData) (folder_obj : Value) (nIndex : Z) : outcome (Value * Z) :=
  let nIndex := u32 (nIndex + 1) in
  v ← parse_template (folder_text (Int64ToString (nAddTimes d)) (Int64ToString (nLastModifyTime d)) nIndex (szTitle d))
        folder_obj;
  Ok (v, nIndex).

Definition MakeUrlNode (d : FavoriteLineData) (url_obj : Value) (nIndex : Z) : outcome (Value * Z) :=
  let nIndex := u32 (nIndex + 1) in
  v ← parse_template (url_text (Int64ToString (nAddTimes d)) nIndex (szTitle d) (szUrl d)) url_obj;
  Ok (v, nIndex).

(** [now] is what [time(NULL)] returns. *)
Definition MakeSpecialFolderNode (now : Z) (pszName : wstring) (folder_obj : Value) (s : CChromePlugIn) :
    outcome (Value * CChromePlugIn) :=
  let nIndex := u32 (m_nIndex s + 1) in
  let strTime := Int64ToString now in
  let s := with_context (UpdateChecksumWithFolderNode (uintToString nIndex) pszName (m_szMd5Context s))
             (with_index nIndex s) in
  v ← parse_template (folder_text strTime strTime nIndex pszName) folder_obj;
  Ok (v, s).

(** ** Building the tree from the bottom *)

Section Traverse.
Context (ppData : records).

(** One record of the level: its node, its parent in [vecPidList], its index. *)
Definition make_node (st : Z * list Z * list (Z * (Z * Value)) * gmap Z Z) (i : Z) :
    outcome (Z * list Z * list (Z * (Z * Value)) * gmap Z Z) :=
  let '(nIndex, vecPidList, mapPidObj, mapIdIndex) := st in
  p ← vec_at ppData i;
  match p with
  | None => Ok st
  | Some d =>
      r ← (if bFolder d then MakeFolderNode d nullValue nIndex else MakeUrlNode d nullValue nIndex);
      let '(node_obj, nIndex) := (r : Value * Z) in
      Ok (nIndex, if bool_decide (nPid d ∈ vecPidList) then vecPidList else vecPidList ++ [nPid d],
          mapPidObj ++ [(nPid d, (i, node_obj))], map_add (nId d) nIndex mapIdIndex)
  end.

(** One node of a parent: a folder takes the children made on the level below. *)
Definition attach_node (st : Value * gmap Z Value) (e : Z * Value) : outcome (Value * gmap Z Value) :=
  let '(array_obj, nodes) := st in
  let '(i, node_obj) := e in
  p ← vec_at ppData i;
  d ← deref p;
  match (if bFolder d then nodes !! nId d else None) with
  | Some children =>
      node_obj ← set_member node_obj (lit "children") children;
      array_obj ← append_ array_obj node_obj;
      Ok (array_obj, base.delete (nId d) nodes)
  | None => array_obj ← append_ array_obj node_obj; Ok (array_obj, nodes)
  end.

Definition attach_pid (mapPidObj : list (Z * (Z * Value))) (nodes : gmap Z Value) (pid : Z) : outcome (gmap Z Value) :=
  st ← for_each attach_node (nullValue, nodes) (range_of pid mapPidObj);
  Ok (map_add pid (fst st) (snd st)).

Definition traverse_level (nDepth : Z) (s : CChromePlugIn) : outcome CChromePlugIn :=
  st ← for_each make_node (m_nIndex s, [], [], m_mapIdIndexInfo s) (range_of nDepth (m_mapDepthInfo s));
  let '(nIndex, vecPidList, mapPidObj, mapIdIndex) := (st : Z * list Z * list (Z * (Z * Value)) * gmap Z Z) in
  nodes ← for_each (attach_pid mapPidObj) (m_mapPidNodeInfo s) vecPidList;
  Ok (with_nodes nIndex nodes mapIdIndex s).

(** The levels below [n], the deepest first. *)
Fixpoint traverse (n : nat) (s : CChromePlugIn) : outcome CChromePlugIn :=
  match n with
  | O => Ok s
  | S n => s ← traverse_level (Z.of_nat n) s; traverse n s
  end.

Definition TraverseNode (nDepth : Z) (s : CChromePlugIn) : outcome CChromePlugIn := traverse (Z.to_nat (nDepth + 1)) s.

(** ** Depths *)

(** A record of the first loop of [ImportFavoriteData], which also leaves its
    depth in [nDepth]. *)
Definition depth_step (st : Z * CChromePlugIn) (i : Z) : outcome (Z * CChromePlugIn) :=
  let '(nDepth, s) := st in
  p ← vec_at ppData i;
  match p with
  | None => Ok st
  | Some d =>
      if bDelete d then Ok st
      else
        let nDepth := match m_mapPidInfo s !! nPid d with Some n => n + 1 | None => 0 end in
        Ok (nDepth, with_depth (Z.max nDepth (m_nMaxDepth s)) (m_mapDepthInfo s ++ [(nDepth, i)])
                      (if bFolder d then map_add (nId d) nDepth (m_mapPidInfo s) else m_mapPidInfo s) s)
  end.

(** A record of the second loop: it is counted and enters the checksum. *)
Definition checksum_step (nDepth : Z) (st : Z * CChromePlugIn) (i : Z) : outcome (Z * CChromePlugIn) :=
  let '(nRealNum, s) := st in
  p ← vec_at ppData i;
  match p with
  | None => Ok st
  | Some d =>
      if bDelete d then Ok st
      else
        Ok (nRealNum + 1,
            match m_mapIdIndexInfo s !! nId d with
            | Some nIndex =>
                let szId := uintToString (u32 nIndex) in
                if bFolder d then
                  with_context (UpdateChecksumWithFolderNode szId (szTitle d) (m_szMd5Context s))
                    (with_depth (m_nMaxDepth s) (m_mapDepthInfo s) (map_add (nId d) nDepth (m_mapPidInfo s)) s)
                else
                  with_context (UpdateChecksumWithUrlNode szId (szTitle d) (UnicodeToUtf8 (szUrl d)) (m_szMd5Context s)) s
            | None => s
            end)
  end.

End Traverse.
End Nodes.

(** ** The whole import *)

(** The file calls on the state [W] of the disk. *)
Class FileCalls (W : Type) := {
  IsFileExist : wstring -> W -> bool;
  DeleteFileW : wstring -> W -> bool * W;
  FileHelper_DeleteFile : wstring -> W -> bool * W;
  write_file : wstring -> str -> W -> W;
  read_file : wstring -> W -> option str
}.

Section Importing.
Context (Utf8ToUnicode ANSIToUnicode : str -> wstring) (UnicodeToUtf8 : wstring -> str).
Context (sscanf_lf : str -> option spec_float) (sprintf_g : spec_float -> str).
Context {W : Type} {F : FileCalls W}.

(** The file is removed first; [None] when that fails. *)
Definition remove_file (pszPath strTmpPath : wstring) (w : W) : option W :=
  if IsFileExist strTmpPath w then
    let '(bResult, w) := DeleteFileW pszPath w in
    if bResult then Some w
    else let '(bResult, w) := FileHelper_DeleteFile pszPath w in if bResult then Some w else None
  else Some w.

(** [root] with its members. *)
Definition make_root (checksum : str) (bookmark_bar other synced : Value) : outcome Value :=
  root ← set_member nullValue (lit "checksum") (stringValue checksum);
  roots ← set_member nullValue (lit "bookmark_bar") bookmark_bar;
  roots ← set_member roots (lit "other") other;
  roots ← set_member roots (lit "synced") synced;
  root ← set_member root (lit "roots") roots;
  set_member root (lit "version") (intValue 1).

Definition cleared (s : CChromePlugIn) : CChromePlugIn :=
  with_nodes (m_nIndex s) ∅ ∅ (with_depth (m_nMaxDepth s) [] ∅ s).

(** [now] gives the time at the call that makes the node of a number; [ppData]
    is [None] for a null pointer.  The result is the error code, [nDataNum], the
    plug-in and the disk. *)
Definition ImportFavoriteData (pszPath : wstring) (now : Z -> Z) (ppData : option records) (nDataNum : Z)
    (s : CChromePlugIn) (w : W) : outcome (Z * Z * CChromePlugIn * W) :=
  match ppData with
  | None => Ok (ERROR_INVALID_PARAM, nDataNum, s, w)
  | Some ppData =>
      if nDataNum =? 0 then Ok (ERROR_INVALID_PARAM, nDataNum, s, w)
      else if nDataNum <? 0 then Fault Aborted
      else if Z.of_nat (List.length ppData) <? nDataNum then Fault OutOfRange
      else
        let ppInnerData := take (Z.to_nat nDataNum) ppData in
        let s := cleared s in
        let strTmpPath := ANSIToUnicode (UnicodeToUtf8 pszPath) in
        match remove_file pszPath strTmpPath w with
        | None => Ok (ERROR_CLEAR_FAVORITE_DATA, nDataNum, s, snd (FileHelper_DeleteFile pszPath (snd (DeleteFileW pszPath w))))
        | Some w =>
            let s := with_context (InitializeChecksum (m_szMd5Context s)) s in
            let make := fun (name : string) s =>
              MakeSpecialFolderNode Utf8ToUnicode UnicodeToUtf8 sscanf_lf (now (m_nIndex s)) (lit name) nullValue s in
            r ← make "Bookmarks bar"%string s;
            let '(bookmark_bar, s) := (r : Value * CChromePlugIn) in
            ppInnerData ← SortByDepth ppInnerData nDataNum;
            r ← for_each (depth_step ppInnerData) (0, s) (seqZ 0 nDataNum);
            let '(nDepth, s) := (r : Z * CChromePlugIn) in
            s ← TraverseNode Utf8ToUnicode UnicodeToUtf8 sscanf_lf ppInnerData (m_nMaxDepth s) s;
            match map_to_list (m_mapPidNodeInfo s) with
            | [(_, children)] =>
                bookmark_bar ← set_member bookmark_bar (lit "children") children;
                r ← for_each (checksum_step UnicodeToUtf8 ppInnerData nDepth) (0, s) (seqZ 0 nDataNum);
                let '(nRealNum, s) := (r : Z * CChromePlugIn) in
                r ← make "Other bookmarks"%string s;
                let '(other, s) := (r : Value * CChromePlugIn) in
                r ← make "Synced bookmarks"%string s;
                let '(synced, s) := (r : Value * CChromePlugIn) in
                let s := with_checksum (FinalizeChecksum (m_szMd5Context s)) s in
                root ← make_root (m_strCheckSum s) bookmark_bar other synced;
                text ← write sprintf_g root;
                Ok (ERROR_OK, nRealNum, s, write_file strTmpPath text w)
            | _ => Ok (ERROR_INTERNAL_ERROR, nDataNum, s, w)
            end
        end
  end.

(** *** When nothing is left to import *)

Definition dead (p : option FavoriteLineData) : Prop := match p with Some d => bDelete d = true | None => True end.

Lemma sort_loop_dead rec n p rest sorted sorted' : Forall dead rest -> Forall dead sorted ->
  (forall q s s', Forall dead s -> rec q s = Ok s' -> Forall dead s') ->
  sort_loop rec n p rest sorted = Ok sorted' -> Forall dead sorted'.
Proof.
  intros Hr Hs Hrec. revert sorted Hs. induction Hr as [|x rest Hx Hr IH]; intros sorted Hs H; cbn [sort_loop] in H.
  { by injection H as <-. }
  destruct x as [d|]; [|done]. cbn [deref mbind outcome_bind] in H. destruct (_ =? _); [|by eapply IH].
  destruct (_ <=? _); [done|]. cbv zeta in H. assert (Hs' : Forall dead (sorted ++ [Some d])) by (apply Forall_app; auto).
  destruct (_ <=? _); [by injection H as <-|]. apply bind_Ok in H as (s1 & E & H). eapply IH; [|exact H].
  destruct (bFolder d); [by eapply Hrec|by injection E as <-].
Qed.

Lemma SortByDepth_dead ppData n sorted : Forall dead ppData -> SortByDepth ppData n = Ok sorted -> Forall dead sorted.
Proof.
  intros Hd H. unfold SortByDepth in H. apply bind_Ok in H as (s1 & E & [= <-]). apply Forall_app.
  split; [|by apply Forall_replicate].
  assert (HN : forall fuel p s s', Forall dead s -> SortNode fuel ppData n p s = Ok s' -> Forall dead s').
  { induction fuel as [|fuel IH]; intros p s s' Hs H; [done|]. eapply sort_loop_dead; [exact Hd|exact Hs|exact IH|exact H]. }
  eapply HN; [|exact E]. constructor.
Qed.

Lemma depth_loop_dead ppData l st st' : Forall dead ppData -> for_each (depth_step ppData) st l = Ok st' -> st' = st.
Proof.
  intros Hd. revert st. induction l as [|i l IH]; intros [k s] H; cbn [for_each] in H; [by injection H as <-|].
  apply bind_Ok in H as (st1 & E & H). enough (st1 = (k, s)) as -> by by apply IH. unfold depth_step in E.
  apply bind_Ok in E as (p & Ep & E). apply vec_at_Ok in Ep as [_ Ep]. rewrite Forall_lookup in Hd. specialize (Hd _ _ Ep).
  destruct p as [d|]; [simpl in Hd; rewrite Hd in E|]; by injection E as <-.
Qed.

Lemma traverse_empty ppData n s s' : m_mapDepthInfo s = [] ->
  traverse Utf8ToUnicode UnicodeToUtf8 sscanf_lf ppData n s = Ok s' -> m_mapPidNodeInfo s' = m_mapPidNodeInfo s.
Proof.
  revert s. induction n as [|n IH]; intros s Hs H; cbn [traverse] in H; [by injection H as <-|].
  apply bind_Ok in H as (s1 & E & H). unfold traverse_level in E. rewrite Hs in E. cbn in E. injection E as <-.
  apply IH in H; [|exact Hs]. exact H.
Qed.

(** The state of the disk after both attempts to remove the file. *)
Definition attempts (pszPath : wstring) (w : W) : W := snd (FileHelper_DeleteFile pszPath (snd (DeleteFileW pszPath w))).

(** C29: the errors of the import.  Without records it changes nothing and returns at
    once.  A file that cannot be removed stops it: the disk is as the two attempts to
    remove it left it, and nothing is written.  Once the file is removed, an internal
    error writes nothing either, so that the browser is left without bookmarks, and this
    is the only way to return when every record is marked as deleted; a success
    writes one text, to the path of the file. *)
Theorem ImportFavoriteData_errors pszPath now ppData nDataNum s w :
  let path := ANSIToUnicode (UnicodeToUtf8 pszPath) in
  (ppData = None \/ nDataNum = 0 -> ImportFavoriteData pszPath now ppData nDataNum s w = Ok (ERROR_INVALID_PARAM, nDataNum, s, w)) /\
  (forall ds, ppData = Some ds -> 0 < nDataNum <= Z.of_nat (List.length ds) ->
     match remove_file pszPath path w with
     | None => ImportFavoriteData pszPath now ppData nDataNum s w =
                 Ok (ERROR_CLEAR_FAVORITE_DATA, nDataNum, cleared s, attempts pszPath w)
     | Some w1 => forall code n s' w', ImportFavoriteData pszPath now ppData nDataNum s w = Ok (code, n, s', w') ->
         (code = ERROR_INTERNAL_ERROR /\ n = nDataNum /\ w' = w1) \/
         (code = ERROR_OK /\ (exists text, w' = write_file path text w1) /\ ~ Forall dead (take (Z.to_nat nDataNum) ds))
     end).
Proof.
  intros path. split.
  { intros Hnone. unfold ImportFavoriteData. destruct ppData as [ds|]; [|done]. destruct Hnone as [Hd| ->]; done. }
  intros ds -> Hn. unfold ImportFavoriteData. rewrite (proj2 (Z.eqb_neq nDataNum 0)) by lia.
  rewrite (proj2 (Z.ltb_ge nDataNum 0)), (proj2 (Z.ltb_ge (Z.of_nat (List.length ds)) nDataNum)) by lia. cbv zeta. fold path.
  destruct (remove_file pszPath path w) as [w1|]; [|done]. intros code n s' w' H.
  apply bind_Ok in H as ([bar s1] & Hbar & H). apply bind_Ok in H as (sorted & Hsort & H).
  apply bind_Ok in H as ([nd s2] & Hdepth & H). apply bind_Ok in H as (s3 & Htrav & H).
  destruct (map_to_list (m_mapPidNodeInfo s3)) as [|[q c] [|]] eqn:Enodes; [by injection H as <- <- <- <-; left| |by injection H as <- <- <- <-; left].
  right. apply bind_Ok in H as (bar' & _ & H). apply bind_Ok in H as ([nr s4] & _ & H).
  apply bind_Ok in H as ([other s5] & _ & H). apply bind_Ok in H as ([synced s6] & _ & H). cbv zeta in H.
  apply bind_Ok in H as (root & _ & H). apply bind_Ok in H as (text & _ & H). injection H as <- <- <- <-.
  split; [done|]. split; [by exists text|]. intros Hdead.
  pose proof (depth_loop_dead sorted _ _ _ (SortByDepth_dead _ _ _ Hdead Hsort) Hdepth) as [= -> ->].
  unfold MakeSpecialFolderNode in Hbar. apply bind_Ok in Hbar as (v & _ & [= _ Hs1]).
  unfold TraverseNode in Htrav. rewrite (traverse_empty sorted _ s1 s3 ltac:(by rewrite <- Hs1) Htrav), <- Hs1 in Enodes.
  cbn in Enodes. by rewrite map_to_list_empty in Enodes.
Qed.

End Importing.
