(* ===== verification/IEPlugIn.v ===== *)
(** * Internet Explorer: collecting and writing favorites

    src/PlugIn/IEPlugIn/IEPlugIn.cpp.  The favorites of Internet Explorer are
    files in a directory.  They are read through the shell, whose answers are a
    tree of items ([shell_item]), and written through the file system.  An array
    of records is a vector of pointers into the memory of records; an index
    outside of it, a null pointer and a freed text are faults. *)
From stdpp Require Import prelude gmap strings.
From Stdlib Require Import ZArith Lia String.
From S2P Require Import Prelude Strings Favorites DataCenter PlugInModule TimeHelper FilePath FileSystem PathHelper.
From S2P Require Import CrcHash Chrome ChromeImport.

Definition ID_VALUE_IE9_BEGIN : Z := ID_VALUE_BEGIN 3.

Definition ERROR_CREATE_FAVORITE_FOLD : Z := ERROR_SQLITE_DONE + 4.

(** ** Places *)

(** [GetPlugInVersion], from the text of the registry; [BYTE], [BYTE] and [WORD]
    of [atol]. *)
Definition GetPlugInVersion (szVersion : option str) : outcome Z :=
  match szVersion with
  | None => Ok 0
  | Some strVersion =>
      vecResutl ← StringHelper.Split strVersion dot;
      if (List.length vecResutl <? 4)%nat then Ok 0
      else
        v0 ← vec_at vecResutl 0;
        v1 ← vec_at vecResutl 1;
        v3 ← vec_at vecResutl 3;
        Ok (Z.lor (Z.lor (u8 (StringHelper.ConvertToInt v0)) (Z.shiftl (u8 (StringHelper.ConvertToInt v1)) 8))
                  (Z.shiftl (u16 (StringHelper.ConvertToInt v3)) 16))
  end.

(** [home] is what [PathHelper::GetHomeDir] returns. *)
Definition GetFavoriteDataPath (home : wstring) : wstring := home ++ lit "\Favorites".

Definition GetHistoryDataPath (home : wstring) : wstring :=
  home ++ lit "\AppData\Local\Microsoft\Windows\History".

(** ** Reading *)

(** What [ResolveInternetShortcut] does to the pointer it is given. *)
Inductive resolved := Url (url : wstring) | Unresolved.

(** What the shell and the file system answer about an item: the name shown, the
    times of creation, writing and access, the name of its type, [SFGAO_FOLDER]
    and the address of a shortcut. *)
Record item_info := mkInfo {
  lpszName : wstring;
  fileAttrData : option (SYSTEMTIME * SYSTEMTIME * SYSTEMTIME);
  szTypeName : wstring;
  sfgao_folder : bool;
  shortcut : resolved
}.

(** An item, and its own items when [BindToObject] succeeds. *)
#[local] Unset Elimination Schemes.
Inductive shell_item := Item (info : item_info) (pSubFolder : option (list shell_item)).
#[local] Set Elimination Schemes.

Definition item_of (i : shell_item) : item_info := let 'Item info _ := i in info.

(** The answers that lead to the favorites. *)
Record Shell := mkShell {
  SHGetMalloc : bool;
  SHGetSpecialFolderLocation : bool;
  SHGetDesktopFolder : Z;
  pFavFolder : option (list shell_item)
}.

Record FILETIMEINFO := mkFileTime { tCreateTime : Z; tLastWriteTime : Z; tLastAccessTime : Z }.

(** [L"Channel Shortcut"], [L"Internet Shortcut"] and its Chinese name. *)
Definition channel_type : wstring := lit "Channel Shortcut".
Definition shortcut_types : list wstring :=
  [lit "Internet " ++ [24555; 25463; 26041; 24335]; lit "Internet Shortcut"].

Section Reading.
Context (mktime : tm -> Z).

Definition GetFileTimeInfo (pFileAttrData : SYSTEMTIME * SYSTEMTIME * SYSTEMTIME) : FILETIMEINFO :=
  let '(ftCreationTime, ftLastWriteTime, ftLastAccessTime) := pFileAttrData in
  mkFileTime (SysTime2Time mktime ftCreationTime) (SysTime2Time mktime ftLastWriteTime)
    (SysTime2Time mktime ftLastAccessTime).

(** [FILETIMEINFO stFileTimeInfo = {0}], filled when the attributes are found. *)
Definition file_times (info : item_info) : FILETIMEINFO :=
  match fileAttrData info with
  | Some a => GetFileTimeInfo a
  | None => mkFileTime 0 0 0
  end.

Definition ie_folder_record (info : item_info) (nPid n : Z) (d : FavoriteLineData) : outcome FavoriteLineData :=
  title ← wcscpy_s (lpszName info);
  hash ← hash_title title (nHashId d);
  Ok (mkFavorite (n + ID_VALUE_IE9_BEGIN) title nPid true [] (tCreateTime (file_times info))
        (tLastWriteTime (file_times info)) (nClickTimes d) hash (nOrder d) false).

Definition ie_page_record (info : item_info) (lpszURL : wstring) (nPid n : Z) (d : FavoriteLineData) :
    outcome FavoriteLineData :=
  title ← wcscpy_s (lpszName info);
  url ← wcscpy_s lpszURL;
  hash ← hash_title title (nHashId d);
  Ok (mkFavorite (n + ID_VALUE_IE9_BEGIN) title nPid false url (tCreateTime (file_times info))
        (tLastWriteTime (file_times info)) (nClickTimes d) hash (nOrder d) false).

Section Traverse.
Context (ppData : fav_vector) (bStat : bool).

(** [if (!bStat) ...] *)
Definition ie_store (n : Z) (f : FavoriteLineData -> outcome FavoriteLineData) (h : heap) : outcome heap :=
  if bStat then Ok h else store ppData n f h.

(** One round of the loop.  The state has the records, [nDataNum], and whether
    [lpszURL] points to a text that was freed: the pointer is not reset, and a
    shortcut that cannot be resolved leaves it as it is. *)
Fixpoint TaverseItem (i : shell_item) (nPid : Z) (st : heap * Z * bool) {struct i} : outcome (heap * Z * bool) :=
  let '(h, nDataNum, freed) := st in
  let 'Item info pSubFolder := i in
  if bool_decide (szTypeName info = []) then Ok st
  else if sfgao_folder info && negb (bool_decide (szTypeName info = channel_type)) then
    match pSubFolder with
    | None => Ok st
    | Some items =>
        h ← ie_store nDataNum (ie_folder_record info nPid nDataNum) h;
        let loop := fix loop (nPid : Z) (st : heap * Z * bool) (items : list shell_item) {struct items} : outcome (heap * Z * bool) :=
          match items with
          | [] => Ok st
          | i :: items => st ← TaverseItem i nPid st; loop nPid st items
          end in
        r ← loop (nDataNum + ID_VALUE_IE9_BEGIN) (h, nDataNum + 1, false) items;
        Ok (fst r, freed)
    end
  else if negb (bool_decide (szTypeName info ∈ shortcut_types)) then Ok st
  else
    match shortcut info with
    | Url lpszURL =>
        h ← ie_store nDataNum (ie_page_record info lpszURL nPid nDataNum) h;
        Ok (h, nDataNum + 1, true)
    | Unresolved => if freed then Fault Dangling else Ok st
    end.

Fixpoint taverse_loop (nPid : Z) (st : heap * Z * bool) (items : list shell_item) : outcome (heap * Z * bool) :=
  match items with
  | [] => Ok st
  | i :: items => st ← TaverseItem i nPid st; taverse_loop nPid st items
  end.

Definition TaverseFavoriteFolder (pFolder : option (list shell_item)) (nPid : Z) (h : heap) (nDataNum : Z) :
    outcome (heap * Z) :=
  items ← deref pFolder;
  r ← taverse_loop nPid (h, nDataNum, false) items;
  Ok (fst r).
End Traverse.

(** [FALSE] is 0, and the error of the desktop folder is returned as the number. *)
Definition GetFavoriteCount (shell : Shell) (h : heap) : outcome Z :=
  if negb (SHGetMalloc shell) then Ok 0
  else if negb (SHGetSpecialFolderLocation shell) then Ok 0
  else if SHGetDesktopFolder shell <? 0 then Ok (SHGetDesktopFolder shell)
  else r ← TaverseFavoriteFolder [] true (pFavFolder shell) 0 h 0; Ok (snd r).

(** The result is a [BOOL], any number but 0 being true. *)
Definition ExportFavoriteData (shell : Shell) (ppData : fav_vector) (nDataNum : Z) (h : heap) :
    outcome (Z * Z * heap) :=
  if negb (SHGetMalloc shell) then Ok (0, nDataNum, h)
  else if negb (SHGetSpecialFolderLocation shell) then Ok (0, nDataNum, h)
  else if SHGetDesktopFolder shell <? 0 then Ok (SHGetDesktopFolder shell, nDataNum, h)
  else r ← TaverseFavoriteFolder ppData false (pFavFolder shell) 0 h 0; Ok (1, snd r, fst r).
End Reading.

(** ** Writing *)

Section Writing.
Context {F : Type} `{FileSystem F}.
Context (home : wstring) (h : heap) (ppData : fav_vector).

(** [ppData[i]->] *)
Definition record_at (i : Z) : outcome FavoriteLineData := p ← vec_at ppData i; load_ptr h p.

(** The titles from a record up to its root. *)
Fixpoint node_titles (fuel : nat) (nCurrNodeIndex : Z) (vecNodeTitle : list wstring) : outcome (list wstring) :=
  match fuel with
  | O => Fault NoFuel
  | S fuel =>
      d ← record_at nCurrNodeIndex;
      if nPid d =? 0 then Ok (vecNodeTitle ++ [szTitle d])
      else node_titles fuel (nPid d - 1) (vecNodeTitle ++ [szTitle d])
  end.

Definition GetNodeAbsolutePath (fuel : nat) (nIndex : Z) : outcome wstring :=
  vecNodeTitle ← node_titles fuel nIndex [];
  Ok (fold_left (fun strNodePath t => strNodePath ++ [bsl] ++ t) (rev vecNodeTitle) (GetFavoriteDataPath home)).

(** The characters taken out of the name of a file, one after the other. *)
Definition bad_chars : list Z := [58; 92; 47; 42; 63; 60; 62; 124].

Definition clean_name (strFileName : wstring) : outcome wstring :=
  for_each (fun s c => XString_Replace (S (List.length s)) s [c] []) strFileName bad_chars.

(** [wcscpy_s(szFileDir, MAX_LENGTH - 1, ...)] is [wcscpy_s]; [swprintf_s] of
    [MAX_LENGTH] characters has room for one less. *)
Definition url_file (pszCurrNodePath : wstring) : outcome wstring :=
  let s := pszCurrNodePath ++ lit ".url" in
  if Z.of_nat (List.length s) <? MAX_LENGTH then Ok s else Fault Aborted.

Definition import_page (pszCurrNodePath szUrl : wstring) (fs : F) : outcome F :=
  szFileDir ← wcscpy_s pszCurrNodePath;
  r ← CreateMultipleDirectory (PathRemoveFileSpec szFileDir) fs;
  szCurrFileName ← url_file pszCurrNodePath;
  path ← CFilePath_new szCurrFileName;
  strFileName ← clean_name (m_strFileName path);
  Ok (snd (WritePrivateProfileStringW (lit "InternetShortcut") (lit "URL") szUrl
             (m_strFilePath path ++ strFileName) (snd r))).

(** The loop over the records: an error code ends it, and [nDataNum] is set
    behind it. *)
Fixpoint import_loop (fuel : nat) (nDataNum nRealNum : Z) (idx : list Z) (fs : F) : outcome (Z * Z * F) :=
  match idx with
  | [] => Ok (ERROR_OK, nRealNum, fs)
  | i :: idx =>
      p ← vec_at ppData i;
      match p with
      | None => import_loop fuel nDataNum nRealNum idx fs
      | Some l =>
          d ← load h l;
          if bDelete d then import_loop fuel nDataNum nRealNum idx fs
          else
            pszCurrNodePath ← GetNodeAbsolutePath fuel i;
            if bFolder d then
              let '(nRet, fs) := SHCreateDirectory pszCurrNodePath fs in
              if negb (nRet =? ERROR_SUCCESS) && negb (nRet =? ERROR_ALREADY_EXISTS)
              then Ok (ERROR_CREATE_FAVORITE_FOLD, nDataNum, fs)
              else import_loop fuel nDataNum (nRealNum + 1) idx fs
            else
              fs ← import_page pszCurrNodePath (szUrl d) fs;
              import_loop fuel nDataNum (nRealNum + 1) idx fs
      end
  end.

(** The preparation: everything below the favorites goes, and their directory is
    made again. *)
Definition clear_favorites (fuel : nat) (fs : F) : outcome F :=
  let pszFavDir := GetFavoriteDataPath home in
  r ← ForceRemoveDir fuel pszFavDir fs;
  if negb (IsDirExist pszFavDir (snd r)) then
    r ← CreateMultipleDirectory pszFavDir (snd r); Ok (snd r)
  else Ok (snd r).

End Writing.

Definition ImportFavoriteData {F : Type} `{FileSystem F} (home : wstring) (h : heap) (fuel : nat)
    (ppData : option fav_vector) (nDataNum : Z) (fs : F) : outcome (Z * Z * F) :=
  match ppData with
  | None => Ok (ERROR_INVALID_PARAM, nDataNum, fs)
  | Some ppData =>
      if nDataNum =? 0 then Ok (ERROR_INVALID_PARAM, nDataNum, fs)
      else
        fs ← clear_favorites home fuel fs;
        import_loop home h ppData fuel nDataNum 0 (seqZ 0 nDataNum) fs
  end.
