(* ===== verification/IEExport.v ===== *)
(** * Internet Explorer: what an export contains

    The specification of the export of IEPlugIn: the items of the shell that are
    folders or shortcuts, in preorder, numbered consecutively, each below a folder
    that precedes it.  [GetFavoriteCount] announces exactly the records that the
    export fills. *)
From stdpp Require Import prelude gmap strings.
From Stdlib Require Import ZArith Lia String.
From S2P Require Import Prelude Strings Favorites DataCenter PlugInModule TimeHelper CrcHash Chrome ChromeExport IEPlugIn.

(** ** Items *)

Section shell_item_ind.
Context (P : shell_item -> Prop).
Context (Pnone : forall info, P (Item info None)).
Context (Psome : forall info items, Forall P items -> P (Item info (Some items))).

Fixpoint shell_item_ind (i : shell_item) : P i :=
  match i with
  | Item info None => Pnone info
  | Item info (Some items) =>
      Psome info items ((fix go (l : list shell_item) : Forall P l :=
                           match l with
                           | [] => Forall_nil_2 _
                           | k :: l => Forall_cons_2 _ _ _ (shell_item_ind k) (go l)
                           end) items)
  end.
End shell_item_ind.

(** What the plug-in takes an item for. *)
Inductive item_kind := KOther | KFolder (items : list shell_item) | KPage (url : wstring) | KBroken.

Definition kind_of (i : shell_item) : item_kind :=
  let 'Item info sub := i in
  if bool_decide (szTypeName info = []) then KOther
  else if sfgao_folder info && negb (bool_decide (szTypeName info = channel_type)) then
    match sub with Some items => KFolder items | None => KOther end
  else if bool_decide (szTypeName info ∈ shortcut_types) then
    match shortcut info with Url u => KPage u | Unresolved => KBroken end
  else KOther.

(** Items in whose folder no broken shortcut follows a page. *)
Fixpoint item_ok (i : shell_item) : bool :=
  let list_ok := fix list_ok (freed : bool) (l : list shell_item) {struct l} : bool :=
    match l with
    | [] => true
    | i :: l => item_ok i && match kind_of i with
                             | KBroken => negb freed && list_ok freed l
                             | KPage _ => list_ok true l
                             | _ => list_ok freed l
                             end
    end in
  let 'Item info sub := i in
  match sub with Some items => list_ok false items | None => true end.

Fixpoint items_ok (freed : bool) (l : list shell_item) : bool :=
  match l with
  | [] => true
  | i :: l => item_ok i && match kind_of i with
                           | KBroken => negb freed && items_ok freed l
                           | KPage _ => items_ok true l
                           | _ => items_ok freed l
                           end
  end.

Lemma item_ok_sub info items : item_ok (Item info (Some items)) = items_ok false items.
Proof.
  cbn [item_ok]. generalize false. induction items as [|i items IH]; intros b; [done|]. cbn [items_ok].
  by f_equal.
Qed.

(** ** The listing *)

Record ie_entry := mkIeEntry { ie_info : item_info; ie_folder : bool; ie_url : wstring; ie_pid : Z }.

Fixpoint ie_listing (pid next : Z) (i : shell_item) : list ie_entry :=
  let listings := fix go (pid next : Z) (l : list shell_item) {struct l} : list ie_entry :=
    match l with
    | [] => []
    | i :: l => let es := ie_listing pid next i in es ++ go pid (next + Z.of_nat (List.length es)) l
    end in
  let 'Item info sub := i in
  match kind_of i, sub with
  | KFolder _, Some items =>
      mkIeEntry info true [] pid :: listings (next + ID_VALUE_IE9_BEGIN) (next + 1) items
  | KPage url, _ => [mkIeEntry info false url pid]
  | _, _ => []
  end.

Fixpoint ie_listings (pid next : Z) (l : list shell_item) : list ie_entry :=
  match l with
  | [] => []
  | i :: l => let es := ie_listing pid next i in es ++ ie_listings pid (next + Z.of_nat (List.length es)) l
  end.

Lemma ie_listing_folder pid next info items items' : kind_of (Item info (Some items)) = KFolder items' ->
  ie_listing pid next (Item info (Some items)) =
  mkIeEntry info true [] pid :: ie_listings (next + ID_VALUE_IE9_BEGIN) (next + 1) items.
Proof.
  intros Hk. cbn [ie_listing]. rewrite Hk. by f_equal.
Qed.

(** Every entry is below the folder of the call or below a folder in front of it. *)
Definition ie_parents (pid next : Z) (es : list ie_entry) : Prop :=
  forall k e, es !! k = Some e -> ie_pid e = pid \/
    exists j e', (j < k)%nat /\ es !! j = Some e' /\ ie_folder e' = true /\
                 ie_pid e = next + Z.of_nat j + ID_VALUE_IE9_BEGIN.

Lemma ie_parents_app pid next es1 es2 :
  ie_parents pid next es1 -> ie_parents pid (next + Z.of_nat (List.length es1)) es2 -> ie_parents pid next (es1 ++ es2).
Proof.
  intros H1 H2 k e Hk. apply lookup_app_Some in Hk as [Hk|[Hlen Hk]].
  - destruct (H1 k e Hk) as [|(j & e' & Hj & Hj' & ?)]; [by left|]. right. exists j, e'.
    split; [done|]. split; [by apply lookup_app_l_Some|done].
  - destruct (H2 _ e Hk) as [|(j & e' & Hj & Hj' & ? & ->)]; [by left|]. right. exists (List.length es1 + j)%nat, e'.
    split; [lia|]. split; [rewrite lookup_app_r by lia; by replace (_ + j - _)%nat with j by lia|]. split; [done|]. lia.
Qed.

Lemma ie_listing_parents i : forall pid next, ie_parents pid next (ie_listing pid next i).
Proof.
  assert (Hl : forall l, Forall (fun i => forall pid next, ie_parents pid next (ie_listing pid next i)) l ->
            forall pid next, ie_parents pid next (ie_listings pid next l)).
  { induction 1 as [|x l Hx _ IH]; intros pid next; [by intros k e Hk|]. cbn [ie_listings]. by apply ie_parents_app. }
  assert (Hone : forall pid next e, ie_pid e = pid -> ie_parents pid next [e]).
  { intros pid next e He [|k] e' Hk; [|done]. injection Hk as <-. by left. }
  induction i as [info|info items IH] using shell_item_ind; intros pid next.
  - cbn [ie_listing]. destruct (kind_of (Item info None)); try (by intros k e Hk). by apply Hone.
  - destruct (kind_of (Item info (Some items))) as [|items'|url|] eqn:Hk.
    + cbn [ie_listing]. rewrite Hk. by intros k e He.
    + rewrite (ie_listing_folder _ _ _ _ items') by done. intros [|k] e He; [injection He as <-; by left|].
      right. destruct (Hl items IH (next + ID_VALUE_IE9_BEGIN) (next + 1) k e He) as [E|(j & e' & Hj & Hj' & Hf & E)].
      * exists 0%nat. eexists. split; [lia|]. split; [done|]. split; [done|]. rewrite E. lia.
      * exists (S j), e'. split; [lia|]. split; [done|]. split; [done|]. rewrite E. lia.
    + cbn [ie_listing]. rewrite Hk. by apply Hone.
    + cbn [ie_listing]. rewrite Hk. by intros k e He.
Qed.

Lemma ie_listings_parents l pid next : ie_parents pid next (ie_listings pid next l).
Proof.
  revert next. induction l as [|i l IH]; intros next; [by intros k e Hk|]. cbn [ie_listings].
  apply ie_parents_app; [apply ie_listing_parents|apply IH].
Qed.

(** ** Filling records *)

Section Fill.
Context (mktime : tm -> Z) (ppData : fav_vector) (nRoom : Z).

(** The record of entry number [n]; [d] is what the record held before. *)
Definition ie_record (e : ie_entry) (n : Z) (d : FavoriteLineData) : FavoriteLineData :=
  mkFavorite (n + ID_VALUE_IE9_BEGIN) (lpszName (ie_info e)) (ie_pid e) (ie_folder e) (ie_url e)
    (tCreateTime (file_times mktime (ie_info e))) (tLastWriteTime (file_times mktime (ie_info e)))
    (nClickTimes d) (title_hash (lpszName (ie_info e)) (nHashId d)) (nOrder d) false.

Definition ie_put (n : Z) (e : ie_entry) (h : heap) : heap :=
  match ppData !! Z.to_nat n with
  | Some (Some l) => alter (ie_record e n) l h
  | _ => h
  end.

Fixpoint ie_fill (n : Z) (es : list ie_entry) (h : heap) : heap :=
  match es with
  | [] => h
  | e :: es => ie_fill (n + 1) es (ie_put n e h)
  end.

Lemma ie_fill_app n es1 es2 h :
  ie_fill n (es1 ++ es2) h = ie_fill (n + Z.of_nat (List.length es1)) es2 (ie_fill n es1 h).
Proof.
  revert n h. induction es1 as [|e es1 IH]; intros n h; cbn [ie_fill app].
  - f_equal. simpl. lia.
  - rewrite IH. f_equal. cbn [List.length]. lia.
Qed.

Lemma ie_put_room n e h : room ppData nRoom h -> room ppData nRoom (ie_put n e h).
Proof.
  intros H i Hi. destruct (H i Hi) as (l & Hl & Hh). exists l. split; [done|]. unfold ie_put.
  destruct (ppData !! Z.to_nat n) as [[l'|]|]; [|done..]. by apply lookup_alter_is_Some.
Qed.

Lemma ie_fill_room n es h : room ppData nRoom h -> room ppData nRoom (ie_fill n es h).
Proof. revert n h. induction es as [|e es IH]; intros n h H; [done|]. cbn [ie_fill]. by apply IH, ie_put_room. Qed.

Lemma ie_store_put n f e h : 0 <= n < nRoom -> room ppData nRoom h -> (forall d, f d = Ok (ie_record e n d)) ->
  store ppData n f h = Ok (ie_put n e h).
Proof.
  intros Hn Hr Hf. destruct (Hr n Hn) as (l & Hl & [d Hd]). unfold store, ie_put.
  rewrite (proj2 (vec_at_Ok ppData n (Some l))) by (split; [lia|done]). cbn [mbind outcome_bind deref].
  rewrite Hl. unfold load. rewrite Hd. cbn [mbind outcome_bind]. rewrite Hf. cbn [mbind outcome_bind].
  f_equal. apply map_eq. intros k. destruct (decide (k = l)) as [->|Hne].
  - by rewrite lookup_insert_eq, lookup_alter_eq, Hd.
  - by rewrite lookup_insert_ne, lookup_alter_ne.
Qed.

(** Texts that fit a record. *)
Definition ie_fits (s : wstring) : Prop := Z.of_nat (List.length s) < MAX_LENGTH - 1.

Definition ie_small (e : ie_entry) : Prop := ie_fits (lpszName (ie_info e)) /\ ie_fits (ie_url e).

Lemma copy_ok s : ie_fits s -> wcscpy_s s = Ok s.
Proof. intros H. unfold wcscpy_s. by rewrite (proj2 (Z.ltb_lt _ _) H). Qed.

(** The traversal of entries [es] from number [n]. *)
Definition ie_result (bStat : bool) (n : Z) (es : list ie_entry) (h : heap) : heap * Z :=
  (if bStat then h else ie_fill n es h, n + Z.of_nat (List.length es)).

(** What the entries need: a number of records, and texts that fit. *)
Definition ie_ready (bStat : bool) (n : Z) (es : list ie_entry) (h : heap) : Prop :=
  0 <= n /\ (bStat = false -> n + Z.of_nat (List.length es) <= nRoom /\ Forall ie_small es /\ room ppData nRoom h).

Lemma ie_ready_app bStat n es1 es2 h : ie_ready bStat n (es1 ++ es2) h ->
  ie_ready bStat n es1 h /\ ie_ready bStat (n + Z.of_nat (List.length es1)) es2 (fst (ie_result bStat n es1 h)).
Proof.
  intros [Hn H]. rewrite List.length_app, Forall_app in H. split; (split; [lia|]); intros E; destruct (H E) as (Hlen & Hs & Hr).
  - split; [lia|]. naive_solver.
  - split; [lia|]. split; [naive_solver|]. unfold ie_result. rewrite E. by apply ie_fill_room.
Qed.

Lemma ie_result_app bStat n es1 es2 h :
  ie_result bStat n (es1 ++ es2) h =
  ie_result bStat (n + Z.of_nat (List.length es1)) es2 (fst (ie_result bStat n es1 h)).
Proof. unfold ie_result. rewrite List.length_app. cbn [fst]. destruct bStat; [|rewrite ie_fill_app]; f_equal; lia. Qed.

Lemma ie_store_ready bStat n e es f h : ie_ready bStat n (e :: es) h ->
  (ie_small e -> forall d, f d = Ok (ie_record e n d)) ->
  ie_store ppData bStat n f h = Ok (fst (ie_result bStat n [e] h)) /\
  ie_ready bStat (n + 1) es (fst (ie_result bStat n [e] h)).
Proof.
  intros Hready Hf. split; [|by apply (ie_ready_app bStat n [e] es h)]. destruct Hready as [Hn H].
  unfold ie_store, ie_result. destruct bStat; [done|]. destruct (H eq_refl) as (Hlen & Hs & Hr).
  apply Forall_cons in Hs as [He _]. cbn [List.length] in Hlen.
  by rewrite (ie_store_put n f e h) by (try done; auto; lia).
Qed.

Lemma ie_result_nil bStat n h : ie_result bStat n [] h = (h, n).
Proof. unfold ie_result. cbn [List.length ie_fill]. rewrite Z.add_0_r. by destruct bStat. Qed.

(** What one item does, for any kind of item. *)
Definition traversed (bStat : bool) (i : shell_item) : Prop := forall pid n h freed,
  (freed = true -> kind_of i <> KBroken) -> ie_ready bStat n (ie_listing pid n i) h ->
  TaverseItem mktime ppData bStat i pid (h, n, freed) =
  Ok (ie_result bStat n (ie_listing pid n i) h, match kind_of i with KPage _ => true | _ => freed end).

Lemma leaf_listing pid n info sub : (forall items, kind_of (Item info sub) <> KFolder items) ->
  ie_listing pid n (Item info sub) =
  match kind_of (Item info sub) with KPage u => [mkIeEntry info false u pid] | _ => [] end.
Proof. intros Hk. cbn [ie_listing]. by destruct (kind_of (Item info sub)) as [|items| |]; [|destruct (Hk items)|..]. Qed.

Lemma leaf_step bStat info sub pid h n freed : (forall items, kind_of (Item info sub) <> KFolder items) ->
  TaverseItem mktime ppData bStat (Item info sub) pid (h, n, freed) =
  match kind_of (Item info sub) with
  | KPage u => h ← ie_store ppData bStat n (ie_page_record mktime info u pid n) h; Ok (h, n + 1, true)
  | KBroken => if freed then Fault Dangling else Ok (h, n, freed)
  | _ => Ok (h, n, freed)
  end.
Proof.
  intros Hk. cbn [TaverseItem]. cbn [kind_of] in *. destruct (bool_decide (szTypeName info = [])); [done|].
  destruct (sfgao_folder info && _); [destruct sub as [items|]; [by destruct (Hk items)|done]|].
  destruct (bool_decide (szTypeName info ∈ shortcut_types)); [|done]. by destruct (shortcut info).
Qed.

Lemma traversed_leaf bStat info sub : (forall items, kind_of (Item info sub) <> KFolder items) ->
  traversed bStat (Item info sub).
Proof.
  intros Hk pid n h freed. rewrite leaf_listing, leaf_step by done.
  destruct (kind_of (Item info sub)) as [|items|u|]; [by rewrite ie_result_nil|by destruct (Hk items)|..].
  - intros _ Hready.
    destruct (ie_store_ready bStat n _ [] (ie_page_record mktime info u pid n) h Hready) as [-> _]; [|done].
    intros [Hs1 Hs2] d. unfold ie_page_record. rewrite !copy_ok by done. rewrite !Ok_bind, hash_title_ok. done.
  - intros Hb _. rewrite ie_result_nil. destruct freed; [by destruct Hb|done].
Qed.

Lemma taverse_loop_spec bStat l : Forall (fun i => item_ok i = true -> traversed bStat i) l ->
  forall pid n h freed, items_ok freed l = true -> ie_ready bStat n (ie_listings pid n l) h ->
  exists b, taverse_loop mktime ppData bStat pid (h, n, freed) l = Ok (ie_result bStat n (ie_listings pid n l) h, b).
Proof.
  induction 1 as [|x l Hx _ IH]; intros pid n h freed Hok Hready; cbn [taverse_loop ie_listings].
  { rewrite ie_result_nil. by eexists. }
  cbn [items_ok] in Hok. apply andb_prop in Hok as [Hok1 Hok2]. cbn [ie_listings] in Hready.
  apply ie_ready_app in Hready as [Hr1 Hr2].
  rewrite (Hx Hok1); [|by intros -> Hb; rewrite Hb in Hok2|done].
  rewrite Ok_bind, ie_result_app. unfold ie_result at 1. apply IH; [|done].
  by destruct (kind_of x); [..|apply andb_prop in Hok2 as [_ ?]].
Qed.

Lemma kind_folder info sub items : kind_of (Item info sub) = KFolder items ->
  sub = Some items /\ bool_decide (szTypeName info = []) = false /\
  sfgao_folder info && negb (bool_decide (szTypeName info = channel_type)) = true.
Proof.
  cbn [kind_of]. destruct (bool_decide (szTypeName info = [])); [done|].
  destruct (sfgao_folder info && _); [destruct sub; naive_solver|].
  destruct (bool_decide (_ ∈ _)); [|done]. by destruct (shortcut info).
Qed.

Lemma TaverseItem_spec bStat i : item_ok i = true -> traversed bStat i.
Proof.
  induction i as [info|info items IH] using shell_item_ind; intros Hok.
  { apply traversed_leaf. intros items Hk. by apply kind_folder in Hk as [? _]. }
  destruct (kind_of (Item info (Some items))) as [|items'|u|] eqn:Hk; try (apply traversed_leaf; by rewrite Hk).
  destruct (kind_folder _ _ _ Hk) as ([= <-] & Hc1 & Hc2). intros pid n h freed _ Hready. rewrite Hk.
  rewrite (ie_listing_folder _ _ _ _ items) in Hready |- * by done. cbn [TaverseItem]. rewrite Hc1, Hc2.
  destruct (ie_store_ready bStat n _ _ (ie_folder_record mktime info pid n) h Hready) as [-> Hr2].
  { intros [Hs1 _] d. unfold ie_folder_record. rewrite !copy_ok by done. rewrite !Ok_bind, hash_title_ok. done. }
  rewrite Ok_bind. rewrite item_ok_sub in Hok.
  destruct (taverse_loop_spec bStat items IH (n + ID_VALUE_IE9_BEGIN) (n + 1) _ false Hok Hr2) as [b Hl].
  unfold taverse_loop in Hl. rewrite Hl, Ok_bind. cbn [fst].
  f_equal. f_equal. symmetry. apply (ie_result_app bStat n [mkIeEntry info true [] pid]).
Qed.
End Fill.

(** ** The export *)

(** The shell gives a way to the items of the favorites. *)
Definition shell_of (items : list shell_item) (shell : Shell) : Prop :=
  SHGetMalloc shell = true /\ SHGetSpecialFolderLocation shell = true /\ 0 <= SHGetDesktopFolder shell /\
  pFavFolder shell = Some items.

Lemma traverse_all mktime ppData nRoom bStat items pid h : items_ok false items = true ->
  ie_ready ppData nRoom bStat 0 (ie_listings pid 0 items) h ->
  TaverseFavoriteFolder mktime ppData bStat (Some items) pid h 0 =
  Ok (ie_result mktime ppData bStat 0 (ie_listings pid 0 items) h).
Proof.
  intros Hok Hready. unfold TaverseFavoriteFolder. cbn [deref]. rewrite Ok_bind.
  assert (HF : Forall (fun i => item_ok i = true -> traversed mktime ppData nRoom bStat i) items).
  { apply Forall_forall. intros i _. apply TaverseItem_spec. }
  destruct (taverse_loop_spec mktime ppData nRoom bStat items HF pid 0 h false Hok Hready) as [b ->].
  done.
Qed.

(** C26: When in every folder no shortcut that cannot be resolved follows a page (there
    the code uses a freed pointer: IEPlugIn.cpp, line 582), [GetFavoriteCount] gives the
    number of folders and pages of Internet Explorer, and [ExportFavoriteData] with that
    many records fills each of them, in preorder, with consecutive ids, every record below
    the root or below a folder exported before it. Names and addresses fit the arrays of a
    record. *)
Theorem ie_export_exact mktime shell items ppData h :
  shell_of items shell -> items_ok false items = true ->
  let es := ie_listings 0 0 items in
  let n := Z.of_nat (List.length es) in
  Forall ie_small es -> room ppData n h ->
  GetFavoriteCount mktime shell h = Ok n /\
  ExportFavoriteData mktime shell ppData n h = Ok (1, n, ie_fill mktime ppData 0 es h) /\
  ie_parents 0 0 es.
Proof.
  intros (Hm & Hl & Hd & Hf) Hok es n Hs Hr. unfold GetFavoriteCount, ExportFavoriteData.
  rewrite Hm, Hl, Hf, (proj2 (Z.ltb_ge _ _)) by done. cbn [negb].
  rewrite (traverse_all mktime [] n true) by first [done|split; [lia|done]].
  rewrite (traverse_all mktime ppData n false) by first [done|split; [lia|by intros _; split; [lia|]]].
  split; [done|]. split; [done|]. apply ie_listings_parents.
Qed.

(** A shortcut that cannot be resolved behind a page of the same folder: the
    pointer of the page is used and freed again. *)
Lemma broken_shortcut_dangling mktime bStat ppData nRoom pid h n info1 info2 u :
  kind_of (Item info1 None) = KPage u -> kind_of (Item info2 None) = KBroken ->
  ie_ready ppData nRoom bStat n (ie_listing pid n (Item info1 None)) h ->
  taverse_loop mktime ppData bStat pid (h, n, false) [Item info1 None; Item info2 None] = Fault Dangling.
Proof.
  intros H1 H2 Hready. cbn [taverse_loop].
  rewrite (traversed_leaf mktime ppData nRoom bStat info1 None) by (try done; by rewrite H1). rewrite Ok_bind, H1.
  unfold ie_result. by rewrite leaf_step, H2 by by rewrite H2.
Qed.
