(* ===== verification/IEImport.v ===== *)
(** * Internet Explorer: what an import writes

    Records whose chains of parents end give paths below the favorites: a folder
    is a directory, a page a file with the ending .url that holds its address.
    The import removes what was there and writes exactly these. *)
From stdpp Require Import prelude gmap strings.
From Stdlib Require Import ZArith Lia String.
From S2P Require Import Prelude Strings Favorites DataCenter PlugInModule FilePath FileSystem PathHelper PathWalk PathRemove.
From S2P Require Import Chrome ChromeImport IEPlugIn.

(** ** Names *)

(** A name without the characters that are taken out. *)
Definition clean (s : wstring) : wstring := List.filter (fun x => forallb (fun c => negb (x =? c)) bad_chars) s.

Lemma filter_filter {A} (f g : A -> bool) l : List.filter f (List.filter g l) = List.filter (fun x => g x && f x) l.
Proof. induction l as [|x l IH]; [done|]. simpl. destruct (g x); simpl; [destruct (f x); simpl; congruence|done]. Qed.

Lemma filter_all_true {A} (l : list A) : List.filter (fun _ => true) l = l.
Proof. induction l as [|x l IH]; [done|]. simpl. congruence. Qed.

Lemma clean_name_spec s : clean_name s = Ok (clean s).
Proof.
  unfold clean_name, clean. generalize bad_chars. intros cs. revert s.
  induction cs as [|c cs IH]; intros s; cbn [for_each forallb]; [by rewrite filter_all_true|].
  rewrite XString_Replace_remove by lia. rewrite Ok_bind, IH. by rewrite filter_filter.
Qed.

Lemma clean_url t : clean (t ++ lit ".url") = clean t ++ lit ".url".
Proof. unfold clean. by rewrite List.filter_app. Qed.

(** A component of a path in any case. *)
Definition plain (n : wstring) : Prop := n <> [] /\ (bsl ∉ n) /\ (slash ∉ n).

Lemma collapse_plain n r : (bsl ∉ n) -> collapse (n ++ r) = n ++ collapse r.
Proof.
  induction n as [|c n IH]; intros Hn; [done|]. apply not_elem_of_cons in Hn as [Hc Hn].
  change (collapse ((c :: n) ++ r)) with (bsl_cons c (collapse (n ++ r))). rewrite IH by done. unfold bsl_cons.
  rewrite (proj2 (Z.eqb_neq c bsl)) by congruence. cbn [app andb].
  by destruct (n ++ collapse r).
Qed.

Lemma clean_path_str l : Forall plain l -> clean_path (path_str l) = path_str l.
Proof.
  intros Hl. unfold clean_path. rewrite map_to_bsl_id.
  - induction Hl as [|n l (Hne & Hb & _) Hl IH]; [done|]. destruct l as [|m l].
    { change (path_str [n]) with n. rewrite <- (app_nil_r n) at 1. rewrite collapse_plain by done. simpl. by rewrite app_nil_r. }
    unfold path_str in *. rewrite join_cons, collapse_plain by done. f_equal.
    change (collapse (bsl :: ?r)) with (bsl_cons bsl (collapse r)). rewrite IH.
    apply Forall_cons in Hl as [(Hm & Hmb & _) _]. destruct m as [|c m]; [done|].
    apply not_elem_of_cons in Hmb as [Hc _]. unfold bsl_cons.
    destruct l; simpl; rewrite (proj2 (Z.eqb_neq c bsl)) by congruence; done.
  - induction Hl as [|n l (Hne & _ & Hs) Hl IH]; [apply not_elem_of_nil|]. destruct l as [|m l]; [done|].
    unfold path_str in *. rewrite join_cons by done. rewrite not_elem_of_app, not_elem_of_cons. done.
Qed.

(** The text behind the last separator. *)
Lemma last_cut (a b n m : wstring) : (a = [] \/ exists a', a = a' ++ [bsl]) -> (bsl ∉ n) -> (bsl ∉ m) ->
  a ++ n = b ++ [bsl] ++ m -> a = b ++ [bsl] /\ n = m.
Proof.
  intros [->|[a' ->]] Hn Hm E.
  - exfalso. apply Hn. simpl in E. rewrite E, !elem_of_app. set_solver.
  - apply (f_equal (@rev Z)) in E. rewrite <- !app_assoc, !rev_app_distr in E. simpl in E.
    rewrite <- !app_assoc in E. simpl in E. apply app_sep_inj in E as [E1 E2].
    + apply (f_equal (@rev Z)) in E1, E2. rewrite !rev_involutive in *. by subst.
    + by rewrite list_elem_of_In, <- in_rev, <- list_elem_of_In.
    + by rewrite list_elem_of_In, <- in_rev, <- list_elem_of_In.
Qed.

(** ** Paths of records *)

Section Titles.
Context (h : heap) (ppData : fav_vector).

(** The titles from the root down to a record. *)
Inductive chain : Z -> list wstring -> Prop :=
| chain_root i d : record_at h ppData i = Ok d -> nPid d = 0 -> chain i [szTitle d]
| chain_sub i d ts : record_at h ppData i = Ok d -> nPid d <> 0 -> chain (nPid d - 1) ts -> chain i (ts ++ [szTitle d]).

Lemma node_titles_spec i ts : chain i ts -> forall fuel acc, (List.length ts <= fuel)%nat ->
  node_titles h ppData fuel i acc = Ok (acc ++ rev ts).
Proof.
  induction 1 as [i d Hd Hp|i d ts Hd Hp _ IH]; intros [|fuel] acc Hf.
  - simpl in Hf. lia.
  - cbn [node_titles]. rewrite Hd, Ok_bind, Hp. done.
  - rewrite List.length_app in Hf. simpl in Hf. lia.
  - cbn [node_titles]. rewrite Hd, Ok_bind, (proj2 (Z.eqb_neq _ _)) by done.
    rewrite List.length_app in Hf. simpl in Hf. rewrite IH by lia. rewrite rev_app_distr, <- app_assoc. done.
Qed.

Lemma path_fold fav ts : fav <> [] ->
  fold_left (fun p t => p ++ [bsl] ++ t) ts (path_str fav) = path_str (fav ++ ts).
Proof.
  revert fav. induction ts as [|t ts IH]; intros fav Hf; cbn [fold_left]; [by rewrite app_nil_r|].
  rewrite <- path_str_snoc by done. rewrite IH by (by destruct fav). by rewrite <- app_assoc.
Qed.

Lemma GetNodeAbsolutePath_spec home fav i ts fuel : GetFavoriteDataPath home = path_str fav -> fav <> [] ->
  chain i ts -> (List.length ts <= fuel)%nat ->
  GetNodeAbsolutePath home h ppData fuel i = Ok (path_str (fav ++ ts)).
Proof.
  intros Hh Hf Hc Hfuel. unfold GetNodeAbsolutePath. rewrite (node_titles_spec i ts) by done.
  rewrite Ok_bind, app_nil_l, rev_involutive, Hh, path_fold by done. done.
Qed.
End Titles.

(** ** One page *)

Section Page.
Context {F : Type} `{FileSystemLaws F}.
Implicit Types (fs : F) (l : path).

Abbreviation place l := (map upcase l).

(** The name of the file of a page. *)
Definition page_name (t : wstring) : wstring := clean t ++ lit ".url".

(** A title that gives a file in the directory: it has no separator. *)
Definition page_title (t : wstring) : Prop :=
  t <> [] /\ Forall (fun c => c ∉ [bsl; slash; 58]) t /\ legal (page_name t).

(** A directory in which favorites are. *)
Record fav_dir (d : wstring) (names : path) : Prop := {
  fd_drive : drive d;
  fd_names : names <> [];
  fd_legal : Forall legal names
}.

Lemma fav_dir_plain d names : fav_dir d names -> Forall plain (d :: names).
Proof.
  intros [Hd _ Hl]. constructor; [by apply drive_name|]. eapply Forall_impl; [done|]. intros n Hn%legal_name.
  destruct Hn as (? & ? & ? & _). done.
Qed.

Lemma page_title_plain t : page_title t -> (bsl ∉ t) /\ (slash ∉ t).
Proof. intros (_ & Hc & _). rewrite Forall_forall in Hc. split; intros Hin; apply (Hc _ Hin); set_solver. Qed.

Lemma page_file d names t : fav_dir d names -> page_title t -> short (d :: names ++ [t]) ->
  exists path, CFilePath_new (path_str (d :: names ++ [t]) ++ lit ".url") = Ok path /\
    m_strFilePath path = path_str (d :: names) ++ [bsl] /\ m_strFileName path = t ++ lit ".url".
Proof.
  intros Hd Ht Hs. destruct (page_title_plain t Ht) as [Hb Hsl].
  assert (E : path_str (d :: names ++ [t]) ++ lit ".url" = path_str (d :: names ++ [t ++ lit ".url"])).
  { change (d :: names ++ [?n]) with ((d :: names) ++ [n]). rewrite !path_str_snoc by done. by rewrite <- !app_assoc. }
  assert (Hp : Forall plain (d :: names ++ [t ++ lit ".url"])).
  { change (d :: names ++ [?n]) with ((d :: names) ++ [n]). apply Forall_app. split; [by apply fav_dir_plain|].
    constructor; [|done]. split; [by destruct t|]. rewrite !not_elem_of_app. split; (split; [done|]); vm_compute; set_solver. }
  destruct (CFilePath_spec (path_str (d :: names ++ [t]) ++ lit ".url")) as (fp & Hfp & Hcut & Hname & Hdir & _).
  { rewrite E, clean_path_str by done. rewrite <- E, List.length_app. unfold short in Hs. simpl in *. lia. }
  exists fp. split; [done|]. rewrite E, clean_path_str in Hcut by done.
  change (d :: names ++ [t ++ lit ".url"]) with ((d :: names) ++ [t ++ lit ".url"]) in Hcut.
  rewrite path_str_snoc in Hcut by done. apply last_cut in Hcut; [done|done|done|].
  rewrite not_elem_of_app. split; [done|]. vm_compute. set_solver.
Qed.

(** The tree with the directories of [p] and the file [f] in the last of them. *)
Definition has_page fs (p : path) (n : wstring) (url : wstring) fs' : Prop :=
  (forall q, free fs q -> free fs' q) /\ (forall q, q <> [] -> q `prefix_of` p -> free fs' q) /\
  exists c, (storable url -> profile c (lit "InternetShortcut") (lit "URL") = Some url) /\
    forall q, entries fs' !! q = if bool_decide (q = p ++ [n]) then Some (NFile c)
                                 else if bool_decide (q <> [] /\ q `prefix_of` p) then Some NDir else entries fs !! q.

Lemma import_page_spec d names t url fs : fav_dir d names -> page_title t ->
  short (d :: names ++ [t]) -> short (d :: names ++ [page_name t]) ->
  openable fs (place (d :: names)) -> entries fs !! place [d] = Some NDir ->
  entries fs !! (place (d :: names) ++ [upcase (page_name t)]) = None ->
  exists fs', import_page (path_str (d :: names ++ [t])) url fs = Ok fs' /\
    has_page fs (place (d :: names)) (upcase (page_name t)) url fs'.
Proof.
  intros Hd Ht Hs1 Hs2 Ho Hdrive Hnew. destruct Hd as [Hdr Hne Hleg] eqn:EHd. clear EHd.
  assert (Hlen : Z.of_nat (List.length (path_str (d :: names ++ [t]))) < 248) by done.
  destruct (page_file d names t Hd Ht Hs1) as (path & Hpath & Hfp & Hfn). unfold import_page.
  unfold wcscpy_s. rewrite (proj2 (Z.ltb_lt _ _)) by (unfold MAX_LENGTH; lia). rewrite Ok_bind.
  rewrite fs_remove_spec by (try done; apply Ht).
  destruct (CreateMultipleDirectory_spec d names fs) as (fs1 & -> & Hf1 & Hfp1 & He1); [done|done|done| |done|done|].
  { by apply (short_prefix (d :: names) t). }
  rewrite Ok_bind. unfold url_file. rewrite List.length_app, (proj2 (Z.ltb_lt _ _)) by (unfold MAX_LENGTH; simpl in *; lia).
  rewrite Ok_bind, Hpath, Ok_bind, Hfn, clean_name_spec, Ok_bind, clean_url, Hfp. cbn [snd].
  eexists. split; [done|]. replace ((path_str (d :: names) ++ [bsl]) ++ clean t ++ lit ".url") with (path_str (d :: names ++ [page_name t])).
  2: { change (d :: names ++ [?n]) with ((d :: names) ++ [n]). rewrite path_str_snoc by done. by rewrite <- !app_assoc. }
  pose proof (fs_profile fs1 (lit "InternetShortcut") (lit "URL") url d names (page_name t) Hdr Hleg (proj2 (proj2 Ht))) as Hw.
  cbn zeta in Hw. destruct (WritePrivateProfileStringW _ _ _ _ fs1) as [ok fs2]. cbn [snd]. destruct Hw as [Hf2 Hw].
  set (p := place (d :: names)) in *. assert (Hpne : p <> []) by done.
  assert (Hpd : entries fs1 !! p = Some NDir) by (by rewrite He1, bool_decide_eq_true_2).
  assert (Hnew1 : entries fs1 !! (p ++ [upcase (page_name t)]) = None).
  { rewrite He1, bool_decide_eq_false_2; [done|]. by intros [_ ?%snoc_not_prefix]. }
  destruct ok; [|by destruct Hw as [_ Hw]; destruct Hw; auto].
  destruct Hw as (_ & _ & c & E & Hprof). split; [auto|]. split; [auto|]. exists c. split; [done|].
  intros q. rewrite E. destruct (decide (q = p ++ [upcase (page_name t)])) as [->|Hq].
  - by rewrite lookup_insert_eq, bool_decide_eq_true_2.
  - rewrite lookup_insert_ne by congruence. by rewrite (bool_decide_eq_false_2 (q = _)).
Qed.
End Page.

(** ** The tree that is written *)

Section Tree.
Context {F : Type} `{FileSystemLaws F}.
Implicit Types (fs : F) (l : path).

Abbreviation place l := (map upcase l).

(** [fs] is [fs0] with the directories of the paths [D] and the shortcuts [P]. *)
Record wrote fs0 (D : list path) (P : list (path * wstring)) fs : Prop := {
  w_free : forall q, free fs0 q -> free fs q;
  w_dirs : forall q, q <> [] -> Exists (fun p => q `prefix_of` p) D -> entries fs !! q = Some NDir /\ free fs q;
  w_files : forall f u, (f, u) ∈ P -> exists c, entries fs !! f = Some (NFile c) /\
              (storable u -> profile c (lit "InternetShortcut") (lit "URL") = Some u);
  w_rest : forall q, ~ Exists (fun p => q `prefix_of` p) D -> (q ∉ map fst P) -> entries fs !! q = entries fs0 !! q
}.

(** No file is a directory of a path, and no two files are the same. *)
Definition no_clash (D : list path) (P : list (path * wstring)) : Prop :=
  NoDup (map fst P) /\ forall f p, f ∈ map fst P -> p ∈ D -> ~ f `prefix_of` p.

Section Base.
Context (fs0 : F) (base : path).
Hypothesis Hbase : base <> [].
Hypothesis Hempty : forall q, inside [base] q -> entries fs0 !! q = None.

(** What is at a path below the favorites is known. *)
Lemma wrote_none D P fs x : wrote fs0 D P fs -> base ∈ D ->
  ~ Exists (fun p => base ++ x `prefix_of` p) D -> (base ++ x ∉ map fst P) -> entries fs !! (base ++ x) = None.
Proof.
  intros Hw Hb Hd Hp. rewrite (w_rest _ _ _ _ Hw) by done. apply Hempty. exists base, x. split; [by left|].
  split; [|done]. intros ->. apply Hd, Exists_exists. exists base. by rewrite app_nil_r.
Qed.

Lemma wrote_openable D P fs x : wrote fs0 D P fs -> base ∈ D -> no_clash (D ++ [base ++ x]) P ->
  openable fs (base ++ x).
Proof.
  intros Hw Hb [_ Hnc] q Hq Hpre. destruct (decide (Exists (fun p => q `prefix_of` p) D)) as [Hex|Hnex].
  { left. by apply (w_dirs _ _ _ _ Hw). }
  right. assert (Hx : exists y, q = base ++ y).
  { destruct Hpre as [z Hz]. apply app_eq_app in Hz as (w & [[E _]|[E _]]).
    - destruct Hnex. apply Exists_exists. exists base. split; [done|]. rewrite E. by eexists.
    - by exists w. }
  destruct Hx as [y ->]. apply (wrote_none D P); try done. intros Hin. apply (Hnc _ (base ++ x) Hin); [set_solver|done].
Qed.

Lemma wrote_dirs D P fs fs' x : wrote fs0 D P fs -> base ∈ D -> no_clash (D ++ [base ++ x]) P ->
  has_dirs fs (base ++ x) fs' -> wrote fs0 (D ++ [base ++ x]) P fs'.
Proof.
  intros Hw Hb [_ Hnc] (Hf & Hfp & E). split.
  - intros q Hq. by apply Hf, (w_free _ _ _ _ Hw).
  - intros q Hq [Hex|[Hp|Hno]%Exists_cons]%Exists_app; [..|by apply Exists_nil in Hno].
    + destruct (w_dirs _ _ _ _ Hw q Hq Hex) as [Hd Hfr]. rewrite E, Hd. split; [by case_bool_decide|auto].
    + rewrite E, bool_decide_eq_true_2 by done. auto.
  - intros f u Hfu. destruct (w_files _ _ _ _ Hw f u Hfu) as (c & Hc & Hu). exists c. split; [|done].
    rewrite E, bool_decide_eq_false_2; [done|]. intros [_ Hpre].
    apply (Hnc f (base ++ x)); [by apply (list_elem_of_fmap_2 fst) in Hfu|set_solver|done].
  - intros q Hno Hq. rewrite Exists_app, Exists_cons in Hno. rewrite E, bool_decide_eq_false_2 by tauto.
    apply (w_rest _ _ _ _ Hw); tauto.
Qed.

Lemma wrote_page D P fs fs' x n url : wrote fs0 D P fs -> base ∈ D ->
  no_clash (D ++ [base ++ x]) (P ++ [(base ++ x ++ [n], url)]) ->
  has_page fs (base ++ x) n url fs' -> wrote fs0 (D ++ [base ++ x]) (P ++ [(base ++ x ++ [n], url)]) fs'.
Proof.
  intros Hw Hb [Hnd Hnc] (Hf & Hfp & c & Hprof & E). rewrite map_app in Hnd, Hnc. rewrite app_assoc in *.
  set (f := (base ++ x) ++ [n]) in *. assert (Hfd : forall p, p ∈ D ++ [base ++ x] -> ~ f `prefix_of` p).
  { intros p Hp. apply Hnc; [|done]. simpl. set_solver. }
  split.
  - intros q Hq. by apply Hf, (w_free _ _ _ _ Hw).
  - intros q Hq Hex. assert (Hqf : q <> f).
    { intros ->. apply Exists_exists in Hex as (p & Hp & Hpre). by apply (Hfd p). }
    rewrite E, (bool_decide_eq_false_2 (q = f)) by done.
    apply Exists_app in Hex as [Hex|[Hp|Hno]%Exists_cons]; [..|by apply Exists_nil in Hno].
    + destruct (w_dirs _ _ _ _ Hw q Hq Hex) as [Hd Hfr]. rewrite Hd. split; [by case_bool_decide|auto].
    + rewrite bool_decide_eq_true_2 by done. auto.
  - intros g u [Hg|Hg]%elem_of_app.
    + destruct (w_files _ _ _ _ Hw g u Hg) as (c' & Hc' & Hu). exists c'. split; [|done].
      apply (list_elem_of_fmap_2 fst) in Hg. cbn [fst] in Hg.
      rewrite E, !bool_decide_eq_false_2; [done|..].
      * intros [_ Hpre]. apply (Hnc g (base ++ x)); [set_solver|set_solver|done].
      * intros ->. apply NoDup_app in Hnd as (_ & Hdis & _). apply (Hdis f Hg). simpl. set_solver.
    + apply list_elem_of_singleton in Hg. injection Hg as -> ->. exists c. split; [|done].
      by rewrite E, bool_decide_eq_true_2.
  - intros q Hno Hq. rewrite map_app in Hq. cbn [map fst] in Hq. rewrite Exists_app, Exists_cons in Hno.
    rewrite E, !bool_decide_eq_false_2; [apply (w_rest _ _ _ _ Hw); [tauto|set_solver]|tauto|set_solver].
Qed.
End Base.
End Tree.

(** ** The loop over the records *)

(** What a record becomes, relative to the favorites: nothing, a directory, or a
    shortcut in a directory. *)
Inductive target := TNone | TDir (ts : path) | TPage (ts : path) (t url : wstring).

Definition live (T : target) : bool := match T with TNone => false | _ => true end.

Definition depth (T : target) : nat :=
  match T with TNone => 0 | TDir ts => List.length ts | TPage ts _ _ => S (List.length ts) end.

Inductive target_of (h : heap) (ppData : fav_vector) (i : Z) : target -> Prop :=
| target_null : vec_at ppData i = Ok None -> target_of h ppData i TNone
| target_deleted l d : vec_at ppData i = Ok (Some l) -> h !! l = Some d -> bDelete d = true ->
    target_of h ppData i TNone
| target_dir l d ts : vec_at ppData i = Ok (Some l) -> h !! l = Some d -> bDelete d = false -> bFolder d = true ->
    chain h ppData i ts -> target_of h ppData i (TDir ts)
| target_page l d ts t : vec_at ppData i = Ok (Some l) -> h !! l = Some d -> bDelete d = false -> bFolder d = false ->
    chain h ppData i (ts ++ [t]) -> target_of h ppData i (TPage ts t (szUrl d)).

Section Loop.
Context {F : Type} `{FileSystemLaws F}.
Context (home : wstring) (h : heap) (ppData : fav_vector) (d : wstring) (names : path).
Hypothesis Hfav : fav_dir d names.
Hypothesis Hhome : GetFavoriteDataPath home = path_str (d :: names).
Implicit Types (fs : F).

Abbreviation place l := (map upcase l).
Abbreviation base := (map upcase (d :: names)).

(** Names that the file system accepts, and paths that are not too long. *)
Definition good_target (T : target) : Prop :=
  match T with
  | TNone => True
  | TDir ts => Forall legal ts /\ short (d :: names ++ ts)
  | TPage ts t _ => Forall legal ts /\ page_title t /\ short (d :: names ++ ts ++ [t]) /\
                    short (d :: names ++ ts ++ [page_name t])
  end.

Definition target_dirs (Ts : list target) : list path :=
  base :: flat_map (fun T => match T with TNone => [] | TDir ts | TPage ts _ _ => [base ++ place ts] end) Ts.

Definition target_files (Ts : list target) : list (path * wstring) :=
  flat_map (fun T => match T with TPage ts t url => [(base ++ place ts ++ [upcase (page_name t)], url)] | _ => [] end) Ts.

Definition live_count (Ts : list target) : Z := Z.of_nat (List.length (List.filter live Ts)).

Lemma fav_sub ts : Forall legal ts -> fav_dir d (names ++ ts).
Proof.
  destruct Hfav as [Hd Hne Hl]. intros Hts. split; [done|by destruct names|]. by apply Forall_app.
Qed.

Lemma base_sub ts : place (d :: names ++ ts) = base ++ place ts.
Proof. cbn [map]. by rewrite map_app. Qed.

Lemma target_dirs_dir Ts ts : target_dirs (Ts ++ [TDir ts]) = target_dirs Ts ++ [base ++ place ts].
Proof. unfold target_dirs. rewrite flat_map_app. done. Qed.

Lemma target_files_dir Ts ts : target_files (Ts ++ [TDir ts]) = target_files Ts.
Proof. unfold target_files. rewrite flat_map_app. by rewrite app_nil_r. Qed.

Lemma target_dirs_page Ts ts t url : target_dirs (Ts ++ [TPage ts t url]) = target_dirs Ts ++ [base ++ place ts].
Proof. unfold target_dirs. rewrite flat_map_app. done. Qed.

Lemma target_files_page Ts ts t url : target_files (Ts ++ [TPage ts t url]) =
  target_files Ts ++ [(base ++ place ts ++ [upcase (page_name t)], url)].
Proof. unfold target_files. by rewrite flat_map_app. Qed.

Lemma no_clash_front Ts1 Ts2 :
  no_clash (target_dirs (Ts1 ++ Ts2)) (target_files (Ts1 ++ Ts2)) -> no_clash (target_dirs Ts1) (target_files Ts1).
Proof.
  unfold target_dirs, target_files. rewrite !flat_map_app. intros [Hnd Hnc]. rewrite map_app in *.
  apply NoDup_app in Hnd as (Hnd & _ & _). split; [done|]. intros f p Hf Hp. apply Hnc; set_solver.
Qed.

Section From.
Context (fs0 : F).
Hypothesis Hempty : forall q, inside [base] q -> entries fs0 !! q = None.
Hypothesis Hdrive : entries fs0 !! place [d] = Some NDir.

Definition state_of (Ts : list target) fs : Prop := wrote fs0 (target_dirs Ts) (target_files Ts) fs.

Lemma state_drive Ts fs : state_of Ts fs -> entries fs !! place [d] = Some NDir.
Proof.
  intros Hw. apply (w_dirs _ _ _ _ Hw); [done|]. left. exists (place names). done.
Qed.

Lemma step_dir Ts ts fs : state_of Ts fs -> good_target (TDir ts) ->
  no_clash (target_dirs (Ts ++ [TDir ts])) (target_files (Ts ++ [TDir ts])) ->
  let '(r, fs') := SHCreateDirectory (path_str (d :: names ++ ts)) fs in
  (r = ERROR_SUCCESS \/ r = ERROR_ALREADY_EXISTS) /\ state_of (Ts ++ [TDir ts]) fs'.
Proof.
  intros Hw [Hts Hsh] Hnc. unfold state_of in *. rewrite target_dirs_dir, target_files_dir in *.
  assert (HbD : base ∈ target_dirs Ts) by by left. revert Hw Hnc HbD. generalize (target_dirs Ts), (target_files Ts).
  intros D P Hw Hnc HbD.
  pose proof (wrote_openable fs0 base ltac:(done) Hempty D P fs (place ts) Hw HbD Hnc) as Ho.
  pose proof (fs_shcreate fs d (names ++ ts) (fd_drive _ _ Hfav) (fd_names _ _ (fav_sub ts Hts)) (fd_legal _ _ (fav_sub ts Hts))) as Hc.
  cbn zeta in Hc. destruct (SHCreateDirectory (path_str (d :: names ++ ts)) fs) as [r fs'].
  rewrite base_sub in Hc. destruct Hc as (Hf & Hex & Halr & Hsucc & Hok).
  set (p := base ++ place ts) in *. assert (Hpne : p <> []) by done.
  assert (Hd : entries fs !! place [d] = Some NDir).
  { apply (w_dirs _ _ _ _ Hw); [done|]. apply Exists_exists. exists base. split; [done|]. by exists (place names). }
  enough (Hres : (r = ERROR_SUCCESS \/ r = ERROR_ALREADY_EXISTS) /\ has_dirs fs p fs').
  { split; [apply Hres|]. apply (wrote_dirs fs0 base ltac:(done) Hempty D P fs fs' (place ts)); [done..|apply Hres]. }
  destruct (Ho p Hpne ltac:(done)) as [[Hp Hfree]|Hp].
  - destruct Hex as [E _]; [congruence|]. split; [right; auto|]. split; [done|].
    assert (Hall : forall q, q <> [] -> q `prefix_of` p -> entries fs !! q = Some NDir).
    { intros q Hq [x Hx]. destruct x as [|n x]; [rewrite app_nil_r in Hx; congruence|].
      apply (closed_prefix fs q (n :: x)); [done|done|]. rewrite <- Hx. by eexists. }
    split.
    + intros q Hq Hpre. apply Hf. destruct (Ho q Hq Hpre) as [[_ ?]|Hn]; [done|]. rewrite (Hall q) in Hn by done. done.
    + intros q. rewrite E. case_bool_decide as Hb; [|done]. by apply Hall; apply Hb.
  - assert (Hr : r = ERROR_SUCCESS) by (apply Hok; auto). split; [by left|]. destruct (Hsucc Hr) as [Hnew E].
    split; [done|]. split; [|done]. intros q Hq Hpre. destruct (Ho q Hq Hpre) as [[_ ?]|Hn]; [by apply Hf|by apply Hnew].
Qed.

Lemma step_page Ts ts t url fs : state_of Ts fs -> good_target (TPage ts t url) ->
  no_clash (target_dirs (Ts ++ [TPage ts t url])) (target_files (Ts ++ [TPage ts t url])) ->
  exists fs', import_page (path_str (d :: names ++ ts ++ [t])) url fs = Ok fs' /\ state_of (Ts ++ [TPage ts t url]) fs'.
Proof.
  intros Hw (Hts & Ht & Hsh & Hshp) Hnc. pose proof (state_drive _ _ Hw) as Hd. unfold state_of in *.
  rewrite target_dirs_page, target_files_page in *.
  assert (HbD : base ∈ target_dirs Ts) by by left. revert Hw Hnc HbD. generalize (target_dirs Ts), (target_files Ts).
  intros D P Hw Hnc HbD.
  assert (Hnc' : no_clash (D ++ [base ++ place ts]) P).
  { destruct Hnc as [Hnd Hnc]. rewrite map_app in Hnd, Hnc. apply NoDup_app in Hnd as (Hnd & _ & _).
    split; [done|]. intros f p Hf. apply Hnc. set_solver. }
  pose proof (wrote_openable fs0 base ltac:(done) Hempty D P fs (place ts) Hw HbD Hnc') as Ho. rewrite <- base_sub in Ho.
  assert (Hnew : entries fs !! (place (d :: names ++ ts) ++ [upcase (page_name t)]) = None).
  { rewrite base_sub, <- app_assoc. destruct Hnc as [Hnd Hnc]. rewrite map_app in Hnd, Hnc.
    apply (wrote_none fs0 base Hempty D P); [done|done|..].
    - intros (p & Hp & Hpre)%Exists_exists. apply (Hnc (base ++ place ts ++ [upcase (page_name t)]) p); [simpl; set_solver|set_solver|done].
    - apply NoDup_app in Hnd as (_ & Hdis & _). intros Hin. apply (Hdis _ Hin). simpl. set_solver. }
  rewrite (app_assoc names) in Hsh, Hshp |- *.
  destruct (import_page_spec d (names ++ ts) t url fs (fav_sub ts Hts) Ht Hsh Hshp Ho Hd Hnew) as (fs' & Hp & Hpage).
  exists fs'. split; [done|]. rewrite base_sub in Hpage. by apply (wrote_page fs0 base ltac:(done) Hempty D P fs fs' (place ts)).
Qed.

Lemma import_loop_spec fuel nDataNum idx Ts2 : Forall2 (target_of h ppData) idx Ts2 ->
  Forall good_target Ts2 -> Forall (fun T => (depth T <= fuel)%nat) Ts2 -> forall Ts1 n fs,
  no_clash (target_dirs (Ts1 ++ Ts2)) (target_files (Ts1 ++ Ts2)) -> state_of Ts1 fs ->
  exists fs', import_loop home h ppData fuel nDataNum n idx fs = Ok (ERROR_OK, n + live_count Ts2, fs') /\
    state_of (Ts1 ++ Ts2) fs'.
Proof.
  induction 1 as [|i T idx Ts2 HT _ IH]; intros Hgood Hdepth Ts1 n fs Hnc Hst.
  { exists fs. rewrite app_nil_r. unfold live_count. cbn [List.filter List.length]. rewrite Z.add_0_r. done. }
  apply Forall_cons in Hgood as [Hg Hgood]. apply Forall_cons in Hdepth as [Hdep Hdepth].
  assert (Hnc1 : no_clash (target_dirs (Ts1 ++ [T])) (target_files (Ts1 ++ [T]))).
  { apply (no_clash_front (Ts1 ++ [T]) Ts2). by rewrite <- app_assoc. }
  replace (Ts1 ++ T :: Ts2) with ((Ts1 ++ [T]) ++ Ts2) in Hnc |- * by by rewrite <- app_assoc.
  specialize (IH Hgood Hdepth (Ts1 ++ [T])).
  assert (Hcount : live_count (T :: Ts2) = (if live T then 1 else 0) + live_count Ts2).
  { unfold live_count. cbn [List.filter]. destruct (live T); cbn [List.length]; lia. }
  assert (Hsame : T = TNone -> state_of (Ts1 ++ [T]) fs).
  { intros ->. unfold state_of, target_dirs, target_files in *. rewrite !flat_map_app, !app_nil_r. done. }
  rewrite Hcount. cbn [import_loop].
  destruct HT as [Hv|l r Hv Hl Hdel|l r ts Hv Hl Hdel Hfold Hc|l r ts t Hv Hl Hdel Hfold Hc]; rewrite Hv, Ok_bind;
    cbn [live]; rewrite ?Z.add_0_l.
  - by apply IH, Hsame.
  - unfold load. rewrite Hl, Ok_bind, Hdel. by apply IH, Hsame.
  - unfold load. rewrite Hl, Ok_bind, Hdel, (GetNodeAbsolutePath_spec h ppData home (d :: names) i ts) by done.
    rewrite Ok_bind, Hfold. cbn [app]. pose proof (step_dir Ts1 ts fs Hst Hg Hnc1) as Hstep.
    destruct (SHCreateDirectory (path_str (d :: names ++ ts)) fs) as [r' fs1]. destruct Hstep as [Hr Hst1].
    replace (negb (r' =? ERROR_SUCCESS) && negb (r' =? ERROR_ALREADY_EXISTS)) with false.
    2: { by destruct Hr as [-> | ->]. }
    rewrite Z.add_assoc. by apply IH.
  - unfold load. rewrite Hl, Ok_bind, Hdel.
    rewrite (GetNodeAbsolutePath_spec h ppData home (d :: names) i (ts ++ [t])); [|done|done|done|].
    2: { rewrite List.length_app. simpl in *. lia. }
    rewrite Ok_bind, Hfold. cbn [app].
    destruct (step_page Ts1 ts t (szUrl r) fs Hst Hg Hnc1) as (fs1 & -> & Hst1). rewrite Ok_bind.
    rewrite Z.add_assoc. by apply IH.
Qed.
End From.

(** ** The preparation *)

Lemma trim_fav : trim_seps (path_str (d :: names)) = path_str (d :: names).
Proof.
  destruct Hfav as [_ Hne Hl]. destruct names as [|n ns _] using rev_ind; [done|].
  apply Forall_app in Hl as [_ [Hn _]%Forall_cons]. apply legal_name in Hn as (Hn & Hb & Hs & _).
  destruct n as [|c n _] using rev_ind; [done|]. change (d :: ns ++ [n ++ [c]]) with ((d :: ns) ++ [n ++ [c]]).
  rewrite path_str_snoc by done. unfold trim_seps. rewrite !app_assoc, rev_app_distr. cbn [rev app drop_seps].
  rewrite (proj2 (Z.eqb_neq c bsl)), (proj2 (Z.eqb_neq c slash)) by set_solver. cbn [orb].
  change (c :: ?l) with ([c] ++ l). rewrite rev_app_distr, rev_involutive. done.
Qed.

Lemma IsDirExist_none fs : short (d :: names) -> entries fs !! base = None ->
  IsDirExist (path_str (d :: names)) fs = false.
Proof.
  intros Hs Hn. unfold IsDirExist. rewrite trim_fav. pose proof (fs_find fs d names (fd_drive _ _ Hfav) (fd_names _ _ Hfav) (fd_legal _ _ Hfav) Hs) as Hf.
  rewrite Hn in Hf. by rewrite Hf.
Qed.

(** What the machine must be like: the directories that lead to the favorites may
    be filled, and what is in the favorites may be removed. *)
Record ready fs : Prop := {
  ready_open : openable fs base;
  ready_drive : entries fs !! place [d] = Some NDir;
  ready_free : all_free fs (d :: names)
}.

Lemma fav_spelled : spelled (d :: names).
Proof. exists d, names. split; [done|]. split; [|split]; apply Hfav. Qed.

Lemma drive_strict fs : ready fs -> ~ base `prefix_of` place [d].
Proof.
  intros _ Hp. apply prefix_length in Hp. pose proof (fd_names _ _ Hfav). destruct names; [done|]. simpl in Hp. lia.
Qed.

Lemma clear_favorites_spec fs : ready fs -> short (d :: names) ->
  exists fs' n, (forall fuel, (n <= fuel)%nat -> clear_favorites home fuel fs = Ok fs') /\
    (forall q, q <> [] -> q `prefix_of` base -> entries fs' !! q = Some NDir /\ free fs' q) /\
    (forall q, inside [base] q -> entries fs' !! q = None) /\
    (forall q, ~ base `prefix_of` q -> ~ (q <> [] /\ q `prefix_of` base) -> entries fs' !! q = entries fs !! q).
Proof.
  intros Hr Hsh. pose proof (drive_strict fs Hr) as Hstrict. destruct Hr as [Ho Hd Hfree].
  assert (H1 : exists b fs1 n, (forall fuel, (n <= fuel)%nat -> ForceRemoveDir fuel (path_str (d :: names)) fs = Ok (b, fs1)) /\
    (forall q, free fs q -> free fs1 q) /\ (forall p, base `prefix_of` p -> entries fs1 !! p = None) /\
    (forall p, ~ base `prefix_of` p -> entries fs1 !! p = entries fs !! p)).
  { destruct (Ho base ltac:(done) ltac:(done)) as [[Hdir _]|Hnone].
    - destruct (ForceRemoveDir_spec fs (d :: names) (conj fav_spelled Hdir)) as (b & fs1 & n & Hn & Hf & _ & Hout & Hin).
      exists b, fs1, n. split; [done|]. split; [done|]. split; [apply (Hin Hfree)|done].
    - destruct (ForceRemoveDir_none fs (d :: names) fav_spelled Hnone) as (b & fs1 & Hrun & E & Hf).
      exists b, fs1, 1%nat. split; [done|]. split; [done|].
      split; [|by rewrite E]. intros p [x ->]. rewrite E. destruct x as [|k x]; [by rewrite app_nil_r|].
      apply eq_None_not_Some. intros Hs. apply closed_prefix in Hs; [|done|done]. by rewrite Hnone in Hs. }
  destruct H1 as (b & fs1 & n & Hn & Hf & Hin & Hout).
  assert (Ho1 : openable fs1 base).
  { intros q Hq Hpre. destruct (decide (base `prefix_of` q)) as [Hb|Hb]; [right; by apply Hin|].
    rewrite Hout by done. destruct (Ho q Hq Hpre) as [[? ?]|?]; [left; auto|by right]. }
  destruct (CreateMultipleDirectory_spec d names fs1) as (fs2 & Hc & Hf2 & Hfp & E2);
    [apply Hfav|apply Hfav|apply Hfav|done|done|by rewrite Hout|].
  exists fs2, n. split; [|split; [|split]].
  - intros fuel Hfuel. unfold clear_favorites. rewrite Hhome, Hn by done. rewrite Ok_bind. cbn [snd].
    rewrite IsDirExist_none by (try done; by apply Hin). cbn [negb]. by rewrite Hc, Ok_bind.
  - intros q Hq Hpre. rewrite E2, bool_decide_eq_true_2 by done. auto.
  - intros q (p & x & ->%list_elem_of_singleton & Hx & ->). rewrite E2, bool_decide_eq_false_2.
    + apply Hin. by eexists.
    + intros [_ Hpre]. destruct x as [|k x]; [done|]. by apply snoc_not_prefix in Hpre.
  - intros q Hb Hno. rewrite E2, bool_decide_eq_false_2 by done. by apply Hout.
Qed.
End Loop.

Lemma dirs_base {F : Type} `{FileSystemLaws F} d names Ts p : p ∈ target_dirs d names Ts ->
  exists x, p = map upcase (d :: names) ++ x.
Proof.
  unfold target_dirs. intros [->|Hp]%elem_of_cons; [exists []; by rewrite app_nil_r|].
  apply list_elem_of_In, in_flat_map in Hp as ([|ts|ts t u] & _ & Hp%list_elem_of_In);
    [by apply elem_of_nil in Hp|apply list_elem_of_singleton in Hp as ->; by eexists..].
Qed.

Lemma files_base {F : Type} `{FileSystemLaws F} d names Ts f : f ∈ map fst (target_files d names Ts) ->
  map upcase (d :: names) `prefix_of` f.
Proof.
  intros ((g & u) & -> & Hf)%list_elem_of_fmap. unfold target_files in Hf.
  apply list_elem_of_In, in_flat_map in Hf as ([|ts|ts t w] & _ & Hf%list_elem_of_In); try by apply elem_of_nil in Hf.
  apply list_elem_of_singleton in Hf. injection Hf as -> ->. by eexists.
Qed.

Lemma depth_bound (Ts : list target) : Forall (fun T => (depth T <= list_max (map depth Ts))%nat) Ts.
Proof. pose proof (proj1 (list_max_le (map depth Ts) _) (le_n _)) as Hm. by rewrite Forall_map in Hm. Qed.

(** C20: For records whose parents lead to a root, with titles that Windows accepts as
    names, no two of the same name in a folder and paths of fewer than 248 characters,
    [ImportFavoriteData] of Internet Explorer ends without error and counts the records
    that are not deleted. Below the favorites, where nothing is in use or protected
    before, there is afterwards a directory for every folder, a shortcut for every page,
    with its address if that is a value a profile keeps ([storable]), and nothing else;
    outside of them nothing changed. (Other entries are lost without a word: IEPlugIn.cpp,
    line 354.) *)
Theorem ie_import_exact {F : Type} `{FileSystemLaws F} home h ppData d names n Ts (fs : F)
    (Hfav : fav_dir d names) (Hhome : GetFavoriteDataPath home = path_str (d :: names))
    (Hshort : short (d :: names)) (Hready : ready d names fs) (Hn : 0 < n)
    (Hts : Forall2 (target_of h ppData) (seqZ 0 n) Ts) (Hgood : Forall (good_target d names) Ts)
    (Hclash : no_clash (target_dirs d names Ts) (target_files d names Ts)) :
  exists k, forall fuel, (k <= fuel)%nat -> exists fs',
    ImportFavoriteData home h fuel (Some ppData) n fs = Ok (ERROR_OK, live_count Ts, fs') /\
    (forall p, p ∈ target_dirs d names Ts -> entries fs' !! p = Some NDir) /\
    (forall f u, (f, u) ∈ target_files d names Ts -> exists c, entries fs' !! f = Some (NFile c) /\
       (storable u -> profile c (lit "InternetShortcut") (lit "URL") = Some u)) /\
    (forall q, map upcase (d :: names) `prefix_of` q -> is_Some (entries fs' !! q) ->
       Exists (fun p => q `prefix_of` p) (target_dirs d names Ts) \/ q ∈ map fst (target_files d names Ts)) /\
    (forall q, ~ map upcase (d :: names) `prefix_of` q -> ~ q `prefix_of` map upcase (d :: names) ->
       entries fs' !! q = entries fs !! q).
Proof.
  destruct (clear_favorites_spec home d names Hfav Hhome fs Hready Hshort) as (fs0 & k & Hclear & Hdirs & Hempty & Hout).
  exists (Nat.max k (list_max (map depth Ts))). intros fuel Hfuel. unfold ImportFavoriteData.
  rewrite (proj2 (Z.eqb_neq n 0)), Hclear, Ok_bind by lia.
  assert (Hst : state_of d names fs0 [] fs0).
  { split; [done| |by intros f u ?%elem_of_nil|done]. intros q Hq [Hp|Hno]%Exists_cons; [auto|by apply Exists_nil in Hno]. }
  assert (Hdep : Forall (fun T => (depth T <= fuel)%nat) Ts).
  { eapply Forall_impl; [apply depth_bound|]. simpl. intros T HT. lia. }
  assert (Hdrive : entries fs0 !! map upcase [d] = Some NDir) by (apply Hdirs; [done|by exists (map upcase names)]).
  destruct (import_loop_spec home h ppData d names Hfav Hhome fs0 Hempty Hdrive fuel n (seqZ 0 n) Ts Hts Hgood Hdep
              [] 0 fs0 Hclash Hst) as (fs' & Hrun & Hw).
  exists fs'. split; [done|]. split; [|split; [|split]].
  - intros p Hp. apply (w_dirs _ _ _ _ Hw); [|by apply Exists_exists; exists p].
    unfold target_dirs in Hp. apply elem_of_cons in Hp as [->|Hp]; [done|].
    apply list_elem_of_In, in_flat_map in Hp as ([|ts|ts t u] & _ & Hp%list_elem_of_In);
      [by apply elem_of_nil in Hp|by apply list_elem_of_singleton in Hp as ->..].
  - intros f u Hf. by apply (w_files _ _ _ _ Hw).
  - intros q Hpre [nd Hq]. destruct (decide (Exists (fun p => q `prefix_of` p) (target_dirs d names Ts))) as [|Hno]; [by left|].
    destruct (decide (q ∈ map fst (target_files d names Ts))) as [|Hnf]; [by right|]. exfalso.
    destruct Hpre as [x ->]. cbn [app] in Hw. rewrite (wrote_none fs0 _ Hempty _ _ fs' x Hw) in Hq; [done|by left|done|done].
  - intros q Hb Hpre. rewrite (w_rest _ _ _ _ Hw).
    + apply Hout; [done|]. by intros [_ ?].
    + intros (p & Hp & Hqp)%Exists_exists. destruct (dirs_base d names Ts p Hp) as [x ->].
      destruct (prefix_weak_total _ _ _ Hqp ltac:(by eexists)) as [Hc|Hc]; [by apply Hpre|by apply Hb].
    + intros Hf. by apply Hb, (files_base d names Ts).
Qed.
