(* ===== verification/IEExample.v ===== *)
(** * Internet Explorer: an example

    A disk with favorites of the past, records of a folder, two pages and a deleted
    page, and a shell with a folder and a page: the theorems on directories, on the
    export and on the import at concrete inputs. *)
From stdpp Require Import prelude gmap strings.
From Stdlib Require Import ZArith Lia String.
From S2P Require Import Prelude Strings Favorites DataCenter PlugInModule TimeHelper FilePath FileSystem Disk PathHelper.
From S2P Require Import PathWalk PathRemove CrcHash Chrome ChromeExport ChromeImport IEPlugIn IEExport IEImport.

(** ** A disk *)

Lemma empty_tree : treeb ∅ = true.
Proof. vm_compute. reflexivity. Qed.

Definition empty_disk : Disk := exist _ ∅ empty_tree.

Definition fav_path : path := [lit "C:"; lit "Users"; lit "Favorites"].

Definition old_disk : Disk := commit (list_to_map [
  ([lit "C:"], NDir);
  ([lit "C:"; lit "boot.ini"], NFile []);
  ([lit "C:"; lit "Users"], NDir);
  (fav_path, NDir);
  (fav_path ++ [lit "a.url"], NFile (lit "http://a/"));
  (fav_path ++ [lit "Old"], NDir);
  (fav_path ++ [lit "Old"; lit "Deep"], NDir);
  (fav_path ++ [lit "Old"; lit "Deep"; lit "b.url"], NFile (lit "http://b/"))]) empty_disk.

Lemma fav_at : dir_at old_disk fav_path.
Proof.
  split; [|vm_compute; reflexivity]. exists (lit "C:"), [lit "Users"; lit "Favorites"].
  split; [done|]. split; [vm_compute; reflexivity|]. split; [done|]. repeat constructor.
Qed.

Lemma old_disk_free : all_free old_disk fav_path.
Proof. done. Qed.

(** Witness of [force_remove_exact]. *)
Lemma force_remove_witness : exists fuel fs', ForceRemoveDir fuel (path_str fav_path) old_disk = Ok (true, fs') /\
  entries fs' !! (fav_path ++ [lit "Old"; lit "Deep"]) = None /\
  entries fs' !! [lit "C:"; lit "boot.ini"] = Some (NFile []).
Proof.
  destruct (force_remove_exact old_disk fav_path fav_at) as (b & fs' & n & Hn & _ & Hout & Hin).
  destruct (Hin old_disk_free) as [-> Hgone]. exists n, fs'. split; [apply Hn; lia|]. split.
  - apply Hgone. change (map upcase fav_path) with fav_path. by exists [lit "Old"; lit "Deep"].
  - rewrite Hout; [vm_compute; reflexivity|]. change (map upcase fav_path) with fav_path.
    intros [x Hx]. apply (f_equal List.length) in Hx. vm_compute in Hx. lia.
Defined.

(** Witness of [sub_dirs_exact]. *)
Lemma sub_dirs_witness : exists fuel vec, GetAllSubDir fuel (path_str fav_path) [] (lit "*") old_disk = Ok (true, vec) /\
  path_str (fav_path ++ [lit "Old"; lit "Deep"]) ∈ vec.
Proof.
  destruct (sub_dirs_exact old_disk fav_path [] fav_at) as (R & n & Hn & _ & _ & _ & Hall).
  assert (Hin : fav_path ++ [lit "Old"; lit "Deep"] ∈ map (map upcase) R).
  { apply (Hall old_disk_free); [vm_compute; reflexivity|]. exists (map upcase fav_path), [lit "Old"; lit "Deep"].
    split; [by left|done]. }
  apply list_elem_of_fmap in Hin as (r & Er & Hr). change upcase with (fun n : wstring => n) in Er. rewrite map_id in Er. subst r.
  exists n, (map path_str R). split; [|by apply list_elem_of_fmap_2].
  rewrite (Hn n (le_n n)). cbn [app]. rewrite length_map. destruct R; [by apply elem_of_nil in Hr|done].
Defined.

(** ** Items of the shell *)

Definition page_info (name url : wstring) : item_info :=
  mkInfo name (Some (mkSystemTime 2012 5 1 7 8 9 0 0, mkSystemTime 2012 5 1 7 8 9 0 0, mkSystemTime 2012 5 1 7 8 9 0 0))
    (lit "Internet Shortcut") false (Url url).

Definition broken_info : item_info := mkInfo (lit "bad") None (lit "Internet Shortcut") false Unresolved.

Definition folder_info (name : wstring) : item_info := mkInfo name None (lit "File folder") true Unresolved.

Definition example_items : list shell_item :=
  [Item broken_info None;
   Item (folder_info (lit "News")) (Some [Item (page_info (lit "A") (lit "http://a/")) None]);
   Item (page_info (lit "B") (lit "http://b/")) None].

Definition example_shell : Shell := mkShell true true 0 (Some example_items).

Definition three_records : heap := list_to_map [(1%positive, FavoriteLineData_new 0); (2%positive, FavoriteLineData_new 0);
  (3%positive, FavoriteLineData_new 0)].

Definition three_pointers : fav_vector := [Some 1%positive; Some 2%positive; Some 3%positive].

(** Witness of [ie_export_exact]: the folder and the two pages. *)
Lemma ie_export_witness : exists h, GetFavoriteCount tm_year example_shell three_records = Ok 3 /\
  ExportFavoriteData tm_year example_shell three_pointers 3 three_records = Ok (1, 3, h).
Proof.
  destruct (ie_export_exact tm_year example_shell example_items three_pointers three_records) as (Hc & He & _).
  - split; [done|]. split; [done|]. split; [done|]. reflexivity.
  - vm_compute. reflexivity.
  - repeat constructor.
  - change (Z.of_nat _) with 3. intros i Hi.
    assert (Hi' : i = 0 \/ i = 1 \/ i = 2) by lia.
    destruct Hi' as [-> |[-> | ->]]; eexists; (split; [reflexivity|by vm_compute; eexists]).
  - eexists. split; [exact Hc|exact He].
Defined.

(** ** Records *)

Definition rec_ (id pid : Z) (folder del : bool) (title url : wstring) : FavoriteLineData :=
  mkFavorite id title pid folder url 0 0 0 0 0 del.

Definition import_heap : heap := list_to_map [
  (1%positive, rec_ 1 0 true false (lit "News") []);
  (2%positive, rec_ 2 1 false false (lit "What?") (lit "http://what/"));
  (3%positive, rec_ 3 0 false true (lit "Gone") (lit "http://gone/"));
  (4%positive, rec_ 4 0 false false (lit "Home") (lit "http://home/"))].

Definition import_vector : fav_vector := [Some 1%positive; Some 2%positive; Some 3%positive; Some 4%positive].

Definition import_targets : list target :=
  [TDir [lit "News"]; TPage [lit "News"] (lit "What?") (lit "http://what/"); TNone; TPage [] (lit "Home") (lit "http://home/")].

Definition fav_names : path := [lit "Users"; lit "Favorites"].

Lemma fav_names_dir : fav_dir (F := Disk) (lit "C:") fav_names.
Proof. split; [vm_compute; reflexivity|done|]. repeat constructor. Qed.

Lemma old_disk_ready : ready (lit "C:") fav_names old_disk.
Proof.
  split; [|vm_compute; reflexivity|done]. intros q Hq Hpre.
  assert (Hin : q ∈ ways fav_path) by by apply elem_of_ways.
  assert (Hall : Forall (fun q => disk_map old_disk !! q = Some NDir) (ways fav_path))
    by (vm_compute; repeat constructor).
  rewrite Forall_forall in Hall. left. split; [by apply Hall|done].
Qed.

Lemma root_news : chain import_heap import_vector 0 [lit "News"].
Proof. apply (chain_root _ _ 0 (rec_ 1 0 true false (lit "News") [])); reflexivity. Qed.

Lemma import_targets_of : Forall2 (target_of import_heap import_vector) (seqZ 0 4) import_targets.
Proof.
  change (seqZ 0 4) with [0; 1; 2; 3]. constructor; [|constructor; [|constructor; [|constructor; [|constructor]]]].
  - eapply (target_dir _ _ _ 1%positive); [reflexivity..|]. apply root_news.
  - eapply (target_page _ _ _ 2%positive (rec_ 2 1 false false (lit "What?") (lit "http://what/")) [lit "News"] (lit "What?")); [reflexivity..|].
    eapply (chain_sub _ _ 1 (rec_ 2 1 false false (lit "What?") (lit "http://what/")) [lit "News"]); [reflexivity|done|].
    apply root_news.
  - by eapply (target_deleted _ _ _ 3%positive).
  - eapply (target_page _ _ _ 4%positive (rec_ 4 0 false false (lit "Home") (lit "http://home/")) [] (lit "Home")); [reflexivity..|].
    apply (chain_root _ _ 3 (rec_ 4 0 false false (lit "Home") (lit "http://home/"))); reflexivity.
Qed.

Lemma import_targets_good : Forall (good_target (F := Disk) (lit "C:") fav_names) import_targets.
Proof. repeat constructor; vm_compute; set_solver. Qed.

Lemma import_no_clash : no_clash (target_dirs (F := Disk) (lit "C:") fav_names import_targets)
  (target_files (F := Disk) (lit "C:") fav_names import_targets).
Proof.
  split; [apply (bool_decide_unpack _); vm_compute; exact I|].
  assert (Hall : Forall (fun f => Forall (fun p => ~ f `prefix_of` p)
      (target_dirs (F := Disk) (lit "C:") fav_names import_targets))
      (map fst (target_files (F := Disk) (lit "C:") fav_names import_targets)))
    by (apply (bool_decide_unpack _); vm_compute; exact I).
  intros f p Hf Hp. rewrite Forall_forall in Hall. specialize (Hall f Hf). rewrite Forall_forall in Hall. auto.
Qed.

(** Witness of [ie_import_exact]: the title [What?] loses its question mark. *)
Lemma ie_import_witness : exists fuel fs',
  ImportFavoriteData (lit "C:\Users") import_heap fuel (Some import_vector) 4 old_disk = Ok (ERROR_OK, 3, fs') /\
  disk_map fs' !! (fav_path ++ [lit "News"; lit "What.url"]) = Some (NFile (lit "http://what/")).
Proof.
  destruct (ie_import_exact (lit "C:\Users") import_heap import_vector (lit "C:") fav_names 4 import_targets old_disk
    fav_names_dir eq_refl eq_refl old_disk_ready eq_refl import_targets_of import_targets_good import_no_clash) as [k Hk].
  destruct (Hk k (le_n k)) as (fs' & Hrun & _ & Hfiles & _). exists k, fs'. split; [exact Hrun|].
  destruct (Hfiles (fav_path ++ [lit "News"; lit "What.url"]) (lit "http://what/")) as (c & Hc & Hp); [left|].
  specialize (Hp I). injection Hp as ->. exact Hc.
Defined.
