(* ===== verification/Sqlite.v ===== *)
(** * SQLite as the browser plug-ins use it

    Utility/CppSQLite3/CppSQLite3.cpp over the library itself, which is the class
    [Sqlite] of its calls.  [SqliteLaws] has what the program relies on: statements
    of a small grammar, given by a lexer and a parser, change the tables the way the
    documentation of SQLite says.  A table with an integer key is a map from keys to
    rows, since the order of an unordered [select] is not fixed.  [CodePage] has the
    conversions between wide characters and UTF-8. *)
From stdpp Require Import prelude gmap strings.
From Stdlib Require Import ZArith Lia String.
From S2P Require Import Prelude Strings Favorites.

Inductive sql_value := SqlNull | SqlInt (n : Z) | SqlText (s : str) | SqlBlob (b : list Z).

#[global] Instance sql_value_eq_dec : EqDecision sql_value.
Proof. solve_decision. Defined.

Abbreviation lower := XString.ToLower.

(** ** The grammar of statements *)

Inductive token := TWord (s : str) | TNum (n : Z) | TStr (s : str) | TSym (c : Z).

#[global] Instance token_eq_dec : EqDecision token.
Proof. solve_decision. Defined.

(** What the lexer has begun; the characters are in reverse.  A quote inside a
    string may be its end or the first of two. *)
Inductive lex_state := Start | InWord (r : str) | InNum (r : str) | InStr (r : str) | InQuote (r : str) | InMinus |
  InBracket (r : str).

Definition is_digit (c : Z) : bool := (48 <=? c) && (c <=? 57).

Definition is_word (c : Z) : bool :=
  ((65 <=? c) && (c <=? 90)) || ((97 <=? c) && (c <=? 122)) || (c =? 95) || (128 <=? c).

Definition number (r : str) : Z := StringHelper.atol_digits (rev r) 0.

(** The first character of a token. *)
Definition lex_first (c : Z) : option (lex_state * list token) :=
  if c =? 39 then Some (InStr [], [])
  else if is_digit c then Some (InNum [c], [])
  else if is_word c then Some (InWord [c], [])
  else if c =? 45 then Some (InMinus, [])
  else if c =? 91 then Some (InBracket [], [])
  else if bool_decide (c ∈ [32; 9; 10; 13]) then Some (Start, [])
  else if bool_decide (c ∈ [40; 41; 44; 42; 61; 59]) then Some (Start, [TSym c])
  else None.

Definition emit (t : token) (r : option (lex_state * list token)) : option (lex_state * list token) :=
  '(st, ts) ← r; Some (st, t :: ts).

(** A comment, two signs, is outside the grammar. *)
Definition lex_step (st : lex_state) (c : Z) : option (lex_state * list token) :=
  match st with
  | Start => lex_first c
  | InWord r => if is_word c || is_digit c then Some (InWord (c :: r), []) else emit (TWord (rev r)) (lex_first c)
  | InNum r =>
      if is_digit c then Some (InNum (c :: r), [])
      else if is_word c then None else emit (TNum (number r)) (lex_first c)
  | InStr r => if c =? 39 then Some (InQuote r, []) else Some (InStr (c :: r), [])
  | InQuote r => if c =? 39 then Some (InStr (c :: r), []) else emit (TStr (rev r)) (lex_first c)
  | InMinus => if c =? 45 then None else emit (TSym 45) (lex_first c)
  | InBracket r => if c =? 93 then Some (Start, [TWord (rev r)]) else Some (InBracket (c :: r), [])
  end.

Fixpoint lex_run (st : lex_state) (s : str) : option (lex_state * list token) :=
  match s with
  | [] => Some (st, [])
  | c :: s =>
      '(st, ts) ← lex_step st c;
      '(st, ts') ← lex_run st s;
      Some (st, ts ++ ts')
  end.

Definition lex_end (st : lex_state) : option (list token) :=
  match st with
  | Start => Some []
  | InWord r => Some [TWord (rev r)]
  | InNum r => Some [TNum (number r)]
  | InQuote r => Some [TStr (rev r)]
  | InStr _ | InMinus | InBracket _ => None
  end.

Definition lex (s : str) : option (list token) :=
  '(st, ts) ← lex_run Start s; ts' ← lex_end st; Some (ts ++ ts').

Inductive affinity := AInteger | AText.

#[global] Instance affinity_eq_dec : EqDecision affinity.
Proof. solve_decision. Defined.

(** A column as it is declared: whether it is the key, and whether its values are
    checked to be 0 or 1. *)
Record column := mkColumn { c_name : str; c_affinity : affinity; c_key : bool; c_bit : bool }.

(** The statements: a table or an index made, one row inserted, all rows deleted,
    all rows, their number, and the number of tables with a name. *)
Inductive statement :=
| CreateTable (t : str) (cols : list column)
| CreateIndex (name t col : str)
| Insert (t : str) (names : list str) (vals : list sql_value)
| DeleteAll (t : str)
| SelectAll (t : str)
| SelectCount (t alias : str)
| CountTables (name : str).

Definition keyword (k : string) (t : token) : bool :=
  match t with TWord s => bool_decide (lower s = lit k) | _ => false end.

(** Names up to the closing parenthesis. *)
Fixpoint parse_names (ts : list token) : option (list str * list token) :=
  match ts with
  | TWord n :: TSym c :: ts =>
      if c =? 44 then '(ns, ts) ← parse_names ts; Some (n :: ns, ts)
      else if c =? 41 then Some ([n], ts) else None
  | _ => None
  end.

(** Literals up to the closing parenthesis. *)
Fixpoint parse_values (ts : list token) : option (list sql_value * list token) :=
  match ts with
  | TNum n :: TSym c :: ts =>
      if c =? 44 then '(vs, ts) ← parse_values ts; Some (SqlInt n :: vs, ts)
      else if c =? 41 then Some ([SqlInt n], ts) else None
  | TSym m :: TNum n :: TSym c :: ts =>
      if negb (m =? 45) then None
      else if c =? 44 then '(vs, ts) ← parse_values ts; Some (SqlInt (- n) :: vs, ts)
      else if c =? 41 then Some ([SqlInt (- n)], ts) else None
  | TStr s :: TSym c :: ts =>
      if c =? 44 then '(vs, ts) ← parse_values ts; Some (SqlText s :: vs, ts)
      else if c =? 41 then Some ([SqlText s], ts) else None
  | _ => None
  end.

Definition parse_insert (ts : list token) : option statement :=
  match ts with
  | k1 :: k2 :: TWord t :: TSym 40 :: ts =>
      if keyword "insert" k1 && keyword "into" k2 then
        '(names, ts) ← parse_names ts;
        match ts with
        | k3 :: TSym 40 :: ts =>
            if keyword "values" k3 then
              '(vals, ts) ← parse_values ts;
              match ts with [] => Some (Insert t names vals) | _ :: _ => None end
            else None
        | _ => None
        end
      else None
  | _ => None
  end.

(** The affinities of the types the program declares. *)
Definition type_affinity (ty : str) : option affinity :=
  if bool_decide (lower ty ∈ [lit "integer"; lit "int"; lit "tinyint"; lit "bigint"]) then Some AInteger
  else if bool_decide (lower ty = lit "varchar") then Some AText else None.

(** Columns up to the end of the statement; [cur] is the one that has begun. *)
Fixpoint parse_cols (cur : option column) (ts : list token) : option (list column) :=
  match cur, ts with
  | None, TWord n :: TWord ty :: ts => a ← type_affinity ty; parse_cols (Some (mkColumn n a false false)) ts
  | Some c, [TSym 41; TSym 59] => Some [c]
  | Some c, TSym 44 :: ts => cs ← parse_cols None ts; Some (c :: cs)
  | Some c, TSym 40 :: TNum _ :: TSym 41 :: ts => parse_cols (Some c) ts
  | Some c, k1 :: TSym 40 :: TWord m :: k2 :: TSym 40 :: TNum 0 :: TSym 44 :: TNum 1 :: TSym 41 :: TSym 41 :: ts =>
      if keyword "check" k1 && bool_decide (m = c_name c) && keyword "in" k2
      then parse_cols (Some (mkColumn (c_name c) (c_affinity c) (c_key c) true)) ts else None
  | Some c, k1 :: TNum _ :: ts => if keyword "default" k1 then parse_cols (Some c) ts else None
  | Some c, k1 :: k2 :: k3 :: ts =>
      if keyword "primary" k1 && keyword "key" k2 && keyword "autoincrement" k3
      then parse_cols (Some (mkColumn (c_name c) (c_affinity c) true (c_bit c))) ts else None
  | _, _ => None
  end.

Definition parse_create (ts : list token) : option statement :=
  match ts with
  | [k1; k2; TWord n; k3; TWord t; TSym 40; TWord c; k4; TSym 41; TSym 59] =>
      if keyword "create" k1 && keyword "index" k2 && keyword "on" k3 && keyword "asc" k4
      then Some (CreateIndex n t c) else None
  | k1 :: k2 :: TWord t :: TSym 40 :: ts =>
      if keyword "create" k1 && keyword "table" k2 then cs ← parse_cols None ts; Some (CreateTable t cs) else None
  | _ => None
  end.

Definition parse_tokens (ts : list token) : option statement :=
  match ts with
  | [k1; k2; TWord t] => if keyword "delete" k1 && keyword "from" k2 then Some (DeleteAll t) else None
  | [k1; TSym 42; k2; TWord t] => if keyword "select" k1 && keyword "from" k2 then Some (SelectAll t) else None
  | [k1; k2; TSym 40; TSym 42; TSym 41; k3; TWord a; k4; TWord t] =>
      if keyword "select" k1 && keyword "count" k2 && keyword "as" k3 && keyword "from" k4
      then Some (SelectCount t a) else None
  | [k1; k2; TSym 40; TSym 42; TSym 41; k3; k4; k5; k6; TSym 61; TStr ty; k7; k8; TSym 61; TStr n; TSym 59] =>
      if keyword "select" k1 && keyword "count" k2 && keyword "from" k3 && keyword "sqlite_master" k4 &&
         keyword "where" k5 && keyword "type" k6 && bool_decide (ty = lit "table") && keyword "and" k7 &&
         keyword "name" k8
      then Some (CountTables n) else None
  | _ => match parse_create ts with Some s => Some s | None => parse_insert ts end
  end.

Definition parse_sql (s : str) : option statement := ts ← lex s; parse_tokens ts.

(** ** Tables *)

(** A table with an integer primary key as its first column; [t_bits] names the
    columns whose values are checked to be 0 or 1. *)
Record table := mkTable {
  t_name : str;
  t_cols : list (str * affinity);
  t_bits : list str;
  t_rows : gmap Z (list sql_value)
}.

Definition new_table (t : str) (cols : list column) : table :=
  mkTable t (map (fun c => (c_name c, c_affinity c)) cols) (map c_name (List.filter c_bit cols)) ∅.

Definition with_rows (m : gmap Z (list sql_value)) (t : table) : table :=
  mkTable (t_name t) (t_cols t) (t_bits t) m.

(** The index of a name, compared without regard to case. *)
Fixpoint name_index (names : list str) (n : str) : option nat :=
  match names with
  | [] => None
  | m :: names => if bool_decide (lower n = lower m) then Some O else S <$> name_index names n
  end.

(** A text that SQLite may take for a number. *)
Definition looks_numeric (s : str) : bool :=
  forallb (fun c => is_digit c || bool_decide (c ∈ [43; 45; 46; 69; 101; 32; 9; 10; 13])) s.

(** Values that a column keeps as they are. *)
Definition keeps (a : affinity) (v : sql_value) : bool :=
  match a, v with
  | AInteger, SqlInt n => (- 2 ^ 63 <=? n) && (n <? 2 ^ 63)
  | AInteger, SqlText s => negb (looks_numeric s)
  | AText, SqlText _ => true
  | _, _ => false
  end.

(** The row an [Insert] makes when it names every column: the value given for a
    column. *)
Definition column_value (names : list str) (vals : list sql_value) (c : str) : option sql_value :=
  i ← name_index names c; vals !! i.

Definition insert_row (t : table) (names : list str) (vals : list sql_value) : option (list sql_value) :=
  if forallb (fun n => bool_decide (is_Some (name_index (map fst (t_cols t)) n))) names &&
     (List.length names =? List.length vals)%nat
  then mapM (fun c => column_value names vals (fst c)) (t_cols t)
  else None.

Definition bit_ok (t : table) (row : list sql_value) (c : str) : bool :=
  match column_value (map fst (t_cols t)) row c with
  | Some (SqlInt n) => (n =? 0) || (n =? 1)
  | _ => false
  end.

Definition row_ok (t : table) (row : list sql_value) : bool :=
  forallb (fun cv => keeps (snd (fst cv)) (snd cv)) (zip (t_cols t) row) && forallb (bit_ok t row) (t_bits t).

(** ** The library *)

Definition SQLITE_OK : Z := 0.

(** [sqlite3_select] has the column names and the rows that preparing and stepping
    through a statement gives, and nothing when it is not prepared.  [db_open] opens a
    database in memory, [db_image] is that memory. *)
Class Sqlite (D : Type) := {
  sqlite3_exec : str -> D -> Z * D;
  sqlite3_changes : D -> Z;
  sqlite3_select : str -> D -> option (list str * list (list sql_value));
  db_open : list Z -> D;
  db_image : D -> list Z
}.

Class SqliteLaws (D : Type) `{Sqlite D} := {
  (** the tables by their names in lower case *)
  tables : D -> gmap str table;
  (** nobody else has locked the database, and there is room to write *)
  writable : D -> Prop;
  (** byte 20 of the file format, the space that pages leave unused *)
  reserved : D -> Z;

  sql_create d s t c cols :
    parse_sql s = Some (CreateTable t (c :: cols)) -> writable d -> tables d !! lower t = None ->
    c_key c = true -> Forall (fun c => c_key c = false) cols ->
    exists d', sqlite3_exec s d = (SQLITE_OK, d') /\ writable d' /\ reserved d' = reserved d /\
      tables d' = <[lower t := new_table t (c :: cols)]> (tables d);

  (** there may be an index of that name already *)
  sql_index d s n t c :
    parse_sql s = Some (CreateIndex n t c) -> writable d ->
    exists r d', sqlite3_exec s d = (r, d') /\ writable d' /\ reserved d' = reserved d /\ tables d' = tables d;

  sql_insert d s t names vals tb id row :
    parse_sql s = Some (Insert t names vals) -> writable d -> tables d !! lower t = Some tb ->
    insert_row tb names vals = Some (SqlInt id :: row) -> t_rows tb !! id = None ->
    row_ok tb (SqlInt id :: row) = true ->
    exists d', sqlite3_exec s d = (SQLITE_OK, d') /\ writable d' /\ reserved d' = reserved d /\
      tables d' = <[lower t := with_rows (<[id := SqlInt id :: row]> (t_rows tb)) tb]> (tables d);

  sql_delete d s t tb :
    parse_sql s = Some (DeleteAll t) -> writable d -> tables d !! lower t = Some tb ->
    exists d', sqlite3_exec s d = (SQLITE_OK, d') /\ writable d' /\ reserved d' = reserved d /\
      sqlite3_changes d' = Z.of_nat (size (t_rows tb)) /\
      tables d' = <[lower t := with_rows ∅ tb]> (tables d);

  sql_select d s t tb :
    parse_sql s = Some (SelectAll t) -> tables d !! lower t = Some tb ->
    exists rows, sqlite3_select s d = Some (map fst (t_cols tb), rows) /\
      rows ≡ₚ (map_to_list (t_rows tb)).*2;

  sql_count d s t a tb :
    parse_sql s = Some (SelectCount t a) -> tables d !! lower t = Some tb ->
    sqlite3_select s d = Some ([a], [[SqlInt (Z.of_nat (size (t_rows tb)))]]);

  sql_master d s n :
    parse_sql s = Some (CountTables n) ->
    exists c, sqlite3_select s d =
      Some ([c], [[SqlInt (if bool_decide (t_name <$> tables d !! lower n = Some n) then 1 else 0)]]);

  sql_image d : tables (db_open (db_image d)) = tables d /\ reserved (db_open (db_image d)) = reserved d /\
    (writable d -> writable (db_open (db_image d)));
  sql_bytes d : Forall (fun b => 0 <= b < 256) (db_image d) /\ db_image d !! 20%nat = Some (reserved d)
}.

(** ** CppSQLite3 *)

(** A query at a row: the names of its columns and the values. *)
Record CppSQLite3Query := mkQuery { q_names : list str; q_row : list sql_value }.

Section CppSQLite3.
Context {D : Type} `{Sqlite D}.

(** An exception that nobody catches ends the program. *)
Definition fieldIndex (q : CppSQLite3Query) (szField : string) : outcome nat :=
  match name_index (q_names q) (lit szField) with Some i => Ok i | None => Fault Aborted end.

Definition field (q : CppSQLite3Query) (szField : string) : outcome sql_value :=
  nField ← fieldIndex q szField;
  match q_row q !! nField with Some v => Ok v | None => Fault Aborted end.

(** [sqlite3_column_int] and [sqlite3_column_int64]: the number at the front of a
    text. *)
Definition column_number (v : sql_value) : Z :=
  match v with
  | SqlNull => 0
  | SqlInt n => n
  | SqlText s | SqlBlob s => StringHelper.ConvertToInt s
  end.

Definition getIntField (q : CppSQLite3Query) (szField : string) (nNullValue : Z) : outcome Z :=
  v ← field q szField;
  Ok (match v with SqlNull => nNullValue | _ => i32 (column_number v) end).

Definition getInt64Field (q : CppSQLite3Query) (szField : string) (nNullValue : Z) : outcome Z :=
  v ← field q szField;
  Ok (match v with SqlNull => nNullValue | _ => i64 (column_number v) end).

(** [sqlite3_column_text] *)
Definition column_text (v : sql_value) : str :=
  match v with
  | SqlNull => []
  | SqlInt n => StringHelper.ConvertFromInt n
  | SqlText s | SqlBlob s => c_str s
  end.

Definition getStringField (q : CppSQLite3Query) (szField : string) (szNullValue : option str) : outcome (option str) :=
  v ← field q szField;
  Ok (match v with SqlNull => szNullValue | _ => Some (column_text v) end).

(** The error code of a statement, or the number of rows it changed. *)
Definition execDML (szSQL : str) (d : D) : Z * D :=
  let '(nRet, d) := sqlite3_exec (c_str szSQL) d in
  if nRet =? SQLITE_OK then (sqlite3_changes d, d) else (nRet, d).

Definition execQuery (szSQL : str) (d : D) : outcome (list CppSQLite3Query) :=
  match sqlite3_select (c_str szSQL) d with
  | Some (names, rows) => Ok (map (mkQuery names) rows)
  | None => Fault Aborted
  end.

Definition execScalar (szSQL : str) (d : D) : outcome Z :=
  rows ← execQuery szSQL d;
  match rows with
  | q :: _ =>
      match q_row q with
      | SqlNull :: _ => Fault NullDeref
      | v :: _ => Ok (StringHelper.ConvertToInt (column_text v))
      | [] => Fault Aborted
      end
  | [] => Fault Aborted
  end.

(** [sprintf_s] into 128 bytes *)
Definition tableExists (szTable : str) (d : D) : outcome bool :=
  let szSQL := lit " select count(*) from sqlite_master where type='table' and name='" ++ szTable ++ lit "'; " in
  if (List.length szSQL <? 128)%nat then nRet ← execScalar szSQL d; Ok (0 <? nRet) else Fault Aborted.

End CppSQLite3.

(** ** Code pages *)

(** [StringHelper::UnicodeToUtf8] and [Utf8ToUnicode], calls of Windows.  [utf16] is
    well-formed UTF-16. *)
Class CodePage := {
  UnicodeToUtf8 : wstring -> str;
  Utf8ToUnicode : str -> wstring;
  utf16 : wstring -> Prop;

  utf8_nil : UnicodeToUtf8 [] = [];
  (** a character of ASCII is one byte, whatever is around it *)
  utf8_ascii a c b : 0 < c < 128 -> UnicodeToUtf8 (a ++ c :: b) = UnicodeToUtf8 a ++ c :: UnicodeToUtf8 b;
  (** and such a byte stands for nothing else *)
  utf8_only s c : 0 <= c < 128 -> c ∈ UnicodeToUtf8 s -> c ∈ s;
  utf8_back s : utf16 s -> Utf8ToUnicode (UnicodeToUtf8 s) = s;
  utf16_ascii s : Forall (fun c => 0 < c < 128) s -> utf16 s
}.
