(* ===== verification/SqlPlugIn.v ===== *)
(** * Browser plug-ins over a database

    PlugIn/360SE/360SE3PlugIn.cpp and PlugIn/SogouPlugIn/SogouPlugIn.cpp: favorites in
    a table of a SQLite database, a file for 360SE and an encrypted file, opened in
    memory, for Sogou.  The statements are built as text from the titles and URLs of
    the records.  The state of a plug-in, the records and the database are passed
    explicitly. *)
From stdpp Require Import prelude gmap strings.
From Stdlib Require Import ZArith Lia String.
From S2P Require Import Prelude Strings Favorites PlugInModule TimeHelper SogouDecoder Chrome ChromeImport Sqlite.

Definition ID_VALUE_SOGOU_BEGIN : Z := ID_VALUE_BEGIN (PLUG_ID SOGOU).
Definition ID_VALUE_360_BEGIN : Z := ID_VALUE_BEGIN (PLUG_ID SE360).
Definition ERROR_SQLITE_ERROR : Z := 1.
Definition SQLITE_BUSY : Z := 5.
Definition SQLITE_LOCKED : Z := 6.
Definition ERROR_SQLITE_BUSY : Z := SQLITE_BUSY.
Definition ERROR_FAVORITE_PATH_NOT_EXIST : Z := ERROR_SQLITE_DONE + 3.
Definition MAX_BUFFER_LEN : Z := 4096.

(** ** Shared by both *)

Definition ReplaceSingleQuoteToDoubleQuote (pszOri : wstring) : wstring :=
  map (fun c => if c =? 39 then 34 else c) pszOri.

(** The two calls, which change the record itself. *)
Definition replace_quotes (d : FavoriteLineData) : FavoriteLineData :=
  mkFavorite (nId d) (ReplaceSingleQuoteToDoubleQuote (szTitle d)) (nPid d) (bFolder d)
    (ReplaceSingleQuoteToDoubleQuote (szUrl d)) (nAddTimes d) (nLastModifyTime d) (nClickTimes d) (nHashId d)
    (nOrder d) (bDelete d).

(** [%d] of an [int32] or a [bool], [%u] of an [int32] *)
Definition fmt_d (n : Z) : wstring := StringHelper.ConvertFromInt n.
Definition fmt_b (b : bool) : wstring := fmt_d (if b then 1 else 0).
Definition fmt_u (n : Z) : wstring := StringHelper.ConvertFromInt (u32 n).

(** [swprintf_s(szInsert, MAX_BUFFER_LEN-1, ...)] *)
Definition print_insert (text : wstring) : outcome wstring :=
  if Z.of_nat (List.length text) <? MAX_BUFFER_LEN - 1 then Ok text else Fault Aborted.

Section PlugIns.
Context {D : Type} `{Sqlite D} `{CodePage}.

(** [Utf8ToUnicode(Query.getStringField(szField, 0))]: a [std::string] is made of
    the null pointer of a null value. *)
Definition wide_field (q : CppSQLite3Query) (szField : string) (szNullValue : option str) : outcome wstring :=
  p ← getStringField q szField szNullValue; s ← deref p; Ok (Utf8ToUnicode s).

(** The loop over the rows of a query, for as long as there is room. *)
Fixpoint export_rows (record : CppSQLite3Query -> FavoriteLineData -> outcome FavoriteLineData)
    (ppData : fav_vector) (nDataNum i : Z) (rows : list CppSQLite3Query) (h : heap) : outcome (Z * heap) :=
  match rows with
  | [] => Ok (i, h)
  | q :: rows =>
      if i <? nDataNum then
        h ← store ppData i (record q) h;
        export_rows record ppData nDataNum (i + 1) rows h
      else Ok (i, h)
  end.

(** A record made into a row, unless it is deleted. *)
Definition insert_record (text : FavoriteLineData -> wstring) (st : heap * D) (l : positive) : outcome (heap * D) :=
  let '(h, db) := st in
  d ← load h l;
  if bDelete d then Ok st
  else
    let d := replace_quotes d in
    szInsert ← print_insert (text d);
    Ok (<[l := d]> h, snd (execDML (UnicodeToUtf8 szInsert) db)).

(** ** 360SE *)

Record C360SE3PlugIn := mk360 { m_strFavoritePath : wstring; m_open : bool }.

(** [pszAppData] is [PathHelper::GetAppDataDir()], [IsFileExist] the call of
    [FileHelper]. *)
Definition se_GetFavoriteDataPath (pszAppData : option wstring) (IsFileExist : wstring -> bool) (p : C360SE3PlugIn) :
    option wstring * C360SE3PlugIn :=
  if bool_decide (m_strFavoritePath p <> []) then (Some (m_strFavoritePath p), p)
  else
    match pszAppData with
    | None => (None, p)
    | Some pszPath =>
        let strPath := pszPath ++ lit "\360se\data\360sefav.db" in
        if IsFileExist strPath then (Some strPath, mk360 strPath (m_open p)) else (None, p)
    end.

(** [if( m_SqliteDatabase.IsOpen() == FALSE) m_SqliteDatabase.open(pszPath, "")] *)
Definition se_open (p : C360SE3PlugIn) : C360SE3PlugIn := mk360 (m_strFavoritePath p) true.

Definition se_record (q : CppSQLite3Query) (d : FavoriteLineData) : outcome FavoriteLineData :=
  id ← getIntField q "id" 0;
  pid ← getIntField q "parent_id" 0;
  let nPid := if negb (pid =? 0) then i32 (pid + ID_VALUE_360_BEGIN) else pid in
  folder ← getIntField q "is_folder" 0;
  t ← wide_field q "title" None;
  szTitle ← wcscpy_s t;
  u ← wide_field q "url" None;
  szUrl ← wcscpy_s u;
  nOrder ← getIntField q "pos" 0;
  nAddTimes ← getInt64Field q "create_time" 0;
  nLastModifyTime ← getInt64Field q "last_modify_time" 0;
  hash ← hash_title szTitle (nHashId d);
  Ok (mkFavorite (i32 (id + ID_VALUE_360_BEGIN)) szTitle nPid (negb (folder =? 0)) szUrl nAddTimes nLastModifyTime
        (nClickTimes d) hash nOrder false).

Section Browser360.
Context (pszAppData : option wstring) (IsFileExist : wstring -> bool).

Definition se_ExportFavoriteData (ppData : option fav_vector) (nDataNum : Z) (h : heap) (p : C360SE3PlugIn) (db : D) :
    outcome (bool * Z * heap * C360SE3PlugIn) :=
  match ppData with
  | None => Ok (false, nDataNum, h, p)
  | Some ppData =>
      if nDataNum =? 0 then Ok (false, nDataNum, h, p)
      else
        let '(pszPath, p) := se_GetFavoriteDataPath pszAppData IsFileExist p in
        match pszPath with
        | None => Ok (false, nDataNum, h, p)
        | Some _ =>
            let p := se_open p in
            rows ← execQuery (lit "select * from tb_fav") db;
            r ← export_rows se_record ppData nDataNum 0 rows h;
            Ok (true, fst r, snd r, p)
        end
  end.

Definition tabs : str := replicate 5 9 ++ replicate 4 32.

Definition create_tb_fav : str :=
  lit "CREATE TABLE [tb_fav] ([id] INTEGER PRIMARY KEY AUTOINCREMENT, " ++ tabs ++
  lit "[parent_id] int default 0,[is_folder] tinyint check(is_folder in (0,1)),[title] varchar(256), " ++ tabs ++
  lit "[url] varchar(1024),[pos] int default 0,[create_time] bigint,[last_modify_time] bigint default 0, " ++ tabs ++
  lit "[is_best] tinyint default 0,[reserved] int default 0);".

Definition CreateFavoriteTable (db : D) : D :=
  let db := snd (execDML create_tb_fav db) in
  snd (execDML (lit "CREATE INDEX parent_id_index ON tb_fav(parent_id ASC);") db).

Definition se_insert (d : FavoriteLineData) : wstring :=
  lit "insert into tb_fav" ++
  lit "(id,parent_id,is_folder,title,url,pos,create_time,last_modify_time,is_best,reserved)" ++
  lit " values(" ++ fmt_d (nId d) ++ lit "," ++ fmt_d (nPid d) ++ lit "," ++ fmt_b (bFolder d) ++ lit ",'" ++
  szTitle d ++ lit "','" ++ szUrl d ++ lit "'," ++ fmt_d (nOrder d) ++ lit ",'" ++ lit "2011-05-11 12:00:00" ++
  lit "'," ++ lit "'" ++ lit "2011-05-11 12:00:00" ++ lit "'," ++ fmt_d 0 ++ lit ",0)".

(** A null entry is passed over. *)
Definition se_insert_at (ppData : fav_vector) (st : heap * D) (i : Z) : outcome (heap * D) :=
  p ← vec_at ppData i;
  match p with
  | None => Ok st
  | Some l => insert_record se_insert st l
  end.

(** [SaveDatabase] does nothing. *)
Definition se_ImportFavoriteData (ppData : option fav_vector) (nDataNum : Z) (h : heap) (p : C360SE3PlugIn) (db : D) :
    outcome (Z * heap * C360SE3PlugIn * D) :=
  match ppData with
  | None => Ok (ERROR_INVALID_PARAM, h, p, db)
  | Some ppData =>
      if nDataNum =? 0 then Ok (ERROR_INVALID_PARAM, h, p, db)
      else
        let '(pszPath, p) := se_GetFavoriteDataPath pszAppData IsFileExist p in
        match pszPath with
        | None => Ok (ERROR_FAVORITE_PATH_NOT_EXIST, h, p, db)
        | Some _ =>
            let p := se_open p in
            found ← tableExists (lit "tb_fav") db;
            let '(nRet, db) := if found : bool then execDML (lit "delete from tb_fav") db else (0, CreateFavoriteTable db) in
            if found && ((nRet =? SQLITE_BUSY) || (nRet =? SQLITE_LOCKED)) then Ok (ERROR_SQLITE_BUSY, h, p, db)
            else
              r ← for_each (se_insert_at ppData) (h, db) (seqZ 0 nDataNum);
              Ok (ERROR_OK, fst r, p, snd r)
        end
  end.

Definition se_GetFavoriteCount (p : C360SE3PlugIn) (db : D) : outcome (Z * C360SE3PlugIn) :=
  let '(pszPath, p) := se_GetFavoriteDataPath pszAppData IsFileExist p in
  match pszPath with
  | None => Ok (0, p)
  | Some _ =>
      let p := se_open p in
      found ← tableExists (lit "tb_fav") db;
      if negb found then Ok (0, p)
      else
        rows ← execQuery (lit "select count(*) as Total from tb_fav") db;
        q ← vec_at rows 0;
        nTotal ← getIntField q "Total" 0;
        Ok (nTotal, p)
  end.
End Browser360.

(** ** Sogou *)

(** [m_pMemFavoriteDB] has the memory of the database.  A file that does not exist is
    [None]. *)
Definition sg_Load (file : option (list Z)) (mem : option (list Z)) : outcome (bool * option (list Z)) :=
  r ← decode file;
  Ok (match r with Some strDecodeContent => (true, Some strDecodeContent) | None => (false, mem) end).

(** The copy that [UnLoad] writes to b.db is left out. *)
Definition sg_UnLoad (mem : option (list Z)) : bool * option (list Z) :=
  match mem with Some _ => (true, None) | None => (false, None) end.

Definition sg_IsWorked (mem : option (list Z)) : outcome bool :=
  match mem with
  | Some m => tableExists (lit "favorTable") (db_open m)
  | None => Ok false
  end.

(** [_tcsncpy_s(dst, MAX_LENGTH - 1, src, MAX_LENGTH - 2)] cuts a longer source. *)
Definition tcsncpy_s (src : wstring) : wstring := take (Z.to_nat (MAX_LENGTH - 2)) src.

Section Sogou.
Context (mktime : tm -> Z).

(** A time as text, the null value's when there is none. *)
Definition sg_time (q : CppSQLite3Query) (szField : string) : outcome Z :=
  s ← wide_field q szField (Some (lit "2011-05-11 21:00:00"));
  t ← GetTimeFromStr2 s;
  Ok (SysTime2Time mktime t).

Definition sg_record (q : CppSQLite3Query) (d : FavoriteLineData) : outcome FavoriteLineData :=
  id ← getIntField q "id" 0;
  pid ← getIntField q "pid" 0;
  let nPid := if negb (pid =? 0) then i32 (pid + ID_VALUE_SOGOU_BEGIN) else pid in
  folder ← getIntField q "folder" 0;
  t ← wide_field q "title" None;
  let szTitle := tcsncpy_s t in
  u ← wide_field q "url" None;
  let szUrl := tcsncpy_s u in
  nOrder ← getIntField q "sequenceNO" 0;
  nAddTimes ← sg_time q "addTime";
  nLastModifyTime ← sg_time q "lastmodify";
  hash ← hash_title szTitle (nHashId d);
  Ok (mkFavorite (i32 (id + ID_VALUE_SOGOU_BEGIN)) szTitle nPid (negb (folder =? 0)) szUrl nAddTimes nLastModifyTime
        (nClickTimes d) hash nOrder false).

(** [ppData == NULL || *ppData == NULL || nDataNum == 0] *)
Definition sg_ExportFavoriteData (ppData : option fav_vector) (nDataNum : Z) (h : heap) (mem : option (list Z)) :
    outcome (bool * Z * heap) :=
  match ppData with
  | None => Ok (false, nDataNum, h)
  | Some ppData =>
      first ← vec_at ppData 0;
      if bool_decide (first = None) || (nDataNum =? 0) then Ok (false, nDataNum, h)
      else
        match mem with
        | Some m =>
            rows ← execQuery (lit "select * from FavorTable") (db_open m);
            r ← export_rows sg_record ppData nDataNum 0 rows h;
            Ok (true, fst r, snd r)
        | None => Ok (false, nDataNum, h)
        end
  end.
End Sogou.

Definition sg_insert (d : FavoriteLineData) : wstring :=
  lit "insert into favorTable" ++
  lit "(id,pid,folder,title,url,sequenceNo,addtime,lastmodify,hashid,category,reserved)" ++
  lit "values(" ++ fmt_d (nId d) ++ lit "," ++ fmt_d (nPid d) ++ lit "," ++ fmt_b (bFolder d) ++ lit ",'" ++
  szTitle d ++ lit "','" ++ szUrl d ++ lit "'," ++ fmt_d (nOrder d) ++ lit ",'" ++ lit "2011-05-11 12:00:00" ++
  lit "'," ++ lit "'" ++ lit "2011-05-11 12:00:00" ++ lit "'," ++ fmt_u (nHashId d) ++ lit "," ++ fmt_d 0 ++ lit ",0)".

Definition sg_insert_at (ppData : fav_vector) (st : heap * D) (i : Z) : outcome (heap * D) :=
  p ← vec_at ppData i; l ← deref p; insert_record sg_insert st l.

(** [None] leaves the file as it was. *)
Definition sg_SaveDatabase (mem : option (list Z)) : outcome (bool * option (list Z)) :=
  match mem with
  | None => Ok (false, None)
  | Some strEncode =>
      file ← encode strEncode;
      Ok (bool_decide (is_Some file), file)
  end.

(** The statements write through to the memory; [file] is the file that
    [SaveDatabase] writes. *)
Definition sg_ImportFavoriteData (ppData : option fav_vector) (nDataNum : Z) (h : heap) (mem file : option (list Z)) :
    outcome (Z * heap * option (list Z) * option (list Z)) :=
  match ppData with
  | None => Ok (ERROR_INVALID_PARAM, h, mem, file)
  | Some ppData =>
      if nDataNum =? 0 then Ok (ERROR_INVALID_PARAM, h, mem, file)
      else
        match mem with
        | Some m =>
            let db := snd (execDML (UnicodeToUtf8 (lit "delete from favorTable")) (db_open m)) in
            r ← for_each (sg_insert_at ppData) (h, db) (seqZ 0 nDataNum);
            let mem := Some (db_image (snd r)) in
            saved ← sg_SaveDatabase mem;
            Ok (ERROR_OK, fst r, mem, match snd saved with Some f => Some f | None => file end)
        | None => Ok (ERROR_SQLITE_ERROR, h, mem, file)
        end
  end.

Definition sg_GetFavoriteCount (mem : option (list Z)) : outcome Z :=
  match mem with
  | Some m =>
      rows ← execQuery (lit "select count(*) as Total from FavorTable") (db_open m);
      q ← vec_at rows 0;
      getIntField q "Total" 0
  | None => Ok 0
  end.

End PlugIns.
