(* ===== verification/SqlText.v ===== *)
(** * The statements the plug-ins build

    A statement is the text of its table, columns and values; the lexer and the parser
    of [Sqlite] read it back as these, whatever characters the titles and URLs have,
    since their quotes were replaced: no title can end its literal and change the
    statement. *)
From stdpp Require Import prelude gmap strings.
From Stdlib Require Import ZArith Lia String.
From S2P Require Import Prelude Strings Favorites Sqlite SqlPlugIn.

(** ** The lexer over a text in pieces *)

Lemma lex_run_app st a b st1 ts1 st2 ts2 :
  lex_run st a = Some (st1, ts1) -> lex_run st1 b = Some (st2, ts2) ->
  lex_run st (a ++ b) = Some (st2, ts1 ++ ts2).
Proof.
  revert st ts1. induction a as [|c a IH]; intros st ts1 Ha Hb; simpl in *; [by simplify_eq|].
  destruct (lex_step st c) as [[st' ts]|]; [|done]. simpl in *.
  destruct (lex_run st' a) as [[st'' ts']|] eqn:E; [|done]. simpl in *. simplify_eq.
  rewrite (IH _ _ E Hb). simpl. by rewrite app_assoc.
Qed.

(** The text of a literal, of the values of a row and of the tokens they give. *)
Definition render (v : sql_value) : str :=
  match v with
  | SqlInt n => StringHelper.ConvertFromInt n
  | SqlText s => [39] ++ s ++ [39]
  | _ => []
  end.

(** Literals that [render] writes so that they can be read. *)
Definition literal (v : sql_value) : Prop :=
  match v with
  | SqlInt n => - 10 ^ 11 < n < 10 ^ 11
  | SqlText s => 39 ∉ s
  | _ => False
  end.

Definition value_tokens (v : sql_value) : list token :=
  match v with
  | SqlInt n => if n <? 0 then [TSym 45; TNum (- n)] else [TNum n]
  | SqlText s => [TStr s]
  | _ => []
  end.

Fixpoint render_values (vs : list sql_value) : str :=
  match vs with
  | [] => []
  | [v] => render v ++ [41]
  | v :: vs => render v ++ [44] ++ render_values vs
  end.

Fixpoint values_tokens (vs : list sql_value) : list token :=
  match vs with
  | [] => []
  | [v] => value_tokens v ++ [TSym 41]
  | v :: vs => value_tokens v ++ [TSym 44] ++ values_tokens vs
  end.

Lemma lex_digits r s : Forall (fun c => 48 <= c <= 57) s ->
  lex_run (InNum r) s = Some (InNum (rev s ++ r), []).
Proof.
  revert r. induction s as [|c s IH]; intros r Hs; [done|]. apply Forall_cons in Hs as [Hc Hs].
  simpl. unfold is_digit. replace ((48 <=? c) && (c <=? 57)) with true by lia. simpl. rewrite IH by done.
  simpl. by rewrite <- app_assoc.
Qed.

Lemma lex_number n c : 0 <= n < 10 ^ 11 -> c = 44 \/ c = 41 ->
  lex_run Start (StringHelper.ConvertFromInt n ++ [c]) = Some (Start, [TNum n; TSym c]).
Proof.
  intros Hn Hc. destruct (ConvertFromInt_digits n Hn) as (E & Hd & Hne). pose proof (int_back n Hn) as Hb.
  rewrite (ConvertToInt_digits _ Hd) in Hb.
  destruct (StringHelper.ConvertFromInt n) as [|x s] eqn:Es; [done|].
  apply (lex_run_app _ _ _ (InNum (rev (x :: s))) []).
  - apply Forall_cons in Hd as [Hx Hs]. simpl. unfold lex_first, is_digit.
    replace (x =? 39) with false by lia. replace ((48 <=? x) && (x <=? 57)) with true by lia. simpl.
    by rewrite lex_digits.
  - assert (Ht : lex_step (InNum (rev (x :: s))) c = Some (Start, [TNum (number (rev (x :: s))); TSym c]))
      by (destruct Hc as [-> | ->]; reflexivity).
    cbn [lex_run]. rewrite Ht. unfold number. rewrite rev_involutive, Hb. done.
Qed.

Lemma lex_string r s : 39 ∉ s -> lex_run (InStr r) s = Some (InStr (rev s ++ r), []).
Proof.
  revert r. induction s as [|c s IH]; intros r Hs; [done|]. apply not_elem_of_cons in Hs as [Hc Hs].
  simpl. replace (c =? 39) with false by lia. simpl. rewrite IH by done. simpl. by rewrite <- app_assoc.
Qed.

Lemma lex_value v c : literal v -> c = 44 \/ c = 41 ->
  lex_run Start (render v ++ [c]) = Some (Start, value_tokens v ++ [TSym c]).
Proof.
  intros Hv Hc. destruct v as [|n|s|b]; simpl in Hv; try done; cbn [render value_tokens].
  - destruct (Z.ltb_spec n 0) as [Hn|Hn]; [|by apply lex_number; [lia|]].
    assert (E : StringHelper.ConvertFromInt n = 45 :: StringHelper.ConvertFromInt (- n)).
    { unfold StringHelper.ConvertFromInt. replace (n <? 0) with true by lia. by replace (- n <? 0) with false by lia. }
    rewrite E. assert (Hb : 0 <= - n < 10 ^ 11) by lia. pose proof (lex_number (- n) c Hb Hc) as H.
    destruct (ConvertFromInt_digits (- n) Hb) as (_ & Hd & Hne).
    destruct (StringHelper.ConvertFromInt (- n)) as [|x s]; [done|]. apply Forall_cons in Hd as [Hx Hs].
    rewrite <- !app_comm_cons in *. cbn [lex_run] in *. cbn [lex_step] in *.
    change (lex_first 45) with (Some (InMinus, @nil token)). simpl mbind. cbn [lex_step].
    replace (x =? 45) with false by lia.
    destruct (lex_first x) as [[st ts]|]; [|done]. simpl in *.
    destruct (lex_run st (s ++ [c])) as [[st' ts']|]; [|done]. simpl in *. by injection H as -> ->.
  - rewrite <- !app_assoc.
    apply (lex_run_app _ [39] _ (InStr []) []); [done|].
    apply (lex_run_app _ s _ (InStr (rev s)) []); [by rewrite lex_string, app_nil_r|].
    destruct Hc as [-> | ->]; simpl; by rewrite rev_involutive.
Qed.

Lemma lex_values vs : vs <> [] -> Forall literal vs ->
  lex_run Start (render_values vs) = Some (Start, values_tokens vs).
Proof.
  induction vs as [|v vs IH]; intros Hne Hl; [done|]. apply Forall_cons in Hl as [Hv Hl].
  destruct vs as [|w vs]; [by apply lex_value; auto|].
  change (lex_run Start (render v ++ [44] ++ render_values (w :: vs)) =
          Some (Start, value_tokens v ++ [TSym 44] ++ values_tokens (w :: vs))).
  rewrite !app_assoc. eapply lex_run_app; [by apply lex_value; auto|by apply IH].
Qed.

Lemma parse_values_tokens vs : vs <> [] -> Forall literal vs -> parse_values (values_tokens vs) = Some (vs, []).
Proof.
  induction vs as [|v vs IH]; intros Hne Hl; [done|]. apply Forall_cons in Hl as [Hv Hl].
  destruct vs as [|w vs].
  - destruct v as [|n|s|b]; simpl in *; try done. destruct (Z.ltb_spec n 0); simpl; [|done]. by rewrite Z.opp_involutive.
  - specialize (IH ltac:(done) Hl).
    change (parse_values (value_tokens v ++ [TSym 44] ++ values_tokens (w :: vs)) = Some (v :: w :: vs, [])).
    revert IH. generalize (values_tokens (w :: vs)). intros us IH.
    destruct v as [|n|s|b]; simpl in Hv; try done; simpl.
    + destruct (Z.ltb_spec n 0); simpl; rewrite IH; simpl; [|done]. by rewrite Z.opp_involutive.
    + by rewrite IH.
Qed.

(** An insert statement reads as its table, names and values. *)
Lemma parse_insert_text hd t names ts vs :
  lex_run Start hd = Some (Start, ts) ->
  (forall us, us <> [] -> parse_tokens (ts ++ us) =
     '(vals, us) ← parse_values us; match us with [] => Some (Insert t names vals) | _ :: _ => None end) ->
  vs <> [] -> Forall literal vs ->
  parse_sql (hd ++ render_values vs) = Some (Insert t names vs).
Proof.
  intros Hhd Hp Hne Hl. unfold parse_sql, lex. rewrite (lex_run_app _ _ _ _ _ _ _ Hhd (lex_values vs Hne Hl)).
  simpl. rewrite app_nil_r, Hp, parse_values_tokens; [done|done|done|].
  destruct vs as [|v [|w vs]]; [done| |]; apply Forall_cons in Hl as [Hv _]; destruct v; simpl in *;
    try done; by destruct (_ <? 0).
Qed.

(** ** Text in UTF-8 *)

Abbreviation ascii_text := (Forall (fun c => 0 < c < 128)).

Definition asciib (s : str) : bool := forallb (fun c => (0 <? c) && (c <? 128)) s.

Lemma asciib_spec s : asciib s = true -> ascii_text s.
Proof. intros E. rewrite Forall_forall. intros c Hc. unfold asciib in E. rewrite forallb_forall in E.
  specialize (E c). rewrite <- list_elem_of_In in E. specialize (E Hc). lia. Qed.

Lemma int_ascii n : - 10 ^ 11 < n < 10 ^ 11 -> ascii_text (StringHelper.ConvertFromInt n).
Proof.
  intros Hn. assert (Hd : forall m, 0 <= m < 10 ^ 11 -> ascii_text (StringHelper.ConvertFromInt m)).
  { intros m Hm. destruct (ConvertFromInt_digits m Hm) as (_ & Hd & _). eapply Forall_impl; [exact Hd|]. simpl. lia. }
  destruct (Z.ltb_spec n 0) as [H0|H0]; [|by apply Hd; lia].
  assert (E : StringHelper.ConvertFromInt n = 45 :: StringHelper.ConvertFromInt (- n)).
  { unfold StringHelper.ConvertFromInt. replace (n <? 0) with true by lia. by replace (- n <? 0) with false by lia. }
  rewrite E. constructor; [lia|]. apply Hd. lia.
Qed.

Lemma int_length n : - 10 ^ 11 < n < 10 ^ 11 -> (List.length (StringHelper.ConvertFromInt n) <= 12)%nat.
Proof.
  assert (Hd : forall fuel m acc, (List.length (StringHelper.digits fuel m acc) <= fuel + List.length acc)%nat).
  { induction fuel as [|fuel IH]; intros m acc; simpl; [lia|]. destruct (m <? 10); simpl; [lia|].
    specialize (IH (m / 10) (48 + m mod 10 :: acc)). simpl in IH. lia. }
  intros _. unfold StringHelper.ConvertFromInt. destruct (n <? 0); [cbn [List.length]; specialize (Hd 11%nat (- n) [])|
    specialize (Hd 11%nat n [])]; simpl List.length in Hd at 2; lia.
Qed.

Section Utf8.
Context `{CodePage}.

Lemma utf8_front l b : ascii_text l -> UnicodeToUtf8 (l ++ b) = l ++ UnicodeToUtf8 b.
Proof.
  induction 1 as [|c l Hc _ IH]; [done|].
  change ((c :: l) ++ b) with ([] ++ c :: (l ++ b)). rewrite utf8_ascii, utf8_nil, IH by done. done.
Qed.

Lemma utf8_mid a l b : ascii_text l -> l <> [] -> UnicodeToUtf8 (a ++ l ++ b) = UnicodeToUtf8 a ++ l ++ UnicodeToUtf8 b.
Proof.
  intros Hl Hne. destruct Hl as [|c l Hc Hl]; [done|]. simpl. rewrite utf8_ascii by done. by rewrite utf8_front.
Qed.

Lemma utf8_lit l : ascii_text l -> UnicodeToUtf8 l = l.
Proof. intros Hl. pose proof (utf8_front l [] Hl) as E. by rewrite utf8_nil, !app_nil_r in E. Qed.

(** The text around two wide strings. *)
Lemma utf8_statement a t b u c : ascii_text a -> ascii_text b -> ascii_text c -> b <> [] -> c <> [] ->
  UnicodeToUtf8 (a ++ t ++ b ++ u ++ c) = a ++ UnicodeToUtf8 t ++ b ++ UnicodeToUtf8 u ++ c.
Proof.
  intros Ha Hb Hc Hb0 Hc0. rewrite utf8_front, utf8_mid by done.
  rewrite <- (app_nil_r c) at 1. rewrite (utf8_mid u c []) by done. by rewrite utf8_nil, app_nil_r.
Qed.

Lemma utf8_clean s : 0 ∉ s -> 0 ∉ UnicodeToUtf8 s.
Proof. intros Hs Hin. apply Hs, (utf8_only s); [lia|done]. Qed.

Lemma utf8_no_quote s : 39 ∉ s -> 39 ∉ UnicodeToUtf8 s.
Proof. intros Hs Hin. apply Hs, (utf8_only s); [lia|done]. Qed.

(** What [int32] fields and character arrays can hold. *)
Definition field_range (n : Z) : Prop := - 2 ^ 31 <= n < 2 ^ 31.

Definition buffer_text (s : wstring) : Prop := Z.of_nat (List.length s) < MAX_LENGTH /\ 0 ∉ s.

Record stored_record (d : FavoriteLineData) : Prop := {
  sr_id : field_range (nId d);
  sr_pid : field_range (nPid d);
  sr_order : field_range (nOrder d);
  sr_title : buffer_text (szTitle d);
  sr_url : buffer_text (szUrl d)
}.

Lemma quotes_gone s : 39 ∉ ReplaceSingleQuoteToDoubleQuote s.
Proof.
  intros Hin. apply list_elem_of_fmap in Hin as (c & Hc & _). destruct (Z.eqb_spec c 39); lia.
Qed.

Lemma quotes_buffer s : buffer_text s -> buffer_text (ReplaceSingleQuoteToDoubleQuote s).
Proof.
  intros [Hl Hz]. split; [by unfold ReplaceSingleQuoteToDoubleQuote; rewrite length_map|].
  intros Hin. apply list_elem_of_fmap in Hin as (c & Hc & Hin). destruct (Z.eqb_spec c 39); [lia|]. by subst.
Qed.

Lemma quotes_stored d : stored_record d -> stored_record (replace_quotes d).
Proof. intros [H1 H2 H3 H4 H5]. split; simpl; try done; by apply quotes_buffer. Qed.

Definition bit (b : bool) : Z := if b then 1 else 0.

Definition import_date : str := lit "2011-05-11 12:00:00".

(** The values of the two statements for a record. *)
Definition se_values (d : FavoriteLineData) : list sql_value :=
  [SqlInt (nId d); SqlInt (nPid d); SqlInt (bit (bFolder d)); SqlText (UnicodeToUtf8 (szTitle d));
   SqlText (UnicodeToUtf8 (szUrl d)); SqlInt (nOrder d); SqlText import_date; SqlText import_date; SqlInt 0; SqlInt 0].

Definition sg_values (d : FavoriteLineData) : list sql_value :=
  [SqlInt (nId d); SqlInt (nPid d); SqlInt (bit (bFolder d)); SqlText (UnicodeToUtf8 (szTitle d));
   SqlText (UnicodeToUtf8 (szUrl d)); SqlInt (nOrder d); SqlText import_date; SqlText import_date;
   SqlInt (u32 (nHashId d)); SqlInt 0; SqlInt 0].

Definition se_names : list str := map lit ["id"; "parent_id"; "is_folder"; "title"; "url"; "pos"; "create_time";
  "last_modify_time"; "is_best"; "reserved"]%string.

Definition sg_names : list str := map lit ["id"; "pid"; "folder"; "title"; "url"; "sequenceNo"; "addtime";
  "lastmodify"; "hashid"; "category"; "reserved"]%string.

Lemma values_literal d l : stored_record d -> 39 ∉ szTitle d -> 39 ∉ szUrl d -> Forall literal l ->
  Forall literal ([SqlInt (nId d); SqlInt (nPid d); SqlInt (bit (bFolder d)); SqlText (UnicodeToUtf8 (szTitle d));
   SqlText (UnicodeToUtf8 (szUrl d)); SqlInt (nOrder d); SqlText import_date; SqlText import_date] ++ l).
Proof.
  intros [H1 H2 H3 H4 H5] Ht Hu Hl. unfold field_range in *.
  apply Forall_app. split; [|done].
  assert (Hb : - 10 ^ 11 < bit (bFolder d) < 10 ^ 11) by (unfold bit; destruct (bFolder d); lia).
  assert (Hd : 39 ∉ import_date) by (apply (bool_decide_unpack _); vm_compute; exact I).
  repeat constructor; simpl; try lia; try done; by apply utf8_no_quote.
Qed.

(** ** Both statements have one shape: a head, the values they share, and a tail. *)

Definition row_text (hd tail : str) (d : FavoriteLineData) : wstring :=
  (hd ++ fmt_d (nId d) ++ lit "," ++ fmt_d (nPid d) ++ lit "," ++ fmt_b (bFolder d) ++ lit ",'") ++ szTitle d ++
  lit "','" ++ szUrl d ++ (lit "'," ++ fmt_d (nOrder d) ++ lit ",'" ++ import_date ++ lit "','" ++ import_date ++
  lit "'," ++ tail).

Definition row_values (d : FavoriteLineData) (l : list sql_value) : list sql_value :=
  [SqlInt (nId d); SqlInt (nPid d); SqlInt (bit (bFolder d)); SqlText (UnicodeToUtf8 (szTitle d));
   SqlText (UnicodeToUtf8 (szUrl d)); SqlInt (nOrder d); SqlText import_date; SqlText import_date] ++ l.

Lemma fmt_ascii n : field_range n -> ascii_text (fmt_d n).
Proof. unfold field_range. intros Hn. apply int_ascii. lia. Qed.

Lemma date_ascii : ascii_text import_date.
Proof. by apply asciib_spec. Qed.

Lemma bit_ascii b : ascii_text (fmt_b b).
Proof. destruct b; by apply asciib_spec. Qed.

Lemma row_text_utf8 hd tail d v l : ascii_text hd -> ascii_text tail -> tail = render_values (v :: l) ->
  stored_record d -> UnicodeToUtf8 (row_text hd tail d) = hd ++ render_values (row_values d (v :: l)).
Proof.
  intros Hhd Ht -> [H1 H2 H3 H4 H5]. unfold row_text.
  pose proof (fmt_ascii _ H1). pose proof (fmt_ascii _ H2). pose proof (fmt_ascii _ H3).
  pose proof date_ascii. pose proof (bit_ascii (bFolder d)).
  rewrite utf8_statement; [|by repeat apply Forall_app_2; try done; apply asciib_spec..|done|done].
  unfold row_values, fmt_d, fmt_b, bit. simpl render_values. rewrite <- !app_assoc. simpl.
  repeat (f_equal; [done|]). done.
Qed.

Lemma row_text_clean hd tail d : ascii_text hd -> ascii_text tail -> stored_record d -> 0 ∉ row_text hd tail d.
Proof.
  intros Hhd Ht [H1 H2 H3 [_ H4] [_ H5]]. unfold row_text.
  assert (Ha : forall l, ascii_text l -> 0 ∉ l) by (intros l Hl Hin; rewrite Forall_forall in Hl; specialize (Hl _ Hin); lia).
  pose proof (Ha _ (fmt_ascii _ H1)). pose proof (Ha _ (fmt_ascii _ H2)). pose proof (Ha _ (fmt_ascii _ H3)).
  pose proof (Ha _ date_ascii). pose proof (Ha _ (bit_ascii (bFolder d))).
  pose proof (Ha _ Hhd). pose proof (Ha _ Ht).
  rewrite !not_elem_of_app. repeat split; try done; apply Ha; by apply asciib_spec.
Qed.

Lemma row_text_fits hd tail d : (List.length hd <= 300)%nat -> (List.length tail <= 40)%nat -> stored_record d ->
  print_insert (row_text hd tail d) = Ok (row_text hd tail d).
Proof.
  intros Hhd Ht [H1 H2 H3 [H4 _] [H5 _]]. unfold print_insert, field_range, MAX_BUFFER_LEN, MAX_LENGTH in *.
  assert (Hl : forall n, - 2 ^ 31 <= n < 2 ^ 31 -> (List.length (fmt_d n) <= 12)%nat) by (intros n Hn; apply int_length; lia).
  pose proof (Hl _ H1). pose proof (Hl _ H2). pose proof (Hl _ H3).
  assert (List.length (fmt_b (bFolder d)) = 1%nat) by (by destruct (bFolder d)).
  unfold row_text. rewrite !length_app. rewrite (proj2 (Z.ltb_lt _ _)); [done|]. simpl. lia.
Qed.

Definition se_head : str :=
  lit "insert into tb_fav(id,parent_id,is_folder,title,url,pos,create_time,last_modify_time,is_best,reserved) values(".

Definition sg_head : str :=
  lit "insert into favorTable(id,pid,folder,title,url,sequenceNo,addtime,lastmodify,hashid,category,reserved)values(".

Lemma se_insert_text d : se_insert d = row_text se_head (render_values [SqlInt 0; SqlInt 0]) d.
Proof. unfold se_insert, row_text. rewrite <- !app_assoc. reflexivity. Qed.

Lemma sg_insert_text d :
  sg_insert d = row_text sg_head (render_values [SqlInt (u32 (nHashId d)); SqlInt 0; SqlInt 0]) d.
Proof. unfold sg_insert, row_text, fmt_u. rewrite <- !app_assoc. reflexivity. Qed.

Lemma sg_tail_ascii n : ascii_text (render_values [SqlInt (u32 n); SqlInt 0; SqlInt 0]).
Proof.
  simpl. repeat apply Forall_app_2; [apply int_ascii; pose proof (u32_range n); lia|by apply asciib_spec].
Qed.

(** The text of a record's statement fits the buffer and reads as the statement that
    was meant. *)
Lemma se_insert_reads d : stored_record d -> 39 ∉ szTitle d -> 39 ∉ szUrl d ->
  print_insert (se_insert d) = Ok (se_insert d) /\
  parse_sql (c_str (UnicodeToUtf8 (se_insert d))) = Some (Insert (lit "tb_fav") se_names (se_values d)).
Proof.
  intros Hd Ht Hu. rewrite se_insert_text.
  assert (Ha : ascii_text se_head) by (by apply asciib_spec).
  assert (Hb : ascii_text (render_values [SqlInt 0; SqlInt 0])) by (by apply asciib_spec).
  split; [by apply row_text_fits; [apply (bool_decide_unpack _); vm_compute; exact I..|]|].
  rewrite c_str_id by (by apply utf8_clean, row_text_clean).
  rewrite (row_text_utf8 _ _ _ (SqlInt 0) [SqlInt 0]) by done.
  eapply parse_insert_text; [vm_compute; reflexivity| |done|].
  - intros us Hus. destruct us; [done|]. reflexivity.
  - apply values_literal; [done..|]. repeat constructor; simpl; lia.
Qed.

Lemma sg_insert_reads d : stored_record d -> 39 ∉ szTitle d -> 39 ∉ szUrl d ->
  print_insert (sg_insert d) = Ok (sg_insert d) /\
  parse_sql (c_str (UnicodeToUtf8 (sg_insert d))) = Some (Insert (lit "favorTable") sg_names (sg_values d)).
Proof.
  intros Hd Ht Hu. rewrite sg_insert_text. pose proof (sg_tail_ascii (nHashId d)) as Hb. pose proof (u32_range (nHashId d)).
  assert (Ha : ascii_text sg_head) by (by apply asciib_spec).
  split.
  - apply row_text_fits; [apply (bool_decide_unpack _); vm_compute; exact I| |done].
    simpl. rewrite length_app. pose proof (int_length (u32 (nHashId d)) ltac:(lia)). simpl. lia.
  - rewrite c_str_id by (by apply utf8_clean, row_text_clean).
    rewrite (row_text_utf8 _ _ _ (SqlInt (u32 (nHashId d))) [SqlInt 0; SqlInt 0]) by done.
    eapply parse_insert_text; [vm_compute; reflexivity| |done|].
    + intros us Hus. destruct us; [done|]. reflexivity.
    + apply values_literal; [done..|]. repeat constructor; simpl; lia.
Qed.

End Utf8.
