(* ===== verification/SqlTables.v ===== *)
(** * Records as rows of a table

    What a statement that the plug-ins build does to a table with the columns they
    use, and what the loop over the records makes of it: one row per record that is
    not deleted.  The lemmas are shared by both plug-ins: a section has the text of a
    statement, its table, names and values. *)
From stdpp Require Import prelude gmap strings.
From Stdlib Require Import ZArith Lia String.
From S2P Require Import Prelude Strings Favorites Sqlite SqlPlugIn SqlText.

(** ** Columns *)

(** What the statements put into a column: a number, a text, or the fixed date. *)
Inductive kind := KInt | KText | KDate.

Definition has_kind (k : kind) (v : sql_value) : Prop :=
  match k with
  | KInt => exists n, v = SqlInt n /\ - 2 ^ 63 <= n < 2 ^ 63
  | KText => exists s, v = SqlText s
  | KDate => v = SqlText import_date
  end.

Definition kind_affinity (k : kind) (a : affinity) : bool :=
  match k, a with
  | KInt, AInteger | KText, AText | KDate, _ => true
  | _, _ => false
  end.

Definition column_for (names : list str) (kinds : list kind) (c : str * affinity) : bool :=
  match name_index names (fst c) with
  | Some i => match kinds !! i with Some k => kind_affinity k (snd c) | None => false end
  | None => false
  end.

(** A table that a statement can fill: its key is [id], it has the columns the
    statement names and no others, with types that keep the values, and checks only
    the columns in [bits]. *)
Definition table_for (names : list str) (kinds : list kind) (bits : list str) (tb : table) : bool :=
  match t_cols tb with (c, AInteger) :: _ => bool_decide (lower c = lit "id") | _ => false end &&
  forallb (column_for names kinds) (t_cols tb) &&
  forallb (fun n => bool_decide (is_Some (name_index (map fst (t_cols tb)) n))) names &&
  forallb (fun c => bool_decide (lower c ∈ bits) && bool_decide (is_Some (name_index (map fst (t_cols tb)) c))) (t_bits tb).

Definition table_row (tb : table) (names : list str) (vals : list sql_value) : list sql_value :=
  map (fun c => default SqlNull (column_value names vals (fst c))) (t_cols tb).

Lemma name_index_congr names n m : lower n = lower m -> name_index names n = name_index names m.
Proof. intros E. induction names as [|x names IH]; [done|]. simpl. by rewrite E, IH. Qed.

Lemma column_value_congr names vals n m : lower n = lower m -> column_value names vals n = column_value names vals m.
Proof. intros E. unfold column_value. by rewrite (name_index_congr _ _ _ E). Qed.

Lemma name_index_Some names n i : name_index names n = Some i -> exists m, names !! i = Some m /\ lower n = lower m.
Proof.
  revert i. induction names as [|x names IH]; intros i; simpl; [done|]. case_bool_decide as E; [intros [= <-]; by exists x|].
  destruct (name_index names n) as [j|]; [|done]. intros [= <-]. by apply IH.
Qed.

Lemma forallb_elem {A} (f : A -> bool) l : forallb f l = true -> forall x, x ∈ l -> f x = true.
Proof. rewrite forallb_forall. intros Hf x Hx. apply Hf. by apply list_elem_of_In. Qed.

Section Fill.
Context (names : list str) (kinds : list kind) (bits : list str) (tb : table).
Context (Htb : table_for names kinds bits tb = true).
Context (vals : list sql_value) (Hvals : Forall2 has_kind kinds vals) (Hlen : List.length names = List.length vals).

Lemma table_parts :
  (exists c cs, t_cols tb = (c, AInteger) :: cs /\ lower c = lit "id") /\
  (forall c, c ∈ t_cols tb -> column_for names kinds c = true) /\
  (forall n, n ∈ names -> is_Some (name_index (map fst (t_cols tb)) n)) /\
  (forall c, c ∈ t_bits tb -> lower c ∈ bits /\ is_Some (name_index (map fst (t_cols tb)) c)).
Proof using Htb.
  clear Hvals Hlen. unfold table_for in Htb. rewrite !andb_true_iff in Htb. destruct Htb as [[[H1 H2] H3] H4]. split_and!.
  - destruct (t_cols tb) as [|[c []] cs]; [done| |done]. apply bool_decide_eq_true in H1. eauto.
  - by apply forallb_elem.
  - intros n Hn. apply (forallb_elem _ _ H3) in Hn. by apply bool_decide_eq_true in Hn.
  - intros c Hc. apply (forallb_elem _ _ H4) in Hc. by rewrite andb_true_iff, !bool_decide_eq_true in Hc.
Qed.

(** A column has a value of its kind, which it keeps. *)
Lemma column_filled c : c ∈ t_cols tb ->
  exists v, column_value names vals (fst c) = Some v /\ keeps (snd c) v = true.
Proof using Htb Hvals.
  clear Hlen. intros Hc. destruct table_parts as (_ & H2 & _ & _). specialize (H2 c Hc). unfold column_for in H2. unfold column_value.
  destruct (name_index names (fst c)) as [i|]; [|done]. destruct (kinds !! i) as [k|] eqn:Ek; [|done].
  destruct (Forall2_lookup_l _ _ _ _ _ Hvals Ek) as (v & Hv & Hk). exists v. simpl. split; [done|].
  destruct k, (snd c); try done; simpl in Hk.
  - destruct Hk as (n & -> & Hn). simpl. lia.
  - by destruct Hk as (s & ->).
  - by subst.
  - by subst.
Qed.

Lemma insert_row_for : insert_row tb names vals = Some (table_row tb names vals).
Proof using Htb Hvals Hlen.
  destruct table_parts as (_ & _ & H3 & _). unfold insert_row. rewrite Hlen, Nat.eqb_refl, andb_true_r.
  replace (forallb _ names) with true; cycle 1.
  { symmetry. apply forallb_forall. intros n Hn. apply list_elem_of_In in Hn. by apply bool_decide_eq_true, H3. }
  unfold table_row. apply mapM_Some. apply Forall2_fmap_r, Forall_Forall2_diag, Forall_forall. intros c Hc.
  destruct (column_filled c Hc) as (v & E & _). simpl. by rewrite E.
Qed.

(** The value of a column of the row, by any spelling of its name. *)
Lemma table_row_value n v : is_Some (name_index (map fst (t_cols tb)) n) -> column_value names vals n = Some v ->
  column_value (map fst (t_cols tb)) (table_row tb names vals) n = Some v.
Proof using Type.
  intros [i Hi] Hv. unfold column_value at 1. rewrite Hi. simpl. apply name_index_Some in Hi as (m & Hm & E).
  unfold table_row. rewrite list_lookup_fmap. rewrite list_lookup_fmap in Hm.
  destruct (t_cols tb !! i) as [c|]; [|done]. simpl in *. injection Hm as <-.
  by rewrite <- (column_value_congr _ _ _ _ E), Hv.
Qed.

Lemma table_row_ok : (forall c, lower c ∈ bits -> exists b, column_value names vals c = Some (SqlInt (bit b))) ->
  row_ok tb (table_row tb names vals) = true.
Proof using Htb Hvals Hlen.
  intros Hbits. destruct table_parts as (_ & _ & _ & H4). unfold row_ok. apply andb_true_intro. split; apply forallb_forall.
  - intros [c v] Hcv. apply list_elem_of_In, list_elem_of_lookup in Hcv as (i & Hi).
    apply lookup_zip_Some in Hi as [Hc Hv]. unfold table_row in Hv. rewrite list_lookup_fmap, Hc in Hv. simpl in Hv.
    injection Hv as <-. apply list_elem_of_lookup_2 in Hc. destruct (column_filled c Hc) as (v & E & Hk). simpl. by rewrite E.
  - intros c Hc. apply list_elem_of_In, H4 in Hc as [Hb Hi]. destruct (Hbits c Hb) as (b & Hv). unfold bit_ok.
    rewrite (table_row_value c _ Hi Hv). by destruct b.
Qed.

Lemma table_row_key id vs : vals = SqlInt id :: vs -> name_index names (lit "id") = Some O ->
  exists row, table_row tb names vals = SqlInt id :: row.
Proof using Htb.
  clear Hvals Hlen. intros -> Hn. destruct table_parts as ((c & cs & E & Hid) & _). unfold table_row. rewrite E. simpl.
  rewrite (column_value_congr _ _ _ (lit "id")) by (by rewrite Hid). unfold column_value at 1. rewrite Hn. simpl. eauto.
Qed.

End Fill.

(** ** The loop over the records *)

Lemma for_each_vec {S A} (step : S -> A -> outcome S) (pre v : list A) (s : S) :
  for_each (fun s i => p ← vec_at (pre ++ v) i; step s p) s (seqZ (Z.of_nat (List.length pre)) (Z.of_nat (List.length v))) =
  for_each step s v.
Proof.
  revert pre s. induction v as [|a v IH]; intros pre s; [done|].
  cbn [List.length]. rewrite seqZ_cons by lia. cbn [for_each].
  rewrite (vec_at_nat _ _ a) by (by rewrite list_lookup_middle). cbn [mbind outcome_bind].
  destruct (step s a) as [s'|f]; [|done]. cbn [mbind outcome_bind].
  specialize (IH (pre ++ [a]) s'). rewrite <- app_assoc in IH. simpl in IH. rewrite <- IH, length_app. simpl.
  do 2 f_equal; lia.
Qed.

(** The records that become rows, and the memory behind the loop. *)
Definition live (h : heap) (ps : fav_vector) : list FavoriteLineData :=
  omap (fun p => l ← p; d ← h !! l; if bDelete d then None else Some d) ps.

Definition quote_live (d : FavoriteLineData) : FavoriteLineData := if bDelete d then d else replace_quotes d.

Definition quote_all (ps : fav_vector) (h : heap) : heap :=
  foldl (fun h p => match p with Some l => alter quote_live l h | None => h end) h ps.

(** What the two statements have in common: text that reads as a row. *)
Class RowStatement `{CodePage} (text : FavoriteLineData -> wstring) (t : str) (names : list str) (kinds : list kind)
    (bits : list str) (values : FavoriteLineData -> list sql_value) : Prop := {
  rs_reads d : stored_record d -> 39 ∉ szTitle d -> 39 ∉ szUrl d ->
    print_insert (text d) = Ok (text d) /\
    parse_sql (c_str (UnicodeToUtf8 (text d))) = Some (Insert t names (values d));
  rs_kinds d : stored_record d -> Forall2 has_kind kinds (values d);
  rs_names : List.length names = List.length kinds;
  rs_id d : exists vs, values d = SqlInt (nId d) :: vs;
  rs_key : name_index names (lit "id") = Some O;
  rs_bits d c : lower c ∈ bits -> column_value names (values d) c = Some (SqlInt (bit (bFolder d)))
}.

Section Loop.
Context {D : Type} `{SqliteLaws D} `{CodePage}.
Context (text : FavoriteLineData -> wstring) (t : str) (names : list str) (kinds : list kind) (bits : list str).
Context (values : FavoriteLineData -> list sql_value) {Hrs : RowStatement text t names kinds bits values}.
Context (tb : table) (Htb : table_for names kinds bits tb = true).

Definition row_of (d : FavoriteLineData) : list sql_value := table_row tb names (values d).

Definition rows_of (l : list FavoriteLineData) : gmap Z (list sql_value) :=
  list_to_map (map (fun d => (nId d, row_of d)) l).

Lemma insert_record_row h db l d rows :
  h !! l = Some d -> bDelete d = false -> stored_record d -> writable db ->
  tables db !! lower t = Some (with_rows rows tb) -> rows !! nId d = None ->
  exists db', insert_record text (h, db) l = Ok (<[l := replace_quotes d]> h, db') /\ writable db' /\
    reserved db' = reserved db /\
    tables db' = <[lower t := with_rows (<[nId d := row_of (replace_quotes d)]> rows) tb]> (tables db).
Proof.
  intros Hl Hdel Hst Hw Ht Hid. pose proof (quotes_stored d Hst) as Hq.
  destruct (rs_reads (replace_quotes d) Hq (quotes_gone _) (quotes_gone _)) as [Hp Hs].
  pose proof (rs_kinds _ Hq) as Hk. destruct (rs_id (replace_quotes d)) as (vs & Hvs).
  assert (Hlen : List.length names = List.length (values (replace_quotes d)))
    by (rewrite <- (Forall2_length _ _ _ Hk); apply rs_names).
  destruct (table_row_key names kinds bits tb Htb _ (nId d) vs Hvs rs_key) as (row & Hrow).
  destruct (sql_insert db _ t names (values (replace_quotes d)) (with_rows rows tb) (nId d) row Hs Hw Ht) as (db' & E & Hw' & Hr & Htabs).
  - change (insert_row tb names (values (replace_quotes d)) = Some (SqlInt (nId d) :: row)).
    by rewrite (insert_row_for names kinds bits tb Htb _ Hk Hlen), Hrow.
  - done.
  - rewrite <- Hrow. change (row_ok tb (table_row tb names (values (replace_quotes d))) = true).
    apply (table_row_ok names kinds bits tb Htb _ Hk Hlen). intros c Hc. eexists. by apply rs_bits.
  - exists db'. unfold insert_record. unfold load. rewrite Hl. cbn [mbind outcome_bind]. rewrite Hdel, Hp.
    cbn [mbind outcome_bind]. unfold execDML. rewrite E. split; [by destruct (SQLITE_OK =? SQLITE_OK)|].
    split; [done|]. split; [done|]. rewrite Htabs. unfold row_of. by rewrite Hrow.
Qed.

Lemma quote_all_lookup ps h l : Some l ∉ ps -> quote_all ps h !! l = h !! l.
Proof.
  revert h. induction ps as [|p ps IH]; intros h Hn; [done|]. apply not_elem_of_cons in Hn as [Hp Hn].
  simpl. rewrite IH by done. destruct p as [l'|]; [|done]. apply lookup_alter_ne. congruence.
Qed.

Lemma live_alter h l ps d : Some l ∉ ps -> live (<[l := d]> h) ps = live h ps.
Proof.
  induction ps as [|p ps IH]; intros Hn; [done|]. apply not_elem_of_cons in Hn as [Hp Hn]. simpl. rewrite IH by done.
  destruct p as [l'|]; [|done]. simpl. by rewrite lookup_insert_ne by congruence.
Qed.

Lemma quote_all_cons ps h l d : h !! l = Some d -> quote_all (Some l :: ps) h = quote_all ps (<[l := quote_live d]> h).
Proof.
  intros Hd. unfold quote_all. simpl. f_equal. apply map_eq. intros k.
  destruct (decide (k = l)) as [->|Hne]; [by rewrite lookup_alter_eq, Hd, lookup_insert_eq|].
  by rewrite lookup_alter_ne, lookup_insert_ne.
Qed.

Lemma insert_loop (step : heap * D -> option positive -> outcome (heap * D)) ps h db l0 :
  (forall st l, step st (Some l) = insert_record text st l) -> (None ∈ ps -> forall st, step st None = Ok st) ->
  NoDup (omap id ps) -> (forall l, Some l ∈ ps -> is_Some (h !! l)) -> Forall stored_record (live h ps) ->
  NoDup (map nId (l0 ++ live h ps)) -> writable db ->
  tables db !! lower t = Some (with_rows (rows_of l0) tb) ->
  exists db', for_each step (h, db) ps = Ok (quote_all ps h, db') /\ writable db' /\ reserved db' = reserved db /\
    tables db' = <[lower t := with_rows (rows_of (l0 ++ map replace_quotes (live h ps))) tb]> (tables db).
Proof.
  intros Hsome. revert h db l0. induction ps as [|p ps IH]; intros h db l0 Hnone Hnd Hval Hst Hids Hw Ht.
  { exists db. simpl. rewrite app_nil_r, insert_id by done. done. }
  assert (Hnone' : None ∈ ps -> forall st, step st None = Ok st) by (intros Hi; apply Hnone; by constructor).
  assert (Hval' : forall h' : heap, (forall l, l ∈ omap id ps -> h' !! l = h !! l) ->
            forall l, Some l ∈ ps -> is_Some (h' !! l)).
  { intros h' Hh l Hl. rewrite Hh; [apply Hval; by constructor|]. apply list_elem_of_omap. by exists (Some l). }
  destruct p as [l|]; cbn [for_each]; cycle 1.
  { rewrite Hnone by constructor. cbn [mbind outcome_bind].
    destruct (IH h db l0) as (db' & E & Hw' & Hr & Htab); try done; [|by exists db']. by apply Hval'. }
  simpl in Hnd. apply NoDup_cons in Hnd as [Hnl Hnd].
  assert (Hlps : Some l ∉ ps) by (intros Hi; apply Hnl, list_elem_of_omap; by exists (Some l)).
  destruct (Hval l ltac:(constructor)) as [d Hd]. rewrite Hsome.
  assert (Hlive : live h (Some l :: ps) = (if bDelete d then live h ps else d :: live h ps)).
  { unfold live. simpl. rewrite Hd. simpl. by destruct (bDelete d). }
  rewrite Hlive in *. destruct (bDelete d) eqn:Edel.
  - assert (E : insert_record text (h, db) l = Ok (h, db)) by (unfold insert_record, load; rewrite Hd; simpl; by rewrite Edel).
    rewrite E. cbn [mbind outcome_bind].
    rewrite (quote_all_cons _ _ _ d Hd). unfold quote_live. rewrite Edel, insert_id by done.
    destruct (IH h db l0) as (db' & E' & Hw' & Hr & Htab); try done; [|by exists db']. by apply Hval'.
  - apply Forall_cons in Hst as [Hsd Hst].
    assert (Hnew : nId d ∉ map fst (map (fun d => (nId d, row_of d)) l0)).
    { rewrite map_map. rewrite map_app in Hids. apply NoDup_app in Hids as (_ & Hdj & _). intros Hin.
      apply (Hdj (nId d)); [done|]. by left. }
    assert (Hfree : rows_of l0 !! nId d = None) by (by apply not_elem_of_list_to_map_1).
    destruct (insert_record_row h db l d (rows_of l0)) as (db1 & E1 & Hw1 & Hr1 & Ht1); try done.
    rewrite E1. cbn [mbind outcome_bind].
    rewrite (quote_all_cons _ _ _ d Hd). unfold quote_live. rewrite Edel.
    assert (Hrows : <[nId d := row_of (replace_quotes d)]> (rows_of l0) = rows_of (l0 ++ [replace_quotes d])).
    { unfold rows_of. rewrite map_app. simpl. by rewrite list_to_map_snoc. }
    destruct (IH (<[l := replace_quotes d]> h) db1 (l0 ++ [replace_quotes d])) as (db' & E' & Hw' & Hr & Htab); try done.
    + apply Hval'. intros k Hk. apply lookup_insert_ne. set_solver.
    + by rewrite live_alter.
    + rewrite live_alter by done. rewrite <- app_assoc. rewrite !map_app in *. done.
    + by rewrite Ht1, lookup_insert_eq, Hrows.
    + exists db'. rewrite E'. split; [done|]. split; [done|]. split; [congruence|].
      rewrite Htab, Ht1, insert_insert_eq, live_alter by done. simpl. by rewrite <- app_assoc.
Qed.

End Loop.
