(* ===== verification/SqlProofs.v ===== *)
(** * 360SE and Sogou: import and export of a database

    The import replaces the rows of the favorites table by one row per record; the
    export makes a record of every row.  For Sogou the two are composed with the
    encryption of the database file.  [import_lost] is what happens to a table of 360SE
    with five or six rows. *)
From stdpp Require Import prelude gmap strings.
From Stdlib Require Import ZArith Lia String.
From S2P Require Import Prelude Strings Favorites PlugInModule TimeHelper SogouDecoder Chrome ChromeExport ChromeImport.
From S2P Require Import Sqlite SqlPlugIn SqlText SqlTables.

(** ** The two statements *)

Definition se_kinds : list kind := [KInt; KInt; KInt; KText; KText; KInt; KDate; KDate; KInt; KInt].
Definition se_bits : list str := [lit "is_folder"].
Definition sg_kinds : list kind := [KInt; KInt; KInt; KText; KText; KInt; KDate; KDate; KInt; KInt; KInt].
Definition sg_bits : list str := [lit "folder"].

Lemma int_kind n : - 2 ^ 63 <= n < 2 ^ 63 -> has_kind KInt (SqlInt n).
Proof. intros Hn. by exists n. Qed.

Lemma row_kinds `{CodePage} d : stored_record d ->
  Forall2 has_kind [KInt; KInt; KInt; KText; KText; KInt; KDate; KDate]
    [SqlInt (nId d); SqlInt (nPid d); SqlInt (bit (bFolder d)); SqlText (UnicodeToUtf8 (szTitle d));
     SqlText (UnicodeToUtf8 (szUrl d)); SqlInt (nOrder d); SqlText import_date; SqlText import_date].
Proof.
  intros [H1 H2 H3 _ _]. unfold field_range in *.
  assert (- 2 ^ 63 <= bit (bFolder d) < 2 ^ 63) by (unfold bit; destruct (bFolder d); lia).
  repeat constructor; try (apply int_kind; lia); by eexists.
Qed.

#[global] Instance se_statement `{CodePage} :
  RowStatement se_insert (lit "tb_fav") se_names se_kinds se_bits se_values.
Proof.
  split.
  - apply se_insert_reads.
  - intros d Hd. apply (Forall2_app (l2 := [KInt; KInt]) (l2' := [SqlInt 0; SqlInt 0]) (row_kinds d Hd)).
    repeat constructor; by apply int_kind.
  - done.
  - intros d. by eexists.
  - done.
  - intros d c Hc. apply list_elem_of_singleton in Hc.
    by rewrite (column_value_congr _ _ c (lit "is_folder")) by (by rewrite Hc).
Qed.

#[global] Instance sg_statement `{CodePage} :
  RowStatement sg_insert (lit "favorTable") sg_names sg_kinds sg_bits sg_values.
Proof.
  split.
  - apply sg_insert_reads.
  - intros d Hd. apply (Forall2_app (l2 := [KInt; KInt; KInt]) (l2' := [SqlInt (u32 (nHashId d)); SqlInt 0; SqlInt 0]) (row_kinds d Hd)).
    pose proof (u32_range (nHashId d)). repeat constructor; by apply int_kind; lia.
  - done.
  - intros d. by eexists.
  - done.
  - intros d c Hc. apply list_elem_of_singleton in Hc.
    by rewrite (column_value_congr _ _ c (lit "folder")) by (by rewrite Hc).
Qed.

(** ** Rows as records *)

Section Rows.
Context {D : Type} `{SqliteLaws D} `{CodePage}.

Lemma zip_fst {A B} (l : list A) (k : list B) : map fst (zip l k) = take (List.length k) l.
Proof. revert k. induction l as [|a l IH]; intros [|b k]; simpl; [done..|]. by rewrite IH. Qed.

(** A vector of records to fill, and what filling makes of the memory. *)
Definition put_all {A} (back : A -> FavoriteLineData -> FavoriteLineData) (pairs : list (positive * A)) (h : heap) : heap :=
  foldl (fun h lx => alter (back (snd lx)) (fst lx) h) h pairs.

Lemma export_rows_spec {A} record (back : A -> FavoriteLineData -> FavoriteLineData) qs xs ls k h :
  Forall2 (fun q x => forall d, record q d = Ok (back x d)) qs xs ->
  (forall l, l ∈ ls -> is_Some (h !! l)) -> (k <= List.length ls)%nat ->
  export_rows record (map Some ls) (Z.of_nat (List.length ls)) (Z.of_nat k) qs h =
  Ok (Z.of_nat (k + List.length (zip (drop k ls) xs)), put_all back (zip (drop k ls) xs) h).
Proof.
  intros HF. revert k h. induction HF as [|q x qs xs Hq HF IH]; intros k h Hval Hk; cbn [export_rows].
  { rewrite zip_with_nil_r. simpl. by rewrite Nat.add_0_r. }
  destruct (Z.ltb_spec (Z.of_nat k) (Z.of_nat (List.length ls))) as [Hlt|Hge]; cycle 1.
  { rewrite drop_ge by lia. simpl. by rewrite Nat.add_0_r. }
  destruct (lookup_lt_is_Some_2 ls k ltac:(lia)) as [l Hl].
  destruct (Hval l (list_elem_of_lookup_2 _ _ _ Hl)) as [d Hd].
  assert (Es : store (map Some ls) (Z.of_nat k) (record q) h = Ok (alter (back x) l h)).
  { unfold store. rewrite (vec_at_nat _ _ (Some l)) by (by rewrite list_lookup_fmap, Hl).
    cbn [mbind outcome_bind deref]. unfold load. rewrite Hd. cbn [mbind outcome_bind]. rewrite Hq. cbn [mbind outcome_bind].
    f_equal. apply map_eq. intros j. destruct (decide (j = l)) as [->|Hne];
      [by rewrite lookup_insert_eq, lookup_alter_eq, Hd|by rewrite lookup_insert_ne, lookup_alter_ne]. }
  rewrite Es. cbn [mbind outcome_bind]. replace (Z.of_nat k + 1) with (Z.of_nat (S k)) by lia. rewrite IH; [|..|lia].
  - rewrite (drop_S _ _ _ Hl). simpl. do 2 f_equal. lia.
  - intros l' Hl'. apply lookup_alter_is_Some. by apply Hval.
Qed.

Lemma put_all_other {A} (back : A -> FavoriteLineData -> FavoriteLineData) pairs h l : l ∉ map fst pairs -> put_all back pairs h !! l = h !! l.
Proof.
  revert h. induction pairs as [|[l' x] pairs IH]; intros h Hl; [done|]. apply not_elem_of_cons in Hl as [Hl1 Hl2].
  simpl. rewrite IH by done. by apply lookup_alter_ne.
Qed.

Lemma put_all_lookup {A} (back : A -> FavoriteLineData -> FavoriteLineData) pairs h l x old : NoDup (map fst pairs) -> (l, x) ∈ pairs -> h !! l = Some old ->
  put_all back pairs h !! l = Some (back x old).
Proof.
  revert h. induction pairs as [|[l' x'] pairs IH]; intros h Hnd Hin Hl; [by apply not_elem_of_nil in Hin|].
  simpl in Hnd. apply NoDup_cons in Hnd as [Hn Hnd]. apply elem_of_cons in Hin as [[= <- <-]|Hin]; simpl.
  - rewrite (put_all_other back pairs) by done. by rewrite lookup_alter_eq, Hl.
  - apply IH; [done..|]. rewrite lookup_alter_ne; [done|]. intros ->. apply Hn, list_elem_of_fmap. by exists (l, x).
Qed.

(** A field of a row that a statement made. *)
Lemma field_row names kinds bits tb vals n v : table_for names kinds bits tb = true ->
  column_value names vals (lit n) = Some v ->
  field (mkQuery (map fst (t_cols tb)) (table_row tb names vals)) n = Ok v.
Proof.
  intros Htb Hv. destruct (table_parts _ _ _ _ Htb) as (_ & _ & H3 & _).
  assert (Hi : is_Some (name_index (map fst (t_cols tb)) (lit n))).
  { unfold column_value in Hv. destruct (name_index names (lit n)) as [i|] eqn:Ei; [|done].
    apply name_index_Some in Ei as (m & Hm & E). rewrite (name_index_congr _ _ m) by done.
    apply H3. by apply list_elem_of_lookup_2 in Hm. }
  pose proof (table_row_value names tb vals (lit n) v Hi Hv) as E. unfold column_value in E.
  unfold field, fieldIndex. simpl. destruct (name_index _ (lit n)) as [i|]; [|done]. simpl in *. by rewrite E.
Qed.

Lemma int_field names kinds bits tb vals n m nul : table_for names kinds bits tb = true ->
  column_value names vals (lit n) = Some (SqlInt m) -> field_range m ->
  getIntField (mkQuery (map fst (t_cols tb)) (table_row tb names vals)) n nul = Ok m.
Proof.
  intros Htb Hv Hm. unfold getIntField. rewrite (field_row _ _ _ _ _ _ _ Htb Hv). cbn [mbind outcome_bind column_number].
  by rewrite i32_small.
Qed.

Lemma text_field names kinds bits tb vals n s nul : table_for names kinds bits tb = true ->
  column_value names vals (lit n) = Some (SqlText (UnicodeToUtf8 s)) -> 0 ∉ s -> utf16 s ->
  wide_field (mkQuery (map fst (t_cols tb)) (table_row tb names vals)) n nul = Ok s.
Proof.
  intros Htb Hv Hz Hu. unfold wide_field, getStringField. rewrite (field_row _ _ _ _ _ _ _ Htb Hv).
  cbn [mbind outcome_bind column_text deref]. rewrite c_str_id by (by apply utf8_clean). by rewrite utf8_back.
Qed.

(** A record whose texts come back: well-formed, and short enough for the copy. *)
Definition fair_text (s : wstring) : Prop := utf16 s /\ Z.of_nat (List.length s) < MAX_LENGTH - 1.

Definition fair_record (d : FavoriteLineData) : Prop :=
  stored_record d /\ fair_text (szTitle d) /\ fair_text (szUrl d).

Definition shifted (base id : Z) : Z := if negb (id =? 0) then i32 (id + base) else id.

(** What the export makes of a row; [old] is what the record held before.  The date
    of the import is read as the number 2011. *)
Definition se_back (x old : FavoriteLineData) : FavoriteLineData :=
  mkFavorite (i32 (nId x + ID_VALUE_360_BEGIN)) (szTitle x) (shifted ID_VALUE_360_BEGIN (nPid x)) (bFolder x) (szUrl x)
    2011 2011 (nClickTimes old) (title_hash (szTitle x) (nHashId old)) (nOrder x) false.

Lemma se_record_row tb x old : table_for se_names se_kinds se_bits tb = true -> fair_record x ->
  se_record (mkQuery (map fst (t_cols tb)) (row_of se_names se_values tb x)) old = Ok (se_back x old).
Proof.
  intros Htb ([Hf1 Hf2 Hf3 [_ Hz4] [_ Hz5]] & [Ht1 Ht2] & [Hu1 Hu2]). unfold se_record, row_of.
  rewrite (int_field _ _ _ _ _ "id" (nId x) _ Htb) by done. cbn [mbind outcome_bind].
  rewrite (int_field _ _ _ _ _ "parent_id" (nPid x) _ Htb) by done. cbn [mbind outcome_bind].
  rewrite (int_field _ _ _ _ _ "is_folder" (bit (bFolder x)) _ Htb) by (try done; by destruct (bFolder x)).
  cbn [mbind outcome_bind]. rewrite (text_field _ _ _ _ _ "title" (szTitle x) _ Htb) by done. cbn [mbind outcome_bind].
  unfold wcscpy_s. rewrite (proj2 (Z.ltb_lt _ _) Ht2). cbn [mbind outcome_bind].
  rewrite (text_field _ _ _ _ _ "url" (szUrl x) _ Htb) by done. cbn [mbind outcome_bind].
  rewrite (proj2 (Z.ltb_lt _ _) Hu2). cbn [mbind outcome_bind].
  rewrite (int_field _ _ _ _ _ "pos" (nOrder x) _ Htb) by done. cbn [mbind outcome_bind].
  unfold getInt64Field. rewrite (field_row _ _ _ _ _ "create_time" (SqlText import_date) Htb) by done.
  rewrite (field_row _ _ _ _ _ "last_modify_time" (SqlText import_date) Htb) by done. cbn [mbind outcome_bind].
  rewrite hash_title_ok. cbn [mbind outcome_bind]. unfold se_back, shifted. do 2 f_equal; by destruct (bFolder x).
Qed.

(** The date of the import is read as ten digits of a time. *)
Definition sg_import_time (mktime : tm -> Z) : Z := SysTime2Time mktime (mkSystemTime 2000 0 0 0 20 11 0 0).

Definition sg_back (mktime : tm -> Z) (x old : FavoriteLineData) : FavoriteLineData :=
  mkFavorite (i32 (nId x + ID_VALUE_SOGOU_BEGIN)) (szTitle x) (shifted ID_VALUE_SOGOU_BEGIN (nPid x)) (bFolder x) (szUrl x)
    (sg_import_time mktime) (sg_import_time mktime) (nClickTimes old) (title_hash (szTitle x) (nHashId old)) (nOrder x) false.

Lemma sg_time_row mktime tb x n : table_for sg_names sg_kinds sg_bits tb = true ->
  column_value sg_names (sg_values x) (lit n) = Some (SqlText import_date) ->
  sg_time mktime (mkQuery (map fst (t_cols tb)) (table_row tb sg_names (sg_values x))) n = Ok (sg_import_time mktime).
Proof.
  intros Htb Hv. unfold sg_time. rewrite (text_field _ _ _ _ _ n import_date _ Htb).
  - reflexivity.
  - by rewrite (utf8_lit import_date date_ascii).
  - apply (bool_decide_unpack _). vm_compute. exact I.
  - apply utf16_ascii, date_ascii.
Qed.

Lemma sg_record_row mktime tb x old : table_for sg_names sg_kinds sg_bits tb = true -> fair_record x ->
  sg_record mktime (mkQuery (map fst (t_cols tb)) (row_of sg_names sg_values tb x)) old = Ok (sg_back mktime x old).
Proof.
  intros Htb ([Hf1 Hf2 Hf3 [_ Hz4] [_ Hz5]] & [Ht1 Ht2] & [Hu1 Hu2]). unfold sg_record, row_of.
  rewrite (int_field _ _ _ _ _ "id" (nId x) _ Htb) by done. cbn [mbind outcome_bind].
  rewrite (int_field _ _ _ _ _ "pid" (nPid x) _ Htb) by done. cbn [mbind outcome_bind].
  rewrite (int_field _ _ _ _ _ "folder" (bit (bFolder x)) _ Htb) by (try done; by destruct (bFolder x)).
  cbn [mbind outcome_bind]. rewrite (text_field _ _ _ _ _ "title" (szTitle x) _ Htb) by done. cbn [mbind outcome_bind].
  rewrite (text_field _ _ _ _ _ "url" (szUrl x) _ Htb) by done. cbn [mbind outcome_bind].
  rewrite (int_field _ _ _ _ _ "sequenceNO" (nOrder x) _ Htb) by done. cbn [mbind outcome_bind].
  rewrite (sg_time_row mktime tb x "addTime" Htb) by done. rewrite (sg_time_row mktime tb x "lastmodify" Htb) by done.
  cbn [mbind outcome_bind]. unfold tcsncpy_s. rewrite !take_ge by (unfold MAX_LENGTH in *; lia).
  rewrite hash_title_ok. cbn [mbind outcome_bind]. unfold sg_back, shifted. do 2 f_equal; by destruct (bFolder x).
Qed.

(** Exporting the rows of a list of records gives the records back, in an order
    that SQLite chooses. *)
Lemma export_table record back tb names values l db s t ls h :
  parse_sql (c_str s) = Some (SelectAll t) -> tables db !! lower t = Some (with_rows (rows_of names values tb l) tb) ->
  NoDup (map nId l) ->
  (forall x, x ∈ l -> forall old, record (mkQuery (map fst (t_cols tb)) (row_of names values tb x)) old = Ok (back x old)) ->
  (forall k, k ∈ ls -> is_Some (h !! k)) ->
  exists xs, xs ≡ₚ l /\
    (rows ← execQuery s db; export_rows record (map Some ls) (Z.of_nat (List.length ls)) 0 rows h) =
    Ok (Z.of_nat (List.length (zip ls xs)), put_all back (zip ls xs) h).
Proof.
  intros Hs Ht Hnd Hrec Hval. destruct (sql_select db (c_str s) t _ Hs Ht) as (rows & E & Hp). simpl in Hp.
  assert (Hp' : rows ≡ₚ map (row_of names values tb) l).
  { rewrite Hp. unfold rows_of. rewrite map_to_list_to_map; [by rewrite <- list_fmap_compose|].
    by rewrite <- list_fmap_compose. }
  apply Permutation_map_inv in Hp' as (xs & -> & Hxs).
  exists xs. split; [done|]. unfold execQuery. rewrite E. cbn [mbind outcome_bind].
  rewrite (export_rows_spec record back _ xs ls 0 h); [|..|lia]; [|..|done].
  - simpl. by rewrite drop_0.
  - rewrite map_map. apply Forall2_fmap_l, Forall_Forall2_diag, Forall_forall. intros x Hx old. apply Hrec. by rewrite Hxs.
Qed.

(** Whether a table with exactly that name exists. *)
Lemma tableExists_spec n s db :
  s = lit " select count(*) from sqlite_master where type='table' and name='" ++ n ++ lit "'; " ->
  (List.length s < 128)%nat -> parse_sql (c_str s) = Some (CountTables n) ->
  tableExists n db = Ok (bool_decide (t_name <$> tables db !! lower n = Some n)).
Proof.
  intros -> Hl Hp. unfold tableExists. rewrite (proj2 (Nat.ltb_lt _ _) Hl). unfold execScalar, execQuery.
  destruct (sql_master db _ n Hp) as (c & ->). cbn [mbind outcome_bind map q_row]. by case_bool_decide.
Qed.

End Rows.

(** ** The import of 360SE *)

Section Import360.
Context {D : Type} `{SqliteLaws D} `{CodePage}.
Context (pszAppData : option wstring) (IsFileExist : wstring -> bool).

(** The table that [CreateFavoriteTable] makes. *)
Definition se_columns : list column :=
  mkColumn (lit "id") AInteger true false ::
  map (fun c => mkColumn (lit c.1) (if c.2 : bool then AText else AInteger) false (bool_decide (c.1 = "is_folder"%string)))
    [("parent_id", false); ("is_folder", false); ("title", true); ("url", true); ("pos", false); ("create_time", false);
     ("last_modify_time", false); ("is_best", false); ("reserved", false)]%string.

Definition se_fresh : table := new_table (lit "tb_fav") se_columns.

Lemma CreateFavoriteTable_spec db : writable db -> tables db !! lit "tb_fav" = None ->
  writable (CreateFavoriteTable db) /\ tables (CreateFavoriteTable db) = <[lit "tb_fav" := se_fresh]> (tables db).
Proof.
  intros Hw Ht. unfold CreateFavoriteTable, execDML.
  destruct (sql_create db (c_str create_tb_fav) (lit "tb_fav") (hd (mkColumn [] AText true false) se_columns) (tl se_columns))
    as (d1 & -> & Hw1 & _ & Ht1); [vm_compute; reflexivity|done|done|done|by repeat constructor|].
  change (SQLITE_OK =? SQLITE_OK) with true. cbn iota. cbn [snd].
  destruct (sql_index d1 (c_str (lit "CREATE INDEX parent_id_index ON tb_fav(parent_id ASC);")) (lit "parent_id_index")
    (lit "tb_fav") (lit "parent_id")) as (r & d2 & -> & Hw2 & _ & Ht2); [vm_compute; reflexivity|done|].
  destruct (r =? SQLITE_OK); simpl; rewrite Ht2, Ht1; done.
Qed.

(** What the import needs of the old table: the columns of the browser, and not the
    five or six rows that the code takes for an error. *)
Definition se_usable (tb : table) : Prop :=
  t_name tb = lit "tb_fav" /\ table_for se_names se_kinds se_bits tb = true.

Definition busy_rows (tb : table) : Prop :=
  Z.of_nat (size (t_rows tb)) = SQLITE_BUSY \/ Z.of_nat (size (t_rows tb)) = SQLITE_LOCKED.

Lemma tb_fav_exists db : tableExists (lit "tb_fav") db =
  Ok (bool_decide (t_name <$> tables db !! lit "tb_fav" = Some (lit "tb_fav"))).
Proof. by apply (tableExists_spec (lit "tb_fav") _ db eq_refl); [apply (bool_decide_unpack _)|vm_compute]. Qed.

Lemma tb_fav_deleted db tb : writable db -> tables db !! lit "tb_fav" = Some tb ->
  exists db', execDML (lit "delete from tb_fav") db = (Z.of_nat (size (t_rows tb)), db') /\ writable db' /\
    tables db' = <[lit "tb_fav" := with_rows ∅ tb]> (tables db).
Proof.
  intros Hw Ht. destruct (sql_delete db (c_str (lit "delete from tb_fav")) (lit "tb_fav") tb) as (db' & E & Hw' & _ & Hc & Ht');
    [vm_compute; reflexivity|done|done|].
  exists db'. unfold execDML. rewrite E. change (SQLITE_OK =? SQLITE_OK) with true. cbn iota. by rewrite Hc.
Qed.

(** C19: the import of 360SE replaces the favorites of the browser by the records: behind
    it the table has one row for each record that is not deleted, with its id, parent,
    folder flag and position, its title and URL in which apostrophes are replaced by
    double quotes, a fixed date, and no other row, whatever other characters titles and
    URLs have; no other table changes, and no buffer overflows. The records have different
    ids, numbers of 32 bits and texts that fit their arrays; the table, if there is one,
    has the columns of 360SE and not five or six rows (see [import_lost]). *)
Theorem se_import_exact ppData h p db path :
  fst (se_GetFavoriteDataPath pszAppData IsFileExist p) = Some path -> ppData <> [] ->
  NoDup (omap id ppData) -> (forall l, Some l ∈ ppData -> is_Some (h !! l)) ->
  Forall stored_record (live h ppData) -> NoDup (map nId (live h ppData)) -> writable db ->
  (forall tb, tables db !! lit "tb_fav" = Some tb -> se_usable tb /\ ~ busy_rows tb) ->
  let tb := default se_fresh (tables db !! lit "tb_fav") in
  exists p' db',
    se_ImportFavoriteData pszAppData IsFileExist (Some ppData) (Z.of_nat (List.length ppData)) h p db =
      Ok (ERROR_OK, quote_all ppData h, p', db') /\ writable db' /\
    tables db' = <[lit "tb_fav" := with_rows (rows_of se_names se_values tb (map replace_quotes (live h ppData))) tb]> (tables db).
Proof.
  intros Hpath Hne Hnd Hval Hst Hids Hw Hold tb.
  assert (Hprep : exists found nRet db1, tableExists (lit "tb_fav") db = Ok found /\
            (if found : bool then execDML (lit "delete from tb_fav") db else (0, CreateFavoriteTable db)) = (nRet, db1) /\
            found && ((nRet =? SQLITE_BUSY) || (nRet =? SQLITE_LOCKED)) = false /\ writable db1 /\
            tables db1 = <[lit "tb_fav" := with_rows (rows_of se_names se_values tb []) tb]> (tables db) /\
            table_for se_names se_kinds se_bits tb = true).
  { rewrite tb_fav_exists. unfold tb. destruct (tables db !! lit "tb_fav") as [tb0|] eqn:Et.
    - destruct (Hold tb0 eq_refl) as [[Hn Hfor] Hbusy]. destruct (tb_fav_deleted db tb0 Hw Et) as (db1 & E & Hw1 & Ht1).
      eexists true, _, db1. simpl. rewrite Hn, bool_decide_eq_true_2 by done. rewrite E. unfold busy_rows in Hbusy.
      split_and!; try done. lia.
    - destruct (CreateFavoriteTable_spec db Hw Et) as [Hw1 Ht1]. eexists false, _, _. by split_and!. }
  destruct Hprep as (found & nRet & db1 & Ef & Er & Eb & Hw1 & Ht1 & Hfor).
  unfold se_ImportFavoriteData. replace (_ =? 0) with false by (destruct ppData; [done|simpl; lia]).
  destruct (se_GetFavoriteDataPath pszAppData IsFileExist p) as [pp p1]. simpl in Hpath. subst pp.
  rewrite Ef. cbn [mbind outcome_bind]. rewrite Er, Eb.
  destruct (insert_loop se_insert (lit "tb_fav") se_names se_kinds se_bits se_values tb Hfor
    (fun st p => match p with None => Ok st | Some l => insert_record se_insert st l end) ppData h db1 [])
    as (db' & E & Hw' & _ & Ht'); try done; [by rewrite Ht1, lookup_insert_eq|].
  pose proof (for_each_vec (fun st p => match p with None => Ok st | Some l => insert_record se_insert st l end)
    [] ppData (h, db1)) as Hv.
  assert (Hv' : for_each (se_insert_at ppData) (h, db1) (seqZ 0 (Z.of_nat (List.length ppData))) =
                Ok (quote_all ppData h, db')) by (rewrite <- E; exact Hv).
  rewrite Hv'. cbn [mbind outcome_bind fst snd].
  eexists _, db'. split; [done|]. split; [done|].
  rewrite Ht', Ht1. by rewrite insert_insert_eq.
Qed.

(** C30: with five or six old favorites the import deletes them, takes their number for an
    error code and reports a locked database: the old favorites are lost and none of the
    new ones is written. *)
Theorem import_lost ppData nDataNum h p db path tb :
  fst (se_GetFavoriteDataPath pszAppData IsFileExist p) = Some path -> nDataNum <> 0 -> writable db ->
  tables db !! lit "tb_fav" = Some tb -> se_usable tb -> busy_rows tb ->
  exists p' db', se_ImportFavoriteData pszAppData IsFileExist (Some ppData) nDataNum h p db =
      Ok (ERROR_SQLITE_BUSY, h, p', db') /\
    tables db' = <[lit "tb_fav" := with_rows ∅ tb]> (tables db).
Proof.
  intros Hpath Hn Hw Ht [Hname _] Hbusy. unfold se_ImportFavoriteData. rewrite (proj2 (Z.eqb_neq _ _) Hn).
  destruct (se_GetFavoriteDataPath pszAppData IsFileExist p) as [pp p1]. simpl in Hpath. subst pp.
  rewrite tb_fav_exists, Ht. simpl. rewrite Hname, bool_decide_eq_true_2 by done. cbn [mbind outcome_bind].
  destruct (tb_fav_deleted db tb Hw Ht) as (db' & -> & _ & Ht'). unfold busy_rows in Hbusy.
  replace (true && _) with true by lia. by eexists _, db'.
Qed.

End Import360.

(** ** Sogou, from the records to the file and back *)

Section Sogou.
Context {D : Type} `{SqliteLaws D} `{CodePage}.
Context (mktime : tm -> Z).

(** The records become the rows of the table, in the memory and in the file. *)
Lemma sg_import_rows ppData h m file tb :
  ppData <> [] -> NoDup (omap id ppData) -> valid_vec h ppData -> Forall stored_record (live h ppData) ->
  NoDup (map nId (live h ppData)) -> writable (db_open m) -> tables (db_open m) !! lit "favortable" = Some tb ->
  table_for sg_names sg_kinds sg_bits tb = true -> reserved (db_open m) <= 12 ->
  exists db' f, sg_ImportFavoriteData (Some ppData) (Z.of_nat (List.length ppData)) h (Some m) file =
      Ok (ERROR_OK, quote_all ppData h, Some (db_image db'), Some f) /\
    decode (Some f) = Ok (Some (db_image db')) /\
    tables db' = <[lit "favortable" := with_rows (rows_of sg_names sg_values tb (map replace_quotes (live h ppData))) tb]>
                   (tables (db_open m)).
Proof.
  intros Hne Hnd Hval Hst Hids Hw Ht Hfor Hres. unfold sg_ImportFavoriteData.
  replace (_ =? 0) with false by (destruct ppData; [done|simpl; lia]).
  assert (Hd : ascii_text (lit "delete from favorTable")) by (by apply asciib_spec).
  destruct (sql_delete (db_open m) (c_str (lit "delete from favorTable")) (lit "favorTable") tb)
    as (db1 & E1 & Hw1 & Hr1 & _ & Ht1); [vm_compute; reflexivity|done|exact Ht|].
  rewrite (utf8_lit _ Hd). unfold execDML. rewrite E1. change (SQLITE_OK =? SQLITE_OK) with true. cbn iota. cbn [snd].
  destruct (insert_loop sg_insert (lit "favorTable") sg_names sg_kinds sg_bits sg_values tb Hfor
    (fun st p => l ← deref p; insert_record sg_insert st l) ppData h db1 [])
    as (db' & E & Hw' & Hr' & Ht'); try done.
  { intros Hin. unfold valid_vec in Hval. rewrite Forall_forall in Hval. by destruct (Hval _ Hin) as (l & d & ? & _). }
  { intros l Hl. by apply (valid_weak h ppData Hval). }
  { by rewrite Ht1, lookup_insert_eq. }
  pose proof (for_each_vec (fun st p => l ← deref p; insert_record sg_insert st l) [] ppData (h, db1)) as Hv.
  assert (Hv' : for_each (sg_insert_at ppData) (h, db1) (seqZ 0 (Z.of_nat (List.length ppData))) =
                Ok (quote_all ppData h, db')) by (rewrite <- E; exact Hv).
  rewrite Hv'. cbn [mbind outcome_bind fst snd]. destruct (sql_bytes db') as [Hb H20].
  destruct (sogou_roundtrip (db_image db') (reserved db') Hb H20) as (f & Ef & Df & _); [rewrite Hr', Hr1; done|].
  exists db', f. unfold sg_SaveDatabase. rewrite Ef. split; [done|]. split; [done|].
  rewrite Ht', Ht1. by rewrite insert_insert_eq.
Qed.

Lemma rows_of_size names values tb l : NoDup (map nId l) -> size (rows_of names values tb l) = List.length l.
Proof.
  intros Hnd. unfold rows_of. rewrite map_size_list_to_map; [by rewrite length_map|]. by rewrite <- list_fmap_compose.
Qed.

Lemma live_length h ps : (List.length (live h ps) <= List.length ps)%nat.
Proof. induction ps as [|p ps IH]; simpl; [done|]. destruct (_ ≫= _); simpl; lia. Qed.

(** C18: favorites imported into Sogou come back from the file, changed as the code
    changes them: the import writes an encrypted database that [Load] reads; the plug-in
    counts and exports one record for each that was imported and not deleted, with its
    title and URL in which apostrophes are replaced by double quotes, its place among its
    siblings and its folder flag, its id and its parent's moved into the range of Sogou,
    and the fixed date of the import as its times; nothing else in memory changes. The
    records have different ids, numbers of 32 bits, and texts of well-formed UTF-16 that
    fit their arrays; the table of the file is as Sogou makes it. *)
Theorem sogou_import_export ppData h m file tb ls h2 :
  ppData <> [] -> Z.of_nat (List.length ppData) < 2 ^ 31 -> NoDup (omap id ppData) -> valid_vec h ppData ->
  Forall (fun d => stored_record d /\ fair_record (replace_quotes d)) (live h ppData) ->
  NoDup (map nId (live h ppData)) -> writable (db_open m) -> tables (db_open m) !! lit "favortable" = Some tb ->
  table_for sg_names sg_kinds sg_bits tb = true -> reserved (db_open m) <= 12 ->
  ls <> [] -> NoDup ls -> (forall l, l ∈ ls -> is_Some (h2 !! l)) -> (List.length (live h ppData) <= List.length ls)%nat ->
  exists mem f xs h2',
    sg_ImportFavoriteData (Some ppData) (Z.of_nat (List.length ppData)) h (Some m) file =
      Ok (ERROR_OK, quote_all ppData h, Some mem, Some f) /\
    sg_Load (Some f) None = Ok (true, Some mem) /\
    xs ≡ₚ map replace_quotes (live h ppData) /\
    sg_GetFavoriteCount (Some mem) = Ok (Z.of_nat (List.length xs)) /\
    sg_ExportFavoriteData mktime (Some (map Some ls)) (Z.of_nat (List.length ls)) h2 (Some mem) =
      Ok (true, Z.of_nat (List.length xs), h2') /\
    (forall l x old, (l, x) ∈ zip ls xs -> h2 !! l = Some old -> h2' !! l = Some (sg_back mktime x old)) /\
    (forall l, l ∉ take (List.length xs) ls -> h2' !! l = h2 !! l).
Proof.
  intros Hne Hlen Hnd Hval Hst Hids Hw Ht Hfor Hres Hls Hndl Hvl Hroom.
  assert (Hst1 : Forall stored_record (live h ppData)) by (eapply Forall_impl; [exact Hst|]; by intros d [? _]).
  destruct (sg_import_rows ppData h m file tb Hne Hnd Hval Hst1 Hids Hw Ht Hfor Hres) as (db' & f & Ei & Ed & Ht').
  destruct (sql_image db') as (Himg & _ & _). set (l0 := map replace_quotes (live h ppData)) in *.
  assert (Htab : tables (db_open (db_image db')) !! lit "favortable" = Some (with_rows (rows_of sg_names sg_values tb l0) tb))
    by (by rewrite Himg, Ht', lookup_insert_eq).
  assert (Hid0 : NoDup (map nId l0)) by (unfold l0; rewrite map_map; done).
  destruct (export_table (sg_record mktime) (sg_back mktime) tb sg_names sg_values l0 (db_open (db_image db'))
    (lit "select * from FavorTable") (lit "FavorTable") ls h2) as (xs & Hxs & Ex);
    [vm_compute; reflexivity|done|done| |done|].
  { intros x Hx old. apply sg_record_row; [done|]. apply list_elem_of_fmap in Hx as (d & -> & Hx).
    rewrite Forall_forall in Hst. by destruct (Hst d Hx). }
  assert (Hxl : List.length xs = List.length (live h ppData)) by (rewrite (Permutation_length Hxs); unfold l0; by rewrite length_map).
  assert (Hzip : List.length (zip ls xs) = List.length xs) by (rewrite length_zip_with; lia).
  pose proof (zip_fst ls xs) as Hfst.
  exists (db_image db'), f, xs, (put_all (sg_back mktime) (zip ls xs) h2). split; [done|]. split_and!.
  - unfold sg_Load. by rewrite Ed.
  - done.
  - unfold sg_GetFavoriteCount, execQuery.
    rewrite (sql_count _ (c_str (lit "select count(*) as Total from FavorTable")) (lit "FavorTable") (lit "Total") _
      ltac:(vm_compute; reflexivity) Htab).
    cbn [t_rows with_rows]. rewrite (rows_of_size _ _ _ _ Hid0). cbn [mbind outcome_bind map].
    change (vec_at [_] 0) with (Ok (mkQuery [lit "Total"] [SqlInt (Z.of_nat (List.length l0))])). cbn [mbind outcome_bind].
    pose proof (live_length h ppData). unfold getIntField.
    change (field _ "Total") with (Ok (SqlInt (Z.of_nat (List.length l0)))). cbn [mbind outcome_bind column_number].
    rewrite <- (Permutation_length Hxs). by rewrite i32_small by lia.
  - unfold sg_ExportFavoriteData. destruct ls as [|l1 ls]; [done|]. change (vec_at (map Some (l1 :: ls)) 0) with (Ok (Some l1)).
    cbn [mbind outcome_bind]. rewrite bool_decide_eq_false_2 by done. replace (_ =? 0) with false by (simpl; lia).
    cbn [orb]. cbn [mbind outcome_bind] in Ex. destruct (execQuery _ (db_open (db_image db'))) as [rows|]; [|done].
    cbn [mbind outcome_bind] in *. by rewrite Ex, Hzip.
  - intros l x old Hin Hl. apply put_all_lookup; [|done..].
    rewrite Hfst. rewrite <- (take_drop (List.length xs) ls) in Hndl. by apply NoDup_app in Hndl as [? _].
  - intros l Hl. apply put_all_other. by rewrite Hfst.
Qed.

End Sogou.
