(* ===== verification/SqlDb.v ===== *)
(** * A database in memory

    An instance of [Sqlite] with its laws: tables that the statements of the grammar
    change, with their encoding as bytes for the image; and UTF-8 as an instance of
    [CodePage].  They show that the laws can hold, and run the plug-ins on examples. *)
From stdpp Require Import prelude gmap strings countable.
From Stdlib Require Import ZArith Lia String.
From S2P Require Import Prelude Strings Favorites PlugInModule TimeHelper SogouDecoder ChromeImport Utf8.
From S2P Require Import Sqlite SqlPlugIn SqlText SqlTables SqlProofs.

(** ** UTF-8 *)

(** A character that is no character is replaced. *)
Definition utf8_char (c : Z) : list Z :=
  if (0 <=? c) && IsValidCharacter c then CBU8_APPEND_UNSAFE c else [239; 191; 189].

Fixpoint utf8_decode (fuel : nat) (s : list Z) : list Z :=
  match fuel, s with
  | S fuel, c :: s => let '(code_point, rest) := CBU8_NEXT c s in code_point :: utf8_decode fuel rest
  | _, _ => []
  end.

Lemma utf8_char_one c : 0 < c < 128 -> utf8_char c = [c] /\ valid_character c.
Proof.
  intros Hc. unfold utf8_char, valid_character. assert (Hv : IsValidCharacter c = true) by (unfold IsValidCharacter; lia).
  rewrite Hv. replace (0 <=? c) with true by lia. simpl. rewrite append_arith by lia.
  replace (c <? 2 ^ 7) with true by lia. split; [done|]. split; [lia|done].
Qed.

Lemma utf8_char_only x c : 0 <= c < 128 -> c ∈ utf8_char x -> x = c.
Proof.
  intros Hc. unfold utf8_char. destruct (Z.leb_spec 0 x); simpl; [|rewrite !elem_of_cons, elem_of_nil; lia].
  destruct (IsValidCharacter x) eqn:Hv; [|rewrite !elem_of_cons, elem_of_nil; lia].
  destruct (valid_range x (conj H Hv)) as [Hx _]. rewrite append_arith by done.
  destruct (Z.ltb_spec x (2 ^ 7)); [rewrite list_elem_of_singleton; lia|].
  destruct (x <? 2 ^ 11); [|destruct (x <? 2 ^ 16)]; rewrite !elem_of_cons, elem_of_nil; intros Hin; lia_div.
Qed.

Lemma utf8_decode_char cps fuel : Forall valid_character cps ->
  (List.length (flat_map utf8_char cps) <= fuel)%nat -> utf8_decode fuel (flat_map utf8_char cps) = cps.
Proof.
  intros Hv. revert fuel. induction Hv as [|cp cps Hcp _ IH]; intros fuel Hf; [by destruct fuel|].
  destruct (next_encoding cp (flat_map utf8_char cps) Hcp) as (c & t & Ht & Hn).
  assert (E : utf8_char cp = c :: t).
  { unfold utf8_char. destruct Hcp as [H0 ->]. by rewrite (proj2 (Z.leb_le _ _) H0). }
  simpl in *. rewrite E in *. simpl in *. rewrite length_app in Hf. destruct fuel as [|fuel]; [lia|]. simpl. rewrite Hn.
  rewrite IH; [done|lia].
Qed.

#[global] Instance utf8_page : CodePage.
Proof.
  refine {| UnicodeToUtf8 s := flat_map utf8_char s; Utf8ToUnicode s := utf8_decode (List.length s) s;
            utf16 := Forall valid_character |}.
  - done.
  - intros a c b Hc. rewrite flat_map_app. simpl. by rewrite (proj1 (utf8_char_one c Hc)).
  - intros s c Hc Hin. apply list_elem_of_In, in_flat_map in Hin as (x & Hx & Hin). apply list_elem_of_In in Hin.
    apply list_elem_of_In. by rewrite <- (utf8_char_only x c Hc Hin).
  - intros s Hs. by apply utf8_decode_char.
  - intros s Hs. eapply Forall_impl; [|exact Hs]. intros c Hc. by apply utf8_char_one.
Defined.

(** ** Tables as bytes *)

#[global] Instance affinity_countable : Countable affinity.
Proof.
  refine (inj_countable' (fun a => match a with AInteger => true | AText => false end)
    (fun b : bool => if b then AInteger else AText) _). by intros [].
Defined.

#[global] Instance sql_value_countable : Countable sql_value.
Proof.
  refine (inj_countable' (fun v => match v with SqlNull => inl (inl ()) | SqlInt n => inl (inr n) | SqlText s => inr (inl s)
      | SqlBlob b => inr (inr b) end)
    (fun x : (() + Z) + (list Z + list Z) => match x with inl (inl _) => SqlNull | inl (inr n) => SqlInt n
      | inr (inl s) => SqlText s | inr (inr b) => SqlBlob b end) _). by intros [].
Defined.

#[global] Instance table_eq_dec : EqDecision table.
Proof. solve_decision. Defined.

#[global] Instance table_countable : Countable table.
Proof.
  refine (inj_countable' (fun t => (t_name t, t_cols t, t_bits t, t_rows t))
    (fun '(n, c, b, r) => mkTable n c b r) _). by intros [].
Defined.

Fixpoint to_bits (p : positive) : list Z :=
  match p with xH => [] | xO p => 0 :: to_bits p | xI p => 1 :: to_bits p end.

Fixpoint of_bits (l : list Z) : positive :=
  match l with [] => xH | b :: l => if b =? 0 then xO (of_bits l) else xI (of_bits l) end.

Lemma bits_back p : of_bits (to_bits p) = p.
Proof. induction p as [p IH|p IH|]; simpl; congruence. Qed.

Lemma bits_bytes p : Forall (fun b => 0 <= b < 256) (to_bits p).
Proof. induction p; simpl; constructor; try lia; done. Qed.

(** ** The database *)

Record SqlDb := mkDb { db_tables : gmap str table; db_changes : Z }.

Definition SQLITE_ERROR : Z := 1.
Definition SQLITE_CONSTRAINT : Z := 19.

Definition put_table (t : str) (tb : table) (n : Z) (d : SqlDb) : SqlDb := mkDb (<[lower t := tb]> (db_tables d)) n.

Definition db_insert (t : str) (names : list str) (vals : list sql_value) (d : SqlDb) : Z * SqlDb :=
  match db_tables d !! lower t with
  | None => (SQLITE_ERROR, d)
  | Some tb =>
      match insert_row tb names vals with
      | Some (SqlInt id :: row) =>
          if row_ok tb (SqlInt id :: row) && bool_decide (t_rows tb !! id = None)
          then (SQLITE_OK, put_table t (with_rows (<[id := SqlInt id :: row]> (t_rows tb)) tb) 1 d)
          else (SQLITE_CONSTRAINT, d)
      | _ => (SQLITE_ERROR, d)
      end
  end.

Definition db_exec (s : str) (d : SqlDb) : Z * SqlDb :=
  match parse_sql s with
  | Some (CreateTable t (c :: cols)) =>
      if bool_decide (db_tables d !! lower t = None) && c_key c && forallb (fun c => negb (c_key c)) cols
      then (SQLITE_OK, put_table t (new_table t (c :: cols)) (db_changes d) d) else (SQLITE_ERROR, d)
  | Some (CreateIndex _ _ _) => (SQLITE_OK, d)
  | Some (Insert t names vals) => db_insert t names vals d
  | Some (DeleteAll t) =>
      match db_tables d !! lower t with
      | Some tb => (SQLITE_OK, put_table t (with_rows ∅ tb) (Z.of_nat (size (t_rows tb))) d)
      | None => (SQLITE_ERROR, d)
      end
  | _ => (SQLITE_ERROR, d)
  end.

Definition db_select (s : str) (d : SqlDb) : option (list str * list (list sql_value)) :=
  match parse_sql s with
  | Some (SelectAll t) =>
      tb ← db_tables d !! lower t; Some (map fst (t_cols tb), (map_to_list (t_rows tb)).*2)
  | Some (SelectCount t a) =>
      tb ← db_tables d !! lower t; Some ([a], [[SqlInt (Z.of_nat (size (t_rows tb)))]])
  | Some (CountTables n) =>
      Some ([lit "count"], [[SqlInt (if bool_decide (t_name <$> db_tables d !! lower n = Some n) then 1 else 0)]])
  | _ => None
  end.

(** Twenty bytes, the unused space of pages, and the tables. *)
Definition to_image (d : SqlDb) : list Z := replicate 20 0 ++ 12 :: to_bits (countable.encode (db_tables d)).

Definition of_image (m : list Z) : SqlDb := mkDb (default ∅ (countable.decode (of_bits (drop 21 m)))) 0.

#[global] Instance SqlDb_sqlite : Sqlite SqlDb := {|
  sqlite3_exec := db_exec;
  sqlite3_changes := db_changes;
  sqlite3_select := db_select;
  db_open := of_image;
  db_image := to_image
|}.

Lemma image_back d : db_tables (of_image (to_image d)) = db_tables d.
Proof.
  unfold of_image. change (drop 21 (to_image d)) with (to_bits (countable.encode (db_tables d))).
  by rewrite bits_back, decode_encode.
Qed.

#[global] Instance SqlDb_laws : SqliteLaws SqlDb.
Proof.
  refine {| tables := db_tables; writable _ := True; reserved _ := 12 |}.
  - intros d s t c cols Hs _ Ht Hc Hcols. simpl. unfold db_exec. rewrite Hs, Ht, Hc, bool_decide_eq_true_2 by done.
    replace (forallb _ cols) with true; [eexists; split_and!; done|]. symmetry. apply forallb_forall. intros x Hx.
    rewrite List.Forall_forall in Hcols. by rewrite (Hcols x).
  - intros d s n t c Hs _. simpl. unfold db_exec. rewrite Hs. eexists _, d; by split_and!.
  - intros d s t names vals tb id row Hs _ Ht Hrow Hid Hok. simpl. unfold db_exec, db_insert.
    rewrite Hs, Ht, Hrow, Hok, bool_decide_eq_true_2 by done. eexists; split_and!; done.
  - intros d s t tb Hs _ Ht. simpl. unfold db_exec. rewrite Hs, Ht. eexists; split_and!; done.
  - intros d s t tb Hs Ht. simpl. unfold db_select. rewrite Hs, Ht. eexists; split_and!; done.
  - intros d s t a tb Hs Ht. simpl. unfold db_select. by rewrite Hs, Ht.
  - intros d s n Hs. simpl. unfold db_select. rewrite Hs. by eexists.
  - intros d. split; [apply image_back|done].
  - intros d. split; [|done]. change (Forall (fun b => 0 <= b < 256) (to_image d)). unfold to_image. apply Forall_app. split; [by apply Forall_replicate|].
    constructor; [lia|apply bits_bytes].
Defined.

(** ** Examples *)

Definition text_ok (s : wstring) : bool := (Z.of_nat (List.length s) <? MAX_LENGTH - 1) && forallb (fun c => 0 <? c) s.

Definition range_ok (n : Z) : bool := (- 2 ^ 31 <=? n) && (n <? 2 ^ 31).

Definition record_ok (d : FavoriteLineData) : bool :=
  range_ok (nId d) && range_ok (nPid d) && range_ok (nOrder d) && text_ok (szTitle d) && text_ok (szUrl d).

Lemma text_ok_buffer s : text_ok s = true -> buffer_text s.
Proof.
  unfold text_ok, buffer_text. rewrite andb_true_iff, forallb_forall. intros [Hl Hp]. split; [lia|].
  intros Hin. apply list_elem_of_In, Hp in Hin. lia.
Qed.

Lemma record_ok_stored d : record_ok d = true -> stored_record d.
Proof.
  unfold record_ok, range_ok. rewrite !andb_true_iff. intros ((((H1 & H2) & H3) & H4) & H5).
  split; unfold field_range; try lia; by apply text_ok_buffer.
Qed.

Lemma record_ok_fair d : record_ok d = true ->
  forallb (fun c => (0 <=? c) && IsValidCharacter c) (szTitle d ++ szUrl d) = true -> fair_record d.
Proof.
  intros Hok Hv. split; [by apply record_ok_stored|]. unfold record_ok, text_ok in Hok. rewrite !andb_true_iff in Hok.
  destruct Hok as ((_ & [Ht _]) & [Hu _]). rewrite forallb_forall in Hv.
  assert (Hc : forall s, (forall c, c ∈ s -> c ∈ szTitle d ++ szUrl d) -> utf16 s).
  { intros s Hs. apply List.Forall_forall. intros c Hin. apply list_elem_of_In in Hin. specialize (Hv c). rewrite <- list_elem_of_In in Hv.
    specialize (Hv (Hs c Hin)). apply andb_prop in Hv as [H0 Hv]. split; [lia|done]. }
  split; (split; [apply Hc; intros c Hin; apply elem_of_app; auto|lia]).
Qed.

Definition fav (id pid : Z) (folder del : bool) (title url : string) : FavoriteLineData :=
  mkFavorite id (lit title) pid folder (lit url) 0 0 0 0 id del.

Definition demo_heap : heap :=
  {[1%positive := fav 1 0 true false "News" "";
    2%positive := fav 2 1 false false "It's" "http://a/?q='x'); drop table tb_fav; --";
    3%positive := fav 3 0 false true "Old" "http://b/"]}.

Definition demo_vector : fav_vector := [Some 1%positive; Some 2%positive; Some 3%positive].

Lemma demo_stored : Forall (fun d => stored_record d /\ fair_record (replace_quotes d)) (live demo_heap demo_vector).
Proof.
  assert (E : forallb (fun d => record_ok d && record_ok (replace_quotes d) &&
    forallb (fun c => (0 <=? c) && IsValidCharacter c) (szTitle (replace_quotes d) ++ szUrl (replace_quotes d)))
    (live demo_heap demo_vector) = true) by (vm_compute; reflexivity).
  rewrite forallb_forall in E. apply List.Forall_forall. intros d Hd. apply E in Hd.
  rewrite !andb_true_iff in Hd. destruct Hd as [[H1 H2] H3]. split; [by apply record_ok_stored|by apply record_ok_fair].
Qed.

(** The table of 360SE is made when there is none; a quote in a URL does not end its
    literal. *)
Lemma se_import_witness :
  exists p' db', se_ImportFavoriteData (Some (lit "C:\AppData")) (fun _ => true) (Some (demo_vector ++ [None])) 4
      demo_heap (mk360 [] false) (mkDb ∅ 0) = Ok (ERROR_OK, quote_all (demo_vector ++ [None]) demo_heap, p', db') /\
    t_rows <$> tables db' !! lit "tb_fav" =
      Some (rows_of se_names se_values se_fresh (map replace_quotes (live demo_heap demo_vector))).
Proof.
  destruct (se_import_exact (Some (lit "C:\AppData")) (fun _ => true) (demo_vector ++ [None]) demo_heap (mk360 [] false)
    (mkDb ∅ 0) (lit "C:\AppData\360se\data\360sefav.db")) as (p' & db' & E & _ & Ht).
  - vm_compute. reflexivity.
  - done.
  - apply (bool_decide_unpack _). vm_compute. exact I.
  - intros l Hl. assert (Hall : forallb (fun p => match p with Some l => bool_decide (is_Some (demo_heap !! l)) | None => true end)
      (demo_vector ++ [None]) = true) by (vm_compute; reflexivity).
    rewrite forallb_forall in Hall. specialize (Hall (Some l)). rewrite <- list_elem_of_In in Hall.
    by apply bool_decide_eq_true in Hall.
  - eapply List.Forall_impl; [|exact demo_stored]. by intros d [? _].
  - apply (bool_decide_unpack _). vm_compute. exact I.
  - exact I.
  - intros tb Htb. discriminate Htb.
  - exists p', db'. split; [exact E|]. rewrite Ht. reflexivity.
Defined.

Definition five_rows : table :=
  with_rows (list_to_map (map (fun i => (i, [SqlInt i])) (seqZ 1 5))) se_fresh.

Lemma import_lost_witness :
  exists p' db', se_ImportFavoriteData (Some (lit "C:\AppData")) (fun _ => true) (Some demo_vector) 3
      demo_heap (mk360 [] false) (mkDb {[lit "tb_fav" := five_rows]} 0) = Ok (ERROR_SQLITE_BUSY, demo_heap, p', db') /\
    t_rows <$> tables db' !! lit "tb_fav" = Some ∅.
Proof.
  destruct (import_lost (Some (lit "C:\AppData")) (fun _ => true) demo_vector 3 demo_heap (mk360 [] false)
    (mkDb {[lit "tb_fav" := five_rows]} 0) (lit "C:\AppData\360se\data\360sefav.db") five_rows) as (p' & db' & E & Ht).
  - vm_compute. reflexivity.
  - discriminate.
  - exact I.
  - vm_compute. reflexivity.
  - split; vm_compute; reflexivity.
  - left. vm_compute. reflexivity.
  - exists p', db'. split; [exact E|]. rewrite Ht. reflexivity.
Defined.

(** An old database of Sogou with a row, its columns in another order and spelling. *)
Definition sogou_table : table :=
  mkTable (lit "favorTable")
    [(lit "id", AInteger); (lit "pid", AInteger); (lit "folder", AInteger); (lit "title", AText); (lit "url", AText);
     (lit "addTime", AText); (lit "lastmodify", AText); (lit "sequenceNO", AInteger); (lit "hashid", AInteger);
     (lit "category", AInteger); (lit "reserved", AInteger)] [] {[7 := [SqlInt 7]]}.

Definition sogou_file : list Z := to_image (mkDb {[lit "favortable" := sogou_table]} 0).

Definition target_heap : heap := {[10%positive := FavoriteLineData_new 0; 11%positive := FavoriteLineData_new 0]}.

Lemma sogou_import_export_witness :
  exists mem f xs h2',
    sg_ImportFavoriteData (Some demo_vector) 3 demo_heap (Some sogou_file) None =
      Ok (ERROR_OK, quote_all demo_vector demo_heap, Some mem, Some f) /\
    sg_Load (Some f) None = Ok (true, Some mem) /\
    xs ≡ₚ map replace_quotes (live demo_heap demo_vector) /\
    sg_ExportFavoriteData (fun t => tm_min t) (Some [Some 10%positive; Some 11%positive]) 2 target_heap (Some mem) =
      Ok (true, Z.of_nat (List.length xs), h2').
Proof.
  destruct (sogou_import_export (fun t => tm_min t) demo_vector demo_heap sogou_file None sogou_table
    [10%positive; 11%positive] target_heap) as (mem & f & xs & h2' & E1 & E2 & Hp & _ & E3 & _).
  - discriminate.
  - reflexivity.
  - apply (bool_decide_unpack _). vm_compute. exact I.
  - repeat constructor; eexists _, _; split; vm_compute; reflexivity.
  - exact demo_stored.
  - apply (bool_decide_unpack _). vm_compute. exact I.
  - exact I.
  - unfold sogou_file. change (db_tables (of_image (to_image (mkDb {[lit "favortable" := sogou_table]} 0))) !! lit "favortable" =
      Some sogou_table). rewrite image_back. vm_compute. reflexivity.
  - vm_compute. reflexivity.
  - vm_compute. discriminate.
  - discriminate.
  - apply (bool_decide_unpack _). vm_compute. exact I.
  - intros l Hl. rewrite !elem_of_cons, elem_of_nil in Hl. destruct Hl as [->|[->|[]]]; eexists; vm_compute; reflexivity.
  - vm_compute. repeat constructor.
  - exists mem, f, xs, h2'. split; [exact E1|]. split; [exact E2|]. split; [exact Hp|exact E3].
Defined.
