(* ===== verification/Maxthon.v ===== *)
(** * Maxthon 2

    PlugIn/MaxthonPlugIn/Maxthon2PlugIn.cpp: the nodes of the table MyFavNodes, which
    are identified by blobs, as records: the export hashes the blobs to ids and then
    renumbers the records in place, so that the parents follow.  The rows are what
    SQLite answers to the query.  The decoder of the file is Windows' and not modelled,
    nor is the import, which binds its values to a compiled statement. *)
From stdpp Require Import prelude gmap strings.
From Stdlib Require Import ZArith Lia String.
From S2P Require Import Prelude Strings Favorites PlugInModule Memory CrcHash Chrome ChromeExport Sqlite SqlPlugIn SqlText SqlTables SqlProofs.

Definition ID_VALUE_MAXTHON2_BEGIN : Z := ID_VALUE_BEGIN (PLUG_ID MAXTHON2).

Definition IT_FOLDER : Z := 2.

(** ** The operations *)

(** [getBlobField]: an empty blob has no address. *)
Definition getBlobField (q : CppSQLite3Query) (szField : string) : outcome (list Z) :=
  v ← field q szField;
  Ok (match v with
      | SqlNull => []
      | SqlInt n => StringHelper.ConvertFromInt n
      | SqlText s | SqlBlob s => s
      end).

(** [memcmp(pTemp, szParentNode, 16) == 0]: a shorter blob must differ before its end. *)
Definition is_root (pTemp : list Z) : outcome bool :=
  if bool_decide (pTemp = []) then Fault NullDeref
  else if bool_decide (take 16 pTemp = replicate (List.length (take 16 pTemp)) 0)
  then if (List.length pTemp <? 16)%nat then Fault OutOfRange else Ok true
  else Ok false.

(** [GetHash] of a blob into an id; without data the id stays. *)
Definition hash_blob (pTemp : list Z) (id : Z) : outcome Z :=
  r ← GetHash (if bool_decide (pTemp = []) then None else Some pTemp) true 4;
  Ok (match r with Some b => i32 (le_value b) | None => id end).

(** The wide characters of a blob up to the zero that must end them. *)
Fixpoint wide_text (b : list Z) : option wstring :=
  match b with
  | lo :: hi :: b => if lo + 256 * hi =? 0 then Some [] else s ← wide_text b; Some (lo + 256 * hi :: s)
  | _ => None
  end.

(** [memcpy] of a blob into an array of [MAX_LENGTH] characters, which is then read
    as a string. *)
Definition copy_blob (b : list Z) : outcome wstring :=
  if 2 * MAX_LENGTH <? Z.of_nat (List.length b) then Fault OutOfRange
  else match wide_text b with Some s => Ok s | None => Fault OutOfRange end.

Definition m2_record (q : CppSQLite3Query) (d : FavoriteLineData) : outcome FavoriteLineData :=
  pTemp ← getBlobField q "parent_id";
  root ← is_root pTemp;
  nPid ← if root : bool then Ok 0 else hash_blob pTemp (nPid d);
  pTemp ← getBlobField q "id";
  nId ← hash_blob pTemp (nId d);
  pTemp ← getBlobField q "title";
  title ← if bool_decide (pTemp = []) then Ok ([], nHashId d)
          else s ← copy_blob pTemp; hash ← hash_title s (nHashId d); Ok (s, hash);
  pTemp ← getBlobField q "url";
  szUrl ← if bool_decide (pTemp = []) then Ok [] else copy_blob pTemp;
  type ← getIntField q "type" 1;
  nAddTimes ← getIntField q "add_date" 0;
  nClickTimes ← getIntField q "visit_count" 0;
  nLastModifyTime ← getIntField q "last_modified" 0;
  nOrder ← getIntField q "norder" 0;
  Ok (mkFavorite nId (fst title) nPid (type =? IT_FOLDER) szUrl nAddTimes nLastModifyTime nClickTimes (snd title) nOrder false).

(** The inner loop: a record below record [i] gets its new id as parent. *)
Definition m2_fix_pid (ppData : fav_vector) (i : Z) (h : heap) (j : Z) : outcome heap :=
  pj ← vec_at ppData j; lj ← deref pj; dj ← load h lj;
  pi ← vec_at ppData i; di ← load_ptr h pi;
  if nPid dj =? nId di then Ok (<[lj := set_nPid (i + 1 + ID_VALUE_MAXTHON2_BEGIN) dj]> h) else Ok h.

Definition m2_fix (ppData : fav_vector) (nDataNum : Z) (h : heap) (i : Z) : outcome heap :=
  pi ← vec_at ppData i; li ← deref pi; di ← load h li;
  if negb (nId di =? i + 1 + ID_VALUE_MAXTHON2_BEGIN) then
    h ← for_each (m2_fix_pid ppData i) h (seqZ 0 nDataNum);
    di ← load h li;
    Ok (<[li := set_ids (i + 1 + ID_VALUE_MAXTHON2_BEGIN) (nPid di) di]> h)
  else Ok h.

Definition m2_query : str := lit "select * from MyFavNodes where parent_id <> ''".

Definition m2_ExportFavoriteData {D : Type} `{Sqlite D} (ppData : option fav_vector) (nDataNum : Z) (h : heap)
    (mem : option (list Z)) : outcome (bool * Z * heap) :=
  match ppData with
  | None => Ok (false, nDataNum, h)
  | Some ppData =>
      if nDataNum =? 0 then Ok (false, nDataNum, h)
      else
        match mem with
        | None => Ok (false, nDataNum, h)
        | Some m =>
            rows ← execQuery m2_query (db_open m);
            r ← export_rows m2_record ppData nDataNum 0 rows h;
            let '(nDataNum, h) := (r : Z * heap) in
            h ← for_each (m2_fix ppData nDataNum) h (seqZ 0 nDataNum);
            Ok (true, nDataNum, h)
        end
  end.

(** ** Renumbering in place *)

Definition new_id (k : nat) : Z := Z.of_nat k + 1 + ID_VALUE_MAXTHON2_BEGIN.

(** The first record with an id. *)
Fixpoint id_index (ids : list Z) (p : Z) : option nat :=
  match ids with
  | [] => None
  | i :: ids => if p =? i then Some O else S <$> id_index ids p
  end.

(** A parent id when the records before [i] have their new ids, and behind the loop. *)
Definition pid_after (ids : list Z) (i : nat) (p : Z) : Z :=
  match id_index ids p with
  | Some m => if (m <? i)%nat then new_id m else p
  | None => p
  end.

Definition new_pid (ids : list Z) (p : Z) : Z := match id_index ids p with Some m => new_id m | None => p end.

Lemma id_index_Some ids p m : id_index ids p = Some m -> ids !! m = Some p /\ forall k, (k < m)%nat -> ids !! k <> Some p.
Proof.
  revert m. induction ids as [|i ids IH]; intros m; simpl; [done|]. destruct (Z.eqb_spec p i) as [->|Hne].
  - intros [= <-]. split; [done|lia].
  - destruct (id_index ids p) as [k|]; [|done]. intros [= <-]. destruct (IH k eq_refl) as [H1 H2]. split; [done|].
    intros [|k'] Hk; simpl; [congruence|apply H2; lia].
Qed.

Lemma id_index_first ids m p : ids !! m = Some p -> exists k, id_index ids p = Some k /\ (k <= m)%nat.
Proof.
  revert m. induction ids as [|i ids IH]; intros m Hm; [done|]. simpl. destruct (Z.eqb_spec p i) as [->|Hne]; [exists O; split; [done|lia]|].
  destruct m as [|m]; simpl in Hm; [congruence|]. destruct (IH m Hm) as (k & -> & Hk). exists (S k). split; [done|lia].
Qed.

(** One round of the loop on a parent id. *)
Lemma pid_step ids i id p : ids !! i = Some id -> (forall m, (m < i)%nat -> id <> new_id m) ->
  (if pid_after ids i p =? id then new_id i else pid_after ids i p) = pid_after ids (S i) p.
Proof.
  intros Hi Hnew. unfold pid_after. destruct (id_index ids p) as [m|] eqn:E.
  - destruct (id_index_Some _ _ _ E) as [Hm Hfirst].
    destruct (Nat.ltb_spec m i) as [Hlt|Hge], (Nat.ltb_spec m (S i)) as [Hlt'|Hge']; try lia.
    + destruct (Z.eqb_spec (new_id m) id) as [He|_]; [|done]. exfalso. by apply (Hnew m).
    + assert (m = i) as -> by lia. rewrite Hi in Hm. injection Hm as ->. by rewrite Z.eqb_refl.
    + destruct (Z.eqb_spec p id) as [->|_]; [|done]. exfalso. by apply (Hfirst i ltac:(lia)).
  - destruct (Z.eqb_spec p id) as [->|_]; [|done]. destruct (id_index_first ids i id Hi) as (k & Hk & _). congruence.
Qed.

Section Renumber.
Context (ls : list positive) (ds : list FavoriteLineData) (h0 : heap).
Context (Hnd : NoDup ls) (Hlen : (List.length ds <= List.length ls)%nat).
Abbreviation ids := (map nId ds).
Context (Hids : forall m k id, (m < k)%nat -> ids !! k = Some id -> id <> new_id m).

(** Record [k] in round [i] of the outer loop, before round [j] of the inner one. *)
Definition stage (i j k : nat) (d : FavoriteLineData) : FavoriteLineData :=
  set_ids (if (k <? i)%nat then new_id k else nId d) (pid_after ids (if (k <? j)%nat then S i else i) (nPid d)) d.

Definition stage_inv (i j : nat) (h : heap) : Prop :=
  (forall k l d, ls !! k = Some l -> ds !! k = Some d -> h !! l = Some (stage i j k d)) /\
  (forall l, l ∉ take (List.length ds) ls -> h !! l = h0 !! l).

Lemma slot k : (k < List.length ds)%nat -> exists l d, ls !! k = Some l /\ ds !! k = Some d /\
  vec_at (map Some ls) (Z.of_nat k) = Ok (Some l) /\ l ∈ take (List.length ds) ls.
Proof using Hlen.
  clear Hids. intros Hk. destruct (lookup_lt_is_Some_2 ds k Hk) as [d Hd].
  destruct (lookup_lt_is_Some_2 ls k ltac:(lia)) as [l Hl]. exists l, d. split_and!; [done..| |].
  - apply vec_at_nat. by rewrite list_lookup_fmap, Hl.
  - apply list_elem_of_lookup. exists k. by rewrite lookup_take_lt.
Qed.

(** Writing record [k] takes the invariant from one stage to another that agrees with
    it elsewhere. *)
Lemma stage_insert i j i' j' k l d h : ls !! k = Some l -> ds !! k = Some d -> stage_inv i j h ->
  (forall k' d', k' <> k -> stage i' j' k' d' = stage i j k' d') ->
  stage_inv i' j' (<[l := stage i' j' k d]> h).
Proof using Hnd.
  clear Hlen Hids. intros Hl Hd [Hin Hout] Hsame. split.
  - intros k' l' d' Hl' Hd'. destruct (decide (k' = k)) as [->|Hne].
    + assert (l' = l) as -> by congruence. assert (d' = d) as -> by congruence. by rewrite lookup_insert_eq.
    + rewrite lookup_insert_ne by (intros ->; by eapply Hne, NoDup_lookup). rewrite (Hin k' l' d' Hl' Hd').
      by rewrite Hsame.
  - intros l' Hl'. rewrite lookup_insert_ne; [by apply Hout|]. intros ->. apply Hl', list_elem_of_lookup. exists k.
    rewrite lookup_take_lt; [done|]. by eapply lookup_lt_Some.
Qed.

Lemma ids_lookup k d : ds !! k = Some d -> ids !! k = Some (nId d).
Proof using Type. intros Hd. by rewrite list_lookup_fmap, Hd. Qed.

Lemma m2_fix_pid_ok i j h : (i < List.length ds)%nat -> (j < List.length ds)%nat -> stage_inv i j h ->
  exists h', m2_fix_pid (map Some ls) (Z.of_nat i) h (Z.of_nat j) = Ok h' /\ stage_inv i (S j) h'.
Proof using Hnd Hlen Hids.
  intros Hi Hj Hinv. destruct (slot i Hi) as (li & di & Hli & Hdi & Vi & _). destruct (slot j Hj) as (lj & dj & Hlj & Hdj & Vj & _).
  unfold m2_fix_pid. rewrite Vj. cbn [mbind outcome_bind deref]. rewrite (proj2 (load_Ok _ _ _) (proj1 Hinv j lj dj Hlj Hdj)). cbn [mbind outcome_bind]. rewrite Vi. cbn [mbind outcome_bind].
  unfold load_ptr. cbn [mbind outcome_bind deref]. rewrite (proj2 (load_Ok _ _ _) (proj1 Hinv i li di Hli Hdi)). cbn [mbind outcome_bind].
  assert (Hid : nId (stage i j i di) = nId di) by (simpl; by rewrite Nat.ltb_irrefl).
  assert (Hpid : nPid (stage i j j dj) = pid_after ids i (nPid dj)) by (simpl; by rewrite Nat.ltb_irrefl).
  pose proof (pid_step ids i (nId di) (nPid dj) (ids_lookup i di Hdi) (fun m Hm => Hids m i _ Hm (ids_lookup i di Hdi))) as Hstep.
  assert (Hsame : forall k' d', k' <> j -> stage i (S j) k' d' = stage i j k' d').
  { intros k' d' Hne. unfold stage. f_equal. destruct (Nat.ltb_spec k' j), (Nat.ltb_spec k' (S j)); try lia; done. }
  assert (Hnew : stage i (S j) j dj = set_nPid (pid_after ids (S i) (nPid dj)) (stage i j j dj)).
  { unfold stage. assert (E : (j <? S j)%nat = true) by (apply Nat.ltb_lt; lia). by rewrite E. }
  rewrite Hid, Hpid. destruct (pid_after ids i (nPid dj) =? nId di) eqn:E.
  - eexists. split; [done|]. replace (Z.of_nat i + 1 + ID_VALUE_MAXTHON2_BEGIN) with (pid_after ids (S i) (nPid dj)).
    rewrite <- Hnew. by apply (stage_insert i j).
  - eexists. split; [done|]. split; [|apply Hinv]. intros k l d Hl Hd. rewrite (proj1 Hinv k l d Hl Hd).
    destruct (decide (k = j)) as [->|Hne]; [|by rewrite Hsame]. assert (d = dj) as -> by congruence.
    rewrite Hnew, <- Hstep. unfold stage, set_nPid, set_ids. simpl. by rewrite Nat.ltb_irrefl.
Qed.

Lemma m2_fix_ok i h : (i < List.length ds)%nat -> stage_inv i 0 h ->
  exists h', m2_fix (map Some ls) (Z.of_nat (List.length ds)) h (Z.of_nat i) = Ok h' /\ stage_inv (S i) 0 h'.
Proof using Hnd Hlen Hids.
  intros Hi Hinv. destruct (slot i Hi) as (li & di & Hli & Hdi & Vi & _).
  unfold m2_fix. rewrite Vi. cbn [mbind outcome_bind deref]. rewrite (proj2 (load_Ok _ _ _) (proj1 Hinv i li di Hli Hdi)).
  cbn [mbind outcome_bind]. assert (Hid : nId (stage i 0 i di) = nId di) by (simpl; by rewrite Nat.ltb_irrefl).
  rewrite Hid. change (Z.of_nat i + 1 + ID_VALUE_MAXTHON2_BEGIN) with (new_id i).
  pose proof (fun p => pid_step ids i (nId di) p (ids_lookup i di Hdi) (fun m Hm => Hids m i _ Hm (ids_lookup i di Hdi))) as Hstep.
  destruct (Z.eqb_spec (nId di) (new_id i)) as [Heq|Hne]; cbn [negb].
  - exists h. split; [done|]. split; [|apply Hinv]. intros k l d Hl Hd. rewrite (proj1 Hinv k l d Hl Hd). f_equal.
    unfold stage. change (k <? 0)%nat with false. cbn iota. rewrite <- Hstep. f_equal.
    + destruct (Nat.ltb_spec k i), (Nat.ltb_spec k (S i)); try lia; try done.
      assert (k = i) as -> by lia. congruence.
    + destruct (Z.eqb_spec (pid_after ids i (nPid d)) (nId di)); congruence.
  - destruct (for_range_ind (fun j h => stage_inv i (Z.to_nat j) h) (m2_fix_pid (map Some ls) (Z.of_nat i)) h
      (Z.of_nat (List.length ds))) as (h1 & -> & H1); [lia|exact Hinv| |].
    { intros j h1 Hj H1. destruct (m2_fix_pid_ok i (Z.to_nat j) h1 Hi ltac:(lia) H1) as (h2 & E & H2).
      rewrite Z2Nat.id in E by lia. exists h2. split; [done|]. by replace (Z.to_nat (j + 1)) with (S (Z.to_nat j)) by lia. }
    rewrite Nat2Z.id in H1. cbn [mbind outcome_bind]. rewrite (proj2 (load_Ok _ _ _) (proj1 H1 i li di Hli Hdi)). cbn [mbind outcome_bind].
    eexists. split; [done|].
    assert (Hin : forall k (d : FavoriteLineData), ds !! k = Some d -> (k <? List.length ds)%nat = true).
    { intros k d Hd. apply Nat.ltb_lt. by eapply lookup_lt_Some. }
    split.
    + intros k l d Hl Hd. destruct (decide (k = i)) as [->|Hk].
      * assert (l = li) as -> by congruence. assert (d = di) as -> by congruence. rewrite lookup_insert_eq. f_equal.
        unfold stage. rewrite (Hin i di Hdi). change (i <? 0)%nat with false. cbn iota.
        assert (E1 : (i <? S i)%nat = true) by (apply Nat.ltb_lt; lia). by rewrite E1.
      * rewrite lookup_insert_ne by (intros ->; by eapply Hk, NoDup_lookup). rewrite (proj1 H1 k l d Hl Hd). f_equal.
        unfold stage. rewrite (Hin k d Hd). change (k <? 0)%nat with false. cbn iota. f_equal.
        destruct (Nat.ltb_spec k i), (Nat.ltb_spec k (S i)); try lia; done.
    + intros l Hl. rewrite lookup_insert_ne; [by apply H1|]. intros ->. apply Hl, list_elem_of_lookup. exists i.
      by rewrite lookup_take_lt.
Qed.

(** The loop gives every record its new id, and its parent the parent's. *)
Lemma m2_renumber h : stage_inv 0 0 h ->
  exists h', for_each (m2_fix (map Some ls) (Z.of_nat (List.length ds))) h (seqZ 0 (Z.of_nat (List.length ds))) = Ok h' /\
    (forall k l d, ls !! k = Some l -> ds !! k = Some d ->
       h' !! l = Some (set_ids (new_id k) (new_pid ids (nPid d)) d)) /\
    (forall l, l ∉ take (List.length ds) ls -> h' !! l = h0 !! l).
Proof using Hnd Hlen Hids.
  intros Hinv. destruct (for_range_ind (fun i h => stage_inv (Z.to_nat i) 0 h) (m2_fix (map Some ls) (Z.of_nat (List.length ds))) h
    (Z.of_nat (List.length ds))) as (h' & E & H1); [lia|exact Hinv| |].
  { intros i h1 Hi H1. destruct (m2_fix_ok (Z.to_nat i) h1 ltac:(lia) H1) as (h2 & E & H2). rewrite Z2Nat.id in E by lia.
    exists h2. split; [done|]. by replace (Z.to_nat (i + 1)) with (S (Z.to_nat i)) by lia. }
  rewrite Nat2Z.id in H1. exists h'. split; [done|]. split; [|apply H1]. intros k l d Hl Hd.
  rewrite (proj1 H1 k l d Hl Hd). f_equal. unfold stage. rewrite (proj2 (Nat.ltb_lt k _)) by (by eapply lookup_lt_Some).
  f_equal. change (k <? 0)%nat with false. cbn iota. unfold pid_after, new_pid. destruct (id_index ids (nPid d)) as [m|] eqn:Em; [|done].
  destruct (id_index_Some _ _ _ Em) as [Hm _]. rewrite (proj2 (Nat.ltb_lt m _)); [done|].
  apply lookup_lt_Some in Hm. by rewrite length_map in Hm.
Qed.

End Renumber.

(** ** The export *)

(** A node of the table. *)
Record m2_node := mkNode {
  m_parent : list Z; m_id : list Z; m_title : wstring; m_url : wstring;
  m_type : Z; m_add : Z; m_visit : Z; m_modified : Z; m_order : Z
}.

Definition key (b : list Z) : Z := i32 (crc32 b).

Definition blob (b : list Z) : Prop := Forall (fun x => 0 <= x < 2 ^ 8) b.

Definition short_text (s : wstring) : Prop := Forall (fun c => 0 < c < 65536) s /\ Z.of_nat (List.length s) < MAX_LENGTH.

Definition wide_blob (s : wstring) : list Z := wide_bytes s ++ [0; 0].

(** A row of the query that is a node: ids of sixteen bytes or more, and texts with
    their zero that fit the record. *)
Record reads (q : CppSQLite3Query) (n : m2_node) : Prop := {
  rd_parent : field q "parent_id" = Ok (SqlBlob (m_parent n)) /\ blob (m_parent n) /\ (16 <= List.length (m_parent n))%nat;
  rd_id : field q "id" = Ok (SqlBlob (m_id n)) /\ blob (m_id n) /\ m_id n <> [];
  rd_title : field q "title" = Ok (SqlBlob (wide_blob (m_title n))) /\ short_text (m_title n);
  rd_url : field q "url" = Ok (SqlBlob (wide_blob (m_url n))) /\ short_text (m_url n);
  rd_type : getIntField q "type" 1 = Ok (m_type n);
  rd_add : getIntField q "add_date" 0 = Ok (m_add n);
  rd_visit : getIntField q "visit_count" 0 = Ok (m_visit n);
  rd_modified : getIntField q "last_modified" 0 = Ok (m_modified n);
  rd_order : getIntField q "norder" 0 = Ok (m_order n)
}.

(** The parent of a node at the top. *)
Definition at_root (n : m2_node) : bool := bool_decide (take 16 (m_parent n) = replicate 16 0).

Definition m2_back (n : m2_node) (old : FavoriteLineData) : FavoriteLineData :=
  mkFavorite (key (m_id n)) (m_title n) (if at_root n then 0 else key (m_parent n)) (m_type n =? IT_FOLDER) (m_url n)
    (m_add n) (m_modified n) (m_visit n) (title_hash (m_title n) (nHashId old)) (m_order n) false.

Lemma wide_text_blob s : Forall (fun c => 0 < c < 65536) s -> wide_text (wide_blob s) = Some s.
Proof.
  induction 1 as [|c s Hc _ IH]; [done|]. unfold wide_blob in *. cbn [wide_bytes flat_map app wide_text].
  assert (E : u8 c + 256 * u8 (Z.shiftr c 8) = c).
  { unfold u8. rewrite Z.shiftr_div_pow2 by lia. change (2 ^ 8) with 256. lia_div. }
  rewrite E. replace (c =? 0) with false by lia. change (flat_map _ s) with (wide_bytes s). by rewrite IH.
Qed.

Lemma copy_blob_ok s : short_text s -> copy_blob (wide_blob s) = Ok s.
Proof.
  intros [Hc Hl]. unfold copy_blob. rewrite (wide_text_blob s Hc).
  assert (E : List.length (wide_blob s) = (2 * List.length s + 2)%nat).
  { unfold wide_blob. rewrite length_app. f_equal. clear. induction s as [|c s IH]; [done|]. simpl. rewrite IH. lia. }
  rewrite E. by rewrite (proj2 (Z.ltb_ge _ _)) by lia.
Qed.

Lemma wide_blob_not_nil s : wide_blob s <> [].
Proof. unfold wide_blob. by destruct (wide_bytes s). Qed.

Lemma hash_blob_ok b old : blob b -> b <> [] -> hash_blob b old = Ok (key b).
Proof.
  intros Hb Hne. unfold hash_blob. rewrite bool_decide_eq_false_2 by done.
  destruct (GetHash_crc b Hne Hb) as (r & -> & Hr). cbn [mbind outcome_bind]. unfold key. by rewrite Hr.
Qed.

Lemma is_root_ok n : (16 <= List.length (m_parent n))%nat -> is_root (m_parent n) = Ok (at_root n).
Proof.
  intros Hl. unfold is_root, at_root. rewrite bool_decide_eq_false_2 by (intros E; rewrite E in Hl; simpl in Hl; lia).
  rewrite length_take, Nat.min_l by done. case_bool_decide; [|done]. by rewrite (proj2 (Nat.ltb_ge _ _) Hl).
Qed.

Lemma m2_record_row q n old : reads q n -> m2_record q old = Ok (m2_back n old).
Proof.
  intros [(F1 & B1 & L1) (F2 & B2 & N2) (F3 & S3) (F4 & S4) T1 T2 T3 T4 T5]. unfold m2_record, getBlobField.
  rewrite F1, F2, F3, F4. cbn [mbind outcome_bind]. rewrite (is_root_ok n L1). cbn [mbind outcome_bind].
  assert (E : (if at_root n then Ok 0 else hash_blob (m_parent n) (nPid old)) =
              Ok (if at_root n then 0 else key (m_parent n))).
  { destruct (at_root n); [done|]. apply hash_blob_ok; [done|]. intros E. rewrite E in L1. simpl in L1. lia. }
  rewrite E. cbn [mbind outcome_bind]. rewrite hash_blob_ok by done. cbn [mbind outcome_bind].
  rewrite !bool_decide_eq_false_2 by apply wide_blob_not_nil. rewrite (copy_blob_ok _ S3), (copy_blob_ok _ S4).
  cbn [mbind outcome_bind]. rewrite hash_title_ok. cbn [mbind outcome_bind]. rewrite T1. cbn [mbind outcome_bind].
  rewrite T2. cbn [mbind outcome_bind]. rewrite T3. cbn [mbind outcome_bind]. rewrite T4. cbn [mbind outcome_bind].
  rewrite T5. done.
Qed.

Lemma id_index_NoDup ids j p : NoDup ids -> ids !! j = Some p -> id_index ids p = Some j.
Proof.
  intros Hnd Hj. destruct (id_index_first ids j p Hj) as (k & Hk & _). destruct (id_index_Some _ _ _ Hk) as [Hk' _].
  rewrite Hk. f_equal. by eapply NoDup_lookup.
Qed.

Lemma id_index_None ids p : p ∉ ids -> id_index ids p = None.
Proof.
  intros Hn. destruct (id_index ids p) as [m|] eqn:E; [|done]. exfalso. apply Hn, list_elem_of_lookup. exists m.
  by apply id_index_Some.
Qed.

(** The records that the loop over the rows leaves behind. *)
Lemma m2_records (ls : list positive) ns (h : heap) :
  (forall l, l ∈ ls -> is_Some (h !! l)) -> (List.length ns <= List.length ls)%nat ->
  exists ds, List.length ds = List.length ns /\ map nId ds = map (fun n => key (m_id n)) ns /\
    (forall k d, ds !! k = Some d -> exists l n old,
       ls !! k = Some l /\ ns !! k = Some n /\ h !! l = Some old /\ d = m2_back n old).
Proof.
  intros Hval Hlen. set (ds := zip_with (fun l n => m2_back n (default (FavoriteLineData_new 0) (h !! l))) ls ns).
  assert (Hds : List.length ds = List.length ns) by (unfold ds; rewrite length_zip_with; lia).
  assert (Hd : forall k d, ds !! k = Some d -> exists l n old, ls !! k = Some l /\ ns !! k = Some n /\ h !! l = Some old /\
            d = m2_back n old).
  { intros k d Hk. unfold ds in Hk. apply lookup_zip_with_Some in Hk as (l & n & -> & Hl & Hn).
    destruct (Hval l (list_elem_of_lookup_2 _ _ _ Hl)) as [old Hold]. exists l, n, old. by rewrite Hold. }
  exists ds. split; [done|]. split; [|done]. apply list_eq. intros k. rewrite !list_lookup_fmap.
  destruct (ds !! k) as [d|] eqn:Ek.
  - destruct (Hd k d Ek) as (l & n & old & _ & -> & _ & ->). done.
  - apply lookup_ge_None in Ek. rewrite (proj2 (lookup_ge_None ns k)) by lia. done.
Qed.

(** C24: the export of Maxthon 2 makes a record of every node, in the order of the rows,
    with the ids of the browser's range in that order; a node at the top has the parent
    0, and a node in a folder the new id of that folder.  It holds when the checksums of
    the ids are different, not 0 and not in the range of the new ids: the records are
    renumbered in place, and a checksum in that range could be taken for a new id. *)
Theorem maxthon_export_exact {D : Type} `{Sqlite D} rows ns m ls h :
  execQuery m2_query (db_open m) = Ok rows -> Forall2 reads rows ns -> ls <> [] -> NoDup ls ->
  (forall l, l ∈ ls -> is_Some (h !! l)) -> (List.length ns <= List.length ls)%nat ->
  NoDup (map (fun n => key (m_id n)) ns) ->
  (forall n, n ∈ ns -> key (m_id n) <> 0 /\
     (key (m_id n) <= ID_VALUE_MAXTHON2_BEGIN \/ ID_VALUE_MAXTHON2_BEGIN + Z.of_nat (List.length ns) < key (m_id n))) ->
  exists h', m2_ExportFavoriteData (Some (map Some ls)) (Z.of_nat (List.length ls)) h (Some m) =
      Ok (true, Z.of_nat (List.length ns), h') /\
    (forall k n l old, ns !! k = Some n -> ls !! k = Some l -> h !! l = Some old ->
       exists pid, h' !! l = Some (set_ids (new_id k) pid (m2_back n old)) /\
         (at_root n = true -> pid = 0) /\
         (forall j p, ns !! j = Some p -> m_id p = m_parent n -> at_root n = false -> pid = new_id j)) /\
    (forall l, l ∉ take (List.length ns) ls -> h' !! l = h !! l).
Proof.
  intros Hq HF Hls Hnd Hval Hlen Hkeys Hrange.
  destruct (m2_records ls ns h Hval Hlen) as (ds & Hds & Hids & Hd).
  assert (Hsafe : forall i k id, (i < k)%nat -> map nId ds !! k = Some id -> id <> new_id i).
  { intros i k id Hik Hk. rewrite Hids, list_lookup_fmap in Hk. destruct (ns !! k) as [n|] eqn:En; [|done].
    injection Hk as <-. pose proof (lookup_lt_Some _ _ _ En). destruct (Hrange n (list_elem_of_lookup_2 _ _ _ En)) as [_ Hr].
    unfold new_id. lia. }
  pose proof (zip_fst ls ns) as Hzip.
  assert (Hz : List.length (zip ls ns) = List.length ns) by (rewrite length_zip_with; lia).
  assert (Hndz : NoDup (map fst (zip ls ns))).
  { rewrite Hzip. rewrite <- (take_drop (List.length ns) ls) in Hnd. by apply NoDup_app in Hnd as [? _]. }
  destruct (m2_renumber ls ds h Hnd ltac:(lia) Hsafe (put_all m2_back (zip ls ns) h)) as (h' & E & Hin & Hout).
  { split.
    - intros k l d Hl Hk. destruct (Hd k d Hk) as (l' & n & old & Hl' & Hn & Hold & ->). assert (l' = l) as -> by congruence.
      rewrite (put_all_lookup m2_back _ h l n old Hndz); [|by apply list_elem_of_lookup; exists k; apply lookup_zip_Some|done].
      f_equal. unfold stage, pid_after. change (k <? 0)%nat with false. cbn iota. by destruct (id_index _ _).
    - intros l Hl. apply put_all_other. by rewrite Hzip, <- Hds. }
  exists h'. split; [|split].
  - unfold m2_ExportFavoriteData. replace (_ =? 0) with false by (destruct ls; [done|simpl; lia]). rewrite Hq.
    cbn [mbind outcome_bind].
    assert (Hrec : Forall2 (fun q n => forall d, m2_record q d = Ok (m2_back n d)) rows ns).
    { eapply Forall2_impl; [exact HF|]. intros q n Hr old. by apply m2_record_row. }
    pose proof (export_rows_spec m2_record m2_back rows ns ls 0 h Hrec Hval ltac:(lia)) as Ex.
    change (Z.of_nat 0) with 0 in Ex. rewrite Ex. cbn [mbind outcome_bind]. rewrite drop_0, Hz. simpl (0 + _)%nat.
    rewrite <- Hds. by rewrite E.
  - intros k n l old Hn Hl Hold. destruct (lookup_lt_is_Some_2 ds k) as [d Hk]; [rewrite Hds; by eapply lookup_lt_Some|].
    destruct (Hd k d Hk) as (l' & n' & old' & Hl' & Hn' & Hold' & ->).
    assert (l' = l) as -> by congruence. assert (n' = n) as -> by congruence. assert (old' = old) as -> by congruence.
    eexists. split; [by apply (Hin k)|]. rewrite Hids. unfold new_pid. simpl. split.
    + intros ->. rewrite id_index_None; [done|]. intros H0. apply list_elem_of_fmap in H0 as (n1 & H0 & Hn1).
      by destruct (Hrange n1 Hn1) as [? _].
    + intros j p Hp <- ->. rewrite (id_index_NoDup _ j); [done|done|]. by rewrite list_lookup_fmap, Hp.
  - intros l Hl. rewrite Hout; [done|]. by rewrite Hds.
Qed.

(** ** Example *)

(** A database that answers every query with the rows of a folder and a page in it. *)
Definition demo_names : list str := map lit ["id"; "parent_id"; "type"; "title"; "url"; "add_date"; "visit_count";
  "last_modified"; "norder"]%string.

Definition demo_nodes : list m2_node :=
  [mkNode (replicate 16 0) (replicate 16 9) (lit "News") (lit "") 2 5 0 6 1;
   mkNode (replicate 16 9) (replicate 16 8) (lit "Paper") (lit "http://a/") 1 7 3 8 2].

Definition demo_row (n : m2_node) : list sql_value :=
  [SqlBlob (m_id n); SqlBlob (m_parent n); SqlInt (m_type n); SqlBlob (wide_blob (m_title n)); SqlBlob (wide_blob (m_url n));
   SqlInt (m_add n); SqlInt (m_visit n); SqlInt (m_modified n); SqlInt (m_order n)].

Definition demo_sqlite : Sqlite unit :=
  {| sqlite3_exec _ d := (SQLITE_OK, d); sqlite3_changes _ := 0;
     sqlite3_select _ _ := Some (demo_names, map demo_row demo_nodes);
     db_open _ := tt; db_image _ := [] |}.

Definition m2_heap : heap := {[1%positive := FavoriteLineData_new 0; 2%positive := FavoriteLineData_new 0]}.

Lemma maxthon_export_witness :
  exists h', @m2_ExportFavoriteData unit demo_sqlite (Some [Some 1%positive; Some 2%positive]) 2 m2_heap (Some []) = Ok (true, 2, h') /\
    nPid <$> h' !! 2%positive = Some (new_id 0) /\ nId <$> h' !! 1%positive = Some (new_id 0).
Proof.
  destruct (@maxthon_export_exact unit demo_sqlite (map (fun n => mkQuery demo_names (demo_row n)) demo_nodes) demo_nodes []
    [1%positive; 2%positive] m2_heap) as (h' & E & Hin & _).
  - reflexivity.
  - repeat constructor; try (vm_compute; reflexivity); vm_compute; try lia; try discriminate; repeat constructor; lia.
  - discriminate.
  - apply (bool_decide_unpack _). vm_compute. exact I.
  - intros l Hl. rewrite !elem_of_cons, elem_of_nil in Hl. destruct Hl as [->|[->|[]]]; eexists; vm_compute; reflexivity.
  - vm_compute. repeat constructor.
  - apply (bool_decide_unpack _). vm_compute. exact I.
  - intros n Hn. unfold demo_nodes in Hn. rewrite !elem_of_cons, elem_of_nil in Hn.
    destruct Hn as [->|[->|[]]]; (split; [vm_compute; discriminate|vm_compute; intuition discriminate || (left; discriminate)]).
  - exists h'. split; [exact E|]. split.
    + destruct (Hin 1%nat _ 2%positive _ eq_refl eq_refl eq_refl) as (pid & -> & _ & Hp). simpl.
      rewrite (Hp 0%nat _ eq_refl eq_refl eq_refl). reflexivity.
    + destruct (Hin 0%nat _ 1%positive _ eq_refl eq_refl eq_refl) as (pid & -> & _). reflexivity.
Defined.
