(* ===== verification/TTPlugIn.v ===== *)
(** * The TT browser

    PlugIn/QQPlugIn/TTPlugIn.cpp: favorites in a table whose rows name their parents.
    The export and the count go down from the rows of the root, with one query per
    folder; the rows are what SQLite answers to these queries.  The theorem gives the
    order of the records and the number of both, and shows that the recursion ends, on a
    table that is a forest.  The import, which puts URLs into a second table, is not
    modelled. *)
From stdpp Require Import prelude gmap strings.
From Stdlib Require Import ZArith Lia String.
From S2P Require Import Prelude Strings Favorites PlugInModule Chrome ChromeExport Sqlite SqlPlugIn SqlText SqlTables SqlProofs SqlDb.

Definition ID_VALUE_TT_BEGIN : Z := ID_VALUE_BEGIN (PLUG_ID TT).

(** ** The operations *)

Section TT.
Context {D : Type} `{Sqlite D} `{CodePage}.
Context (db : D).

Definition tt_url_sql (nUrlIndex : Z) : str :=
  lit "select url.strUrl from urltable as url," ++ replicate 7 9 ++ lit "favtable as fav where fav.iUrlIndex = " ++
  StringHelper.ConvertFromInt nUrlIndex ++ lit " and url.iIndex = fav.iUrlIndex".

Definition WriteQueryDataIntoData (q : CppSQLite3Query) (d : FavoriteLineData) : outcome FavoriteLineData :=
  nIndex ← getIntField q "iIndex" 0;
  nUrlIndex ← getIntField q "iUrlIndex" 0;
  pid ← getIntField q "iPIndex" 0;
  let nPid := if negb (pid =? 0) then i32 (pid + ID_VALUE_TT_BEGIN) else pid in
  t ← wide_field q "strTitle" None;
  szTitle ← wcscpy_s t;
  nOrder ← getIntField q "iPos" 0;
  nAddTimes ← getInt64Field q "iCreateTime" 0;
  nLastModifyTime ← getInt64Field q "iLastModifyTime" 0;
  hash ← hash_title szTitle (nHashId d);
  urls ← execQuery (tt_url_sql nUrlIndex) db;
  szUrl ← match urls with
          | u :: _ => s ← wide_field u "strUrl" None; wcscpy_s s
          | [] => Ok (szUrl d)
          end;
  Ok (mkFavorite (i32 (nIndex + ID_VALUE_TT_BEGIN)) szTitle nPid (nUrlIndex =? 0) szUrl nAddTimes nLastModifyTime
        (nClickTimes d) hash nOrder false).

(** [WriteQueryDataIntoData(&Query, ppData[nCurrentIndex])], which passes over a null
    pointer. *)
Definition tt_write (ppData : fav_vector) (nCurrentIndex : Z) (q : CppSQLite3Query) (h : heap) : outcome heap :=
  p ← vec_at ppData nCurrentIndex;
  match p with
  | None => Ok h
  | Some l => d ← load h l; d ← WriteQueryDataIntoData q d; Ok (<[l := d]> h)
  end.

(** [ANSIToUnicode] leaves the digits of a number as they are. *)
Definition tt_children_sql (nParentId : Z) : wstring :=
  lit "select * from favtable where iPIndex = " ++ StringHelper.ConvertFromInt nParentId.

Fixpoint tt_export (fuel : nat) (ppData : fav_vector) (nParentId : Z) (st : heap * Z) : outcome (heap * Z) :=
  match fuel with
  | O => Fault NoFuel
  | S fuel =>
      found ← tableExists (lit "favtable") db;
      if negb found then Ok st
      else
        rows ← execQuery (UnicodeToUtf8 (tt_children_sql nParentId)) db;
        for_each (fun st q =>
          nIndex ← getIntField q "iIndex" 0;
          h ← tt_write ppData (snd st) q (fst st);
          tt_export fuel ppData nIndex (h, snd st + 1)) st rows
  end.

Definition tt_root_sql : str := lit "select fav.* from favtable as fav where fav.iPIndex = 0".

Definition tt_ExportFavoriteData (fuel : nat) (ppData : option fav_vector) (nDataNum : Z) (h : heap) :
    outcome (bool * Z * heap) :=
  match ppData with
  | None => Ok (false, nDataNum, h)
  | Some ppData =>
      if nDataNum =? 0 then Ok (false, nDataNum, h)
      else
        rows ← execQuery tt_root_sql db;
        r ← for_each (fun st q =>
              nId ← getIntField q "iIndex" 0;
              h ← tt_write ppData (snd st) q (fst st);
              tt_export fuel ppData nId (h, snd st + 1)) (h, 0) rows;
        Ok (true, snd r, fst r)
  end.

Definition tt_count_sql (nParentId : Z) : wstring :=
  lit "select count(*) as total from favtable where iPIndex = " ++ StringHelper.ConvertFromInt nParentId.

(** [ConvertToInt(Query.fieldValue("total"))] of the one row of the count *)
Definition tt_total (rows : list CppSQLite3Query) : outcome Z :=
  q ← vec_at rows 0; p ← getStringField q "total" None; s ← deref p; Ok (StringHelper.ConvertToInt s).

Fixpoint tt_count (fuel : nat) (nParentId : Z) : outcome Z :=
  match fuel with
  | O => Fault NoFuel
  | S fuel =>
      rows ← execQuery (UnicodeToUtf8 (tt_count_sql nParentId)) db;
      nCount ← tt_total rows;
      rows ← execQuery (UnicodeToUtf8 (tt_children_sql nParentId)) db;
      for_each (fun nCount q => nId ← getIntField q "iIndex" 0; n ← tt_count fuel nId; Ok (nCount + n)) nCount rows
  end.

Definition tt_GetFavoriteCount (fuel : nat) : outcome Z :=
  found ← tableExists (lit "favtable") db;
  if negb found then Ok 0
  else
    rows ← execQuery (lit "select * from favtable where iPIndex=0") db;
    for_each (fun nTotalNumber q =>
      nIndex ← getIntField q "iIndex" 0; n ← tt_count fuel nIndex; Ok (nTotalNumber + 1 + n)) 0 rows.
End TT.

(** ** The forest of a table *)

(** What a row says; [i_url] is the URL the second query finds. *)
Record tt_item := mkItem {
  i_index : Z; i_pindex : Z; i_url_index : Z; i_title : wstring; i_url : option wstring;
  i_pos : Z; i_create : Z; i_modify : Z
}.

Inductive tt_tree := Tree (x : tt_item) (kids : list tt_tree).

Definition item (t : tt_tree) : tt_item := let 'Tree x _ := t in x.
Definition kids (t : tt_tree) : list tt_tree := let 'Tree _ k := t in k.

Section nested_ind.
Context (P : tt_tree -> Prop) (Ptree : forall x k, Forall P k -> P (Tree x k)).

Fixpoint tt_tree_nested (t : tt_tree) : P t :=
  match t with
  | Tree x k => Ptree x k ((fix go (l : list tt_tree) : Forall P l :=
                              match l with
                              | [] => Forall_nil_2 _
                              | u :: l => Forall_cons_2 _ _ _ (tt_tree_nested u) (go l)
                              end) k)
  end.
End nested_ind.

Fixpoint preorder (t : tt_tree) : list tt_item := let 'Tree x k := t in x :: flat_map preorder k.

Fixpoint height (t : tt_tree) : nat := let 'Tree _ k := t in S (list_max (map height k)).

Lemma height_kid t k : t ∈ k -> (height t <= list_max (map height k))%nat.
Proof.
  intros Ht. pose proof (proj1 (list_max_le (map height k) (list_max (map height k))) (Nat.le_refl _)) as Hm.
  rewrite List.Forall_forall in Hm. apply Hm, in_map. by apply list_elem_of_In.
Qed.

Definition tt_back (x : tt_item) (old : FavoriteLineData) : FavoriteLineData :=
  mkFavorite (i32 (i_index x + ID_VALUE_TT_BEGIN)) (i_title x) (shifted ID_VALUE_TT_BEGIN (i_pindex x)) (i_url_index x =? 0)
    (default (szUrl old) (i_url x)) (i_create x) (i_modify x) (nClickTimes old) (title_hash (i_title x) (nHashId old))
    (i_pos x) false.

Definition fits_copy (s : wstring) : Prop := Z.of_nat (List.length s) < MAX_LENGTH - 1.

Lemma wcscpy_s_fits s : fits_copy s -> wcscpy_s s = Ok s.
Proof. intros Hs. unfold wcscpy_s. by rewrite (proj2 (Z.ltb_lt _ _) Hs). Qed.

Lemma zip_drop_app {A B} (ls : list A) c (a b : list B) : (c + List.length a <= List.length ls)%nat ->
  zip (drop c ls) (a ++ b) = zip (drop c ls) a ++ zip (drop (c + List.length a) ls) b.
Proof.
  revert c. induction a as [|x a IH]; intros c Hc; simpl in *.
  { rewrite zip_with_nil_r. by rewrite Nat.add_0_r. }
  destruct (lookup_lt_is_Some_2 ls c ltac:(lia)) as [l Hl]. rewrite (drop_S _ _ _ Hl). simpl. rewrite IH by lia.
  by replace (S c + List.length a)%nat with (c + S (List.length a))%nat by lia.
Qed.

Section Table.
Context {D : Type} `{Sqlite D} `{CodePage}.
Context (db : D).

Record tt_reads (q : CppSQLite3Query) (x : tt_item) : Prop := {
  tr_index : getIntField q "iIndex" 0 = Ok (i_index x);
  tr_url_index : getIntField q "iUrlIndex" 0 = Ok (i_url_index x);
  tr_pindex : getIntField q "iPIndex" 0 = Ok (i_pindex x);
  tr_title : wide_field q "strTitle" None = Ok (i_title x) /\ fits_copy (i_title x);
  tr_pos : getIntField q "iPos" 0 = Ok (i_pos x);
  tr_create : getInt64Field q "iCreateTime" 0 = Ok (i_create x);
  tr_modify : getInt64Field q "iLastModifyTime" 0 = Ok (i_modify x);
  tr_url : exists us, execQuery (tt_url_sql (i_url_index x)) db = Ok us /\
    match i_url x with
    | Some u => exists q us', us = q :: us' /\ wide_field q "strUrl" None = Ok u /\ fits_copy u
    | None => us = []
    end
}.

(** The rows of a query are these trees' items. *)
Definition answers (sql : str) (ts : list tt_tree) : Prop :=
  exists rows, execQuery sql db = Ok rows /\ Forall2 (fun q t => tt_reads q (item t)) rows ts.

(** Below every row of the tree are the rows that name it as their parent. *)
Fixpoint tree_ok (t : tt_tree) : Prop :=
  let 'Tree x k := t in
  answers (UnicodeToUtf8 (tt_children_sql (i_index x))) k /\
  (exists rows, execQuery (UnicodeToUtf8 (tt_count_sql (i_index x))) db = Ok rows /\
                tt_total rows = Ok (Z.of_nat (List.length k))) /\
  (fix all (l : list tt_tree) : Prop :=
     match l with [] => True | u :: l => i_pindex (item u) = i_index x /\ tree_ok u /\ all l end) k.

Lemma tree_kids x k : tree_ok (Tree x k) ->
  answers (UnicodeToUtf8 (tt_children_sql (i_index x))) k /\
  (exists rows, execQuery (UnicodeToUtf8 (tt_count_sql (i_index x))) db = Ok rows /\
                tt_total rows = Ok (Z.of_nat (List.length k))) /\
  Forall (fun u => i_pindex (item u) = i_index x) k /\ Forall tree_ok k.
Proof.
  simpl. intros (Ha & Hc & Hk). split; [done|]. split; [done|]. clear Ha Hc.
  induction k as [|u k IH]; [by split; constructor|]. destruct Hk as (Hp & Hu & Hk). destruct (IH Hk). by split; constructor.
Qed.

Lemma tt_record_row q x old : tt_reads q x -> WriteQueryDataIntoData db q old = Ok (tt_back x old).
Proof.
  intros [T1 T2 T3 [T4 F4] T5 T6 T7 (us & Eu & Hu)]. unfold WriteQueryDataIntoData. rewrite T1. cbn [mbind outcome_bind].
  rewrite T2. cbn [mbind outcome_bind]. rewrite T3. cbn [mbind outcome_bind]. rewrite T4. cbn [mbind outcome_bind].
  rewrite (wcscpy_s_fits _ F4). cbn [mbind outcome_bind]. rewrite T5. cbn [mbind outcome_bind]. rewrite T6.
  cbn [mbind outcome_bind]. rewrite T7. cbn [mbind outcome_bind]. rewrite hash_title_ok. cbn [mbind outcome_bind].
  rewrite Eu. cbn [mbind outcome_bind]. unfold tt_back, shifted. destruct (i_url x) as [u|].
  - destruct Hu as (q' & us' & -> & E & F). rewrite E. cbn [mbind outcome_bind]. by rewrite (wcscpy_s_fits _ F).
  - by rewrite Hu.
Qed.

(** ** Counting *)

Definition below (t : tt_tree) : Z := Z.of_nat (List.length (flat_map preorder (kids t))).

Lemma count_loop rec rows ts n : Forall2 (fun q t => tt_reads q (item t)) rows ts ->
  Forall (fun t => rec (i_index (item t)) = Ok (below t)) ts ->
  for_each (fun n q => i ← getIntField q "iIndex" 0; m ← rec i; Ok (n + m)) n rows =
  Ok (n + foldr Z.add 0 (map below ts)).
Proof.
  intros HF. revert n. induction HF as [|q t rows ts Hq HF IH]; intros n Hr; simpl; [by rewrite Z.add_0_r|].
  apply Forall_cons in Hr as [Ht Hr]. rewrite (tr_index _ _ Hq). cbn [mbind outcome_bind]. rewrite Ht. cbn [mbind outcome_bind].
  rewrite IH by done. f_equal. lia.
Qed.

Lemma root_loop rec rows ts n : Forall2 (fun q t => tt_reads q (item t)) rows ts ->
  Forall (fun t => rec (i_index (item t)) = Ok (below t)) ts ->
  for_each (fun n q => i ← getIntField q "iIndex" 0; m ← rec i; Ok (n + 1 + m)) n rows =
  Ok (n + (Z.of_nat (List.length ts) + foldr Z.add 0 (map below ts))).
Proof.
  intros HF. revert n. induction HF as [|q t rows ts Hq HF IH]; intros n Hr; cbn [for_each]; [f_equal; simpl; lia|].
  apply Forall_cons in Hr as [Ht Hr]. rewrite (tr_index _ _ Hq). cbn [mbind outcome_bind]. rewrite Ht. cbn [mbind outcome_bind].
  rewrite IH by done. f_equal. cbn [List.length map foldr]. lia.
Qed.

Lemma below_preorder ts :
  Z.of_nat (List.length ts) + foldr Z.add 0 (map below ts) = Z.of_nat (List.length (flat_map preorder ts)).
Proof.
  induction ts as [|[x k] ts IH]; [done|]. cbn [map foldr flat_map]. rewrite length_app. cbn [preorder List.length].
  unfold below at 1. cbn [kids List.length]. lia.
Qed.

Lemma tt_count_ok t : tree_ok t -> forall fuel, (height t <= fuel)%nat -> tt_count db fuel (i_index (item t)) = Ok (below t).
Proof.
  induction t as [x k IH] using tt_tree_nested. intros Hok [|fuel] Hf; [simpl in Hf; lia|].
  destruct (tree_kids x k Hok) as ((rows & Er & HF) & (crows & Ec & Et) & _ & Hk). cbn [tt_count item].
  rewrite Ec. cbn [mbind outcome_bind]. rewrite Et. cbn [mbind outcome_bind]. rewrite Er. cbn [mbind outcome_bind].
  rewrite (count_loop (tt_count db fuel) rows k _ HF).
  - unfold below at 2. cbn [kids]. by rewrite below_preorder.
  - rewrite !Forall_forall in *. intros u Hu. apply IH; [done|by apply Hk|]. pose proof (height_kid u k Hu). simpl in Hf. lia.
Qed.

(** ** Exporting *)

Section Fill.
Context (ls : list positive) (Hex : tableExists (lit "favtable") db = Ok true).

Definition filled (c : nat) (xs : list tt_item) (h : heap) : heap * Z :=
  (put_all tt_back (zip (drop c ls) xs) h, Z.of_nat (c + List.length xs)).

Definition valid_targets (h : heap) : Prop := forall l, l ∈ ls -> is_Some (h !! l).

Lemma filled_valid c xs h : valid_targets h -> valid_targets (fst (filled c xs h)).
Proof.
  intros Hv l Hl. unfold filled. simpl. generalize (zip (drop c ls) xs). intros ps. revert h Hv.
  induction ps as [|p ps IH]; intros h Hv; [by apply Hv|]. simpl. apply IH. intros l' Hl'. apply lookup_alter_is_Some. by apply Hv.
Qed.

Lemma filled_app c xs ys h : (c + List.length xs <= List.length ls)%nat ->
  filled c (xs ++ ys) h = filled (c + List.length xs) ys (fst (filled c xs h)).
Proof.
  intros Hc. unfold filled. rewrite zip_drop_app by done. unfold put_all. rewrite foldl_app, length_app. simpl. f_equal. lia.
Qed.

(** One row with everything below it. *)
Definition tt_step (fuel : nat) (st : heap * Z) (q : CppSQLite3Query) : outcome (heap * Z) :=
  nIndex ← getIntField q "iIndex" 0;
  h ← tt_write db (map Some ls) (snd st) q (fst st);
  tt_export db fuel (map Some ls) nIndex (h, snd st + 1).

Definition exported (fuel : nat) (t : tt_tree) : Prop := forall q c h, tt_reads q (item t) -> valid_targets h ->
  (c + List.length (preorder t) <= List.length ls)%nat ->
  tt_step fuel (h, Z.of_nat c) q = Ok (filled c (preorder t) h).

Lemma step_loop fuel rows ts c h : Forall2 (fun q t => tt_reads q (item t)) rows ts -> Forall (exported fuel) ts ->
  valid_targets h -> (c + List.length (flat_map preorder ts) <= List.length ls)%nat ->
  for_each (tt_step fuel) (h, Z.of_nat c) rows = Ok (filled c (flat_map preorder ts) h).
Proof using Type.
  intros HF. revert c h. induction HF as [|q t rows ts Hq HF IH]; intros c h Hex' Hv Hc; simpl in *.
  { unfold filled. rewrite zip_with_nil_r. simpl. by rewrite Nat.add_0_r. }
  apply Forall_cons in Hex' as [Ht Hts]. rewrite length_app in Hc. rewrite (Ht q c h Hq Hv ltac:(lia)).
  cbn [mbind outcome_bind]. rewrite filled_app by lia. unfold filled at 1.
  rewrite IH; [done|done|by apply filled_valid|lia].
Qed.

Lemma tt_write_ok q x c h : tt_reads q x -> valid_targets h -> (c < List.length ls)%nat ->
  tt_write db (map Some ls) (Z.of_nat c) q h = Ok (fst (filled c [x] h)).
Proof using Type.
  intros Hq Hv Hc. destruct (lookup_lt_is_Some_2 ls c Hc) as [l Hl].
  destruct (Hv l (list_elem_of_lookup_2 _ _ _ Hl)) as [d Hd]. unfold tt_write.
  rewrite (vec_at_nat _ _ (Some l)) by (by rewrite list_lookup_fmap, Hl). cbn [mbind outcome_bind].
  rewrite (proj2 (load_Ok _ _ _) Hd). cbn [mbind outcome_bind]. rewrite (tt_record_row q x d Hq). cbn [mbind outcome_bind].
  unfold filled. rewrite (drop_S _ _ _ Hl). simpl. rewrite zip_with_nil_r. simpl. f_equal. apply map_eq. intros j.
  destruct (decide (j = l)) as [->|Hne]; [by rewrite lookup_insert_eq, lookup_alter_eq, Hd|].
  by rewrite lookup_insert_ne, lookup_alter_ne.
Qed.

Lemma tt_export_ok t : tree_ok t -> forall fuel, (height t <= fuel)%nat -> exported fuel t.
Proof using Hex.
  induction t as [x k IH] using tt_tree_nested. intros Hok [|fuel] Hf q c h Hq Hv Hc; [simpl in Hf; lia|].
  destruct (tree_kids x k Hok) as ((rows & Er & HF) & _ & _ & Hk). cbn [preorder List.length item] in *.
  unfold tt_step. rewrite (tr_index _ _ Hq). cbn [mbind outcome_bind fst snd].
  rewrite (tt_write_ok q x c h Hq Hv) by lia. cbn [mbind outcome_bind tt_export]. rewrite Hex. cbn [mbind outcome_bind negb].
  rewrite Er. cbn [mbind outcome_bind]. replace (Z.of_nat c + 1) with (Z.of_nat (c + 1)) by lia.
  change (x :: flat_map preorder k) with ([x] ++ flat_map preorder k). rewrite filled_app by (simpl; lia).
  apply (step_loop fuel rows k (c + 1) _ HF); [|by apply filled_valid|lia].
  rewrite !Forall_forall in *. intros u Hu. apply IH; [done|by apply Hk|]. pose proof (height_kid u k Hu). simpl in Hf. lia.
Qed.

End Fill.

(** A parent is the root of its tree or comes before. *)
Lemma parents_before t : tree_ok t -> forall k x, preorder t !! S k = Some x ->
  exists j y, (j <= k)%nat /\ preorder t !! j = Some y /\ i_index y = i_pindex x.
Proof.
  induction t as [r ts IH] using tt_tree_nested. intros Hok k x Hk. destruct (tree_kids r ts Hok) as (_ & _ & Hp & Hts).
  clear Hok. cbn [preorder] in *. simpl in Hk.
  enough (Hsub : i_pindex x = i_index r \/
    exists j y, (j < k)%nat /\ flat_map preorder ts !! j = Some y /\ i_index y = i_pindex x).
  { destruct Hsub as [He|(j & y & Hj & Hy & He)]; [exists O, r; split; [lia|done]|]. exists (S j), y. split; [lia|done]. }
  revert k Hk. induction ts as [|t ts IHts]; intros k Hk; [done|]. apply Forall_cons in IH as [IHt IH].
  apply Forall_cons in Hp as [Hpt Hp]. apply Forall_cons in Hts as [Hot Hts]. cbn [flat_map] in *.
  apply lookup_app_Some in Hk as [Hk|[Hge Hk]].
  - destruct k as [|k]; [destruct t; simpl in Hk; injection Hk as ->; by left|].
    destruct (IHt Hot k x Hk) as (j & y & Hj & Hy & He). right. exists j, y. split; [lia|]. split; [|done].
    apply lookup_app_l_Some. done.
  - destruct (IHts IH Hp Hts _ Hk) as [He|(j & y & Hj & Hy & He)]; [by left|]. right. exists (List.length (preorder t) + j)%nat, y.
    split; [lia|]. split; [|done]. rewrite lookup_app_r by lia. by rewrite Nat.add_comm, Nat.add_sub.
Qed.

(** C25: on a table whose rows are a forest below the root the recursion of the TT plug-in
    ends, with as much fuel as the forest is high: the export writes one record for each
    row, in preorder, every parent before its children, the count is their number, and
    nothing else in memory changes. *)
Theorem tt_export_exact ts ls h fuel :
  tableExists (lit "favtable") db = Ok true -> answers tt_root_sql ts ->
  answers (lit "select * from favtable where iPIndex=0") ts -> Forall tree_ok ts ->
  Forall (fun t => (height t <= fuel)%nat) ts -> ls <> [] -> NoDup ls -> (forall l, l ∈ ls -> is_Some (h !! l)) ->
  let xs := flat_map preorder ts in (List.length xs <= List.length ls)%nat ->
  exists h', tt_ExportFavoriteData db fuel (Some (map Some ls)) (Z.of_nat (List.length ls)) h =
      Ok (true, Z.of_nat (List.length xs), h') /\
    tt_GetFavoriteCount db fuel = Ok (Z.of_nat (List.length xs)) /\
    (forall l x old, (l, x) ∈ zip ls xs -> h !! l = Some old -> h' !! l = Some (tt_back x old)) /\
    (forall l, l ∉ take (List.length xs) ls -> h' !! l = h !! l) /\
    (forall t, t ∈ ts -> forall k x, preorder t !! S k = Some x ->
       exists j y, (j <= k)%nat /\ preorder t !! j = Some y /\ i_index y = i_pindex x).
Proof.
  intros Hex (rows & Er & HF) (crows & Ec & HFc) Hok Hh Hls Hnd Hv xs Hlen.
  assert (Hexp : Forall (exported ls fuel) ts).
  { rewrite Forall_forall in *. intros t Ht. apply tt_export_ok; [done|by apply Hok|by apply Hh]. }
  pose proof (step_loop ls fuel rows ts 0 h HF Hexp Hv ltac:(simpl; exact Hlen)) as E.
  exists (fst (filled ls 0 xs h)). split_and!.
  - unfold tt_ExportFavoriteData. replace (_ =? 0) with false by (destruct ls; [done|simpl; lia]). rewrite Er.
    cbn [mbind outcome_bind]. unfold tt_step in E. change (Z.of_nat 0) with 0 in E. rewrite E. done.
  - unfold tt_GetFavoriteCount. rewrite Hex. cbn [mbind outcome_bind negb]. rewrite Ec. cbn [mbind outcome_bind].
    assert (Hc : Forall (fun t => tt_count db fuel (i_index (item t)) = Ok (below t)) ts).
    { rewrite Forall_forall in *. intros t Ht. apply tt_count_ok; [by apply Hok|by apply Hh]. }
    rewrite (root_loop _ _ ts 0 HFc Hc). unfold xs. by rewrite <- below_preorder.
  - intros l x old Hin Hl. unfold filled. cbn [fst]. rewrite drop_0. apply put_all_lookup; [|done..].
    rewrite zip_fst. rewrite <- (take_drop (List.length xs) ls) in Hnd. by apply NoDup_app in Hnd as [? _].
  - intros l Hl. unfold filled. cbn [fst]. rewrite drop_0. apply put_all_other. by rewrite zip_fst.
  - intros t Ht. apply parents_before. rewrite Forall_forall in Hok. by apply Hok.
Qed.

End Table.

(** ** Example *)

(** A database with a folder and a page in it, as the answers to the queries. *)
Definition tt_names : list str := map lit ["iIndex"; "iPIndex"; "iUrlIndex"; "iPos"; "strTitle"; "iCreateTime";
  "iLastModifyTime"]%string.

Definition tt_row (x : tt_item) : list sql_value :=
  [SqlInt (i_index x); SqlInt (i_pindex x); SqlInt (i_url_index x); SqlInt (i_pos x); SqlText (i_title x);
   SqlInt (i_create x); SqlInt (i_modify x)].

Definition tt_folder : tt_item := mkItem 1 0 0 (lit "News") None 1 5 6.
Definition tt_page : tt_item := mkItem 2 1 7 (lit "Paper") (Some (lit "http://a/")) 2 8 9.
Definition tt_demo : list tt_tree := [Tree tt_folder [Tree tt_page []]].

Definition tt_answers : list (str * (list str * list (list sql_value))) :=
  [(tt_root_sql, (tt_names, [tt_row tt_folder]));
   (lit "select * from favtable where iPIndex=0", (tt_names, [tt_row tt_folder]));
   (tt_children_sql 1, (tt_names, [tt_row tt_page]));
   (tt_children_sql 2, (tt_names, []));
   (tt_count_sql 1, ([lit "total"], [[SqlInt 1]]));
   (tt_count_sql 2, ([lit "total"], [[SqlInt 0]]));
   (tt_url_sql 0, ([lit "strUrl"], []));
   (tt_url_sql 7, ([lit "strUrl"], [[SqlText (lit "http://a/")]]))].

Definition tt_sqlite : Sqlite unit :=
  {| sqlite3_exec _ d := (SQLITE_OK, d); sqlite3_changes _ := 0;
     sqlite3_select s _ := match List.find (fun e => bool_decide (fst e = s)) tt_answers with
                           | Some e => Some (snd e)
                           | None => Some ([lit "n"], [[SqlInt 1]])
                           end;
     db_open _ := tt; db_image _ := [] |}.

Definition tt_heap : heap := {[1%positive := FavoriteLineData_new 0; 2%positive := FavoriteLineData_new 0]}.

Definition tt_row_of (x : tt_item) : CppSQLite3Query := mkQuery tt_names (tt_row x).

Local Ltac tt_eval := vm_compute; reflexivity.

Lemma tt_folder_reads : @tt_reads unit tt_sqlite utf8_page tt (tt_row_of tt_folder) tt_folder.
Proof.
  split; [tt_eval|tt_eval|tt_eval|split; tt_eval|tt_eval|tt_eval|tt_eval|].
  exists []. split; [vm_compute; reflexivity|reflexivity].
Qed.

Lemma tt_page_reads : @tt_reads unit tt_sqlite utf8_page tt (tt_row_of tt_page) tt_page.
Proof.
  split; [tt_eval|tt_eval|tt_eval|split; tt_eval|tt_eval|tt_eval|tt_eval|].
  exists [mkQuery [lit "strUrl"] [SqlText (lit "http://a/")]]. split; [vm_compute; reflexivity|].
  exists (mkQuery [lit "strUrl"] [SqlText (lit "http://a/")]), []. split; [reflexivity|]. split; vm_compute; reflexivity.
Qed.

Lemma tt_demo_answers sql : @execQuery unit tt_sqlite sql tt = Ok [tt_row_of tt_folder] ->
  @answers unit tt_sqlite utf8_page tt sql tt_demo.
Proof.
  intros E. exists [tt_row_of tt_folder]. split; [exact E|]. constructor; [exact tt_folder_reads|constructor].
Qed.

Lemma tt_demo_ok : @tree_ok unit tt_sqlite utf8_page tt (Tree tt_folder [Tree tt_page []]).
Proof.
  split.
  { exists [tt_row_of tt_page]. split; [vm_compute; reflexivity|]. constructor; [exact tt_page_reads|constructor]. }
  split; [exists [mkQuery [lit "total"] [SqlInt 1]]; split; vm_compute; reflexivity|].
  split; [reflexivity|]. split; [|exact I]. split; [exists []; split; [vm_compute; reflexivity|constructor]|].
  split; [exists [mkQuery [lit "total"] [SqlInt 0]]; split; vm_compute; reflexivity|exact I].
Qed.

Lemma tt_export_witness :
  exists h', @tt_ExportFavoriteData unit tt_sqlite utf8_page tt 2 (Some [Some 1%positive; Some 2%positive]) 2 tt_heap =
      Ok (true, 2, h') /\
    @tt_GetFavoriteCount unit tt_sqlite utf8_page tt 2 = Ok 2 /\
    h' !! 2%positive = Some (tt_back tt_page (FavoriteLineData_new 0)).
Proof.
  destruct (@tt_export_exact unit tt_sqlite utf8_page tt tt_demo [1%positive; 2%positive] tt_heap 2) as (h' & E & Ec & Hin & _).
  - vm_compute. reflexivity.
  - apply tt_demo_answers. vm_compute. reflexivity.
  - apply tt_demo_answers. vm_compute. reflexivity.
  - constructor; [exact tt_demo_ok|constructor].
  - constructor; [apply Nat.le_refl|constructor].
  - discriminate.
  - apply (bool_decide_unpack _). vm_compute. exact I.
  - intros l Hl. rewrite !elem_of_cons, elem_of_nil in Hl.
    destruct Hl as [->|[->|[]]]; exists (FavoriteLineData_new 0); reflexivity.
  - apply Nat.le_refl.
  - exists h'. split; [exact E|]. split; [exact Ec|].
    exact (Hin 2%positive tt_page _ (list_elem_of_further _ _ _ (list_elem_of_here _ _)) eq_refl).
Defined.
