(* ===== verification/ChromeTree.v ===== *)
(** * Chrome: the tree behind the records

    What the steps of the import of the file ChromeImport make of records that
    form a forest: [SortByDepth] puts them in preorder, the depths are those of
    the forest, and [TraverseNode] leaves one array, the JSON of the forest. *)
From stdpp Require Import prelude gmap sorting.
From Stdlib Require Import ZArith Lia SpecFloat String.
From S2P Require Import Prelude Strings Favorites Json JsonReader JsonWriter Chrome ChromeImport.

(** ** Forests of records *)

#[local] Unset Elimination Schemes.

Inductive node := Node (root : FavoriteLineData) (kids : list node).

#[local] Set Elimination Schemes.

Definition root (t : node) : FavoriteLineData := let 'Node d _ := t in d.
Definition kids (t : node) : list node := let 'Node _ l := t in l.

Section node_ind.
Context (P : node -> Prop) (H : forall d l, Forall P l -> P (Node d l)).

Fixpoint node_ind (t : node) : P t :=
  match t with
  | Node d l => H d l ((fix go (l : list node) : Forall P l :=
                          match l with
                          | [] => Forall_nil_2 _
                          | k :: l => Forall_cons_2 _ _ _ (node_ind k) (go l)
                          end) l)
  end.
End node_ind.

(** The records of a tree, a folder before its contents. *)
Fixpoint preorder (t : node) : list FavoriteLineData :=
  let 'Node d l := t in d :: flat_map preorder l.

Abbreviation preorders := (flat_map preorder).

(** What hangs below the folder [p] in the records [ds]: the trees of its
    records, in their order. *)
#[local] Unset Elimination Schemes.

Inductive hangs (ds : list FavoriteLineData) : Z -> list node -> Prop :=
| hangs_intro p F : map root F = filter (fun d => nPid d = p) ds -> Forall (hangs_root ds) F -> hangs ds p F
with hangs_root (ds : list FavoriteLineData) : node -> Prop :=
| hangs_url d : bFolder d = false -> hangs_root ds (Node d [])
| hangs_folder d l : bFolder d = true -> hangs ds (nId d) l -> hangs_root ds (Node d l).

#[local] Set Elimination Schemes.

(** The records [ds] are the forest [F]: every record is reached from the top,
    every id identifies one record and zero is none. *)
Definition forest (ds : list FavoriteLineData) (F : list node) : Prop :=
  hangs ds 0 F /\ preorders F ≡ₚ ds /\ NoDup (map nId ds) /\ 0 ∉ map nId ds.

(** ** Sorting *)

Lemma sort_loop_preorder ds n p rec rest F sorted :
  (forall d l sorted, hangs ds (nId d) l -> (List.length sorted + List.length (preorders l) <= n)%nat ->
     (List.length (preorders l) < List.length (preorders F))%nat ->
     rec (nId d) sorted = Ok (sorted ++ map Some (preorders l))) ->
  map root F = filter (fun d => nPid d = p) rest -> Forall (hangs_root ds) F ->
  (List.length sorted + List.length (preorders F) <= n)%nat ->
  sort_loop rec (Z.of_nat n) p (map Some rest) sorted = Ok (sorted ++ map Some (preorders F)).
Proof.
  revert F sorted. induction rest as [|d rest IH]; intros F sorted Hrec HF Hh Hn.
  { destruct F; [|done]. simpl. by rewrite app_nil_r. }
  cbn [map sort_loop deref mbind outcome_bind]. rewrite filter_cons in HF. destruct (Z.eqb_spec (nPid d) p) as [Hp|Hp].
  - rewrite decide_True in HF by done. destruct F as [|[d' l] F]; simpl in HF; [done|]. injection HF as -> HF.
    apply Forall_cons in Hh as [Ht Hh]. simpl in Hn. rewrite length_app in Hn.
    replace (_ <=? _) with false by lia. cbv zeta. rewrite length_app. simpl List.length.
    destruct (Z.leb_spec (Z.of_nat n) (Z.of_nat (List.length sorted + 1))).
    { simpl. assert (E : preorders l ++ preorders F = []) by (apply length_zero_iff_nil; rewrite length_app; lia).
      by rewrite E. }
    assert (Hl : (if bFolder d then rec (nId d) (sorted ++ [Some d]) else Ok (sorted ++ [Some d])) =
                 Ok ((sorted ++ [Some d]) ++ map Some (preorders l))).
    { inversion Ht as [d0 Hf|d0 l0 Hf Hl]; subst; rewrite Hf; [by rewrite app_nil_r|].
      apply Hrec; [done|rewrite length_app; simpl; lia|]. simpl. rewrite length_app. lia. }
    rewrite Hl. cbn [mbind outcome_bind].
    rewrite (IH F); [|intros; apply Hrec; [done..|simpl; rewrite length_app; lia]|done|done|].
    + f_equal. cbn [flat_map preorder map]. by rewrite <- !app_assoc, map_app.
    + rewrite !length_app, length_map. simpl. lia.
  - rewrite decide_False in HF by done. by apply IH.
Qed.

Lemma SortNode_preorder ds n fuel p F sorted :
  hangs ds p F -> (List.length sorted + List.length (preorders F) <= n)%nat ->
  (List.length (preorders F) < fuel)%nat ->
  SortNode fuel (map Some ds) (Z.of_nat n) p sorted = Ok (sorted ++ map Some (preorders F)).
Proof.
  revert p F sorted. induction fuel as [|fuel IH]; intros p F sorted Hh Hn Hf; [lia|]. cbn [SortNode].
  inversion Hh as [p' F' Hr Hk]; subst. apply (sort_loop_preorder ds); try done.
  intros d l s Hl Hs Hlt. apply IH; [done|done|lia].
Qed.

Lemma SortByDepth_forest ds F : forest ds F ->
  SortByDepth (map Some ds) (Z.of_nat (List.length ds)) = Ok (map Some (preorders F)).
Proof.
  intros (Hh & Hperm & _). apply Permutation_length in Hperm. unfold SortByDepth.
  rewrite (SortNode_preorder ds _ _ 0 F) by (done || simpl; lia). cbn [mbind outcome_bind app].
  rewrite length_map, Hperm, Nat2Z.id, Nat.sub_diag. simpl. by rewrite app_nil_r.
Qed.

(** [SortByDepth] puts the records of a forest in preorder, every folder
    directly in front of its contents, whatever order they come in; no record
    is lost or repeated, and the array is filled exactly. *)
Theorem SortByDepth_preorder ds F : forest ds F ->
  exists sorted, SortByDepth (map Some ds) (Z.of_nat (List.length ds)) = Ok sorted /\
    sorted = map Some (preorders F) /\ sorted ≡ₚ map Some ds.
Proof.
  intros Hf. exists (map Some (preorders F)). split; [by apply SortByDepth_forest|]. split; [done|].
  apply Permutation_map, Hf.
Qed.

(** *** Termination on any records *)

(** A run that does not exhaust its fuel, extends what was sorted and stays in
    the array. *)
Definition extends (n : Z) (sorted : records) (r : outcome records) : Prop :=
  match r with
  | Ok s => (List.length sorted <= List.length s)%nat /\
            (Z.of_nat (List.length sorted) <= n -> Z.of_nat (List.length s) <= n)
  | Fault f => f <> NoFuel
  end.

Lemma sort_loop_extends n p rec rest sorted :
  (forall q s, (List.length sorted < List.length s)%nat -> Z.of_nat (List.length s) < n -> extends n s (rec q s)) ->
  extends n sorted (sort_loop rec n p rest sorted).
Proof.
  revert sorted. induction rest as [|[d|] rest IH]; intros sorted Hrec; [simpl; lia| |done].
  cbn [sort_loop deref mbind outcome_bind]. destruct (nPid d =? p); [|by apply IH].
  destruct (Z.leb_spec n (Z.of_nat (List.length sorted))); [done|]. cbv zeta.
  destruct (Z.leb_spec n (Z.of_nat (List.length (sorted ++ [Some d])))); rewrite length_app in *; simpl List.length in *.
  { simpl. rewrite length_app. simpl. lia. }
  assert (Hs : extends n (sorted ++ [Some d])
                 (if bFolder d then rec (nId d) (sorted ++ [Some d]) else Ok (sorted ++ [Some d]))).
  { destruct (bFolder d); [|simpl; lia]. apply Hrec; rewrite length_app; simpl; lia. }
  destruct (if bFolder d then _ else _) as [s|]; simpl in Hs |- *; [|done].
  rewrite length_app in Hs. simpl in Hs. specialize (IH s).
  destruct (sort_loop rec n p rest s); simpl in IH |- *.
  - destruct IH; [intros q s' H1 H2; apply Hrec; lia|lia].
  - apply IH. intros q s' H1 H2. apply Hrec; lia.
Qed.

Lemma SortNode_extends ppData n fuel p sorted : n - Z.of_nat (List.length sorted) < Z.of_nat fuel -> (0 < fuel)%nat ->
  extends n sorted (SortNode fuel ppData n p sorted).
Proof.
  revert p sorted. induction fuel as [|fuel IH]; intros p sorted Hf Hor; [lia|]. cbn [SortNode].
  apply sort_loop_extends. intros q s Hlt Hn. apply IH; lia.
Qed.

(** Sorting ends for every array, also for records whose folders form
    cycles: [SortByDepth] gives an array of the same length or stops with a
    fault of the memory, never for want of recursion. *)
Theorem SortByDepth_terminates ppData (n : nat) :
  match SortByDepth ppData (Z.of_nat n) with
  | Ok sorted => List.length sorted = n
  | Fault f => f <> NoFuel
  end.
Proof.
  unfold SortByDepth. pose proof (SortNode_extends ppData (Z.of_nat n) (S (Z.to_nat (Z.of_nat n))) 0 []) as H.
  destruct (SortNode _ _ _ _ _) as [s|f]; cbn [mbind outcome_bind]; [|apply H; simpl; lia].
  destruct H as [_ H]; [simpl; lia..|]. simpl in H. rewrite length_app, length_replicate. lia.
Qed.

(** A folder that is its own parent runs the sorting out of its array. *)
Example folder_zero_out_of_range :
  SortByDepth [Some (mkFavorite 0 [] 0 true [] 0 0 0 0 0 false); Some (mkFavorite 7 [] 0 false [] 0 0 0 0 0 false)] 2 =
  Fault OutOfRange.
Proof. reflexivity. Qed.

(** ** Levels *)

(** The nodes of a tree with their depths, in preorder. *)
Fixpoint nodes_at (k : Z) (t : node) : list (Z * node) :=
  (k, t) :: match t with Node _ l => flat_map (nodes_at (k + 1)) l end.

Abbreviation all_nodes k := (flat_map (nodes_at k)).

Definition id_of (e : Z * node) : Z := nId (root e.2).
Definition pid_of (e : Z * node) : Z := nPid (root e.2).

(** A tree that belongs below the folder [p]. *)
#[local] Unset Elimination Schemes.

Inductive placed : Z -> node -> Prop :=
| placed_intro p d l : nPid d = p -> (bFolder d = false -> l = []) -> Forall (placed (nId d)) l -> placed p (Node d l).

#[local] Set Elimination Schemes.

Lemma hangs_placed ds p F : hangs ds p F -> Forall (placed p) F.
Proof.
  assert (H : forall t p, hangs_root ds t -> nPid (root t) = p -> placed p t).
  { induction t as [d l IH] using node_ind. intros q Ht Hq. inversion Ht as [d' Hf|d' l' Hf Hl]; subst.
    - by constructor.
    - constructor; [done|congruence|]. inversion Hl as [q F' Hr Hk]; subst.
      rewrite Forall_forall in IH, Hk |- *. intros t Hin. apply IH; auto.
      assert (Hroot : root t ∈ map root l) by (by apply list_elem_of_fmap_2).
      rewrite Hr in Hroot. by apply list_elem_of_filter in Hroot as [? _]. }
  intros Hh. inversion Hh as [q F' Hr Hk]; subst. rewrite Forall_forall in Hk |- *. intros t Hin. apply H; [auto|].
  assert (Hroot : root t ∈ map root F) by (by apply list_elem_of_fmap_2).
  rewrite Hr in Hroot. by apply list_elem_of_filter in Hroot as [? _].
Qed.

Lemma nodes_preorder k F : map (fun e => root e.2) (all_nodes k F) = preorders F.
Proof.
  assert (H : forall t k, map (fun e => root e.2) (nodes_at k t) = preorder t).
  { induction t as [d l IH] using node_ind. intros k0. simpl. f_equal. clear d. generalize (k0 + 1). clear k0.
    induction IH as [|t l Ht _ IHl]; intros k0; [done|]. simpl. by rewrite map_app, Ht, IHl. }
  induction F as [|t F IH]; [done|]. simpl. by rewrite map_app, H, IH.
Qed.

(** Induction over forests: the first tree is a folder or record over the
    forest of its contents. *)
Lemma forest_ind (P : list node -> Prop) :
  P [] -> (forall d l F, P l -> P F -> P (Node d l :: F)) -> forall F, P F.
Proof.
  intros H0 H1. assert (Ht : forall t, P (kids t)).
  { induction t as [d l IH] using node_ind. simpl. induction IH as [|[d' l'] l Ht _ IHl]; [done|]. by apply H1. }
  induction F as [|[d l] F IH]; [done|]. apply H1; [apply (Ht (Node d l))|done].
Qed.

Lemma all_nodes_cons k d l F :
  all_nodes k (Node d l :: F) = (k, Node d l) :: all_nodes (k + 1) l ++ all_nodes k F.
Proof. done. Qed.

(** Nobody claims a parent that is neither [p] nor in the forest. *)
Lemma foreign_parent k p q F : Forall (placed p) F -> q <> p -> q ∉ map id_of (all_nodes k F) ->
  filter (fun e => pid_of e = q) (all_nodes k F) = [].
Proof.
  revert k p. induction F as [|d l F IHl IHF] using forest_ind; intros k p Hp Hq Hn; [done|].
  rewrite all_nodes_cons in Hn |- *. apply Forall_cons in Hp as [Ht Hp]. inversion Ht; subst.
  cbn [map] in Hn. apply not_elem_of_cons in Hn as [Hd Hn]. rewrite map_app in Hn. apply not_elem_of_app in Hn as [Hnl Hnf].
  rewrite filter_cons_False, filter_app, (IHl _ (nId d)), (IHF _ (nPid d)); done || (unfold pid_of; simpl; congruence).
Qed.

(** The records of the parent [p] are the roots. *)
Lemma own_roots k p F : Forall (placed p) F -> p ∉ map id_of (all_nodes k F) ->
  filter (fun e => pid_of e = p) (all_nodes k F) = map (pair k) F.
Proof.
  induction F as [|t F IH]; intros Hp Hn; [done|]. destruct t as [d l]. rewrite all_nodes_cons in Hn |- *.
  apply Forall_cons in Hp as [Ht Hp]. inversion Ht; subst.
  cbn [map] in Hn. apply not_elem_of_cons in Hn as [Hd Hn]. rewrite map_app in Hn. apply not_elem_of_app in Hn as [Hnl Hnf].
  rewrite filter_cons_True by done. rewrite filter_app, (foreign_parent _ (nId d)), IH; done.
Qed.

(** The records below a node are its contents, one level deeper. *)
Lemma children_of k p F j t : Forall (placed p) F -> NoDup (map id_of (all_nodes k F)) ->
  p ∉ map id_of (all_nodes k F) -> (j, t) ∈ all_nodes k F ->
  filter (fun e => pid_of e = nId (root t)) (all_nodes k F) = map (pair (j + 1)) (kids t).
Proof.
  revert k p. induction F as [|d l F IHl IHF] using forest_ind; intros k p Hp Hnd Hn Hin; [by apply not_elem_of_nil in Hin|].
  rewrite all_nodes_cons in Hnd, Hn, Hin |- *. apply Forall_cons in Hp as [Ht Hp]. inversion Ht as [? ? ? Hpid Hleaf Hkids]; subst.
  cbn [map] in Hnd, Hn. apply not_elem_of_cons in Hn as [Hd Hn]. rewrite map_app in Hnd, Hn.
  apply not_elem_of_app in Hn as [Hnl Hnf]. apply NoDup_cons in Hnd as [Hdn Hnd].
  apply NoDup_app in Hnd as (Hndl & Hdis & Hndf). apply not_elem_of_app in Hdn as [Hdl Hdf].
  unfold id_of in Hd, Hdl, Hdf. simpl in Hd, Hdl, Hdf.
  apply elem_of_cons in Hin as [[= -> ->]|Hin].
  - cbn [root kids]. rewrite filter_cons_False by (unfold pid_of; simpl; congruence).
    by rewrite filter_app, own_roots, (foreign_parent _ (nPid d)), app_nil_r.
  - assert (Hid : nId (root t) ∈ map id_of (all_nodes (k + 1) l) \/ nId (root t) ∈ map id_of (all_nodes k F)).
    { apply elem_of_app in Hin as [Hin|Hin]; [left|right]; by apply (list_elem_of_fmap_2 id_of _ (j, t)). }
    rewrite filter_cons_False by (unfold pid_of; cbn; intros E; rewrite <- E in Hid; tauto).
    rewrite filter_app. apply elem_of_app in Hin as [Hin|Hin].
    + assert (Hl : nId (root t) ∈ map id_of (all_nodes (k + 1) l)) by (by apply (list_elem_of_fmap_2 id_of _ (j, t))).
      rewrite (IHl _ (nId d)) by done. rewrite (foreign_parent _ (nPid d)), app_nil_r; [done..|intros E; by rewrite E in Hl|].
      intros Hf. by apply (Hdis (nId (root t))).
    + assert (Hf : nId (root t) ∈ map id_of (all_nodes k F)) by (by apply (list_elem_of_fmap_2 id_of _ (j, t))).
      rewrite (IHF _ (nPid d)) by done. rewrite (foreign_parent _ (nId d)); [done..|intros E; by rewrite E in Hf|].
      intros Hl. by apply (Hdis (nId (root t))).
Qed.

(** Every node is at the top or in a folder one level above. *)
Lemma parent_of k p F j t : Forall (placed p) F -> (j, t) ∈ all_nodes k F ->
  (j = k /\ nPid (root t) = p) \/
  exists u, (j - 1, u) ∈ all_nodes k F /\ bFolder (root u) = true /\ nPid (root t) = nId (root u).
Proof.
  revert k p. induction F as [|d l F IHl IHF] using forest_ind; intros k p Hp Hin; [by apply not_elem_of_nil in Hin|].
  rewrite all_nodes_cons in Hin |- *. apply Forall_cons in Hp as [Ht Hp]. inversion Ht as [? ? ? Hpid Hleaf Hkids]; subst.
  apply elem_of_cons in Hin as [[= -> ->]|Hin]; [by left|]. apply elem_of_app in Hin as [Hin|Hin].
  - right. destruct (IHl _ _ Hkids Hin) as [[-> Hpd]|(u & Hu & Hf & Hpd)].
    + exists (Node d l). split; [replace (k + 1 - 1) with k by lia; by left|]. split; [|done]. simpl.
      destruct (bFolder d); [done|]. rewrite Hleaf in Hin by done. by apply not_elem_of_nil in Hin.
    + exists u. split; [|done]. right. apply elem_of_app. by left.
  - destruct (IHF _ _ Hp Hin) as [?|(u & Hu & Hf & Hpd)]; [by left|]. right.
    exists u. split; [|done]. right. apply elem_of_app. by right.
Qed.

Lemma depth_ge k F j t : (j, t) ∈ all_nodes k F -> k <= j.
Proof.
  revert k. induction F as [|d l F IHl IHF] using forest_ind; intros k Hin; [by apply not_elem_of_nil in Hin|].
  rewrite all_nodes_cons in Hin. apply elem_of_cons in Hin as [[= -> ->]|Hin]; [lia|].
  apply elem_of_app in Hin as [Hin|Hin]; [apply IHl in Hin; lia|by apply IHF].
Qed.

(** ** Depths *)

(** The array [ppData] holds the nodes [A] from index [i]. *)
Definition holds (ppData : records) (i : Z) (A : list (Z * node)) : Prop :=
  forall j e, A !! j = Some e -> vec_at ppData (i + Z.of_nat j) = Ok (Some (root e.2)).

Lemma holds_cons ppData i e A : holds ppData i (e :: A) ->
  vec_at ppData i = Ok (Some (root e.2)) /\ holds ppData (i + 1) A.
Proof.
  intros H. split; [specialize (H O e eq_refl); by rewrite Z.add_0_r in H|].
  intros j e' Hj. specialize (H (S j) e' Hj). by rewrite Nat2Z.inj_succ, <- Z.add_1_l, Z.add_assoc in H.
Qed.

Lemma holds_app ppData i A B : holds ppData i (A ++ B) ->
  holds ppData i A /\ holds ppData (i + Z.of_nat (List.length A)) B.
Proof.
  intros H. split; intros j e Hj.
  - apply H. by apply lookup_app_l_Some.
  - rewrite <- Z.add_assoc, <- Nat2Z.inj_add. apply H. rewrite lookup_app_r by lia. by replace (_ + _ - _)%nat with j by lia.
Qed.

Definition indexed (i : Z) (A : list (Z * node)) : list (Z * Z) :=
  zip (map fst A) (seqZ i (Z.of_nat (List.length A))).

Lemma indexed_cons i e A : indexed i (e :: A) = (e.1, i) :: indexed (i + 1) A.
Proof.
  unfold indexed. cbn [map List.length]. rewrite Nat2Z.inj_succ, seqZ_cons by lia. simpl. do 3 f_equal; lia.
Qed.

Lemma indexed_app i A B : indexed i (A ++ B) = indexed i A ++ indexed (i + Z.of_nat (List.length A)) B.
Proof.
  revert i. induction A as [|e A IH]; intros i; [by rewrite Z.add_0_r|].
  rewrite <- app_comm_cons, !indexed_cons, IH, <- app_comm_cons. do 3 f_equal. simpl. lia.
Qed.

(** The loop over the indices of a list of nodes. *)
Lemma for_each_indices {S} (f : S -> Z -> outcome S) s i (e : Z * node) A :
  for_each f s (seqZ i (Z.of_nat (List.length (e :: A)))) =
  (s ← f s i; for_each f s (seqZ (i + 1) (Z.of_nat (List.length A)))).
Proof.
  cbn [List.length]. rewrite Nat2Z.inj_succ, seqZ_cons by lia. by rewrite Z.pred_succ, <- Z.add_1_r.
Qed.

Lemma for_each_indices_app {S} (f : S -> Z -> outcome S) s i (A B : list (Z * node)) :
  for_each f s (seqZ i (Z.of_nat (List.length (A ++ B)))) =
  (s ← for_each f s (seqZ i (Z.of_nat (List.length A)));
   for_each f s (seqZ (i + Z.of_nat (List.length A)) (Z.of_nat (List.length B)))).
Proof. rewrite length_app, Nat2Z.inj_add, seqZ_app by lia. apply for_each_app. Qed.

Definition below (M : gmap Z Z) (p : Z) : Z := match M !! p with Some n => n + 1 | None => 0 end.

Lemma with_depth_twice m di M m' di' M' s : with_depth m di M (with_depth m' di' M' s) = with_depth m di M s.
Proof. done. Qed.

Lemma depth_loop ppData F k p i n s M m di :
  Forall (placed p) F -> NoDup (map id_of (all_nodes k F)) -> p ∉ map id_of (all_nodes k F) ->
  Forall (fun e => bDelete (root e.2) = false) (all_nodes k F) -> holds ppData i (all_nodes k F) ->
  below M p = k -> (forall q, q ∈ map id_of (all_nodes k F) -> M !! q = None) ->
  exists n' m' M',
    for_each (depth_step ppData) (n, with_depth m di M s) (seqZ i (Z.of_nat (List.length (all_nodes k F)))) =
      Ok (n', with_depth m' (di ++ indexed i (all_nodes k F)) M' s) /\
    m <= m' /\ Forall (fun e => e.1 <= m') (all_nodes k F) /\
    (forall q, q ∉ map id_of (all_nodes k F) -> M' !! q = M !! q).
Proof.
  revert k p i n M m di. induction F as [|d l F IHl IHF] using forest_ind;
    intros k p i n M m di Hp Hnd Hn Hdel Hholds Hbelow Hfresh.
  { exists n, m, M. simpl. rewrite app_nil_r. repeat split; [lia|done]. }
  rewrite all_nodes_cons in Hnd, Hn, Hdel, Hholds, Hfresh |- *.
  apply Forall_cons in Hp as [Ht Hp]. inversion Ht as [? ? ? Hpid Hleaf Hkids]; subst.
  cbn [map] in Hnd, Hn, Hfresh. rewrite map_app in Hnd, Hn, Hfresh.
  apply not_elem_of_cons in Hn as [Hd Hn]. apply not_elem_of_app in Hn as [Hnl Hnf].
  apply NoDup_cons in Hnd as [Hdn Hnd]. apply NoDup_app in Hnd as (Hndl & Hdis & Hndf).
  apply not_elem_of_app in Hdn as [Hdl Hdf]. apply Forall_cons in Hdel as [Hdd Hdel].
  apply Forall_app in Hdel as [Hdell Hdelf]. apply holds_cons in Hholds as [Hat Hholds].
  apply holds_app in Hholds as [Hhl Hhf]. unfold id_of in Hd, Hdl, Hdf, Hfresh. cbn [snd root] in Hd, Hdl, Hdf, Hdd, Hat, Hfresh.
  rewrite for_each_indices. cbn [depth_step mbind outcome_bind]. rewrite Hat. cbn [mbind outcome_bind]. rewrite Hdd.
  cbv zeta. cbn [m_mapPidInfo with_depth m_nMaxDepth m_mapDepthInfo]. fold (below M (nPid d)). cbn [mbind outcome_bind].
  set (k := below M (nPid d)) in *. set (M1 := if bFolder d then map_add (nId d) k M else M).
  assert (HM1 : forall q, q <> nId d -> M1 !! q = M !! q).
  { intros q Hq. unfold M1, map_add. destruct (bFolder d), (M !! nId d); try done. by rewrite lookup_insert_ne. }
  assert (Hl : exists n1 m1 M2,
    for_each (depth_step ppData) (k, with_depth (Z.max k m) (di ++ [(k, i)]) M1 s)
      (seqZ (i + 1) (Z.of_nat (List.length (all_nodes (k + 1) l)))) =
      Ok (n1, with_depth m1 ((di ++ [(k, i)]) ++ indexed (i + 1) (all_nodes (k + 1) l)) M2 s) /\
    Z.max k m <= m1 /\ Forall (fun e => e.1 <= m1) (all_nodes (k + 1) l) /\
    (forall q, q ∉ map id_of (all_nodes (k + 1) l) -> M2 !! q = M1 !! q)).
  { destruct (bFolder d) eqn:Hf.
    - apply (IHl _ (nId d)); try done.
      + unfold below, M1, map_add. rewrite Hfresh by (by left). by rewrite lookup_insert_eq.
      + intros q Hq. rewrite HM1; [apply Hfresh; right; apply elem_of_app; by left|]. intros ->. done.
    - rewrite Hleaf by done. exists k, (Z.max k m), M1. simpl. rewrite app_nil_r. repeat split; [lia|done]. }
  destruct Hl as (n1 & m1 & M2 & Hrun1 & Hm1 & Hall1 & Hext1).
  destruct (IHF k (nPid d) (i + 1 + Z.of_nat (List.length (all_nodes (k + 1) l))) n1 M2 m1
              ((di ++ [(k, i)]) ++ indexed (i + 1) (all_nodes (k + 1) l)))
    as (n2 & m2 & M3 & Hrun2 & Hm2 & Hall2 & Hext2); try done.
  { unfold k, below. by rewrite Hext1, HM1. }
  { intros q Hq. rewrite Hext1, HM1.
    - apply Hfresh. right. apply elem_of_app. by right.
    - intros ->. done.
    - intros Hq'. by apply (Hdis q). }
  exists n2, m2, M3. split; [|split; [lia|split]].
  - rewrite for_each_indices_app. rewrite with_depth_twice, Hrun1.
    cbn [mbind outcome_bind]. rewrite Hrun2. rewrite indexed_cons, indexed_app. by rewrite <- !app_assoc.
  - constructor; [simpl; lia|]. apply Forall_app. split; [|done].
    eapply Forall_impl; [exact Hall1|]. intros e He. simpl in He. lia.
  - intros q Hq. cbn [map] in Hq. apply not_elem_of_cons in Hq as [Hqd Hq]. rewrite map_app in Hq.
    apply not_elem_of_app in Hq as [Hql Hqf]. rewrite Hext2, Hext1, HM1 by done. done.
Qed.

Lemma nodup_map_inj {B C} (f : B -> C) l x y : NoDup (map f l) -> x ∈ l -> y ∈ l -> f x = f y -> x = y.
Proof.
  induction l as [|b l IH]; intros Hnd Hx Hy E; [by apply not_elem_of_nil in Hx|]. cbn [map] in Hnd.
  apply NoDup_cons in Hnd as [Hb Hnd]. apply elem_of_cons in Hx as [->|Hx]; apply elem_of_cons in Hy as [->|Hy]; auto.
  - exfalso. apply Hb. rewrite E. by apply (list_elem_of_fmap_2 f).
  - exfalso. apply Hb. rewrite <- E. by apply (list_elem_of_fmap_2 f).
Qed.

(** ** The JSON of a tree *)

Section Values.
Context (UnicodeToUtf8 : wstring -> str).

Definition folder_value (children : Value) (d : FavoriteLineData) (n : Z) : Value :=
  objectValue [(lit "children", children);
               (lit "date_added", stringValue (Int64ToString (nAddTimes d)));
               (lit "date_modified", stringValue (Int64ToString (nLastModifyTime d)));
               (lit "id", stringValue (uintToString n));
               (lit "name", stringValue (UnicodeToUtf8 (szTitle d)));
               (lit "type", stringValue (lit "folder"))].

Definition url_value (d : FavoriteLineData) (n : Z) : Value :=
  objectValue [(lit "date_added", stringValue (Int64ToString (nAddTimes d)));
               (lit "id", stringValue (uintToString n));
               (lit "name", stringValue (UnicodeToUtf8 (szTitle d)));
               (lit "type", stringValue (lit "url"));
               (lit "url", stringValue (UnicodeToUtf8 (szUrl d)))].

(** The node of a record before it gets contents. *)
Definition leaf_value (d : FavoriteLineData) (n : Z) : Value :=
  if bFolder d then folder_value (arrayValue []) d n else url_value d n.

(** The node of a tree; [num] gives the number of a record by its id. *)
Fixpoint tree_value (num : Z -> Z) (t : node) : Value :=
  let 'Node d l := t in
  if bFolder d then folder_value (arrayValue (map (tree_value num) l)) d (num (nId d)) else url_value d (num (nId d)).

End Values.

(** ** One level *)

Section Level.
Context (Utf8ToUnicode : str -> wstring) (UnicodeToUtf8 : wstring -> str).
Context (sscanf_lf : str -> option spec_float).
Context (ppData : records) (F : list node) (num : Z -> Z).

#[local] Abbreviation A := (all_nodes 0 F).
#[local] Abbreviation tv := (tree_value UnicodeToUtf8 num).

Context (Hplaced : Forall (placed 0) F) (Hnodup : NoDup (map id_of A)) (Hzero : 0 ∉ map id_of A).
Context (Hholds : holds ppData 0 A).

(** Making the node of a record gives its value. *)
Context (Hmake : forall e n, e ∈ A -> 0 <= n < 2 ^ 32 - 1 ->
  (if bFolder (root e.2) then MakeFolderNode Utf8ToUnicode UnicodeToUtf8 sscanf_lf (root e.2) nullValue n
   else MakeUrlNode Utf8ToUnicode UnicodeToUtf8 sscanf_lf (root e.2) nullValue n) =
  Ok (leaf_value UnicodeToUtf8 (root e.2) (n + 1), n + 1)).

Definition level (k : Z) : list node := range_of k A.

Lemma elem_of_range {B} k (b : B) m : b ∈ range_of k m <-> (k, b) ∈ m.
Proof.
  unfold range_of. rewrite list_elem_of_fmap. split.
  - intros ([k' b'] & -> & He). by apply list_elem_of_filter in He as [<- He].
  - intros H. exists (k, b). split; [done|]. by apply list_elem_of_filter.
Qed.

Definition at_index (i : Z) (t : node) : Prop := vec_at ppData i = Ok (Some (root t)).

Lemma range_indices k B i : holds ppData i B -> Forall2 at_index (range_of k (indexed i B)) (range_of k B).
Proof using.
  revert i. induction B as [|[j t] B IH]; intros i Hh; [constructor|].
  apply holds_cons in Hh as [Hat Hh]. rewrite indexed_cons. unfold range_of. rewrite !filter_cons. simpl.
  destruct (decide (j = k)); simpl; [constructor; [done|]|]; by apply IH.
Qed.

Lemma level_indices k : Forall2 at_index (range_of k (indexed 0 A)) (level k).
Proof using Hholds. by apply range_indices. Qed.

(** *** Making the nodes *)

Definition add_pid (vp : list Z) (t : node) : list Z :=
  if bool_decide (nPid (root t) ∈ vp) then vp else vp ++ [nPid (root t)].

Definition made (i : Z) (t : node) : Z * (Z * Value) :=
  (nPid (root t), (i, leaf_value UnicodeToUtf8 (root t) (num (nId (root t))))).

Definition note_index (m : gmap Z Z) (t : node) : gmap Z Z := map_add (nId (root t)) (num (nId (root t))) m.

Lemma make_loop idxs L n vp mo ii : Forall2 at_index idxs L -> Forall (fun t => exists k, (k, t) ∈ A) L ->
  map (fun t => num (nId (root t))) L = seqZ (n + 1) (Z.of_nat (List.length L)) ->
  0 <= n -> n + Z.of_nat (List.length L) < 2 ^ 32 ->
  for_each (make_node Utf8ToUnicode UnicodeToUtf8 sscanf_lf ppData) (n, vp, mo, ii) idxs =
  Ok (n + Z.of_nat (List.length L), fold_left add_pid L vp, mo ++ zip_with made idxs L, fold_left note_index L ii).
Proof.
  intros H2. revert n vp mo ii. induction H2 as [|i t idxs L Hat _ IH]; intros n vp mo ii Hin Hnum Hn Hlt.
  { simpl. by rewrite Z.add_0_r, app_nil_r. }
  apply Forall_cons in Hin as [[k Hk] Hin]. cbn [List.length] in Hlt, Hnum. rewrite Nat2Z.inj_succ in Hlt, Hnum.
  rewrite seqZ_cons in Hnum by lia. cbn [map] in Hnum. injection Hnum as Hnt Hnum.
  rewrite Z.pred_succ, <- Z.add_1_r in Hnum.
  cbn [for_each make_node]. rewrite Hat. cbn [mbind outcome_bind]. pose proof (Hmake (k, t) n Hk ltac:(lia)) as Hm.
  cbn [snd] in Hm. rewrite Hm. cbn [mbind outcome_bind]. rewrite IH; [|done..|lia|lia].
  cbn [zip_with fold_left List.length]. unfold made at 2. rewrite Hnt, <- app_assoc.
  do 4 f_equal; [lia|]. unfold note_index. by rewrite Hnt.
Qed.

(** The parents of the level, each once. *)
Lemma pids_spec L vp q : q ∈ fold_left add_pid L vp <-> q ∈ vp \/ q ∈ map (fun t => nPid (root t)) L.
Proof.
  revert vp. induction L as [|t L IH]; intros vp; simpl; [set_solver|]. rewrite IH. unfold add_pid.
  case_bool_decide; set_solver.
Qed.

Lemma pids_nodup L vp : NoDup vp -> NoDup (fold_left add_pid L vp).
Proof.
  revert vp. induction L as [|t L IH]; intros vp Hvp; simpl; [done|]. apply IH. unfold add_pid.
  case_bool_decide; [done|]. apply NoDup_app. repeat split; [done|set_solver|apply NoDup_singleton].
Qed.

(** The indices noted agree with [num]. *)
Definition consistent (m : gmap Z Z) : Prop := forall q v, m !! q = Some v -> v = num q.

Lemma note_consistent L m : consistent m -> consistent (fold_left note_index L m) /\
  (forall q, is_Some (fold_left note_index L m !! q) <-> is_Some (m !! q) \/ q ∈ map (fun t => nId (root t)) L).
Proof.
  revert m. induction L as [|t L IH]; intros m Hm; simpl; [split; [done|set_solver]|].
  assert (Hm' : consistent (note_index m t)).
  { unfold note_index, map_add. intros q v Hq. destruct (m !! nId (root t)); [by apply Hm|].
    destruct (decide (q = nId (root t))) as [->|Hne]; [by rewrite lookup_insert_eq in Hq; injection Hq|].
    rewrite lookup_insert_ne in Hq by done. by apply Hm. }
  destruct (IH _ Hm') as [Hc Hd]. split; [done|]. intros q. rewrite Hd, elem_of_cons.
  unfold note_index, map_add. destruct (m !! nId (root t)) eqn:E.
  - split; [tauto|]. intros [?|[->|?]]; [tauto| |tauto]. left. rewrite E. by eexists.
  - destruct (decide (q = nId (root t))) as [->|Hne]; [rewrite lookup_insert_eq|rewrite lookup_insert_ne by done].
    + split; [tauto|]. intros _. left. by eexists.
    + tauto.
Qed.

(** *** Attaching the contents *)

Definition attached (e : Z * Value) (t : node) : Prop :=
  at_index e.1 t /\ e.2 = leaf_value UnicodeToUtf8 (root t) (num (nId (root t))).

Definition siblings (p : Z) (L : list node) : list node := filter (fun t => nPid (root t) = p) L.

Lemma made_siblings p idxs L : Forall2 at_index idxs L ->
  Forall2 attached (range_of p (zip_with made idxs L)) (siblings p L).
Proof using.
  induction 1 as [|i t idxs L Hat _ IH]; [constructor|]. unfold range_of, siblings in *. cbn [zip_with].
  rewrite !filter_cons. unfold made at 1 3. cbn [fst].
  destruct (decide (nPid (root t) = p)); [|done]. cbn [map]. by constructor.
Qed.

(** What the map of finished levels has for a node. *)
Definition kids_entry (t : node) : option Value :=
  match kids t with [] => None | l => Some (arrayValue (map tv l)) end.

Definition arr_of (l : list Value) : Value := match l with [] => nullValue | _ => arrayValue l end.

Lemma append_arr l v : append_ (arr_of l) v = Ok (arr_of (l ++ [v])).
Proof using. by destruct l. Qed.

Lemma url_kids k t : (k, t) ∈ A -> bFolder (root t) = false -> kids t = [].
Proof using Hplaced.
  revert Hplaced. generalize 0 at 1. generalize 0. generalize F. clear. intros F. induction F as [|d l F IHl IHF] using forest_ind;
    intros j p Hp Hin Hf; [by apply not_elem_of_nil in Hin|].
  rewrite all_nodes_cons in Hin. apply Forall_cons in Hp as [Ht Hp]. inversion Ht; subst.
  apply elem_of_cons in Hin as [[= -> ->]|Hin]; [by auto|]. apply elem_of_app in Hin as [Hin|Hin]; eauto.
Qed.

Lemma leaf_attach t c : bFolder (root t) = true ->
  set_member (leaf_value UnicodeToUtf8 (root t) (num (nId (root t)))) (lit "children") c =
  Ok (folder_value UnicodeToUtf8 c (root t) (num (nId (root t)))).
Proof using. intros H. unfold leaf_value. rewrite H. reflexivity. Qed.

Lemma attach_loop es G l0 M : Forall2 attached es G -> Forall (fun t => exists k, (k, t) ∈ A) G ->
  NoDup (map (fun t => nId (root t)) G) -> Forall (fun t => M !! nId (root t) = kids_entry t) G ->
  exists M', for_each (attach_node ppData) (arr_of l0, M) es = Ok (arr_of (l0 ++ map tv G), M') /\
    (forall q, q ∉ map (fun t => nId (root t)) G -> M' !! q = M !! q) /\
    (forall q, q ∈ map (fun t => nId (root t)) G -> M' !! q = None).
Proof.
  intros H2. revert l0 M. induction H2 as [|[i v] t es G [Hat Hv] _ IH]; intros l0 M Hin Hnd HM.
  { exists M. simpl. rewrite app_nil_r. repeat split. set_solver. }
  apply Forall_cons in Hin as [[k Hk] Hin]. apply Forall_cons in HM as [Ht HM]. cbn [map] in Hnd.
  apply NoDup_cons in Hnd as [Hnt Hnd]. cbn [fst snd] in Hat, Hv. subst v.
  cbn [for_each attach_node]. rewrite Hat. cbn [mbind outcome_bind deref]. rewrite Ht.
  assert (Hstep : exists M1, (match (if bFolder (root t) then kids_entry t else None) with
    | Some children =>
        node_obj ← set_member (leaf_value UnicodeToUtf8 (root t) (num (nId (root t)))) (lit "children") children;
        array_obj ← append_ (arr_of l0) node_obj; Ok (array_obj, base.delete (nId (root t)) M)
    | None => array_obj ← append_ (arr_of l0) (leaf_value UnicodeToUtf8 (root t) (num (nId (root t)))); Ok (array_obj, M)
    end) = Ok (arr_of (l0 ++ [tv t]), M1) /\ M1 !! nId (root t) = None /\ forall q, q <> nId (root t) -> M1 !! q = M !! q).
  { destruct (bFolder (root t)) eqn:Hf.
    - unfold kids_entry in *. destruct t as [d [|c l]]; cbn [kids root] in *.
      + exists M. rewrite append_arr. cbn [mbind outcome_bind]. unfold leaf_value. cbn [tree_value]. rewrite Hf. done.
      + exists (base.delete (nId d) M). pose proof (leaf_attach (Node d (c :: l)) (arrayValue (map tv (c :: l))) Hf) as Hset.
        cbn [root] in Hset. rewrite Hset. cbn [mbind outcome_bind]. rewrite append_arr. cbn [mbind outcome_bind tree_value]. rewrite Hf.
        split; [done|]. split; [apply lookup_delete_eq|]. intros q Hq. by rewrite lookup_delete_ne.
    - exists M. rewrite append_arr. cbn [mbind outcome_bind]. pose proof (url_kids k t Hk Hf) as Hkids.
      unfold kids_entry in Ht. rewrite Hkids in Ht. destruct t as [d l]. unfold leaf_value. cbn [tree_value root]. cbn [root] in Hf.
      rewrite Hf. done. }
  destruct Hstep as (M1 & -> & H1 & H1'). cbn [mbind outcome_bind].
  destruct (IH (l0 ++ [tv t]) M1) as (M' & -> & Hout & Hnone); try done.
  { rewrite Forall_forall in HM |- *. intros u Hu. rewrite H1'; [by apply HM|]. intros E.
    apply Hnt. rewrite <- E. by apply (list_elem_of_fmap_2 (fun t => nId (root t))). }
  exists M'. split; [by rewrite <- app_assoc|]. split; intros q Hq; cbn [map] in Hq.
  - apply not_elem_of_cons in Hq as [Hq1 Hq2]. by rewrite Hout, H1'.
  - apply elem_of_cons in Hq as [->|Hq]; [|by apply Hnone]. by rewrite Hout.
Qed.

(** The parents of a level, one after the other. *)
Record attach_inv (L : list node) (M0 : gmap Z Value) (done : list Z) (M : gmap Z Value) : Prop := {
  inv_done q : q ∈ done -> M !! q = Some (arrayValue (map tv (siblings q L)));
  inv_todo t : t ∈ L -> nPid (root t) ∉ done -> M !! nId (root t) = M0 !! nId (root t);
  inv_dom q : is_Some (M !! q) -> q ∈ done \/ (exists t, t ∈ L /\ (nPid (root t) ∉ done) /\ nId (root t) = q)
}.

Lemma attach_pid_inv idxs L M0 done p M : Forall2 at_index idxs L -> Forall (fun t => exists k, (k, t) ∈ A) L ->
  NoDup (map (fun t => nId (root t)) L) -> (forall t, t ∈ L -> M0 !! nId (root t) = kids_entry t) ->
  (forall t u, t ∈ L -> u ∈ L -> nPid (root t) <> nId (root u)) ->
  (forall q, q ∈ done -> exists t, t ∈ L /\ nPid (root t) = q) ->
  p ∉ done -> p ∈ map (fun t => nPid (root t)) L -> attach_inv L M0 done M ->
  exists M', attach_pid ppData (zip_with made idxs L) M p = Ok M' /\ attach_inv L M0 (done ++ [p]) M'.
Proof.
  intros Hidx Hin Hnd HM0 Hdis Hdone Hp HpL Hinv. unfold attach_pid.
  assert (Hsub : forall t, t ∈ siblings p L <-> t ∈ L /\ nPid (root t) = p).
  { intros t. unfold siblings. rewrite list_elem_of_filter. tauto. }
  destruct (attach_loop (range_of p (zip_with made idxs L)) (siblings p L) [] M) as (M1 & Hrun & Hout & Hnone).
  - by apply made_siblings.
  - rewrite Forall_forall in Hin |- *. intros t Ht. apply Hin. by apply Hsub in Ht as [Ht _].
  - eapply sublist_NoDup; [exact Hnd|]. apply fmap_sublist, sublist_filter.
  - rewrite Forall_forall. intros t Ht. apply Hsub in Ht as [Ht Htp].
    rewrite (inv_todo _ _ _ _ Hinv) by (done || by rewrite Htp). by apply HM0.
  - change nullValue with (arr_of []). rewrite Hrun. cbn [mbind outcome_bind fst snd app].
    apply list_elem_of_fmap in HpL as (u & Hu & HuL).
    assert (Hids : p ∉ map (fun t => nId (root t)) L).
    { intros Hpi. apply list_elem_of_fmap in Hpi as (t & Ht & HtL). apply (Hdis u t HuL HtL). congruence. }
    assert (Hsubids : forall q, q ∈ map (fun t => nId (root t)) (siblings p L) -> q ∈ map (fun t => nId (root t)) L).
    { intros q Hq. apply list_elem_of_fmap in Hq as (t & -> & Ht). apply Hsub in Ht as [Ht _].
      by apply (list_elem_of_fmap_2 (fun t => nId (root t))). }
    assert (HM1p : M1 !! p = None).
    { rewrite Hout by (intros Hq; by apply Hids, Hsubids). destruct (M !! p) eqn:E; [|done]. exfalso.
      destruct (inv_dom _ _ _ _ Hinv p) as [?|(t & HtL & _ & Ht)]; [by rewrite E|done|].
      apply Hids. rewrite <- Ht. by apply (list_elem_of_fmap_2 (fun t => nId (root t))). }
    unfold map_add. rewrite HM1p. eexists. split; [reflexivity|]. split.
    + intros q Hq. apply elem_of_app in Hq as [Hq|Hq%list_elem_of_singleton].
      * rewrite lookup_insert_ne by (intros ->; done). rewrite Hout; [by apply (inv_done _ _ _ _ Hinv)|].
        intros Hqi. apply Hsubids, list_elem_of_fmap in Hqi as (t & Ht & HtL).
        destruct (Hdone q Hq) as (v & HvL & Hv). apply (Hdis v t HvL HtL). congruence.
      * subst q. rewrite lookup_insert_eq. f_equal. assert (Hus : u ∈ siblings p L) by (by apply Hsub).
        destruct (siblings p L); [by apply not_elem_of_nil in Hus|done].
    + intros t Ht Htd. apply not_elem_of_app in Htd as [Htd Htp]. rewrite list_elem_of_singleton in Htp.
      rewrite lookup_insert_ne.
      * rewrite Hout; [by apply (inv_todo _ _ _ _ Hinv)|]. intros Hti. apply list_elem_of_fmap in Hti as (v & Hv & HvG).
        apply Hsub in HvG as [HvL Hvp]. assert (t = v) as -> by (by apply (nodup_map_inj (fun t => nId (root t)) L)). done.
      * intros ->. apply Hids. by apply (list_elem_of_fmap_2 (fun t => nId (root t))).
    + intros q Hq. destruct (decide (q = p)) as [->|Hqp]; [left; apply elem_of_app; right; by left|].
      rewrite lookup_insert_ne in Hq by done.
      destruct (decide (q ∈ map (fun t => nId (root t)) (siblings p L))) as [Hqs|Hqs];
        [rewrite Hnone in Hq by done; by destruct Hq|]. rewrite Hout in Hq by done.
      destruct (inv_dom _ _ _ _ Hinv q Hq) as [?|(t & HtL & Htd & Ht)]; [left; apply elem_of_app; by left|].
      right. exists t. repeat split; [done| |done]. rewrite not_elem_of_app, list_elem_of_singleton. split; [done|].
      intros Htp. apply Hqs. rewrite <- Ht. apply (list_elem_of_fmap_2 (fun t => nId (root t))). by apply Hsub.
Qed.

Lemma attach_all idxs L M0 todo done M : Forall2 at_index idxs L -> Forall (fun t => exists k, (k, t) ∈ A) L ->
  NoDup (map (fun t => nId (root t)) L) -> (forall t, t ∈ L -> M0 !! nId (root t) = kids_entry t) ->
  (forall t u, t ∈ L -> u ∈ L -> nPid (root t) <> nId (root u)) ->
  NoDup (done ++ todo) -> (forall q, q ∈ done ++ todo -> exists t, t ∈ L /\ nPid (root t) = q) -> attach_inv L M0 done M ->
  exists M', for_each (attach_pid ppData (zip_with made idxs L)) M todo = Ok M' /\ attach_inv L M0 (done ++ todo) M'.
Proof.
  intros H1 H2 H3 H4 H5. revert done M. induction todo as [|p todo IH]; intros done M Hnd Hsub Hinv.
  { exists M. by rewrite app_nil_r. }
  cbn [for_each]. destruct (attach_pid_inv idxs L M0 done p M) as (M1 & -> & Hinv1); try done.
  - intros q Hq. apply Hsub, elem_of_app. by left.
  - intros Hp. apply NoDup_app in Hnd as (_ & Hd & _). apply (Hd p Hp). by left.
  - destruct (Hsub p) as (t & Ht & Htp); [apply elem_of_app; right; by left|].
    rewrite <- Htp. by apply (list_elem_of_fmap_2 (fun t => nPid (root t))).
  - cbn [mbind outcome_bind]. replace (done ++ p :: todo) with ((done ++ [p]) ++ todo) in Hnd, Hsub |- * by (by rewrite <- app_assoc).
    by apply IH.
Qed.

(** *** The whole level *)

Lemma siblings_range q j B : siblings q (range_of j B) = range_of j (filter (fun e => pid_of e = q) B).
Proof using.
  unfold siblings, range_of. induction B as [|[k t] B IH]; [done|]. rewrite !filter_cons. cbn [fst].
  unfold pid_of at 1. cbn [snd]. destruct (decide (k = j)), (decide (nPid (root t) = q)); cbn [map fst snd];
    rewrite ?filter_cons; cbn [fst snd map]; repeat case_decide; try done; cbn [map snd]; by rewrite IH.
Qed.

Lemma range_pairs {B} j (l : list B) : range_of j (map (pair j) l) = l.
Proof using.
  unfold range_of. induction l as [|b l IH]; [done|]. cbn [map]. rewrite filter_cons_True by done. cbn [map snd]. by rewrite IH.
Qed.

Lemma level_in k : Forall (fun t => exists k, (k, t) ∈ A) (level k).
Proof using. rewrite Forall_forall. intros t Ht. exists k. by apply elem_of_range. Qed.

Lemma level_nodup k : NoDup (map (fun t => nId (root t)) (level k)).
Proof using Hnodup.
  unfold level, range_of. rewrite map_map. change (fun x : Z * node => nId (root x.2)) with id_of.
  eapply sublist_NoDup; [exact Hnodup|]. apply fmap_sublist, sublist_filter.
Qed.

Lemma level_kids k t : t ∈ level k -> siblings (nId (root t)) (level (k + 1)) = kids t.
Proof using Hplaced Hnodup Hzero.
  intros Ht. apply elem_of_range in Ht. unfold level. rewrite siblings_range.
  rewrite (children_of 0 0 F k t) by done. apply range_pairs.
Qed.

Lemma level_disjoint k t u : t ∈ level k -> u ∈ level k -> nPid (root t) <> nId (root u).
Proof using Hplaced Hnodup Hzero.
  intros Ht Hu E. apply elem_of_range in Ht, Hu. pose proof (children_of 0 0 F k u Hplaced Hnodup Hzero Hu) as Hc.
  assert (Hin : (k, t) ∈ filter (fun e => pid_of e = nId (root u)) A) by (by apply list_elem_of_filter).
  rewrite Hc in Hin. apply list_elem_of_fmap in Hin as (? & [= ?] & _). lia.
Qed.

Definition level_map (k : Z) (q : Z) : option Value :=
  match siblings q (level k) with [] => None | l => Some (arrayValue (map tv l)) end.

Lemma level_map_kids k t : t ∈ level k -> level_map (k + 1) (nId (root t)) = kids_entry t.
Proof using Hplaced Hnodup Hzero. intros Ht. unfold level_map, kids_entry. by rewrite level_kids. Qed.

Lemma level_map_dom k q : 0 <= k -> is_Some (level_map (k + 1) q) -> exists t, t ∈ level k /\ nId (root t) = q.
Proof using Hplaced.
  intros Hk Hq. unfold level_map in Hq. destruct (siblings q (level (k + 1))) as [|u l] eqn:E; [by destruct Hq|].
  assert (Hu : u ∈ siblings q (level (k + 1))) by (rewrite E; by left).
  apply list_elem_of_filter in Hu as [Hup Hu]. apply elem_of_range in Hu.
  destruct (parent_of 0 0 F (k + 1) u Hplaced Hu) as [[? _]|(t & Ht & _ & Htp)]; [lia|].
  exists t. replace (k + 1 - 1) with k in Ht by lia. split; [by apply elem_of_range|congruence].
Qed.

Lemma level_step k s : 0 <= k -> m_mapDepthInfo s = indexed 0 A -> (forall q, m_mapPidNodeInfo s !! q = level_map (k + 1) q) ->
  consistent (m_mapIdIndexInfo s) ->
  map (fun t => num (nId (root t))) (level k) = seqZ (m_nIndex s + 1) (Z.of_nat (List.length (level k))) ->
  0 <= m_nIndex s -> m_nIndex s + Z.of_nat (List.length (level k)) < 2 ^ 32 ->
  exists nodes ii, traverse_level Utf8ToUnicode UnicodeToUtf8 sscanf_lf ppData k s =
      Ok (with_nodes (m_nIndex s + Z.of_nat (List.length (level k))) nodes ii s) /\
    (forall q, nodes !! q = level_map k q) /\ consistent ii /\
    (forall q, is_Some (ii !! q) <-> is_Some (m_mapIdIndexInfo s !! q) \/ q ∈ map (fun t => nId (root t)) (level k)).
Proof.
  intros Hk Hdi Hnodes Hcons Hnum H0 Hlt. unfold traverse_level. rewrite Hdi.
  rewrite (make_loop _ (level k)); [|apply level_indices|apply level_in|done..]. cbn [mbind outcome_bind app].
  set (vp := fold_left add_pid (level k) []).
  assert (Hvp : forall q, q ∈ vp -> exists t, t ∈ level k /\ nPid (root t) = q).
  { intros q Hq. apply pids_spec in Hq as [Hq|Hq]; [by apply not_elem_of_nil in Hq|].
    apply list_elem_of_fmap in Hq as (t & -> & Ht). eauto. }
  destruct (attach_all (range_of k (indexed 0 A)) (level k) (m_mapPidNodeInfo s) vp [] (m_mapPidNodeInfo s))
    as (M' & -> & Hinv).
  - apply level_indices.
  - apply level_in.
  - apply level_nodup.
  - intros t Ht. by rewrite Hnodes, level_map_kids.
  - intros t u. apply level_disjoint.
  - apply pids_nodup. constructor.
  - done.
  - split; [intros q Hq; by apply not_elem_of_nil in Hq|done|]. intros q Hq. right. rewrite Hnodes in Hq.
    destruct (level_map_dom k q Hk Hq) as (t & Ht & Htq). exists t. repeat split; [done|apply not_elem_of_nil|done].
  - cbn [mbind outcome_bind app] in Hinv |- *. destruct (note_consistent (level k) _ Hcons) as [Hc Hd].
    eexists M', _. split; [reflexivity|]. split; [|by split]. intros q. unfold level_map.
    destruct (decide (q ∈ vp)) as [Hq|Hq].
    + rewrite (inv_done _ _ _ _ Hinv q Hq). destruct (Hvp q Hq) as (t & Ht & Htq).
      assert (Hs : t ∈ siblings q (level k)) by (by apply list_elem_of_filter).
      destruct (siblings q (level k)); [by apply not_elem_of_nil in Hs|done].
    + assert (Hs : siblings q (level k) = []).
      { destruct (siblings q (level k)) as [|u l] eqn:E; [done|]. exfalso. apply Hq, pids_spec. right.
        assert (Hu : u ∈ siblings q (level k)) by (rewrite E; by left). apply list_elem_of_filter in Hu as [<- Hu].
        by apply (list_elem_of_fmap_2 (fun t => nPid (root t))). }
      rewrite Hs. destruct (M' !! q) eqn:E; [|done]. exfalso.
      destruct (inv_dom _ _ _ _ Hinv q) as [?|(t & Ht & Htd & _)]; [by rewrite E|done|].
      apply Htd, pids_spec. right. by apply (list_elem_of_fmap_2 (fun t => nPid (root t))).
Qed.

(** *** All levels *)

(** The nodes in the order in which they are made. *)
Fixpoint levels (n : nat) : list node :=
  match n with
  | O => []
  | S n => level (Z.of_nat n) ++ levels n
  end.

Lemma traverse_spec n s : m_mapDepthInfo s = indexed 0 A -> (forall q, m_mapPidNodeInfo s !! q = level_map (Z.of_nat n) q) ->
  consistent (m_mapIdIndexInfo s) ->
  map (fun t => num (nId (root t))) (levels n) = seqZ (m_nIndex s + 1) (Z.of_nat (List.length (levels n))) ->
  0 <= m_nIndex s -> m_nIndex s + Z.of_nat (List.length (levels n)) < 2 ^ 32 ->
  exists nodes ii, traverse Utf8ToUnicode UnicodeToUtf8 sscanf_lf ppData n s =
      Ok (with_nodes (m_nIndex s + Z.of_nat (List.length (levels n))) nodes ii s) /\
    (forall q, nodes !! q = level_map 0 q) /\ consistent ii /\
    (forall q, is_Some (ii !! q) <-> is_Some (m_mapIdIndexInfo s !! q) \/ q ∈ map (fun t => nId (root t)) (levels n)).
Proof.
  revert s. induction n as [|n IH]; intros s Hdi Hnodes Hcons Hnum H0 Hlt.
  { exists (m_mapPidNodeInfo s), (m_mapIdIndexInfo s). split; [by destruct s; simpl; rewrite Z.add_0_r|]. set_solver. }
  cbn [levels traverse] in *. rewrite map_app in Hnum. rewrite length_app in Hnum, Hlt |- *.
  rewrite Nat2Z.inj_add in Hnum, Hlt |- *. rewrite seqZ_app in Hnum by lia.
  apply app_inj_1 in Hnum as [Hnum1 Hnum2]; [|rewrite length_map, length_seqZ; lia].
  destruct (level_step (Z.of_nat n) s) as (nodes & ii & -> & Hn & Hc & Hd); try done; try lia.
  { intros q. by rewrite Hnodes, Nat2Z.inj_succ. }
  cbn [mbind outcome_bind]. destruct (IH (with_nodes (m_nIndex s + Z.of_nat (List.length (level (Z.of_nat n)))) nodes ii s))
    as (nodes' & ii' & -> & Hn' & Hc' & Hd'); try done.
  - cbn [m_nIndex with_nodes]. rewrite Hnum2. f_equal. lia.
  - cbn [m_nIndex with_nodes]. lia.
  - cbn [m_nIndex with_nodes]. lia.
  - cbn [m_nIndex with_nodes m_mapIdIndexInfo] in *. exists nodes', ii'. split; [by rewrite Z.add_assoc|].
    split; [done|]. split; [done|]. intros q. rewrite Hd', Hd, map_app, elem_of_app. tauto.
Qed.

End Level.

(** ** Numbers *)

Lemma levels_elem F n t : t ∈ levels F n <-> exists k, 0 <= k < Z.of_nat n /\ (k, t) ∈ all_nodes 0 F.
Proof.
  induction n as [|n IH]; cbn [levels].
  - split; [intros H; by apply not_elem_of_nil in H|intros (k & ? & _); lia].
  - rewrite elem_of_app, IH. unfold level. rewrite elem_of_range. split.
    + intros [?|(k & ? & ?)]; [exists (Z.of_nat n)|exists k]; (split; [lia|done]).
    + intros (k & Hk & Ht). destruct (decide (k = Z.of_nat n)) as [->|]; [by left|]. right. exists k. split; [lia|done].
Qed.

Lemma levels_nodup F n : NoDup (map id_of (all_nodes 0 F)) -> NoDup (map (fun t => nId (root t)) (levels F n)).
Proof.
  intros Hnd. induction n as [|n IH]; cbn [levels]; [constructor|]. rewrite map_app. apply NoDup_app.
  split; [by apply level_nodup|]. split; [|done]. intros q H1 H2.
  apply list_elem_of_fmap in H1 as (t & -> & Ht), H2 as (u & Hu & Hul).
  apply elem_of_range in Ht. apply levels_elem in Hul as (k & Hk & Hul).
  pose proof (nodup_map_inj id_of (all_nodes 0 F) (Z.of_nat n, t) (k, u) Hnd Ht Hul Hu) as [= ? ?]. lia.
Qed.

Lemma levels_ids F n : NoDup (map id_of (all_nodes 0 F)) -> Forall (fun e => e.1 < Z.of_nat n) (all_nodes 0 F) ->
  map (fun t => nId (root t)) (levels F n) ≡ₚ map id_of (all_nodes 0 F).
Proof.
  intros Hnd Hlt. apply NoDup_Permutation; [by apply levels_nodup|done|]. intros q. rewrite !list_elem_of_fmap. split.
  - intros (t & -> & Ht). apply levels_elem in Ht as (k & _ & Ht). by exists (k, t).
  - intros ([k t] & -> & Ht). exists t. split; [done|]. apply levels_elem. exists k. split; [|done].
    rewrite Forall_forall in Hlt. apply Hlt in Ht as Hk. apply depth_ge in Ht. simpl in Hk. lia.
Qed.

(** The records are numbered in the order in which their nodes are made. *)
Definition numbering (base : Z) (ids : list Z) (q : Z) : Z :=
  default 0 ((list_to_map (zip ids (seqZ (base + 1) (Z.of_nat (List.length ids)))) : gmap Z Z) !! q).

Lemma numbering_spec base ids : NoDup ids -> map (numbering base ids) ids = seqZ (base + 1) (Z.of_nat (List.length ids)).
Proof.
  unfold numbering. assert (Hlen : List.length ids = List.length (seqZ (base + 1) (Z.of_nat (List.length ids)))).
  { rewrite length_seqZ. lia. }
  revert Hlen. generalize (seqZ (base + 1) (Z.of_nat (List.length ids))).
  induction ids as [|i ids IH]; intros [|v vs] Hlen Hnd; try done. cbn [map zip list_to_map foldr fst snd].
  apply NoDup_cons in Hnd as [Hi Hnd]. injection Hlen as Hlen. f_equal; [by rewrite lookup_insert_eq|].
  etransitivity; [|exact (IH vs Hlen Hnd)]. apply map_ext_in. intros q Hq. apply list_elem_of_In in Hq.
  rewrite lookup_insert_ne; [done|]. intros ->. done.
Qed.
