(* ===== verification/ChromeRoundtrip.v ===== *)
(** * Chrome: importing and exporting again

    The import of the file ChromeImport as a whole: for records that form a
    forest the bookmark file is the JSON of that forest under the bookmark bar,
    its checksum the MD5 of the nodes in preorder, and exporting the file gives
    the records again under new ids. *)
From stdpp Require Import prelude gmap sorting.
From Stdlib Require Import ZArith Lia SpecFloat String.
From S2P Require Import Prelude Strings Favorites Md5 Md5Context Json JsonReader JsonWriter JsonRoundtrip Utf8.
From S2P Require Import Chrome ChromeExport ChromeImport ChromeTree.

(** ** Converting characters *)

Abbreviation ascii := (Forall (fun c => 0 < c < 128)).

(** The laws of the conversions between UTF-16 and UTF-8 that the import relies
    on: ASCII is kept and separates the texts around it, other characters give
    no ASCII, never the byte 255 and three bytes at most. *)
Class Utf8Codec (Utf8ToUnicode : str -> wstring) (UnicodeToUtf8 : wstring -> str) : Prop := {
  unicode_ascii a : ascii a -> Utf8ToUnicode a = a;
  utf8_ascii a : ascii a -> UnicodeToUtf8 a = a;
  utf8_split s a t : 0 ∉ s -> 0 ∉ t -> a <> [] -> ascii a ->
    UnicodeToUtf8 (s ++ a ++ t) = UnicodeToUtf8 s ++ a ++ UnicodeToUtf8 t;
  utf8_low s c : c ∈ UnicodeToUtf8 s -> c < 128 -> c ∈ s;
  utf8_bytes s : Forall (fun c => 0 <= c < 255) (UnicodeToUtf8 s);
  utf8_length s : (List.length (UnicodeToUtf8 s) <= 3 * List.length s)%nat
}.

(** A text that can stand between quotes as it is. *)
Definition plain (s : wstring) : Prop := (0 ∉ s) /\ (34 ∉ s) /\ (92 ∉ s).

Lemma digits_ascii s : digits_only s -> ascii s.
Proof. intros H. eapply Forall_impl; [exact H|]. simpl. lia. Qed.

Lemma digits_plain s : digits_only s -> plain s.
Proof. intros H. rewrite Forall_forall in H. repeat split; intros Hc; apply H in Hc; lia. Qed.

Lemma ascii_no_zero s : ascii s -> 0 ∉ s.
Proof. intros H Hc. rewrite Forall_forall in H. apply H in Hc. lia. Qed.

(** ** Reading the templates *)

Section Templates.
Context (sscanf_lf : str -> option spec_float).

Definition quoted (s : str) : str := 34 :: s ++ [34].

Lemma readString_plain s c r : plain s -> readString_loop c (s ++ 34 :: r) = (true, r).
Proof.
  intros (_ & H1 & H2). revert c. induction s as [|x s IH]; intros c; [done|].
  apply not_elem_of_cons in H1 as [H1 H1'], H2 as [H2 H2']. cbn [app readString_loop].
  destruct (Z.eqb_spec x 92); [congruence|]. destruct (Z.eqb_spec x 34); [congruence|]. by apply IH.
Qed.

Lemma decode_plain s : plain s -> decode_chars s = Some s.
Proof.
  intros (_ & H1 & H2). induction s as [|x s IH]; [done|].
  apply not_elem_of_cons in H1 as [H1 H1'], H2 as [H2 H2']. cbn [decode_chars].
  destruct (Z.eqb_spec x 34); [congruence|]. destruct (Z.eqb_spec x 92); [congruence|]. by rewrite IH.
Qed.

Lemma names_plain s : plain s -> names (quoted s) s.
Proof.
  intros Hs r. exists (mkToken tokenString (quoted s)). split; [|split].
  - unfold quoted. cbn [app]. rewrite <- app_assoc.
    apply (readToken_scan 34 _ tokenString (s ++ [34]) r); [done| |by rewrite <- app_assoc].
    unfold scan_token, readString. cbn [app]. simpl. by rewrite readString_plain.
  - done.
  - unfold decodeString, quoted. cbn [text_]. change (drop 1 (34 :: s ++ [34])) with (s ++ [34]).
    replace (List.length (34%Z :: s ++ [34%Z]) - 2)%nat with (List.length s) by (simpl; rewrite length_app; simpl; lia).
    rewrite take_app_length. by apply decode_plain.
Qed.

Lemma reads_plain s : plain s -> reads sscanf_lf (quoted s) (stringValue s).
Proof.
  intros Hs v0 r Hr. exists 1%nat. cbn [JsonReader.readValue].
  destruct (names_plain s Hs r) as (t & Et & Ht & Hd).
  rewrite (skipCommentTokens_token _ t r Et) by (by rewrite Ht). cbn [mbind outcome_bind]. by rewrite Ht, Hd.
Qed.

Lemma reads_open_array : reads sscanf_lf (lit " [ ]") (arrayValue []).
Proof.
  intros v0 r _. exists 1%nat. cbn [JsonReader.readValue].
  change (lit " [ ]" ++ r) with ([32] ++ 91 :: 32 :: 93 :: r). rewrite (skip_to_char 91 tokenArrayBegin) by (done || by constructor).
  cbn [mbind outcome_bind type_]. simpl skipSpaces. change (peek (93 :: r) =? 93) with true. cbn match.
  by rewrite (readToken_scan 93 r tokenArrayEnd [] r).
Qed.

Lemma parse_reads text v root : reads sscanf_lf text v -> parse sscanf_lf text root = Ok (true, v).
Proof.
  intros H. destruct (H root []) as (fuel & Hf); [done|]. rewrite app_nil_r in Hf. unfold parse.
  by rewrite (readValue_any _ _ _ _ _ Hf).
Qed.

(** A member of a template. *)
Definition slot (b : str) (key : string) (value : str) : str := b ++ quoted (lit key) ++ 58 :: 32 :: quoted value.

Lemma slot_reads b key value : blank b -> plain (lit key) -> plain value ->
  member_reads sscanf_lf (slot b key value) (lit key, stringValue value).
Proof.
  intros Hb Hk Hv. unfold slot. apply (member_reads_intro _ b (quoted (lit key)) [] (32 :: quoted value)); try done.
  - by apply names_plain.
  - apply (reads_blank _ [32]); [by constructor|]. by apply reads_plain.
Qed.

Lemma gap_blank : blank gap.
Proof. repeat constructor. Qed.

Lemma folder_reads add_ mod_ n title : plain add_ -> plain mod_ -> digits_only n -> plain title ->
  reads sscanf_lf
    ([32] ++ 123 :: sep_join [44] [[32] ++ quoted (lit "children") ++ 58 :: lit " [ ]"; slot gap "date_added" add_;
       slot gap "date_modified" mod_; slot gap "id" n; slot gap "name" title; slot gap "type" (lit "folder")] ++ [32] ++ [125])
    (objectValue [(lit "children", arrayValue []); (lit "date_added", stringValue add_);
       (lit "date_modified", stringValue mod_); (lit "id", stringValue n); (lit "name", stringValue title);
       (lit "type", stringValue (lit "folder"))]).
Proof.
  intros Ha Hm Hn Ht. apply reads_object.
  - constructor.
    + apply (member_reads_intro _ [32] (quoted (lit "children")) []); try done; [by constructor| |apply reads_open_array].
      apply names_plain. repeat split; vm_compute; set_solver.
    + repeat (constructor; [apply slot_reads; [apply gap_blank| |]|]); try done; try (by apply digits_plain);
        repeat split; vm_compute; set_solver.
  - done.
  - repeat constructor.
  - repeat constructor; vm_compute; set_solver.
  - by constructor.
  - by constructor.
Qed.

Lemma url_reads add_ n title url : plain add_ -> digits_only n -> plain title -> plain url ->
  reads sscanf_lf
    ([32] ++ 123 :: sep_join [44] [slot gap "date_added" add_; slot gap "id" n; slot gap "name" title;
       slot gap "type" (lit "url"); slot gap "url" url] ++ [] ++ [125])
    (objectValue [(lit "date_added", stringValue add_); (lit "id", stringValue n); (lit "name", stringValue title);
       (lit "type", stringValue (lit "url")); (lit "url", stringValue url)]).
Proof.
  intros Ha Hn Ht Hu. apply reads_object.
  - repeat (constructor; [apply slot_reads; [apply gap_blank| |]|]); try done; try (by apply digits_plain);
      repeat split; vm_compute; set_solver.
  - done.
  - repeat constructor.
  - repeat constructor; vm_compute; set_solver.
  - by constructor.
  - by constructor.
Qed.

End Templates.

(** ** Making nodes *)

Lemma uintToString_digits n : digits_only (uintToString n).
Proof. apply uint_digits_range. constructor. Qed.

Lemma uintToString_length n : (List.length (uintToString n) <= 31)%nat.
Proof.
  unfold uintToString. change 31%nat with (31 + List.length (@nil Z))%nat at 2. generalize (@nil Z). generalize 31%nat. intros fuel.
  revert n. induction fuel as [|fuel IH]; intros n acc; [simpl; lia|]. cbn [uint_digits].
  destruct (n / 10 =? 0); [simpl; lia|]. specialize (IH (n / 10) (n mod 10 + 48 :: acc)). simpl in IH |- *. lia.
Qed.

Lemma Int64ToString_digits n : 0 <= n < 2 ^ 63 -> digits_only (Int64ToString n).
Proof.
  intros Hn. unfold Int64ToString. destruct (int64_digits_spec 20 n []) as (ds & -> & Hd & _); [simpl; lia|].
  by apply Forall_rev.
Qed.

Lemma Int64ToString_length n : (List.length (Int64ToString n) <= 40)%nat.
Proof.
  unfold Int64ToString. rewrite length_rev. change 40%nat with (2 * 20 + List.length (@nil Z))%nat.
  generalize (@nil Z). generalize 20%nat. intros fuel. revert n.
  induction fuel as [|fuel IH]; intros n acc; [simpl; lia|]. cbn [int64_digits]. destruct (n =? 0); [lia|].
  specialize (IH (Z.quot n 10) (acc ++ digit_text (Z.rem n 10))). rewrite length_app in IH.
  enough (List.length (digit_text (Z.rem n 10)) <= 2)%nat by lia. unfold digit_text. case_match; simpl; lia.
Qed.

(** A record that can be imported: texts without quotes and backslashes that
    leave room in the buffer of the template, times that are not negative. *)
Record clean (d : FavoriteLineData) : Prop := {
  clean_title : plain (szTitle d);
  clean_url : plain (szUrl d);
  clean_add : 0 <= nAddTimes d < 2 ^ 63;
  clean_modify : 0 <= nLastModifyTime d < 2 ^ 63;
  clean_room : Z.of_nat (List.length (szTitle d)) + Z.of_nat (List.length (szUrl d)) <= 1800;
  clean_kept : bDelete d = false
}.

(** The lengths of the constant pieces of a text. *)
Ltac const_lengths :=
  rewrite !length_app;
  repeat match goal with
  | |- context [List.length (template ?s)] =>
      let n := eval vm_compute in (List.length (template s)) in change (List.length (template s)) with n
  | |- context [List.length gap] => change (List.length gap) with 7%nat
  end.

Section Make.
Context (Utf8ToUnicode : str -> wstring) (UnicodeToUtf8 : wstring -> str) {codec : Utf8Codec Utf8ToUnicode UnicodeToUtf8}.
Context (sscanf_lf : str -> option spec_float).

Lemma utf8_after a s : ascii a -> a <> [] -> 0 ∉ s -> UnicodeToUtf8 (a ++ s) = a ++ UnicodeToUtf8 s.
Proof.
  intros Ha Hna Hs. pose proof (utf8_split [] a s (not_elem_of_nil 0) Hs Hna Ha) as H.
  by rewrite (utf8_ascii (UnicodeToUtf8 := UnicodeToUtf8) []) in H by constructor.
Qed.

Lemma utf8_before s b : ascii b -> b <> [] -> 0 ∉ s -> UnicodeToUtf8 (s ++ b) = UnicodeToUtf8 s ++ b.
Proof.
  intros Hb Hnb Hs. pose proof (utf8_split s b [] Hs (not_elem_of_nil 0) Hnb Hb) as H.
  by rewrite (utf8_ascii (UnicodeToUtf8 := UnicodeToUtf8) []), !app_nil_r in H by constructor.
Qed.

Lemma utf8_around a s b : ascii a -> ascii b -> a <> [] -> b <> [] -> 0 ∉ s ->
  UnicodeToUtf8 (a ++ s ++ b) = a ++ UnicodeToUtf8 s ++ b.
Proof.
  intros Ha Hb Hna Hnb Hs. rewrite utf8_after, utf8_before; try done.
  apply not_elem_of_app. split; [done|by apply ascii_no_zero].
Qed.

Lemma utf8_plain s : plain s -> plain (UnicodeToUtf8 s).
Proof. intros (H0 & H1 & H2). repeat split; intros H; apply utf8_low in H; done. Qed.

Lemma template_ascii s : forallb (fun c => (0 <? c) && (c <? 128)) (template s) = true -> ascii (template s).
Proof. rewrite forallb_forall. intros H. apply Forall_forall. intros c Hc. apply list_elem_of_In, H in Hc. lia. Qed.

Lemma gap_ascii : ascii gap.
Proof. repeat constructor. Qed.

(** Both sides of an equation between texts, character by character. *)
Ltac piecewise :=
  unfold slot, quoted;
  repeat match goal with
  | |- context [template ?s] => let v := eval vm_compute in (template s) in change (template s) with v
  | |- context [lit ?s] => let v := eval vm_compute in (lit s) in change (lit s) with v
  | |- context [gap] => let v := eval vm_compute in gap in change gap with v
  end;
  rewrite ?sep_join_cons; cbn [map mjoin list_join app]; repeat (rewrite <- app_assoc || cbn [app]); reflexivity.

Ltac ascii_pieces :=
  rewrite ?Forall_app; repeat split; first [assumption | apply gap_ascii | apply template_ascii; reflexivity].

Lemma folder_text_utf8 add_ mod_ n title : digits_only add_ -> digits_only mod_ -> plain title ->
  UnicodeToUtf8 (folder_text Utf8ToUnicode add_ mod_ n title) =
  [32] ++ 123 :: sep_join [44] [[32] ++ quoted (lit "children") ++ 58 :: lit " [ ]"; slot gap "date_added" add_;
    slot gap "date_modified" mod_; slot gap "id" (uintToString n); slot gap "name" (UnicodeToUtf8 title);
    slot gap "type" (lit "folder")] ++ [32] ++ [125].
Proof.
  intros Ha Hm [H0 _]. unfold folder_text. rewrite !(unicode_ascii (Utf8ToUnicode := Utf8ToUnicode)) by (by apply digits_ascii).
  pose proof (digits_ascii _ Ha). pose proof (digits_ascii _ Hm). pose proof (digits_ascii _ (uintToString_digits n)).
  set (pre := template " { 'children': [ ]," ++ gap ++ template "'date_added': '" ++ add_ ++ template "'," ++ gap ++
    template "'date_modified': '" ++ mod_ ++ template "'," ++ gap ++ template "'id': '" ++ uintToString n ++
    template "'," ++ gap ++ template "'name': '").
  set (post := template "'," ++ gap ++ template "'type': 'folder' }").
  assert (Hpre : ascii pre) by (unfold pre; ascii_pieces).
  assert (Hpost : ascii post) by (unfold post; ascii_pieces).
  transitivity (UnicodeToUtf8 (pre ++ title ++ post)); [f_equal; unfold pre, post; by rewrite <- !app_assoc|].
  rewrite utf8_around by done. unfold pre, post. piecewise.
Qed.

Lemma url_text_utf8 add_ n title url : digits_only add_ -> plain title -> plain url ->
  UnicodeToUtf8 (url_text Utf8ToUnicode add_ n title url) =
  [32] ++ 123 :: sep_join [44] [slot gap "date_added" add_; slot gap "id" (uintToString n);
    slot gap "name" (UnicodeToUtf8 title); slot gap "type" (lit "url"); slot gap "url" (UnicodeToUtf8 url)] ++ [] ++ [125].
Proof.
  intros Ha [H0 _] [H0' _]. unfold url_text. rewrite !(unicode_ascii (Utf8ToUnicode := Utf8ToUnicode)) by (by apply digits_ascii).
  pose proof (digits_ascii _ Ha). pose proof (digits_ascii _ (uintToString_digits n)).
  set (pre := template " {" ++ gap ++ template "'date_added': '" ++ add_ ++ template "'," ++ gap ++
    template "'id': '" ++ uintToString n ++ template "'," ++ gap ++ template "'name': '").
  set (mid := template "'," ++ gap ++ template "'type': 'url'," ++ gap ++ template "'url': '").
  assert (Hpre : ascii pre) by (unfold pre; ascii_pieces).
  assert (Hmid : ascii mid) by (unfold mid; ascii_pieces).
  assert (Hpost : ascii (template "'}")) by ascii_pieces.
  transitivity (UnicodeToUtf8 ((pre ++ title) ++ mid ++ url ++ template "'}"));
    [f_equal; unfold pre, mid; by rewrite <- !app_assoc|].
  rewrite utf8_split; [|by apply not_elem_of_app; split; [apply ascii_no_zero|]
    |by apply not_elem_of_app; split; [|apply ascii_no_zero]|done..].
  rewrite (utf8_after pre), (utf8_before url) by done. unfold pre, mid. piecewise.
Qed.

Lemma folder_text_fits add_ mod_ n title : (List.length add_ <= 40)%nat -> (List.length mod_ <= 40)%nat ->
  digits_only add_ -> digits_only mod_ -> Z.of_nat (List.length title) <= 1800 ->
  swprintf_s (folder_text Utf8ToUnicode add_ mod_ n title) = Ok (folder_text Utf8ToUnicode add_ mod_ n title).
Proof.
  intros H1 H2 Ha Hm Ht. unfold swprintf_s. rewrite (proj2 (Z.ltb_lt _ _)); [done|]. unfold folder_text.
  rewrite !(unicode_ascii (Utf8ToUnicode := Utf8ToUnicode)) by (by apply digits_ascii).
  pose proof (uintToString_length n). const_lengths. lia.
Qed.

Lemma url_text_fits add_ n title url : (List.length add_ <= 40)%nat -> digits_only add_ ->
  Z.of_nat (List.length title) + Z.of_nat (List.length url) <= 1800 ->
  swprintf_s (url_text Utf8ToUnicode add_ n title url) = Ok (url_text Utf8ToUnicode add_ n title url).
Proof.
  intros H1 Ha Ht. unfold swprintf_s. rewrite (proj2 (Z.ltb_lt _ _)); [done|]. unfold url_text.
  rewrite !(unicode_ascii (Utf8ToUnicode := Utf8ToUnicode)) by (by apply digits_ascii).
  pose proof (uintToString_length n). const_lengths. lia.
Qed.

Lemma parse_template_reads text v : swprintf_s text = Ok text -> reads sscanf_lf (UnicodeToUtf8 text) v ->
  parse_template UnicodeToUtf8 sscanf_lf text nullValue = Ok v.
Proof.
  intros Hs Hr. unfold parse_template. rewrite Hs. cbn [mbind outcome_bind clear]. by rewrite (parse_reads _ _ v).
Qed.

(** Making the node of a clean record gives the members of the record. *)
Lemma make_clean d n : clean d -> 0 <= n < 2 ^ 32 - 1 ->
  (if bFolder d then MakeFolderNode Utf8ToUnicode UnicodeToUtf8 sscanf_lf d nullValue n
   else MakeUrlNode Utf8ToUnicode UnicodeToUtf8 sscanf_lf d nullValue n) =
  Ok (leaf_value UnicodeToUtf8 d (n + 1), n + 1).
Proof.
  intros [Ht Hu Ha Hm Hr _] Hn. pose proof (Int64ToString_digits _ Ha). pose proof (Int64ToString_digits _ Hm).
  pose proof (Int64ToString_length (nAddTimes d)). pose proof (Int64ToString_length (nLastModifyTime d)).
  unfold MakeFolderNode, MakeUrlNode, leaf_value. cbv zeta. rewrite u32_small by lia. destruct (bFolder d).
  - rewrite (parse_template_reads _ (folder_value UnicodeToUtf8 (arrayValue []) d (n + 1))); [reflexivity|apply folder_text_fits; (assumption || lia)|].
    rewrite folder_text_utf8 by assumption.
    apply folder_reads; [apply digits_plain; assumption..|apply uintToString_digits|apply utf8_plain; assumption].
  - rewrite (parse_template_reads _ (url_value UnicodeToUtf8 d (n + 1))); [reflexivity|apply url_text_fits; assumption|].
    rewrite url_text_utf8 by assumption.
    apply url_reads; [apply digits_plain; assumption|apply uintToString_digits|apply utf8_plain; assumption..].
Qed.

(** The folders of Chrome, and what they add to the checksum. *)
Definition special_record (now : Z) (name : string) : FavoriteLineData :=
  mkFavorite 0 (lit name) 0 true [] now now 0 0 0 false.

Lemma make_special now name s : 0 <= now < 2 ^ 63 -> plain (lit name) -> Z.of_nat (List.length (lit name)) <= 1800 ->
  0 <= m_nIndex s < 2 ^ 32 - 1 ->
  MakeSpecialFolderNode Utf8ToUnicode UnicodeToUtf8 sscanf_lf now (lit name) nullValue s =
  Ok (folder_value UnicodeToUtf8 (arrayValue []) (special_record now name) (m_nIndex s + 1),
      with_context (UpdateChecksumWithFolderNode (uintToString (m_nIndex s + 1)) (lit name) (m_szMd5Context s))
        (with_index (m_nIndex s + 1) s)).
Proof.
  intros Hnow Hname Hlen Hn. pose proof (Int64ToString_digits _ Hnow). pose proof (Int64ToString_length now).
  unfold MakeSpecialFolderNode. cbv zeta. rewrite u32_small by lia.
  rewrite (parse_template_reads _ (folder_value UnicodeToUtf8 (arrayValue []) (special_record now name) (m_nIndex s + 1)));
    [reflexivity|apply folder_text_fits; assumption|].
  rewrite folder_text_utf8 by assumption.
  apply folder_reads; [apply digits_plain; assumption..|apply uintToString_digits|apply utf8_plain; assumption].
Qed.

End Make.

(** ** The checksum *)

Section Importing.
Context (Utf8ToUnicode ANSIToUnicode : str -> wstring) (UnicodeToUtf8 : wstring -> str).
Context {codec : Utf8Codec Utf8ToUnicode UnicodeToUtf8}.
Context (sscanf_lf : str -> option spec_float) (sprintf_g : spec_float -> str).

(** What a node adds to the text of the checksum. *)
Definition folder_bytes (n : Z) (title : wstring) : list Z := uintToString n ++ wide_bytes title ++ lit "folder".

Definition url_bytes (n : Z) (title : wstring) (url : str) : list Z :=
  if IsStringUTF8 url then uintToString n ++ wide_bytes title ++ lit "url" ++ url else [].

Definition record_bytes (num : Z -> Z) (d : FavoriteLineData) : list Z :=
  if bFolder d then folder_bytes (num (nId d)) (szTitle d)
  else url_bytes (num (nId d)) (szTitle d) (UnicodeToUtf8 (szUrl d)).

Lemma digits_bytes s : digits_only s -> bytes s.
Proof. intros H. eapply Forall_impl; [exact H|]. simpl. lia. Qed.

Lemma wide_bytes_length s : List.length (wide_bytes s) = (2 * List.length s)%nat.
Proof. induction s as [|c s IH]; [done|]. unfold wide_bytes in *. cbn [flat_map]. rewrite length_app, IH. simpl. lia. Qed.

Lemma folder_fed m c n title : Z.of_nat (List.length title) <= 1800 -> ctx_fed m c ->
  ctx_fed (m ++ folder_bytes n title) (UpdateChecksumWithFolderNode (uintToString n) title c).
Proof.
  intros Hl Hc. unfold UpdateChecksumWithFolderNode, UpdateChecksum, UpdateChecksum_w, folder_bytes. rewrite !app_assoc.
  pose proof (uintToString_length n).
  apply MD5Update_fed; [reflexivity|repeat constructor; done|].
  apply MD5Update_fed; [rewrite wide_bytes_length; lia|apply wide_bytes_range|].
  apply MD5Update_fed; [lia|apply digits_bytes, uintToString_digits|exact Hc].
Qed.

Lemma url_fed m c n title url : Z.of_nat (List.length title) <= 1800 -> Z.of_nat (List.length url) <= 6000 -> bytes url ->
  ctx_fed m c -> ctx_fed (m ++ url_bytes n title url) (UpdateChecksumWithUrlNode (uintToString n) title url c).
Proof.
  intros Hl Hu Hb Hc. unfold UpdateChecksumWithUrlNode, UpdateChecksum, UpdateChecksum_w, url_bytes.
  destruct (IsStringUTF8 url); [|by rewrite app_nil_r]. rewrite !app_assoc. pose proof (uintToString_length n).
  apply MD5Update_fed; [lia|done|].
  apply MD5Update_fed; [reflexivity|repeat constructor; done|].
  apply MD5Update_fed; [rewrite wide_bytes_length; lia|apply wide_bytes_range|].
  apply MD5Update_fed; [lia|apply digits_bytes, uintToString_digits|exact Hc].
Qed.

(** The loop that feeds the records: it changes the context and the map of
    depths only. *)
Definition fed_state (s s' : CChromePlugIn) : Prop :=
  m_nIndex s' = m_nIndex s /\ m_mapIdIndexInfo s' = m_mapIdIndexInfo s.

Lemma checksum_loop ppData (B : list (Z * node)) num nd i c s m :
  holds ppData i B -> Forall (fun e => clean (root e.2)) B ->
  Forall (fun e => m_mapIdIndexInfo s !! id_of e = Some (num (id_of e)) /\ 0 <= num (id_of e) < 2 ^ 32) B ->
  ctx_fed m (m_szMd5Context s) ->
  exists s', for_each (checksum_step UnicodeToUtf8 ppData nd) (c, s) (seqZ i (Z.of_nat (List.length B))) =
      Ok (c + Z.of_nat (List.length B), s') /\
    fed_state s s' /\ ctx_fed (m ++ flat_map (record_bytes num) (map (fun e => root e.2) B)) (m_szMd5Context s').
Proof.
  revert i c s m. induction B as [|e B IH]; intros i c s m Hh Hcl Hnum Hc.
  { exists s. simpl. rewrite Z.add_0_r, app_nil_r. split; [done|]. split; [by split|exact Hc]. }
  apply holds_cons in Hh as [Hat Hh]. apply Forall_cons in Hcl as [He Hcl]. apply Forall_cons in Hnum as [[Hn Hr] Hnum].
  rewrite for_each_indices. cbn [checksum_step]. rewrite Hat. cbn [mbind outcome_bind].
  rewrite (clean_kept _ He). unfold id_of in Hn, Hr. rewrite Hn. cbv zeta. rewrite u32_small by done.
  pose proof (clean_room _ He) as Hroom. pose proof (utf8_length (szUrl (root e.2))) as Hul.
  assert (Hstep : exists s1, (if bFolder (root e.2) then
      with_context (UpdateChecksumWithFolderNode (uintToString (num (nId (root e.2)))) (szTitle (root e.2)) (m_szMd5Context s))
        (with_depth (m_nMaxDepth s) (m_mapDepthInfo s) (map_add (nId (root e.2)) nd (m_mapPidInfo s)) s)
    else with_context (UpdateChecksumWithUrlNode (uintToString (num (nId (root e.2)))) (szTitle (root e.2))
           (UnicodeToUtf8 (szUrl (root e.2))) (m_szMd5Context s)) s) = s1 /\ fed_state s s1 /\
    ctx_fed (m ++ record_bytes num (root e.2)) (m_szMd5Context s1)).
  { eexists. split; [reflexivity|]. unfold record_bytes. destruct (bFolder (root e.2)).
    - split; [split; reflexivity|]. apply folder_fed; [lia|done].
    - split; [split; reflexivity|]. apply url_fed; [lia|lia| |done].
      eapply Forall_impl; [apply utf8_bytes|]. simpl. lia. }
  destruct Hstep as (s1 & -> & [Hi1 Hm1] & Hc1).
  destruct (IH (i + 1) (c + 1) s1 (m ++ record_bytes num (root e.2))) as (s' & Hrun & [Hi2 Hm2] & Hc2); try done.
  { rewrite Hm1. done. }
  exists s'. cbn [mbind outcome_bind]. rewrite Hrun. split; [f_equal; f_equal; cbn [List.length]; lia|].
  split; [split; congruence|]. cbn [map flat_map]. by rewrite app_assoc.
Qed.

(** ** The whole import *)

(** The text under the checksum: the bookmark bar, the records in preorder and
    the two empty folders of Chrome; [base] numbers were used before. *)
Definition checksum_text (num : Z -> Z) (base : Z) (F : list node) : list Z :=
  let n := Z.of_nat (List.length (preorders F)) in
  folder_bytes (base + 1) (lit "Bookmarks bar") ++ flat_map (record_bytes num) (preorders F) ++
  folder_bytes (base + n + 2) (lit "Other bookmarks") ++ folder_bytes (base + n + 3) (lit "Synced bookmarks").

(** The contents of the new bookmark file. *)
Definition file_value (now : Z -> Z) (num : Z -> Z) (base : Z) (F : list node) : Value :=
  let n := Z.of_nat (List.length (preorders F)) in
  objectValue
    [(lit "checksum", stringValue (md5_ref (checksum_text num base F)));
     (lit "roots", objectValue
        [(lit "bookmark_bar", folder_value UnicodeToUtf8 (arrayValue (map (tree_value UnicodeToUtf8 num) F))
                                (special_record (now base) "Bookmarks bar") (base + 1));
         (lit "other", folder_value UnicodeToUtf8 (arrayValue [])
                         (special_record (now (base + n + 1)) "Other bookmarks") (base + n + 2));
         (lit "synced", folder_value UnicodeToUtf8 (arrayValue [])
                          (special_record (now (base + n + 2)) "Synced bookmarks") (base + n + 3))]);
     (lit "version", intValue 1)].

Section Steps.
Context (ds : list FavoriteLineData) (F : list node).
Context (Hforest : forest ds F) (Hclean : Forall clean ds) (Hne : ds <> []).

#[local] Abbreviation A := (all_nodes 0 F).
#[local] Abbreviation ppData := (map Some (preorders F)).

Lemma nodes_records : map (fun e => root e.2) A = preorders F.
Proof. apply nodes_preorder. Qed.

Lemma nodes_length : List.length A = List.length ds.
Proof.
  rewrite <- (length_map (fun e => root e.2)), nodes_records. apply Permutation_length. apply Hforest.
Qed.

Lemma nodes_ids : map id_of A ≡ₚ map nId ds.
Proof.
  destruct Hforest as (_ & Hp & _). rewrite <- Hp, <- nodes_records, map_map. done.
Qed.

Lemma nodes_nodup : NoDup (map id_of A).
Proof. rewrite nodes_ids. apply Hforest. Qed.

Lemma nodes_zero : 0 ∉ map id_of A.
Proof. rewrite nodes_ids. apply Hforest. Qed.

Lemma nodes_placed : Forall (placed 0) F.
Proof. eapply hangs_placed. apply Hforest. Qed.

Lemma nodes_holds : holds ppData 0 A.
Proof.
  intros j e He. rewrite Z.add_0_l. apply vec_at_nat. rewrite list_lookup_fmap, <- nodes_records, list_lookup_fmap, He. done.
Qed.

Lemma nodes_clean : Forall (fun e => clean (root e.2)) A.
Proof.
  apply (Forall_map (fun e => root e.2) clean). rewrite nodes_records.
  destruct Hforest as (_ & Hp & _). by rewrite Hp.
Qed.

Lemma nodes_kept : Forall (fun e => bDelete (root e.2) = false) A.
Proof. eapply Forall_impl; [apply nodes_clean|]. intros e He. apply (clean_kept _ He). Qed.

Lemma forest_nonempty : F <> [].
Proof.
  intros ->. destruct Hforest as (_ & Hp & _). apply Permutation_nil_l in Hp. done.
Qed.

(** The two loops in the middle: the depths, and the tree from the bottom. *)
Lemma build_tree s : 0 <= m_nIndex s -> m_nIndex s + Z.of_nat (List.length ds) < 2 ^ 32 ->
  m_mapDepthInfo s = [] -> m_mapPidInfo s = ∅ -> m_mapPidNodeInfo s = ∅ -> m_mapIdIndexInfo s = ∅ ->
  exists num nd s1 s2,
    for_each (depth_step ppData) (0, s) (seqZ 0 (Z.of_nat (List.length ds))) = Ok (nd, s1) /\
    TraverseNode Utf8ToUnicode UnicodeToUtf8 sscanf_lf ppData (m_nMaxDepth s1) s1 = Ok s2 /\
    map (fun d => num (nId d)) ds ≡ₚ seqZ (m_nIndex s + 1) (Z.of_nat (List.length ds)) /\
    m_mapPidNodeInfo s2 = {[0 := arrayValue (map (tree_value UnicodeToUtf8 num) F)]} /\
    m_nIndex s2 = m_nIndex s + Z.of_nat (List.length ds) /\ m_szMd5Context s2 = m_szMd5Context s /\
    Forall (fun e => m_mapIdIndexInfo s2 !! id_of e = Some (num (id_of e)) /\ 0 <= num (id_of e) < 2 ^ 32) A.
Proof.
  intros H0 Hlt Hdi Hpi Hni Hii.
  destruct (depth_loop ppData F 0 0 0 0 s ∅ (m_nMaxDepth s) []) as (nd & m' & M' & Hrun & Hm & Hmax & _).
  { apply nodes_placed. } { apply nodes_nodup. } { apply nodes_zero. } { apply nodes_kept. } { apply nodes_holds. } { done. } { done. }
  assert (Hs : with_depth (m_nMaxDepth s) [] ∅ s = s) by (destruct s; simpl in *; by subst).
  rewrite Hs, nodes_length in Hrun. cbn [app] in Hrun. set (s1 := with_depth m' (indexed 0 A) M' s) in *.
  assert (Hm0 : 0 <= m').
  { pose proof forest_nonempty as HF. destruct F as [|[d l] F']; [done|]. rewrite all_nodes_cons in Hmax.
    by apply Forall_cons in Hmax as [? _]. }
  set (n := Z.to_nat (m' + 1)).
  assert (Hdepth : Forall (fun e => e.1 < Z.of_nat n) A).
  { eapply Forall_impl; [exact Hmax|]. intros e He. simpl in He. unfold n. lia. }
  pose proof (levels_ids F n nodes_nodup Hdepth) as Hids.
  set (ids := map (fun t => nId (root t)) (levels F n)) in *.
  assert (Hlen : List.length (levels F n) = List.length ds).
  { pose proof (Permutation_length Hids) as Hl. unfold ids in Hl. rewrite !length_map in Hl. by rewrite Hl, nodes_length. }
  assert (Hnum : map (numbering (m_nIndex s) ids) ids = seqZ (m_nIndex s + 1) (Z.of_nat (List.length ds))).
  { rewrite numbering_spec; [unfold ids; by rewrite length_map, Hlen|]. rewrite Hids. apply nodes_nodup. }
  set (num := numbering (m_nIndex s) ids) in *.
  destruct (traverse_spec Utf8ToUnicode UnicodeToUtf8 sscanf_lf ppData F num nodes_placed nodes_nodup nodes_zero nodes_holds)
    with (n := n) (s := s1) as (nodes & ii & Htrav & Hnodes & Hcons & Hdom).
  { intros e i He Hi. apply (make_clean Utf8ToUnicode UnicodeToUtf8 sscanf_lf); [|exact Hi]. pose proof nodes_clean as Hc. rewrite Forall_forall in Hc. by apply Hc. }
  { done. }
  { intros q. cbn [s1 with_depth m_mapPidNodeInfo]. rewrite Hni, lookup_empty. unfold level_map.
    assert (Hl : level F (Z.of_nat n) = []); [|by rewrite Hl].
    destruct (level F (Z.of_nat n)) as [|t l] eqn:E; [done|]. exfalso.
    assert (Ht : t ∈ level F (Z.of_nat n)) by (rewrite E; by left). apply elem_of_range in Ht.
    rewrite Forall_forall in Hdepth. apply Hdepth in Ht. simpl in Ht. lia. }
  { cbn [s1 with_depth m_mapIdIndexInfo]. rewrite Hii. intros q v Hq. by rewrite lookup_empty in Hq. }
  { cbn [s1 with_depth m_nIndex]. rewrite Hlen, <- Hnum. unfold ids. by rewrite map_map. }
  { done. }
  { cbn [s1 with_depth m_nIndex]. by rewrite Hlen. }
  exists num, nd, s1, (with_nodes (m_nIndex s1 + Z.of_nat (List.length (levels F n))) nodes ii s1).
  split; [exact Hrun|]. split; [unfold TraverseNode; exact Htrav|]. split.
  { rewrite <- Hnum. rewrite <- (map_map nId num ds), <- nodes_ids, <- Hids. done. }
  split.
  { cbn [with_nodes m_mapPidNodeInfo]. apply map_eq. intros q. rewrite Hnodes. unfold level_map, level.
    rewrite siblings_range. destruct (decide (q = 0)) as [->|Hq].
    - rewrite (own_roots 0 0 F nodes_placed nodes_zero), range_pairs, lookup_singleton_eq.
      pose proof forest_nonempty as HF. by destruct F.
    - rewrite lookup_singleton_ne by done.
      destruct (range_of 0 (filter (fun e => pid_of e = q) A)) as [|t l] eqn:E; [done|]. exfalso.
      assert (Ht : t ∈ range_of 0 (filter (fun e => pid_of e = q) A)) by (rewrite E; by left).
      apply elem_of_range, list_elem_of_filter in Ht as [Hpid Ht].
      destruct (parent_of 0 0 F 0 t nodes_placed Ht) as [[_ Hp]|(u & Hu & _)]; [unfold pid_of in Hpid; simpl in Hpid; congruence|].
      apply depth_ge in Hu. lia. }
  split; [cbn [with_nodes m_nIndex s1 with_depth]; by rewrite Hlen|]. split; [done|].
  cbn [with_nodes m_mapIdIndexInfo]. rewrite Forall_forall. intros e He.
  assert (Hin : id_of e ∈ ids) by (rewrite Hids; by apply (list_elem_of_fmap_2 id_of)).
  assert (Hsome : is_Some (ii !! id_of e)) by (apply Hdom; by right).
  destruct Hsome as [v Hv]. rewrite Hv. split; [f_equal; by apply Hcons|].
  assert (Hrange : num (id_of e) ∈ seqZ (m_nIndex s + 1) (Z.of_nat (List.length ds))).
  { rewrite <- Hnum. by apply (list_elem_of_fmap_2 num). }
  apply elem_of_seqZ in Hrange. lia.
Qed.

End Steps.

(** A plug-in object between two calls: the counter has room, the context of
    the checksum is an array of 64 bytes. *)
Record usable (n : Z) (s : CChromePlugIn) : Prop := {
  usable_index : 0 <= m_nIndex s;
  usable_room : m_nIndex s + n + 3 < 2 ^ 32;
  usable_length : List.length (ctx_in (m_szMd5Context s)) = 64%nat;
  usable_bytes : bytes (ctx_in (m_szMd5Context s))
}.

(** ** What the file holds *)

(** The bookmark of a tree, as the export sees it. *)
Fixpoint to_bookmark (t : node) : bookmark :=
  let 'Node d l := t in
  if bFolder d then BFolder (UnicodeToUtf8 (szTitle d)) (Int64ToString (nAddTimes d)) (map to_bookmark l)
  else BUrl (UnicodeToUtf8 (szTitle d)) (UnicodeToUtf8 (szUrl d)) (Int64ToString (nAddTimes d)).

Lemma digits_no_zero s : digits_only s -> 0 ∉ s.
Proof. intros H. by apply digits_plain in H as [? _]. Qed.

Lemma utf8_no_zero s : plain s -> 0 ∉ UnicodeToUtf8 s.
Proof. intros H. by apply (utf8_plain Utf8ToUnicode UnicodeToUtf8) in H as [? _]. Qed.

Lemma digits_no_eof s : digits_only s -> no_eof s.
Proof. intros H. eapply Forall_impl; [exact H|]. simpl. lia. Qed.

Lemma utf8_no_eof s : no_eof (UnicodeToUtf8 s).
Proof. eapply Forall_impl; [apply utf8_bytes|]. simpl. lia. Qed.

Lemma folder_value_ok c d n : clean d -> writable c -> streamable c ->
  writable (folder_value UnicodeToUtf8 c d n) /\ streamable (folder_value UnicodeToUtf8 c d n).
Proof.
  intros [Ht _ Ha Hm _ _] Hw Hs. pose proof (Int64ToString_digits _ Ha). pose proof (Int64ToString_digits _ Hm).
  pose proof (uintToString_digits n). split.
  - constructor; [repeat constructor|repeat constructor; vm_compute; set_solver|].
    repeat (constructor; [cbn [snd]; first [exact Hw | constructor]|]); [apply digits_no_zero; assumption..|by apply utf8_no_zero| |constructor].
    vm_compute. set_solver.
  - constructor; [repeat constructor; vm_compute; discriminate|].
    repeat (constructor; [cbn [snd]; first [exact Hs | constructor]|]); [apply digits_no_eof; assumption..|apply utf8_no_eof| |constructor].
    repeat constructor; discriminate.
Qed.

Lemma url_value_ok d n : clean d ->
  writable (url_value UnicodeToUtf8 d n) /\ streamable (url_value UnicodeToUtf8 d n).
Proof.
  intros [Ht Hu Ha _ _ _]. pose proof (Int64ToString_digits _ Ha). pose proof (uintToString_digits n). split.
  - constructor; [repeat constructor|repeat constructor; vm_compute; set_solver|].
    repeat (constructor; [cbn [snd]; constructor|]); [apply digits_no_zero; assumption..|by apply utf8_no_zero| |by apply utf8_no_zero|constructor].
    vm_compute. set_solver.
  - constructor; [repeat constructor; vm_compute; discriminate|].
    repeat (constructor; [cbn [snd]; constructor|]); [apply digits_no_eof; assumption..|apply utf8_no_eof| |apply utf8_no_eof|constructor].
    repeat constructor; discriminate.
Qed.

Lemma tree_value_ok num t : Forall clean (preorder t) ->
  writable (tree_value UnicodeToUtf8 num t) /\ streamable (tree_value UnicodeToUtf8 num t).
Proof.
  induction t as [d l IH] using node_ind. intros Hc. cbn [preorder] in Hc. apply Forall_cons in Hc as [Hd Hl].
  cbn [tree_value]. destruct (bFolder d); [|by apply url_value_ok].
  assert (Hkids : Forall (fun v => writable v /\ streamable v) (map (tree_value UnicodeToUtf8 num) l)).
  { apply Forall_fmap. induction IH as [|t l Ht _ IHl]; [constructor|]. cbn [flat_map] in Hl. apply Forall_app in Hl as [H1 H2].
    constructor; [by apply Ht|by apply IHl]. }
  apply Forall_and in Hkids as [Hw Hs]. by apply folder_value_ok; [|constructor..].
Qed.

Lemma text_of_folder c d n : clean d ->
  text_of (folder_value UnicodeToUtf8 c d n) "type" = Ok (lit "folder") /\
  text_of (folder_value UnicodeToUtf8 c d n) "name" = Ok (UnicodeToUtf8 (szTitle d)) /\
  text_of (folder_value UnicodeToUtf8 c d n) "date_added" = Ok (Int64ToString (nAddTimes d)) /\
  member (folder_value UnicodeToUtf8 c d n) (lit "children") = Ok c.
Proof.
  intros [Ht _ Ha _ _ _]. split; [reflexivity|]. split; [|split; [|reflexivity]].
  - transitivity (Ok (c_str (UnicodeToUtf8 (szTitle d)))); [reflexivity|]. by rewrite c_str_id by (by apply utf8_no_zero).
  - transitivity (Ok (c_str (Int64ToString (nAddTimes d)))); [reflexivity|].
    by rewrite c_str_id by (by apply digits_no_zero, Int64ToString_digits).
Qed.

Lemma text_of_url d n : clean d ->
  text_of (url_value UnicodeToUtf8 d n) "type" = Ok (lit "url") /\
  text_of (url_value UnicodeToUtf8 d n) "name" = Ok (UnicodeToUtf8 (szTitle d)) /\
  text_of (url_value UnicodeToUtf8 d n) "url" = Ok (UnicodeToUtf8 (szUrl d)) /\
  text_of (url_value UnicodeToUtf8 d n) "date_added" = Ok (Int64ToString (nAddTimes d)).
Proof.
  intros [Ht Hu Ha _ _ _]. split; [reflexivity|]. split; [|split].
  - transitivity (Ok (c_str (UnicodeToUtf8 (szTitle d)))); [reflexivity|]. by rewrite c_str_id by (by apply utf8_no_zero).
  - transitivity (Ok (c_str (UnicodeToUtf8 (szUrl d)))); [reflexivity|]. by rewrite c_str_id by (by apply utf8_no_zero).
  - transitivity (Ok (c_str (Int64ToString (nAddTimes d)))); [reflexivity|].
    by rewrite c_str_id by (by apply digits_no_zero, Int64ToString_digits).
Qed.

Lemma folder_represents d n l kids : clean d -> Forall2 represents l kids ->
  represents (folder_value UnicodeToUtf8 (arrayValue l) d n)
    (BFolder (UnicodeToUtf8 (szTitle d)) (Int64ToString (nAddTimes d)) kids).
Proof.
  intros Hd Hl. destruct (text_of_folder (arrayValue l) d n Hd) as (H1 & H2 & H3 & H4).
  eapply rep_folder; [done..|by left|done].
Qed.

Lemma tree_represents num t : Forall clean (preorder t) -> represents (tree_value UnicodeToUtf8 num t) (to_bookmark t).
Proof.
  induction t as [d l IH] using node_ind. intros Hc. cbn [preorder] in Hc. apply Forall_cons in Hc as [Hd Hl].
  cbn [tree_value to_bookmark]. destruct (bFolder d).
  - apply folder_represents; [done|]. induction IH as [|t l Ht _ IHl]; [constructor|]. cbn [flat_map] in Hl.
    apply Forall_app in Hl as [H1 H2]. constructor; [by apply Ht|by apply IHl].
  - destruct (text_of_url d (num (nId d)) Hd) as (H1 & H2 & H3 & H4). by apply rep_url.
Qed.

(** ** The rows of an export *)

(** A record whose texts survive the conversion and that the export takes for
    what it is. *)
Record survives (d : FavoriteLineData) : Prop := {
  survives_title : Utf8ToUnicode (UnicodeToUtf8 (szTitle d)) = szTitle d;
  survives_url : Utf8ToUnicode (UnicodeToUtf8 (szUrl d)) = szUrl d;
  survives_name : bFolder d = true -> is_special (szTitle d) = false;
  survives_room : Z.of_nat (List.length (szTitle d)) < MAX_LENGTH - 1 /\ Z.of_nat (List.length (szUrl d)) < MAX_LENGTH - 1
}.

(** The entry of the record [d] below the exported folder [pid]. *)
Definition entry_of (d : FavoriteLineData) (pid : Z) : entry :=
  mkEntry (bFolder d) (szTitle d) (if bFolder d then [] else szUrl d) (Int64ToString (nAddTimes d)) pid.

(** Row [i] is the record [d]: at the top, below the outer folder [pid], or below
    the row [j] of its parent. *)
Definition row_of (F : list node) (p pid next : Z) (i : nat) (d : FavoriteLineData) (e : entry) : Prop :=
  exists q, e = entry_of d q /\
    ((nPid d = p /\ q = pid) \/
     exists (j : nat) d', (j < i)%nat /\ preorders F !! j = Some d' /\ nId d' = nPid d /\
       q = next + Z.of_nat j + ID_VALUE_CHROME_BEGIN).

Lemma listing_node d l pid next : survives d -> (bFolder d = false -> l = []) ->
  listing Utf8ToUnicode pid next (to_bookmark (Node d l)) =
  entry_of d pid :: listings Utf8ToUnicode (next + ID_VALUE_CHROME_BEGIN) (next + 1) (map to_bookmark l).
Proof.
  intros [Ht Hu Hs _] Hl. cbn [to_bookmark]. unfold entry_of. destruct (bFolder d).
  - rewrite listing_folder, Ht, Hs by done. done.
  - rewrite Hl by done. cbn [listing map listings]. by rewrite Ht, Hu.
Qed.

Lemma listing_rows F p pid next : Forall (placed p) F -> Forall survives (preorders F) ->
  List.length (listings Utf8ToUnicode pid next (map to_bookmark F)) = List.length (preorders F) /\
  forall i d, preorders F !! i = Some d -> exists e,
    listings Utf8ToUnicode pid next (map to_bookmark F) !! i = Some e /\ row_of F p pid next i d e.
Proof.
  revert p pid next. induction F as [|d l F IHl IHF] using forest_ind; intros p pid next Hp Hs.
  { split; [done|]. intros i d Hi. by destruct i. }
  apply Forall_cons in Hp as [Ht Hp]. inversion Ht as [? ? ? Hpid Hleaf Hkids]; subst.
  cbn [flat_map preorder] in Hs. apply Forall_cons in Hs as [Hd Hs]. apply Forall_app in Hs as [Hsl HsF].
  destruct (IHl (nId d) (next + ID_VALUE_CHROME_BEGIN) (next + 1) Hkids Hsl) as [Hlen1 Hrow1].
  cbn [map listings]. rewrite listing_node by done. cbv zeta. cbn [List.length]. rewrite Hlen1.
  destruct (IHF (nPid d) pid (next + Z.of_nat (S (List.length (preorders l)))) Hp HsF) as [Hlen2 Hrow2].
  split; [cbn [app flat_map preorder List.length]; by rewrite !length_app, Hlen1, Hlen2|].
  intros i d0 Hi. cbn [flat_map preorder app] in Hi |- *. destruct i as [|i]; cbn [lookup list_lookup] in Hi |- *.
  { injection Hi as <-. eexists. split; [done|]. exists pid. split; [done|]. by left. }
  apply lookup_app_Some in Hi as [Hi|[Hge Hi]].
  - destruct (Hrow1 i d0 Hi) as (e & He & q & -> & Hq). eexists. split; [apply lookup_app_l_Some, He|].
    exists q. split; [done|]. right. destruct Hq as [[Hq ->]|(j & d' & Hj & Hd' & Hid & ->)].
    + exists O, d. split; [lia|]. split; [done|]. split; [done|lia].
    + exists (S j), d'. split; [lia|]. split; [|split; [done|lia]]. cbn [flat_map preorder app lookup list_lookup].
      by apply lookup_app_l_Some.
  - destruct (Hrow2 _ d0 Hi) as (e & He & q & -> & Hq). eexists. split.
    { apply lookup_app_Some. right. rewrite Hlen1. split; [done|]. exact He. }
    exists q. split; [done|]. destruct Hq as [[Hq ->]|(j & d' & Hj & Hd' & Hid & ->)]; [by left|]. right.
    exists (S (List.length (preorders l) + j)), d'. split; [lia|]. split; [|split; [done|lia]].
    change (preorders (Node d l :: F) !! S ?k) with ((preorders l ++ preorders F) !! k). rewrite lookup_app_r by lia.
    by replace (_ + j - _)%nat with j by lia.
Qed.

Context {W : Type} {files : FileCalls W}.

Lemma make_root_value checksum now1 now2 now3 n1 n2 n3 children :
  make_root checksum (folder_value UnicodeToUtf8 children (special_record now1 "Bookmarks bar") n1)
    (folder_value UnicodeToUtf8 (arrayValue []) (special_record now2 "Other bookmarks") n2)
    (folder_value UnicodeToUtf8 (arrayValue []) (special_record now3 "Synced bookmarks") n3) =
  Ok (objectValue
    [(lit "checksum", stringValue checksum);
     (lit "roots", objectValue
        [(lit "bookmark_bar", folder_value UnicodeToUtf8 children (special_record now1 "Bookmarks bar") n1);
         (lit "other", folder_value UnicodeToUtf8 (arrayValue []) (special_record now2 "Other bookmarks") n2);
         (lit "synced", folder_value UnicodeToUtf8 (arrayValue []) (special_record now3 "Synced bookmarks") n3)]);
     (lit "version", intValue 1)]).
Proof. reflexivity. Qed.

Lemma special_names_plain :
  plain (lit "Bookmarks bar") /\ plain (lit "Other bookmarks") /\ plain (lit "Synced bookmarks").
Proof. repeat split; vm_compute; set_solver. Qed.

(** The run of the import, and the file it writes. *)
Lemma import_run pszPath now ds F s w w' :
  forest ds F -> Forall clean ds -> ds <> [] -> usable (Z.of_nat (List.length ds)) s ->
  (forall i, 0 <= now i < 2 ^ 63) ->
  remove_file pszPath (ANSIToUnicode (UnicodeToUtf8 pszPath)) w = Some w' ->
  exists num s' text,
    map (fun d => num (nId d)) ds ≡ₚ seqZ (m_nIndex s + 2) (Z.of_nat (List.length ds)) /\
    write sprintf_g (file_value now num (m_nIndex s) F) = Ok text /\
    ImportFavoriteData Utf8ToUnicode ANSIToUnicode UnicodeToUtf8 sscanf_lf sprintf_g pszPath now
      (Some (map Some ds)) (Z.of_nat (List.length ds)) s w =
    Ok (ERROR_OK, Z.of_nat (List.length ds), s', write_file (ANSIToUnicode (UnicodeToUtf8 pszPath)) text w').
Proof.
  intros Hf Hc Hne [Hi Hroom Hlen Hbytes] Hnow Hrem. destruct special_names_plain as (Hp1 & Hp2 & Hp3).
  set (n := Z.of_nat (List.length ds)) in *.
  assert (Hn : 0 < n) by (destruct ds; [done|]; unfold n; simpl; lia).
  assert (Hnp : Z.of_nat (List.length (preorders F)) = n).
  { destruct Hf as (_ & Hp & _). by rewrite (Permutation_length Hp). }
  unfold ImportFavoriteData. destruct (Z.eqb_spec n 0); [lia|]. destruct (Z.ltb_spec n 0); [lia|].
  rewrite length_map. fold n. rewrite Z.ltb_irrefl. cbv zeta. rewrite Hrem.
  replace (take (Z.to_nat n) (map Some ds)) with (map Some ds)
    by (unfold n; by rewrite Nat2Z.id, <- (length_map Some ds), firstn_all).
  pose proof (SortByDepth_forest ds F Hf) as Hsort. fold n in Hsort.
  set (s0 := with_context (InitializeChecksum (m_szMd5Context (cleared s))) (cleared s)).
  rewrite make_special by (try apply Hnow; try done; change (m_nIndex s0) with (m_nIndex s); lia).
  cbn [mbind outcome_bind]. change (m_nIndex s0) with (m_nIndex s).
  change (m_szMd5Context s0) with (MD5Init (m_szMd5Context s)).
  set (c1 := UpdateChecksumWithFolderNode (uintToString (m_nIndex s + 1)) (lit "Bookmarks bar") (MD5Init (m_szMd5Context s))).
  assert (Hc1 : ctx_fed (folder_bytes (m_nIndex s + 1) (lit "Bookmarks bar")) c1).
  { apply (folder_fed []); [done|]. by apply MD5Init_fed. }
  set (s1 := with_context c1 (with_index (m_nIndex s + 1) s0)).
  rewrite Hsort. cbn [mbind outcome_bind].
  destruct (build_tree ds F Hf Hc Hne s1) as (num & nd & s2 & s3 & Hdepth & Htrav & Hnum & Hnodes & Hidx & Hctx & Hii);
    [cbn; lia|cbn; fold n; lia|done..|].
  fold n in Hdepth. rewrite Hdepth. cbn [mbind outcome_bind]. rewrite Htrav. cbn [mbind outcome_bind].
  rewrite Hnodes, map_to_list_singleton.
  assert (Hset : forall c, set_member (folder_value UnicodeToUtf8 (arrayValue []) (special_record (now (m_nIndex s)) "Bookmarks bar")
      (m_nIndex s + 1)) (lit "children") c =
    Ok (folder_value UnicodeToUtf8 c (special_record (now (m_nIndex s)) "Bookmarks bar") (m_nIndex s + 1))) by reflexivity.
  rewrite Hset. cbn [mbind outcome_bind].
  destruct (checksum_loop (map Some (preorders F)) (all_nodes 0 F) num nd 0 0 s3 (folder_bytes (m_nIndex s + 1) (lit "Bookmarks bar")))
    as (s4 & Hfeed & [Hidx4 _] & Hctx4).
  { by apply nodes_holds. } { by apply (nodes_clean ds). } { done. } { by rewrite Hctx. }
  rewrite (nodes_length ds F Hf) in Hfeed. fold n in Hfeed. rewrite Hfeed. cbn [mbind outcome_bind].
  change (m_nIndex s1) with (m_nIndex s + 1) in Hnum, Hidx. fold n in Hidx. rewrite Hidx in Hidx4.
  rewrite make_special by (try apply Hnow; try done; rewrite Hidx4; lia). cbn [mbind outcome_bind].
  set (s5 := with_context _ (with_index _ s4)). change (m_nIndex s5) with (m_nIndex s4 + 1).
  rewrite make_special by (try apply Hnow; try done; cbn; rewrite Hidx4; lia). cbn [mbind outcome_bind].
  change (m_nIndex s5) with (m_nIndex s4 + 1). set (s6 := with_context _ (with_index _ s5)).
  assert (Hsum : FinalizeChecksum (m_szMd5Context s6) = md5_ref (checksum_text num (m_nIndex s) F)).
  { unfold FinalizeChecksum. apply MD5Final_base16. unfold checksum_text. cbv zeta. rewrite Hnp, !app_assoc.
    unfold s6. cbn [m_szMd5Context with_context]. rewrite Hidx4.
    replace (m_nIndex s + 1 + n + 1 + 1) with (m_nIndex s + n + 3) by lia. apply folder_fed; [done|].
    unfold s5. cbn [m_szMd5Context with_context]. rewrite Hidx4.
    replace (m_nIndex s + 1 + n + 1) with (m_nIndex s + n + 2) by lia. apply folder_fed; [done|].
    by rewrite nodes_records in Hctx4. }
  exists num, (with_checksum (md5_ref (checksum_text num (m_nIndex s) F)) s6).
  rewrite Hsum. cbn [m_strCheckSum with_checksum]. rewrite make_root_value. cbn [mbind outcome_bind].
  rewrite write_is_render. eexists. split; [by replace (m_nIndex s + 2) with (m_nIndex s + 1 + 1) by lia|].
  split; [reflexivity|]. rewrite write_is_render. cbn [mbind outcome_bind]. unfold file_value. cbv zeta. rewrite Hnp, Hidx4.
  replace (m_nIndex s + 1 + n + 1 + 1) with (m_nIndex s + n + 3) by lia.
  replace (m_nIndex s + 1 + n + 1) with (m_nIndex s + n + 2) by lia.
  replace (m_nIndex s + 1 + n) with (m_nIndex s + n + 1) by lia. rewrite Z.add_0_l. reflexivity.
Qed.

(** ** Reading the new file *)

Lemma md5_text_ok m : writable (stringValue (md5_ref m)) /\ streamable (stringValue (md5_ref m)).
Proof.
  assert (H : Forall (fun c => 0 < c < 255) (md5_ref m)).
  { unfold md5_ref. generalize (digest_bytes_range (absorb (List.length (pad m) / 64) md5_init (pad m))).
    generalize (digest_bytes (absorb (List.length (pad m) / 64) md5_init (pad m))). induction 1 as [|b l Hb _ IH]; [constructor|].
    cbn [flat_map]. apply Forall_app. split; [|done]. unfold hex_byte, hex_digit.
    constructor; [case_match; lia_div|]. constructor; [case_match; lia_div|constructor]. }
  split; constructor.
  - intros H0. rewrite Forall_forall in H. apply H in H0. lia.
  - eapply Forall_impl; [exact H|]. simpl. lia.
Qed.

Lemma special_clean now name : 0 <= now < 2 ^ 63 -> plain (lit name) -> Z.of_nat (List.length (lit name)) <= 1800 ->
  clean (special_record now name).
Proof.
  intros Hn Hp Hl. split; cbn [special_record szTitle szUrl nAddTimes nLastModifyTime bDelete List.length]; try assumption.
  - repeat split; apply not_elem_of_nil.
  - simpl. lia.
  - reflexivity.
Qed.

Lemma trees_ok num F : Forall clean (preorders F) ->
  writable (arrayValue (map (tree_value UnicodeToUtf8 num) F)) /\ streamable (arrayValue (map (tree_value UnicodeToUtf8 num) F)).
Proof.
  intros Hc. assert (H : Forall (fun v => writable v /\ streamable v) (map (tree_value UnicodeToUtf8 num) F)).
  { apply Forall_fmap. induction F as [|t F IH]; [constructor|]. cbn [flat_map] in Hc. apply Forall_app in Hc as [H1 H2].
    constructor; [by apply tree_value_ok|by apply IH]. }
  apply Forall_and in H as [Hw Hs]. by split; constructor.
Qed.

Lemma file_value_ok now num base F : (forall i, 0 <= now i < 2 ^ 63) -> Forall clean (preorders F) ->
  writable (file_value now num base F) /\ streamable (file_value now num base F).
Proof.
  intros Hnow Hc. destruct special_names_plain as (Hp1 & Hp2 & Hp3). unfold file_value. cbv zeta.
  set (n := Z.of_nat (List.length (preorders F))).
  destruct (trees_ok num F Hc) as [Hw Hs]. destruct (md5_text_ok (checksum_text num base F)) as [Hmw Hms].
  assert (Hempty : writable (arrayValue []) /\ streamable (arrayValue [])) by (split; repeat constructor).
  destruct (folder_value_ok _ (special_record (now base) "Bookmarks bar") (base + 1)
              (special_clean _ _ (Hnow base) Hp1 ltac:(done)) Hw Hs) as [H1w H1s].
  destruct (folder_value_ok _ (special_record (now (base + n + 1)) "Other bookmarks") (base + n + 2)
              (special_clean _ _ (Hnow _) Hp2 ltac:(done)) (proj1 Hempty) (proj2 Hempty)) as [H2w H2s].
  destruct (folder_value_ok _ (special_record (now (base + n + 2)) "Synced bookmarks") (base + n + 3)
              (special_clean _ _ (Hnow _) Hp3 ltac:(done)) (proj1 Hempty) (proj2 Hempty)) as [H3w H3s].
  split.
  - constructor; [repeat constructor|repeat constructor; vm_compute; set_solver|].
    constructor; [exact Hmw|]. constructor; [|constructor; [constructor; lia|constructor]].
    constructor; [repeat constructor|repeat constructor; vm_compute; set_solver|].
    constructor; [exact H1w|constructor; [exact H2w|constructor; [exact H3w|constructor]]].
  - constructor; [repeat constructor; vm_compute; discriminate|].
    constructor; [exact Hms|]. constructor; [|constructor; [constructor|constructor]].
    constructor; [repeat constructor; vm_compute; discriminate|].
    constructor; [exact H1s|constructor; [exact H2s|constructor; [exact H3s|constructor]]].
Qed.

(** C22: importing records that form a forest succeeds and replaces the bookmark file: the
    old file is removed, the text written is the JSON of the forest below the bookmark
    bar, with consecutive numbers for the nodes and the MD5 of the nodes in preorder as
    checksum, and reading the text gives exactly that value; the number of records is
    reported. The records are not deleted and [clean]: titles and addresses without null
    characters, double quotes and backslashes, of at most 1800 characters together, and
    times that are not negative. (A node with a quote or a backslash is lost:
    ChromePlugIn.cpp, line 516.) The counter of the plug-in has room for the nodes, and
    the file can be removed. *)
Theorem ImportFavoriteData_exact pszPath now ds F s w w' :
  forest ds F -> Forall clean ds -> ds <> [] -> usable (Z.of_nat (List.length ds)) s ->
  (forall i, 0 <= now i < 2 ^ 63) ->
  remove_file pszPath (ANSIToUnicode (UnicodeToUtf8 pszPath)) w = Some w' ->
  exists num s' text,
    map (fun d => num (nId d)) ds ≡ₚ seqZ (m_nIndex s + 2) (Z.of_nat (List.length ds)) /\
    ImportFavoriteData Utf8ToUnicode ANSIToUnicode UnicodeToUtf8 sscanf_lf sprintf_g pszPath now
      (Some (map Some ds)) (Z.of_nat (List.length ds)) s w =
    Ok (ERROR_OK, Z.of_nat (List.length ds), s', write_file (ANSIToUnicode (UnicodeToUtf8 pszPath)) text w') /\
    parse_stream sscanf_lf text nullValue = Ok (true, file_value now num (m_nIndex s) F).
Proof.
  intros Hf Hc Hne Hu Hnow Hrem.
  destruct (import_run pszPath now ds F s w w' Hf Hc Hne Hu Hnow Hrem) as (num & s' & text & Hnum & Htext & Hrun).
  exists num, s', text. split; [done|]. split; [done|].
  assert (Hcp : Forall clean (preorders F)) by (destruct Hf as (_ & Hp & _); by rewrite Hp).
  destruct (file_value_ok now num (m_nIndex s) F Hnow Hcp) as [Hw Hs]. by apply (stream_roundtrip _ sprintf_g).
Qed.

(** The bookmarks of the new file. *)
Definition file_bookmarks (now : Z -> Z) (base : Z) (F : list node) : list bookmark :=
  let n := Z.of_nat (List.length (preorders F)) in
  [BFolder (lit "Bookmarks bar") (Int64ToString (now base)) (map to_bookmark F);
   BFolder (lit "Other bookmarks") (Int64ToString (now (base + n + 1))) [];
   BFolder (lit "Synced bookmarks") (Int64ToString (now (base + n + 2))) []].

Lemma special_represents now name n l kids : 0 <= now < 2 ^ 63 -> plain (lit name) ->
  Z.of_nat (List.length (lit name)) <= 1800 -> ascii (lit name) -> Forall2 represents l kids ->
  represents (folder_value UnicodeToUtf8 (arrayValue l) (special_record now name) n)
    (BFolder (lit name) (Int64ToString now) kids).
Proof.
  intros Hn Hp Hl Ha Hk. pose proof (folder_represents (special_record now name) n l kids (special_clean _ _ Hn Hp Hl) Hk) as H.
  cbn [special_record szTitle nAddTimes] in H. by rewrite (utf8_ascii (UnicodeToUtf8 := UnicodeToUtf8) (lit name) Ha) in H.
Qed.

Lemma file_represents now num base F : (forall i, 0 <= now i < 2 ^ 63) -> Forall clean (preorders F) ->
  exists roots, member (file_value now num base F) (lit "roots") = Ok roots /\
    Forall2 (fun name b => exists v, member roots name = Ok v /\ represents v b /\ (forall n u d, b <> BUrl n u d))
      root_names (file_bookmarks now base F).
Proof.
  intros Hnow Hc. destruct special_names_plain as (Hp1 & Hp2 & Hp3).
  eexists. split; [reflexivity|]. unfold root_names, file_bookmarks. cbv zeta.
  assert (Htrees : Forall2 represents (map (tree_value UnicodeToUtf8 num) F) (map to_bookmark F)).
  { induction F as [|t F IH]; [constructor|]. cbn [flat_map] in Hc. apply Forall_app in Hc as [H1 H2].
    constructor; [by apply tree_represents|by apply IH]. }
  repeat constructor; (eexists; split; [reflexivity|]; split; [|done]);
    (apply special_represents; [apply Hnow|assumption|done|repeat constructor|]); done || constructor.
Qed.

Lemma to_bookmark_small t : Forall survives (preorder t) -> small Utf8ToUnicode (to_bookmark t).
Proof.
  induction t as [d l IH] using node_ind. intros Hs. cbn [preorder] in Hs. apply Forall_cons in Hs as [[Ht Hu _ [H1 H2]] Hl].
  cbn [to_bookmark]. destruct (bFolder d); constructor; unfold fits; rewrite ?Ht, ?Hu; try done.
  apply Forall_fmap. induction IH as [|t l Hk _ IHl]; [constructor|]. cbn [flat_map] in Hl. apply Forall_app in Hl as [Hl1 Hl2].
  constructor; [by apply Hk|by apply IHl].
Qed.

(** The export lists the forest: the folders of Chrome are not records. *)
Lemma file_listing now base F :
  listings Utf8ToUnicode 0 0 (file_bookmarks now base F) = listings Utf8ToUnicode 0 0 (map to_bookmark F).
Proof.
  unfold file_bookmarks. cbv zeta. cbn [listings]. rewrite !listing_folder.
  rewrite !(unicode_ascii (Utf8ToUnicode := Utf8ToUnicode)) by (repeat constructor).
  change (is_special (lit "Bookmarks bar")) with true. change (is_special (lit "Other bookmarks")) with true.
  change (is_special (lit "Synced bookmarks")) with true. cbn match. cbn [listings app]. by rewrite !app_nil_r.
Qed.

Lemma file_small now base F : Forall survives (preorders F) -> Forall (small Utf8ToUnicode) (file_bookmarks now base F).
Proof.
  intros Hs. assert (Hk : Forall (small Utf8ToUnicode) (map to_bookmark F)).
  { apply Forall_fmap. induction F as [|t F IH]; [constructor|]. cbn [flat_map] in Hs. apply Forall_app in Hs as [H1 H2].
    constructor; [by apply to_bookmark_small|by apply IH]. }
  unfold file_bookmarks. cbv zeta. repeat (constructor; [constructor|]); try constructor; try exact Hk;
    unfold fits; rewrite (unicode_ascii (Utf8ToUnicode := Utf8ToUnicode)) by (repeat constructor); vm_compute; done.
Qed.

(** C10: what is imported is exported again. Records that form a forest, none deleted, are
    imported; exporting the new bookmark file into as many records gives them in preorder
    with their titles, addresses and times, each below the record of its folder, under the
    ids of Chrome. The records must be [clean] and survive ([survives]): titles and
    addresses without null characters, double quotes and backslashes, of at most 1800
    characters together, which come back from UTF-8; times that are not negative; no
    folder with the name of a folder of Chrome's own. (A node with a quote or a backslash
    is lost: ChromePlugIn.cpp, line 516.) The counter of the plug-in has room for the
    nodes, and the file can be removed, written and read. *)
Theorem import_export_roundtrip pszPath now ds F s w w' ppOut h :
  let path := ANSIToUnicode (UnicodeToUtf8 pszPath) in
  let n := Z.of_nat (List.length ds) in
  forest ds F -> Forall clean ds -> Forall survives ds -> ds <> [] -> usable n s -> (forall i, 0 <= now i < 2 ^ 63) ->
  remove_file pszPath path w = Some w' -> (forall text, read_file path (write_file path text w') = Some text) ->
  room ppOut n h -> NoDup (take (List.length ds) ppOut) ->
  exists s' w'' h',
    ImportFavoriteData Utf8ToUnicode ANSIToUnicode UnicodeToUtf8 sscanf_lf sprintf_g pszPath now
      (Some (map Some ds)) n s w = Ok (ERROR_OK, n, s', w'') /\
    ExportFavoriteData Utf8ToUnicode sscanf_lf (read_file path w'') ppOut n h = Ok (true, n, h') /\
    forall i d l old, preorders F !! i = Some d -> ppOut !! i = Some (Some l) -> h !! l = Some old ->
      exists e, row_of F 0 0 0 i d e /\ h' !! l = Some (entry_record e (Z.of_nat i) old).
Proof.
  intros path n Hf Hc Hsv Hne Hu Hnow Hrem Hread Hroom Hnd.
  destruct (import_run pszPath now ds F s w w' Hf Hc Hne Hu Hnow Hrem) as (num & s' & text & _ & Htext & Hrun).
  pose proof Hf as (Hh & Hp & _).
  assert (Hcp : Forall clean (preorders F)) by (by rewrite Hp).
  assert (Hsp : Forall survives (preorders F)) by (by rewrite Hp).
  destruct (file_value_ok now num (m_nIndex s) F Hnow Hcp) as [Hw Hs].
  destruct (file_represents now num (m_nIndex s) F Hnow Hcp) as (roots & Hroots & Hrep).
  assert (Hfile : bookmark_file sscanf_lf (Some text) roots (file_bookmarks now (m_nIndex s) F)).
  { split; [|done]. exists (file_value now num (m_nIndex s) F). split; [|by split].
    unfold parse_file. cbn [default]. by apply (stream_roundtrip _ sprintf_g). }
  exists s', (write_file path text w'). eexists. split; [exact Hrun|]. rewrite Hread. split.
  { apply (export_file Utf8ToUnicode sscanf_lf _ roots _ ppOut n h Hfile); [by apply file_small|unfold n; lia|done]. }
  intros i d l old Hi Hl Hold. rewrite file_listing.
  destruct (listing_rows F 0 0 0 (hangs_placed ds 0 F Hh) Hsp) as [Hlen Hrows].
  destruct (Hrows i d Hi) as (e & He & Hrow). exists e. split; [done|].
  assert (Htake : take (Z.to_nat n) (listings Utf8ToUnicode 0 0 (map to_bookmark F)) = listings Utf8ToUnicode 0 0 (map to_bookmark F)).
  { apply take_ge. rewrite Hlen, (Permutation_length Hp). unfold n. lia. }
  rewrite Htake. eapply fill_entry; try done. by rewrite Hlen, (Permutation_length Hp).
Qed.

End Importing.

(** ** Witnesses *)

(** UTF-8 over the characters of 16 bits, by the macros of the file Utf8. *)
Definition utf8_char (c : Z) : str := if (0 <=? c) && (c <? 2 ^ 16) then CBU8_APPEND_UNSAFE c else [239; 191; 189].

Definition utf8_encode (s : wstring) : str := flat_map utf8_char s.

Fixpoint utf8_decode_loop (fuel : nat) (s : str) : wstring :=
  match fuel, s with
  | S fuel, c :: s => let '(cp, rest) := CBU8_NEXT c s in cp :: utf8_decode_loop fuel rest
  | _, _ => []
  end.

Definition utf8_decode (s : str) : wstring := utf8_decode_loop (List.length s) s.

Lemma utf8_char_ascii c : 0 <= c < 128 -> utf8_char c = [c].
Proof.
  intros H. unfold utf8_char. replace ((0 <=? c) && (c <? 2 ^ 16)) with true by lia. rewrite append_arith by lia.
  by replace (c <? 2 ^ 7) with true by lia.
Qed.

Lemma utf8_char_other c : ~ (0 <= c < 128) -> Forall (fun b => 128 <= b < 255) (utf8_char c).
Proof.
  intros H. unfold utf8_char. destruct ((0 <=? c) && (c <? 2 ^ 16)) eqn:E; [|repeat constructor; lia].
  rewrite append_arith by lia. repeat case_match; repeat constructor; lia_div.
Qed.

#[global] Instance utf8_codec : Utf8Codec utf8_decode utf8_encode.
Proof.
  split.
  - intros a Ha. unfold utf8_decode. induction Ha as [|c a Hc _ IH]; [done|]. cbn [List.length utf8_decode_loop].
    unfold CBU8_NEXT. replace (0x80 <=? c) with false by lia. by rewrite IH.
  - intros a Ha. induction Ha as [|c a Hc _ IH]; [done|]. unfold utf8_encode in *. cbn [flat_map].
    rewrite utf8_char_ascii by lia. simpl. by rewrite IH.
  - intros s a t _ _ _ Ha. unfold utf8_encode. rewrite !flat_map_app. do 2 f_equal.
    induction Ha as [|c a Hc _ IH]; [done|]. cbn [flat_map]. rewrite utf8_char_ascii by lia. simpl. by rewrite IH.
  - intros s c Hc Hlt. induction s as [|x s IH]; [done|]. unfold utf8_encode in Hc, IH. cbn [flat_map] in Hc.
    apply elem_of_cons. apply elem_of_app in Hc as [Hc|Hc]; [|right; by apply IH]. left.
    destruct (decide (0 <= x < 128)) as [Hx|Hx].
    + rewrite utf8_char_ascii in Hc by done. by apply list_elem_of_singleton in Hc.
    + pose proof (utf8_char_other x Hx) as Ho. rewrite Forall_forall in Ho. apply Ho in Hc. lia.
  - intros s. induction s as [|x s IH]; [constructor|]. unfold utf8_encode in *. cbn [flat_map]. apply Forall_app. split; [|done].
    destruct (decide (0 <= x < 128)) as [Hx|Hx]; [rewrite utf8_char_ascii by done; repeat constructor; lia|].
    eapply Forall_impl; [by apply utf8_char_other|]. simpl. lia.
  - intros s. induction s as [|x s IH]; [simpl; lia|]. unfold utf8_encode in *. cbn [flat_map]. rewrite length_app.
    cbn [List.length]. enough (List.length (utf8_char x) <= 3)%nat by lia. unfold utf8_char.
    destruct ((0 <=? x) && (x <? 2 ^ 16)) eqn:E; [|simpl; lia]. rewrite append_arith by lia. repeat case_match; simpl; lia.
Qed.

(** A disk of files, none of them locked. *)
#[global] Instance disk_files : FileCalls (gmap (list Z) str) := {|
  IsFileExist p w := bool_decide (is_Some (w !! p));
  DeleteFileW p w := (bool_decide (is_Some (w !! p)), base.delete p w);
  FileHelper_DeleteFile p w := (bool_decide (is_Some (w !! p)), base.delete p w);
  write_file p text w := <[p := text]> w;
  read_file p w := w !! p
|}.

(** A folder with a Chinese name that comes after its contents, and a page. *)
Definition sample_folder : FavoriteLineData := mkFavorite 100 [25910; 34255] 0 true [] 11 12 0 0 0 false.
Definition sample_page : FavoriteLineData := mkFavorite 200 (lit "a page") 100 false (lit "http://a/") 13 0 0 0 0 false.
Definition sample_records : list FavoriteLineData := [sample_page; sample_folder].
Definition sample_forest : list node := [Node sample_folder [Node sample_page []]].
Definition sample_plugin : CChromePlugIn := CChromePlugIn_new junk_context.
Definition sample_disk : gmap (list Z) str := {[lit "Bookmarks" := lit "old"]}.

Lemma sample_is_forest : forest sample_records sample_forest.
Proof.
  split; [|split; [|split]].
  - constructor; [reflexivity|]. repeat constructor.
  - unfold sample_records, sample_forest. cbn. apply Permutation_swap.
  - vm_compute. repeat constructor; set_solver.
  - vm_compute. set_solver.
Qed.

Lemma sample_clean : Forall clean sample_records.
Proof.
  repeat constructor; try (vm_compute; set_solver); try done; vm_compute; discriminate.
Qed.

Lemma sample_survives : Forall (survives utf8_decode utf8_encode) sample_records.
Proof. repeat constructor; done. Qed.

Lemma sample_usable : usable 2 sample_plugin.
Proof. split; [done..|]. vm_compute. repeat constructor; discriminate. Qed.

Lemma SortByDepth_preorder_witness :
  forest sample_records sample_forest /\ SortByDepth (map Some sample_records) 2 = Ok [Some sample_folder; Some sample_page].
Proof.
  split; [exact sample_is_forest|].
  destruct (SortByDepth_preorder sample_records sample_forest sample_is_forest) as (sorted & Hrun & -> & _). exact Hrun.
Defined.

Lemma ImportFavoriteData_exact_witness : exists num s' text,
  ImportFavoriteData utf8_decode utf8_decode utf8_encode (fun _ => None) (fun _ => []) (lit "Bookmarks") (fun _ => 77)
    (Some (map Some sample_records)) 2 sample_plugin sample_disk =
  Ok (0, 2, s', write_file (lit "Bookmarks") text ∅) /\
  parse_stream (fun _ => None) text nullValue = Ok (true, file_value utf8_encode (fun _ => 77) num 0 sample_forest).
Proof.
  destruct (ImportFavoriteData_exact utf8_decode utf8_decode utf8_encode (fun _ => None) (fun _ => []) (lit "Bookmarks")
    (fun _ => 77) sample_records sample_forest sample_plugin sample_disk ∅) as (num & s' & text & _ & Hrun & Hparse).
  - exact sample_is_forest.
  - exact sample_clean.
  - discriminate.
  - exact sample_usable.
  - intros _. lia.
  - vm_compute. reflexivity.
  - exists num, s', text. split; [exact Hrun|exact Hparse].
Defined.

Lemma import_export_roundtrip_witness : exists s' w'' h',
  ImportFavoriteData utf8_decode utf8_decode utf8_encode (fun _ => None) (fun _ => []) (lit "Bookmarks") (fun _ => 77)
    (Some (map Some sample_records)) 2 sample_plugin sample_disk = Ok (0, 2, s', w'') /\
  ExportFavoriteData utf8_decode (fun _ => None) (read_file (lit "Bookmarks") w'') sample_vector 2 sample_heap = Ok (true, 2, h') /\
  option_map szTitle (h' !! 1%positive) = Some [25910; 34255].
Proof.
  destruct (import_export_roundtrip utf8_decode utf8_decode utf8_encode (fun _ => None) (fun _ => []) (lit "Bookmarks")
    (fun _ => 77) sample_records sample_forest sample_plugin sample_disk ∅ sample_vector sample_heap)
    as (s' & w'' & h' & Himp & Hexp & Hrow).
  - exact sample_is_forest.
  - exact sample_clean.
  - exact sample_survives.
  - discriminate.
  - exact sample_usable.
  - intros _. lia.
  - vm_compute. reflexivity.
  - intros text. apply lookup_insert_eq.
  - intros i Hi. apply sample_room. change (Z.of_nat (List.length sample_records)) with 2 in Hi. lia.
  - vm_compute. repeat constructor; set_solver.
  - exists s', w'', h'. split; [exact Himp|]. split; [exact Hexp|].
    destruct (Hrow 0%nat sample_folder 1%positive (FavoriteLineData_new 0) eq_refl eq_refl eq_refl)
      as (e & (q & -> & _) & ->). reflexivity.
Defined.

(** A kept page in a deleted folder, beside a page at the top. *)
Definition orphan_records : records :=
  [Some (set_bDelete sample_folder); Some sample_page; Some (mkFavorite 300 (lit "top") 0 false (lit "http://t/") 1 0 0 0 0 false)].

Lemma ImportFavoriteData_errors_witness :
  ImportFavoriteData utf8_decode utf8_decode utf8_encode (fun _ => None) (fun _ => []) (lit "Bookmarks") (fun _ => 77)
      (Some orphan_records) 0 sample_plugin sample_disk = Ok (ERROR_INVALID_PARAM, 0, sample_plugin, sample_disk) /\
  exists s', ImportFavoriteData utf8_decode utf8_decode utf8_encode (fun _ => None) (fun _ => []) (lit "Bookmarks") (fun _ => 77)
      (Some orphan_records) 3 sample_plugin sample_disk = Ok (ERROR_INTERNAL_ERROR, 3, s', ∅) /\
    remove_file (lit "Bookmarks") (lit "Bookmarks") sample_disk = Some (∅ : gmap (list Z) str).
Proof.
  split.
  - apply (ImportFavoriteData_errors utf8_decode utf8_decode utf8_encode (fun _ => None) (fun _ => []) (lit "Bookmarks")
      (fun _ => 77) (Some orphan_records) 0 sample_plugin sample_disk). right. reflexivity.
  - eexists. split; vm_compute; reflexivity.
Defined.
