(* ===== verification/Base64.v ===== *)
(** * Base64

    src/Utility/HttpClient/src/Base64Coding.cpp, which codes the user and password
    of the authorization headers.  Characters are signed in the source: a byte is
    read through [i8], and a result is stored through [u8].  The text that is left
    to process stands for the index of the loops. *)
From stdpp Require Import prelude.
From Stdlib Require Import ZArith Lia String.
From S2P Require Import Prelude Strings.

Definition fillchar : Z := 61.

Definition Base64Table : str := lit "ABCDEFGHIJKLMNOPQRSTUVWXYZabcdefghijklmnopqrstuvwxyz0123456789+/".

(** The entries [np] after their conversion to [char]. *)
Definition np : Z := -1.

Definition DecodeTable : list Z :=
  replicate 43 np ++ [62] ++ replicate 3 np ++ [63] ++ seqZ 52 10 ++ replicate 7 np ++ seqZ 0 26 ++
  replicate 6 np ++ seqZ 26 26 ++ replicate 133 np.

Definition code (c : Z) : Z := nth (Z.to_nat c) Base64Table 0.

Definition uncode (c : Z) : Z := nth (Z.to_nat (u8 c)) DecodeTable 0.

(** ** Encoding *)

(** One iteration, from its first byte: four characters and the bytes left. *)
Definition encode_group (x : Z) (rest : str) : str * str :=
  let c0 := Z.land (Z.shiftr (i8 x) 2) 63 in
  let c := Z.land (Z.shiftl (i8 x) 4) 63 in
  match rest with
  | [] => ([code c0; code c; fillchar; fillchar], [])
  | y :: rest =>
      let c1 := Z.lor c (Z.land (Z.shiftr (i8 y) 4) 15) in
      let c := Z.land (Z.shiftl (i8 y) 2) 63 in
      match rest with
      | [] => ([code c0; code c1; code c; fillchar], [])
      | z :: rest =>
          let c2 := Z.lor c (Z.land (Z.shiftr (i8 z) 6) 3) in
          ([code c0; code c1; code c2; code (Z.land (i8 z) 63)], rest)
      end
  end.

Fixpoint encode_loop (fuel : nat) (data : str) : str :=
  match fuel, data with
  | S fuel, x :: rest => let '(out, rest) := encode_group x rest in out ++ encode_loop fuel rest
  | _, _ => []
  end.

(** An iteration takes at least one byte. *)
Definition Encode (data : str) : str := encode_loop (List.length data) data.

(** ** Decoding *)

(** One iteration, from its first character: the bytes, the characters left, and
    whether a fill character ends the loop.  Behind its end a string has the
    character 0. *)
Definition decode_group (x : Z) (rest : str) : str * option str :=
  let c := uncode x in
  let c1 := uncode (nth 0 rest 0) in
  let rest := drop 1 rest in
  let c := i8 (Z.lor (Z.shiftl c 2) (Z.land (Z.shiftr c1 4) 3)) in
  match rest with
  | [] => ([u8 c], Some [])
  | z :: rest =>
      if i8 z =? fillchar then ([u8 c], None)
      else
        let d := uncode z in
        let c1 := i8 (Z.lor (Z.land (Z.shiftl c1 4) 240) (Z.land (Z.shiftr d 2) 15)) in
        match rest with
        | [] => ([u8 c; u8 c1], Some [])
        | w :: rest =>
            if i8 w =? fillchar then ([u8 c; u8 c1], None)
            else ([u8 c; u8 c1; u8 (i8 (Z.lor (Z.land (Z.shiftl d 6) 192) (uncode w)))], Some rest)
        end
  end.

Fixpoint decode_loop (fuel : nat) (data : str) : str :=
  match fuel, data with
  | S fuel, x :: rest =>
      match decode_group x rest with
      | (out, Some rest) => out ++ decode_loop fuel rest
      | (out, None) => out
      end
  | _, _ => []
  end.

Definition Decode (data : str) : str := decode_loop (List.length data) data.

(** ** The standard

    RFC 4648, section 4: groups of three bytes, read as a number, are written as
    four digits to the base 64; a last group of one or two bytes is filled up with
    zero bits, and the digits that carry none of its bits are written [=]. *)
Fixpoint base64 (data : str) : str :=
  match data with
  | [] => []
  | [x] => let v := x * 16 in [code (v / 64); code (v mod 64); fillchar; fillchar]
  | [x; y] => let v := (x * 256 + y) * 4 in
              [code (v / 64 ^ 2); code (v / 64 mod 64); code (v mod 64); fillchar]
  | x :: y :: z :: rest =>
      let v := (x * 256 + y) * 256 + z in
      [code (v / 64 ^ 3); code (v / 64 ^ 2 mod 64); code (v / 64 mod 64); code (v mod 64)] ++ base64 rest
  end.

(** ** Bits of a byte *)

Lemma byte_parts x : 0 <= x < 256 ->
  Z.land (Z.shiftr (i8 x) 2) 63 = x / 4 /\ Z.land (Z.shiftl (i8 x) 4) 63 = x mod 4 * 16 /\
  Z.land (Z.shiftr (i8 x) 4) 15 = x / 16 /\ Z.land (Z.shiftl (i8 x) 2) 63 = x mod 16 * 4 /\
  Z.land (Z.shiftr (i8 x) 6) 3 = x / 64 /\ Z.land (i8 x) 63 = x mod 64.
Proof.
  intros Hx. set (ok := fun x => bool_decide (Z.land (Z.shiftr (i8 x) 2) 63 = x / 4 /\ Z.land (Z.shiftl (i8 x) 4) 63 = x mod 4 * 16 /\
    Z.land (Z.shiftr (i8 x) 4) 15 = x / 16 /\ Z.land (Z.shiftl (i8 x) 2) 63 = x mod 16 * 4 /\
    Z.land (Z.shiftr (i8 x) 6) 3 = x / 64 /\ Z.land (i8 x) 63 = x mod 64)).
  apply (bool_decide_eq_true _), (all_bytes ok); [by vm_compute|done].
Qed.

Lemma uncode_code k : 0 <= k < 64 -> uncode (code k) = k /\ i8 (code k) <> fillchar.
Proof.
  intros Hk. set (ok := fun k => implb (k <? 64) (bool_decide (uncode (code k) = k /\ i8 (code k) <> fillchar))).
  pose proof (all_bytes ok ltac:(by vm_compute) k ltac:(lia)) as H. unfold ok in H.
  rewrite (proj2 (Z.ltb_lt k 64)) in H by lia. by apply bool_decide_eq_true in H.
Qed.

Lemma lor_low n k a b : k = 2 ^ n -> 0 <= n -> 0 <= a -> 0 <= b < k -> Z.lor (a * k) b = a * k + b.
Proof. intros -> Hn Ha Hb. rewrite Z.lor_comm, lor_add by lia. lia. Qed.

(** The six-bit digits of the bytes of a group. *)
Lemma encode_group_digits x rest : bytes (x :: rest) ->
  encode_group x rest =
    match rest with
    | [] => ([code (x / 4); code (x mod 4 * 16); fillchar; fillchar], [])
    | [y] => ([code (x / 4); code (x mod 4 * 16 + y / 16); code (y mod 16 * 4); fillchar], [])
    | y :: z :: rest => ([code (x / 4); code (x mod 4 * 16 + y / 16); code (y mod 16 * 4 + z / 64); code (z mod 64)], rest)
    end.
Proof.
  intros Hb. unfold encode_group. inversion Hb as [|x' r' Hx Hr]; subst.
  destruct (byte_parts x Hx) as (-> & -> & _). destruct rest as [|y rest]; [done|].
  inversion Hr as [|y' r' Hy Hr']; subst. destruct (byte_parts y Hy) as (_ & _ & -> & -> & _).
  rewrite (lor_low 4) by (done || lia_div). destruct rest as [|z rest]; [done|].
  inversion Hr' as [|z' r' Hz _]; subst. destruct (byte_parts z Hz) as (_ & _ & _ & _ & -> & ->).
  by rewrite (lor_low 2) by (done || lia_div).
Qed.

Lemma base64_group x rest : bytes (x :: rest) ->
  base64 (x :: rest) = fst (encode_group x rest) ++ base64 (snd (encode_group x rest)).
Proof.
  intros Hb. rewrite encode_group_digits by done. inversion Hb as [|x' r' Hx Hr]; subst.
  destruct rest as [|y [|z rest]]; cbn [fst snd base64 app].
  - by replace (x * 16 / 64) with (x / 4) by lia_div; replace (x * 16 mod 64) with (x mod 4 * 16) by lia_div.
  - inversion Hr as [|y' r' Hy _]; subst. set (v := (x * 256 + y) * 4).
    replace (v / 64 ^ 2) with (x / 4) by (subst v; lia_div).
    replace (v / 64 mod 64) with (x mod 4 * 16 + y / 16) by (subst v; lia_div).
    by replace (v mod 64) with (y mod 16 * 4) by (subst v; lia_div).
  - inversion Hr as [|y' r' Hy Hr']; subst. inversion Hr' as [|z' r' Hz _]; subst. set (v := (x * 256 + y) * 256 + z).
    replace (v / 64 ^ 3) with (x / 4) by (subst v; lia_div).
    replace (v / 64 ^ 2 mod 64) with (x mod 4 * 16 + y / 16) by (subst v; lia_div).
    replace (v / 64 mod 64) with (y mod 16 * 4 + z / 64) by (subst v; lia_div).
    by replace (v mod 64) with (z mod 64) by (subst v; lia_div).
Qed.

(** Induction over the groups of a text. *)
Lemma group_ind (P : str -> Prop) :
  P [] -> (forall x, P [x]) -> (forall x y, P [x; y]) -> (forall x y z rest, P rest -> P (x :: y :: z :: rest)) ->
  forall data, P data.
Proof. intros H0 H1 H2 H3. fix IH 1. intros [|x [|y [|z rest]]]; [done|apply H1|apply H2|apply H3, IH]. Qed.

Lemma group_bytes x rest : bytes (x :: rest) ->
  bytes (snd (encode_group x rest)) /\ (List.length (snd (encode_group x rest)) <= List.length rest)%nat.
Proof.
  intros Hb. rewrite encode_group_digits by done. inversion Hb as [|x' r' Hx Hr]; subst.
  destruct rest as [|y [|z rest]]; simpl; [by auto..|]. split; [by do 2 apply Forall_inv_tail in Hr|lia].
Qed.

Lemma encode_loop_base64 fuel data : bytes data -> (List.length data <= fuel)%nat -> encode_loop fuel data = base64 data.
Proof.
  revert data. induction fuel as [|fuel IH]; intros [|x rest] Hb Hf; try done; simpl in Hf; [lia|].
  rewrite base64_group by done. destruct (group_bytes x rest Hb) as [Hb' Hl]. cbn [encode_loop].
  destruct (encode_group x rest) as [out left_]. simpl in *. f_equal. apply IH; [done|lia].
Qed.

(** ** Round trip *)

(** The bytes that two neighbouring digits give. *)
Lemma join_digits a b : 0 <= a < 64 -> 0 <= b < 64 ->
  u8 (i8 (Z.lor (Z.shiftl a 2) (Z.land (Z.shiftr b 4) 3))) = a * 4 + b / 16 /\
  u8 (i8 (Z.lor (Z.land (Z.shiftl a 4) 240) (Z.land (Z.shiftr b 2) 15))) = a mod 16 * 16 + b / 4 /\
  u8 (i8 (Z.lor (Z.land (Z.shiftl a 6) 192) b)) = a mod 4 * 64 + b.
Proof.
  intros Ha Hb. set (ok := fun a b => bool_decide (
    u8 (i8 (Z.lor (Z.shiftl a 2) (Z.land (Z.shiftr b 4) 3))) = a * 4 + b / 16 /\
    u8 (i8 (Z.lor (Z.land (Z.shiftl a 4) 240) (Z.land (Z.shiftr b 2) 15))) = a mod 16 * 16 + b / 4 /\
    u8 (i8 (Z.lor (Z.land (Z.shiftl a 6) 192) b)) = a mod 4 * 64 + b)).
  assert (H : forallb (fun a => forallb (ok a) (seqZ 0 64)) (seqZ 0 64) = true) by (vm_compute; reflexivity).
  rewrite forallb_forall in H. specialize (H a). rewrite <- list_elem_of_In, elem_of_seqZ, forallb_forall in H.
  specialize (H ltac:(lia) b). rewrite <- list_elem_of_In, elem_of_seqZ in H.
  by apply (bool_decide_eq_true _), H; lia.
Qed.

Lemma decode_full a b c d rest : 0 <= a < 64 -> 0 <= b < 64 -> 0 <= c < 64 -> 0 <= d < 64 ->
  decode_group (code a) (code b :: code c :: code d :: rest) =
    ([a * 4 + b / 16; b mod 16 * 16 + c / 4; c mod 4 * 64 + d], Some rest).
Proof.
  intros Ha Hb Hc Hd. unfold decode_group. simpl nth. cbn [drop].
  destruct (uncode_code a Ha) as [-> _], (uncode_code b Hb) as [-> _], (uncode_code c Hc) as [-> Nc], (uncode_code d Hd) as [-> Nd].
  rewrite (proj2 (Z.eqb_neq _ _) Nc), (proj2 (Z.eqb_neq _ _) Nd).
  by rewrite (proj1 (join_digits a b Ha Hb)), (proj1 (proj2 (join_digits b c Hb Hc))), (proj2 (proj2 (join_digits c d Hc Hd))).
Qed.

Lemma decode_filled a b c : 0 <= a < 64 -> 0 <= b < 64 -> 0 <= c < 64 ->
  decode_group (code a) [code b; fillchar; fillchar] = ([a * 4 + b / 16], None) /\
  decode_group (code a) [code b; code c; fillchar] = ([a * 4 + b / 16; b mod 16 * 16 + c / 4], None).
Proof.
  intros Ha Hb Hc. unfold decode_group. simpl nth. cbn [drop].
  destruct (uncode_code a Ha) as [-> _], (uncode_code b Hb) as [-> _], (uncode_code c Hc) as [-> Nc].
  rewrite (proj2 (Z.eqb_neq _ _) Nc). simpl.
  by rewrite (proj1 (join_digits a b Ha Hb)), (proj1 (proj2 (join_digits b c Hb Hc))).
Qed.

Lemma decode_loop_base64 data : forall fuel, bytes data -> (List.length (base64 data) <= fuel)%nat ->
  decode_loop fuel (base64 data) = data.
Proof.
  induction data as [|x|x y|x y z rest IH] using group_ind; intros [|fuel] Hb Hf; try done; try (simpl in Hf; lia).
  - inversion Hb; subst. rewrite base64_group, encode_group_digits by done. cbn [fst snd base64 app decode_loop].
    rewrite (proj1 (decode_filled (x / 4) (x mod 4 * 16) 0 ltac:(lia_div) ltac:(lia_div) ltac:(lia))).
    replace (x / 4 * 4 + x mod 4 * 16 / 16) with x by lia_div. done.
  - inversion Hb as [|x' r Hx Hr]; subst. inversion Hr as [|y' r Hy _]; subst.
    rewrite base64_group, encode_group_digits by done. cbn [fst snd base64 app decode_loop].
    rewrite (proj2 (decode_filled (x / 4) (x mod 4 * 16 + y / 16) (y mod 16 * 4) ltac:(lia_div) ltac:(lia_div) ltac:(lia_div))).
    by replace (x / 4 * 4 + (x mod 4 * 16 + y / 16) / 16) with x by lia_div;
      replace ((x mod 4 * 16 + y / 16) mod 16 * 16 + y mod 16 * 4 / 4) with y by lia_div.
  - inversion Hb as [|x' r Hx Hr]; subst. inversion Hr as [|y' r Hy Hr']; subst. inversion Hr' as [|z' r Hz Hr'']; subst.
    rewrite base64_group, encode_group_digits in * by done. cbn [fst snd app decode_loop] in *. simpl in Hf.
    rewrite decode_full by lia_div. rewrite IH by (done || lia). cbn [app].
    by replace (x / 4 * 4 + (x mod 4 * 16 + y / 16) / 16) with x by lia_div;
      replace ((x mod 4 * 16 + y / 16) mod 16 * 16 + (y mod 16 * 4 + z / 64) / 4) with y by lia_div;
      replace ((y mod 16 * 4 + z / 64) mod 4 * 64 + z mod 64) with z by lia_div.
Qed.

(** C32: For every byte string [Encode] gives the text that RFC 4648 prescribes,
    and [Decode] gives the bytes back. *)
Theorem base64_roundtrip data : bytes data -> Encode data = base64 data /\ Decode (Encode data) = data.
Proof.
  intros Hb. assert (E : Encode data = base64 data) by by apply encode_loop_base64.
  split; [done|]. rewrite E. by apply decode_loop_base64.
Qed.

Lemma base64_roundtrip_witness :
  Encode (lit "anonymous:a") = lit "YW5vbnltb3VzOmE=" /\ Decode (lit "YW5vbnltb3VzOmE=") = lit "anonymous:a".
Proof.
  destruct (base64_roundtrip (lit "anonymous:a")) as [E D].
  { apply Forall_forall. intros c Hc. rewrite list_elem_of_In in Hc. repeat destruct Hc as [<-|Hc]; done. }
  split; [exact E|exact D].
Defined.

(** The test vectors of RFC 4648. *)
Example base64_vectors :
  map (fun s => Encode (lit s)) [""; "f"; "fo"; "foo"; "foob"; "fooba"; "foobar"]%string =
  map lit [""; "Zg=="; "Zm8="; "Zm9v"; "Zm9vYg=="; "Zm9vYmE="; "Zm9vYmFy"]%string.
Proof. by vm_compute. Qed.
