(* ===== verification/Transfer.v ===== *)
(** * The transfer library: tasks

    src/Utility/HttpClient: the arguments of a POST request ([POST_PARAMS]), the
    checks of a new task, and the array of tasks that the caller of
    [TranferManager] fills and the worker thread empties.  A task is known by its
    position in that array, and positions are given out in turn.

    The class [TransferManager] is what the web module uses of the library; the
    class [TaskSlots] adds what it promises about positions, and the manager of
    this file is an instance of both. *)
From stdpp Require Import prelude gmap.
From Stdlib Require Import ZArith Lia String.
From S2P Require Import Prelude Strings MimeTypes.

Definition u64 (z : Z) : Z := z mod 2 ^ 64.

(** ** Arguments of a POST request *)

Inductive PARAM_TYPE := PARAM_TEXT | PARAM_BINARY | PARAM_FILENAME.

#[global] Instance PARAM_TYPE_eq_dec : EqDecision PARAM_TYPE.
Proof. solve_decision. Defined.

Definition MAX_PARAM_NAME_LEN : nat := 64.

(** [paramName] has [MAX_PARAM_NAME_LEN] bytes. *)
Record POST_PARAM := mkParam {
  paramName : list Z;
  paramBuffer : list Z;
  paramBufferLen : Z;
  paramType : PARAM_TYPE
}.

(** [strncpy( dest, src, n )] *)
Fixpoint c_strncpy (n : nat) (src : list Z) : outcome (list Z) :=
  match n with
  | O => Ok []
  | S n => match src with
           | [] => Fault OutOfRange
           | c :: src => if c =? 0 then Ok (replicate (S n) 0) else r ← c_strncpy n src; Ok (c :: r)
           end
  end.

(** [memcpy] of [n] bytes *)
Definition c_memcpy (n : Z) (src : list Z) : outcome (list Z) :=
  if Z.of_nat (List.length src) <? n then Fault OutOfRange else Ok (take (Z.to_nat n) src).

Definition add_param (name buffer : list Z) (bufferLen : Z) (ty : PARAM_TYPE) (params : list POST_PARAM) :
    outcome (list POST_PARAM) :=
  n ← c_strncpy MAX_PARAM_NAME_LEN name;
  p ← match ty with
      | PARAM_FILENAME => len ← c_len buffer; b ← c_memcpy (len + 1) buffer; Ok (mkParam n b bufferLen ty)
      | PARAM_TEXT => len ← c_len buffer; b ← c_memcpy (len + 1) buffer; Ok (mkParam n b (len + 1) ty)
      | PARAM_BINARY => b ← c_memcpy bufferLen buffer; Ok (mkParam n b bufferLen ty)
      end;
  Ok (params ++ [p]).

(** The copy constructor. *)
Definition copy_params (in_post_param : list POST_PARAM) : outcome (list POST_PARAM) :=
  for_each (fun ps p => add_param (paramName p) (paramBuffer p) (paramBufferLen p) (paramType p) ps) [] in_post_param.

Definition is_uploadtype (params : list POST_PARAM) : bool :=
  existsb (fun p => bool_decide (paramType p = PARAM_FILENAME \/ paramType p = PARAM_BINARY)) params.

(** The characters of a C string. *)
Definition c_text (b : list Z) : outcome str := n ← c_len b; Ok (take (Z.to_nat n) b).

Fixpoint delete_param (strParamName : str) (params : list POST_PARAM) : outcome (bool * list POST_PARAM) :=
  match params with
  | [] => Ok (false, [])
  | p :: params =>
      n ← c_text (paramName p);
      if bool_decide (strParamName = n) then Ok (true, params)
      else r ← delete_param strParamName params; Ok (fst r, p :: snd r)
  end.

(** ** Checking a task *)

Inductive TASK_TYPE := TASK_DOWNLOAD | TASK_QUERY | TASK_UPLOAD | TASK_BINARY | TASK_HEAD.

#[global] Instance TASK_TYPE_eq_dec : EqDecision TASK_TYPE.
Proof. solve_decision. Defined.

Record OPTIONS := mkOptions {
  tasktimeout : Z;
  startSize : Z;
  endSize : Z;
  dataClean : bool
}.

Definition RET_OK : Z := 0.

Definition ERR_TASK_FULL : Z := 1.
Definition ERR_TASK_MGR_NOT_START : Z := 5.
Definition ERR_TASK_ALREADY_STARTED : Z := 6.
Definition ERR_TASK_NOT_EXIST : Z := 10.
Definition ERR_TASK_PARAM_URL : Z := 18.
Definition ERR_TASK_PARAM_POSTPARAM_NONE : Z := 21.
Definition ERR_TASK_PARAM_POSTPARAM_EXCEED : Z := 22.
Definition ERR_TASK_PARAM_POSTPARAM_NAME : Z := 23.
Definition ERR_TASK_PARAM_POSTPARAM_LEN : Z := 24.
Definition ERR_TASK_PARAM_POSTPARAM_VALUE : Z := 25.
Definition ERR_TASK_PARAM_POSTPARAM_FILENOTEXIST : Z := 26.
Definition ERR_TASK_OPTION_SIZE_INVALID : Z := 28.
Definition ERR_TASK_WRITE_FILE_ERROR : Z := 35.

Definition crlf : str := [13; 10].
Definition BROUNDARY : str := lit "----BOUNDARY_0xaaaaaaaaaaaaaaaa".
Definition POSTPARAM_TEMPLATE_TEXT : str :=
  lit "Content-Disposition: form-data; name=" ++ [34] ++ lit "%s" ++ [34] ++ crlf ++ crlf.
Definition POSTPARAM_TEMPLATE_BINARY : str :=
  lit "Content-Disposition: form-data; name=" ++ [34] ++ lit "%s" ++ [34] ++ lit "; filename=" ++ [34] ++ lit "partfile.tmp" ++
  [34] ++ crlf ++ lit "Content-Type: application/octet-stream" ++ crlf ++ crlf.
Definition POSTPARAM_TEMPLATE_FILE : str :=
  lit "Content-Disposition: form-data; name=" ++ [34] ++ lit "%s" ++ [34] ++ lit "; filename=" ++ [34] ++ lit "%s" ++ [34] ++
  crlf ++ lit "Content-Type: %s" ++ crlf ++ crlf.

Definition len (s : str) : Z := Z.of_nat (List.length s).

Section Manager.

(** [IsTargetFileExist]: the size of a file, if there is one. *)
Context (file_size : str -> option Z).

(** One argument of a request: an error, or the bytes it adds to the request. *)
Definition check_param (p : POST_PARAM) : outcome (Z + Z) :=
  name ← c_text (paramName p);
  if bool_decide (name = []) then Ok (inl ERR_TASK_PARAM_POSTPARAM_NAME)
  else if (paramBufferLen p =? 0) && bool_decide (paramType p = PARAM_BINARY) then Ok (inl ERR_TASK_PARAM_POSTPARAM_LEN)
  else match paramType p with
  | PARAM_TEXT =>
      text ← c_text (paramBuffer p);
      Ok (inr (len BROUNDARY + len crlf + (len POSTPARAM_TEMPLATE_TEXT - 2) + len name + len text + len crlf))
  | PARAM_FILENAME =>
      file ← c_text (paramBuffer p);
      if bool_decide (file = []) then Ok (inl ERR_TASK_PARAM_POSTPARAM_VALUE)
      else match file_size file with
      | None => Ok (inl ERR_TASK_PARAM_POSTPARAM_FILENOTEXIST)
      | Some filesize =>
          if (0 <? paramBufferLen p) && (filesize <=? paramBufferLen p) then Ok (inl ERR_TASK_PARAM_POSTPARAM_VALUE)
          else
            let realSize := if 0 <? paramBufferLen p then filesize - paramBufferLen p else filesize in
            mime ← getMimeType file;
            Ok (inr (len BROUNDARY + len crlf + (len POSTPARAM_TEMPLATE_FILE - 2 * 3) + len name + len file + len mime
                     + realSize + len crlf))
      end
  | PARAM_BINARY =>
      Ok (inr (len BROUNDARY + len crlf + (len POSTPARAM_TEMPLATE_BINARY - 2 * 1) + len name + paramBufferLen p + len crlf))
  end.

Fixpoint check_params (params : list POST_PARAM) (postDataSize : Z) : outcome (Z + Z) :=
  match params with
  | [] => Ok (inr (u64 (postDataSize + (len BROUNDARY + len (lit "--") + len crlf))))
  | p :: params =>
      r ← check_param p;
      match r with
      | inl err => Ok (inl err)
      | inr n => check_params params (u64 (postDataSize + n))
      end
  end.

(** The element looked at for [TASK_BINARY] is the one behind the only one. *)
Definition check_binary (params : list POST_PARAM) : outcome (Z + Z) :=
  if Z.of_nat (List.length params) =? 1 then p ← vec_at params 1; Ok (inr (paramBufferLen p))
  else Ok (inl ERR_TASK_PARAM_POSTPARAM_EXCEED).

(** An error code, or the size of the data; the callbacks of the web module are
    not null. *)
Definition taskParamCheck (url : str) (task_type : TASK_TYPE) (postParams : option (list POST_PARAM)) (options : OPTIONS) :
    outcome (Z + Z) :=
  if bool_decide (url = []) then Ok (inl ERR_TASK_PARAM_URL)
  else
    r ← match task_type with
        | TASK_UPLOAD | TASK_QUERY =>
            match postParams with
            | None => Ok (inl ERR_TASK_PARAM_POSTPARAM_NONE)
            | Some ps => check_params ps 0
            end
        | TASK_BINARY =>
            match postParams with
            | None => Ok (inl ERR_TASK_PARAM_POSTPARAM_NONE)
            | Some ps => check_binary ps
            end
        | _ => Ok (inr 0)
        end;
    match r with
    | inl err => Ok (inl err)
    | inr n => if (endSize options <? startSize options) && negb (endSize options =? 0)
               then Ok (inl ERR_TASK_OPTION_SIZE_INVALID) else Ok (inr n)
    end.

(** ** The array of tasks *)

(** What the caller sets in a new task. *)
Record TTask := mkTask {
  t_url : str;
  t_type : TASK_TYPE;
  t_useProxy : bool;
  t_postParams : option (list POST_PARAM);
  t_postDataSize : Z;
  t_options : OPTIONS;
  t_del : bool
}.

Definition MAX_TASKQUE_SIZE : Z := 1024.
Definition MAX_RUN_TASK : Z := 32.

(** [taskQue] has [MAX_TASKQUE_SIZE] entries; those not in the map are NULL. *)
Record TTransferWorker := mkWorker {
  taskQue : gmap Z TTask;
  curPos : Z;
  maxPos : Z;
  w_maxRunTaskNum : Z;
  w_stop : bool
}.

Definition TTransferWorker_new (in_maxRunTaskNum : Z) : TTransferWorker := mkWorker ∅ 0 0 in_maxRunTaskNum false.

(** The loop of [findTaskPos] from position [i]. *)
Fixpoint find_pos (fuel : nat) (i : Z) (w : TTransferWorker) : outcome (option Z) :=
  match fuel with
  | O => Fault NoFuel
  | S fuel =>
      match taskQue w !! i with
      | None => Ok (Some i)
      | Some _ =>
          let i := if i + 1 =? MAX_TASKQUE_SIZE then 0 else i + 1 in
          if i =? curPos w then Ok None else find_pos fuel i w
      end
  end.

Definition findTaskPos (w : TTransferWorker) : outcome (option Z * TTransferWorker) :=
  r ← find_pos (Z.to_nat MAX_TASKQUE_SIZE) (curPos w) w;
  Ok (r, match r with
         | Some i => mkWorker (taskQue w) ((i + 1) mod MAX_TASKQUE_SIZE) (if maxPos w <? i then i else maxPos w)
                       (w_maxRunTaskNum w) (w_stop w)
         | None => w
         end).

Definition put_task (i : Z) (t : TTask) (w : TTransferWorker) : TTransferWorker :=
  mkWorker (<[i := t]> (taskQue w)) (curPos w) (maxPos w) (w_maxRunTaskNum w) (w_stop w).

(** The end of a task; its socket is not part of the model. *)
Definition clearTaskInfo (taskid : Z) (w : TTransferWorker) : TTransferWorker :=
  mkWorker (base.delete taskid (taskQue w)) (curPos w) (maxPos w) (w_maxRunTaskNum w) (w_stop w).

Record TranferManager := mkManager {
  mgrStarted : bool;
  useProxy : bool;
  maxRunTaskNum : Z;
  pWorker : option TTransferWorker
}.

Definition TranferManager_new : TranferManager := mkManager false false MAX_RUN_TASK None.

Definition setMaxRunningTaskNum (n : Z) (m : TranferManager) : Z * TranferManager :=
  (maxRunTaskNum m, mkManager (mgrStarted m) (useProxy m) n (pWorker m)).

(** [start], when the sockets and the thread could be started. *)
Definition start (m : TranferManager) : Z * TranferManager :=
  if mgrStarted m then (ERR_TASK_ALREADY_STARTED, m)
  else (0, mkManager true (useProxy m) (maxRunTaskNum m) (Some (TTransferWorker_new (maxRunTaskNum m)))).

Definition with_worker (w : TTransferWorker) (m : TranferManager) : TranferManager :=
  mkManager (mgrStarted m) (useProxy m) (maxRunTaskNum m) (Some w).

Definition mgr_addTask (url : str) (task_type : TASK_TYPE) (postParams : option (list POST_PARAM)) (options : OPTIONS)
    (m : TranferManager) : outcome (Z * TranferManager) :=
  r ← taskParamCheck url task_type postParams options;
  match r with
  | inl err => Ok (- err, m)
  | inr postDataSize =>
      if negb (mgrStarted m) then Ok (- ERR_TASK_MGR_NOT_START, m)
      else
        params ← match postParams with None => Ok None | Some ps => c ← copy_params ps; Ok (Some c) end;
        w ← deref (pWorker m);
        r ← findTaskPos w;
        match r with
        | (None, w) => Ok (- ERR_TASK_FULL, with_worker w m)
        | (Some taskPos, w) =>
            Ok (taskPos, with_worker (put_task taskPos (mkTask url task_type (useProxy m) params postDataSize options false) w) m)
        end
  end.

Definition mark_deleted (t : TTask) : TTask :=
  mkTask (t_url t) (t_type t) (t_useProxy t) (t_postParams t) (t_postDataSize t) (t_options t) true.

(** Only ids that [addTask] returned are given. *)
Definition mgr_cancelTask (taskID : Z) (m : TranferManager) : outcome (Z * TranferManager) :=
  if negb (mgrStarted m) then Ok (ERR_TASK_MGR_NOT_START, m)
  else
    w ← deref (pWorker m);
    if (taskID <? 0) || (MAX_TASKQUE_SIZE <=? taskID) then Fault OutOfRange
    else match taskQue w !! taskID with
    | Some t => Ok (0, with_worker (put_task taskID (mark_deleted t) w) m)
    | None => Ok (ERR_TASK_NOT_EXIST, m)
    end.

Definition mgr_clear (m : TranferManager) : outcome (Z * TranferManager) :=
  if negb (mgrStarted m) then Ok (ERR_TASK_MGR_NOT_START, m)
  else
    w ← deref (pWorker m);
    Ok (0, with_worker (mkWorker (mark_deleted <$> taskQue w) (curPos w) (maxPos w) (w_maxRunTaskNum w) (w_stop w)) m).

(** The worker ends by itself later. *)
Definition mgr_stop (m : TranferManager) : outcome (Z * TranferManager) :=
  let ret := if mgrStarted m then 0 else ERR_TASK_MGR_NOT_START in
  match pWorker m with
  | None => Ok (ret, m)
  | Some _ => r ← mgr_clear m; Ok (ret, mkManager false (useProxy m) (maxRunTaskNum m) None)
  end.

End Manager.

(** ** What the web module uses *)

Class TransferManager (T : Type) := {
  addTask : str -> TASK_TYPE -> option (list POST_PARAM) -> OPTIONS -> T -> outcome (Z * T);
  cancelTask : Z -> T -> outcome (Z * T)
}.

Definition TranferManager_ops (file_size : str -> option Z) : TransferManager TranferManager := {|
  addTask := mgr_addTask file_size;
  cancelTask := mgr_cancelTask
|}.
