(* ===== verification/HttpRequest.v ===== *)
(** * HTTP requests

    src/Utility/HttpClient: the header lists ([THttpMsg], [HttpHdrs]), the headers of
    a task ([TTask::setHttpHeader]) and the buffer that is sent
    ([TTask::generateSendDataBuffer], [THttpCli::BuildHttpRequest]).

    Buffers are lists of bytes with bounded writes (Memory), so that an overrun is
    a fault.  Fresh memory has any content and allocation succeeds.  A task and its
    client keep two equal copies of the URL; the model has one.  The copy of the
    first line that is kept for the log is left out. *)
From stdpp Require Import prelude.
From Stdlib Require Import ZArith Lia String.
From S2P Require Import Prelude Memory Strings MimeTypes Transfer Json Base64 Url.

(** ** Header lists *)

Abbreviation THttpHdr := (str * str)%type.

(** [_stricmp( a, b ) == 0] *)
Definition same_key (a b : str) : bool := bool_decide (map to_lower (c_str a) = map to_lower (c_str b)).

Fixpoint SetHdr (strKey strVal : str) (hdrs : list THttpHdr) : list THttpHdr :=
  match hdrs with
  | [] => [(strKey, strVal)]
  | (k, v) :: hdrs => if same_key strKey k then (k, strVal) :: hdrs else (k, v) :: SetHdr strKey strVal hdrs
  end.

Definition SetHdrDuplicate (strKey strVal : str) (hdrs : list THttpHdr) : list THttpHdr := hdrs ++ [(strKey, strVal)].

(** The value of a key, empty when there is none. *)
Fixpoint GetHdr (strKey : str) (hdrs : list THttpHdr) : str :=
  match hdrs with
  | [] => []
  | (k, v) :: hdrs => if same_key strKey k then v else GetHdr strKey hdrs
  end.

(** The value of the [index]-th header with a key, from 1. *)
Fixpoint GetHdr_index (strKey : str) (index i : Z) (hdrs : list THttpHdr) : str :=
  match hdrs with
  | [] => []
  | (k, v) :: hdrs =>
      if same_key strKey k then if i =? index then v else GetHdr_index strKey index (i + 1) hdrs
      else GetHdr_index strKey index i hdrs
  end.

Fixpoint DeleteHdr (strKey : str) (hdrs : list THttpHdr) : list THttpHdr :=
  match hdrs with
  | [] => []
  | (k, v) :: hdrs => if same_key strKey k then hdrs else (k, v) :: DeleteHdr strKey hdrs
  end.

Definition hdr_len (h : THttpHdr) : Z := len (fst h) + 2 + len (snd h) + 2.

Definition GetAllHdrLen (hdrs : list THttpHdr) : Z := foldr (fun h n => hdr_len h + n) 0 hdrs.

(** ** Formatted output *)

(** A format whose directives are all [%s]. *)
Fixpoint fmt (t : str) (args : list str) : str :=
  match t with
  | 37 :: 115 :: t => match args with a :: args => a ++ fmt t args | [] => fmt t [] end
  | c :: t => c :: fmt t args
  | [] => []
  end.

Definition sprintf_at (buf : list Z) (pos : Z) (text : str) : outcome (list Z) := pokes buf pos (text ++ [0]).

(** [_snprintf( buf + pos, n, .. )]: a text that does not fit is cut and not ended. *)
Definition snprintf_at (buf : list Z) (pos n : Z) (text : str) : outcome (list Z) :=
  if len text <? n then sprintf_at buf pos text else pokes buf pos (take (Z.to_nat n) text).

(** ** The headers of a task *)

Inductive HTTPDOWN_ProxyType := HTTPDOWN_PROXY_HTTP | HTTPDOWN_PROXY_SOCK4 | HTTPDOWN_PROXY_SOCK5 | HTTPDOWN_PROXY_BUTT.

#[global] Instance HTTPDOWN_ProxyType_eq_dec : EqDecision HTTPDOWN_ProxyType.
Proof. solve_decision. Defined.

Record Proxy_t := mkProxy {
  px_type : HTTPDOWN_ProxyType;
  px_host : str;
  px_user : str;
  px_pwd : str;
  px_domain : str;
  px_port : Z
}.

Definition DEFAULT_USER : str := lit "anonymous".
Definition DEFAULT_PASSWD : str := lit "galaxyfxstar@gmail.com".
Definition LINE_BUFFER : Z := 1024.
Definition MAX_BUFFER_LEN : Z := 64000.

Definition BuildAcceptHdr : list THttpHdr -> list THttpHdr := SetHdr (lit "Accept") (lit "*/*").
Definition BuildUserAgentHdr : list THttpHdr -> list THttpHdr :=
  SetHdr (lit "User-Agent") (lit "Mozilla/4.0(compatible;MSIE 5.00;Windows 98)").
Definition BuildConnectionHdr : list THttpHdr -> list THttpHdr := SetHdr (lit "Connection") (lit "Close").

(** The text in the array is used as a string. *)
Definition BuildHostHdr (host : option str) (port : Z) (hdrs : list THttpHdr) : outcome (list THttpHdr) :=
  h ← snprintf_text 1024 (shown host ++ (if port =? 80 then [] else lit ":" ++ StringHelper.ConvertFromInt port));
  Ok (SetHdr (lit "Host") h hdrs).

Definition BuildContentType (postBoundary : str) (hdrs : list THttpHdr) : outcome (list THttpHdr) :=
  t ← snprintf_text 128 (lit "multipart/form-data; boundary=" ++ drop 2 postBoundary);
  Ok (SetHdr (lit "Content-Type") t hdrs).

(** [%lu] prints 32 bits. *)
Definition BuildContentLengthHdr (contentLength : Z) (hdrs : list THttpHdr) : list THttpHdr :=
  SetHdr (lit "Content-Length") (StringHelper.ConvertFromInt (u32 contentLength)) hdrs.

(** Positions of type [off_t]. *)
Definition BuildRangeHdr (StartPos EndPos : Z) (hdrs : list THttpHdr) : list THttpHdr :=
  SetHdr (lit "Range")
    (lit "bytes=" ++ StringHelper.ConvertFromInt StartPos ++ lit "-" ++
     (if EndPos =? -1 then [] else StringHelper.ConvertFromInt EndPos)) hdrs.

Definition BuildBasicAuthHdr (UserName Password : option str) (hdrs : list THttpHdr) : list THttpHdr :=
  SetHdr (lit "Authorization") (Encode (c_str (default DEFAULT_USER UserName) ++ lit ":" ++ c_str (default DEFAULT_PASSWD Password))) hdrs.

Definition BuildProxyAuthHdr (UserName Password : str) (hdrs : list THttpHdr) : list THttpHdr :=
  SetHdr (lit "Proxy-Authorization") (Encode (c_str UserName ++ lit ":" ++ c_str Password)) hdrs.

Definition BuildNtlmAuthHdr (szcode : str) : list THttpHdr -> list THttpHdr := SetHdr (lit "Proxy-Authorization") szcode.

Section Request.

(** The boundary of the parts, the proxy, and what [processNtlmAuth] answers, which
    asks Windows. *)
Context (postBoundary : str) (proxy : option Proxy_t) (negotiate : str).

Definition setHttpHeader (u : URL) (t : TTask) (httpHdrs : list THttpHdr) : outcome (list THttpHdr) :=
  let hdrs := foldl (fun hdrs h => SetHdrDuplicate (c_str (fst h)) (c_str (snd h)) hdrs) [] httpHdrs in
  let hdrs := BuildAcceptHdr hdrs in
  hdrs ← match t_type t with
         | TASK_UPLOAD | TASK_QUERY =>
             hdrs ← BuildContentType postBoundary hdrs;
             hdrs ← BuildHostHdr (host u) (port u) (BuildUserAgentHdr hdrs);
             Ok (BuildContentLengthHdr (t_postDataSize t) hdrs)
         | TASK_BINARY =>
             hdrs ← BuildHostHdr (host u) (port u) (BuildUserAgentHdr hdrs);
             Ok (BuildContentLengthHdr (t_postDataSize t) hdrs)
         | TASK_DOWNLOAD =>
             hdrs ← BuildHostHdr (host u) (port u) (BuildUserAgentHdr hdrs);
             let o := t_options t in
             Ok (if (startSize o =? 0) && (endSize o =? 0) then hdrs
                 else BuildRangeHdr (i32 (startSize o)) (if endSize o =? 0 then -1 else i32 (endSize o)) hdrs)
         | TASK_HEAD => BuildHostHdr (host u) (port u) (BuildUserAgentHdr hdrs)
         end;
  match proxy with
  | Some p =>
      if bool_decide (px_type p = HTTPDOWN_PROXY_HTTP) then
        if bool_decide (px_domain p = []) then
          let hdrs := BuildBasicAuthHdr (user u) (password u) hdrs in
          Ok (BuildConnectionHdr (if bool_decide (px_user p = []) then hdrs else BuildProxyAuthHdr (px_user p) (px_pwd p) hdrs))
        else Ok (BuildConnectionHdr (SetHdrDuplicate (lit "Proxy-Connection") (lit "Close") (BuildNtlmAuthHdr negotiate hdrs)))
      else Ok (BuildConnectionHdr hdrs)
  | None => Ok (BuildConnectionHdr hdrs)
  end.

(** ** The buffer of a request *)

Definition HTTP_METHOD_GET_TEMPLATE : str := lit "GET %s HTTP/1.0" ++ crlf.
Definition HTTP_METHOD_POST_TEMPLATE : str := lit "POST %s HTTP/1.0" ++ crlf.
Definition HTTP_METHOD_HEAD_TEMPLATE : str := lit "HEAD %s HTTP/1.0" ++ crlf.
Definition HTTP_METHOD_CONNECT_TEMPLATE : str := lit "CONNECT %s HTTP/1.0" ++ crlf.

Inductive THttpVerb := VERB_HEAD | VERB_GET | VERB_POST | VERB_CONNECT | VERB_NONE.

#[global] Instance THttpVerb_eq_dec : EqDecision THttpVerb.
Proof. solve_decision. Defined.

Definition RET_NO_FILE : Z := 21.
Definition RET_FILE_READ : Z := 23.
Definition RET_FILE_CANNOT_OPEN : Z := 24.
Definition RET_FILE_CHANGED : Z := 25.

(** [malloc] and [realloc]; the size of a file, if it exists; its content, if it can
    be opened, and whether reading it ends in an error. *)
Context (malloc : Z -> list Z) (file_size : str -> option Z) (open_file : str -> option (list Z * bool)).

(** The request buffer with its size, the position in it, and the temporary buffer. *)
Record builder := mkBuilder {
  szBuffer : list Z;
  bufferlen : Z;
  pos : Z;
  tempBuf : list Z
}.

(** [char tempBuf[MAX_BUFFER_LEN] = {0}] *)
Definition zero_temp : list Z := replicate (Z.to_nat MAX_BUFFER_LEN) 0.

Definition checkBufLen (needSize : Z) (b : builder) : builder :=
  if bufferlen b <? needSize
  then mkBuilder (szBuffer b ++ malloc (bufferlen b)) (u64 (bufferlen b * 2)) (pos b) (tempBuf b)
  else b.

(** Bytes copied to the request buffer. *)
Definition append (bs : list Z) (b : builder) : outcome builder :=
  s ← pokes (szBuffer b) (pos b) bs; Ok (mkBuilder s (bufferlen b) (pos b + len bs) (tempBuf b)).

(** Lines printed one behind the other into the temporary buffer. *)
Definition print_temp (texts : list str) (b : builder) : outcome (Z * builder) :=
  for_each (fun '(temppos, b) text =>
      t ← sprintf_at (tempBuf b) temppos text; Ok (temppos + len text, mkBuilder (szBuffer b) (bufferlen b) (pos b) t))
    (0, b) texts.

(** The first [temppos] bytes of the temporary buffer, copied to the request. *)
Definition flush (temppos : Z) (b : builder) : outcome builder :=
  bs ← peeks (tempBuf b) 0 temppos; append bs b.

(** The loop over [fread] calls. *)
Fixpoint copy_file (fuel : nat) (data : list Z) (b : builder) : outcome builder :=
  match fuel, data with
  | S fuel, _ :: _ =>
      let piece := take (Z.to_nat MAX_BUFFER_LEN) data in
      t ← pokes (tempBuf b) 0 piece;
      b ← append piece (mkBuilder (szBuffer b) (bufferlen b) (pos b) t);
      copy_file fuel (drop (Z.to_nat MAX_BUFFER_LEN) data) b
  | _, _ => Ok b
  end.

Definition build_text (p : POST_PARAM) (b : builder) : outcome (Z + builder) :=
  name ← c_text (paramName p);
  text ← c_text (paramBuffer p);
  r ← print_temp [postBoundary ++ crlf; fmt POSTPARAM_TEMPLATE_TEXT [name]; text ++ crlf] b;
  let '(temppos, b) := r in
  b ← flush temppos (checkBufLen (pos b + temppos) b);
  Ok (inr b).

Definition build_file (p : POST_PARAM) (b : builder) : outcome (Z + builder) :=
  name ← c_text (paramName p);
  file ← c_text (paramBuffer p);
  mime ← getMimeType file;
  r ← print_temp [postBoundary ++ crlf; fmt POSTPARAM_TEMPLATE_FILE [name; file; mime]] b;
  let '(temppos, b) := r in
  match file_size file with
  | None => Ok (inl RET_NO_FILE)
  | Some filesize =>
      if (0 <? paramBufferLen p) && (filesize <=? paramBufferLen p) then Ok (inl RET_FILE_READ)
      else
        let neadSize := if 0 <? paramBufferLen p then filesize - paramBufferLen p else filesize in
        b ← flush temppos (checkBufLen (pos b + temppos + neadSize) b);
        match open_file file with
        | None => Ok (inl RET_FILE_CANNOT_OPEN)
        | Some (content, error) =>
            let data := drop (Z.to_nat (paramBufferLen p)) content in
            b ← copy_file (S (List.length data)) data b;
            if (error : bool) then Ok (inl RET_FILE_READ)
            else b ← append crlf b; Ok (inr b)
        end
  end.

Definition build_binary (p : POST_PARAM) (b : builder) : outcome (Z + builder) :=
  name ← c_text (paramName p);
  r ← print_temp [postBoundary ++ crlf; fmt POSTPARAM_TEMPLATE_BINARY [name]] b;
  let '(temppos, b) := r in
  b ← flush temppos b;
  bs ← c_memcpy (paramBufferLen p) (paramBuffer p);
  b ← append bs b;
  s ← sprintf_at (szBuffer b) (pos b) crlf;
  Ok (inr (mkBuilder s (bufferlen b) (pos b + 2) (tempBuf b))).

Definition build_param (p : POST_PARAM) (b : builder) : outcome (Z + builder) :=
  match paramType p with
  | PARAM_TEXT => build_text p b
  | PARAM_FILENAME => build_file p b
  | PARAM_BINARY => build_binary p b
  end.

Fixpoint build_params (ps : list POST_PARAM) (b : builder) : outcome (Z + builder) :=
  match ps with
  | [] =>
      r ← print_temp [postBoundary ++ lit "--" ++ crlf] b;
      let '(temppos, b) := r in
      b ← flush temppos (checkBufLen (pos b + temppos) b);
      Ok (inr b)
  | p :: ps =>
      r ← build_param p b;
      match r with inl ret => Ok (inl ret) | inr b => build_params ps b end
  end.

(** What stands in the request line. *)
Definition request_target (u : URL) : outcome str := deref (match proxy with Some _ => url u | None => path u end).

Definition method_template (verb : THttpVerb) : str :=
  match verb with
  | VERB_GET => HTTP_METHOD_GET_TEMPLATE
  | VERB_POST => HTTP_METHOD_POST_TEMPLATE
  | VERB_CONNECT => HTTP_METHOD_CONNECT_TEMPLATE
  | VERB_HEAD => HTTP_METHOD_HEAD_TEMPLATE
  | VERB_NONE => []
  end.

(** [sites] of [VERB_CONNECT], behind a proxy with the port. *)
Definition connect_target (u : URL) : outcome str :=
  target ← request_target u;
  match proxy with
  | Some _ =>
      let sites := target ++ lit ":" ++ StringHelper.ConvertFromInt (u32 (port u)) in
      if len sites <? LINE_BUFFER - 2 then Ok sites else Fault OutOfRange
  | None => Ok target
  end.

(** The buffer with the request line, and the position behind it. *)
Definition build_method (verb : THttpVerb) (u : URL) (buffer : list Z) : outcome (list Z * Z) :=
  match verb with
  | VERB_NONE => Ok (buffer, 0)
  | _ =>
      target ← match verb with VERB_CONNECT => connect_target u | _ => request_target u end;
      s ← snprintf_at buffer 0 1024 (fmt (method_template verb) [target]);
      Ok (s, len (method_template verb) - 2 + len target)
  end.

Definition build_header (b : builder) (h : THttpHdr) : outcome builder :=
  s ← snprintf_at (szBuffer b) (pos b) LINE_BUFFER (c_str (fst h) ++ lit ": " ++ c_str (snd h) ++ crlf);
  Ok (mkBuilder s (bufferlen b) (pos b + hdr_len h) (tempBuf b)).

(** An error, or the buffer, its size and the length of the data. *)
Definition BuildHttpRequest (verb : THttpVerb) (u : URL) (hdrs : list THttpHdr) (buffer : list Z) (size : Z)
    (postParams : option (list POST_PARAM)) (task_type : TASK_TYPE) : outcome (Z + (list Z * Z * Z)) :=
  if bool_decide (hdrs = []) then Ok (inr (buffer, size, 0))
  else
    r ← build_method verb u buffer;
    let b := mkBuilder (fst r) size (snd r) zero_temp in
    b ← for_each build_header b hdrs;
    s ← sprintf_at (szBuffer b) (pos b) crlf;
    let b := mkBuilder s (bufferlen b) (pos b + 2) (tempBuf b) in
    r ← if bool_decide (verb = VERB_POST) then
          ps ← deref postParams;
          if bool_decide (task_type = TASK_BINARY) then
            p ← vec_at ps 0;
            bs ← c_memcpy (paramBufferLen p) (paramBuffer p);
            b ← append bs b; Ok (inr b)
          else build_params ps b
        else Ok (inr b);
    match r with
    | inl ret => Ok (inl ret)
    | inr b => Ok (inr (szBuffer b, bufferlen b, pos b))
    end.

Definition task_verb (ty : TASK_TYPE) : THttpVerb :=
  match ty with TASK_DOWNLOAD => VERB_GET | TASK_HEAD => VERB_HEAD | _ => VERB_POST end.

(** An error, or the buffer and the length of the data. *)
Definition generateSendDataBuffer (u : URL) (t : TTask) (hdrs : list THttpHdr) : outcome (Z + (list Z * Z)) :=
  target ← request_target u;
  let methodlen := len (method_template (task_verb (t_type t))) - 2 + len target in
  let requestBufferSize := u64 (methodlen + GetAllHdrLen hdrs + len crlf + t_postDataSize t + 1) in
  r ← BuildHttpRequest (task_verb (t_type t)) u hdrs (malloc requestBufferSize) requestBufferSize
        (match task_verb (t_type t) with VERB_POST => t_postParams t | _ => None end) (t_type t);
  match r with
  | inl ret => Ok (inl ret)
  | inr (buffer, size, requestSize) =>
      if size =? requestBufferSize then Ok (inr (buffer, requestSize)) else Ok (inl RET_FILE_CHANGED)
  end.

End Request.

(** [getPostBoundary]: a number of 16 hexadecimal digits made of the time. *)
Fixpoint hex_digits (n : nat) (z : Z) (acc : str) : str :=
  match n with
  | O => acc
  | S n => hex_digits n (z / 16) ((if z mod 16 <? 10 then 48 + z mod 16 else 87 + z mod 16) :: acc)
  end.

Definition getPostBoundary (cur_time : Z) : str := take (List.length BROUNDARY - 16) BROUNDARY ++ hex_digits 16 (u32 cur_time) [].

(** ** Looking up headers *)

Lemma same_key_refl k : same_key k k = true.
Proof. unfold same_key. by apply bool_decide_eq_true_2. Qed.

Lemma GetHdr_set k v hdrs : GetHdr k (SetHdr k v hdrs) = v.
Proof.
  induction hdrs as [|[k' v'] hdrs IH]; simpl; [by rewrite same_key_refl|].
  destruct (same_key k k') eqn:E; simpl; by rewrite E.
Qed.

Lemma GetHdr_other k k' v hdrs : same_key k k' = false -> GetHdr k (SetHdr k' v hdrs) = GetHdr k hdrs.
Proof.
  intros Hk. induction hdrs as [|[k1 v1] hdrs IH]; simpl; [by rewrite Hk|]. destruct (same_key k' k1) eqn:E; simpl.
  - assert (same_key k k1 = false) as ->; [|done]. unfold same_key in *. rewrite bool_decide_eq_true in E.
    rewrite bool_decide_eq_false in Hk. apply bool_decide_eq_false. congruence.
  - by rewrite IH.
Qed.

Lemma SetHdr_not_nil k v hdrs : SetHdr k v hdrs <> [].
Proof. destruct hdrs as [|[k' v'] hdrs]; simpl; [done|]. by destruct (same_key k k'). Qed.

Lemma GetHdr_dup k k' v hdrs : same_key k k' = false -> GetHdr k (SetHdrDuplicate k' v hdrs) = GetHdr k hdrs.
Proof.
  intros Hk. unfold SetHdrDuplicate. induction hdrs as [|[k1 v1] hdrs IH]; simpl; [by rewrite Hk|].
  by destruct (same_key k k1); [|rewrite IH].
Qed.

(** ** Buffers that hold a text *)

Definition holds (n : Z) (text buf : list Z) : Prop := len buf = n /\ exists junk, buf = text ++ junk.

Lemma holds_append n text buf bs : holds n text buf -> len text + len bs <= n ->
  exists buf', pokes buf (len text) bs = Ok buf' /\ holds n (text ++ bs) buf'.
Proof.
  intros [Hn [junk ->]] Hl. unfold len in *. rewrite length_app in Hn.
  exists (text ++ bs ++ drop (List.length bs) junk). split.
  - rewrite <- (take_drop (List.length bs) junk) at 1. apply pokes_mid; [done|]. rewrite length_take. lia.
  - split; [unfold len; rewrite !length_app, length_drop; lia|]. exists (drop (List.length bs) junk). by rewrite app_assoc.
Qed.

Lemma holds_sprintf n text buf s : holds n text buf -> len text + len s + 1 <= n ->
  exists buf', sprintf_at buf (len text) s = Ok buf' /\ holds n (text ++ s) buf'.
Proof.
  intros H Hl. unfold sprintf_at. destruct (holds_append n text buf (s ++ [0]) H) as (buf' & E & Hn & junk & Hb).
  { unfold len in *. rewrite length_app. simpl. lia. }
  exists buf'. split; [done|]. split; [done|]. exists (0 :: junk). by rewrite Hb, <- !app_assoc.
Qed.

Lemma holds_snprintf n text buf k s : holds n text buf -> len text + len s + 1 <= n -> len s < k ->
  exists buf', snprintf_at buf (len text) k s = Ok buf' /\ holds n (text ++ s) buf'.
Proof.
  intros H Hl Hk. unfold snprintf_at. rewrite (proj2 (Z.ltb_lt _ _) Hk). by apply holds_sprintf.
Qed.

Lemma len_app a b : len (a ++ b) = len a + len b.
Proof. unfold len. rewrite length_app. lia. Qed.

Lemma len_nonneg a : 0 <= len a.
Proof. unfold len. lia. Qed.

(** A request buffer of [n] bytes that holds a text up to the position. *)
Definition building (n : Z) (text : str) (b : builder) : Prop :=
  bufferlen b = n /\ holds n text (szBuffer b) /\ pos b = len text /\ len (tempBuf b) = MAX_BUFFER_LEN.

Section Building.

Context (bnd : str) (malloc : Z -> list Z) (n : Z).

Lemma append_building text b bs : building n text b -> len text + len bs <= n ->
  exists b', append bs b = Ok b' /\ building n (text ++ bs) b'.
Proof.
  intros (Hn & Hh & Hp & Ht) Hl. unfold append. rewrite Hp. destruct (holds_append n text (szBuffer b) bs Hh Hl) as (s & -> & Hs).
  rewrite Ok_bind. eexists. split; [done|]. split_and!; try done. simpl. by rewrite len_app.
Qed.

Lemma print_temp_lines texts b : bufferlen b = n -> len (tempBuf b) = MAX_BUFFER_LEN -> len (mjoin texts) + 1 <= MAX_BUFFER_LEN ->
  exists b', print_temp texts b = Ok (len (mjoin texts), b') /\ szBuffer b' = szBuffer b /\ bufferlen b' = n /\ pos b' = pos b /\
    holds MAX_BUFFER_LEN (mjoin texts) (tempBuf b').
Proof.
  intros Hn Ht Hl. unfold print_temp. change 0 with (len []).
  assert (H : forall texts done b, bufferlen b = n -> holds MAX_BUFFER_LEN done (tempBuf b) -> len done + len (mjoin texts) + 1 <= MAX_BUFFER_LEN ->
    exists b', for_each (fun '(temppos, b) text =>
        t ← sprintf_at (tempBuf b) temppos text; Ok (temppos + len text, mkBuilder (szBuffer b) (bufferlen b) (pos b) t)) (len done, b) texts =
      Ok (len (done ++ mjoin texts), b') /\ szBuffer b' = szBuffer b /\ bufferlen b' = n /\ pos b' = pos b /\
      holds MAX_BUFFER_LEN (done ++ mjoin texts) (tempBuf b')).
  { clear. induction texts as [|text texts IH]; intros done b Hn Hh Hl; cbn [for_each].
    - simpl. rewrite app_nil_r. by exists b.
    - simpl in Hl. rewrite len_app in Hl. pose proof (len_nonneg (mjoin texts)).
      destruct (holds_sprintf _ done (tempBuf b) text Hh ltac:(lia)) as (t & -> & Ht). rewrite !Ok_bind, <- len_app.
      destruct (IH (done ++ text) (mkBuilder (szBuffer b) (bufferlen b) (pos b) t) Hn Ht) as (b' & -> & H1 & H2 & H3 & H4).
      { rewrite len_app. lia. }
      exists b'. simpl. by rewrite <- app_assoc in *. }
  destruct (H texts [] b Hn) as (b' & E & H'); [split; [done|by exists (tempBuf b)]|change (len []) with 0; lia|]. by exists b'.
Qed.

(** Printing lines into the temporary buffer and copying them to the request. *)
Lemma print_flush texts text b need : building n text b -> len (mjoin texts) + 1 <= MAX_BUFFER_LEN -> len text + len (mjoin texts) <= n -> need <= n ->
  exists b1 b2, print_temp texts b = Ok (len (mjoin texts), b1) /\ pos b1 = len text /\ checkBufLen malloc need b1 = b1 /\
    flush (len (mjoin texts)) b1 = Ok b2 /\ building n (text ++ mjoin texts) b2.
Proof.
  intros (Hn & Hh & Hp & Ht) Hl Hroom Hneed. destruct (print_temp_lines texts b Hn Ht Hl) as (b1 & E & H1 & H2 & H3 & Hlen & junk & Hj).
  assert (Hb1 : building n text b1) by (split_and!; [done|by rewrite H1|by rewrite H3|done]).
  destruct (append_building text b1 (mjoin texts) Hb1 Hroom) as (b2 & E2 & Hb2). exists b1, b2. split_and!; try done.
  - by rewrite H3.
  - unfold checkBufLen. by rewrite H2, (proj2 (Z.ltb_ge _ _)).
  - unfold flush. rewrite Hj. rewrite (peeks_at _ [] (mjoin texts) junk 0) by done. by rewrite Ok_bind.
Qed.

Lemma copy_file_building fuel data text b : (List.length data < fuel)%nat -> building n text b -> len text + len data <= n ->
  exists b', copy_file fuel data b = Ok b' /\ building n (text ++ data) b'.
Proof.
  revert data text b. induction fuel as [|fuel IH]; intros data text b Hf Hb Hl; [lia|]. cbn [copy_file].
  destruct data as [|c data]; [rewrite app_nil_r; by exists b|]. cbv zeta. set (d := c :: data) in *. set (piece := take (Z.to_nat MAX_BUFFER_LEN) d).
  assert (Hp : len piece <= MAX_BUFFER_LEN) by (unfold piece, len; rewrite length_take; unfold MAX_BUFFER_LEN; lia).
  assert (Hd : d = piece ++ drop (Z.to_nat MAX_BUFFER_LEN) d) by (unfold piece; by rewrite take_drop).
  assert (Hlen : len d = len piece + len (drop (Z.to_nat MAX_BUFFER_LEN) d)) by (rewrite <- len_app; by rewrite <- Hd).
  destruct Hb as (Hn & Hh & Hpos & Ht).
  destruct (holds_append MAX_BUFFER_LEN [] (tempBuf b) piece) as (t & Et & Htl & _); [split; [done|by exists (tempBuf b)]|change (len []) with 0; lia|].
  change (len []) with 0 in Et. rewrite Et, Ok_bind.
  pose proof (len_nonneg (drop (Z.to_nat MAX_BUFFER_LEN) d)).
  destruct (append_building text (mkBuilder (szBuffer b) (bufferlen b) (pos b) t) piece) as (b1 & -> & Hb1); [by split_and!|lia|]. rewrite Ok_bind.
  destruct (IH (drop (Z.to_nat MAX_BUFFER_LEN) d) (text ++ piece) b1) as (b2 & -> & Hb2); [|done|rewrite len_app; lia|].
  - rewrite length_drop. unfold d, MAX_BUFFER_LEN in *. simpl List.length in *. lia.
  - exists b2. split; [done|]. by rewrite <- app_assoc, <- Hd in Hb2.
Qed.

End Building.

(** ** The body of a request *)

Section Body.

Context (bnd : str) (malloc : Z -> list Z) (file_size : str -> option Z) (open_file : str -> option (list Z * bool)).

(** The bytes that an argument stands for: its fields are C strings, its lines fit
    the temporary buffer, and a file has the size it is said to have. *)
Inductive param_body (p : POST_PARAM) : str -> Prop :=
| body_text name text :
    paramType p = PARAM_TEXT -> c_text (paramName p) = Ok name -> name <> [] -> c_text (paramBuffer p) = Ok text ->
    len (bnd ++ crlf ++ fmt POSTPARAM_TEMPLATE_TEXT [name] ++ text ++ crlf) < MAX_BUFFER_LEN ->
    param_body p (bnd ++ crlf ++ fmt POSTPARAM_TEMPLATE_TEXT [name] ++ text ++ crlf)
| body_binary name :
    paramType p = PARAM_BINARY -> c_text (paramName p) = Ok name -> name <> [] -> paramBufferLen p = len (paramBuffer p) ->
    paramBuffer p <> [] -> len (bnd ++ crlf ++ fmt POSTPARAM_TEMPLATE_BINARY [name]) < MAX_BUFFER_LEN ->
    param_body p (bnd ++ crlf ++ fmt POSTPARAM_TEMPLATE_BINARY [name] ++ paramBuffer p ++ crlf)
| body_file name file mime content :
    paramType p = PARAM_FILENAME -> c_text (paramName p) = Ok name -> name <> [] -> c_text (paramBuffer p) = Ok file -> file <> [] ->
    getMimeType file = Ok mime -> file_size file = Some (len content) -> open_file file = Some (content, false) ->
    (paramBufferLen p = 0 \/ 0 < paramBufferLen p < len content) ->
    len (bnd ++ crlf ++ fmt POSTPARAM_TEMPLATE_FILE [name; file; mime]) < MAX_BUFFER_LEN ->
    param_body p (bnd ++ crlf ++ fmt POSTPARAM_TEMPLATE_FILE [name; file; mime] ++ drop (Z.to_nat (paramBufferLen p)) content ++ crlf).

Lemma file_part (content : str) l : l = 0 \/ 0 < l < len content -> len (drop (Z.to_nat l) content) = if 0 <? l then len content - l else len content.
Proof.
  intros Hl. unfold len in *. rewrite length_drop. destruct (Z.ltb_spec 0 l); lia.
Qed.

Lemma fmt_plain s args : 37 ∉ s -> fmt s args = s.
Proof.
  induction s as [|c s IH]; intros H; [done|]. apply not_elem_of_cons in H as [Hc Hs]. specialize (IH Hs).
  destruct (Z.eq_dec c 37) as [->|Hn]; [done|].
  assert (E : fmt (c :: s) args = c :: fmt s args) by (destruct c as [|c|c]; try done; do 6 (destruct c as [c|c|]; try done)).
  by rewrite E, IH.
Qed.

Lemma fmt_arg pre suf a args : 37 ∉ pre -> fmt (pre ++ 37 :: 115 :: suf) (a :: args) = pre ++ a ++ fmt suf args.
Proof.
  induction pre as [|c pre IH]; intros H; [done|]. apply not_elem_of_cons in H as [Hc Hs]. specialize (IH Hs). cbn [app].
  assert (E : forall t, fmt (c :: t) (a :: args) = c :: fmt t (a :: args)).
  { intros t. destruct c as [|c|c]; try done. do 6 (destruct c as [c|c|]; try done). }
  by rewrite E, IH.
Qed.

Lemma not_elem_dec (c : Z) (s : str) : bool_decide (c ∉ s) = true -> c ∉ s.
Proof. apply bool_decide_eq_true. Qed.

Lemma c_memcpy_whole (b : list Z) : c_memcpy (len b) b = Ok b.
Proof. unfold c_memcpy, len. rewrite Z.ltb_irrefl, Nat2Z.id, take_ge by done. done. Qed.

(** The length of a line that is printed from a template. *)
Lemma template_lengths name file mime :
  len (fmt POSTPARAM_TEMPLATE_TEXT [name]) = len POSTPARAM_TEMPLATE_TEXT - 2 + len name /\
  len (fmt POSTPARAM_TEMPLATE_BINARY [name]) = len POSTPARAM_TEMPLATE_BINARY - 2 * 1 + len name /\
  len (fmt POSTPARAM_TEMPLATE_FILE [name; file; mime]) = len POSTPARAM_TEMPLATE_FILE - 2 * 3 + len name + len file + len mime.
Proof.
  split_and!.
  - change POSTPARAM_TEMPLATE_TEXT with (take 38 POSTPARAM_TEMPLATE_TEXT ++ 37 :: 115 :: drop 40 POSTPARAM_TEMPLATE_TEXT) at 1.
    rewrite fmt_arg by by apply not_elem_dec. rewrite fmt_plain by by apply not_elem_dec. rewrite !len_app.
    change (len POSTPARAM_TEMPLATE_TEXT) with 45. change (len (take 38 _)) with 38. change (len (drop 40 _)) with 5. lia.
  - change POSTPARAM_TEMPLATE_BINARY with (take 38 POSTPARAM_TEMPLATE_BINARY ++ 37 :: 115 :: drop 40 POSTPARAM_TEMPLATE_BINARY) at 1.
    rewrite fmt_arg by by apply not_elem_dec. rewrite fmt_plain by by apply not_elem_dec. rewrite !len_app.
    change (len (take 38 _)) with 38. set (d := len (drop 40 _)). vm_compute in d. subst d. set (l := len POSTPARAM_TEMPLATE_BINARY). vm_compute in l. subst l. lia.
  - change POSTPARAM_TEMPLATE_FILE with (take 38 POSTPARAM_TEMPLATE_FILE ++ 37 :: 115 :: take 13 (drop 40 POSTPARAM_TEMPLATE_FILE) ++
      37 :: 115 :: take 17 (drop 55 POSTPARAM_TEMPLATE_FILE) ++ 37 :: 115 :: drop 74 POSTPARAM_TEMPLATE_FILE) at 1.
    rewrite !fmt_arg by by apply not_elem_dec. rewrite fmt_plain by by apply not_elem_dec. rewrite !len_app.
    change (len (take 38 _)) with 38. change (len (take 13 _)) with 13. change (len (take 17 _)) with 17.
    set (d := len (drop 74 _)). vm_compute in d. subst d. set (l := len POSTPARAM_TEMPLATE_FILE). vm_compute in l. subst l. lia.
Qed.

(** [taskParamCheck] counts exactly the bytes of an argument. *)
Lemma check_param_body p body : len bnd = len BROUNDARY -> param_body p body -> check_param file_size p = Ok (inr (len body)).
Proof.
  intros Hbnd Hb. destruct Hb as [name text Ty En Hn Et Hl|name Ty En Hn El Hne Hl|name file mime content Ty En Hn Ef Hf Em Es Eo Hlen Hl];
    unfold check_param; rewrite En, Ok_bind, bool_decide_eq_false_2, Ty by done.
  - rewrite andb_false_r, Et, Ok_bind. do 2 f_equal. rewrite !len_app, (proj1 (template_lengths name [] [])). lia.
  - rewrite (proj2 (Z.eqb_neq (paramBufferLen p) 0)) by (rewrite El; destruct (paramBuffer p); [done|unfold len; simpl; lia]).
    cbn [andb]. do 2 f_equal. rewrite El, !len_app, (proj1 (proj2 (template_lengths name [] []))). lia.
  - rewrite andb_false_r, Ef, Ok_bind, bool_decide_eq_false_2, Es by done.
    replace ((0 <? paramBufferLen p) && (len content <=? paramBufferLen p)) with false by lia.
    rewrite Em, Ok_bind. do 2 f_equal. rewrite !len_app, file_part, (proj2 (proj2 (template_lengths name file mime))) by done. lia.
Qed.

(** An argument is written to the request buffer as its bytes. *)
Lemma build_param_body n text b p body : param_body p body -> building n text b -> len text + len body + 1 <= n ->
  exists b', build_param bnd malloc file_size open_file p b = Ok (inr b') /\ building n (text ++ body) b'.
Proof.
  intros Hb Hbuild Hroom. unfold build_param.
  destruct Hb as [name txt Ty En Hn Et Hl|name Ty En Hn El Hne Hl|name file mime content Ty En Hn Ef Hf Em Es Eo Hlen Hl]; rewrite Ty.
  - unfold build_text. rewrite En, Et, !Ok_bind.
    set (lines := [bnd ++ crlf; fmt POSTPARAM_TEMPLATE_TEXT [name]; txt ++ crlf]).
    assert (E : mjoin lines = bnd ++ crlf ++ fmt POSTPARAM_TEMPLATE_TEXT [name] ++ txt ++ crlf) by (simpl; by rewrite app_nil_r, <- !app_assoc).
    destruct (print_flush malloc n lines text b (len text + len (mjoin lines)) Hbuild) as (b1 & b2 & -> & Hp & Hc & Hf & Hb2); [rewrite E; lia..|].
    rewrite Ok_bind, Hp, Hc, Hf, Ok_bind. rewrite E in Hb2. eauto.
  - unfold build_binary. rewrite En, Ok_bind. set (lines := [bnd ++ crlf; fmt POSTPARAM_TEMPLATE_BINARY [name]]).
    assert (E : mjoin lines = bnd ++ crlf ++ fmt POSTPARAM_TEMPLATE_BINARY [name]) by (simpl; by rewrite app_nil_r, <- !app_assoc).
    rewrite !len_app in *. pose proof (len_nonneg (paramBuffer p)). change (len crlf) with 2 in *.
    destruct (print_flush malloc n lines text b 0 Hbuild) as (b1 & b2 & -> & Hp & Hc & Hf & Hb2);
      [rewrite E, !len_app; change (len crlf) with 2; lia..|pose proof (len_nonneg text); pose proof (len_nonneg bnd); pose proof (len_nonneg (fmt POSTPARAM_TEMPLATE_BINARY [name])); lia|].
    rewrite Ok_bind, Hf, Ok_bind. rewrite El. change (Z.of_nat (List.length (paramBuffer p))) with (len (paramBuffer p)).
    rewrite c_memcpy_whole, Ok_bind.
    destruct (append_building n (text ++ mjoin lines) b2 (paramBuffer p) Hb2) as (b3 & -> & Hn3 & Hh3 & Hp3 & Ht3);
      [rewrite E, !len_app; change (len crlf) with 2; lia|]. rewrite Ok_bind, Hp3.
    destruct (holds_sprintf n ((text ++ mjoin lines) ++ paramBuffer p) (szBuffer b3) crlf Hh3) as (s & -> & Hs);
      [rewrite E, !len_app; change (len crlf) with 2; lia|]. rewrite Ok_bind. eexists. split; [done|].
    rewrite E, <- !app_assoc in Hs. split_and!; [done|done| |done]. cbn [pos]. rewrite E, !len_app. change (len crlf) with 2. lia.
  - unfold build_file. rewrite En, Ok_bind, Ef, Ok_bind, Em, Ok_bind. set (lines := [bnd ++ crlf; fmt POSTPARAM_TEMPLATE_FILE [name; file; mime]]).
    assert (E : mjoin lines = bnd ++ crlf ++ fmt POSTPARAM_TEMPLATE_FILE [name; file; mime]) by (simpl; by rewrite app_nil_r, <- !app_assoc).
    set (data := drop (Z.to_nat (paramBufferLen p)) content) in *. pose proof (file_part content _ Hlen) as Hpart. fold data in Hpart.
    assert (Etot : len (bnd ++ crlf ++ fmt POSTPARAM_TEMPLATE_FILE [name; file; mime] ++ data ++ crlf) = len (mjoin lines) + len data + 2)
      by (rewrite E, !len_app; change (len crlf) with 2; lia).
    rewrite Etot in Hroom. pose proof (len_nonneg data).
    destruct (print_flush malloc n lines text b (len text + len (mjoin lines) + (if 0 <? paramBufferLen p then len content - paramBufferLen p else len content)) Hbuild)
      as (b1 & b2 & -> & Hp & Hc & Hfl & Hb2); [rewrite E; lia|lia|rewrite <- Hpart; lia|].
    rewrite Ok_bind, Es. replace ((0 <? paramBufferLen p) && (len content <=? paramBufferLen p)) with false by lia.
    rewrite Hp, Hc, Hfl, Ok_bind, Eo. fold data.
    destruct (copy_file_building n (S (List.length data)) data (text ++ mjoin lines) b2) as (b3 & -> & Hb3); [lia|done|rewrite len_app; lia|].
    rewrite Ok_bind. destruct (append_building n ((text ++ mjoin lines) ++ data) b3 crlf Hb3) as (b4 & -> & Hb4);
      [rewrite !len_app; change (len crlf) with 2; lia|]. rewrite Ok_bind. exists b4. split; [done|].
    by rewrite E, <- !app_assoc in Hb4.
Qed.

(** The whole body, with its last line. *)
Definition closing : str := bnd ++ lit "--" ++ crlf.

Lemma build_params_body n ps bodies text b : Forall2 param_body ps bodies -> building n text b ->
  len closing < MAX_BUFFER_LEN -> len text + len (mjoin bodies ++ closing) + 1 <= n ->
  exists b', build_params bnd malloc file_size open_file ps b = Ok (inr b') /\ building n (text ++ mjoin bodies ++ closing) b'.
Proof.
  intros H. revert text b. induction H as [|p body ps bodies Hp _ IH]; intros text b Hbuild Hl Hroom; cbn [build_params].
  - change (mjoin [] ++ closing) with closing in *. assert (E : mjoin [bnd ++ lit "--" ++ crlf] = closing) by (simpl; by rewrite app_nil_r).
    destruct (print_flush malloc n [bnd ++ lit "--" ++ crlf] text b (len text + len closing) Hbuild) as (b1 & b2 & E1 & Hp & Hc & Hf & Hb2); [rewrite ?E; lia..|].
    rewrite E in *. rewrite E1, Ok_bind, Hp, Hc, Hf, Ok_bind. eauto.
  - change (mjoin (body :: bodies)) with (body ++ mjoin bodies) in *. rewrite <- app_assoc, len_app in Hroom. pose proof (len_nonneg (mjoin bodies ++ closing)).
    destruct (build_param_body n text b p body Hp Hbuild) as (b1 & -> & Hb1); [lia|]. rewrite Ok_bind.
    destruct (IH (text ++ body) b1 Hb1 Hl) as (b2 & -> & Hb2); [rewrite len_app; lia|]. exists b2. split; [done|]. by rewrite <- !app_assoc in *.
Qed.

Lemma check_params_body ps bodies k : len bnd = len BROUNDARY -> Forall2 param_body ps bodies -> 0 <= k ->
  k + len (mjoin bodies ++ closing) < 2 ^ 64 -> check_params file_size ps k = Ok (inr (k + len (mjoin bodies ++ closing))).
Proof.
  intros Hbnd H. revert k. induction H as [|p body ps bodies Hp _ IH]; intros k Hk Hlt; cbn [check_params].
  - change (mjoin [] ++ closing) with closing in *. unfold closing in *. rewrite !len_app, Hbnd in *. pose proof (len_nonneg BROUNDARY). pose proof (len_nonneg (lit "--")).
    pose proof (len_nonneg crlf). unfold u64. rewrite Z.mod_small by lia. do 2 f_equal.
  - rewrite (check_param_body p body Hbnd Hp), Ok_bind. change (mjoin (body :: bodies)) with (body ++ mjoin bodies) in *.
    rewrite <- app_assoc, len_app in Hlt |- *.
    pose proof (len_nonneg body). pose proof (len_nonneg (mjoin bodies ++ closing)). unfold u64. rewrite Z.mod_small by lia.
    rewrite IH by lia. do 2 f_equal. lia.
Qed.

End Body.

(** ** The whole request *)

(** A header whose texts are C strings and whose line fits its limit. *)
Definition header_ok (h : THttpHdr) : Prop := (0 ∉ fst h) /\ (0 ∉ snd h) /\ hdr_len h < LINE_BUFFER.

Definition header_line (h : THttpHdr) : str := fst h ++ lit ": " ++ snd h ++ crlf.

Definition header_text (hdrs : list THttpHdr) : str := mjoin (map header_line hdrs) ++ crlf.

Lemma header_line_len h : len (header_line h) = hdr_len h.
Proof. unfold header_line, hdr_len. rewrite !len_app. change (len (lit ": ")) with 2. change (len crlf) with 2. lia. Qed.

Lemma header_lines_len hdrs : len (mjoin (map header_line hdrs)) = GetAllHdrLen hdrs.
Proof.
  induction hdrs as [|h hdrs IH]; [done|]. change (mjoin (map header_line (h :: hdrs))) with (header_line h ++ mjoin (map header_line hdrs)).
  by rewrite len_app, IH, header_line_len.
Qed.

Lemma c_str_plain s : 0 ∉ s -> c_str s = s.
Proof.
  induction s as [|c s IH]; intros H; [done|]. apply not_elem_of_cons in H as [Hc Hs]. simpl. destruct (Z.eqb_spec c 0); [by subst|]. by rewrite IH.
Qed.

Lemma build_header_line n h text b : header_ok h -> building n text b -> len text + hdr_len h + 1 <= n ->
  exists b', build_header b h = Ok b' /\ building n (text ++ header_line h) b'.
Proof.
  intros (Hk & Hv & Hlen) (Hn & Hbuf & Hp & Ht) Hroom. unfold build_header. rewrite Hp, !c_str_plain by done.
  destruct (holds_snprintf n text (szBuffer b) LINE_BUFFER (header_line h) Hbuf) as (s & Es & Hs); [rewrite header_line_len; lia..|].
  unfold header_line in Es at 1. rewrite Es, Ok_bind. eexists. split; [done|].
  split_and!; [done|done|simpl; by rewrite len_app, header_line_len|done].
Qed.

Lemma build_headers n hdrs text b : Forall header_ok hdrs -> building n text b -> len text + GetAllHdrLen hdrs + 1 <= n ->
  exists b', for_each build_header b hdrs = Ok b' /\ building n (text ++ mjoin (map header_line hdrs)) b'.
Proof.
  intros H. revert text b. induction H as [|h hdrs Hh Hall IH]; intros text b Hb Hroom; cbn [for_each]; [exists b; by rewrite app_nil_r|].
  change (GetAllHdrLen (h :: hdrs)) with (hdr_len h + GetAllHdrLen hdrs) in Hroom.
  change (mjoin (map header_line (h :: hdrs))) with (header_line h ++ mjoin (map header_line hdrs)).
  assert (Hall0 : 0 <= GetAllHdrLen hdrs) by (rewrite <- header_lines_len; apply len_nonneg).
  destruct (build_header_line n h text b Hh Hb) as (b1 & -> & Hb1); [lia|]. rewrite Ok_bind.
  destruct (IH (text ++ header_line h) b1 Hb1) as (b' & -> & Hb'); [rewrite len_app, header_line_len; lia|].
  exists b'. split; [done|]. by rewrite <- app_assoc in Hb'.
Qed.

Lemma method_line verb target : verb <> VERB_NONE ->
  len (fmt (method_template verb) [target]) = len (method_template verb) - 2 + len target /\ len (method_template verb) <= 22.
Proof.
  assert (H : forall pre suf, 37 ∉ pre -> 37 ∉ suf -> len (fmt (pre ++ 37 :: 115 :: suf) [target]) = len (pre ++ 37 :: 115 :: suf) - 2 + len target).
  { intros pre suf Hp Hs. rewrite fmt_arg, fmt_plain by done. rewrite !len_app. unfold len. simpl. lia. }
  intros Hv. split; [|by destruct verb].
  destruct verb; [apply (H (lit "HEAD ") (lit " HTTP/1.0" ++ crlf))|apply (H (lit "GET ") (lit " HTTP/1.0" ++ crlf))|
    apply (H (lit "POST ") (lit " HTTP/1.0" ++ crlf))|apply (H (lit "CONNECT ") (lit " HTTP/1.0" ++ crlf))|done]; by apply not_elem_dec.
Qed.

Lemma zero_temp_len : len zero_temp = MAX_BUFFER_LEN.
Proof. unfold len, zero_temp. rewrite length_replicate. apply Z2Nat.id. by vm_compute. Qed.

Section Whole.

Context (bnd : str) (proxy : option Proxy_t) (negotiate : str) (malloc : Z -> list Z).
Context (file_size : str -> option Z) (open_file : str -> option (list Z * bool)).
Context (Hmalloc : forall n, 0 <= n -> len (malloc n) = n).

(** The bytes of a request. *)
Definition request_text (verb : THttpVerb) (target : str) (hdrs : list THttpHdr) (body : str) : str :=
  fmt (method_template verb) [target] ++ header_text hdrs ++ body.

(** The request line and the headers. *)
Lemma build_front n verb target hdrs buffer : verb <> VERB_NONE -> len target < 1000 -> Forall header_ok hdrs -> hdrs <> [] ->
  len buffer = n -> len (request_text verb target hdrs []) + 1 <= n ->
  exists s b, snprintf_at buffer 0 1024 (fmt (method_template verb) [target]) = Ok s /\
    for_each build_header (mkBuilder s n (len (method_template verb) - 2 + len target) zero_temp) hdrs = Ok b /\
    exists s', sprintf_at (szBuffer b) (pos b) crlf = Ok s' /\
      building n (request_text verb target hdrs []) (mkBuilder s' (bufferlen b) (pos b + 2) (tempBuf b)).
Proof.
  intros Hv Htgt Hh Hne Hlen Hroom. destruct (method_line verb target Hv) as [Hml Hmt]. unfold request_text, header_text in *.
  rewrite app_nil_r in *. rewrite !len_app, header_lines_len in Hroom. change (len crlf) with 2 in Hroom.
  assert (H0 : 0 <= GetAllHdrLen hdrs) by (rewrite <- header_lines_len; apply len_nonneg).
  destruct (holds_snprintf n [] buffer 1024 (fmt (method_template verb) [target])) as (s & Es & Hs); [by split; [|exists buffer]|change (len []) with 0; lia|lia|].
  change (len []) with 0 in Es. exists s.
  destruct (build_headers n hdrs (fmt (method_template verb) [target])
    (mkBuilder s n (len (method_template verb) - 2 + len target) zero_temp) Hh) as (b & Eb & Hn & Hbuf & Hp & Ht).
  { unfold building. cbn [bufferlen szBuffer pos tempBuf]. split_and!; [reflexivity|exact Hs|by rewrite Hml|exact zero_temp_len]. }
  { lia. }
  exists b. split_and!; [done|done|]. rewrite Hp. destruct (holds_sprintf n _ (szBuffer b) crlf Hbuf) as (s' & Es' & Hs').
  { rewrite len_app, header_lines_len. change (len crlf) with 2. lia. }
  exists s'. split; [done|]. rewrite <- app_assoc in Hs'. split_and!; [done|done| |done]. cbn [pos]. rewrite !len_app, header_lines_len.
  change (len crlf) with 2. lia.
Qed.

(** A task of type query or upload: the body is the arguments, and its size was counted. *)
Lemma post_request_built u t hdrs target ps bodies : len bnd = len BROUNDARY -> t_type t = TASK_QUERY \/ t_type t = TASK_UPLOAD ->
  t_postParams t = Some ps -> Forall2 (param_body bnd file_size open_file) ps bodies ->
  t_postDataSize t = len (mjoin bodies ++ closing bnd) -> Forall header_ok hdrs -> hdrs <> [] -> request_target proxy u = Ok target ->
  len target < 1000 -> len (request_text VERB_POST target hdrs (mjoin bodies ++ closing bnd)) < 2 ^ 32 ->
  exists buffer, generateSendDataBuffer bnd proxy malloc file_size open_file u t hdrs =
      Ok (inr (buffer, len (request_text VERB_POST target hdrs (mjoin bodies ++ closing bnd)))) /\
    exists junk, buffer = request_text VERB_POST target hdrs (mjoin bodies ++ closing bnd) ++ junk.
Proof.
  intros Hbnd Hty Hps Hbodies Hsize Hh Hne Htarget Htl Hlt. set (body := mjoin bodies ++ closing bnd) in *.
  unfold generateSendDataBuffer. rewrite Htarget, Ok_bind.
  assert (Hv : task_verb (t_type t) = VERB_POST) by by destruct Hty as [-> | ->]. rewrite Hv, Hps.
  assert (Hl : len (request_text VERB_POST target hdrs body) = len (method_template VERB_POST) - 2 + len target + GetAllHdrLen hdrs + 2 + len body).
  { unfold request_text, header_text. rewrite !len_app, header_lines_len, (proj1 (method_line VERB_POST target ltac:(done))). change (len crlf) with 2. lia. }
  pose proof (len_nonneg body) as Hb0. pose proof (len_nonneg (request_text VERB_POST target hdrs body)) as Hr0.
  assert (Hg0 : 0 <= GetAllHdrLen hdrs) by (rewrite <- header_lines_len; apply len_nonneg).
  set (n := u64 (len (method_template VERB_POST) - 2 + len target + GetAllHdrLen hdrs + len crlf + t_postDataSize t + 1)).
  assert (Hn : n = len (request_text VERB_POST target hdrs body) + 1).
  { unfold n, u64. rewrite Hsize, Hl. change (len crlf) with 2. rewrite Z.mod_small; lia. }
  assert (Hfront : len (request_text VERB_POST target hdrs []) = len (request_text VERB_POST target hdrs body) - len body).
  { unfold request_text. rewrite !len_app. change (len []) with 0. lia. }
  unfold BuildHttpRequest. rewrite bool_decide_eq_false_2 by done. unfold build_method. rewrite Htarget, Ok_bind.
  destruct (build_front n VERB_POST target hdrs (malloc n)) as (s & b & -> & Eb & s' & Es' & Hb); [done..| |lia|]; [apply Hmalloc; lia|].
  rewrite !Ok_bind. cbv zeta. cbn [fst snd]. rewrite Eb, Ok_bind, Es', Ok_bind. rewrite bool_decide_eq_true_2 by done. cbn [deref]. rewrite Ok_bind.
  rewrite bool_decide_eq_false_2 by by destruct Hty as [-> | ->].
  destruct (build_params_body bnd malloc file_size open_file n ps bodies (request_text VERB_POST target hdrs [])
    (mkBuilder s' (bufferlen b) (pos b + 2) (tempBuf b)) Hbodies Hb) as (b' & -> & Hn' & Hh' & Hp' & _).
  { unfold closing. rewrite !len_app, Hbnd. vm_compute. done. }
  { fold body. lia. }
  rewrite Ok_bind. cbn [mbind outcome_bind]. rewrite Hn', Z.eqb_refl. destruct Hh' as [_ [junk Hj]]. exists (szBuffer b').
  assert (E : request_text VERB_POST target hdrs [] ++ body = request_text VERB_POST target hdrs body)
    by (unfold request_text; by rewrite app_nil_r, <- !app_assoc).
  fold body in Hj, Hp'. rewrite E in *. rewrite Hp'. split; [done|]. by exists junk.
Qed.

(** The length of the body is in the headers of such a task, and there is a header. *)
Lemma setHttpHeader_length u t httpHdrs hdrs : t_type t = TASK_QUERY \/ t_type t = TASK_UPLOAD ->
  setHttpHeader bnd proxy negotiate u t httpHdrs = Ok hdrs ->
  GetHdr (lit "Content-Length") hdrs = StringHelper.ConvertFromInt (u32 (t_postDataSize t)) /\ hdrs <> [].
Proof.
  intros Hty E. unfold setHttpHeader in E. set (h0 := BuildAcceptHdr _) in E.
  assert (E' : exists h1, (match t_type t with
      | TASK_UPLOAD | TASK_QUERY =>
             hdrs ← BuildContentType bnd h0; hdrs ← BuildHostHdr (host u) (port u) (BuildUserAgentHdr hdrs); Ok (BuildContentLengthHdr (t_postDataSize t) hdrs)
      | _ => Fault NoFuel end) = Ok (BuildContentLengthHdr (t_postDataSize t) h1)).
  { destruct Hty as [Hty|Hty]; rewrite Hty in *; destruct (BuildContentType bnd h0) as [h|] eqn:E1; simpl in E |- *; try done;
      destruct (BuildHostHdr _ _ _) as [h2|] eqn:E2; simpl in E |- *; try done; eauto. }
  destruct E' as [h1 E']. assert (E2 : (match proxy with
    | Some p =>
        if bool_decide (px_type p = HTTPDOWN_PROXY_HTTP) then
          if bool_decide (px_domain p = []) then
            let hdrs := BuildBasicAuthHdr (user u) (password u) (BuildContentLengthHdr (t_postDataSize t) h1) in
            Ok (BuildConnectionHdr (if bool_decide (px_user p = []) then hdrs else BuildProxyAuthHdr (px_user p) (px_pwd p) hdrs))
          else Ok (BuildConnectionHdr (SetHdrDuplicate (lit "Proxy-Connection") (lit "Close") (BuildNtlmAuthHdr negotiate (BuildContentLengthHdr (t_postDataSize t) h1))))
        else Ok (BuildConnectionHdr (BuildContentLengthHdr (t_postDataSize t) h1))
    | None => Ok (BuildConnectionHdr (BuildContentLengthHdr (t_postDataSize t) h1))
    end) = Ok hdrs).
  { destruct Hty as [Hty|Hty]; rewrite Hty in *; rewrite E' in E; exact E. }
  clear E E'. unfold BuildConnectionHdr, BuildBasicAuthHdr, BuildProxyAuthHdr, BuildNtlmAuthHdr, BuildContentLengthHdr in E2.
  destruct proxy as [p|]; [destruct (bool_decide (px_type p = _)); [destruct (bool_decide (px_domain p = [])); [destruct (bool_decide (px_user p = []))|]|]|];
    injection E2 as <-; (split; [|apply SetHdr_not_nil]); rewrite ?GetHdr_other, ?GetHdr_dup, ?GetHdr_other by done; apply GetHdr_set.
Qed.

End Whole.

Lemma request_body_len v target hdrs body : len body <= len (request_text v target hdrs body).
Proof.
  unfold request_text. rewrite !len_app. pose proof (len_nonneg (fmt (method_template v) [target])). pose proof (len_nonneg (header_text hdrs)). lia.
Qed.

(** What [taskParamCheck] returned for such a task is what its parameters sum up to. *)
Lemma taskParamCheck_size file_size url ty ps options n k : ty = TASK_QUERY \/ ty = TASK_UPLOAD -> check_params file_size ps 0 = Ok (inr n) ->
  taskParamCheck file_size url ty (Some ps) options = Ok (inr k) -> k = n.
Proof.
  intros Hty E. unfold taskParamCheck. destruct (bool_decide (url = [])); [done|].
  destruct Hty as [-> | ->]; rewrite E, Ok_bind; destruct (_ && _); congruence.
Qed.

(** C14: A POST request is sent whole and inside its buffer: for arguments that
    [taskParamCheck] accepted, with texts, files and binary data in any order, the buffer of
    [generateSendDataBuffer] starts with the request line, the headers of
    [setHttpHeader], an empty line and the multipart body, and the header
    Content-Length has the length of that body. *)
Theorem post_request_exact bnd proxy negotiate malloc file_size open_file u t httpHdrs hdrs target ps bodies :
  (forall n, 0 <= n -> len (malloc n) = n) -> len bnd = len BROUNDARY -> t_type t = TASK_QUERY \/ t_type t = TASK_UPLOAD ->
  t_postParams t = Some ps -> Forall2 (param_body bnd file_size open_file) ps bodies ->
  taskParamCheck file_size (t_url t) (t_type t) (Some ps) (t_options t) = Ok (inr (t_postDataSize t)) ->
  setHttpHeader bnd proxy negotiate u t httpHdrs = Ok hdrs -> Forall header_ok hdrs -> request_target proxy u = Ok target -> len target < 1000 ->
  let body := mjoin bodies ++ closing bnd in
  let request := request_text VERB_POST target hdrs body in
  len request < 2 ^ 32 ->
  (exists buffer junk, generateSendDataBuffer bnd proxy malloc file_size open_file u t hdrs = Ok (inr (buffer, len request)) /\ buffer = request ++ junk) /\
  GetHdr (lit "Content-Length") hdrs = StringHelper.ConvertFromInt (len body).
Proof.
  intros Hm Hbnd Hty Hps Hbodies Hcheck Hhdrs Hh Htarget Htl body request Hlt.
  destruct (setHttpHeader_length bnd proxy negotiate u t httpHdrs hdrs Hty Hhdrs) as [Hcl Hne].
  pose proof (len_nonneg body) as Hb0. pose proof (request_body_len VERB_POST target hdrs body) as Hb1.
  assert (Hbl : 0 <= len body < 2 ^ 32) by (split; [exact Hb0|exact (Z.le_lt_trans _ _ _ Hb1 Hlt)]).
  assert (Hsize : t_postDataSize t = len body).
  { apply (taskParamCheck_size file_size (t_url t) (t_type t) ps (t_options t)); [done| |done].
    rewrite (check_params_body bnd file_size open_file ps bodies 0 Hbnd Hbodies); [by rewrite Z.add_0_l|done|].
    rewrite Z.add_0_l. apply (Z.lt_trans _ (2 ^ 32)); [exact (proj2 Hbl)|reflexivity]. }
  split.
  - destruct (post_request_built bnd proxy malloc file_size open_file Hm u t hdrs target ps bodies Hbnd Hty Hps Hbodies Hsize Hh Hne Htarget Htl Hlt)
      as (buffer & E & junk & Hj). exists buffer, junk. exact (conj E Hj).
  - rewrite Hcl, Hsize, u32_small by exact Hbl. reflexivity.
Qed.

(** A query with a text and a file. *)
Definition sample_boundary : str := getPostBoundary 1325376000.

Definition sample_param (name text : string) (ty : PARAM_TYPE) : POST_PARAM :=
  mkParam (lit name ++ replicate (64 - List.length (lit name)) 0) (lit text ++ [0]) (if bool_decide (ty = PARAM_TEXT) then len (lit text) + 1 else 0) ty.

Definition sample_post : TTask :=
  mkTask (lit "http://example.org/up") TASK_UPLOAD false
    (Some [sample_param "id" "42" PARAM_TEXT; sample_param "icon" "icon.ico" PARAM_FILENAME]) 253 (mkOptions 30 0 0 false) false.

Definition sample_url : URL := mkURL (Some (lit "http://example.org/up")) None None (Some (lit "example.org")) 80 None (Some (lit "up")) (Some (lit "/up")) HTTP.

Definition sample_size (f : str) : option Z := if bool_decide (f = lit "icon.ico") then Some 5 else None.
Definition sample_open (f : str) : option (list Z * bool) := if bool_decide (f = lit "icon.ico") then Some ([0; 0; 1; 0; 255], false) else None.

Definition sample_bodies : list str :=
  [sample_boundary ++ crlf ++ fmt POSTPARAM_TEMPLATE_TEXT [lit "id"] ++ lit "42" ++ crlf;
   sample_boundary ++ crlf ++ fmt POSTPARAM_TEMPLATE_FILE [lit "icon"; lit "icon.ico"; lit "image/x-icon"] ++ drop 0 [0; 0; 1; 0; 255] ++ crlf].

Definition sample_headers : list THttpHdr :=
  Eval vm_compute in match setHttpHeader sample_boundary None [] sample_url sample_post [] with Ok h => h | _ => [] end.

Lemma post_request_exact_witness :
  GetHdr (lit "Content-Length") sample_headers = lit "253" /\
  exists buffer junk, generateSendDataBuffer sample_boundary None (fun n => replicate (Z.to_nat n) 0) sample_size sample_open sample_url sample_post sample_headers =
      Ok (inr (buffer, 479)) /\ buffer = request_text VERB_POST (lit "/up") sample_headers (mjoin sample_bodies ++ closing sample_boundary) ++ junk.
Proof.
  assert (Hm : forall n : Z, 0 <= n -> len (replicate (Z.to_nat n) 0) = n) by (intros n Hn; unfold len; rewrite length_replicate; lia).
  assert (Hb : Forall2 (param_body sample_boundary sample_size sample_open) (default [] (t_postParams sample_post)) sample_bodies).
  { constructor; [|constructor; [|constructor]].
    - apply (body_text sample_boundary sample_size sample_open (sample_param "id" "42" PARAM_TEXT) (lit "id") (lit "42")); by vm_compute.
    - apply (body_file sample_boundary sample_size sample_open (sample_param "icon" "icon.ico" PARAM_FILENAME) (lit "icon") (lit "icon.ico") (lit "image/x-icon") [0; 0; 1; 0; 255]);
        [by vm_compute..|left; reflexivity|by vm_compute]. }
  assert (Hh : Forall header_ok sample_headers).
  { unfold sample_headers. repeat (constructor; [split_and!; [apply (bool_decide_unpack _); by vm_compute..|by vm_compute]|]). constructor. }
  pose proof (post_request_exact sample_boundary None [] (fun n => replicate (Z.to_nat n) 0) sample_size sample_open sample_url sample_post []
    sample_headers (lit "/up") _ sample_bodies Hm eq_refl (or_intror eq_refl) eq_refl Hb) as H.
  specialize (H ltac:(by vm_compute) ltac:(by vm_compute) Hh ltac:(by vm_compute) ltac:(by vm_compute) ltac:(by vm_compute)).
  assert (Hl : len (request_text VERB_POST (lit "/up") sample_headers (mjoin sample_bodies ++ closing sample_boundary)) = 479) by (vm_compute; reflexivity).
  rewrite <- Hl. destruct H as [H1 H2]. split; [|exact H1]. rewrite H2. vm_compute. reflexivity.
Defined.
