(* ===== verification/TransferProofs.v ===== *)
(** * The transfer library: theorems

    Copies of POST arguments, the search for a free position, and the two
    contracts with the web module: [TransferLaws] (calls are safe) and
    [TaskSlots] (positions are given out in turn). *)
From stdpp Require Import prelude gmap.
From Stdlib Require Import ZArith Lia String.
From S2P Require Import Prelude Strings MimeTypes Transfer.

(** ** C strings *)

Lemma c_len_app t r : 0 ∉ t -> c_len (t ++ 0 :: r) = Ok (Z.of_nat (List.length t)).
Proof.
  induction t as [|c t IH]; intros H; [done|]. cbn [app c_len List.length].
  destruct (Z.eqb_spec c 0) as [->|]; [set_solver|]. rewrite IH by set_solver. cbn [mbind outcome_bind]. f_equal. lia.
Qed.

Lemma c_text_app t r : 0 ∉ t -> c_text (t ++ 0 :: r) = Ok t.
Proof.
  intros H. unfold c_text. rewrite c_len_app by done. cbn [mbind outcome_bind].
  rewrite Nat2Z.id, take_app_le by lia. by rewrite take_ge by lia.
Qed.

Lemma c_strncpy_app n t r : 0 ∉ t -> (List.length t < n)%nat -> c_strncpy n (t ++ 0 :: r) = Ok (t ++ replicate (n - List.length t) 0).
Proof.
  revert n. induction t as [|c t IH]; intros n H Hn; (destruct n as [|n]; [cbn in Hn; lia|]); [done|].
  cbn [app c_strncpy List.length] in *. destruct (Z.eqb_spec c 0) as [->|]; [set_solver|].
  rewrite IH by (set_solver || lia). done.
Qed.

Lemma c_memcpy_all b : c_memcpy (Z.of_nat (List.length b)) b = Ok b.
Proof. unfold c_memcpy. rewrite Z.ltb_irrefl, Nat2Z.id, take_ge by done. done. Qed.

(** ** Arguments *)

(** An argument as [add_param] builds it, with a name that fits. *)
Definition param_built (p : POST_PARAM) : Prop :=
  (exists n, (0 ∉ n) /\ (List.length n < MAX_PARAM_NAME_LEN)%nat /\
     paramName p = n ++ replicate (MAX_PARAM_NAME_LEN - List.length n) 0) /\
  match paramType p with
  | PARAM_TEXT => exists t, (0 ∉ t) /\ paramBuffer p = t ++ [0] /\ paramBufferLen p = Z.of_nat (List.length t) + 1
  | PARAM_FILENAME => exists t, (0 ∉ t) /\ paramBuffer p = t ++ [0]
  | PARAM_BINARY => paramBufferLen p = Z.of_nat (List.length (paramBuffer p))
  end.

Lemma name_copied n : 0 ∉ n -> (List.length n < MAX_PARAM_NAME_LEN)%nat ->
  c_strncpy MAX_PARAM_NAME_LEN (n ++ replicate (MAX_PARAM_NAME_LEN - List.length n) 0) =
  Ok (n ++ replicate (MAX_PARAM_NAME_LEN - List.length n) 0).
Proof.
  intros Hn Hl. destruct (MAX_PARAM_NAME_LEN - List.length n)%nat as [|k] eqn:E; [lia|].
  cbn [replicate]. rewrite c_strncpy_app, E by done. done.
Qed.

Lemma text_copied t : 0 ∉ t -> c_memcpy (Z.of_nat (List.length t) + 1) (t ++ [0]) = Ok (t ++ [0]).
Proof.
  intros _. rewrite <- c_memcpy_all. f_equal. rewrite length_app. cbn. lia.
Qed.

Lemma add_param_built p ps : param_built p ->
  add_param (paramName p) (paramBuffer p) (paramBufferLen p) (paramType p) ps = Ok (ps ++ [p]).
Proof.
  destruct p as [name b l ty]. unfold param_built. cbn [paramName paramBuffer paramBufferLen paramType].
  intros [(n & Hn & Hl & ->) H]. unfold add_param. rewrite name_copied by done. cbn [mbind outcome_bind].
  destruct ty.
  - destruct H as (t & Ht & -> & ->). rewrite c_len_app by done. cbn [mbind outcome_bind]. by rewrite text_copied.
  - subst l. by rewrite c_memcpy_all.
  - destruct H as (t & Ht & ->). rewrite c_len_app by done. cbn [mbind outcome_bind]. by rewrite text_copied.
Qed.

Lemma copy_params_built ps : Forall param_built ps -> copy_params ps = Ok ps.
Proof.
  intros H. unfold copy_params. change (Ok ps) with (Ok ([] ++ ps)). generalize (@nil POST_PARAM) as acc.
  induction H as [|p ps Hp _ IH]; intros acc; cbn [for_each]; [by rewrite app_nil_r|].
  rewrite add_param_built by done. cbn [mbind outcome_bind]. rewrite IH. by rewrite <- app_assoc.
Qed.

(** Building arguments gives [param_built] ones. *)
Lemma add_param_builds name buffer bufferLen ty ps :
  Forall param_built ps -> 0 ∉ name -> (List.length name < MAX_PARAM_NAME_LEN)%nat ->
  (if bool_decide (ty = PARAM_BINARY) then 0 <= bufferLen <= Z.of_nat (List.length buffer) else 0 ∈ buffer) ->
  exists ps', add_param (name ++ [0]) buffer bufferLen ty ps = Ok ps' /\ Forall param_built ps'.
Proof.
  intros Hps Hn Hl Hb. unfold add_param. rewrite c_strncpy_app by done. cbn [mbind outcome_bind].
  destruct (decide (ty = PARAM_BINARY)) as [->|Hty].
  - rewrite bool_decide_true in Hb by done. unfold c_memcpy. rewrite (proj2 (Z.ltb_ge _ _)) by lia.
    cbn [mbind outcome_bind]. eexists. split; [done|]. apply Forall_app. split; [done|]. constructor; [|done].
    split; [by exists name|]. cbn [paramType paramBufferLen paramBuffer]. rewrite length_take. lia.
  - rewrite bool_decide_false in Hb by done. apply list_elem_of_split_l in Hb as (t & r & -> & Ht).
    assert (Hcp : c_memcpy (Z.of_nat (List.length t) + 1) (t ++ 0 :: r) = Ok (t ++ [0])).
    { unfold c_memcpy. rewrite (proj2 (Z.ltb_ge _ _)) by (rewrite length_app; cbn; lia). f_equal.
      replace (Z.to_nat (Z.of_nat (List.length t) + 1)) with (List.length t + 1)%nat by lia.
      rewrite take_app_add. by replace (take 1 (0 :: r)) with [0]. }
    destruct ty; [|done|]; (rewrite c_len_app by done; cbn [mbind outcome_bind]; rewrite Hcp; cbn [mbind outcome_bind];
      eexists; split; [done|]; apply Forall_app; split; [done|]; constructor; [|done]; split; [by exists name|]);
      cbn [paramType paramBufferLen paramBuffer]; eauto.
Qed.

(** An argument that [taskParamCheck] looks at inside its bounds: the suffix of
    an uploaded file has to be found. *)
Definition param_ok (p : POST_PARAM) : Prop :=
  param_built p /\
  (paramType p = PARAM_FILENAME -> exists m, getMimeType (take (List.length (paramBuffer p) - 1) (paramBuffer p)) = Ok m).

Lemma name_text p : param_built p -> exists n, c_text (paramName p) = Ok n.
Proof.
  intros [(n & Hn & Hl & ->) _]. destruct (MAX_PARAM_NAME_LEN - List.length n)%nat as [|k] eqn:E; [lia|].
  cbn [replicate]. rewrite c_text_app by done. eauto.
Qed.

Lemma check_param_safe fs p : param_ok p -> exists r, check_param fs p = Ok r.
Proof.
  intros [Hb Hm]. destruct (name_text p Hb) as [n Hn]. unfold check_param. rewrite Hn. cbn [mbind outcome_bind].
  case_bool_decide; [eauto|]. destruct ((paramBufferLen p =? 0) && _); [eauto|].
  destruct Hb as [_ Hb]. destruct (paramType p) eqn:Ety.
  - destruct Hb as (t & Ht & -> & _). rewrite c_text_app by done. cbn [mbind outcome_bind]. eauto.
  - eauto.
  - destruct Hb as (t & Ht & Hbuf), (Hm eq_refl) as [m Hmime]. rewrite Hbuf, c_text_app by done. cbn [mbind outcome_bind].
    replace (take _ (paramBuffer p)) with t in Hmime.
    2:{ rewrite Hbuf, length_app, take_app_le by (cbn; lia). rewrite take_ge; [done|cbn; lia]. }
    case_bool_decide; [eauto|]. destruct (fs t) as [z|]; [|eauto]. destruct (_ && _); [eauto|].
    rewrite Hmime. cbn [mbind outcome_bind]. eauto.
Qed.

Lemma check_params_safe fs ps n : Forall param_ok ps -> exists r, check_params fs ps n = Ok r.
Proof.
  intros H. revert n. induction H as [|p ps Hp _ IH]; intros n; cbn [check_params]; [eauto|].
  destruct (check_param_safe fs p Hp) as [[e|z] ->]; cbn [mbind outcome_bind]; eauto.
Qed.

Lemma taskParamCheck_safe fs url ty params o :
  ty <> TASK_BINARY -> (forall ps, params = Some ps -> Forall param_ok ps) ->
  exists r, taskParamCheck fs url ty params o = Ok r.
Proof.
  intros Hty Hps. unfold taskParamCheck. case_bool_decide; [eauto|].
  assert (Hr : exists r, match ty with
      | TASK_UPLOAD | TASK_QUERY => match params with
          | None => Ok (inl ERR_TASK_PARAM_POSTPARAM_NONE) | Some ps => check_params fs ps 0 end
      | TASK_BINARY => match params with
          | None => Ok (inl ERR_TASK_PARAM_POSTPARAM_NONE) | Some ps => check_binary ps end
      | _ => Ok (inr 0) end = Ok r).
  { destruct ty; [eauto| | |done|eauto]; (destruct params as [ps|]; [|eauto]; apply check_params_safe; auto). }
  destruct Hr as [[e|n] ->]; cbn [mbind outcome_bind]; [eauto|]. destruct (_ && _); eauto.
Qed.

(** ** The search for a free position *)

(** The [k]-th position looked at. *)
Definition slot (w : TTransferWorker) (k : nat) : Z := (curPos w + Z.of_nat k) mod MAX_TASKQUE_SIZE.

Definition worker_ok (w : TTransferWorker) : Prop := 0 <= curPos w < MAX_TASKQUE_SIZE.

Lemma slot_range w k : 0 <= slot w k < MAX_TASKQUE_SIZE.
Proof. apply Z.mod_pos_bound. done. Qed.

Lemma slot_inj w j k : (j < 1024)%nat -> (k < 1024)%nat -> slot w j = slot w k -> j = k.
Proof. unfold slot, MAX_TASKQUE_SIZE. intros Hj Hk H. assert (Z.of_nat j = Z.of_nat k); [|lia]. lia_div. Qed.

Lemma slot_onto w i : 0 <= i < MAX_TASKQUE_SIZE -> exists k, (k < 1024)%nat /\ slot w k = i.
Proof.
  intros Hi. exists (Z.to_nat ((i - curPos w) mod MAX_TASKQUE_SIZE)).
  pose proof (Z.mod_pos_bound (i - curPos w) MAX_TASKQUE_SIZE eq_refl) as Hb. unfold slot, MAX_TASKQUE_SIZE in *. split; [lia|].
  rewrite Z2Nat.id by lia. lia_div.
Qed.

Lemma slot_S w k : worker_ok w -> slot w (S k) = (if slot w k + 1 =? MAX_TASKQUE_SIZE then 0 else slot w k + 1).
Proof.
  unfold slot, worker_ok, MAX_TASKQUE_SIZE. intros H.
  destruct (Z.eqb_spec ((curPos w + Z.of_nat k) mod 1024 + 1) 1024); lia_div.
Qed.

Lemma slot_0 w : worker_ok w -> slot w 0 = curPos w.
Proof. unfold slot, worker_ok, MAX_TASKQUE_SIZE. intros H. rewrite Z.add_0_r. by apply Z.mod_small. Qed.

Lemma find_pos_exact w k : worker_ok w -> (k < 1024)%nat ->
  (find_pos (1024 - k) (slot w k) w = Ok None /\ forall j, (k <= j < 1024)%nat -> taskQue w !! slot w j <> None) \/
  (exists j, find_pos (1024 - k) (slot w k) w = Ok (Some (slot w j)) /\ (k <= j < 1024)%nat /\ taskQue w !! slot w j = None /\
     forall i, (k <= i < j)%nat -> taskQue w !! slot w i <> None).
Proof.
  intros Hw. remember (1024 - k)%nat as f eqn:Ef. revert k Ef. induction f as [|f IH]; intros k Ef Hk; [lia|].
  cbn [find_pos]. destruct (taskQue w !! slot w k) as [t|] eqn:Et.
  2:{ right. exists k. split_and!; [done|lia..|done|]. intros i Hi. lia. }
  rewrite <- slot_S by done. destruct (Z.eqb_spec (slot w (S k)) (curPos w)) as [Hc|Hc].
  - left. split; [done|]. intros j Hj. assert (j = k); [|subst j; by rewrite Et].
    destruct (decide (S k < 1024)%nat); [|lia]. rewrite <- slot_0 in Hc by done. apply slot_inj in Hc; lia.
  - assert (Hk' : (S k < 1024)%nat).
    { destruct (decide (S k = 1024)%nat) as [E|]; [|lia]. exfalso. apply Hc. rewrite E. unfold slot, worker_ok, MAX_TASKQUE_SIZE in *. lia_div. }
    destruct (IH (S k) ltac:(lia) Hk') as [[-> H]|(j & -> & Hj & Hn & H)].
    + left. split; [done|]. intros j Hj. destruct (decide (j = k)) as [->|]; [by rewrite Et|]. apply H. lia.
    + right. exists j. split_and!; [done|lia..|done|]. intros i Hi. destruct (decide (i = k)) as [->|]; [by rewrite Et|]. apply H. lia.
Qed.

(** [findTaskPos] always ends: it returns the first free position at or
    behind [curPos], going round, and moves [curPos] behind it; it fails only
    when all positions are taken, and never touches a task. *)
Theorem findTaskPos_exact w : worker_ok w ->
  exists r w', findTaskPos w = Ok (r, w') /\ worker_ok w' /\ taskQue w' = taskQue w /\
    match r with
    | Some i => exists k, i = slot w k /\ (k < 1024)%nat /\ taskQue w !! i = None /\
                  (forall j, (j < k)%nat -> taskQue w !! slot w j <> None) /\ curPos w' = (i + 1) mod MAX_TASKQUE_SIZE
    | None => w' = w /\ forall i, 0 <= i < MAX_TASKQUE_SIZE -> taskQue w !! i <> None
    end.
Proof.
  intros Hw. unfold findTaskPos. rewrite <- (slot_0 w Hw).
  destruct (find_pos_exact w 0 Hw ltac:(lia)) as [[Hf H]|(k & Hf & Hk & Hn & H)];
    change (Z.to_nat MAX_TASKQUE_SIZE) with (1024 - 0)%nat; rewrite Hf; cbn [mbind outcome_bind].
  - exists None, w. split_and!; try done. intros i Hi. destruct (slot_onto w i Hi) as (k & Hk & <-). apply H. lia.
  - exists (Some (slot w k)). eexists. split; [done|]. cbn [taskQue curPos]. split; [apply Z.mod_pos_bound; done|].
    split; [done|]. exists k. split_and!; [done|lia|done| |done]. intros j Hj. apply H. lia.
Qed.

Lemma findTaskPos_exact_witness :
  let w := mkWorker {[1023 := mkTask [] TASK_DOWNLOAD false None 0 (mkOptions 30 0 0 false) false]} 1023 0 32 false in
  findTaskPos w = Ok (Some 0, mkWorker (taskQue w) 1 0 32 false) /\ exists r w', findTaskPos w = Ok (r, w').
Proof.
  split; [reflexivity|].
  destruct (findTaskPos_exact (mkWorker {[1023 := mkTask [] TASK_DOWNLOAD false None 0 (mkOptions 30 0 0 false) false]} 1023 0 32 false))
    as (r & w' & H & _); [|by exists r, w'].
  split; vm_compute; congruence.
Defined.

Lemma findTaskPos_safe w : worker_ok w ->
  exists r w', findTaskPos w = Ok (r, w') /\ worker_ok w' /\ taskQue w' = taskQue w /\
    (forall i, r = Some i -> 0 <= i < MAX_TASKQUE_SIZE).
Proof.
  intros Hw. unfold findTaskPos. rewrite <- (slot_0 w Hw).
  destruct (find_pos_exact w 0 Hw ltac:(lia)) as [[Hf H]|(k & Hf & Hk & Hn & H)];
    change (Z.to_nat MAX_TASKQUE_SIZE) with (1024 - 0)%nat; rewrite Hf; cbn [mbind outcome_bind].
  - by exists None, w.
  - eexists _, _. split; [done|]. split; [apply Z.mod_pos_bound; done|]. split; [done|].
    intros i [= <-]. apply slot_range.
Qed.

Lemma find_pos_now n i w : taskQue w !! i = None -> find_pos (S n) i w = Ok (Some i).
Proof. intros H. cbn [find_pos]. by rewrite H. Qed.

Lemma fuel_S : exists n, Z.to_nat MAX_TASKQUE_SIZE = S n.
Proof. by exists 1023%nat. Qed.

Lemma find_pos_free w : worker_ok w -> curPos w ∉ dom (taskQue w) ->
  findTaskPos w = Ok (Some (curPos w), mkWorker (taskQue w) ((curPos w + 1) mod MAX_TASKQUE_SIZE)
    (if maxPos w <? curPos w then curPos w else maxPos w) (w_maxRunTaskNum w) (w_stop w)).
Proof.
  intros Hok Hn. apply not_elem_of_dom in Hn. unfold findTaskPos.
  destruct fuel_S as [n ->]. rewrite find_pos_now by assumption. reflexivity.
Qed.

Lemma check_params_error fs ps n e : check_params fs ps n = Ok (inl e) -> 0 < e.
Proof.
  revert n. induction ps as [|p ps IH]; intros n H; cbn [check_params] in H; [discriminate|].
  apply bind_Ok in H as ([z|z] & Hp & H); [|by eapply IH]. injection H as ->. unfold check_param in Hp.
  apply bind_Ok in Hp as (name & _ & Hp). case_bool_decide; [by injection Hp as <-|].
  destruct (_ && _); [by injection Hp as <-|]. destruct (paramType p); [by inv_ok|done|].
  apply bind_Ok in Hp as (file & _ & Hp). case_bool_decide; [by injection Hp as <-|].
  destruct (fs file); [|by injection Hp as <-]. destruct (_ && _); [by injection Hp as <-|]. by inv_ok.
Qed.

Lemma taskParamCheck_error fs url ty params o e : taskParamCheck fs url ty params o = Ok (inl e) -> 0 < e.
Proof.
  unfold taskParamCheck. destruct (bool_decide _); [by intros [= <-]|]. intros H. apply bind_Ok in H as ([z|z] & Hr & H).
  - injection H as ->. destruct ty; try discriminate; (destruct params as [ps|]; [|by injection Hr as <-]).
    + by eapply check_params_error.
    + by eapply check_params_error.
    + unfold check_binary in Hr. destruct (_ =? _); [by inv_ok|by injection Hr as <-].
  - destruct (_ && _); [by injection H as <-|done].
Qed.

(** ** Contracts *)

(** Calls of the library are safe: what [addTask] returns may be given to
    [cancelTask]. *)
Class TransferLaws (T : Type) `{!TransferManager T} := {
  transfer_ok : T -> Prop;
  task_id : Z -> Prop;
  add_safe : forall url ty params o t, transfer_ok t -> ty <> TASK_BINARY ->
    (forall ps, params = Some ps -> Forall param_ok ps) ->
    exists r t', addTask url ty params o t = Ok (r, t') /\ transfer_ok t' /\ (0 <= r -> task_id r);
  cancel_safe : forall i t, transfer_ok t -> task_id i -> exists r t', cancelTask i t = Ok (r, t') /\ transfer_ok t'
}.

(** Tasks sit in positions that are given out in turn; the worker releases a
    position after its last callback. *)
Class TaskSlots (T : Type) `{!TransferManager T} := {
  slots_ok : T -> Prop;
  occupied : T -> gset Z;
  next_pos : T -> Z;
  release : Z -> T -> T;
  add_next : forall url o t, slots_ok t -> url <> [] -> startSize o = 0 -> endSize o = 0 -> next_pos t ∉ occupied t ->
    exists t', addTask url TASK_DOWNLOAD None o t = Ok (next_pos t, t') /\ slots_ok t' /\
      next_pos t' = (next_pos t + 1) mod MAX_TASKQUE_SIZE /\ occupied t' = {[next_pos t]} ∪ occupied t;
  next_range : forall t, slots_ok t -> 0 <= next_pos t < MAX_TASKQUE_SIZE;
  cancel_free : forall i t, slots_ok t -> 0 <= i < MAX_TASKQUE_SIZE -> i ∉ occupied t -> exists r, cancelTask i t = Ok (r, t);
  release_slot : forall i t, slots_ok t -> slots_ok (release i t) /\ next_pos (release i t) = next_pos t /\
    occupied (release i t) = occupied t ∖ {[i]}
}.

Section Instances.
Context (file_size : str -> option Z).

#[local] Instance ops : TransferManager TranferManager := TranferManager_ops file_size.

Definition manager_ok (m : TranferManager) : Prop :=
  mgrStarted m = true -> exists w, pWorker m = Some w /\ worker_ok w.

Lemma mgr_add_safe url ty params o m : manager_ok m -> ty <> TASK_BINARY ->
  (forall ps, params = Some ps -> Forall param_ok ps) ->
  exists r m', mgr_addTask file_size url ty params o m = Ok (r, m') /\ manager_ok m' /\ (0 <= r -> 0 <= r < MAX_TASKQUE_SIZE).
Proof.
  intros Hm Hty Hps. unfold mgr_addTask.
  destruct (taskParamCheck_safe file_size url ty params o Hty Hps) as [[e|n] Hr]; rewrite Hr, Ok_bind.
  - pose proof (taskParamCheck_error _ _ _ _ _ _ Hr). exists (- e), m. split_and!; [done|done|lia].
  - destruct (mgrStarted m) eqn:Es; cbn [negb]; [|exists (- ERR_TASK_MGR_NOT_START), m; split_and!; [done|done|unfold ERR_TASK_MGR_NOT_START; lia]].
    destruct (Hm Es) as (w & Hw & Hok).
    assert (Hc : exists c, match params with None => Ok None | Some ps => c ← copy_params ps; Ok (Some c) end = Ok c).
    { destruct params as [ps|]; [|eauto]. rewrite copy_params_built; [cbn; eauto|].
      eapply Forall_impl; [by apply Hps|]. by intros p []. }
    destruct Hc as [c ->]. rewrite Hw, Ok_bind. cbn [deref]. rewrite Ok_bind.
    destruct (findTaskPos_safe w Hok) as (r & w' & -> & Hok' & Hq & Hr'). rewrite Ok_bind.
    destruct r as [i|].
    + eexists _, _. split; [done|]. split; [|intros _; by apply Hr']. intros _. eexists. split; [done|]. done.
    + eexists _, _. split; [done|]. split; [|unfold ERR_TASK_FULL; lia]. intros _. eexists. split; [done|]. done.
Qed.

Lemma mgr_cancel_safe i m : manager_ok m -> 0 <= i < MAX_TASKQUE_SIZE ->
  exists r m', mgr_cancelTask i m = Ok (r, m') /\ manager_ok m'.
Proof.
  intros Hm Hi. unfold mgr_cancelTask. destruct (mgrStarted m) eqn:Es; cbn [negb]; [|eauto].
  destruct (Hm Es) as (w & Hw & Hok). rewrite Hw. cbn [mbind outcome_bind deref].
  rewrite (proj2 (Z.ltb_ge _ _)), (proj2 (Z.leb_gt _ _)) by lia. cbn [orb].
  destruct (taskQue w !! i); [|eauto]. eexists _, _. split; [done|]. intros _. eexists. split; [done|]. done.
Qed.

#[global] Instance TranferManager_laws : TransferLaws TranferManager.
Proof.
  refine {| transfer_ok := manager_ok; task_id := fun i => 0 <= i < MAX_TASKQUE_SIZE |}.
  - apply mgr_add_safe.
  - apply mgr_cancel_safe.
Defined.

(** ** Positions *)

Definition manager_occupied (m : TranferManager) : gset Z := from_option (fun w => dom (taskQue w)) ∅ (pWorker m).

Definition manager_next (m : TranferManager) : Z := from_option curPos 0 (pWorker m).

(** What the worker does behind the last callback of a task. *)
Definition manager_release (i : Z) (m : TranferManager) : TranferManager :=
  match pWorker m with Some w => with_worker (clearTaskInfo i w) m | None => m end.

Definition manager_running (m : TranferManager) : Prop := mgrStarted m = true /\ exists w, pWorker m = Some w /\ worker_ok w.

Lemma mgr_add_next url o m : manager_running m -> url <> [] -> startSize o = 0 -> endSize o = 0 ->
  manager_next m ∉ manager_occupied m ->
  exists m', mgr_addTask file_size url TASK_DOWNLOAD None o m = Ok (manager_next m, m') /\ manager_running m' /\
    manager_next m' = (manager_next m + 1) mod MAX_TASKQUE_SIZE /\
    manager_occupied m' = {[manager_next m]} ∪ manager_occupied m.
Proof.
  intros (Hs & w & Hw & Hok) Hu Ho1 Ho2. unfold manager_next, manager_occupied. rewrite Hw. cbn [from_option]. intros Hn.
  unfold mgr_addTask, taskParamCheck. rewrite bool_decide_false by done. cbn [mbind outcome_bind].
  rewrite Ho1, Ho2. cbn [Z.ltb andb Z.compare]. rewrite Ok_bind, Hs, Hw. cbn [negb deref]. rewrite !Ok_bind.
  rewrite find_pos_free by done. rewrite Ok_bind. eexists. split; [done|].
  unfold with_worker, put_task. cbn [taskQue curPos pWorker from_option mgrStarted]. split_and!; [split|done|].
  - done.
  - eexists. split; [done|]. apply Z.mod_pos_bound. done.
  - by rewrite dom_insert_L.
Qed.

Lemma mgr_cancel_free i m : manager_running m -> 0 <= i < MAX_TASKQUE_SIZE -> i ∉ manager_occupied m ->
  exists r, mgr_cancelTask i m = Ok (r, m).
Proof.
  intros (Hs & w & Hw & Hok) Hi. unfold mgr_cancelTask, manager_occupied. rewrite Hs, Hw. cbn [from_option negb deref].
  intros Hn%not_elem_of_dom. cbn [mbind outcome_bind].
  rewrite (proj2 (Z.ltb_ge _ _)), (proj2 (Z.leb_gt _ _)), Hn by lia. cbn [orb]. eauto.
Qed.

#[global] Instance TranferManager_slots : TaskSlots TranferManager.
Proof.
  refine {| slots_ok := manager_running; occupied := manager_occupied; next_pos := manager_next; release := manager_release |}.
  - apply mgr_add_next.
  - intros m (_ & w & Hw & Hok). unfold manager_next. by rewrite Hw.
  - apply mgr_cancel_free.
  - intros i m (Hs & w & Hw & Hok). unfold manager_running, manager_release, manager_next, manager_occupied. rewrite Hw.
    cbn [with_worker pWorker mgrStarted from_option clearTaskInfo taskQue curPos]. split_and!; [done| |done|].
    + eexists. split; [done|]. done.
    + by rewrite dom_delete_L.
Defined.

End Instances.
