(* ===== verification/Run.v ===== *)
(** * Stateful computations

    The transfer library (Sockets to Worker) changes objects through pointers and
    calls the operating system at every step; its functions are computations over a
    state, which may fault.  [runs F m Q s] says that [m], started in [s], ends in a
    result and a state that satisfy [Q], or in a fault of [F]; [returns] leaves no fault.
    The lemmas are its rules; [step] applies the one that fits. *)
From stdpp Require Import prelude.
From Stdlib Require Import ZArith Lia.
From S2P Require Import Prelude.

Definition Run (S A : Type) : Type := S -> outcome (A * S).

#[global] Instance Run_ret S : MRet (Run S) := fun A a s => Ok (a, s).

#[global] Instance Run_bind S : MBind (Run S) := fun A B k m s =>
  match m s with
  | Ok (a, s') => k a s'
  | Fault f => Fault f
  end.

Section Operations.
Context {S : Type}.

Definition gets {A} (f : S -> A) : Run S A := fun s => Ok (f s, s).

Definition modify (f : S -> S) : Run S unit := fun s => Ok (tt, f s).

Definition fail {A} (f : fault) : Run S A := fun _ => Fault f.

(** A computation that needs no state. *)
Definition pure {A} (o : outcome A) : Run S A := fun s => match o with Ok a => Ok (a, s) | Fault f => Fault f end.

Definition when (b : bool) (m : Run S unit) : Run S unit := if b then m else mret tt.

End Operations.

(** A computation over a part of the state. *)
Definition zoom {S T A} (get : T -> S) (put : S -> T -> T) (m : Run S A) : Run T A := fun t =>
  match m (get t) with
  | Ok (a, s) => Ok (a, put s t)
  | Fault f => Fault f
  end.

(** A loop over a list, with an early end when the body says so. *)
Fixpoint each {S A R} (body : A -> Run S (option R)) (l : list A) : Run S (option R) :=
  match l with
  | [] => mret None
  | a :: l => r ← body a; match r with Some r => mret (Some r) | None => each body l end
  end.

(** ** Correctness *)

(** The computation ends with a result and a state in [Q], or in a fault of [F]. *)
Definition runs {S A} (F : fault -> Prop) (m : Run S A) (Q : A -> S -> Prop) (s : S) : Prop :=
  match m s with
  | Ok (a, s') => Q a s'
  | Fault f => F f
  end.

Definition no_fault (f : fault) : Prop := False.

Abbreviation returns := (runs no_fault).

Section Rules.
Context {S : Type} (F : fault -> Prop).

Lemma runs_ret {A} (a : A) Q (s : S) : Q a s -> runs F (mret a) Q s.
Proof. done. Qed.

Lemma runs_bind {A B} (m : Run S A) (k : A -> Run S B) Q s :
  runs F m (fun a s => runs F (k a) Q s) s -> runs F (m ≫= k) Q s.
Proof. unfold runs, mbind, Run_bind. by destruct (m s) as [[a s']|f]. Qed.

Lemma runs_impl {A} (m : Run S A) (Q R : A -> S -> Prop) s :
  runs F m Q s -> (forall a s', Q a s' -> R a s') -> runs F m R s.
Proof. unfold runs. destruct (m s) as [[a s']|f]; auto. Qed.

Lemma runs_and {A} (m : Run S A) (Q R : A -> S -> Prop) s :
  runs F m Q s -> runs F m R s -> runs F m (fun a s' => Q a s' /\ R a s') s.
Proof. unfold runs. destruct (m s) as [[a s']|f]; auto. Qed.

Lemma runs_weaken {A} (m : Run S A) Q s : returns m Q s -> runs F m Q s.
Proof. unfold runs. by destruct (m s) as [[a s']|f]. Qed.

Lemma runs_gets {A} (f : S -> A) Q s : Q (f s) s -> runs F (gets f) Q s.
Proof. done. Qed.

Lemma runs_modify (f : S -> S) Q s : Q tt (f s) -> runs F (modify f) Q s.
Proof. done. Qed.

Lemma runs_fail {A} (f : fault) (Q : A -> S -> Prop) s : F f -> runs F (fail f) Q s.
Proof. done. Qed.

Lemma runs_pure {A} (o : outcome A) Q (s : S) :
  (forall a, o = Ok a -> Q a s) -> (forall f, o = Fault f -> F f) -> runs F (pure o) Q s.
Proof. unfold runs, pure. destruct o; auto. Qed.

Lemma runs_when b (m : Run S unit) Q s :
  (b = true -> runs F m Q s) -> (b = false -> Q tt s) -> runs F (when b m) Q s.
Proof. intros Ht Hf. destruct b; [by apply Ht|]. apply runs_ret. by apply Hf. Qed.

Lemma runs_zoom {T A} (get : T -> S) (put : S -> T -> T) (m : Run S A) Q t :
  runs F m (fun a s => Q a (put s t)) (get t) -> runs F (zoom get put m) Q t.
Proof. unfold runs, zoom. by destruct (m (get t)) as [[a s']|f]. Qed.

(** The invariant of a loop that knows the elements still to visit. *)
Lemma runs_each {A R} (body : A -> Run S (option R)) (I : list A -> S -> Prop) Q l s :
  I l s ->
  (forall a l s, I (a :: l) s -> runs F (body a) (fun r s => match r with Some _ => Q r s | None => I l s end) s) ->
  (forall s, I [] s -> Q None s) ->
  runs F (each body l) Q s.
Proof.
  intros H0 Hb Hn. revert s H0. induction l as [|a l IH]; intros s H0; cbn [each].
  - apply runs_ret; auto.
  - apply runs_bind. eapply runs_impl; [by apply Hb|]. intros [r|] s' H; [by apply runs_ret|by apply IH].
Qed.

End Rules.

(** The result of a computation that returns. *)
Lemma returns_Ok {S A} (m : Run S A) Q s : returns m Q s -> exists a s', m s = Ok (a, s') /\ Q a s'.
Proof. unfold runs. destruct (m s) as [[a s']|f]; [eauto|done]. Qed.

(** One step of a computation. *)
Ltac step_basic :=
  lazymatch goal with
  | |- runs _ (_ ≫= _) _ _ => apply runs_bind
  | |- runs _ (mret _) _ _ => apply runs_ret
  | |- runs _ (gets _) _ _ => apply runs_gets
  | |- runs _ (modify _) _ _ => apply runs_modify
  | |- runs _ (zoom _ _ _) _ _ => apply runs_zoom
  end.
