(* ===== verification/Sockets.v ===== *)
(** * Sockets

    src/Utility/HttpClient/src/Socket.cpp: [TSocket] and [TSocketCli] over the calls
    of Winsock, which are the operations of the class [Os] on the state of the
    system.  An error is its code; a call that was interrupted is repeated as part of
    the operation.  The address that [Host2Str] finds is kept as the 32-bit number
    that its dotted text stands for.

    [OsLaws] is what the system promises: a new descriptor is not one in use, and no
    call returns more than it was asked for. *)
From stdpp Require Import prelude gmap.
From Stdlib Require Import ZArith Lia.
From S2P Require Import Prelude Strings Json Transfer Run.

Class Os (E : Type) := {
  sys_time : E -> Z * E;
  sys_socket : E -> Z * E;
  sys_closesocket : Z -> E -> unit * E;
  sys_getaddrinfo : str -> E -> option Z * E;
  (** the descriptor, the address and the port; 0 or an error *)
  sys_connect : Z -> Z -> Z -> E -> Z * E;
  (** [SO_ERROR] *)
  sys_socket_error : Z -> E -> Z * E;
  (** an error, or whether the descriptor can be written (or read) in time *)
  sys_ready : bool -> Z -> E -> (Z + bool) * E;
  sys_send : Z -> list Z -> E -> (Z + Z) * E;
  sys_recv : Z -> Z -> E -> (Z + list Z) * E;
  (** an error, or those that can be read and those that can be written *)
  sys_select : gset Z -> gset Z -> E -> (Z + gset Z * gset Z) * E
}.

Definition EWOULDBLOCK : Z := 10035.
Definition SOCKET_EINTR : Z := 10004.
Definition ETIMEDOUT : Z := 10060.
Definition EAGAIN : Z := 11.
Definition ENODATA : Z := 61.

Definition NOCONERROR : Z := 0.
Definition CONSOCKERR : Z := 3.

Definition MAX_MSG_SIZE : Z := 64000.

(** No descriptor comes or goes, and no more data arrive than were to come. *)
Definition calm {E} (opened : E -> gset Z) (remaining : E -> nat) (e e' : E) : Prop :=
  opened e' = opened e /\ (remaining e' <= remaining e)%nat.

Class OsLaws (E : Type) `{Os E} := {
  (** the descriptors of the library *)
  opened : E -> gset Z;
  (** the number of bytes that the servers are still going to send *)
  remaining : E -> nat;
  time_calm : forall e, calm opened remaining e (snd (sys_time e));
  time_range : forall e, 0 <= fst (sys_time e) < 2 ^ 31;
  socket_opened : forall e fd e', sys_socket e = (fd, e') ->
    (remaining e' <= remaining e)%nat /\
    if 0 <=? fd then (fd ∉ opened e) /\ opened e' = {[fd]} ∪ opened e else opened e' = opened e;
  close_opened : forall fd e, opened (snd (sys_closesocket fd e)) = opened e ∖ {[fd]} /\
    (remaining (snd (sys_closesocket fd e)) <= remaining e)%nat;
  getaddrinfo_calm : forall h e, calm opened remaining e (snd (sys_getaddrinfo h e));
  connect_calm : forall fd a p e, calm opened remaining e (snd (sys_connect fd a p e));
  error_calm : forall fd e, calm opened remaining e (snd (sys_socket_error fd e));
  ready_calm : forall w fd e, calm opened remaining e (snd (sys_ready w fd e));
  send_calm : forall fd bs e, calm opened remaining e (snd (sys_send fd bs e));
  send_size : forall fd bs e n, fst (sys_send fd bs e) = inr n -> 0 <= n <= len bs;
  recv_calm : forall fd n e, calm opened remaining e (snd (sys_recv fd n e));
  recv_size : forall fd n e bs, fst (sys_recv fd n e) = inr bs -> 0 <= n ->
    len bs <= n /\ (remaining (snd (sys_recv fd n e)) + List.length bs <= remaining e)%nat;
  select_calm : forall r w e, calm opened remaining e (snd (sys_select r w e));
  select_ready : forall r w e r' w', fst (sys_select r w e) = inr (r', w') -> r' ⊆ r /\ w' ⊆ w
}.

(** A call of the system. *)
Definition sys {E X A} (f : E -> A * E) : Run (X * E) A := fun s => Ok (fst (f (snd s)), (fst s, snd (f (snd s)))).

Lemma runs_sys {E X A} F (f : E -> A * E) Q (s : X * E) :
  Q (fst (f (snd s))) (fst s, snd (f (snd s))) -> runs F (sys f) Q s.
Proof. done. Qed.

(** Access to the object, beside the system. *)
Definition my {E X A} (f : X -> A) : Run (X * E) A := gets (fun s => f (fst s)).
Definition set {E X} (f : X -> X) : Run (X * E) unit := modify (fun s => (f (fst s), snd s)).

(** A method of a part of the object. *)
Definition part {E X Y A} (get : Y -> X) (put : X -> Y -> Y) : Run (X * E) A -> Run (Y * E) A :=
  zoom (fun s => (get (fst s), snd s)) (fun x s => (put (fst x) (fst s), snd x)).

Lemma runs_my {E X A} F (f : X -> A) Q (s : X * E) : Q (f (fst s)) s -> runs F (my f) Q s.
Proof. done. Qed.

Lemma runs_set {E X} F (f : X -> X) Q (s : X * E) : Q tt (f (fst s), snd s) -> runs F (set f) Q s.
Proof. done. Qed.

Lemma runs_part {E X Y A} F (get : Y -> X) (put : X -> Y -> Y) (m : Run (X * E) A) Q s :
  runs F m (fun a x => Q a (put (fst x) (fst s), snd x)) (get (fst s), snd s) -> runs F (part get put m) Q s.
Proof. intros Hm. unfold part. apply runs_zoom. exact Hm. Qed.

Ltac step :=
  lazymatch goal with
  | |- runs _ (my _) _ _ => apply runs_my; cbn [fst snd]
  | |- runs _ (set _) _ _ => apply runs_set; cbn [fst snd]
  | |- runs _ (sys _) _ _ => apply runs_sys; cbn [fst snd]
  | |- runs _ (part _ _ _) _ _ => apply runs_part; cbn [fst snd]
  | |- _ => step_basic
  end.

Ltac steps := repeat step.

Section Socket.
Context {E : Type} `{Os E}.

(** The state of [TSocket] is [m_sock]. *)
Abbreviation TSocket := (Run (Z * E)).

Definition Close : TSocket unit :=
  m_sock ← my id;
  when (0 <=? m_sock) (sys (sys_closesocket m_sock);; set (fun _ => -1)).

Definition CreateSock : TSocket Z :=
  Close;; fd ← sys sys_socket; set (fun _ => fd);; mret (if fd <? 0 then CONSOCKERR else NOCONERROR).

Definition GetHandle : TSocket Z := m_sock ← my id; mret (if m_sock <? 0 then - ENODATA else m_sock).

Definition Host2Str (hostname : option str) : TSocket (option Z) :=
  match hostname with None => mret None | Some h => sys (sys_getaddrinfo (c_str h)) end.

(** 0 or an error; [inet_addr] follows the pointer. *)
Definition Socket_Connect (ipaddr : option Z) (port : Z) : TSocket Z :=
  ip ← pure (deref ipaddr); sock ← GetHandle; sys (sys_connect sock ip (u16 port)).

Definition Socket_checkConnect : TSocket Z := sock ← GetHandle; sys (sys_socket_error sock).

Definition Recv (size : Z) : TSocket (Z + list Z) :=
  m_sock ← my id; r ← sys (sys_ready false m_sock);
  match r with
  | inl err => mret (inl err)
  | inr false => mret (inl ETIMEDOUT)
  | inr true => sys (sys_recv m_sock size)
  end.

Definition direct_recv (size : Z) : TSocket (Z + list Z) := m_sock ← my id; sys (sys_recv m_sock size).

(** One call of [send], for at most [MAX_MSG_SIZE] bytes. *)
Definition Send (buffer : list Z) : TSocket (Z + Z) :=
  m_sock ← my id; r ← sys (sys_ready true m_sock);
  match r with
  | inl err => mret (inl err)
  | inr false => mret (inl EWOULDBLOCK)
  | inr true => sys (sys_send m_sock (take (Z.to_nat MAX_MSG_SIZE) buffer))
  end.

(** Calls of [send] until all is sent: the result of the last one, 0 when there is
    none. *)
Fixpoint send_all (fuel : nat) (ret : Z + Z) (buffer : list Z) : TSocket (Z + Z) :=
  match fuel, buffer with
  | S fuel, _ :: _ =>
      m_sock ← my id; r ← sys (sys_ready true m_sock);
      match r with
      | inl err => mret (inl err)
      | inr false => mret (inl ETIMEDOUT)
      | inr true =>
          n ← sys (sys_send m_sock (take (Z.to_nat MAX_MSG_SIZE) buffer));
          match n with
          | inr n => if n <=? 0 then mret (inr n) else send_all fuel (inr n) (drop (Z.to_nat n) buffer)
          | inl err => mret (inl err)
          end
      end
  | _, _ => mret ret
  end.

Definition SendAll (buffer : list Z) : TSocket (Z + Z) := send_all (S (List.length buffer)) (inr 0) buffer.

End Socket.

(** ** What the methods do to the descriptors *)

Section Laws.
Context {E : Type} `{OsLaws E}.

Abbreviation still := (calm opened remaining).

Lemma still_refl (e : E) : still e e.
Proof. by split. Qed.

Lemma still_trans (e1 e2 e3 : E) : still e1 e2 -> still e2 e3 -> still e1 e3.
Proof. intros [H1 H2] [H3 H4]. split; [congruence|lia]. Qed.

(** A method that keeps the descriptor and the descriptors of the library. *)
Definition keeps {A} (m : Run (Z * E) A) : Prop := forall F s, runs F m (fun _ s' => fst s' = fst s /\ still (snd s) (snd s')) s.

Lemma keeps_bind {A B} (m : Run (Z * E) A) (k : A -> Run (Z * E) B) : keeps m -> (forall a, keeps (k a)) -> keeps (m ≫= k).
Proof.
  intros Hm Hk F s. apply runs_bind. eapply runs_impl; [apply Hm|]. intros a s1 [E1 E2]. rewrite <- E1.
  eapply runs_impl; [apply Hk|]. intros b s2 [E3 E4]. split; [done|]. by eapply still_trans.
Qed.

Lemma keeps_ret {A} (a : A) : keeps (mret a).
Proof. intros F s. apply runs_ret. split; [done|apply still_refl]. Qed.

Lemma keeps_my {A} (f : Z -> A) : keeps (my f).
Proof. intros F s. apply runs_my. split; [done|apply still_refl]. Qed.

Lemma keeps_sys {A} (f : E -> A * E) : (forall e, still e (snd (f e))) -> keeps (sys f).
Proof. intros Hf F s. apply runs_sys. split; [done|apply Hf]. Qed.

Hint Resolve keeps_bind keeps_ret keeps_my keeps_sys connect_calm error_calm ready_calm recv_calm send_calm getaddrinfo_calm : core.

Lemma GetHandle_keeps : keeps GetHandle.
Proof. unfold GetHandle. eauto. Qed.

Hint Resolve GetHandle_keeps : core.

Lemma Host2Str_keeps h : keeps (Host2Str h).
Proof. destruct h; simpl; eauto. Qed.

Lemma Connect_keeps ip port : keeps (Socket_Connect (Some ip) port).
Proof. intros F s. apply runs_bind, runs_pure; [|done]. intros a [= <-]. eapply keeps_bind; eauto. Qed.

Lemma checkConnect_keeps : keeps Socket_checkConnect.
Proof. unfold Socket_checkConnect. eauto. Qed.

Lemma direct_recv_keeps n : keeps (direct_recv n).
Proof. unfold direct_recv. eauto. Qed.

Lemma Send_keeps bs : keeps (Send bs).
Proof. unfold Send. apply keeps_bind; [eauto|]. intros fd. apply keeps_bind; [eauto|]. intros [err|[]]; eauto. Qed.

(** The descriptor of a socket is not one of the others. *)
Lemma Close_opened F fd (e : E) Q :
  (forall e', opened e' = opened e ∖ (if 0 <=? fd then {[fd]} else ∅) -> (remaining e' <= remaining e)%nat ->
     Q tt (if 0 <=? fd then -1 else fd, e')) ->
  runs F Close Q (fd, e).
Proof.
  intros HQ. unfold Close. steps. apply runs_when; intros Eb; cbn in Eb; rewrite Eb in HQ.
  - steps. apply HQ; apply close_opened.
  - apply HQ; [set_solver|done].
Qed.

Lemma CreateSock_opened F fd (e : E) Q : fd < 0 ->
  (forall fd' e', opened e' = (if 0 <=? fd' then {[fd']} else ∅) ∪ opened e -> (0 <= fd' -> fd' ∉ opened e) ->
     (remaining e' <= remaining e)%nat -> Q (if fd' <? 0 then CONSOCKERR else NOCONERROR) (fd', e')) ->
  runs F CreateSock Q (fd, e).
Proof.
  intros Hfd HQ. unfold CreateSock. step. apply Close_opened. intros e1 E1 R1. rewrite (proj2 (Z.leb_gt 0 fd)) in * by lia.
  steps. destruct (sys_socket e1) as [fd' e'] eqn:Es. cbn [fst snd].
  pose proof (socket_opened _ _ _ Es) as [R2 Ho]. apply HQ; [| |lia]; destruct (Z.leb_spec 0 fd').
  - destruct Ho as [_ ->]. set_solver.
  - set_solver.
  - intros _. destruct Ho as [Ho _]. set_solver.
  - lia.
Qed.

End Laws.

Abbreviation still := (calm opened remaining).

Create HintDb sockets.
#[export] Hint Resolve keeps_bind keeps_ret keeps_my keeps_sys GetHandle_keeps Host2Str_keeps Connect_keeps checkConnect_keeps
  direct_recv_keeps Send_keeps still_refl : sockets.
