(* ===== verification/SockProxy.v ===== *)
(** * SOCKS proxies

    src/Utility/HttpClient/src/SockProxy.cpp: the packets that are sent to a SOCKS
    server, built with a bound check for every byte, and the replies of a SOCKS 5
    server.  The replies of SOCKS 4, which nothing reads, are left out. *)
From stdpp Require Import prelude gmap.
From Stdlib Require Import ZArith Lia.
From S2P Require Import Prelude Memory Strings Json MimeTypes Transfer Run Sockets.

Definition EINVAL : Z := 22.
Definition ENOSPC : Z := 28.
Definition EPERM : Z := 1.
Definition ENOBUFS : Z := 10055.
Definition EPROTO : Z := 10041.

Definition SOCKS_VERS_4 : Z := 4.
Definition SOCKS_VERS_5 : Z := 5.
Definition SOCKS_CMDS_CONNECT : Z := 1.
Definition SOCKS_AUTH_NONE : Z := 0.
Definition SOCKS_AUTH_GSSAPI : Z := 1.
Definition SOCKS_AUTH_PASSWD : Z := 2.
Definition SOCKS_AUTH_CHAP : Z := 3.
Definition SOCKS_AUTH_OK : Z := 0.
Definition SOCKS_REP5_SUCCESS : Z := 0.
Definition SOCKS_ADDR_IPV4ADDR : Z := 1.
Definition SOCKS_ADDR_HOSTNAME : Z := 3.
Definition SOCKS_ADDR_IPV6ADDR : Z := 4.
Definition SOCKS_ADDR_UNKNOWN : Z := 268435456.

(** ** Requests *)

(** Texts are C strings, with their end; addresses of SOCKS 5 hold any bytes. *)
Inductive SOCKS_REQUEST :=
| SOCK4_REQUEST (vers cmds port addr : Z) (user : list Z)
| SOCK4A_REQUEST (vers cmds port addr : Z) (suser shost : list Z)
| SOCK5_REQUEST (vers cmds rsv type : Z) (addr : list Z) (port : Z)
| SOCK5_AUTHREQUEST (vers lauth : Z) (sauth : list Z)
| SOCK5_PASSREQUEST (vers luser : Z) (suser : list Z) (lpass : Z) (spass : list Z).

Definition htons (w : Z) : Z := Z.lor (Z.shiftl (Z.land w 255) 8) (Z.shiftr (u16 w) 8).

(** The two bytes that [htons] puts in order. *)
Definition port_bytes (port : Z) : list Z := let wData := htons port in [Z.land wData 255; Z.land (Z.shiftr wData 8) 255].

Definition addr_bytes (dwData : Z) : list Z :=
  [Z.land dwData 255; Z.land (Z.shiftr dwData 8) 255; Z.land (Z.shiftr dwData 16) 255; Z.land (Z.shiftr dwData 24) 255].

(** The bytes of a SOCKS 5 address. *)
Definition addr_size (type : Z) (addr : list Z) : outcome Z :=
  if type =? SOCKS_ADDR_IPV4ADDR then Ok 4
  else if type =? SOCKS_ADDR_IPV6ADDR then Ok 16
  else if type =? SOCKS_ADDR_HOSTNAME then n ← vec_at addr 0; Ok (1 + u8 n)
  else c_len addr.

(** What [PackGet] appends, in order. *)
Definition packet (pPacket : SOCKS_REQUEST) : outcome (list Z) :=
  match pPacket with
  | SOCK4_REQUEST vers cmds port addr user =>
      user ← c_text user; Ok ([vers; cmds] ++ port_bytes port ++ addr_bytes addr ++ user ++ [0])
  | SOCK4A_REQUEST vers cmds port addr suser shost =>
      suser ← c_text suser; shost ← c_text shost;
      Ok ([vers; cmds] ++ port_bytes port ++ addr_bytes addr ++ suser ++ [0] ++ shost ++ [0])
  | SOCK5_REQUEST vers cmds rsv type addr port =>
      nLen ← addr_size type addr; a ← peeks addr 0 nLen; Ok ([vers; cmds; rsv; type] ++ a ++ port_bytes port)
  | SOCK5_AUTHREQUEST vers lauth sauth => a ← peeks sauth 0 lauth; Ok ([vers; lauth] ++ a)
  | SOCK5_PASSREQUEST vers luser suser lpass spass =>
      u ← peeks suser 0 luser; p ← peeks spass 0 lpass; Ok ([vers; luser] ++ u ++ [lpass] ++ p)
  end.

(** [DATA_APPEND] *)
Definition DATA_APPEND (nSize : Z) (r : Z + list Z) (vch : Z) : Z + list Z :=
  match r with
  | inr pPackBufs => if nSize <=? len pPackBufs then inl (- ENOBUFS) else inr (pPackBufs ++ [u8 vch])
  | inl err => inl err
  end.

Definition PackGet (nSize : Z) (pPacket : SOCKS_REQUEST) : outcome (Z + list Z) :=
  bs ← packet pPacket;
  Ok (match foldl (DATA_APPEND nSize) (inr []) bs with
      | inr b => if nSize <=? len b then inl (- ENOSPC) else inr b
      | inl err => inl err
      end).

Definition PackSize (pPacket : SOCKS_REQUEST) : outcome Z :=
  nLen ← match pPacket with
         | SOCK4_REQUEST _ _ _ _ user => n ← c_len user; Ok (9 + n)
         | SOCK4A_REQUEST _ _ _ _ suser shost => n ← c_len suser; m ← c_len shost; Ok (10 + n + m)
         | SOCK5_REQUEST _ _ _ type addr _ =>
             if type =? SOCKS_ADDR_IPV4ADDR then Ok (6 + 4)
             else if type =? SOCKS_ADDR_IPV6ADDR then Ok (6 + 16)
             else if type =? SOCKS_ADDR_HOSTNAME then n ← vec_at addr 0; Ok (6 + u8 n + 2)
             else n ← c_len addr; Ok (6 + n + 2)
         | SOCK5_AUTHREQUEST _ lauth _ => Ok (4 + lauth)
         | SOCK5_PASSREQUEST _ luser _ lpass _ => Ok (4 + luser + lpass)
         end;
  Ok (nLen + 4).

(** ** Replies *)

Definition SOCKS_PACK_PENDING : Z := 0.
Definition SOCKS_PACK_5REP : Z := 35.
Definition SOCKS_PACK_5AUTHREP : Z := 36.
Definition SOCKS_PACK_5PASSREP : Z := 37.

(** The pointer [sock5.addr]: the constructor leaves it as it is. *)
Inductive address := AddrUnset | AddrNull | AddrBlock (bs : list Z).

(** The structures of the union begin with the version and the status or the
    method of authentication. *)
Record SOCKS_REPLY := mkReply {
  rp_type : Z;
  rp_vers : Z;
  rp_status : Z;
  rp_addr : address
}.

Definition TSockProxy_new : SOCKS_REPLY := mkReply SOCKS_PACK_PENDING 0 0 AddrUnset.

(** [free] of a pointer that was never set *)
Definition RecvDestroy (r : SOCKS_REPLY) : outcome SOCKS_REPLY :=
  if rp_type r =? SOCKS_PACK_5REP then
    match rp_addr r with
    | AddrUnset => Fault Dangling
    | _ => Ok (mkReply SOCKS_PACK_PENDING (rp_vers r) (rp_status r) AddrNull)
    end
  else Ok (mkReply SOCKS_PACK_PENDING (rp_vers r) (rp_status r) (rp_addr r)).

Definition TSockProxy_delete (r : SOCKS_REPLY) : outcome unit :=
  if rp_type r =? SOCKS_PACK_PENDING then Ok tt else RecvDestroy r;; Ok tt.

Definition RecvOK (r : SOCKS_REPLY) : Z :=
  if rp_type r =? SOCKS_PACK_5REP then Z.b2z (rp_status r =? SOCKS_REP5_SUCCESS)
  else if rp_type r =? SOCKS_PACK_5AUTHREP then
    Z.b2z ((rp_status r =? SOCKS_AUTH_NONE) || (rp_status r =? SOCKS_AUTH_GSSAPI) || (rp_status r =? SOCKS_AUTH_PASSWD) || (rp_status r =? SOCKS_AUTH_CHAP))
  else if rp_type r =? SOCKS_PACK_5PASSREP then Z.b2z (rp_status r =? SOCKS_AUTH_OK)
  else - EINVAL.

Section Proxy.
Context {E : Type} `{Os E}.

(** The object and the socket it uses. *)
Abbreviation TSockProxy := (Run ((SOCKS_REPLY * Z) * E)).

Definition m_pSocket {A} (m : Run (Z * E) A) : TSockProxy A := part snd (fun z s => (fst s, z)) m.

(** The size that was sent, or an error or 0. *)
Definition SendPacket (pPacket : SOCKS_REQUEST) : TSockProxy Z :=
  nSize ← pure (PackSize pPacket);
  if nSize <=? 0 then mret (- EINVAL)
  else
    r ← pure (PackGet nSize pPacket);
    match r with
    | inl err => mret err
    | inr b =>
        if len b <=? 0 then mret (- ENODATA)
        else
          ret ← m_pSocket (SendAll b);
          match ret with
          | inl _ => mret (-1)
          | inr n => mret (if n =? len b then n else - ENOSPC)
          end
    end.

Definition Send5Req (cmds type port : Z) (destin : list Z) : TSockProxy Z := SendPacket (SOCK5_REQUEST SOCKS_VERS_5 cmds 0 type destin port).

Definition Send5AuthReq (lauth : Z) (sauth : list Z) : TSockProxy Z := SendPacket (SOCK5_AUTHREQUEST SOCKS_VERS_5 (u8 lauth) sauth).

Definition Send5PassReq (user pass : str) : TSockProxy Z :=
  SendPacket (SOCK5_PASSREQUEST 1 (u8 (len user)) (user ++ [0]) (u8 (len pass)) (pass ++ [0])).

Definition Send4Req (cmds port destin : Z) (user : str) : TSockProxy Z := SendPacket (SOCK4_REQUEST SOCKS_VERS_4 cmds port destin (user ++ [0])).

Definition Send4aReq (cmds port : Z) (host user : str) : TSockProxy Z :=
  SendPacket (SOCK4A_REQUEST SOCKS_VERS_4 cmds port SOCKS_ADDR_UNKNOWN (user ++ [0]) (host ++ [0])).

(** [Recv] and [NSR_PROCESS_SOCKSLEN]: an error, or all the bytes. *)
Definition recv_exact (size : Z) : TSockProxy (Z + list Z) :=
  r ← m_pSocket (Recv size);
  mret (match r with inl _ => inl (-1) | inr bs => if len bs <? size then inl (- EPROTO) else inr bs end).

Definition set_reply (f : SOCKS_REPLY -> SOCKS_REPLY) : TSockProxy unit := set (fun s => (f (fst s), snd s)).

(** The rest of a reply to a request, behind its first four bytes. *)
Definition recv_address (type : Z) : TSockProxy (Z + address) :=
  if type =? SOCKS_ADDR_IPV4ADDR then r ← recv_exact 4; mret (match r with inr bs => inr (AddrBlock bs) | inl e => inl e end)
  else if type =? SOCKS_ADDR_IPV6ADDR then r ← recv_exact 16; mret (match r with inr bs => inr (AddrBlock bs) | inl e => inl e end)
  else if type =? SOCKS_ADDR_HOSTNAME then
    r ← recv_exact 1;
    match r with
    | inl e => mret (inl e)
    | inr bs => n ← pure (vec_at bs 0); r ← recv_exact (u8 n); mret (match r with inr bs => inr (AddrBlock bs) | inl e => inl e end)
    end
  else mret (inr AddrNull).

Definition RecvPacket (nPackType : Z) : TSockProxy Z :=
  r ← my fst;
  r ← (if rp_type r =? SOCKS_PACK_PENDING then mret r else pure (RecvDestroy r));
  set_reply (fun _ => mkReply nPackType (rp_vers r) (rp_status r) (rp_addr r));;
  if nPackType =? SOCKS_PACK_5REP then
    h ← recv_exact 4;
    match h with
    | inl err => mret err
    | inr bs =>
        vers ← pure (vec_at bs 0); status ← pure (vec_at bs 1); type ← pure (vec_at bs 3);
        set_reply (fun r => mkReply (rp_type r) vers status (rp_addr r));;
        if negb (status =? SOCKS_REP5_SUCCESS) then
          set_reply (fun r => mkReply (rp_type r) (rp_vers r) (rp_status r) AddrNull);; mret EPERM
        else
          a ← recv_address type;
          match a with
          | inl err => mret err
          | inr a =>
              set_reply (fun r => mkReply (rp_type r) (rp_vers r) (rp_status r) a);;
              p ← recv_exact 2;
              mret (match p with inl err => err | inr _ => EPERM end)
          end
    end
  else if (nPackType =? SOCKS_PACK_5AUTHREP) || (nPackType =? SOCKS_PACK_5PASSREP) then
    h ← recv_exact 2;
    match h with
    | inl err => mret err
    | inr bs =>
        vers ← pure (vec_at bs 0); status ← pure (vec_at bs 1);
        set_reply (fun r => mkReply (rp_type r) vers status (rp_addr r));; mret EPERM
    end
  else mret (- EINVAL).

End Proxy.

(** ** Packets fit their buffers *)

Lemma peeks_len buf off n bs : 0 <= n -> peeks buf off n = Ok bs -> len bs = n.
Proof.
  unfold peeks, len. intros Hn. destruct (Z.leb_spec 0 off); simpl; [|done].
  destruct (Z.leb_spec (off + n) (Z.of_nat (List.length buf))); simpl; [|done].
  intros [= <-]. rewrite length_take, length_drop. lia.
Qed.

Lemma c_len_nonneg b n : c_len b = Ok n -> 0 <= n.
Proof.
  revert n. induction b as [|c b IH]; intros n; simpl; [done|]. destruct (c =? 0); [intros [= <-]; lia|].
  intros E. inv_ok. specialize (IH _ E0). lia.
Qed.

Lemma c_len_bound b n : c_len b = Ok n -> n <= len b.
Proof.
  revert n. induction b as [|c b IH]; intros n; simpl; [done|]. unfold len in *. destruct (c =? 0); [intros [= <-]; lia|].
  intros E. inv_ok. specialize (IH _ E0). simpl. lia.
Qed.

Lemma c_text_len b t n : c_text b = Ok t -> c_len b = Ok n -> len t = n.
Proof.
  unfold c_text. intros Ht Hn. rewrite Hn in Ht. simpl in Ht. injection Ht as <-.
  pose proof (c_len_nonneg _ _ Hn). pose proof (c_len_bound _ _ Hn). unfold len in *. rewrite length_take. lia.
Qed.

(** The lengths in a packet are not negative. *)
Definition lengths_ok (p : SOCKS_REQUEST) : Prop :=
  match p with
  | SOCK5_AUTHREQUEST _ lauth _ => 0 <= lauth
  | SOCK5_PASSREQUEST _ luser _ lpass _ => 0 <= luser /\ 0 <= lpass
  | _ => True
  end.

Lemma packet_fits p bs n : lengths_ok p -> packet p = Ok bs -> PackSize p = Ok n -> len bs < n.
Proof.
  intros Hp Hb Hn. unfold PackSize in Hn. destruct p; cbn [packet lengths_ok] in *; inv_ok.
  - pose proof (c_text_len _ _ _ E1 E0). unfold len in *. cbn [List.length]. rewrite !length_app. cbn [List.length]. lia.
  - pose proof (c_text_len _ _ _ E2 E0). pose proof (c_text_len _ _ _ E3 E1). unfold len in *. cbn [List.length]. rewrite !length_app. cbn [List.length].
    rewrite !length_app. cbn [List.length]. lia.
  - assert (Ha0 : 0 <= a0 /\ 6 + a0 < a + 4).
    { unfold addr_size in E0. destruct (type =? SOCKS_ADDR_IPV4ADDR); [inv_ok; lia|]. destruct (type =? SOCKS_ADDR_IPV6ADDR); [inv_ok; lia|].
      destruct (type =? SOCKS_ADDR_HOSTNAME); inv_ok.
      - match goal with H1 : vec_at addr 0 = Ok ?x, H2 : vec_at addr 0 = Ok ?y |- _ => rewrite H1 in H2; injection H2 as ->; pose proof (u8_range y) end. lia.
      - match goal with H1 : c_len addr = Ok ?x, H2 : c_len addr = Ok ?y |- _ => rewrite H1 in H2; injection H2 as ->; pose proof (c_len_nonneg _ _ H1) end. lia. }
    pose proof (peeks_len _ _ _ _ (proj1 Ha0) E1). unfold len in *. cbn [List.length]. rewrite length_app. change (List.length (port_bytes port)) with 2%nat. lia.
  - pose proof (peeks_len _ _ _ _ Hp E0). unfold len in *. cbn [List.length]. lia.
  - destruct Hp as [H1 H2]. pose proof (peeks_len _ _ _ _ H1 E0). pose proof (peeks_len _ _ _ _ H2 E1). unfold len in *.
    cbn [List.length]. rewrite length_app. cbn [List.length]. lia.
Qed.

Lemma append_all nSize bs b : len b + len bs <= nSize -> foldl (DATA_APPEND nSize) (inr b) bs = inr (b ++ map u8 bs).
Proof.
  revert b. induction bs as [|c bs IH]; intros b Hl; cbn [foldl map]; [by rewrite app_nil_r|].
  unfold len in *. cbn [List.length] in Hl. unfold DATA_APPEND at 2. unfold len. rewrite (proj2 (Z.leb_gt _ _)) by lia.
  rewrite IH; [by rewrite <- app_assoc|]. rewrite length_app. simpl. lia.
Qed.

(** A packet is built whole in a buffer of its size. *)
Lemma PackGet_whole p bs n : lengths_ok p -> packet p = Ok bs -> PackSize p = Ok n -> PackGet n p = Ok (inr (map u8 bs)).
Proof.
  intros Hp Hb Hn. pose proof (packet_fits p bs n Hp Hb Hn) as Hlt. unfold PackGet. rewrite Hb, Ok_bind, append_all by (change (len []) with 0; lia).
  cbn [app]. unfold len in *. rewrite length_map, (proj2 (Z.leb_gt _ _)) by lia. done.
Qed.
