(* ===== verification/HttpClient.v ===== *)
(** * The HTTP client

    [THttpCli] of src/Utility/HttpClient/src/HttpCli.cpp: connecting to a server or a
    proxy, sending a request, reading the head of a response line by line and its
    body piece by piece.  Its state is a record; its methods are computations over it
    and the system (Run, Sockets).

    The client and its task have equal copies of the URL; the model keeps the one of
    the client.  Logging is left out, and so are [sendNtlmAuthData] and
    [recvNtlmResp], which nothing calls.  The class [Ntlm] is what ntlmproxy.cpp does with
    the security interface of Windows. *)
From stdpp Require Import prelude gmap.
From Stdlib Require Import ZArith Lia String.
From S2P Require Import Prelude Memory Strings Json MimeTypes Transfer Base64 Url HttpRequest Run Sockets SockProxy.

Definition RET_PARSE_RESQ_FAIL : Z := 1.
Definition RET_NEWDIRECTION : Z := 3.
Definition RET_CLOSE : Z := 4.
Definition RET_SOCKET_CREATE_FAIL : Z := 5.
Definition RET_CONNECT_TIMEOUT : Z := 6.
Definition RET_SOCKET_CLOSE : Z := 7.
Definition RET_SOCKET_ERROR : Z := 8.
Definition RET_SOCKET_FINISH : Z := 9.
Definition RET_SOCKET_CONTINUE : Z := 10.
Definition RET_PROXY_BEGIN_AUTH : Z := 11.
Definition RET_PROXY_DOING_AUTH : Z := 12.
Definition RET_PROXY_AUTH_UNSUPPORTED : Z := 13.
Definition RET_NO_SOCKET_READY : Z := 16.
Definition RET_SOCKET_SELECT_FAIL : Z := 15.
Definition RET_SOCKET_HOST_ERROR : Z := 17.
Definition RET_PROXY_RESQ_CHECK_FAIL : Z := 18.
Definition RET_PROXYTYPE_INVALID : Z := 19.
Definition RET_HTTP_ERR : Z := 20.
Definition RET_NO_MEMORY : Z := 22.
Definition RET_POSTPARAM_TYPE_INVALID : Z := 26.
Definition RET_FAIL : Z := 27.
Definition RET_WORKER_STOPED : Z := 29.
Definition HOSTERR : Z := 1.

Definition HTTP_MULTIPLE_CHOICES : Z := 300.
Definition HTTP_MOVED_PERMANENTLY : Z := 301.
Definition HTTP_MOVED_TEMPORARILY : Z := 302.
Definition HTTP_NEED_PASS : Z := 407.

Definition H_20X (x : Z) : bool := (200 <=? x) && (x <? 300).
Definition H_REDIRECTED (x : Z) : bool := (x =? HTTP_MOVED_PERMANENTLY) || (x =? HTTP_MOVED_TEMPORARILY).

Definition HTTP_BUF_SIZE : Z := 64000.

(** ** The object *)

Inductive SOCKS_PROXY_STATUS := SOCKS_PROXY_INIT | SOCKS_PROXY_VER_SENT | SOCKS_PROXY_PASS_SENT | SOCKS_PROXY_REQ_SENT | SOCKS_PROXY_OK.

#[global] Instance SOCKS_PROXY_STATUS_eq_dec : EqDecision SOCKS_PROXY_STATUS.
Proof. solve_decision. Defined.

(** The states between sending and receiving are never entered. *)
Inductive NTLM_PROXY_STATUS := NTLM_AUTH_DEFAULT | NTLM_AUTH_INIT | NTLM_AUTH_SETP1 | NTLM_AUTH_SETP2 | NTLM_AUTH_ERR.

#[global] Instance NTLM_PROXY_STATUS_eq_dec : EqDecision NTLM_PROXY_STATUS.
Proof. solve_decision. Defined.

(** [m_sock] is that of [htSkp]; the proxy is set when [UseProxy] is. *)
Record THttpCli := mkCli {
  u : URL;
  m_proxy : option Proxy_t;
  m_sock : Z;
  m_socks : option SOCKS_REPLY;
  socks_proxy_status : SOCKS_PROXY_STATUS;
  ntlm_proxy_status : NTLM_PROXY_STATUS;
  negotiateStr : str;
  htRequest : list THttpHdr;
  htResponse : list THttpHdr;
  StatusLine : str;
  StatusCode : Z;
  uncompleteLineBuf : list Z;
  recvedlen : Z;
  cliBoundary : str
}.

Definition set_u x h := mkCli x (m_proxy h) (m_sock h) (m_socks h) (socks_proxy_status h) (ntlm_proxy_status h) (negotiateStr h) (htRequest h) (htResponse h) (StatusLine h) (StatusCode h) (uncompleteLineBuf h) (recvedlen h) (cliBoundary h).
Definition set_sock x h := mkCli (u h) (m_proxy h) x (m_socks h) (socks_proxy_status h) (ntlm_proxy_status h) (negotiateStr h) (htRequest h) (htResponse h) (StatusLine h) (StatusCode h) (uncompleteLineBuf h) (recvedlen h) (cliBoundary h).
Definition set_socks x h := mkCli (u h) (m_proxy h) (m_sock h) x (socks_proxy_status h) (ntlm_proxy_status h) (negotiateStr h) (htRequest h) (htResponse h) (StatusLine h) (StatusCode h) (uncompleteLineBuf h) (recvedlen h) (cliBoundary h).
Definition set_socks_status x h := mkCli (u h) (m_proxy h) (m_sock h) (m_socks h) x (ntlm_proxy_status h) (negotiateStr h) (htRequest h) (htResponse h) (StatusLine h) (StatusCode h) (uncompleteLineBuf h) (recvedlen h) (cliBoundary h).
Definition set_ntlm x str h := mkCli (u h) (m_proxy h) (m_sock h) (m_socks h) (socks_proxy_status h) x str (htRequest h) (htResponse h) (StatusLine h) (StatusCode h) (uncompleteLineBuf h) (recvedlen h) (cliBoundary h).
Definition set_request x h := mkCli (u h) (m_proxy h) (m_sock h) (m_socks h) (socks_proxy_status h) (ntlm_proxy_status h) (negotiateStr h) x (htResponse h) (StatusLine h) (StatusCode h) (uncompleteLineBuf h) (recvedlen h) (cliBoundary h).
Definition set_response x h := mkCli (u h) (m_proxy h) (m_sock h) (m_socks h) (socks_proxy_status h) (ntlm_proxy_status h) (negotiateStr h) (htRequest h) x (StatusLine h) (StatusCode h) (uncompleteLineBuf h) (recvedlen h) (cliBoundary h).
Definition set_status line code h := mkCli (u h) (m_proxy h) (m_sock h) (m_socks h) (socks_proxy_status h) (ntlm_proxy_status h) (negotiateStr h) (htRequest h) (htResponse h) line code (uncompleteLineBuf h) (recvedlen h) (cliBoundary h).
Definition set_line buf n h := mkCli (u h) (m_proxy h) (m_sock h) (m_socks h) (socks_proxy_status h) (ntlm_proxy_status h) (negotiateStr h) (htRequest h) (htResponse h) (StatusLine h) (StatusCode h) buf n (cliBoundary h).

Definition UseProxy (h : THttpCli) : bool := bool_decide (is_Some (m_proxy h)).

(** The status line and code are not set by the constructor. *)
Definition THttpCli_new (any_port any_code : Z) (any_line : str) (cur_time : Z) (sUrl : str) (proxy : option Proxy_t) : outcome THttpCli :=
  r ← set_url (URL_new any_port) sUrl;
  Ok (mkCli (snd r) proxy (-1) None SOCKS_PROXY_INIT NTLM_AUTH_DEFAULT [] [] [] any_line any_code
        (replicate (Z.to_nat LINE_BUFFER) 0) 0 (getPostBoundary cur_time)).

(** [NtlmInit], [NtlmStep1] and [NtlmStep2], with the challenge of the server *)
Class Ntlm (E : Type) := {
  NtlmInit : Proxy_t -> E -> bool * E;
  NtlmStep1 : E -> option str * E;
  NtlmStep2 : str -> E -> option str * E
}.

Section Client.
Context {E : Type} `{Os E} `{Ntlm E}.

Abbreviation Cli := (Run (THttpCli * E)).

Definition htSkp {A} (m : Run (Z * E) A) : Cli A := part m_sock set_sock m.

(** A method of the SOCKS object, which has to exist. *)
Definition with_socks {A} (m : Run ((SOCKS_REPLY * Z) * E) A) : Cli A :=
  r ← my m_socks; r ← pure (deref r);
  part (fun h => (r, m_sock h)) (fun x h => set_sock (snd x) (set_socks (Some (fst x)) h)) m.

Definition the_proxy : Cli Proxy_t := p ← my m_proxy; pure (deref p).

(** ** Connecting *)

(** The result of [htSkp->Connect]. *)
Definition connect_result (err : Z) : Z :=
  if err =? 0 then RET_OK else if err =? EWOULDBLOCK then RET_SOCKET_CONTINUE else RET_SOCKET_ERROR.

(** The socket is made when there is none. *)
Definition ensure_socket (k : Cli Z) : Cli Z :=
  fd ← htSkp GetHandle;
  if fd <? 0 then
    err ← htSkp CreateSock;
    if negb (err =? NOCONERROR) then mret RET_SOCKET_CREATE_FAIL else k
  else k.

Definition Connect : Cli Z :=
  ensure_socket (
    url ← my u;
    ipaddr ← htSkp (Host2Str (host url));
    match ipaddr with
    | None => mret RET_SOCKET_HOST_ERROR
    | Some _ => err ← htSkp (Socket_Connect ipaddr (port url)); mret (connect_result err)
    end).

Definition ConnectProxyHost : Cli Z :=
  ensure_socket (
    p ← the_proxy;
    match px_type p with
    | HTTPDOWN_PROXY_HTTP =>
        proxyipaddr ← htSkp (Host2Str (Some (px_host p)));
        match proxyipaddr with
        | None => mret HOSTERR
        | Some _ => err ← htSkp (Socket_Connect proxyipaddr (px_port p)); mret (connect_result err)
        end
    | HTTPDOWN_PROXY_SOCK5 =>
        proxyipaddr ← htSkp (Host2Str (Some (px_host p)));
        err ← htSkp (Socket_Connect proxyipaddr (px_port p)); mret (connect_result err)
    | _ => mret RET_OK
    end).

Definition checkConnect : Cli Z :=
  err ← htSkp Socket_checkConnect; mret (if err =? NOCONERROR then RET_OK else RET_SOCKET_ERROR).

(** The proxy object is deleted. *)
Definition delete_socks : Cli unit :=
  r ← my m_socks;
  match r with None => mret tt | Some r => pure (TSockProxy_delete r);; set (set_socks None) end.

Definition Disconnect : Cli unit :=
  r ← my m_socks;
  when (bool_decide (is_Some r)) (delete_socks;; set (set_socks_status SOCKS_PROXY_INIT));;
  htSkp Close;;
  set (fun h => set_status [] (StatusCode h) (set_response [] (set_request [] h))).

(** ** Proxies *)

Definition sendProxyRequest : Cli Z :=
  url ← my u;
  dwAddr ← htSkp (Host2Str (host url));
  hostname ← pure (match dwAddr with Some _ => Ok [] | None => h ← deref (host url); Ok (c_str h) end);
  let '(bPack, sDatas) := match dwAddr with
                          | Some a => (SOCKS_ADDR_IPV4ADDR, addr_bytes a)
                          | None => (SOCKS_ADDR_HOSTNAME, u8 (len hostname) :: hostname)
                          end in
  ret ← with_socks (Send5Req SOCKS_CMDS_CONNECT bPack (u16 (port url)) (sDatas ++ [0]));
  if ret <=? 0 then mret RET_SOCKET_ERROR
  else set (set_socks_status SOCKS_PROXY_REQ_SENT);; mret RET_PROXY_DOING_AUTH.

Definition sendSocksVersion : Cli Z :=
  p ← the_proxy;
  match px_type p with
  | HTTPDOWN_PROXY_SOCK5 =>
      delete_socks;; set (set_socks (Some TSockProxy_new));;
      proxyipaddr ← htSkp (Host2Str (Some (px_host p)));
      match proxyipaddr with
      | None => mret RET_SOCKET_HOST_ERROR
      | Some _ =>
          let sDatas := if bool_decide (px_pwd p <> []) && bool_decide (px_user p <> []) then [SOCKS_AUTH_NONE; SOCKS_AUTH_PASSWD]
                        else [SOCKS_AUTH_NONE] in
          ret ← with_socks (Send5AuthReq (len sDatas) (sDatas ++ [0]));
          if ret <=? 0 then mret RET_SOCKET_ERROR
          else set (set_socks_status SOCKS_PROXY_VER_SENT);; mret RET_OK
      end
  | _ => mret RET_PROXYTYPE_INVALID
  end.

(** A reply of the SOCKS server, checked. *)
Definition recv_reply (type : Z) : Cli Z :=
  ret ← with_socks (RecvPacket type);
  if ret <=? 0 then mret RET_SOCKET_ERROR
  else ok ← with_socks (my (fun s => RecvOK (fst s))); mret (if ok <=? 0 then RET_PROXY_RESQ_CHECK_FAIL else RET_OK).

Definition recvAuthResp : Cli Z :=
  p ← the_proxy;
  match px_type p with
  | HTTPDOWN_PROXY_SOCK5 =>
      htSkp (Host2Str (Some (px_host p)));;
      status ← my socks_proxy_status;
      match status with
      | SOCKS_PROXY_VER_SENT =>
          ret ← recv_reply SOCKS_PACK_5AUTHREP;
          if negb (ret =? RET_OK) then mret ret
          else
            auths ← with_socks (my (fun s => rp_status (fst s)));
            if auths =? SOCKS_AUTH_NONE then sendProxyRequest
            else if auths =? SOCKS_AUTH_PASSWD then
              if bool_decide (px_pwd p <> []) && bool_decide (px_user p <> []) then
                ret ← with_socks (Send5PassReq (c_str (px_user p)) (c_str (px_pwd p)));
                if ret <=? 0 then mret RET_SOCKET_ERROR
                else set (set_socks_status SOCKS_PROXY_PASS_SENT);; mret RET_PROXY_DOING_AUTH
              else mret RET_PROXY_AUTH_UNSUPPORTED
            else mret RET_PROXY_AUTH_UNSUPPORTED
      | SOCKS_PROXY_PASS_SENT =>
          ret ← recv_reply SOCKS_PACK_5PASSREP;
          if negb (ret =? RET_OK) then mret ret else sendProxyRequest
      | SOCKS_PROXY_REQ_SENT =>
          ret ← recv_reply SOCKS_PACK_5REP;
          if negb (ret =? RET_OK) then mret ret
          else set (set_socks_status SOCKS_PROXY_OK);; mret RET_OK
      | _ => mret RET_SOCKET_ERROR
      end
  | _ => mret RET_SOCKET_ERROR
  end.

Definition processNtlmAuth : Cli Z :=
  p ← the_proxy;
  ipaddr ← htSkp (Host2Str (Some (px_host p)));
  match ipaddr with
  | None => mret RET_SOCKET_HOST_ERROR
  | Some _ =>
      status ← my ntlm_proxy_status;
      match status with
      | NTLM_AUTH_DEFAULT =>
          url ← my u;
          match host url with
          | None => set (set_ntlm NTLM_AUTH_ERR []);; mret RET_PROXY_AUTH_UNSUPPORTED
          | Some _ =>
              ok ← sys (NtlmInit p);
              if (ok : bool) then set (set_ntlm NTLM_AUTH_INIT []);; mret RET_OK
              else set (set_ntlm NTLM_AUTH_ERR []);; mret RET_PROXY_AUTH_UNSUPPORTED
          end
      | NTLM_AUTH_INIT =>
          r ← sys NtlmStep1;
          match r with
          | None => set (set_ntlm NTLM_AUTH_ERR []);; mret RET_PROXY_AUTH_UNSUPPORTED
          | Some szEncode => t ← pure (snprintf_text 512 (lit "Negotiate " ++ szEncode)); set (set_ntlm NTLM_AUTH_SETP1 t);; mret RET_OK
          end
      | NTLM_AUTH_SETP1 =>
          code ← my StatusCode; hdrs ← my htResponse;
          r ← (if code =? HTTP_NEED_PASS then sys (NtlmStep2 (c_str (GetHdr (lit "Proxy-Authenticate") hdrs))) else mret None);
          match r with
          | None => set (set_ntlm NTLM_AUTH_ERR []);; mret RET_PROXY_AUTH_UNSUPPORTED
          | Some szEncode => t ← pure (snprintf_text 512 (lit "Negotiate " ++ szEncode)); set (set_ntlm NTLM_AUTH_SETP2 t);; mret RET_OK
          end
      | NTLM_AUTH_SETP2 => mret RET_OK
      | NTLM_AUTH_ERR => set (set_ntlm NTLM_AUTH_ERR []);; mret RET_PROXY_AUTH_UNSUPPORTED
      end
  end.

Definition proxyAuth : Cli Z :=
  p ← the_proxy;
  match px_type p with
  | HTTPDOWN_PROXY_HTTP =>
      ipaddr ← htSkp (Host2Str (Some (px_host p)));
      match ipaddr with
      | None => mret RET_SOCKET_HOST_ERROR
      | Some _ => if bool_decide (px_domain p <> []) then processNtlmAuth else mret RET_OK
      end
  | HTTPDOWN_PROXY_SOCK5 =>
      status ← my socks_proxy_status;
      if negb (bool_decide (status = SOCKS_PROXY_INIT)) then mret RET_PROXY_DOING_AUTH
      else
        ipaddr ← htSkp (Host2Str (Some (px_host p)));
        match ipaddr with
        | None => mret RET_SOCKET_HOST_ERROR
        | Some _ => ret ← sendSocksVersion; mret (if ret =? RET_OK then RET_PROXY_BEGIN_AUTH else RET_PROXY_AUTH_UNSUPPORTED)
        end
  | _ => mret RET_PROXYTYPE_INVALID
  end.

(** ** Data *)

(** The code, and the bytes that were sent. *)
Definition SendData (buffer : list Z) : Cli (Z * Z) :=
  r ← htSkp (Send buffer);
  mret (match r with
        | inl err => (if err =? EWOULDBLOCK then RET_SOCKET_CONTINUE else RET_SOCKET_ERROR, 0)
        | inr n => (if n =? 0 then RET_SOCKET_CLOSE else if n =? len buffer then RET_SOCKET_FINISH else RET_SOCKET_CONTINUE, n)
        end).

(** The code, and what is to be added to the response; [size] is 0 when it is not known. *)
Definition DirectRecvData (size : Z) : Cli (Z * list Z) :=
  r ← htSkp (direct_recv HTTP_BUF_SIZE);
  mret (match r with
        | inl err => (if (err =? EWOULDBLOCK) || (err =? SOCKET_EINTR) then RET_SOCKET_CONTINUE else RET_SOCKET_ERROR, [])
        | inr bs => (if (len bs =? 0) || ((0 <? size) && (size <=? len bs)) then RET_SOCKET_FINISH else RET_SOCKET_CONTINUE, bs)
        end).

(** ** The head of a response *)

(** What a character read was: an error, the end, or a character. *)
Inductive ReadChar := ReadError (err : Z) | ReadEnd | ReadOne (c : Z).

Definition BufReadChar : Cli ReadChar :=
  r ← htSkp (direct_recv 1);
  mret (match r with inl err => ReadError err | inr [] => ReadEnd | inr (c :: _) => ReadOne c end).

(** The loop of [ReadLine]: the characters, and what the last call was. *)
Fixpoint read_chars (n : nat) (line : list Z) : Cli (ReadChar * list Z) :=
  match n with
  | O => mret (ReadOne 0, line)
  | S n =>
      r ← BufReadChar;
      match r with
      | ReadOne c => if c =? 10 then mret (r, line ++ [c]) else read_chars n (line ++ [c])
      | _ => mret (r, line)
      end
  end.

(** The characters of a line are kept for the next call. *)
Definition keep_line (line : list Z) : Cli unit :=
  buf ← my uncompleteLineBuf; n ← my recvedlen;
  b ← pure (pokes buf n line); set (set_line b (n + len line)).

(** The code, and the line as a C string. *)
Definition ReadLine : Cli (Z * str) :=
  r ← read_chars (Z.to_nat (LINE_BUFFER - 1)) [];
  let '(last, line) := r in
  res ← match last with
        | ReadError err =>
            if negb (err =? EAGAIN) && negb (err =? SOCKET_EINTR) then mret (RET_SOCKET_ERROR, [])
            else
              keep_line line;;
              n ← my recvedlen; buf ← my uncompleteLineBuf;
              if LINE_BUFFER <=? n then
                (if n =? LINE_BUFFER then mret (RET_SOCKET_FINISH, c_str (take (Z.to_nat (n - 1)) buf)) else fail OutOfRange)
              else mret (RET_SOCKET_CONTINUE, [])
        | ReadEnd => mret (RET_SOCKET_CLOSE, [])
        | ReadOne _ =>
            n ← my recvedlen;
            if n =? 0 then mret (RET_SOCKET_FINISH, c_str line)
            else
              keep_line line;;
              n ← my recvedlen; buf ← my uncompleteLineBuf;
              mret (RET_SOCKET_FINISH, c_str (take (Z.to_nat (if LINE_BUFFER <=? n then LINE_BUFFER - 1 else n)) buf))
        end;
  when (negb (fst res =? RET_SOCKET_CONTINUE)) (set (fun h => set_line (uncompleteLineBuf h) 0 h));;
  mret res.

Definition skip_spaces (s : str) : str := snd (break (fun c => negb (c =? 32)) s).

Definition line_end (c : Z) : bool := (c =? 13) || (c =? 10).

(** A header line: its key and value, or what [ParseHttpHdrs] does otherwise. *)
Inductive HeaderLine := HeaderEnd | HeaderBad | Header (strKey strVal : str).

Definition parse_header (line : str) : HeaderLine :=
  let ptr := skip_spaces line in
  if match ptr with c :: _ => line_end c | [] => false end then HeaderEnd
  else
    let '(strKey, rest) := break (fun c => (c =? 58) || line_end c) ptr in
    match rest with
    | 58 :: rest => Header strKey (fst (break line_end (skip_spaces rest)))
    | _ => HeaderBad
    end.

(** The loop over the header lines; each one takes at least one call of [recv]. *)
Fixpoint parse_headers (fuel : nat) : Cli Z :=
  match fuel with
  | O => fail NoFuel
  | S fuel =>
      r ← ReadLine;
      let '(ret, buf) := r in
      if negb (ret =? RET_SOCKET_FINISH) then mret ret
      else match parse_header buf with
      | HeaderEnd => mret RET_OK
      | HeaderBad => mret RET_PARSE_RESQ_FAIL
      | Header strKey strVal => set (fun h => set_response (SetHdr strKey strVal (htResponse h)) h);; parse_headers fuel
      end
  end.

Definition ParseHttpHdrs (fuel : nat) : Cli Z :=
  set (set_response []);;
  r ← ReadLine;
  let '(ret, buf) := r in
  if negb (ret =? RET_SOCKET_FINISH) then mret ret
  else
    set (fun h => set_status buf (StatusCode h) h);;
    match snd (break (fun c => (c =? 32) || line_end c) (skip_spaces buf)) with
    | 32 :: ptr => set (fun h => set_status (StatusLine h) (atoi (skip_spaces ptr)) h);; parse_headers fuel
    | _ => mret (-1)
    end.

Definition ProcessHttpResponse (fuel : nat) : Cli Z :=
  retval ← ParseHttpHdrs fuel;
  if negb (retval =? RET_OK) then mret retval
  else
    code ← my StatusCode;
    mret (if H_20X code then RET_OK
          else if H_REDIRECTED code then RET_NEWDIRECTION
          else if code =? HTTP_MULTIPLE_CHOICES then RET_OK
          else if code =? HTTP_NEED_PASS then RET_PROXY_AUTH_UNSUPPORTED
          else RET_HTTP_ERR).

End Client.

(** [isdigit( *ptr )] of a [char], as [isxdigit] *)
Definition isdigit (c : Z) : outcome bool := if i8 c <? 0 then Fault OutOfRange else Ok ((48 <=? c) && (c <=? 57)).

(** [off_t] has 32 bits. *)
Fixpoint content_len (Len : Z) (ptr : str) : outcome Z :=
  match ptr with
  | [] => Ok Len
  | c :: ptr => d ← isdigit c; if (d : bool) then content_len (i32 (10 * Len + (c - 48))) ptr else Ok Len
  end.

Definition GetContentLen (h : THttpCli) : outcome Z := content_len 0 (c_str (GetHdr (lit "Content-Length") (htResponse h))).

Definition GetLocation (h : THttpCli) : str := GetHdr (lit "Location") (htResponse h).

(** [ResetUrl]; the result of [reset_url] is not looked at *)
Definition ResetUrl (sUrl : str) (h : THttpCli) : outcome THttpCli := r ← reset_url (u h) sUrl; Ok (set_u (snd r) h).
