(* ===== verification/Task.v ===== *)
(** * Tasks

    [TTask] of src/Utility/HttpClient/src/task.cpp: the state machine that takes one
    transfer from the queue to its answer.  What the caller set is the record of
    Transfer; the client object is that of HttpClient.

    [respData] points into the task and is never NULL, and a task is of one of the
    five types.  The classes name the rest of the machine: memory and files.  Logging and
    [dumpDataToFile], which nothing calls, are left out. *)
From stdpp Require Import prelude gmap.
From Stdlib Require Import ZArith Lia String.
From S2P Require Import Prelude Memory Strings Json MimeTypes Transfer Base64 Url HttpRequest Run Sockets SockProxy HttpClient.

Class Machine (E : Type) := {
  sys_malloc : E -> Z -> list Z;
  sys_file_size : E -> str -> option Z;
  sys_open_file : E -> str -> option (list Z * bool)
}.

Definition MAX_REDIRECTIONS : Z := 5.
Definition MAX_RETRY_CONNECT : Z := 3.
Definition MAX_CONNECT_TIMEOUT : Z := 30.

Definition ERR_TASK_PROXY_AUTH_FAIL : Z := 3.
Definition ERR_TASK_UNKNOWN_STATUS : Z := 9.
Definition ERR_TASK_SOCKET_SEND : Z := 11.
Definition ERR_TASK_SOCKET_RECV : Z := 12.
Definition ERR_TASK_CONNECT_FAIL : Z := 13.
Definition ERR_TASK_REDIRECTION_EXCEED : Z := 14.
Definition ERR_TASK_REDIRECTION_NOTARGET : Z := 15.
Definition ERR_TASK_PARSE_RESQ_FAIL : Z := 16.
Definition ERR_TASK_READ_RESQ_FAIL : Z := 17.
Definition ERR_TASK_POSTPARAM_TYPE_INVALID : Z := 27.
Definition ERR_TASK_NO_FILE : Z := 29.
Definition ERR_TASK_NO_MEMORY : Z := 30.
Definition ERR_TASK_FILE_READ : Z := 31.
Definition ERR_TASK_FILE_CANNOT_OPEN : Z := 32.
Definition ERR_TASK_FILE_CHANGED : Z := 33.
Definition ERR_TASK_TIMEOUT : Z := 34.

Definition ret_to_err (retcode : Z) : Z :=
  if retcode =? RET_NO_FILE then ERR_TASK_NO_FILE
  else if retcode =? RET_NO_MEMORY then ERR_TASK_NO_MEMORY
  else if retcode =? RET_FILE_READ then ERR_TASK_FILE_READ
  else if retcode =? RET_FILE_CANNOT_OPEN then ERR_TASK_FILE_CANNOT_OPEN
  else if retcode =? RET_FILE_CHANGED then ERR_TASK_FILE_CHANGED
  else if retcode =? RET_POSTPARAM_TYPE_INVALID then ERR_TASK_POSTPARAM_TYPE_INVALID
  else retcode.

(** ** The object *)

Inductive TaskStatus := TSK_IDLE | TSK_CONNECT | TSK_CONNECTWAIT | TSK_AUTH | TSK_START | TSK_RUNNING | TSK_FINISHED | TSK_ERROR | TSK_UNKNOWN.

#[global] Instance TaskStatus_eq_dec : EqDecision TaskStatus.
Proof. solve_decision. Defined.

Record TaskInfo := mkInfo {
  contentLength : Z;
  doneSize : Z;
  transferSpeed : Z;
  remainTime : Z;
  startTime : Z;
  endTime : Z;
  ti_errcode : Z;
  httpCode : Z;
  ti_htrequest : list THttpHdr;
  ti_htresponse : list THttpHdr
}.

(** The callbacks that may be missing. *)
Record CALL_BACK_S := mkCalls {
  has_init : bool;
  has_headcomplete : bool;
  has_process : bool
}.

(** The request: its buffer, its size, and what was sent. *)
Record Request_t := mkRequest {
  requestBuffer : list Z;
  requestSize : Z;
  requestSentSize : Z
}.

Record Task := mkTTask {
  desc : TTask;
  httpHdrs : list THttpHdr;
  callbacks : CALL_BACK_S;
  hcp : THttpCli;
  taskState : TaskStatus;
  errcode : Z;
  taskInfo : TaskInfo;
  last_active_time : Z;
  connectTimes : Z;
  redirectionTimes : Z;
  shouldGetFileInfo : bool;
  respHeadCompleted : bool;
  respContentCompleted : bool;
  dataChanged : bool;
  respData : list Z;
  request : Request_t
}.

Definition set_desc x t := mkTTask x (httpHdrs t) (callbacks t) (hcp t) (taskState t) (errcode t) (taskInfo t) (last_active_time t) (connectTimes t) (redirectionTimes t) (shouldGetFileInfo t) (respHeadCompleted t) (respContentCompleted t) (dataChanged t) (respData t) (request t).
Definition set_callbacks x t := mkTTask (desc t) (httpHdrs t) x (hcp t) (taskState t) (errcode t) (taskInfo t) (last_active_time t) (connectTimes t) (redirectionTimes t) (shouldGetFileInfo t) (respHeadCompleted t) (respContentCompleted t) (dataChanged t) (respData t) (request t).
Definition set_hcp x t := mkTTask (desc t) (httpHdrs t) (callbacks t) x (taskState t) (errcode t) (taskInfo t) (last_active_time t) (connectTimes t) (redirectionTimes t) (shouldGetFileInfo t) (respHeadCompleted t) (respContentCompleted t) (dataChanged t) (respData t) (request t).
Definition set_state x t := mkTTask (desc t) (httpHdrs t) (callbacks t) (hcp t) x (errcode t) (taskInfo t) (last_active_time t) (connectTimes t) (redirectionTimes t) (shouldGetFileInfo t) (respHeadCompleted t) (respContentCompleted t) (dataChanged t) (respData t) (request t).
Definition set_error x t := mkTTask (desc t) (httpHdrs t) (callbacks t) (hcp t) TSK_ERROR x (taskInfo t) (last_active_time t) (connectTimes t) (redirectionTimes t) (shouldGetFileInfo t) (respHeadCompleted t) (respContentCompleted t) (dataChanged t) (respData t) (request t).
Definition set_info x t := mkTTask (desc t) (httpHdrs t) (callbacks t) (hcp t) (taskState t) (errcode t) x (last_active_time t) (connectTimes t) (redirectionTimes t) (shouldGetFileInfo t) (respHeadCompleted t) (respContentCompleted t) (dataChanged t) (respData t) (request t).
Definition set_active x t := mkTTask (desc t) (httpHdrs t) (callbacks t) (hcp t) (taskState t) (errcode t) (taskInfo t) x (connectTimes t) (redirectionTimes t) (shouldGetFileInfo t) (respHeadCompleted t) (respContentCompleted t) (dataChanged t) (respData t) (request t).
Definition set_times c r t := mkTTask (desc t) (httpHdrs t) (callbacks t) (hcp t) (taskState t) (errcode t) (taskInfo t) (last_active_time t) c r (shouldGetFileInfo t) (respHeadCompleted t) (respContentCompleted t) (dataChanged t) (respData t) (request t).
Definition set_should x t := mkTTask (desc t) (httpHdrs t) (callbacks t) (hcp t) (taskState t) (errcode t) (taskInfo t) (last_active_time t) (connectTimes t) (redirectionTimes t) x (respHeadCompleted t) (respContentCompleted t) (dataChanged t) (respData t) (request t).
Definition set_completed head content t := mkTTask (desc t) (httpHdrs t) (callbacks t) (hcp t) (taskState t) (errcode t) (taskInfo t) (last_active_time t) (connectTimes t) (redirectionTimes t) (shouldGetFileInfo t) head content (dataChanged t) (respData t) (request t).
Definition set_changed x t := mkTTask (desc t) (httpHdrs t) (callbacks t) (hcp t) (taskState t) (errcode t) (taskInfo t) (last_active_time t) (connectTimes t) (redirectionTimes t) (shouldGetFileInfo t) (respHeadCompleted t) (respContentCompleted t) x (respData t) (request t).
Definition set_data x t := mkTTask (desc t) (httpHdrs t) (callbacks t) (hcp t) (taskState t) (errcode t) (taskInfo t) (last_active_time t) (connectTimes t) (redirectionTimes t) (shouldGetFileInfo t) (respHeadCompleted t) (respContentCompleted t) (dataChanged t) x (request t).
Definition set_req x t := mkTTask (desc t) (httpHdrs t) (callbacks t) (hcp t) (taskState t) (errcode t) (taskInfo t) (last_active_time t) (connectTimes t) (redirectionTimes t) (shouldGetFileInfo t) (respHeadCompleted t) (respContentCompleted t) (dataChanged t) (respData t) x.

Definition set_length x i := mkInfo x (doneSize i) (transferSpeed i) (remainTime i) (startTime i) (endTime i) (ti_errcode i) (httpCode i) (ti_htrequest i) (ti_htresponse i).
Definition set_progress done speed remain i := mkInfo (contentLength i) done speed remain (startTime i) (endTime i) (ti_errcode i) (httpCode i) (ti_htrequest i) (ti_htresponse i).
Definition set_start x i := mkInfo (contentLength i) (doneSize i) (transferSpeed i) (remainTime i) x (endTime i) (ti_errcode i) (httpCode i) (ti_htrequest i) (ti_htresponse i).

Definition del (t : Task) : bool := t_del (desc t).
Definition task_type (t : Task) : TASK_TYPE := t_type (desc t).
Definition options (t : Task) : OPTIONS := t_options (desc t).

(** A new task, as [addTask] leaves it. *)
Definition TTask_new (d : TTask) (hdrs : list THttpHdr) (calls : CALL_BACK_S) (h : THttpCli) (cur_time : Z) : Task :=
  mkTTask d hdrs calls h TSK_IDLE 0 (mkInfo (-1) 0 0 0 0 0 0 0 [] []) cur_time 0 0 true false false false [] (mkRequest [] 0 0).

(** ** Progress *)

(** The information that a callback gets, at a time. *)
Definition updateTaskInfo (cur_time : Z) (t : Task) : Task :=
  let i := taskInfo t in
  let last_time := u64 (cur_time - startTime i) in
  let i := mkInfo (contentLength i) (doneSize i) (if last_time =? 0 then 0 else transferSpeed i) (if last_time =? 0 then -1 else remainTime i)
             (startTime i) cur_time (errcode t) (StatusCode (hcp t)) (htRequest (hcp t)) (htRequest (hcp t)) in
  let last_time := if last_time =? 0 then 1 else last_time in
  let size := u64 (i32 (len (respData t))) in
  let t := set_changed false t in
  if bool_decide (taskState t = TSK_ERROR) then set_info i t
  else match task_type t with
  | TASK_DOWNLOAD | TASK_QUERY =>
      let done := if dataClean (options t) then u64 (doneSize i + size) else size in
      let changed := if dataClean (options t) then negb (len (respData t) =? 0) else negb (doneSize i =? size) in
      let speed := done / last_time in
      let remain := if (0 <? contentLength i) && (0 <? speed) then i64 (u64 (contentLength i - done) / speed) else -1 in
      set_changed changed (set_info (set_progress done speed remain i) t)
  | TASK_HEAD => set_changed (negb (doneSize i =? size)) (set_info (set_progress size (transferSpeed i) (-1) i) t)
  | TASK_UPLOAD | TASK_BINARY =>
      let done := requestSentSize (request t) in
      let speed := done / last_time in
      let remain := if (0 <? requestSize (request t)) && (0 <? speed) then i64 (u64 (requestSize (request t) - done) / speed) else -1 in
      set_changed (negb (doneSize i =? done)) (set_info (set_progress done speed remain i) t)
  end.

Definition checkTimeOut_at (cur_time : Z) (t : Task) : Task :=
  let timeoutlimit := i32 (tasktimeout (options t)) in
  if 0 <? timeoutlimit then
    let last_time := u64 (cur_time - last_active_time t) in
    let t := if last_time =? 0 then set_info (set_progress (doneSize (taskInfo t)) 0 (-1) (taskInfo t)) t else t in
    if timeoutlimit <=? last_time then set_error ERR_TASK_TIMEOUT t else t
  else t.

Section Machine.
Context {E : Type} `{Os E} `{Ntlm E} `{Machine E}.

(** The number of header lines that a response may have. *)
Context (fuel : nat).

Abbreviation Tsk := (Run (Task * E)).

Definition client {A} (m : Run (THttpCli * E) A) : Tsk A := part hcp set_hcp m.

(** [last_active_time = time(NULL)] *)
Definition active : Tsk unit := now ← sys sys_time; set (set_active now).

Definition checkTimeOut : Tsk unit :=
  limit ← my (fun t => i32 (tasktimeout (options t)));
  if 0 <? limit then now ← sys sys_time; set (checkTimeOut_at now) else mret tt.

Definition update : Tsk unit := now ← sys sys_time; set (updateTaskInfo now).

(** ** Connecting *)

Definition onConnected : Tsk Z :=
  ret ← client checkConnect;
  active;;
  when (ret =? RET_OK) (set (fun t => set_state (if UseProxy (hcp t) then TSK_AUTH else TSK_START) t));;
  mret RET_OK.

Definition tryConnect : Tsk Z :=
  now ← sys sys_time; set (fun t => set_info (set_start now (taskInfo t)) t);;
  active;;
  times ← my connectTimes;
  if MAX_RETRY_CONNECT <=? times then set (set_error ERR_TASK_CONNECT_FAIL);; mret RET_FAIL
  else
    useProxy ← my (fun t => UseProxy (hcp t));
    ret ← client (if useProxy : bool then ConnectProxyHost else Connect);
    set (fun t => set_times (connectTimes t + 1) (redirectionTimes t) t);;
    (if ret =? RET_OK then onConnected;; mret tt
     else if ret =? RET_SOCKET_CONTINUE then set (set_state TSK_CONNECTWAIT)
     else mret tt);;
    mret ret.

Definition checkConnectTimeout : Tsk Z :=
  now ← sys sys_time;
  start ← my (fun t => startTime (taskInfo t));
  if MAX_CONNECT_TIMEOUT <? u64 (now - start) then
    client Disconnect;; set (set_state TSK_CONNECT);; mret RET_CONNECT_TIMEOUT
  else mret RET_OK.

Definition tryAuth : Tsk Z :=
  ret ← client proxyAuth;
  active;;
  (if ret =? RET_OK then set (set_state TSK_START)
   else if negb (ret =? RET_PROXY_DOING_AUTH) && negb (ret =? RET_PROXY_BEGIN_AUTH) then set (set_error ERR_TASK_CONNECT_FAIL)
   else mret tt);;
  mret ret.

Definition onAuthResp : Tsk Z :=
  ret ← client recvAuthResp;
  active;;
  (if ret =? RET_OK then set (set_state TSK_START)
   else if ret =? RET_PROXY_DOING_AUTH then mret tt
   else set (set_error ERR_TASK_PROXY_AUTH_FAIL));;
  mret ret.

(** ** Sending *)

(** Whether the proxy is one that asks for a Windows domain. *)
Definition ntlm_proxy (h : THttpCli) : bool :=
  match m_proxy h with
  | Some p => bool_decide (px_type p = HTTPDOWN_PROXY_HTTP) && bool_decide (px_domain p <> [])
  | None => false
  end.

Definition task_setHttpHeader : Tsk unit :=
  h ← my hcp;
  when (ntlm_proxy h) (client processNtlmAuth;; mret tt);;
  t ← my id;
  let h := hcp t in
  hdrs ← pure (setHttpHeader (cliBoundary h) (m_proxy h) (negotiateStr h) (u h) (desc t) (httpHdrs t));
  client (set (set_request hdrs)).

(** The code; the buffer and the size are set. *)
Definition task_generate : Tsk Z :=
  t ← my id; e ← gets snd;
  let h := hcp t in
  r ← pure (generateSendDataBuffer (cliBoundary h) (m_proxy h) (sys_malloc e) (sys_file_size e) (sys_open_file e) (u h) (desc t) (htRequest h));
  match r with
  | inl ret => mret ret
  | inr (buffer, size) => set (fun t => set_req (mkRequest buffer size (requestSentSize (request t))) t);; mret RET_OK
  end.

Definition sendHttpReq : Tsk Z :=
  set (set_should false);;
  task_setHttpHeader;;
  ret ← task_generate;
  if negb (ret =? RET_OK) then
    set (set_state TSK_ERROR);; active;; set (set_error (ret_to_err ret));; mret ret
  else
    rq ← my request;
    bs ← pure (peeks (requestBuffer rq) 0 (requestSize rq));
    r ← client (SendData bs);
    let '(ret, BytesWritten) := r in
    (if (ret =? RET_SOCKET_FINISH) || (ret =? RET_SOCKET_CONTINUE) then
       set (set_state TSK_RUNNING);; active;; set (set_req (mkRequest (requestBuffer rq) (requestSize rq) BytesWritten))
     else set (set_state TSK_ERROR);; active;; set (set_error ERR_TASK_SOCKET_SEND));;
    mret ret.

Definition sendHttpReqContinue : Tsk Z :=
  rq ← my request;
  bs ← pure (peeks (requestBuffer rq) (requestSentSize rq) (requestSize rq - requestSentSize rq));
  r ← client (SendData bs);
  let '(ret, BytesWritten) := r in
  (if (ret =? RET_SOCKET_FINISH) || (ret =? RET_SOCKET_CONTINUE) then
     set (set_req (mkRequest (requestBuffer rq) (requestSize rq) (u64 (requestSentSize rq + BytesWritten))));; active
   else set (set_state TSK_ERROR);; active;; set (set_error ERR_TASK_SOCKET_SEND));;
  mret ret.

(** ** Receiving *)

Definition processHttpRespHead : Tsk Z :=
  ret ← client (ProcessHttpResponse fuel);
  active;;
  if ret =? RET_OK then
    h ← my hcp;
    n ← pure (GetContentLen h);
    set (fun t => set_info (set_length (if n =? 0 then -1 else n) (taskInfo t)) (set_completed true (respContentCompleted t) t));;
    ty ← my task_type;
    if bool_decide (ty = TASK_HEAD) then set (fun t => set_state TSK_FINISHED (set_completed true true t));; mret RET_SOCKET_FINISH
    else mret RET_OK
  else if ret =? RET_NEWDIRECTION then
    h ← my hcp;
    let newlocation := GetLocation h in
    if bool_decide (newlocation = []) then set (set_error ERR_TASK_REDIRECTION_NOTARGET);; mret RET_CLOSE
    else
      client Disconnect;;
      h ← my hcp;
      h ← pure (ResetUrl (c_str newlocation) h); set (set_hcp h);;
      set (set_state TSK_CONNECT);; active;;
      set (fun t => set_times (connectTimes t) (redirectionTimes t + 1) (set_should true t));;
      mret RET_NEWDIRECTION
  else if ret =? RET_PROXY_AUTH_UNSUPPORTED then
    h ← my hcp;
    if ntlm_proxy h then
      tmpret ← client processNtlmAuth;
      if negb (tmpret =? RET_OK) then set (set_error ERR_TASK_READ_RESQ_FAIL);; mret RET_CLOSE
      else
        set (fun t => set_should true (set_state TSK_START t));;
        client (set (set_response []));; mret RET_PROXY_DOING_AUTH
    else set (set_error ERR_TASK_READ_RESQ_FAIL);; mret RET_CLOSE
  else if ret =? RET_SOCKET_CONTINUE then mret RET_SOCKET_CONTINUE
  else if ret =? RET_PARSE_RESQ_FAIL then set (set_error ERR_TASK_PARSE_RESQ_FAIL);; mret RET_CLOSE
  else set (set_error ERR_TASK_READ_RESQ_FAIL);; mret RET_CLOSE.

(** How many bytes are still to come; 0 when that is not known. *)
Definition needSize (t : Task) : Z :=
  let i := taskInfo t in
  if (0 <? contentLength i) && bool_decide (task_type t = TASK_DOWNLOAD) && (i64 (doneSize i) <? contentLength i)
  then contentLength i - doneSize i else 0.

Definition getRealData : Tsk Z :=
  n ← my needSize;
  r ← client (DirectRecvData n);
  let '(ret, bs) := r in
  set (fun t => set_data (respData t ++ bs) t);;
  active;;
  (if ret =? RET_SOCKET_ERROR then set (set_error ERR_TASK_SOCKET_RECV)
   else if ret =? RET_SOCKET_FINISH then set (fun t => set_state TSK_FINISHED (set_completed (respHeadCompleted t) true t))
   else mret tt);;
  mret ret.

Definition processHttpResp : Tsk Z :=
  completed ← my respHeadCompleted;
  if completed : bool then getRealData else processHttpRespHead.

End Machine.
