(* ===== verification/Worker.v ===== *)
(** * The worker thread

    [TTransferWorker] of src/Utility/HttpClient/src/transferworker.cpp: the array of
    tasks, the map from sockets to tasks and the sets of sockets that [select] watches;
    [scanTaskQue] moves every task on, [scanIO] serves the sockets that are ready, and
    [run] repeats the two until it is stopped.

    The manager runs in other threads: what it did since ([sys_requests]) takes effect
    at the head of a loop and when the lock of the array is taken.  The record has one
    field that the program does not have, [calls]: the callbacks and the removals so far, latest
    first. *)
From stdpp Require Import prelude gmap sorting.
From Stdlib Require Import ZArith Lia String.
From S2P Require Import Prelude Memory Strings Json MimeTypes Transfer Base64 Url HttpRequest Run Sockets SockProxy HttpClient Task.

Inductive Callback := handle_init | handle_process | handle_headcomplete | handle_finish | handle_error.

#[global] Instance Callback_eq_dec : EqDecision Callback.
Proof. solve_decision. Defined.

Inductive Event :=
| Called (c : Callback) (taskid : Z) (info : TaskInfo) (data : list Z)
| Cleared (taskid : Z) (cancelled : bool).

(** What the manager asks for: [addTask] with a new task, [cancelTask], [clear], [stop]. *)
Inductive Request :=
| ReqAdd (t : Task)
| ReqCancel (taskID : Z)
| ReqClear
| ReqStop.

Class Others (E : Type) := {
  sys_requests : E -> list Request * E
}.

Record Counts := mkCounts {
  runningTaskCount : Z;
  startingTaskCount : Z;
  waittingTaskCount : Z;
  finishTaskCount : Z;
  errorTaskCount : Z;
  unkownTaskCount : Z;
  connectingTaskCount : Z
}.

Definition no_counts : Counts := mkCounts 0 0 0 0 0 0 0.

(** [queue] has [MAX_TASKQUE_SIZE] entries; those not in the map are NULL. *)
Record Worker := mkW {
  queue : gmap Z Task;
  w_curPos : Z;
  w_maxPos : Z;
  maxRun : Z;
  stop : bool;
  counts : Counts;
  s_t_map : gmap Z Z;
  maxfd : Z;
  readfds : gset Z;
  writefds : gset Z;
  calls : list Event
}.

Definition TTransferWorker_init (in_maxRunTaskNum : Z) : Worker := mkW ∅ 0 0 in_maxRunTaskNum false no_counts ∅ 0 ∅ ∅ [].

Definition set_queue x w := mkW x (w_curPos w) (w_maxPos w) (maxRun w) (stop w) (counts w) (s_t_map w) (maxfd w) (readfds w) (writefds w) (calls w).
Definition set_pos cur mx w := mkW (queue w) cur mx (maxRun w) (stop w) (counts w) (s_t_map w) (maxfd w) (readfds w) (writefds w) (calls w).
Definition set_stop x w := mkW (queue w) (w_curPos w) (w_maxPos w) (maxRun w) x (counts w) (s_t_map w) (maxfd w) (readfds w) (writefds w) (calls w).
Definition set_counts x w := mkW (queue w) (w_curPos w) (w_maxPos w) (maxRun w) (stop w) x (s_t_map w) (maxfd w) (readfds w) (writefds w) (calls w).
Definition set_map x w := mkW (queue w) (w_curPos w) (w_maxPos w) (maxRun w) (stop w) (counts w) x (maxfd w) (readfds w) (writefds w) (calls w).
Definition set_fds mx r x w := mkW (queue w) (w_curPos w) (w_maxPos w) (maxRun w) (stop w) (counts w) (s_t_map w) mx r x (calls w).
Definition set_calls x w := mkW (queue w) (w_curPos w) (w_maxPos w) (maxRun w) (stop w) (counts w) (s_t_map w) (maxfd w) (readfds w) (writefds w) x.

(** ** Sets of sockets *)

Definition FD_SETSIZE : nat := 64.

(** A set that is full stays as it is. *)
Definition FD_SET (fd : Z) (s : gset Z) : gset Z := if bool_decide (size s < FD_SETSIZE)%nat then {[fd]} ∪ s else s.

Definition FD_CLR (fd : Z) (s : gset Z) : gset Z := s ∖ {[fd]}.

Definition FD_ISSET (fd : Z) (s : gset Z) : bool := bool_decide (fd ∈ s).

Definition setMaxfd (newfd : Z) (w : Worker) : Worker := set_fds (if newfd <? maxfd w then maxfd w else newfd) (readfds w) (writefds w) w.

Definition watch_read (fd : Z) (w : Worker) : Worker := setMaxfd fd (set_fds (maxfd w) (FD_SET fd (readfds w)) (writefds w) w).
Definition watch_write (fd : Z) (w : Worker) : Worker := setMaxfd fd (set_fds (maxfd w) (readfds w) (FD_SET fd (writefds w)) w).
Definition unwatch_read (fd : Z) (w : Worker) : Worker := set_fds (maxfd w) (FD_CLR fd (readfds w)) (writefds w) w.
Definition unwatch_write (fd : Z) (w : Worker) : Worker := set_fds (maxfd w) (readfds w) (FD_CLR fd (writefds w)) w.

(** ** The manager's side *)

(** The array of Transfer that a worker has. *)
Definition slots (w : Worker) : TTransferWorker := mkWorker (desc <$> queue w) (w_curPos w) (w_maxPos w) (maxRun w) (stop w).

Definition cancel_task (t : Task) : Task := set_desc (mark_deleted (desc t)) t.

(** A manager that stopped its worker has let go of it. *)
Definition apply_request (w : Worker) (r : Request) : outcome Worker :=
  if stop w then Ok w else
  match r with
  | ReqAdd t =>
      r ← findTaskPos (slots w);
      Ok (match r with
          | (Some taskPos, a) => set_queue (<[taskPos := t]> (queue w)) (set_pos (curPos a) (maxPos a) w)
          | (None, _) => w
          end)
  | ReqCancel taskID =>
      Ok (match queue w !! taskID with Some t => set_queue (<[taskID := cancel_task t]> (queue w)) w | None => w end)
  | ReqClear => Ok (set_queue (cancel_task <$> queue w) w)
  | ReqStop => Ok (set_stop true (set_queue (cancel_task <$> queue w) w))
  end.

Section Worker.
Context {E : Type} `{Os E} `{Ntlm E} `{Machine E} `{Others E}.
Context (fuel : nat).

Abbreviation Wrk := (Run (Worker * E)).

(** What other threads did. *)
Definition others : Wrk unit :=
  rs ← sys sys_requests; w ← my id; w ← pure (for_each apply_request w rs); set (fun _ => w).

(** The task at a position, which has to be there. *)
Definition the_task (i : Z) : Wrk Task := t ← my (fun w => queue w !! i); pure (deref t).

Definition put_at (i : Z) (t : Task) (w : Worker) : Worker := set_queue (<[i := t]> (queue w)) w.

(** A method of that task. *)
Definition on_task {A} (i : Z) (m : Run (Task * E) A) : Wrk A :=
  t ← the_task i; part (fun _ => t) (fun t w => put_at i t w) m.

(** A callback, under the lock. *)
Definition call (c : Callback) (i : Z) : Wrk unit :=
  others;;
  t ← the_task i;
  when (negb (del t)) (set (fun w => set_calls (Called c i (taskInfo t) (respData t) :: calls w) w)).

Definition task_fd (t : Task) : Z := m_sock (hcp t).

(** The destructor closes the socket. *)
Definition clear_task (taskid : Z) : Wrk unit :=
  t ← my (fun w => queue w !! taskid);
  match t with
  | None => mret tt
  | Some t =>
      let sockfd := task_fd t in
      set (fun w => set_map (base.delete sockfd (s_t_map w)) (unwatch_write sockfd (unwatch_read sockfd w)));;
      others;;
      t ← the_task taskid;
      on_task taskid (client Disconnect);;
      set (fun w => set_calls (Cleared taskid (del t) :: calls w) (set_queue (base.delete taskid (queue w)) w))
  end.

(** ** One pass over the array *)

(** The local variables of [scanTaskQue]. *)
Record Scan := mkScan {
  sc : Counts;
  remainposition : Z
}.

Definition add_running x := mkCounts (runningTaskCount x + 1) (startingTaskCount x) (waittingTaskCount x) (finishTaskCount x) (errorTaskCount x) (unkownTaskCount x) (connectingTaskCount x).
Definition add_starting x := mkCounts (runningTaskCount x) (startingTaskCount x + 1) (waittingTaskCount x) (finishTaskCount x) (errorTaskCount x) (unkownTaskCount x) (connectingTaskCount x).
Definition add_waitting x := mkCounts (runningTaskCount x) (startingTaskCount x) (waittingTaskCount x + 1) (finishTaskCount x) (errorTaskCount x) (unkownTaskCount x) (connectingTaskCount x).
Definition add_finish x := mkCounts (runningTaskCount x) (startingTaskCount x) (waittingTaskCount x) (finishTaskCount x + 1) (errorTaskCount x) (unkownTaskCount x) (connectingTaskCount x).
Definition add_error x := mkCounts (runningTaskCount x) (startingTaskCount x) (waittingTaskCount x) (finishTaskCount x) (errorTaskCount x + 1) (unkownTaskCount x) (connectingTaskCount x).
Definition add_unkown x := mkCounts (runningTaskCount x) (startingTaskCount x) (waittingTaskCount x) (finishTaskCount x) (errorTaskCount x) (unkownTaskCount x + 1) (connectingTaskCount x).
Definition add_connecting x := mkCounts (runningTaskCount x) (startingTaskCount x) (waittingTaskCount x) (finishTaskCount x) (errorTaskCount x) (unkownTaskCount x) (connectingTaskCount x + 1).

Definition scheduled (c : Counts) : Z :=
  runningTaskCount c + startingTaskCount c + finishTaskCount c + errorTaskCount c + unkownTaskCount c + connectingTaskCount c.

Definition count (f : Counts -> Counts) (s : Scan) : Scan := mkScan (f (sc s)) (remainposition s).

Definition scan_idle (i : Z) (s : Scan) : Wrk Scan :=
  room ← my (fun w => bool_decide (size (s_t_map w) < 64)%nat);
  if (0 <? remainposition s) && room then
    on_task i (set (set_state TSK_CONNECT));; mret (mkScan (add_waitting (sc s)) (remainposition s - 1))
  else mret (count add_waitting s).

Definition scan_connect (i : Z) : Wrk unit :=
  ret ← on_task i tryConnect;
  t ← the_task i;
  let fd := task_fd t in
  when (ret =? RET_SOCKET_CONTINUE) (set (fun w => watch_write fd (set_map (<[fd := i]> (s_t_map w)) w)));;
  when (ret =? RET_OK) (set (fun w => set_map (<[fd := i]> (s_t_map w)) w)).

Definition scan_connectwait (i : Z) : Wrk unit :=
  t ← the_task i;
  let sockfd := task_fd t in
  ret ← on_task i checkConnectTimeout;
  when (ret =? RET_CONNECT_TIMEOUT) (set (fun w => set_map (base.delete sockfd (s_t_map w)) (unwatch_write sockfd w))).

Definition scan_auth (i : Z) : Wrk unit :=
  ret ← on_task i tryAuth;
  t ← the_task i;
  when (ret =? RET_PROXY_BEGIN_AUTH) (set (watch_read (task_fd t))).

Definition scan_start (i : Z) : Wrk unit :=
  t ← the_task i;
  if MAX_REDIRECTIONS <=? redirectionTimes t then on_task i (set (set_error ERR_TASK_REDIRECTION_EXCEED))
  else if shouldGetFileInfo t then
    ret ← on_task i (sendHttpReq);
    t ← the_task i;
    if ret =? RET_SOCKET_FINISH then set (watch_read (task_fd t))
    else if ret =? RET_SOCKET_CONTINUE then set (watch_write (task_fd t))
    else mret tt
  else
    on_task i update;;
    when (has_init (callbacks t)) (call handle_init i).

Definition scan_running (i : Z) : Wrk unit :=
  on_task i update;;
  t ← the_task i;
  when (has_process (callbacks t) && dataChanged t)
    (call handle_process i;; when (dataClean (options t)) (on_task i (set (set_data [])))).

(** The last callback of a task, and its end. *)
Definition scan_last (c : Callback) (i : Z) : Wrk unit := on_task i update;; call c i;; clear_task i.

Definition scan_state (i : Z) (st : TaskStatus) (s : Scan) : Wrk Scan :=
  match st with
  | TSK_IDLE => scan_idle i s
  | TSK_CONNECT => scan_connect i;; mret s
  | TSK_CONNECTWAIT => scan_connectwait i;; mret (count add_connecting s)
  | TSK_AUTH => scan_auth i;; mret s
  | TSK_START => scan_start i;; mret (count add_starting s)
  | TSK_RUNNING => scan_running i;; mret (count add_running s)
  | TSK_FINISHED => scan_last handle_finish i;; mret (count add_finish s)
  | TSK_ERROR => scan_last handle_error i;; mret (count add_error s)
  | TSK_UNKNOWN =>
      on_task i (set (fun t => set_state TSK_UNKNOWN (set_error ERR_TASK_UNKNOWN_STATUS t)));;
      scan_last handle_error i;; mret (count add_unkown s)
  end.

Definition scan_task (i : Z) (s : Scan) : Wrk Scan :=
  t ← my (fun w => queue w !! i);
  match t with
  | None => mret s
  | Some t =>
      when (negb (bool_decide (taskState t = TSK_IDLE))) (on_task i checkTimeOut);;
      t ← the_task i;
      if del t then clear_task i;; mret s
      else scan_state i (taskState t) s
  end.

(** The loop: [None] when it was stopped.  Tasks may be added while it runs. *)
Fixpoint scan_loop (n : nat) (i : Z) (s : Scan) : Wrk (option Scan) :=
  others;;
  w ← my id;
  if w_maxPos w <? i then mret (Some s)
  else if stop w then mret None
  else match n with
  | O => fail NoFuel
  | S n => s ← scan_task i s; scan_loop n (i + 1) s
  end.

Definition scanTaskQue : Wrk unit :=
  w ← my id;
  let n := scheduled (counts w) in
  s ← scan_loop (Z.to_nat MAX_TASKQUE_SIZE) 0 (mkScan no_counts (if n <? maxRun w then maxRun w - n else 0));
  match s with
  | Some s => set (set_counts (sc s))
  | None => mret tt
  end.

(** ** One pass over the sockets *)

(** The states in which data are expected. *)
Definition transferring (st : TaskStatus) : bool :=
  match st with TSK_CONNECTWAIT | TSK_AUTH | TSK_START | TSK_RUNNING => true | _ => false end.

(** The written part: whether the socket is to be forgotten; [None] goes on with the next one. *)
Definition io_write (sockfd taskid : Z) : Wrk (option bool) :=
  t ← the_task taskid;
  if bool_decide (taskState t = TSK_CONNECTWAIT) then
    on_task taskid onConnected;; set (unwatch_write sockfd);; mret None
  else
    ret ← on_task taskid sendHttpReqContinue;
    t ← the_task taskid;
    if ret =? RET_SOCKET_FINISH then
      set (fun w => unwatch_write sockfd (set_fds (maxfd w) (FD_SET (task_fd t) (readfds w)) (writefds w) w));; mret (Some false)
    else if ret =? RET_SOCKET_CONTINUE then mret (Some false)
    else set (unwatch_write sockfd);; mret (Some true).

Definition io_headcomplete (taskid : Z) : Wrk unit :=
  others;;
  t ← the_task taskid;
  when (negb (del t) && respHeadCompleted t && has_headcomplete (callbacks t))
    (on_task taskid update;;
     t ← the_task taskid;
     set (fun w => set_calls (Called handle_headcomplete taskid (taskInfo t) (respData t) :: calls w) w);;
     on_task taskid (set (fun t => set_callbacks (mkCalls (has_init (callbacks t)) false (has_process (callbacks t))) t))).

(** Whether the socket is to be forgotten. *)
Definition io_read (sockfd taskid : Z) : Wrk bool :=
  t ← the_task taskid;
  if bool_decide (taskState t = TSK_AUTH) then
    ret ← on_task taskid onAuthResp;
    when (negb (ret =? RET_PROXY_DOING_AUTH)) (set (unwatch_read sockfd));; mret false
  else
    ret ← on_task taskid (processHttpResp fuel);
    if negb (ret =? RET_OK) && negb (ret =? RET_SOCKET_CONTINUE) then
      set (unwatch_read sockfd);; mret (negb (ret =? RET_PROXY_DOING_AUTH))
    else io_headcomplete taskid;; mret false.

(** One entry of the map; the sockets to forget are collected. *)
Definition io_entry (r w : gset Z) (acc : list Z) (sockfd taskid : Z) : Wrk (list Z) :=
  t ← the_task taskid;
  if negb (transferring (taskState t)) then mret acc
  else
    wr ← (if FD_ISSET sockfd w then io_write sockfd taskid else mret (Some false));
    match wr with
    | None => mret acc
    | Some wd =>
        let acc := if wd : bool then sockfd :: acc else acc in
        if FD_ISSET sockfd r then rd ← io_read sockfd taskid; mret (if rd : bool then sockfd :: acc else acc)
        else mret acc
    end.

(** [None] when it was stopped. *)
Fixpoint io_loop (r w : gset Z) (l : list (Z * Z)) (acc : list Z) : Wrk (option (list Z)) :=
  match l with
  | [] => mret (Some acc)
  | (sockfd, taskid) :: l =>
      others;;
      st ← my stop;
      if (st : bool) then mret None
      else acc ← io_entry r w acc sockfd taskid; io_loop r w l acc
  end.

(** The entries of the map in the order of their keys. *)
Definition fst_le (a b : Z * Z) : Prop := fst a <= fst b.

#[global] Instance fst_le_dec : RelDecision fst_le.
Proof. intros a b. unfold fst_le. apply _. Defined.

Definition entries (m : gmap Z Z) : list (Z * Z) := merge_sort fst_le (map_to_list m).

Definition scanIO : Wrk Z :=
  w ← my id;
  if bool_decide (readfds w = ∅) && bool_decide (writefds w = ∅) && bool_decide (s_t_map w = ∅) then mret RET_NO_SOCKET_READY
  else
    ready ← sys (sys_select (readfds w) (writefds w));
    match ready with
    | inl _ => mret RET_SOCKET_SELECT_FAIL
    | inr (r, x) =>
        if bool_decide (r = ∅) && bool_decide (x = ∅) then mret RET_NO_SOCKET_READY
        else
          res ← io_loop r x (entries (s_t_map w)) [];
          match res with
          | None => mret RET_WORKER_STOPED
          | Some acc => set (fun w => set_map (foldr base.delete (s_t_map w) acc) w);; mret RET_OK
          end
    end.

(** ** The thread *)

(** One round of [run]. *)
Definition round : Wrk unit := scanTaskQue;; scanIO;; mret tt.

(** What is done when the worker was stopped. *)
Fixpoint clean_tasks (l : list Z) : Wrk unit :=
  match l with [] => mret tt | i :: l => clear_task i;; clean_tasks l end.

Definition clean_up : Wrk unit := clean_tasks (seqZ 0 MAX_TASKQUE_SIZE);; set (set_map ∅).

(** [n] rounds at most. *)
Fixpoint run (n : nat) : Wrk unit :=
  st ← my stop;
  if (st : bool) then clean_up
  else match n with
  | O => fail NoFuel
  | S n => round;; run n
  end.

End Worker.
