(* ===== verification/ClientProofs.v ===== *)
(** * The client and its tasks: faults and descriptors

    What a method of [THttpCli] or [TTask] can do wrong, and what it does to the
    sockets: the only faults left are texts that do not fit their buffers
    ([text_fault]), and a method leaves the descriptor as it is, makes one or closes it. *)
From stdpp Require Import prelude gmap.
From Stdlib Require Import ZArith Lia String.
From S2P Require Import Prelude Memory Strings Json MimeTypes Transfer Base64 Url HttpRequest Run Sockets SockProxy HttpClient Task.

(** ** Faults of texts *)

Definition text_fault (f : fault) : Prop := f = OutOfRange.

Definition only {A} (o : outcome A) : Prop := forall f, o = Fault f -> text_fault f.

Lemma only_Ok {A} (a : A) : only (Ok a).
Proof. done. Qed.

Lemma only_text {A} : only (Fault OutOfRange : outcome A).
Proof. by intros f [= <-]. Qed.

Lemma only_bind {A B} (m : outcome A) (k : A -> outcome B) : only m -> (forall a, m = Ok a -> only (k a)) -> only (m ≫= k).
Proof. intros Hm Hk f. destruct m as [a|f']; simpl; [by apply Hk|]. intros [= ->]. by apply Hm. Qed.

Lemma only_if {A} (b : bool) (x y : outcome A) : only x -> only y -> only (if b then x else y).
Proof. by destruct b. Qed.

Lemma only_some {A} (p : option A) : is_Some p -> only (deref p).
Proof. by intros [a ->]. Qed.

Lemma only_for_each {S A} (body : S -> A -> outcome S) s l : (forall s a, a ∈ l -> only (body s a)) -> only (for_each body s l).
Proof.
  revert s. induction l as [|a l IH]; intros s Hb; simpl; [apply only_Ok|].
  apply only_bind; [apply Hb; set_solver|]. intros s' _. apply IH. set_solver.
Qed.

Create HintDb faults.
#[export] Hint Resolve only_Ok only_text only_if only_for_each : faults.

(** Follow a sequence of fallible steps. *)
Ltac only_steps :=
  repeat lazymatch goal with
  | |- only (_ ≫= _) => apply only_bind; [|intros ? ?]
  | |- only (if _ then _ else _) => apply only_if
  | |- only (match ?x with _ => _ end) => destruct x
  | |- only (let '(_, _) := ?x in _) => destruct x
  | |- only _ => solve [apply only_Ok | apply only_text | eauto 3 with faults]
  end.

Lemma only_vec_at {A} (l : list A) i : only (vec_at l i).
Proof. unfold vec_at. only_steps. Qed.

Lemma only_peeks b o n : only (peeks b o n).
Proof. unfold peeks. only_steps. Qed.

Lemma only_pokes b o bs : only (pokes b o bs).
Proof. unfold pokes. only_steps. Qed.

Lemma only_c_len b : only (c_len b).
Proof. induction b; simpl; only_steps. Qed.

Lemma only_c_memcpy n b : only (c_memcpy n b).
Proof. unfold c_memcpy. only_steps. Qed.

Lemma only_into_buffer n t : only (into_buffer n t).
Proof. unfold into_buffer. only_steps. Qed.

Lemma only_snprintf_text n t : only (snprintf_text n t).
Proof. unfold snprintf_text. only_steps. Qed.

Lemma only_isdigit c : only (isdigit c).
Proof. unfold isdigit. only_steps. Qed.

Lemma only_isxdigit c : only (isxdigit c).
Proof. unfold isxdigit. only_steps. Qed.

#[export] Hint Resolve only_vec_at only_peeks only_pokes only_c_len only_c_memcpy only_into_buffer only_snprintf_text only_isdigit only_isxdigit : faults.

Lemma only_c_text b : only (c_text b).
Proof. unfold c_text. only_steps. Qed.

Lemma only_two_xdigits s : only (two_xdigits s).
Proof. unfold two_xdigits. only_steps. Qed.

Lemma only_content_len n s : only (content_len n s).
Proof. revert n. induction s; intros n; simpl; only_steps. Qed.

#[export] Hint Resolve only_c_text only_two_xdigits only_content_len : faults.

(** ** URLs *)

Lemma only_pre_encode_len n s : only (pre_encode_len n s).
Proof. revert s. induction n; intros s; simpl; [only_steps|]. destruct s; only_steps. Qed.

Lemma only_pre_encode_text n s : only (pre_encode_text n s).
Proof. revert s. induction n; intros s; simpl; [only_steps|]. destruct s; only_steps. Qed.

Lemma only_decode_len n s : only (decode_len n s).
Proof. revert s. induction n; intros s; simpl; [only_steps|]. destruct s; only_steps. Qed.

#[export] Hint Resolve only_pre_encode_len only_pre_encode_text only_decode_len : faults.

Lemma only_pre_encode s : only (pre_encode s).
Proof. unfold pre_encode. only_steps. Qed.

Lemma only_URL_decode s : only (URL_decode s).
Proof. unfold URL_decode. only_steps. Qed.

#[export] Hint Resolve only_pre_encode only_URL_decode : faults.

Lemma only_parse_userinfo u s : only (parse_userinfo u s).
Proof. unfold parse_userinfo. destruct (break _ s) as [info rest]. only_steps. Qed.

#[export] Hint Resolve only_parse_userinfo : faults.

Lemma only_parse_location u s : only (_parse_location u s).
Proof. unfold _parse_location. only_steps. Qed.

Lemma only_parse_path u s : only (_parse_path u s).
Proof. unfold _parse_path. only_steps. Qed.

#[export] Hint Resolve only_parse_location only_parse_path : faults.

Lemma only_parse u s : only (_parse u s).
Proof.
  unfold _parse. only_steps.
Qed.

Lemma only_reset_url u s : only (reset_url u s).
Proof. unfold reset_url. only_steps; apply only_parse. Qed.

(** A URL with a host has a path, and there is always a text. *)
Definition url_ok (u : URL) : Prop := is_Some (url u) /\ (is_Some (host u) -> is_Some (path u)).

Lemma parse_userinfo_fields u s u' s' : parse_userinfo u s = Ok (u', s') ->
  url u' = url u /\ host u' = host u /\ path u' = path u /\ protocol u' = protocol u.
Proof.
  unfold parse_userinfo. intros E. repeat (case_match; simplify_eq; try done); inv_ok; simplify_eq; done.
Qed.

Lemma parse_path_fields u s u' : _parse_path u s = Ok u' -> url u' = url u /\ host u' = host u /\ path u' = path u.
Proof. unfold _parse_path. intros E. repeat (case_match; simplify_eq; try done); inv_ok; simplify_eq; done. Qed.

Lemma parse_location_fields u s r u' s' : _parse_location u s = Ok (r, u', s') ->
  url u' = url u /\ path u' = path u /\ protocol u' = protocol u /\ (r <> SUCC -> host u' = host u).
Proof.
  unfold _parse_location. intros E. apply bind_Ok in E as ([u1 b1] & E0 & E). apply parse_userinfo_fields in E0 as (E1 & E2 & E3 & E4).
  repeat (case_match; simplify_eq; try done); simpl; split_and!; congruence.
Qed.

Lemma parse_ok u s r u' : host u = None -> _parse u s = Ok (r, u') -> url_ok u'.
Proof.
  intros Hh E. unfold _parse in E. apply bind_Ok in E as (e & _ & E). apply bind_Ok in E as (t & _ & E). unfold _parse_scheme in E.
  destruct (find_proto t protocol_table) as [ps|] eqn:Ef; [|simpl in E; injection E as <- <-; split; [eauto|simpl; rewrite Hh; by intros []]].
  unfold protocol_table in Ef. cbn [find_proto] in Ef. destruct (bool_decide _) in Ef; [|done]. injection Ef as <-. cbn [supported negb Z.eqb] in E.
  change (negb (0 =? SUCC)) with false in E. cbv iota in E.
  apply bind_Ok in E as ([[r1 u1] s1] & El & E). apply parse_location_fields in El as (E3 & E4 & Ep & E5). cbn [url host path protocol ps_protocol] in *.
  destruct (r1 =? SUCC) eqn:Er; cbn [negb] in E.
  - destruct (bool_decide _) eqn:Eb; [apply bool_decide_eq_true in Eb; congruence|].
    apply bind_Ok in E as (u2 & E2 & E). injection E as <- <-. apply parse_path_fields in E2 as (E6 & E7 & E8). cbn [url host path] in *.
    split; [rewrite E6, E3; eauto|]. rewrite E8. eauto.
  - injection E as <- <-. apply Z.eqb_neq in Er. split; [rewrite E3; eauto|]. rewrite (E5 Er), Hh. by intros [].
Qed.

Lemma reset_url_ok u s r u' : url_ok u -> reset_url u s = Ok (r, u') -> url_ok u'.
Proof.
  intros Hu E. unfold reset_url in E. destruct (has_scheme s); [by apply parse_ok in E|].
  destruct (List.find _ _); [|by injection E as <- <-]. apply bind_Ok in E as (t & _ & E). by apply parse_ok in E.
Qed.

(** ** Requests *)

Lemma only_setHttpHeader bnd proxy negotiate u t hdrs : only (setHttpHeader bnd proxy negotiate u t hdrs).
Proof. unfold setHttpHeader, BuildContentType, BuildHostHdr. only_steps. Qed.

(** The arguments passed the check of [addTask]. *)
Definition checked (d : TTask) : Prop :=
  exists file_size n, taskParamCheck file_size (t_url d) (t_type d) (t_postParams d) (t_options d) = Ok (inr n).

(** Every file has a type. *)
Definition param_typed (p : POST_PARAM) : Prop :=
  paramType p = PARAM_FILENAME -> forall file, c_text (paramBuffer p) = Ok file -> only (getMimeType file).

Lemma check_params_typed fs ps k n : check_params fs ps k = Ok (inr n) -> Forall param_typed ps.
Proof.
  revert k. induction ps as [|p ps IH]; intros k E; [constructor|]. cbn [check_params] in E.
  apply bind_Ok in E as ([err|m] & Ep & E); [done|]. constructor; [|by eapply IH].
  intros Ht file Hf. unfold check_param in Ep. apply bind_Ok in Ep as (name & _ & Ep). rewrite Ht, Hf in Ep.
  repeat (case_match; simplify_eq; try done); simpl in Ep; repeat (case_match; simplify_eq; try done).
  all: apply bind_Ok in Ep as (mime & Em & Ep); intros f Hf'; congruence.
Qed.

Lemma checked_params d : checked d -> task_verb (t_type d) = VERB_POST ->
  exists ps, t_postParams d = Some ps /\ Forall param_typed ps /\ t_type d <> TASK_BINARY.
Proof.
  intros (fs & n & E) Hv. unfold taskParamCheck in E. destruct (bool_decide _); [done|].
  apply bind_Ok in E as ([err|m] & Ep & E); [done|].
  destruct (t_type d); try done; destruct (t_postParams d) as [ps|]; try done.
  - exists ps. split_and!; [done|by eapply check_params_typed|done].
  - exists ps. split_and!; [done|by eapply check_params_typed|done].
  - unfold check_binary in Ep. destruct (Z.eqb_spec (Z.of_nat (List.length ps)) 1) as [Hl|]; [|done].
    apply bind_Ok in Ep as (p & Hp & _). apply vec_at_Ok in Hp as [_ Hp]. apply lookup_lt_Some in Hp. lia.
Qed.

Lemma only_append bs b : only (append bs b).
Proof. unfold append. only_steps. Qed.

Lemma only_sprintf_at b p t : only (sprintf_at b p t).
Proof. apply only_pokes. Qed.

Lemma only_snprintf_at b p n t : only (snprintf_at b p n t).
Proof. unfold snprintf_at, sprintf_at. only_steps. Qed.

#[export] Hint Resolve only_append only_sprintf_at only_snprintf_at : faults.

Lemma only_print_temp texts b : only (print_temp texts b).
Proof. unfold print_temp. apply only_for_each. intros [k b'] t _. only_steps. Qed.

Lemma only_flush k b : only (flush k b).
Proof. unfold flush. only_steps. Qed.

Lemma only_copy_file n data b : only (copy_file n data b).
Proof. revert data b. induction n; intros data b; simpl; [only_steps|]. destruct data; only_steps. Qed.

#[export] Hint Resolve only_print_temp only_flush only_copy_file : faults.

Lemma only_build_params bnd ma fs op ps b : Forall param_typed ps -> only (build_params bnd ma fs op ps b).
Proof.
  intros H. revert b. induction H as [|p ps Hp _ IH]; intros b; cbn [build_params].
  - only_steps.
  - apply only_bind; [|intros [] _; [only_steps|apply IH]]. unfold build_param. destruct (paramType p) eqn:Et.
    + unfold build_text. only_steps.
    + unfold build_binary. only_steps.
    + unfold build_file. apply only_bind; [only_steps|]. intros name _. apply only_bind; [only_steps|]. intros file Hf.
      apply only_bind; [by apply Hp|]. intros mime _. only_steps.
Qed.

Lemma only_generate bnd proxy ma fs op u d hdrs : checked d -> is_Some (match proxy with Some _ => url u | None => path u end) ->
  only (generateSendDataBuffer bnd proxy ma fs op u d hdrs).
Proof.
  intros Hc Hu. pose proof (only_some _ Hu) as Ht. unfold generateSendDataBuffer, request_target. apply only_bind; [done|]. intros target Etarget.
  apply only_bind; [|intros [err|[[buffer n] size]] _; only_steps].
  unfold BuildHttpRequest. apply only_if; [only_steps|].
  assert (Hmethod : forall buf, only (build_method proxy (task_verb (t_type d)) u buf)).
  { intros buf. unfold build_method. destruct (t_type d); cbn [task_verb]; unfold request_target; rewrite Etarget, Ok_bind; only_steps. }
  apply only_bind; [apply Hmethod|]. intros s _. apply only_bind; [apply only_for_each; intros; unfold build_header; only_steps|]. intros b _.
  apply only_bind; [only_steps|]. intros s' _. apply only_bind; [|intros [] _; only_steps].
  destruct (bool_decide _) eqn:Ev; [|only_steps]. apply bool_decide_eq_true in Ev.
  destruct (checked_params d Hc Ev) as (ps & -> & Hps & Hb). rewrite Ev. cbn [deref]. rewrite Ok_bind, bool_decide_eq_false_2 by done.
  by apply only_build_params.
Qed.

(** ** Methods of the client *)

Class NtlmLaws (E : Type) `{OsLaws E} `{!Ntlm E} := {
  init_calm : forall p e, still e (snd (NtlmInit p e));
  step1_calm : forall e, still e (snd (NtlmStep1 e));
  step2_calm : forall s e, still e (snd (NtlmStep2 s e))
}.

(** ** Descriptors *)

Section Descriptors.
Context {E : Type} {OS : Os E} {OL : OsLaws E}.

Definition fd_set (fd : Z) : gset Z := if 0 <=? fd then {[fd]} else ∅.

(** A descriptor is kept, made or closed, and the library's descriptors with it. *)
Definition fd_effect (fd : Z) (e : E) (fd' : Z) (e' : E) : Prop :=
  opened e' = opened e ∖ fd_set fd ∪ fd_set fd' /\ (remaining e' <= remaining e)%nat /\ (fd' = fd \/ fd' < 0 \/ fd' ∉ opened e).

(** The descriptor is one of the library's. *)
Definition fd_own (fd : Z) (e : E) : Prop := 0 <= fd -> fd ∈ opened e.

Lemma fd_set_own fd e : fd_own fd e -> fd_set fd ⊆ opened e.
Proof. unfold fd_own, fd_set. intros Ho. destruct (Z.leb_spec 0 fd); set_solver. Qed.

Lemma still_effect fd e e' : fd_own fd e -> still e e' -> fd_effect fd e fd e'.
Proof.
  intros Ho [E1 E2]. pose proof (fd_set_own fd e Ho). split_and!; [|done|by left]. rewrite E1.
  apply set_eq. intros x. destruct (decide (x ∈ fd_set fd)); set_solver.
Qed.

Lemma effect_own fd e fd' e' : fd_effect fd e fd' e' -> fd_own fd' e'.
Proof. intros (E1 & _) H0. rewrite E1. unfold fd_set at 2. rewrite (proj2 (Z.leb_le _ _) H0). set_solver. Qed.

Lemma effect_still fd e fd1 e1 fd2 e2 : fd_effect fd e fd1 e1 -> fd2 = fd1 -> still e1 e2 -> fd_effect fd e fd2 e2.
Proof. intros (E1 & E2 & E3) -> [E4 E5]. split_and!; [congruence|lia|done]. Qed.

End Descriptors.

(** No SOCKS proxy is used; what was kept of a line is less than a line. *)
Record client_ok (h : THttpCli) : Prop := {
  co_socks : m_socks h = None;
  co_proxy : forall p, m_proxy h = Some p -> px_type p <> HTTPDOWN_PROXY_SOCK5;
  co_url : url_ok (u h);
  co_line : 0 <= recvedlen h < LINE_BUFFER
}.

Section Methods.
Context {E : Type} {OS : Os E} {OL : OsLaws E} {NT : Ntlm E} {NL : NtlmLaws E}.

(** The client stays connected as it is. *)
Record kept (s s' : THttpCli * E) : Prop := {
  kp_ok : client_ok (fst s');
  kp_sock : m_sock (fst s') = m_sock (fst s);
  kp_proxy : m_proxy (fst s') = m_proxy (fst s);
  kp_url : u (fst s') = u (fst s);
  kp_still : still (snd s) (snd s')
}.

Lemma kept_refl s : client_ok (fst s) -> kept s s.
Proof. intros Hs. split; [done..|apply still_refl]. Qed.

Lemma kept_trans s1 s2 s3 : kept s1 s2 -> kept s2 s3 -> kept s1 s3.
Proof. intros [] []. split; try done; try congruence. by eapply still_trans. Qed.

Definition Keep {A} (m : Run (THttpCli * E) A) : Prop := forall s, client_ok (fst s) -> runs text_fault m (fun _ s' => kept s s') s.

Lemma Keep_bind {A B} (m : Run (THttpCli * E) A) (k : A -> Run (THttpCli * E) B) : Keep m -> (forall a, Keep (k a)) -> Keep (m ≫= k).
Proof.
  intros Hm Hk s Hs. apply runs_bind. eapply runs_impl; [by apply Hm|]. intros a s1 H1.
  eapply runs_impl; [apply Hk, (kp_ok _ _ H1)|]. intros b s2 H2. exact (kept_trans _ _ _ H1 H2).
Qed.

Lemma Keep_ret {A} (a : A) : Keep (mret a).
Proof. intros s Hs. apply runs_ret. by apply kept_refl. Qed.

Lemma Keep_my {A} (f : THttpCli -> A) : Keep (my f).
Proof. intros s Hs. apply runs_my. by apply kept_refl. Qed.

Lemma Keep_pure {A} (o : outcome A) : only o -> Keep (pure o).
Proof. intros Ho s Hs. apply runs_pure; [|done]. intros a _. by apply kept_refl. Qed.

Lemma Keep_sys {A} (f : E -> A * E) : (forall e, still e (snd (f e))) -> Keep (sys f).
Proof. intros Hf s Hs. apply runs_sys. split; simpl; auto. Qed.

Lemma Keep_set (f : THttpCli -> THttpCli) :
  (forall h, client_ok h -> client_ok (f h) /\ m_sock (f h) = m_sock h /\ m_proxy (f h) = m_proxy h /\ u (f h) = u h) -> Keep (set f).
Proof. intros Hf s Hs. apply runs_set. destruct (Hf _ Hs) as (? & ? & ? & ?). split; simpl; auto. apply still_refl. Qed.

Lemma Keep_htSkp {A} (m : Run (Z * E) A) : keeps m -> Keep (htSkp m).
Proof.
  intros Hm [h e] Hs. apply runs_part. eapply runs_impl; [apply Hm|]. cbn [fst snd]. intros a [fd e'] [-> He]. cbn [fst snd] in *.
  destruct Hs. split; simpl; auto. by split.
Qed.

Lemma Keep_if {A} (b : bool) (m1 m2 : Run (THttpCli * E) A) : Keep m1 -> Keep m2 -> Keep (if b then m1 else m2).
Proof. by destruct b. Qed.

Lemma Keep_when b (m : Run (THttpCli * E) unit) : Keep m -> Keep (when b m).
Proof. intros Hm. destruct b; [done|apply Keep_ret]. Qed.

Create HintDb keep.
Hint Resolve Keep_ret Keep_my Keep_pure Keep_htSkp : keep.
Hint Resolve direct_recv_keeps Send_keeps Host2Str_keeps checkConnect_keeps Connect_keeps GetHandle_keeps : keep.

(** A change of the other fields. *)
Ltac keep_set := apply Keep_set; let h := fresh in let Hh := fresh in intros h Hh; destruct Hh; split_and!; [split; simpl; auto|done..].

Ltac keep_steps :=
  repeat lazymatch goal with
  | |- Keep (_ ≫= _) => apply Keep_bind; [|intros ?]
  | |- Keep (if _ then _ else _) => apply Keep_if
  | |- Keep (when _ _) => apply Keep_when
  | |- Keep (set _) => keep_set
  | |- Keep (sys _) => apply Keep_sys; auto using init_calm, step1_calm, step2_calm
  | |- Keep (match ?x with _ => _ end) => destruct x
  | |- Keep (pure _) => apply Keep_pure; only_steps
  | |- Keep _ => solve [eauto 3 with keep]
  end.

Lemma checkConnect_Keep : Keep checkConnect.
Proof. unfold checkConnect. keep_steps. Qed.

Lemma SendData_Keep bs : Keep (SendData bs).
Proof. unfold SendData. keep_steps. Qed.

Lemma DirectRecvData_Keep n : Keep (DirectRecvData n).
Proof. unfold DirectRecvData. keep_steps. Qed.

(** ** The head of a response ends *)

(** A character that was read is one that will not come again. *)
Lemma BufReadChar_Keep : Keep BufReadChar.
Proof. unfold BufReadChar. keep_steps. Qed.

Definition consumed (n : nat) (s s' : THttpCli * E) : Prop := kept s s' /\ (remaining (snd s') + n <= remaining (snd s))%nat.

Lemma consumed_kept s s' : kept s s' -> consumed 0 s s'.
Proof. intros Hk. split; [done|]. destruct (kp_still _ _ Hk) as [_ ?]. lia. Qed.

Lemma consumed_trans n m s1 s2 s3 : consumed n s1 s2 -> consumed m s2 s3 -> consumed (n + m) s1 s3.
Proof. intros [H1 H2] [H3 H4]. split; [by eapply kept_trans|lia]. Qed.

Lemma BufReadChar_reads s : client_ok (fst s) ->
  runs text_fault BufReadChar (fun r s' => consumed (match r with ReadOne _ => 1 | _ => 0 end) s s' /\ fst s' = fst s) s.
Proof.
  intros Hs. pose proof (BufReadChar_Keep s Hs) as Hk. unfold BufReadChar, htSkp, direct_recv in *.
  revert Hk. unfold runs, mbind, Run_bind, part, zoom, my, gets, sys, mret, Run_ret. cbn [fst snd id].
  destruct (sys_recv (m_sock (fst s)) 1 (snd s)) as [r e'] eqn:Er. cbn [fst snd]. intros Hk.
  split; [|by destruct s as [[] ?]]. destruct r as [err|bs]; [by apply consumed_kept|].
  destruct bs as [|c bs]; [by apply consumed_kept|]. split; [done|]. cbn [snd].
  pose proof (recv_size (m_sock (fst s)) 1 (snd s) (c :: bs)) as Hr. rewrite Er in Hr. destruct (Hr eq_refl ltac:(lia)) as [_ Hr']. simpl in Hr'. simpl. lia.
Qed.

Lemma read_chars_reads n line s : client_ok (fst s) ->
  runs text_fault (read_chars n line) (fun r s' => exists k, List.length (snd r) = (List.length line + k)%nat /\ consumed k s s' /\ fst s' = fst s /\
    (n <> O -> match fst r with ReadOne _ => k <> O | _ => True end)) s.
Proof.
  revert line s. induction n as [|n IH]; intros line s Hs; cbn [read_chars].
  - apply runs_ret. exists O. split_and!; [simpl; lia|by apply consumed_kept, kept_refl|done|done].
  - apply runs_bind. eapply runs_impl; [by apply BufReadChar_reads|]. intros r s1 [Hc Hf].
    assert (Hstop : match r with ReadOne _ => False | _ => True end -> runs text_fault (mret (r, line)) (fun r s' => exists k,
      List.length (snd r) = (List.length line + k)%nat /\ consumed k s s' /\ fst s' = fst s /\
      (S n <> O -> match fst r with ReadOne _ => k <> O | _ => True end)) s1).
    { intros Hr. apply runs_ret. exists O. destruct r; try done; split_and!; simpl; (lia || done). }
    destruct r as [err| |c]; [by apply Hstop..|]. destruct (c =? 10).
    + apply runs_ret. exists 1%nat. simpl. rewrite length_app. simpl. split; [lia|]. split; [done|]. split; [done|]. intros _ ?. lia.
    + eapply runs_impl; [apply IH; by rewrite Hf|]. intros r s2 (k & Hl & Hc2 & Hf2 & Hk). exists (1 + k)%nat. rewrite length_app in Hl. simpl in Hl.
      split_and!; [cbn in *; lia|by eapply consumed_trans|by rewrite Hf2|]. intros _. destruct (fst r); try done.
Qed.

Lemma set_line_ok b n s : client_ok (fst s) -> 0 <= n < LINE_BUFFER -> kept s (set_line b n (fst s), snd s).
Proof. intros [] Hn. split; done. Qed.

(** A line that was read whole took a character at least. *)
Lemma ReadLine_reads s : client_ok (fst s) ->
  runs text_fault ReadLine (fun r s' => consumed (if fst r =? RET_SOCKET_FINISH then 1 else 0) s s') s.
Proof.
  intros Hs. unfold ReadLine. apply runs_bind. eapply runs_impl; [by apply read_chars_reads|]. intros [last line] s1 (k & Hl & Hc & Hf & Hk).
  cbn [fst snd] in *. specialize (Hk ltac:(by vm_compute)). destruct s1 as [h1 e1]. destruct s as [h e]. cbn [fst snd] in *. subst h1.
  assert (Hend : forall (r : Z * str) e2 b n, 0 <= n -> consumed k (h, e) (h, e2) -> fst r <> RET_SOCKET_CONTINUE -> (fst r = RET_SOCKET_FINISH -> k <> O) ->
    runs text_fault (when (negb (fst r =? RET_SOCKET_CONTINUE)) (set (fun h => set_line (uncompleteLineBuf h) 0 h));; mret r)
      (fun r s' => consumed (if fst r =? RET_SOCKET_FINISH then 1 else 0) (h, e) s') (set_line b n h, e2)).
  { intros r e2 b n Hn Hc2 Hr Hfin. rewrite (proj2 (Z.eqb_neq _ _) Hr). cbn [negb when]. step. step. step. destruct Hc2 as [Hkp Hrem].
    destruct Hs. split.
    - destruct Hkp. split; simpl in *; auto. split; simpl; auto. unfold LINE_BUFFER. lia.
    - cbn [snd] in *. destruct (Z.eqb_spec (fst r) RET_SOCKET_FINISH); [specialize (Hfin ltac:(done))|]; lia. }
  assert (Hsame : set_line (uncompleteLineBuf h) (recvedlen h) h = h) by by destruct h.
  pose proof (fun r e2 => Hend r e2 (uncompleteLineBuf h) (recvedlen h) (proj1 (co_line _ Hs))) as Hend0. rewrite Hsame in Hend0.
  assert (Hkeep : forall Q, (forall b, recvedlen h + len line <= len b -> Q tt (set_line b (recvedlen h + len line) h, e1)) ->
    runs text_fault (keep_line line) Q (h, e1)).
  { intros Q HQ. unfold keep_line. step. step. step. step. step. apply runs_pure; [|apply only_pokes]. intros b Hb. step. apply HQ.
    unfold pokes in Hb. destruct (Z.leb_spec 0 (recvedlen h)); [|done]. cbn [andb] in Hb.
    destruct (Z.leb_spec (recvedlen h + Z.of_nat (List.length line)) (Z.of_nat (List.length (uncompleteLineBuf h)))) as [Hle|]; [|done]. injection Hb as <-.
    unfold len. rewrite !length_app, length_take, length_drop. lia. }
  apply runs_bind. destruct last as [err| |c].
  - destruct (negb _ && negb _); [step; by apply Hend0|].
    step. apply Hkeep. intros b Hb. step. step. step. step. cbn [recvedlen set_line uncompleteLineBuf].
    destruct (Z.leb_spec LINE_BUFFER (recvedlen h + len line)).
    + destruct (_ =? _); [|by apply runs_fail]. step. destruct Hs. apply Hend; [unfold len; lia|done|done|]. intros _. unfold len in *. simpl in Hl. lia.
    + step. cbn [fst]. change (RET_SOCKET_CONTINUE =? RET_SOCKET_CONTINUE) with true. cbn [negb when]. step. step. step.
      destruct Hs, Hc as [[] Hrem]. split; [|simpl in *; lia]. split; simpl in *; auto. split; simpl; auto. unfold len in *. lia.
  - step. by apply Hend0.
  - step. step. cbn [fst]. destruct (recvedlen h =? 0) eqn:En.
    + step. apply Hend0; [done|done|by intros _].
    + step. apply Hkeep. intros b Hb. step. step. step. step. step. apply Hend; [destruct Hs; unfold len; lia|done|done|by intros _].
Qed.

(** The head of a response is read to its end, whatever arrives. *)
Lemma parse_headers_Keep fuel s : client_ok (fst s) -> (remaining (snd s) < fuel)%nat ->
  runs text_fault (parse_headers fuel) (fun _ s' => kept s s') s.
Proof.
  revert s. induction fuel as [|fuel IH]; intros s Hs Hf; [lia|]. cbn [parse_headers].
  apply runs_bind. eapply runs_impl; [by apply ReadLine_reads|]. intros [ret buf] s1 [Hk Hr]. cbn [fst] in *.
  destruct (ret =? RET_SOCKET_FINISH); cbn [negb]; [|by apply runs_ret].
  destruct (parse_header buf) as [| |k v]; [by apply runs_ret..|]. apply runs_bind. apply runs_set.
  assert (Hk2 : kept s1 (set_response (SetHdr k v (htResponse (fst s1))) (fst s1), snd s1)).
  { destruct (kp_ok _ _ Hk). split; try done. }
  eapply runs_impl; [apply IH; [apply (kp_ok _ _ Hk2)|cbn [snd]; lia]|]. intros ? s2 Hk3.
  exact (kept_trans _ _ _ (kept_trans _ _ _ Hk Hk2) Hk3).
Qed.

Lemma ProcessHttpResponse_Keep fuel s : client_ok (fst s) -> (remaining (snd s) < fuel)%nat ->
  runs text_fault (ProcessHttpResponse fuel) (fun _ s' => kept s s') s.
Proof.
  intros Hs Hf. unfold ProcessHttpResponse. apply runs_bind.
  assert (Hp : runs text_fault (ParseHttpHdrs fuel) (fun _ s' => kept s s') s).
  { unfold ParseHttpHdrs. apply runs_bind, runs_set.
    assert (Hk0 : kept s (set_response [] (fst s), snd s)) by (destruct Hs; split; try done; apply still_refl).
    apply runs_bind. eapply runs_impl; [apply ReadLine_reads, (kp_ok _ _ Hk0)|]. intros [ret buf] s1 [Hk1 Hr]. cbn [fst] in *.
    pose proof (kept_trans _ _ _ Hk0 Hk1) as Hk. destruct (ret =? RET_SOCKET_FINISH); cbn [negb]; [|by apply runs_ret].
    assert (Hst : forall s2 l c, kept s s2 -> kept s (set_status l c (fst s2), snd s2))
      by (intros s2 l c [[] ? ? ? ?]; split; try done).
    apply runs_bind, runs_set. set (s2 := (_, _) : THttpCli * E). assert (Hk2 : kept s s2) by by apply Hst.
    destruct (snd (break _ _)) as [|[|p|p] ptr]; try by apply runs_ret. do 6 (destruct p; try by apply runs_ret).
    apply runs_bind, runs_set. eapply runs_impl; [apply parse_headers_Keep|].
    - apply (kp_ok _ _ (Hst s2 _ _ Hk2)).
    - unfold s2. cbn [snd] in *. lia.
    - intros ? s3 Hk3. exact (kept_trans _ _ _ (Hst s2 _ _ Hk2) Hk3). }
  eapply runs_impl; [exact Hp|]. intros ret s1 Hk. destruct (negb _); [by apply runs_ret|]. step. step. by step.
Qed.

(** ** Proxies *)

Lemma the_proxy_Keep p : forall s : THttpCli * E, client_ok (fst s) -> m_proxy (fst s) = Some p -> runs text_fault the_proxy (fun q s' => q = p /\ s' = s) s.
Proof. intros s Hs Hp. unfold the_proxy. step. step. apply runs_pure; rewrite Hp; [|done]. by intros q [= <-]. Qed.

(** The same with a property of the result. *)
Definition KeepR {A} (P : A -> Prop) (m : Run (THttpCli * E) A) : Prop :=
  forall s, client_ok (fst s) -> runs text_fault m (fun a s' => kept s s' /\ P a) s.

Lemma KeepR_bind {A B} P (m : Run (THttpCli * E) A) (k : A -> Run (THttpCli * E) B) : Keep m -> (forall a, KeepR P (k a)) -> KeepR P (m ≫= k).
Proof.
  intros Hm Hk s Hs. apply runs_bind. eapply runs_impl; [by apply Hm|]. intros a s1 H1.
  eapply runs_impl; [apply Hk, (kp_ok _ _ H1)|]. intros b s2 [H2 HP]. split; [exact (kept_trans _ _ _ H1 H2)|done].
Qed.

Lemma KeepR_ret {A} (P : A -> Prop) (a : A) : P a -> KeepR P (mret a).
Proof. intros HP s Hs. apply runs_ret. split; [by apply kept_refl|done]. Qed.

Ltac keepr_steps :=
  repeat lazymatch goal with
  | |- KeepR _ (_ ≫= _) => apply KeepR_bind; [keep_steps|intros ?]
  | |- KeepR _ (if ?b then _ else _) => destruct b
  | |- KeepR _ (match ?x with _ => _ end) => destruct x
  | |- KeepR _ (mret _) => apply KeepR_ret; done
  end.

(** No answer of a SOCKS server is awaited. *)
Definition no_wait (ret : Z) : Prop := ret <> RET_PROXY_BEGIN_AUTH /\ ret <> RET_PROXY_DOING_AUTH.

Lemma processNtlmAuth_Keep s : client_ok (fst s) -> is_Some (m_proxy (fst s)) ->
  runs text_fault processNtlmAuth (fun ret s' => kept s s' /\ no_wait ret) s.
Proof.
  intros Hs [p Hp]. unfold processNtlmAuth. apply runs_bind. eapply runs_impl; [by apply (the_proxy_Keep p)|]. intros q s1 [-> ->].
  match goal with |- runs _ ?m _ _ => assert (Hm : KeepR no_wait m) end; [keepr_steps|by apply Hm].
Qed.

Lemma proxyAuth_Keep s : client_ok (fst s) -> is_Some (m_proxy (fst s)) ->
  runs text_fault proxyAuth (fun ret s' => kept s s' /\ no_wait ret) s.
Proof.
  intros Hs [p Hp]. unfold proxyAuth. apply runs_bind. eapply runs_impl; [by apply (the_proxy_Keep p)|]. intros q s1 [-> ->].
  pose proof (co_proxy _ Hs _ Hp) as Hno. destruct (px_type p); try done.
  - apply runs_bind. eapply runs_impl; [apply Keep_htSkp; [apply Host2Str_keeps|done]|]. intros [ip|] s1 Hk.
    + destruct (bool_decide _); [|by step]. eapply runs_impl; [apply processNtlmAuth_Keep; [apply (kp_ok _ _ Hk)|]|].
      * rewrite (kp_proxy _ _ Hk), Hp. eauto.
      * intros ret s2 [Hk2 Hr]. split; [exact (kept_trans _ _ _ Hk Hk2)|done].
    + by step.
Qed.

(** ** Connections *)

(** What a connection attempt leaves. *)
Record attempted (s : THttpCli * E) (ret : Z) (s' : THttpCli * E) : Prop := {
  at_ok : client_ok (fst s');
  at_proxy : m_proxy (fst s') = m_proxy (fst s);
  at_url : u (fst s') = u (fst s);
  at_fd : fd_effect (m_sock (fst s)) (snd s) (m_sock (fst s')) (snd s');
  at_same : 0 <= m_sock (fst s) -> m_sock (fst s') = m_sock (fst s);
  at_live : ret = RET_OK \/ ret = RET_SOCKET_CONTINUE -> 0 <= m_sock (fst s')
}.

Lemma kept_attempted s ret s1 s2 : attempted s RET_OK s1 -> kept s1 s2 -> attempted s ret s2.
Proof.
  intros [] []. split; try done; try congruence.
  - by eapply effect_still.
  - intros Hfd. rewrite kp_sock0. auto.
  - intros _. rewrite kp_sock0. apply at_live0. by left.
Qed.

Lemma ensure_socket_attempted k Q s : client_ok (fst s) -> fd_own (m_sock (fst s)) (snd s) ->
  (forall s1, attempted s RET_OK s1 -> runs text_fault k Q s1) ->
  (forall s1, attempted s RET_SOCKET_CREATE_FAIL s1 -> Q RET_SOCKET_CREATE_FAIL s1) -> runs text_fault (ensure_socket k) Q s.
Proof.
  intros Hs Ho Hk Hfail. unfold ensure_socket. apply runs_bind. unfold htSkp at 1. step. unfold GetHandle. step. step. step. cbn [fst snd id].
  assert (Hsame : set_sock (m_sock (fst s)) (fst s) = fst s) by by destruct s as [[] ?]. rewrite Hsame.
  destruct (Z.ltb_spec (m_sock (fst s)) 0) as [Hn|Hn].
  - change (- ENODATA <? 0) with true. cbn iota. apply runs_bind. unfold htSkp. step. apply CreateSock_opened; [done|].
    intros fd' e' E1 E2 E3. cbn [fst snd].
    assert (Hat : forall ret, (ret = RET_OK \/ ret = RET_SOCKET_CONTINUE -> 0 <= fd') -> attempted s ret (set_sock fd' (fst s), e')).
    { intros ret Hr. destruct Hs. split; try done; [|intros; lia]. cbn [fst snd m_sock set_sock]. split_and!; [|done|].
      - unfold fd_set at 1. rewrite (proj2 (Z.leb_gt _ _)) by lia. rewrite E1. unfold fd_set. set_solver.
      - destruct (Z.lt_ge_cases fd' 0); [by right; left|]. right. right. auto. }
    destruct (Z.ltb_spec fd' 0).
    + change (negb (CONSOCKERR =? NOCONERROR)) with true. cbv iota. step. apply Hfail, Hat. unfold RET_SOCKET_CREATE_FAIL, RET_OK, RET_SOCKET_CONTINUE. lia.
    + change (negb (NOCONERROR =? NOCONERROR)) with false. cbv iota. apply Hk, Hat. done.
  - destruct (Z.ltb_spec (m_sock (fst s)) 0); [lia|]. rewrite <- surjective_pairing. apply Hk. split; try done.
    by apply still_effect; [|apply still_refl].
Qed.

(** The end of a connection attempt, with a socket. *)
Lemma connect_attempted s s1 ip port : attempted s RET_OK s1 ->
  runs text_fault (err ← htSkp (Socket_Connect (Some ip) port); mret (connect_result err)) (attempted s) s1.
Proof.
  intros Hat. apply runs_bind. eapply runs_impl; [apply Keep_htSkp; [apply Connect_keeps|apply (at_ok _ _ _ Hat)]|].
  intros err s2 Hk. apply runs_ret. by eapply kept_attempted.
Qed.

(** Only a URL with a host is connected to. *)
Lemma Connect_attempted s : client_ok (fst s) -> fd_own (m_sock (fst s)) (snd s) ->
  runs text_fault Connect (fun ret s' => attempted s ret s' /\ (ret = RET_OK \/ ret = RET_SOCKET_CONTINUE -> is_Some (host (u (fst s))))) s.
Proof.
  intros Hs Ho. apply ensure_socket_attempted; [done..| |].
  - intros s1 Hat. apply runs_bind, runs_my, runs_bind. rewrite (at_url _ _ _ Hat).
    eapply runs_impl; [apply runs_and; [apply Keep_htSkp; [apply Host2Str_keeps|apply (at_ok _ _ _ Hat)]|]|].
    { instantiate (1 := fun ip _ => is_Some ip -> is_Some (host (u (fst s)))). unfold htSkp. step. destruct (host (u (fst s))); simpl; [step; eauto|step; by intros []]. }
    intros [ip|] s2 [Hk Hh].
    + eapply runs_impl; [apply connect_attempted; by eapply kept_attempted|]. intros ret s3 Hat3. split; [done|]. intros _. by apply Hh.
    + apply runs_ret. split; [by eapply kept_attempted|]. by intros [].
  - intros s1 Hat. split; [done|]. by intros [].
Qed.

Lemma ConnectProxyHost_attempted s : client_ok (fst s) -> is_Some (m_proxy (fst s)) -> fd_own (m_sock (fst s)) (snd s) ->
  runs text_fault ConnectProxyHost (attempted s) s.
Proof.
  intros Hs [p Hp] Ho. apply ensure_socket_attempted; [done..| |done]. intros s1 Hat. apply runs_bind.
  eapply runs_impl; [apply (the_proxy_Keep p); [apply (at_ok _ _ _ Hat)|by rewrite (at_proxy _ _ _ Hat)]|]. intros q s2 [-> ->].
  pose proof (co_proxy _ Hs _ Hp) as Hno. destruct (px_type p); try done; [|by apply runs_ret..]. apply runs_bind.
  eapply runs_impl; [apply Keep_htSkp; [apply Host2Str_keeps|apply (at_ok _ _ _ Hat)]|]. intros [ip|] s2 Hk.
  - apply connect_attempted. by eapply kept_attempted.
  - apply runs_ret. by eapply kept_attempted.
Qed.

(** The connection is closed. *)
Lemma Disconnect_closes s : client_ok (fst s) -> fd_own (m_sock (fst s)) (snd s) ->
  runs text_fault Disconnect (fun _ s' => client_ok (fst s') /\ m_proxy (fst s') = m_proxy (fst s) /\ u (fst s') = u (fst s) /\
    m_sock (fst s') < 0 /\ fd_effect (m_sock (fst s)) (snd s) (m_sock (fst s')) (snd s')) s.
Proof.
  intros Hs Ho. destruct s as [h e]. cbn [fst snd] in *. unfold Disconnect. step. step. rewrite (co_socks _ Hs). step. apply runs_when; [done|]. intros _.
  step. unfold htSkp. step. apply Close_opened. intros e' E1 E2. step. cbn [fst snd m_proxy u m_sock set_status set_response set_request set_sock].
  assert (Hfd : (if 0 <=? m_sock h then -1 else m_sock h) < 0) by (destruct (Z.leb_spec 0 (m_sock h)); lia).
  split_and!; [destruct Hs; by split|done|done|done|]. split_and!; [|done|by right; left].
  unfold fd_set at 2. rewrite (proj2 (Z.leb_gt _ _)) by done. unfold fd_set. rewrite E1. set_solver.
Qed.

End Methods.

#[export] Hint Resolve only_setHttpHeader only_generate only_reset_url : faults.
