(* ===== verification/TaskProofs.v ===== *)
(** * Steps of a task

    Every method of [TTask] keeps the task well-formed ([task_ok]) and does to its
    socket what its result says; the states it can lead to are those of the code. *)
From stdpp Require Import prelude gmap.
From Stdlib Require Import ZArith Lia String.
From S2P Require Import Prelude Memory Strings Json MimeTypes Transfer Base64 Url HttpRequest Run Sockets SockProxy HttpClient Task Worker ClientProofs.

(** The states in front of the request. *)
Definition before (st : TaskStatus) : bool :=
  match st with TSK_IDLE | TSK_CONNECT | TSK_CONNECTWAIT | TSK_AUTH | TSK_START => true | _ => false end.

(** A task that is connected has a socket, was redirected less often than it was
    connected, and has a host when there is no proxy. *)
Record task_ok (t : Task) : Prop := {
  tk_client : client_ok (hcp t);
  tk_checked : checked (desc t);
  tk_times : 0 <= redirectionTimes t <= connectTimes t /\ connectTimes t <= MAX_RETRY_CONNECT;
  tk_conn : transferring (taskState t) = true ->
    0 <= task_fd t /\ redirectionTimes t < connectTimes t /\ (m_proxy (hcp t) = None -> is_Some (host (u (hcp t))));
  tk_auth : taskState t = TSK_AUTH -> is_Some (m_proxy (hcp t));
  tk_should : before (taskState t) = true -> shouldGetFileInfo t = true
}.

(** Decide the comparisons of two codes. *)
Ltac codes :=
  repeat match goal with
  | |- context [?a =? ?b] =>
      let v := eval vm_compute in (a =? b) in
      lazymatch v with true => change (a =? b) with true | false => change (a =? b) with false end
  end; cbn [orb andb negb]; cbv iota.

Section Steps.
Context {E : Type} {OS : Os E} {OL : OsLaws E} {NT : Ntlm E} {NL : NtlmLaws E} {MA : Machine E}.

(** A step of a task. *)
Record stepped (s s' : Task * E) : Prop := {
  st_ok : task_ok (fst s');
  st_desc : desc (fst s') = desc (fst s);
  st_fd : fd_effect (task_fd (fst s)) (snd s) (task_fd (fst s')) (snd s')
}.

(** One that does not touch the descriptor. *)
Record moved (s s' : Task * E) : Prop := {
  mv_ok : task_ok (fst s');
  mv_desc : desc (fst s') = desc (fst s);
  mv_fd : task_fd (fst s') = task_fd (fst s);
  mv_still : still (snd s) (snd s')
}.

Lemma moved_stepped s s' : fd_own (task_fd (fst s)) (snd s) -> moved s s' -> stepped s s'.
Proof. intros Ho []. split; [done..|]. rewrite mv_fd0. by apply still_effect. Qed.

Lemma task_moved_refl s : task_ok (fst s) -> moved s s.
Proof. intros Hs. split; [done..|apply still_refl]. Qed.

Lemma task_moved_trans s1 s2 s3 : moved s1 s2 -> moved s2 s3 -> moved s1 s3.
Proof. intros [] []. split; [done|congruence|congruence|by eapply still_trans]. Qed.

(** ** Rules *)

(** A method of the client that keeps the connection. *)
Lemma runs_client {A} (m : Run (THttpCli * E) A) P Q t e :
  runs text_fault m (fun a s => kept (hcp t, e) s /\ P a) (hcp t, e) ->
  (forall a h' e', kept (hcp t, e) (h', e') -> P a -> Q a (set_hcp h' t, e')) -> runs text_fault (client m) Q (t, e).
Proof. intros Hm HQ. apply runs_part. eapply runs_impl; [exact Hm|]. intros a [h' e'] [Hk HP]. by apply HQ. Qed.

Lemma runs_client_Keep {A} (m : Run (THttpCli * E) A) Q t e : Keep m -> client_ok (hcp t) ->
  (forall a h' e', kept (hcp t, e) (h', e') -> Q a (set_hcp h' t, e')) -> runs text_fault (client m) Q (t, e).
Proof. intros Hm Ht HQ. apply (runs_client m (fun _ => True)); [|auto]. eapply runs_impl; [by apply Hm|]. done. Qed.

Lemma runs_active (Q : unit -> Task * E -> Prop) t e F :
  (forall now e', still e e' -> Q tt (set_active now t, e')) -> runs F active Q (t, e).
Proof. intros HQ. unfold active. step. step. step. apply HQ. apply time_calm. Qed.

(** Changing the fields that [task_ok] does not look at. *)
Lemma task_ok_eq t t' : task_ok t -> hcp t' = hcp t -> desc t' = desc t -> taskState t' = taskState t -> connectTimes t' = connectTimes t ->
  redirectionTimes t' = redirectionTimes t -> shouldGetFileInfo t' = shouldGetFileInfo t -> task_ok t'.
Proof. intros [] E1 E2 E3 E4 E5 E6. unfold task_fd in *. split; unfold task_fd in *; rewrite ?E1, ?E2, ?E3, ?E4, ?E5, ?E6; auto. Qed.

(** A state that is neither in front of the request nor connected. *)
Lemma task_ok_state t st : task_ok t -> transferring st = false -> before st = false -> task_ok (set_state st t).
Proof. intros [] H1 H2. split; simpl; try done; [congruence|by intros ->|congruence]. Qed.

Lemma task_ok_error t err : task_ok t -> task_ok (set_error err t).
Proof. intros Ht. apply (task_ok_eq (set_state TSK_ERROR t)); try done. by apply task_ok_state. Qed.

(** A client that was kept. *)
Lemma task_ok_client t h' e e' : task_ok t -> kept (hcp t, e) (h', e') -> task_ok (set_hcp h' t).
Proof. intros [] []. cbn [fst] in *. unfold task_fd in *. split; unfold task_fd; simpl; try done; rewrite ?kp_sock, ?kp_proxy, ?kp_url; auto. Qed.

Lemma moved_client t h' e e' : task_ok t -> kept (hcp t, e) (h', e') -> moved (t, e) (set_hcp h' t, e').
Proof. intros Ht Hk. split; [by eapply task_ok_client|done|apply (kp_sock _ _ Hk)|apply (kp_still _ _ Hk)]. Qed.

(** ** Time *)

Lemma updateTaskInfo_same now t : hcp (updateTaskInfo now t) = hcp t /\ desc (updateTaskInfo now t) = desc t /\
  taskState (updateTaskInfo now t) = taskState t /\ connectTimes (updateTaskInfo now t) = connectTimes t /\
  redirectionTimes (updateTaskInfo now t) = redirectionTimes t /\ shouldGetFileInfo (updateTaskInfo now t) = shouldGetFileInfo t /\
  respData (updateTaskInfo now t) = respData t /\ callbacks (updateTaskInfo now t) = callbacks t /\ ti_errcode (taskInfo (updateTaskInfo now t)) = errcode t.
Proof. unfold updateTaskInfo. destruct (bool_decide _); [done|]. by destruct (task_type _). Qed.

Lemma update_moved t e F Q : task_ok t ->
  (forall now e', moved (t, e) (updateTaskInfo now t, e') -> Q tt (updateTaskInfo now t, e')) -> runs F update Q (t, e).
Proof.
  intros Ht HQ. unfold update. step. step. step. apply HQ. set (now := fst _). destruct (updateTaskInfo_same now t) as (E1 & E2 & E3 & E4 & E5 & E6 & _).
  split; cbn [fst snd]; [by eapply task_ok_eq|done|unfold task_fd; by rewrite E1|apply time_calm].
Qed.

Lemma checkTimeOut_at_same now t : task_ok t -> let t' := checkTimeOut_at now t in
  task_ok t' /\ hcp t' = hcp t /\ desc t' = desc t /\ (taskState t' = taskState t \/ taskState t' = TSK_ERROR).
Proof.
  intros Ht. unfold checkTimeOut_at. destruct (0 <? _); [|auto]. cbv zeta.
  set (t1 := if _ =? 0 then _ else _). assert (Ht1 : task_ok t1 /\ hcp t1 = hcp t /\ desc t1 = desc t /\ taskState t1 = taskState t).
  { unfold t1. destruct (_ =? 0); [|auto]. split_and!; [by eapply task_ok_eq|done..]. }
  destruct Ht1 as (? & ? & ? & ?). destruct (_ <=? _); [split_and!; [by apply task_ok_error|done|done|by right]|auto].
Qed.

Lemma checkTimeOut_moved t e F Q : task_ok t ->
  (forall t' e', moved (t, e) (t', e') -> hcp t' = hcp t -> taskState t' = taskState t \/ taskState t' = TSK_ERROR -> Q tt (t', e')) ->
  runs F checkTimeOut Q (t, e).
Proof.
  intros Ht HQ. unfold checkTimeOut. step. step. destruct (0 <? _).
  - step. step. step. cbn [fst snd]. destruct (checkTimeOut_at_same (fst (sys_time e)) t Ht) as (? & ? & ? & ?).
    apply HQ; [|done|done]. split; cbn [fst snd]; [done|done|unfold task_fd; congruence|apply time_calm].
  - step. apply HQ; [by apply task_moved_refl|done|by left].
Qed.

(** ** Connecting *)

(** A task whose connection is made: the states in which it can go on. *)
Definition linked (t : Task) : Prop :=
  0 <= task_fd t /\ redirectionTimes t < connectTimes t /\ (m_proxy (hcp t) = None -> is_Some (host (u (hcp t)))).

Lemma task_ok_linked t st : task_ok t -> linked t -> (before st = true -> shouldGetFileInfo t = true) ->
  (st = TSK_AUTH -> is_Some (m_proxy (hcp t))) -> task_ok (set_state st t).
Proof. intros [] Hl Hb Ha. by split. Qed.

Lemma onConnected_moved t e Q : task_ok t -> linked t -> before (taskState t) = true ->
  (forall t' e', moved (t, e) (t', e') -> taskState t' = taskState t \/ taskState t' = TSK_AUTH \/ taskState t' = TSK_START -> Q RET_OK (t', e')) ->
  runs text_fault onConnected Q (t, e).
Proof.
  intros Ht Hl Hb HQ. unfold onConnected. step. apply runs_client_Keep; [apply checkConnect_Keep|apply Ht|]. intros ret h' e' Hk.
  pose proof (moved_client _ _ _ _ Ht Hk) as Hm. step. apply runs_active. intros now e2 He2.
  assert (Hm2 : moved (t, e) (set_active now (set_hcp h' t), e2)).
  { eapply task_moved_trans; [exact Hm|]. split; [|done|done|done]. by eapply task_ok_eq; [apply Hm|..]. }
  step. apply runs_when; intros Eb.
  - step. step. apply HQ; [|cbn; case_match; auto]. eapply task_moved_trans; [exact Hm2|]. split; [|done|done|apply still_refl]. cbn [fst snd].
    apply task_ok_linked; [apply Hm2|..].
    + destruct Hl as (? & ? & ?). destruct Hk. unfold linked, task_fd in *. cbn [hcp set_active set_hcp fst snd redirectionTimes connectTimes] in *.
      rewrite kp_sock, kp_proxy, kp_url. auto.
    + intros _. by apply (tk_should _ Ht).
    + cbn. intros Est. unfold UseProxy in Est. case_bool_decide; [done|discriminate].
  - step. apply HQ; [done|by left].
Qed.

(** The outcome of an attempt to connect. *)
Definition tried (t : Task) (ret : Z) (t' : Task) : Prop :=
  (0 <= task_fd t -> task_fd t' = task_fd t) /\
  (if ret =? RET_SOCKET_CONTINUE then 0 <= task_fd t' /\ taskState t' = TSK_CONNECTWAIT
   else if ret =? RET_OK then 0 <= task_fd t' /\ (taskState t' = TSK_CONNECT \/ taskState t' = TSK_AUTH \/ taskState t' = TSK_START)
   else taskState t' = TSK_CONNECT \/ taskState t' = TSK_ERROR).

Lemma tryConnect_stepped t e Q : task_ok t -> fd_own (task_fd t) e -> taskState t = TSK_CONNECT ->
  (forall ret t' e', stepped (t, e) (t', e') -> tried t ret t' -> Q ret (t', e')) -> runs text_fault tryConnect Q (t, e).
Proof.
  intros Ht Ho Hst HQ. unfold tryConnect. step. step. step. step. step. cbn [fst snd]. apply runs_active. intros now e1 He1.
  set (now0 := fst (sys_time e)) in *. set (t1 := set_active now _). assert (He : still e e1) by (eapply still_trans; [apply time_calm|exact He1]).
  assert (Ht1 : task_ok t1) by (by eapply (task_ok_eq t)). assert (Ho1 : fd_own (task_fd t1) e1) by (intros H0; destruct He as [-> _]; by apply Ho).
  assert (Hm1 : moved (t, e) (t1, e1)) by (by split).
  step. step. cbn [fst]. destruct (Z.leb_spec MAX_RETRY_CONNECT (connectTimes t1)) as [Hmax|Hmax].
  - step. step. step. apply HQ; [|split; [done|by right]]. eapply moved_stepped; [done|]. eapply task_moved_trans; [exact Hm1|].
    split; [by apply task_ok_error|done|done|apply still_refl].
  - step. step. step. cbn [fst].
    assert (Hc : runs text_fault (if UseProxy (hcp t1) then ConnectProxyHost else Connect) (fun ret s' => attempted (hcp t1, e1) ret s' /\
        (ret = RET_OK \/ ret = RET_SOCKET_CONTINUE -> m_proxy (hcp t1) = None -> is_Some (host (u (hcp t1))))) (hcp t1, e1)).
    { unfold UseProxy. case_bool_decide as Hp.
      - eapply runs_impl; [by apply ConnectProxyHost_attempted; [apply Ht1|..]|]. intros ret s' Hat. split; [done|]. intros _ Hn. rewrite Hn in Hp. by destruct Hp.
      - eapply runs_impl; [by apply Connect_attempted; [apply Ht1|..]|]. intros ret s' [Hat Hh]. split; [done|]. intros Hr _. by apply Hh. }
    apply runs_part. eapply runs_impl; [exact Hc|]. intros ret [h' e'] [Hat Hh]. destruct Hat as [A1 A2 A3 A4 A5 A6]. cbn [fst snd] in *.
    step. step. set (t2 := set_times _ _ _). pose proof (tk_times _ Ht1) as Htimes.
    assert (Ht2 : task_ok t2).
    { destruct Ht1. split; unfold task_fd; cbn in *; rewrite ?A2, ?A3; try done; try lia. by rewrite Hst. }
    assert (Hfd2 : fd_effect (task_fd t) e (task_fd t2) e').
    { destruct A4 as (B1 & B2 & B3). destruct He as [O1 O2]. split_and!; [by rewrite B1, O1|cbn in *; lia|]. by rewrite <- O1. }
    assert (Hlink : ret = RET_OK \/ ret = RET_SOCKET_CONTINUE -> linked t2).
    { intros Hr. split_and!; [by apply A6|cbn in *; lia|]. cbn. rewrite A2, A3. auto. }
    assert (Hshould : shouldGetFileInfo t2 = true) by (apply (tk_should _ Ht2); cbn; by rewrite Hst).
    destruct (Z.eqb_spec ret RET_OK) as [->|Hok].
    + step. step. apply onConnected_moved; [done|by apply Hlink; left|by cbn; rewrite Hst|]. intros t' e2 [M1 M2 M3 M4] Hs. step. step. cbn [fst snd] in *. apply HQ.
      * split; [done|done|]. by eapply effect_still.
      * split; [intros H0; rewrite M3; by apply A5|]. rewrite M3. split; [by apply A6; left|]. cbn [taskState t2 set_times set_hcp] in Hs.
        change (taskState t1) with (taskState t) in Hs. rewrite Hst in Hs. done.
    + destruct (Z.eqb_spec ret RET_SOCKET_CONTINUE) as [->|Hcont].
      * step. step. step. apply HQ; [|split; [done|by split; [apply A6; right|]]]. split; [|done|done]. cbn [fst]. apply task_ok_linked; [done|by apply Hlink; right|by intros _|done].
      * step. step. step. apply HQ; [by split|]. split; [done|]. rewrite (proj2 (Z.eqb_neq _ _) Hcont), (proj2 (Z.eqb_neq _ _) Hok). by left.
Qed.

Lemma checkConnectTimeout_stepped t e Q : task_ok t -> fd_own (task_fd t) e -> taskState t = TSK_CONNECTWAIT ->
  (forall t' e', stepped (t, e) (t', e') -> taskState t' = TSK_CONNECT -> task_fd t' < 0 -> Q RET_CONNECT_TIMEOUT (t', e')) ->
  (forall e', still e e' -> Q RET_OK (t, e')) -> runs text_fault checkConnectTimeout Q (t, e).
Proof.
  intros Ht Ho Hst HQ1 HQ2. unfold checkConnectTimeout. step. step. step. step. cbn [fst snd]. pose proof (time_calm e) as He. set (e1 := snd (sys_time e)) in *.
  destruct (_ <? _); [|step; by apply HQ2]. step. apply runs_part. cbn [fst snd].
  eapply runs_impl; [apply Disconnect_closes; [apply Ht|]|]. { intros H0. unfold e1. cbn [fst snd]. destruct He as [He _]. fold e1. rewrite He. by apply Ho. }
  intros [] [h' e'] (D1 & D2 & D3 & D4 & D5). cbn [fst snd] in *. step. step. step. cbn [fst snd]. apply HQ1; [|done|done]. split; [|done|].
  - destruct Ht. split; unfold task_fd; cbn; try done. intros _. by apply tk_should0; rewrite Hst.
  - destruct D5 as (B1 & B2 & B3), He as [O1 O2]. unfold fd_effect. cbn [fst snd] in *. rewrite <- O1. split_and!; [done|lia|done].
Qed.

Lemma tryAuth_moved t e Q : task_ok t -> taskState t = TSK_AUTH ->
  (forall ret t' e', moved (t, e) (t', e') -> ret <> RET_PROXY_BEGIN_AUTH -> taskState t' = TSK_START \/ taskState t' = TSK_ERROR -> Q ret (t', e')) ->
  runs text_fault tryAuth Q (t, e).
Proof.
  intros Ht Hst HQ. unfold tryAuth. step. apply (runs_client _ no_wait); [apply proxyAuth_Keep; [apply Ht|by apply Ht]|].
  intros ret h' e' Hk [Hr1 Hr2]. pose proof (moved_client _ _ _ _ Ht Hk) as Hm. step. apply runs_active. intros now e2 He2.
  set (t2 := set_active now _). assert (Hm2 : moved (t, e) (t2, e2)).
  { eapply task_moved_trans; [exact Hm|]. split; [|done|done|done]. by eapply task_ok_eq; [apply Hm|..]. }
  rewrite (proj2 (Z.eqb_neq _ _) Hr1), (proj2 (Z.eqb_neq _ _) Hr2). cbn [negb andb].
  destruct (ret =? RET_OK); step; step; step; (apply HQ; [|done|auto]).
  - eapply task_moved_trans; [exact Hm2|]. split; [|done|done|apply still_refl]. cbn [fst]. apply task_ok_linked; [apply Hm2| |intros _|done].
    + apply (tk_conn _ (mv_ok _ _ Hm2)). cbn. by rewrite Hst.
    + apply (tk_should _ (mv_ok _ _ Hm2)). cbn. by rewrite Hst.
  - eapply task_moved_trans; [exact Hm2|]. split; [|done|done|apply still_refl]. apply task_ok_error, Hm2.
Qed.

(** ** Sending *)

Lemma set_hcp_twice h1 h2 t : set_hcp h2 (set_hcp h1 t) = set_hcp h2 t.
Proof. done. Qed.

Lemma ntlm_proxy_some h : ntlm_proxy h = true -> is_Some (m_proxy h).
Proof. unfold ntlm_proxy. by destruct (m_proxy h). Qed.

Lemma setHttpHeader_kept t e Q : client_ok (hcp t) -> (forall h' e', kept (hcp t, e) (h', e') -> Q tt (set_hcp h' t, e')) ->
  runs text_fault task_setHttpHeader Q (t, e).
Proof.
  intros Ht HQ. unfold task_setHttpHeader. step. step. step. cbn [fst snd].
  assert (Hset : forall h1 e1, kept (hcp t, e) (h1, e1) ->
    runs text_fault (t0 ← my id; let h := hcp t0 in
      hdrs ← pure (setHttpHeader (cliBoundary h) (m_proxy h) (negotiateStr h) (u h) (desc t0) (httpHdrs t0)); client (set (set_request hdrs))) Q (set_hcp h1 t, e1)).
  { intros h1 e1 Hk. step. step. cbn [fst snd id]. step. apply runs_pure; [|apply only_setHttpHeader]. intros hdrs _. apply runs_part. step. cbn [fst snd].
    rewrite set_hcp_twice. apply HQ. eapply kept_trans; [exact Hk|]. destruct (kp_ok _ _ Hk). split; done. }
  apply runs_when; intros Eb.
  - step. apply (runs_client _ no_wait); [apply processNtlmAuth_Keep; [done|by apply ntlm_proxy_some]|]. intros ret h' e' Hk _. step. by apply Hset.
  - specialize (Hset (hcp t) e). replace (set_hcp (hcp t) t) with t in Hset by by destruct t. apply Hset. by apply kept_refl.
Qed.

Lemma linked_target t : client_ok (hcp t) -> linked t -> is_Some (match m_proxy (hcp t) with Some _ => url (u (hcp t)) | None => path (u (hcp t)) end).
Proof. intros [] (_ & _ & Hh). destruct co_url as [Hu Hp]. destruct (m_proxy (hcp t)); auto. Qed.

(** The states after a request was sent, as its result says. *)
Definition sent (ret : Z) (t' : Task) : Prop :=
  if (ret =? RET_SOCKET_FINISH) || (ret =? RET_SOCKET_CONTINUE) then taskState t' = TSK_RUNNING else taskState t' = TSK_ERROR.

Lemma linked_kept t t' e e' : linked t -> kept (hcp t, e) (hcp t', e') -> redirectionTimes t' = redirectionTimes t -> connectTimes t' = connectTimes t -> linked t'.
Proof. intros (L1 & L2 & L3) [] E1 E2. unfold linked, task_fd in *. cbn [fst snd] in *. rewrite kp_sock, kp_proxy, kp_url, E1, E2. auto. Qed.

(** The states behind the request. *)
Lemma moved_after t t' e e' : task_ok t -> kept (hcp t, e) (hcp t', e') -> desc t' = desc t -> connectTimes t' = connectTimes t ->
  redirectionTimes t' = redirectionTimes t -> before (taskState t') = false -> (transferring (taskState t') = true -> linked t) -> moved (t, e) (t', e').
Proof.
  intros [] Hk E1 E2 E3 Hb Hl. split; [|done|apply (kp_sock _ _ Hk)|apply (kp_still _ _ Hk)]. cbn [fst]. split.
  - apply (kp_ok _ _ Hk).
  - by rewrite E1.
  - by rewrite E2, E3.
  - intros Htr. by apply (linked_kept t t' e e'); [apply Hl|..].
  - intros Ha. by rewrite Ha in Hb.
  - congruence.
Qed.

Lemma kept_still h h' e e1 e2 : kept (h, e) (h', e1) -> still e1 e2 -> kept (h, e) (h', e2).
Proof. intros [] He. split; try done. by eapply still_trans. Qed.

(** The codes of a request that could not be built are none of a socket. *)
Lemma build_params_codes bnd ma fs op ps b ret : build_params bnd ma fs op ps b = Ok (inl ret) -> 20 < ret.
Proof.
  revert b. induction ps as [|p ps IH]; intros b E1; cbn [build_params] in E1.
  - apply bind_Ok in E1 as ([k b1] & _ & E1). by apply bind_Ok in E1 as (b2 & _ & E1).
  - apply bind_Ok in E1 as ([ret'|b'] & Ep & E1); [|by eapply IH]. injection E1 as ->. unfold build_param in Ep. destruct (paramType p).
    + unfold build_text in Ep. repeat (apply bind_Ok in Ep as (? & _ & Ep); try case_match). done.
    + unfold build_binary in Ep. repeat (apply bind_Ok in Ep as (? & _ & Ep); try case_match). done.
    + unfold build_file in Ep.
      repeat (first [apply bind_Ok in Ep as (? & _ & Ep) | case_match | injection Ep as <-; unfold RET_NO_FILE, RET_FILE_READ, RET_FILE_CANNOT_OPEN; lia | done]).
Qed.

Lemma generate_codes bnd proxy ma fs op u d hdrs ret : generateSendDataBuffer bnd proxy ma fs op u d hdrs = Ok (inl ret) -> 20 < ret.
Proof.
  unfold generateSendDataBuffer. intros E1. apply bind_Ok in E1 as (target & _ & E1). apply bind_Ok in E1 as ([ret'|[[buffer n] size]] & Eb & E1).
  - injection E1 as ->. unfold BuildHttpRequest in Eb. destruct (bool_decide (hdrs = [])); [done|].
    do 3 (apply bind_Ok in Eb as (? & _ & Eb)). apply bind_Ok in Eb as ([ret'|b'] & Er & Eb); [|done]. injection Eb as ->.
    destruct (bool_decide _) in Er; [|done]. apply bind_Ok in Er as (ps & _ & Er). destruct (bool_decide _) in Er; [|by eapply build_params_codes].
    repeat (apply bind_Ok in Er as (? & _ & Er)). done.
  - destruct (_ =? _); [done|]. injection E1 as <-. unfold RET_FILE_CHANGED. lia.
Qed.

Lemma generate_request t e Q : checked (desc t) -> client_ok (hcp t) -> linked t ->
  (forall ret rq, ret = RET_OK \/ 20 < ret -> Q ret (set_req rq t, e)) -> runs text_fault task_generate Q (t, e).
Proof.
  intros Hc Hh Hl HQ. unfold task_generate. step. step. step. step. cbn [fst snd id]. step. apply runs_pure.
  - intros [ret|[buffer size]] Er.
    + step. specialize (HQ ret (request t) (or_intror (generate_codes _ _ _ _ _ _ _ _ _ Er))). by destruct t.
    + step. step. step. apply HQ. by left.
  - apply only_generate; [done|]. by apply linked_target.
Qed.

Lemma sendHttpReq_moved t e Q : task_ok t -> taskState t = TSK_START ->
  (forall ret t' e', moved (t, e) (t', e') -> sent ret t' -> Q ret (t', e')) -> runs text_fault sendHttpReq Q (t, e).
Proof.
  intros Ht Hst HQ. assert (Hl : linked t) by (apply (tk_conn _ Ht); by rewrite Hst).
  unfold sendHttpReq. step. step. cbn [fst snd]. step. apply setHttpHeader_kept; [apply Ht|]. intros h1 e1 Hk1. cbn [hcp set_should] in Hk1. step.
  set (t1 := set_hcp h1 (set_should false t)) in *. assert (Hl1 : linked t1) by (by eapply (linked_kept t)).
  apply generate_request; [apply Ht|apply (kp_ok _ _ Hk1)|done|]. intros ret rq Hcode. destruct (ret =? RET_OK) eqn:Er; cbn [negb].
  - step. step. cbn [fst snd]. step. apply runs_pure; [|apply only_peeks]. intros bs _. step.
    apply runs_client_Keep; [apply SendData_Keep|apply (kp_ok _ _ Hk1)|]. intros [ret' n] h2 e2 Hk2. cbn [hcp set_req t1 set_hcp] in Hk2.
    pose proof (kept_trans _ _ _ Hk1 Hk2) as Hk. unfold sent in HQ. step.
    destruct (_ || _) eqn:Eo; (step; step; step; apply runs_active; intros now e3 He3; step; step; apply HQ; [|by rewrite Eo]).
    + apply moved_after; try done. by eapply kept_still.
    + apply moved_after; try done. by eapply kept_still.
  - step. step. step. apply runs_active. intros now e3 He3. step. step. step. apply HQ.
    + apply moved_after; try done. by eapply kept_still.
    + unfold sent, RET_SOCKET_FINISH, RET_SOCKET_CONTINUE. apply Z.eqb_neq in Er. destruct Hcode; [done|].
      by rewrite !(proj2 (Z.eqb_neq _ _)) by lia.
Qed.

Lemma sendHttpReqContinue_moved t e Q : task_ok t -> taskState t = TSK_RUNNING ->
  (forall ret t' e', moved (t, e) (t', e') -> sent ret t' -> Q ret (t', e')) -> runs text_fault sendHttpReqContinue Q (t, e).
Proof.
  intros Ht Hst HQ. assert (Hl : linked t) by (apply (tk_conn _ Ht); by rewrite Hst).
  unfold sendHttpReqContinue. step. step. step. apply runs_pure; [|apply only_peeks]. intros bs _. step.
  apply runs_client_Keep; [apply SendData_Keep|apply Ht|]. intros [ret n] h2 e2 Hk. unfold sent in HQ. step. destruct (_ || _) eqn:Eo.
  - step. step. apply runs_active. intros now e3 He3. step. apply HQ; [|by rewrite Eo]. apply moved_after; cbn; try done; [by eapply kept_still|by rewrite Hst].
  - step. step. step. apply runs_active. intros now e3 He3. step. step. apply HQ; [|by rewrite Eo]. apply moved_after; try done. by eapply kept_still.
Qed.

(** ** Receiving *)

(** What became of a task that got data. *)
Definition received (t : Task) (ret : Z) (t' : Task) : Prop :=
  if (ret =? RET_OK) || (ret =? RET_SOCKET_CONTINUE) then taskState t' = TSK_RUNNING /\ task_fd t' = task_fd t
  else if ret =? RET_PROXY_DOING_AUTH then taskState t' = TSK_START /\ task_fd t' = task_fd t
  else (taskState t' = TSK_CONNECT /\ task_fd t' < 0) \/
       (task_fd t' = task_fd t /\ (taskState t' = TSK_FINISHED \/ taskState t' = TSK_ERROR)).

Lemma DirectRecvData_codes n s : client_ok (fst s) ->
  runs text_fault (DirectRecvData n) (fun r s' => kept s s' /\ (fst r = RET_SOCKET_ERROR \/ fst r = RET_SOCKET_FINISH \/ fst r = RET_SOCKET_CONTINUE)) s.
Proof.
  intros Hs. apply runs_and; [by apply DirectRecvData_Keep|]. unfold DirectRecvData. apply runs_bind.
  eapply runs_impl; [apply Keep_htSkp; [apply direct_recv_keeps|done]|]. intros [err|bs] s' _; apply runs_ret; cbn [fst]; case_match; auto.
Qed.

Lemma getRealData_moved t e Q : task_ok t -> taskState t = TSK_RUNNING ->
  (forall ret t' e', moved (t, e) (t', e') -> received t ret t' -> Q ret (t', e')) -> runs text_fault getRealData Q (t, e).
Proof.
  intros Ht Hst HQ. assert (Hl : linked t) by (apply (tk_conn _ Ht); by rewrite Hst).
  unfold getRealData. step. step. step. apply (runs_client _ (fun r => fst r = RET_SOCKET_ERROR \/ fst r = RET_SOCKET_FINISH \/ fst r = RET_SOCKET_CONTINUE)).
  { by apply DirectRecvData_codes; apply Ht. }
  intros [ret bs] h' e' Hk Hr. cbn [fst] in Hr. step. step. step. apply runs_active. intros now e2 He2. pose proof (kept_still _ _ _ _ _ Hk He2) as Hk2.
  step. assert (Hfd : m_sock h' = task_fd t) by apply (kp_sock _ _ Hk). destruct Hr as [-> | [-> | ->]]; codes.
  - step. step. apply HQ; [by apply moved_after|]. unfold received. codes. right. auto.
  - step. step. apply HQ; [by apply moved_after|]. unfold received. codes. right. auto.
  - step. step. apply HQ; [apply moved_after; cbn; try done; by rewrite Hst|]. unfold received. codes. by split.
Qed.

Lemma closed_effect fd e e1 fd' e' : still e e1 -> fd_effect fd e1 fd' e' -> fd_effect fd e fd' e'.
Proof. intros [O1 O2] (B1 & B2 & B3). unfold fd_effect. rewrite <- O1. split_and!; [done|lia|done]. Qed.

(** A redirected task starts again, at the new place. *)
Lemma redirected_stepped t h1 e e1 e2 h2 h3 now : task_ok t -> linked t -> kept (hcp t, e) (h1, e1) ->
  client_ok h2 -> m_proxy h2 = m_proxy h1 -> m_sock h2 < 0 -> fd_effect (m_sock h1) e1 (m_sock h2) e2 ->
  client_ok h3 -> m_proxy h3 = m_proxy h2 -> m_sock h3 = m_sock h2 -> forall e3, still e2 e3 ->
  stepped (t, e) (set_times (connectTimes t) (redirectionTimes t + 1) (set_should true (set_active now (set_state TSK_CONNECT (set_hcp h3 t)))), e3).
Proof.
  intros Ht (L1 & L2 & L3) Hk C2 P2 S2 F2 C3 P3 S3 e3 He3. pose proof (tk_times _ Ht). split; [|done|].
  - split; cbn; try done; [apply (tk_checked _ Ht)|lia].
  - unfold task_fd. cbn [fst snd hcp set_times set_should set_active set_state set_hcp]. eapply effect_still; [|exact S3|exact He3].
    eapply closed_effect; [exact (kp_still _ _ Hk)|]. cbn [snd]. pose proof (kp_sock _ _ Hk) as Hs. cbn [fst] in Hs. by rewrite <- Hs.
Qed.

Lemma ResetUrl_kept s h h' : client_ok h -> ResetUrl s h = Ok h' -> client_ok h' /\ m_proxy h' = m_proxy h /\ m_sock h' = m_sock h.
Proof.
  intros [] E1. unfold ResetUrl in E1. apply bind_Ok in E1 as ([r u'] & Er & E1). injection E1 as <-. split; [|done].
  split; try done. cbn. by eapply reset_url_ok.
Qed.

Lemma only_ResetUrl s h : only (ResetUrl s h).
Proof. unfold ResetUrl. only_steps. Qed.

(** The task fails. *)
Lemma failed_moved t t1 e e1 err : task_ok t -> kept (hcp t, e) (hcp t1, e1) -> desc t1 = desc t -> connectTimes t1 = connectTimes t ->
  redirectionTimes t1 = redirectionTimes t -> moved (t, e) (set_error err t1, e1) /\ received t RET_CLOSE (set_error err t1).
Proof.
  intros Ht Hk E1 E2 E3. split; [by apply moved_after|]. right. split; [apply (kp_sock _ _ Hk)|by right].
Qed.

Lemma processHttpRespHead_stepped fuel t e Q : task_ok t -> fd_own (task_fd t) e -> taskState t = TSK_RUNNING -> (remaining e < fuel)%nat ->
  (forall ret t' e', stepped (t, e) (t', e') -> received t ret t' -> Q ret (t', e')) -> runs text_fault (processHttpRespHead fuel) Q (t, e).
Proof.
  intros Ht Ho Hst Hf HQ. assert (Hl : linked t) by (apply (tk_conn _ Ht); by rewrite Hst).
  assert (HQm : forall ret t' e', moved (t, e) (t', e') -> received t ret t' -> Q ret (t', e')) by (intros; apply HQ; [by apply moved_stepped|done]).
  unfold processHttpRespHead. step. apply (runs_client _ (fun _ => True)).
  { eapply runs_impl; [apply ProcessHttpResponse_Keep; [apply Ht|done]|]. done. }
  intros ret h1 e1 Hk _. step. apply runs_active. intros now e2 He2. pose proof (kept_still _ _ _ _ _ Hk He2) as Hk2.
  set (t1 := set_active now (set_hcp h1 t)). assert (Hfd : m_sock h1 = task_fd t) by apply (kp_sock _ _ Hk).
  assert (Hfail : forall err, runs text_fault (set (set_error err);; mret RET_CLOSE) Q (t1, e2)).
  { intros err. step. step. step. destruct (failed_moved t t1 e e2 err Ht Hk2 eq_refl eq_refl eq_refl). by apply HQm. }
  destruct (ret =? RET_OK).
  { (* the head of a response *)
    step. step. step. apply runs_pure; [|apply only_content_len]. intros n _. step. step. step. step.
    destruct (bool_decide _).
    - step. step. step. apply HQm; [by apply moved_after|]. right. auto.
    - step. apply HQm; [apply moved_after; cbn; try done; by rewrite Hst|]. by split. }
  destruct (ret =? RET_NEWDIRECTION).
  { step. step. destruct (bool_decide _); [apply Hfail|]. step. apply runs_part. cbn [fst snd t1 hcp set_active set_hcp].
    eapply runs_impl; [apply Disconnect_closes; cbn [fst snd]; [apply (kp_ok _ _ Hk2)|]|].
    { rewrite Hfd. intros H0. destruct (kp_still _ _ Hk2) as [Hop _]. cbn [snd] in Hop. rewrite Hop. by apply Ho. }
    intros [] [h2 e3] (D1 & D2 & D3 & D4 & D5). cbn [fst snd] in *. step. step. step. apply runs_pure; [|apply only_ResetUrl]. intros h3 Hreset.
    destruct (ResetUrl_kept _ _ _ D1 Hreset) as (R1 & R2 & R3). step. step. step. step. step. apply runs_active. intros now2 e4 He4. step. step. step.
    cbn [fst snd]. apply HQ; [|left; split; [done|]; cbn; unfold task_fd; cbn in *; lia].
    by apply (redirected_stepped t h1 e e2 e3 h2 h3 now2). }
  destruct (ret =? RET_PROXY_AUTH_UNSUPPORTED).
  { step. step. destruct (ntlm_proxy _) eqn:En; [|apply Hfail]. step. apply (runs_client _ no_wait).
    { apply processNtlmAuth_Keep; [apply (kp_ok _ _ Hk2)|by apply ntlm_proxy_some]. }
    intros tmp h2 e3 Hk3 _. cbn [hcp t1 set_active set_hcp] in Hk3. pose proof (kept_trans _ _ _ Hk2 Hk3) as Hk4. destruct (negb _).
    - step. step. step. destruct (failed_moved t (set_hcp h2 t1) e e3 ERR_TASK_READ_RESQ_FAIL Ht Hk4 eq_refl eq_refl eq_refl). by apply HQm.
    - step. step. step. apply runs_part. step. step. cbn [fst snd].
      assert (Hk5 : kept (hcp t, e) (set_response [] h2, e3)) by (destruct Hk4 as [[] ? ? ? ?]; split; try done).
      set (t5 := set_hcp _ _). assert (Hm : moved (t, e) (t5, e3)).
      { split; [|done|apply (kp_sock _ _ Hk5)|apply (kp_still _ _ Hk5)]. assert (Hl5 : linked t5) by (by eapply (linked_kept t)). destruct Ht.
        split; try done. apply (kp_ok _ _ Hk5). }
      apply HQm; [done|]. split; [done|apply (kp_sock _ _ Hk5)]. }
  destruct (ret =? RET_SOCKET_CONTINUE); [step; apply HQm; [apply moved_after; cbn; try done; by rewrite Hst|by split]|].
  destruct (ret =? RET_PARSE_RESQ_FAIL); apply Hfail.
Qed.

Lemma processHttpResp_stepped fuel t e Q : task_ok t -> fd_own (task_fd t) e -> taskState t = TSK_RUNNING -> (remaining e < fuel)%nat ->
  (forall ret t' e', stepped (t, e) (t', e') -> received t ret t' -> Q ret (t', e')) -> runs text_fault (processHttpResp fuel) Q (t, e).
Proof.
  intros Ht Ho Hst Hf HQ. unfold processHttpResp. step. step. destruct (respHeadCompleted _).
  - apply getRealData_moved; [done..|]. intros ret t' e' Hm Hr. apply HQ; [by apply moved_stepped|done].
  - by apply processHttpRespHead_stepped.
Qed.

End Steps.
