(* ===== verification/HttpResponse.v ===== *)
(** * Responses

    What the client makes of a response: its head is parsed into the code and the
    headers it was written from, and its body is received whole, in whatever pieces
    and whenever the network delivers it.  The stream of a socket is the list of the
    bytes the server sends that were not read ([pending]), of which a number arrived
    already ([arrived]).  A head must have arrived whole when it is read: a read that
    finds nothing ends the task there (HttpCli.cpp, line 1220). *)
From stdpp Require Import prelude gmap.
From Stdlib Require Import ZArith Lia String.
From S2P Require Import Prelude Memory Strings Json MimeTypes Transfer Base64 Url HttpRequest Run Sockets SockProxy HttpClient Task Worker.
From S2P Require Import ClientProofs TaskProofs.

Class StreamLaws (E : Type) `{OsLaws E} := {
  pending : Z -> E -> list Z;
  arrived : Z -> E -> nat;
  (** how often a read may still find nothing *)
  waits : Z -> E -> nat;
  (** a read returns a part of what is pending, or finds nothing when nothing arrived *)
  recv_pending : forall fd n e, 0 < n -> pending fd e <> [] ->
    (exists bs, bs <> [] /\ fst (sys_recv fd n e) = inr bs /\ pending fd e = bs ++ pending fd (snd (sys_recv fd n e)) /\
       (arrived fd e <= List.length bs + arrived fd (snd (sys_recv fd n e)))%nat /\ (waits fd (snd (sys_recv fd n e)) <= waits fd e)%nat) \/
    (arrived fd e = 0%nat /\ fst (sys_recv fd n e) = inl EWOULDBLOCK /\ pending fd (snd (sys_recv fd n e)) = pending fd e /\
       (waits fd (snd (sys_recv fd n e)) < waits fd e)%nat);
  time_pending : forall fd e, pending fd (snd (sys_time e)) = pending fd e /\ (arrived fd e <= arrived fd (snd (sys_time e)))%nat /\
    waits fd (snd (sys_time e)) = waits fd e
}.

(** The text [bs] arrived and comes next, [rest] follows sooner or later. *)
Definition ahead {E} `{StreamLaws E} (fd : Z) (bs rest : list Z) (w : nat) (e : E) : Prop :=
  pending fd e = bs ++ rest /\ (List.length bs <= arrived fd e)%nat /\ (waits fd e <= w)%nat.

(** ** The text of a response *)

Record response := mkResponse {
  r_version : str;
  r_code : Z;
  r_reason : str;
  r_headers : list (str * str);
  r_body : list Z
}.

Definition field_text (kv : str * str) : str := fst kv ++ [58; 32] ++ snd kv ++ [13; 10].

Definition head_text (r : response) : str :=
  r_version r ++ [32] ++ StringHelper.ConvertFromInt (r_code r) ++ [32] ++ r_reason r ++ [13; 10] ++ mjoin (field_text <$> r_headers r) ++ [13; 10].

(** No character that ends a line or a C string. *)
Definition plain (s : str) : Prop := Forall (fun c => c <> 0 /\ c <> 10 /\ c <> 13) s.

Definition no_blank (s : str) : Prop := match s with c :: _ => c <> 32 | [] => True end.

(** A header that fits a line. *)
Record field_ok (kv : str * str) : Prop := {
  fo_key : fst kv <> [] /\ plain (fst kv) /\ (58 ∉ fst kv) /\ no_blank (fst kv);
  fo_value : plain (snd kv) /\ no_blank (snd kv);
  fo_length : len (field_text kv) < LINE_BUFFER
}.

Record response_ok (r : response) : Prop := {
  ro_version : r_version r <> [] /\ plain (r_version r) /\ (32 ∉ r_version r);
  ro_code : 0 <= r_code r < 2 ^ 31;
  ro_reason : plain (r_reason r);
  ro_status : len (r_version r ++ [32] ++ StringHelper.ConvertFromInt (r_code r) ++ [32] ++ r_reason r ++ [13; 10]) < LINE_BUFFER;
  ro_headers : Forall field_ok (r_headers r)
}.

(** The headers as the client keeps them: a key once, with its last value. *)
Definition kept_headers (l : list (str * str)) : list THttpHdr := foldl (fun hs kv => SetHdr (fst kv) (snd kv) hs) [] l.

(** ** Lines *)

Lemma plain_app a b : plain (a ++ b) <-> plain a /\ plain b.
Proof. unfold plain. by rewrite Forall_app. Qed.

Lemma c_str_line s rest : plain s -> c_str (s ++ 13 :: 10 :: rest) = s ++ 13 :: 10 :: c_str rest.
Proof.
  induction 1 as [|c s (H0 & _) _ IH]; [done|]. cbn [app c_str]. rewrite (proj2 (Z.eqb_neq _ _) H0). by rewrite IH.
Qed.

Lemma plain_break (stop : Z -> bool) s : plain s -> (forall c, c ∈ s -> stop c = true -> c = 10 \/ c = 13) -> Forall (fun c => stop c = false) s.
Proof.
  intros Hp Hs. apply Forall_forall. intros c Hc. destruct (stop c) eqn:E; [|done]. unfold plain in Hp. rewrite Forall_forall in Hp.
  destruct (Hp c Hc) as (_ & H1 & H2). by destruct (Hs c Hc E).
Qed.

Lemma skip_spaces_none s : no_blank s -> skip_spaces s = s.
Proof.
  intros Hn. unfold skip_spaces. destruct s as [|c s]; [done|]. simpl in Hn |- *. destruct (Z.eqb_spec c 32); [done|]. done.
Qed.

Lemma parse_header_field kv : field_ok kv -> parse_header (field_text kv) = Header (fst kv) (snd kv).
Proof.
  intros [(K1 & K2 & K3 & K4) (V1 & V2) _]. destruct kv as [k v]. cbn [fst snd] in *. unfold parse_header, field_text. cbn [fst snd].
  destruct k as [|c k]; [done|]. rewrite skip_spaces_none by done. cbn [app].
  assert (Hc : line_end c = false) by (apply Forall_cons in K2 as [(_ & C1 & C2) _]; unfold line_end; destruct (Z.eqb_spec c 13), (Z.eqb_spec c 10); done).
  rewrite Hc. change (c :: k ++ 58 :: 32 :: v ++ [13; 10]) with ((c :: k) ++ 58 :: 32 :: v ++ [13; 10]). rewrite break_app; [|apply plain_break; [done|]|done].
  - unfold skip_spaces. cbn [break negb snd]. change (32 =? 32) with true. cbn [negb].
    assert (Hv : snd (break (fun c => negb (c =? 32)) (v ++ [13; 10])) = v ++ [13; 10]).
    { apply (skip_spaces_none (v ++ [13; 10])). destruct v as [|c' v]; done. }
    destruct (break (fun c => negb (c =? 32)) (v ++ [13; 10])) as [a b]. cbn [snd] in *. subst b. f_equal.
    rewrite break_app; [done| |done]. apply plain_break; [done|]. intros x _. unfold line_end. lia.
  - intros x Hx. unfold line_end. assert (x <> 58) by (intros ->; done). lia.
Qed.

Lemma parse_header_end : parse_header [13; 10] = HeaderEnd.
Proof. done. Qed.

(** ** Reading *)

Section Reading.
Context {E : Type} {OS : Os E} {OL : OsLaws E} {SL : StreamLaws E} {NT : Ntlm E}.

Lemma recv_one fd e c bs rest w : ahead fd (c :: bs) rest w e ->
  fst (sys_recv fd 1 e) = inr [c] /\ ahead fd bs rest w (snd (sys_recv fd 1 e)).
Proof.
  intros (Hp & Ha & Hw). cbn [List.length app] in *.
  destruct (recv_pending fd 1 e) as [(xs & Hne & Hr & Hb & Ha' & Hw')|(H0 & _)]; [lia|by rewrite Hp| |lia].
  destruct (recv_size fd 1 e xs Hr ltac:(lia)) as [Hl _]. rewrite Hp in Hb.
  destruct xs as [|b [|b' xs]]; [done| |unfold len in Hl; simpl in Hl; lia]. injection Hb as -> Hb. cbn [List.length] in Ha'.
  split; [done|]. split_and!; [done|lia|lia].
Qed.

Lemma htSkp_direct_recv F n (h : THttpCli) (e : E) Q :
  Q (fst (sys_recv (m_sock h) n e)) (h, snd (sys_recv (m_sock h) n e)) -> runs F (htSkp (direct_recv n)) Q (h, e).
Proof.
  intros HQ. unfold htSkp. step. unfold direct_recv. step. step. step. cbn [fst snd id]. replace (set_sock (m_sock h) h) with h by by destruct h. done.
Qed.

Lemma BufReadChar_next F h e c bs rest w Q : ahead (m_sock h) (c :: bs) rest w e ->
  (forall e', ahead (m_sock h) bs rest w e' -> Q (ReadOne c) (h, e')) -> runs F BufReadChar Q (h, e).
Proof.
  intros Hp HQ. destruct (recv_one _ _ _ _ _ _ Hp) as [Hr Hrest]. unfold BufReadChar. step. apply htSkp_direct_recv. rewrite Hr. step. by apply HQ.
Qed.

Lemma read_chars_line F h n : forall line acc bs rest w e Q, 10 ∉ line -> (List.length line < n)%nat ->
  ahead (m_sock h) (line ++ 10 :: bs) rest w e -> (forall e', ahead (m_sock h) bs rest w e' -> Q (ReadOne 10, acc ++ line ++ [10]) (h, e')) -> runs F (read_chars n acc) Q (h, e).
Proof.
  induction n as [|n IH]; intros line acc bs rest w e Q Hl Hn Hp HQ; [lia|]. cbn [read_chars]. step. destruct line as [|c line].
  - eapply BufReadChar_next; [exact Hp|]. intros e' He'. change (10 =? 10) with true. cbv iota. step. by apply HQ.
  - apply not_elem_of_cons in Hl as [Hc Hl]. eapply BufReadChar_next; [exact Hp|]. intros e' He'. rewrite (proj2 (Z.eqb_neq c 10)) by congruence.
    eapply (IH line (acc ++ [c]) bs rest); [done|simpl in Hn; lia|exact He'|]. intros e2 He2. specialize (HQ e2 He2). by rewrite <- app_assoc.
Qed.

(** A line that arrived whole. *)
Lemma ReadLine_line F h e line bs rest w Q : recvedlen h = 0 -> plain line -> len (line ++ [13; 10]) < LINE_BUFFER ->
  ahead (m_sock h) (line ++ [13; 10] ++ bs) rest w e ->
  (forall e', ahead (m_sock h) bs rest w e' -> Q (RET_SOCKET_FINISH, line ++ [13; 10]) (h, e')) -> runs F ReadLine Q (h, e).
Proof.
  intros Hz Hl Hn Hp HQ. unfold ReadLine. step. eapply (read_chars_line F h _ (line ++ [13]) [] bs rest).
  - intros Hin. apply elem_of_app in Hin as [Hin|Hin]; [|set_solver]. unfold plain in Hl. rewrite Forall_forall in Hl. by destruct (Hl _ Hin) as (_ & ? & _).
  - unfold len, LINE_BUFFER in *. rewrite length_app in *. simpl in *. lia.
  - rewrite <- !app_assoc. exact Hp.
  - intros e' He'. cbn [app]. step. step. step. rewrite Hz. change (0 =? 0) with true. cbv iota. step. cbn [fst].
    change (negb (RET_SOCKET_FINISH =? RET_SOCKET_CONTINUE)) with true. cbn [when]. step. step. step.
    replace (set_line (uncompleteLineBuf h) 0 h) with h by (destruct h; cbn in Hz; by rewrite Hz).
    rewrite <- app_assoc. cbn [app]. rewrite c_str_line by done. by apply HQ.
Qed.

Lemma field_text_line kv rest : field_text kv ++ rest = (fst kv ++ [58; 32] ++ snd kv) ++ [13; 10] ++ rest.
Proof. unfold field_text. by rewrite <- !app_assoc. Qed.

Lemma field_plain kv : field_ok kv -> plain (fst kv ++ [58; 32] ++ snd kv).
Proof. intros [(_ & K & _) (V & _) _]. rewrite !plain_app. split_and!; [done| |done]. repeat constructor; lia. Qed.

(** The client behind a head. *)
Definition with_headers (h : THttpCli) (l : list (str * str)) : THttpCli :=
  set_response (foldl (fun hs kv => SetHdr (fst kv) (snd kv) hs) (htResponse h) l) h.

Lemma parse_headers_fields F fuel : forall l h e rest w Q, Forall field_ok l -> recvedlen h = 0 -> (List.length l < fuel)%nat ->
  ahead (m_sock h) (mjoin (field_text <$> l) ++ [13; 10]) rest w e ->
  (forall e', ahead (m_sock h) [] rest w e' -> Q RET_OK (with_headers h l, e')) -> runs F (parse_headers fuel) Q (h, e).
Proof.
  induction fuel as [|fuel IH]; intros l h e rest w Q Hl Hz Hf Hp HQ; [lia|]. cbn [parse_headers]. step. destruct Hl as [|kv l Hkv Hl].
  - eapply (ReadLine_line F h e []); [done|constructor|done|exact Hp|]. intros e' He'. codes. change (parse_header _) with HeaderEnd. cbv iota. step.
    specialize (HQ e' He'). by destruct h.
  - cbn [fmap list_fmap mjoin list_join] in Hp. rewrite <- app_assoc, field_text_line in Hp.
    eapply (ReadLine_line F h e); [done|by apply field_plain|rewrite <- !app_assoc; apply Hkv|exact Hp|]. intros e' He'. codes.
    rewrite <- !app_assoc. change (parse_header _) with (parse_header (field_text kv)). rewrite parse_header_field by done. step. step.
    eapply (IH l); [done|done|simpl in Hf; lia|exact He'|]. intros e2 He2. by apply HQ.
Qed.

Definition status_text (r : response) : str := r_version r ++ [32] ++ StringHelper.ConvertFromInt (r_code r) ++ [32] ++ r_reason r.

(** The code of a status line. *)
Lemma status_code r : response_ok r -> exists ptr,
  snd (break (fun c => (c =? 32) || line_end c) (skip_spaces (status_text r ++ [13; 10]))) = 32 :: ptr /\ atoi (skip_spaces ptr) = r_code r.
Proof.
  intros [(V1 & V2 & V3) Hc Hr _ _]. destruct (ConvertFromInt_digits (r_code r)) as (_ & Hd & Hne); [lia|].
  exists (StringHelper.ConvertFromInt (r_code r) ++ 32 :: r_reason r ++ [13; 10]). unfold status_text. rewrite <- !app_assoc. cbn [app]. split.
  - rewrite skip_spaces_none; [|destruct (r_version r) as [|c v]; [done|]; simpl; intros ->; set_solver].
    rewrite break_app; [done| |done]. apply plain_break; [done|]. intros c Hc'. unfold line_end. assert (c <> 32) by (intros ->; done). lia.
  - rewrite skip_spaces_none; [|destruct (StringHelper.ConvertFromInt (r_code r)) as [|c s]; [done|]; apply Forall_cons in Hd as [Hd _]; simpl; lia].
    apply atoi_digits; [done|by left].
Qed.

Lemma digits_plain_text n : 0 <= n < 2 ^ 31 -> plain (StringHelper.ConvertFromInt n).
Proof. intros Hn. destruct (ConvertFromInt_digits n) as (_ & Hd & _); [lia|]. eapply Forall_impl; [exact Hd|]. intros c Hc. cbn in Hc. lia. Qed.

Lemma status_plain r : response_ok r -> plain (status_text r).
Proof.
  intros [(_ & V & _) Hc Hr _ _]. unfold status_text. rewrite !plain_app. split_and!; [done| |by apply digits_plain_text| |done]; repeat constructor; lia.
Qed.

(** The client when the head of a response was read. *)
Definition answered (h : THttpCli) (r : response) : THttpCli :=
  set_status (status_text r ++ [13; 10]) (r_code r) (set_response (kept_headers (r_headers r)) h).

Lemma ParseHttpHdrs_head F fuel h e r rest w Q : response_ok r -> recvedlen h = 0 -> (List.length (r_headers r) < fuel)%nat ->
  ahead (m_sock h) (head_text r) rest w e ->
  (forall e', ahead (m_sock h) [] rest w e' -> Q RET_OK (answered h r, e')) -> runs F (ParseHttpHdrs fuel) Q (h, e).
Proof.
  intros Hr Hz Hf Hp HQ. unfold ParseHttpHdrs. step. step. step.
  assert (Htext : head_text r = status_text r ++ [13; 10] ++ mjoin (field_text <$> r_headers r) ++ [13; 10])
    by (unfold head_text, status_text; by rewrite <- !app_assoc).
  rewrite Htext in Hp. eapply (ReadLine_line F (set_response [] h) e (status_text r)); [done|by apply status_plain| |exact Hp|].
  { unfold status_text. rewrite <- !app_assoc. apply Hr. }
  intros e' He'. codes. step. step. destruct (status_code r Hr) as (ptr & -> & Hcode). step. step. cbn [fst snd]. rewrite Hcode.
  eapply (parse_headers_fields F fuel (r_headers r)); [apply Hr|done|done|exact He'|]. intros e2 He2. by apply HQ.
Qed.

(** What the caller is told. *)
Definition code_result (code : Z) : Z :=
  if H_20X code || (code =? HTTP_MULTIPLE_CHOICES) then RET_OK
  else if H_REDIRECTED code then RET_NEWDIRECTION
  else if code =? HTTP_NEED_PASS then RET_PROXY_AUTH_UNSUPPORTED
  else RET_HTTP_ERR.

Lemma ProcessHttpResponse_head F fuel h e r rest w Q : response_ok r -> recvedlen h = 0 -> (List.length (r_headers r) < fuel)%nat ->
  ahead (m_sock h) (head_text r) rest w e ->
  (forall e', ahead (m_sock h) [] rest w e' -> Q (code_result (r_code r)) (answered h r, e')) -> runs F (ProcessHttpResponse fuel) Q (h, e).
Proof.
  intros Hr Hz Hf Hp HQ. unfold ProcessHttpResponse. step. eapply ParseHttpHdrs_head; [done..|exact Hp|]. intros e' He'. codes. step. step. step. cbn [fst].
  specialize (HQ e' He'). unfold code_result in HQ. cbn [StatusCode answered set_status]. destruct (H_20X (r_code r)); cbn [orb] in HQ; [done|].
  destruct (Z.eqb_spec (r_code r) HTTP_MULTIPLE_CHOICES) as [Hm|Hm]; [|done]. rewrite Hm in *. done.
Qed.

End Reading.

(** ** The body *)

Lemma atol_digits_ge s acc : Forall (fun c => 48 <= c <= 57) s -> 0 <= acc -> acc <= StringHelper.atol_digits s acc.
Proof.
  intros Hs. revert acc. induction Hs as [|c s Hc _ IH]; intros acc Ha; cbn [StringHelper.atol_digits]; [lia|].
  rewrite (proj2 (Z.leb_le 48 c)), (proj2 (Z.leb_le c 57)) by lia. cbn [andb]. specialize (IH (acc * 10 + (c - 48)) ltac:(lia)). lia.
Qed.

Lemma content_len_digits s acc : Forall (fun c => 48 <= c <= 57) s -> 0 <= acc -> StringHelper.atol_digits s acc < 2 ^ 31 ->
  content_len acc s = Ok (StringHelper.atol_digits s acc).
Proof.
  intros Hs. revert acc. induction Hs as [|c s Hc Hs IH]; intros acc Ha Hb; cbn [StringHelper.atol_digits content_len] in *; [done|].
  rewrite (proj2 (Z.leb_le 48 c)), (proj2 (Z.leb_le c 57)) in Hb |- * by lia. cbn [andb] in *.
  assert (Hd : isdigit c = Ok true).
  { unfold isdigit. assert (i8 c = c) as -> by (unfold i8; rewrite Z.mod_small; lia). rewrite (proj2 (Z.ltb_ge c 0)) by lia.
    by rewrite (proj2 (Z.leb_le 48 c)), (proj2 (Z.leb_le c 57)) by lia. }
  rewrite Hd, Ok_bind. pose proof (atol_digits_ge s (acc * 10 + (c - 48)) Hs ltac:(lia)).
  assert (i32 (10 * acc + (c - 48)) = acc * 10 + (c - 48)) as -> by (rewrite i32_small; lia). apply IH; [lia|done].
Qed.

Lemma content_len_text n : 0 <= n < 2 ^ 31 -> content_len 0 (c_str (StringHelper.ConvertFromInt n)) = Ok n.
Proof.
  intros Hn. destruct (ConvertFromInt_digits n) as (E & Hd & _); [lia|].
  assert (Hc : c_str (StringHelper.ConvertFromInt n) = StringHelper.ConvertFromInt n).
  { clear E. induction Hd as [|c s Hc _ IH]; [done|]. cbn [c_str]. rewrite (proj2 (Z.eqb_neq c 0)) by lia. by rewrite IH. }
  assert (Ha : StringHelper.atol_digits (StringHelper.ConvertFromInt n) 0 = n) by (rewrite E, atol_digits_digits by lia; done).
  rewrite Hc, content_len_digits; [by rewrite Ha|done|lia|rewrite Ha; lia].
Qed.

Section Download.
Context {E : Type} {OS : Os E} {OL : OsLaws E} {SL : StreamLaws E} {NT : Ntlm E} {MA : Machine E}.
Context (fuel : nat).

(** The response is received as the worker does it, in [n] rounds at most. *)
Fixpoint receive (n : nat) : Run (Task * E) Z :=
  match n with
  | O => mret RET_SOCKET_CONTINUE
  | S n =>
      ret ← processHttpResp fuel;
      if (ret =? RET_OK) || (ret =? RET_SOCKET_CONTINUE) then update;; receive n else mret ret
  end.

(** A download whose head was read. *)
Record downloading (body : list Z) (t : Task) (e : E) : Prop := {
  dl_head : respHeadCompleted t = true;
  dl_type : task_type t = TASK_DOWNLOAD;
  dl_clean : dataClean (options t) = false;
  dl_state : taskState t = TSK_RUNNING;
  dl_length : contentLength (taskInfo t) = len body;
  dl_done : doneSize (taskInfo t) = len (respData t);
  dl_data : body = respData t ++ pending (task_fd t) e;
  dl_more : pending (task_fd t) e <> []
}.

Lemma needSize_left body t e : downloading body t e -> len body < 2 ^ 31 -> needSize t = len (pending (task_fd t) e).
Proof.
  intros [] Hb. assert (Hl : len body = len (respData t) + len (pending (task_fd t) e)) by (by rewrite <- len_app, <- dl_data0).
  assert (Hp : 0 < len (pending (task_fd t) e)) by (unfold len; destruct (pending (task_fd t) e); [done|simpl; lia]).
  unfold needSize. pose proof (len_nonneg (respData t)). rewrite dl_length0, dl_done0, dl_type0. rewrite (proj2 (Z.ltb_lt 0 (len body))) by lia.
  rewrite bool_decide_eq_true_2 by done. rewrite i64_small by lia. rewrite (proj2 (Z.ltb_lt _ _)) by lia. cbn [andb]. lia.
Qed.

(** What a callback sees between two reads. *)
Lemma update_download now t : task_type t = TASK_DOWNLOAD -> dataClean (options t) = false -> taskState t = TSK_RUNNING -> len (respData t) < 2 ^ 31 ->
  contentLength (taskInfo (updateTaskInfo now t)) = contentLength (taskInfo t) /\ doneSize (taskInfo (updateTaskInfo now t)) = len (respData t) /\
  respHeadCompleted (updateTaskInfo now t) = respHeadCompleted t.
Proof.
  intros Hty Hcl Hst Hb. unfold updateTaskInfo. cbn [taskState set_changed]. rewrite bool_decide_eq_false_2 by (by rewrite Hst).
  change (task_type (set_changed false t)) with (task_type t). rewrite Hty. change (options (set_changed false t)) with (options t). rewrite Hcl. cbn.
  pose proof (len_nonneg (respData t)). rewrite i32_small by lia. unfold u64. rewrite Z.mod_small by lia. done.
Qed.

Lemma updated_downloading body now t e e' : downloading body t e -> len body < 2 ^ 31 -> pending (task_fd t) e' = pending (task_fd t) e ->
  downloading body (updateTaskInfo now t) e'.
Proof.
  intros [] Hb He. destruct (updateTaskInfo_same now t) as (U1 & U2 & U3 & _ & _ & _ & U7 & _).
  assert (Hl : len (respData t) <= len body) by (rewrite dl_data0, len_app; pose proof (len_nonneg (pending (task_fd t) e)); lia).
  destruct (update_download now t dl_type0 dl_clean0 dl_state0 ltac:(lia)) as (V1 & V2 & V3).
  assert (Hfd : task_fd (updateTaskInfo now t) = task_fd t) by (unfold task_fd; by rewrite U1).
  split; unfold task_type, options in *; rewrite ?U2, ?U3, ?U7, ?V1, ?V2, ?V3, ?Hfd, ?He; try done.
Qed.

(** A task that took the next bytes of the body, and more follow. *)
Lemma downloading_more body t e bs e1 now : downloading body t e -> len body < 2 ^ 31 -> pending (task_fd t) e = bs ++ pending (task_fd t) e1 ->
  pending (task_fd t) e1 <> [] ->
  forall now2 e2, pending (task_fd t) e2 = pending (task_fd t) e1 ->
    downloading body (updateTaskInfo now2 (set_active now (set_data (respData t ++ bs) t))) e2.
Proof.
  intros [] Hb Hp Hne now2 e2 He2.
  assert (Hb2 : len (respData t ++ bs) <= len body).
  { rewrite dl_data0, Hp, !len_app. pose proof (len_nonneg (pending (task_fd t) e1)). lia. }
  set (t0 := set_active now (set_data (respData t ++ bs) t)).
  destruct (update_download now2 t0 dl_type0 dl_clean0 dl_state0 ltac:(cbn; lia)) as (V1 & V2 & V3).
  destruct (updateTaskInfo_same now2 t0) as (U1 & U2 & U3 & _ & _ & _ & U7 & _).
  set (t1 := updateTaskInfo now2 _) in *. assert (Hfd : task_fd t1 = task_fd t) by (unfold task_fd; by rewrite U1).
  split; unfold task_type, options in *; rewrite ?U2, ?U3, ?U7, ?V1, ?V2, ?V3, ?Hfd, ?He2; try done.
  cbn [respData set_active set_data t0]. by rewrite <- app_assoc, <- Hp.
Qed.

(** What is left to do: bytes to read, and reads that find nothing. *)
Definition left_to_read (fd : Z) (e : E) : nat := (List.length (pending fd e) + waits fd e)%nat.

Lemma getRealData_piece F body t e Q : downloading body t e -> len body < 2 ^ 31 ->
  (forall t' e', respData t' = body -> taskState t' = TSK_FINISHED -> StatusCode (hcp t') = StatusCode (hcp t) -> Q RET_SOCKET_FINISH (t', e')) ->
  (forall t' e', (forall now e2, pending (task_fd t') e2 = pending (task_fd t') e' -> downloading body (updateTaskInfo now t') e2) -> hcp t' = hcp t ->
     (left_to_read (task_fd t) e' < left_to_read (task_fd t) e)%nat -> Q RET_SOCKET_CONTINUE (t', e')) ->
  runs F getRealData Q (t, e).
Proof.
  intros Hd Hb HQ1 HQ2. unfold getRealData. step. step. rewrite (needSize_left _ _ _ Hd Hb). step. unfold client. step. unfold DirectRecvData. step.
  apply htSkp_direct_recv. cbn [fst snd]. fold (task_fd t). set (e1 := snd (sys_recv _ _ e)) in *.
  destruct (time_pending (task_fd t) e1) as (Ht1 & _ & Ht3).
  destruct (recv_pending (task_fd t) HTTP_BUF_SIZE e ltac:(done) (dl_more _ _ _ Hd)) as [(bs & Hne & Hr & Hp & _ & Hw)|(_ & Hr & Hp & Hw)];
    fold e1 in Hp, Hw; rewrite Hr; step.
  - assert (Hl : len (pending (task_fd t) e) = len bs + len (pending (task_fd t) e1)) by (by rewrite <- len_app, <- Hp).
    assert (H0 : 0 < len bs) by (unfold len; destruct bs; [done|simpl; lia]). rewrite (proj2 (Z.eqb_neq (len bs) 0)) by lia. cbn [orb].
    pose proof (len_nonneg (pending (task_fd t) e1)) as Hl1. rewrite (proj2 (Z.ltb_lt 0 (len (pending (task_fd t) e)))) by lia. cbn [andb].
    step. step. step. unfold active. step. step. step. replace (set_hcp (hcp t) t) with t by by destruct t. cbn [fst snd].
    destruct (Z.leb_spec (len (pending (task_fd t) e)) (len bs)) as [Hle|Hlt].
    + assert (Hend : pending (task_fd t) e1 = []) by (destruct (pending (task_fd t) e1) as [|c l]; [done|]; exfalso; unfold len in *; simpl in *; lia).
      codes. step. step. step. apply HQ1; [|done|done]. cbn. rewrite (dl_data _ _ _ Hd), Hp, Hend. by rewrite app_nil_r.
    + codes. step. step. step. apply HQ2; [|done|].
      * intros now e3 He3. change (task_fd (set_active _ _)) with (task_fd t) in He3.
        apply (downloading_more body t e bs e1); [done|done|done| |congruence]. intros Hn. rewrite Hn in Hl. unfold len in *. simpl in *. lia.
      * unfold left_to_read. rewrite Ht1, Ht3, Hp, length_app. destruct bs; [done|simpl; lia].
  - change ((EWOULDBLOCK =? EWOULDBLOCK) || _) with true. cbv iota. step. step. step. unfold active. step. step. step.
    replace (set_hcp (hcp t) t) with t by by destruct t. cbn [fst snd]. codes. step. step. step. apply HQ2; [|done|].
    + intros now e3 He3. change (task_fd (set_active _ _)) with (task_fd t) in He3.
      apply (downloading_more body t e [] e1); [done|done|done|rewrite Hp; apply (dl_more _ _ _ Hd)|congruence].
    + unfold left_to_read. rewrite Ht1, Ht3, Hp. lia.
Qed.

(** The body is received whole, in whatever pieces it comes and after however many reads
    that find nothing. *)
Lemma receive_body F body n : forall t e Q, downloading body t e -> len body < 2 ^ 31 -> (left_to_read (task_fd t) e <= n)%nat ->
  (forall t' e', respData t' = body -> taskState t' = TSK_FINISHED -> StatusCode (hcp t') = StatusCode (hcp t) -> Q RET_SOCKET_FINISH (t', e')) ->
  runs F (receive n) Q (t, e).
Proof.
  induction n as [|n IH]; intros t e Q Hd Hb Hn HQ.
  { destruct (dl_more _ _ _ Hd). unfold left_to_read in Hn. by destruct (pending (task_fd t) e); [|simpl in Hn; lia]. }
  cbn [receive]. step. unfold processHttpResp. step. step. rewrite (dl_head _ _ _ Hd). eapply getRealData_piece; [exact Hd|done|..].
  - intros t' e' H1 H2 H3. codes. step. by apply HQ.
  - intros t' e' Hd' Hh Hlt. codes. step. unfold update. step. step. step. cbn [fst snd]. set (now := fst (sys_time e')).
    assert (Hfd' : task_fd t' = task_fd t) by (unfold task_fd; by rewrite Hh).
    assert (Hfd : task_fd (updateTaskInfo now t') = task_fd t) by (unfold task_fd; destruct (updateTaskInfo_same now t') as (-> & _); by rewrite Hh).
    destruct (time_pending (task_fd t) e') as (Ht1 & _ & Ht3).
    apply IH; [apply Hd'; rewrite Hfd'; done|done|unfold left_to_read in *; rewrite Hfd, Ht1, Ht3; lia|]. intros t2 e2 H1 H2 H3. apply HQ; [done|done|]. rewrite H3.
    destruct (updateTaskInfo_same now t') as (-> & _). by rewrite Hh.
Qed.

(** The head of a download. *)
Lemma head_download F t e r w Q : response_ok r -> H_20X (r_code r) = true -> (List.length (r_headers r) < fuel)%nat ->
  GetHdr (lit "Content-Length") (kept_headers (r_headers r)) = StringHelper.ConvertFromInt (len (r_body r)) -> r_body r <> [] -> len (r_body r) < 2 ^ 31 ->
  task_type t = TASK_DOWNLOAD -> dataClean (options t) = false -> taskState t = TSK_RUNNING -> respData t = [] -> recvedlen (hcp t) = 0 ->
  ahead (task_fd t) (head_text r) (r_body r) w e ->
  (forall t' e', (forall now e2, pending (task_fd t') e2 = pending (task_fd t') e' -> downloading (r_body r) (updateTaskInfo now t') e2) ->
     task_fd t' = task_fd t -> StatusCode (hcp t') = r_code r -> ahead (task_fd t) [] (r_body r) w e' -> Q RET_OK (t', e')) ->
  runs F (processHttpRespHead fuel) Q (t, e).
Proof.
  intros Hr Hok Hf Hlen Hne Hb Hty Hcl Hst Hdata Hz Hp HQ. unfold processHttpRespHead. step. unfold client at 1. step.
  eapply ProcessHttpResponse_head; [done|done|done|exact Hp|]. intros e1 He1. cbn [fst snd]. unfold code_result. rewrite Hok. cbn [orb]. cbv iota.
  step. unfold active. step. step. step. codes. step. step. step. set (h1 := answered (hcp t) r).
  assert (Hn : GetContentLen h1 = Ok (len (r_body r))) by (unfold GetContentLen; cbn [htResponse answered set_status set_response h1]; rewrite Hlen; apply content_len_text; pose proof (len_nonneg (r_body r)); lia).
  apply runs_pure; [|intros f Hf'; cbn [hcp set_hcp set_active] in Hf'; fold h1 in Hf'; congruence]. intros n Hn'. cbn [hcp set_hcp set_active] in Hn'. fold h1 in Hn'.
  assert (n = len (r_body r)) as -> by congruence. step. step. step. step. cbn [fst snd].
  match goal with |- context [bool_decide ?P] => rewrite (bool_decide_eq_false_2 P) by (unfold task_type in *; cbn; congruence) end. step.
  assert (H0 : 0 < len (r_body r)) by (unfold len; destruct (r_body r); [done|simpl; lia]). rewrite (proj2 (Z.eqb_neq (len (r_body r)) 0)) by lia.
  set (t1 := set_info _ _). destruct (time_pending (task_fd t) e1) as (Ht1 & Ht2 & Ht3). destruct He1 as (P1 & P2 & P3). cbn [app] in P1.
  change (m_sock (hcp t)) with (task_fd t) in *.
  apply HQ; [|done|done|split_and!; [by rewrite Ht1|simpl; lia|lia]]. intros now e2 He2.
  destruct (update_download now t1 Hty Hcl Hst ltac:(cbn; rewrite Hdata; unfold len; simpl; lia)) as (V1 & V2 & V3).
  destruct (updateTaskInfo_same now t1) as (U1 & U2 & U3 & _ & _ & _ & U7 & _). set (t2 := updateTaskInfo now t1) in *.
  assert (Hfd : task_fd t2 = task_fd t) by (unfold task_fd; by rewrite U1). change (task_fd t1) with (task_fd t) in He2.
  assert (Hnow : pending (task_fd t2) e2 = r_body r) by (rewrite Hfd; change (task_fd t1) with (task_fd t); congruence).
  split; unfold task_type, options in *; rewrite ?U2, ?U3, ?U7, ?V1, ?V2, ?V3, ?Hnow; try done. cbn [respData t1 set_info]. cbn. by rewrite Hdata.
Qed.


End Download.
