(* ===== verification/WorkerProofs.v ===== *)
(** * The worker thread: safety and answers

    The invariant of the worker ([winv]): every entry of the map from sockets to tasks
    belongs to a task of the array that has this socket; [select] watches sockets of
    that map only; different tasks have different sockets, and the library has opened
    no others.  It holds at the head of every loop, whatever the network, the clock
    and the threads of the manager do, so no null task is ever followed and no socket
    is lost.

    The callbacks are those of an abstract array ([slot_steps]): no cancelled task is
    called, and every task is called once with its result and then removed. *)
From stdpp Require Import prelude gmap sorting.
From Stdlib Require Import ZArith Lia String.
From S2P Require Import Prelude Memory Strings Json MimeTypes Transfer Base64 Url HttpRequest Run Sockets SockProxy HttpClient Task Worker.
From S2P Require Import TransferProofs ClientProofs TaskProofs.

(** ** The array as the manager sees it *)

Lemma find_pos_free_at n i w j : find_pos n i w = Ok (Some j) -> taskQue w !! j = None.
Proof.
  revert i. induction n as [|n IH]; intros i E1; cbn [find_pos] in E1; [done|]. destruct (taskQue w !! i) eqn:Ei; [|by injection E1 as ->].
  case_match; [done|by eapply IH].
Qed.

Lemma findTaskPos_place a i b : findTaskPos a = Ok (Some i, b) -> taskQue a !! i = None /\ curPos b = (i + 1) mod MAX_TASKQUE_SIZE /\
  maxPos b = (if maxPos a <? i then i else maxPos a) /\ w_maxRunTaskNum b = w_maxRunTaskNum a /\ w_stop b = w_stop a.
Proof.
  unfold findTaskPos. generalize (Z.to_nat MAX_TASKQUE_SIZE). intros n Hf. apply bind_Ok in Hf as (r & Hp & Hf). injection Hf as -> <-.
  split; [by eapply find_pos_free_at|done].
Qed.

(** Steps of the array, with the callbacks and the removals, latest first. *)
Inductive slot_steps (a : TTransferWorker) : list Event -> TTransferWorker -> Prop :=
| ss_start : slot_steps a [] a
| ss_add l b b' i d : slot_steps a l b -> w_stop b = false -> findTaskPos b = Ok (Some i, b') -> slot_steps a l (put_task i d b')
| ss_cancel l b i d : slot_steps a l b -> taskQue b !! i = Some d -> slot_steps a l (put_task i (mark_deleted d) b)
| ss_cancel_all l b stop : slot_steps a l b ->
    slot_steps a l (mkWorker (mark_deleted <$> taskQue b) (curPos b) (maxPos b) (w_maxRunTaskNum b) (stop || w_stop b))
| ss_call l b c i d info data : slot_steps a l b -> taskQue b !! i = Some d -> t_del d = false ->
    slot_steps a (Called c i info data :: l) b
| ss_remove l b i d : slot_steps a l b -> taskQue b !! i = Some d -> slot_steps a (Cleared i (t_del d) :: l) (clearTaskInfo i b).

(** A worker that was stopped has no task that was not cancelled. *)
Definition stopped_ok (a : TTransferWorker) : Prop := w_stop a = true -> map_Forall (fun _ d => t_del d = true) (taskQue a).

Lemma slot_steps_stopped a l b : stopped_ok a -> slot_steps a l b -> stopped_ok b.
Proof.
  intros Ha Hs. induction Hs as [|l b b' i d _ IH Hb Hf|l b i d _ IH Hi|l b st _ IH|l b c i d info data _ IH Hi Hd|l b i d _ IH Hi]; [done|..]; intros Hstop.
  - destruct (findTaskPos_place _ _ _ Hf) as (_ & _ & _ & _ & H1). cbn in Hstop. congruence.
  - apply map_Forall_insert_2; [done|]. by apply IH.
  - intros i d. cbn [taskQue]. rewrite lookup_fmap_Some. by intros (d' & <- & _).
  - by apply IH.
  - apply map_Forall_delete. by apply IH.
Qed.

Definition final (c : Callback) : bool := match c with handle_finish | handle_error => true | _ => false end.

(** A task is removed when it was cancelled, or right after the callback with its
    result, which is never made otherwise; [handle_init] is never called. *)
Inductive answers : list Event -> Prop :=
| answers_nil : answers []
| answers_progress l c i info data : answers l -> c = handle_process \/ c = handle_headcomplete -> answers (Called c i info data :: l)
| answers_cancelled l i : answers l -> answers (Cleared i true :: l)
| answers_result l c i info data del : answers l -> final c = true -> answers (Cleared i del :: Called c i info data :: l).

(** A log whose last callback may still wait for the removal of its task. *)
Definition answers_upto (p : option Z) (l : list Event) : Prop :=
  match p with
  | None => answers l
  | Some i => exists c info data l', l = Called c i info data :: l' /\ final c = true /\ answers l'
  end.

Definition sim (p : option Z) (w0 w : Worker) : Prop :=
  exists l, calls w = l ++ calls w0 /\ slot_steps (slots w0) l (slots w) /\ answers_upto p l.

(** ** The invariant *)

Definition owned (q : gmap Z Task) (O : gset Z) : Prop :=
  (forall fd, fd ∈ O <-> 0 <= fd /\ exists i t, q !! i = Some t /\ task_fd t = fd) /\
  (forall i j t s, q !! i = Some t -> q !! j = Some s -> 0 <= task_fd t -> task_fd t = task_fd s -> i = j).

Definition idle_state (st : TaskStatus) : bool :=
  match st with TSK_IDLE | TSK_CONNECT | TSK_AUTH | TSK_START => true | _ => false end.

(** What is watched for a task, by its state. *)
Record watched (m : gmap Z Z) (r x : gset Z) (i : Z) (t : Task) : Prop := {
  wt_map : transferring (taskState t) = true -> m !! task_fd t = Some i;
  wt_idle : idle_state (taskState t) = true -> (task_fd t ∉ r) /\ (task_fd t ∉ x);
  wt_wait : taskState t = TSK_CONNECTWAIT -> task_fd t ∉ r;
  wt_run : taskState t = TSK_RUNNING -> task_fd t ∈ r -> task_fd t ∈ x -> False
}.

Record winv_at {E} `{OsLaws E} (m : gmap Z Z) (w : Worker) (e : E) : Prop := {
  wi_pos : 0 <= w_curPos w < MAX_TASKQUE_SIZE /\ 0 <= w_maxPos w < MAX_TASKQUE_SIZE;
  wi_task : forall i t, queue w !! i = Some t -> 0 <= i <= w_maxPos w /\ task_ok t;
  wi_own : owned (queue w) (opened e);
  wi_map : forall fd i, m !! fd = Some i -> 0 <= fd /\ exists t, queue w !! i = Some t /\ task_fd t = fd;
  wi_sets : forall fd, fd ∈ readfds w \/ fd ∈ writefds w -> is_Some (m !! fd);
  wi_watch : forall i t, queue w !! i = Some t -> watched m (readfds w) (writefds w) i t
}.

Definition winv {E} `{OsLaws E} (w : Worker) (e : E) : Prop := winv_at (s_t_map w) w e.

(** ** Changing one task *)

Section Change.
Context {E : Type} {OS : Os E} {OL : OsLaws E}.

Lemma fd_set_elem x fd : x ∈ fd_set fd <-> x = fd /\ 0 <= fd.
Proof. unfold fd_set. destruct (Z.leb_spec 0 fd); set_solver by lia. Qed.

(** A task makes, keeps or closes its socket. *)
Lemma owned_put q i t t' (e e' : E) : owned q (opened e) -> q !! i = Some t -> fd_effect (task_fd t) e (task_fd t') e' ->
  owned (<[i := t']> q) (opened e').
Proof.
  intros [O1 O2] Hi (F1 & _ & F2). split.
  - intros fd. rewrite F1, elem_of_union, elem_of_difference, O1, !fd_set_elem. split.
    + intros [[[H0 (j & s & Hj & <-)] Hne]|[-> H0]].
      * split; [done|]. exists j, s. split; [|done]. rewrite lookup_insert_ne; [done|]. intros <-. rewrite Hi in Hj. injection Hj as <-. by apply Hne.
      * split; [done|]. exists i, t'. by rewrite lookup_insert_eq.
    + intros [H0 (j & s & Hj & <-)]. destruct (decide (i = j)) as [<-|Hij].
      * rewrite lookup_insert_eq in Hj. injection Hj as <-. by right.
      * rewrite lookup_insert_ne in Hj by done. left. split; [eauto|]. intros [Heq Ht]. apply Hij. by eapply (O2 i j t s).
  - assert (Hfresh : forall j s, i <> j -> q !! j = Some s -> 0 <= task_fd t' -> task_fd t' = task_fd s -> False).
    { intros j s Hij Hj H0 Heq. destruct F2 as [F2|[F2|F2]]; [|lia|].
      - apply Hij. apply (O2 i j t s); [done|done|congruence|congruence].
      - apply F2, O1. split; [done|]. eauto. }
    intros j k s r Hj Hk H0 Heq. rewrite !lookup_insert in *. repeat case_decide; simplify_eq; try done.
    + exfalso. apply (Hfresh j s); [done|done|lia|done].
    + exfalso. by apply (Hfresh k r).
    + by apply (O2 j k s r).
Qed.

Lemma owned_remove q i t (e e' : E) : owned q (opened e) -> q !! i = Some t -> opened e' = opened e ∖ fd_set (task_fd t) ->
  owned (base.delete i q) (opened e').
Proof.
  intros [O1 O2] Hi F1. split.
  - intros fd. rewrite F1, elem_of_difference, O1, fd_set_elem. split.
    + intros [[H0 (j & s & Hj & <-)] Hne]. split; [done|]. exists j, s. split; [|done]. rewrite lookup_delete_ne; [done|].
      intros <-. rewrite Hi in Hj. injection Hj as <-. by apply Hne.
    + intros [H0 (j & s & Hj & <-)]. apply lookup_delete_Some in Hj as [Hij Hj]. split; [eauto|]. intros [Heq Ht]. apply Hij. by eapply (O2 i j t s).
  - intros j k s r Hj Hk. apply lookup_delete_Some in Hj as [_ Hj], Hk as [_ Hk]. by eapply O2.
Qed.

(** The other entries stay as they are. *)
Record agree (fds : Z -> Prop) (m m' : gmap Z Z) (r r' x x' : gset Z) : Prop := {
  ag_map : forall fd, ~ fds fd -> m' !! fd = m !! fd;
  ag_read : forall fd, ~ fds fd -> fd ∈ r' <-> fd ∈ r;
  ag_write : forall fd, ~ fds fd -> fd ∈ x' <-> fd ∈ x
}.

Lemma watched_agree fds m m' r r' x x' i t : agree fds m m' r r' x x' -> ~ fds (task_fd t) -> watched m r x i t -> watched m' r' x' i t.
Proof. intros [A1 A2 A3] Hn []. split; rewrite ?(A1 _ Hn), ?(A2 _ Hn), ?(A3 _ Hn); auto. Qed.

(** One task changes, with the entries of its old and its new socket. *)
Lemma winv_change m m' w w' (e e' : E) i t t' : winv_at m w e -> queue w !! i = Some t -> task_ok t' ->
  fd_effect (task_fd t) e (task_fd t') e' ->
  queue w' = <[i := t']> (queue w) -> w_curPos w' = w_curPos w -> w_maxPos w' = w_maxPos w ->
  agree (fun fd => 0 <= fd /\ (fd = task_fd t \/ fd = task_fd t')) m m' (readfds w) (readfds w') (writefds w) (writefds w') ->
  (forall fd j, fd = task_fd t \/ fd = task_fd t' -> m' !! fd = Some j -> j = i /\ fd = task_fd t' /\ 0 <= fd) ->
  (forall fd, fd = task_fd t \/ fd = task_fd t' -> fd ∈ readfds w' \/ fd ∈ writefds w' -> is_Some (m' !! fd)) ->
  watched m' (readfds w') (writefds w') i t' ->
  winv_at m' w' e'.
Proof.
  intros [] Hi Ht' Hfd Hq Hc Hx Hag Hm Hs Hw.
  assert (Hother : forall j s, i <> j -> queue w !! j = Some s -> ~ (0 <= task_fd s /\ (task_fd s = task_fd t \/ task_fd s = task_fd t'))).
  { intros j s Hij Hj [H0 [Heq|Heq]].
    - apply Hij. apply (proj2 wi_own0 i j t s); [done|done|lia|done].
    - destruct Hfd as (_ & _ & [F|[F|F]]); [|lia|].
      + apply Hij. apply (proj2 wi_own0 i j t s); [done|done|lia|congruence].
      + apply F, (proj1 wi_own0). split; [lia|]. eauto. }
  split.
  - by rewrite Hc, Hx.
  - intros j s. rewrite Hq, Hx, lookup_insert. case_decide as Hij; [|apply wi_task0]. intros [= <-]. subst j. split; [by eapply wi_task0|done].
  - rewrite Hq. by eapply owned_put.
  - intros fd j Hj. rewrite Hq. destruct (decide (fd = task_fd t \/ fd = task_fd t')) as [Hfds|Hfds].
    + destruct (Hm fd j Hfds Hj) as (-> & -> & H0). split; [done|]. exists t'. by rewrite lookup_insert_eq.
    + rewrite (ag_map _ _ _ _ _ _ _ Hag) in Hj by tauto. destruct (wi_map0 fd j Hj) as [H0 (s & Hs' & <-)]. split; [done|]. exists s.
      split; [|done]. rewrite lookup_insert_ne; [done|]. intros <-. rewrite Hi in Hs'. injection Hs' as <-. tauto.
  - intros fd Hin. destruct (decide (fd = task_fd t \/ fd = task_fd t')) as [Hfds|Hfds]; [by apply Hs|].
    rewrite (ag_map _ _ _ _ _ _ _ Hag) by tauto. apply wi_sets0.
    by rewrite <- (ag_read _ _ _ _ _ _ _ Hag), <- (ag_write _ _ _ _ _ _ _ Hag) by tauto.
  - intros j s. rewrite Hq, lookup_insert. case_decide as Hij; [intros [= <-]; by subst j|]. intros Hj.
    eapply watched_agree; [exact Hag|by eapply (Hother j s)|by apply wi_watch0].
Qed.

(** The same for a task that keeps its socket. *)
Lemma winv_keep m w (e e' : E) i t t' : winv_at m w e -> queue w !! i = Some t -> task_ok t' -> task_fd t' = task_fd t -> still e e' ->
  watched m (readfds w) (writefds w) i t' -> winv_at m (put_at i t' w) e'.
Proof.
  intros Hw Hi Ht' Hfd He Hwt. eapply winv_change; try done.
  - rewrite Hfd. apply still_effect; [|done]. intros H0. apply (proj1 (wi_own _ _ _ Hw)). split; [done|]. eauto.
  - intros fd j Hfds Hj. rewrite Hfd in *. assert (fd = task_fd t) as -> by (by destruct Hfds). destruct (wi_map _ _ _ Hw _ _ Hj) as [H0 (s & Hs & Heq)].
    split_and!; [|done|done]. apply (proj2 (wi_own _ _ _ Hw) j i s t); congruence || lia.
  - intros fd _. apply (wi_sets _ _ _ Hw).
Qed.

End Change.

(** ** Other threads *)

(** A task that was just made. *)
Definition new_task (t : Task) : Prop := task_ok t /\ taskState t = TSK_IDLE /\ task_fd t < 0.

Definition request_ok (r : Request) : Prop := match r with ReqAdd t => new_task t | _ => True end.

(** What the other threads do to the worker: they add new tasks, which do not use a SOCKS 5
    proxy ([client_ok]), cancel tasks and stop the thread, in any order. *)
Class OthersLaws (E : Type) `{OsLaws E} `{!Others E} := {
  requests_calm : forall e, still e (snd (sys_requests e));
  requests_ok : forall e, Forall request_ok (fst (sys_requests e))
}.

Definition same_task (t t' : Task) : Prop := t' = t \/ t' = cancel_task t.

(** The worker, after other threads ran. *)
Record later (w w' : Worker) : Prop := {
  la_queue : forall i t, queue w !! i = Some t -> exists t', queue w' !! i = Some t' /\ same_task t t';
  la_map : s_t_map w' = s_t_map w;
  la_read : readfds w' = readfds w;
  la_write : writefds w' = writefds w;
  la_calls : calls w' = calls w;
  la_stop : stop w = true -> w' = w
}.

Lemma same_task_trans t1 t2 t3 : same_task t1 t2 -> same_task t2 t3 -> same_task t1 t3.
Proof. intros [-> | ->] [-> | ->]; [by left|by right|by right|by right]. Qed.

Lemma later_refl w : later w w.
Proof. split; try done. intros i t Hi. exists t. split; [done|by left]. Qed.

Lemma later_trans w1 w2 w3 : later w1 w2 -> later w2 w3 -> later w1 w3.
Proof.
  intros [] []. split; try congruence.
  2:{ intros Hst. rewrite la_stop1; [by apply la_stop0|]. by rewrite la_stop0. }
  intros i t Hi. destruct (la_queue0 i t Hi) as (t2 & Hi2 & S2). destruct (la_queue1 i t2 Hi2) as (t3 & Hi3 & S3).
  exists t3. split; [done|]. by eapply same_task_trans.
Qed.

Lemma cancel_task_ok t : task_ok t -> task_ok (cancel_task t).
Proof. intros []. by split. Qed.

Lemma same_task_ok t t' : task_ok t -> same_task t t' -> task_ok t'.
Proof. intros Ht [-> | ->]; [done|by apply cancel_task_ok]. Qed.

Lemma same_task_fd t t' : same_task t t' -> task_fd t' = task_fd t.
Proof. by intros [-> | ->]. Qed.

Lemma same_task_state t t' : same_task t t' -> taskState t' = taskState t.
Proof. by intros [-> | ->]. Qed.

Lemma same_task_del t t' : same_task t t' -> del t = true -> del t' = true.
Proof. by intros [-> | ->]. Qed.

Lemma watched_same m r x i t t' : task_fd t' = task_fd t -> taskState t' = taskState t -> watched m r x i t -> watched m r x i t'.
Proof. intros Hf Hs []. split; rewrite ?Hf, ?Hs; auto. Qed.

Lemma cancel_desc w : desc <$> (cancel_task <$> queue w) = mark_deleted <$> taskQue (slots w).
Proof. apply map_eq. intros i. unfold slots. cbn [taskQue]. rewrite !lookup_fmap. by destruct (queue w !! i). Qed.

Lemma slots_put i t cur mx w : slots (set_queue (<[i := t]> (queue w)) (set_pos cur mx w)) = mkWorker (<[i := desc t]> (desc <$> queue w)) cur mx (maxRun w) (stop w).
Proof. unfold slots. cbn [queue set_queue]. by rewrite fmap_insert. Qed.

Lemma slots_put_at i t w : slots (put_at i t w) = put_task i (desc t) (slots w).
Proof. exact (slots_put i t _ _ w). Qed.

Lemma slots_free w i : taskQue (slots w) !! i = None -> queue w !! i = None.
Proof. cbn [slots taskQue]. rewrite lookup_fmap. by destruct (queue w !! i). Qed.

Section Others.
Context {E : Type} {OS : Os E} {OL : OsLaws E}.

Lemma winv_still m w (e e' : E) : winv_at m w e -> still e e' -> winv_at m w e'.
Proof. intros [] [Ho _]. split; try done. by rewrite Ho. Qed.

Lemma winv_cancel m w (e : E) i t : winv_at m w e -> queue w !! i = Some t -> winv_at m (put_at i (cancel_task t) w) e.
Proof.
  intros Hw Hi. eapply winv_keep; try done.
  - apply cancel_task_ok. by eapply wi_task.
  - apply (watched_same _ _ _ _ t); [done..|]. by eapply wi_watch.
Qed.

Lemma winv_cancel_all m w (e : E) : winv_at m w e -> winv_at m (set_queue (cancel_task <$> queue w) w) e.
Proof.
  intros []. assert (Hl : forall i s, (cancel_task <$> queue w) !! i = Some s -> exists t, queue w !! i = Some t /\ s = cancel_task t).
  { intros i s. rewrite lookup_fmap_Some. intros (t & <- & Hi). eauto. }
  split; cbn [queue set_queue w_curPos w_maxPos readfds writefds]; try done.
  - intros i s Hs. apply Hl in Hs as (t & Hi & ->). destruct (wi_task0 i t Hi). split; [done|by apply cancel_task_ok].
  - destruct wi_own0 as [O1 O2]. split.
    + intros fd. rewrite O1. split; intros [H0 (i & t & Hi & <-)]; (split; [done|]).
      * exists i, (cancel_task t). by rewrite lookup_fmap, Hi.
      * apply Hl in Hi as (t0 & Hi & ->). eauto.
    + intros i j s r Hi Hj. apply Hl in Hi as (t & Hi & ->), Hj as (t' & Hj & ->). by apply (O2 i j t t').
  - intros fd i Hi. destruct (wi_map0 fd i Hi) as [H0 (t & Ht & <-)]. split; [done|]. exists (cancel_task t). by rewrite lookup_fmap, Ht.
  - intros i s Hs. apply Hl in Hs as (t & Hi & ->). apply (watched_same _ _ _ _ t); [done..|]. by apply wi_watch0.
Qed.

Lemma winv_add m w (e : E) i t cur mx : winv_at m w e -> queue w !! i = None -> 0 <= i < MAX_TASKQUE_SIZE -> new_task t ->
  0 <= cur < MAX_TASKQUE_SIZE -> mx = (if w_maxPos w <? i then i else w_maxPos w) ->
  winv_at m (set_queue (<[i := t]> (queue w)) (set_pos cur mx w)) e.
Proof.
  intros [] Hi Hr (T1 & T2 & T3) Hc ->. assert (Hmx : w_maxPos w <= (if w_maxPos w <? i then i else w_maxPos w) /\ i <= (if w_maxPos w <? i then i else w_maxPos w) < MAX_TASKQUE_SIZE)
    by (destruct (Z.ltb_spec (w_maxPos w) i); lia).
  assert (Hnot : forall fd, fd ∈ readfds w \/ fd ∈ writefds w -> fd <> task_fd t).
  { intros fd Hfd ->. destruct (wi_sets0 _ Hfd) as [j Hj]. destruct (wi_map0 _ _ Hj). lia. }
  split; cbn [queue set_queue set_pos w_curPos w_maxPos readfds writefds].
  - split; [done|lia].
  - intros j s. rewrite lookup_insert. case_decide as Hij; [intros [= <-]; subst; split; [lia|done]|]. intros Hj. destruct (wi_task0 j s Hj). split; [lia|done].
  - destruct wi_own0 as [O1 O2]. split.
    + intros fd. rewrite O1. split; intros [H0 (j & s & Hj & <-)]; (split; [done|]).
      * exists j, s. split; [|done]. rewrite lookup_insert_ne; [done|]. intros <-. by rewrite Hi in Hj.
      * rewrite lookup_insert in Hj. case_decide; [injection Hj as <-; lia|]. eauto.
    + intros j k s r Hj Hk H0 Heq. rewrite !lookup_insert in *. repeat case_decide; simplify_eq; try done; try lia. by apply (O2 j k s r).
  - intros fd j Hj. destruct (wi_map0 fd j Hj) as [H0 (s & Hs & <-)]. split; [done|]. exists s. split; [|done]. rewrite lookup_insert_ne; [done|].
    intros <-. by rewrite Hi in Hs.
  - done.
  - intros j s. rewrite lookup_insert. case_decide as Hij; [|apply wi_watch0]. intros [= <-]. split; rewrite T2; try done.
    intros _. split; intros Hin; [eapply (Hnot (task_fd t))|eapply (Hnot (task_fd t))]; auto.
Qed.

Definition sim_to (p : option Z) (w0 w : Worker) (m : gmap Z Z) (e : E) (w' : Worker) : Prop := winv_at m w' e /\ sim p w0 w' /\ later w w'.

Lemma sim_slots p w0 w w' : sim p w0 w -> calls w' = calls w ->
  (forall l, slot_steps (slots w0) l (slots w) -> slot_steps (slots w0) l (slots w')) -> sim p w0 w'.
Proof. intros (l & Hl & Hs & Ha) Hc Hss. exists l. rewrite Hc. auto. Qed.

Lemma add_request_ok p w0 m w (e : E) t : stop w = false -> winv_at m w e -> sim p w0 w -> new_task t ->
  exists w', apply_request w (ReqAdd t) = Ok w' /\ sim_to p w0 w m e w'.
Proof.
  intros Hst Hw Hs Ht. unfold apply_request. rewrite Hst. destruct (findTaskPos_safe (slots w) (proj1 (wi_pos _ _ _ Hw))) as (r & a & Hf & Ha & Hq & Hi).
  rewrite Hf, Ok_bind. destruct r as [i|]; [|exists w; split_and!; [done..|]; split_and!; [done..|apply later_refl]].
  destruct (findTaskPos_place _ _ _ Hf) as (Hfree & Hcur & Hmax & Hrun & Hstop). apply slots_free in Hfree. cbn [slots maxPos w_maxRunTaskNum w_stop] in *. eexists. split; [done|]. split_and!.
  - apply winv_add; try done. by apply Hi.
  - eapply sim_slots; [exact Hs|done|]. intros l Hss. pose proof (ss_add _ l _ _ i (desc t) Hss Hst Hf) as H1.
    rewrite slots_put. unfold put_task in H1. by rewrite Hq, Hrun, Hstop in H1.
  - split; try done.
    + intros j s Hj. exists s. split; [|by left]. cbn [queue set_queue]. rewrite lookup_insert_ne; [done|congruence].
    + congruence.
Qed.

Lemma cancel_request_ok p w0 m w (e : E) i : stop w = false -> winv_at m w e -> sim p w0 w ->
  exists w', apply_request w (ReqCancel i) = Ok w' /\ sim_to p w0 w m e w'.
Proof.
  intros Hst Hw Hs. unfold apply_request. rewrite Hst. destruct (queue w !! i) as [t|] eqn:Hi; [|exists w; split_and!; [done..|]; split_and!; [done..|apply later_refl]].
  eexists. split; [done|]. split_and!; [by apply winv_cancel| |].
  - eapply sim_slots; [exact Hs|done|]. intros l Hss. assert (Hd : taskQue (slots w) !! i = Some (desc t)) by (cbn; by rewrite lookup_fmap, Hi).
    change (set_queue _ _) with (put_at i (cancel_task t) w). rewrite slots_put_at. exact (ss_cancel _ l _ i _ Hss Hd).
  - split; try done.
    + intros j s Hj. cbn [queue set_queue]. rewrite lookup_insert. case_decide; [|exists s; split; [done|by left]].
      subst. rewrite Hi in Hj. injection Hj as <-. exists (cancel_task t). split; [done|by right].
    + congruence.
Qed.

Lemma cancel_all_ok p w0 m w (e : E) b : stop w = false -> winv_at m w e -> sim p w0 w ->
  sim_to p w0 w m e (set_stop (b || stop w) (set_queue (cancel_task <$> queue w) w)).
Proof.
  intros Hst Hw Hs. split_and!.
  - pose proof (winv_cancel_all _ _ _ Hw) as []. by split.
  - eapply sim_slots; [exact Hs|done|]. intros l Hss. pose proof (ss_cancel_all _ l _ b Hss) as H1. by rewrite <- cancel_desc in H1.
  - split; try done.
    + intros j s Hj. exists (cancel_task s). cbn [queue set_queue set_stop]. rewrite lookup_fmap, Hj. split; [done|by right].
    + congruence.
Qed.

Lemma apply_request_ok p w0 m w (e : E) r : winv_at m w e -> sim p w0 w -> request_ok r ->
  exists w', apply_request w r = Ok w' /\ sim_to p w0 w m e w'.
Proof.
  intros Hw Hs Hr. destruct (stop w) eqn:Hst; [exists w; unfold apply_request; rewrite Hst; split; [done|]; split_and!; [done..|apply later_refl]|].
  destruct r as [t|i| |]; [by apply add_request_ok|by apply cancel_request_ok|..]; unfold apply_request; rewrite Hst.
  - eexists. split; [done|]. pose proof (cancel_all_ok p w0 m w e false Hst Hw Hs) as H1. by destruct w.
  - eexists. split; [done|]. exact (cancel_all_ok p w0 m w e true Hst Hw Hs).
Qed.

Context {OT : Others E} {OTL : OthersLaws E}.

Lemma others_ok p w0 m w (e : E) Q F : winv_at m w e -> sim p w0 w ->
  (forall w' e', winv_at m w' e' -> sim p w0 w' -> later w w' -> still e e' -> Q tt (w', e')) -> runs F others Q (w, e).
Proof.
  intros Hw Hs HQ. unfold others. step. step. step. step. step. cbn [fst snd id]. pose proof (requests_calm e) as He.
  assert (Hall : exists w', for_each apply_request w (fst (sys_requests e)) = Ok w' /\ winv_at m w' e /\ sim p w0 w' /\ later w w').
  { pose proof (requests_ok e) as Hr. revert Hr. generalize (fst (sys_requests e)). intros rs Hr. clear HQ. revert w Hw Hs.
    induction Hr as [|r rs Hr _ IH]; intros w Hw Hs; cbn [for_each]; [exists w; split_and!; [done..|apply later_refl]|].
    destruct (apply_request_ok p w0 m w e r Hw Hs Hr) as (w1 & -> & Hw1 & Hs1 & Hl1). rewrite Ok_bind.
    destruct (IH w1 Hw1 Hs1) as (w2 & -> & Hw2 & Hs2 & Hl2). exists w2. split_and!; [done..|]. by eapply later_trans. }
  destruct Hall as (w' & Hw' & H1 & H2 & H3). apply runs_pure; [|intros f Hf; congruence]. intros a Ha. rewrite Hw' in Ha. injection Ha as <-. step. cbn [snd].
  apply HQ; [by eapply winv_still|done..].
Qed.

End Others.
