(* ===== verification/WorkerSteps.v ===== *)
(** * Steps of the worker thread

    Every part of [scanTaskQue] and of [scanIO] keeps the invariant of the worker and
    makes only the callbacks that WorkerProofs allows ([good_at]). *)
From stdpp Require Import prelude gmap sorting.
From Stdlib Require Import ZArith Lia String.
From S2P Require Import Prelude Memory Strings Json MimeTypes Transfer Base64 Url HttpRequest Run Sockets SockProxy HttpClient Task Worker.
From S2P Require Import TransferProofs ClientProofs TaskProofs WorkerProofs.

Lemma FD_CLR_sub fd s : FD_CLR fd s ⊆ s.
Proof. unfold FD_CLR. set_solver. Qed.

Lemma FD_CLR_not fd s : fd ∉ FD_CLR fd s.
Proof. unfold FD_CLR. set_solver. Qed.

Lemma FD_CLR_other fd fd' s : fd' <> fd -> fd' ∈ FD_CLR fd s <-> fd' ∈ s.
Proof. unfold FD_CLR. set_solver. Qed.

Lemma FD_SET_other fd fd' s : fd' <> fd -> fd' ∈ FD_SET fd s <-> fd' ∈ s.
Proof. unfold FD_SET. case_bool_decide; set_solver. Qed.

(** ** One task *)

Section Good.
Context {E : Type} {OS : Os E} {OL : OsLaws E} {NT : Ntlm E} {NL : NtlmLaws E} {MA : Machine E} {OT : Others E} {OTL : OthersLaws E}.
Context (fuel : nat).

(** The state of the worker since [w0]; [m] is the map without the entries that are
    about to be removed. *)
Record good_at (m : gmap Z Z) (p : option Z) (w0 w : Worker) (e : E) : Prop := {
  gd_inv : winv_at m w e;
  gd_sim : sim p w0 w;
  gd_fuel : (remaining e < fuel)%nat
}.

Definition good (w0 w : Worker) (e : E) : Prop := good_at (s_t_map w) None w0 w e.

Lemma good_own m p w0 w e i t : good_at m p w0 w e -> queue w !! i = Some t -> fd_own (task_fd t) e.
Proof. intros [Hw _ _] Hi H0. apply (proj1 (wi_own _ _ _ Hw)). split; [done|]. eauto. Qed.

Lemma good_task m p w0 w e i t : good_at m p w0 w e -> queue w !! i = Some t -> task_ok t.
Proof. intros [Hw _ _] Hi. by apply (wi_task _ _ _ Hw _ _ Hi). Qed.

Lemma good_watch m p w0 w e i t : good_at m p w0 w e -> queue w !! i = Some t -> watched m (readfds w) (writefds w) i t.
Proof. intros [Hw _ _] Hi. by apply (wi_watch _ _ _ Hw). Qed.

Lemma slots_lookup w i t : queue w !! i = Some t -> taskQue (slots w) !! i = Some (desc t).
Proof. intros Hi. cbn [slots taskQue]. by rewrite lookup_fmap, Hi. Qed.

Lemma slots_same w i t t' : queue w !! i = Some t -> desc t' = desc t -> slots (put_at i t' w) = slots w.
Proof.
  intros Hi Hd. rewrite slots_put_at, Hd. unfold put_task. rewrite insert_id; [done|by apply slots_lookup].
Qed.

Lemma sim_same p w0 w w' : sim p w0 w -> slots w' = slots w -> calls w' = calls w -> sim p w0 w'.
Proof. intros Hs Hsl Hc. apply (sim_slots p w0 w); [done..|]. by rewrite Hsl. Qed.

(** A task and the entries of its sockets change. *)
Lemma good_change m p w0 w e i t t' e' m' mm mx r x : good_at m p w0 w e -> queue w !! i = Some t -> stepped (t, e) (t', e') ->
  agree (fun fd => 0 <= fd /\ (fd = task_fd t \/ fd = task_fd t')) m m' (readfds w) r (writefds w) x ->
  (forall fd j, fd = task_fd t \/ fd = task_fd t' -> m' !! fd = Some j -> j = i /\ fd = task_fd t' /\ 0 <= fd) ->
  (forall fd, fd = task_fd t \/ fd = task_fd t' -> fd ∈ r \/ fd ∈ x -> is_Some (m' !! fd)) ->
  watched m' r x i t' -> good_at m' p w0 (set_map mm (set_fds mx r x (put_at i t' w))) e'.
Proof.
  intros [Hw Hs Hf] Hi [S1 S2 S3] Hag Hm Hset Hwt. split.
  - by eapply (winv_change m m' w).
  - apply (sim_same p w0 w); [done|by apply (slots_same w i t t')|done].
  - destruct S3 as (_ & S3 & _). cbn [snd] in S3. lia.
Qed.

(** The task moves on, and nothing else. *)
Lemma good_keep m p w0 w e i t t' e' : good_at m p w0 w e -> queue w !! i = Some t -> moved (t, e) (t', e') ->
  watched m (readfds w) (writefds w) i t' -> good_at m p w0 (put_at i t' w) e'.
Proof.
  intros [Hw Hs Hf] Hi [M1 M2 M3 M4] Hwt. split.
  - by eapply winv_keep.
  - apply (sim_same p w0 w); [done|by apply (slots_same w i t t')|done].
  - destruct M4 as [_ M4]. cbn [snd] in M4. lia.
Qed.

(** ** Rules *)

Lemma runs_the_task F i t Q w (e : E) : queue w !! i = Some t -> Q t (w, e) -> runs F (the_task i) Q (w, e).
Proof. intros Hi HQ. unfold the_task. step. step. rewrite Hi. apply runs_pure; [|done]. by intros a [= <-]. Qed.

Lemma runs_on_task {A} F i t (m : Run (Task * E) A) Q w (e : E) : queue w !! i = Some t ->
  runs F m (fun a s => Q a (put_at i (fst s) w, snd s)) (t, e) -> runs F (on_task i m) Q (w, e).
Proof. intros Hi Hm. unfold on_task. step. eapply runs_the_task; [exact Hi|]. by apply runs_part. Qed.

Lemma put_at_lookup i t w : queue (put_at i t w) !! i = Some t.
Proof. apply lookup_insert_eq. Qed.

Lemma put_at_twice i t t' w : put_at i t' (put_at i t w) = put_at i t' w.
Proof. unfold put_at, set_queue. cbn [queue]. by rewrite insert_insert_eq. Qed.

(** A method that only changes the task. *)
Lemma set_moved t t' (e : E) : task_ok t' -> desc t' = desc t -> task_fd t' = task_fd t -> moved (t, e) (t', e).
Proof. intros. split; [done..|apply still_refl]. Qed.

(** What is watched for a task that is about to be removed. *)
Definition over (st : TaskStatus) : bool := match st with TSK_FINISHED | TSK_ERROR | TSK_UNKNOWN => true | _ => false end.

Lemma watched_over m r x i t : over (taskState t) = true -> watched m r x i t.
Proof. intros Ho. split; destruct (taskState t); done. Qed.

(** A socket that the task did not have is not watched. *)
Lemma not_watched m p w0 w e fd : good_at m p w0 w e -> fd < 0 \/ (fd ∉ opened e) -> m !! fd = None /\ (fd ∉ readfds w) /\ (fd ∉ writefds w).
Proof.
  intros [Hw _ _] Hfd. assert (Hm : m !! fd = None).
  { destruct (m !! fd) as [j|] eqn:Hj; [|done]. destruct (wi_map _ _ _ Hw _ _ Hj) as [H0 (s & Hs & Es)]. destruct Hfd as [Hfd|Hfd]; [lia|].
    exfalso. apply Hfd, (proj1 (wi_own _ _ _ Hw)). eauto. }
  split_and!; [done|..]; intros Hin; (destruct (wi_sets _ _ _ Hw fd) as [j Hj]; [auto|congruence]).
Qed.

(** The entry of a socket is that of its task. *)
Lemma map_own m p w0 w e i t j : good_at m p w0 w e -> queue w !! i = Some t -> m !! task_fd t = Some j -> j = i.
Proof.
  intros [Hw _ _] Hi Hj. destruct (wi_map _ _ _ Hw _ _ Hj) as [H0 (s & Hs & Es)]. by apply (proj2 (wi_own _ _ _ Hw) j i s t); [..|lia|].
Qed.

Lemma others_good m p w0 w e F Q : good_at m p w0 w e ->
  (forall w' e', good_at m p w0 w' e' -> later w w' -> still e e' -> Q tt (w', e')) -> runs F others Q (w, e).
Proof.
  intros [Hw Hs Hf] HQ. eapply others_ok; [done..|]. intros w' e' Hw' Hs' Hl He. apply HQ; [|done..]. split; [done..|]. destruct He as [_ He]. lia.
Qed.

(** ** Callbacks *)

Lemma sim_called w0 w i t c info data p : sim None w0 w -> queue w !! i = Some t -> del t = false ->
  (c = handle_process \/ c = handle_headcomplete) /\ p = None \/ final c = true /\ p = Some i ->
  sim p w0 (set_calls (Called c i info data :: calls w) w).
Proof.
  intros (l & Hl & Hs & Ha) Hi Hd Hc. exists (Called c i info data :: l). split; [by cbn [calls set_calls]; rewrite Hl|]. split.
  - apply (ss_call _ l _ c i (desc t)); [done| |done]. exact (slots_lookup w i t Hi).
  - destruct Hc as [[Hc ->] | [Hc ->]]; cbn [answers_upto] in *; [by apply answers_progress|by exists c, info, data, l].
Qed.

Lemma good_called m w0 w e i t c info data p : good_at m None w0 w e -> queue w !! i = Some t -> del t = false ->
  (c = handle_process \/ c = handle_headcomplete) /\ p = None \/ final c = true /\ p = Some i ->
  good_at m p w0 (set_calls (Called c i info data :: calls w) w) e.
Proof. intros [Hw Hs Hf] Hi Hd Hc. split; [by destruct Hw; split|by eapply sim_called|done]. Qed.

(** The callback is made unless the task was cancelled meanwhile. *)
Lemma call_good m w0 w e i t c F Q : good_at m None w0 w e -> queue w !! i = Some t ->
  (forall w1 e1 t1, good_at m None w0 w1 e1 -> later w w1 -> queue w1 !! i = Some t1 -> same_task t t1 ->
     if del t1 then Q tt (w1, e1) else Q tt (set_calls (Called c i (taskInfo t1) (respData t1) :: calls w1) w1, e1)) ->
  runs F (call c i) Q (w, e).
Proof.
  intros Hg Hi HQ. unfold call. step. eapply others_good; [exact Hg|]. intros w1 e1 Hg1 Hl1 _. destruct (la_queue _ _ Hl1 i t Hi) as (t1 & Hi1 & Hs1).
  step. eapply runs_the_task; [exact Hi1|]. specialize (HQ w1 e1 t1 Hg1 Hl1 Hi1 Hs1). by apply runs_when; destruct (del t1).
Qed.

(** ** Removing a task *)

(** Fewer sockets are watched. *)
Lemma winv_shrink m w (e : E) mm mx r x : winv_at m w e -> r ⊆ readfds w -> x ⊆ writefds w -> winv_at m (set_map mm (set_fds mx r x w)) e.
Proof.
  intros [W1 W2 W3 W4 W5 W6] Hr Hx. split; try done; cbn [readfds writefds set_map set_fds queue].
  - intros fd Hfd. apply W5. set_solver.
  - intros i t Hi. destruct (W6 i t Hi). split; [done|set_solver..].
Qed.

Lemma winv_remove m w (e e' : E) i t : winv_at m w e -> queue w !! i = Some t -> opened e' = opened e ∖ fd_set (task_fd t) ->
  (task_fd t ∉ readfds w) -> (task_fd t ∉ writefds w) -> forall c, winv_at (base.delete (task_fd t) m) (set_calls c (set_queue (base.delete i (queue w)) w)) e'.
Proof.
  intros [W1 W2 W3 W4 W5 W6] Hi Ho Hr Hx c. split; cbn [queue set_calls set_queue readfds writefds w_curPos w_maxPos]; [done|..].
  - intros j s Hj. apply lookup_delete_Some in Hj as [_ Hj]. by apply W2.
  - by eapply owned_remove.
  - intros fd j Hj. apply lookup_delete_Some in Hj as [Hne Hj]. destruct (W4 fd j Hj) as [H0 (s & Hs & <-)]. split; [done|]. exists s. split; [|done].
    rewrite lookup_delete_ne; [done|]. intros <-. rewrite Hi in Hs. injection Hs as <-. done.
  - intros fd Hfd. rewrite lookup_delete_ne by (intros <-; tauto). by apply W5.
  - intros j s Hj. apply lookup_delete_Some in Hj as [Hij Hj]. destruct (W6 j s Hj) as [V1 V2 V3 V4]. split; [|done..]. intros Hst.
    rewrite lookup_delete_ne; [by apply V1|]. intros Heq. apply Hij. destruct (tk_conn _ (proj2 (W2 j s Hj)) Hst) as [H0 _].
    apply (proj2 W3 i j t s); [done|done|lia|done].
Qed.

Lemma sim_removed p w0 w i t : sim p w0 w -> queue w !! i = Some t -> p = Some i \/ p = None /\ del t = true ->
  sim None w0 (set_calls (Cleared i (del t) :: calls w) (set_queue (base.delete i (queue w)) w)).
Proof.
  intros (l & Hl & Hs & Ha) Hi Hp. exists (Cleared i (del t) :: l). split; [by cbn [calls set_calls]; rewrite Hl|]. split.
  - pose proof (ss_remove _ l _ i (desc t) Hs (slots_lookup w i t Hi)) as H1. unfold clearTaskInfo in H1. unfold slots at 2.
    cbn [queue set_calls set_queue w_curPos w_maxPos maxRun stop]. rewrite fmap_delete. exact H1.
  - cbn [answers_upto]. destruct Hp as [-> | [-> ->]]; cbn [answers_upto] in Ha; [|by apply answers_cancelled].
    destruct Ha as (c & info & data & l' & -> & Hc & Ha). by apply answers_result.
Qed.

(** The task is gone; the queue of a worker that was stopped has lost nothing else. *)
Record cleared (i : Z) (cancelled : bool) (w w' : Worker) : Prop := {
  cl_gone : queue w' !! i = None;
  cl_calls : exists d, calls w' = Cleared i d :: calls w /\ (cancelled = true -> d = true);
  cl_stop : stop w = true -> queue w' = base.delete i (queue w) /\ stop w' = true
}.

Lemma disconnect_task t e F Q : task_ok t -> fd_own (task_fd t) e -> text_fault = F ->
  (forall t' e', desc t' = desc t -> opened e' = opened e ∖ fd_set (task_fd t) -> (remaining e' <= remaining e)%nat -> Q tt (t', e')) ->
  runs F (client Disconnect) Q (t, e).
Proof.
  intros Ht Ho <- HQ. unfold client. apply runs_part. eapply runs_impl; [apply Disconnect_closes; [apply Ht|done]|].
  intros [] [h' e'] (D1 & D2 & D3 & D4 & (D5 & D6 & _)). cbn [fst snd] in *. apply HQ; [done| |done].
  rewrite D5. unfold fd_set at 2. rewrite (proj2 (Z.leb_gt _ _)) by done. unfold task_fd. set_solver.
Qed.

Lemma clear_task_good m p w0 w e i t Q : good_at m p w0 w e -> queue w !! i = Some t -> p = Some i \/ p = None /\ del t = true ->
  (forall w' e', good_at (base.delete (task_fd t) m) None w0 w' e' -> s_t_map w' = base.delete (task_fd t) (s_t_map w) -> cleared i (del t) w w' -> Q tt (w', e')) ->
  runs text_fault (clear_task i) Q (w, e).
Proof.
  intros [Hw Hs Hf] Hi Hp HQ. unfold clear_task. step. step. rewrite Hi. cbv iota zeta. step. step.
  set (w1 := set_map _ _). assert (Hg1 : good_at m p w0 w1 e).
  { split; [|by apply (sim_same p w0 w)|done]. apply (winv_shrink m w e); [done|apply FD_CLR_sub..]. }
  step. eapply others_good; [exact Hg1|]. intros w2 e2 [Hw2 Hs2 Hf2] Hl _. destruct (la_queue _ _ Hl i t Hi) as (t2 & Hi2 & St). pose proof (same_task_fd _ _ St) as Hfd.
  step. eapply runs_the_task; [exact Hi2|]. step. eapply runs_on_task; [exact Hi2|].
  apply disconnect_task; [by eapply (wi_task _ _ _ Hw2)|by eapply (good_own m p w0 w2); [by split|]|done|].
  intros t3 e3 Hd3 Ho3 Hr3. cbn [fst snd]. step. cbn [fst snd queue put_at set_queue calls].
  match goal with |- Q tt (?x, _) =>
    assert (Hdel : x = set_calls (Cleared i (del t2) :: calls w2) (set_queue (base.delete i (queue w2)) w2)) by (unfold put_at, set_queue, set_calls; cbn; by rewrite delete_insert_eq)
  end.
  rewrite Hdel. apply HQ.
  - split; [|apply (sim_removed p w0 w2 i t2); try done; destruct Hp as [-> | [-> Hd]]; [by left|right; split; [done|by eapply same_task_del]]|lia].
    rewrite <- Hfd. apply (winv_remove m w2 e2); try done; rewrite ?(la_read _ _ Hl), ?(la_write _ _ Hl), Hfd; apply FD_CLR_not.
  - cbn [s_t_map set_calls set_queue]. by rewrite (la_map _ _ Hl).
  - split; [apply lookup_delete_eq| |intros Hstop; rewrite (la_stop _ _ Hl Hstop); by split]. exists (del t2). cbn [calls set_calls]. rewrite (la_calls _ _ Hl).
    split; [done|]. by apply same_task_del.
Qed.

(** What [update] leaves for the callbacks. *)
Definition same_callbacks (t t' : Task) : Prop := desc t' = desc t /\ respData t' = respData t /\ ti_errcode (taskInfo t') = errcode t.

(** ** One pass over the array *)

Lemma scan_idle_good w0 w e i t s Q : good w0 w e -> queue w !! i = Some t -> taskState t = TSK_IDLE ->
  (forall s' w' e', good w0 w' e' -> Q s' (w', e')) -> runs text_fault (scan_idle i s) Q (w, e).
Proof.
  intros Hg Hi Hst HQ. unfold scan_idle. step. step. destruct (_ && _); [|step; by apply HQ]. step. eapply runs_on_task; [exact Hi|]. step. step. apply HQ.
  apply (good_keep _ None w0 w e i t); [done|done| |].
  - pose proof (good_task _ _ _ _ _ _ _ Hg Hi) as []. apply set_moved; [|done|done]. split; try done. intros _. by apply tk_should; rewrite Hst.
  - destruct (good_watch _ _ _ _ _ _ _ Hg Hi) as [V1 V2 V3 V4]. split; try done. intros _. apply V2. by rewrite Hst.
Qed.

(** After an attempt to connect, whatever becomes of the map and of the set. *)
Lemma connect_good w0 w e i t t' e' mx x' (b : bool) : good w0 w e -> queue w !! i = Some t -> taskState t = TSK_CONNECT -> stepped (t, e) (t', e') ->
  (0 <= task_fd t -> task_fd t' = task_fd t) -> (b = true -> 0 <= task_fd t') -> (b = false -> transferring (taskState t') = false) ->
  (taskState t' = TSK_RUNNING -> False) ->
  x' = writefds w \/ x' = FD_SET (task_fd t') (writefds w) /\ b = true /\ taskState t' = TSK_CONNECTWAIT ->
  good w0 (set_map (if b then <[task_fd t' := i]> (s_t_map w) else s_t_map w) (set_fds mx (readfds w) x' (put_at i t' w))) e'.
Proof.
  intros Hg Hi Hst Hstep Hsame Hb1 Hb2 Hnrun Hx.
  assert (Hold : task_fd t' <> task_fd t -> s_t_map w !! task_fd t' = None /\ (task_fd t' ∉ readfds w) /\ (task_fd t' ∉ writefds w)).
  { intros Hne. eapply not_watched; [exact Hg|]. destruct (st_fd _ _ Hstep) as (_ & _ & [F|[F|F]]); [done|by left|by right]. }
  assert (Hneg : task_fd t' <> task_fd t -> task_fd t < 0) by lia.
  assert (Hnone : task_fd t < 0 -> s_t_map w !! task_fd t = None /\ (task_fd t ∉ readfds w) /\ (task_fd t ∉ writefds w))
    by (intros H0; eapply not_watched; [exact Hg|by left]).
  destruct (good_watch _ _ _ _ _ _ _ Hg Hi) as [V1 V2 V3 V4]. specialize (V2 ltac:(by rewrite Hst)).
  assert (Hfree : (task_fd t' ∉ readfds w) /\ (task_fd t' ∉ writefds w)).
  { destruct (decide (task_fd t' = task_fd t)) as [->|Hne]; [done|]. by apply Hold. }
  unfold good. cbn [s_t_map set_map].
  eapply (good_change (s_t_map w)); [exact Hg|exact Hi|exact Hstep|..].
  - split; [|done|].
    + intros fd Hfd. destruct b; [|done]. rewrite lookup_insert_ne; [done|]. intros <-. apply Hfd. auto.
    + intros fd Hfd. destruct Hx as [-> | (-> & Hb & _)]; [done|]. apply FD_SET_other. intros ->. apply Hfd. auto.
  - intros fd j Hfd Hj. destruct (decide (fd = task_fd t')) as [->|Hne].
    + destruct b; [rewrite lookup_insert_eq in Hj; injection Hj as <-; auto|]. destruct (decide (task_fd t' = task_fd t)) as [Heq|Hne].
      * rewrite Heq in Hj. split; [by eapply map_own|]. split; [done|]. rewrite Heq. by apply (wi_map _ _ _ (gd_inv _ _ _ _ _ Hg) _ _ Hj).
      * destruct (Hold Hne). congruence.
    + assert (fd = task_fd t) as -> by (by destruct Hfd). destruct (Hnone ltac:(auto)). destruct b; [rewrite lookup_insert_ne in Hj by done|]; congruence.
  - intros fd Hfd Hin. destruct (decide (fd = task_fd t')) as [->|Hne].
    + destruct b; [rewrite lookup_insert_eq; eauto|]. destruct Hx as [-> | (_ & ? & _)]; [|done]. tauto.
    + assert (fd = task_fd t) as -> by (by destruct Hfd). destruct (Hnone ltac:(auto)) as (_ & N1 & N2).
      destruct Hx as [-> | (-> & _)]; [tauto|]. rewrite FD_SET_other in Hin by done. tauto.
  - split; [|intros Hid|intros _; apply Hfree|done].
    + intros Htr. destruct b; [apply lookup_insert_eq|]. rewrite Hb2 in Htr; done.
    + destruct Hx as [-> | (_ & _ & Hx)]; [done|]. by rewrite Hx in Hid.
Qed.

(** The same worker, written as a change of one task. *)
Lemma set_nothing i t w : put_at i t w = set_map (s_t_map w) (set_fds (maxfd w) (readfds w) (writefds w) (put_at i t w)).
Proof. done. Qed.

Lemma scan_connect_good w0 w e i t Q : good w0 w e -> queue w !! i = Some t -> taskState t = TSK_CONNECT ->
  (forall w' e', good w0 w' e' -> Q tt (w', e')) -> runs text_fault (scan_connect i) Q (w, e).
Proof.
  intros Hg Hi Hst HQ. unfold scan_connect. step. eapply runs_on_task; [exact Hi|].
  apply tryConnect_stepped; [by eapply good_task|by eapply good_own|done|]. intros ret t' e' Hstep [Hsame Hret]. cbn [fst snd].
  step. eapply runs_the_task; [apply put_at_lookup|]. cbv zeta.
  destruct (ret =? RET_SOCKET_CONTINUE) eqn:Ec.
  - apply Z.eqb_eq in Ec. subst ret. cbn [when]. step. step. change (RET_SOCKET_CONTINUE =? RET_OK) with false. cbn [when]. step. apply HQ.
    destruct Hret as [H0 Hst']. apply (connect_good w0 w e i t t' e' _ _ true); try done; [by rewrite Hst'|right; by split_and!].
  - cbn [when]. step. step. destruct (ret =? RET_OK) eqn:Er; cbn [when]; step; apply HQ.
    + destruct Hret as [H0 Hst']. apply (connect_good w0 w e i t t' e' (maxfd w) (writefds w) true); try done; [|by left]. destruct Hst' as [-> | [-> | ->]]; done.
    + rewrite set_nothing. apply (connect_good w0 w e i t t' e' (maxfd w) (writefds w) false); try done; [..|by left]; destruct Hret as [-> | ->]; done.
Qed.

Lemma scan_connectwait_good w0 w e i t Q : good w0 w e -> queue w !! i = Some t -> taskState t = TSK_CONNECTWAIT ->
  (forall w' e', good w0 w' e' -> Q tt (w', e')) -> runs text_fault (scan_connectwait i) Q (w, e).
Proof.
  intros Hg Hi Hst HQ. unfold scan_connectwait. step. eapply runs_the_task; [exact Hi|]. cbv zeta. step. eapply runs_on_task; [exact Hi|].
  destruct (good_watch _ _ _ _ _ _ _ Hg Hi) as [V1 V2 V3 V4]. specialize (V3 Hst).
  apply checkConnectTimeout_stepped; [by eapply good_task|by eapply good_own|done|..].
  - intros t' e' Hstep Hst' Hneg. cbn [fst snd]. codes. cbn [when]. step. apply HQ.
    destruct (not_watched _ _ _ _ _ (task_fd t') Hg (or_introl Hneg)) as (N1 & N2 & N3).
    unfold good. cbn [s_t_map set_map put_at set_queue]. eapply (good_change (s_t_map w)); [exact Hg|exact Hi|exact Hstep|..].
    + split; [|done|]; intros fd Hfd.
      * destruct (decide (fd = task_fd t)) as [->|Hne]; [|by rewrite lookup_delete_ne by done].
        rewrite lookup_delete_eq. destruct (s_t_map w !! task_fd t) eqn:Em; [|done]. exfalso. apply Hfd. destruct (wi_map _ _ _ (gd_inv _ _ _ _ _ Hg) _ _ Em). auto.
      * destruct (decide (fd = task_fd t)) as [->|Hne]; [|by apply FD_CLR_other]. split; [by intros []%FD_CLR_not|]. intros Hin. exfalso. apply Hfd.
        destruct (wi_sets _ _ _ (gd_inv _ _ _ _ _ Hg) _ (or_intror Hin)) as [j Hj]. destruct (wi_map _ _ _ (gd_inv _ _ _ _ _ Hg) _ _ Hj). auto.
    + intros fd j [-> | ->] Hj; [by rewrite lookup_delete_eq in Hj|]. apply lookup_delete_Some in Hj as [_ Hj]. congruence.
    + intros fd [-> | ->] [Hin|Hin]; [done|by apply FD_CLR_not in Hin|done|]. by apply FD_CLR_sub in Hin.
    + split; rewrite Hst'; try done. intros _. split; [done|]. intros Hin. by apply FD_CLR_sub in Hin.
  - intros e' He. cbn [fst snd]. codes. cbn [when]. step. apply HQ. apply (good_keep _ None w0 w e i t); [done|done| |].
    + split; try done. by eapply good_task.
    + by eapply good_watch.
Qed.

Lemma scan_auth_good w0 w e i t Q : good w0 w e -> queue w !! i = Some t -> taskState t = TSK_AUTH ->
  (forall w' e', good w0 w' e' -> Q tt (w', e')) -> runs text_fault (scan_auth i) Q (w, e).
Proof.
  intros Hg Hi Hst HQ. unfold scan_auth. step. eapply runs_on_task; [exact Hi|].
  apply tryAuth_moved; [by eapply good_task|done|]. intros ret t' e' Hm Hr Hs. cbn [fst snd]. step. eapply runs_the_task; [apply put_at_lookup|].
  rewrite (proj2 (Z.eqb_neq _ _) Hr). cbn [when]. step. apply HQ. apply (good_keep _ None w0 w e i t); [done..|].
  destruct (good_watch _ _ _ _ _ _ _ Hg Hi) as [V1 V2 V3 V4]. rewrite Hst in *. pose proof (mv_fd _ _ Hm) as Hfd. cbn [fst] in Hfd.
  destruct Hs as [Hs|Hs]; [|by apply watched_over; rewrite Hs]. split; rewrite Hs, ?Hfd; auto; done.
Qed.

Lemma scan_start_good w0 w e i t Q : good w0 w e -> queue w !! i = Some t -> taskState t = TSK_START ->
  (forall w' e', good w0 w' e' -> Q tt (w', e')) -> runs text_fault (scan_start i) Q (w, e).
Proof.
  intros Hg Hi Hst HQ. pose proof (good_task _ _ _ _ _ _ _ Hg Hi) as Ht. unfold scan_start. step. eapply runs_the_task; [exact Hi|].
  destruct (tk_conn _ Ht) as (F0 & F1 & _); [by rewrite Hst|]. pose proof (tk_times _ Ht) as F2. rewrite (proj2 (Z.leb_gt _ _)) by (unfold MAX_REDIRECTIONS, MAX_RETRY_CONNECT in *; lia).
  rewrite (tk_should _ Ht) by (by rewrite Hst). step. eapply runs_on_task; [exact Hi|].
  apply sendHttpReq_moved; [done..|]. intros ret t' e' Hm Hs. cbn [fst snd]. step. eapply runs_the_task; [apply put_at_lookup|].
  pose proof (good_watch _ _ _ _ _ _ _ Hg Hi) as [V1 V2 V3 V4]. rewrite Hst in *. specialize (V1 eq_refl). specialize (V2 eq_refl). pose proof (mv_fd _ _ Hm) as Hfd. cbn [fst] in Hfd.
  assert (Hrun : forall mx r x, taskState t' = TSK_RUNNING -> r = readfds w /\ x = FD_SET (task_fd t') (writefds w) \/ r = FD_SET (task_fd t') (readfds w) /\ x = writefds w ->
    good w0 (set_map (s_t_map w) (set_fds mx r x (put_at i t' w))) e').
  { intros mx r x Hr Hrx. eapply (good_change (s_t_map w)); [exact Hg|exact Hi|by apply moved_stepped; [by eapply good_own|]|..].
    - rewrite Hfd in *. split; [done|..]; intros fd Hne; destruct Hrx as [[-> ->] | [-> ->]]; try done; apply FD_SET_other; intros ->; tauto.
    - intros fd j Hfds Hj. assert (fd = task_fd t') as -> by (destruct Hfds; congruence). rewrite Hfd in *. split; [by eapply map_own|]. auto.
    - intros fd Hfds _. assert (fd = task_fd t) as -> by (destruct Hfds; congruence). eauto.
    - split; rewrite Hr, ?Hfd; try done. intros _ I1 I2. rewrite Hfd in *. destruct Hrx as [[-> ->] | [-> ->]]; tauto. }
  unfold sent in Hs. destruct (ret =? RET_SOCKET_FINISH) eqn:Ef; cbn [orb] in Hs;
    [step; apply HQ; exact (Hrun (if task_fd t' <? maxfd w then maxfd w else task_fd t') (FD_SET (task_fd t') (readfds w)) (writefds w) Hs (or_intror (conj eq_refl eq_refl)))|].
  destruct (ret =? RET_SOCKET_CONTINUE) eqn:Ec; [step; apply HQ; exact (Hrun (if task_fd t' <? maxfd w then maxfd w else task_fd t') (readfds w) (FD_SET (task_fd t') (writefds w)) Hs (or_introl (conj eq_refl eq_refl)))|]. step. apply HQ.
  apply (good_keep _ None w0 w e i t); [done..|]. apply watched_over. by rewrite Hs.
Qed.

Lemma update_good m p w0 w e i t F Q : good_at m p w0 w e -> queue w !! i = Some t ->
  (forall t' e', good_at m p w0 (put_at i t' w) e' -> same_callbacks t t' -> Q tt (put_at i t' w, e')) -> runs F (on_task i update) Q (w, e).
Proof.
  intros Hg Hi HQ. eapply runs_on_task; [exact Hi|]. apply update_moved; [by eapply good_task|]. intros now e' Hm. cbn [fst snd].
  destruct (updateTaskInfo_same now t) as (U1 & U2 & U3 & U4 & U5 & U6 & U7 & U8 & U9). apply HQ; [|by split_and!].
  eapply good_keep; [done..|]. eapply watched_same; [apply (mv_fd _ _ Hm)|exact U3|]. by eapply good_watch.
Qed.

(** Emptying the data. *)
Lemma set_good m p w0 w e i t f F Q : good_at m p w0 w e -> queue w !! i = Some t ->
  task_ok (f t) -> desc (f t) = desc t -> task_fd (f t) = task_fd t -> taskState (f t) = taskState t ->
  (forall w', w' = put_at i (f t) w -> good_at m p w0 w' e -> Q tt (w', e)) -> runs F (on_task i (set f)) Q (w, e).
Proof.
  intros Hg Hi H1 H2 H3 H4 HQ. eapply runs_on_task; [exact Hi|]. step. cbn [fst snd]. apply HQ; [done|]. eapply good_keep; [done|done|by apply set_moved|].
  eapply watched_same; [exact H3|exact H4|]. by eapply good_watch.
Qed.

Lemma scan_running_good w0 w e i t Q : good w0 w e -> queue w !! i = Some t ->
  (forall w' e', good w0 w' e' -> Q tt (w', e')) -> runs text_fault (scan_running i) Q (w, e).
Proof.
  intros Hg Hi HQ. unfold scan_running. step. eapply update_good; [exact Hg|exact Hi|]. intros t1 e1 Hg1 _. step. eapply runs_the_task; [apply put_at_lookup|].
  apply runs_when; [intros _|by intros _; apply HQ]. step. set (w1 := put_at i t1 w) in *.
  eapply call_good; [exact Hg1|apply put_at_lookup|]. intros w2 e2 t2 Hg2 Hl2 Hi2 Hs2.
  assert (Hend : forall c, good_at (s_t_map w1) None w0 (set_calls c w2) e2 -> runs text_fault (when (dataClean (options t1)) (on_task i (set (set_data [])))) Q (set_calls c w2, e2)).
  { intros c Hg3. apply runs_when; intros _.
    - eapply set_good; [exact Hg3|exact Hi2|by eapply task_ok_eq; [by eapply good_task|..]|done..|]. intros w' -> Hg4. apply HQ. unfold good. cbn [s_t_map set_calls put_at set_queue].
      by rewrite (la_map _ _ Hl2).
    - apply HQ. unfold good. cbn [s_t_map set_calls]. by rewrite (la_map _ _ Hl2). }
  destruct (del t2) eqn:Ed.
  - specialize (Hend (calls w2)). replace (set_calls (calls w2) w2) with w2 in Hend by by destruct w2. by apply Hend.
  - apply Hend. eapply good_called; [done..|]. left. auto.
Qed.

(** The last callback, and the removal. *)
Definition told (c : Callback) (i err : Z) (w w' : Worker) : Prop :=
  calls w' = Cleared i true :: calls w \/ exists d info data, calls w' = Cleared i d :: Called c i info data :: calls w /\ ti_errcode info = err.

Lemma scan_last_good w0 w e c i t Q : good w0 w e -> queue w !! i = Some t -> final c = true ->
  (forall w' e', good w0 w' e' -> queue w' !! i = None -> told c i (errcode t) w w' -> Q tt (w', e')) -> runs text_fault (scan_last c i) Q (w, e).
Proof.
  intros Hg Hi Hc HQ. unfold scan_last. step. eapply update_good; [exact Hg|exact Hi|]. intros t1 e1 Hg1 (_ & _ & Herr). step. set (w1 := put_at i t1 w) in *.
  eapply call_good; [exact Hg1|apply put_at_lookup|]. intros w2 e2 t2 Hg2 Hl2 Hi2 Hs2.
  assert (Hend : forall l p, good_at (s_t_map w1) p w0 (set_calls l w2) e2 -> p = Some i \/ p = None /\ del t2 = true ->
    (forall d w', (del t2 = true -> d = true) -> calls w' = Cleared i d :: l -> told c i (errcode t) w w') -> runs text_fault (clear_task i) Q (set_calls l w2, e2)).
  { intros l p Hg3 Hp Ht. eapply clear_task_good; [exact Hg3|exact Hi2|exact Hp|]. intros w' e' Hg4 Hm4 [C1 (d & C2 & C3) _].
    apply HQ; [|done|by apply (Ht d)]. unfold good. rewrite Hm4. cbn [s_t_map set_calls]. by rewrite (la_map _ _ Hl2). }
  destruct (del t2) eqn:Ed.
  - specialize (Hend (calls w2) None). replace (set_calls (calls w2) w2) with w2 in Hend by by destruct w2. apply Hend; [done|by right|].
    intros d w' Hd Hc'. left. rewrite Hc', (la_calls _ _ Hl2), (Hd eq_refl). done.
  - apply (Hend _ (Some i)); [eapply good_called; [done..|]; by right|by left|]. intros d w' _ Hc'. right. eexists d, _, _. rewrite Hc', (la_calls _ _ Hl2). split; [done|].
    destruct Hs2 as [-> | ->]; done.
Qed.

Lemma scan_state_good w0 w e i t s Q : good w0 w e -> queue w !! i = Some t ->
  (forall s' w' e', good w0 w' e' -> Q s' (w', e')) -> runs text_fault (scan_state i (taskState t) s) Q (w, e).
Proof.
  intros Hg Hi HQ. destruct (taskState t) eqn:Hst; cbn [scan_state].
  - by eapply scan_idle_good.
  - step. eapply scan_connect_good; [done..|]. intros w' e' Hg'. step. by apply HQ.
  - step. eapply scan_connectwait_good; [done..|]. intros w' e' Hg'. step. by apply HQ.
  - step. eapply scan_auth_good; [done..|]. intros w' e' Hg'. step. by apply HQ.
  - step. eapply scan_start_good; [done..|]. intros w' e' Hg'. step. by apply HQ.
  - step. eapply scan_running_good; [done..|]. intros w' e' Hg'. step. by apply HQ.
  - step. eapply scan_last_good; [done..|]. intros w' e' Hg' _ _. step. by apply HQ.
  - step. eapply scan_last_good; [done..|]. intros w' e' Hg' _ _. step. by apply HQ.
  - step. eapply set_good; [exact Hg|exact Hi| |done..|].
    + apply task_ok_state; [|done..]. apply task_ok_error. by eapply good_task.
    + intros w' -> Hg1. step. eapply scan_last_good; [exact Hg1|apply put_at_lookup|done|]. intros w' e' Hg' _ _. step. by apply HQ.
Qed.

Lemma scan_task_good w0 w e i s Q : good w0 w e ->
  (forall s' w' e', good w0 w' e' -> Q s' (w', e')) -> runs text_fault (scan_task i s) Q (w, e).
Proof.
  intros Hg HQ. unfold scan_task. step. step. destruct (queue w !! i) as [t|] eqn:Hi; [|step; by apply HQ]. step.
  assert (Hend : forall w1 e1 t1, good w0 w1 e1 -> queue w1 !! i = Some t1 ->
    runs text_fault (t ← the_task i; if del t then clear_task i;; mret s else scan_state i (taskState t) s) Q (w1, e1)).
  { intros w1 e1 t1 Hg1 Hi1. step. eapply runs_the_task; [exact Hi1|]. destruct (del t1) eqn:Ed; [|by eapply scan_state_good]. step.
    eapply clear_task_good; [exact Hg1|exact Hi1|by right|]. intros w' e' Hg' Hm' _. step. apply HQ. unfold good. by rewrite Hm'. }
  apply runs_when; intros _; [|by eapply Hend].
  eapply runs_on_task; [exact Hi|]. apply checkTimeOut_moved; [by eapply good_task|]. intros t' e' Hm _ Hs. cbn [fst snd]. eapply Hend; [|apply put_at_lookup].
  apply (good_keep _ None w0 w e i t); [done..|]. destruct Hs as [Hs|Hs]; [|by apply watched_over; rewrite Hs].
  eapply watched_same; [apply (mv_fd _ _ Hm)|exact Hs|]. by eapply good_watch.
Qed.

(** The loop ends: there are no more positions than the array has. *)
Lemma scan_loop_good w0 n : forall w e i s Q, good w0 w e -> MAX_TASKQUE_SIZE <= i + Z.of_nat n ->
  (forall s' w' e', good w0 w' e' -> Q s' (w', e')) -> runs text_fault (scan_loop n i s) Q (w, e).
Proof.
  induction n as [|n IH]; intros w e i s Q Hg Hn HQ; cbn [scan_loop]; step; (eapply others_good; [exact Hg|]); intros w1 e1 Hg1 Hl1 _;
    step; step; cbn [id fst snd]; (assert (Hg1' : good w0 w1 e1) by (unfold good; by rewrite (la_map _ _ Hl1)));
    pose proof (wi_pos _ _ _ (gd_inv _ _ _ _ _ Hg1)) as [_ Hmax].
  - destruct (Z.ltb_spec (w_maxPos w1) i); [step; by apply HQ|lia].
  - destruct (_ <? _); [step; by apply HQ|]. destruct (stop w1); [step; by apply HQ|]. step. eapply scan_task_good; [exact Hg1'|].
    intros s' w' e' Hg'. eapply IH; [done|lia|done].
Qed.

Lemma scanTaskQue_good w0 w e Q : good w0 w e -> (forall w' e', good w0 w' e' -> Q tt (w', e')) -> runs text_fault scanTaskQue Q (w, e).
Proof.
  intros Hg HQ. unfold scanTaskQue. step. step. cbv zeta. step. eapply scan_loop_good; [exact Hg|done|]. intros [s|] w' e' [[] Hs Hf]; step; apply HQ; by split.
Qed.

(** ** One pass over the sockets *)

(** Only what is kept for one socket changes. *)
Record framed (fd : Z) (w w' : Worker) : Prop := {
  fr_map : s_t_map w' = s_t_map w;
  fr_read : forall fd', fd' <> fd -> fd' ∈ readfds w' <-> fd' ∈ readfds w;
  fr_write : forall fd', fd' <> fd -> fd' ∈ writefds w' <-> fd' ∈ writefds w
}.

Lemma framed_refl fd w : framed fd w w.
Proof. done. Qed.

Lemma framed_trans fd w1 w2 w3 : framed fd w1 w2 -> framed fd w2 w3 -> framed fd w1 w3.
Proof.
  intros [A1 A2 A3] [B1 B2 B3]. split; [congruence|..]; intros fd' Hne; [rewrite (B2 _ Hne)|rewrite (B3 _ Hne)]; auto.
Qed.

Lemma later_framed fd w w' : later w w' -> framed fd w w'.
Proof. intros Hl. split; rewrite ?(la_map _ _ Hl), ?(la_read _ _ Hl), ?(la_write _ _ Hl); done. Qed.

(** The map without a socket that is to be forgotten. *)
Definition without (b : bool) (fd : Z) (m : gmap Z Z) : gmap Z Z := if b then base.delete fd m else m.

(** The task of a socket that was served. *)
Lemma good_io m w0 w e i t t' e' mx r x (b : bool) : good_at m None w0 w e -> queue w !! i = Some t -> m !! task_fd t = Some i -> stepped (t, e) (t', e') ->
  (forall fd, fd <> task_fd t -> fd ∈ r <-> fd ∈ readfds w) -> (forall fd, fd <> task_fd t -> fd ∈ x <-> fd ∈ writefds w) ->
  (if b then (task_fd t ∉ r) /\ (task_fd t ∉ x) /\ (task_fd t' = task_fd t \/ task_fd t' < 0) else task_fd t' = task_fd t) ->
  watched (without b (task_fd t) m) r x i t' -> good_at (without b (task_fd t) m) None w0 (set_map (s_t_map w) (set_fds mx r x (put_at i t' w))) e'.
Proof.
  intros Hg Hi Hm Hst Hr Hx Hb Hwt. pose proof (proj1 (wi_map _ _ _ (gd_inv _ _ _ _ _ Hg) _ _ Hm)) as H0.
  eapply (good_change m); [exact Hg|exact Hi|exact Hst|..|done].
  - split; intros fd Hne; (assert (Hfd : fd <> task_fd t) by (intros ->; tauto)); [|by apply Hr|by apply Hx].
    destruct b; [by apply lookup_delete_ne|done].
  - intros fd j Hfd Hj. destruct b; cbn [without] in *.
    + apply lookup_delete_Some in Hj as [Hne Hj]. destruct Hb as (_ & _ & Hb). destruct Hfd as [-> | ->]; [done|]. destruct Hb as [Hb|Hb]; [congruence|].
      destruct (wi_map _ _ _ (gd_inv _ _ _ _ _ Hg) _ _ Hj). lia.
    + assert (fd = task_fd t) as -> by (destruct Hfd; congruence). split; [by eapply map_own|]. by rewrite Hb.
  - intros fd Hfd Hin. destruct b; cbn [without] in *.
    + destruct Hb as (N1 & N2 & Hb). destruct (decide (fd = task_fd t)) as [->|Hne]; [tauto|]. rewrite Hr, Hx in Hin by done.
      destruct (wi_sets _ _ _ (gd_inv _ _ _ _ _ Hg) _ Hin) as [j Hj]. destruct (wi_map _ _ _ (gd_inv _ _ _ _ _ Hg) _ _ Hj) as [H1 _].
      exfalso. destruct Hfd as [-> | ->]; [done|]. destruct Hb as [Hb|Hb]; [done|lia].
    + assert (fd = task_fd t) as -> by (destruct Hfd; congruence). eauto.
Qed.

Lemma stepped_moved m w0 w e i t t' e' : good_at m None w0 w e -> queue w !! i = Some t -> moved (t, e) (t', e') -> stepped (t, e) (t', e').
Proof. intros Hg Hi Hm. apply moved_stepped; [by eapply good_own|done]. Qed.

Lemma io_write_good m w0 w e i t Q : good_at m None w0 w e -> queue w !! i = Some t -> m !! task_fd t = Some i ->
  transferring (taskState t) = true -> task_fd t ∈ writefds w ->
  (forall r w' e', good_at (without (bool_decide (r = Some true)) (task_fd t) m) None w0 w' e' -> framed (task_fd t) w w' ->
     (is_Some r -> taskState t = TSK_RUNNING) -> Q r (w', e')) ->
  runs text_fault (io_write (task_fd t) i) Q (w, e).
Proof.
  intros Hg Hi Hm Htr Hin HQ. unfold io_write. step. eapply runs_the_task; [exact Hi|]. pose proof (good_watch _ _ _ _ _ _ _ Hg Hi) as [V1 V2 V3 V4].
  pose proof (good_task _ _ _ _ _ _ _ Hg Hi) as Ht.
  assert (Hclr : forall fd, fd <> task_fd t -> fd ∈ FD_CLR (task_fd t) (writefds w) <-> fd ∈ writefds w) by (intros; by apply FD_CLR_other).
  case_bool_decide as Hst.
  - step. eapply runs_on_task; [exact Hi|]. apply onConnected_moved; [done|by apply (tk_conn _ Ht)|by rewrite Hst|]. intros t' e' Hmv Hs. cbn [fst snd].
    step. step. step. pose proof (mv_fd _ _ Hmv) as Hfd. cbn [fst] in Hfd. apply HQ; [|by split|by intros []].
    apply (good_io m w0 w e i t t' e' (maxfd w) (readfds w) (FD_CLR (task_fd t) (writefds w)) false); try done; [by eapply stepped_moved|].
    specialize (V3 Hst). split; rewrite ?Hfd.
    + intros _. by apply V1.
    + intros _. split; [done|apply FD_CLR_not].
    + done.
    + intros _ ?. done.
  - assert (Hrun : taskState t = TSK_RUNNING).
    { destruct (taskState t); try done; destruct (V2 eq_refl); done. }
    specialize (V4 Hrun). specialize (V1 Htr).
    step. eapply runs_on_task; [exact Hi|]. apply sendHttpReqContinue_moved; [done|done|]. intros ret t' e' Hmv Hs. cbn [fst snd].
    pose proof (mv_fd _ _ Hmv) as Hfd. cbn [fst] in Hfd. pose proof (stepped_moved _ _ _ _ _ _ _ _ Hg Hi Hmv) as Hstep.
    step. eapply runs_the_task; [apply put_at_lookup|]. unfold sent in Hs. destruct (ret =? RET_SOCKET_FINISH) eqn:Ef; cbn [orb] in Hs.
    + step. step. step. rewrite Hfd.
      assert (Hset : forall fd, fd <> task_fd t -> fd ∈ FD_SET (task_fd t) (readfds w) <-> fd ∈ readfds w) by (intros; by apply FD_SET_other).
      apply HQ; [|by split|done].
      apply (good_io m w0 w e i t t' e' (maxfd w) (FD_SET (task_fd t) (readfds w)) (FD_CLR (task_fd t) (writefds w)) false); try done.
      split; rewrite Hs, ?Hfd; try done. intros _ _. apply FD_CLR_not.
    + destruct (ret =? RET_SOCKET_CONTINUE) eqn:Ec.
      * step. apply HQ; [|by split|done]. apply (good_keep m None w0 w e i t); [done..|]. split; rewrite Hs, ?Hfd; done.
      * step. step. step. apply HQ; [|by split|done].
        apply (good_io m w0 w e i t t' e' (maxfd w) (readfds w) (FD_CLR (task_fd t) (writefds w)) true); try done.
        -- split; [by intros ?; apply V4|]. split; [apply FD_CLR_not|by left].
        -- apply watched_over. by rewrite Hs.
Qed.

Lemma io_headcomplete_good m w0 w e i t Q : good_at m None w0 w e -> queue w !! i = Some t ->
  (forall w' e', good_at m None w0 w' e' -> (forall fd, framed fd w w') -> Q tt (w', e')) -> runs text_fault (io_headcomplete i) Q (w, e).
Proof.
  intros Hg Hi HQ. unfold io_headcomplete. step. eapply others_good; [exact Hg|]. intros w1 e1 Hg1 Hl1 _. destruct (la_queue _ _ Hl1 i t Hi) as (t1 & Hi1 & _).
  step. eapply runs_the_task; [exact Hi1|]. apply runs_when; intros Eb; [|apply HQ; [done|intros fd; by apply later_framed]].
  step. eapply update_good; [exact Hg1|exact Hi1|]. intros t2 e2 Hg2 (S1 & _). step. eapply runs_the_task; [apply put_at_lookup|]. step. step.
  assert (Hd : del t2 = false) by (unfold del in *; rewrite S1; destruct (t_del (desc t1)); done).
  eapply set_good; [eapply good_called; [exact Hg2|apply put_at_lookup|done|by left; auto]|apply put_at_lookup|..]; try done.
  - eapply task_ok_eq; [eapply good_task; [exact Hg2|apply put_at_lookup]|..]; done.
  - intros w' -> Hg3. apply HQ; [done|]. intros fd. destruct (later_framed fd _ _ Hl1) as [A1 A2 A3]. by split.
Qed.

Lemma io_read_good m w0 w e i t Q : good_at m None w0 w e -> queue w !! i = Some t -> m !! task_fd t = Some i ->
  transferring (taskState t) = true -> task_fd t ∈ readfds w ->
  (forall r w' e', good_at (without r (task_fd t) m) None w0 w' e' -> framed (task_fd t) w w' -> Q r (w', e')) ->
  runs text_fault (io_read fuel (task_fd t) i) Q (w, e).
Proof.
  intros Hg Hi Hm Htr Hin HQ. unfold io_read. step. eapply runs_the_task; [exact Hi|]. pose proof (good_watch _ _ _ _ _ _ _ Hg Hi) as [V1 V2 V3 V4].
  assert (Hrun : taskState t = TSK_RUNNING). { destruct (taskState t); try done; [by destruct (V3 eq_refl)|by destruct (V2 eq_refl)..]. }
  rewrite Hrun. rewrite bool_decide_eq_false_2 by done. specialize (V4 Hrun Hin). specialize (V1 Htr).
  step. eapply runs_on_task; [exact Hi|]. apply processHttpResp_stepped; [by eapply good_task|by eapply good_own|done|apply Hg|].
  intros ret t' e' Hst Hrec. cbn [fst snd]. unfold received in Hrec.
  assert (Hclr : forall fd, fd <> task_fd t -> fd ∈ FD_CLR (task_fd t) (readfds w) <-> fd ∈ readfds w) by (intros; by apply FD_CLR_other).
  assert (Hclose : forall r : bool, (if r then task_fd t' = task_fd t \/ task_fd t' < 0 else task_fd t' = task_fd t) ->
    watched (without r (task_fd t) m) (FD_CLR (task_fd t) (readfds w)) (writefds w) i t' ->
    runs text_fault (set (unwatch_read (task_fd t));; mret r) Q (put_at i t' w, e')).
  { intros r Hr Hwt. step. step. step. apply HQ; [|by split].
    apply (good_io m w0 w e i t t' e' (maxfd w) (FD_CLR (task_fd t) (readfds w)) (writefds w) r); try done. destruct r; [|done]. split; [apply FD_CLR_not|done]. }
  destruct (ret =? RET_OK) eqn:Eo, (ret =? RET_SOCKET_CONTINUE) eqn:Ec; cbn [negb andb orb] in *.
  1-3: destruct Hrec as [Hs Hfd]; step; (eapply io_headcomplete_good; [|apply put_at_lookup|]);
    [apply (good_io m w0 w e i t t' e' (maxfd w) (readfds w) (writefds w) false); try done; split; rewrite Hs, ?Hfd; done
    |intros w' e2 Hg2 Hf2; step; apply HQ; [done|]; destruct (Hf2 (task_fd t)) as [A1 A2 A3]; by split].
  destruct (ret =? RET_PROXY_DOING_AUTH) eqn:Ep; cbn [negb].
  - destruct Hrec as [Hs Hfd]. apply Hclose; [done|]. split; rewrite Hs, ?Hfd; try done. intros _. split; [apply FD_CLR_not|done].
  - apply Hclose; [tauto|]. destruct Hrec as [[Hs Hfd]|[Hfd Hs]].
    + destruct (not_watched _ _ _ _ _ (task_fd t') Hg (or_introl Hfd)) as (N1 & N2 & N3). split; rewrite Hs; try done. intros _. split; [|done].
      intros Hin'. by apply FD_CLR_sub in Hin'.
    + apply watched_over. by destruct Hs as [-> | ->].
Qed.

(** The loop: the entries that are left are still in the map, their sockets still watched. *)
Record io_inv (M : gmap Z Z) (r x : gset Z) (l : list (Z * Z)) (acc : list Z) (w0 w : Worker) (e : E) : Prop := {
  io_good : good_at (foldr base.delete M acc) None w0 w e;
  io_map : s_t_map w = M;
  io_nodup : NoDup (fst <$> l);
  io_left : forall fd i, (fd, i) ∈ l -> foldr base.delete M acc !! fd = Some i;
  io_ready : forall fd, fd ∈ fst <$> l -> (fd ∈ r -> fd ∈ readfds w) /\ (fd ∈ x -> fd ∈ writefds w)
}.

Lemma io_next M r x fd i l acc w0 w e w' e' (b : bool) : io_inv M r x ((fd, i) :: l) acc w0 w e ->
  good_at (without b fd (foldr base.delete M acc)) None w0 w' e' -> framed fd w w' -> io_inv M r x l (if b then fd :: acc else acc) w0 w' e'.
Proof.
  intros [Hg Hm Hn Hl Hr] Hg' [F1 F2 F3]. cbn [fmap list_fmap fst] in Hn. apply NoDup_cons in Hn as [Hnew Hn].
  assert (Hacc : foldr base.delete M (if b then fd :: acc else acc) = without b fd (foldr base.delete M acc)) by by destruct b. split; rewrite ?Hacc; try done.
  - congruence.
  - intros fd' j Hin. assert (Hne : fd' <> fd) by (intros ->; apply Hnew; by apply (list_elem_of_fmap_2 fst l (fd, j))).
    unfold without. destruct b; [rewrite lookup_delete_ne by done|]; apply Hl; by right.
  - intros fd' Hin. assert (Hne : fd' <> fd) by (by intros ->). rewrite (F2 _ Hne), (F3 _ Hne). apply Hr. by right.
Qed.

Lemma io_entry_good M r x fd i l acc w0 w e Q : io_inv M r x ((fd, i) :: l) acc w0 w e ->
  (forall acc' w' e', io_inv M r x l acc' w0 w' e' -> Q acc' (w', e')) -> runs text_fault (io_entry fuel r x acc fd i) Q (w, e).
Proof.
  intros Hio HQ. destruct (io_ready _ _ _ _ _ _ _ _ Hio fd) as [Hr Hx]; [by left|].
  assert (Hm : foldr base.delete M acc !! fd = Some i) by (apply (io_left _ _ _ _ _ _ _ _ Hio); by left). pose proof (io_good _ _ _ _ _ _ _ _ Hio) as Hg.
  destruct (wi_map _ _ _ (gd_inv _ _ _ _ _ Hg) _ _ Hm) as [H0 (t & Hi & <-)]. pose proof (good_watch _ _ _ _ _ _ _ Hg Hi) as [V1 V2 V3 V4].
  unfold io_entry. step. eapply runs_the_task; [exact Hi|]. destruct (transferring (taskState t)) eqn:Htr; cbn [negb].
  2:{ step. apply HQ. by apply (io_next _ _ _ _ _ _ _ _ _ _ _ _ false Hio). }
  step. unfold FD_ISSET. case_bool_decide as Hxin.
  - eapply io_write_good; [done..|by apply Hx|]. intros wr w' e' Hg' Hf' Hrun. destruct wr as [wd|].
    + assert (Hnr : task_fd t ∉ r) by (intros Hin; apply (V4 (Hrun (mk_is_Some _ _ eq_refl))); auto). rewrite (bool_decide_eq_false_2 (task_fd t ∈ r)) by done. step. apply HQ.
      apply (io_next _ _ _ _ _ _ _ _ _ _ _ _ wd Hio); [|done]. by destruct wd.
    + step. apply HQ. by apply (io_next _ _ _ _ _ _ _ _ _ _ _ _ false Hio).
  - step. case_bool_decide as Hrin.
    + step. eapply io_read_good; [done..|by apply Hr|]. intros rd w' e' Hg' Hf'. step. apply HQ. by apply (io_next _ _ _ _ _ _ _ _ _ _ _ _ rd Hio).
    + step. apply HQ. by apply (io_next _ _ _ _ _ _ _ _ _ _ _ _ false Hio).
Qed.

(** A worker between two rounds: with the map that is left when it was stopped in a loop. *)
Definition fine (w0 w : Worker) (e : E) : Prop := good w0 w e \/ stop w = true /\ exists m, good_at m None w0 w e.

Lemma io_loop_good M r x l : forall acc w0 w e Q, io_inv M r x l acc w0 w e ->
  (forall acc' w' e', io_inv M r x [] acc' w0 w' e' -> Q (Some acc') (w', e')) ->
  (forall w' e', fine w0 w' e' -> Q None (w', e')) -> runs text_fault (io_loop fuel r x l acc) Q (w, e).
Proof.
  induction l as [|[fd i] l IH]; intros acc w0 w e Q Hio HQ HN; cbn [io_loop]; [step; by apply HQ|].
  step. eapply others_good; [apply (io_good _ _ _ _ _ _ _ _ Hio)|]. intros w1 e1 Hg1 Hl1 _. step. step. destruct (stop w1) eqn:Es.
  - step. apply HN. right. split; [done|]. eauto.
  - step. eapply io_entry_good; [|intros acc' w' e' Hio'; by eapply IH]. destruct Hio as [H1 H2 H3 H4 H5]. split; try done.
    + by rewrite (la_map _ _ Hl1).
    + by rewrite (la_read _ _ Hl1), (la_write _ _ Hl1).
Qed.

Lemma map_entries_perm m : entries m ≡ₚ map_to_list m.
Proof. apply merge_sort_Permutation. Qed.

Lemma scanIO_good w0 w e Q : good w0 w e -> (forall ret w' e', fine w0 w' e' -> Q ret (w', e')) -> runs text_fault (scanIO fuel) Q (w, e).
Proof.
  intros Hg HQ. unfold scanIO. step. step. cbn [id]. destruct (_ && _); [step; apply HQ; by left|]. step. step.
  assert (Hg1 : good w0 w (snd (sys_select (readfds w) (writefds w) e))).
  { pose proof (select_calm (readfds w) (writefds w) e) as He. destruct Hg as [Hw Hs Hf]. split; [by eapply winv_still|done|]. destruct He as [_ He]. lia. }
  destruct (fst (sys_select (readfds w) (writefds w) e)) as [err|[r x]] eqn:Er; [step; apply HQ; by left|].
  destruct (select_ready _ _ _ _ _ Er) as [Hr Hx]. destruct (_ && _); [step; apply HQ; by left|]. step.
  eapply (io_loop_good (s_t_map w)).
  - split; [exact Hg1|done|..].
    + rewrite (map_entries_perm (s_t_map w)). apply NoDup_fst_map_to_list.
    + intros fd i Hin. rewrite (map_entries_perm (s_t_map w)) in Hin. by apply elem_of_map_to_list in Hin.
    + intros fd _. set_solver.
  - intros acc w' e' [[H1 H1' H1''] H2 _ _ _]. step. step. step. apply HQ. left. unfold good. cbn [s_t_map set_map]. rewrite H2. split; [|by apply (sim_same None w0 w')|done].
    by destruct H1; split.
  - intros w' e' Hf. step. by apply HQ.
Qed.

Lemma round_good w0 w e Q : good w0 w e -> (forall w' e', fine w0 w' e' -> Q tt (w', e')) -> runs text_fault (round fuel) Q (w, e).
Proof.
  intros Hg HQ. unfold round. step. eapply scanTaskQue_good; [exact Hg|]. intros w1 e1 Hg1. step. eapply scanIO_good; [exact Hg1|].
  intros ret w' e' Hf. step. by apply HQ.
Qed.

End Good.
