(* ===== verification/WorkerSafety.v ===== *)
(** * The worker thread from its start to its end

    The theorems about [run]: whatever the network, the clock and the manager do, the
    rounds of a new worker keep its invariant ([rounds_safe]) and answer its tasks
    ([rounds_answer]); a worker that was stopped ends with nothing left open
    ([run_ends]). *)
From stdpp Require Import prelude gmap sorting.
From Stdlib Require Import ZArith Lia String.
From S2P Require Import Prelude Memory Strings Json MimeTypes Transfer Base64 Url HttpRequest Run Sockets SockProxy HttpClient Task Worker.
From S2P Require Import TransferProofs ClientProofs TaskProofs WorkerProofs WorkerSteps.

Section Thread.
Context {E : Type} {OS : Os E} {OL : OsLaws E} {NT : Ntlm E} {NL : NtlmLaws E} {MA : Machine E} {OT : Others E} {OTL : OthersLaws E}.
Context (fuel : nat).

(** The loop of [run], [n] times at most. *)
Fixpoint rounds (n : nat) : Run (Worker * E) unit :=
  match n with
  | O => mret tt
  | S n => st ← my stop; if st : bool then mret tt else round fuel;; rounds n
  end.

Lemma rounds_fine w0 n : forall w e Q, fine fuel w0 w e -> (forall w' e', fine fuel w0 w' e' -> Q tt (w', e')) -> runs text_fault (rounds n) Q (w, e).
Proof.
  induction n as [|n IH]; intros w e Q Hf HQ; cbn [rounds]; [step; by apply HQ|]. step. step. destruct (stop w) eqn:Es; [step; by apply HQ|].
  destruct Hf as [Hg|[Hst _]]; [|congruence]. step. eapply round_good; [exact Hg|]. intros w' e' Hf'. by apply IH.
Qed.

(** When the loop is over, the tasks are removed. *)
Lemma run_rounds n s s' : rounds n s = Ok (tt, s') -> stop (fst s') = true -> run fuel n s = clean_up s'.
Proof.
  revert s. induction n as [|n IH]; intros s Hr Hst.
  - injection Hr as ->. change (run fuel 0 s') with ((if stop (fst s') then clean_up else fail NoFuel) s'). by rewrite Hst.
  - change (rounds (S n) s) with ((if stop (fst s) then mret tt else round fuel;; rounds n) s) in Hr.
    change (run fuel (S n) s) with ((if stop (fst s) then clean_up else round fuel;; run fuel n) s). destruct (stop (fst s)); [by injection Hr as ->|].
    unfold mbind, Run_bind in *. destruct (round fuel s) as [[[] s1]|f]; [by apply IH|done].
Qed.

Lemma clean_tasks_good w0 : stopped_ok (slots w0) -> forall l m w e Q, good_at fuel m None w0 w e -> stop w = true ->
  (forall i t, queue w !! i = Some t -> i ∈ l) ->
  (forall m' w' e', good_at fuel m' None w0 w' e' -> queue w' = ∅ -> Q tt (w', e')) -> runs text_fault (clean_tasks l) Q (w, e).
Proof.
  intros H0. induction l as [|i l IH]; intros m w e Q Hg Hst Hl HQ; cbn [clean_tasks].
  - step. eapply HQ; [exact Hg|]. apply map_empty. intros i. destruct (queue w !! i) eqn:Hi; [|done]. apply Hl in Hi. by apply elem_of_nil in Hi.
  - step. destruct (queue w !! i) as [t|] eqn:Hi.
    + assert (Hd : del t = true).
      { destruct (gd_sim _ _ _ _ _ _ Hg) as (l' & _ & Hs & _). apply (slot_steps_stopped _ _ _ H0 Hs Hst i). by apply slots_lookup. }
      eapply clear_task_good; [exact Hg|exact Hi|by right|]. intros w' e' Hg' _ Hc. destruct (cl_stop _ _ _ _ Hc Hst) as [Hq Hst']. eapply IH; [exact Hg'|done| |done].
      intros j s Hj. rewrite Hq in Hj. apply lookup_delete_Some in Hj as [Hne Hj]. apply Hl in Hj. apply elem_of_cons in Hj as [->|Hj]; done.
    + unfold clear_task. step. step. rewrite Hi. step. eapply IH; [exact Hg|done| |done]. intros j s Hj. pose proof (Hl _ _ Hj) as Hin.
      apply elem_of_cons in Hin as [->|Hin]; [congruence|done].
Qed.

Lemma owned_empty w (e : E) m : winv_at m w e -> queue w = ∅ -> opened e = ∅.
Proof.
  intros Hw Hq. apply set_eq. intros fd. rewrite (proj1 (wi_own _ _ _ Hw)), Hq. split; [|set_solver]. intros [_ (i & t & Hi & _)]. by rewrite lookup_empty in Hi.
Qed.

Lemma clean_up_good w0 w e Q : stopped_ok (slots w0) -> stop w = true -> fine fuel w0 w e ->
  (forall w' e', queue w' = ∅ -> s_t_map w' = ∅ -> opened e' = ∅ -> sim None w0 w' -> Q tt (w', e')) -> runs text_fault clean_up Q (w, e).
Proof.
  intros H0 Hst Hf HQ. assert (Hg : exists m, good_at fuel m None w0 w e) by (destruct Hf as [Hf|[_ Hf]]; [by eexists|done]). destruct Hg as [m Hg].
  unfold clean_up. step. eapply clean_tasks_good; [done|exact Hg|done|..].
  - intros i t Hi. destruct (wi_task _ _ _ (gd_inv _ _ _ _ _ _ Hg) _ _ Hi) as [Hr _]. pose proof (wi_pos _ _ _ (gd_inv _ _ _ _ _ _ Hg)).
    apply elem_of_seqZ. lia.
  - intros m' w' e' Hg' Hq. step. apply HQ; [done|done|by eapply owned_empty; [apply Hg'|]|]. by apply (sim_same None w0 w'); [apply Hg'|..].
Qed.

(** A worker that was just made. *)
Lemma init_good k (e : E) : opened e = ∅ -> (remaining e < fuel)%nat -> good fuel (TTransferWorker_init k) (TTransferWorker_init k) e.
Proof.
  intros Ho Hf. split; [|exists []; split_and!; [done|constructor|constructor]|done].
  split; cbn [queue s_t_map readfds writefds TTransferWorker_init w_curPos w_maxPos]; [done|done| |done|set_solver|done].
  split; [|done]. rewrite Ho. intros fd. split; [set_solver|]. intros [_ (i & t & Hi & _)]. by rewrite lookup_empty in Hi.
Qed.

Lemma slots_init k : slots (TTransferWorker_init k) = TTransferWorker_new k.
Proof. unfold slots. cbn [queue TTransferWorker_init]. by rewrite fmap_empty. Qed.

(** C5: the invariant of the worker thread, for tasks that do not use a SOCKS 5 proxy
    (there the client follows a null address and frees a pointer it does not own,
    HttpCli.cpp, line 1098 and SockProxy.cpp, line 597). Whatever the network, which sends
    a bounded number of bytes, and the clock do, and whatever such tasks the other threads
    add or cancel, no round follows a null or a freed task, and afterwards: the open
    sockets are those of the tasks, one each; every socket that [select] watches is open;
    and, unless the thread was told to stop, every entry of the map from sockets to tasks
    is the socket of that task. The only fault left is a text that does not fit its
    buffer. *)
Theorem rounds_safe n k e : opened e = ∅ -> (remaining e < fuel)%nat ->
  runs text_fault (rounds n) (fun _ '(w, e') => exists m, winv_at m w e' /\ (stop w = false -> m = s_t_map w) /\
    readfds w ∪ writefds w ⊆ opened e') (TTransferWorker_init k, e).
Proof.
  intros Ho Hf. apply (rounds_fine (TTransferWorker_init k)); [left; by apply init_good|]. intros w e' Hfine.
  assert (Hw : exists m, winv_at m w e' /\ (stop w = false -> m = s_t_map w)).
  { destruct Hfine as [Hg|[Hst [m Hg]]]; [exists (s_t_map w)|exists m; split; [apply Hg|congruence]]. split; [apply Hg|done]. }
  destruct Hw as (m & Hw & Hm). exists m. split_and!; [done..|]. intros fd Hfd.
  destruct (wi_sets _ _ _ Hw fd) as [i Hi]; [set_solver|]. destruct (wi_map _ _ _ Hw _ _ Hi) as [H0 (t & Ht & <-)]. apply (proj1 (wi_own _ _ _ Hw)). eauto.
Qed.

(** C6: the callbacks refine those of the array of the manager, for tasks without a SOCKS
    5 proxy: a task is called only while it is in the array and was not cancelled, its
    result is reported by one callback, and it is removed right after it, or when it was
    cancelled; [handle_init] is never called. A round may only end otherwise at a text
    that does not fit its buffer. *)
Theorem rounds_answer n k e : opened e = ∅ -> (remaining e < fuel)%nat ->
  runs text_fault (rounds n) (fun _ '(w, _) => slot_steps (TTransferWorker_new k) (calls w) (slots w) /\ answers (calls w)) (TTransferWorker_init k, e).
Proof.
  intros Ho Hf. apply (rounds_fine (TTransferWorker_init k)); [left; by apply init_good|]. intros w e' Hfine.
  assert (Hs : sim None (TTransferWorker_init k) w) by (destruct Hfine as [Hg|[_ [m Hg]]]; apply Hg).
  destruct Hs as (l & Hl & Hs & Ha). cbn [calls TTransferWorker_init] in Hl. rewrite app_nil_r in Hl. by rewrite Hl, <- slots_init.
Qed.

(** What the next scan reports of a task. *)
Definition timed_out (now : Z) (t : Task) : bool :=
  (0 <? i32 (tasktimeout (options t))) && (i32 (tasktimeout (options t)) <=? u64 (now - last_active_time t)).

Definition result_of (now : Z) (t : Task) : option (Callback * Z) :=
  if timed_out now t then Some (handle_error, ERR_TASK_TIMEOUT)
  else match taskState t with
  | TSK_FINISHED => Some (handle_finish, errcode t)
  | TSK_ERROR => Some (handle_error, errcode t)
  | _ => None
  end.

Lemma checkTimeOut_result now t c err : result_of now t = Some (c, err) -> let t' := checkTimeOut_at now t in
  desc t' = desc t /\ errcode t' = err /\ (taskState t' = TSK_FINISHED /\ c = handle_finish \/ taskState t' = TSK_ERROR /\ c = handle_error).
Proof.
  unfold result_of, timed_out, checkTimeOut_at. intros Hr. cbv zeta. destruct (0 <? _); cbn [andb] in Hr.
  - set (t1 := if u64 _ =? 0 then _ else t). assert (H1 : desc t1 = desc t /\ errcode t1 = errcode t /\ taskState t1 = taskState t) by (unfold t1; by destruct (_ =? 0)).
    destruct H1 as (H1 & H2 & H3). destruct (_ <=? _).
    + injection Hr as <- <-. split; [done|]. split; [done|by right].
    + rewrite H1, H2, H3. destruct (taskState t); try done; injection Hr as <- <-; auto.
  - destruct (taskState t); try done; injection Hr as <- <-; auto.
Qed.

Lemma checkTimeOut_exact t e F Q : task_ok t -> (forall e', moved (t, e) (checkTimeOut_at (fst (sys_time e)) t, e') -> Q tt (checkTimeOut_at (fst (sys_time e)) t, e')) ->
  runs F checkTimeOut Q (t, e).
Proof.
  intros Ht HQ. eapply runs_impl; [apply runs_and; [apply (checkTimeOut_moved t e F (fun _ s => moved (t, e) s) Ht); auto|]|].
  - instantiate (1 := fun _ s => fst s = checkTimeOut_at (fst (sys_time e)) t). unfold checkTimeOut, checkTimeOut_at. step. step. cbn [fst].
    destruct (0 <? _) eqn:El; [|by step]. step. step. step. cbn [fst]. by rewrite El.
  - intros [] [t' e'] [Hm Hx]. cbn [fst] in Hx. subst t'. by apply HQ.
Qed.

(** C31: every task, none with a SOCKS 5 proxy, gets its result from the next scan of the
    array: one that was not active for the time it was given is told [ERR_TASK_TIMEOUT],
    one that failed its error and one that finished its end, and it is removed; unless it
    was cancelled while the scan ran. *)
Theorem scan_answers w e i t s c err : winv w e -> (remaining e < fuel)%nat -> queue w !! i = Some t -> del t = false -> taskState t <> TSK_IDLE ->
  result_of (fst (sys_time e)) t = Some (c, err) ->
  runs text_fault (scan_task i s) (fun _ '(w', e') => queue w' !! i = None /\ told c i err w w' /\ winv w' e') (w, e).
Proof.
  intros Hw Hf Hi Hd Hst Hr. assert (Hg : good fuel w w e) by (split; [done|exists []; split_and!; [done|constructor|constructor]|done]).
  unfold scan_task. step. step. rewrite Hi. step. rewrite bool_decide_eq_false_2 by done. cbn [negb when].
  eapply runs_on_task; [exact Hi|]. apply checkTimeOut_exact; [by eapply good_task|]. intros e1 Hm. cbn [fst snd].
  destruct (checkTimeOut_result _ _ _ _ Hr) as (R1 & R2 & R3). set (t1 := checkTimeOut_at _ t) in *.
  assert (Hg1 : good fuel w (put_at i t1 w) e1) by (apply (good_keep _ _ None w w e i t); try done; apply watched_over; by destruct R3 as [[-> _] | [-> _]]).
  step. eapply runs_the_task; [apply put_at_lookup|]. assert (Hd1 : del t1 = false) by (unfold del in *; by rewrite R1). rewrite Hd1.
  assert (Hlast : forall f : Counts -> Counts, final c = true -> runs text_fault (scan_last c i;; mret (count f s)) (fun _ '(w', e') => queue w' !! i = None /\ told c i err w w' /\ winv w' e') (put_at i t1 w, e1)).
  { intros f Hc. step. eapply scan_last_good; [exact Hg1|apply put_at_lookup|done|]. intros w' e' Hg' Hgone Htold. step. rewrite R2 in Htold. split_and!; [done|done|apply Hg']. }
  destruct R3 as [[-> ->] | [-> ->]]; by apply Hlast.
Qed.

(** C13: a thread that is stopped within [n] rounds ends, with tasks that do not use a
    SOCKS 5 proxy: every task is removed, the map is empty, and no socket of the library
    stays open. It may only end otherwise at a text that does not fit its buffer. *)
Theorem run_ends n k e s : opened e = ∅ -> (remaining e < fuel)%nat -> rounds n (TTransferWorker_init k, e) = Ok (tt, s) -> stop (fst s) = true ->
  runs text_fault (run fuel n) (fun _ '(w, e') => queue w = ∅ /\ s_t_map w = ∅ /\ opened e' = ∅ /\ answers (calls w)) (TTransferWorker_init k, e).
Proof.
  intros Ho Hf Hr Hst. set (w0 := TTransferWorker_init k) in *. assert (Hfine : fine fuel w0 (fst s) (snd s)).
  { assert (Hrun : runs text_fault (rounds n) (fun _ s => fine fuel w0 (fst s) (snd s)) (w0, e)) by (apply (rounds_fine w0); [left; by apply init_good|done]).
    unfold runs in Hrun. by rewrite Hr in Hrun. }
  unfold runs. rewrite (run_rounds _ _ _ Hr Hst). destruct s as [w e1]. apply (clean_up_good w0 w e1); [|done|done|].
  - intros _ i d. unfold w0. rewrite slots_init. cbn. by rewrite lookup_empty.
  - intros w' e' Hq Hm Hop (l & Hl & _ & Ha). split_and!; [done..|]. cbn [calls w0 TTransferWorker_init] in Hl. rewrite app_nil_r in Hl. by rewrite Hl.
Qed.

End Thread.
