(* ===== verification/WorkerExample.v ===== *)
(** * The worker thread on a scripted network

    A system in which everything happens as written down beforehand: the time stands
    still, the server sends a text in given pieces (a read finds nothing at an empty one), all
    other calls succeed, and the manager makes given requests.  The theorems of WorkerSafety are applied to it. *)
From stdpp Require Import prelude gmap sorting.
From Stdlib Require Import ZArith Lia String.
From S2P Require Import Prelude Memory Strings Json MimeTypes Transfer Base64 Url HttpRequest Run Sockets SockProxy HttpClient Task Worker.
From S2P Require Import TransferProofs ClientProofs TaskProofs HttpResponse WorkerProofs WorkerSteps WorkerSafety.

Inductive Wish := WAdd | WCancel (taskID : Z) | WStop.

Record Net := mkNet {
  n_time : Z;
  n_fds : gset Z;
  n_next : Z;
  n_text : list (list Z);
  n_wishes : list (list Wish)
}.

(** A read takes at most [n] bytes of the next piece. *)
Definition next_text (n : nat) (l : list (list Z)) : list (list Z) :=
  match l with [] => [] | p :: ps => match drop n p with [] => ps | q => q :: ps end end.

#[local] Instance Net_os : Os Net := {
  sys_time e := (n_time e mod 2 ^ 31, e);
  sys_socket e :=
    if bool_decide (n_next e ∈ n_fds e) then (-1, e)
    else (n_next e, mkNet (n_time e) (if 0 <=? n_next e then {[n_next e]} ∪ n_fds e else n_fds e) (n_next e + 1) (n_text e) (n_wishes e));
  sys_closesocket fd e := (tt, mkNet (n_time e) (n_fds e ∖ {[fd]}) (n_next e) (n_text e) (n_wishes e));
  sys_getaddrinfo _ e := (Some 2130706433, e);
  sys_connect _ _ _ e := (0, e);
  sys_socket_error _ e := (0, e);
  sys_ready _ _ e := (inr true, e);
  sys_send _ bs e := (inr (len bs), e);
  sys_recv _ n e :=
    (match n_text e with [] => inr [] | [] :: _ => inl EWOULDBLOCK | p :: _ => inr (take (Z.to_nat n) p) end,
     mkNet (n_time e) (n_fds e) (n_next e) (next_text (Z.to_nat n) (n_text e)) (n_wishes e));
  sys_select r w e := (inr (r, w), e)
}.

Lemma next_text_rest n l : mjoin l = take n (hd [] l) ++ mjoin (next_text n l).
Proof.
  destruct l as [|p ps]; [by destruct n|]. cbn [hd next_text mjoin list_join]. rewrite <- (take_drop n p) at 1. rewrite <- app_assoc.
  by destruct (drop n p).
Qed.

#[local] Instance Net_laws : OsLaws Net.
Proof.
  refine {| opened := n_fds; remaining := fun e => List.length (mjoin (n_text e)) |}; try (intros; split; simpl; by auto).
  - intros e. apply Z.mod_pos_bound. lia.
  - intros e fd e' Hs. simpl in Hs. case_bool_decide as Hin; injection Hs as <- <-; [done|]. split; [simpl; lia|]. simpl.
    destruct (Z.leb_spec 0 (n_next e)); [done|done].
  - intros fd bs e n Hn. simpl in Hn. injection Hn as <-. unfold len. lia.
  - intros fd n e. split; [done|]. cbn. rewrite (next_text_rest (Z.to_nat n) (n_text e)), length_app. lia.
  - intros fd n e bs Hb Hn. cbn in *. rewrite (next_text_rest (Z.to_nat n) (n_text e)), length_app.
    assert (bs = take (Z.to_nat n) (hd [] (n_text e))) as ->.
    { destruct (n_text e) as [|[|c q] ps]; [injection Hb as <-; by destruct (Z.to_nat n)|done|by injection Hb as <-]. }
    unfold len. rewrite !length_take. lia.
  - intros r w e r' w' Hs. simpl in Hs. by injection Hs as <- <-.
Defined.

#[local] Instance Net_ntlm : Ntlm Net := { NtlmInit _ e := (true, e); NtlmStep1 e := (None, e); NtlmStep2 _ e := (None, e) }.

#[local] Instance Net_ntlm_laws : NtlmLaws Net.
Proof. split; intros; by split. Qed.

#[local] Instance Net_machine : Machine Net := { sys_malloc _ n := replicate (Z.to_nat n) 0; sys_file_size _ _ := None; sys_open_file _ _ := None }.

(** A download with a limit of 60 seconds. *)
Definition sample_desc : TTask := mkTask (lit "http://localhost/hello") TASK_DOWNLOAD false None 0 (mkOptions 60 0 0 false) false.

Definition sample_client : THttpCli :=
  match THttpCli_new 0 0 [] 1000 (lit "http://localhost/hello") None with
  | Ok h => h
  | Fault _ => mkCli (URL_new 0) None (-1) None SOCKS_PROXY_INIT NTLM_AUTH_DEFAULT [] [] [] [] 0 [] 0 []
  end.

Definition sample_task : Task := TTask_new sample_desc [] (mkCalls false true true) sample_client 1000.

Lemma sample_new : new_task sample_task.
Proof.
  split_and!; [|done|done]. split; try done. exists (fun _ => None), 0. by vm_compute.
Qed.

Definition wish (x : Wish) : Request := match x with WAdd => ReqAdd sample_task | WCancel i => ReqCancel i | WStop => ReqStop end.

#[local] Instance Net_others : Others Net := {
  sys_requests e := (wish <$> hd [] (n_wishes e), mkNet (n_time e) (n_fds e) (n_next e) (n_text e) (tl (n_wishes e)))
}.

#[local] Instance Net_others_laws : OthersLaws Net.
Proof.
  split; [by intros|]. intros e. simpl. apply Forall_forall. intros r Hr. apply list_elem_of_fmap in Hr as (x & -> & _).
  destruct x; [exact sample_new|done..].
Qed.

(** How often a read finds nothing. *)
Definition stalls (l : list (list Z)) : nat := List.length (filter (eq []) l).

#[local] Instance Net_stream : StreamLaws Net.
Proof.
  refine {| pending := fun _ e => mjoin (n_text e); arrived := fun _ e => List.length (hd [] (n_text e)); waits := fun _ e => stalls (n_text e) |}; [|done].
  intros fd n e Hn Hp. cbn in *. destruct (n_text e) as [|[|c q] ps]; [done|right|left]; cbn [hd next_text] in *.
  - rewrite drop_nil. split_and!; [done|done|done|]. unfold stalls. rewrite filter_cons_True by done. simpl. lia.
  - exists (take (Z.to_nat n) (c :: q)). split_and!; [|done|apply (next_text_rest _ ((c :: q) :: ps))|..].
    + destruct (Z.to_nat n) eqn:En; [lia|done].
    + rewrite <- (take_drop (Z.to_nat n) (c :: q)) at 1. rewrite length_app. destruct (drop _ _); simpl; lia.
    + unfold stalls. rewrite (filter_cons_False _ (c :: q)) by done. destruct (drop _ _); [done|]. by rewrite filter_cons_False.
Defined.

Definition answer : list Z := lit "HTTP/1.1 200 OK" ++ [13; 10] ++ lit "Content-Length: 5" ++ [13; 10; 13; 10] ++ lit "hello".

Definition net (wishes : list (list Wish)) : Net := mkNet 1000 ∅ 3 [answer] wishes.

(** What a log says, without the details. *)
Definition brief (ev : Event) : string * Z * list Z :=
  match ev with
  | Called handle_init i _ d => ("init"%string, i, d)
  | Called handle_process i _ d => ("process"%string, i, d)
  | Called handle_headcomplete i _ d => ("head"%string, i, d)
  | Called handle_finish i _ d => ("finish"%string, i, d)
  | Called handle_error i _ d => ("error"%string, i, d)
  | Cleared i d => (if d then "cancelled"%string else "removed"%string, i, [])
  end.

Definition log_of (r : outcome (unit * (Worker * Net))) : list (string * Z * list Z) :=
  match r with Ok (_, (w, _)) => brief <$> calls w | Fault _ => [] end.

Definition is_ok {A} (o : outcome A) : bool := match o with Ok _ => true | Fault _ => false end.

Definition end_of (o : outcome (unit * (Worker * Net))) : Worker * Net := match o with Ok (_, s) => s | Fault _ => (TTransferWorker_init 0, net []) end.

Lemma end_of_ok o : is_ok o = true -> o = Ok (tt, end_of o).
Proof. by destruct o as [[[] s]|f]. Qed.

Lemma returns_of {S A} F (m : Run S A) Q s : runs F m Q s -> is_ok (m s) = true -> returns m Q s.
Proof. unfold runs. by destruct (m s) as [[a s']|f]. Qed.

(** The download is made in eight rounds, and the sockets are as they should be. *)
Lemma rounds_safe_witness :
  returns (rounds 1000 8) (fun _ '(w, e) => exists m, winv_at m w e /\ (stop w = false -> m = s_t_map w) /\ readfds w ∪ writefds w ⊆ opened e)
    (TTransferWorker_init 4, net [[WAdd]]).
Proof. eapply returns_of; [exact (rounds_safe 1000 8 4 (net [[WAdd]]) eq_refl ltac:(simpl; lia))|]. vm_compute. reflexivity. Defined.

Lemma rounds_answer_witness :
  log_of (rounds 1000 8 (TTransferWorker_init 4, net [[WAdd]])) = [("removed"%string, 0, []); ("finish"%string, 0, lit "hello"); ("head"%string, 0, [])] /\
  returns (rounds 1000 8) (fun _ '(w, _) => slot_steps (TTransferWorker_new 4) (calls w) (slots w) /\ answers (calls w)) (TTransferWorker_init 4, net [[WAdd]]).
Proof.
  split; [vm_compute; reflexivity|]. eapply returns_of; [exact (rounds_answer 1000 8 4 (net [[WAdd]]) eq_refl ltac:(simpl; lia))|]. vm_compute. reflexivity.
Defined.

(** Stopped while the socket of the task is open. *)
Definition stopping : Net := net [[WAdd]; []; []; []; []; []; [WStop]].

Abbreviation stopped := (rounds 1000 8 (TTransferWorker_init 4, stopping)).

Lemma run_ends_witness : n_fds (snd (end_of stopped)) = {[3]} /\
  returns (run 1000 8) (fun _ '(w, e) => queue w = ∅ /\ s_t_map w = ∅ /\ opened e = ∅ /\ answers (calls w)) (TTransferWorker_init 4, stopping).
Proof.
  split; [vm_compute; reflexivity|]. assert (Hok : is_ok stopped = true) by (vm_compute; reflexivity).
  assert (Hst : stop (fst (end_of stopped)) = true) by (vm_compute; reflexivity).
  eapply returns_of; [exact (run_ends 1000 8 4 stopping (end_of stopped) eq_refl ltac:(simpl; lia) (end_of_ok _ Hok) Hst)|]. vm_compute. reflexivity.
Defined.

(** A task that waits for a connection since the time 1000, at the time 1060. *)
Definition late : Net := mkNet 1060 ∅ 3 [] [].

Definition late_worker : Worker := put_at 0 (set_state TSK_CONNECT sample_task) (set_queue {[0 := sample_task]} (TTransferWorker_init 4)).

Lemma late_ok : winv late_worker late.
Proof.
  pose proof (gd_inv _ _ _ _ _ _ (init_good 1 4 late eq_refl ltac:(simpl; lia))) as Hw. unfold late_worker.
  apply (winv_add _ _ _ 0 sample_task 0 0) in Hw; try done; [|apply sample_new].
  eapply winv_keep; [exact Hw|apply lookup_insert_eq| |done|apply still_refl|].
  - destruct sample_new as [[] _]. by split.
  - by split.
Qed.

Lemma scan_answers_witness :
  result_of (fst (sys_time late)) (set_state TSK_CONNECT sample_task) = Some (handle_error, ERR_TASK_TIMEOUT) /\
  returns (scan_task 0 (mkScan no_counts 4)) (fun _ '(w, e) => queue w !! 0 = None /\ told handle_error 0 ERR_TASK_TIMEOUT late_worker w /\ winv w e) (late_worker, late).
Proof.
  split; [vm_compute; reflexivity|]. eapply returns_of; [|vm_compute; reflexivity].
  apply (scan_answers 1 late_worker late 0 (set_state TSK_CONNECT sample_task) (mkScan no_counts 4) handle_error ERR_TASK_TIMEOUT late_ok);
    [simpl; lia|vm_compute; reflexivity|reflexivity|done|vm_compute; reflexivity].
Defined.

(** The same response, received by a task that sent its request. *)
Definition hello : response := mkResponse (lit "HTTP/1.1") 200 (lit "OK") [(lit "Content-Length", lit "5")] (lit "hello").

Lemma hello_ok : response_ok hello.
Proof.
  split; [split_and!; [done| |]|done| |done|]; cbn [r_version r_reason r_headers hello].
  - unfold plain. apply (bool_decide_unpack _). by vm_compute.
  - apply (bool_decide_unpack _). by vm_compute.
  - unfold plain. apply (bool_decide_unpack _). by vm_compute.
  - constructor; [|constructor]. split; [split_and!| |]; try done; [unfold plain; apply (bool_decide_unpack _); by vm_compute|apply (bool_decide_unpack _); by vm_compute|].
    split; [unfold plain; apply (bool_decide_unpack _); by vm_compute|done].
Qed.

(** The head and two bytes of the body, nothing, one byte, nothing twice, and the rest. *)
Definition slow : Net := mkNet 1000 ∅ 3 [head_text hello ++ lit "he"; []; lit "l"; []; []; lit "lo"] [].

