(* ===== verification/Web.v ===== *)
(** * The web module

    src/Web: requests of the other modules are queued ([CRequestManager]), handed
    to the transfer library three per cycle ([CHttpClient]), answered by its
    callbacks (HttpHandler.cpp), and the answers turned into events, with up to
    two further attempts for a request that failed ([WebModule]).

    Contexts and their arguments are shared by address, so both live in explicit
    memories.  The transfer library is an instance of the class [TransferManager]
    of Transfer; its callbacks are the inputs of the module.  A callback looks up the
    context of its task and then works on it, without a lock between; the second half of
    each is a definition of its own, so that the operations of the main thread can come
    between them.  Assertions are [ASSERT], for a build with or without [NDEBUG].  The
    times of a context are written and never read, and left out. *)
From stdpp Require Import prelude gmap.
From Stdlib Require Import ZArith Lia String.
From S2P Require Import Prelude Protocol Favorites Strings Transfer.

(** ** Constants *)

Definition SUCCESS : Z := 1.
Definition FAILED : Z := 0.

Definition INVALID_RESP : Z := 0.
Definition REPEATED_REQ : Z := 1.
Definition SUCCESS_RESP : Z := 2.

Definition INVALID_SEQNO : Z := 0.
Definition READY_SEQNO : Z := 1.

Definition WEB_RET_SUCCESS : Z := 0.
Definition WEB_RET_UNKNOWN : Z := 3.
Definition WEB_RET_NET_ERROR_TIMEOUT : Z := 110.
Definition WEB_RET_COMMON_NO_URL : Z := 200.
Definition WEB_RET_COMMON_METHOD_NOT_SUPPORT : Z := 201.
Definition WEB_RET_COMMON_NO_PERMIT : Z := 202.
Definition WEB_RET_COMMON_NO_AUTH : Z := 203.
Definition WEB_RET_COMMON_SERVER_INTERNAL_ERROR : Z := 204.
Definition WEB_RET_COMMON_SERVER_NOT_AVAIL : Z := 205.
Definition WEB_RET_COMMON_SERVER_NOT_IMPL : Z := 206.
Definition WEB_RET_COMMON_PROXY_NEED_AUTH : Z := 207.
Definition WEB_RET_COMMON_ERROR_INTERNAL : Z := 230.
Definition WEB_RET_COMMON_WRITE_FILE_ERROR : Z := 231.

Definition SERVICE_VALUE_WEB_BEGIN : Z := SERVICE_VALUE_BEGIN (MODULE_ID WEB).
Definition EVENT_VALUE_WEB_BEGIN : Z := EVENT_VALUE_BEGIN (MODULE_ID WEB).

Inductive WebService :=
| GET_FAVICON | OPEN_URLTRAVELER | CLOSE_URLTRAVELER | LOGININ_URLTRAVELER | LOGINOUT_URLTRAVELER | REPORT_USERINFO
| GET_VISITED_URL | DOWNLOAD_FILE | CHECK_UPDATE_CONFIG | DOWNLOAD_UPDATE_FILE | FAVICON_LOAD | QUERY_DOWNLOAD_FILE_PROESS.

Definition service_index (v : WebService) : Z :=
  match v with
  | GET_FAVICON => 0 | OPEN_URLTRAVELER => 1 | CLOSE_URLTRAVELER => 2 | LOGININ_URLTRAVELER => 3
  | LOGINOUT_URLTRAVELER => 4 | REPORT_USERINFO => 5 | GET_VISITED_URL => 6 | DOWNLOAD_FILE => 7
  | CHECK_UPDATE_CONFIG => 8 | DOWNLOAD_UPDATE_FILE => 9 | FAVICON_LOAD => 10 | QUERY_DOWNLOAD_FILE_PROESS => 11
  end.

(** [SERVICE_VALUE_WEB_...] and [EVENT_VALUE_WEB_..._RESP]: one enumeration
    follows the other. *)
Definition SERVICE_VALUE_WEB (v : WebService) : Z := SERVICE_VALUE_WEB_BEGIN + service_index v.
Definition EVENT_VALUE_WEB_RESP (v : WebService) : Z := EVENT_VALUE_WEB_BEGIN + service_index v.

(** ** Contexts *)

Inductive RequestType := ONCE_BUFFER | FRAG_BUFFER | ONCE_FILE.

#[global] Instance RequestType_eq_dec : EqDecision RequestType.
Proof. solve_decision. Defined.

Record HTTPCONTEXT := mkHTTPCONTEXT {
  uOpPolicy : Z;
  nEventValue : Z;
  strURL : str;
  eReqType : RequestType;
  pArgument : option positive;
  nTimeout : Z;
  wstrWritedFileName : wstring;
  bAllowRepeated : bool;
  uParam0 : Z;
  uParam1 : Z;
  uParam2 : Z;
  nReqSeq : Z;
  nTaskId : Z;
  nFailedTime : Z;
  nSpeed : Z;
  nRemainedTime : Z;
  uResult : Z;
  nErrorCode : Z;
  nHttpCode : Z;
  hFileHandle : Z;
  nContentLength : Z;
  nFinishedLength : Z;
  strContentData : str
}.

(** [HTTPCONTEXT(string& url)] *)
Definition HTTPCONTEXT_url (url : str) : HTTPCONTEXT :=
  mkHTTPCONTEXT SUCCESS_RESP 0 url ONCE_BUFFER None 0 [] true 0 0 0 0 0 0 0 0 SUCCESS 0 200 0 0 0 [].

(** [HTTPCONTEXT()] *)
Definition HTTPCONTEXT_new : HTTPCONTEXT :=
  mkHTTPCONTEXT SUCCESS_RESP 0 [] ONCE_BUFFER None 30 [] true 0 0 0 0 0 0 0 0 SUCCESS 0 200 0 0 0 [].

(** Assigning to the fields. *)
Definition set_policy (v_uOpPolicy : Z) (c : HTTPCONTEXT) : HTTPCONTEXT :=
  mkHTTPCONTEXT v_uOpPolicy (nEventValue c) (strURL c) (eReqType c) (pArgument c) (nTimeout c)
    (wstrWritedFileName c) (bAllowRepeated c) (uParam0 c) (uParam1 c) (uParam2 c) (nReqSeq c) (nTaskId c)
    (nFailedTime c) (nSpeed c) (nRemainedTime c) (uResult c) (nErrorCode c) (nHttpCode c) (hFileHandle c)
    (nContentLength c) (nFinishedLength c) (strContentData c).

Definition set_task (v_nTaskId : Z) (c : HTTPCONTEXT) : HTTPCONTEXT :=
  mkHTTPCONTEXT (uOpPolicy c) (nEventValue c) (strURL c) (eReqType c) (pArgument c) (nTimeout c)
    (wstrWritedFileName c) (bAllowRepeated c) (uParam0 c) (uParam1 c) (uParam2 c) (nReqSeq c) v_nTaskId
    (nFailedTime c) (nSpeed c) (nRemainedTime c) (uResult c) (nErrorCode c) (nHttpCode c) (hFileHandle c)
    (nContentLength c) (nFinishedLength c) (strContentData c).

Definition set_failed (v_nFailedTime : Z) (c : HTTPCONTEXT) : HTTPCONTEXT :=
  mkHTTPCONTEXT (uOpPolicy c) (nEventValue c) (strURL c) (eReqType c) (pArgument c) (nTimeout c)
    (wstrWritedFileName c) (bAllowRepeated c) (uParam0 c) (uParam1 c) (uParam2 c) (nReqSeq c) (nTaskId c)
    v_nFailedTime (nSpeed c) (nRemainedTime c) (uResult c) (nErrorCode c) (nHttpCode c) (hFileHandle c)
    (nContentLength c) (nFinishedLength c) (strContentData c).

Definition set_outcome (v_uResult : Z) (v_nErrorCode : Z) (v_nHttpCode : Z) (c : HTTPCONTEXT) : HTTPCONTEXT :=
  mkHTTPCONTEXT (uOpPolicy c) (nEventValue c) (strURL c) (eReqType c) (pArgument c) (nTimeout c)
    (wstrWritedFileName c) (bAllowRepeated c) (uParam0 c) (uParam1 c) (uParam2 c) (nReqSeq c) (nTaskId c)
    (nFailedTime c) (nSpeed c) (nRemainedTime c) v_uResult v_nErrorCode v_nHttpCode (hFileHandle c)
    (nContentLength c) (nFinishedLength c) (strContentData c).

Definition set_progress (v_nFinishedLength : Z) (v_nContentLength : Z) (v_nSpeed : Z) (v_nRemainedTime : Z) (c : HTTPCONTEXT) : HTTPCONTEXT :=
  mkHTTPCONTEXT (uOpPolicy c) (nEventValue c) (strURL c) (eReqType c) (pArgument c) (nTimeout c)
    (wstrWritedFileName c) (bAllowRepeated c) (uParam0 c) (uParam1 c) (uParam2 c) (nReqSeq c) (nTaskId c)
    (nFailedTime c) v_nSpeed v_nRemainedTime (uResult c) (nErrorCode c) (nHttpCode c) (hFileHandle c)
    v_nContentLength v_nFinishedLength (strContentData c).

Definition set_length (v_nContentLength : Z) (c : HTTPCONTEXT) : HTTPCONTEXT :=
  mkHTTPCONTEXT (uOpPolicy c) (nEventValue c) (strURL c) (eReqType c) (pArgument c) (nTimeout c)
    (wstrWritedFileName c) (bAllowRepeated c) (uParam0 c) (uParam1 c) (uParam2 c) (nReqSeq c) (nTaskId c)
    (nFailedTime c) (nSpeed c) (nRemainedTime c) (uResult c) (nErrorCode c) (nHttpCode c) (hFileHandle c)
    v_nContentLength (nFinishedLength c) (strContentData c).

Definition set_handle (v_hFileHandle : Z) (c : HTTPCONTEXT) : HTTPCONTEXT :=
  mkHTTPCONTEXT (uOpPolicy c) (nEventValue c) (strURL c) (eReqType c) (pArgument c) (nTimeout c)
    (wstrWritedFileName c) (bAllowRepeated c) (uParam0 c) (uParam1 c) (uParam2 c) (nReqSeq c) (nTaskId c)
    (nFailedTime c) (nSpeed c) (nRemainedTime c) (uResult c) (nErrorCode c) (nHttpCode c) v_hFileHandle
    (nContentLength c) (nFinishedLength c) (strContentData c).

Definition set_content (v_strContentData : str) (c : HTTPCONTEXT) : HTTPCONTEXT :=
  mkHTTPCONTEXT (uOpPolicy c) (nEventValue c) (strURL c) (eReqType c) (pArgument c) (nTimeout c)
    (wstrWritedFileName c) (bAllowRepeated c) (uParam0 c) (uParam1 c) (uParam2 c) (nReqSeq c) (nTaskId c)
    (nFailedTime c) (nSpeed c) (nRemainedTime c) (uResult c) (nErrorCode c) (nHttpCode c) (hFileHandle c)
    (nContentLength c) (nFinishedLength c) v_strContentData.

Definition set_param0 (v_uParam0 : Z) (c : HTTPCONTEXT) : HTTPCONTEXT :=
  mkHTTPCONTEXT (uOpPolicy c) (nEventValue c) (strURL c) (eReqType c) (pArgument c) (nTimeout c)
    (wstrWritedFileName c) (bAllowRepeated c) v_uParam0 (uParam1 c) (uParam2 c) (nReqSeq c) (nTaskId c)
    (nFailedTime c) (nSpeed c) (nRemainedTime c) (uResult c) (nErrorCode c) (nHttpCode c) (hFileHandle c)
    (nContentLength c) (nFinishedLength c) (strContentData c).

Definition set_param2 (v_uParam2 : Z) (c : HTTPCONTEXT) : HTTPCONTEXT :=
  mkHTTPCONTEXT (uOpPolicy c) (nEventValue c) (strURL c) (eReqType c) (pArgument c) (nTimeout c)
    (wstrWritedFileName c) (bAllowRepeated c) (uParam0 c) (uParam1 c) v_uParam2 (nReqSeq c) (nTaskId c)
    (nFailedTime c) (nSpeed c) (nRemainedTime c) (uResult c) (nErrorCode c) (nHttpCode c) (hFileHandle c)
    (nContentLength c) (nFinishedLength c) (strContentData c).

(** ** Events *)

(** The data of a response event. *)
Inductive WebBody :=
| NoBody
| FavIcon (szFavoriteUrl : wstring) (pIconData : str)
| UpdateXml (szUpdateXml : wstring)
| UpdateFile (nId : Z).

(** An event given to the module manager; its source is the web module. *)
Record WebEvent := mkWebEvent {
  we_value : Z;
  we_desMId : Z;
  we_param0 : Z;
  we_param1 : Z;
  we_param2 : Z;
  we_body : WebBody
}.

Definition MAX_PATH_ : Z := 260.
Definition MAX_UPDATE_XML_LENGTH : Z := 10240.

(** ** The transfer library *)

(** [TaskInfo]; [hdrLen] is what [htrequest->GetAllHdrLen()] returns. *)
Record TaskInfo := mkTaskInfo {
  taskType : TASK_TYPE;
  contentLength : Z;
  doneSize : Z;
  transferSpeed : Z;
  remainTime : Z;
  errcode : Z;
  httpCode : Z;
  hdrLen : Z;
  respData : option str
}.

(** ** State *)

Record CHttpClient := mkClient {
  m_mapRequest : gmap Z positive;
  m_mapTaskid2Seqno : gmap Z Z;
  m_mapSeqNo2TaskId : gmap Z Z;
  m_lstResult : list HTTPCONTEXT
}.

(** [contexts] and [arguments] are the memories of [HTTPCONTEXT] and
    [POST_PARAMS] objects;
    [m_pTransferManager] is [None] when the library did not start; [events] are
    the events given to the module manager so far. *)
Record WebModule {T : Type} := mkWeb {
  contexts : gmap positive HTTPCONTEXT;
  arguments : gmap positive (list POST_PARAM);
  m_vRequestQueue : list positive;
  m_nReqSeq : Z;
  m_pHttpClient : CHttpClient;
  m_pTransferManager : option T;
  m_mapSeqNo2ModuleId : gmap Z Z;
  events : list WebEvent
}.
Arguments WebModule : clear implicits.

Section Module.
Context {T : Type} {TM : TransferManager T} {BLD : Build}.

Definition WebModule_new (t : option T) : WebModule T := mkWeb T ∅ ∅ [] 100 (mkClient ∅ ∅ ∅ []) t ∅ [].

Definition with_contexts (x : gmap positive HTTPCONTEXT) (s : WebModule T) : WebModule T :=
  mkWeb T x (arguments s) (m_vRequestQueue s) (m_nReqSeq s) (m_pHttpClient s) (m_pTransferManager s)
    (m_mapSeqNo2ModuleId s) (events s).

Definition with_arguments (x : gmap positive (list POST_PARAM)) (s : WebModule T) : WebModule T :=
  mkWeb T (contexts s) x (m_vRequestQueue s) (m_nReqSeq s) (m_pHttpClient s) (m_pTransferManager s)
    (m_mapSeqNo2ModuleId s) (events s).

Definition with_queue (x : list positive) (n : Z) (s : WebModule T) : WebModule T :=
  mkWeb T (contexts s) (arguments s) x n (m_pHttpClient s) (m_pTransferManager s) (m_mapSeqNo2ModuleId s) (events s).

Definition with_client (x : CHttpClient) (s : WebModule T) : WebModule T :=
  mkWeb T (contexts s) (arguments s) (m_vRequestQueue s) (m_nReqSeq s) x (m_pTransferManager s)
    (m_mapSeqNo2ModuleId s) (events s).

Definition with_transfer (x : option T) (s : WebModule T) : WebModule T :=
  mkWeb T (contexts s) (arguments s) (m_vRequestQueue s) (m_nReqSeq s) (m_pHttpClient s) x
    (m_mapSeqNo2ModuleId s) (events s).

Definition with_modules (x : gmap Z Z) (s : WebModule T) : WebModule T :=
  mkWeb T (contexts s) (arguments s) (m_vRequestQueue s) (m_nReqSeq s) (m_pHttpClient s) (m_pTransferManager s)
    x (events s).

(** [m_pModuleManager->PushEvent( e )] *)
Definition push_event (e : WebEvent) (s : WebModule T) : WebModule T :=
  mkWeb T (contexts s) (arguments s) (m_vRequestQueue s) (m_nReqSeq s) (m_pHttpClient s) (m_pTransferManager s)
    (m_mapSeqNo2ModuleId s) (events s ++ [e]).

Definition with_requests (x : gmap Z positive) (c : CHttpClient) : CHttpClient :=
  mkClient x (m_mapTaskid2Seqno c) (m_mapSeqNo2TaskId c) (m_lstResult c).

Definition with_tasks (t2s s2t : gmap Z Z) (c : CHttpClient) : CHttpClient :=
  mkClient (m_mapRequest c) t2s s2t (m_lstResult c).

Definition with_results (x : list HTTPCONTEXT) (c : CHttpClient) : CHttpClient :=
  mkClient (m_mapRequest c) (m_mapTaskid2Seqno c) (m_mapSeqNo2TaskId c) x.

(** [*p] and [p->... = ...] *)
Definition load_context (s : WebModule T) (p : positive) : outcome HTTPCONTEXT :=
  match contexts s !! p with Some c => Ok c | None => Fault Dangling end.

Definition update_context (p : positive) (f : HTTPCONTEXT -> HTTPCONTEXT) (s : WebModule T) : outcome (WebModule T) :=
  c ← load_context s p; Ok (with_contexts (<[p := f c]> (contexts s)) s).

(** ** The HTTP client *)

Definition GetContext (nSeqNo : Z) (s : WebModule T) : option positive := m_mapRequest (m_pHttpClient s) !! nSeqNo.

(** The number is returned as a signed one. *)
Definition GetSeqNo (nTaskId : Z) (s : WebModule T) : Z :=
  match m_mapTaskid2Seqno (m_pHttpClient s) !! nTaskId with Some n => i32 n | None => -1 end.

(** [m_pTransferManager] is used without a check. *)
Definition ClearSeqIdMap (nSeqNo : Z) (s : WebModule T) : outcome (WebModule T) :=
  let c := m_pHttpClient s in
  match m_mapSeqNo2TaskId c !! nSeqNo with
  | Some t =>
      m ← deref (m_pTransferManager s);
      r ← cancelTask t m;
      Ok (with_client (with_tasks (base.delete t (m_mapTaskid2Seqno c)) (base.delete nSeqNo (m_mapSeqNo2TaskId c)) c)
            (with_transfer (Some (snd r)) s))
  | None => Ok s
  end.

Definition delete_argument (a : option positive) (s : WebModule T) : outcome (WebModule T) :=
  match a with
  | None => Ok s
  | Some a => match arguments s !! a with
              | Some _ => Ok (with_arguments (base.delete a (arguments s)) s)
              | None => Fault Dangling
              end
  end.

Definition DeleteSeqNo (nSeqNo : Z) (s : WebModule T) : outcome (WebModule T) :=
  s ← ClearSeqIdMap nSeqNo s;
  match GetContext nSeqNo s with
  | None => Ok s
  | Some p =>
      c ← load_context s p;
      s ← delete_argument (pArgument c) s;
      Ok (with_client (with_requests (base.delete nSeqNo (m_mapRequest (m_pHttpClient s))) (m_pHttpClient s))
            (with_contexts (base.delete p (contexts s)) s))
  end.

(** A copy of the context is queued as a result. *)
Definition Cleanup (p : positive) (s : WebModule T) : outcome (WebModule T) :=
  c ← load_context s p;
  Ok (with_client (with_results (m_lstResult (m_pHttpClient s) ++ [c]) (m_pHttpClient s)) s).

(** The result of [addTask] is entered into both maps, unless it is an error. *)
Definition enter_task (ret nSeqNo : Z) (s : WebModule T) : WebModule T :=
  let c := m_pHttpClient s in
  with_client (with_tasks (<[ret := nSeqNo]> (m_mapTaskid2Seqno c)) (<[nSeqNo := ret]> (m_mapSeqNo2TaskId c)) c) s.

Definition task_options (c : HTTPCONTEXT) : OPTIONS :=
  mkOptions (nTimeout c) 0 0 (bool_decide (eReqType c = ONCE_FILE \/ eReqType c = FRAG_BUFFER)).

(** [addTask] for a GET and for a POST request. *)
Definition add_get (c : HTTPCONTEXT) (t : T) : outcome (Z * T) := addTask (strURL c) TASK_DOWNLOAD None (task_options c) t.

Definition load_argument (s : WebModule T) (a : positive) : outcome (list POST_PARAM) :=
  match arguments s !! a with Some ps => Ok ps | None => Fault Dangling end.

Definition add_post (c : HTTPCONTEXT) (a : positive) (s : WebModule T) (t : T) : outcome (Z * T) :=
  ps ← load_argument s a;
  addTask (strURL c) (if is_uploadtype ps then TASK_UPLOAD else TASK_QUERY) (Some ps) (task_options c) t.

Definition ReqURL (p : positive) (s : WebModule T) : outcome (WebModule T) :=
  match m_pTransferManager s with
  | None => Ok s
  | Some t =>
      c ← load_context s p;
      let s := with_client (with_requests (<[nReqSeq c := p]> (m_mapRequest (m_pHttpClient s))) (m_pHttpClient s)) s in
      r ← add_get c t;
      let s := with_transfer (Some (snd r)) s in
      if fst r <? 0 then Ok s
      else s ← update_context p (set_task (fst r)) s; Ok (enter_task (fst r) (nReqSeq c) s)
  end.

(** [assert(0)] when the task is refused. *)
Definition ReqPostUrl (p : positive) (s : WebModule T) : outcome (WebModule T) :=
  match m_pTransferManager s with
  | None => Ok s
  | Some t =>
      c ← load_context s p;
      let s := with_client (with_requests (<[nReqSeq c := p]> (m_mapRequest (m_pHttpClient s))) (m_pHttpClient s)) s in
      a ← deref (pArgument c);
      r ← add_post c a s t;
      let s := with_transfer (Some (snd r)) s in
      if fst r <? 0 then _ ← ASSERT false; Ok s
      else update_context p (set_task (fst r)) (enter_task (fst r) (nReqSeq c) s)
  end.

(** [ReReqURL] and [ReReqPostUrl] get a copy of the context and return it. *)
Definition ReReq (add : WebModule T -> T -> outcome (Z * T)) (c : HTTPCONTEXT) (s : WebModule T) :
    outcome (HTTPCONTEXT * WebModule T) :=
  match m_pTransferManager s with
  | None => Ok (c, s)
  | Some t =>
      match GetContext (nReqSeq c) s with
      | None => Ok (c, s)
      | Some p =>
          s ← update_context p (set_failed (nFailedTime c)) s;
          r ← add s t;
          let s := with_transfer (Some (snd r)) s in
          if fst r <? 0 then Ok (c, s) else Ok (set_task (fst r) c, enter_task (fst r) (nReqSeq c) s)
      end
  end.

Definition ReReqURL (c : HTTPCONTEXT) : WebModule T -> outcome (HTTPCONTEXT * WebModule T) :=
  ReReq (fun _ => add_get c) c.

Definition ReReqPostUrl (c : HTTPCONTEXT) : WebModule T -> outcome (HTTPCONTEXT * WebModule T) :=
  ReReq (fun s t => match pArgument c with
                    | Some a => add_post c a s t
                    | None => addTask (strURL c) TASK_QUERY None (task_options c) t
                    end) c.

Definition CancelTask (nSeqNo : Z) (s : WebModule T) : outcome (WebModule T) :=
  _ ← match GetContext nSeqNo s with Some p => c ← load_context s p; Ok () | None => Ok () end;
  let c := m_pHttpClient s in
  match m_mapSeqNo2TaskId c !! nSeqNo with
  | Some t =>
      m ← match m_pTransferManager s with Some m => r ← cancelTask t m; Ok (Some (snd r)) | None => Ok None end;
      Ok (with_client (mkClient (base.delete nSeqNo (m_mapRequest c)) (base.delete t (m_mapTaskid2Seqno c))
                         (base.delete nSeqNo (m_mapSeqNo2TaskId c)) (m_lstResult c))
            (with_transfer m s))
  | None => Ok s
  end.

Definition RetriveResp (s : WebModule T) : HTTPCONTEXT * WebModule T :=
  match m_lstResult (m_pHttpClient s) with
  | [] => (set_policy INVALID_RESP HTTPCONTEXT_new, s)
  | c :: l => (c, with_client (with_results l (m_pHttpClient s)) s)
  end.

(** Every context that was sent is deleted. *)
Definition CleanAll (s : WebModule T) : outcome (WebModule T) :=
  s ← for_each (fun s p => c ← load_context s p; s ← delete_argument (pArgument c) s;
                           Ok (with_contexts (base.delete p (contexts s)) s))
        s (map snd (map_to_list (m_mapRequest (m_pHttpClient s))));
  Ok (with_client (mkClient ∅ ∅ ∅ []) s).

(** ** The request manager *)

Definition GetRetCodeByStatus (nStatusCode : Z) : Z :=
  if nStatusCode =? 200 then WEB_RET_SUCCESS
  else if nStatusCode =? 401 then WEB_RET_COMMON_NO_AUTH
  else if nStatusCode =? 403 then WEB_RET_COMMON_NO_PERMIT
  else if nStatusCode =? 404 then WEB_RET_COMMON_NO_URL
  else if nStatusCode =? 405 then WEB_RET_COMMON_METHOD_NOT_SUPPORT
  else if nStatusCode =? 500 then WEB_RET_COMMON_SERVER_INTERNAL_ERROR
  else if nStatusCode =? 407 then WEB_RET_COMMON_PROXY_NEED_AUTH
  else if nStatusCode =? 501 then WEB_RET_COMMON_SERVER_NOT_IMPL
  else if nStatusCode =? 503 then WEB_RET_COMMON_SERVER_NOT_AVAIL
  else WEB_RET_COMMON_ERROR_INTERNAL.

(** What a caller of [PushUrl] gives; [r_argument] is the content of
    [*pArgument]. *)
Record Request := mkRequest {
  r_event : Z;
  r_param0 : Z;
  r_url : str;
  r_argument : option (list POST_PARAM);
  r_type : RequestType;
  r_file : wstring;
  r_timeout : Z;
  r_repeat : bool
}.

Definition PushUrl (r : Request) (s : WebModule T) : outcome (Z * WebModule T) :=
  let a := fresh (dom (arguments s)) in
  x ← match r_argument r with
      | None => Ok (None, s)
      | Some ps => ps ← copy_params ps; Ok (Some a, with_arguments (<[a := ps]> (arguments s)) s)
      end;
  let '(pPostArgument, s) := (x : option positive * WebModule T) in
  let n := u32 (m_nReqSeq s + 1) in
  let c := mkHTTPCONTEXT SUCCESS_RESP (r_event r) (r_url r) (r_type r) pPostArgument (r_timeout r) (r_file r) (r_repeat r)
             (r_param0 r) 0 0 n 0 0 0 0 SUCCESS 0 200 0 0 0 [] in
  let p := fresh (dom (contexts s)) in
  Ok (n, with_queue (m_vRequestQueue s ++ [p]) n (with_contexts (<[p := c]> (contexts s)) s)).

Definition PopUrl (s : WebModule T) : option (positive * WebModule T) :=
  match m_vRequestQueue s with
  | [] => None
  | p :: q => Some (p, with_queue q (m_nReqSeq s) s)
  end.

Fixpoint exist_url (url : str) (q : list positive) (s : WebModule T) : outcome bool :=
  match q with
  | [] => Ok false
  | p :: q => c ← load_context s p; if bool_decide (strURL c = url) then Ok true else exist_url url q s
  end.

Definition IsExistUrl (url : str) (s : WebModule T) : outcome bool := exist_url url (m_vRequestQueue s) s.

Definition ReqUrl (p : positive) (s : WebModule T) : outcome (WebModule T) :=
  c ← load_context s p;
  if bool_decide (strURL c = []) then Ok s
  else
    known ← (if bAllowRepeated c then Ok false else IsExistUrl (strURL c) s);
    if known : bool then Ok s
    else match pArgument c with None => ReqURL p s | Some _ => ReqPostUrl p s end.

Definition ReReqUrl (c : HTTPCONTEXT) (s : WebModule T) : outcome (HTTPCONTEXT * WebModule T) :=
  if bool_decide (strURL c = []) then Ok (c, s)
  else
    s ← ClearSeqIdMap (nReqSeq c) s;
    match pArgument c with None => ReReqURL c s | Some _ => ReReqPostUrl c s end.

(** *** Parsing a response *)

Context (ANSIToUnicode : str -> wstring).

(** [NEW_RESP] *)
Definition NEW_RESP (v : WebService) (body : WebBody) (c : HTTPCONTEXT) (s : WebModule T) : WebEvent :=
  mkWebEvent (EVENT_VALUE_WEB_RESP v) (default MODULE_ID_INVALID (m_mapSeqNo2ModuleId s !! nReqSeq c))
    WEB_RET_SUCCESS (nSpeed c) (nReqSeq c) body.

Definition ParseGetFavIcon (c : HTTPCONTEXT) (s : WebModule T) : WebModule T :=
  push_event (NEW_RESP GET_FAVICON (FavIcon (STRNCPY MAX_PATH_ (ANSIToUnicode (strURL c))) (strContentData c)) c s) s.

Definition ParseCheckUpdateConfig (c : HTTPCONTEXT) (s : WebModule T) : WebModule T :=
  push_event (NEW_RESP CHECK_UPDATE_CONFIG
                (UpdateXml (STRNCPY MAX_UPDATE_XML_LENGTH (ANSIToUnicode (strContentData c)))) c s) s.

Definition ParseDownloadUpdateFile (c : HTTPCONTEXT) (s : WebModule T) : WebModule T :=
  let e := NEW_RESP DOWNLOAD_UPDATE_FILE (UpdateFile (i32 (uParam0 c))) c s in
  let ret := if uResult c =? SUCCESS then WEB_RET_SUCCESS
             else if (uResult c =? FAILED) && (nErrorCode c =? ERR_TASK_WRITE_FILE_ERROR) then WEB_RET_COMMON_WRITE_FILE_ERROR
             else WEB_RET_UNKNOWN in
  push_event (mkWebEvent (we_value e) (we_desMId e) ret (we_param1 e) (we_param2 e) (we_body e)) s.

(** The handler map of the parser; the answers to opening and closing the
    program are not looked at. *)
Definition ParseResponse (c : HTTPCONTEXT) (s : WebModule T) : WebModule T :=
  if nEventValue c =? SERVICE_VALUE_WEB GET_FAVICON then ParseGetFavIcon c s
  else if nEventValue c =? SERVICE_VALUE_WEB OPEN_URLTRAVELER then s
  else if nEventValue c =? SERVICE_VALUE_WEB CLOSE_URLTRAVELER then s
  else if nEventValue c =? SERVICE_VALUE_WEB CHECK_UPDATE_CONFIG then ParseCheckUpdateConfig c s
  else if nEventValue c =? SERVICE_VALUE_WEB DOWNLOAD_UPDATE_FILE then ParseDownloadUpdateFile c s
  else s.

Definition ProcessResp (s : WebModule T) : outcome (HTTPCONTEXT * WebModule T) :=
  let '(c, s) := RetriveResp s in
  if uOpPolicy c =? INVALID_RESP then Ok (c, s)
  else if bool_decide (strURL c = []) then Ok (set_policy INVALID_RESP c, s)
  else if uResult c =? FAILED then
    if nErrorCode c =? ERR_TASK_WRITE_FILE_ERROR then Ok (set_policy WEB_RET_COMMON_WRITE_FILE_ERROR c, s)
    else
      let c := set_failed (u8 (nFailedTime c + 1)) c in
      if nFailedTime c <? 3 then
        r ← ReReqUrl c s;
        Ok (set_policy REPEATED_REQ (fst r), snd r)
      else Ok (set_policy WEB_RET_NET_ERROR_TIMEOUT c, s)
  else if negb (nHttpCode c =? 200) && negb (nErrorCode c =? 0) then
    Ok (set_policy (GetRetCodeByStatus (i32 (nHttpCode c))) c, s)
  else Ok (set_policy SUCCESS_RESP c, ParseResponse c s).

(** [None] when there is no such request; the numbers are unsigned, the
    product is not. *)
Definition QueryDownloadProcess (nSeqNo : Z) (s : WebModule T) : outcome (option (Z * Z * Z * Z * Z)) :=
  match GetContext nSeqNo s with
  | None => Ok None
  | Some p =>
      c ← load_context s p;
      Ok (Some (if nContentLength c =? 0 then 0 else u32 (Z.quot (i32 (nFinishedLength c * 100)) (nContentLength c)),
                u32 (nContentLength c), u32 (nFinishedLength c), nSpeed c, i32 (nRemainedTime c)))
  end.

(** ** The callbacks of the transfer library *)

(** What [handle_process] and [handle_finish] take over from the task. *)
Definition take_progress (info : TaskInfo) (c : HTTPCONTEXT) : HTTPCONTEXT :=
  let len := if bool_decide (taskType info = TASK_UPLOAD \/ taskType info = TASK_BINARY)
             then (i32 (doneSize info - hdrLen info), i32 (contentLength info - hdrLen info))
             else (i32 (doneSize info), i32 (contentLength info)) in
  set_progress (fst len) (snd len) (u32 (transferSpeed info)) (u32 (remainTime info))
    (set_outcome SUCCESS (u32 (errcode info)) (u32 (httpCode info)) c).

(** Lengths of a query are not negative at the end. *)
Definition clamp_query (info : TaskInfo) (c : HTTPCONTEXT) : HTTPCONTEXT :=
  if bool_decide (taskType info ∈ [TASK_DOWNLOAD; TASK_UPLOAD; TASK_BINARY]) then c
  else set_progress (Z.max 0 (nFinishedLength c)) (Z.max 0 (nContentLength c)) (nSpeed c) (nRemainedTime c) c.

Definition write_failed (c : HTTPCONTEXT) : HTTPCONTEXT := set_outcome FAILED ERR_TASK_WRITE_FILE_ERROR (nHttpCode c) c.

(** A callback finds the context of its task; the result is the returned code. *)
Definition on_task (taskid : Z) (f : positive -> WebModule T -> outcome (Z * WebModule T)) (s : WebModule T) :
    outcome (Z * WebModule T) :=
  let nSeqNo := GetSeqNo taskid s in
  if nSeqNo =? -1 then Ok (-1, s)
  else match GetContext (u32 nSeqNo) s with Some p => f p s | None => Ok (-1, s) end.

Definition handle_headcomplete (taskid : Z) (info : TaskInfo) : WebModule T -> outcome (Z * WebModule T) :=
  on_task taskid (fun p s =>
    c ← load_context s p;
    if bool_decide (eReqType c = ONCE_BUFFER) then Ok (-1, s)
    else s ← update_context p (set_length (i32 (contentLength info))) s; Ok (0, s)).

(** The assertion at the start of a callback: [same] says whether this is the thread of its
    first call. *)
Definition check_thread (same : bool) : outcome unit := ASSERT same.

(** [file] is the handle [get_file_handle] would return, [written] the result of
    [WriteFile]. *)
Definition process_context (info : TaskInfo) (file : Z) (written : bool) (p : positive) (s : WebModule T) :
    outcome (Z * WebModule T) :=
  s ← update_context p (take_progress info) s;
  c ← load_context s p;
  match eReqType c with
  | ONCE_FILE =>
      s ← update_context p (set_handle (if hFileHandle c =? 0 then file else hFileHandle c)) s;
      _ ← deref (respData info);
      if written then Ok (0, s) else s ← update_context p write_failed s; s ← Cleanup p s; Ok (0, s)
  | FRAG_BUFFER =>
      data ← deref (respData info);
      s ← update_context p (fun c => set_param0 0 (set_content data c)) s;
      s ← Cleanup p s; Ok (0, s)
  | ONCE_BUFFER => Ok (0, s)
  end.

Definition handle_process (same : bool) (taskid : Z) (info : TaskInfo) (file : Z) (written : bool) (s : WebModule T) :
    outcome (Z * WebModule T) :=
  _ ← check_thread same;
  on_task taskid (process_context info file written) s.

(** After a failed write the context is queued twice. *)
Definition finish_context (info : TaskInfo) (data : str) (written : bool) (p : positive) (s : WebModule T) :
    outcome (Z * WebModule T) :=
  s ← update_context p (fun c => clamp_query info (take_progress info c)) s;
  c ← load_context s p;
  s ← match eReqType c with
      | ONCE_FILE =>
          s ← update_context p (set_handle 0) s;
          if written then Ok s else s ← update_context p write_failed s; Cleanup p s
      | _ => update_context p (fun c => set_param2 1 (set_content data c)) s
      end;
  s ← Cleanup p s; Ok (0, s).

Definition handle_finish (same : bool) (taskid : Z) (info : TaskInfo) (written : bool) (s : WebModule T) :
    outcome (Z * WebModule T) :=
  _ ← check_thread same;
  match respData info with
  | None => Ok (-1, s)
  | Some data =>
      let nSeqNo := GetSeqNo taskid s in
      if nSeqNo =? -1 then Ok (-1, s)
      else match GetContext (u32 nSeqNo) s with
      | None => Ok (0, s)
      | Some p => finish_context info data written p s
      end
  end.

Definition error_context (info : TaskInfo) (p : positive) (s : WebModule T) : outcome (Z * WebModule T) :=
  s ← update_context p (fun c =>
        set_content (strContentData c ++ default [] (respData info))
          (set_length (i32 (contentLength info))
             (set_outcome FAILED (u32 (errcode info)) (u32 (httpCode info)) c))) s;
  s ← Cleanup p s; Ok (0, s).

Definition handle_error (same : bool) (taskid : Z) (info : TaskInfo) (s : WebModule T) : outcome (Z * WebModule T) :=
  _ ← check_thread same;
  let nSeqNo := GetSeqNo taskid s in
  if nSeqNo =? -1 then Ok (-1, s)
  else match GetContext (u32 nSeqNo) s with
  | None => Ok (0, s)
  | Some p => error_context info p s
  end.

(** ** The module *)

(** The event that reports a failed request. *)
Definition failure_event (c : HTTPCONTEXT) (s : WebModule T) : WebEvent :=
  mkWebEvent (u32 (nEventValue c - SERVICE_VALUE_WEB_BEGIN + EVENT_VALUE_WEB_BEGIN))
    (default MODULE_ID_INVALID (m_mapSeqNo2ModuleId s !! nReqSeq c)) (uOpPolicy c) 0 (nReqSeq c) NoBody.

(** What [ProcessGetResponse] does with a processed response; the flag says
    whether the loop goes on. *)
Definition handle_response (c : HTTPCONTEXT) (s : WebModule T) : outcome (bool * WebModule T) :=
  if uOpPolicy c =? INVALID_SEQNO then Ok (false, s)
  else if uOpPolicy c =? REPEATED_REQ then Ok (true, s)
  else if uOpPolicy c =? SUCCESS_RESP then
    if bool_decide (eReqType c = FRAG_BUFFER) && negb (uParam2 c =? 1) then Ok (true, s)
    else s ← DeleteSeqNo (nReqSeq c) s; Ok (true, s)
  else s ← DeleteSeqNo (nReqSeq c) (push_event (failure_event c s) s); Ok (true, s).

(** [if( uNum++ > 10) break] comes after a response was taken. *)
Fixpoint get_responses (fuel : nat) (uNum : Z) (s : WebModule T) : outcome (WebModule T) :=
  match fuel with
  | O => Fault NoFuel
  | S fuel =>
      r ← ProcessResp s;
      let '(c, s) := (r : HTTPCONTEXT * WebModule T) in
      if 10 <? uNum then Ok s
      else
        r ← handle_response c s;
        let '(more, s) := (r : bool * WebModule T) in
        if more then get_responses fuel (u8 (uNum + 1)) s else Ok s
  end.

(** Twelve rounds at most. *)
Definition ProcessGetResponse (s : WebModule T) : outcome (WebModule T) := get_responses 12 0 s.

Definition send_one (s : WebModule T) : outcome (WebModule T) :=
  match PopUrl s with
  | Some (p, s) => ReqUrl p s
  | None => Ok s
  end.

Definition ProcessSendUrl (s : WebModule T) : outcome (WebModule T) :=
  s ← send_one s; s ← send_one s; send_one s.

Definition OnMessage_CycleTrigged (s : WebModule T) : outcome (WebModule T) :=
  s ← ProcessGetResponse s; ProcessSendUrl s.

(** *** Services *)

Context (UnicodeToANSI : wstring -> str).

(** The end of every service: the request is queued and the requesting module
    noted. *)
Definition push_service (srcMId : Z) (r : Request) (s : WebModule T) : outcome (Z * WebModule T) :=
  x ← PushUrl r s;
  let '(n, s) := (x : Z * WebModule T) in
  Ok (i32 n, if n =? INVALID_SEQNO then s else with_modules (<[n := srcMId]> (m_mapSeqNo2ModuleId s)) s).

(** A request with the default arguments of [PushUrl]. *)
Definition get_request (service : Z) (url : wstring) : Request :=
  mkRequest service 0 (UnicodeToANSI url) None ONCE_BUFFER [] 30 true.

(** [ASSERT(0); return -1;] for a null parameter, or one of another service. *)
Definition refuse (s : WebModule T) : outcome (Z * WebModule T) := _ ← ASSERT false; Ok (-1, s).

(** The parameters of a service: the number of the service, the module that asks, and what
    the service needs besides; [None] is a null pointer. *)
Definition OnService_GetFavoriteIcon (pService : option (Z * Z * wstring)) (s : WebModule T) : outcome (Z * WebModule T) :=
  match pService with
  | Some (serviceId, srcMId, szFavoriteUrl) =>
      if srcMId =? MODULE_ID_INVALID then refuse s else push_service srcMId (get_request serviceId szFavoriteUrl) s
  | None => refuse s
  end.

(** The test of the other services. *)
Definition for_service (v : WebService) (pService : option (Z * Z)) (f : Z -> Z -> outcome (Z * WebModule T)) (s : WebModule T) :
    outcome (Z * WebModule T) :=
  match pService with
  | Some (serviceId, srcMId) => if negb (serviceId =? SERVICE_VALUE_WEB v) then refuse s else f serviceId srcMId
  | None => refuse s
  end.

Definition OnService_OpenUrlTraveler (pService : option (Z * Z)) (s : WebModule T) : outcome (Z * WebModule T) :=
  for_service OPEN_URLTRAVELER pService (fun serviceId srcMId =>
    push_service srcMId (get_request serviceId (lit "http://1.urltraveler.sinaapp.com/login.php")) s) s.

Definition OnService_CloseUrlTraveler (pService : option (Z * Z)) (s : WebModule T) : outcome (Z * WebModule T) :=
  for_service CLOSE_URLTRAVELER pService (fun serviceId srcMId =>
    push_service srcMId (get_request serviceId (lit "http://1.urltraveler.sinaapp.com/logout.php")) s) s.

Definition OnService_LoginInUrlTraveler (s : WebModule T) : outcome (Z * WebModule T) := Ok (-1, s).

Definition OnService_LoginOutUrlTraveler (s : WebModule T) : outcome (Z * WebModule T) := Ok (-1, s).

(** The arguments are put together and then not passed on. *)
Definition OnService_ReportUserInfo (pService : option (Z * Z)) (s : WebModule T) : outcome (Z * WebModule T) :=
  for_service REPORT_USERINFO pService (fun serviceId srcMId =>
    push_service srcMId (get_request serviceId (lit "http://1.urltraveler.sinaapp.com/userinfo.php")) s) s.

(** [version] is what [MiscHelper::GetCurrentVersion()] returns, as text. *)
Definition OnService_CheckUpdateConfig (version : wstring) (pService : option (Z * Z)) (s : WebModule T) : outcome (Z * WebModule T) :=
  for_service CHECK_UPDATE_CONFIG pService (fun serviceId srcMId =>
    push_service srcMId (get_request serviceId
      (lit "http://urltraveler.sinaapp.com/getversion.php?type=copy&clientVersion=" ++ version)) s) s.

Definition OnService_DownloadUpdateFile (szUpdateFileUrl szSavePath : wstring) (pService : option (Z * Z)) (s : WebModule T) :
    outcome (Z * WebModule T) :=
  for_service DOWNLOAD_UPDATE_FILE pService (fun serviceId srcMId =>
    push_service srcMId
      (mkRequest serviceId 0 (UnicodeToANSI (ANSIToUnicode (UnicodeToANSI szUpdateFileUrl))) None ONCE_FILE szSavePath 30 true) s) s.

(** The pair is the number of the service and of the request. *)
Definition OnService_QueryDownloadUpdateFileProcess (pService : option (Z * Z)) (s : WebModule T) :
    outcome (Z * option (Z * Z * Z * Z * Z)) :=
  match pService with
  | Some (serviceId, nSeqNo) =>
      if negb (serviceId =? SERVICE_VALUE_WEB QUERY_DOWNLOAD_FILE_PROESS) then _ ← ASSERT false; Ok (-1, None)
      else
        r ← QueryDownloadProcess nSeqNo s;
        Ok (match r with None => INVALID_SEQNO | Some _ => READY_SEQNO end, r)
  | None => _ ← ASSERT false; Ok (-1, None)
  end.

(** The service map. *)
Inductive ServiceCall :=
| CallGetFavoriteIcon (pService : option (Z * Z * wstring))
| CallOpenUrlTraveler (pService : option (Z * Z))
| CallCloseUrlTraveler (pService : option (Z * Z))
| CallLoginInUrlTraveler
| CallLoginOutUrlTraveler
| CallReportUserInfo (pService : option (Z * Z))
| CallCheckUpdateConfig (version : wstring) (pService : option (Z * Z))
| CallDownloadUpdateFile (szUpdateFileUrl szSavePath : wstring) (pService : option (Z * Z))
| CallQueryDownloadUpdateFileProcess (pService : option (Z * Z)).

Definition call_service (c : ServiceCall) (s : WebModule T) : outcome (Z * WebModule T) :=
  match c with
  | CallGetFavoriteIcon p => OnService_GetFavoriteIcon p s
  | CallOpenUrlTraveler p => OnService_OpenUrlTraveler p s
  | CallCloseUrlTraveler p => OnService_CloseUrlTraveler p s
  | CallLoginInUrlTraveler => OnService_LoginInUrlTraveler s
  | CallLoginOutUrlTraveler => OnService_LoginOutUrlTraveler s
  | CallReportUserInfo p => OnService_ReportUserInfo p s
  | CallCheckUpdateConfig v p => OnService_CheckUpdateConfig v p s
  | CallDownloadUpdateFile u f p => OnService_DownloadUpdateFile u f p s
  | CallQueryDownloadUpdateFileProcess p => r ← OnService_QueryDownloadUpdateFileProcess p s; Ok (fst r, s)
  end.

End Module.
