(* ===== verification/WebSafety.v ===== *)
(** * The web module: memory safety

    Contexts are shared by the queue, the map of requests and the callbacks of
    the worker thread, and their arguments by copies in the list of results.
    [web_ok] says who owns what; every operation keeps it, so that none follows a
    dangling pointer or frees an object twice, in any order of services, cycles
    and callbacks that do not overlap.  The callbacks run in the worker's thread without a
    lock, and an example shows what an overlap can do. *)
From stdpp Require Import prelude gmap.
From Stdlib Require Import ZArith Lia String.
From S2P Require Import Prelude Protocol Favorites Strings Transfer TransferProofs Web.

Section Safety.
Context {T : Type} {TM : TransferManager T} {TL : TransferLaws T} {BLD : Build}.

(** Whether an assertion may fail: there are requests with POST arguments, which the library
    may refuse, services with a bad parameter, or callbacks in another thread. *)
Context (risky : bool).

(** ** Results *)

(** A run that returns a value in [P], or that ends at an assertion. *)
Definition safely {A} (P : A -> Prop) (o : outcome A) : Prop :=
  match o with Ok a => P a | Fault f => f = Aborted /\ NDEBUG = false /\ risky = true end.

Lemma safely_bind {A B} (P : A -> Prop) (Q : B -> Prop) (m : outcome A) (k : A -> outcome B) :
  safely P m -> (forall a, P a -> safely Q (k a)) -> safely Q (m ≫= k).
Proof. destruct m as [a|f]; cbn; auto. Qed.

Lemma safely_ASSERT {A} (Q : A -> Prop) b (k : unit -> outcome A) :
  (b = false -> risky = true) -> safely Q (k tt) -> safely Q (ASSERT b ≫= k).
Proof. unfold ASSERT. destruct b; [done|]. cbn. destruct NDEBUG eqn:E; cbn; auto. Qed.

Lemma safely_impl {A} (P Q : A -> Prop) m : safely P m -> (forall a, P a -> Q a) -> safely Q m.
Proof. destruct m as [a|f]; cbn; auto. Qed.

(** ** Ownership *)

Record web_ok (bound : Z) (s : WebModule T) : Prop := {
  ok_seq : 100 <= m_nReqSeq s <= bound;
  ok_live : forall p c, contexts s !! p = Some c -> 100 < nReqSeq c <= m_nReqSeq s;
  ok_seq_inj : forall p q c d, contexts s !! p = Some c -> contexts s !! q = Some d -> nReqSeq c = nReqSeq d -> p = q;
  ok_args : forall p c a, contexts s !! p = Some c -> pArgument c = Some a ->
    risky = true /\ exists ps, arguments s !! a = Some ps /\ Forall param_ok ps;
  ok_args_inj : forall p q c d a, contexts s !! p = Some c -> contexts s !! q = Some d ->
    pArgument c = Some a -> pArgument d = Some a -> p = q;
  ok_queue : forall p, p ∈ m_vRequestQueue s ->
    exists c, contexts s !! p = Some c /\ m_mapRequest (m_pHttpClient s) !! nReqSeq c = None;
  ok_queue_nodup : NoDup (m_vRequestQueue s);
  ok_requests : forall n p, m_mapRequest (m_pHttpClient s) !! n = Some p -> exists c, contexts s !! p = Some c /\ nReqSeq c = n;
  ok_results : forall r, r ∈ m_lstResult (m_pHttpClient s) -> 100 < nReqSeq r <= m_nReqSeq s /\
    forall p c, contexts s !! p = Some c -> nReqSeq c = nReqSeq r -> pArgument c = pArgument r;
  ok_tasks : forall n t, m_mapSeqNo2TaskId (m_pHttpClient s) !! n = Some t -> task_id t /\ is_Some (m_pTransferManager s);
  ok_transfer : forall t, m_pTransferManager s = Some t -> transfer_ok t
}.

(** What [web_ok] says about a copy of a context that was taken from the results. *)
Definition result_ok (r : HTTPCONTEXT) (s : WebModule T) : Prop :=
  forall p c, contexts s !! p = Some c -> nReqSeq c = nReqSeq r -> pArgument c = pArgument r.

(** Changes of a context that leave its number and its argument alone. *)
Definition keeps (f : HTTPCONTEXT -> HTTPCONTEXT) : Prop :=
  forall c, nReqSeq (f c) = nReqSeq c /\ pArgument (f c) = pArgument c.

Lemma lookup_update (m : gmap positive HTTPCONTEXT) f p c q d : keeps f -> m !! p = Some c -> <[p := f c]> m !! q = Some d ->
  exists d', m !! q = Some d' /\ nReqSeq d' = nReqSeq d /\ pArgument d' = pArgument d.
Proof.
  intros Hf Hp Hq. destruct (Hf c) as [H1 H2]. destruct (decide (q = p)) as [->|Hne].
  - rewrite lookup_insert_eq in Hq. injection Hq as <-. eauto.
  - rewrite lookup_insert_ne in Hq by done. eauto.
Qed.

Lemma web_ok_update b s p c f : keeps f -> web_ok b s -> contexts s !! p = Some c ->
  web_ok b (with_contexts (<[p := f c]> (contexts s)) s).
Proof.
  intros Hf [] Hp. pose proof (fun q d => lookup_update (contexts s) f p c q d Hf Hp) as HU.
  constructor; cbn [with_contexts contexts arguments m_vRequestQueue m_nReqSeq m_pHttpClient m_pTransferManager].
  - done.
  - intros q d (d' & Hd & <- & _)%HU. eauto.
  - intros q q' d d' (e & He & E1 & _)%HU (e' & He' & E2 & _)%HU H. eapply ok_seq_inj0; [exact He|exact He'|congruence].
  - intros q d a (e & He & _ & E1)%HU H. eapply ok_args0; [exact He|congruence].
  - intros q q' d d' a (e & He & _ & E1)%HU (e' & He' & _ & E2)%HU H H'. eapply (ok_args_inj0 q q' e e' a); [exact He|exact He'|congruence..].
  - intros q (d & Hd & Hn)%ok_queue0. destruct (decide (q = p)) as [->|].
    + rewrite lookup_insert_eq. eexists. split; [done|]. rewrite (proj1 (Hf c)). congruence.
    + rewrite lookup_insert_ne by done. eauto.
  - done.
  - intros n q (d & Hd & Hn)%ok_requests0. destruct (decide (q = p)) as [->|].
    + rewrite lookup_insert_eq. eexists. split; [done|]. rewrite (proj1 (Hf c)). congruence.
    + rewrite lookup_insert_ne by done. eauto.
  - intros r [Hr1 Hr2]%ok_results0. split; [done|]. intros q d (e & He & E1 & E2)%HU Hn. rewrite <- E2. eapply Hr2; [done|congruence].
  - done.
  - done.
Qed.

Lemma update_context_ok b s p f : keeps f -> web_ok b s -> is_Some (contexts s !! p) ->
  exists c, contexts s !! p = Some c /\ update_context p f s = Ok (with_contexts (<[p := f c]> (contexts s)) s) /\
    web_ok b (with_contexts (<[p := f c]> (contexts s)) s).
Proof.
  intros Hf Hok [c Hp]. exists c. split; [done|]. unfold update_context, load_context. rewrite Hp. split; [done|].
  by apply web_ok_update.
Qed.

(** Steps that touch neither the contexts nor the map of requests. *)
Lemma web_ok_frame b s client m mods ev : web_ok b s ->
  m_mapRequest client = m_mapRequest (m_pHttpClient s) ->
  (forall r, r ∈ m_lstResult client -> r ∈ m_lstResult (m_pHttpClient s) \/ exists p, contexts s !! p = Some r) ->
  (forall n t, m_mapSeqNo2TaskId client !! n = Some t -> task_id t /\ is_Some m) ->
  (forall t, m = Some t -> transfer_ok t) ->
  web_ok b (mkWeb T (contexts s) (arguments s) (m_vRequestQueue s) (m_nReqSeq s) client m mods ev).
Proof.
  intros [] Hreq Hres Htasks Htr.
  constructor; cbn [contexts arguments m_vRequestQueue m_nReqSeq m_pHttpClient m_pTransferManager]; try rewrite Hreq; try done.
  intros r [Hr|[p Hp]]%Hres; [by apply ok_results0|]. split; [by eapply ok_live0|]. intros q d Hq Hn.
  assert (q = p) as -> by eauto. congruence.
Qed.

Lemma old_result s client : m_lstResult client = m_lstResult (m_pHttpClient s) ->
  forall r, r ∈ m_lstResult client -> r ∈ m_lstResult (m_pHttpClient s) \/ exists p, contexts (T := T) s !! p = Some r.
Proof. intros -> r Hr. by left. Qed.

Lemma ClearSeqIdMap_ok b n s : web_ok b s ->
  safely (fun s' => web_ok b s' /\ contexts s' = contexts s) (ClearSeqIdMap n s).
Proof.
  intros Hok. unfold ClearSeqIdMap. destruct (_ !! n) as [t|] eqn:Et; [|done].
  destruct (ok_tasks b s Hok n t Et) as [Ht [m Hm]]. rewrite Hm. cbn [deref]. rewrite Ok_bind.
  destruct (cancel_safe t m (ok_transfer b s Hok m Hm) Ht) as (r & m' & -> & Hm'). rewrite Ok_bind. split; [|done].
  apply (web_ok_frame b s); cbn; [done|done|by apply old_result| |by intros ? [= <-]].
  intros n' t' [_ H]%lookup_delete_Some. destruct (ok_tasks b s Hok n' t' H). split; [done|eauto].
Qed.

Lemma web_ok_delete b s n p c arg : web_ok b s -> m_mapRequest (m_pHttpClient s) !! n = Some p -> contexts s !! p = Some c ->
  (forall a ps, arguments s !! a = Some ps -> pArgument c <> Some a -> arg !! a = Some ps) ->
  web_ok b (with_client (with_requests (base.delete n (m_mapRequest (m_pHttpClient s))) (m_pHttpClient s))
              (with_contexts (base.delete p (contexts s)) (with_arguments arg s))).
Proof.
  intros Hok Hn Hp Harg. pose proof Hok as []. destruct (ok_requests0 n p Hn) as (c' & Hp' & Hseq).
  assert (c' = c) as -> by congruence.
  constructor; cbn [with_client with_contexts with_arguments with_requests contexts arguments m_vRequestQueue m_nReqSeq
                    m_pHttpClient m_pTransferManager m_mapRequest m_mapSeqNo2TaskId m_lstResult]; try done.
  - intros q d [_ Hd]%lookup_delete_Some. eauto.
  - intros q q' d d' [_ Hd]%lookup_delete_Some [_ Hd']%lookup_delete_Some. eauto.
  - intros q d a [Hne Hd]%lookup_delete_Some Ha. destruct (ok_args0 q d a Hd Ha) as (Hposts & ps & Hps & Hall).
    split; [done|]. exists ps. split; [|done]. apply Harg; [done|]. intros Ha'. apply Hne. by eapply (ok_args_inj0 p q c d a).
  - intros q q' d d' a [_ Hd]%lookup_delete_Some [_ Hd']%lookup_delete_Some. eauto.
  - intros q Hq. destruct (ok_queue0 q Hq) as (d & Hd & Hno). exists d. rewrite lookup_delete_None.
    split; [|by right]. rewrite lookup_delete_ne; [done|]. intros ->. congruence.
  - intros n' q [Hne Hq]%lookup_delete_Some. destruct (ok_requests0 n' q Hq) as (d & Hd & Hnd). exists d.
    rewrite lookup_delete_ne; [done|]. intros ->. congruence.
  - intros r [Hr1 Hr2]%ok_results0. split; [done|]. intros q d [_ Hd]%lookup_delete_Some. eauto.
Qed.

Lemma delete_argument_ok b p c s : web_ok b s -> contexts s !! p = Some c ->
  exists arg, delete_argument (pArgument c) s = Ok (with_arguments arg s) /\
    (forall a ps, arguments s !! a = Some ps -> pArgument c <> Some a -> arg !! a = Some ps).
Proof.
  intros Hok Hp. destruct (pArgument c) as [a|] eqn:Ea; cbn [delete_argument].
  - destruct (ok_args b s Hok p c a Hp Ea) as (_ & ps & Hps & _). rewrite Hps. eexists. split; [done|].
    intros a' ps' H Hne. rewrite lookup_delete_ne; [done|]. congruence.
  - exists (arguments s). split; [by destruct s|done].
Qed.

Lemma DeleteSeqNo_ok b n s0 : web_ok b s0 -> safely (web_ok b) (DeleteSeqNo n s0).
Proof.
  intros Hok0. unfold DeleteSeqNo. eapply safely_bind; [by apply ClearSeqIdMap_ok|]. intros s [Hok _].
  unfold GetContext. destruct (_ !! n) as [p|] eqn:Ep; [|done].
  destruct (ok_requests b s Hok n p Ep) as (c & Hp & Hn). unfold load_context. rewrite Hp, Ok_bind.
  destruct (delete_argument_ok b p c s Hok Hp) as (arg & -> & Harg). rewrite Ok_bind.
  by apply (web_ok_delete b s n p c arg).
Qed.

Lemma Cleanup_ok b p s : web_ok b s -> is_Some (contexts s !! p) ->
  safely (fun s' => web_ok b s' /\ contexts s' = contexts s) (Cleanup p s).
Proof.
  intros Hok [c Hp]. unfold Cleanup, load_context. rewrite Hp, Ok_bind. split; [|done].
  apply (web_ok_frame b s); cbn; [done|done| |apply Hok|apply Hok].
  intros r [Hr|Hr]%elem_of_app; [by left|]. apply list_elem_of_singleton in Hr as ->. eauto.
Qed.

(** ** Sending a request *)

Lemma web_ok_request b s p c : web_ok b s -> contexts s !! p = Some c -> p ∉ m_vRequestQueue s ->
  web_ok b (with_client (with_requests (<[nReqSeq c := p]> (m_mapRequest (m_pHttpClient s))) (m_pHttpClient s)) s).
Proof.
  intros Hok Hp Hq. pose proof Hok as [].
  constructor; cbn [with_client with_requests contexts arguments m_vRequestQueue m_nReqSeq
                    m_pHttpClient m_pTransferManager m_mapRequest m_mapSeqNo2TaskId m_lstResult]; try done.
  - intros q Hin. destruct (ok_queue0 q Hin) as (d & Hd & Hn). exists d. split; [done|].
    rewrite lookup_insert_ne; [done|]. intros E. assert (p = q) as -> by eauto. done.
  - intros n q [[<- <-]|[_ H]]%lookup_insert_Some; eauto.
Qed.

Lemma web_ok_transfer b s t : web_ok b s -> transfer_ok t -> web_ok b (with_transfer (Some t) s).
Proof.
  intros Hok Ht. apply (web_ok_frame b s); [done|done|by apply old_result| |by intros ? [= <-]].
  intros n t' H. split; [by apply (ok_tasks b s Hok n)|eauto].
Qed.

Lemma web_ok_enter b s ret n t : web_ok b s -> task_id ret -> m_pTransferManager s = Some t -> web_ok b (enter_task ret n s).
Proof.
  intros Hok Ht Hm. apply (web_ok_frame b s); cbn; [done|done|by apply old_result| |apply Hok].
  intros n' t' [[<- <-]|[_ H]]%lookup_insert_Some; [split; [done|rewrite Hm; eauto]|]. by apply (ok_tasks b s Hok n').
Qed.

(** The answer of [addTask] to a context is used. *)
Lemma add_get_ok c t : transfer_ok t -> exists r t', add_get c t = Ok (r, t') /\ transfer_ok t' /\ (0 <= r -> task_id r).
Proof. intros Ht. by apply add_safe. Qed.

Lemma add_post_ok b s p c a t : web_ok b s -> contexts s !! p = Some c -> pArgument c = Some a -> transfer_ok t ->
  forall c', exists r t', add_post c' a s t = Ok (r, t') /\ transfer_ok t' /\ (0 <= r -> task_id r).
Proof.
  intros Hok Hp Ha Ht c'. destruct (ok_args b s Hok p c a Hp Ha) as (_ & ps & Hps & Hall).
  unfold add_post, load_argument. rewrite Hps, Ok_bind. apply add_safe; [done|by destruct (is_uploadtype ps)|].
  by intros ps' [= <-].
Qed.

Lemma keeps_set_task r : keeps (set_task r).
Proof. done. Qed.

Lemma keeps_set_failed r : keeps (set_failed r).
Proof. done. Qed.

#[local] Hint Resolve keeps_set_task keeps_set_failed : core.

Lemma ReqURL_ok b s p c : web_ok b s -> contexts s !! p = Some c -> p ∉ m_vRequestQueue s -> safely (web_ok b) (ReqURL p s).
Proof.
  intros Hok Hp Hq. unfold ReqURL. destruct (m_pTransferManager s) as [t|] eqn:Em; [|done].
  unfold load_context. rewrite Hp, Ok_bind. cbv zeta. pose proof (web_ok_request b s p c Hok Hp Hq) as Hok1.
  set (s1 := with_client _ s) in *.
  destruct (add_get_ok c t (ok_transfer b s Hok t Em)) as (r & t' & -> & Ht' & Hr). rewrite Ok_bind. cbn [fst snd].
  pose proof (web_ok_transfer b s1 t' Hok1 Ht') as Hok2. destruct (Z.ltb_spec r 0); [done|].
  destruct (update_context_ok b (with_transfer (Some t') s1) p (set_task r)) as (d & Hd & -> & Hok3); [done|done|by exists c|].
  rewrite Ok_bind. by eapply web_ok_enter; eauto.
Qed.

Lemma ReqPostUrl_ok b s p c : web_ok b s -> contexts s !! p = Some c -> p ∉ m_vRequestQueue s -> pArgument c <> None ->
  safely (web_ok b) (ReqPostUrl p s).
Proof.
  intros Hok Hp Hq Ha. unfold ReqPostUrl. destruct (m_pTransferManager s) as [t|] eqn:Em; [|done].
  unfold load_context. rewrite Hp, Ok_bind. cbv zeta. pose proof (web_ok_request b s p c Hok Hp Hq) as Hok1.
  set (s1 := with_client _ s) in *. destruct (pArgument c) as [a|] eqn:Ea; [|done]. cbn [deref]. rewrite Ok_bind.
  destruct (add_post_ok b s1 p c a t Hok1 Hp Ea (ok_transfer b s Hok t Em) c) as (r & t' & -> & Ht' & Hr). rewrite Ok_bind.
  cbn [fst snd]. pose proof (web_ok_transfer b s1 t' Hok1 Ht') as Hok2. destruct (Z.ltb_spec r 0).
  { apply safely_ASSERT; [|done]. intros _. by destruct (ok_args b s Hok p c a Hp Ea). }
  pose proof (web_ok_enter b _ r (nReqSeq c) t' Hok2 (Hr ltac:(lia)) eq_refl) as Hok3.
  destruct (update_context_ok b _ p (set_task r) (keeps_set_task r) Hok3) as (d & Hd & -> & Hok4); [by exists c|]. done.
Qed.

Lemma ReReq_ok b s c add : web_ok b s -> result_ok c s ->
  (forall s t, web_ok b s -> result_ok c s -> transfer_ok t -> is_Some (m_mapRequest (m_pHttpClient s) !! nReqSeq c) ->
     exists r t', add s t = Ok (r, t') /\ transfer_ok t' /\ (0 <= r -> task_id r)) ->
  safely (fun x => web_ok b (snd x)) (ReReq add c s).
Proof.
  intros Hok Hres Hadd. unfold ReReq. destruct (m_pTransferManager s) as [t|] eqn:Em; [|done]. unfold GetContext.
  destruct (_ !! nReqSeq c) as [p|] eqn:Ep; [|done]. destruct (ok_requests b s Hok _ _ Ep) as (d & Hd & Hn).
  destruct (update_context_ok b s p (set_failed (nFailedTime c)) (keeps_set_failed _) Hok ltac:(eauto)) as (d' & Hd' & -> & Hok1).
  rewrite Ok_bind. set (s1 := with_contexts _ s) in *.
  destruct (Hadd s1 t Hok1) as (r & t' & -> & Ht' & Hr).
  { intros q e (e' & He & E1 & E2)%lookup_update Hne; [|done..]. rewrite <- E2. eapply Hres; [done|congruence]. }
  { by apply (ok_transfer b s). }
  { by exists p. }
  rewrite Ok_bind. cbn [fst snd]. pose proof (web_ok_transfer b s1 t' Hok1 Ht') as Hok2.
  destruct (Z.ltb_spec r 0); [done|]. by eapply web_ok_enter; eauto.
Qed.

Lemma ReReqUrl_ok b s0 c : web_ok b s0 -> result_ok c s0 -> safely (fun x => web_ok b (snd x)) (ReReqUrl c s0).
Proof.
  intros Hok0 Hres. unfold ReReqUrl. case_bool_decide; [done|].
  eapply safely_bind; [by apply ClearSeqIdMap_ok|]. intros s [Hok Hctx].
  assert (Hres' : result_ok c s) by (unfold result_ok; by rewrite Hctx).
  destruct (pArgument c) as [a|] eqn:Ea; (apply ReReq_ok; [done..|]).
  - intros s2 t Hok2 Hres2 Ht [p Hp]. rewrite Ea. destruct (ok_requests b s2 Hok2 _ _ Hp) as (d & Hd & Hn).
    eapply add_post_ok; [done|exact Hd|rewrite <- Ea; by apply (Hres2 p)|done].
  - intros s2 t Hok2 Hres2 Ht _. by apply add_get_ok.
Qed.

Lemma web_ok_pop b s p q : web_ok b s -> m_vRequestQueue s = p :: q ->
  web_ok b (with_queue q (m_nReqSeq s) s) /\ (p ∉ q) /\ is_Some (contexts s !! p).
Proof.
  intros Hok Hq. pose proof Hok as []. rewrite Hq in ok_queue0, ok_queue_nodup0. apply NoDup_cons in ok_queue_nodup0 as [Hp Hnd].
  split_and!; [|done|].
  - constructor; cbn [with_queue contexts arguments m_vRequestQueue m_nReqSeq m_pHttpClient m_pTransferManager]; try done.
    intros x Hx. apply ok_queue0. by right.
  - destruct (ok_queue0 p) as (c & Hc & _); [by left|]. eauto.
Qed.

Lemma exist_url_ok url q s : (forall p, p ∈ q -> is_Some (contexts (T := T) s !! p)) -> exists r, exist_url url q s = Ok r.
Proof.
  induction q as [|p q IH]; intros Hq; cbn [exist_url]; [eauto|].
  destruct (Hq p) as [c Hc]; [by left|]. unfold load_context. rewrite Hc, Ok_bind. case_bool_decide; [eauto|].
  apply IH. intros x Hx. apply Hq. by right.
Qed.

Lemma ReqUrl_ok b s p : web_ok b s -> is_Some (contexts s !! p) -> p ∉ m_vRequestQueue s -> safely (web_ok b) (ReqUrl p s).
Proof.
  intros Hok [c Hp] Hq. unfold ReqUrl, load_context. rewrite Hp, Ok_bind. case_bool_decide; [done|].
  assert (Hk : exists k, (if bAllowRepeated c then Ok false else IsExistUrl (strURL c) s) = Ok k).
  { destruct (bAllowRepeated c); [eauto|]. apply exist_url_ok. intros x (d & Hd & _)%(ok_queue b s Hok). eauto. }
  destruct Hk as [[|] ->]; rewrite Ok_bind; [done|].
  destruct (pArgument c) eqn:Ea; [by eapply ReqPostUrl_ok; eauto; congruence|by eapply ReqURL_ok].
Qed.

Lemma send_one_ok b s : web_ok b s -> safely (web_ok b) (send_one s).
Proof.
  intros Hok. unfold send_one, PopUrl. destruct (m_vRequestQueue s) as [|p q] eqn:Eq; [done|].
  destruct (web_ok_pop b s p q Hok Eq) as (Hok' & Hn & Hp). by apply ReqUrl_ok.
Qed.

Lemma ProcessSendUrl_ok b s : web_ok b s -> safely (web_ok b) (ProcessSendUrl s).
Proof.
  intros Hok. unfold ProcessSendUrl. repeat (eapply safely_bind; [by apply send_one_ok|]; clear dependent s; intros s Hok).
  by apply send_one_ok.
Qed.

(** ** Answers *)

Context (ANSIToUnicode : str -> wstring).

Lemma web_ok_event b s e : web_ok b s -> web_ok b (push_event e s).
Proof. intros Hok. apply (web_ok_frame b s); [done|done|by apply old_result|apply Hok..]. Qed.

Lemma ParseResponse_ok b c s : web_ok b s -> web_ok b (ParseResponse ANSIToUnicode c s).
Proof.
  intros Hok. unfold ParseResponse, ParseGetFavIcon, ParseCheckUpdateConfig, ParseDownloadUpdateFile.
  repeat (case_match; [done || by apply web_ok_event|]). done.
Qed.

Lemma RetriveResp_ok b s : web_ok b s ->
  web_ok b (snd (RetriveResp s)) /\ (uOpPolicy (fst (RetriveResp s)) <> INVALID_RESP -> result_ok (fst (RetriveResp s)) (snd (RetriveResp s))).
Proof.
  intros Hok. unfold RetriveResp. destruct (m_lstResult (m_pHttpClient s)) as [|c l] eqn:El; [done|]. cbn [fst snd]. split.
  - apply (web_ok_frame b s); cbn; [done|done| |apply Hok..]. intros r Hr. left. rewrite El. by right.
  - intros _. destruct (ok_results b s Hok c) as [_ H]; [rewrite El; by left|exact H].
Qed.

Lemma ProcessResp_ok b s0 : web_ok b s0 -> safely (fun x => web_ok b (snd x)) (ProcessResp ANSIToUnicode s0).
Proof.
  intros Hok0. destruct (RetriveResp_ok b s0 Hok0) as [Hok Hres]. unfold ProcessResp.
  destruct (RetriveResp s0) as [c s]. cbn [fst snd] in *. destruct (Z.eqb_spec (uOpPolicy c) INVALID_RESP); [done|].
  specialize (Hres ltac:(done)). case_bool_decide; [done|]. destruct (uResult c =? FAILED).
  - destruct (nErrorCode c =? _); [done|]. cbv zeta. destruct (_ <? 3); [|done].
    eapply safely_bind; [by apply (ReReqUrl_ok b s)|]. done.
  - destruct (_ && _); [done|]. by apply ParseResponse_ok.
Qed.

Lemma handle_response_ok b c s : web_ok b s -> safely (fun x => web_ok b (snd x)) (handle_response c s).
Proof.
  intros Hok. unfold handle_response. destruct (_ =? _); [done|]. destruct (_ =? _); [done|]. destruct (_ =? _).
  - destruct (_ && _); [done|]. eapply safely_bind; [by apply DeleteSeqNo_ok|]. done.
  - eapply safely_bind; [by apply DeleteSeqNo_ok, web_ok_event|]. done.
Qed.

Lemma get_responses_ok b n k s : web_ok b s -> (12 - k <= Z.of_nat n) -> 0 <= k <= 11 ->
  safely (web_ok b) (get_responses ANSIToUnicode n k s).
Proof.
  revert k s. induction n as [|n IH]; intros k s Hok Hn Hk; [lia|]. cbn [get_responses].
  eapply safely_bind; [by apply ProcessResp_ok|]. intros [c s1] Hok1. destruct (Z.ltb_spec 10 k); [done|].
  eapply safely_bind; [by apply handle_response_ok|]. intros [more s2] Hok2. destruct more; [|done].
  apply IH; [done|..]; rewrite u8_small by lia; lia.
Qed.

Lemma OnMessage_CycleTrigged_ok b s : web_ok b s -> safely (web_ok b) (OnMessage_CycleTrigged ANSIToUnicode s).
Proof.
  intros Hok. unfold OnMessage_CycleTrigged. eapply safely_bind; [by apply get_responses_ok; [|lia..]|].
  intros s1. apply ProcessSendUrl_ok.
Qed.

(** ** Callbacks *)

Lemma keeps_finish info : keeps (fun c => clamp_query info (take_progress info c)).
Proof. intros c. unfold clamp_query. by destruct (bool_decide _). Qed.

Lemma update_ok b s p f : keeps f -> web_ok b s -> is_Some (contexts s !! p) ->
  safely (fun s' => web_ok b s' /\ is_Some (contexts s' !! p)) (update_context p f s).
Proof.
  intros Hf Hok Hp. destruct (update_context_ok b s p f Hf Hok Hp) as (c & Hc & -> & Hok'). split; [done|].
  cbn. rewrite lookup_insert_eq. eauto.
Qed.

Lemma load_ok (s : WebModule T) p : is_Some (contexts s !! p) -> exists c, load_context s p = Ok c.
Proof. intros [c Hc]. exists c. unfold load_context. by rewrite Hc. Qed.

(** A goal that a sequence of steps on a live context is safe. *)
Ltac on_context :=
  repeat match goal with
  | H : is_Some (contexts ?s !! ?p) |- safely _ (load_context ?s ?p ≫= _) =>
      let c := fresh "c" in let Hc := fresh "Hc" in destruct (load_ok s p H) as [c Hc]; rewrite Hc, Ok_bind; clear Hc
  | Hok : web_ok _ ?s, H : is_Some (contexts ?s !! ?p) |- safely _ (update_context ?p ?f ?s ≫= _) =>
      eapply safely_bind; [eapply (update_ok _ s p f); [first [done|apply keeps_finish]|exact Hok|exact H]|]; clear Hok H;
      let s' := fresh "s" in let Hok := fresh "Hok" in let Hp := fresh "Hp" in intros s' [Hok Hp]
  | Hok : web_ok _ ?s, H : is_Some (contexts ?s !! ?p) |- safely _ (Cleanup ?p ?s ≫= _) =>
      eapply safely_bind; [by apply Cleanup_ok|];
      let s' := fresh "s" in let Hok' := fresh "Hok" in let E := fresh "E" in intros s' [Hok' E]; rewrite <- E in H; clear E Hok
  | |- safely _ (Ok _ ≫= _) => rewrite Ok_bind
  end.

Lemma on_task_ok b taskid f s : web_ok b s ->
  (forall p, is_Some (contexts s !! p) -> safely (fun x => web_ok b (snd x)) (f p s)) ->
  safely (fun x => web_ok b (snd x)) (on_task taskid f s).
Proof.
  intros Hok Hf. unfold on_task, GetContext. destruct (_ =? _); [done|]. destruct (_ !! _) as [p|] eqn:Ep; [|done].
  apply Hf. destruct (ok_requests b s Hok _ _ Ep) as (c & Hc & _). eauto.
Qed.

Lemma handle_headcomplete_ok b taskid info s : web_ok b s -> safely (fun x => web_ok b (snd x)) (handle_headcomplete taskid info s).
Proof. intros Hok. apply on_task_ok; [done|]. intros p Hp. on_context. case_bool_decide; [done|]. by on_context. Qed.

Lemma handle_process_ok b same taskid info file written s : (same = false -> risky = true) -> web_ok b s -> respData info <> None ->
  safely (fun x => web_ok b (snd x)) (handle_process same taskid info file written s).
Proof.
  intros Hth Hok Hdata. apply safely_ASSERT; [done|]. apply on_task_ok; [done|]. intros p Hp. unfold process_context. on_context.
  destruct (respData info) as [data|]; [|done]. destruct (eReqType c); cbn [deref]; on_context; [done|done|].
  destruct written; [done|]. by on_context.
Qed.

Lemma handle_finish_ok b same taskid info written s : (same = false -> risky = true) -> web_ok b s ->
  safely (fun x => web_ok b (snd x)) (handle_finish same taskid info written s).
Proof.
  intros Hth Hok. apply safely_ASSERT; [done|]. destruct (respData info) as [data|]; [|done]. cbv zeta. unfold GetContext.
  destruct (_ =? _); [done|]. destruct (_ !! _) as [p|] eqn:Ep; [|done]. unfold finish_context.
  destruct (ok_requests b s Hok _ _ Ep) as (c & Hc & _). assert (Hp : is_Some (contexts s !! p)) by eauto. clear Ep c Hc.
  on_context. assert (Hbody : safely (fun s' => web_ok b s' /\ is_Some (contexts s' !! p)) (match eReqType c with
      | ONCE_FILE => s ← update_context p (set_handle 0) s0; if written then Ok s else s ← update_context p write_failed s; Cleanup p s
      | _ => update_context p (fun c => set_param2 1 (set_content data c)) s0 end)).
  { destruct (eReqType c); [by apply update_ok..|]. on_context. destruct written; [done|]. on_context.
    eapply safely_impl; [by apply Cleanup_ok|]. by intros s9 [? ->]. }
  eapply safely_bind; [exact Hbody|]. clear dependent s0 c. intros s0 [Hok Hp]. by on_context.
Qed.

Lemma handle_error_ok b same taskid info s : (same = false -> risky = true) -> web_ok b s ->
  safely (fun x => web_ok b (snd x)) (handle_error same taskid info s).
Proof.
  intros Hth Hok. apply safely_ASSERT; [done|]. unfold GetContext. cbv zeta. destruct (_ =? _); [done|].
  destruct (_ !! _) as [p|] eqn:Ep; [|done]. unfold error_context.
  destruct (ok_requests b s Hok _ _ Ep) as (c & Hc & _). assert (Hp : is_Some (contexts s !! p)) by eauto. by on_context.
Qed.

(** ** Services and the end *)

Lemma web_ok_push b s p c arg : web_ok b s -> contexts s !! p = None -> nReqSeq c = m_nReqSeq s + 1 ->
  (forall a ps, arguments s !! a = Some ps -> arg !! a = Some ps) ->
  (forall a, pArgument c = Some a -> risky = true /\ (exists ps, arg !! a = Some ps /\ Forall param_ok ps) /\ arguments s !! a = None) ->
  web_ok (b + 1) (with_queue (m_vRequestQueue s ++ [p]) (m_nReqSeq s + 1)
                    (with_contexts (<[p := c]> (contexts s)) (with_arguments arg s))).
Proof.
  intros [] Hp Hseq Hmon Harg.
  constructor; cbn [with_queue with_contexts with_arguments contexts arguments m_vRequestQueue m_nReqSeq m_pHttpClient m_pTransferManager];
    try done.
  - lia.
  - intros q d [[<- <-]|[_ Hd]]%lookup_insert_Some; [lia|]. specialize (ok_live0 q d Hd). lia.
  - intros q q' d d' [[<- <-]|[Hn Hd]]%lookup_insert_Some [[<- <-]|[Hn' Hd']]%lookup_insert_Some; [done| | |eauto].
    + specialize (ok_live0 q' d' Hd'). lia.
    + specialize (ok_live0 q d Hd). lia.
  - intros q d a [[<- <-]|[_ Hd]]%lookup_insert_Some Ha; [by destruct (Harg a Ha) as (? & ? & _)|].
    destruct (ok_args0 q d a Hd Ha) as (? & ps & Hps & ?). eauto.
  - intros q q' d d' a [[<- <-]|[Hn Hd]]%lookup_insert_Some [[<- <-]|[Hn' Hd']]%lookup_insert_Some Ha Ha'; [done| | |eauto].
    + destruct (Harg a Ha) as (_ & _ & Hno), (ok_args0 q' d' a Hd' Ha') as (_ & ps & Hps & _). congruence.
    + destruct (Harg a Ha') as (_ & _ & Hno), (ok_args0 q d a Hd Ha) as (_ & ps & Hps & _). congruence.
  - intros q [Hq|Hq]%elem_of_app.
    + destruct (ok_queue0 q Hq) as (d & Hd & Hn). exists d. rewrite lookup_insert_ne by congruence. done.
    + apply list_elem_of_singleton in Hq as ->. exists c. rewrite lookup_insert_eq. split; [done|].
      destruct (_ !! nReqSeq c) as [q|] eqn:Eq; [|done]. destruct (ok_requests0 _ _ Eq) as (d & Hd & Hn).
      specialize (ok_live0 q d Hd). lia.
  - apply NoDup_app. split_and!; [done| |apply NoDup_singleton]. intros q Hq ->%list_elem_of_singleton.
    destruct (ok_queue0 p Hq) as (d & Hd & _). congruence.
  - intros n q Hq. destruct (ok_requests0 n q Hq) as (d & Hd & Hn). exists d. rewrite lookup_insert_ne by congruence. done.
  - intros r Hr. destruct (ok_results0 r Hr) as [Hr1 Hr2]. split; [lia|].
    intros q d [[<- <-]|[_ Hd]]%lookup_insert_Some; [lia|eauto].
Qed.

Lemma PushUrl_ok b r s : web_ok b s -> b + 1 < 2 ^ 32 ->
  (forall ps, r_argument r = Some ps -> risky = true /\ Forall param_ok ps) ->
  safely (fun x => web_ok (b + 1) (snd x)) (PushUrl r s).
Proof.
  intros Hok Hb Hr. unfold PushUrl. pose proof (ok_seq b s Hok) as Hseq.
  assert (Hp : contexts s !! fresh (dom (contexts s)) = None) by apply not_elem_of_dom, is_fresh.
  assert (Ha : arguments s !! fresh (dom (arguments s)) = None) by apply not_elem_of_dom, is_fresh.
  destruct (r_argument r) as [ps|] eqn:Er.
  - destruct (Hr ps eq_refl) as [Hposts Hps]. rewrite copy_params_built by (eapply Forall_impl; [exact Hps|by intros ? []]).
    rewrite !Ok_bind. cbn [safely snd with_arguments m_nReqSeq contexts m_vRequestQueue]. rewrite u32_small by lia.
    apply web_ok_push; [done|done|done| |].
    + intros a ps' H. rewrite lookup_insert_ne; [done|]. congruence.
    + intros a [= <-]. split_and!; [done| |done]. rewrite lookup_insert_eq. eauto.
  - rewrite Ok_bind. cbn [safely snd]. rewrite u32_small by lia.
    refine (web_ok_push b s _ _ (arguments s) Hok Hp _ _ _); done.
Qed.

Lemma CancelTask_ok b n s : web_ok b s -> safely (web_ok b) (CancelTask n s).
Proof.
  intros Hok. unfold CancelTask.
  assert (Hl : match GetContext n s with Some p => c ← load_context s p; Ok () | None => Ok () end = Ok ()).
  { destruct (GetContext n s) as [p|] eqn:Ep; [|done]. destruct (ok_requests b s Hok n p Ep) as (c & Hc & _).
    unfold load_context. by rewrite Hc. }
  rewrite Hl, Ok_bind. clear Hl. cbv zeta. destruct (_ !! n) as [t|] eqn:Et; [|done].
  destruct (ok_tasks b s Hok n t Et) as [Ht [m Hm]]. rewrite Hm.
  destruct (cancel_safe t m (ok_transfer b s Hok m Hm) Ht) as (r & m' & -> & Hm'). rewrite !Ok_bind. cbn [snd].
  pose proof Hok as []. constructor; cbn; try done.
  - intros q Hq. destruct (ok_queue0 q Hq) as (d & Hd & Hn). exists d. rewrite lookup_delete_None. auto.
  - intros n' q [_ Hq]%lookup_delete_Some. eauto.
  - intros n' t' [_ H]%lookup_delete_Some. split; [by apply (ok_tasks0 n')|eauto].
  - by intros ? [= <-].
Qed.

Lemma clean_loop_ok b (l : list (Z * positive)) s : NoDup (l.*1) ->
  web_ok b (with_client (with_requests (list_to_map l) (m_pHttpClient s)) s) ->
  safely (fun s' => web_ok b (with_client (with_requests ∅ (m_pHttpClient s')) s'))
    (for_each (fun s p => c ← load_context s p; s ← delete_argument (pArgument c) s;
                          Ok (with_contexts (base.delete p (contexts s)) s)) s (map snd l)).
Proof.
  revert s. induction l as [|[n p] l IH]; intros s Hnd Hok; cbn [map for_each]; [done|].
  apply NoDup_cons in Hnd as [Hn Hnd]. cbn [snd].
  destruct (ok_requests b _ Hok n p) as (c & Hc & Hcn); [apply lookup_insert_eq|]. unfold load_context.
  cbn [with_client contexts] in Hc. rewrite Hc, Ok_bind. destruct (delete_argument_ok b p c _ Hok Hc) as (arg & Harg & Hmon).
  assert (Harg' : delete_argument (pArgument c) s = Ok (with_arguments arg s)).
  { destruct (pArgument c) as [a|]; cbn in *.
    - destruct (arguments s !! a); [|done]. injection Harg as <-. done.
    - injection Harg as <-. by destruct s. }
  rewrite Harg'. rewrite !Ok_bind. apply IH; [done|].
  pose proof (web_ok_delete b _ n p c arg Hok ltac:(apply lookup_insert_eq) Hc Hmon) as H.
  cbn in H |- *. rewrite delete_insert_id in H; [exact H|]. by apply not_elem_of_list_to_map.
Qed.

Lemma CleanAll_ok b s : web_ok b s -> safely (web_ok b) (CleanAll s).
Proof.
  intros Hok. unfold CleanAll. eapply safely_bind.
  - apply (clean_loop_ok b). { apply NoDup_fst_map_to_list. }
    rewrite list_to_map_to_list. by destruct s as [? ? ? ? [] ? ? ?].
  - intros s' Hok'. pose proof Hok' as []. constructor; cbn in *; try done.
    intros r Hr. set_solver.
Qed.

Lemma QueryDownloadProcess_ok b n s : web_ok b s -> exists r, QueryDownloadProcess n s = Ok r.
Proof.
  intros Hok. unfold QueryDownloadProcess. destruct (GetContext n s) as [p|] eqn:Ep; [|eauto].
  destruct (ok_requests b s Hok n p Ep) as (c & Hc & _). unfold load_context. rewrite Hc, Ok_bind. eauto.
Qed.

(** ** Runs *)

Context (UnicodeToANSI : wstring -> str).

Lemma push_service_ok b m r s : web_ok b s -> b + 1 < 2 ^ 32 ->
  (forall ps, r_argument r = Some ps -> risky = true /\ Forall param_ok ps) ->
  safely (fun x => web_ok (b + 1) (snd x)) (push_service m r s).
Proof.
  intros Hok Hb Hr. unfold push_service. eapply safely_bind; [by apply (PushUrl_ok b)|].
  intros [n s'] Hs'. cbn [safely snd]. destruct (n =? INVALID_SEQNO); [done|].
  apply (web_ok_frame (b + 1) s'); [done|done|by apply old_result|apply Hs'..].
Qed.

(** A parameter that a service refuses. *)
Definition bad_service (v : WebService) (p : option (Z * Z)) : bool :=
  match p with Some (serviceId, _) => negb (serviceId =? SERVICE_VALUE_WEB v) | None => true end.

Definition bad_call (c : ServiceCall) : bool :=
  match c with
  | CallGetFavoriteIcon p => match p with Some (_, srcMId, _) => srcMId =? MODULE_ID_INVALID | None => true end
  | CallOpenUrlTraveler p => bad_service OPEN_URLTRAVELER p
  | CallCloseUrlTraveler p => bad_service CLOSE_URLTRAVELER p
  | CallReportUserInfo p => bad_service REPORT_USERINFO p
  | CallCheckUpdateConfig _ p => bad_service CHECK_UPDATE_CONFIG p
  | CallDownloadUpdateFile _ _ p => bad_service DOWNLOAD_UPDATE_FILE p
  | CallQueryDownloadUpdateFileProcess p => bad_service QUERY_DOWNLOAD_FILE_PROESS p
  | _ => false
  end.

Lemma for_service_ok (P : Z * WebModule T -> Prop) v p f s : (bad_service v p = true -> risky = true) -> P (-1, s) ->
  (forall i m, safely P (f i m)) -> safely P (for_service v p f s).
Proof.
  intros Hb Hs Hf. unfold for_service, bad_service in *. destruct p as [[i m]|]; [|by apply safely_ASSERT; [auto|]].
  destruct (negb _); [|done]. apply safely_ASSERT; auto.
Qed.

Lemma call_service_ok b c s : web_ok b s -> web_ok (b + 1) s -> b + 1 < 2 ^ 32 -> (bad_call c = true -> risky = true) ->
  safely (fun x => web_ok (b + 1) (snd x)) (call_service ANSIToUnicode UnicodeToANSI c s).
Proof.
  intros Hok Hok1 Hb Hc.
  destruct c as [p|p|p| | |p|v p|u f p|p]; cbn [call_service bad_call] in *;
    try (by apply for_service_ok; [done|done|]; intros; by apply push_service_ok); [|done|done|].
  - destruct p as [[[i m] u]|]; cbn [OnService_GetFavoriteIcon]; [|by apply safely_ASSERT; [auto|]].
    destruct (m =? _); [by apply safely_ASSERT; [auto|]|by apply push_service_ok].
  - unfold OnService_QueryDownloadUpdateFileProcess, bad_service in *.
    destruct p as [[i n]|]; [|eapply safely_bind with (P := fun _ => True); [by apply safely_ASSERT; [auto|]|done]].
    destruct (negb _); [eapply safely_bind with (P := fun _ => True); [by apply safely_ASSERT; [auto|]|done]|].
    destruct (QueryDownloadProcess_ok b n s Hok) as [r ->]. done.
Qed.

(** What happens to the module: a service, a request queued by other code ([PushUrl] is
    public and takes POST arguments), the cycle message, a callback of the worker thread, or
    a call of the client's other operations. *)
Inductive WebAction :=
| Call (c : ServiceCall)
| Service (srcMId : Z) (r : Request)
| Cycle
| HeadComplete (taskid : Z) (info : TaskInfo)
| Process (same : bool) (taskid : Z) (info : TaskInfo) (file : Z) (written : bool)
| Finish (same : bool) (taskid : Z) (info : TaskInfo) (written : bool)
| Error (same : bool) (taskid : Z) (info : TaskInfo)
| Cancel (nSeqNo : Z)
| Clean.

Definition run_action (s : WebModule T) (a : WebAction) : outcome (WebModule T) :=
  match a with
  | Call c => x ← call_service ANSIToUnicode UnicodeToANSI c s; Ok (snd x)
  | Service m r => x ← push_service m r s; Ok (snd x)
  | Cycle => OnMessage_CycleTrigged ANSIToUnicode s
  | HeadComplete t i => x ← handle_headcomplete t i s; Ok (snd x)
  | Process h t i f w => x ← handle_process h t i f w s; Ok (snd x)
  | Finish h t i w => x ← handle_finish h t i w s; Ok (snd x)
  | Error h t i => x ← handle_error h t i s; Ok (snd x)
  | Cancel n => CancelTask n s
  | Clean => CleanAll s
  end.

(** Arguments are well formed, and the worker reports progress only with data. *)
Definition action_ok (a : WebAction) : Prop :=
  match a with
  | Service _ r => forall ps, r_argument r = Some ps -> Forall param_ok ps
  | Process _ _ i _ _ => respData i <> None
  | _ => True
  end.

(** An action after which an assertion may fail. *)
Definition may_assert (a : WebAction) : bool :=
  match a with
  | Service _ r => bool_decide (is_Some (r_argument r))
  | Call c => bad_call c
  | Process same _ _ _ _ | Finish same _ _ _ | Error same _ _ => negb same
  | _ => false
  end.

Lemma run_action_ok b a s : web_ok b s -> b + 1 < 2 ^ 32 -> action_ok a -> (may_assert a = true -> risky = true) ->
  safely (web_ok (b + 1)) (run_action s a).
Proof.
  intros Hok Hb Ha Hp. assert (Hweak : forall s', web_ok b s' -> web_ok (b + 1) s').
  { intros s' []. constructor; try done. lia. }
  assert (Hth : forall same, (negb same = true -> risky = true) -> same = false -> risky = true).
  { intros same H ->. by apply H. }
  destruct a; cbn [run_action may_assert] in *.
  - eapply safely_bind; [apply (call_service_ok b); auto|done].
  - eapply safely_bind; [apply (push_service_ok b); [done..|]|done].
    intros ps Hps. split; [|by apply Ha]. apply Hp. rewrite Hps. by apply bool_decide_eq_true.
  - eapply safely_impl; [by apply OnMessage_CycleTrigged_ok|exact Hweak].
  - eapply safely_bind; [by apply (handle_headcomplete_ok b)|]. intros x Hx. by apply Hweak.
  - eapply safely_bind; [apply (handle_process_ok b); [by apply Hth|done|exact Ha]|]. intros x Hx. by apply Hweak.
  - eapply safely_bind; [apply (handle_finish_ok b); [by apply Hth|done]|]. intros x Hx. by apply Hweak.
  - eapply safely_bind; [apply (handle_error_ok b); [by apply Hth|done]|]. intros x Hx. by apply Hweak.
  - eapply safely_impl; [by apply CancelTask_ok|exact Hweak].
  - eapply safely_impl; [by apply CleanAll_ok|exact Hweak].
Qed.

Lemma run_actions_ok b l s : web_ok b s -> b + Z.of_nat (List.length l) < 2 ^ 32 -> Forall action_ok l ->
  (forall a, a ∈ l -> may_assert a = true -> risky = true) ->
  safely (web_ok (b + Z.of_nat (List.length l))) (for_each run_action s l).
Proof.
  revert b s. induction l as [|a l IH]; intros b s Hok Hb Hall Hp; cbn [for_each List.length] in *.
  - cbn [safely]. by rewrite Z.add_0_r.
  - apply Forall_cons in Hall as [Ha Hall]. eapply safely_bind.
    + apply (run_action_ok b); [done|lia|done|]. apply Hp. by left.
    + intros s' Hs'. replace (b + Z.of_nat (S (List.length l))) with ((b + 1) + Z.of_nat (List.length l)) by lia.
      apply IH; [done|lia|done|]. intros x Hx. apply Hp. by right.
Qed.

Lemma web_ok_new t : (forall m, t = Some m -> transfer_ok m) -> web_ok 100 (WebModule_new t).
Proof. intros Ht. constructor; cbn; try done; [set_solver|apply NoDup_nil_2|set_solver]. Qed.

End Safety.


Definition web_ops : TransferManager TranferManager := TranferManager_ops (fun _ => None).

Definition web_laws : @TransferLaws TranferManager web_ops := TranferManager_laws (fun _ => None).

(** A request that fails, is sent again and succeeds, with a late callback of the
    first task and a cancelled second request. *)
Definition sample_info (err http : Z) : TaskInfo := mkTaskInfo TASK_DOWNLOAD 3 3 10 0 err http 0 (Some (lit "abc")).

Definition sample_actions : list WebAction := [
  Call (CallGetFavoriteIcon (Some (SERVICE_VALUE_WEB GET_FAVICON, MODULE_ID DATACENTER, lit "http://a/x.ico")));
  Service (MODULE_ID DATACENTER) (mkRequest (SERVICE_VALUE_WEB GET_FAVICON) 0 (lit "http://b/y.ico") None ONCE_BUFFER [] 30 true);
  Cycle; Error true 0 (sample_info 11 0); Cancel 102; Cycle; Error true 0 (sample_info 11 0); Process true 2 (sample_info 0 200) 7 true;
  Finish true 2 (sample_info 0 200) true; Finish true 2 (sample_info 0 200) true; Cycle;
  Call (CallQueryDownloadUpdateFileProcess (Some (SERVICE_VALUE_WEB QUERY_DOWNLOAD_FILE_PROESS, 101))); Clean].

Definition debug_build : Build := false.


(** A download whose first piece cannot be written: the failure is queued, and the task goes
    on.  When the cycle handles it after the worker's next callback has looked up the
    context and before it uses it, the context is freed and the callback writes to it. *)
Example callback_overlaps_cycle :
  let actions := [Call (CallDownloadUpdateFile (lit "http://a/f") (lit "f") (Some (SERVICE_VALUE_WEB DOWNLOAD_UPDATE_FILE, 3))); Cycle;
                  Process true 0 (sample_info 0 200) 7 false] in
  exists s s' p, for_each (run_action (TM := web_ops) (BLD := debug_build) id id)
      (WebModule_new (Some (snd (start TranferManager_new)))) actions = Ok s /\
    GetContext (u32 (GetSeqNo 0 s)) s = Some p /\
    OnMessage_CycleTrigged (TM := web_ops) (BLD := debug_build) id s = Ok s' /\
    process_context (sample_info 0 200) 7 true p s' = Fault Dangling.
Proof. eexists _, _, _. split; [vm_compute; reflexivity|]. split; [vm_compute; reflexivity|]. split; vm_compute; reflexivity. Qed.
