(* ===== verification/WebLive.v ===== *)
(** * The web module: every request is answered

    With a transfer library that gives out positions in turn ([TaskSlots]) and
    answers every task once per round, in any order and with any outcome, every
    GET request is done after at most three attempts, files that are downloaded
    included: at most nine requests are under way at a time, so a cycle never meets
    more results than it handles.  Requests of the services that are answered get
    exactly one event, to the module that made them; the others get one if they
    failed. *)
From stdpp Require Import prelude gmap.
From Stdlib Require Import ZArith Lia String.
From S2P Require Import Prelude Protocol Favorites Strings Transfer TransferProofs Web.

(** The last callback of a task. *)
Inductive Answer := Finished (info : TaskInfo) | Failed (info : TaskInfo).

(** What the worker tells of a task in a round: progress, with the handle that opening the
    file gives, and the answer. *)
Record Report := mkReport { progress : list (TaskInfo * Z); answer : Answer }.

(** A callback for progress; writing to the file succeeds. *)
Definition report_progress {T} {BLD : Build} (t : Z) (s : WebModule T) (x : TaskInfo * Z) : outcome (WebModule T) :=
  r ← handle_process true t (fst x) (snd x) true s; Ok (snd r).

(** The worker finishes a task with its answer and releases its position. *)
Definition answer_task {T} {TM : TransferManager T} {TS : TaskSlots T} {BLD : Build} (s : WebModule T) (x : Z * Report) : outcome (WebModule T) :=
  s ← for_each (report_progress (fst x)) s (progress (snd x));
  r ← match answer (snd x) with Finished i => handle_finish true (fst x) i true s | Failed i => handle_error true (fst x) i s end;
  Ok (with_transfer (release (fst x) <$> m_pTransferManager (snd r)) (snd r)).

(** A round: the worker answers tasks, then the module gets its cycle message. *)
Definition round {T} {TM : TransferManager T} {TS : TaskSlots T} {BLD : Build} (ANSIToUnicode : str -> wstring) (l : list (Z * Report))
    (s : WebModule T) : outcome (WebModule T) :=
  s ← for_each answer_task s l; OnMessage_CycleTrigged ANSIToUnicode s.

(** A report comes with data, except for an error. *)
Definition report_ok (x : Report) : Prop :=
  Forall (fun y => respData (fst y) <> None) (progress x) /\ forall i, answer x = Finished i -> respData i <> None.

(** Every task under way is answered once. *)
Definition answers_all {T} (l : list (Z * Report)) (s : WebModule T) : Prop :=
  NoDup (l.*1) /\ (forall t, t ∈ l.*1 <-> is_Some (m_mapTaskid2Seqno (m_pHttpClient s) !! t)) /\
  (forall t x, (t, x) ∈ l -> report_ok x).

(** Services whose answer is an event. *)
Definition answering (v : Z) : bool :=
  (v =? SERVICE_VALUE_WEB GET_FAVICON) || (v =? SERVICE_VALUE_WEB CHECK_UPDATE_CONFIG) || (v =? SERVICE_VALUE_WEB DOWNLOAD_UPDATE_FILE).

(** The context of a GET request for service [svc n], where [n] is its number. *)
Definition plain (svc : Z -> Z) (c : HTTPCONTEXT) : Prop :=
  eReqType c <> FRAG_BUFFER /\ pArgument c = None /\ strURL c <> [] /\ uOpPolicy c = SUCCESS_RESP /\ bAllowRepeated c = true /\
  nEventValue c = svc (nReqSeq c) /\ 0 <= nHttpCode c < 2 ^ 32.

Definition about (n : Z) (e : WebEvent) : Prop := we_param2 e = n.

#[global] Instance about_dec n e : Decision (about n e).
Proof. unfold about. apply _. Defined.

Section Live.
Context {T : Type} {TM : TransferManager T} {TS : TaskSlots T} {BLD : Build}.
Context (ANSIToUnicode : str -> wstring).

(** The number of requests, numbered from 101, who made them and for which service. *)
Context (N : Z) (modof svc : Z -> Z).

(** The events about request [n] at its end: one to the module that made it, or none if its
    service is not answered. *)
Definition settles (n : Z) (es : list WebEvent) : Prop :=
  (exists e, es = [e] /\ we_param2 e = n /\ we_desMId e = modof n) \/ (es = [] /\ answering (svc n) = false).

(** ** The state within a round

    In round [k], requests up to [100 + sent] were sent; [pend] are those the
    cycle has not handled yet, [rs] the results that wait; task [g mod 1024] has
    the absolute number [g], between [lo] and [next], and from [base] on if the
    cycle gave it out. *)
Record wave (k sent lo base next : Z) (pend : list Z) (rs : list HTTPCONTEXT) (s : WebModule T) : Prop := {
  wv_sent : 0 <= sent <= N /\ 100 + N < 2 ^ 32 - 1;
  wv_ctx : forall p c, contexts s !! p = Some c -> plain svc c /\ 101 <= nReqSeq c <= 100 + N;
  wv_inj : forall p q c d, contexts s !! p = Some c -> contexts s !! q = Some d -> nReqSeq c = nReqSeq d -> p = q;
  wv_queue : exists cs, Forall2 (fun p c => contexts s !! p = Some c) (m_vRequestQueue s) cs /\
    nReqSeq <$> cs = seqZ (101 + sent) (N - sent);
  wv_req : forall n p, m_mapRequest (m_pHttpClient s) !! n = Some p <->
    exists c, contexts s !! p = Some c /\ nReqSeq c = n /\ n <= 100 + sent;
  wv_task : forall n t, m_mapSeqNo2TaskId (m_pHttpClient s) !! n = Some t <-> m_mapTaskid2Seqno (m_pHttpClient s) !! t = Some n;
  wv_dom : forall n, is_Some (m_mapSeqNo2TaskId (m_pHttpClient s) !! n) <-> is_Some (m_mapRequest (m_pHttpClient s) !! n);
  wv_age : forall p c, contexts s !! p = Some c -> 0 <= nFailedTime c < 3 /\
    nFailedTime c = (if decide (nReqSeq c <= 100 + sent)
                     then (if decide (nReqSeq c ∈ pend) then k - 1 else k) - (nReqSeq c - 101) / 3 else 0);
  wv_results : m_lstResult (m_pHttpClient s) = rs;
  wv_copy : forall r, r ∈ rs -> exists p, contexts s !! p = Some r /\ nReqSeq r <= 100 + sent /\ nReqSeq r ∈ pend;
  wv_nodup : NoDup (nReqSeq <$> rs);
  wv_mgr : exists t, m_pTransferManager s = Some t /\ slots_ok t /\ next_pos t = next mod MAX_TASKQUE_SIZE /\
    forall i, i ∈ occupied t <-> exists n, m_mapTaskid2Seqno (m_pHttpClient s) !! i = Some n /\ n ∉ nReqSeq <$> rs;
  wv_ids : forall t n, m_mapTaskid2Seqno (m_pHttpClient s) !! t = Some n ->
    exists g, t = g mod MAX_TASKQUE_SIZE /\ lo <= g < next /\ (n ∉ pend -> base <= g);
  wv_mods : forall n, 101 <= n <= 100 + N -> m_mapSeqNo2ModuleId s !! n = Some (modof n);
  wv_events : forall n, 101 <= n <= 100 + N ->
    ((exists p c, contexts s !! p = Some c /\ nReqSeq c = n) /\ filter (about n) (events s) = []) \/
    ((forall p c, contexts s !! p = Some c -> nReqSeq c <> n) /\ settles n (filter (about n) (events s)))
}.

(** ** Task numbers *)

Lemma fresh_id k sent lo base next pend rs s t n : wave k sent lo base next pend rs s -> next - lo < MAX_TASKQUE_SIZE ->
  m_mapTaskid2Seqno (m_pHttpClient s) !! t = Some n -> t <> next mod MAX_TASKQUE_SIZE.
Proof.
  intros Hw Hwin Ht E. destruct (wv_ids _ _ _ _ _ _ _ _ Hw t n Ht) as (g & -> & Hg & _).
  unfold MAX_TASKQUE_SIZE in *. lia_div.
Qed.

Lemma id_range k sent lo base next pend rs s t n : wave k sent lo base next pend rs s ->
  m_mapTaskid2Seqno (m_pHttpClient s) !! t = Some n -> 0 <= t < MAX_TASKQUE_SIZE.
Proof. intros Hw Ht. destruct (wv_ids _ _ _ _ _ _ _ _ Hw t n Ht) as (g & -> & _). by apply Z.mod_pos_bound. Qed.

(** A request that was sent: its context and its task. *)
Lemma sent_request k sent lo base next pend rs s t n : wave k sent lo base next pend rs s ->
  m_mapTaskid2Seqno (m_pHttpClient s) !! t = Some n ->
  exists p c, m_mapRequest (m_pHttpClient s) !! n = Some p /\ contexts s !! p = Some c /\ nReqSeq c = n /\ n <= 100 + sent /\
    101 <= n <= 100 + N.
Proof.
  intros Hw Ht. apply (wv_task _ _ _ _ _ _ _ _ Hw) in Ht.
  destruct (proj1 (wv_dom _ _ _ _ _ _ _ _ Hw n) (ex_intro _ _ Ht)) as [p Hp].
  destruct (proj1 (wv_req _ _ _ _ _ _ _ _ Hw n p) Hp) as (c & Hc & Hn & Hle). exists p, c.
  pose proof (proj2 (wv_ctx _ _ _ _ _ _ _ _ Hw p c Hc)). split_and!; (done || lia).
Qed.

Lemma GetSeqNo_sent k sent lo base next pend rs s t n : wave k sent lo base next pend rs s ->
  m_mapTaskid2Seqno (m_pHttpClient s) !! t = Some n -> GetSeqNo t s = i32 n /\ i32 n <> -1 /\ u32 (i32 n) = n.
Proof.
  intros Hw Ht. destruct (sent_request _ _ _ _ _ _ _ _ _ _ Hw Ht) as (p & c & _ & _ & _ & _ & Hn).
  pose proof (wv_sent _ _ _ _ _ _ _ _ Hw). unfold GetSeqNo. rewrite Ht. split; [done|]. unfold i32, u32. split; lia_div.
Qed.

(** ** The worker answers a task *)

(** What the callbacks write into the context. *)
Definition progressed (c : HTTPCONTEXT) (x : TaskInfo * Z) : HTTPCONTEXT :=
  let c := take_progress (fst x) c in
  match eReqType c with
  | ONCE_FILE => set_handle (if hFileHandle c =? 0 then snd x else hFileHandle c) c
  | _ => c
  end.

Definition answered (a : Answer) (c : HTTPCONTEXT) : HTTPCONTEXT :=
  match a with
  | Finished i =>
      let c := clamp_query i (take_progress i c) in
      match eReqType c with ONCE_FILE => set_handle 0 c | _ => set_param2 1 (set_content (default [] (respData i)) c) end
  | Failed i => set_content (strContentData c ++ default [] (respData i))
                  (set_length (i32 (contentLength i)) (set_outcome FAILED (u32 (errcode i)) (u32 (httpCode i)) c))
  end.

Definition reported (x : Report) (c : HTTPCONTEXT) : HTTPCONTEXT := answered (answer x) (foldl progressed c (progress x)).

(** They leave what the request is and the number of failures alone. *)
Definition same_request (c c' : HTTPCONTEXT) : Prop :=
  nReqSeq c' = nReqSeq c /\ nFailedTime c' = nFailedTime c /\ eReqType c' = eReqType c /\ (plain svc c -> plain svc c').

Lemma same_request_trans c1 c2 c3 : same_request c1 c2 -> same_request c2 c3 -> same_request c1 c3.
Proof. intros (? & ? & ? & ?) (? & ? & ? & ?). split_and!; [congruence..|auto]. Qed.

Lemma take_progress_same i c : same_request c (take_progress i c).
Proof.
  split_and!; try done. intros (? & ? & ? & ? & ? & ? & _). split_and!; try done; apply u32_range.
Qed.

Lemma progressed_same c x : same_request c (progressed c x).
Proof.
  eapply same_request_trans; [apply (take_progress_same (fst x))|]. unfold progressed. cbv zeta.
  by destruct (eReqType (take_progress (fst x) c)).
Qed.

Lemma answered_same a c : same_request c (answered a c).
Proof.
  destruct a as [i|i]; cbn [answered].
  - eapply same_request_trans; [apply (take_progress_same i)|]. cbv zeta. unfold clamp_query.
    destruct (bool_decide _); case_match; done.
  - split_and!; try done. intros (? & ? & ? & ? & ? & ? & _). split_and!; try done; apply u32_range.
Qed.

Lemma reported_same x c : same_request c (reported x c).
Proof.
  unfold reported. eapply same_request_trans; [|apply answered_same]. generalize (progress x). intros l. revert c.
  induction l as [|y l IH]; intros c; [by split_and!|]. cbn [foldl]. eapply same_request_trans; [apply progressed_same|apply IH].
Qed.

(** A task whose request is known: the callbacks work on its context. *)
Definition finds (t : Z) (p : positive) (s : WebModule T) : Prop :=
  GetSeqNo t s <> -1 /\ GetContext (u32 (GetSeqNo t s)) s = Some p.

Lemma progress_run t p s c x : finds t p s -> contexts s !! p = Some c -> eReqType c <> FRAG_BUFFER -> respData (fst x) <> None ->
  report_progress t s x = Ok (with_contexts (<[p := progressed c x]> (contexts s)) s).
Proof.
  intros [Hseq Hctx] Hc Hty Hdata. unfold report_progress, handle_process, check_thread. cbn [ASSERT orb]. rewrite Ok_bind.
  unfold on_task. cbv zeta. rewrite (proj2 (Z.eqb_neq _ _) Hseq), Hctx.
  unfold process_context, update_context, load_context. rewrite Hc, !Ok_bind. cbn [contexts with_contexts].
  rewrite lookup_insert_eq, !Ok_bind. unfold progressed. cbv zeta. change (eReqType (take_progress (fst x) c)) with (eReqType c).
  destruct (eReqType c); [done|done|]. rewrite ?lookup_insert_eq, ?Ok_bind. destruct (respData (fst x)); [|done]. cbn [deref]. rewrite ?Ok_bind.
  cbn [contexts with_contexts snd]. by rewrite insert_insert_eq.
Qed.

Lemma progress_all t p s c l : finds t p s -> contexts s !! p = Some c -> eReqType c <> FRAG_BUFFER ->
  Forall (fun y => respData (fst y) <> None) l ->
  for_each (report_progress t) s l = Ok (with_contexts (<[p := foldl progressed c l]> (contexts s)) s).
Proof.
  intros Hf Hc Hty Hl. revert s c Hf Hc Hty. induction Hl as [|y l Hy Hl IH]; intros s c Hf Hc Hty; cbn [for_each foldl].
  { rewrite insert_id by done. by destruct s. }
  rewrite (progress_run t p s c y) by done. rewrite Ok_bind. destruct (progressed_same c y) as (_ & _ & Ht & _).
  rewrite (IH _ (progressed c y)); [|done|by cbn; rewrite lookup_insert_eq|congruence]. cbn. by rewrite insert_insert_eq.
Qed.

Lemma answer_run t p s c a : finds t p s -> contexts s !! p = Some c -> eReqType c <> FRAG_BUFFER ->
  (forall i, a = Finished i -> respData i <> None) ->
  match a with Finished i => handle_finish true t i true s | Failed i => handle_error true t i s end =
  Ok (0, with_client (with_results (m_lstResult (m_pHttpClient s) ++ [answered a c]) (m_pHttpClient s))
           (with_contexts (<[p := answered a c]> (contexts s)) s)).
Proof.
  intros [Hseq Hctx] Hc Hty Ha. destruct a as [i|i].
  - unfold handle_finish, check_thread. cbn [ASSERT orb]. rewrite Ok_bind.
    destruct (respData i) as [data|] eqn:Ed; [|by destruct (Ha i eq_refl)]. cbv zeta.
    rewrite (proj2 (Z.eqb_neq _ _) Hseq), Hctx. unfold finish_context, update_context, load_context. rewrite Hc, !Ok_bind.
    cbn [contexts with_contexts]. rewrite lookup_insert_eq, !Ok_bind. cbn [answered]. cbv zeta. rewrite Ed.
    destruct (answered_same (Finished i) c) as (_ & _ & Et & _).
    assert (Et' : eReqType (clamp_query i (take_progress i c)) = eReqType c) by (unfold clamp_query; by destruct (bool_decide _)).
    rewrite Et'. unfold Cleanup, load_context. destruct (eReqType c); [|done|]; cbn [contexts with_contexts];
      rewrite ?lookup_insert_eq, ?Ok_bind; cbn [contexts with_contexts]; rewrite ?lookup_insert_eq, ?Ok_bind; cbn [contexts with_contexts];
      rewrite !insert_insert_eq; done.
  - unfold handle_error, check_thread. cbn [ASSERT orb]. rewrite Ok_bind. cbv zeta.
    rewrite (proj2 (Z.eqb_neq _ _) Hseq), Hctx. unfold error_context, update_context, load_context. rewrite Hc, !Ok_bind.
    unfold Cleanup, load_context. cbn [contexts with_contexts]. rewrite lookup_insert_eq, !Ok_bind. done.
Qed.

Lemma answer_task_run k sent lo base next pend rs s t n x : wave k sent lo base next pend rs s ->
  m_mapTaskid2Seqno (m_pHttpClient s) !! t = Some n -> report_ok x ->
  exists p c m, m_mapRequest (m_pHttpClient s) !! n = Some p /\ contexts s !! p = Some c /\ m_pTransferManager s = Some m /\
    answer_task s (t, x) = Ok (mkWeb T (<[p := reported x c]> (contexts s)) (arguments s) (m_vRequestQueue s) (m_nReqSeq s)
      (with_results (rs ++ [reported x c]) (m_pHttpClient s)) (Some (release t m)) (m_mapSeqNo2ModuleId s) (events s)).
Proof.
  intros Hw Ht [Hpr Ha]. destruct (sent_request _ _ _ _ _ _ _ _ _ _ Hw Ht) as (p & c & Hp & Hc & Hn & Hle & Hr).
  destruct (GetSeqNo_sent _ _ _ _ _ _ _ _ _ _ Hw Ht) as (Hg & Hm1 & Hu).
  destruct (wv_mgr _ _ _ _ _ _ _ _ Hw) as (m & Hm & _). exists p, c, m. split_and!; [done..|].
  destruct (wv_ctx _ _ _ _ _ _ _ _ Hw p c Hc) as [(Hty & _) _].
  assert (Hf : finds t p s) by (split; unfold GetContext; rewrite Hg, ?Hu; done).
  unfold answer_task. cbn [fst snd]. rewrite (progress_all t p s c) by done. rewrite Ok_bind.
  assert (Hty' : eReqType (foldl progressed c (progress x)) <> FRAG_BUFFER).
  { clear - svc Hty. generalize (progress x). intros l. revert c Hty. induction l as [|y l IH]; intros c Hty; [done|]. cbn [foldl]. apply IH.
    destruct (progressed_same c y) as (_ & _ & -> & _). done. }
  set (s1 := with_contexts _ s). assert (Hf1 : finds t p s1) by exact Hf.
  rewrite (answer_run t p s1 (foldl progressed c (progress x)) (answer x) Hf1); [|by cbn; rewrite lookup_insert_eq|done|done].
  rewrite Ok_bind. fold (reported x c). cbn. rewrite insert_insert_eq, Hm, (wv_results _ _ _ _ _ _ _ _ Hw). done.
Qed.

Lemma queue_unsent k sent lo base next pend rs s q : wave k sent lo base next pend rs s -> q ∈ m_vRequestQueue s ->
  exists d, contexts s !! q = Some d /\ 100 + sent < nReqSeq d.
Proof.
  intros Hw Hq. destruct (wv_queue _ _ _ _ _ _ _ _ Hw) as (cs & HF & Hseq).
  apply list_elem_of_lookup in Hq as [i Hi]. destruct (Forall2_lookup_l _ _ _ _ _ HF Hi) as (d & Hd & Hc). exists d. split; [done|].
  assert (Hin : nReqSeq d ∈ nReqSeq <$> cs) by (apply list_elem_of_fmap_2; by eapply list_elem_of_lookup_2).
  rewrite Hseq in Hin. apply elem_of_seqZ in Hin. lia.
Qed.

(** A step that changes one context that was sent leaves the queue alone. *)
Lemma queue_update k sent lo base next pend rs s p c (m : gmap positive HTTPCONTEXT) : wave k sent lo base next pend rs s ->
  contexts s !! p = Some c -> nReqSeq c <= 100 + sent -> (forall q, q <> p -> m !! q = contexts s !! q) ->
  exists cs, Forall2 (fun p c => m !! p = Some c) (m_vRequestQueue s) cs /\ nReqSeq <$> cs = seqZ (101 + sent) (N - sent).
Proof.
  intros Hw Hp Hn Hm. destruct (wv_queue _ _ _ _ _ _ _ _ Hw) as (cs & HF & Hseq). exists cs. split; [|done].
  assert (Hall : Forall (fun q => q <> p) (m_vRequestQueue s)).
  { apply Forall_forall. intros q Hq ->. destruct (queue_unsent _ _ _ _ _ _ _ _ _ Hw Hq) as (d & Hd & Hlt).
    assert (d = c) by congruence. subst d. lia. }
  clear Hseq. induction HF; [constructor|]. apply Forall_cons in Hall as [Hne Hall]. constructor; [by rewrite Hm|auto].
Qed.

(** A context replaced by one with the same number. *)
Lemma lookup_replaced (m : gmap positive HTTPCONTEXT) p c c' q d : m !! p = Some c -> nReqSeq c' = nReqSeq c ->
  <[p := c']> m !! q = Some d -> exists d', m !! q = Some d' /\ nReqSeq d' = nReqSeq d /\ (q = p /\ d = c' /\ d' = c \/ q <> p /\ d' = d).
Proof.
  intros Hp Hn Hq. destruct (decide (q = p)) as [->|Hne].
  - rewrite lookup_insert_eq in Hq. injection Hq as <-. exists c. naive_solver.
  - rewrite lookup_insert_ne in Hq by done. exists d. naive_solver.
Qed.

(** The same for the numbers that occur in both maps. *)
Lemma same_numbers (m : gmap positive HTTPCONTEXT) p c c' n : m !! p = Some c -> nReqSeq c' = nReqSeq c ->
  (exists q d, <[p := c']> m !! q = Some d /\ nReqSeq d = n) <-> (exists q d, m !! q = Some d /\ nReqSeq d = n).
Proof.
  intros Hp Hn. split; intros (q & d & Hq & <-).
  - destruct (lookup_replaced _ _ _ _ _ _ Hp Hn Hq) as (d' & Hd & E & _). exists q, d'. by rewrite E.
  - destruct (decide (q = p)) as [->|Hne].
    + exists p, c'. rewrite lookup_insert_eq. split; [done|]. congruence.
    + exists q, d. by rewrite lookup_insert_ne.
Qed.

Lemma requests_replaced (r : gmap Z positive) (m : gmap positive HTTPCONTEXT) b p c c' : m !! p = Some c -> nReqSeq c' = nReqSeq c ->
  (forall n q, r !! n = Some q <-> exists d, m !! q = Some d /\ nReqSeq d = n /\ n <= b) ->
  forall n q, r !! n = Some q <-> exists d, <[p := c']> m !! q = Some d /\ nReqSeq d = n /\ n <= b.
Proof.
  intros Hp Hn Hr n q. rewrite Hr. destruct (decide (q = p)) as [->|Hne].
  - rewrite lookup_insert_eq, Hp. split; intros (d & [= <-] & H1 & H2); eexists; (split; [done|]); (split; [congruence|done]).
  - by rewrite lookup_insert_ne.
Qed.

(** The events and the live contexts after a step that keeps both. *)
Lemma events_replaced (m : gmap positive HTTPCONTEXT) p c c' ev n : m !! p = Some c -> nReqSeq c' = nReqSeq c ->
  ((exists p c, m !! p = Some c /\ nReqSeq c = n) /\ filter (about n) ev = []) \/
  ((forall p c, m !! p = Some c -> nReqSeq c <> n) /\ settles n (filter (about n) ev)) ->
  ((exists q d, <[p := c']> m !! q = Some d /\ nReqSeq d = n) /\ filter (about n) ev = []) \/
  ((forall q d, <[p := c']> m !! q = Some d -> nReqSeq d <> n) /\ settles n (filter (about n) ev)).
Proof.
  intros Hp Hn [[H1 H2]|[H1 H2]]; [left|right]; (split; [|done]).
  - by apply (same_numbers m p c c' n).
  - intros q d Hq Hd. destruct (proj1 (same_numbers m p c c' n Hp Hn)) as (q' & d' & Hq' & Hd'); [eauto|]. by eapply H1.
Qed.

Lemma in_snoc n rs r : n ∈ nReqSeq <$> (rs ++ [r]) <-> n ∈ nReqSeq <$> rs \/ n = nReqSeq r.
Proof. rewrite fmap_app, elem_of_app. change (nReqSeq <$> [r]) with [nReqSeq r]. by rewrite list_elem_of_singleton. Qed.

Lemma wave_answer k sent lo base next pend rs s t n x : wave k sent lo base next pend rs s ->
  m_mapTaskid2Seqno (m_pHttpClient s) !! t = Some n -> n ∉ nReqSeq <$> rs -> n ∈ pend ->
  report_ok x ->
  exists r s', answer_task s (t, x) = Ok s' /\ wave k sent lo base next pend (rs ++ [r]) s' /\ nReqSeq r = n /\
    m_mapTaskid2Seqno (m_pHttpClient s') = m_mapTaskid2Seqno (m_pHttpClient s).
Proof.
  intros Hw Ht Hnot Hpend Ha.
  destruct (answer_task_run _ _ _ _ _ _ _ _ t n x Hw Ht Ha) as (p & c & m & Hp & Hc & Hm & ->).
  destruct (proj1 (wv_req _ _ _ _ _ _ _ _ Hw n p) Hp) as (c0 & Hc0 & Hn & Hle). assert (c0 = c) by congruence. subst c0 n.
  destruct (reported_same x c) as (Kn & Kf & _ & Kp). set (c' := reported x c) in *.
  exists c'. eexists. split; [done|]. split; [|by split].
  destruct Hw as [Hs Hctx Hinj Hq Hreq Htask Hdom Hage Hres Hcopy Hnd Hmgr Hids Hmods Hev].
  constructor; cbn [contexts arguments m_vRequestQueue m_nReqSeq m_pHttpClient m_pTransferManager m_mapSeqNo2ModuleId events
                    with_results m_mapRequest m_mapTaskid2Seqno m_mapSeqNo2TaskId m_lstResult].
  - done.
  - intros q d Hd. destruct (lookup_replaced _ _ _ _ _ _ Hc Kn Hd) as (d' & Hd' & E & [(-> & -> & ->)|(_ & ->)]); [|by apply (Hctx q)].
    destruct (Hctx p c Hc). rewrite Kn. auto.
  - intros q q' d d' Hd Hd' E. destruct (lookup_replaced _ _ _ _ _ _ Hc Kn Hd) as (e & He & E1 & _).
    destruct (lookup_replaced _ _ _ _ _ _ Hc Kn Hd') as (e' & He' & E2 & _). eapply Hinj; [done|done|congruence].
  - eapply queue_update; [by constructor|done|done|]. intros q Hne. by rewrite lookup_insert_ne.
  - by eapply requests_replaced.
  - done.
  - done.
  - intros q d Hd. destruct (lookup_replaced _ _ _ _ _ _ Hc Kn Hd) as (d' & Hd' & E & [(-> & -> & ->)|(_ & ->)]); [|by apply (Hage q)].
    rewrite Kf, Kn. by apply (Hage p).
  - done.
  - intros r [Hr|Hr]%elem_of_app.
    + destruct (Hcopy r Hr) as (q & Hq' & Hle' & Hin). exists q. split; [|done]. rewrite lookup_insert_ne; [done|].
      intros ->. apply Hnot. assert (r = c) as -> by congruence. by apply list_elem_of_fmap_2.
    + apply list_elem_of_singleton in Hr as ->. exists p. rewrite lookup_insert_eq, Kn. done.
  - rewrite fmap_app. apply NoDup_app. split_and!; [done| |apply NoDup_singleton].
    intros y Hx Hx'%list_elem_of_singleton. cbn in Hx'. apply Hnot. congruence.
  - destruct Hmgr as (m0 & Hm0 & Hok & Hnext & Hocc). assert (m0 = m) by congruence. subst m0.
    destruct (release_slot t m Hok) as (R1 & R2 & R3). exists (release t m). split_and!; [done|done|congruence|].
    intros i. rewrite R3, elem_of_difference, elem_of_singleton, Hocc. setoid_rewrite in_snoc. split.
    + intros [(n & Hi & Hn) Hne]. exists n. split; [done|]. intros [|E]; [done|].
      apply Hne. apply Htask in Hi. apply Htask in Ht. congruence.
    + intros (n & Hi & Hn). split; [exists n; tauto|]. intros ->. apply Hn. right. congruence.
  - done.
  - done.
  - intros n Hn. by eapply events_replaced, Hev.
Qed.

Lemma wave_answers k sent lo base next pend rs s (l : list (Z * Report)) : wave k sent lo base next pend rs s -> NoDup (l.*1) ->
  (forall t, t ∈ l.*1 -> exists n, m_mapTaskid2Seqno (m_pHttpClient s) !! t = Some n /\ (n ∉ nReqSeq <$> rs) /\ n ∈ pend) ->
  (forall t x, (t, x) ∈ l -> report_ok x) ->
  exists rs' s', for_each answer_task s l = Ok s' /\ wave k sent lo base next pend (rs ++ rs') s' /\ List.length rs' = List.length l /\
    m_mapTaskid2Seqno (m_pHttpClient s') = m_mapTaskid2Seqno (m_pHttpClient s) /\
    (forall t n, t ∈ l.*1 -> m_mapTaskid2Seqno (m_pHttpClient s) !! t = Some n -> n ∈ nReqSeq <$> rs').
Proof.
  revert rs s. induction l as [|[t a] l IH]; intros rs s Hw Hnd Hl Hi; cbn [for_each].
  - exists [], s. rewrite app_nil_r. split_and!; try done. intros t n H. by apply elem_of_nil in H.
  - cbn [fmap list_fmap fst] in Hnd, Hl. apply NoDup_cons in Hnd as [Hnt Hnd].
    destruct (Hl t) as (n & Ht & Hn & Hpend); [by left|].
    destruct (wave_answer _ _ _ _ _ _ _ _ t n a Hw Ht Hn Hpend) as (r & s1 & -> & Hw1 & Hr & Hmap).
    { apply (Hi t). by left. }
    rewrite Ok_bind. destruct (IH (rs ++ [r]) s1 Hw1 Hnd) as (rs' & s' & Hrun & Hw' & Hlen & Hmap' & Hcov).
    + intros t' Hin. destruct (Hl t') as (n' & Ht' & Hn' & Hp'); [by right|]. exists n'. rewrite Hmap. split_and!; [done| |done].
      rewrite in_snoc. intros [|E]; [done|]. apply Hnt. replace t with t'; [done|]. apply (wv_task _ _ _ _ _ _ _ _ Hw) in Ht, Ht'. congruence.
    + intros t' x Hin. apply (Hi t'). by right.
    + exists (r :: rs'), s'. rewrite <- app_assoc in Hw'. split_and!; [done|done|cbn; lia|congruence|].
      intros t' n' Hin Ht'. rewrite fmap_cons. apply elem_of_cons in Hin as [->|Hin]; apply elem_of_cons;
        [left; cbn [fst] in Ht'; congruence|right].
      apply (Hcov t'); [done|congruence].
Qed.

(** ** The cycle handles a result *)

(** The state after the first result was taken. *)
Definition popped (rs : list HTTPCONTEXT) (s : WebModule T) : WebModule T := with_client (with_results rs (m_pHttpClient s)) s.

Lemma result_request k sent lo base next pend r rs s : wave k sent lo base next pend (r :: rs) s ->
  exists p t m, contexts s !! p = Some r /\ nReqSeq r <= 100 + sent /\ m_mapRequest (m_pHttpClient s) !! nReqSeq r = Some p /\
    m_mapSeqNo2TaskId (m_pHttpClient s) !! nReqSeq r = Some t /\ m_mapTaskid2Seqno (m_pHttpClient s) !! t = Some (nReqSeq r) /\
    m_pTransferManager s = Some m /\ slots_ok m /\ next_pos m = next mod MAX_TASKQUE_SIZE /\ (exists x, cancelTask t m = Ok (x, m)).
Proof.
  intros Hw. destruct (wv_copy _ _ _ _ _ _ _ _ Hw r) as (p & Hp & Hle & _); [by left|].
  assert (Hreq : m_mapRequest (m_pHttpClient s) !! nReqSeq r = Some p) by (apply (wv_req _ _ _ _ _ _ _ _ Hw); eauto).
  destruct (proj2 (wv_dom _ _ _ _ _ _ _ _ Hw (nReqSeq r))) as [t Ht]; [eauto|].
  pose proof (proj1 (wv_task _ _ _ _ _ _ _ _ Hw _ _) Ht) as Ht'.
  destruct (wv_mgr _ _ _ _ _ _ _ _ Hw) as (m & Hm & Hok & Hnext & Hocc). exists p, t, m. split_and!; try done.
  apply cancel_free; [done|by eapply id_range|]. rewrite Hocc. intros (n & Hn & Hnot). apply Hnot.
  assert (n = nReqSeq r) as -> by congruence. by left.
Qed.

(** What the cycle makes of the first result: the end of the request with its events, or
    another attempt. *)
Definition finish_state (es : list WebEvent) (p : positive) (n t : Z) (m : T) (rs : list HTTPCONTEXT) (s : WebModule T) : WebModule T :=
  mkWeb T (base.delete p (contexts s)) (arguments s) (m_vRequestQueue s) (m_nReqSeq s)
    (mkClient (base.delete n (m_mapRequest (m_pHttpClient s))) (base.delete t (m_mapTaskid2Seqno (m_pHttpClient s)))
       (base.delete n (m_mapSeqNo2TaskId (m_pHttpClient s))) rs)
    (Some m) (m_mapSeqNo2ModuleId s) (events s ++ es).

Definition retry_state (c : HTTPCONTEXT) (p : positive) (n t new : Z) (m : T) (rs : list HTTPCONTEXT) (s : WebModule T) : WebModule T :=
  mkWeb T (<[p := c]> (contexts s)) (arguments s) (m_vRequestQueue s) (m_nReqSeq s)
    (mkClient (m_mapRequest (m_pHttpClient s)) (<[new := n]> (base.delete t (m_mapTaskid2Seqno (m_pHttpClient s))))
       (<[n := new]> (base.delete n (m_mapSeqNo2TaskId (m_pHttpClient s)))) rs)
    (Some m) (m_mapSeqNo2ModuleId s) (events s).

(** The same with events already sent. *)
Definition told (es : list WebEvent) (s : WebModule T) : WebModule T := foldl (fun s e => push_event e s) s es.

Lemma parse_settles c (s : WebModule T) : nEventValue c = svc (nReqSeq c) -> m_mapSeqNo2ModuleId s !! nReqSeq c = Some (modof (nReqSeq c)) ->
  exists es, ParseResponse ANSIToUnicode c s = told es s /\ settles (nReqSeq c) es.
Proof.
  intros Hsv Hmod. unfold ParseResponse, ParseGetFavIcon, ParseCheckUpdateConfig, ParseDownloadUpdateFile, NEW_RESP, settles, answering.
  rewrite <- Hsv, Hmod. destruct (Z.eqb_spec (nEventValue c) (SERVICE_VALUE_WEB GET_FAVICON)) as [E|H1].
  { eexists [_]. split; [done|]. left. by eexists. }
  destruct (Z.eqb_spec (nEventValue c) (SERVICE_VALUE_WEB OPEN_URLTRAVELER)) as [E|H2]; [rewrite E; exists []; split; [done|by right]|].
  destruct (Z.eqb_spec (nEventValue c) (SERVICE_VALUE_WEB CLOSE_URLTRAVELER)) as [E|H3]; [rewrite E; exists []; split; [done|by right]|].
  destruct (Z.eqb_spec (nEventValue c) (SERVICE_VALUE_WEB CHECK_UPDATE_CONFIG)) as [E|H4].
  { eexists [_]. split; [done|]. left. by eexists. }
  destruct (Z.eqb_spec (nEventValue c) (SERVICE_VALUE_WEB DOWNLOAD_UPDATE_FILE)) as [E|H5].
  { eexists [_]. split; [done|]. left. by eexists. }
  exists []. split; [done|by right].
Qed.

Section Result.
Context (s : WebModule T) (r : HTTPCONTEXT) (rs : list HTTPCONTEXT) (p : positive) (t x : Z) (m : T).
Context (Hp : contexts s !! p = Some r) (Hr : m_mapRequest (m_pHttpClient s) !! nReqSeq r = Some p).
Context (Ht : m_mapSeqNo2TaskId (m_pHttpClient s) !! nReqSeq r = Some t) (Hm : m_pTransferManager s = Some m).
Context (Hc : cancelTask t m = Ok (x, m)) (Hplain : plain svc r).

Lemma DeleteSeqNo_run es : DeleteSeqNo (nReqSeq r) (told es (popped rs s)) = Ok (finish_state es p (nReqSeq r) t m rs s).
Proof using Hp Hr Ht Hm Hc Hplain.
  assert (E : told es (popped rs s) = mkWeb T (contexts s) (arguments s) (m_vRequestQueue s) (m_nReqSeq s)
    (with_results rs (m_pHttpClient s)) (m_pTransferManager s) (m_mapSeqNo2ModuleId s) (events s ++ es)).
  { unfold told, popped, with_client. generalize (events s). clear. induction es as [|e es IH]; intros ev; cbn [foldl].
    - by rewrite app_nil_r.
    - unfold push_event at 2. cbn. rewrite IH. by rewrite <- app_assoc. }
  rewrite E. unfold DeleteSeqNo, ClearSeqIdMap. cbn [with_results m_pHttpClient m_mapSeqNo2TaskId m_pTransferManager].
  rewrite Ht, Hm. cbn [deref]. rewrite Ok_bind, Hc, !Ok_bind. unfold GetContext. cbn. rewrite Hr. unfold load_context. cbn.
  rewrite Hp. cbn [mbind outcome_bind]. destruct Hplain as (_ & -> & _). done.
Qed.

Lemma ReReqUrl_run f : slots_ok m -> next_pos m ∉ occupied m ->
  exists m' c, ReReqUrl (set_failed f r) (popped rs s) = Ok (c, retry_state (set_failed f r) p (nReqSeq r) t (next_pos m) m' rs s) /\
    slots_ok m' /\ next_pos m' = (next_pos m + 1) mod MAX_TASKQUE_SIZE /\ occupied m' = {[next_pos m]} ∪ occupied m.
Proof using Hp Hr Ht Hm Hc Hplain.
  intros Hok Hfree. destruct Hplain as (_ & Harg & Hurl & _).
  destruct (add_next (strURL r) (task_options r) m Hok Hurl eq_refl eq_refl Hfree) as (m' & Hadd & Hok' & Hnext & Hocc).
  exists m'. unfold ReReqUrl. cbn [strURL set_failed nReqSeq pArgument]. rewrite bool_decide_false by done.
  unfold ClearSeqIdMap. cbn [popped with_client with_results m_pHttpClient m_mapSeqNo2TaskId m_pTransferManager].
  rewrite Ht, Hm. cbn [deref]. rewrite Ok_bind, Hc, !Ok_bind, Harg. unfold ReReqURL, ReReq. cbn [snd m_pTransferManager with_client with_transfer].
  unfold GetContext. cbn. rewrite Hr. unfold update_context, load_context. cbn. rewrite Hp. cbn [mbind outcome_bind].
  unfold add_get. change (task_options (set_failed f r)) with (task_options r). cbn [strURL set_failed]. rewrite Hadd. cbn [mbind outcome_bind fst snd].
  rewrite (proj2 (Z.ltb_ge _ _)) by (pose proof (next_range m Hok); lia). eexists. split_and!; done.
Qed.

Context (Hmod : m_mapSeqNo2ModuleId s !! nReqSeq r = Some (modof (nReqSeq r))).

(** A result that is not repeated and not a success. *)
Lemma failure_run c : nReqSeq c = nReqSeq r -> uOpPolicy c ∉ [INVALID_SEQNO; REPEATED_REQ; SUCCESS_RESP] ->
  exists es, handle_response c (popped rs s) = Ok (true, finish_state es p (nReqSeq r) t m rs s) /\ settles (nReqSeq r) es.
Proof using Hp Hr Ht Hm Hc Hplain Hmod.
  intros Hn Hv. unfold handle_response.
  rewrite !(proj2 (Z.eqb_neq (uOpPolicy c) _)) by (intros E; rewrite E in Hv; set_solver).
  exists [failure_event c (popped rs s)]. rewrite Hn. pose proof (DeleteSeqNo_run [failure_event c (popped rs s)]) as D.
  unfold told in D. cbn [foldl] in D. split; [by rewrite D|].
  left. eexists. split; [done|]. unfold failure_event. cbn. by rewrite Hn, Hmod.
Qed.

Lemma success_run : exists es s1, ParseResponse ANSIToUnicode r (popped rs s) = s1 /\
  handle_response (set_policy SUCCESS_RESP r) s1 = Ok (true, finish_state es p (nReqSeq r) t m rs s) /\ settles (nReqSeq r) es.
Proof using Hp Hr Ht Hm Hc Hplain Hmod.
  destruct Hplain as (Hty & _ & _ & _ & _ & Hans & _). destruct (parse_settles r (popped rs s) Hans Hmod) as (es & -> & He).
  exists es. eexists. split; [done|]. split; [|done]. unfold handle_response. cbn [uOpPolicy set_policy eReqType nReqSeq].
  cbn [SUCCESS_RESP INVALID_SEQNO REPEATED_REQ Z.eqb Pos.eqb]. rewrite bool_decide_false by done. cbn [andb].
  by rewrite DeleteSeqNo_run.
Qed.

End Result.

Lemma ret_code_failure z : z <> 200 -> GetRetCodeByStatus z ∉ [INVALID_SEQNO; REPEATED_REQ; SUCCESS_RESP].
Proof.
  intros Hz. unfold GetRetCodeByStatus. rewrite (proj2 (Z.eqb_neq _ _) Hz).
  repeat (destruct (_ =? _); [set_solver|]). set_solver.
Qed.

(** The cycle takes the first result. *)
Lemma result_run k sent lo base next pend r rs s : wave k sent lo base next pend (r :: rs) s -> next - lo < MAX_TASKQUE_SIZE ->
  exists p t m c s1 s', contexts s !! p = Some r /\ nReqSeq r <= 100 + sent /\ m_mapRequest (m_pHttpClient s) !! nReqSeq r = Some p /\
    m_mapTaskid2Seqno (m_pHttpClient s) !! t = Some (nReqSeq r) /\ m_pTransferManager s = Some m /\ next_pos m = next mod MAX_TASKQUE_SIZE /\
    ProcessResp ANSIToUnicode s = Ok (c, s1) /\ handle_response c s1 = Ok (true, s') /\
    ((exists es, settles (nReqSeq r) es /\ s' = finish_state es p (nReqSeq r) t m rs s) \/
     (nFailedTime r + 1 < 3 /\ exists m', s' = retry_state (set_failed (nFailedTime r + 1) r) p (nReqSeq r) t (next_pos m) m' rs s /\
        slots_ok m' /\ next_pos m' = (next_pos m + 1) mod MAX_TASKQUE_SIZE /\ occupied m' = {[next_pos m]} ∪ occupied m)).
Proof.
  intros Hw Hwin. destruct (result_request _ _ _ _ _ _ _ _ _ Hw) as (p & t & m & Hp & Hle & Hr & Ht & Ht' & Hm & Hok & Hnext & x & Hc).
  destruct (wv_ctx _ _ _ _ _ _ _ _ Hw p r Hp) as [Hplain Hrange].
  pose proof (wv_mods _ _ _ _ _ _ _ _ Hw (nReqSeq r) Hrange) as Hmod.
  destruct (wv_age _ _ _ _ _ _ _ _ Hw p r Hp) as [Hage _].
  pose proof (failure_run s r rs p t x m Hp Hr Ht Hm Hc Hplain Hmod) as Hfail.
  pose proof Hplain as (_ & _ & Hurl & Hpol & _ & _ & Hhttp).
  exists p, t, m. unfold ProcessResp, RetriveResp. rewrite (wv_results _ _ _ _ _ _ _ _ Hw). fold (popped rs s).
  rewrite Hpol. cbn [SUCCESS_RESP INVALID_RESP Z.eqb]. rewrite bool_decide_false by done. destruct (uResult r =? FAILED).
  - destruct (nErrorCode r =? ERR_TASK_WRITE_FILE_ERROR).
    + destruct (Hfail (set_policy WEB_RET_COMMON_WRITE_FILE_ERROR r) eq_refl ltac:(cbn; set_solver)) as (e & He & Hans).
      eexists _, _, _. split_and!; eauto.
    + cbv zeta. rewrite u8_small by lia. cbn [nFailedTime set_failed]. destruct (Z.ltb_spec (nFailedTime r + 1) 3).
      * destruct (ReReqUrl_run s r rs p t x m Hp Hr Ht Hm Hc Hplain (nFailedTime r + 1) Hok) as (m' & c & -> & H1 & H2 & H3).
        { destruct (wv_mgr _ _ _ _ _ _ _ _ Hw) as (m0 & Hm0 & _ & _ & Hocc). assert (m0 = m) by congruence. subst m0.
          rewrite Hocc. intros (n & Hn & _). rewrite Hnext in Hn. by apply (fresh_id _ _ _ _ _ _ _ _ _ _ Hw Hwin) in Hn. }
        rewrite Ok_bind. cbn [fst snd]. eexists _, _, _. split_and!; [done..| |]; [done|]. right. split; [lia|]. eauto.
      * destruct (Hfail (set_policy WEB_RET_NET_ERROR_TIMEOUT (set_failed (nFailedTime r + 1) r)) eq_refl ltac:(cbn; set_solver))
          as (e & He & Hans). eexists _, _, _. split_and!; eauto.
  - destruct (negb _ && negb _) eqn:Eb.
    + apply andb_true_iff in Eb as [E1%negb_true_iff%Z.eqb_neq _].
      destruct (Hfail (set_policy (GetRetCodeByStatus (i32 (nHttpCode r))) r) eq_refl) as (e & He & Hans).
      { apply ret_code_failure. unfold i32. lia_div. }
      eexists _, _, _. split_and!; eauto.
    + destruct (success_run s r rs p t x m Hp Hr Ht Hm Hc Hplain Hmod) as (e & s1 & Hs1 & He & Hans). rewrite Hs1.
      eexists _, _, _. split_and!; eauto.
Qed.

Lemma wave_finish k sent lo base next r rs s es p t m :
  wave k sent lo base next (nReqSeq <$> r :: rs) (r :: rs) s -> contexts s !! p = Some r -> nReqSeq r <= 100 + sent ->
  m_mapRequest (m_pHttpClient s) !! nReqSeq r = Some p -> m_mapTaskid2Seqno (m_pHttpClient s) !! t = Some (nReqSeq r) ->
  m_pTransferManager s = Some m -> settles (nReqSeq r) es ->
  wave k sent lo base next (nReqSeq <$> rs) rs (finish_state es p (nReqSeq r) t m rs s).
Proof.
  intros Hw Hp Hle Hr Ht Hm He. pose proof Hw as [Hs Hctx Hinj Hq Hreq Htask Hdom Hage Hres Hcopy Hnd Hmgr Hids Hmods Hev].
  assert (Hother : forall q d, base.delete p (contexts s) !! q = Some d -> contexts s !! q = Some d /\ nReqSeq d <> nReqSeq r /\ q <> p).
  { intros q d [Hne Hd]%lookup_delete_Some. split_and!; [done| |congruence]. intros E. apply Hne. by apply (Hinj p q r d). }
  apply NoDup_cons in Hnd as [Hnr Hnd].
  constructor; cbn [finish_state contexts arguments m_vRequestQueue m_nReqSeq m_pHttpClient m_pTransferManager m_mapSeqNo2ModuleId events
                    m_mapRequest m_mapTaskid2Seqno m_mapSeqNo2TaskId m_lstResult].
  - done.
  - intros q d (Hd & _)%Hother. by apply (Hctx q).
  - intros q q' d d' (Hd & _)%Hother (Hd' & _)%Hother. eauto.
  - eapply queue_update; [exact Hw|done|done|]. intros q Hne. by rewrite lookup_delete_ne.
  - intros n q. rewrite lookup_delete_Some, Hreq. split.
    + intros [Hne (d & Hd & <- & Hd2)]. exists d. split; [|done]. rewrite lookup_delete_ne; [done|]. intros <-. congruence.
    + intros (d & (Hd & Hne & _)%Hother & <- & Hd2). split; [done|]. eauto.
  - intros n t'. rewrite !lookup_delete_Some, Htask. split; intros [Hne H]; (split; [|done]); intros <-; apply Hne; [congruence|].
    apply Htask in H. apply Htask in Ht. congruence.
  - intros n. destruct (decide (n = nReqSeq r)) as [->|Hne]; [by rewrite !lookup_delete_eq|by rewrite !lookup_delete_ne].
  - intros q d (Hd & Hne & _)%Hother. destruct (Hage q d Hd) as [H1 H2]. split; [done|]. rewrite H2.
    destruct (decide (nReqSeq d <= _)); [|done]. f_equal.
    destruct (decide (nReqSeq d ∈ nReqSeq <$> r :: rs)) as [Hi|Hi], (decide (nReqSeq d ∈ nReqSeq <$> rs)) as [Hj|Hj]; try done.
    + apply elem_of_cons in Hi as [|]; done.
    + destruct Hi. apply elem_of_cons. by right.
  - done.
  - intros r' Hr'. destruct (Hcopy r') as (q & Hq' & Hle' & _); [by right|]. exists q. split_and!; [|done|by apply list_elem_of_fmap_2].
    rewrite lookup_delete_ne; [done|]. intros <-. apply Hnr. assert (r' = r) as <- by congruence. by apply list_elem_of_fmap_2.
  - done.
  - destruct Hmgr as (m0 & Hm0 & Hok & Hnext & Hocc). assert (m0 = m) by congruence. subst m0. exists m. split_and!; [done..|].
    intros i. rewrite Hocc. split; intros (n & Hi & Hn).
    + exists n. split; [|intros H; apply Hn; by right]. rewrite lookup_delete_ne; [done|]. intros <-. apply Hn.
      assert (n = nReqSeq r) as -> by congruence. by left.
    + apply lookup_delete_Some in Hi as [Hne Hi]. exists n. split; [done|]. intros [->|H]%elem_of_cons; [|done].
      apply Hne. apply Htask in Hi. apply Htask in Ht. congruence.
  - intros t' n [Hne H]%lookup_delete_Some. destruct (Hids t' n H) as (g & -> & Hg & Hb). exists g. split_and!; [done|lia..|].
    intros Hn. apply Hb. intros [->|]%elem_of_cons; [|done]. apply Hne. apply Htask in H. apply Htask in Ht. congruence.
  - done.
  - intros n Hn. rewrite filter_app. destruct (decide (n = nReqSeq r)) as [->|Hne].
    + right. split; [by intros q d (_ & H & _)%Hother|]. destruct (Hev (nReqSeq r) Hn) as [[_ ->]|[H _]]; [|by destruct (H p r)].
      destruct He as [(e & -> & He1 & He2)|[-> He]]; [|by right]. rewrite filter_cons_True by done. left. by exists e.
    + assert (Hes : filter (about n) es = []).
      { destruct He as [(e & -> & He1 & He2)|[-> He]]; [|done]. by rewrite filter_cons_False by (unfold about; congruence). }
      rewrite Hes, app_nil_r.
      destruct (Hev n Hn) as [[(q & d & Hd & <-) H]|[H1 H2]]; [left|right]; (split; [|done]).
      * exists q, d. rewrite lookup_delete_ne; [done|]. intros <-. congruence.
      * intros q d (Hd & _)%Hother. by apply (H1 q).
Qed.

Lemma wave_retry k sent lo base next r rs s p t m m' :
  wave k sent lo base next (nReqSeq <$> r :: rs) (r :: rs) s -> lo <= base <= next -> next - lo < MAX_TASKQUE_SIZE ->
  contexts s !! p = Some r -> nReqSeq r <= 100 + sent ->
  m_mapTaskid2Seqno (m_pHttpClient s) !! t = Some (nReqSeq r) -> m_pTransferManager s = Some m -> nFailedTime r + 1 < 3 ->
  next_pos m = next mod MAX_TASKQUE_SIZE ->
  slots_ok m' -> next_pos m' = (next_pos m + 1) mod MAX_TASKQUE_SIZE -> occupied m' = {[next_pos m]} ∪ occupied m ->
  wave k sent lo base (next + 1) (nReqSeq <$> rs) rs
    (retry_state (set_failed (nFailedTime r + 1) r) p (nReqSeq r) t (next_pos m) m' rs s).
Proof.
  intros Hw Hlo Hwin Hp Hle Ht Hm Hf Hnp Hok' Hnext' Hocc'.
  pose proof Hw as [Hs Hctx Hinj Hq Hreq Htask Hdom Hage Hres Hcopy Hnd Hmgr Hids Hmods Hev].
  set (c' := set_failed (nFailedTime r + 1) r). assert (Kn : nReqSeq c' = nReqSeq r) by done.
  assert (Hfresh : m_mapTaskid2Seqno (m_pHttpClient s) !! next_pos m = None).
  { destruct (_ !! next_pos m) as [n|] eqn:E; [|done]. by apply (fresh_id _ _ _ _ _ _ _ _ _ _ Hw Hwin) in E. }
  apply NoDup_cons in Hnd as [Hnr Hnd].
  constructor; cbn [retry_state contexts arguments m_vRequestQueue m_nReqSeq m_pHttpClient m_pTransferManager m_mapSeqNo2ModuleId events
                    m_mapRequest m_mapTaskid2Seqno m_mapSeqNo2TaskId m_lstResult].
  - done.
  - intros q d Hd. destruct (lookup_replaced _ _ _ _ _ _ Hp Kn Hd) as (d' & Hd' & E & [(-> & -> & ->)|(_ & ->)]); [|by apply (Hctx q)].
    exact (Hctx p r Hp).
  - intros q q' d d' Hd Hd' E. destruct (lookup_replaced _ _ _ _ _ _ Hp Kn Hd) as (e & He & E1 & _).
    destruct (lookup_replaced _ _ _ _ _ _ Hp Kn Hd') as (e' & He' & E2 & _). eapply Hinj; [done|done|congruence].
  - eapply queue_update; [exact Hw|done|done|]. intros q Hne. by rewrite lookup_insert_ne.
  - by eapply requests_replaced.
  - intros n t'. rewrite !lookup_insert_Some, !lookup_delete_Some, Htask. split.
    + intros [[<- <-]|[Hne [_ H]]]; [by left|]. right. split; [intros <-; congruence|]. split; [|done].
      intros <-. congruence.
    + intros [[<- <-]|[Hne [Hne' H]]]; [by left|]. right.
      assert (nReqSeq r <> n) by (intros <-; apply Htask in H; apply Htask in Ht; congruence). done.
  - intros n. rewrite <- Hdom. destruct (decide (n = nReqSeq r)) as [->|Hne].
    + rewrite lookup_insert_eq. split; [|by eauto]. intros _. apply Htask in Ht. eauto.
    + by rewrite lookup_insert_ne, lookup_delete_ne.
  - intros q d Hd. destruct (lookup_replaced _ _ _ _ _ _ Hp Kn Hd) as (d' & Hd' & E & [(-> & -> & ->)|(Hqp & ->)]).
    + destruct (Hage p r Hp) as [H1 H2]. cbn [c' set_failed nFailedTime nReqSeq]. split; [lia|].
      rewrite decide_True in H2 |- * by done. rewrite decide_True in H2 by (by left). rewrite decide_False by done. lia.
    + destruct (Hage q d Hd') as [H1 H2]. split; [done|]. rewrite H2. destruct (decide (nReqSeq d <= _)); [|done]. f_equal.
      assert (nReqSeq d <> nReqSeq r) by (intros E'; apply Hqp; by apply (Hinj q p d r)).
      destruct (decide (nReqSeq d ∈ nReqSeq <$> r :: rs)) as [Hi|Hi], (decide (nReqSeq d ∈ nReqSeq <$> rs)) as [Hj|Hj]; try done.
      * apply elem_of_cons in Hi as [|]; done.
      * destruct Hi. apply elem_of_cons. by right.
  - done.
  - intros r' Hr'. destruct (Hcopy r') as (q & Hq' & Hle' & _); [by right|]. exists q. split_and!; [|done|by apply list_elem_of_fmap_2].
    rewrite lookup_insert_ne; [done|]. intros <-. apply Hnr. assert (r' = r) as <- by congruence. by apply list_elem_of_fmap_2.
  - done.
  - exists m'. destruct Hmgr as (m0 & Hm0 & Hok & Hnext & Hocc). assert (m0 = m) by congruence. subst m0. split_and!; [done..| |].
    + rewrite Hnext', Hnp, Zplus_mod_idemp_l. done.
    + intros i. rewrite Hocc', elem_of_union, elem_of_singleton, Hocc. split.
      * intros [->|(n & Hi & Hn)]; [exists (nReqSeq r); by rewrite lookup_insert_eq|]. exists n.
        rewrite lookup_insert_ne by congruence. rewrite lookup_delete_ne; [split; [done|]|].
        { intros H. apply Hn. by right. }
        { intros <-. apply Hn. assert (n = nReqSeq r) as -> by congruence. by left. }
      * intros (n & [[<- <-]|[Hne [Hne' Hi]%lookup_delete_Some]]%lookup_insert_Some & Hn); [by left|]. right. exists n. split; [done|].
        intros [->|H]%elem_of_cons; [|done]. apply Hne'. apply Htask in Hi. apply Htask in Ht. congruence.
  - intros t' n [[<- <-]|[_ [Hne H]%lookup_delete_Some]]%lookup_insert_Some.
    + exists next. split; [done|]. lia.
    + destruct (Hids t' n H) as (g & -> & Hg & Hb). exists g. split_and!; [done|lia..|].
      intros Hn. apply Hb. intros [->|]%elem_of_cons; [|done]. apply Htask in H, Ht. congruence.
  - done.
  - intros n Hn. by eapply events_replaced, Hev.
Qed.

Lemma responses_run k sent lo base next rs s fuel j : wave k sent lo base next (nReqSeq <$> rs) rs s ->
  lo <= base <= next -> next + Z.of_nat (List.length rs) - lo < MAX_TASKQUE_SIZE -> 0 <= j -> j + Z.of_nat (List.length rs) <= 10 ->
  (List.length rs < fuel)%nat ->
  exists s' next', get_responses ANSIToUnicode fuel j s = Ok s' /\ wave k sent lo base next' [] [] s' /\
    next <= next' <= next + Z.of_nat (List.length rs).
Proof.
  revert next rs s j. induction fuel as [|fuel IH]; intros next rs s j Hw Hlo Hwin Hj Hlen Hf; [lia|].
  cbn [get_responses]. destruct rs as [|r rs].
  - exists s, next. unfold ProcessResp, RetriveResp. rewrite (wv_results _ _ _ _ _ _ _ _ Hw).
    cbn [uOpPolicy set_policy INVALID_RESP Z.eqb]. rewrite Ok_bind. rewrite (proj2 (Z.ltb_ge 10 j)) by lia.
    unfold handle_response. cbn [uOpPolicy set_policy INVALID_RESP INVALID_SEQNO Z.eqb]. rewrite Ok_bind. split_and!; [done|done|lia|cbn; lia].
  - cbn [List.length] in *.
    destruct (result_run _ _ _ _ _ _ _ _ _ Hw ltac:(lia))
      as (p & t & m & c & s1 & s2 & Hp & Hle & Hr & Ht & Hm & Hnext & -> & Hh & Hcase).
    rewrite Ok_bind. rewrite (proj2 (Z.ltb_ge 10 j)) by lia. rewrite Hh, Ok_bind, u8_small by lia.
    destruct Hcase as [(es & He & ->)|(Hf3 & m' & -> & H1 & H2 & H3)].
    + pose proof (wave_finish _ _ _ _ _ _ _ _ es p t m Hw Hp Hle Hr Ht Hm He) as Hw'.
      destruct (IH next rs _ (j + 1) Hw') as (s' & next' & Hrun & Hw'' & Hb); [lia..|]. exists s', next'. split_and!; [done|done|lia..].
    + pose proof (wave_retry _ _ _ _ _ _ _ _ p t m m' Hw Hlo ltac:(lia) Hp Hle Ht Hm Hf3 Hnext H1 H2 H3) as Hw'.
      destruct (IH (next + 1) rs _ (j + 1) Hw') as (s' & next' & Hrun & Hw'' & Hb); [lia..|].
      exists s', next'. split_and!; [done|done|lia..].
Qed.

(** ** Requests are sent *)

Definition sent_state (c : HTTPCONTEXT) (p : positive) (q : list positive) (n new : Z) (m : T) (s : WebModule T) : WebModule T :=
  mkWeb T (<[p := c]> (contexts s)) (arguments s) q (m_nReqSeq s)
    (mkClient (<[n := p]> (m_mapRequest (m_pHttpClient s))) (<[new := n]> (m_mapTaskid2Seqno (m_pHttpClient s)))
       (<[n := new]> (m_mapSeqNo2TaskId (m_pHttpClient s))) (m_lstResult (m_pHttpClient s)))
    (Some m) (m_mapSeqNo2ModuleId s) (events s).

Lemma send_one_run s p q c m : m_vRequestQueue s = p :: q -> contexts s !! p = Some c -> plain svc c -> m_pTransferManager s = Some m ->
  slots_ok m -> next_pos m ∉ occupied m ->
  exists m', send_one s = Ok (sent_state (set_task (next_pos m) c) p q (nReqSeq c) (next_pos m) m' s) /\
    slots_ok m' /\ next_pos m' = (next_pos m + 1) mod MAX_TASKQUE_SIZE /\ occupied m' = {[next_pos m]} ∪ occupied m.
Proof.
  intros Hq Hp (_ & Harg & Hurl & _ & Hrep & _) Hm Hok Hfree.
  destruct (add_next (strURL c) (task_options c) m Hok Hurl eq_refl eq_refl Hfree) as (m' & Hadd & Hok' & Hnext & Hocc).
  exists m'. split; [|done]. unfold send_one, PopUrl. rewrite Hq. unfold ReqUrl, load_context. cbn [with_queue contexts].
  rewrite Hp, Ok_bind, bool_decide_false by done. rewrite Hrep, Ok_bind, Harg. unfold ReqURL, load_context.
  cbn [with_queue m_pTransferManager contexts]. rewrite Hm, Hp, Ok_bind. cbv zeta. unfold add_get. rewrite Hadd, Ok_bind. cbn [fst snd].
  rewrite (proj2 (Z.ltb_ge _ _)) by (pose proof (next_range m Hok); lia).
  unfold update_context, load_context. cbn. rewrite Hp. done.
Qed.

Lemma queue_others (m : gmap positive HTTPCONTEXT) p c c' q cs : m !! p = Some c -> Forall2 (fun p c => m !! p = Some c) q cs ->
  nReqSeq c ∉ nReqSeq <$> cs -> Forall2 (fun q c => <[p := c']> m !! q = Some c) q cs.
Proof.
  intros Hp HF. induction HF as [|q d qs cs Hq _ IH]; intros Hn; [constructor|]. rewrite fmap_cons, elem_of_cons in Hn. constructor; [|tauto].
  rewrite lookup_insert_ne; [done|]. intros <-. apply Hn. left. congruence.
Qed.

Lemma wave_sent k sent lo base next s p q c m m' : wave k sent lo base next [] [] s -> lo <= base <= next -> next - lo < MAX_TASKQUE_SIZE ->
  m_vRequestQueue s = p :: q -> contexts s !! p = Some c -> nReqSeq c = 101 + sent -> sent < N -> sent / 3 = k ->
  m_pTransferManager s = Some m -> next_pos m = next mod MAX_TASKQUE_SIZE ->
  slots_ok m' -> next_pos m' = (next_pos m + 1) mod MAX_TASKQUE_SIZE -> occupied m' = {[next_pos m]} ∪ occupied m ->
  wave k (sent + 1) lo base (next + 1) [] [] (sent_state (set_task (next_pos m) c) p q (nReqSeq c) (next_pos m) m' s).
Proof.
  intros Hw Hlo Hwin Hqu Hp Hn HN Hk Hm Hnp Hok' Hnext' Hocc'.
  pose proof Hw as [Hs Hctx Hinj Hq Hreq Htask Hdom Hage Hres Hcopy Hnd Hmgr Hids Hmods Hev].
  set (c' := set_task (next_pos m) c). assert (Kn : nReqSeq c' = nReqSeq c) by done.
  assert (Hfresh : m_mapTaskid2Seqno (m_pHttpClient s) !! next_pos m = None).
  { destruct (_ !! next_pos m) as [n|] eqn:E; [|done]. by apply (fresh_id _ _ _ _ _ _ _ _ _ _ Hw Hwin) in E. }
  assert (Hnew : m_mapSeqNo2TaskId (m_pHttpClient s) !! nReqSeq c = None).
  { destruct (_ !! nReqSeq c) as [t|] eqn:E; [|done]. destruct (proj1 (Hdom _) (ex_intro _ _ E)) as [q' Hq'].
    apply Hreq in Hq' as (d & _ & _ & Hle). lia. }
  constructor; cbn [sent_state contexts arguments m_vRequestQueue m_nReqSeq m_pHttpClient m_pTransferManager m_mapSeqNo2ModuleId events
                    m_mapRequest m_mapTaskid2Seqno m_mapSeqNo2TaskId m_lstResult].
  - lia.
  - intros q' d Hd. destruct (lookup_replaced _ _ _ _ _ _ Hp Kn Hd) as (d' & Hd' & E & [(-> & -> & ->)|(_ & ->)]); [|by apply (Hctx q')].
    exact (Hctx p c Hp).
  - intros q1 q2 d d' Hd Hd' E. destruct (lookup_replaced _ _ _ _ _ _ Hp Kn Hd) as (e & He & E1 & _).
    destruct (lookup_replaced _ _ _ _ _ _ Hp Kn Hd') as (e' & He' & E2 & _). eapply Hinj; [done|done|congruence].
  - destruct Hq as (cs & HF & Hseq). rewrite Hqu in HF. apply Forall2_cons_inv_l in HF as (c0 & cs' & Hc0 & HF & ->).
    rewrite seqZ_cons in Hseq by lia. rewrite fmap_cons in Hseq. injection Hseq as Hn0 Hseq. exists cs'. split.
    2:{ rewrite Hseq. f_equal; lia. }
    apply (queue_others _ _ c); [done..|]. rewrite Hseq, elem_of_seqZ. lia.
  - intros n q'. rewrite lookup_insert_Some, Hreq. destruct (decide (q' = p)) as [->|Hne].
    + rewrite lookup_insert_eq. split.
      * intros [[<- _]|[Hne (d & Hd & <- & Hle)]]; [exists c'; split_and!; [done|done|lia]|]. assert (d = c) by congruence. subst d. lia.
      * intros (d & [= <-] & <- & _). by left.
    + rewrite lookup_insert_ne by done. split.
      * intros [[_ H]|[Hne' (d & Hd & <- & Hle)]]; [done|]. exists d. split_and!; [done|done|lia].
      * intros (d & Hd & <- & Hle). right. assert (nReqSeq d <> nReqSeq c) by (intros E; apply Hne; by apply (Hinj q' p d c)).
        split; [done|]. exists d. split_and!; [done|done|lia].
  - intros n t'. rewrite !lookup_insert_Some, Htask. split.
    + intros [[<- <-]|[Hne H]]; [by left|]. right. split; [intros <-; congruence|done].
    + intros [[<- <-]|[Hne H]]; [by left|]. right. split; [|done]. intros <-. apply Htask in H. congruence.
  - intros n. destruct (decide (n = nReqSeq c)) as [->|Hne].
    + rewrite !lookup_insert_eq. split; eauto.
    + by rewrite !lookup_insert_ne.
  - intros q' d Hd. destruct (lookup_replaced _ _ _ _ _ _ Hp Kn Hd) as (d' & Hd' & E & [(-> & -> & ->)|(Hqp & ->)]).
    + destruct (Hage p c Hp) as [H1 H2]. change (nFailedTime c') with (nFailedTime c). split; [done|]. rewrite H2, Kn.
      rewrite decide_False by lia. rewrite decide_True by lia. rewrite decide_False by (intros H; by apply elem_of_nil in H).
      rewrite Hn. replace (101 + sent - 101) with sent by lia. lia.
    + destruct (Hage q' d Hd') as [H1 H2]. split; [done|]. rewrite H2.
      assert (nReqSeq d <> nReqSeq c) by (intros E'; apply Hqp; by apply (Hinj q' p d c)).
      destruct (decide (nReqSeq d <= 100 + sent)), (decide (nReqSeq d <= 100 + (sent + 1))); try done; lia.
  - done.
  - intros r Hr. by apply elem_of_nil in Hr.
  - done.
  - exists m'. destruct Hmgr as (m0 & Hm0 & Hok & Hnext & Hocc). assert (m0 = m) by congruence. subst m0. split_and!; [done..| |].
    + rewrite Hnext', Hnp, Zplus_mod_idemp_l. done.
    + intros i. rewrite Hocc', elem_of_union, elem_of_singleton, Hocc. split.
      * intros [->|(n & Hi & Hni)]; [exists (nReqSeq c); rewrite lookup_insert_eq; split; [done|apply not_elem_of_nil]|]. exists n.
        rewrite lookup_insert_ne by congruence. done.
      * intros (n & [[<- <-]|[Hne Hi]]%lookup_insert_Some & Hni); [by left|]. right. eauto.
  - intros t' n [[<- <-]|[_ H]]%lookup_insert_Some.
    + exists next. split; [done|]. lia.
    + destruct (Hids t' n H) as (g & -> & Hg & Hb). exists g. split_and!; [done|lia..|done].
  - done.
  - intros n Hn'. by eapply events_replaced, Hev.
Qed.

Lemma send_step k sent lo base next s : wave k sent lo base next [] [] s -> lo <= base <= next -> next - lo < MAX_TASKQUE_SIZE ->
  (sent = N \/ sent / 3 = k) ->
  exists s' next', send_one s = Ok s' /\ wave k (Z.min (sent + 1) N) lo base next' [] [] s' /\ next <= next' <= next + 1.
Proof.
  intros Hw Hlo Hwin Hk. pose proof (wv_sent _ _ _ _ _ _ _ _ Hw) as [Hs _]. destruct (wv_queue _ _ _ _ _ _ _ _ Hw) as (cs & HF & Hseq).
  destruct (m_vRequestQueue s) as [|p q] eqn:Eq.
  - apply Forall2_nil_inv_l in HF as ->. assert (sent = N).
    { destruct (decide (sent < N)); [|lia]. rewrite seqZ_cons in Hseq by lia. done. }
    exists s, next. unfold send_one, PopUrl. rewrite Eq. replace (Z.min (sent + 1) N) with sent by lia. split_and!; [done|done|lia..].
  - apply Forall2_cons_inv_l in HF as (c & cs' & Hc & _ & ->). rewrite fmap_cons in Hseq.
    assert (sent < N) by (destruct (decide (sent < N)); [done|]; rewrite seqZ_nil in Hseq by lia; done).
    rewrite seqZ_cons in Hseq by lia. injection Hseq as Hn _.
    destruct (wv_ctx _ _ _ _ _ _ _ _ Hw p c Hc) as [Hplain _].
    destruct (wv_mgr _ _ _ _ _ _ _ _ Hw) as (m & Hm & Hok & Hnext & Hocc).
    destruct (send_one_run s p q c m Eq Hc Hplain Hm Hok) as (m' & Hrun & H1 & H2 & H3).
    { rewrite Hocc. intros (n & Hi & _). rewrite Hnext in Hi. by apply (fresh_id _ _ _ _ _ _ _ _ _ _ Hw Hwin) in Hi. }
    eexists _, (next + 1). split; [exact Hrun|]. replace (Z.min (sent + 1) N) with (sent + 1) by lia. split; [|lia].
    apply wave_sent; try done. destruct Hk; lia.
Qed.

(** ** Rounds *)

(** The pending requests matter only as far as they were sent. *)
Lemma wave_pend k k' sent lo lo' base base' next pend pend' rs s : wave k sent lo base next pend rs s ->
  (forall p c, contexts s !! p = Some c -> nReqSeq c <= 100 + sent ->
     (if decide (nReqSeq c ∈ pend) then k - 1 else k) = (if decide (nReqSeq c ∈ pend') then k' - 1 else k')) ->
  (forall r, r ∈ rs -> nReqSeq r ∈ pend') ->
  (forall t n, m_mapTaskid2Seqno (m_pHttpClient s) !! t = Some n ->
     exists g, t = g mod MAX_TASKQUE_SIZE /\ lo' <= g < next /\ (n ∉ pend' -> base' <= g)) ->
  wave k' sent lo' base' next pend' rs s.
Proof.
  intros [] Hage Hrs Hid. constructor; try done.
  - intros p c Hc. destruct (wv_age0 p c Hc) as [H1 H2]. split; [done|]. rewrite H2.
    destruct (decide (nReqSeq c <= 100 + sent)); [|done]. f_equal. by apply (Hage p).
  - intros r Hr. destruct (wv_copy0 r Hr) as (p & Hp & Hle & _). exists p. auto.
Qed.

(** At most nine requests are under way. *)
Lemma few_results k sent lo base next pend rs s : wave k sent lo base next pend rs s -> sent <= 3 * k -> (List.length rs <= 9)%nat.
Proof.
  intros Hw Hk. rewrite <- (length_fmap nReqSeq). change 9%nat with (Z.to_nat 9). rewrite <- (length_seqZ (101 + 3 * (k - 3)) 9).
  apply submseteq_length, NoDup_submseteq; [apply Hw|]. intros n (r & -> & Hr)%list_elem_of_fmap. apply elem_of_seqZ.
  destruct (wv_copy _ _ _ _ _ _ _ _ Hw r Hr) as (p & Hp & Hle & Hin). destruct (wv_age _ _ _ _ _ _ _ _ Hw p r Hp) as [H1 H2].
  rewrite !decide_True in H2 by done. lia_div.
Qed.

Lemma sent_task k sent lo base next pend rs s p c : wave k sent lo base next pend rs s -> contexts s !! p = Some c ->
  nReqSeq c <= 100 + sent -> exists t, m_mapTaskid2Seqno (m_pHttpClient s) !! t = Some (nReqSeq c).
Proof.
  intros Hw Hc Hle. destruct (proj2 (wv_dom _ _ _ _ _ _ _ _ Hw (nReqSeq c))) as [t Ht].
  - exists p. apply (wv_req _ _ _ _ _ _ _ _ Hw). eauto.
  - exists t. by apply (wv_task _ _ _ _ _ _ _ _ Hw).
Qed.

(** [k] rounds are over. *)
Definition settled (k : Z) (s : WebModule T) : Prop :=
  exists lo base next, wave (k - 1) (Z.min (3 * k) N) lo base next [] [] s /\ lo <= base <= next /\ next - base <= 12.

Ltac turn := match goal with |- ?a = _ \/ _ => destruct (decide (a = N)); [by left|right; lia_div] end.

Lemma round_step k s (l : list (Z * Report)) : 0 <= k -> settled k s -> answers_all l s ->
  exists s', round ANSIToUnicode l s = Ok s' /\ settled (k + 1) s'.
Proof.
  intros Hk (lo & base & next & Hw & Hlo & Hwin) (Hnd & Hall & Hdata).
  set (sent := Z.min (3 * k) N) in *. set (pend := (map_to_list (m_mapSeqNo2TaskId (m_pHttpClient s))).*1).
  assert (Hpend : forall n t, m_mapTaskid2Seqno (m_pHttpClient s) !! t = Some n -> n ∈ pend).
  { intros n t Ht. apply (wv_task _ _ _ _ _ _ _ _ Hw) in Ht. apply list_elem_of_fmap. exists (n, t). split; [done|]. by apply elem_of_map_to_list. }
  assert (Hw1 : wave k sent base next next pend [] s).
  { eapply wave_pend; [exact Hw|..].
    - intros p c Hc Hle. destruct (sent_task _ _ _ _ _ _ _ _ p c Hw Hc Hle) as [t Ht]. rewrite decide_False by apply not_elem_of_nil.
      by rewrite decide_True by eauto.
    - intros r Hr. by apply elem_of_nil in Hr.
    - intros t n Ht. destruct (wv_ids _ _ _ _ _ _ _ _ Hw t n Ht) as (g & -> & Hg & Hb). exists g. split; [done|].
      specialize (Hb (not_elem_of_nil _)). split; [lia|]. intros Hn. by destruct Hn; eauto. }
  destruct (wave_answers _ _ _ _ _ _ _ _ l Hw1 Hnd) as (rs & s1 & Hrun & Hw2 & Hlen & Hmap & Hcov).
  { intros t Ht. apply Hall in Ht as [n Hn]. exists n. split_and!; [done|apply not_elem_of_nil|eauto]. }
  { done. }
  rewrite app_nil_l in Hw2.
  assert (Hw3 : wave k sent base next next (nReqSeq <$> rs) rs s1).
  { assert (Hcov' : forall t n, m_mapTaskid2Seqno (m_pHttpClient s1) !! t = Some n -> n ∈ nReqSeq <$> rs).
    { intros t n Ht. rewrite Hmap in Ht. apply (Hcov t); [|done]. apply Hall. eauto. }
    eapply wave_pend; [exact Hw2|..].
    - intros p c Hc Hle. destruct (sent_task _ _ _ _ _ _ _ _ p c Hw2 Hc Hle) as [t Ht].
      rewrite !decide_True; [done|by eapply Hcov'|]. eapply Hpend. by rewrite <- Hmap.
    - intros r Hr. by apply list_elem_of_fmap_2.
    - intros t n Ht. destruct (wv_ids _ _ _ _ _ _ _ _ Hw2 t n Ht) as (g & -> & Hg & _). exists g. split_and!; [done|lia..|].
      intros Hn. by destruct Hn; eauto. }
  pose proof (few_results _ _ _ _ _ _ _ _ Hw3 ltac:(lia)) as Hfew.
  destruct (responses_run _ _ _ _ _ _ _ 12 0 Hw3) as (s2 & n2 & Hrun2 & Hw4 & Hb2); [unfold MAX_TASKQUE_SIZE; lia..|].
  destruct (send_step _ _ _ _ _ _ Hw4) as (s3 & n3 & Hs3 & Hw5 & Hb3); [unfold MAX_TASKQUE_SIZE; lia..|turn|].
  destruct (send_step _ _ _ _ _ _ Hw5) as (s4 & n4 & Hs4 & Hw6 & Hb4); [unfold MAX_TASKQUE_SIZE; lia..|turn|].
  destruct (send_step _ _ _ _ _ _ Hw6) as (s5 & n5 & Hs5 & Hw7 & Hb5); [unfold MAX_TASKQUE_SIZE; lia..|turn|].
  exists s5. split.
  - unfold round. rewrite Hrun, Ok_bind. unfold OnMessage_CycleTrigged, ProcessGetResponse. rewrite Hrun2, Ok_bind.
    unfold ProcessSendUrl. by rewrite Hs3, Ok_bind, Hs4, Ok_bind.
  - exists base, next, n5. split; [|lia].
    replace (k + 1 - 1) with k by lia. replace (Z.min (3 * (k + 1)) N) with (Z.min (Z.min (Z.min (sent + 1) N + 1) N + 1) N) by lia. done.
Qed.

End Live.

Section Requests.
Context {T : Type} {TM : TransferManager T} {TS : TaskSlots T} {BLD : Build}.
Context (ANSIToUnicode : str -> wstring) (modof svc : Z -> Z).

(** A GET request as the services of the module make them: its data is kept until the end
    or written to a file. *)
Definition get_ok (r : Request) : Prop :=
  r_argument r = None /\ r_type r <> FRAG_BUFFER /\ r_url r <> [] /\ r_repeat r = true.

Definition make_request (s : WebModule T) (x : Z * Request) : outcome (WebModule T) :=
  y ← push_service (fst x) (snd x) s; Ok (snd y).

Lemma wave_push N (g : Z) s m r : wave N modof svc (-1) 0 g g g [] [] s -> events s = [] -> m_nReqSeq s = 100 + N ->
  101 + N < 2 ^ 32 - 1 -> get_ok r -> modof (101 + N) = m -> svc (101 + N) = r_event r ->
  exists s', make_request s (m, r) = Ok s' /\ wave (N + 1) modof svc (-1) 0 g g g [] [] s' /\ events s' = [] /\ m_nReqSeq s' = 100 + (N + 1).
Proof.
  intros Hw Hev0 Hseq Hb (Harg & Hty & Hurl & Hrep) Hmod Hsvc.
  pose proof Hw as [Hs Hctx Hinj Hq Hreq Htask Hdom Hage Hres Hcopy Hnd Hmgr Hids Hmods Hev].
  assert (Hp : contexts s !! fresh (dom (contexts s)) = None) by apply not_elem_of_dom, is_fresh.
  unfold make_request, push_service, PushUrl. cbn [fst snd]. rewrite Harg, Ok_bind. rewrite Hseq, u32_small by lia.
  replace (100 + N + 1) with (101 + N) by lia. rewrite !Ok_bind. unfold INVALID_SEQNO. rewrite (proj2 (Z.eqb_neq (101 + N) 0)) by lia.
  cbn [snd]. set (p := fresh (dom (contexts s))) in *.
  eexists. split; [reflexivity|]. cbn [events with_modules with_queue with_contexts m_nReqSeq]. split; [|split; [done|lia]].
  set (c := mkHTTPCONTEXT _ _ _ _ _ _ _ _ _ _ _ _ _ _ _ _ _ _ _ _ _ _ _).
  assert (Kn : nReqSeq c = 101 + N) by done.
  assert (Hcase : forall q d, <[p := c]> (contexts s) !! q = Some d -> (q = p /\ d = c) \/ (q <> p /\ contexts s !! q = Some d)).
  { intros q d [[<- <-]|[Hne Hd]]%lookup_insert_Some; [by left|right]. split; [congruence|done]. }
  constructor; cbn [with_modules with_queue with_contexts contexts arguments m_vRequestQueue m_nReqSeq m_pHttpClient m_pTransferManager
                    m_mapSeqNo2ModuleId events].
  - lia.
  - intros q d [[-> ->]|[_ Hd]]%Hcase; [split; [split_and!; done|lia]|]. destruct (Hctx q d Hd). split; [done|lia].
  - intros q q' d d' [[-> ->]|[_ Hd]]%Hcase [[-> ->]|[_ Hd']]%Hcase E; [done|..|by eapply Hinj].
    + destruct (Hctx q' d' Hd'). lia.
    + destruct (Hctx q d Hd). lia.
  - destruct Hq as (cs & HF & Hcs). exists (cs ++ [c]). split.
    + apply Forall2_app; [|constructor; [apply lookup_insert_eq|constructor]].
      eapply Forall2_impl; [exact HF|]. intros q d Hd. rewrite lookup_insert_ne; [done|]. intros <-. congruence.
    + rewrite fmap_app, Hcs. replace (N + 1 - 0) with (N - 0 + 1) by lia. rewrite seqZ_app by lia. f_equal.
      rewrite seqZ_cons, seqZ_nil by lia. change (nReqSeq <$> [c]) with [101 + N]. f_equal. lia.
  - intros n q. rewrite Hreq. split; intros (d & Hd & <- & Hle).
    + destruct (Hctx q d Hd). lia.
    + apply Hcase in Hd as [[-> ->]|[_ Hd]]; [rewrite Kn in Hle; lia|]. eauto.
  - done.
  - done.
  - intros q d [[-> ->]|[_ Hd]]%Hcase; [|by apply (Hage q)]. split; [done|]. rewrite Kn. by rewrite decide_False by lia.
  - done.
  - intros r' Hr'. by apply elem_of_nil in Hr'.
  - done.
  - done.
  - done.
  - intros n Hn. destruct (decide (n = 101 + N)) as [->|Hne]; [rewrite lookup_insert_eq; by rewrite Hmod|].
    rewrite lookup_insert_ne by congruence. apply Hmods. lia.
  - intros n Hn. left. rewrite Hev0. split; [|done]. destruct (decide (n = 101 + N)) as [->|Hne].
    + exists p, c. by rewrite lookup_insert_eq.
    + destruct Hq as (cs & HF & Hcs). assert (Hin : n ∈ nReqSeq <$> cs) by (rewrite Hcs; apply elem_of_seqZ; lia).
      apply list_elem_of_fmap in Hin as (d & -> & [i Hi]%list_elem_of_lookup).
      destruct (Forall2_lookup_r _ _ _ _ _ HF Hi) as (q & _ & Hd). exists q, d. rewrite lookup_insert_ne; [done|]. intros <-. congruence.
Qed.

Lemma make_requests_run N g s rs : wave N modof svc (-1) 0 g g g [] [] s -> events s = [] -> m_nReqSeq s = 100 + N ->
  100 + N + Z.of_nat (List.length rs) < 2 ^ 32 - 1 -> Forall (fun x => get_ok (snd x)) rs ->
  (forall i x, rs !! i = Some x -> modof (101 + N + Z.of_nat i) = fst x /\ svc (101 + N + Z.of_nat i) = r_event (snd x)) ->
  exists s', for_each make_request s rs = Ok s' /\ wave (N + Z.of_nat (List.length rs)) modof svc (-1) 0 g g g [] [] s'.
Proof.
  revert N s. induction rs as [|[m r] rs IH]; intros N s Hw Hev Hseq Hb Hall Hmod; cbn [for_each List.length] in *.
  - exists s. split; [done|]. by rewrite Z.add_0_r.
  - apply Forall_cons in Hall as [Hr Hall]. cbn [snd] in Hr.
    destruct (Hmod 0%nat (m, r) eq_refl) as [Hm0 Hs0]. rewrite Z.add_0_r in Hm0, Hs0.
    destruct (wave_push N g s m r Hw Hev Hseq ltac:(lia) Hr Hm0 Hs0) as (s1 & -> & Hw1 & Hev1 & Hseq1).
    rewrite Ok_bind. destruct (IH (N + 1) s1 Hw1 Hev1 Hseq1 ltac:(lia) Hall) as (s' & Hrun & Hw').
    + intros i x Hx. destruct (Hmod (S i) x Hx) as [Hm1 Hs1]. replace (101 + (N + 1) + Z.of_nat i) with (101 + N + Z.of_nat (S i)) by lia. done.
    + exists s'. split; [done|]. by replace (N + Z.of_nat (S (List.length rs))) with (N + 1 + Z.of_nat (List.length rs)) by lia.
Qed.

Lemma wave_new t : slots_ok t -> occupied t = ∅ ->
  wave 0 modof svc (-1) 0 (next_pos t) (next_pos t) (next_pos t) [] [] (WebModule_new (Some t)).
Proof.
  intros Hok Hocc. constructor; cbn; try done; try (intros; lia).
  - exists []. split; [constructor|done].
  - intros n p. split; [done|]. by intros (c & Hc & _).
  - intros n. by rewrite !lookup_empty.
  - intros r Hr. by apply elem_of_nil in Hr.
  - constructor.
  - exists t. split_and!; [done..| |].
    + pose proof (next_range t Hok). by rewrite Z.mod_small.
    + intros i. rewrite Hocc. split; [set_solver|]. by intros (n & Hn & _).
Qed.

Lemma rounds_run N k n s env : 0 <= k -> settled N modof svc k s -> (forall i s, answers_all (env i s) s) -> forall i0,
  exists s', for_each (fun s i => round ANSIToUnicode (env i s) s) s (seq i0 n) = Ok s' /\ settled N modof svc (k + Z.of_nat n) s'.
Proof.
  intros Hk Hs Henv. revert k s Hk Hs. induction n as [|n IH]; intros k s Hk Hs i0; cbn [seq for_each].
  - exists s. split; [done|]. by rewrite Z.add_0_r.
  - destruct (round_step ANSIToUnicode N modof svc k s (env i0 s) Hk Hs (Henv i0 s)) as (s1 & -> & Hs1). rewrite Ok_bind.
    destruct (IH (k + 1) s1 ltac:(lia) Hs1 (S i0)) as (s' & Hrun & Hs'). exists s'. split; [done|].
    by replace (k + Z.of_nat (S n)) with (k + 1 + Z.of_nat n) by lia.
Qed.

(** After enough rounds nothing is under way. *)
Lemma settled_done N k s : settled N modof svc k s -> N + 9 <= 3 * k -> 0 <= N ->
  m_vRequestQueue s = [] /\ contexts s = ∅ /\ m_mapRequest (m_pHttpClient s) = ∅ /\ m_mapTaskid2Seqno (m_pHttpClient s) = ∅ /\
  forall n, 101 <= n <= 100 + N -> settles modof svc n (filter (about n) (events s)).
Proof.
  intros (lo & base & next & Hw & _) Hk HN. replace (Z.min (3 * k) N) with N in Hw by lia. pose proof Hw as [].
  assert (Hc : contexts s = ∅).
  { apply map_empty. intros p. destruct (contexts s !! p) as [c|] eqn:Hp; [|done]. exfalso.
    destruct (wv_ctx0 p c Hp) as [_ Hn], (wv_age0 p c Hp) as [H1 H2]. rewrite decide_True in H2 by lia.
    rewrite decide_False in H2 by apply not_elem_of_nil. lia_div. }
  assert (Hr : m_mapRequest (m_pHttpClient s) = ∅).
  { apply map_empty. intros n. destruct (_ !! n) as [p|] eqn:Hp; [|done]. apply wv_req0 in Hp as (c & Hcp & _). by rewrite Hc in Hcp. }
  split_and!; [|done|done| |].
  - destruct wv_queue0 as (cs & HF & Hcs). rewrite seqZ_nil in Hcs by lia. apply fmap_nil_inv in Hcs as ->. by apply Forall2_nil_inv_r in HF.
  - apply map_empty. intros t. destruct (_ !! t) as [n|] eqn:Ht; [|done]. apply wv_task0 in Ht.
    destruct (proj1 (wv_dom0 n) (ex_intro _ _ Ht)) as [p Hp]. by rewrite Hr in Hp.
  - intros n Hn. destruct (wv_events0 n Hn) as [[(p & c & Hcp & _) _]|[_ H]]; [by rewrite Hc in Hcp|done].
Qed.

End Requests.

(** Who made request [n], and for which service. *)
Definition requester (rs : list (Z * Request)) (n : Z) : Z := from_option fst 0 (rs !! Z.to_nat (n - 101)).
Definition requested (rs : list (Z * Request)) (n : Z) : Z := from_option (fun x => r_event (snd x)) 0 (rs !! Z.to_nat (n - 101)).

(** C3: Every GET request comes to its end.  The services made [n] of them, with URLs, and the
    transfer library was idle: whatever the worker answers to each task and in whatever
    order, with any progress before, the [n] requests are done after [n / 3 + 3]
    rounds (of answers and a cycle message), for data in memory and for files whose
    writing succeeds.  A request of a service that is answered (an icon, the update
    configuration, an update file) gets exactly one event, sent to the module that made
    it; a request of another service gets such an event or none.  Then nothing is queued,
    under way or allocated. *)
Theorem every_request_answered {T} {TM : TransferManager T} {TS : TaskSlots T} {BLD : Build} ANSIToUnicode (t : T)
    (rs : list (Z * Request)) (env : nat -> WebModule T -> list (Z * Report)) (rounds : nat) :
  slots_ok t -> occupied t = ∅ -> Forall (fun x => get_ok (snd x)) rs -> Z.of_nat (List.length rs) < 2 ^ 32 - 101 ->
  (forall i s, answers_all (env i s) s) -> (List.length rs + 9 <= 3 * rounds)%nat ->
  exists s, (s ← for_each make_request (WebModule_new (Some t)) rs;
             for_each (fun s i => round ANSIToUnicode (env i s) s) s (seq 0 rounds)) = Ok s /\
    m_vRequestQueue s = [] /\ contexts s = ∅ /\ m_mapRequest (m_pHttpClient s) = ∅ /\ m_mapTaskid2Seqno (m_pHttpClient s) = ∅ /\
    forall i m r, rs !! i = Some (m, r) ->
      (exists e, filter (about (101 + Z.of_nat i)) (events s) = [e] /\ we_desMId e = m) \/
      (filter (about (101 + Z.of_nat i)) (events s) = [] /\ answering (r_event r) = false).
Proof.
  intros Hok Hocc Hall Hlen Henv Hrounds. set (N := Z.of_nat (List.length rs)) in *.
  destruct (make_requests_run (requester rs) (requested rs) 0 (next_pos t) _ rs (wave_new _ _ t Hok Hocc) eq_refl eq_refl ltac:(lia) Hall)
    as (s0 & Hrun0 & Hw).
  { intros i x Hx. unfold requester, requested. replace (Z.to_nat (101 + 0 + Z.of_nat i - 101)) with i by lia. by rewrite Hx. }
  rewrite Z.add_0_l in Hw. fold N in Hw.
  destruct (rounds_run ANSIToUnicode (requester rs) (requested rs) N 0 rounds s0 env ltac:(lia)) with (i0 := 0%nat) as (s & Hrun & Hs); [|done|].
  { exists (next_pos t), (next_pos t), (next_pos t). replace (Z.min (3 * 0) N) with 0 by lia. split; [done|lia]. }
  exists s. rewrite Hrun0, Ok_bind, Hrun. split; [done|].
  destruct (settled_done (requester rs) (requested rs) N _ s Hs ltac:(lia) ltac:(lia)) as (H1 & H2 & H3 & H4 & H5). split_and!; [done..|].
  intros i m r Hi. pose proof (lookup_lt_Some _ _ _ Hi). specialize (H5 (101 + Z.of_nat i) ltac:(lia)).
  unfold settles, requester, requested in H5. replace (Z.to_nat (101 + Z.of_nat i - 101)) with i in H5 by lia. rewrite Hi in H5.
  destruct H5 as [(e & He & _ & Hm)|H5]; [left; by exists e|by right].
Qed.

(** ** Concrete runs *)

(** Tasks at even positions fail, the others succeed. *)
Definition sample_answer (t : Z) : Z * Report :=
  (t, mkReport [(mkTaskInfo TASK_DOWNLOAD 3 1 1 0 0 200 0 (Some (lit "a")), 7)]
        (if Z.even t then Failed (mkTaskInfo TASK_DOWNLOAD 0 0 0 0 13 0 0 (Some []))
         else Finished (mkTaskInfo TASK_DOWNLOAD 3 3 1 0 0 200 0 (Some (lit "abc"))))).

Definition answer_all {T} (_ : nat) (s : WebModule T) : list (Z * Report) :=
  sample_answer <$> (map_to_list (m_mapTaskid2Seqno (m_pHttpClient s))).*1.

Lemma answer_all_ok {T} i (s : WebModule T) : answers_all (answer_all i s) s.
Proof.
  unfold answer_all. split_and!.
  - rewrite <- list_fmap_compose. change (fst ∘ sample_answer) with (@id Z). rewrite list_fmap_id. apply NoDup_fst_map_to_list.
  - intros t. rewrite <- list_fmap_compose. change (fst ∘ sample_answer) with (@id Z). rewrite list_fmap_id, list_elem_of_fmap. split.
    + intros ([t' n] & -> & H). apply elem_of_map_to_list in H. eauto.
    + intros [n Hn]. exists (t, n). split; [done|]. by apply elem_of_map_to_list.
  - intros t x (t' & E & _)%list_elem_of_fmap. unfold sample_answer in E. injection E as -> ->. split; [by repeat constructor|].
    cbn. intros i'. destruct (Z.even t'); [done|]. by intros [= <-].
Qed.

Definition icon_request (url : string) : Request := mkRequest (SERVICE_VALUE_WEB GET_FAVICON) 0 (lit url) None ONCE_BUFFER [] 30 true.

Definition sample_requests : list (Z * Request) :=
  [(3, icon_request "http://a/"); (5, icon_request "http://b/");
   (3, mkRequest (SERVICE_VALUE_WEB DOWNLOAD_UPDATE_FILE) 0 (lit "http://c/") None ONCE_FILE (lit "c") 30 true); (4, icon_request "http://d/")].

Definition live_build : Build := true.

Definition live_ops : TransferManager TranferManager := TranferManager_ops (fun _ => None).

Definition live_slots : @TaskSlots TranferManager live_ops := TranferManager_slots (fun _ => None).

Lemma every_request_answered_witness :
  exists s, (s ← for_each (make_request (T := TranferManager)) (WebModule_new (Some (snd (start TranferManager_new)))) sample_requests;
             for_each (fun s i => round (TM := live_ops) (TS := live_slots) (BLD := live_build) id (answer_all i s) s) s (seq 0 5)) = Ok s /\
    map we_desMId (events s) = [5; 4; 3; 3] /\
    exists e, filter (about (101 + Z.of_nat 3)) (events s) = [e] /\ we_desMId e = 4.
Proof.
  destruct (every_request_answered (TM := live_ops) (TS := live_slots) (BLD := live_build) id (snd (start TranferManager_new)) sample_requests answer_all 5)
    as (s & Hrun & _ & _ & _ & _ & Hans).
  - split; [done|]. eexists. split; [done|]. split; [|done]. vm_compute. congruence.
  - done.
  - repeat constructor; done.
  - reflexivity.
  - intros i s. apply answer_all_ok.
  - cbn. lia.
  - exists s. split; [exact Hrun|]. split; [|destruct (Hans 3%nat 4 (icon_request "http://d/") eq_refl) as [He|[_ He]]; [exact He|discriminate]].
    vm_compute in Hrun. injection Hrun as <-. reflexivity.
Defined.

(** When more than eleven results wait for one cycle, the twelfth is taken out of
    the list and dropped: a request that failed for good is then never answered,
    and its context stays allocated. *)
Example twelfth_result_lost :
  exists s, (s ← for_each (make_request (T := TranferManager)) (WebModule_new (Some (snd (start TranferManager_new))))
                  (replicate 12 (3, icon_request "http://a/"));
             s ← for_each (fun s _ => OnMessage_CycleTrigged (TM := live_ops) (BLD := live_build) id s) s (seq 0 4);
             s ← for_each (answer_task (TM := live_ops) (TS := live_slots) (BLD := live_build)) s
                   (map (fun t => (t, mkReport [] (Failed (mkTaskInfo TASK_DOWNLOAD 0 0 0 0 ERR_TASK_WRITE_FILE_ERROR 0 0 (Some []))))) (seqZ 0 12));
             OnMessage_CycleTrigged (TM := live_ops) (BLD := live_build) id s) = Ok s /\
    map we_param2 (events s) = seqZ 101 11 /\ m_lstResult (m_pHttpClient s) = [] /\
    map fst (map_to_list (m_mapRequest (m_pHttpClient s))) = [112].
Proof. eexists. split; [vm_compute; reflexivity|]. repeat split. Qed.
